(* ===== verification/_CoqProject ===== *)
-Q . S2P
Prelude.v
CString.v
Shell.v
Dlist.v
Stdio.v
StdioFacts.v
Term.v
Tprintf.v
Console.v
Plane.v
Cpu.v
Pic.v
Time.v
Sched.v
Ring.v
Interrupt.v
Userlib.v
Schedule.v
RoundRobin.v
Sync.v
Interleave.v
Dining.v
TestThreads.v
Mbox.v
Flow.v
Keyboard.v
UsbKeyboard.v
Alloc.v
HeapRoom.v
Pci.v
Paging.v
Frames.v
Vmem.v
VmemFacts.v
PageFault.v
Evict.v
VmemInstances.v
VmemSetup.v
Process.v
Loader.v
Usb.v
Hid.v
Hub.v
Uhci.v
UhciSched.v
UhciXfer.v
UhciInit.v
Scsi.v
UsbStart.v
Start.v
ScsiFacts.v
Storage.v
Image.v
ImageFacts.v
Boot.v
