(* ===== verification/Prelude.v ===== *)
(** * A verification of the Micro OS kernel

    The repository is a small x86 operating system: a kernel with preemptive
    threads and processes, demand paged virtual memory that swaps to a USB
    stick, mailboxes, a keyboard driver and a USB storage stack; a C library; a
    terminal; and [createimage], which builds the disk the boot loader reads.
    This library models that code and proves what it does.

    ** How the program fits together

    [createimage] lays out boot block, kernel, process directory and programs on
    a disk.  The kernel sets up descriptor tables, interrupt controllers and
    memory, and creates threads; [readdir] and [loadproc] find programs in the
    directory and start them with an address space of their own.  A program
    touches a page, the processor faults, and [page_fault_handler] finds a frame,
    evicting another page if none is free, and reads the page through the SCSI
    driver.  Threads wait on locks, condition variables, semaphores and
    mailboxes, whose queues are the queues of control blocks that the scheduler
    works on.  Interrupts reach handlers through the entry code, which counts
    nesting and masks lines; programs call the kernel through one interrupt.

    ** Files

    - [Prelude] (this file): machine integers, the outcome of kernel code and
      its state monad, tactics and shared lemmas.
    - [CString]: [lib/libc/string_core.c], [ctype_core.c], [stdlib_core.c],
      [netinet/in_core.c], [lib/util/util.c], on a memory of bytes.
    - [Stdio], [StdioFacts]: [lib/libc/stdio_core.c], formatted output.
    - [Term], [Tprintf]: [lib/ansi_term], the terminal and printing on it.
    - [Console]: [kernel/lib/printk.c], the serial port and the keyboard lights
      of [kernel/hardware], and the layout of the screen; [Plane]:
      [process/process1.c].
    - [Cpu]: descriptors of [kernel/hardware/cpu_x86.h], [kernel/cpu.c], the
      interrupt table of [kernel/interrupt.c].
    - [Pic], [Time]: [kernel/hardware/intctl_8259.c], [pit_8235.c],
      [kernel/time.c].
    - [Sched]: [kernel/pcb.c] (queues and allocation), [kernel/scheduler.c],
      [scheduler_asm.S], [sleep.c]; [Ring], [Schedule] and [RoundRobin] prove
      what its rings and its loop do.
    - [Interrupt]: [kernel/interrupt_asm.S], [kernel/syscall.c],
      [syscall_asm.S]; [Userlib]: the system call library [lib/syslib/syslib.c] on
      top of it, the delays of [lib/util/util.c], and [process/process2.c].
    - [Sync]: [kernel/sync.c] run by one thread at a time; [Interleave]: its
      lock and barrier as step relations over all interleavings.
    - [Dining]: the semaphore of [sync.c] as a step relation, and
      [kernel/philosophers.c] on top of it; [TestThreads]: [barrier_test.c] and
      [th2.c] on top of [Interleave].
    - [Mbox], [Keyboard]: [kernel/mbox.c], [kernel/keyboard.c].
    - [Flow]: [process/process3.c] and [process4.c], which take turns on three
      mailboxes of [Mbox], interleaved, with the waiting of [condition_wait] in the
      two steps it has; [Shell]: [process/shell.c].
    - [Alloc]: [kernel/usb/allocator.c].
    - [Paging], [Frames], [Vmem], [VmemFacts], [PageFault], [Evict],
      [VmemInstances], [VmemSetup]: [kernel/memory.c], from page table entries to
      the page fault handler and the address spaces.
    - [Process]: process creation and [readdir], [loadproc] of [kernel/pcb.c];
      [Loader]: the loader and clock threads of [kernel/th1.c].
    - [Dlist]: the list macros of [kernel/usb/list.h] on a memory of nodes.
    - [HeapRoom]: how much room a heap needs for the allocations of the drivers.
    - [Pci]: [kernel/usb/pci.c] and [ehci_pci.c].
    - [Usb], [Hub]: [kernel/usb/usb.c], [usb_hub.c].
    - [Hid], [UsbKeyboard]: [kernel/usb/usb_hid.c], [usb_keyboard.c].
    - [Uhci]: [kernel/usb/uhci.c] and [uhci_pci.c]; [UhciSched] proves what its
      schedule is, [UhciXfer] what a transfer does, [UhciInit] what
      initialisation and interrupts do.
    - [Scsi], [ScsiFacts], [Storage]: [kernel/usb/usb_msd.c],
      [kernel/usb/scsi.c].
    - [UsbStart]: [usb_static_init] of [kernel/usb/usb.c], which runs the
      initialisers of all these drivers on one heap.
    - [Start]: [kernel/kernel.c], which puts the states of the kernel's
      components together.
    - [Image], [ImageFacts], [Boot]: [createimage.c], and the disk it builds as
      the kernel sees it.

    ** The model

    C integers are [Z] with their wrap-around written out ([u32], [s32], ...).
    A function is a definition in the monad [M] over an explicit state: the
    control blocks with the critical section count ([kst]), the machine of the
    memory manager ([mm]), the heap ([hst]), the driver states.  A pointer to a
    control block is a number, 0 the null pointer, which the kernel can read and
    write since page 0 is mapped.  An outcome is a return, a failed assertion
    ([Halt]), a wait for a lock ([Wait]), an access outside every object
    ([Stuck]) or an exhausted loop bound ([Fuel]); a theorem about a result
    always includes that the code returns.

    Loops that do not recurse on data take fuel.  The bounds: 128 control blocks
    and one more round for the loops over queues, 130 more than the longest
    field for formatted output, the number of chunks for the heap, and where the
    loop waits for hardware the number of polls is a parameter of the theorem.

    What is not in the repository, or is hardware, is an interface: [BlockDevice]
    and [BlockDeviceLaws] (a disk for the memory manager, with [ideal_disk] and
    the USB driver as instances), [HostController] and [BulkOnlyDrive] (a USB
    controller, and a stick behind it), [Ports] and [PicPair] (port I/O, two
    interrupt controller chips), [Kernel] and [Commands] (the system calls of the
    shell and of the plane), [ConfigPorts] and [HostBridge] (port I/O of
    three widths, a PCI configuration space behind two ports), [MemoryIO] and
    [UsbHardware] (registers in memory; what other ports do not do to that
    space), [Mailboxes] (what the two message processes call, with the mailboxes
    of [mbox.c] and queues of messages as instances), [HubOps] (the
    functions a controller gives its root hub; [UhciInit] has those of the UHCI
    driver), [InterruptHost] (a controller that polls interrupt pipes), the time
    stamp counter [rdtsc], the ports of the timer, the files that [fopen] finds,
    what other threads do while one sleeps or yields ([fair] in [UhciXfer] is
    what a transfer relies on: the rules of pools and schedule are kept and the
    controller serves the transfer).  Every hypothesis of this kind has a
    concrete instance.

    ** What is proved

    - Start: [kernel_main] takes the loaded machine to the dispatch of its first
      thread, with every component set up, the USB system included; the loader
      thread then starts the first program of the directory as a process.
    - Virtual memory: a page fault maps the faulting page to a frame with
      exactly the sectors of the page, whose numbers [page_sector] gives without
      the code's formula; eviction writes a dirty page back, and loading it again
      restores its contents while memory is full, and the bytes reach the USB
      stick when that is the disk; the kernel area is mapped to itself in every address space and
      user code reaches only the screen of it.
    - Threads: the rings implement lists, the scheduler takes the next ready
      thread, and no ready thread starves, whether threads yield, are preempted
      by the timer interrupt or come out of a wait; the lock excludes, the barrier
      separates rounds and a semaphore admits as many threads as it was set to,
      under all interleavings; philosophers eat alone, and the barrier and the
      lock test pass.
    - User programs: the two processes that take turns transfer every message
      unchanged, and nothing but a lost signal stops them; the shell hands the words of a typed line to its
      commands, and [load] starts the program of the entry that was named.
    - Interrupts: every vector reaches the handler that its number calls for;
      entry code is balanced; a system call runs exactly the function of its
      number, and each function of the user library, [exit] included, is the
      kernel function of the same name.
    - Mailboxes are bounded queues of messages; the keyboard driver follows an
      abstract keyboard.
    - The disk that [createimage] builds is what [readdir] and [loadproc]
      find on it; a program's image is its executable loadable segments.
    - The heap keeps its boundary tags, the storage driver reads and writes
      sectors of a drive that follows the standards, descriptors are found.
    - USB: the queue heads of the UHCI driver form one list of transfers per
      queue, which the controller walks once and leaves; a transfer is split into
      packets, completes, leaves its queue and gives back what it took;
      initialisation leaves such a schedule, the registers and a root hub in six
      blocks of the heap; interrupt pipes are served in
      order; the PCI scan finds the functions that there are; ports of hubs are
      scanned; a keyboard that is attached and removed leaves the heap as it was,
      and its driver is a US keyboard on all but the keys that [ordinary] excludes,
      where it is shown to differ.
    - The library: formatted output renders its arguments by the rules of
      [printf], which [StdioFacts] states apart from the code, and stays in its
      buffer; the terminal stays in its window, and the displays of the
      screen layout do not disturb each other until a dump makes the kernel log
      grow; a kernel message goes to the screen
      and the serial port; [bcopy] is [memmove].
    - Errors: lost wake-ups of lock, barrier, condition variable and semaphore,
      which can put all philosophers or both message processes to sleep, a self-deadlock of [scsi_init], pages that are not
      cleared, a line with more words than [argv] has room for, and other
      behaviour that differs from what comments promise.

    ** What is not modelled

    The boot loader and the start code are assembly over the BIOS; the functions
    that print tables (control blocks, frames, mailboxes, exceptions) only write
    to the screen; floating point output needs the arithmetic of the x87 unit; the
    unit tests are left out.  There is no translation lookaside buffer, so that
    [invalidate_page] does nothing, and the memory of the message processes in
    [Flow] is not paged.  Registers and
    stacks of a context switch are left out; what it does to control blocks and
    the interrupt state is modelled.  The USB core is proved against the
    interface [HostController]; that the UHCI driver, whose state is another
    one, is an instance of it is not shown. *)

From Stdlib Require Export ZArith Lia.
From stdpp Require Export base tactics list gmap numbers.

#[global] Open Scope Z_scope.

(** ** Machine integers

    A C integer of width [w] is a [Z]; the width shows in the wrap-around
    that the C conversion performs.  [u32]/[u16]/[u8] are the conversions to
    [uint32_t], [uint16_t] and [uint8_t]; [s32] and [s8] the conversions to
    [int] and (on this target, signed) [char]. *)

Definition u32 (x : Z) : Z := x mod 2 ^ 32.
Definition u16 (x : Z) : Z := x mod 2 ^ 16.
Definition u8 (x : Z) : Z := x mod 2 ^ 8.
Definition s32 (x : Z) : Z := (x + 2 ^ 31) mod 2 ^ 32 - 2 ^ 31.
Definition s8 (x : Z) : Z := (x + 2 ^ 7) mod 2 ^ 8 - 2 ^ 7.

(** A C condition: zero is false. *)
Definition truth (x : Z) : bool := negb (x =? 0).

(** ** Outcomes of kernel code

    [Ret a] is a normal return.  [Halt] is [abortk()], reached directly or
    through a failed [assertk]/[assertf]: the machine stops.  [Wait] says that
    the calling thread went to sleep on a lock that is held.  [Stuck] is an
    access outside every modelled object.  [Fuel] is the exhaustion of a loop
    bound of the model; the theorems show bounds for which it does not
    happen. *)

Inductive outcome (A : Type) : Type :=
| Ret (a : A)
| Halt
| Wait
| Stuck
| Fuel.
Arguments Ret {A} a.
Arguments Halt {A}.
Arguments Wait {A}.
Arguments Stuck {A}.
Arguments Fuel {A}.

(** State-passing computations over a global state [S]. *)
Definition M (S A : Type) : Type := S -> outcome (A * S).

Definition ret {S A} (a : A) : M S A := fun s => Ret (a, s).

Definition bind {S A B} (m : M S A) (k : A -> M S B) : M S B :=
  fun s =>
    match m s with
    | Ret (a, s') => k a s'
    | Halt => Halt
    | Wait => Wait
    | Stuck => Stuck
    | Fuel => Fuel
    end.

Declare Scope kernel_scope.
Delimit Scope kernel_scope with kernel.
#[global] Open Scope kernel_scope.

Notation "x <-- m ;; k" := (bind m (fun x => k))
  (at level 100, m at next level, right associativity) : kernel_scope.
Notation "m ;;; k" := (bind m (fun _ => k))
  (at level 100, right associativity) : kernel_scope.

Definition get {S} : M S S := fun s => Ret (s, s).
Definition gets {S A} (f : S -> A) : M S A := fun s => Ret (f s, s).
Definition modify {S} (f : S -> S) : M S unit := fun s => Ret (tt, f s).
Definition halt {S A} : M S A := fun _ => Halt.
Definition wait {S A} : M S A := fun _ => Wait.
Definition stuck {S A} : M S A := fun _ => Stuck.
Definition out_of_fuel {S A} : M S A := fun _ => Fuel.

(** [if (c) m;] *)
Definition when {S} (c : bool) (m : M S unit) : M S unit :=
  if c then m else ret tt.

(** [assertk(c)] and [assertf(c, ...)] *)
Definition assertk {S} (c : bool) : M S unit :=
  if c then ret tt else halt.

(** [for (i = lo; n iterations; i += step) body(i)] *)
Fixpoint for_up {S} (n : nat) (lo step : Z) (body : Z -> M S unit) : M S unit :=
  match n with
  | O => ret tt
  | S n' => body lo ;;; for_up n' (lo + step) step body
  end.

(** Running an operation of a component on the part of a larger state that
    belongs to the component. *)
Definition zoom {S T A} (prj : T -> S) (upd : S -> T -> T) (m : M S A) : M T A :=
  fun t =>
    match m (prj t) with
    | Ret (a, s) => Ret (a, upd s t)
    | Halt => Halt
    | Wait => Wait
    | Stuck => Stuck
    | Fuel => Fuel
    end.

(** ** Equations of the monad, used for symbolic execution *)

Create Rewrite HintDb kmonad.

Lemma bind_ret {S A B} (a : A) (k : A -> M S B) s : bind (ret a) k s = k a s.
Proof. reflexivity. Qed.

Lemma bind_assoc {S A B C} (m : M S A) (f : A -> M S B) (g : B -> M S C) s :
  bind (bind m f) g s = bind m (fun a => bind (f a) g) s.
Proof. unfold bind. by destruct (m s) as [[a s']| | | |]. Qed.

Lemma bind_step {S A B} (m : M S A) (k : A -> M S B) s a s' :
  m s = Ret (a, s') -> bind m k s = k a s'.
Proof. unfold bind. by intros ->. Qed.

Lemma bind_ret_r {S A} (m : M S A) s : bind m ret s = m s.
Proof. unfold bind. by destruct (m s) as [[a s']| | | |]. Qed.

Lemma bind_get {S A} (k : S -> M S A) s : bind get k s = k s s.
Proof. reflexivity. Qed.

Lemma bind_gets {S A B} (f : S -> A) (k : A -> M S B) s :
  bind (gets f) k s = k (f s) s.
Proof. reflexivity. Qed.

Lemma bind_modify {S A} (f : S -> S) (k : unit -> M S A) s :
  bind (modify f) k s = k tt (f s).
Proof. reflexivity. Qed.

Lemma bind_assertk_true {S A} (c : bool) (k : unit -> M S A) s :
  c = true -> bind (assertk c) k s = k tt s.
Proof. by intros ->. Qed.

Lemma bind_assertk_false {S A} (c : bool) (k : unit -> M S A) s :
  c = false -> bind (assertk c) k s = Halt.
Proof. by intros ->. Qed.

#[export] Hint Rewrite @bind_ret @bind_assoc @bind_get @bind_gets @bind_modify : kmonad.

(** One symbolic execution step: expose the next primitive and run it. *)
Ltac kstep := autorewrite with kmonad; cbn [ret get gets modify when assertk halt].

(** Loop rule: an invariant indexed by the loop counter. *)
Lemma for_up_rule {S} (I : Z -> S -> Prop) (body : Z -> M S unit) (step : Z) n lo s :
  I lo s ->
  (forall k s, 0 <= k < Z.of_nat n -> I (lo + k * step) s ->
     exists s', body (lo + k * step) s = Ret (tt, s') /\ I (lo + (k + 1) * step) s') ->
  exists s', for_up n lo step body s = Ret (tt, s') /\ I (lo + Z.of_nat n * step) s'.
Proof.
  revert lo s. induction n as [|n IH]; intros lo s HI Hstep.
  - exists s. cbn. split; [done|]. by rewrite Z.add_0_r.
  - destruct (Hstep 0 s) as (s1 & Hb & H1); [lia|by rewrite Z.add_0_r|].
    rewrite Z.add_0_r in Hb. rewrite Z.mul_1_l in H1.
    destruct (IH (lo + step) s1 H1) as (s2 & Hf & H2).
    + intros k s' Hk HI'. replace (lo + step + k * step) with (lo + (k + 1) * step) in * by lia.
      destruct (Hstep (k + 1) s') as (s'' & Hb' & HI''); [lia|done|].
      exists s''. split; [done|].
      by replace (lo + step + (k + 1) * step) with (lo + (k + 1 + 1) * step) by lia.
    + exists s2. split.
      * cbn [for_up]. by rewrite (bind_step _ _ _ _ _ Hb).
      * by replace (lo + Z.of_nat (Datatypes.S n) * step)
          with (lo + step + Z.of_nat n * step) by lia.
Qed.

(** ** Machine integer lemmas *)

Lemma u32_range x : 0 <= u32 x < 2 ^ 32.
Proof. apply Z.mod_pos_bound. lia. Qed.

Lemma u32_small x : 0 <= x < 2 ^ 32 -> u32 x = x.
Proof. intros. by apply Z.mod_small. Qed.

Lemma u8_range x : 0 <= u8 x < 256.
Proof. unfold u8. apply (Z.mod_pos_bound x (2^8)). lia. Qed.

Lemma u8_small x : 0 <= x < 256 -> u8 x = x.
Proof. intros. by apply Z.mod_small. Qed.

Lemma u32_add_l x y : u32 (u32 x + y) = u32 (x + y).
Proof. unfold u32. by rewrite Zplus_mod_idemp_l. Qed.

Lemma u32_sub_l x y : u32 (u32 x - y) = u32 (x - y).
Proof. unfold u32. by rewrite Zminus_mod_idemp_l. Qed.

Lemma u32_succ_pred x : 0 <= x < 2 ^ 32 -> u32 (u32 (x + 1) - 1) = x.
Proof. intros. rewrite u32_sub_l, Z.add_simpl_r. by apply u32_small. Qed.

Lemma s32_small x : - 2 ^ 31 <= x < 2 ^ 31 -> s32 x = x.
Proof. intros. unfold s32. rewrite Z.mod_small; lia. Qed.

Lemma s8_small x : - 128 <= x < 128 -> s8 x = x.
Proof. intros. unfold s8. rewrite Z.mod_small; lia. Qed.

Lemma s8_inj x y : 0 <= x < 256 -> 0 <= y < 256 -> s8 x = s8 y -> x = y.
Proof.
  unfold s8. change (2 ^ 7) with 128. change (2 ^ 8) with 256. intros Hx Hy H.
  assert (E : forall z, 0 <= z < 256 -> (z + 128) mod 256 = if z <? 128 then z + 128 else z - 128).
  { intros z Hz. destruct (Z.ltb_spec z 128).
    - apply Z.mod_small. lia.
    - replace (z + 128) with (z - 128 + 1 * 256) by lia. rewrite Z_mod_plus_full.
      apply Z.mod_small. lia. }
  rewrite !E in H by done. destruct (Z.ltb_spec x 128), (Z.ltb_spec y 128); lia.
Qed.

Lemma truth_false x : truth x = false <-> x = 0.
Proof. unfold truth. destruct (Z.eqb_spec x 0); naive_solver. Qed.

Lemma truth_true x : truth x = true <-> x <> 0.
Proof. unfold truth. destruct (Z.eqb_spec x 0); naive_solver. Qed.

(** ** Boolean comparisons of [Z] in hypotheses and goals *)

Ltac zbool :=
  repeat match goal with
  | H : context [?a =? ?b] |- _ => destruct (Z.eqb_spec a b)
  | H : context [?a <? ?b] |- _ => destruct (Z.ltb_spec a b)
  | H : context [?a <=? ?b] |- _ => destruct (Z.leb_spec a b)
  | |- context [?a =? ?b] => destruct (Z.eqb_spec a b)
  | |- context [?a <? ?b] => destruct (Z.ltb_spec a b)
  | |- context [?a <=? ?b] => destruct (Z.leb_spec a b)
  end.

(** ** Bit fields

    Masks and shifts of the sources are turned into division and remainder,
    where [lia] can follow them. *)

Lemma land_field x lo n :
  0 <= lo -> 0 <= n ->
  Z.land x (Z.shiftl (Z.ones n) lo) = (x / 2 ^ lo) mod 2 ^ n * 2 ^ lo.
Proof.
  intros Hlo Hn. rewrite <- Z.land_ones, <- Z.shiftr_div_pow2, <- Z.shiftl_mul_pow2 by done.
  apply Z.bits_inj'. intros i Hi. rewrite Z.land_spec, !Z.shiftl_spec by done.
  rewrite Z.land_spec. destruct (Z.le_gt_cases lo i).
  - rewrite Z.shiftr_spec by lia. f_equal. f_equal. lia.
  - rewrite (Z.testbit_neg_r (Z.ones n)) by lia. by rewrite !andb_false_r.
Qed.

Lemma lor_add a b n :
  0 <= n -> 0 <= a < 2 ^ n -> b mod 2 ^ n = 0 -> Z.lor a b = a + b.
Proof.
  intros Hn Ha Hb. rewrite <- (Z.add_lor_land a b).
  assert (Z.land a b = 0) as ->; [|lia].
  apply Z.bits_inj'. intros i Hi. rewrite Z.land_spec, Z.bits_0.
  destruct (Z.le_gt_cases n i).
  - rewrite <- (Z.mod_small a (2 ^ n)), Z.mod_pow2_bits_high by (done || lia). done.
  - rewrite <- (Z.mod_pow2_bits_low b n) by done. rewrite Hb, Z.bits_0. by rewrite andb_false_r.
Qed.

Lemma lor_comm_add a b n :
  0 <= n -> 0 <= a < 2 ^ n -> b mod 2 ^ n = 0 -> Z.lor b a = b + a.
Proof. intros. rewrite Z.lor_comm, (lor_add a b n) by done. lia. Qed.

(** Linear arithmetic with quotients and remainders by constants. *)
Ltac zdiv := Z.div_mod_to_equations; lia.

Lemma truth_bit x i : 0 <= i -> truth (Z.land x (Z.shiftl 1 i)) = Z.testbit x i.
Proof.
  intros Hi. destruct (Z.testbit x i) eqn:E.
  - apply truth_true. intros H. apply (f_equal (fun z => Z.testbit z i)) in H.
    rewrite Z.land_spec, Z.shiftl_spec, Z.sub_diag, E, Z.bits_0 in H by done. done.
  - apply truth_false. apply Z.bits_inj'. intros j Hj.
    rewrite Z.land_spec, Z.shiftl_spec, Z.bits_0 by done.
    destruct (decide (i = j)) as [->|Hne]; [by rewrite E|].
    destruct (Z.lt_trichotomy j i) as [?|[?|?]]; [|done|].
    + by rewrite (Z.testbit_neg_r 1), andb_false_r by lia.
    + rewrite (Z.bits_above_log2 1), andb_false_r by (cbn; lia). done.
Qed.

(** The little-endian bytes of a 32-bit value, and back. *)
Definition le4 (x : Z) : list Z :=
  [x mod 256; x / 256 mod 256; x / 65536 mod 256; x / 16777216 mod 256].

Definition of_le4 (b0 b1 b2 b3 : Z) : Z :=
  b0 + b1 * 256 + b2 * 65536 + b3 * 16777216.

Lemma of_le4_le4 x :
  0 <= x < 2 ^ 32 ->
  of_le4 (x mod 256) (x / 256 mod 256) (x / 65536 mod 256) (x / 16777216 mod 256) = x.
Proof. unfold of_le4. intros. zdiv. Qed.

(** ** Decimal numerals *)

Definition is_digit (d : Z) : Prop := 48 <= d <= 57.

(** The value of decimal digits (as characters), read on from [v]. *)
Definition dec (v : Z) (ds : list Z) : Z := fold_left (fun v d => v * 10 + (d - 48)) ds v.

Lemma dec_mono ds : forall v, 0 <= v -> Forall is_digit ds -> v <= dec v ds.
Proof.
  induction ds as [|d ds IH]; intros v Hv Hd; [done|].
  apply list.Forall_cons_1 in Hd as [Hd Hds]. unfold is_digit in Hd.
  specialize (IH (v * 10 + (d - 48)) ltac:(lia) Hds). unfold dec in *. cbn. lia.
Qed.
