(* ===== verification/CString.v ===== *)
(** * The C library: byte and string functions

    Models [src/src/lib/libc/string_core.c], [ctype_core.c], [stdlib_core.c],
    [netinet/in_core.c] and the string part of [src/src/lib/util/util.c].

    Byte memory is a total function from addresses to byte values ([0..255]);
    an object never wraps around the end of the address space, so addresses
    are unbounded integers here.  A loop that stops at a null terminator takes
    a fuel argument; the theorems give the fuel that is enough (one more than
    the length of the string). *)

From S2P Require Import Prelude.

Definition bmem : Type := Z -> Z.

Definition upd (m : bmem) (a v : Z) : bmem :=
  fun x => if x =? a then v else m x.

(** ** string_core.c *)
Module String_core.

Fixpoint memcpy (m : bmem) (dest src : Z) (count : nat) : bmem :=
  match count with
  | O => m
  | S n => memcpy (upd m dest (m src)) (dest + 1) (src + 1) n
  end.

(** [for (i = n - 1; i >= 0; i--) destin[i] = source[i];] *)
Fixpoint bcopy_down (m : bmem) (source destin : Z) (n : nat) : bmem :=
  match n with
  | O => m
  | S i => bcopy_down (upd m (destin + Z.of_nat i) (m (source + Z.of_nat i))) source destin i
  end.

(** [for (i = lo; i < lo + n; i++) destin[i] = source[i];] *)
Fixpoint bcopy_up (m : bmem) (source destin i : Z) (n : nat) : bmem :=
  match n with
  | O => m
  | S n' => bcopy_up (upd m (destin + i) (m (source + i))) source destin (i + 1) n'
  end.

Definition bcopy (m : bmem) (source destin size : Z) : bmem :=
  if size =? 0 then m
  else if source <? destin then bcopy_down m source destin (Z.to_nat size)
  else bcopy_up m source destin 0 (Z.to_nat size).

(** The loop of [strcpy]; [None] when the fuel runs out. *)
Fixpoint strcpy (fuel : nat) (m : bmem) (dest src : Z) : option bmem :=
  match fuel with
  | O => None
  | S f =>
      let m' := upd m dest (m src) in
      if m src =? 0 then Some m' else strcpy f m' (dest + 1) (src + 1)
  end.

(** [for (; count; count--, dest++) *dest = '\0';] *)
Fixpoint write_nulls (m : bmem) (dest : Z) (count : nat) : bmem :=
  match count with
  | O => m
  | S n => write_nulls (upd m dest 0) (dest + 1) n
  end.

(** The first loop breaks at the terminator before [count] and [dest] are
    advanced, so the second loop starts at the terminator itself. *)
Fixpoint strncpy (m : bmem) (dest src : Z) (count : nat) : bmem :=
  match count with
  | O => m
  | S n =>
      let m' := upd m dest (m src) in
      if m src =? 0 then write_nulls m' dest count
      else strncpy m' (dest + 1) (src + 1) n
  end.

(** [while ( *dest) dest++;] *)
Fixpoint find_end (fuel : nat) (m : bmem) (dest : Z) : option Z :=
  match fuel with
  | O => None
  | S f => if m dest =? 0 then Some dest else find_end f m (dest + 1)
  end.

(** The copying loop of [strncat]: the memory and the final value of [dest]. *)
Fixpoint strncat_copy (m : bmem) (dest src : Z) (count : nat) : bmem * Z :=
  match count with
  | O => (m, dest)
  | S n =>
      let m' := upd m dest (m src) in
      if m src =? 0 then (m', dest) else strncat_copy m' (dest + 1) (src + 1) n
  end.

Definition strncat (fuel : nat) (m : bmem) (dest src : Z) (count : nat) : option bmem :=
  match find_end fuel m dest with
  | None => None
  | Some d0 =>
      let '(m', d) := strncat_copy m d0 src count in
      Some (if negb (m' d =? 0) then upd m' (d + 1) 0 else m')
  end.

Fixpoint memcmp (m : bmem) (b1 b2 : Z) (n : nat) : Z :=
  match n with
  | O => 0
  | S n' =>
      if m b1 <? m b2 then -1
      else if m b2 <? m b1 then 1
      else memcmp m (b1 + 1) (b2 + 1) n'
  end.

(** [char] is signed on this target, so the comparisons are of [s8] values. *)
Fixpoint strncmp (m : bmem) (s t : Z) (n : nat) : Z :=
  match n with
  | O => 0
  | S n' =>
      let cs := s8 (m s) in
      let ct := s8 (m t) in
      if negb (cs =? 0) && negb (ct =? 0) && (cs =? ct)
      then strncmp m (s + 1) (t + 1) n'
      else if cs <? ct then -1
      else if cs =? ct then 0
      else if ct <? cs then 1
      else strncmp m (s + 1) (t + 1) n'
  end.

Fixpoint memset (m : bmem) (s c : Z) (n : nat) : bmem :=
  match n with
  | O => m
  | S n' => memset (upd m s (u8 c)) (s + 1) c n'
  end.

Fixpoint strlen_loop (fuel : nat) (m : bmem) (s n : Z) : option Z :=
  match fuel with
  | O => None
  | S f => if m s =? 0 then Some n else strlen_loop f m (s + 1) (n + 1)
  end.

(** A null pointer is address 0. *)
Definition strlen (fuel : nat) (m : bmem) (s : Z) : option Z :=
  if s =? 0 then Some 0 else strlen_loop fuel m s 0.

(** [for (i = lo; i < lo + n; i++) area[i] = 0;] *)
Fixpoint bzero_loop (m : bmem) (area i : Z) (n : nat) : bmem :=
  match n with
  | O => m
  | S n' => bzero_loop (upd m (area + i) 0) area (i + 1) n'
  end.

Definition bzero (m : bmem) (area size : Z) : bmem :=
  bzero_loop m area 0 (Z.to_nat size).

End String_core.

(** ** ctype_core.c *)
Module Ctype_core.

Definition isdigit (ch : Z) : Z :=
  if (ch =? 48) || (ch =? 49) || (ch =? 50) || (ch =? 51) || (ch =? 52)
     || (ch =? 53) || (ch =? 54) || (ch =? 55) || (ch =? 56) || (ch =? 57)
  then 1 else 0.

Definition isspace (ch : Z) : Z :=
  if (ch =? 32) || (ch =? 9) || (ch =? 10) || (ch =? 13) || (ch =? 12) || (ch =? 11)
  then 1 else 0.

Definition isprint (ch : Z) : Z :=
  if (32 <=? ch) && (ch <=? 126) then 1 else 0.

Definition isupper (ch : Z) : Z :=
  if (65 <=? ch) && (ch <=? 90) then 1 else 0.

Definition islower (ch : Z) : Z :=
  if (97 <=? ch) && (ch <=? 122) then 1 else 0.

End Ctype_core.

(** ** stdlib_core.c *)
Module Stdlib_core.
Import Ctype_core.

(** [while ( *s && isspace( *s)) s++;] *)
Fixpoint skip_spaces (fuel : nat) (m : bmem) (s : Z) : option Z :=
  match fuel with
  | O => None
  | S f =>
      if negb (s8 (m s) =? 0) && truth (isspace (s8 (m s)))
      then skip_spaces f m (s + 1) else Some s
  end.

(** The digit loop; the accumulator is an [int]. *)
Fixpoint atoi_digits (fuel : nat) (m : bmem) (s n : Z) : option Z :=
  match fuel with
  | O => None
  | S f =>
      if negb (s8 (m s) =? 0) && truth (isdigit (s8 (m s)))
      then atoi_digits f m (s + 1) (s32 (s32 (n * 10) + (s8 (m s) - 48)))
      else Some n
  end.

Definition atoi (fuel : nat) (m : bmem) (s : Z) : option Z :=
  if s =? 0 then Some 0 else
  match skip_spaces fuel m s with
  | None => None
  | Some s1 =>
      let isnegative := s8 (m s1) =? 45 in
      let s2 := if (s8 (m s1) =? 43) || (s8 (m s1) =? 45) then s1 + 1 else s1 in
      match atoi_digits fuel m s2 0 with
      | None => None
      | Some n => Some (if isnegative then s32 (- n) else n)
      end
  end.

(** The state is [rand_val]; the result is paired with its new value. *)
Definition rand (rand_val : Z) : Z * Z :=
  let v := u32 (u32 (rand_val * 1103515245) + 12345) in
  ((v / 65536) mod 32768, v).

Definition srand (seed : Z) : Z := u32 seed.

End Stdlib_core.

(** ** netinet/in_core.c *)
Module In_core.

Definition ntohl (data : Z) : Z :=
  Z.lor (Z.lor (Z.lor (u32 (Z.shiftl (Z.land data 0x000000ff) 24))
                      (u32 (Z.shiftl (Z.land data 0x0000ff00) 8)))
               (Z.shiftr (Z.land data 0x00ff0000) 8))
        (Z.shiftr (Z.land data 0xff000000) 24).

Definition htonl (data : Z) : Z := ntohl data.

Definition ntohs (data : Z) : Z :=
  u16 (Z.lor (Z.shiftl (Z.land data 0x00ff) 8) (Z.shiftr (Z.land data 0xff00) 8)).

Definition htons (data : Z) : Z := ntohs data.

End In_core.

(** ** util.c *)
Module Util.

Fixpoint same_string (fuel : nat) (m : bmem) (s1 s2 : Z) : option bool :=
  match fuel with
  | O => None
  | S f =>
      if negb (m s1 =? 0) && negb (m s2 =? 0) then
        if negb (m s1 =? m s2) then Some false
        else same_string f m (s1 + 1) (s2 + 1)
      else Some (m s1 =? m s2)
  end.

(** [while (--size > 0 && ( *dest++ = *src++)) ++n;]: the memory and the final
    [dest], [src] and [n].  The byte that stops the loop is copied first. *)
Fixpoint strlcpy_copy (k : nat) (m : bmem) (dest src n : Z) : bmem * Z * Z * Z :=
  match k with
  | O => (m, dest, src, n)
  | S k' =>
      let m' := upd m dest (m src) in
      if m src =? 0 then (m', dest + 1, src + 1, n)
      else strlcpy_copy k' m' (dest + 1) (src + 1) (n + 1)
  end.

(** The fuel bounds the final [while ( *src != '\0') ++src, ++m;]. *)
Definition strlcpy (fuel : nat) (m : bmem) (dest src size : Z) : option (Z * bmem) :=
  let '(m1, d, s, n) := strlcpy_copy (Z.to_nat (size - 1)) m dest src 0 in
  let m2 := upd m1 d 0 in
  match String_core.strlen_loop fuel m2 s 0 with
  | None => None
  | Some k => Some (n + k, m2)
  end.

End Util.

(** ** Strings in memory *)

(** The bytes [l], none of them null, followed by a terminator at [s]. *)
Definition is_cstr (m : bmem) (s : Z) (l : list Z) : Prop :=
  (forall i b, l !! i = Some b -> m (s + Z.of_nat i) = b /\ 0 < b < 256)
  /\ m (s + Z.of_nat (length l)) = 0.

Lemma upd_eq m a v : upd m a v a = v.
Proof. unfold upd. by rewrite Z.eqb_refl. Qed.

Lemma upd_ne m a v x : x <> a -> upd m a v x = m x.
Proof. intros. unfold upd. by destruct (Z.eqb_spec x a). Qed.

Lemma is_cstr_nil m s : is_cstr m s [] <-> m s = 0.
Proof.
  unfold is_cstr. rewrite Z.add_0_r. split; [by intros []|].
  intros H. split; [by intros ? ? ?|done].
Qed.

Lemma is_cstr_cons m s b l :
  is_cstr m s (b :: l) <-> (m s = b /\ 0 < b < 256) /\ is_cstr m (s + 1) l.
Proof.
  unfold is_cstr. split.
  - intros [H1 H2]. split_and!.
    + destruct (H1 O b eq_refl) as [H _]. by rewrite Z.add_0_r in H.
    + apply (H1 O b eq_refl).
    + apply (H1 O b eq_refl).
    + intros i c Hc. destruct (H1 (S i) c Hc) as [E ?]. split; [|done].
      rewrite <- E. f_equal. lia.
    + rewrite <- H2. f_equal. simpl. lia.
  - intros [[E Hb] [H1 H2]]. split.
    + intros [|i] c Hc; simpl in Hc.
      * simplify_eq. rewrite Z.add_0_r. done.
      * destruct (H1 i c Hc) as [E' ?]. split; [|done]. rewrite <- E'. f_equal. lia.
    + rewrite <- H2. f_equal. simpl. lia.
Qed.

Lemma is_cstr_frame m m' s l :
  (forall x, s <= x <= s + Z.of_nat (length l) -> m' x = m x) ->
  is_cstr m s l -> is_cstr m' s l.
Proof.
  intros Hm [H1 H2]. split.
  - intros i b Hi. pose proof (lookup_lt_Some _ _ _ Hi). rewrite Hm by lia. auto.
  - rewrite Hm by lia. done.
Qed.

Module String_facts.
Import String_core.

Lemma bcopy_down_spec n : forall m s d, s < d -> forall x,
  bcopy_down m s d n x =
    if (d <=? x) && (x <? d + Z.of_nat n) then m (s + (x - d)) else m x.
Proof.
  induction n as [|n IH]; intros m s d Hsd x; cbn [bcopy_down].
  - zbool; simpl; [lia|done..].
  - rewrite IH by done. unfold upd. zbool; simpl; try done; try lia; f_equal; lia.
Qed.

Lemma bcopy_up_spec n : forall m s d i, d <= s -> forall x,
  bcopy_up m s d i n x =
    if (d + i <=? x) && (x <? d + i + Z.of_nat n) then m (s + (x - d)) else m x.
Proof.
  induction n as [|n IH]; intros m s d i Hsd x; cbn [bcopy_up].
  - zbool; simpl; [lia|done..].
  - rewrite IH by done. unfold upd. zbool; simpl; try done; try lia; f_equal; lia.
Qed.

Lemma memcpy_spec n : forall m d s, d <= s \/ s + Z.of_nat n <= d -> forall x,
  memcpy m d s n x =
    if (d <=? x) && (x <? d + Z.of_nat n) then m (s + (x - d)) else m x.
Proof.
  induction n as [|n IH]; intros m d s Hd x; cbn [memcpy].
  - zbool; simpl; [lia|done..].
  - rewrite IH by lia. unfold upd. zbool; simpl; try done; try lia; f_equal; lia.
Qed.

Lemma write_nulls_spec n : forall m d x,
  write_nulls m d n x = if (d <=? x) && (x <? d + Z.of_nat n) then 0 else m x.
Proof.
  induction n as [|n IH]; intros m d x; cbn [write_nulls].
  - zbool; simpl; [lia|done..].
  - rewrite IH. unfold upd. zbool; simpl; try done; lia.
Qed.

(** [bcopy] is [memmove]: for every size and every overlap of the two
    areas it writes to the destination exactly the bytes the source held before
    the call, and touches nothing else. *)
Theorem bcopy_memmove m source destin size x :
  bcopy m source destin size x =
    if (destin <=? x) && (x <? destin + size)
    then m (source + (x - destin)) else m x.
Proof.
  unfold bcopy. destruct (Z.eqb_spec size 0) as [->|Hs].
  { zbool; simpl; [lia|done..]. }
  destruct (Z.ltb_spec source destin) as [H|H].
  - rewrite bcopy_down_spec by done. zbool; simpl; try done; lia.
  - rewrite bcopy_up_spec by lia. rewrite Z.add_0_r. zbool; simpl; try done; lia.
Qed.

Lemma strncpy_spec_aux n : forall m dest src l,
  is_cstr m src l ->
  dest + Z.of_nat n <= src \/ src + Z.of_nat (length l) < dest ->
  forall x, strncpy m dest src n x =
    if (dest <=? x) && (x <? dest + Z.of_nat n)
    then default 0 (l !! Z.to_nat (x - dest)) else m x.
Proof.
  induction n as [|n IH]; intros m dest src l Hl Hd x; cbn [strncpy].
  - zbool; simpl; [lia|done..].
  - destruct l as [|b l].
    + apply is_cstr_nil in Hl. rewrite Hl, Z.eqb_refl, write_nulls_spec.
      rewrite lookup_nil. unfold upd. zbool; simpl; try done; lia.
    + apply is_cstr_cons in Hl as [[Hb ?] Hl].
      rewrite Hb. destruct (Z.eqb_spec b 0); [lia|]. simpl in Hd.
      rewrite (IH _ _ _ l); [| | lia].
      * unfold upd. destruct (Z.leb_spec (dest + 1) x); simpl.
        -- replace (Z.to_nat (x - dest)) with (S (Z.to_nat (x - (dest + 1)))) by lia.
           simpl. zbool; simpl; try done; lia.
        -- zbool; simpl; try done; try lia.
           subst x. by rewrite Z.sub_diag.
      * eapply is_cstr_frame, Hl. intros y Hy. apply upd_ne. lia.
Qed.

(** [strncpy]: the first [count] bytes of the destination become the
    source string padded with null bytes, truncated at [count] without a
    terminator when the string is longer, and no other byte changes. *)
Theorem strncpy_spec m dest src count l
  (Hsrc : is_cstr m src l)
  (Hsep : dest + Z.of_nat count <= src \/ src + Z.of_nat (length l) < dest) x :
  strncpy m dest src count x =
    if (dest <=? x) && (x <? dest + Z.of_nat count)
    then default 0 (l !! Z.to_nat (x - dest)) else m x.
Proof. by apply strncpy_spec_aux. Qed.

Lemma strlen_loop_spec fuel : forall m s l n,
  is_cstr m s l -> (length l < fuel)%nat ->
  strlen_loop fuel m s n = Some (n + Z.of_nat (length l)).
Proof.
  induction fuel as [|f IH]; intros m s l n Hl Hf; [lia|].
  cbn [strlen_loop]. destruct l as [|b l].
  - apply is_cstr_nil in Hl. rewrite Hl. simpl. f_equal. lia.
  - apply is_cstr_cons in Hl as [[Hb ?] Hl]. rewrite Hb.
    destruct (Z.eqb_spec b 0); [lia|].
    rewrite (IH _ _ l) by (done || simpl in Hf; lia). f_equal. simpl. lia.
Qed.

Lemma find_end_spec fuel : forall m s l,
  is_cstr m s l -> (length l < fuel)%nat ->
  find_end fuel m s = Some (s + Z.of_nat (length l)).
Proof.
  induction fuel as [|f IH]; intros m s l Hl Hf; [lia|].
  cbn [find_end]. destruct l as [|b l].
  - apply is_cstr_nil in Hl. rewrite Hl. simpl. f_equal. lia.
  - apply is_cstr_cons in Hl as [[Hb ?] Hl]. rewrite Hb.
    destruct (Z.eqb_spec b 0); [lia|].
    rewrite (IH _ _ l) by (done || simpl in Hf; lia). f_equal. simpl. lia.
Qed.

Lemma strncat_copy_long n : forall m d src l,
  is_cstr m src l -> (n <= length l)%nat ->
  d + Z.of_nat n <= src \/ src + Z.of_nat (length l) < d ->
  exists m', strncat_copy m d src n = (m', d + Z.of_nat n)
    /\ (forall x, m' x = if (d <=? x) && (x <? d + Z.of_nat n)
                         then default 0 (l !! Z.to_nat (x - d)) else m x).
Proof.
  induction n as [|n IH]; intros m d src l Hl Hn Hd; cbn [strncat_copy].
  - exists m. split; [by rewrite Z.add_0_r|]. intros x. zbool; simpl; [lia|done..].
  - destruct l as [|b l]; [simpl in Hn; lia|]. simpl in Hn, Hd.
    apply is_cstr_cons in Hl as [[Hb ?] Hl]. rewrite Hb.
    destruct (Z.eqb_spec b 0); [lia|].
    destruct (IH (upd m d b) (d + 1) (src + 1) l) as (m' & -> & Hm'); [|lia|lia|].
    { eapply is_cstr_frame, Hl. intros y Hy. apply upd_ne. lia. }
    exists m'. split; [f_equal; lia|]. intros x. rewrite Hm'. unfold upd.
    destruct (Z.leb_spec (d + 1) x); simpl.
    + replace (Z.to_nat (x - d)) with (S (Z.to_nat (x - (d + 1)))) by lia.
      simpl. zbool; simpl; try done; lia.
    + zbool; simpl; try done; try lia. subst x. by rewrite Z.sub_diag.
Qed.

(** [strncat] with a source of at least [count] characters does not put
    the terminator behind the copied characters: the byte at that position keeps
    its old value, and when it is not null the terminator goes one byte
    further. *)
Theorem strncat_truncated m dest src count fuel ld ls
  (Hdest : is_cstr m dest ld) (Hsrc : is_cstr m src ls)
  (Hfuel : (length ld < fuel)%nat)
  (Hlong : (count <= length ls)%nat)
  (Hsep : dest + Z.of_nat (length ld) + Z.of_nat count + 1 < src
          \/ src + Z.of_nat (length ls) < dest) :
  let stop := dest + Z.of_nat (length ld) + Z.of_nat count in
  exists m', strncat fuel m dest src count = Some m'
    /\ m' stop = m stop
    /\ (m stop <> 0 -> m' (stop + 1) = 0).
Proof.
  intros stop. unfold strncat. rewrite (find_end_spec _ _ _ ld) by done.
  destruct (strncat_copy_long count m (dest + Z.of_nat (length ld)) src ls)
    as (m1 & -> & Hm1); [done|done|lia|].
  fold stop. pose proof (Hm1 stop) as Es.
  assert (E : m1 stop = m stop) by (rewrite Es; unfold stop; zbool; simpl; try done; lia).
  eexists. split; [done|]. destruct (Z.eqb_spec (m1 stop) 0) as [E0|E0]; simpl.
  - split; [done|]. congruence.
  - split; [|by rewrite upd_eq]. by rewrite upd_ne by lia.
Qed.

Lemma cons_eq_head (a b : Z) ls lt : a = b -> ls = lt <-> a :: ls = b :: lt.
Proof. intros ->. split; congruence. Qed.

Lemma strncmp_sym n : forall m s t, strncmp m s t n = - strncmp m t s n.
Proof.
  induction n as [|n IH]; intros m s t; cbn [strncmp]; [done|].
  destruct (Z.eqb_spec (s8 (m s)) 0), (Z.eqb_spec (s8 (m t)) 0),
    (Z.eqb_spec (s8 (m s)) (s8 (m t))), (Z.eqb_spec (s8 (m t)) (s8 (m s))),
    (Z.ltb_spec (s8 (m s)) (s8 (m t))), (Z.ltb_spec (s8 (m t)) (s8 (m s)));
    simpl; try done; try lia; apply IH.
Qed.

Lemma strncmp_zero n : forall m s t ls lt,
  is_cstr m s ls -> is_cstr m t lt -> (length ls < n)%nat ->
  strncmp m s t n = 0 <-> ls = lt.
Proof.
  induction n as [|n IH]; intros m s t ls lt Hs Ht Hn; [lia|]. cbn [strncmp].
  destruct ls as [|a ls], lt as [|b lt].
  - apply is_cstr_nil in Hs. apply is_cstr_nil in Ht. by rewrite Hs, Ht.
  - apply is_cstr_nil in Hs. apply is_cstr_cons in Ht as [[Hb ?] _]. rewrite Hs, Hb.
    assert (s8 b <> s8 0) by (intros E%s8_inj; lia). change (s8 0) with 0 in *.
    zbool; simpl; try lia; done.
  - apply is_cstr_nil in Ht. apply is_cstr_cons in Hs as [[Hb ?] _]. rewrite Ht, Hb.
    assert (s8 a <> s8 0) by (intros E%s8_inj; lia). change (s8 0) with 0 in *.
    zbool; simpl; try lia; done.
  - apply is_cstr_cons in Hs as [[Ha ?] Hs]. apply is_cstr_cons in Ht as [[Hb ?] Ht].
    rewrite Ha, Hb. simpl in Hn.
    assert (s8 a <> s8 0) by (intros E%s8_inj; lia). change (s8 0) with 0 in *.
    assert (s8 b <> s8 0) by (intros E%s8_inj; lia). change (s8 0) with 0 in *.
    destruct (Z.eqb_spec (s8 a) (s8 b)) as [E|E].
    + apply s8_inj in E; [|lia..].
      destruct (Z.eqb_spec (s8 a) 0), (Z.eqb_spec (s8 b) 0); try done. simpl.
      rewrite (IH _ _ _ ls lt) by (done || lia). by apply cons_eq_head.
    + assert (a :: ls <> b :: lt) by congruence. zbool; simpl; try lia; done.
Qed.

(** The [strcmp] of the library is [strncmp] with [SIZE_MAX]: at least one
    more than the length of either string. *)
Lemma same_string_spec fuel : forall m s t ls lt,
  is_cstr m s ls -> is_cstr m t lt -> (length ls < fuel)%nat ->
  Util.same_string fuel m s t = Some (bool_decide (ls = lt)).
Proof.
  induction fuel as [|f IH]; intros m s t ls lt Hs Ht Hn; [lia|].
  cbn [Util.same_string]. destruct ls as [|a ls], lt as [|b lt].
  - apply is_cstr_nil in Hs. apply is_cstr_nil in Ht. by rewrite Hs, Ht.
  - apply is_cstr_nil in Hs. apply is_cstr_cons in Ht as [[Hb ?] _]. rewrite Hs, Hb.
    rewrite bool_decide_eq_false_2 by done. cbn [negb andb Z.eqb]. f_equal. destruct b; [lia|done..].
  - apply is_cstr_nil in Ht. apply is_cstr_cons in Hs as [[Hb ?] _]. rewrite Ht, Hb.
    rewrite bool_decide_eq_false_2 by done. destruct (Z.eqb_spec a 0); [lia|]. done.
  - apply is_cstr_cons in Hs as [[Ha ?] Hs]. apply is_cstr_cons in Ht as [[Hb ?] Ht].
    rewrite Ha, Hb. simpl in Hn.
    destruct (Z.eqb_spec a 0), (Z.eqb_spec b 0); try lia. simpl.
    destruct (Z.eqb_spec a b) as [E|E]; simpl.
    + rewrite (IH _ _ _ ls lt) by (done || lia). f_equal.
      apply bool_decide_ext. by apply cons_eq_head.
    + f_equal. rewrite bool_decide_eq_false_2; [done|]. congruence.
Qed.

(** [same_string] and [strcmp] decide the same equality of strings: one
    returns true exactly when the other returns 0, and that is when the two
    null-terminated strings have the same characters. *)
Theorem same_string_strcmp fuel m s t ls lt
  (Hs : is_cstr m s ls) (Ht : is_cstr m t lt) (Hfuel : (length ls < fuel)%nat) :
  Util.same_string fuel m s t = Some (strncmp m s t fuel =? 0)
  /\ (strncmp m s t fuel = 0 <-> ls = lt)
  /\ strncmp m s t fuel = - strncmp m t s fuel.
Proof.
  pose proof (strncmp_zero fuel m s t ls lt Hs Ht Hfuel) as E.
  split_and!; [|done|apply strncmp_sym].
  rewrite (same_string_spec fuel m s t ls lt) by done. f_equal.
  destruct (Z.eqb_spec (strncmp m s t fuel) 0) as [e|e].
  - by rewrite bool_decide_eq_true_2 by (by apply E).
  - rewrite bool_decide_eq_false_2; [done|]. by rewrite <- E.
Qed.

(** ** strlcpy *)

Lemma strlcpy_copy_short k : forall m dest src l n,
  is_cstr m src l -> (length l < k)%nat ->
  dest + Z.of_nat k <= src \/ src + Z.of_nat (length l) < dest ->
  exists m', Util.strlcpy_copy k m dest src n
      = (m', dest + Z.of_nat (length l) + 1, src + Z.of_nat (length l) + 1,
         n + Z.of_nat (length l))
    /\ (forall x, m' x = if (dest <=? x) && (x <=? dest + Z.of_nat (length l))
                         then default 0 (l !! Z.to_nat (x - dest)) else m x).
Proof.
  induction k as [|k IH]; intros m dest src l n Hl Hk Hd; [lia|].
  cbn [Util.strlcpy_copy]. destruct l as [|b l].
  - apply is_cstr_nil in Hl. rewrite Hl. simpl. eexists.
    split; [f_equal; [f_equal; [f_equal|]|]; cbn [length]; lia|]. intros x. rewrite ?lookup_nil. unfold upd.
    zbool; simpl; try done; lia.
  - apply is_cstr_cons in Hl as [[Hb ?] Hl]. rewrite Hb. simpl in Hk, Hd.
    destruct (Z.eqb_spec b 0); [lia|].
    destruct (IH (upd m dest b) (dest + 1) (src + 1) l (n + 1)) as (m' & -> & Hm');
      [|lia|lia|].
    { eapply is_cstr_frame, Hl. intros y Hy. apply upd_ne. lia. }
    exists m'. split; [f_equal; [f_equal; [f_equal|]|]; cbn [length]; lia|].
    intros x. rewrite Hm'. simpl length.
    unfold upd. destruct (Z.leb_spec (dest + 1) x); simpl.
    + replace (Z.to_nat (x - dest)) with (S (Z.to_nat (x - (dest + 1)))) by lia.
      simpl. zbool; simpl; try done; lia.
    + zbool; simpl; try done; try lia. subst x. by rewrite Z.sub_diag.
Qed.

(** [strlcpy] of a string that fits steps over the source's terminator
    before it counts the rest: it reads past the end of the source string, and
    the length it returns is the string's length plus that of whatever string
    follows it in memory; it also writes a second null byte. *)
Theorem strlcpy_reads_past_end fuel m dest src size l next
  (Hsrc : is_cstr m src l) (Hfit : Z.of_nat (length l) < size - 1)
  (Hnext : is_cstr m (src + Z.of_nat (length l) + 1) next)
  (Hfuel : (length next < fuel)%nat)
  (Hsep : dest + size <= src
          \/ src + Z.of_nat (length l) + 1 + Z.of_nat (length next) < dest) :
  exists m', Util.strlcpy fuel m dest src size
      = Some (Z.of_nat (length l) + Z.of_nat (length next), m')
    /\ is_cstr m' dest l
    /\ m' (dest + Z.of_nat (length l) + 1) = 0.
Proof.
  unfold Util.strlcpy.
  destruct (strlcpy_copy_short (Z.to_nat (size - 1)) m dest src l 0)
    as (m1 & -> & Hm1); [done|lia|lia|].
  set (d := dest + Z.of_nat (length l) + 1).
  rewrite (strlen_loop_spec _ _ _ next); [|  |done].
  - eexists. split_and!; [done| |by rewrite upd_eq].
    destruct Hsrc as [H1 H2]. split.
    + intros i b Hi. pose proof (lookup_lt_Some _ _ _ Hi).
      rewrite upd_ne by (unfold d; lia). rewrite Hm1.
      replace (Z.to_nat (dest + Z.of_nat i - dest)) with i by lia. rewrite Hi.
      split; [|by apply (H1 i)]. zbool; simpl; try done; lia.
    + rewrite upd_ne by (unfold d; lia). rewrite Hm1.
      replace (Z.to_nat (dest + Z.of_nat (length l) - dest)) with (length l) by lia.
      rewrite lookup_ge_None_2 by lia. zbool; simpl; try done; lia.
  - eapply is_cstr_frame, Hnext. intros x Hx. rewrite upd_ne by (unfold d; lia).
    rewrite Hm1. zbool; simpl; try done; lia.
Qed.

End String_facts.

Module In_facts.
Import In_core.

(** [ntohl] as arithmetic on the four bytes. *)
Lemma ntohl_bytes x :
  0 <= x < 2 ^ 32 ->
  ntohl x = of_le4 (x / 16777216 mod 256) (x / 65536 mod 256) (x / 256 mod 256) (x mod 256).
Proof.
  intros Hx. unfold ntohl, u32.
  change 0x000000ff with (Z.shiftl (Z.ones 8) 0).
  change 0x0000ff00 with (Z.shiftl (Z.ones 8) 8).
  change 0x00ff0000 with (Z.shiftl (Z.ones 8) 16).
  change 0xff000000 with (Z.shiftl (Z.ones 8) 24).
  rewrite !land_field, !Z.shiftl_mul_pow2, !Z.shiftr_div_pow2 by lia.
  change (2 ^ 0) with 1. change (2 ^ 8) with 256. change (2 ^ 16) with 65536.
  change (2 ^ 24) with 16777216. change (2 ^ 32) with 4294967296 in *.
  rewrite Z.div_1_r, Z.mul_1_r.
  rewrite (Z.mod_small (x mod 256 * 16777216)) by zdiv.
  rewrite (Z.mod_small (x / 256 mod 256 * 256 * 256)) by zdiv.
  replace (x / 65536 mod 256 * 65536 / 256) with (x / 65536 mod 256 * 256) by zdiv.
  rewrite Z.div_mul by done.
  rewrite (lor_comm_add (x / 256 mod 256 * 256 * 256) _ 24); [|lia|zdiv|zdiv].
  rewrite (lor_comm_add (x / 65536 mod 256 * 256) _ 16); [|lia|zdiv|zdiv].
  rewrite (lor_comm_add (x / 16777216 mod 256) _ 8); [|lia|zdiv|zdiv].
  unfold of_le4. lia.
Qed.

(** [ntohl] reverses the four bytes of a 32-bit word, and so undoes
    [htonl]: what the SCSI layer stores in network order reads back as
    itself. *)
Theorem ntohl_roundtrip x (Hx : 0 <= x < 2 ^ 32) :
  ntohl (htonl x) = x
  /\ le4 (ntohl x) = rev (le4 x).
Proof.
  assert (E : forall y, 0 <= y < 2 ^ 32 -> 0 <= ntohl y < 2 ^ 32 /\ le4 (ntohl y) = rev (le4 y)).
  { intros y Hy. rewrite ntohl_bytes by done. unfold of_le4, le4. simpl rev.
    change (2 ^ 32) with 4294967296 in *. split; [zdiv|].
    generalize (Z.mod_pos_bound y 256 eq_refl) (Z.mod_pos_bound (y / 256) 256 eq_refl)
      (Z.mod_pos_bound (y / 65536) 256 eq_refl) (Z.mod_pos_bound (y / 16777216) 256 eq_refl).
    generalize (y mod 256) (y / 256 mod 256) (y / 65536 mod 256) (y / 16777216 mod 256).
    intros a b c d Ha Hb Hc Hd.
    f_equal; [zdiv|f_equal; [zdiv|f_equal; [zdiv|f_equal; zdiv]]]. }
  unfold htonl. split; [|by apply E].
  destruct (E x Hx) as [Hr Hl]. rewrite ntohl_bytes by done.
  unfold le4 in Hl. simpl in Hl. injection Hl as -> -> -> ->. by apply of_le4_le4.
Qed.

End In_facts.

(** ** Concrete instances *)

Module String_instances.
Import String_core String_facts.

(** A memory that holds the bytes [l] from address [base] on. *)
Definition mem_of (base : Z) (l : list Z) : bmem :=
  fun x => if base <=? x then default 0 (l !! Z.to_nat (x - base)) else 0.

Fixpoint cstr_b (m : bmem) (s : Z) (l : list Z) : bool :=
  match l with
  | [] => m s =? 0
  | b :: l' => (m s =? b) && (0 <? b) && (b <? 256) && cstr_b m (s + 1) l'
  end.

Lemma cstr_b_ok m l : forall s, cstr_b m s l = true -> is_cstr m s l.
Proof.
  induction l as [|b l IH]; intros s; cbn [cstr_b].
  - rewrite is_cstr_nil. apply Z.eqb_eq.
  - rewrite is_cstr_cons, !andb_true_iff. intros [[[H1 H2] H3] H4].
    apply Z.eqb_eq in H1. apply Z.ltb_lt in H2, H3. auto.
Qed.

(** "ab" at 100 followed by "cde"; the destination "x" at 200, then bytes 7. *)
Definition demo : bmem :=
  fun x => if x <? 150 then mem_of 100 [97; 98; 0; 99; 100; 101; 0] x
           else mem_of 200 [120; 0; 7; 7; 7; 7] x.

Lemma strncpy_spec_witness :
  strncpy demo 200 100 4 203 = 0 /\ strncpy demo 200 100 4 201 = 98.
Proof.
  assert (H : is_cstr demo 100 [97; 98]) by (by apply cstr_b_ok).
  split.
  - rewrite (strncpy_spec demo 200 100 4 [97; 98] H) by (cbn; lia). reflexivity.
  - rewrite (strncpy_spec demo 200 100 4 [97; 98] H) by (cbn; lia). reflexivity.
Defined.

Lemma strncat_truncated_witness :
  exists m', strncat 10 demo 200 103 2 = Some m' /\ m' 203 = 7 /\ m' 204 = 0.
Proof.
  destruct (strncat_truncated demo 200 103 2 10 [120] [99; 100; 101])
    as (m' & H1 & H2 & H3).
  - by apply cstr_b_ok.
  - by apply cstr_b_ok.
  - cbn. lia.
  - cbn. lia.
  - cbn. lia.
  - exists m'. split_and!; [exact H1|exact H2|apply H3]. done.
Defined.

Lemma same_string_strcmp_witness :
  Util.same_string 5 demo 100 103 = Some false /\ strncmp demo 100 103 5 = -1.
Proof.
  destruct (same_string_strcmp 5 demo 100 103 [97; 98] [99; 100; 101])
    as (H1 & H2 & H3).
  - by apply cstr_b_ok.
  - by apply cstr_b_ok.
  - cbn. lia.
  - split; [exact H1|reflexivity].
Defined.

Lemma strlcpy_reads_past_end_witness :
  exists m', Util.strlcpy 10 demo 200 100 8 = Some (5, m').
Proof.
  destruct (strlcpy_reads_past_end 10 demo 200 100 8 [97; 98] [99; 100; 101])
    as (m' & H1 & _).
  - by apply cstr_b_ok.
  - cbn. lia.
  - by apply cstr_b_ok.
  - cbn. lia.
  - cbn. lia.
  - exists m'. exact H1.
Defined.

Lemma ntohl_roundtrip_witness :
  In_core.ntohl (In_core.htonl 0x01020304) = 0x01020304
  /\ In_core.ntohl 0x01020304 = 0x04030201.
Proof. split; [apply In_facts.ntohl_roundtrip; lia|reflexivity]. Defined.

End String_instances.
