(* ===== verification/Shell.v ===== *)
(** * The shell

    Models [src/src/process/shell.c]: reading a line with its echo, splitting it
    into arguments in place, and the commands.  What the user types is a list of
    characters, the results of [getchar]; the shell waits when it is exhausted.
    Every call of [shprintf] is a [message] with the values it prints; [Tprintf]
    has the formatting.  The system calls of the commands are the interface
    [Kernel]. *)

From S2P Require Import Prelude CString.

Definition COMMAND_MBOX : Z := 1.
Definition SHELL_SIZEX : Z := 50.
Definition LINE_MAX : Z := SHELL_SIZEX * 3.

(** The calls of [shprintf]. *)
Inductive message : Type :=
| Banner | Prompt | Newline | Backspace | Echo (c : Z) | Erase_display | Goodbye | No_mailbox | Read_error
| Usage (argv0 : list Z) | Usage_load (argv0 : list Z) | Entry (p location size : Z) | No_process | Processes (p : Z)
| Loaded | Too_much_competition | Load_error | File_not_found | Not_implemented (argv0 : list Z) | Not_found (argv0 : list Z).

(** System calls: a directory is read as 128 words of 32 bits. *)
Class Kernel (K : Type) : Type := {
  sys_mbox_open : Z -> M K Z;
  sys_mbox_send : Z -> Z -> M K Z;               (* the mailbox and the size of the message *)
  sys_readdir : M K (Z * list Z);
  sys_loadproc : Z -> Z -> M K Z
}.

(** ** Reading and splitting a line *)

(** The loop of [read_line] from position [i] on: the keys that are left, the
    memory and the output. *)
Fixpoint read_keys (max line i : Z) (keys : list Z) (m : bmem) (out : list message) : outcome (list Z * bmem * list message) :=
  match keys with
  | [] => Wait
  | c :: keys' =>
      if c =? 13 then Ret (keys', upd m (line + i) 0, out ++ [Newline])
      else
        let '(i', m', out') :=
          if c =? 8 then
            if 0 <? i then (i - 1, upd m (line + (i - 1)) 0, out ++ [Backspace]) else (i, m, out)
          else (i + 1, upd m (line + i) (u8 c), out ++ [Echo c]) in
        if i' <? max - 1 then read_keys max line i' keys' m' out'
        else Ret (keys', upd m' (line + i') 0, out' ++ [Newline])
  end.

Definition read_line (max line : Z) (keys : list Z) (m : bmem) (out : list message) : outcome (list Z * bmem * list message) :=
  read_keys max line 0 keys m out.

(** [while ( *s == ' ') { *s = '\0'; s++; }] *)
Fixpoint skip_blanks (fuel : nat) (m : bmem) (s : Z) : option (bmem * Z) :=
  match fuel with
  | O => None
  | S f => if m s =? 32 then skip_blanks f (upd m s 0) (s + 1) else Some (m, s)
  end.

(** [while (( *s != ' ') && ( *s != '\0')) s++;] *)
Fixpoint skip_word (fuel : nat) (m : bmem) (s : Z) : option Z :=
  match fuel with
  | O => None
  | S f => if negb (m s =? 32) && negb (m s =? 0) then skip_word f m (s + 1) else Some s
  end.

(** [argv] has [SHELL_SIZEX] elements; a store behind them is an access outside
    the array. *)
Fixpoint parse_loop (fuel : nat) (m : bmem) (s argc : Z) (argv : list Z) : outcome (Z * list Z * bmem) :=
  match fuel with
  | O => Fuel
  | S f =>
      match skip_blanks fuel m s with
      | None => Fuel
      | Some (m1, s1) =>
          if m1 s1 =? 0 then Ret (argc, argv, m1)
          else if SHELL_SIZEX <=? argc then Stuck
          else
            match skip_word fuel m1 s1 with
            | None => Fuel
            | Some s2 => parse_loop f m1 s2 (argc + 1) (<[Z.to_nat argc := s1]> argv)
            end
      end
  end.

Definition parse_line (fuel : nat) (m : bmem) (line : Z) (argv : list Z) : outcome (Z * list Z * bmem) :=
  parse_loop fuel m line 0 argv.

(** ** Commands *)

(** The addresses of the string constants. *)
Record literals : Type := mk_literals {
  str_clear : Z; str_fire : Z; str_exit : Z; str_ls : Z; str_load : Z; str_ps : Z; str_kill : Z; str_suspend : Z; str_resume : Z
}.

(** The characters of a string, for the messages. *)
Fixpoint text (fuel : nat) (m : bmem) (s : Z) : list Z :=
  match fuel with
  | O => []
  | S f => if m s =? 0 then [] else m s :: text f m (s + 1)
  end.

(** The state of the shell: its memory, what is typed, what it printed, and the
    kernel behind the system calls. *)
Record sh (K : Type) : Type := mk_sh { mem : bmem; typed : list Z; printed : list message; kernel : K }.
Arguments mk_sh {K}.
Arguments mem {K}.
Arguments typed {K}.
Arguments printed {K}.
Arguments kernel {K}.

Inductive next : Type := Continue | Exited.

Section Main.

Context {K : Type} `{Kernel K} (fuel : nat) (lit : literals) (line : Z).

Definition print (x : message) : M (sh K) unit := modify (fun s => mk_sh (mem s) (typed s) (printed s ++ [x]) (kernel s)).
Definition syscall {A} (c : M K A) : M (sh K) A := zoom kernel (fun k s => mk_sh (mem s) (typed s) (printed s) k) c.

Definition same (a b : Z) : M (sh K) bool :=
  fun s => match Util.same_string fuel (mem s) a b with Some r => Ret (r, s) | None => Fuel end.

(** [argv[k]]; an element that was not stored is an undefined pointer. *)
Definition arg (argv : list Z) (k : nat) : M (sh K) Z :=
  match argv !! k with Some p => ret p | None => stuck end.

Definition text_of (p : Z) : M (sh K) (list Z) := gets (fun s => text fuel (mem s) p).

(** The entry [p] of the directory buffer of 64 entries. *)
Definition entry (buf : list Z) (p : Z) : M (sh K) (Z * Z) :=
  match buf !! Z.to_nat (2 * p), buf !! Z.to_nat (2 * p + 1) with
  | Some l, Some z => ret (l, z)
  | _, _ => stuck
  end.

(** [while (dir->location != 0) { shprintf(...); dir++; }]; the value of [p]. *)
Fixpoint list_entries (n : nat) (buf : list Z) (p : Z) : M (sh K) Z :=
  match n with
  | O => out_of_fuel
  | S n' =>
      e <-- entry buf p ;;
      if fst e =? 0 then ret p
      else print (Entry p (s32 (fst e)) (s32 (snd e))) ;;; list_entries n' buf (p + 1)
  end.

(** [for (p = 0; p < n && dir->location != 0; p++, dir++);]; the entry reached. *)
Fixpoint find_entry (k : nat) (buf : list Z) (p n : Z) : M (sh K) (Z * Z) :=
  match k with
  | O => out_of_fuel
  | S k' =>
      e <-- entry buf p ;;
      if (p <? n) && negb (fst e =? 0) then find_entry k' buf (p + 1) n else ret e
  end.

Definition do_ls : M (sh K) unit :=
  r <-- syscall sys_readdir ;;
  if fst r <? 0 then print Read_error
  else
    p <-- list_entries fuel (snd r) 0 ;;
    if p =? 0 then print No_process else print (Processes p).

Definition do_load (number : Z) : M (sh K) unit :=
  r <-- syscall sys_readdir ;;
  if fst r <? 0 then print Read_error
  else
    m <-- gets mem ;;
    match Stdlib_core.atoi fuel m number with
    | None => out_of_fuel
    | Some n =>
        e <-- find_entry fuel (snd r) 0 n ;;
        if negb (fst e =? 0) then
          code <-- syscall (sys_loadproc (fst e) (snd e)) ;;
          print (if code =? 0 then Loaded else if code =? 1 then Too_much_competition else Load_error)
        else print File_not_found
    end.

(** The body of the command loop behind [parse_line]. *)
Definition command (q argc : Z) (argv : list Z) : M (sh K) next :=
  if argc =? 0 then ret Continue
  else
    a0 <-- arg argv 0 ;;
    let usage := (t <-- text_of a0 ;; print (Usage t) ;;; ret Continue) in
    let not_implemented := (t <-- text_of a0 ;; print (Not_implemented t) ;;; ret Continue) in
    is_clear <-- same (str_clear lit) a0 ;;
    if is_clear : bool then if argc =? 1 then print Erase_display ;;; ret Continue else usage
    else
    is_fire <-- same (str_fire lit) a0 ;;
    if is_fire : bool then
      if argc =? 1 then
        (if 0 <=? q then syscall (sys_mbox_send q 0) ;;; ret tt else print No_mailbox) ;;; ret Continue
      else usage
    else
    is_exit <-- same (str_exit lit) a0 ;;
    if is_exit : bool then if argc =? 1 then print Goodbye ;;; ret Exited else usage
    else
    is_ls <-- same (str_ls lit) a0 ;;
    if is_ls : bool then if argc =? 1 then do_ls ;;; ret Continue else usage
    else
    is_load <-- same (str_load lit) a0 ;;
    if is_load : bool then
      if argc =? 2 then a1 <-- arg argv 1 ;; do_load a1 ;;; ret Continue
      else t <-- text_of a0 ;; print (Usage_load t) ;;; ret Continue
    else
    is_ps <-- same (str_ps lit) a0 ;; if is_ps : bool then not_implemented else
    is_kill <-- same (str_kill lit) a0 ;; if is_kill : bool then not_implemented else
    is_suspend <-- same (str_suspend lit) a0 ;; if is_suspend : bool then not_implemented else
    is_resume <-- same (str_resume lit) a0 ;; if is_resume : bool then not_implemented else
    t <-- text_of a0 ;; print (Not_found t) ;;; ret Continue.

(** One round of the loop. *)
Definition shell_round (q : Z) (argv : list Z) : M (sh K) next :=
  print Prompt ;;;
  (fun s => match read_line LINE_MAX line (typed s) (mem s) (printed s) with
            | Ret (keys, m, out) =>
                match parse_line fuel m line argv with
                | Ret (argc, argv', m') => command q argc argv' (mk_sh m' keys out (kernel s))
                | Halt => Halt | Wait => Wait | Stuck => Stuck | Fuel => Fuel
                end
            | Halt => Halt | Wait => Wait | Stuck => Stuck | Fuel => Fuel
            end).

Fixpoint shell_loop (rounds : nat) (q : Z) (argv : list Z) : M (sh K) unit :=
  match rounds with
  | O => out_of_fuel
  | S n => r <-- shell_round q argv ;; match r with Exited => ret tt | Continue => shell_loop n q argv end
  end.

Definition main (rounds : nat) (argv : list Z) : M (sh K) unit :=
  print Banner ;;;
  q <-- syscall (sys_mbox_open COMMAND_MBOX) ;;
  shell_loop rounds q argv.

End Main.

(** ** The words of a line *)

Fixpoint split_words (cur l : list Z) : list (list Z) :=
  match l with
  | [] => match cur with [] => [] | _ => [cur] end
  | c :: l' =>
      if c =? 32 then match cur with [] => split_words [] l' | _ => cur :: split_words [] l' end
      else split_words (cur ++ [c]) l'
  end.

Definition words (l : list Z) : list (list Z) := split_words [] l.

Definition no_blank (w : list Z) : Prop := Forall (fun c => c <> 32) w.

(** A line that a word can end before: it is over or goes on with a blank. *)
Definition stops (r : list Z) : Prop := r = [] \/ exists r', r = 32 :: r'.

Lemma split_word w : forall cur r, no_blank w -> stops r -> cur ++ w <> [] -> split_words cur (w ++ r) = (cur ++ w) :: words r.
Proof.
  induction w as [|c w IH]; intros cur r Hw Hr Hne.
  - rewrite app_nil_r in *. cbn [app]. destruct Hr as [->|[r' ->]]; destruct cur; done.
  - apply list.Forall_cons_1 in Hw as [Hc Hw]. cbn [app split_words]. rewrite (proj2 (Z.eqb_neq c 32)) by done.
    rewrite IH, <- app_assoc; [done|done|done|]. by destruct cur.
Qed.

Lemma words_word w r : no_blank w -> w <> [] -> stops r -> words (w ++ r) = w :: words r.
Proof. intros Hw Hne Hr. unfold words at 1. by rewrite split_word. Qed.

Lemma words_blanks k l : words (replicate k 32 ++ l) = words l.
Proof. induction k as [|k IH]; [done|]. exact IH. Qed.

(** Every line is blanks, a word and a rest, unless it is only blanks. *)
Lemma line_cases l : exists k r, l = replicate k 32 ++ r /\ (r = [] \/ exists w r', r = w ++ r' /\ w <> [] /\ no_blank w /\ stops r').
Proof.
  induction l as [|c l IH]; [exists O, []; auto|]. destruct IH as (k & r & -> & Hr).
  destruct (decide (c = 32)) as [->|Hc]; [by exists (S k), r|].
  exists O, (c :: replicate k 32 ++ r). split; [done|]. right. destruct k as [|k].
  - destruct Hr as [->|(w & r' & -> & Hw & Hn & Hs)].
    + exists [c], []. split_and!; [done|done|by constructor|by left].
    + exists (c :: w), r'. split_and!; [done|done|by constructor|done].
  - exists [c], (replicate (S k) 32 ++ r). split_and!; [done|done|by constructor|right]. by exists (replicate k 32 ++ r).
Qed.

(** ** The loops *)

Lemma cstr_behind m s l1 l2 : is_cstr m s (l1 ++ l2) -> is_cstr m (s + Z.of_nat (length l1)) l2.
Proof.
  revert s. induction l1 as [|c l1 IH]; intros s H; [cbn; by rewrite Z.add_0_r|].
  cbn [app] in H. apply is_cstr_cons in H as [_ H]. apply IH in H. cbn [length].
  by replace (s + Z.of_nat (S (length l1))) with (s + 1 + Z.of_nat (length l1)) by lia.
Qed.

Lemma skip_blanks_run k : forall fuel m s l, is_cstr m s (replicate k 32 ++ l) -> (forall l', l <> 32 :: l') -> (k < fuel)%nat ->
  exists m', skip_blanks fuel m s = Some (m', s + Z.of_nat k) /\ is_cstr m' (s + Z.of_nat k) l
    /\ (forall x, x < s \/ s + Z.of_nat k <= x -> m' x = m x) /\ (forall x, s <= x < s + Z.of_nat k -> m' x = 0).
Proof.
  induction k as [|k IH]; intros fuel m s l Hc Hl Hf; (destruct fuel as [|fuel]; [lia|]); cbn [skip_blanks].
  - cbn [replicate app] in Hc. exists m. rewrite Z.add_0_r. split_and!; [|done|done|lia].
    destruct l as [|c l]; [apply is_cstr_nil in Hc; by rewrite Hc|]. pose proof Hc as Hc'. apply is_cstr_cons in Hc as [[-> _] _].
    destruct (Z.eqb_spec c 32); [|done]. by destruct (Hl l); subst.
  - cbn [replicate app] in Hc. apply is_cstr_cons in Hc as [[-> _] Hc]. cbn [Z.eqb Pos.eqb].
    destruct (IH fuel (upd m s 0) (s + 1) l) as (m' & E & H1 & H2 & H3); [|done|lia|].
    { eapply is_cstr_frame; [|exact Hc]. intros x Hx. apply upd_ne. lia. }
    exists m'. replace (s + Z.of_nat (S k)) with (s + 1 + Z.of_nat k) by lia. split_and!; [done|done| |].
    + intros x Hx. rewrite H2 by lia. apply upd_ne. lia.
    + intros x Hx. destruct (decide (x = s)) as [->|]; [rewrite H2 by lia; apply upd_eq|apply H3; lia].
Qed.

Lemma skip_word_run w : forall fuel m s r, is_cstr m s (w ++ r) -> no_blank w -> stops r -> (length w < fuel)%nat ->
  skip_word fuel m s = Some (s + Z.of_nat (length w)).
Proof.
  induction w as [|c w IH]; intros fuel m s r Hc Hw Hr Hf; (destruct fuel as [|fuel]; [cbn in Hf; lia|]); cbn [skip_word app length] in *.
  - rewrite Z.add_0_r. destruct Hr as [->|[r' ->]].
    + apply is_cstr_nil in Hc. by rewrite Hc.
    + apply is_cstr_cons in Hc as [[-> _] _]. done.
  - apply list.Forall_cons_1 in Hw as [Hw1 Hw]. apply is_cstr_cons in Hc as [[-> Hb] Hc].
    rewrite (proj2 (Z.eqb_neq c 32)), (proj2 (Z.eqb_neq c 0)) by lia. cbn [negb andb].
    rewrite (IH fuel m (s + 1) r) by (done || lia). f_equal. lia.
Qed.

(** [parse_line] from [s] on: the words of the rest of the line become strings of
    their own, and [argv] gets their addresses. *)
Lemma parse_loop_run n : forall l fuel m s argc argv, (length l <= n)%nat -> (n < fuel)%nat -> is_cstr m s l -> 0 <= argc ->
  argc + Z.of_nat (length (words l)) <= SHELL_SIZEX -> length argv = Z.to_nat SHELL_SIZEX ->
  exists argv' m', parse_loop fuel m s argc argv = Ret (argc + Z.of_nat (length (words l)), argv', m')
    /\ length argv' = length argv /\ take (Z.to_nat argc) argv' = take (Z.to_nat argc) argv
    /\ (forall x, x < s \/ s + Z.of_nat (length l) < x -> m' x = m x) /\ (stops l -> m' s = 0)
    /\ forall k w, words l !! k = Some w -> exists p, argv' !! (Z.to_nat argc + k)%nat = Some p /\ is_cstr m' p w
         /\ s <= p /\ p + Z.of_nat (length w) <= s + Z.of_nat (length l).
Proof.
  induction n as [n IH] using lt_wf_ind. intros l fuel m s argc argv Hl Hf Hc Ha Hn Hlen.
  destruct fuel as [|fuel]; [lia|]. destruct (line_cases l) as (k & r & -> & Hr). rewrite length_app, length_replicate in *.
  rewrite words_blanks in *.
  destruct (skip_blanks_run k (S fuel) m s r Hc) as (m1 & E1 & C1 & O1 & Z1); [|lia|].
  { intros l' ->. destruct Hr as [?|([|c w] & r' & E & Hne & Hw & _)]; [done|done|]. injection E as <- _.
    by apply list.Forall_cons_1 in Hw as [? _]. }
  cbn [parse_loop]. rewrite E1.
  destruct Hr as [->|(w & r' & -> & Hne & Hw & Hs)].
  - pose proof (proj1 (is_cstr_nil _ _) C1) as E0. rewrite E0, Z.eqb_refl. exists argv, m1. cbn [words split_words length] in *.
    split_and!; [do 3 f_equal; lia|done|done|intros x Hx; apply O1; lia| |done].
    intros _. destruct (decide (k = O)) as [->|]; [by rewrite Z.add_0_r in E0|apply Z1; lia].
  - rewrite words_word in * by done. cbn [length] in *. rewrite length_app in *.
    assert (Hpos : (0 < length w)%nat) by (destruct w; [done|cbn; lia]).
    assert (Hfst : m1 (s + Z.of_nat k) <> 0).
    { destruct w as [|c w]; [done|]. cbn [app] in C1. apply is_cstr_cons in C1 as [[-> ?] _]. lia. }
    rewrite (proj2 (Z.eqb_neq _ 0)) by done. rewrite (proj2 (Z.leb_gt SHELL_SIZEX argc)) by lia.
    rewrite (skip_word_run w (S fuel) m1 (s + Z.of_nat k) r') by (done || lia).
    set (s1 := s + Z.of_nat k) in *. set (s2 := s1 + Z.of_nat (length w)) in *.
    destruct (IH (length r') ltac:(lia) r' fuel m1 s2 (argc + 1) (<[Z.to_nat argc := s1]> argv)) as (argv' & m' & E & L' & T' & O' & S' & W');
      [lia|lia|by apply cstr_behind|lia|lia|by rewrite length_insert|].
    assert (Hin : argv' !! Z.to_nat argc = Some s1).
    { replace (Z.to_nat (argc + 1)) with (S (Z.to_nat argc)) in T' by lia. rewrite length_insert in L'.
      rewrite <- (lookup_take_lt argv' (S (Z.to_nat argc))) by lia. rewrite T', lookup_take_lt by lia.
      apply list_lookup_insert_eq. unfold SHELL_SIZEX in *. lia. }
    assert (Hword : is_cstr m' s1 w).
    { split; [|apply S', Hs]. intros i b Hi. pose proof (lookup_lt_Some _ _ _ Hi). rewrite O' by lia.
      apply (proj1 C1 i b). by rewrite lookup_app_l. }
    exists argv', m'. split_and!.
    + rewrite E. do 3 f_equal. lia.
    + by rewrite L', length_insert.
    + replace (Z.to_nat (argc + 1)) with (S (Z.to_nat argc)) in T' by lia. apply (f_equal (take (Z.to_nat argc))) in T'.
      rewrite !take_take, Nat.min_l in T' by lia. rewrite T'. apply take_insert_ge. lia.
    + intros x Hx. rewrite O' by lia. apply O1. lia.
    + intros Hst. destruct k as [|k]; [|rewrite O' by lia; apply Z1; lia]. exfalso. destruct w as [|c w]; [done|].
      apply list.Forall_cons_1 in Hw as [Hw _]. destruct Hst as [?|[r0 E0]]; [done|]. by injection E0 as -> _.
    + intros [|j] w' Hj; cbn in Hj.
      * simplify_eq. exists s1. rewrite Nat.add_0_r. split_and!; [done|done|lia|lia].
      * destruct (W' j w' Hj) as (p & P1 & P2 & P3 & P4). exists p.
        replace (Z.to_nat argc + S j)%nat with (Z.to_nat (argc + 1) + j)%nat by lia. split_and!; [done|done|lia|lia].
Qed.

(** ** Line editing *)

(** The line that the keys make: a return ends it, a backspace takes the last
    character away, [max] keys fill it. *)
Fixpoint edit (max : Z) (acc keys : list Z) : option (list Z * list Z) :=
  match keys with
  | [] => None
  | c :: keys' =>
      if c =? 13 then Some (acc, keys')
      else
        let acc' := if c =? 8 then removelast acc else acc ++ [u8 c] in
        if Z.of_nat (length acc') <? max - 1 then edit max acc' keys' else Some (acc', keys')
  end.

(** Keys that are characters of a string. *)
Definition printable (c : Z) : Prop := u8 c <> 0.

Lemma removelast_snoc {A} (l : list A) x : removelast (l ++ [x]) = l.
Proof. apply removelast_last. Qed.

Definition holds (m : bmem) (line : Z) (acc : list Z) : Prop :=
  forall i b, acc !! i = Some b -> m (line + Z.of_nat i) = b /\ 0 < b < 256.

Lemma holds_end m line acc : holds m line acc -> is_cstr (upd m (line + Z.of_nat (length acc)) 0) line acc.
Proof.
  intros H. split; [|apply upd_eq]. intros i b Hi. pose proof (lookup_lt_Some _ _ _ Hi). rewrite upd_ne by lia. by apply H.
Qed.

Lemma holds_snoc m line acc c : holds m line acc -> u8 c <> 0 -> holds (upd m (line + Z.of_nat (length acc)) (u8 c)) line (acc ++ [u8 c]).
Proof.
  intros H Hc i b Hi. apply lookup_app_Some in Hi as [Hi|[Hge Hi]].
  - pose proof (lookup_lt_Some _ _ _ Hi). rewrite upd_ne by lia. by apply H.
  - apply list_lookup_singleton_Some in Hi as [Hi <-]. replace i with (length acc) by lia. rewrite upd_eq. pose proof (u8_range c). lia.
Qed.

(** [read_line] leaves the edited line in its buffer, and changes nothing behind
    it. *)
Lemma read_keys_run max line keys : forall acc m out l rest,
  Forall printable keys -> holds m line acc -> Z.of_nat (length acc) < max - 1 -> edit max acc keys = Some (l, rest) ->
  exists m' out', read_keys max line (Z.of_nat (length acc)) keys m out = Ret (rest, m', out') /\ is_cstr m' line l
    /\ (Z.of_nat (length l) < max) /\ forall x, x < line \/ line + max <= x -> m' x = m x.
Proof.
  induction keys as [|c keys IH]; intros acc m out l rest Hk Hm Hmax E; [done|]. apply list.Forall_cons_1 in Hk as [Hc Hk].
  cbn [edit read_keys] in *. destruct (Z.eqb_spec c 13) as [->|Hne].
  { simplify_eq. eexists _, _. split; [reflexivity|]. split_and!; [by apply holds_end|lia|]. intros x Hx. apply upd_ne. lia. }
  set (acc' := if c =? 8 then removelast acc else acc ++ [u8 c]) in *.
  assert (Hstep : exists m1 out1, (if c =? 8 then if 0 <? Z.of_nat (length acc) then (Z.of_nat (length acc) - 1, upd m (line + (Z.of_nat (length acc) - 1)) 0, out ++ [Backspace])
        else (Z.of_nat (length acc), m, out) else (Z.of_nat (length acc) + 1, upd m (line + Z.of_nat (length acc)) (u8 c), out ++ [Echo c]))
      = (Z.of_nat (length acc'), m1, out1) /\ holds m1 line acc' /\ (forall x, x < line \/ line + max <= x -> m1 x = m x) /\ Z.of_nat (length acc') < max).
  { unfold acc'. destruct (c =? 8).
    - destruct acc as [|a acc _] using rev_ind; [cbn; eexists _, _; split; [reflexivity|]; split_and!; done || lia|].
      rewrite removelast_snoc, length_app. cbn [length]. rewrite (proj2 (Z.ltb_lt 0 _)) by lia.
      eexists _, _. split; [do 2 f_equal; lia|]. rewrite length_app in Hmax. cbn [length] in Hmax. split_and!; [|intros x Hx; apply upd_ne; lia|lia].
      intros i b Hi. pose proof (lookup_lt_Some _ _ _ Hi). rewrite upd_ne by lia. apply Hm. by rewrite lookup_app_l.
    - eexists _, _. split; [rewrite length_app; cbn [length]; do 2 f_equal; lia|]. rewrite length_app. cbn [length].
      split_and!; [by apply holds_snoc|intros x Hx; apply upd_ne; lia|lia]. }
  destruct Hstep as (m1 & out1 & -> & H1 & O1 & L1). destruct (Z.ltb_spec (Z.of_nat (length acc')) (max - 1)).
  - destruct (IH acc' m1 out1 l rest Hk H1 ltac:(lia) E) as (m' & out' & E' & C & L & O). exists m', out'. split_and!; [done|done|done|].
    intros x Hx. by rewrite O, O1 by lia.
  - injection E as <- <-. eexists _, _. split; [reflexivity|]. split_and!; [by apply holds_end|done|].
    intros x Hx. rewrite upd_ne by lia. by apply O1.
Qed.

(** ** Typed commands *)

(** Words with single blanks between them. *)
Fixpoint join (ws : list (list Z)) : list Z :=
  match ws with
  | [] => []
  | [w] => w
  | w :: ws' => w ++ 32 :: join ws'
  end.

Definition is_char (c : Z) : Prop := 0 < c < 256 /\ c <> 8 /\ c <> 13.
Definition is_word (w : list Z) : Prop := w <> [] /\ no_blank w /\ Forall is_char w.

Lemma words_join ws : Forall is_word ws -> words (join ws) = ws.
Proof.
  induction ws as [|w ws IH]; intros H; [done|]. apply list.Forall_cons_1 in H as [(Hne & Hb & _) H].
  destruct ws as [|w' ws].
  - cbn [join]. rewrite <- (app_nil_r w) at 1. rewrite words_word; [done|done|done|by left].
  - change (join (w :: w' :: ws)) with (w ++ 32 :: join (w' :: ws)). rewrite words_word; [|done|done|right; by eexists].
    f_equal. exact (IH H).
Qed.

Lemma join_chars ws : Forall is_word ws -> Forall is_char (join ws).
Proof.
  induction ws as [|w ws IH]; intros H; [constructor|]. apply list.Forall_cons_1 in H as [(_ & _ & Hc) H].
  destruct ws as [|w' ws]; [done|]. apply Forall_app. split; [done|]. constructor; [unfold is_char; lia|by apply IH].
Qed.

Lemma edit_chars max rest l : forall acc, Forall is_char l -> Z.of_nat (length acc + length l) < max - 1 ->
  edit max acc (l ++ 13 :: rest) = Some (acc ++ l, rest).
Proof.
  induction l as [|c l IH]; intros acc Hl Hn; [cbn; by rewrite app_nil_r|]. apply list.Forall_cons_1 in Hl as [(Hc & H8 & H13) Hl].
  cbn [app edit length] in *. rewrite (proj2 (Z.eqb_neq c 13)), (proj2 (Z.eqb_neq c 8)) by done. rewrite (u8_small c) by lia.
  rewrite length_app. cbn [length]. rewrite (proj2 (Z.ltb_lt _ _)) by lia. rewrite IH; [by rewrite <- app_assoc|done|].
  rewrite length_app. cbn [length]. lia.
Qed.

(** What is typed before a return, as [read_line] leaves it. *)
Lemma read_typed ws rest line m out :
  Forall is_word ws -> Z.of_nat (length (join ws)) < LINE_MAX - 1 -> Forall printable rest ->
  exists m1 out1, read_line LINE_MAX line (join ws ++ 13 :: rest) m out = Ret (rest, m1, out1)
    /\ is_cstr m1 line (join ws) /\ forall x, x < line \/ line + LINE_MAX <= x -> m1 x = m x.
Proof.
  intros Hws Hl Hrest. pose proof (join_chars ws Hws) as Hc.
  destruct (read_keys_run LINE_MAX line (join ws ++ 13 :: rest) [] m out (join ws) rest) as (m1 & out1 & E1 & C1 & _ & O1).
  - apply Forall_app. split; [eapply list.Forall_impl; [exact Hc|]; intros c (Hr & _); unfold printable; rewrite u8_small; lia|].
    constructor; [done|exact Hrest].
  - intros i b Hi. by rewrite lookup_nil in Hi.
  - unfold LINE_MAX, SHELL_SIZEX. cbn. lia.
  - rewrite edit_chars; [done|done|]. cbn [length]. unfold LINE_MAX, SHELL_SIZEX in *. lia.
  - by exists m1, out1.
Qed.

(** What [parse_line] makes of it. *)
Lemma typed_line_run fuel ws rest line m out argv :
  Forall is_word ws -> Z.of_nat (length (join ws)) < LINE_MAX - 1 -> Z.of_nat (length ws) <= SHELL_SIZEX ->
  (length (join ws) < fuel)%nat -> length argv = Z.to_nat SHELL_SIZEX -> Forall printable rest ->
  exists m1 out1 argv' m2, read_line LINE_MAX line (join ws ++ 13 :: rest) m out = Ret (rest, m1, out1)
    /\ parse_line fuel m1 line argv = Ret (Z.of_nat (length ws), argv', m2)
    /\ (forall k w, ws !! k = Some w -> exists p, argv' !! k = Some p /\ is_cstr m2 p w /\ line <= p < line + LINE_MAX)
    /\ forall x, x < line \/ line + LINE_MAX <= x -> m2 x = m x.
Proof.
  intros Hws Hl Hn Hf Ha Hrest. destruct (read_typed ws rest line m out Hws Hl Hrest) as (m1 & out1 & E1 & C1 & O1).
  destruct (parse_loop_run (length (join ws)) (join ws) fuel m1 line 0 argv) as (argv' & m2 & E2 & _ & _ & O2 & _ & W);
    rewrite ?words_join by done; [lia|done|done|lia|lia|done|].
  rewrite words_join in E2, W by done. exists m1, out1, argv', m2. split_and!; [exact E1|exact E2| |].
  - intros k w Hk. destruct (W k w Hk) as (p & P1 & P2 & P3 & P4). exists p. split_and!; [done|done|done|]. lia.
  - intros x Hx. rewrite O2 by lia. by apply O1.
Qed.

(** One round of the shell up to the command. *)
Lemma shell_round_run {K} `{Kernel K} fuel lit line q argv (s : sh K) m1 keys out argc argv' m2 :
  read_line LINE_MAX line (typed s) (mem s) (printed s ++ [Prompt]) = Ret (keys, m1, out) ->
  parse_line fuel m1 line argv = Ret (argc, argv', m2) ->
  shell_round fuel lit line q argv s = command fuel lit q argc argv' (mk_sh m2 keys out (kernel s)).
Proof. intros E1 E2. unfold shell_round, print. kstep. cbn [typed mem printed kernel]. by rewrite E1, E2. Qed.

(** The arguments of a typed line reach the command: words with blanks between
    them and a return become [argc] strings in the line buffer, [argv] points at
    them in order, nothing outside the buffer changes, and what is typed behind
    the return is left. *)
Theorem shell_arguments {K} `{Kernel K} fuel lit line q argv (s : sh K) ws rest
  (Hws : Forall is_word ws) (Hlen : Z.of_nat (length (join ws)) < LINE_MAX - 1) (Hargs : Z.of_nat (length ws) <= SHELL_SIZEX)
  (Hfuel : (length (join ws) < fuel)%nat) (Hargv : length argv = Z.to_nat SHELL_SIZEX) (Hrest : Forall printable rest)
  (Htyped : typed s = join ws ++ 13 :: rest) :
  exists argv' s', shell_round fuel lit line q argv s = command fuel lit q (Z.of_nat (length ws)) argv' s'
    /\ (forall k w, ws !! k = Some w -> exists p, argv' !! k = Some p /\ is_cstr (mem s') p w /\ line <= p < line + LINE_MAX)
    /\ (forall x, x < line \/ line + LINE_MAX <= x -> mem s' x = mem s x)
    /\ typed s' = rest /\ kernel s' = kernel s.
Proof.
  destruct (typed_line_run fuel ws rest line (mem s) (printed s ++ [Prompt]) argv Hws Hlen Hargs Hfuel Hargv Hrest) as (m1 & out1 & argv' & m2 & E1 & E2 & W & O).
  exists argv', (mk_sh m2 rest out1 (kernel s)). split_and!; [|exact W|exact O|done|done].
  eapply shell_round_run; [by rewrite Htyped|exact E2].
Qed.

(** ** A line of too many words *)

(** [argv] is full before the words of the line are over. *)
Lemma parse_loop_overflow n : forall l fuel m s argc argv, (length l <= n)%nat -> (n < fuel)%nat -> is_cstr m s l -> 0 <= argc <= SHELL_SIZEX ->
  SHELL_SIZEX < argc + Z.of_nat (length (words l)) -> parse_loop fuel m s argc argv = Stuck.
Proof.
  induction n as [n IH] using lt_wf_ind. intros l fuel m s argc argv Hl Hf Hc Ha Hn.
  destruct fuel as [|fuel]; [lia|]. destruct (line_cases l) as (k & r & -> & Hr). rewrite length_app, length_replicate in *.
  rewrite words_blanks in *.
  destruct Hr as [->|(w & r' & -> & Hne & Hw & Hs)]; [cbn in Hn; lia|].
  destruct (skip_blanks_run k (S fuel) m s (w ++ r') Hc) as (m1 & E1 & C1 & _); [|lia|].
  { intros l' E. destruct w as [|c w]; [done|]. injection E as -> _. by apply list.Forall_cons_1 in Hw as [? _]. }
  cbn [parse_loop]. rewrite E1. rewrite words_word in * by done. cbn [length] in *. rewrite length_app in *.
  assert (Hpos : (0 < length w)%nat) by (destruct w; [done|cbn; lia]).
  assert (Hfst : m1 (s + Z.of_nat k) <> 0).
  { destruct w as [|c w]; [done|]. cbn [app] in C1. apply is_cstr_cons in C1 as [[-> ?] _]. lia. }
  rewrite (proj2 (Z.eqb_neq _ 0)) by done. destruct (Z.leb_spec SHELL_SIZEX argc) as [|Hlt]; [done|].
  rewrite (skip_word_run w (S fuel) m1 (s + Z.of_nat k) r') by (done || lia).
  apply (IH (length r') ltac:(lia) r'); [lia|lia|by apply cstr_behind|lia|lia].
Qed.

(** [C26] A line that the line buffer holds can have more words than [argv] has
    elements (75 against 50); [parse_line] then stores behind the end of [argv]. *)
Theorem shell_argv_overflow {K} `{Kernel K} fuel lit line q argv (s : sh K) ws rest
  (Hws : Forall is_word ws) (Hlen : Z.of_nat (length (join ws)) < LINE_MAX - 1) (Hargs : SHELL_SIZEX < Z.of_nat (length ws))
  (Hfuel : (length (join ws) < fuel)%nat) (Hrest : Forall printable rest) (Htyped : typed s = join ws ++ 13 :: rest) :
  shell_round fuel lit line q argv s = Stuck.
Proof.
  destruct (read_typed ws rest line (mem s) (printed s ++ [Prompt]) Hws Hlen Hrest) as (m1 & out1 & E1 & C1 & _).
  unfold shell_round, print. kstep. cbn [typed mem printed kernel]. rewrite Htyped, E1. unfold parse_line.
  rewrite (parse_loop_overflow (length (join ws)) (join ws)); [done|done|done|done|done|].
  by rewrite words_join.
Qed.

(** ** Loading a program *)

(** The string constants [clear], [fire], [exit], [ls], [load], [ps], [kill],
    [suspend] and [resume], with their addresses. *)
Definition literal_texts (lit : literals) : list (Z * list Z) :=
  [(str_clear lit, [99; 108; 101; 97; 114]); (str_fire lit, [102; 105; 114; 101]); (str_exit lit, [101; 120; 105; 116]); (str_ls lit, [108; 115]);
   (str_load lit, [108; 111; 97; 100]); (str_ps lit, [112; 115]); (str_kill lit, [107; 105; 108; 108]);
   (str_suspend lit, [115; 117; 115; 112; 101; 110; 100]); (str_resume lit, [114; 101; 115; 117; 109; 101])].

(** They are in memory, and not in the line buffer. *)
Definition literals_in (m : bmem) (line : Z) (lit : literals) : Prop :=
  Forall (fun x => is_cstr m (fst x) (snd x) /\ (fst x + Z.of_nat (length (snd x)) < line \/ line + LINE_MAX <= fst x)) (literal_texts lit).

Lemma literals_frame m m' line lit :
  (forall x, x < line \/ line + LINE_MAX <= x -> m' x = m x) -> literals_in m line lit -> literals_in m' line lit.
Proof.
  intros E H. eapply list.Forall_impl; [exact H|]. intros [p t] [Hc Hp]. split; [|done]. eapply is_cstr_frame; [|exact Hc].
  intros x Hx. apply E. cbn [fst snd] in *. lia.
Qed.

Lemma same_run {K} `{Kernel K} fuel m line lit (s : sh K) p t a w :
  mem s = m -> literals_in m line lit -> In (p, t) (literal_texts lit) -> is_cstr m a w -> (length t < fuel)%nat ->
  same fuel p a s = Ret (bool_decide (t = w), s).
Proof.
  intros <- Hl Hin Ha Hf. unfold literals_in in Hl. rewrite Forall_forall in Hl. destruct (Hl (p, t) Hin) as [Hc _].
  unfold same. by rewrite (String_facts.same_string_spec fuel (mem s) p a t w).
Qed.

Lemma digit_true d : 48 <= d <= 57 -> truth (Ctype_core.isdigit d) = true.
Proof.
  intros H. unfold Ctype_core.isdigit. assert (E : d ∈ [48; 49; 50; 51; 52; 53; 54; 55; 56; 57]).
  { replace d with (48 + Z.of_nat (Z.to_nat (d - 48))) by lia. assert (Hk : (Z.to_nat (d - 48) < 10)%nat) by lia.
    revert Hk. generalize (Z.to_nat (d - 48)). intros k Hk. do 10 (destruct k as [|k]; [set_solver|]). lia. }
  repeat (apply list_elem_of_cons in E as [->|E]; [reflexivity|]). set_solver.
Qed.

(** [atoi] on digits. *)
Lemma atoi_digits_run fuel : forall ds m s v, is_cstr m s ds -> Forall is_digit ds -> 0 <= v -> dec v ds < 2 ^ 31 -> (length ds < fuel)%nat ->
  Stdlib_core.atoi_digits fuel m s v = Some (dec v ds).
Proof.
  induction fuel as [|fuel IH]; intros ds m s v Hc Hd Hv Hn Hf; [lia|]. cbn [Stdlib_core.atoi_digits]. destruct ds as [|d ds].
  - apply is_cstr_nil in Hc. by rewrite Hc.
  - apply is_cstr_cons in Hc as [[-> Hr] Hc]. apply list.Forall_cons_1 in Hd as [Hd Hds]. unfold is_digit in Hd.
    change (dec v (d :: ds)) with (dec (v * 10 + (d - 48)) ds) in *. pose proof (dec_mono ds (v * 10 + (d - 48)) ltac:(lia) Hds).
    rewrite (s8_small d) by lia. rewrite (digit_true d) by lia. rewrite (proj2 (Z.eqb_neq d 0)) by lia. cbn [negb andb].
    rewrite (s32_small (v * 10)), (s32_small (v * 10 + _)) by lia. apply IH; [done|done|lia|done|cbn in Hf; lia].
Qed.

Lemma atoi_run fuel ds m s : s <> 0 -> is_cstr m s ds -> ds <> [] -> Forall is_digit ds -> dec 0 ds < 2 ^ 31 -> (length ds < fuel)%nat ->
  Stdlib_core.atoi fuel m s = Some (dec 0 ds).
Proof.
  intros Hs Hc Hne Hd Hn Hf. unfold Stdlib_core.atoi. rewrite (proj2 (Z.eqb_neq s 0)) by done.
  assert (H0 : s8 (m s) = m s /\ 48 <= m s <= 57).
  { destruct ds as [|d ds]; [done|]. apply is_cstr_cons in Hc as [[-> _] _]. apply list.Forall_cons_1 in Hd as [Hd _].
    unfold is_digit in Hd. split; [apply s8_small; lia|done]. }
  destruct H0 as [E0 H0]. assert (Hsp : truth (Ctype_core.isspace (m s)) = false).
  { unfold Ctype_core.isspace. repeat (rewrite (proj2 (Z.eqb_neq (m s) _)) by lia). done. }
  destruct fuel as [|fuel]; [lia|]. cbn [Stdlib_core.skip_spaces]. rewrite E0, Hsp, andb_false_r. rewrite E0.
  rewrite (proj2 (Z.eqb_neq (m s) 43)), (proj2 (Z.eqb_neq (m s) 45)) by lia. cbn [orb]. by rewrite (atoi_digits_run (S fuel) ds).
Qed.

(** The walk over the directory stops at entry [n] when the entries before it
    are used. *)
Lemma find_entry_run {K} `{Kernel K} (s : sh K) buf n : forall k fuel p, 0 <= p -> p + Z.of_nat k = n -> (k < fuel)%nat ->
  (forall i, p <= i < n -> exists l z, buf !! Z.to_nat (2 * i) = Some l /\ buf !! Z.to_nat (2 * i + 1) = Some z /\ l <> 0) ->
  forall l z, buf !! Z.to_nat (2 * n) = Some l -> buf !! Z.to_nat (2 * n + 1) = Some z ->
  find_entry fuel buf p n s = Ret ((l, z), s).
Proof.
  induction k as [|k IH]; intros fuel p Hp E Hf Hu l z Hl Hz; (destruct fuel as [|fuel]; [lia|]); cbn [find_entry]; unfold entry.
  - assert (p = n) as -> by lia. rewrite Hl, Hz. kstep. by rewrite Z.ltb_irrefl.
  - destruct (Hu p ltac:(lia)) as (l0 & z0 & -> & -> & H0). kstep. cbn [fst].
    rewrite (proj2 (Z.ltb_lt p n)), (proj2 (Z.eqb_neq l0 0)) by lia. cbn [andb negb].
    apply IH; [lia|lia|lia|intros i Hi; apply Hu; lia|done|done].
Qed.

Definition load_result (code : Z) : message :=
  if code =? 0 then Loaded else if code =? 1 then Too_much_competition else Load_error.

Lemma do_load_run {K} `{Kernel K} fuel (s : sh K) ds a k1 k2 rc buf l z code :
  a <> 0 -> is_cstr (mem s) a ds -> Forall is_digit ds -> ds <> [] -> (length ds + 64 < fuel)%nat -> dec 0 ds < 64 ->
  sys_readdir (kernel s) = Ret ((rc, buf), k1) -> 0 <= rc ->
  (forall i, 0 <= i < dec 0 ds -> exists l z, buf !! Z.to_nat (2 * i) = Some l /\ buf !! Z.to_nat (2 * i + 1) = Some z /\ l <> 0) ->
  buf !! Z.to_nat (2 * dec 0 ds) = Some l -> buf !! Z.to_nat (2 * dec 0 ds + 1) = Some z -> l <> 0 ->
  sys_loadproc l z k1 = Ret (code, k2) ->
  do_load fuel a s = Ret (tt, mk_sh (mem s) (typed s) (printed s ++ [load_result code]) k2).
Proof.
  intros Ha Hc Hds Hne Hf Hn Hdir Hrc Hu Hl Hz Hl0 Hload. pose proof (dec_mono ds 0 ltac:(lia) Hds).
  unfold do_load, syscall at 1, bind at 1, zoom at 1. rewrite Hdir. cbn [fst snd]. rewrite (proj2 (Z.ltb_ge rc 0)) by lia.
  kstep. cbn [mem]. rewrite (atoi_run fuel ds) by (done || lia).
  erewrite bind_step by (apply (find_entry_run _ buf (dec 0 ds) (Z.to_nat (dec 0 ds))); done || lia).
  cbn [fst snd]. rewrite (proj2 (Z.eqb_neq l 0)) by done. cbn [negb]. unfold syscall, bind, zoom. cbn [kernel]. by rewrite Hload.
Qed.

(** [C25] Typing [load] and a number loads the program of that entry of the directory:
    when the directory can be read and its entries up to the number are used,
    the shell calls [loadproc] once, with the location and the size of that
    entry, and reports the result. *)
Theorem shell_loads_program {K} `{Kernel K} fuel lit line q argv (s : sh K) ds rest k1 k2 rc buf l z code
  (Hfuel : (210 < fuel)%nat) (Hargv : length argv = Z.to_nat SHELL_SIZEX) (Hrest : Forall printable rest)
  (Hline : 0 < line) (Hlit : literals_in (mem s) line lit)
  (Hds : Forall is_digit ds) (Hne : ds <> []) (Hlen : (length ds < 140)%nat) (Hn : dec 0 ds < 64)
  (Htyped : typed s = [108; 111; 97; 100] ++ 32 :: ds ++ 13 :: rest)
  (Hdir : sys_readdir (kernel s) = Ret ((rc, buf), k1)) (Hrc : 0 <= rc)
  (Hused : forall i, 0 <= i < dec 0 ds -> exists l z, buf !! Z.to_nat (2 * i) = Some l /\ buf !! Z.to_nat (2 * i + 1) = Some z /\ l <> 0)
  (Hl : buf !! Z.to_nat (2 * dec 0 ds) = Some l) (Hz : buf !! Z.to_nat (2 * dec 0 ds + 1) = Some z) (Hl0 : l <> 0)
  (Hload : sys_loadproc l z k1 = Ret (code, k2)) :
  exists m' out', shell_round fuel lit line q argv s = Ret (Continue, mk_sh m' rest (out' ++ [load_result code]) k2).
Proof.
  set (load := [108; 111; 97; 100]) in *.
  assert (Hws : Forall is_word [load; ds]).
  { constructor; [|constructor; [|constructor]]; (split; [done|split]); try (repeat constructor; done);
      (eapply list.Forall_impl; [exact Hds|]); unfold is_digit, is_char; intros; lia. }
  assert (Hj : length (join [load; ds]) = (5 + length ds)%nat) by done.
  destruct (typed_line_run fuel [load; ds] rest line (mem s) (printed s ++ [Prompt]) argv Hws) as (m1 & out1 & argv' & m2 & E1 & E2 & W & O);
    [rewrite Hj; unfold LINE_MAX, SHELL_SIZEX; lia|done|lia|done|done|].
  destruct (W 0%nat load eq_refl) as (a0 & A0 & C0 & R0), (W 1%nat ds eq_refl) as (a1 & A1 & C1 & R1).
  exists m2, out1. rewrite (shell_round_run fuel lit line q argv s m1 rest out1 2 argv' m2); [|by rewrite Htyped, <- E1|exact E2].
  apply (literals_frame _ _ _ _ O) in Hlit. set (s2 := mk_sh m2 rest out1 (kernel s)).
  assert (Hsame : forall p t, In (p, t) (literal_texts lit) -> same fuel p a0 s2 = Ret (bool_decide (t = load), s2)).
  { intros p t Hin. apply (same_run fuel m2 line lit); [done|done|done|done|].
    cbn in Hin. repeat (destruct Hin as [Hin|Hin]; [injection Hin as _ <-; cbn; lia|]). done. }
  unfold command, arg. cbn [Z.eqb Pos.eqb]. rewrite A0. kstep. cbv zeta.
  do 4 (erewrite bind_step by (apply Hsame; cbn; tauto); rewrite bool_decide_eq_false_2 by done).
  erewrite bind_step by (apply Hsame; cbn; tauto). rewrite bool_decide_eq_true_2 by done.
  rewrite A1. kstep. erewrite bind_step; [reflexivity|]. unfold LINE_MAX, SHELL_SIZEX in R1.
  exact (do_load_run fuel s2 ds a1 k1 k2 rc buf l z code ltac:(lia) C1 Hds Hne ltac:(lia) ltac:(lia) Hdir Hrc Hused Hl Hz Hl0 Hload).
Qed.

(** ** Instances *)
Module Shell_instances.

(** A kernel with a directory of two programs, which keeps the programs loaded. *)
#[local] Instance demo_kernel : Kernel (list (Z * Z)) := {
  sys_mbox_open _ := ret 0;
  sys_mbox_send _ _ := ret 0;
  sys_readdir := ret (0, [20; 3; 23; 4] ++ replicate 124 0);
  sys_loadproc l z := modify (fun k => k ++ [(l, z)]) ;;; ret 0
}.

(** The string constants, one after the other from address 1000 on. *)
Definition demo_lit : literals := mk_literals 1000 1010 1020 1030 1040 1050 1060 1070 1080.

Definition demo_mem : bmem := fun a =>
  match find (fun x => (fst x <=? a) && (a <? fst x + Z.of_nat (length (snd x)))) (literal_texts demo_lit) with
  | Some (p, t) => nth (Z.to_nat (a - p)) t 0
  | None => 0
  end.

(** [load 1] *)
Definition demo_shell : sh (list (Z * Z)) := mk_sh demo_mem [108; 111; 97; 100; 32; 49; 13; 108; 115; 13] [] [].

Lemma shell_arguments_witness : exists argv' s',
  shell_round 60 demo_lit 100 0 (replicate 50 0) demo_shell = command 60 demo_lit 0 2 argv' s' /\ typed s' = [108; 115; 13].
Proof.
  destruct (shell_arguments 60 demo_lit 100 0 (replicate 50 0) demo_shell [[108; 111; 97; 100]; [49]] [108; 115; 13]) as (argv' & s' & E & _ & _ & T & _);
    [repeat constructor; done|reflexivity|done|cbn; lia|reflexivity|repeat constructor; done|reflexivity|].
  exists argv', s'. split; [exact E|exact T].
Defined.

Lemma shell_argv_overflow_witness :
  shell_round 160 demo_lit 100 0 (replicate 50 0) (mk_sh demo_mem (join (replicate 51 [97]) ++ [13]) [] []) = Stuck.
Proof.
  apply (shell_argv_overflow 160 demo_lit 100 0 (replicate 50 0) (mk_sh demo_mem (join (replicate 51 [97]) ++ [13]) [] []) (replicate 51 [97]) []);
    [apply Forall_replicate; repeat constructor; done|reflexivity|reflexivity|cbn; lia|constructor|reflexivity].
Defined.

Lemma shell_loads_program_witness : exists m' out',
  shell_round 211 demo_lit 100 0 (replicate 50 0) demo_shell = Ret (Continue, mk_sh m' [108; 115; 13] (out' ++ [Loaded]) [(23, 4)]).
Proof.
  apply (shell_loads_program 211 demo_lit 100 0 (replicate 50 0) demo_shell [49] [108; 115; 13] [] [(23, 4)] 0 ([20; 3; 23; 4] ++ replicate 124 0) 23 4 0).
  - lia.
  - reflexivity.
  - repeat constructor; done.
  - lia.
  - unfold literals_in, literal_texts. repeat (apply List.Forall_cons; [split; [apply String_instances.cstr_b_ok; reflexivity|right; done]|]). apply List.Forall_nil.
  - repeat constructor; done.
  - done.
  - cbn. lia.
  - reflexivity.
  - reflexivity.
  - reflexivity.
  - lia.
  - intros i Hi. exists 20, 3. replace i with 0 by (cbn in Hi; lia). split_and!; done.
  - reflexivity.
  - reflexivity.
  - done.
  - reflexivity.
Defined.

End Shell_instances.
