(* ===== verification/Dlist.v ===== *)
(** * Doubly linked lists

    Models [src/src/kernel/usb/list.h], the circular lists with a head element
    that the USB and PCI layers use.  The macros work on pointers to
    [struct list]; the memory maps the addresses of such structures to their two
    links.  [dls] is that memory beside whatever else the body of a loop works
    on.

    The theorems say which abstract list the pointers stand for: linking appends,
    unlinking removes, and the loops visit the elements in order, the second
    form also when its body unlinks what it visits. *)

From S2P Require Import Prelude.

Record lnode : Type := mk_lnode { lnext : Z; lprev : Z }.

Abbreviation dmem := (gmap Z lnode).

Definition set_lnext (v : Z) (n : lnode) : lnode := mk_lnode v (lprev n).
Definition set_lprev (v : Z) (n : lnode) : lnode := mk_lnode (lnext n) v.

Record dls {X : Type} : Type := mk_dls { lmem : dmem; others : X }.
Arguments dls X : clear implicits.
Arguments mk_dls {X}.

Section Macros.

Context {X : Type}.

Definition lrd (p : Z) (f : lnode -> Z) : M (dls X) Z :=
  fun s => match lmem s !! p with Some n => Ret (f n, s) | None => Stuck end.

Definition lwr (p : Z) (f : lnode -> lnode) : M (dls X) unit :=
  fun s => match lmem s !! p with
           | Some n => Ret (tt, mk_dls (<[p := f n]> (lmem s)) (others s))
           | None => Stuck
           end.

Definition LIST_INIT (head : Z) : M (dls X) unit :=
  lwr head (set_lnext head) ;;; lwr head (set_lprev head).

Definition LIST_LINK (head element : Z) : M (dls X) unit :=
  p <-- lrd head lprev ;;
  lwr element (set_lprev p) ;;;
  p <-- lrd element lprev ;;
  lwr p (set_lnext element) ;;;
  lwr element (set_lnext head) ;;;
  lwr head (set_lprev element).

Definition LIST_UNLINK (element : Z) : M (dls X) unit :=
  n <-- lrd element lnext ;;
  p <-- lrd element lprev ;;
  lwr n (set_lprev p) ;;;
  p <-- lrd element lprev ;;
  n <-- lrd element lnext ;;
  lwr p (set_lnext n).

Definition LIST_FIRST (head : Z) : M (dls X) Z := lrd head lnext.
Definition LIST_LAST (head : Z) : M (dls X) Z := lrd head lprev.

Fixpoint for_each_from (fuel : nat) (head : Z) (body : Z -> M (dls X) unit) (element_i : Z) : M (dls X) unit :=
  match fuel with
  | O => out_of_fuel
  | S f =>
      if element_i =? head then ret tt
      else
        body element_i ;;;
        n <-- lrd element_i lnext ;;
        for_each_from f head body n
  end.

Definition LIST_FOR_EACH (fuel : nat) (head : Z) (body : Z -> M (dls X) unit) : M (dls X) unit :=
  e <-- lrd head lnext ;; for_each_from fuel head body e.

Fixpoint for_each_safe_from (fuel : nat) (head : Z) (body : Z -> M (dls X) unit) (element_i helper : Z)
    : M (dls X) unit :=
  match fuel with
  | O => out_of_fuel
  | S f =>
      if element_i =? head then ret tt
      else
        body element_i ;;;
        n <-- lrd helper lnext ;;
        for_each_safe_from f head body helper n
  end.

Definition LIST_FOR_EACH_SAFE (fuel : nat) (head : Z) (body : Z -> M (dls X) unit) : M (dls X) unit :=
  e <-- lrd head lnext ;;
  h <-- lrd e lnext ;;
  for_each_safe_from fuel head body e h.

(** ** The list that the pointers stand for *)

Definition ln (m : dmem) (p : Z) : option Z := lnext <$> m !! p.
Definition lp (m : dmem) (p : Z) : option Z := lprev <$> m !! p.

(** A path from [a] through [l] to [z], linked in both directions. *)
Fixpoint path (m : dmem) (a : Z) (l : list Z) (z : Z) : Prop :=
  match l with
  | [] => ln m a = Some z /\ lp m z = Some a
  | b :: l' => (ln m a = Some b /\ lp m b = Some a) /\ path m b l' z
  end.

Definition dlist (m : dmem) (head : Z) (l : list Z) : Prop := NoDup (head :: l) /\ path m head l head.

Lemma path_app m a l1 b l2 z : path m a (l1 ++ b :: l2) z <-> path m a l1 b /\ path m b l2 z.
Proof. revert a. induction l1 as [|c l1 IH]; intros a; cbn [app path]; [done|]. rewrite IH. tauto. Qed.

Lemma path_frame m m' a l z :
  (forall u, u = a \/ u ∈ l -> ln m' u = ln m u) -> (forall u, u ∈ l \/ u = z -> lp m' u = lp m u) ->
  path m a l z -> path m' a l z.
Proof.
  revert a. induction l as [|b l IH]; intros a Hn Hp; cbn [path].
  - intros [H1 H2]. split; [rewrite Hn by auto|rewrite Hp by auto]; done.
  - intros [[H1 H2] H3]. split.
    + split; [rewrite Hn by auto|rewrite Hp by set_solver]; done.
    + apply IH; [set_solver..|done].
Qed.

Lemma ln_has m p v : ln m p = Some v -> exists n, m !! p = Some n /\ lnext n = v.
Proof. unfold ln. destruct (m !! p) as [n|]; [|done]. intros [= <-]. eauto. Qed.

Lemma lp_has m p v : lp m p = Some v -> exists n, m !! p = Some n /\ lprev n = v.
Proof. unfold lp. destruct (m !! p) as [n|]; [|done]. intros [= <-]. eauto. Qed.

Lemma lrd_next m p v o {B} (k : Z -> M (dls X) B) :
  ln m p = Some v -> bind (lrd p lnext) k (mk_dls m o) = k v (mk_dls m o).
Proof. intros (n & H & <-)%ln_has. unfold bind, lrd. cbn [lmem]. by rewrite H. Qed.

Lemma lrd_prev m p v o {B} (k : Z -> M (dls X) B) :
  lp m p = Some v -> bind (lrd p lprev) k (mk_dls m o) = k v (mk_dls m o).
Proof. intros (n & H & <-)%lp_has. unfold bind, lrd. cbn [lmem]. by rewrite H. Qed.

(** Assignments to a link, by what they do to the links. *)
Lemma set_next_ok m p v o {B} (k : unit -> M (dls X) B) :
  is_Some (m !! p) ->
  exists m', bind (lwr p (set_lnext v)) k (mk_dls m o) = k tt (mk_dls m' o)
    /\ (forall u, ln m' u = if u =? p then Some v else ln m u) /\ (forall u, lp m' u = lp m u).
Proof.
  intros [n H]. exists (<[p := set_lnext v n]> m). split_and!.
  - unfold bind, lwr. cbn [lmem others]. by rewrite H.
  - intros u. unfold ln. destruct (Z.eqb_spec u p) as [->|Hu]; [by rewrite lookup_insert_eq|by rewrite lookup_insert_ne].
  - intros u. unfold lp. destruct (Z.eqb_spec u p) as [->|Hu]; [by rewrite lookup_insert_eq, H|by rewrite lookup_insert_ne].
Qed.

Lemma set_prev_ok m p v o {B} (k : unit -> M (dls X) B) :
  is_Some (m !! p) ->
  exists m', bind (lwr p (set_lprev v)) k (mk_dls m o) = k tt (mk_dls m' o)
    /\ (forall u, lp m' u = if u =? p then Some v else lp m u) /\ (forall u, ln m' u = ln m u).
Proof.
  intros [n H]. exists (<[p := set_lprev v n]> m). split_and!.
  - unfold bind, lwr. cbn [lmem others]. by rewrite H.
  - intros u. unfold lp. destruct (Z.eqb_spec u p) as [->|Hu]; [by rewrite lookup_insert_eq|by rewrite lookup_insert_ne].
  - intros u. unfold ln. destruct (Z.eqb_spec u p) as [->|Hu]; [by rewrite lookup_insert_eq, H|by rewrite lookup_insert_ne].
Qed.

Lemma ln_some m p : is_Some (m !! p) <-> is_Some (ln m p).
Proof. unfold ln. by rewrite fmap_is_Some. Qed.

Lemma lp_some m p : is_Some (m !! p) <-> is_Some (lp m p).
Proof. unfold lp. by rewrite fmap_is_Some. Qed.

(** The last element of a path. *)
Definition end_of (a : Z) (l : list Z) : Z := List.last l a.

Lemma end_snoc a l b : end_of a (l ++ [b]) = b.
Proof. unfold end_of. by rewrite List.last_last. Qed.

Lemma end_in a l : end_of a l ∈ a :: l.
Proof.
  destruct l as [|b l _] using rev_ind; [left|]. rewrite end_snoc. set_solver.
Qed.

Lemma path_end m a l z : path m a l z -> ln m (end_of a l) = Some z /\ lp m z = Some (end_of a l).
Proof.
  destruct l as [|b l _] using rev_ind; [done|]. rewrite path_app, end_snoc. by intros [_ H].
Qed.

Lemma path_has m a l z u : path m a l z -> u ∈ a :: l -> is_Some (m !! u).
Proof.
  revert a. induction l as [|b l IH]; intros a; cbn [path].
  - intros [H _] Hu. apply list_elem_of_singleton in Hu as ->. apply ln_some. by rewrite H.
  - intros [[H _] Hp] Hu. apply elem_of_cons in Hu as [->|Hu]; [apply ln_some; by rewrite H|by eapply IH].
Qed.

(** What linking does to the links. *)
Lemma link_run m o head l e :
  dlist m head l -> e ∉ head :: l -> is_Some (m !! e) ->
  exists m', LIST_LINK head e (mk_dls m o) = Ret (tt, mk_dls m' o)
    /\ (forall u, ln m' u = if u =? e then Some head else if u =? end_of head l then Some e else ln m u)
    /\ (forall u, lp m' u = if u =? head then Some e else if u =? e then Some (end_of head l) else lp m u).
Proof.
  intros [Hnd Hp] He Hm. destruct (path_end _ _ _ _ Hp) as [E1 E2]. pose proof (end_in head l) as Hin.
  set (p := end_of head l) in *. assert (Hpe : p <> e) by (intros ->; done).
  assert (Hhe : head <> e) by (intros ->; apply He; left).
  unfold LIST_LINK. rewrite (lrd_prev _ _ _ _ _ E2).
  match goal with |- context [bind (lwr e (set_lprev p)) ?k _] =>
    destruct (set_prev_ok m e p o k Hm) as (m1 & -> & P1 & N1) end.
  rewrite (lrd_prev m1 e p) by (rewrite P1, Z.eqb_refl; done).
  match goal with |- context [bind (lwr p (set_lnext e)) ?k _] =>
    destruct (set_next_ok m1 p e o k) as (m2 & -> & N2 & P2) end.
  { apply ln_some. rewrite N1, E1. done. }
  match goal with |- context [bind (lwr e (set_lnext head)) ?k _] =>
    destruct (set_next_ok m2 e head o k) as (m3 & -> & N3 & P3) end.
  { apply lp_some. rewrite P2, P1, Z.eqb_refl. done. }
  destruct (set_prev_ok m3 head e o (fun _ => ret tt)) as (m4 & E4 & P4 & N4).
  { apply lp_some. rewrite P3, P2, P1, (proj2 (Z.eqb_neq head e) Hhe), E2. done. }
  exists m4. split_and!.
  - unfold bind, ret in E4. by destruct (lwr head (set_lprev e) (mk_dls m3 o)) as [[[] ?]| | | |].
  - intros u. by rewrite N4, N3, N2, N1.
  - intros u. by rewrite P4, P3, P2, P1.
Qed.

(** A path whose last link is turned to another element. *)
Lemma path_turn m m' a l z z' :
  NoDup (a :: l) -> path m a l z ->
  (forall u, u ∈ a :: l -> u <> end_of a l -> ln m' u = ln m u) -> (forall u, u ∈ l -> lp m' u = lp m u) ->
  ln m' (end_of a l) = Some z' -> lp m' z' = Some (end_of a l) -> path m' a l z'.
Proof.
  destruct l as [|b l _] using rev_ind; intros Hnd Hp Hn Hl E1 E2; [done|].
  rewrite end_snoc in *. apply path_app in Hp as [Hp _]. apply path_app. split; [|done].
  eapply path_frame, Hp; intros u Hu.
  - apply Hn; [set_solver|]. intros ->. rewrite app_comm_cons, list.NoDup_app in Hnd.
    destruct Hnd as (_ & H & _). apply (H b); set_solver.
  - apply Hl. set_solver.
Qed.

Lemma link_dlist m m' head l e :
  dlist m head l -> e ∉ head :: l ->
  (forall u, ln m' u = if u =? e then Some head else if u =? end_of head l then Some e else ln m u) ->
  (forall u, lp m' u = if u =? head then Some e else if u =? e then Some (end_of head l) else lp m u) ->
  dlist m' head (l ++ [e]).
Proof.
  intros [Hnd Hp] He N P. assert (Hhe : head <> e) by (intros ->; apply He; left).
  assert (Hend : end_of head l <> e) by (intros <-; apply He, end_in). split.
  - rewrite app_comm_cons. apply list.NoDup_app. split_and!; [done| |apply NoDup_singleton].
    intros u Hu Hin. apply list_elem_of_singleton in Hin as ->. done.
  - apply path_app. split; [apply (path_turn m m' head l head e Hnd Hp)|].
    + intros u Hu Hue. rewrite N. zbool; [by subst|done|done].
    + intros u Hu. rewrite P. zbool; [|by subst; set_solver|done].
      subst. by apply list.NoDup_cons in Hnd as [? _].
    + rewrite N. zbool; congruence.
    + rewrite P. zbool; congruence.
    + split; [rewrite N|rewrite P]; zbool; congruence.
Qed.

(** The first element of a path, or its end. *)
Definition start_of (l : list Z) (z : Z) : Z := List.hd z l.

Lemma path_start m a l z : path m a l z -> ln m a = Some (start_of l z) /\ lp m (start_of l z) = Some a.
Proof. destruct l; cbn; tauto. Qed.

Lemma unlink_run m o head l1 e l2 :
  dlist m head (l1 ++ e :: l2) ->
  exists m', LIST_UNLINK e (mk_dls m o) = Ret (tt, mk_dls m' o) /\ dlist m' head (l1 ++ l2)
    /\ ln m' e = ln m e /\ lp m' e = lp m e.
Proof.
  intros [Hnd Hp]. apply path_app in Hp as [Hp1 Hp2].
  destruct (path_end _ _ _ _ Hp1) as [E1 E2]. destruct (path_start _ _ _ _ Hp2) as [S1 S2].
  set (p := end_of head l1) in *. set (n := start_of l2 head) in *.
  assert (Hsplit : (e ∉ head :: l1) /\ (e ∉ l2) /\ NoDup (head :: l1) /\ NoDup (head :: l2)
    /\ (forall u, u ∈ l1 -> u ∉ l2)).
  { clear -Hnd. rewrite list.NoDup_cons, list.NoDup_app, list.NoDup_cons in Hnd.
    destruct Hnd as (H1 & H2 & H3 & H4 & H5). split_and!.
    - intros [->|Hin]%elem_of_cons; [set_solver|]. apply (H3 e Hin). left.
    - done.
    - apply list.NoDup_cons. set_solver.
    - apply list.NoDup_cons. set_solver.
    - intros u Hu Hin. apply (H3 u Hu). by right. }
  destruct Hsplit as (A1 & A2 & A3 & A4 & A5).
  assert (Hpe : p <> e) by (intros <-; apply A1, end_in).
  assert (Hne : n <> e).
  { unfold n, start_of. destruct l2; cbn; intros ->; [apply A1; left|apply A2; left]. }
  unfold LIST_UNLINK. rewrite (lrd_next _ _ _ _ _ S1), (lrd_prev _ _ _ _ _ E2).
  match goal with |- context [bind (lwr n (set_lprev p)) ?k _] =>
    destruct (set_prev_ok m n p o k) as (m1 & -> & P1 & N1) end.
  { apply lp_some. by rewrite S2. }
  rewrite (lrd_prev m1 e p) by (rewrite P1, (proj2 (Z.eqb_neq e n)) by done; done).
  rewrite (lrd_next m1 e n) by (by rewrite N1).
  destruct (set_next_ok m1 p n o (fun _ => ret tt)) as (m2 & E & N2 & P2).
  { apply ln_some. by rewrite N1, E1. }
  assert (N : forall u, ln m2 u = if u =? p then Some n else ln m u) by (intros u; by rewrite N2, N1).
  assert (P : forall u, lp m2 u = if u =? n then Some p else lp m u) by (intros u; by rewrite P2, P1).
  exists m2. split_and!.
  - unfold bind, ret in E. by destruct (lwr p (set_lnext n) (mk_dls m1 o)) as [[[] ?]| | | |].
  - split.
    { apply list.NoDup_cons. split; [|apply list.NoDup_app; split_and!; [|done|]].
      - clear -A3 A4. rewrite !list.NoDup_cons in *. set_solver.
      - by apply list.NoDup_cons in A3 as [_ A3].
      - by apply list.NoDup_cons in A4 as [_ A4]. }
    assert (T : path m2 head l1 n).
    { apply (path_turn m m2 head l1 e n A3 Hp1).
      - intros u Hu Hup. rewrite N. zbool; done.
      - intros u Hu. rewrite P. zbool; [|done]. exfalso. unfold n, start_of in *. destruct l2 as [|x l2]; cbn in *; subst.
        + by apply list.NoDup_cons in A3 as [? _].
        + apply (A5 x Hu). left.
      - rewrite N. by rewrite Z.eqb_refl.
      - rewrite P. by rewrite Z.eqb_refl. }
    destruct l2 as [|x l2]; [by rewrite app_nil_r|]. apply path_app. split; [exact T|].
    destruct Hp2 as [_ Hp2]. eapply path_frame, Hp2; intros u Hu.
    + rewrite N. zbool; [|done]. subst u. exfalso. pose proof (end_in head l1) as Hin. fold p in Hin.
      apply elem_of_cons in Hin as [Hin|Hin].
      * rewrite Hin in Hu. apply list.NoDup_cons in A4 as [A4 _]. apply A4. destruct Hu as [<-|?]; [left|by right].
      * apply (A5 p Hin). destruct Hu as [->|?]; [left|by right].
    + rewrite P. zbool; [|done]. subst u. exfalso. apply list.NoDup_cons in A4 as [B1 B2].
      apply list.NoDup_cons in B2 as [B2 _]. change n with x in Hu. destruct Hu as [Hu|Hu]; [done|].
      apply B1. rewrite <- Hu. left.
  - rewrite N. zbool; congruence.
  - rewrite P. zbool; congruence.
Qed.

(** ** The loops *)

Fixpoint visit (l : list Z) (body : Z -> M (dls X) unit) : M (dls X) unit :=
  match l with
  | [] => ret tt
  | e :: l' => body e ;;; visit l' body
  end.

Lemma dlist_next m head l1 e l2 : dlist m head (l1 ++ e :: l2) -> ln m e = Some (start_of l2 head) /\ e <> head.
Proof.
  intros [Hnd Hp]. apply path_app in Hp as [_ Hp]. destruct (path_start _ _ _ _ Hp) as [H _]. split; [done|].
  intros ->. apply list.NoDup_cons in Hnd as [Hnd _]. apply Hnd. set_solver.
Qed.

Lemma dlist_first m head l : dlist m head l -> ln m head = Some (start_of l head).
Proof. intros [_ Hp]. by destruct (path_start _ _ _ _ Hp). Qed.

Lemma for_each_from_run head l body :
  (forall e s, e ∈ l -> dlist (lmem s) head l -> exists s', body e s = Ret (tt, s') /\ dlist (lmem s') head l) ->
  forall l2 l1 s fuel, l = l1 ++ l2 -> dlist (lmem s) head l -> (length l2 < fuel)%nat ->
  for_each_from fuel head body (start_of l2 head) s = visit l2 body s.
Proof.
  intros Hb. induction l2 as [|e l2 IH]; intros l1 s fuel El Hl Hf; (destruct fuel as [|f]; [lia|]).
  - cbn [for_each_from start_of List.hd]. by rewrite Z.eqb_refl.
  - destruct (dlist_next _ _ l1 e l2 ltac:(by rewrite El in Hl)) as [_ Hne].
    cbn [for_each_from start_of List.hd visit]. rewrite (proj2 (Z.eqb_neq e head) Hne).
    destruct (Hb e s) as (s' & E & Hl'); [subst; set_solver|done|].
    rewrite !(bind_step _ _ _ _ _ E). destruct s' as [m' o'].
    destruct (dlist_next m' head l1 e l2 ltac:(by rewrite El in Hl')) as [En _].
    rewrite (lrd_next _ _ _ _ _ En). apply (IH (l1 ++ [e])); [by rewrite <- app_assoc|done|cbn in Hf; lia].
Qed.

Lemma for_each_safe_from_run head body :
  (forall d e rest s, dlist (lmem s) head (d ++ e :: rest) ->
     exists s' d', body e s = Ret (tt, s') /\ dlist (lmem s') head (d' ++ rest)) ->
  forall l d s fuel, dlist (lmem s) head (d ++ l) -> (length l < fuel)%nat ->
  for_each_safe_from fuel head body (start_of l head) (start_of (tail l) (match l with [] => start_of (d ++ l) head | _ => head end)) s
  = visit l body s.
Proof.
  intros Hb. induction l as [|e l IH]; intros d s fuel Hl Hf; (destruct fuel as [|f]; [lia|]).
  - cbn [for_each_safe_from start_of List.hd]. by rewrite Z.eqb_refl.
  - destruct (dlist_next _ _ _ _ _ Hl) as [_ Hne].
    cbn [for_each_safe_from visit tail]. change (start_of (e :: l) head) with e. rewrite (proj2 (Z.eqb_neq e head) Hne).
    destruct (Hb _ _ _ _ Hl) as ([m' o'] & d' & E & Hl'). rewrite !(bind_step _ _ _ _ _ E).
    assert (ln m' (start_of l head) = Some (start_of (tail l) (match l with [] => start_of (d' ++ l) head | _ => head end))) as En.
    { destruct l as [|x l]; [exact (dlist_first _ _ _ Hl')|]. by destruct (dlist_next _ _ _ _ _ Hl') as [H _]. }
    rewrite (lrd_next _ _ _ _ _ En). apply IH; [done|cbn in Hf; lia].
Qed.

(** ** Theorems *)

(** The pointers implement a list with append and removal: [LIST_INIT]
    makes the empty list, [LIST_LINK] appends an element that is not in the list,
    [LIST_UNLINK] removes exactly its element and leaves the links of the
    element, and [LIST_FIRST] and [LIST_LAST] are the ends. *)
Theorem list_macros_refine m o head :
  (is_Some (m !! head) -> exists m', LIST_INIT head (mk_dls m o) = Ret (tt, mk_dls m' o) /\ dlist m' head [])
  /\ (forall l e, dlist m head l -> e ∉ head :: l -> is_Some (m !! e) ->
        exists m', LIST_LINK head e (mk_dls m o) = Ret (tt, mk_dls m' o) /\ dlist m' head (l ++ [e]))
  /\ (forall l1 e l2, dlist m head (l1 ++ e :: l2) ->
        exists m', LIST_UNLINK e (mk_dls m o) = Ret (tt, mk_dls m' o) /\ dlist m' head (l1 ++ l2)
          /\ ln m' e = ln m e /\ lp m' e = lp m e)
  /\ (forall l, dlist m head l -> LIST_FIRST head (mk_dls m o) = Ret (start_of l head, mk_dls m o)
        /\ LIST_LAST head (mk_dls m o) = Ret (end_of head l, mk_dls m o)).
Proof.
  split_and!.
  - intros Hh. unfold LIST_INIT.
    destruct (set_next_ok m head head o (fun _ => lwr head (set_lprev head))) as (m1 & E1 & N1 & P1); [done|].
    destruct (set_prev_ok m1 head head o (fun _ => ret tt)) as (m2 & E2 & P2 & N2).
    { apply ln_some. rewrite N1, Z.eqb_refl. done. }
    exists m2. split.
    + rewrite E1. unfold bind, ret in E2. by destruct (lwr head (set_lprev head) (mk_dls m1 o)) as [[[] ?]| | | |].
    + split; [apply NoDup_singleton|]. cbn [path]. rewrite N2, N1, P2. by rewrite Z.eqb_refl.
  - intros l e Hl He Hm. destruct (link_run m o head l e Hl He Hm) as (m' & E & N & P).
    exists m'. split; [done|]. by eapply link_dlist.
  - intros. by apply unlink_run.
  - intros l Hl. destruct (path_end _ _ _ _ (proj2 Hl)) as [_ H2]. pose proof (dlist_first _ _ _ Hl) as H1.
    apply ln_has in H1 as (n1 & H1 & <-). apply lp_has in H2 as (n2 & H2 & <-).
    unfold LIST_FIRST, LIST_LAST, lrd. cbn [lmem]. rewrite H1. rewrite H1 in H2. injection H2 as ->. done.
Qed.

(** [LIST_FOR_EACH] ends, and runs its body once for each element in order,
    when the body keeps the list; [LIST_FOR_EACH_SAFE] does so even when the body
    takes the element out of the list, as long as the rest stays linked. *)
Theorem list_loops_visit s head l body fuel :
  dlist (lmem s) head l -> (length l < fuel)%nat ->
  ((forall e s, e ∈ l -> dlist (lmem s) head l -> exists s', body e s = Ret (tt, s') /\ dlist (lmem s') head l) ->
   LIST_FOR_EACH fuel head body s = visit l body s)
  /\ ((forall d e rest s, dlist (lmem s) head (d ++ e :: rest) ->
         exists s' d', body e s = Ret (tt, s') /\ dlist (lmem s') head (d' ++ rest)) ->
      LIST_FOR_EACH_SAFE fuel head body s = visit l body s).
Proof.
  intros Hl Hf. destruct s as [m o]. pose proof (dlist_first _ _ _ Hl) as H1. split; intros Hb.
  - unfold LIST_FOR_EACH. cbn [lmem] in H1. rewrite (lrd_next _ _ _ _ _ H1).
    by apply (for_each_from_run head l body Hb l []).
  - unfold LIST_FOR_EACH_SAFE. cbn [lmem] in H1. rewrite (lrd_next _ _ _ _ _ H1).
    assert (E : ln m (start_of l head) = Some (start_of (tail l) (match l with [] => start_of ([] ++ l) head | _ => head end))).
    { destruct l as [|x l]; [done|]. by destruct (dlist_next m head [] x l Hl) as [H _]. }
    rewrite (lrd_next _ _ _ _ _ E). by apply (for_each_safe_from_run head body Hb l []).
Qed.

End Macros.

(** ** Concrete instances *)

Module Dlist_instances.

(** A head at 100 with the elements 1, 2 and 3, and an element 4 outside. *)
Definition three : dmem :=
  list_to_map [(100, mk_lnode 1 3); (1, mk_lnode 2 100); (2, mk_lnode 3 1); (3, mk_lnode 100 2); (4, mk_lnode 0 0)].

Lemma three_dlist : dlist three 100 [1; 2; 3].
Proof. split; [apply (bool_decide_unpack _); vm_compute; exact I|]. vm_compute. tauto. Qed.

Lemma list_macros_refine_witness :
  (exists m', LIST_LINK 100 4 (mk_dls three tt) = Ret (tt, mk_dls m' tt) /\ dlist m' 100 [1; 2; 3; 4])
  /\ (exists m', LIST_UNLINK 2 (mk_dls three tt) = Ret (tt, mk_dls m' tt) /\ dlist m' 100 [1; 3]).
Proof.
  destruct (list_macros_refine three tt 100) as (_ & Hl & Hu & _). split.
  - apply (Hl [1; 2; 3] 4); [apply three_dlist|set_solver|by eexists].
  - destruct (Hu [1] 2 [3] three_dlist) as (m' & E & H & _). by exists m'.
Defined.

(** The body unlinks the element it is called with and records it. *)
Definition take_out (e : Z) : M (dls (list Z)) unit :=
  LIST_UNLINK e ;;; modify (fun s => mk_dls (lmem s) (others s ++ [e])).

Lemma take_out_ok d e rest s :
  dlist (lmem s) 100 (d ++ e :: rest) ->
  exists s' d', take_out e s = Ret (tt, s') /\ dlist (lmem s') 100 (d' ++ rest).
Proof.
  intros H. destruct s as [m o]. destruct (unlink_run m o 100 d e rest H) as (m' & E & H' & _).
  exists (mk_dls m' (o ++ [e])), d. split; [|done]. unfold take_out. by rewrite (bind_step _ _ _ _ _ E).
Qed.

Lemma list_loops_visit_witness :
  LIST_FOR_EACH_SAFE 4 100 take_out (mk_dls three []) = visit [1; 2; 3] take_out (mk_dls three []).
Proof.
  apply (list_loops_visit (mk_dls three []) 100 [1; 2; 3] take_out 4).
  - apply three_dlist.
  - cbn. lia.
  - apply take_out_ok.
Defined.

End Dlist_instances.
