(* ===== verification/Stdio.v ===== *)
(** * Formatted output

    Models [src/src/lib/libc/stdio_core.c] and [stdio.h]: character streams over
    a buffer, the parser of [printf] directives, the formatting of strings,
    characters, integers and pointers, [vfprintf] and the string functions on
    top of it.  [src/src/lib/ansi_term/tprintf.c] is in [Tprintf].

    The only streams of the program are those of the string functions, whose
    flush does nothing.  A [va_list] is what it is on this target, the sequence
    of 32-bit words on the stack.  A C string is an address in memory or a
    constant or local array ([strp]).  Loops that end at a terminating null
    take the section's [fuel].

    The floating-point directives are not modelled; reaching one is [Stuck]. *)

From S2P Require Import Prelude CString.
Import String_core Ctype_core.

Definition EOF : Z := -1.
Definition EINVAL : Z := 4.
Definition EIO : Z := 5.
Definition EUNIMPLEMENTED : Z := 2201.
Definition INT_MAX : Z := 2 ^ 31 - 1.
Definition SIZE_MAX : Z := 2 ^ 32 - 1.

Definition _IOFBF : Z := 0.
Definition _IOLBF : Z := 1.
Definition _IONBF : Z := 2.

(** The memory and a stream. *)
Record file : Type := mk_file {
  fmem : bmem;
  write_base : Z;
  write_ptr : Z;
  write_end : Z;
  buffer_mode : Z;
  written_flushed_ct : Z;
  error : Z
}.

Definition set_fmem (v : bmem) (f : file) : file :=
  mk_file v (write_base f) (write_ptr f) (write_end f) (buffer_mode f) (written_flushed_ct f) (error f).
Definition set_write_ptr (v : Z) (f : file) : file :=
  mk_file (fmem f) (write_base f) v (write_end f) (buffer_mode f) (written_flushed_ct f) (error f).

Definition ferror (f : file) : bool := negb (error f =? 0).

Definition written_ct (f : file) : Z := u32 (written_flushed_ct f + (write_ptr f - write_base f)).

Definition setvbuf (buffer mode size : Z) (f : file) : file :=
  if buffer =? 0 then
    mk_file (fmem f) (write_base f) (write_ptr f) (write_end f) mode (written_flushed_ct f) (error f)
  else mk_file (fmem f) buffer buffer (u32 (buffer + size)) mode (written_flushed_ct f) (error f).

Definition fflush : M file Z := ret 0.

Definition file_init_string_io (m : bmem) (buf bufsz : Z) : file :=
  setvbuf buf _IOFBF bufsz (mk_file m 0 0 0 0 0 0).

Definition fputc (ch : Z) : M file Z :=
  f <-- get ;;
  when (write_ptr f <? write_end f) (modify (set_fmem (upd (fmem f) (write_ptr f) (u8 ch)))) ;;;
  modify (fun f => set_write_ptr (u32 (write_ptr f + 1)) f) ;;;
  f' <-- get ;;
  when ((buffer_mode f' =? _IONBF) || ((buffer_mode f' =? _IOLBF) && (ch =? 10))
        || (write_ptr f' =? write_end f')) (fflush ;;; ret tt) ;;;
  f'' <-- get ;;
  ret (if ferror f'' then EOF else ch).

(** A string: an address, or the characters of a constant or local array. *)
Inductive strp : Type :=
| Addr (a : Z)
| Local (l : list Z).

Definition NULLSTR : strp := Addr 0.

Definition is_null (s : strp) : bool := match s with Addr a => a =? 0 | Local _ => false end.

(** [*s], as a byte, and [s + 1]. *)
Definition deref (m : bmem) (s : strp) : Z :=
  match s with Addr a => m a | Local l => default 0 (head l) end.
Definition next (s : strp) : strp :=
  match s with Addr a => Addr (a + 1) | Local l => Local (tail l) end.

(** ** Format directives *)

Definition WP_UNSPECIFIED : Z := -1.
Definition WP_STAR : Z := -2.

Inductive lenmod : Type :=
| LEN_NONE
| LEN_CHAR
| LEN_SHORT
| LEN_LONG
| LEN_LONG_LONG
| LEN_MAX
| LEN_SIZE
| LEN_PTRDIFF
| LEN_FIXED
| LEN_FAST
| LEN_LONG_DOUBLE
| LEN_DECIMAL32
| LEN_DECIMAL64
| LEN_DECIMAL128.

#[export] Instance lenmod_eq_dec : EqDecision lenmod.
Proof. solve_decision. Defined.

Record fmtspec : Type := mk_spec {
  start : Z;
  len : Z;
  left : bool;
  plus : bool;
  space : bool;
  alt : bool;
  zero : bool;
  width : Z;
  precision : Z;
  lenmod_of : lenmod;
  lenbits : Z;
  specifier : Z
}.

Definition no_spec : fmtspec := mk_spec 0 0 false false false false false 0 0 LEN_NONE 0 0.

(** The flag characters [-], [+], space, [#] and [0]. *)
Definition flag_char (ch : Z) (s : fmtspec) : option fmtspec :=
  if ch =? 45 then Some (mk_spec (start s) (len s) true (plus s) (space s) (alt s) (zero s)
                           (width s) (precision s) (lenmod_of s) (lenbits s) (specifier s))
  else if ch =? 43 then Some (mk_spec (start s) (len s) (left s) true (space s) (alt s) (zero s)
                           (width s) (precision s) (lenmod_of s) (lenbits s) (specifier s))
  else if ch =? 32 then Some (mk_spec (start s) (len s) (left s) (plus s) true (alt s) (zero s)
                           (width s) (precision s) (lenmod_of s) (lenbits s) (specifier s))
  else if ch =? 35 then Some (mk_spec (start s) (len s) (left s) (plus s) (space s) true (zero s)
                           (width s) (precision s) (lenmod_of s) (lenbits s) (specifier s))
  else if ch =? 48 then Some (mk_spec (start s) (len s) (left s) (plus s) (space s) (alt s) true
                           (width s) (precision s) (lenmod_of s) (lenbits s) (specifier s))
  else None.

(** [LENMOD_MAP]: first character and its modifier, second character and its
    modifier. *)
Definition LENMOD_MAP : list (Z * lenmod * Z * lenmod) :=
  [(104, LEN_SHORT, 104, LEN_CHAR); (108, LEN_LONG, 108, LEN_LONG_LONG);
   (106, LEN_MAX, 0, LEN_NONE); (122, LEN_SIZE, 0, LEN_NONE); (116, LEN_PTRDIFF, 0, LEN_NONE);
   (119, LEN_FIXED, 102, LEN_FAST); (76, LEN_LONG_DOUBLE, 0, LEN_NONE);
   (72, LEN_DECIMAL32, 0, LEN_NONE); (68, LEN_DECIMAL64, 68, LEN_DECIMAL128)].

Section Parse.

Context (fuel : nat) (m : bmem).

Fixpoint parse_flags_loop (n : nat) (fmt : Z) (s : fmtspec) : option (Z * fmtspec) :=
  match n with
  | O => None
  | S n' =>
    match flag_char (m fmt) s with
    | Some s' => parse_flags_loop n' (fmt + 1) s'
    | None => Some (fmt, s)
    end
  end.

Definition parse_flags (fmt : Z) (s : fmtspec) : option (Z * fmtspec) := parse_flags_loop fuel fmt s.

(** The digits of a number; [acc] folds a digit into the result. *)
Fixpoint digits_loop (acc : Z -> Z -> Z) (n : nat) (fmt result : Z) : option (Z * Z) :=
  match n with
  | O => None
  | S n' =>
    if truth (m fmt) && truth (isdigit (s8 (m fmt)))
    then digits_loop acc n' (fmt + 1) (acc result (m fmt - 48))
    else Some (fmt, result)
  end.

(** The new position and the value for the target. *)
Definition parse_width_precision (fmt : Z) : option (Z * Z) :=
  if m fmt =? 42 then Some (fmt + 1, WP_STAR)
  else
    '(fin, result) ← digits_loop (fun r d => s32 (s32 (r * 10) + d)) fuel fmt 0;
    Some (fin, if fin =? fmt then WP_UNSPECIFIED else result).

(** The loop over [LENMOD_MAP] goes on after a match. *)
Fixpoint lenmod_loop (map : list (Z * lenmod * Z * lenmod)) (fmt : Z) (lm : lenmod) : Z * lenmod :=
  match map with
  | [] => (fmt, lm)
  | (ch0, lm0, ch1, lm1) :: map' =>
    if truth ch1 && (m fmt =? ch0) && (m (fmt + 1) =? ch1) then lenmod_loop map' (fmt + 2) lm1
    else if m fmt =? ch0 then lenmod_loop map' (fmt + 1) lm0
    else lenmod_loop map' fmt lm
  end.

Definition parse_lenmod (fmt : Z) : option (Z * lenmod * Z) :=
  let '(fmt1, lm) := lenmod_loop LENMOD_MAP fmt LEN_NONE in
  if bool_decide (lm = LEN_FIXED) || bool_decide (lm = LEN_FAST) then
    '(fmt2, bits) ← digits_loop (fun r d => u32 (u32 (r * 10) + d)) fuel fmt1 0;
    Some (fmt2, lm, bits)
  else Some (fmt1, lm, 0).

(** [for (; *fmt && *fmt != '%'; fmt++, spec->len++)] *)
Fixpoint literal_loop (n : nat) (fmt k : Z) : option (Z * Z) :=
  match n with
  | O => None
  | S n' =>
    if truth (m fmt) && negb (m fmt =? 37) then literal_loop n' (fmt + 1) (u32 (k + 1)) else Some (fmt, k)
  end.

Definition parse_spec (fmt : Z) : option (Z * fmtspec) :=
  if negb (m fmt =? 37) then
    '(fin, k) ← literal_loop fuel fmt 0;
    Some (fin, mk_spec fmt k false false false false false 0 0 LEN_NONE 0 0)
  else
    '(f1, s1) ← parse_flags (fmt + 1) (mk_spec fmt 0 false false false false false 0 0 LEN_NONE 0 0);
    '(f2, w) ← parse_width_precision f1;
    '(f3, p) ← (if m f2 =? 46 then
                  '(f, p) ← parse_width_precision (f2 + 1);
                  Some (f, if p =? WP_UNSPECIFIED then 0 else p)
                else Some (f2, WP_UNSPECIFIED));
    '(f4, lm, bits) ← parse_lenmod f3;
    Some (f4 + 1, mk_spec fmt (u32 (f4 + 1 - fmt)) (left s1) (plus s1) (space s1) (alt s1) (zero s1)
                    w p lm bits (s8 (m f4))).

End Parse.

(** ** Formatting values *)

Definition lowerhex : list Z := [48; 49; 50; 51; 52; 53; 54; 55; 56; 57; 97; 98; 99; 100; 101; 102].
Definition upperhex : list Z := [48; 49; 50; 51; 52; 53; 54; 55; 56; 57; 65; 66; 67; 68; 69; 70].

(** The local buffer has [DIGITBUFSZ] characters, the last for the null. *)
Definition DIGITBUFSZ : nat := 129.

(** The digits, from right to left in front of [cur]; [None] when they do not fit
    in the [room] left in the buffer. *)
Fixpoint inttodigits (room : nat) (cur : list Z) (num base : Z) (digitset : list Z) : option (list Z) :=
  if truth num then
    match room with
    | O => None
    | S r => inttodigits r (default 0 (digitset !! Z.to_nat (num mod base)) :: cur) (num / base) base digitset
    end
  else Some cur.

Definition local_digits (num base : Z) (digitset : list Z) : option (list Z) :=
  inttodigits (pred DIGITBUFSZ) [] num base digitset.

Definition signstr (isneg : bool) (s : fmtspec) : list Z :=
  if isneg then [45] else if plus s then [43] else if space s then [32] else [].

(** [zeropad] for the precision, where an unspecified precision is 1. *)
Definition precision_pad (s : fmtspec) (digitct : Z) : Z :=
  let p := if precision s =? WP_UNSPECIFIED then 1 else precision s in
  if digitct <? p then p - digitct else 0.

(** The zeros that fill the width. *)
Definition width_pad (s : fmtspec) (l : Z) : Z := if (l <? width s) && zero s then width s - l else 0.

Definition base_of (specifier : Z) : Z :=
  if (specifier =? 98) || (specifier =? 66) then 2
  else if specifier =? 111 then 8
  else if (specifier =? 120) || (specifier =? 88) then 16
  else 10.

(** The prefix of the [#] flag. *)
Definition alt_prefix (s : fmtspec) (zeropad : Z) (digits : list Z) : list Z :=
  if alt s then
    if specifier s =? 98 then [48; 98]
    else if specifier s =? 66 then [48; 66]
    else if specifier s =? 120 then [48; 120]
    else if specifier s =? 88 then [48; 88]
    else if (specifier s =? 111) && negb (truth zeropad) && negb (default 0 (head digits) =? 48) then [48]
    else []
  else [].

Section Format.

Context (fuel : nat).

(** [for (; n && *str; n--, str++) putc( *str, file);] *)
Fixpoint fputsn_loop (k : nat) (s : strp) (n : Z) : M file unit :=
  match k with
  | O => out_of_fuel
  | S k' =>
    f <-- get ;;
    if truth n && truth (deref (fmem f) s)
    then fputc (s8 (deref (fmem f) s)) ;;; fputsn_loop k' (next s) (n - 1)
    else ret tt
  end.

Definition fputsn (s : strp) (n : Z) : M file Z :=
  if is_null s then ret 0
  else
    fputsn_loop fuel s n ;;;
    f <-- get ;;
    ret (if ferror f then EOF else 0).

Definition fputs (s : strp) : M file Z := fputsn s SIZE_MAX.

Definition fpad (ch count : Z) : M file unit :=
  for_up (Z.to_nat count) 0 1 (fun _ => fputc ch ;;; ret tt).

Definition strp_len (s : strp) : M file Z :=
  f <-- get ;;
  match s with
  | Addr a => match strlen fuel (fmem f) a with Some n => ret n | None => out_of_fuel end
  | Local l => ret (Z.of_nat (length l))
  end.

(** [strlen] returns an [int]; the sum is a [size_t]. *)
Definition fmt_str_val (s : fmtspec) (prefix : strp) (zeropad : Z) (val : strp) (limit : Z) : M file unit :=
  lp <-- strp_len prefix ;;
  lv <-- strp_len val ;;
  let l := u32 (lp + zeropad + (if lv <? s32 limit then lv else s32 limit)) in
  let pad := if l <? u32 (width s) then u32 (width s - l) else 0 in
  when (truth pad && negb (left s)) (fpad 32 (s32 pad)) ;;;
  when (negb (is_null prefix)) (fputs prefix ;;; ret tt) ;;;
  when (truth zeropad) (fpad 48 (s32 zeropad)) ;;;
  fputsn val limit ;;;
  when (truth pad && left s) (fpad 32 (s32 pad)).

Definition fmt_char (s : fmtspec) (ch : Z) : M file unit :=
  fmt_str_val s NULLSTR 0 (Local (if u8 ch =? 0 then [] else [u8 ch])) 1.

Definition fmt_str (s : fmtspec) (str : Z) : M file unit :=
  fmt_str_val s NULLSTR 0 (Addr str) (if precision s =? WP_UNSPECIFIED then INT_MAX else precision s).

(** [uval = val < 0 ? -val : val] in 64 bits. *)
Definition fmt_signed (s : fmtspec) (val : Z) : M file unit :=
  let uval := (if val <? 0 then - val else val) mod 2 ^ 64 in
  match local_digits uval 10 lowerhex with
  | None => stuck
  | Some digits =>
    let digitct := Z.of_nat (length digits) in
    let zp := precision_pad s digitct in
    let prefix := signstr (val <? 0) s in
    let l := s32 (Z.of_nat (length prefix) + zp + digitct) in
    fmt_str_val s (Local prefix) (u32 (zp + width_pad s l)) (Local digits) INT_MAX
  end.

Definition fmt_unsigned (s : fmtspec) (uval : Z) : M file unit :=
  match local_digits uval (base_of (specifier s)) (if specifier s =? 88 then upperhex else lowerhex) with
  | None => stuck
  | Some digits =>
    let digitct := Z.of_nat (length digits) in
    let zp := precision_pad s digitct in
    let prefix := alt_prefix s zp digits in
    let l := s32 (Z.of_nat (length prefix) + zp + digitct) in
    fmt_str_val s (Local prefix) (u32 (zp + width_pad s l)) (Local digits) INT_MAX
  end.

Definition fmt_pointer (s : fmtspec) (p : Z) : M file unit :=
  fmt_unsigned (mk_spec (start s) (len s) (left s) (plus s) (space s) true (zero s) (width s) 8
                  LEN_PTRDIFF (lenbits s) 120) p.

(** ** Arguments *)

Definition va_list : Type := list Z.

Definition va_word (conv : Z -> Z) (args : va_list) : option (Z * va_list) :=
  match args with w :: r => Some (conv w, r) | [] => None end.

(** A 64-bit argument is two words, the low one first. *)
Definition va_long_long (signed : bool) (args : va_list) : option (Z * va_list) :=
  match args with
  | lo :: hi :: r =>
    let v := u32 lo + u32 hi * 2 ^ 32 in
    Some (if signed && (2 ^ 63 <=? v) then v - 2 ^ 64 else v, r)
  | _ => None
  end.

(** What a case of the [switch]es on [lenmod] does: pull a word, pull a long
    long, or return [-EINVAL].  [char], [short], [int], [long], [intptr_t] and
    [ptrdiff_t] arguments are one word. *)
Inductive pull : Type :=
| Word
| LongLong
| Invalid.

Definition pull_signed (lm : lenmod) (bits : Z) : pull :=
  match lm with
  | LEN_CHAR | LEN_SHORT | LEN_NONE | LEN_LONG | LEN_SIZE | LEN_PTRDIFF => Word
  | LEN_LONG_LONG | LEN_MAX => LongLong
  | LEN_FIXED | LEN_FAST => if bits <=? 64 then Word else LongLong
  | LEN_LONG_DOUBLE | LEN_DECIMAL32 | LEN_DECIMAL64 | LEN_DECIMAL128 => Invalid
  end.

Definition pull_unsigned (lm : lenmod) (bits : Z) : pull :=
  match lm with
  | LEN_CHAR | LEN_SHORT | LEN_NONE | LEN_LONG | LEN_SIZE | LEN_PTRDIFF => Word
  | LEN_LONG_LONG | LEN_MAX => LongLong
  | LEN_FIXED | LEN_FAST => if bits <=? 32 then Word else LongLong
  | LEN_LONG_DOUBLE | LEN_DECIMAL32 | LEN_DECIMAL64 | LEN_DECIMAL128 => Invalid
  end.

(** ** vfprintf *)

(** After a directive: go on with the remaining arguments, or return. *)
Inductive step_result : Type :=
| Go (args : va_list)
| Return (r : Z).

(** Width and precision from the arguments, and their adjustment. *)
Definition star_args (s : fmtspec) (args : va_list) : option (fmtspec * va_list) :=
  let w0 := if width s =? WP_UNSPECIFIED then 0 else width s in
  '(w, args1) ← (if w0 =? WP_STAR then va_word s32 args else Some (w0, args));
  '(p, args2) ← (if precision s =? WP_STAR then va_word s32 args1 else Some (precision s, args1));
  Some (mk_spec (start s) (len s) (if w <? 0 then true else left s) (plus s) (space s) (alt s) (zero s)
          (if w <? 0 then s32 (- w) else w) (if p <? 0 then WP_UNSPECIFIED else p)
          (lenmod_of s) (lenbits s) (specifier s), args2).

Definition is_unsigned (c : Z) : bool :=
  (c =? 98) || (c =? 66) || (c =? 111) || (c =? 120) || (c =? 88) || (c =? 117).

(** Pulling an argument and formatting it. *)
Definition with_arg (o : option (Z * va_list)) (k : Z -> M file unit) : M file step_result :=
  match o with
  | Some (v, args) => k v ;;; ret (Go args)
  | None => stuck
  end.

Definition directive (s : fmtspec) (args : va_list) : M file step_result :=
  let c := specifier s in
  if c =? 0 then fputsn (Addr (start s)) (len s) ;;; ret (Go args)
  else if c =? 37 then
    if len s =? 2 then fputc 37 ;;; ret (Go args) else ret (Return (- EINVAL))
  else if c =? 99 then
    if bool_decide (lenmod_of s = LEN_NONE) then with_arg (va_word s32 args) (fmt_char s)
    else ret (Return (- EUNIMPLEMENTED))
  else if c =? 115 then
    if bool_decide (lenmod_of s = LEN_NONE) then with_arg (va_word u32 args) (fmt_str s)
    else ret (Return (- EUNIMPLEMENTED))
  else if (c =? 100) || (c =? 105) then
    match pull_signed (lenmod_of s) (lenbits s) with
    | Word => with_arg (va_word s32 args) (fmt_signed s)
    | LongLong => with_arg (va_long_long true args) (fmt_signed s)
    | Invalid => ret (Return (- EINVAL))
    end
  else if is_unsigned c then
    match pull_unsigned (lenmod_of s) (lenbits s) with
    | Word => with_arg (va_word u32 args) (fmt_unsigned s)
    | LongLong => with_arg (va_long_long false args) (fmt_unsigned s)
    | Invalid => ret (Return (- EINVAL))
    end
  else if c =? 112 then with_arg (va_word u32 args) (fmt_pointer s)
  else if (c =? 102) || (c =? 70) || (c =? 101) || (c =? 69) || (c =? 97) || (c =? 65) then stuck
  else ret (Return (- EUNIMPLEMENTED)).

(** [while ( *format) ...] *)
Fixpoint format_loop (k : nat) (format : Z) (args : va_list) : M file (option Z) :=
  match k with
  | O => out_of_fuel
  | S k' =>
    f <-- get ;;
    if fmem f format =? 0 then ret None
    else
      match parse_spec fuel (fmem f) format with
      | None => out_of_fuel
      | Some (format', s) =>
        match star_args s args with
        | None => stuck
        | Some (s', args1) =>
          r <-- directive s' args1 ;;
          match r with
          | Go args' => format_loop k' format' args'
          | Return e => ret (Some e)
          end
        end
      end
  end.

Definition vfprintf (format : Z) (args : va_list) : M file Z :=
  f <-- get ;;
  let start_ct := written_ct f in
  r <-- format_loop fuel format args ;;
  match r with
  | Some e => ret e
  | None =>
    f' <-- get ;;
    ret (if ferror f' then - EIO else s32 (written_ct f' - start_ct))
  end.

(** ** The string functions: the return value and the memory *)

Definition vsnprintf (m : bmem) (buf bufsz format : Z) (args : va_list) : outcome (Z * bmem) :=
  match vfprintf format args (file_init_string_io m buf bufsz) with
  | Ret (count, f) =>
    let m' := fmem f in
    Ret (count,
      if count <? 0 then m'
      else if count <? bufsz then upd m' (buf + count) 0
      else if truth bufsz then upd m' (buf + bufsz - 1) 0
      else m')
  | Halt => Halt
  | Wait => Wait
  | Stuck => Stuck
  | Fuel => Fuel
  end.

Definition snprintf := vsnprintf.

Definition vsprintf (m : bmem) (buf format : Z) (args : va_list) : outcome (Z * bmem) :=
  vsnprintf m buf INT_MAX format args.

Definition sprintf := vsprintf.

End Format.
