(* ===== verification/StdioFacts.v ===== *)
(** * Properties of formatted output

    A stream is a sequence of bytes ([out]); each formatting function appends a
    text ([field], [number_text]); a directive is parsed back from its text
    ([parse_spec_dir]); a format and its arguments render to a text
    ([renders]), and [vsnprintf] puts that text into its buffer. *)

From S2P Require Import Prelude CString Stdio.
Import String_core Ctype_core.

(** ** Streams as byte sequences *)

(** One character, as [fputc] puts it. *)
Definition putc1 (f : file) (ch : Z) : file :=
  set_write_ptr (u32 (write_ptr f + 1))
    (if write_ptr f <? write_end f then set_fmem (upd (fmem f) (write_ptr f) (u8 ch)) f else f).

Definition out (l : list Z) (f : file) : file := fold_left putc1 l f.

Lemma fputc_run ch f : fputc ch f = Ret (if ferror f then EOF else ch, putc1 f ch).
Proof.
  unfold fputc. rewrite bind_get.
  rewrite (bind_step (when _ _) _ f tt
    (if write_ptr f <? write_end f then set_fmem (upd (fmem f) (write_ptr f) (u8 ch)) f else f))
    by (by destruct (_ <? _)).
  rewrite bind_modify, bind_get.
  rewrite (bind_step (when _ _) _ _ tt (putc1 f ch)).
  - rewrite bind_get. unfold ret, ferror, putc1. by destruct (_ <? _).
  - unfold putc1. destruct (_ <? _); by destruct (_ || _).
Qed.

Lemma putc1_s8 f b : putc1 f (s8 b) = putc1 f b.
Proof.
  unfold putc1. do 3 f_equal. unfold u8, s8.
  replace ((b + 2 ^ 7) mod 2 ^ 8 - 2 ^ 7) with (b + (- ((b + 2 ^ 7) / 2 ^ 8)) * 2 ^ 8) by (zdiv).
  by rewrite Z_mod_plus_full.
Qed.

Lemma out_app l1 l2 f : out (l1 ++ l2) f = out l2 (out l1 f).
Proof. apply fold_left_app. Qed.

(** A stream with room for [n] more characters in the address space. *)
Record stream_ok (n : Z) (f : file) : Prop := {
  so_base : write_base f <= write_ptr f;
  so_room : 0 <= write_ptr f /\ write_ptr f + n < 2 ^ 32;
  so_error : error f = 0
}.

Lemma putc1_fields f ch :
  write_base (putc1 f ch) = write_base f /\ write_end (putc1 f ch) = write_end f
  /\ write_ptr (putc1 f ch) = u32 (write_ptr f + 1) /\ error (putc1 f ch) = error f
  /\ written_flushed_ct (putc1 f ch) = written_flushed_ct f.
Proof. unfold putc1. by destruct (_ <? _). Qed.

Lemma stream_ok_le n k f : k <= n -> stream_ok n f -> stream_ok k f.
Proof. intros H []. split; try done. lia. Qed.

Lemma putc1_ok n f ch : stream_ok (n + 1) f -> 0 <= n -> stream_ok n (putc1 f ch).
Proof.
  intros [H1 H2 H3] Hn. destruct (putc1_fields f ch) as (E1 & _ & E3 & E4 & _).
  split; rewrite ?E1, ?E3, ?E4; rewrite ?u32_small by lia; try done; lia.
Qed.

Lemma putc1_mem f ch x :
  fmem (putc1 f ch) x = if (x =? write_ptr f) && (x <? write_end f) then u8 ch else fmem f x.
Proof.
  unfold putc1. destruct (Z.ltb_spec (write_ptr f) (write_end f)); cbn.
  - unfold upd. destruct (Z.eqb_spec x (write_ptr f)) as [->|]; [|done]. by rewrite (proj2 (Z.ltb_lt _ _)).
  - destruct (Z.eqb_spec x (write_ptr f)) as [->|]; [|done]. by rewrite (proj2 (Z.ltb_ge _ _)).
Qed.

(** What a sequence of characters leaves behind. *)
Lemma out_spec l : forall n f,
  stream_ok (Z.of_nat (length l) + n) f -> 0 <= n -> Forall (fun b => 0 <= b < 256) l ->
  stream_ok n (out l f)
  /\ write_base (out l f) = write_base f /\ write_end (out l f) = write_end f
  /\ write_ptr (out l f) = write_ptr f + Z.of_nat (length l)
  /\ written_flushed_ct (out l f) = written_flushed_ct f
  /\ forall x, fmem (out l f) x
       = if (write_ptr f <=? x) && (x <? write_end f)
         then match l !! Z.to_nat (x - write_ptr f) with Some b => b | None => fmem f x end
         else fmem f x.
Proof.
  induction l as [|b l IH]; intros n f Hf Hn Hl.
  - cbn. split_and!; try done; try lia.
    intros x. case_match; [|done]. by rewrite lookup_nil.
  - apply list.Forall_cons_1 in Hl as [Hb Hl]. cbn [length] in Hf. rewrite Nat2Z.inj_succ in Hf.
    assert (Hf1 : stream_ok (Z.of_nat (length l) + n) (putc1 f b)).
    { apply putc1_ok; [|lia]. eapply stream_ok_le, Hf. lia. }
    destruct (IH n (putc1 f b) Hf1 Hn Hl) as (H1 & H2 & H3 & H4 & H5 & H6).
    destruct (putc1_fields f b) as (E1 & E2 & E3 & E4 & E5).
    rewrite u32_small in E3 by (destruct Hf; lia).
    change (out (b :: l) f) with (out l (putc1 f b)).
    split_and!; [done|congruence|congruence| |congruence|].
    + rewrite H4, E3. cbn [length]. lia.
    + intros x. rewrite H6, E2, E3, putc1_mem, u8_small by done.
      destruct (Z.leb_spec (write_ptr f + 1) x).
      * rewrite (proj2 (Z.leb_le (write_ptr f) x)), (proj2 (Z.eqb_neq x (write_ptr f))) by lia.
        replace (Z.to_nat (x - write_ptr f)) with (S (Z.to_nat (x - (write_ptr f + 1)))) by lia. done.
      * destruct (Z.eqb_spec x (write_ptr f)) as [->|].
        -- rewrite Z.leb_refl, Z.sub_diag. by destruct (_ <? _).
        -- by rewrite (proj2 (Z.leb_gt (write_ptr f) x)) by lia.
Qed.

(** ** Reading strings while writing *)

Definition bytes (l : list Z) : Prop := Forall (fun b => 0 < b < 256) l.

(** The string [s] has the characters [l], outside the buffer of the stream. *)
Definition reads (f : file) (s : strp) (l : list Z) : Prop :=
  bytes l
  /\ match s with
     | Addr a => 0 < a /\ is_cstr (fmem f) a l
                 /\ forall x, a <= x <= a + Z.of_nat (length l) -> ~ (write_base f <= x < write_end f)
     | Local l' => l' = l
     end.

Lemma bytes_256 l : bytes l -> Forall (fun b => 0 <= b < 256) l.
Proof. apply Forall_impl. lia. Qed.

Lemma reads_out l s k f :
  stream_ok (Z.of_nat (length k)) f -> bytes k -> reads f s l -> reads (out k f) s l.
Proof.
  intros Hf Hk [Hb Hs]. split; [done|]. destruct s as [a|]; [|done].
  destruct Hs as (Ha & Hc & Hd).
  destruct (out_spec k 0 f) as (_ & E1 & E2 & _ & _ & E3); [by rewrite Z.add_0_r|done|by apply bytes_256|].
  rewrite E1, E2. split_and!; try done. eapply is_cstr_frame, Hc. intros x Hx. rewrite E3.
  specialize (Hd x Hx). destruct Hf as [Hb' _ _].
  destruct (Z.leb_spec (write_ptr f) x), (Z.ltb_spec x (write_end f)); cbn [andb]; try done. lia.
Qed.

Lemma reads_next f s b l : reads f s (b :: l) -> reads f (next s) l.
Proof.
  intros [Hb Hs]. apply list.Forall_cons_1 in Hb as [_ Hb]. split; [done|]. destruct s as [a|l']; cbn in *.
  - destruct Hs as (Ha & Hc & Hd). pose proof Hc as Hc0. apply is_cstr_cons in Hc as [_ Hc].
    split_and!; [lia|done|]. intros x Hx. apply Hd. lia.
  - by rewrite Hs.
Qed.

Lemma reads_deref f s l : reads f s l -> deref (fmem f) s = default 0 (list.head l).
Proof.
  intros [_ Hs]. destruct s as [a|l']; cbn; [|by subst].
  destruct Hs as (_ & Hc & _). destruct l as [|b l]; cbn.
  - by apply is_cstr_nil.
  - by apply is_cstr_cons in Hc as [[-> _] _].
Qed.

Lemma fputsn_loop_run k : forall l s n f,
  (length l < k)%nat -> 0 <= n -> reads f s l -> stream_ok (Z.of_nat (length (take (Z.to_nat n) l))) f ->
  fputsn_loop k s n f = Ret (tt, out (take (Z.to_nat n) l) f).
Proof.
  induction k as [|k IH]; intros l s n f Hk Hn Hr Hf; [lia|]. cbn [fputsn_loop]. rewrite bind_get.
  rewrite (reads_deref _ _ _ Hr). destruct l as [|b l]; cbn [list.head default from_option id].
  - rewrite andb_false_r. by rewrite take_nil.
  - assert (Hb : 0 < b < 256) by (destruct Hr as [Hb _]; by apply list.Forall_cons_1 in Hb as [? _]).
    rewrite (proj2 (truth_true b)), andb_true_r by lia. destruct (truth n) eqn:En.
    + apply truth_true in En. rewrite (bind_step _ _ _ _ _ (fputc_run _ _)), putc1_s8.
      replace (Z.to_nat n) with (S (Z.to_nat (n - 1))) in * by lia.
      cbn [length take] in *. rewrite (IH l).
      * done.
      * lia.
      * lia.
      * apply reads_next in Hr. apply (reads_out l _ [b]); [|by constructor|done].
        eapply stream_ok_le, Hf. cbn. lia.
      * apply putc1_ok; [|lia]. eapply stream_ok_le, Hf. lia.
    + apply truth_false in En as ->. done.
Qed.

Lemma fpad_run ch n : forall f,
  for_up n 0 1 (fun _ => fputc ch ;;; ret tt) f = Ret (tt, out (replicate n ch) f).
Proof.
  assert (H : forall lo f, for_up n lo 1 (fun _ => fputc ch ;;; ret tt) f = Ret (tt, out (replicate n ch) f)).
  { induction n as [|n IH]; intros lo f; [done|]. cbn [for_up replicate]. rewrite bind_assoc.
    rewrite (bind_step _ _ _ _ _ (fputc_run _ _)), bind_ret. apply IH. }
  apply H.
Qed.

(** ** What the formatting functions print *)

(** Text in a field of the given width. *)
Definition field (s : fmtspec) (body : list Z) : list Z :=
  let pad := replicate (Z.to_nat (width s - Z.of_nat (length body))) 32 in
  if left s then body ++ pad else pad ++ body.

Lemma field_length s body :
  Z.of_nat (length (field s body)) = Z.max (Z.of_nat (length body)) (width s).
Proof. unfold field. destruct (left s); rewrite length_app, length_replicate; lia. Qed.

Lemma bytes_app l1 l2 : bytes (l1 ++ l2) <-> bytes l1 /\ bytes l2.
Proof. apply Forall_app. Qed.

Lemma bytes_replicate n b : 0 < b < 256 -> bytes (replicate n b).
Proof. intros. by apply Forall_replicate. Qed.

Lemma field_bytes s body : bytes body -> bytes (field s body).
Proof.
  intros. unfold field. destruct (left s); apply bytes_app; split; try done; by apply bytes_replicate.
Qed.

Lemma out_ok l n f : stream_ok (Z.of_nat (length l) + n) f -> 0 <= n -> bytes l -> stream_ok n (out l f).
Proof. intros H1 H2 H3. by apply out_spec; [| |apply bytes_256]. Qed.

Section Runs.

Context (fuel : nat).

Lemma strp_len_run f s l :
  reads f s l -> (length l < fuel)%nat -> strp_len fuel s f = Ret (Z.of_nat (length l), f).
Proof.
  intros [Hb Hs] Hl. unfold strp_len. rewrite bind_get. destruct s as [a|l']; [|by subst].
  destruct Hs as (Ha & Hc & _). unfold strlen. rewrite (proj2 (Z.eqb_neq a 0)) by lia.
  by rewrite (String_facts.strlen_loop_spec _ _ _ l).
Qed.

Lemma fputsn_run l s n f :
  (length l < fuel)%nat -> 0 <= n -> reads f s l -> stream_ok (Z.of_nat (length (take (Z.to_nat n) l))) f ->
  exists r, fputsn fuel s n f = Ret (r, out (take (Z.to_nat n) l) f).
Proof.
  intros Hl Hn Hr Hf. unfold fputsn. assert (is_null s = false) as ->.
  { destruct Hr as [_ Hs], s as [a|]; [|done]. cbn. apply Z.eqb_neq. lia. }
  rewrite (bind_step _ _ _ _ _ (fputsn_loop_run fuel l s n f Hl Hn Hr Hf)), bind_get. by eexists.
Qed.

(** An absent prefix is the null pointer, a present one a constant. *)
Definition prefix_of (p : strp) (l : list Z) : Prop :=
  bytes l /\ (length l < fuel)%nat /\ (p = Local l \/ p = NULLSTR /\ l = []).

Lemma prefix_len p l f : prefix_of p l -> strp_len fuel p f = Ret (Z.of_nat (length l), f).
Proof.
  intros (Hb & Hl & [-> | [-> ->]]); [|done]. done.
Qed.

Lemma prefix_put p l f :
  prefix_of p l -> stream_ok (Z.of_nat (length l)) f ->
  when (negb (is_null p)) (fputs fuel p ;;; ret tt) f = Ret (tt, out l f).
Proof.
  intros (Hb & Hl & [-> | [-> ->]]) Hf; [|done]. cbn [is_null negb when]. unfold fputs.
  destruct (decide (Z.of_nat (length l) <= SIZE_MAX)) as [Hs|Hs].
  - assert (Et : take (Z.to_nat SIZE_MAX) l = l) by (apply take_ge; lia).
    destruct (fputsn_run l (Local l) SIZE_MAX f) as (r & E); rewrite ?Et; try done.
    rewrite (bind_step _ _ _ _ _ E). by rewrite Et.
  - destruct Hf. unfold SIZE_MAX in Hs. lia.
Qed.

Lemma when_pad (c : bool) n ch f :
  (c = false -> n = O) -> when c (fpad ch (Z.of_nat n)) f = Ret (tt, out (replicate n ch) f).
Proof.
  intros H. destruct c; cbn [when].
  - unfold fpad. rewrite Nat2Z.id. apply fpad_run.
  - by rewrite H.
Qed.

Lemma fmt_str_val_run s p prefix zp v val limit f :
  prefix_of p prefix -> (length val < fuel)%nat -> 0 <= limit < 2 ^ 31 -> 0 <= width s < 2 ^ 31 ->
  reads f v val ->
  let txt := field s (prefix ++ replicate zp 48 ++ take (Z.to_nat limit) val) in
  Z.of_nat (length txt) < 2 ^ 31 -> stream_ok (Z.of_nat (length txt)) f ->
  fmt_str_val fuel s p (Z.of_nat zp) v limit f = Ret (tt, out txt f).
Proof.
  intros Hp Hv Hlim Hw Hr txt Hlen Hf. pose proof (field_length s (prefix ++ replicate zp 48 ++ take (Z.to_nat limit) val)) as Hfl.
  fold txt in Hfl. rewrite !length_app, length_replicate, length_take in Hfl.
  set (n := Nat.min (Z.to_nat limit) (length val)) in *.
  unfold fmt_str_val.
  rewrite (bind_step _ _ _ _ _ (prefix_len _ _ f Hp)), (bind_step _ _ _ _ _ (strp_len_run _ _ _ Hr Hv)).
  assert (Emin : (if Z.of_nat (length val) <? s32 limit then Z.of_nat (length val) else s32 limit) = Z.of_nat n).
  { rewrite s32_small by lia. unfold n. zbool; lia. }
  rewrite Emin. rewrite (u32_small (_ + _ + _)) by lia. rewrite (u32_small (width s)) by lia.
  set (l := Z.of_nat (length prefix) + Z.of_nat zp + Z.of_nat n) in *.
  set (k := Z.to_nat (width s - l)).
  assert (Epad : (if l <? width s then u32 (width s - l) else 0) = Z.of_nat k).
  { unfold k. destruct (Z.ltb_spec l (width s)); [|lia]. rewrite u32_small by lia. lia. }
  rewrite Epad. rewrite (s32_small (Z.of_nat k)), (s32_small (Z.of_nat zp)) by lia.
  assert (Ek : Z.to_nat (width s - Z.of_nat (length (prefix ++ replicate zp 48 ++ take (Z.to_nat limit) val))) = k).
  { unfold k, l. rewrite !length_app, length_replicate, length_take. fold n. lia. }
  assert (Hk : truth (Z.of_nat k) = false -> k = O) by (intros ?%truth_false; lia).
  assert (Hz : truth (Z.of_nat zp) = false -> zp = O) by (intros ?%truth_false; lia).
  set (lp := replicate (if left s then O else k) 32). set (rp := replicate (if left s then k else O) 32).
  assert (Etxt : txt = lp ++ prefix ++ replicate zp 48 ++ take (Z.to_nat limit) val ++ rp).
  { unfold txt, field, lp, rp. rewrite Ek. destruct (left s); cbn [replicate app]; rewrite <- ?app_assoc; [done|].
    by rewrite app_nil_r. }
  rewrite Etxt in Hf |- *. clear Etxt. rewrite !length_app, !Nat2Z.inj_add in Hf.
  assert (Hblp : bytes lp) by (by apply bytes_replicate).
  assert (Hbz : bytes (replicate zp 48)) by (by apply bytes_replicate).
  assert (Hbp : bytes prefix) by apply Hp.
  assert (E1 : when (truth (Z.of_nat k) && negb (left s)) (fpad 32 (Z.of_nat k)) f = Ret (tt, out lp f)).
  { unfold lp. destruct (left s); [by rewrite andb_false_r|]. rewrite andb_true_r. by apply when_pad. }
  rewrite (bind_step _ _ _ _ _ E1).
  pose proof (out_ok lp _ _ Hf ltac:(lia) Hblp) as Hf1.
  assert (Hr1 : reads (out lp f) v val) by (apply reads_out; [eapply stream_ok_le, Hf; lia|done|done]).
  rewrite (bind_step _ _ _ _ _ (prefix_put p prefix _ Hp ltac:(eapply stream_ok_le, Hf1; lia))).
  pose proof (out_ok prefix _ _ Hf1 ltac:(lia) Hbp) as Hf2.
  assert (Hr2 : reads (out prefix (out lp f)) v val)
    by (apply reads_out; [eapply stream_ok_le, Hf1; lia|done|done]).
  rewrite (bind_step _ _ _ _ _ (when_pad _ zp 48 _ Hz)).
  pose proof (out_ok (replicate zp 48) _ _ Hf2 ltac:(lia) Hbz) as Hf3.
  assert (Hr3 : reads (out (replicate zp 48) (out prefix (out lp f))) v val)
    by (apply reads_out; [eapply stream_ok_le, Hf2; lia|done|done]).
  destruct (fputsn_run val v limit _ Hv ltac:(lia) Hr3 ltac:(eapply stream_ok_le, Hf3; lia)) as (r & E4).
  rewrite (bind_step _ _ _ _ _ E4). rewrite !out_app. unfold rp.
  destruct (left s); [|by rewrite andb_false_r]. rewrite andb_true_r. by apply when_pad.
Qed.

(** ** Numerals *)

Definition digit_value (base : Z) (ix : list Z) : Z := fold_left (fun v i => v * base + i) ix 0.

(** [l] is the numeral of [num] in [base]: the digits of [digitset] at the
    positions [ix], whose value is [num], without a leading zero. *)
Definition numeral (base : Z) (digitset : list Z) (num : Z) (l : list Z) : Prop :=
  exists ix, l = (fun i => default 0 (digitset !! Z.to_nat i)) <$> ix
    /\ Forall (fun i => 0 <= i < base) ix /\ digit_value base ix = num
    /\ list.head ix <> Some 0.

Lemma inttodigits_run base digitset : 2 <= base ->
  forall room cur num, 0 <= num < base ^ Z.of_nat room ->
  exists l, inttodigits room cur num base digitset = Some (l ++ cur)
    /\ (length l <= room)%nat /\ numeral base digitset num l.
Proof.
  intros Hb. induction room as [|r IH]; intros cur num Hn; cbn [inttodigits].
  - assert (num = 0) as -> by (cbn in Hn; lia). exists []. split_and!; [done|done|]. by exists [].
  - destruct (truth num) eqn:E.
    + apply truth_true in E. rewrite Nat2Z.inj_succ, Z.pow_succ_r in Hn by lia.
      destruct (IH (default 0 (digitset !! Z.to_nat (num mod base)) :: cur) (num / base))
        as (l & El & Hl & ix & -> & Hix & Hv & Hh).
      { split; [apply Z.div_pos; lia|]. apply Z.div_lt_upper_bound; lia. }
      eexists. rewrite El. rewrite (cons_middle _ _ cur), app_assoc. split; [reflexivity|].
      rewrite length_app. split; [cbn; lia|]. exists (ix ++ [num mod base]). split_and!.
      * by rewrite fmap_app.
      * apply Forall_app_2; [done|]. constructor; [|done]. apply Z.mod_pos_bound. lia.
      * unfold digit_value in *. rewrite fold_left_app, Hv. cbn. pose proof (Z.div_mod num base). lia.
      * destruct ix as [|i ix]; [|done]. cbn in Hv |- *. intros [= Hm].
        pose proof (Z.div_mod num base). lia.
    + apply truth_false in E as ->. exists []. split_and!; [done|cbn; lia|]. by exists [].
Qed.

Lemma digits_bytes base digitset num l :
  2 <= base <= 16 -> digitset = lowerhex \/ digitset = upperhex -> numeral base digitset num l -> bytes l.
Proof.
  intros Hb Hd (ix & -> & Hix & _). apply Forall_fmap. eapply Forall_impl; [|exact Hix].
  intros i Hi. cbn in Hi |- *. assert (Hn : (Z.to_nat i < 16)%nat) by lia.
  destruct (lookup_lt_is_Some_2 digitset (Z.to_nat i)) as [d Ed]; [by destruct Hd as [-> | ->]|].
  rewrite Ed. cbn.
  assert (Forall (fun b => 0 < b < 256) digitset) as Hall
    by (destruct Hd as [-> | ->]; repeat constructor; lia).
  apply (Forall_lookup_1 _ _ _ _ Hall Ed).
Qed.

(** Any 64-bit number fits in the local buffer. *)
Lemma local_digits_run num base digitset :
  2 <= base -> 0 <= num < 2 ^ 64 ->
  exists l, local_digits num base digitset = Some l /\ (length l <= 128)%nat
    /\ numeral base digitset num l.
Proof.
  intros Hb Hn. unfold local_digits.
  destruct (inttodigits_run base digitset Hb (pred DIGITBUFSZ) [] num) as (l & E & Hl & Hnum).
  - split; [lia|]. apply Z.lt_le_trans with (2 ^ 64); [lia|].
    apply Z.le_trans with (2 ^ 128); [lia|]. apply (Z.pow_le_mono_l 2 base 128). lia.
  - exists l. rewrite app_nil_r in E. done.
Qed.

Lemma digit_value_snoc base ix i : digit_value base (ix ++ [i]) = digit_value base ix * base + i.
Proof. unfold digit_value. by rewrite fold_left_app. Qed.

Lemma digit_value_nonneg base ix : 0 < base -> Forall (fun i => 0 <= i < base) ix -> 0 <= digit_value base ix.
Proof.
  intros Hb. induction ix as [|i ix IH] using rev_ind; intros Hix; [done|].
  apply Forall_app in Hix as [H1 H2]. apply list.Forall_cons_1 in H2 as [H2 _].
  rewrite digit_value_snoc. specialize (IH H1). nia.
Qed.

Lemma digit_value_pos base ix :
  0 < base -> Forall (fun i => 0 <= i < base) ix -> list.head ix <> Some 0 -> ix <> [] -> 0 < digit_value base ix.
Proof.
  intros Hb. induction ix as [|i ix IH] using rev_ind; intros Hix Hh Hne; [done|].
  apply Forall_app in Hix as [H1 H2]. apply list.Forall_cons_1 in H2 as [H2 _].
  rewrite digit_value_snoc. destruct ix as [|j ix].
  - cbn in *. assert (i <> 0) by congruence. lia.
  - assert (0 < digit_value base (j :: ix)) by (by apply IH). nia.
Qed.

Lemma digit_value_inj base : 1 < base -> forall ix1 ix2,
  Forall (fun i => 0 <= i < base) ix1 -> Forall (fun i => 0 <= i < base) ix2 ->
  list.head ix1 <> Some 0 -> list.head ix2 <> Some 0 ->
  digit_value base ix1 = digit_value base ix2 -> ix1 = ix2.
Proof.
  intros Hb. induction ix1 as [|i ix1 IH] using rev_ind; intros ix2 H1 H2 Hh1 Hh2 E.
  - destruct ix2 as [|j ix2]; [done|]. pose proof (digit_value_pos base (j :: ix2)) as Hp.
    specialize (Hp ltac:(lia) H2 Hh2 ltac:(done)). change (digit_value base []) with 0 in E. lia.
  - destruct ix2 as [|j ix2 _] using rev_ind.
    { pose proof (digit_value_pos base (ix1 ++ [i])) as Hp.
      specialize (Hp ltac:(lia) H1 Hh1 ltac:(by destruct ix1)). change (digit_value base []) with 0 in E. lia. }
    rewrite !digit_value_snoc in E.
    apply Forall_app in H1 as [H1 H1'], H2 as [H2 H2'].
    apply list.Forall_cons_1 in H1' as [Hi _], H2' as [Hj _].
    destruct (Z.div_mod_unique base (digit_value base ix1) (digit_value base ix2) i j) as [Eq ->];
      [by left|by left|lia|].
    f_equal. apply IH; try done; [by destruct ix1|by destruct ix2].
Qed.

Lemma numeral_unique base digitset num l1 l2 :
  1 < base -> numeral base digitset num l1 -> numeral base digitset num l2 -> l1 = l2.
Proof.
  intros Hb (ix1 & -> & H1 & V1 & Hh1) (ix2 & -> & H2 & V2 & Hh2). f_equal.
  eapply digit_value_inj; try done. congruence.
Qed.

(** The zeros in front of [n] digits behind a prefix of [p] characters. *)
Definition zeros (s : fmtspec) (p n : Z) : Z :=
  let zp := Z.max 0 ((if precision s =? WP_UNSPECIFIED then 1 else precision s) - n) in
  zp + (if zero s then Z.max 0 (width s - (p + zp + n)) else 0).

(** A number as it is printed. *)
Definition number_text (s : fmtspec) (prefix digits : list Z) : list Z :=
  field s (prefix ++ replicate (Z.to_nat (zeros s (Z.of_nat (length prefix)) (Z.of_nat (length digits)))) 48
           ++ digits).

Lemma number_run s prefix digits f :
  0 <= width s < 2 ^ 31 - 1 -> -1 <= precision s -> bytes prefix -> bytes digits ->
  (length prefix < fuel)%nat -> (length digits < fuel)%nat -> (length digits <= 128)%nat ->
  Z.of_nat (length (number_text s prefix digits)) < 2 ^ 31 ->
  stream_ok (Z.of_nat (length (number_text s prefix digits))) f ->
  let n := Z.of_nat (length digits) in
  let zp := precision_pad s n in
  fmt_str_val fuel s (Local prefix)
    (u32 (zp + width_pad s (s32 (Z.of_nat (length prefix) + zp + n)))) (Local digits) INT_MAX f
  = Ret (tt, out (number_text s prefix digits) f).
Proof.
  intros Hw Hp Hb1 Hb2 Hl1 Hl2 Hl3 Hlen Hf n zp.
  pose proof (field_length s (prefix ++ replicate (Z.to_nat (zeros s (Z.of_nat (length prefix)) n)) 48 ++ digits)) as Hfl.
  fold (number_text s prefix digits) in Hfl. rewrite !length_app, length_replicate in Hfl.
  assert (Hz : zp = Z.max 0 ((if precision s =? WP_UNSPECIFIED then 1 else precision s) - n)).
  { unfold zp, precision_pad. destruct (Z.ltb_spec n (if precision s =? WP_UNSPECIFIED then 1 else precision s)); lia. }
  assert (Ez : zp + width_pad s (Z.of_nat (length prefix) + zp + n) = zeros s (Z.of_nat (length prefix)) n).
  { unfold zeros, width_pad. rewrite Hz. set (q := Z.max 0 _).
    destruct (Z.ltb_spec (Z.of_nat (length prefix) + q + n) (width s)), (zero s); cbn [andb]; lia. }
  assert (Hnn : 0 <= width_pad s (Z.of_nat (length prefix) + zp + n)).
  { unfold width_pad. destruct (Z.ltb_spec (Z.of_nat (length prefix) + zp + n) (width s)); cbn [andb]; [|lia].
    destruct (zero s); lia. }
  assert (Et : take (Z.to_nat INT_MAX) digits = digits) by (apply take_ge; unfold INT_MAX; lia).
  assert (Hn : n = Z.of_nat (length digits)) by done.
  unfold number_text in *. fold n in Hlen, Hf |- *. clearbody zp n.
  rewrite s32_small by lia. rewrite Ez in *. rewrite u32_small by lia.
  replace (zeros s (Z.of_nat (length prefix)) n) with (Z.of_nat (Z.to_nat (zeros s (Z.of_nat (length prefix)) n))) by lia.
  rewrite (fmt_str_val_run s (Local prefix) prefix _ (Local digits) digits INT_MAX f); rewrite ?Et; try done; try lia.
  - by rewrite Nat2Z.id.
  - split_and!; [done|done|by left].
Qed.

(** ** What a directive prints *)

Definition digitset_of (specifier : Z) : list Z := if specifier =? 88 then upperhex else lowerhex.

(** The pointer directive as the hexadecimal one that prints it. *)
Definition pointer_spec (s : fmtspec) : fmtspec :=
  mk_spec (start s) (len s) (left s) (plus s) (space s) true (zero s) (width s) 8 LEN_PTRDIFF (lenbits s) 120.

Definition unsigned_text (s : fmtspec) (ds : list Z) : list Z :=
  number_text s (alt_prefix s (precision_pad s (Z.of_nat (length ds))) ds) ds.

(** [prints f s args rest txt]: with the arguments [args] the directive [s] prints
    [txt] and leaves the arguments [rest]; [f] says which strings there are. *)
Inductive prints (f : file) (s : fmtspec) : va_list -> va_list -> list Z -> Prop :=
| prints_percent args : specifier s = 37 -> len s = 2 -> prints f s args args [37]
| prints_char w args :
    specifier s = 99 -> lenmod_of s = LEN_NONE ->
    prints f s (w :: args) args (field s (if u8 w =? 0 then [] else [u8 w]))
| prints_str a args l :
    specifier s = 115 -> lenmod_of s = LEN_NONE -> reads f (Addr (u32 a)) l -> (length l < fuel)%nat ->
    prints f s (a :: args) args
      (field s (take (Z.to_nat (if precision s =? WP_UNSPECIFIED then INT_MAX else precision s)) l))
| prints_int w args ds :
    specifier s = 100 \/ specifier s = 105 -> pull_signed (lenmod_of s) (lenbits s) = Word ->
    numeral 10 lowerhex (Z.abs (s32 w)) ds ->
    prints f s (w :: args) args (number_text s (signstr (s32 w <? 0) s) ds)
| prints_int_long lo hi args v ds :
    specifier s = 100 \/ specifier s = 105 -> pull_signed (lenmod_of s) (lenbits s) = LongLong ->
    va_long_long true (lo :: hi :: args) = Some (v, args) -> numeral 10 lowerhex (Z.abs v) ds ->
    prints f s (lo :: hi :: args) args (number_text s (signstr (v <? 0) s) ds)
| prints_unsigned w args ds :
    is_unsigned (specifier s) = true -> pull_unsigned (lenmod_of s) (lenbits s) = Word ->
    numeral (base_of (specifier s)) (digitset_of (specifier s)) (u32 w) ds ->
    prints f s (w :: args) args (unsigned_text s ds)
| prints_unsigned_long lo hi args ds :
    is_unsigned (specifier s) = true -> pull_unsigned (lenmod_of s) (lenbits s) = LongLong ->
    numeral (base_of (specifier s)) (digitset_of (specifier s)) (u32 lo + u32 hi * 2 ^ 32) ds ->
    prints f s (lo :: hi :: args) args (unsigned_text s ds)
| prints_pointer p args ds :
    specifier s = 112 -> numeral 16 lowerhex (u32 p) ds ->
    prints f s (p :: args) args (unsigned_text (pointer_spec s) ds).

Lemma base_of_range c : 2 <= base_of c <= 16.
Proof. unfold base_of. repeat case_match; lia. Qed.

Lemma signstr_bytes b s : bytes (signstr b s) /\ (length (signstr b s) <= 2)%nat.
Proof. unfold signstr. repeat case_match; (split; [repeat constructor; lia|cbn; lia]). Qed.

Lemma alt_prefix_bytes s zp ds : bytes (alt_prefix s zp ds) /\ (length (alt_prefix s zp ds) <= 2)%nat.
Proof. unfold alt_prefix. repeat case_match; (split; [repeat constructor; lia|cbn; lia]). Qed.

Context (Hfuel : (130 < fuel)%nat).

Lemma fmt_signed_run s val ds f :
  0 <= width s < 2 ^ 31 - 1 -> -1 <= precision s -> - 2 ^ 63 <= val < 2 ^ 63 ->
  numeral 10 lowerhex (Z.abs val) ds ->
  Z.of_nat (length (number_text s (signstr (val <? 0) s) ds)) < 2 ^ 31 ->
  stream_ok (Z.of_nat (length (number_text s (signstr (val <? 0) s) ds))) f ->
  fmt_signed fuel s val f = Ret (tt, out (number_text s (signstr (val <? 0) s) ds) f).
Proof.
  intros Hw Hp Hval Hn Hlen Hf. unfold fmt_signed.
  assert (Ev : (if val <? 0 then - val else val) mod 2 ^ 64 = Z.abs val).
  { rewrite Z.mod_small; destruct (Z.ltb_spec val 0); lia. }
  rewrite Ev. destruct (local_digits_run (Z.abs val) 10 lowerhex) as (l & E & Hl & Hnl); [lia..|].
  assert (l = ds) as -> by (by eapply (numeral_unique 10)). rewrite E.
  destruct (signstr_bytes (val <? 0) s) as [Hb1 Hb2].
  apply number_run; try done; [eapply (digits_bytes 10); [lia|by left|done]|lia|lia].
Qed.

Lemma fmt_unsigned_run s uval ds f :
  0 <= width s < 2 ^ 31 - 1 -> -1 <= precision s -> 0 <= uval < 2 ^ 64 ->
  numeral (base_of (specifier s)) (digitset_of (specifier s)) uval ds ->
  Z.of_nat (length (unsigned_text s ds)) < 2 ^ 31 ->
  stream_ok (Z.of_nat (length (unsigned_text s ds))) f ->
  fmt_unsigned fuel s uval f = Ret (tt, out (unsigned_text s ds) f).
Proof.
  intros Hw Hp Hval Hn Hlen Hf. unfold fmt_unsigned. fold (digitset_of (specifier s)).
  pose proof (base_of_range (specifier s)) as Hbr.
  destruct (local_digits_run uval (base_of (specifier s)) (digitset_of (specifier s))) as (l & E & Hl & Hnl); [lia..|].
  assert (l = ds) as -> by (eapply (numeral_unique (base_of (specifier s))); [lia|done|done]). rewrite E.
  destruct (alt_prefix_bytes s (precision_pad s (Z.of_nat (length ds))) ds) as [Hb1 Hb2].
  apply number_run; try done; [|lia|lia].
  eapply (digits_bytes (base_of (specifier s))); [lia| |done]. unfold digitset_of. case_match; auto.
Qed.

(** Width and precision are in range, as they are for any parsed directive. *)
Definition wf_spec (s : fmtspec) : Prop := 0 <= width s < 2 ^ 31 - 1 /\ -1 <= precision s < 2 ^ 31.

Lemma field_str_run s v l limit f :
  wf_spec s -> (length l < fuel)%nat -> 0 <= limit < 2 ^ 31 -> reads f v l ->
  Z.of_nat (length (field s (take (Z.to_nat limit) l))) < 2 ^ 31 ->
  stream_ok (Z.of_nat (length (field s (take (Z.to_nat limit) l)))) f ->
  fmt_str_val fuel s NULLSTR 0 v limit f = Ret (tt, out (field s (take (Z.to_nat limit) l)) f).
Proof.
  intros [Hw Hp] Hl Hlim Hr Hlen Hf.
  apply (fmt_str_val_run s NULLSTR [] 0 v l limit f); try done; try lia.
  split_and!; [constructor|cbn; lia|by right].
Qed.

Lemma with_arg_run o v args k f f' :
  o = Some (v, args) -> k v f = Ret (tt, f') -> with_arg o k f = Ret (Go args, f').
Proof. intros -> E. unfold with_arg. by rewrite (bind_step _ _ _ _ _ E). Qed.

Lemma digits_of_bytes c num ds : numeral (base_of c) (digitset_of c) num ds -> bytes ds.
Proof.
  apply digits_bytes; [apply base_of_range|]. unfold digitset_of. case_match; auto.
Qed.

(** The integer directives without a sign fall through to their case. *)
Lemma is_unsigned_case c {A} (x0 x1 x2 x3 x4 x5 x6 : A) :
  is_unsigned c = true ->
  (if c =? 0 then x0 else if c =? 37 then x1 else if c =? 99 then x2 else if c =? 115 then x3
   else if (c =? 100) || (c =? 105) then x4 else if is_unsigned c then x5 else x6) = x5.
Proof.
  intros H. rewrite H. unfold is_unsigned in H.
  repeat rewrite orb_true_iff in H. rewrite !Z.eqb_eq in H.
  repeat destruct H as [H|H]; subst c; done.
Qed.

Lemma directive_run f s args rest txt f0 :
  wf_spec s -> prints f0 s args rest txt -> (forall v l, reads f0 v l -> reads f v l) ->
  Z.of_nat (length txt) < 2 ^ 31 -> stream_ok (Z.of_nat (length txt)) f ->
  directive fuel s args f = Ret (Go rest, out txt f) /\ bytes txt.
Proof.
  intros Hs H Hr Hlen Hf. pose proof Hs as [Hw Hp].
  assert (Hb : forall p ds, bytes p -> bytes ds -> bytes (number_text s p ds)).
  { intros p ds H1 H2. apply field_bytes, bytes_app. split; [done|]. apply bytes_app. split; [|done].
    by apply bytes_replicate. }
  unfold directive.
  destruct H as [args Hc Hl|w args Hc Hm|a args l Hc Hm Hl Hlf|w args ds Hc Hm Hn|lo hi args v ds Hc Hm Hv Hn|w args ds Hc Hm Hn
                |lo hi args ds Hc Hm Hn|q args ds Hc Hn].
  - rewrite Hc, Hl. cbn. rewrite (bind_step _ _ _ _ _ (fputc_run _ _)). split; [done|by repeat constructor].
  - rewrite Hc. cbn [Z.eqb Pos.eqb orb]. rewrite bool_decide_eq_true_2 by done.
    set (cl := if u8 w =? 0 then [] else [u8 w]) in *.
    assert (Hcb : bytes cl) by (unfold cl; pose proof (u8_range w); case_match; zbool; repeat constructor; lia).
    assert (Et : take (Z.to_nat 1) cl = cl) by (unfold cl; by case_match).
    split; [|by apply field_bytes].
    apply (with_arg_run _ (s32 w)); [done|]. unfold fmt_char.
    assert (Eu : u8 (s32 w) = u8 w).
    { unfold u8, s32. replace ((w + 2 ^ 31) mod 2 ^ 32 - 2 ^ 31) with (w + (- ((w + 2 ^ 31) / 2 ^ 32) * 2 ^ 24) * 2 ^ 8) by zdiv.
      by rewrite Z_mod_plus_full. }
    rewrite Eu. fold cl. pose proof (field_str_run s (Local cl) cl 1 f Hs) as Hrun. rewrite Et in Hrun.
    apply Hrun; [unfold cl; case_match; cbn; lia|lia|done|done|done].
  - rewrite Hc. cbn [Z.eqb Pos.eqb orb]. rewrite bool_decide_eq_true_2 by done.
    split; [|apply field_bytes, Forall_take; by destruct Hl].
    apply (with_arg_run _ (u32 a)); [done|]. unfold fmt_str.
    apply field_str_run; try done; [|by apply Hr].
    unfold INT_MAX, WP_UNSPECIFIED. destruct (Z.eqb_spec (precision s) (-1)); lia.
  - assert (Hbt : bytes (number_text s (signstr (s32 w <? 0) s) ds)).
    { apply Hb; [apply signstr_bytes|]. eapply (digits_bytes 10); [lia|by left|done]. }
    split; [|done]. assert ((specifier s =? 100) || (specifier s =? 105) = true) as Hor
      by (destruct Hc as [-> | ->]; done).
    assert (Ec : forall x, x <> 100 -> x <> 105 -> (specifier s =? x) = false)
      by (intros; destruct Hc as [-> | ->]; by apply Z.eqb_neq).
    rewrite !Ec by done. rewrite Hor, Hm. apply (with_arg_run _ (s32 w)); [done|].
    apply fmt_signed_run; [done|lia| |done..]. unfold s32. pose proof (Z.mod_pos_bound (w + 2 ^ 31) (2 ^ 32)). lia.
  - assert (Hbt : bytes (number_text s (signstr (v <? 0) s) ds)).
    { apply Hb; [apply signstr_bytes|]. eapply (digits_bytes 10); [lia|by left|done]. }
    split; [|done]. assert ((specifier s =? 100) || (specifier s =? 105) = true) as Hor
      by (destruct Hc as [-> | ->]; done).
    assert (Ec : forall x, x <> 100 -> x <> 105 -> (specifier s =? x) = false)
      by (intros; destruct Hc as [-> | ->]; by apply Z.eqb_neq).
    rewrite !Ec by done. rewrite Hor, Hm. apply (with_arg_run _ v); [done|].
    apply fmt_signed_run; [done|lia| |done..]. cbn in Hv. injection Hv as <-. pose proof (u32_range lo). pose proof (u32_range hi).
    destruct (Z.leb_spec (2 ^ 63) (u32 lo + u32 hi * 2 ^ 32)); lia.
  - rewrite is_unsigned_case by done. rewrite Hm.
    split; [|apply Hb; [apply alt_prefix_bytes|by eapply digits_of_bytes]].
    apply (with_arg_run _ (u32 w)); [done|]. apply fmt_unsigned_run; [done|lia| |done..].
    pose proof (u32_range w). lia.
  - rewrite is_unsigned_case by done. rewrite Hm.
    split; [|apply Hb; [apply alt_prefix_bytes|by eapply digits_of_bytes]].
    apply (with_arg_run _ (u32 lo + u32 hi * 2 ^ 32)); [done|]. apply fmt_unsigned_run; [done|lia| |done..].
    pose proof (u32_range lo). pose proof (u32_range hi). lia.
  - rewrite Hc. cbn [Z.eqb Pos.eqb orb is_unsigned].
    split.
    + apply (with_arg_run _ (u32 q)); [done|]. unfold fmt_pointer. fold (pointer_spec s).
      apply fmt_unsigned_run; try done. pose proof (u32_range q). lia.
    + apply field_bytes, bytes_app. split; [apply alt_prefix_bytes|]. apply bytes_app.
      split; [by apply bytes_replicate|]. eapply (digits_bytes 16); [lia|by left|done].
Qed.

End Runs.

(** ** The syntax of directives *)

(** A width or precision: absent, a number, or from the arguments. *)
Inductive wp : Type :=
| WNone
| WNum (ds : list Z)
| WStar.

Record dir : Type := mk_dir {
  d_flags : list Z;
  d_width : wp;
  d_prec : option wp;
  d_mod : lenmod;
  d_spec : Z
}.

Definition wp_text (w : wp) : list Z := match w with WNone => [] | WNum ds => ds | WStar => [42] end.

Definition wp_value (absent : Z) (w : wp) : Z :=
  match w with WNone => absent | WNum ds => dec 0 ds | WStar => WP_STAR end.

Definition mod_text (lm : lenmod) : list Z :=
  match lm with
  | LEN_NONE => []
  | LEN_CHAR => [104; 104]
  | LEN_SHORT => [104]
  | LEN_LONG => [108]
  | LEN_LONG_LONG => [108; 108]
  | LEN_MAX => [106]
  | LEN_SIZE => [122]
  | LEN_PTRDIFF => [116]
  | LEN_FIXED => [119]
  | LEN_FAST => [119; 102]
  | LEN_LONG_DOUBLE => [76]
  | LEN_DECIMAL32 => [72]
  | LEN_DECIMAL64 => [68]
  | LEN_DECIMAL128 => [68; 68]
  end.

Definition prec_text (p : option wp) : list Z := match p with None => [] | Some w => 46 :: wp_text w end.

Definition dir_text (d : dir) : list Z :=
  37 :: d_flags d ++ wp_text (d_width d) ++ prec_text (d_prec d) ++ mod_text (d_mod d) ++ [d_spec d].

Definition is_flag (c : Z) : Prop := c = 45 \/ c = 43 \/ c = 32 \/ c = 35 \/ c = 48.

Definition wf_wp (w : wp) : Prop :=
  match w with WNum ds => ds <> [] /\ Forall is_digit ds /\ dec 0 ds < 2 ^ 31 | _ => True end.

(** The specifier is a letter, or a percent sign, that is no length modifier. *)
Definition plain (c : Z) : Prop :=
  (c = 37 \/ 65 <= c < 127)
  /\ Forall (fun '(ch0, _, ch1, _) => c <> ch0 /\ c <> ch1) LENMOD_MAP.

(** A directive as it can be written: a width does not begin with a zero, which
    would be a flag, and fixed-width modifiers are left out. *)
Definition wf_dir (d : dir) : Prop :=
  Forall is_flag (d_flags d) /\ wf_wp (d_width d)
  /\ match d_width d with WNum (48 :: _) => False | _ => True end
  /\ match d_prec d with Some w => wf_wp w | None => True end
  /\ d_mod d <> LEN_FIXED /\ d_mod d <> LEN_FAST /\ plain (d_spec d).

(** What the parser makes of it. *)
Definition dir_spec (fmt : Z) (d : dir) : fmtspec :=
  mk_spec fmt (Z.of_nat (length (dir_text d)))
    (bool_decide (45 ∈ d_flags d)) (bool_decide (43 ∈ d_flags d)) (bool_decide (32 ∈ d_flags d))
    (bool_decide (35 ∈ d_flags d)) (bool_decide (48 ∈ d_flags d))
    (wp_value WP_UNSPECIFIED (d_width d))
    (match d_prec d with None => WP_UNSPECIFIED | Some w => wp_value 0 w end)
    (d_mod d) 0 (d_spec d).

Lemma cstr_app m a l1 l2 : is_cstr m a (l1 ++ l2) -> is_cstr m (a + Z.of_nat (length l1)) l2.
Proof.
  revert a. induction l1 as [|b l1 IH]; intros a H; cbn [length app] in *; [by rewrite Z.add_0_r|].
  apply is_cstr_cons in H as [_ H]. apply IH in H.
  by replace (a + Z.of_nat (S (length l1))) with (a + 1 + Z.of_nat (length l1)) by lia.
Qed.

Lemma cstr_head m a l : is_cstr m a l -> m a = default 0 (list.head l).
Proof.
  destruct l; [apply is_cstr_nil|]. intros H. by apply is_cstr_cons in H as [[H _] _].
Qed.

Section Parsing.

Context (fuel : nat) (m : bmem).

Lemma flags_run flags : forall n a s c rest,
  (length flags < n)%nat -> Forall is_flag flags -> is_cstr m a (flags ++ c :: rest) -> ~ is_flag c ->
  parse_flags_loop m n a s
  = Some (a + Z.of_nat (length flags),
          mk_spec (start s) (len s)
            (left s || bool_decide (45 ∈ flags)) (plus s || bool_decide (43 ∈ flags))
            (space s || bool_decide (32 ∈ flags)) (alt s || bool_decide (35 ∈ flags))
            (zero s || bool_decide (48 ∈ flags))
            (width s) (precision s) (lenmod_of s) (lenbits s) (specifier s)).
Proof.
  induction flags as [|b flags IH]; intros n a s c rest Hn Hf Hc Hnf;
    (destruct n as [|n]; [cbn in Hn; lia|]); cbn [parse_flags_loop app length] in *.
  - rewrite (cstr_head _ _ _ Hc). cbn [list.head default from_option id].
    assert (flag_char c s = None) as ->.
    { unfold flag_char, is_flag in *.
      by rewrite (proj2 (Z.eqb_neq c 45)), (proj2 (Z.eqb_neq c 43)), (proj2 (Z.eqb_neq c 32)),
        (proj2 (Z.eqb_neq c 35)), (proj2 (Z.eqb_neq c 48)) by tauto. }
    rewrite Z.add_0_r. rewrite !bool_decide_eq_false_2 by apply not_elem_of_nil.
    rewrite !orb_false_r. by destruct s.
  - apply list.Forall_cons_1 in Hf as [Hb Hf]. rewrite (cstr_head _ _ _ Hc).
    cbn [list.head default from_option id]. apply is_cstr_cons in Hc as [_ Hc].
    assert (Hd : forall x, bool_decide (x ∈ b :: flags) = (x =? b) || bool_decide (x ∈ flags)).
    { intros x. destruct (Z.eqb_spec x b) as [->|Hx]; cbn [orb].
      - apply bool_decide_eq_true_2. left.
      - apply bool_decide_ext. rewrite elem_of_cons. tauto. }
    rewrite !Hd, !orb_assoc.
    replace (a + Z.of_nat (S (length flags))) with (a + 1 + Z.of_nat (length flags)) by lia.
    unfold is_flag in Hb. destruct Hb as [-> | [-> | [-> | [-> | ->]]]]; cbn [flag_char Z.eqb Pos.eqb];
      (erewrite IH; [|lia|done|done|done]); cbn; by rewrite ?orb_false_r, ?orb_true_r.
Qed.

Lemma digit_test c : is_digit c -> truth c && truth (isdigit (s8 c)) = true.
Proof.
  unfold is_digit. intros H. rewrite s8_small by lia. rewrite (proj2 (truth_true c)) by lia.
  assert (c = 48 \/ c = 49 \/ c = 50 \/ c = 51 \/ c = 52 \/ c = 53 \/ c = 54 \/ c = 55 \/ c = 56 \/ c = 57)
    as Hc by lia. repeat destruct Hc as [-> | Hc]; subst; done.
Qed.

Lemma non_digit_test c : 0 <= c < 128 -> ~ is_digit c -> truth c && truth (isdigit (s8 c)) = false.
Proof.
  unfold is_digit. intros Hr H. rewrite s8_small by lia. unfold isdigit.
  repeat (rewrite (proj2 (Z.eqb_neq c _)) by lia). cbn. apply andb_false_r.
Qed.

(** The digits are folded; [acc] is exact as long as the value stays in range. *)
Lemma digits_run acc lim ds : forall n a v c rest,
  (forall r d, 0 <= r -> is_digit d -> r * 10 + (d - 48) < lim -> acc r (d - 48) = r * 10 + (d - 48)) ->
  (length ds < n)%nat -> Forall is_digit ds -> is_cstr m a (ds ++ c :: rest) ->
  0 <= c < 128 -> ~ is_digit c -> 0 <= v -> dec v ds < lim ->
  digits_loop m acc n a v = Some (a + Z.of_nat (length ds), dec v ds).
Proof.
  induction ds as [|d ds IH]; intros n a v c rest Hacc Hn Hd Hc Hr Hnd Hv Hlt;
    (destruct n as [|n]; [cbn in Hn; lia|]); cbn [digits_loop app length] in *; rewrite (cstr_head _ _ _ Hc);
    cbn [list.head default from_option id].
  - rewrite non_digit_test by done. by rewrite Z.add_0_r.
  - apply list.Forall_cons_1 in Hd as [Hd Hds]. rewrite digit_test by done.
    apply is_cstr_cons in Hc as [_ Hc]. change (dec v (d :: ds)) with (dec (v * 10 + (d - 48)) ds) in *.
    unfold is_digit in Hd. pose proof (dec_mono ds (v * 10 + (d - 48)) ltac:(lia) Hds).
    rewrite Hacc by (unfold is_digit; lia). erewrite IH; [|done|lia|done|done|done|done|lia|done].
    do 2 f_equal. lia.
Qed.

Lemma wp_run w a c rest :
  wf_wp w -> is_cstr m a (wp_text w ++ c :: rest) -> 0 <= c < 128 -> ~ is_digit c -> c <> 42 ->
  (length (wp_text w) < fuel)%nat ->
  parse_width_precision fuel m a = Some (a + Z.of_nat (length (wp_text w)), wp_value WP_UNSPECIFIED w).
Proof.
  intros Hw Hc Hr Hd Hs Hf. unfold parse_width_precision. rewrite (cstr_head _ _ _ Hc).
  set (acc := fun r d => s32 (s32 (r * 10) + d)).
  assert (Hacc : forall r d, 0 <= r -> is_digit d -> r * 10 + (d - 48) < 2 ^ 31 -> acc r (d - 48) = r * 10 + (d - 48)).
  { intros r d H1 H2 H3. unfold acc, is_digit in *. rewrite (s32_small (r * 10)), s32_small by lia. done. }
  destruct w as [|ds|]; cbn [wp_text app length list.head default from_option id wp_value] in *.
  - rewrite (proj2 (Z.eqb_neq c 42)) by done.
    rewrite (digits_run acc (2 ^ 31) [] fuel a 0 c rest) by (done || lia).
    unfold mbind, option_bind. cbn [length Z.of_nat]. rewrite !Z.add_0_r, Z.eqb_refl. done.
  - destruct Hw as (Hne & Hds & Hlt).
    rewrite (digits_run acc (2 ^ 31) ds fuel a 0 c rest) by (done || lia).
    destruct ds as [|d ds]; [done|]. apply list.Forall_cons_1 in Hds as [Hd0 _]. unfold is_digit in Hd0.
    cbn [app list.head from_option id]. rewrite (proj2 (Z.eqb_neq d 42)) by lia.
    unfold mbind, option_bind. cbn beta iota. rewrite (proj2 (Z.eqb_neq _ a)) by (cbn [length]; lia). done.
  - done.
Qed.

Lemma lenmod_skip map a c lm :
  m a = c -> Forall (fun '(ch0, _, ch1, _) => c <> ch0 /\ c <> ch1) map -> lenmod_loop m map a lm = (a, lm).
Proof.
  intros Hm. induction map as [|[[[ch0 lm0] ch1] lm1] map IH]; intros H; [done|].
  apply list.Forall_cons_1 in H as [[H0 H1] H]. cbn [lenmod_loop]. rewrite Hm.
  rewrite (proj2 (Z.eqb_neq c ch0)) by done. rewrite andb_false_r. by apply IH.
Qed.

(** The entries in front of the one whose first character is [x]. *)
Lemma lenmod_before k x a lm :
  m a = x -> forallb (fun '(ch0, _, _, _) => negb (ch0 =? x)) (take k LENMOD_MAP) = true ->
  lenmod_loop m LENMOD_MAP a lm = lenmod_loop m (drop k LENMOD_MAP) a lm.
Proof.
  intros Hm. rewrite <- (take_drop k LENMOD_MAP) at 2. generalize (drop k LENMOD_MAP) as rest.
  induction (take k LENMOD_MAP) as [|[[[ch0 lm0] ch1] lm1] l IH]; intros rest H; [done|].
  cbn in H. apply andb_true_iff in H as [H0 H]. cbn [app lenmod_loop]. rewrite Hm.
  apply negb_true_iff, Z.eqb_neq in H0. rewrite (proj2 (Z.eqb_neq x ch0)) by done.
  rewrite andb_false_r. by apply IH.
Qed.

(** The entry itself, and the ones behind it. *)
Lemma lenmod_entry k ch0 lm0 ch1 lm1 rest a c lm :
  drop k LENMOD_MAP = (ch0, lm0, ch1, lm1) :: rest ->
  forallb (fun '(y, _, _, _) => negb (y =? ch0)) (take k LENMOD_MAP) = true ->
  plain c -> m a = ch0 ->
  (ch1 <> 0 -> m (a + 1) = ch1 -> m (a + 2) = c -> lenmod_loop m LENMOD_MAP a lm = (a + 2, lm1))
  /\ (m (a + 1) = c -> lenmod_loop m LENMOD_MAP a lm = (a + 1, lm0)).
Proof.
  intros Hd Hb [_ Hp] Hm. rewrite (lenmod_before k ch0) by done. rewrite Hd.
  rewrite <- (take_drop k LENMOD_MAP), Hd in Hp. apply Forall_app in Hp as [_ Hp].
  apply list.Forall_cons_1 in Hp as [[Hc0 Hc1] Hp]. cbn [lenmod_loop]. rewrite Hm, Z.eqb_refl. split.
  - intros H1 H2 H3. rewrite H2, Z.eqb_refl, (proj2 (truth_true ch1)) by done. cbn [andb].
    by apply (lenmod_skip _ _ c).
  - intros H2. rewrite H2, (proj2 (Z.eqb_neq c ch1)), andb_false_r by done. by apply (lenmod_skip _ _ c).
Qed.

Lemma lenmod_run lm a c rest :
  lm <> LEN_FIXED -> lm <> LEN_FAST -> plain c -> is_cstr m a (mod_text lm ++ c :: rest) ->
  lenmod_loop m LENMOD_MAP a LEN_NONE = (a + Z.of_nat (length (mod_text lm)), lm).
Proof.
  intros H1 H2 Hp Hc. pose proof (cstr_head _ _ _ Hc) as E0.
  destruct lm; try done; cbn [mod_text app length list.head from_option id] in *;
    try (apply is_cstr_cons in Hc as [_ Hc]; pose proof (cstr_head _ _ _ Hc) as E1);
    try (apply is_cstr_cons in Hc as [_ Hc]; pose proof (cstr_head _ _ _ Hc) as E2);
    cbn [list.head from_option id] in *; try rewrite <- Z.add_assoc in E2.
  - rewrite Z.add_0_r. apply (lenmod_skip _ _ c); [done|]. apply Hp.
  - by eapply (lenmod_entry 0 104).
  - by eapply (lenmod_entry 0 104).
  - by eapply (lenmod_entry 1 108).
  - by eapply (lenmod_entry 1 108).
  - by eapply (lenmod_entry 2 106).
  - by eapply (lenmod_entry 3 122).
  - by eapply (lenmod_entry 4 116).
  - by eapply (lenmod_entry 6 76).
  - by eapply (lenmod_entry 7 72).
  - by eapply (lenmod_entry 8 68).
  - by eapply (lenmod_entry 8 68).
Qed.

(** What comes behind a width or precision. *)
Definition ends_number (c : Z) : Prop := 0 <= c < 128 /\ ~ is_digit c /\ c <> 42 /\ ~ is_flag c.

Lemma mod_tail lm c rest :
  plain c -> exists c' rest', mod_text lm ++ c :: rest = c' :: rest' /\ ends_number c' /\ c' <> 46.
Proof.
  intros [Hc _]. unfold ends_number, is_digit, is_flag.
  destruct lm; cbn [mod_text app]; (eexists _, _; split; [reflexivity|]); lia.
Qed.

Lemma prec_tail p lm c rest :
  plain c -> exists c' rest', prec_text p ++ mod_text lm ++ c :: rest = c' :: rest' /\ ends_number c'.
Proof.
  intros Hc. destruct p as [w|]; cbn [prec_text app].
  - eexists _, _. split; [reflexivity|]. unfold ends_number, is_digit, is_flag. lia.
  - destruct (mod_tail lm c rest Hc) as (c' & r & E & H & _). by exists c', r.
Qed.

Lemma width_tail d rest :
  wf_dir d ->
  exists c rest', wp_text (d_width d) ++ prec_text (d_prec d) ++ mod_text (d_mod d) ++ d_spec d :: rest = c :: rest'
    /\ ~ is_flag c.
Proof.
  intros (_ & Hw & Hz & _ & _ & _ & Hp). destruct (d_width d) as [|ds|]; cbn [wp_text app].
  - destruct (prec_tail (d_prec d) (d_mod d) (d_spec d) rest Hp) as (c & r & E & H).
    exists c, r. split; [done|apply H].
  - destruct Hw as (Hne & Hds & _). destruct ds as [|d0 ds]; [done|]. eexists _, _. split; [reflexivity|].
    apply list.Forall_cons_1 in Hds as [Hd _]. unfold is_digit, is_flag in *.
    destruct (decide (d0 = 48)) as [->|]; [done|lia].
  - eexists _, _. split; [reflexivity|]. unfold is_flag. lia.
Qed.

(** The optional precision. *)
Lemma prec_run p lm c a rest :
  match p with Some w => wf_wp w | None => True end -> plain c ->
  is_cstr m a (prec_text p ++ mod_text lm ++ c :: rest) -> (length (prec_text p) < fuel)%nat ->
  (if m a =? 46 then
     '(f, p) ← parse_width_precision fuel m (a + 1);
     Some (f, if p =? WP_UNSPECIFIED then 0 else p)
   else Some (a, WP_UNSPECIFIED))
  = Some (a + Z.of_nat (length (prec_text p)),
          match p with None => WP_UNSPECIFIED | Some w => wp_value 0 w end).
Proof.
  intros Hw Hp Hc Hf. rewrite (cstr_head _ _ _ Hc). destruct (mod_tail lm c rest Hp) as (c' & r & E & (Hr & Hd & Hs & _) & H46).
  destruct p as [w|]; cbn [prec_text app length list.head from_option id] in *.
  - rewrite Z.eqb_refl. apply is_cstr_cons in Hc as [_ Hc]. rewrite E in Hc.
    rewrite (wp_run w (a + 1) c' r) by (done || lia). unfold mbind, option_bind. cbn beta iota.
    f_equal. f_equal; [lia|]. unfold WP_UNSPECIFIED. destruct w as [|ds|]; [done| |done]. cbn.
    destruct Hw as (_ & Hds & _). pose proof (dec_mono ds 0 ltac:(lia) Hds).
    by rewrite (proj2 (Z.eqb_neq _ _)) by lia.
  - rewrite E. cbn [list.head from_option id]. rewrite (proj2 (Z.eqb_neq c' 46)) by done. by rewrite Z.add_0_r.
Qed.

Lemma plain_byte c : plain c -> 0 < c < 128.
Proof. intros [H _]. lia. Qed.

Lemma parse_spec_dir d a rest :
  wf_dir d -> is_cstr m a (dir_text d ++ rest) -> Z.of_nat (length (dir_text d)) < 2 ^ 32 ->
  (length (dir_text d) < fuel)%nat ->
  parse_spec fuel m a = Some (a + Z.of_nat (length (dir_text d)), dir_spec a d).
Proof.
  intros Hd Hc H32 Hf. destruct (width_tail d rest Hd) as (c1 & r1 & E1 & Hc1).
  destruct Hd as (Hfl & Hw & _ & Hpr & Hm1 & Hm2 & Hp).
  destruct (prec_tail (d_prec d) (d_mod d) (d_spec d) rest Hp) as (c2 & r2 & E2 & (Hr2 & Hd2 & Hs2 & _)).
  unfold parse_spec. pose proof (cstr_head _ _ _ Hc) as E0. cbn in E0. rewrite E0. cbn [Z.eqb Pos.eqb negb].
  unfold dir_spec. set (n := Z.of_nat (length (dir_text d))) in *.
  assert (Hn : n = 1 + Z.of_nat (length (d_flags d)) + Z.of_nat (length (wp_text (d_width d)))
                   + Z.of_nat (length (prec_text (d_prec d))) + Z.of_nat (length (mod_text (d_mod d))) + 1).
  { unfold n, dir_text. cbn [length]. rewrite !length_app. cbn [length]. lia. }
  unfold dir_text in Hc. cbn [app] in Hc. apply is_cstr_cons in Hc as [_ Hc].
  rewrite <- !app_assoc in Hc. cbn [app] in Hc.
  unfold parse_flags. rewrite (flags_run (d_flags d) fuel (a + 1) _ c1 r1); [|lia|done|by rewrite <- E1|done].
  apply cstr_app in Hc. unfold mbind, option_bind. cbn beta iota.
  rewrite (wp_run (d_width d) _ c2 r2); [|done|by rewrite <- E2|done|done|done|lia].
  cbn beta iota. apply cstr_app in Hc.
  pose proof (prec_run (d_prec d) (d_mod d) (d_spec d) _ rest Hpr Hp Hc ltac:(lia)) as Hprec.
  unfold mbind, option_bind in Hprec. rewrite Hprec. cbn beta iota. apply cstr_app in Hc.
  unfold parse_lenmod. rewrite (lenmod_run (d_mod d) _ (d_spec d) rest) by done.
  rewrite !bool_decide_eq_false_2 by done. cbn [orb]. apply cstr_app in Hc.
  apply cstr_head in Hc. cbn [list.head from_option id] in Hc. rewrite Hc.
  pose proof (plain_byte _ Hp). rewrite s8_small by lia.
  assert (En : a + 1 + Z.of_nat (length (d_flags d)) + Z.of_nat (length (wp_text (d_width d)))
               + Z.of_nat (length (prec_text (d_prec d))) + Z.of_nat (length (mod_text (d_mod d))) + 1 = a + n) by lia.
  rewrite En. replace (a + n - a) with n by lia. rewrite u32_small by lia. done.
Qed.

End Parsing.

(** ** Whole formats *)

(** A format: directives, each behind some literal text, and a last literal. *)
Definition format : Type := list (list Z * dir) * list Z.

Fixpoint items_text (its : list (list Z * dir)) (last : list Z) : list Z :=
  match its with
  | [] => last
  | (l, d) :: its' => l ++ dir_text d ++ items_text its' last
  end.

Definition format_text (fm : format) : list Z := items_text (fst fm) (snd fm).

Definition literal (l : list Z) : Prop := Forall (fun c => c <> 37) l.

Definition wf_format (fm : format) : Prop :=
  Forall (fun '(l, d) => literal l /\ wf_dir d) (fst fm) /\ literal (snd fm).

(** *** What a directive means

    The rules of [printf], on the syntax of directives: flags, width and precision
    as they are written or as the arguments give them, and the text of each
    conversion. *)

(** A width or precision and the arguments behind it. *)
Definition number_of (w : wp) (args : va_list) : option (Z * va_list) :=
  match w with
  | WNone => Some (0, args)
  | WNum ds => Some (dec 0 ds, args)
  | WStar => match args with a :: r => Some (s32 a, r) | [] => None end
  end.

(** Where the text is put: a width and the side; and the precision, if there is
    one. *)
Record layout : Type := mk_layout { lay_left : bool; lay_width : Z; lay_prec : option Z }.

Definition has (c : Z) (d : dir) : bool := bool_decide (c ∈ d_flags d).

(** A negative width from the arguments is the [-] flag and its absolute value, a
    negative precision is none. *)
Definition layout_of (d : dir) (args : va_list) : option (layout * va_list) :=
  '(w, args1) ← number_of (d_width d) args;
  match d_prec d with
  | None => Some (mk_layout (has 45 d || (w <? 0)) (Z.abs w) None, args1)
  | Some p =>
      '(n, args2) ← number_of p args1;
      Some (mk_layout (has 45 d || (w <? 0)) (Z.abs w) (if n <? 0 then None else Some n), args2)
  end.

Definition fits_layout (lay : layout) : Prop :=
  lay_width lay < 2 ^ 31 - 1 /\ default 0 (lay_prec lay) < 2 ^ 31.

(** Text filled up with spaces to the width. *)
Definition padded (lay : layout) (body : list Z) : list Z :=
  let pad := replicate (Z.to_nat (lay_width lay - Z.of_nat (length body))) 32 in
  if lay_left lay then body ++ pad else pad ++ body.

(** The zeros that make up the least number of digits, one without a precision. *)
Definition least_zeros (lay : layout) (digits : list Z) : Z :=
  Z.max 0 (default 1 (lay_prec lay) - Z.of_nat (length digits)).

(** A number: sign or prefix, zeros, digits; with the [0] flag the zeros fill the
    width. *)
Definition numeric (d : dir) (lay : layout) (prefix digits : list Z) : list Z :=
  let zs := least_zeros lay digits in
  let fill := if has 48 d then Z.max 0 (lay_width lay - (Z.of_nat (length prefix) + zs + Z.of_nat (length digits))) else 0 in
  padded lay (prefix ++ replicate (Z.to_nat (zs + fill)) 48 ++ digits).

(** Minus in front of negative numbers, and in front of others a plus sign or a
    space if the flags ask for one. *)
Definition sign_text (d : dir) (v : Z) : list Z :=
  if v <? 0 then [45] else if has 43 d then [43] else if has 32 d then [32] else [].

(** The conversions without a sign: [u], [o], [x], [X], [b] and [B]. *)
Definition radix (c : Z) : option Z :=
  match c with 117 => Some 10 | 111 => Some 8 | 120 | 88 => Some 16 | 98 | 66 => Some 2 | _ => None end.

(** With the [#] flag: [0x], [0X], [0b] or [0B], and for octal numbers a zero where
    the precision does not put one. *)
Definition radix_text (d : dir) (zs : Z) : list Z :=
  if has 35 d then
    match d_spec d with
    | 120 => [48; 120] | 88 => [48; 88] | 98 => [48; 98] | 66 => [48; 66]
    | 111 => if zs =? 0 then [48] else []
    | _ => []
    end
  else [].

(** The digits of a number, most significant first, none for zero; [upper] chooses
    the letters. *)
Definition digit_char (upper : bool) (i : Z) : Z := if i <? 10 then 48 + i else (if upper then 65 else 97) + (i - 10).
Definition digits_of (base : Z) (upper : bool) (num : Z) (l : list Z) : Prop :=
  exists ix, l = digit_char upper <$> ix /\ Forall (fun i => 0 <= i < base) ix
    /\ fold_left (fun v i => v * base + i) ix 0 = num /\ list.head ix <> Some 0.

(** The value an integer conversion takes from the arguments: 64 bits for [ll] and
    [j], the low word first, and one word for the other modifiers. *)
Inductive pulls (lm : lenmod) : va_list -> va_list -> Z -> Z -> Prop :=
| pulls_word w args :
    lm ∈ [LEN_NONE; LEN_CHAR; LEN_SHORT; LEN_LONG; LEN_SIZE; LEN_PTRDIFF] -> pulls lm (w :: args) args 32 (u32 w)
| pulls_two lo hi args :
    lm ∈ [LEN_LONG_LONG; LEN_MAX] -> pulls lm (lo :: hi :: args) args 64 (u32 lo + u32 hi * 2 ^ 32).

Definition signed_value (bits u : Z) : Z := if u <? 2 ^ (bits - 1) then u else u - 2 ^ bits.

(** [conversion fuel f d lay args rest txt]: with the arguments [args] the directive
    [d] in the layout [lay] prints [txt] and leaves [rest]; [f] says which strings
    there are. *)
Inductive conversion (fuel : nat) (f : file) (d : dir) (lay : layout) : va_list -> va_list -> list Z -> Prop :=
| conv_percent args : d = mk_dir [] WNone None LEN_NONE 37 -> conversion fuel f d lay args args [37]
| conv_char w args :
    d_spec d = 99 -> d_mod d = LEN_NONE ->
    conversion fuel f d lay (w :: args) args (padded lay (if w mod 256 =? 0 then [] else [w mod 256]))
| conv_str a args l :
    d_spec d = 115 -> d_mod d = LEN_NONE -> reads f (Addr (u32 a)) l -> (length l < fuel)%nat -> Z.of_nat (length l) < 2 ^ 31 ->
    conversion fuel f d lay (a :: args) args
      (padded lay (match lay_prec lay with None => l | Some n => take (Z.to_nat n) l end))
| conv_signed args rest bits u ds :
    d_spec d = 100 \/ d_spec d = 105 -> pulls (d_mod d) args rest bits u ->
    let v := signed_value bits u in
    digits_of 10 false (Z.abs v) ds -> conversion fuel f d lay args rest (numeric d lay (sign_text d v) ds)
| conv_unsigned args rest bits u base ds :
    radix (d_spec d) = Some base -> pulls (d_mod d) args rest bits u -> digits_of base (d_spec d =? 88) u ds ->
    conversion fuel f d lay args rest (numeric d lay (radix_text d (least_zeros lay ds)) ds)
| conv_pointer p args ds :
    d_spec d = 112 -> digits_of 16 false (u32 p) ds ->
    conversion fuel f d lay (p :: args) args
      (numeric d (mk_layout (lay_left lay) (lay_width lay) (Some 8)) [48; 120] ds).

(** [renders fuel f items last args txt]: with the arguments [args] the format
    prints [txt]. *)
Inductive renders (fuel : nat) (f : file) : list (list Z * dir) -> list Z -> va_list -> list Z -> Prop :=
| renders_last last args : renders fuel f [] last args last
| renders_dir l d its last args lay args1 rest t txt :
    layout_of d args = Some (lay, args1) -> fits_layout lay -> conversion fuel f d lay args1 rest t ->
    renders fuel f its last rest txt ->
    renders fuel f ((l, d) :: its) last args (l ++ t ++ txt).

(** *** The code follows these rules *)

(** The directive as the code sees it, its width and precision known. *)
Definition spec_of (a : Z) (d : dir) (lay : layout) : fmtspec :=
  mk_spec a (Z.of_nat (length (dir_text d))) (lay_left lay) (has 43 d) (has 32 d) (has 35 d) (has 48 d)
    (lay_width lay) (default WP_UNSPECIFIED (lay_prec lay)) (d_mod d) 0 (d_spec d).

Lemma wp_value_nonneg absent w ds : wf_wp w -> w = WNum ds -> 0 <= wp_value absent w.
Proof. intros Hw ->. destruct Hw as (_ & Hds & _). cbn. apply (dec_mono ds 0 ltac:(lia) Hds). Qed.

Lemma s32_range x : - 2 ^ 31 <= s32 x < 2 ^ 31.
Proof. unfold s32. pose proof (Z.mod_pos_bound (x + 2 ^ 31) (2 ^ 32) ltac:(lia)). lia. Qed.

(** [star_args] finds the layout. *)
Lemma layout_star a d args lay args1 :
  wf_dir d -> layout_of d args = Some (lay, args1) -> fits_layout lay ->
  star_args (dir_spec a d) args = Some (spec_of a d lay, args1) /\ wf_spec (spec_of a d lay).
Proof.
  intros (_ & Hw & _ & Hp & _) E [F1 F2].
  assert (Ew : exists w, number_of (d_width d) args = Some w
    /\ (let w0 := if wp_value WP_UNSPECIFIED (d_width d) =? WP_UNSPECIFIED then 0 else wp_value WP_UNSPECIFIED (d_width d) in
        if w0 =? WP_STAR then va_word s32 args else Some (w0, args)) = Some w /\ - 2 ^ 31 <= fst w < 2 ^ 31).
  { unfold layout_of in E. destruct (d_width d) as [|ds|]; cbn [number_of] in *.
    - eexists. split; [reflexivity|]. split; [reflexivity|]. cbn. lia.
    - pose proof (wp_value_nonneg WP_UNSPECIFIED _ ds Hw eq_refl) as Hn. destruct Hw as (_ & _ & Hd). cbn [wp_value] in *.
      eexists. split; [reflexivity|]. unfold WP_UNSPECIFIED, WP_STAR. cbv zeta.
      rewrite (proj2 (Z.eqb_neq (dec 0 ds) (-1))), (proj2 (Z.eqb_neq (dec 0 ds) (-2))) by lia. split; [reflexivity|]. cbn. lia.
    - destruct args as [|b r]; [discriminate E|]. eexists. split; [reflexivity|]. split; [reflexivity|]. apply s32_range. }
  destruct Ew as ([w args'] & En & Es & Hwr). unfold layout_of in E. rewrite En in E. unfold mbind, option_bind in E.
  assert (Ep : exists n, (if match d_prec d with None => WP_UNSPECIFIED | Some w => wp_value 0 w end =? WP_STAR then va_word s32 args'
      else Some (match d_prec d with None => WP_UNSPECIFIED | Some w => wp_value 0 w end, args')) = Some (n, args1)
    /\ lay = mk_layout (has 45 d || (w <? 0)) (Z.abs w) (if n <? 0 then None else Some n)).
  { destruct (d_prec d) as [q|]; [|eexists; split; [cbn; f_equal; f_equal; congruence|cbn; congruence]].
    destruct q as [|ds|]; cbn [number_of wp_value] in *.
    - exists 0. injection E as <- <-. done.
    - pose proof (wp_value_nonneg 0 _ ds Hp eq_refl) as Hn. cbn [wp_value] in Hn. unfold WP_STAR.
      rewrite (proj2 (Z.eqb_neq (dec 0 ds) (-2))) by lia. exists (dec 0 ds). injection E as <- <-. done.
    - destruct args' as [|b r]; [discriminate E|]. injection E as <- <-. exists (s32 b). done. }
  destruct Ep as (n & Eq & ->). cbn [lay_left lay_width lay_prec] in *.
  split; [|split; cbn [spec_of width precision lay_width lay_prec]; [lia|destruct (Z.ltb_spec n 0); cbn in *; unfold WP_UNSPECIFIED; lia]].
  unfold star_args. cbn [dir_spec width precision start len left plus space alt zero lenmod_of lenbits specifier]. cbv zeta in Es.
  unfold mbind, option_bind. rewrite Es, Eq. unfold spec_of. cbn [lay_left lay_width lay_prec]. do 3 f_equal.
  - unfold has. destruct (w <? 0); [by rewrite orb_true_r|by rewrite orb_false_r].
  - destruct (Z.ltb_spec w 0); [rewrite s32_small; lia|lia].
  - by destruct (n <? 0).
Qed.

Lemma digit_chars base (upper : bool) ix : base <= 16 -> Forall (fun i => 0 <= i < base) ix ->
  (fun i => default 0 ((if upper then upperhex else lowerhex) !! Z.to_nat i)) <$> ix = digit_char upper <$> ix.
Proof.
  intros Hb Hix. induction Hix as [|i ix Hi Hix IH]; [done|]. cbn [fmap list_fmap]. f_equal; [|exact IH].
  assert (Hcase : i = 0 \/ i = 1 \/ i = 2 \/ i = 3 \/ i = 4 \/ i = 5 \/ i = 6 \/ i = 7 \/ i = 8 \/ i = 9 \/ i = 10 \/ i = 11 \/ i = 12
    \/ i = 13 \/ i = 14 \/ i = 15) by lia.
  destruct upper; repeat destruct Hcase as [-> | Hcase]; subst; reflexivity.
Qed.

Lemma digits_numeral base upper num l : base <= 16 ->
  digits_of base upper num l <-> numeral base (if upper then upperhex else lowerhex) num l.
Proof.
  intros Hb. split; intros (ix & -> & Hix & Hv & Hh); exists ix; (split; [by rewrite (digit_chars base)|done]).
Qed.

Lemma digits_head base upper num l : base <= 16 -> digits_of base upper num l -> default 0 (list.head l) <> 48.
Proof.
  intros Hb (ix & -> & Hix & _ & Hh). destruct ix as [|i ix]; [done|]. cbn in *. apply list.Forall_cons_1 in Hix as [Hi _].
  assert (i <> 0) by congruence. unfold digit_char. destruct upper, (Z.ltb_spec i 10); lia.
Qed.

Lemma precision_zeros a d lay ds : (forall n, lay_prec lay = Some n -> 0 <= n) ->
  precision_pad (spec_of a d lay) (Z.of_nat (length ds)) = least_zeros lay ds.
Proof.
  intros Hn. unfold precision_pad, least_zeros, spec_of, WP_UNSPECIFIED. cbn [precision]. destruct (lay_prec lay) as [n|]; cbn [default from_option id].
  - rewrite (proj2 (Z.eqb_neq n (-1))) by (specialize (Hn n eq_refl); lia). destruct (Z.ltb_spec (Z.of_nat (length ds)) n); lia.
  - change (-1 =? -1) with true. cbv iota. destruct (Z.ltb_spec (Z.of_nat (length ds)) 1); lia.
Qed.

Lemma numeric_text a d lay pre ds : (forall n, lay_prec lay = Some n -> 0 <= n) -> number_text (spec_of a d lay) pre ds = numeric d lay pre ds.
Proof.
  intros Hn. unfold number_text, numeric, zeros, least_zeros, spec_of, WP_UNSPECIFIED. cbn [precision width zero left].
  destruct (lay_prec lay) as [n|]; cbn [default from_option id]; [|done]. by rewrite (proj2 (Z.eqb_neq n (-1))) by (specialize (Hn n eq_refl); lia).
Qed.

Lemma layout_prec_nonneg d args lay args1 : layout_of d args = Some (lay, args1) -> forall n, lay_prec lay = Some n -> 0 <= n.
Proof.
  unfold layout_of, mbind, option_bind. intros E n. destruct (number_of (d_width d) args) as [[w r]|]; [|discriminate E].
  destruct (d_prec d) as [q|]; [|injection E as <- <-; discriminate 1].
  destruct (number_of q r) as [[k r']|]; [|discriminate E]. injection E as <- <-. cbn. destruct (Z.ltb_spec k 0); [done|]. intros [= <-]. lia.
Qed.

Lemma radix_cases c b : radix c = Some b ->
  (c = 117 /\ b = 10) \/ (c = 111 /\ b = 8) \/ (c = 120 /\ b = 16) \/ (c = 88 /\ b = 16) \/ (c = 98 /\ b = 2) \/ (c = 66 /\ b = 2).
Proof.
  unfold radix. destruct c as [|c|c]; try discriminate 1.
  repeat (destruct c as [c|c|]; try discriminate 1); intros [= <-]; tauto.
Qed.

Ltac each_modifier H := repeat (apply elem_of_cons in H as [-> | H]; [reflexivity|]); apply elem_of_nil in H.

(** The cases of the code agree with the rules. *)
Lemma conversion_prints fuel f a d lay args rest t :
  (forall n, lay_prec lay = Some n -> 0 <= n) ->
  conversion fuel f d lay args rest t -> prints fuel f (spec_of a d lay) args rest t.
Proof.
  intros Hn [args' ->|w args' Hc Hm|b args' l Hc Hm Hr Hl Hl2|args' rest' bits u ds Hc Hp v Hd|args' rest' bits u base ds Hr Hp Hd|b args' ds Hc Hd].
  - by apply prints_percent.
  - by apply prints_char.
  - eapply eq_ind; [by apply (prints_str _ _ (spec_of a d lay))|]. unfold field, padded. cbn [spec_of precision width left].
    destruct (lay_prec lay) as [n|]; cbn [default from_option id]; unfold WP_UNSPECIFIED, INT_MAX.
    + by rewrite (proj2 (Z.eqb_neq n (-1))) by (specialize (Hn n eq_refl); lia).
    + change (-1 =? -1) with true. cbv iota. by rewrite take_ge by lia.
  - apply (digits_numeral 10) in Hd; [|lia]. rewrite <- (numeric_text a) by done. change (sign_text d v) with (signstr (v <? 0) (spec_of a d lay)).
    destruct Hp as [w args0 Hm|lo hi args0 Hm].
    + assert (Ev : v = s32 w).
      { unfold v, signed_value, s32, u32. change (32 - 1) with 31. change (2 ^ 31) with 2147483648. change (2 ^ 32) with 4294967296. zbool; zdiv. }
      rewrite Ev in *. apply prints_int; [exact Hc| |done]. cbn [spec_of lenmod_of lenbits]. by each_modifier Hm.
    + apply (prints_int_long _ _ (spec_of a d lay) lo hi args0 v ds); [exact Hc| | |done].
      * cbn [spec_of lenmod_of lenbits]. by each_modifier Hm.
      * unfold v, signed_value. cbn [va_long_long]. change (64 - 1) with 63. cbn [andb]. rewrite Z.leb_antisym. by destruct (_ <? _).
  - assert (Hu : is_unsigned (d_spec d) = true /\ base_of (d_spec d) = base /\ base <= 16
      /\ radix_text d (least_zeros lay ds) = alt_prefix (spec_of a d lay) (least_zeros lay ds) ds).
    { pose proof (digits_head base (d_spec d =? 88) u ds) as Hh. unfold radix_text, alt_prefix. cbn [spec_of alt specifier].
      apply radix_cases in Hr.
      repeat destruct Hr as [Hr | Hr]; destruct Hr as [Hcs ->]; rewrite Hcs in *; (split_and!; [reflexivity|reflexivity|lia|]); destruct (has 35 d); try reflexivity.
      cbn. rewrite (proj2 (Z.eqb_neq _ _) (Hh ltac:(lia) Hd)). unfold truth. by destruct (least_zeros lay ds =? 0). }
    destruct Hu as (H1 & <- & H3 & ->). apply digits_numeral in Hd; [|done]. rewrite <- (numeric_text a) by done.
    rewrite <- (precision_zeros a d) by done. change (number_text _ _ _) with (unsigned_text (spec_of a d lay) ds).
    destruct Hp as [w args0 Hm|lo hi args0 Hm].
    + apply prints_unsigned; [exact H1| |exact Hd]. cbn [spec_of lenmod_of lenbits]. by each_modifier Hm.
    + apply prints_unsigned_long; [exact H1| |exact Hd]. cbn [spec_of lenmod_of lenbits]. by each_modifier Hm.
  - apply (digits_numeral 16) in Hd; [|lia]. eapply eq_ind; [by apply (prints_pointer _ _ (spec_of a d lay))|]. reflexivity.
Qed.

Lemma literal_run m l : forall n a k rest,
  (length l < n)%nat -> literal l -> is_cstr m a (l ++ rest) -> default 37 (list.head rest) = 37 ->
  0 <= k -> k + Z.of_nat (length l) < 2 ^ 32 ->
  literal_loop m n a k = Some (a + Z.of_nat (length l), k + Z.of_nat (length l)).
Proof.
  induction l as [|c l IH]; intros n a k rest Hn Hl Hc Hr Hk Hlt;
    (destruct n as [|n]; [cbn in Hn; lia|]); cbn [literal_loop app length] in *; rewrite (cstr_head _ _ _ Hc).
  - rewrite !Z.add_0_r. destruct rest as [|c rest]; [done|]. cbn in Hr |- *. subst c. by rewrite andb_false_r.
  - apply list.Forall_cons_1 in Hl as [Hc37 Hl]. apply is_cstr_cons in Hc as [[_ Hb] Hc].
    cbn [list.head from_option id]. rewrite (proj2 (truth_true c)), (proj2 (Z.eqb_neq c 37)) by lia. cbn [andb negb].
    rewrite u32_small by lia. rewrite (IH _ _ _ rest) by (done || lia). do 2 f_equal; lia.
Qed.

Section Formats.

Context (fuel : nat) (Hfuel : (130 < fuel)%nat).

(** One round of the loop on literal text. *)
Lemma loop_literal k l rest f a args :
  reads f (Addr a) (l ++ rest) -> l <> [] -> literal l -> default 37 (list.head rest) = 37 ->
  (length (l ++ rest) < fuel)%nat -> Z.of_nat (length l) < 2 ^ 31 ->
  stream_ok (Z.of_nat (length l)) f ->
  format_loop fuel (S k) a args f = format_loop fuel k (a + Z.of_nat (length l)) args (out l f).
Proof.
  intros Hr Hne Hl Hh Hf H31 Hs. cbn [format_loop]. rewrite bind_get.
  pose proof Hr as [Hb (Ha & Hc & _)]. rewrite length_app in Hf.
  pose proof (cstr_head _ _ _ Hc) as E0. destruct l as [|c l]; [done|]. cbn in E0. rewrite E0.
  apply list.Forall_cons_1 in Hb as [Hcb _]. rewrite (proj2 (Z.eqb_neq c 0)) by lia.
  assert (Hc37 : c <> 37) by (by apply list.Forall_cons_1 in Hl as [? _]).
  unfold parse_spec. rewrite E0, (proj2 (Z.eqb_neq c 37)) by done. cbn [negb].
  rewrite (literal_run (fmem f) (c :: l) fuel a 0 rest) by (done || lia).
  unfold mbind, option_bind. cbn beta iota. set (n := Z.of_nat (length (c :: l))) in *.
  unfold star_args. cbn [width precision Z.eqb mbind option_bind]. unfold mbind, option_bind. cbn.
  unfold directive. cbn [specifier start len Z.eqb].
  assert (Et : take (Z.to_nat n) ((c :: l) ++ rest) = c :: l).
  { unfold n. rewrite Nat2Z.id. apply take_app_length. }
  destruct (fputsn_run fuel ((c :: l) ++ rest) (Addr a) n f) as (r & E).
  - rewrite length_app. lia.
  - lia.
  - done.
  - by rewrite Et.
  - rewrite !bind_assoc. rewrite (bind_step _ _ _ _ _ E), Et. done.
Qed.

(** One round of the loop on a directive. *)
Lemma loop_directive k d rest f f0 a args args' t s args1 :
  reads f (Addr a) (dir_text d ++ rest) -> wf_dir d -> (length (dir_text d) < fuel)%nat ->
  Z.of_nat (length (dir_text d)) < 2 ^ 32 ->
  star_args (dir_spec a d) args = Some (s, args1) -> wf_spec s -> prints fuel f0 s args1 args' t ->
  (forall v l, reads f0 v l -> reads f v l) ->
  Z.of_nat (length t) < 2 ^ 31 -> stream_ok (Z.of_nat (length t)) f ->
  format_loop fuel (S k) a args f
  = format_loop fuel k (a + Z.of_nat (length (dir_text d))) args' (out t f) /\ bytes t.
Proof.
  intros Hr Hd Hf H32 Hst Hs Hp Hrd H31 Hok. cbn [format_loop]. rewrite bind_get.
  destruct Hr as [_ (_ & Hc & _)]. pose proof (cstr_head _ _ _ Hc) as E0. cbn in E0. rewrite E0. cbn [Z.eqb].
  rewrite (parse_spec_dir fuel (fmem f) d a rest) by done. rewrite Hst.
  destruct (directive_run fuel Hfuel f s args1 args' t f0 Hs Hp Hrd H31 Hok) as [E Hb].
  split; [|done]. by rewrite (bind_step _ _ _ _ _ E).
Qed.

Lemma reads_drop f a l1 l2 : reads f (Addr a) (l1 ++ l2) -> reads f (Addr (a + Z.of_nat (length l1))) l2.
Proof.
  intros [Hb (Ha & Hc & Hd)]. apply bytes_app in Hb as [_ Hb]. split; [done|]. split_and!; [lia| |].
  - by apply cstr_app.
  - intros x Hx. apply Hd. rewrite length_app. lia.
Qed.

Lemma reads_end f a : reads f (Addr a) [] -> fmem f a = 0.
Proof. intros [_ (_ & Hc & _)]. by apply is_cstr_nil. Qed.

(** Literal text, which may be empty. *)
Lemma loop_literal_opt k l rest f a args :
  reads f (Addr a) (l ++ rest) -> literal l -> default 37 (list.head rest) = 37 ->
  (length (l ++ rest) < fuel)%nat -> Z.of_nat (length l) < 2 ^ 31 -> stream_ok (Z.of_nat (length l)) f ->
  exists k', (k <= k')%nat
    /\ format_loop fuel (S k) a args f = format_loop fuel k' (a + Z.of_nat (length l)) args (out l f).
Proof.
  intros Hr Hl Hh Hf H31 Hs. destruct l as [|c l].
  - exists (S k). split; [lia|]. cbn [length Z.of_nat]. by rewrite Z.add_0_r.
  - exists k. split; [done|]. by apply (loop_literal _ _ rest).
Qed.

Lemma format_loop_run f0 its last args txt :
  renders fuel f0 its last args txt -> forall k a f,
  Forall (fun '(l, d) => literal l /\ wf_dir d) its -> literal last ->
  reads f (Addr a) (items_text its last) -> (length (items_text its last) < fuel)%nat ->
  Z.of_nat (length (items_text its last)) < 2 ^ 31 -> (2 * length its + 1 < k)%nat ->
  (forall v l, reads f0 v l -> reads f v l) -> Z.of_nat (length txt) < 2 ^ 31 ->
  stream_ok (Z.of_nat (length txt)) f ->
  format_loop fuel k a args f = Ret (None, out txt f) /\ bytes txt.
Proof.
  induction 1 as [last args|l d its last args lay args1 rest t txt Hlay Hfit Hconv Hren IH];
    intros k a f Hits Hlast Hr Hf H31 Hk Hrd Htxt Hok; cbn [items_text length] in *.
  - destruct k as [|k]; [lia|]. rewrite <- (app_nil_r last) in Hr.
    destruct (loop_literal_opt k last [] f a args) as (k' & Hk' & E); try done; [by rewrite app_nil_r|].
    pose proof Hr as [Hb _]. rewrite app_nil_r in Hb. split; [|done]. rewrite E.
    destruct k' as [|k']; [lia|]. cbn [format_loop]. rewrite bind_get.
    apply (reads_out _ _ last) in Hr; [|done|done]. apply reads_drop in Hr. by rewrite (reads_end _ _ Hr).
  - apply list.Forall_cons_1 in Hits as [[Hl Hwd] Hits].
    rewrite !length_app, !Nat2Z.inj_add in *.
    destruct k as [|k]; [lia|]. pose proof Hr as [Hb _]. apply bytes_app in Hb as [Hbl _].
    destruct (loop_literal_opt k l (dir_text d ++ items_text its last) f a args) as (k' & Hk' & E);
      [done|done|done|rewrite !length_app; lia|lia|eapply stream_ok_le, Hok; lia|]. rewrite E.
    assert (Hrd1 : forall v x, reads f0 v x -> reads (out l f) v x).
    { intros v x Hx. apply reads_out; [eapply stream_ok_le, Hok; lia|done|by apply Hrd]. }
    apply (reads_out _ _ l) in Hr; [|eapply stream_ok_le, Hok; lia|done]. apply reads_drop in Hr.
    pose proof (out_ok l _ _ Hok ltac:(lia) Hbl) as Hok1.
    destruct (layout_star (a + Z.of_nat (length l)) d args lay args1 Hwd Hlay Hfit) as [Hst Hs].
    pose proof (conversion_prints fuel f0 (a + Z.of_nat (length l)) d lay args1 rest t (layout_prec_nonneg _ _ _ _ Hlay) Hconv) as Hp.
    set (s := spec_of _ d lay) in *.
    destruct k' as [|k']; [lia|].
    destruct (loop_directive k' d (items_text its last) (out l f) f0 (a + Z.of_nat (length l)) args rest t s args1)
      as [E2 Hbt]; try done; [lia|lia|lia|eapply stream_ok_le, Hok1; lia|].
    rewrite E2. pose proof (out_ok t _ _ Hok1 ltac:(lia) Hbt) as Hok2.
    assert (Hs1 : stream_ok (Z.of_nat (length t)) (out l f)) by (eapply stream_ok_le, Hok1; lia).
    assert (Hrd2 : forall v x, reads f0 v x -> reads (out t (out l f)) v x).
    { intros v x Hx. apply reads_out; [done|done|by apply Hrd1]. }
    apply (reads_out _ _ t) in Hr; [|done|done]. apply reads_drop in Hr.
    destruct (IH k' (a + Z.of_nat (length l) + Z.of_nat (length (dir_text d))) (out t (out l f))) as [E3 Hb3];
      try done; [lia|lia|lia|lia|].
    rewrite E3, !out_app. split; [done|]. apply bytes_app. split; [done|]. by apply bytes_app.
Qed.

Lemma vsnprintf_run m buf bufsz fmt fm args txt :
  0 < buf -> 0 <= bufsz -> buf + bufsz < 2 ^ 32 -> buf + Z.of_nat (length txt) < 2 ^ 32 ->
  Z.of_nat (length txt) < 2 ^ 31 ->
  wf_format fm -> reads (file_init_string_io m buf bufsz) (Addr fmt) (format_text fm) ->
  (2 * length (format_text fm) + 2 < fuel)%nat -> Z.of_nat (length (format_text fm)) < 2 ^ 31 ->
  renders fuel (file_init_string_io m buf bufsz) (fst fm) (snd fm) args txt ->
  exists m', vsnprintf fuel m buf bufsz fmt args = Ret (Z.of_nat (length txt), m')
    /\ (forall x, ~ (buf <= x < buf + bufsz) -> m' x = m x)
    /\ (0 < bufsz -> is_cstr m' buf (take (Z.to_nat (bufsz - 1)) txt)).
Proof.
  intros Hbuf Hsz Hend Hlen H31 [Hits Hlast] Hr Hf Hfl Hren.
  set (f0 := file_init_string_io m buf bufsz) in *.
  assert (E0 : f0 = mk_file m buf buf (buf + bufsz) 0 0 0).
  { unfold f0, file_init_string_io, setvbuf. rewrite (proj2 (Z.eqb_neq buf 0)) by lia. cbn.
    by rewrite u32_small by lia. }
  assert (Hok : stream_ok (Z.of_nat (length txt) + 0) f0) by (rewrite E0; split; cbn; lia).
  assert (Hits2 : (2 * length (fst fm) + 1 < fuel)%nat).
  { enough (length (fst fm) <= length (format_text fm))%nat by lia. unfold format_text.
    clear. induction (fst fm) as [|[l d] its IH]; cbn [items_text length]; [lia|]. rewrite !length_app. cbn [dir_text length]. lia. }
  destruct (format_loop_run f0 (fst fm) (snd fm) args txt Hren fuel fmt f0) as [E Hb]; try done;
    [unfold format_text in Hf; lia|by rewrite Z.add_0_r in Hok|].
  destruct (out_spec txt 0 f0 Hok ltac:(done) (bytes_256 _ Hb)) as (Hok' & B & En & P & W & Mem).
  unfold vsnprintf, vfprintf. fold f0. rewrite bind_get, (bind_step _ _ _ _ _ E), bind_get.
  assert (Ef : ferror (out txt f0) = false) by (unfold ferror; by rewrite (so_error _ _ Hok')).
  rewrite Ef. unfold ret.
  assert (Ec : s32 (written_ct (out txt f0) - written_ct f0) = Z.of_nat (length txt)).
  { unfold written_ct. rewrite W, P, B, E0. cbn. rewrite !u32_small by lia. rewrite s32_small; lia. }
  rewrite Ec, (proj2 (Z.ltb_ge _ 0)) by lia. eexists. split; [reflexivity|].
  rewrite E0 in Mem |- *. cbn [write_ptr write_end fmem] in Mem. rewrite <- E0 in *. split.
  - intros x Hx.
    assert (Hm : fmem (out txt f0) x = m x).
    { rewrite Mem. destruct (Z.leb_spec buf x), (Z.ltb_spec x (buf + bufsz)); cbn [andb]; try done. lia. }
    destruct (Z.ltb_spec (Z.of_nat (length txt)) bufsz); [rewrite upd_ne by lia; done|].
    destruct (truth bufsz) eqn:Et; [|done]. apply truth_true in Et. by rewrite upd_ne by lia.
  - intros Hp. rewrite (proj2 (truth_true bufsz)) by lia.
    set (n := Nat.min (Z.to_nat (bufsz - 1)) (length txt)).
    assert (Eupd : (if Z.of_nat (length txt) <? bufsz then upd (fmem (out txt f0)) (buf + Z.of_nat (length txt)) 0
                    else upd (fmem (out txt f0)) (buf + bufsz - 1) 0)
                   = upd (fmem (out txt f0)) (buf + Z.of_nat n) 0).
    { unfold n. destruct (Z.ltb_spec (Z.of_nat (length txt)) bufsz); f_equal; lia. }
    rewrite Eupd. split.
    + intros i b Hi. pose proof (lookup_lt_Some _ _ _ Hi) as Hlt. rewrite length_take in Hlt.
      apply lookup_take_Some in Hi as [Hi _]. rewrite upd_ne by (unfold n; lia).
      split; [|by eapply (Forall_lookup_1 _ _ _ _ Hb Hi)]. rewrite Mem.
      rewrite (proj2 (Z.leb_le _ _)), (proj2 (Z.ltb_lt _ _)) by lia. cbn [andb].
      replace (Z.to_nat (buf + Z.of_nat i - buf)) with i by lia. by rewrite Hi.
    + rewrite length_take. fold n. by rewrite upd_eq.
Qed.


(** Parsing a printed directive gives it back: flags, width, precision,
    length modifier and specifier, and the position behind it. *)
Theorem parse_spec_roundtrip m d a rest :
  wf_dir d -> is_cstr m a (dir_text d ++ rest) -> Z.of_nat (length (dir_text d)) < 2 ^ 32 ->
  (length (dir_text d) < fuel)%nat ->
  parse_spec fuel m a = Some (a + Z.of_nat (length (dir_text d)), dir_spec a d).
Proof. apply parse_spec_dir. Qed.

End Formats.

(** The digits of any 64-bit number, in any base up to 16, fit in the local
    buffer and denote the number. *)
Theorem inttodigits_denotes num base digitset :
  2 <= base <= 16 -> 0 <= num < 2 ^ 64 ->
  exists l, local_digits num base digitset = Some l /\ (length l <= 128)%nat
    /\ numeral base digitset num l.
Proof. intros Hb Hn. apply local_digits_run; lia. Qed.

(** A format that ends in a percent sign: the percent sign is printed and
    the loop goes on behind the terminating null. *)
Theorem trailing_percent_overreads fuel k f a args :
  reads f (Addr a) [37] -> (2 < fuel)%nat -> stream_ok 1 f ->
  format_loop fuel (S k) a args f = format_loop fuel k (a + 2) args (out [37] f).
Proof.
  intros Hr Hf Hok. pose proof Hr as [_ (Ha & Hc & _)].
  apply is_cstr_cons in Hc as [[E0 _] E1]. apply is_cstr_nil in E1.
  assert (Hl : forall map lm, Forall (fun '(ch0, _, _, _) => 0 <> ch0) map ->
             lenmod_loop (fmem f) map (a + 1) lm = (a + 1, lm)).
  { induction map as [|[[[ch0 lm0] ch1] lm1] map IH]; intros lm H; [done|].
    apply list.Forall_cons_1 in H as [H0 H]. cbn [lenmod_loop]. rewrite E1.
    rewrite (proj2 (Z.eqb_neq 0 ch0)) by done. rewrite andb_false_r. by apply IH. }
  assert (Hp : parse_spec fuel (fmem f) a
    = Some (a + 2, mk_spec a 2 false false false false false WP_UNSPECIFIED WP_UNSPECIFIED LEN_NONE 0 0)).
  { assert (Hw : parse_width_precision fuel (fmem f) (a + 1) = Some (a + 1, WP_UNSPECIFIED)).
    { unfold parse_width_precision. rewrite E1. destruct fuel as [|n]; [lia|]. cbn [digits_loop]. rewrite E1.
      unfold mbind, option_bind. cbn -[Z.add]. by rewrite Z.eqb_refl. }
    assert (Hfl : forall s, parse_flags fuel (fmem f) (a + 1) s = Some (a + 1, s)).
    { intros s. unfold parse_flags. destruct fuel as [|n]; [lia|]. cbn [parse_flags_loop]. by rewrite E1. }
    unfold parse_spec, parse_lenmod. rewrite E0. cbn [Z.eqb Pos.eqb negb]. rewrite Hfl.
    unfold mbind, option_bind. cbn beta iota. rewrite Hw. cbn beta iota. rewrite E1. cbn [Z.eqb].
    rewrite Hl by (repeat constructor; lia). cbn -[Z.add Z.sub u32 s8]. rewrite !bool_decide_eq_false_2 by done. cbn [orb]. rewrite E1.
    replace (a + 1 + 1 - a) with 2 by lia. by replace (a + 1 + 1) with (a + 2) by lia. }
  cbn [format_loop]. rewrite bind_get, E0. cbn [Z.eqb]. rewrite Hp.
  unfold star_args. cbn [width precision]. unfold mbind, option_bind. cbn.
  unfold directive. cbn [specifier Z.eqb start len].
  destruct (fputsn_run fuel [37] (Addr a) 2 f) as (r & E); [cbn; lia|lia|done|done|].
  rewrite !bind_assoc, (bind_step _ _ _ _ _ E). done.
Qed.
