(* ===== verification/Term.v ===== *)
(** * Terminal windows and ANSI escape sequences

    Models [src/src/lib/ansi_term/ansi_parse.c] (the parser of escape
    sequences), [src/src/lib/ansi_term/termbuf.c] (a window of the text screen
    with a cursor) and their headers.

    The screen is a function from cell numbers, counted from [buf.base], to
    16-bit cells.  [int] arithmetic that the code lets overflow is kept at its
    width ([s32]). *)

From S2P Require Import Prelude.

(** ** The escape sequence parser *)

Inductive ansi_inner_state : Type :=
| AIS_READY
| AIS_ESC
| AIS_PARAM
| AIS_INTERMEDIATE.

Definition APS_ESCAPE : Z := 1.
Definition APS_FINAL : Z := 2.
Definition APS_INVALID : Z := 3.
Definition APS_UNIMPLEMENTED : Z := 4.

Definition CSI_MAX_PARAM : Z := 3.

Definition ANSI_ESC : Z := 27.
Definition ANSI_CSI : Z := 91.
Definition ANSI_CUP : Z := 72.
Definition ANSI_ED : Z := 74.
Definition ANSI_EL : Z := 75.
Definition ANSI_EFWD : Z := 0.
Definition ANSI_EBACK : Z := 1.
Definition ANSI_EFULL : Z := 2.

Record ansi_parse : Type := mk_ansi_parse {
  _state : ansi_inner_state;
  csi_param : list Z;
  param_num : Z;
  cmd : Z
}.

Definition set__state (v : ansi_inner_state) (p : ansi_parse) : ansi_parse :=
  mk_ansi_parse v (csi_param p) (param_num p) (cmd p).
Definition set_csi_param (v : list Z) (p : ansi_parse) : ansi_parse :=
  mk_ansi_parse (_state p) v (param_num p) (cmd p).
Definition set_param_num (v : Z) (p : ansi_parse) : ansi_parse :=
  mk_ansi_parse (_state p) (csi_param p) v (cmd p).
Definition set_cmd (v : Z) (p : ansi_parse) : ansi_parse :=
  mk_ansi_parse (_state p) (csi_param p) (param_num p) v.

Definition ANSI_PARSE_INIT : ansi_parse := mk_ansi_parse AIS_READY [0; 0; 0] 0 0.

Definition start_esc (p : ansi_parse) : ansi_parse := mk_ansi_parse AIS_ESC [0; 0; 0] 0 0.

Definition start_csi (p : ansi_parse) : ansi_parse := set__state AIS_PARAM p.

(** [csi_param[param_num]] with a negative index is outside the array. *)
Definition parameter_byte (ch : Z) : M ansi_parse unit :=
  p <-- get ;;
  if (48 <=? ch) && (ch <=? 57) && (param_num p <? CSI_MAX_PARAM) then
    if param_num p <? 0 then stuck
    else
      let i := Z.to_nat (param_num p) in
      let v := default 0 (csi_param p !! i) in
      modify (set_csi_param (<[i := s32 (s32 (v * 10) + (ch - 48))]> (csi_param p)))
  else if ch =? 59 then modify (fun p => set_param_num (s32 (param_num p + 1)) p)
  else ret tt.

Definition final_byte (ch : Z) (p : ansi_parse) : ansi_parse := set__state AIS_READY (set_cmd ch p).

(** The [AIS_INTERMEDIATE] case, which the [AIS_PARAM] case falls into. *)
Definition intermediate_case (ch : Z) : M ansi_parse Z :=
  if (0x20 <=? ch) && (ch <=? 0x2f) then ret (- APS_ESCAPE)
  else if (0x40 <=? ch) && (ch <=? 0x7e) then modify (final_byte ch) ;;; ret (- APS_FINAL)
  else ret (- APS_INVALID).

Definition ansi_parse_putc (ch : Z) : M ansi_parse Z :=
  p <-- get ;;
  match _state p with
  | AIS_READY =>
    if ch =? ANSI_ESC then modify start_esc ;;; ret (- APS_ESCAPE) else ret ch
  | AIS_ESC =>
    if ch =? ANSI_CSI then modify start_csi ;;; ret (- APS_ESCAPE) else ret (- APS_UNIMPLEMENTED)
  | AIS_PARAM =>
    if (0x30 <=? ch) && (ch <=? 0x3f) then parameter_byte ch ;;; ret (- APS_ESCAPE)
    else modify (set__state AIS_INTERMEDIATE) ;;; intermediate_case ch
  | AIS_INTERMEDIATE => intermediate_case ch
  end.

(** ** Terminals *)

Definition COLOR_GREY_ON_BLACK : Z := 7.

Definition colorchar (color ch : Z) : Z := u16 (Z.shiftl (u8 color) 8 + u8 ch).

Record termbuf : Type := mk_termbuf { rows : Z; cols : Z }.

Record termwin : Type := mk_termwin { start_row : Z; height : Z; start_col : Z; width : Z }.

Inductive termwin_overflow : Type :=
| TERM_OF_CLIP
| TERM_OF_SCROLL
| TERM_OF_GROW.

Record term : Type := mk_term {
  buf : termbuf;
  win : termwin;
  overflow_mode : termwin_overflow;
  row : Z;
  col : Z;
  color : Z;
  show_cursor : bool;
  cursor_visible : bool;
  cursor_color : Z;
  parser : ansi_parse
}.

Definition set_win (v : termwin) (t : term) : term :=
  mk_term (buf t) v (overflow_mode t) (row t) (col t) (color t) (show_cursor t)
    (cursor_visible t) (cursor_color t) (parser t).
Definition set_row (v : Z) (t : term) : term :=
  mk_term (buf t) (win t) (overflow_mode t) v (col t) (color t) (show_cursor t)
    (cursor_visible t) (cursor_color t) (parser t).
Definition set_col (v : Z) (t : term) : term :=
  mk_term (buf t) (win t) (overflow_mode t) (row t) v (color t) (show_cursor t)
    (cursor_visible t) (cursor_color t) (parser t).
Definition set_cursor_visible (v : bool) (t : term) : term :=
  mk_term (buf t) (win t) (overflow_mode t) (row t) (col t) (color t) (show_cursor t)
    v (cursor_color t) (parser t).
Definition set_parser (v : ansi_parse) (t : term) : term :=
  mk_term (buf t) (win t) (overflow_mode t) (row t) (col t) (color t) (show_cursor t)
    (cursor_visible t) (cursor_color t) v.

Definition TERM_INIT (brows bcols rstart hgt cstart wid : Z) : term :=
  mk_term (mk_termbuf brows bcols) (mk_termwin rstart hgt cstart wid) TERM_OF_SCROLL 0 0
    COLOR_GREY_ON_BLACK false false 0x70 ANSI_PARSE_INIT.

Definition VGA_ROWS : Z := 25.
Definition VGA_COLS : Z := 80.
Definition TERM_INIT_VGA_WIN (rstart hgt cstart wid : Z) : term :=
  TERM_INIT VGA_ROWS VGA_COLS rstart hgt cstart wid.

(** A terminal and the screen it writes to. *)
Record tst : Type := mk_tst { tm : term; scr : Z -> Z }.

Definition term_ptr (t : term) (r c : Z) : Z :=
  u32 (s32 (start_row (win t) + r) * cols (buf t)) + start_col (win t) + c.

Definition is_in_bounds (t : term) (r c : Z) : bool :=
  (0 <=? r) && (r <? height (win t)) && (0 <=? c) && (c <? width (win t)).

Definition upd_term (f : term -> term) : M tst unit := modify (fun s => mk_tst (f (tm s)) (scr s)).

(** [*ptr = v] *)
Definition poke (a v : Z) : M tst unit :=
  modify (fun s => mk_tst (tm s) (fun x => if x =? a then v else scr s x)).

Definition setcc (r c cc : Z) : M tst unit :=
  t <-- gets tm ;;
  when (is_in_bounds t r c) (poke (term_ptr t r c) cc).

Definition setc (r c clr ch : Z) : M tst unit := setcc r c (colorchar clr ch).

Definition setcolor (r c clr : Z) : M tst unit :=
  s <-- get ;;
  let t := tm s in
  when (is_in_bounds t r c)
    (let ch := s8 (Z.land (scr s (term_ptr t r c)) 0xff) in
     poke (term_ptr t r c) (colorchar clr ch)).

(** [for (i = from; i < to; i++) body(i)], the bounds fixed before the loop. *)
Definition for_range {S} (from to : Z) (body : Z -> M S unit) : M S unit :=
  for_up (Z.to_nat (to - from)) from 1 body.

Definition erase_rows (from to : Z) : M tst unit :=
  for_range from to (fun r =>
    t <-- gets tm ;;
    for_range 0 (width (win t)) (fun c => setc r c COLOR_GREY_ON_BLACK 0)).

(** The [switch] of [erase_line]: the columns to erase. *)
Definition erase_cols (t : term) (mode : Z) : option (Z * Z) :=
  if mode =? ANSI_EFWD then Some (col t, width (win t))
  else if mode =? ANSI_EBACK then Some (0, col t)
  else if mode =? ANSI_EFULL then Some (0, width (win t))
  else None.

Definition erase_line (mode : Z) : M tst unit :=
  t <-- gets tm ;;
  match erase_cols t mode with
  | Some (start, fin) => for_range start fin (fun c => setc (row t) c COLOR_GREY_ON_BLACK 0)
  | None => ret tt
  end.

(** The [switch] of [erase_display]: the rows to erase. *)
Definition erase_span (t : term) (mode : Z) : option (Z * Z) :=
  if mode =? ANSI_EFWD then Some (s32 (row t + 1), height (win t))
  else if mode =? ANSI_EBACK then Some (0, row t)
  else if mode =? ANSI_EFULL then Some (0, height (win t))
  else None.

Definition erase_display (mode : Z) : M tst unit :=
  t <-- gets tm ;;
  match erase_span t mode with
  | Some (start, fin) => erase_line mode ;;; erase_rows start fin
  | None => ret tt
  end.

Definition term_setpos (r c : Z) : M tst unit := upd_term (fun t => set_col c (set_row r t)).

(** [memcpy] of a row of cells. *)
Definition copy_row (dest src n : Z) : M tst unit :=
  for_range 0 n (fun i => s <-- get ;; poke (dest + i) (scr s (src + i))).

(** The loop variable [r] ends at [height - row_ct], or at 0 when no row is kept. *)
Definition scroll (row_ct : Z) : M tst unit :=
  t <-- gets tm ;;
  let last := Z.max 0 (height (win t) - row_ct) in
  for_range 0 last (fun r =>
    copy_row (term_ptr t r 0) (term_ptr t (r + row_ct) 0) (width (win t))) ;;;
  erase_rows last (height (win t)) ;;;
  term_setpos (s32 (row t - row_ct)) (col t).

(** [while (row_ct && start_row)]: the window grows upwards. *)
Fixpoint grow_up (fuel : nat) (row_ct : Z) : M tst Z :=
  t <-- gets tm ;;
  if truth row_ct && truth (start_row (win t)) then
    match fuel with
    | O => out_of_fuel
    | S f =>
      upd_term (fun t => set_win (mk_termwin (start_row (win t) - 1) (height (win t) + 1)
                                    (start_col (win t)) (width (win t))) t) ;;;
      upd_term (fun t => set_row (s32 (row t + 1)) t) ;;;
      scroll 1 ;;;
      grow_up f (row_ct - 1)
    end
  else ret row_ct.

(** [while (row_ct && height < rows)]: the window grows downwards. *)
Fixpoint grow_down (fuel : nat) (row_ct : Z) : M tst Z :=
  t <-- gets tm ;;
  if truth row_ct && (height (win t) <? rows (buf t)) then
    match fuel with
    | O => out_of_fuel
    | S f =>
      upd_term (fun t => set_win (mk_termwin (start_row (win t)) (height (win t) + 1)
                                    (start_col (win t)) (width (win t))) t) ;;;
      grow_down f (row_ct - 1)
    end
  else ret row_ct.

Definition overflow : M tst unit :=
  t <-- gets tm ;;
  let row_ct := s32 (row t - height (win t) + 1) in
  if row_ct <=? 0 then ret tt
  else
    match overflow_mode t with
    | TERM_OF_CLIP => ret tt
    | TERM_OF_SCROLL => scroll row_ct
    | TERM_OF_GROW =>
      rc <-- grow_up (Z.to_nat (start_row (win t))) row_ct ;;
      rc' <-- grow_down (Z.to_nat (rows (buf t))) rc ;;
      when (truth rc') (scroll rc')
    end.

Definition move_cursor_into_bounds : M tst unit :=
  t <-- gets tm ;;
  match overflow_mode t with
  | TERM_OF_CLIP => ret tt
  | _ =>
    when (width (win t) <=? col t) (term_setpos (s32 (row t + 1)) 0) ;;;
    t' <-- gets tm ;;
    when (height (win t') <=? row t') overflow
  end.

Definition backspace : M tst unit :=
  t <-- gets tm ;;
  if (row t =? 0) && (col t =? 0) then ret tt
  else
    upd_term (fun t => set_col (s32 (col t - 1)) t) ;;;
    t1 <-- gets tm ;;
    when (col t1 <? 0)
      (upd_term (fun t => set_col (width (win t) - 1) t) ;;;
       upd_term (fun t => set_row (s32 (row t - 1)) t)) ;;;
    t2 <-- gets tm ;;
    setc (row t2) (col t2) (color t2) 0.

Definition ansi_pos_param (t : term) (i : nat) : Z :=
  let param := default 0 (csi_param (parser t) !! i) in
  s32 ((if param =? 0 then 1 else param) - 1).

Definition execute_ansi_escape : M tst unit :=
  t <-- gets tm ;;
  if cmd (parser t) =? ANSI_CUP then term_setpos (ansi_pos_param t 0) (ansi_pos_param t 1)
  else if cmd (parser t) =? ANSI_EL then erase_line (default 0 (csi_param (parser t) !! 0%nat))
  else if cmd (parser t) =? ANSI_ED then erase_display (default 0 (csi_param (parser t) !! 0%nat))
  else ret tt.

Definition clear_cursor : M tst unit :=
  t <-- gets tm ;;
  when (cursor_visible t)
    (setcolor (row t) (col t) (color t) ;;; upd_term (set_cursor_visible false)).

Definition write_cursor : M tst unit :=
  t <-- gets tm ;;
  when (show_cursor t)
    (move_cursor_into_bounds ;;;
     t' <-- gets tm ;;
     setcolor (row t') (col t') (cursor_color t') ;;;
     upd_term (set_cursor_visible true)).

(** The second [switch] of [term_putc]. *)
Definition put_char (ch : Z) : M tst unit :=
  t <-- gets tm ;;
  if ch =? 10 then term_setpos (s32 (row t + 1)) 0
  else if ch =? 13 then term_setpos (row t) 0
  else if ch =? 8 then backspace
  else setc (row t) (col t) (color t) ch ;;; upd_term (fun t => set_col (s32 (col t + 1)) t).

Definition term_putc (ch : Z) : M tst unit :=
  clear_cursor ;;;
  ch' <-- zoom (fun s => parser (tm s)) (fun p s => mk_tst (set_parser p (tm s)) (scr s)) (ansi_parse_putc ch) ;;
  if (ch' =? - APS_ESCAPE) || (ch' =? - APS_INVALID) || (ch' =? - APS_UNIMPLEMENTED) then ret tt
  else if ch' =? - APS_FINAL then execute_ansi_escape
  else
    move_cursor_into_bounds ;;;
    put_char ch' ;;;
    write_cursor.

(** The bytes of a string or buffer, passed on as (signed) [char]s. *)
Fixpoint term_write (s : list Z) : M tst unit :=
  match s with
  | [] => ret tt
  | ch :: s' => term_putc (s8 ch) ;;; term_write s'
  end.

(** [for (; *str; str++) term_putc(t, *str);] on byte memory, where nothing
    changes while it is printed; a null pointer prints nothing. *)
Fixpoint term_puts_loop (fuel : nat) (m : Z -> Z) (str : Z) : M tst unit :=
  match fuel with
  | O => out_of_fuel
  | S f => if m str =? 0 then ret tt else term_putc (s8 (m str)) ;;; term_puts_loop f m (str + 1)
  end.

Definition term_puts (fuel : nat) (m : Z -> Z) (str : Z) : M tst unit :=
  if str =? 0 then ret tt else term_puts_loop fuel m str.

(** ** The invariant of a terminal *)

Definition int32 (x : Z) : Prop := - 2 ^ 31 <= x < 2 ^ 31.

Lemma s32_int32 x : int32 (s32 x).
Proof. unfold int32, s32. pose proof (Z.mod_pos_bound (x + 2 ^ 31) (2 ^ 32)). lia. Qed.

(** The parser can take [n] more bytes before its parameter counter overflows. *)
Definition wf_parser (n : Z) (p : ansi_parse) : Prop :=
  length (csi_param p) = 3%nat /\ 0 <= param_num p /\ param_num p + n < 2 ^ 31.

(** The window lies in the buffer, and the buffer in the address space. *)
Definition wf_win (b : termbuf) (w : termwin) : Prop :=
  0 <= start_row w /\ 0 < height w /\ start_row w + height w <= rows b
  /\ 0 <= start_col w /\ 0 <= width w /\ start_col w + width w <= cols b
  /\ rows b < 2 ^ 31 /\ cols b < 2 ^ 31 /\ rows b * cols b < 2 ^ 32.

Definition wf_term (n : Z) (t : term) : Prop :=
  wf_win (buf t) (win t) /\ int32 (row t) /\ int32 (col t) /\ wf_parser n (parser t).

(** The cells of a window. *)
Definition cell_of (b : termbuf) (w : termwin) (r c : Z) : Z :=
  (start_row w + r) * cols b + start_col w + c.

Definition in_win (b : termbuf) (w : termwin) (a : Z) : Prop :=
  exists r c, 0 <= r < height w /\ 0 <= c < width w /\ a = cell_of b w r c.

Lemma term_ptr_cell t r c :
  wf_win (buf t) (win t) -> 0 <= r < height (win t) -> term_ptr t r c = cell_of (buf t) (win t) r c.
Proof.
  intros (H1 & H2 & H3 & H4 & H5 & H6 & H7 & H8 & H9) Hr. unfold term_ptr, cell_of.
  rewrite s32_small by lia. rewrite u32_small; [done|]. split; [apply Z.mul_nonneg_nonneg; lia|].
  apply Z.le_lt_trans with (rows (buf t) * cols (buf t)); [|done].
  apply Z.mul_le_mono_nonneg_r; lia.
Qed.

Lemma in_bounds_spec t r c :
  is_in_bounds t r c = true <-> 0 <= r < height (win t) /\ 0 <= c < width (win t).
Proof. unfold is_in_bounds. rewrite !andb_true_iff, !Z.leb_le, !Z.ltb_lt. lia. Qed.

(** Different positions are different cells. *)
Lemma cell_of_inj b w r c r' c' :
  wf_win b w -> 0 <= c < width w -> 0 <= c' < width w ->
  cell_of b w r c = cell_of b w r' c' -> r = r' /\ c = c'.
Proof. unfold wf_win, cell_of. intros.
  assert (r = r') as -> by nia. split; [done|lia].
Qed.

(** ** Painting: the screen changes inside the window only *)

Definition paints (s s' : tst) : Prop :=
  tm s' = tm s /\ forall a, ~ in_win (buf (tm s)) (win (tm s)) a -> scr s' a = scr s a.

Lemma paints_refl s : paints s s.
Proof. done. Qed.

Lemma paints_trans s1 s2 s3 : paints s1 s2 -> paints s2 s3 -> paints s1 s3.
Proof.
  intros [E1 H1] [E2 H2]. split; [congruence|]. intros a Ha.
  rewrite H2 by (by rewrite E1). by apply H1.
Qed.

(** A loop of painting operations. *)
Lemma for_range_paints from to body s :
  (forall i s', from <= i < to -> paints s s' -> exists s'', body i s' = Ret (tt, s'') /\ paints s' s'') ->
  exists s', for_range from to body s = Ret (tt, s') /\ paints s s'.
Proof.
  intros Hb. unfold for_range.
  destruct (for_up_rule (fun _ s' => paints s s') body 1 (Z.to_nat (to - from)) from s) as (s' & E & P).
  - apply paints_refl.
  - intros k s1 Hk P1. destruct (Hb (from + k * 1) s1) as (s2 & E2 & P2); [lia|done|].
    exists s2. split; [done|]. by eapply paints_trans.
  - by exists s'.
Qed.

Lemma setcc_paints r c cc s :
  wf_win (buf (tm s)) (win (tm s)) -> exists s', setcc r c cc s = Ret (tt, s') /\ paints s s'.
Proof.
  intros Hw. unfold setcc. rewrite bind_gets. destruct (is_in_bounds (tm s) r c) eqn:E.
  - apply in_bounds_spec in E as [Hr Hc]. eexists. split; [reflexivity|]. split; [done|].
    intros a Ha. cbn [scr]. destruct (Z.eqb_spec a (term_ptr (tm s) r c)) as [->|]; [|done].
    exfalso. apply Ha. exists r, c. by rewrite term_ptr_cell.
  - by exists s.
Qed.

Lemma setcolor_paints r c clr s :
  wf_win (buf (tm s)) (win (tm s)) -> exists s', setcolor r c clr s = Ret (tt, s') /\ paints s s'.
Proof.
  intros Hw. unfold setcolor. rewrite bind_get.
  destruct (setcc_paints r c (colorchar clr (s8 (Z.land (scr s (term_ptr (tm s) r c)) 0xff))) s Hw)
    as (s' & E & P). exists s'. split; [|done]. rewrite <- E. reflexivity.
Qed.

Lemma erase_rows_paints from to s :
  wf_win (buf (tm s)) (win (tm s)) -> exists s', erase_rows from to s = Ret (tt, s') /\ paints s s'.
Proof.
  intros Hw. apply for_range_paints. intros r s1 _ [E1 _]. rewrite bind_gets.
  apply for_range_paints. intros c s2 _ [E2 _]. apply setcc_paints. by rewrite E2, E1.
Qed.

Lemma erase_line_paints mode s :
  wf_win (buf (tm s)) (win (tm s)) -> exists s', erase_line mode s = Ret (tt, s') /\ paints s s'.
Proof.
  intros Hw. unfold erase_line. rewrite bind_gets.
  destruct (erase_cols (tm s) mode) as [[start fin]|]; [|by exists s].
  apply for_range_paints. intros c s2 _ [E2 _]. apply setcc_paints. by rewrite E2.
Qed.

Lemma erase_display_paints mode s :
  wf_win (buf (tm s)) (win (tm s)) -> exists s', erase_display mode s = Ret (tt, s') /\ paints s s'.
Proof.
  intros Hw. unfold erase_display. rewrite bind_gets.
  destruct (erase_span (tm s) mode) as [[start fin]|]; [|by exists s].
  destruct (erase_line_paints mode s Hw) as (s1 & E1 & P1). rewrite (bind_step _ _ _ _ _ E1).
  destruct (erase_rows_paints start fin s1) as (s2 & E2 & P2); [by rewrite (proj1 P1)|].
  exists s2. split; [done|]. by eapply paints_trans.
Qed.

(** ** Window contents *)

Section Contents.

Context (t : term) (Hwf : wf_win (buf t) (win t)).

(** [s'] has the terminal [t], agrees with [s] outside the window, and shows
    [f] in it. *)
Definition shows (s s' : tst) (f : Z -> Z -> Z) : Prop :=
  tm s' = t
  /\ (forall a, ~ in_win (buf t) (win t) a -> scr s' a = scr s a)
  /\ forall r c, 0 <= r < height (win t) -> 0 <= c < width (win t) ->
       scr s' (cell_of (buf t) (win t) r c) = f r c.

Lemma shows_ext s s' f g :
  (forall r c, 0 <= r < height (win t) -> 0 <= c < width (win t) -> f r c = g r c) ->
  shows s s' f -> shows s s' g.
Proof. intros H (H1 & H2 & H3). split_and!; try done. intros. rewrite H3 by done. by apply H. Qed.

Lemma shows_start s : tm s = t -> shows s s (fun r c => scr s (cell_of (buf t) (win t) r c)).
Proof. done. Qed.

(** Writing one cell of the window. *)
Lemma poke_shows s s' f r c v :
  shows s s' f -> 0 <= r < height (win t) -> 0 <= c < width (win t) ->
  exists s'', poke (cell_of (buf t) (win t) r c) v s' = Ret (tt, s'')
    /\ shows s s'' (fun r' c' => if (r' =? r) && (c' =? c) then v else f r' c').
Proof.
  intros (H1 & H2 & H3) Hr Hc. eexists. split; [reflexivity|]. unfold shows. cbn [tm scr].
  split_and!; [done| |].
  - intros a Ha. destruct (Z.eqb_spec a (cell_of (buf t) (win t) r c)) as [->|]; [|by apply H2].
    exfalso. apply Ha. by exists r, c.
  - intros r' c' Hr' Hc'.
    destruct (Z.eqb_spec (cell_of (buf t) (win t) r' c') (cell_of (buf t) (win t) r c)) as [E|E].
    + apply cell_of_inj in E as [-> ->]; try done. by rewrite !Z.eqb_refl.
    + rewrite H3 by done. destruct (Z.eqb_spec r' r), (Z.eqb_spec c' c); subst; done.
Qed.

Lemma setc_shows s s' f r c clr ch :
  shows s s' f -> 0 <= r < height (win t) -> 0 <= c < width (win t) ->
  exists s'', setc r c clr ch s' = Ret (tt, s'')
    /\ shows s s'' (fun r' c' => if (r' =? r) && (c' =? c) then colorchar clr ch else f r' c').
Proof.
  intros H Hr Hc. destruct (poke_shows s s' f r c (colorchar clr ch) H Hr Hc) as (s'' & E & S2).
  exists s''. split; [|done]. destruct H as (H1 & _). unfold setc, setcc. rewrite bind_gets, H1.
  rewrite (proj2 (in_bounds_spec t r c)) by done. cbn [when]. by rewrite term_ptr_cell.
Qed.

(** A loop that changes column after column of row [r]. *)
Lemma row_loop s s' f r (v : Z -> Z) body :
  shows s s' f -> 0 <= r < height (win t) ->
  (forall c s1, 0 <= c < width (win t) ->
     shows s s1 (fun r' c' => if (r' =? r) && (c' <? c) then v c' else f r' c') ->
     exists s2, body c s1 = Ret (tt, s2)
       /\ shows s s2 (fun r' c' => if (r' =? r) && (c' =? c) then v c
                                   else if (r' =? r) && (c' <? c) then v c' else f r' c')) ->
  exists s'', for_range 0 (width (win t)) body s' = Ret (tt, s'')
    /\ shows s s'' (fun r' c' => if r' =? r then v c' else f r' c').
Proof.
  intros H Hr Hb. unfold for_range.
  destruct (for_up_rule (fun k s1 => shows s s1 (fun r' c' => if (r' =? r) && (c' <? k) then v c' else f r' c'))
              body 1 (Z.to_nat (width (win t) - 0)) 0 s') as (s2 & E & S2).
  - eapply shows_ext, H. intros r' c' _ Hc. zbool; try lia; done.
  - intros k s1 Hk S1. destruct (Hb (0 + k * 1) s1) as (s2 & E2 & S2); [lia|done|].
    exists s2. split; [done|]. eapply shows_ext, S2. intros r' c' _ _. cbn beta.
    zbool; cbn [andb]; try done; try lia. f_equal. lia.
  - exists s2. split; [done|]. eapply shows_ext, S2. intros r' c' _ Hc. cbn beta.
    zbool; cbn [andb]; try done; lia.
Qed.

Lemma erase_rows_shows s s' f from :
  shows s s' f -> 0 <= from <= height (win t) ->
  exists s'', erase_rows from (height (win t)) s' = Ret (tt, s'')
    /\ shows s s'' (fun r c => if from <=? r then colorchar COLOR_GREY_ON_BLACK 0 else f r c).
Proof.
  intros H Hf. unfold erase_rows, for_range at 1.
  match goal with |- context [for_up ?n ?lo ?st ?body ?x] =>
  destruct (for_up_rule (fun k s1 => shows s s1
      (fun r c => if (from <=? r) && (r <? k) then colorchar COLOR_GREY_ON_BLACK 0 else f r c))
      body st n lo x) as (s2 & E & S2) end.
  - eapply shows_ext, H. intros r c _ _. zbool; cbn; try done; lia.
  - intros k s1 Hk S1. rewrite bind_gets. rewrite (proj1 S1).
    destruct (row_loop s s1 _ (from + k * 1) (fun _ => colorchar COLOR_GREY_ON_BLACK 0)
                (fun c => setc (from + k * 1) c COLOR_GREY_ON_BLACK 0) S1) as (s2 & E2 & S2); [lia| |].
    + intros c s1' Hc Sc. apply setc_shows; [done|lia|done].
    + exists s2. split; [done|]. eapply shows_ext, S2. intros r c _ _. cbn beta.
      zbool; cbn [andb]; try done; lia.
  - exists s2. split; [done|]. eapply shows_ext, S2. intros r c Hr _. cbn beta.
    zbool; cbn [andb]; try done; lia.
Qed.

Lemma copy_row_shows s s' f r k :
  shows s s' f -> 0 <= r -> 0 < k -> r + k < height (win t) ->
  exists s'', copy_row (term_ptr t r 0) (term_ptr t (r + k) 0) (width (win t)) s' = Ret (tt, s'')
    /\ shows s s'' (fun r' c' => if r' =? r then f (r + k) c' else f r' c').
Proof.
  intros H Hr Hk Hh. apply row_loop; [done|lia|]. intros c s1 Hc S1. rewrite bind_get.
  rewrite !term_ptr_cell by (done || lia).
  replace (cell_of (buf t) (win t) r 0 + c) with (cell_of (buf t) (win t) r c) by (unfold cell_of; lia).
  replace (cell_of (buf t) (win t) (r + k) 0 + c) with (cell_of (buf t) (win t) (r + k) c)
    by (unfold cell_of; lia).
  destruct (poke_shows _ _ _ r c (scr s1 (cell_of (buf t) (win t) (r + k) c)) S1) as (s2 & E2 & S2);
    [lia|done|].
  exists s2. split; [done|]. eapply shows_ext, S2. intros r' c' _ _. cbn beta.
  destruct ((r' =? r) && (c' =? c)); [|done].
  destruct S1 as (_ & _ & S1). rewrite S1 by (done || lia). zbool; cbn [andb]; try done; lia.
Qed.

(** [scroll]: the rows move up by [row_ct], blank rows come in at the bottom,
    and the position moves along; nothing outside the window changes. *)
Lemma scroll_shows s row_ct :
  tm s = t -> 0 < row_ct ->
  exists s', scroll row_ct s
      = Ret (tt, mk_tst (set_col (col t) (set_row (s32 (row t - row_ct)) t)) (scr s'))
    /\ shows s s' (fun r c => if r + row_ct <? height (win t)
                              then scr s (cell_of (buf t) (win t) (r + row_ct) c)
                              else colorchar COLOR_GREY_ON_BLACK 0).
Proof.
  intros Ht Hk. unfold scroll. rewrite bind_gets, Ht.
  set (lst := Z.max 0 (height (win t) - row_ct)).
  assert (Hh : 0 <= height (win t)) by (unfold wf_win in Hwf; lia).
  set (g := fun r c => scr s (cell_of (buf t) (win t) r c)).
  destruct (for_up_rule (fun k s1 => shows s s1 (fun r c => if r <? k then g (r + row_ct) c else g r c))
      (fun r => copy_row (term_ptr t r 0) (term_ptr t (r + row_ct) 0) (width (win t)))
      1 (Z.to_nat (lst - 0)) 0 s) as (s1 & E1 & S1).
  - eapply shows_ext, shows_start, Ht. intros r c Hr _. cbn beta. zbool; [lia|done].
  - intros k s1 Hk1 S1. destruct (copy_row_shows s s1 _ (0 + k * 1) row_ct S1) as (s2 & E2 & S2); [lia..|].
    exists s2. split; [done|]. eapply shows_ext, S2. intros r c _ _. cbn beta.
    zbool; try done; try lia. by subst.
  - unfold for_range. rewrite (bind_step _ _ _ _ _ E1).
    destruct (erase_rows_shows s s1 _ lst S1) as (s2 & E2 & S2); [lia|].
    rewrite (bind_step _ _ _ _ _ E2). exists s2. split.
    + unfold term_setpos, upd_term, modify. by rewrite (proj1 S2).
    + eapply shows_ext, S2. intros r c Hr _. cbn beta. zbool; try done; lia.
Qed.

End Contents.

(** ** Confinement *)

(** From [s] to [s'] the terminal has stayed well-formed, its window has at most
    grown, and nothing outside the window has changed. *)
Record confined (s s' : tst) : Prop := {
  cf_buf : buf (tm s') = buf (tm s);
  cf_mode : overflow_mode (tm s') = overflow_mode (tm s);
  cf_parser : parser (tm s') = parser (tm s);
  cf_wf : wf_win (buf (tm s')) (win (tm s'));
  cf_row : int32 (row (tm s'));
  cf_col : int32 (col (tm s'));
  cf_win : overflow_mode (tm s) <> TERM_OF_GROW -> win (tm s') = win (tm s);
  cf_grow : forall a, in_win (buf (tm s)) (win (tm s)) a -> in_win (buf (tm s')) (win (tm s')) a;
  cf_scr : forall a, ~ in_win (buf (tm s')) (win (tm s')) a -> scr s' a = scr s a
}.

Definition wf_state (s : tst) : Prop :=
  wf_win (buf (tm s)) (win (tm s)) /\ int32 (row (tm s)) /\ int32 (col (tm s)).

Lemma confined_wf s s' : confined s s' -> wf_state s'.
Proof. by intros []. Qed.

Lemma confined_refl s : wf_state s -> confined s s.
Proof. by intros (? & ? & ?). Qed.

Lemma confined_trans s1 s2 s3 : confined s1 s2 -> confined s2 s3 -> confined s1 s3.
Proof.
  intros [] []. split; try congruence; try done.
  - intros Hm. rewrite cf_win1 by congruence. by apply cf_win0.
  - intros a Ha. auto.
  - intros a Ha. rewrite cf_scr1 by done. apply cf_scr0. auto.
Qed.

Lemma paints_confined s s' : wf_state s -> paints s s' -> confined s s'.
Proof. intros (H1 & H2 & H3) [E P]. split; rewrite ?E; try done. Qed.

(** [m] terminates, confined to the window. *)
Definition safe (m : M tst unit) : Prop :=
  forall s, wf_state s -> exists s', m s = Ret (tt, s') /\ confined s s'.

Lemma safe_paints m :
  (forall s, wf_win (buf (tm s)) (win (tm s)) -> exists s', m s = Ret (tt, s') /\ paints s s') -> safe m.
Proof.
  intros H s Hs. destruct (H s (proj1 Hs)) as (s' & E & P). exists s'.
  split; [done|]. by apply paints_confined.
Qed.

Lemma safe_ret : safe (ret tt).
Proof. intros s Hs. exists s. split; [done|by apply confined_refl]. Qed.

Lemma safe_seq m1 m2 : safe m1 -> safe m2 -> safe (m1 ;;; m2).
Proof.
  intros H1 H2 s Hs. destruct (H1 s Hs) as (s1 & E1 & C1).
  destruct (H2 s1) as (s2 & E2 & C2); [by eapply confined_wf|].
  exists s2. split; [by rewrite (bind_step _ _ _ _ _ E1)|by eapply confined_trans].
Qed.

Lemma safe_gets {A} (f : tst -> A) k : (forall a, safe (k a)) -> safe (bind (gets f) k).
Proof. intros H s Hs. rewrite bind_gets. by apply H. Qed.

Lemma safe_when (b : bool) m : safe m -> safe (when b m).
Proof. intros H. destruct b; [done|apply safe_ret]. Qed.

(** Changing only the position and the cursor flag. *)
Lemma safe_upd f :
  (forall t, int32 (row t) -> int32 (col t) -> wf_win (buf t) (win t) ->
     buf (f t) = buf t /\ win (f t) = win t /\ overflow_mode (f t) = overflow_mode t
     /\ parser (f t) = parser t /\ int32 (row (f t)) /\ int32 (col (f t))) ->
  safe (upd_term f).
Proof.
  intros H s (H1 & H2 & H3). eexists. split; [reflexivity|].
  destruct (H (tm s)) as (E1 & E2 & E3 & E4 & E5 & E6); try done.
  split; cbn [tm scr]; rewrite ?E1, ?E2, ?E3, ?E4; done.
Qed.

Lemma safe_setpos r c : int32 r -> int32 c -> safe (term_setpos r c).
Proof. intros Hr Hc. apply safe_upd. done. Qed.

Lemma zero_int32 : int32 0.
Proof. unfold int32. lia. Qed.

Lemma safe_scroll row_ct : 0 < row_ct -> safe (scroll row_ct).
Proof.
  intros Hk s (Hw & Hr & Hc). destruct (scroll_shows (tm s) Hw s row_ct eq_refl Hk) as (s' & E & _ & H2 & _).
  eexists. split; [exact E|]. split; cbn [tm scr set_col set_row buf win overflow_mode parser row col]; try done.
  apply s32_int32.
Qed.

Create HintDb safety.
#[local] Hint Resolve safe_ret safe_seq safe_gets safe_when safe_setpos s32_int32 zero_int32 : safety.

(** The loops that grow the window. *)
Lemma grow_up_ok fuel : forall s row_ct,
  wf_state s -> overflow_mode (tm s) = TERM_OF_GROW -> 0 <= row_ct ->
  start_row (win (tm s)) <= Z.of_nat fuel ->
  exists rc s', grow_up fuel row_ct s = Ret (rc, s') /\ confined s s' /\ 0 <= rc
    /\ (rc = 0 \/ start_row (win (tm s')) = 0).
Proof.
  induction fuel as [|f IH]; intros s row_ct Hs Hm Hk Hf; cbn [grow_up]; rewrite bind_gets.
  - assert (Hz : start_row (win (tm s)) = 0) by (destruct Hs as [Hw _]; unfold wf_win in Hw; lia).
    rewrite (proj2 (truth_false _) Hz), andb_false_r. exists row_ct, s.
    split_and!; [done|by apply confined_refl|done|by right].
  - destruct (truth row_ct && truth (start_row (win (tm s)))) eqn:E.
    + apply andb_true_iff in E as [E1 E2]. apply truth_true in E1, E2.
      set (t1 := set_win (mk_termwin (start_row (win (tm s)) - 1) (height (win (tm s)) + 1)
                            (start_col (win (tm s))) (width (win (tm s)))) (tm s)).
      set (s2 := mk_tst (set_row (s32 (row t1 + 1)) t1) (scr s)).
      rewrite (bind_step (upd_term _) _ s tt (mk_tst t1 (scr s))) by reflexivity.
      rewrite (bind_step (upd_term _) _ _ tt s2) by reflexivity.
      assert (C2 : confined s s2).
      { destruct Hs as (Hw & Hr & Hc). split; try done.
        - cbn. unfold wf_win in *. cbn. lia.
        - apply s32_int32.
        - intros a (r & c & Hr' & Hc' & ->). exists (r + 1), c. unfold cell_of. cbn.
          split_and!; [lia..|]. f_equal. f_equal. f_equal. lia. }
      destruct (safe_scroll 1 ltac:(lia) s2 (confined_wf _ _ C2)) as (s3 & E3 & C3).
      rewrite (bind_step _ _ _ _ _ E3). pose proof (confined_trans _ _ _ C2 C3) as C23.
      destruct (IH s3 (row_ct - 1)) as (rc & s4 & E4 & C4 & H4).
      * by eapply confined_wf.
      * by rewrite (cf_mode _ _ C23).
      * lia.
      * enough (start_row (win (tm s3)) = start_row (win (tm s)) - 1) by lia.
        destruct Hs as (Hw & _). unfold scroll in E3.
        destruct (scroll_shows (tm s2) (cf_wf _ _ C2) s2 1 eq_refl ltac:(lia)) as (s' & Es & _).
        unfold scroll in Es. rewrite Es in E3. injection E3 as <-. done.
      * exists rc, s4. split_and!; try done; [by eapply confined_trans|apply H4..].
    + exists row_ct, s. split_and!; [done|by apply confined_refl|done|].
      apply andb_false_iff in E as [E|E]; apply truth_false in E; [by left|by right].
Qed.

Lemma grow_down_ok fuel : forall s row_ct,
  wf_state s -> overflow_mode (tm s) = TERM_OF_GROW -> 0 <= row_ct ->
  (row_ct = 0 \/ start_row (win (tm s)) = 0) ->
  rows (buf (tm s)) - height (win (tm s)) <= Z.of_nat fuel ->
  exists rc s', grow_down fuel row_ct s = Ret (rc, s') /\ confined s s' /\ 0 <= rc.
Proof.
  induction fuel as [|f IH]; intros s row_ct Hs Hm Hk Hz Hf; cbn [grow_down]; rewrite bind_gets.
  - rewrite (proj2 (Z.ltb_ge _ _)) by lia. rewrite andb_false_r. exists row_ct, s.
    split_and!; [done|by apply confined_refl|done].
  - destruct (truth row_ct && (height (win (tm s)) <? rows (buf (tm s)))) eqn:E.
    + apply andb_true_iff in E as [E1 E2]. apply truth_true in E1. apply Z.ltb_lt in E2.
      destruct Hz as [Hz|Hz]; [done|].
      set (t1 := set_win (mk_termwin (start_row (win (tm s))) (height (win (tm s)) + 1)
                            (start_col (win (tm s))) (width (win (tm s)))) (tm s)).
      rewrite (bind_step (upd_term _) _ s tt (mk_tst t1 (scr s))) by reflexivity.
      assert (C1 : confined s (mk_tst t1 (scr s))).
      { destruct Hs as (Hw & Hr & Hc). split; try done.
        - cbn. unfold wf_win in *. cbn. lia.
        - intros a (r & c & Hr' & Hc' & ->). exists r, c. unfold cell_of. cbn. split_and!; lia. }
      destruct (IH (mk_tst t1 (scr s)) (row_ct - 1)) as (rc & s4 & E4 & C4 & H4).
      * by eapply confined_wf.
      * done.
      * lia.
      * by right.
      * cbn. lia.
      * exists rc, s4. split_and!; try done. by eapply confined_trans.
    + exists row_ct, s. split_and!; [done|by apply confined_refl|done].
Qed.

Lemma safe_overflow s :
  wf_state s -> height (win (tm s)) <= row (tm s) ->
  exists s', overflow s = Ret (tt, s') /\ confined s s'.
Proof.
  intros Hs Hrow. unfold overflow. rewrite bind_gets. destruct (Hs) as (Hw & Hr & Hc).
  rewrite s32_small by (unfold int32, wf_win in *; lia).
  destruct (Z.leb_spec (row (tm s) - height (win (tm s)) + 1) 0); [by apply safe_ret|].
  destruct (overflow_mode (tm s)) eqn:Em; [by apply safe_ret|by apply safe_scroll|].
  destruct (grow_up_ok (Z.to_nat (start_row (win (tm s)))) s (row (tm s) - height (win (tm s)) + 1))
    as (rc & s1 & E1 & C1 & Hrc & Hz); try done; [lia|unfold wf_win in Hw; lia|].
  rewrite (bind_step _ _ _ _ _ E1).
  destruct (grow_down_ok (Z.to_nat (rows (buf (tm s)))) s1 rc) as (rc' & s2 & E2 & C2 & Hrc').
  - by eapply confined_wf.
  - by rewrite (cf_mode _ _ C1).
  - done.
  - done.
  - pose proof (cf_wf _ _ C1) as Hw1. unfold wf_win in Hw1.
    rewrite (cf_buf _ _ C1). lia.
  - rewrite (bind_step _ _ _ _ _ E2). pose proof (confined_trans _ _ _ C1 C2) as C12.
    destruct (truth rc') eqn:Ert; cbn [when]; [|by exists s2].
    apply truth_true in Ert. destruct (safe_scroll rc' ltac:(lia) s2 (confined_wf _ _ C2)) as (s3 & E3 & C3).
    exists s3. split; [done|]. by eapply confined_trans.
Qed.

Lemma safe_move_cursor : safe move_cursor_into_bounds.
Proof.
  unfold move_cursor_into_bounds. apply safe_gets. intros t.
  assert (Hgo : safe (when (width (win t) <=? col t) (term_setpos (s32 (row t + 1)) 0) ;;;
    t' <-- gets tm ;; when (height (win t') <=? row t') overflow)).
  { apply safe_seq; [auto with safety|]. intros s Hs. rewrite bind_gets.
    destruct (Z.leb_spec (height (win (tm s))) (row (tm s))); cbn [when]; [|by apply safe_ret].
    by apply safe_overflow. }
  destruct (overflow_mode t); [apply safe_ret|done|done].
Qed.

Lemma safe_setc r c clr ch : safe (setc r c clr ch).
Proof. apply safe_paints. intros s. apply setcc_paints. Qed.

Lemma safe_setcolor r c clr : safe (setcolor r c clr).
Proof. apply safe_paints. intros s. apply setcolor_paints. Qed.

#[local] Hint Resolve safe_move_cursor safe_setc safe_setcolor : safety.

Lemma safe_backspace : safe backspace.
Proof.
  unfold backspace. apply safe_gets. intros t. destruct (_ && _); [apply safe_ret|].
  apply safe_seq; [apply safe_upd; intros; cbn; split_and!; auto with safety|].
  apply safe_gets. intros t1. apply safe_seq; [|auto with safety].
  apply safe_when, safe_seq; apply safe_upd; intros t2 H1 H2 H3; cbn; split_and!; auto with safety.
  unfold int32, wf_win in *. lia.
Qed.

Lemma safe_execute : safe execute_ansi_escape.
Proof.
  unfold execute_ansi_escape. apply safe_gets. intros t.
  repeat case_match; auto with safety.
  - unfold ansi_pos_param. auto with safety.
  - apply safe_paints. intros s. apply erase_line_paints.
  - apply safe_paints. intros s. apply erase_display_paints.
Qed.

Lemma safe_cursor_flag b : safe (upd_term (set_cursor_visible b)).
Proof. apply safe_upd. done. Qed.

#[local] Hint Resolve safe_backspace safe_execute safe_cursor_flag : safety.

Lemma safe_clear_cursor : safe clear_cursor.
Proof. unfold clear_cursor. auto 8 with safety. Qed.

Lemma safe_write_cursor : safe write_cursor.
Proof. unfold write_cursor. auto 12 with safety. Qed.

Lemma safe_put_char ch : safe (put_char ch).
Proof.
  unfold put_char. intros s Hs. rewrite bind_gets. destruct (Hs) as (_ & Hr & Hc).
  revert s Hs Hr Hc. intros s Hs Hr Hc.
  assert (H : safe (if ch =? 10 then term_setpos (s32 (row (tm s) + 1)) 0
    else if ch =? 13 then term_setpos (row (tm s)) 0
    else if ch =? 8 then backspace
    else setc (row (tm s)) (col (tm s)) (color (tm s)) ch ;;;
         upd_term (fun t => set_col (s32 (col t + 1)) t))); [|by apply H].
  repeat case_match; auto with safety. apply safe_seq; [auto with safety|].
  apply safe_upd. intros. cbn. split_and!; auto with safety.
Qed.

(** The parser: it never leaves its array, and a parameter costs one byte of
    headroom at most. *)
Lemma parse_ok n p ch :
  0 <= n -> wf_parser (n + 1) p ->
  exists r p', ansi_parse_putc ch p = Ret (r, p') /\ wf_parser n p'.
Proof.
  intros Hn (Hl & H0 & Hlt).
  assert (Hk : wf_parser n p) by (unfold wf_parser; split_and!; [done..|lia]).
  assert (Hset : forall st c, wf_parser n (mk_ansi_parse st (csi_param p) (param_num p) c)) by done.
  assert (Hint : forall st, exists r p', intermediate_case ch (set__state st p) = Ret (r, p') /\ wf_parser n p').
  { intros st. unfold intermediate_case. repeat case_match; (eexists _, _; split; [reflexivity|]); apply Hset. }
  unfold ansi_parse_putc. rewrite bind_get. destruct (_state p) eqn:Es.
  - case_match; [|by eexists _, p]. eexists _, _. split; [reflexivity|]. unfold wf_parser; cbn. lia.
  - case_match; [|by eexists _, p]. eexists _, _. split; [reflexivity|]. apply Hset.
  - case_match; [|rewrite bind_modify; apply Hint].
    unfold parameter_byte. rewrite bind_assoc, bind_get. repeat case_match; try (by eexists _, p).
    + zbool; try lia; done.
    + eexists _, _. split; [reflexivity|]. split; [|apply Hk]. cbn. by rewrite length_insert.
    + eexists _, _. split; [reflexivity|]. unfold wf_parser. cbn. rewrite s32_small by lia.
      split_and!; [done|lia..].
  - assert (set__state AIS_INTERMEDIATE p = p) as <- by (destruct p; cbn in *; by subst). apply Hint.
Qed.

Lemma term_putc_ok n s ch :
  0 <= n -> wf_term (n + 1) (tm s) ->
  exists s', term_putc ch s = Ret (tt, s') /\ wf_term n (tm s')
    /\ buf (tm s') = buf (tm s) /\ overflow_mode (tm s') = overflow_mode (tm s)
    /\ (overflow_mode (tm s) <> TERM_OF_GROW -> win (tm s') = win (tm s))
    /\ (forall a, in_win (buf (tm s)) (win (tm s)) a -> in_win (buf (tm s')) (win (tm s')) a)
    /\ forall a, ~ in_win (buf (tm s')) (win (tm s')) a -> scr s' a = scr s a.
Proof.
  intros Hn (Hw & Hr & Hc & Hp). destruct (safe_clear_cursor s) as (s1 & E1 & C1); [done|].
  destruct (parse_ok n (parser (tm s1)) ch Hn) as (r & p' & E2 & P2); [by rewrite (cf_parser _ _ C1)|].
  set (s2 := mk_tst (set_parser p' (tm s1)) (scr s1)).
  assert (Hs2 : wf_state s2) by (by apply (confined_wf _ _ C1)).
  assert (Hrest : safe (if (r =? - APS_ESCAPE) || (r =? - APS_INVALID) || (r =? - APS_UNIMPLEMENTED) then ret tt
    else if r =? - APS_FINAL then execute_ansi_escape
    else move_cursor_into_bounds ;;; put_char r ;;; write_cursor)).
  { repeat case_match; auto with safety.
    auto using safe_seq, safe_move_cursor, safe_put_char, safe_write_cursor. }
  destruct (Hrest s2 Hs2) as (s3 & E3 & C3). exists s3. split.
  - unfold term_putc. rewrite (bind_step _ _ _ _ _ E1).
    rewrite (bind_step (zoom _ _ _) _ s1 r s2); [exact E3|]. unfold zoom. by rewrite E2.
  - destruct C1 as [? ? ? ? ? ? W1 G1 S1], C3 as [B3 M3 P3 ? ? ? W3 G3 S3]. cbn in *. split_and!.
    + unfold wf_term. split_and!; try done. congruence.
    + congruence.
    + congruence.
    + intros Hm. rewrite W3 by congruence. by apply W1.
    + intros a Ha. apply G3, G1, Ha.
    + intros a Ha. rewrite S3 by done. apply S1. intros H. by apply Ha, G3.
Qed.

(** ** What a terminal promises *)

Lemma term_write_run l : forall s,
  wf_term (Z.of_nat (length l)) (tm s) ->
  exists s', term_write l s = Ret (tt, s') /\ wf_term 0 (tm s')
    /\ buf (tm s') = buf (tm s) /\ overflow_mode (tm s') = overflow_mode (tm s)
    /\ (overflow_mode (tm s) <> TERM_OF_GROW -> win (tm s') = win (tm s))
    /\ (forall a, in_win (buf (tm s)) (win (tm s)) a -> in_win (buf (tm s')) (win (tm s')) a)
    /\ forall a, ~ in_win (buf (tm s')) (win (tm s')) a -> scr s' a = scr s a.
Proof.
  induction l as [|ch l IH]; intros s Hs.
  - exists s. split_and!; try done; apply Hs.
  - cbn [length] in Hs. rewrite Nat2Z.inj_succ in Hs. unfold Z.succ in Hs.
    destruct (term_putc_ok (Z.of_nat (length l)) s (s8 ch)) as (s1 & E1 & H1 & B1 & M1 & W1 & G1 & S1);
      [lia|done|].
    destruct (IH s1 H1) as (s2 & E2 & H2 & B2 & M2 & W2 & G2 & S2).
    exists s2. cbn [term_write]. rewrite (bind_step _ _ _ _ _ E1). split_and!; try done; try congruence.
    + intros Hm. rewrite W2 by congruence. by apply W1.
    + intros a Ha. apply G2, G1, Ha.
    + intros a Ha. rewrite S2 by done. apply S1. intros H. by apply Ha, G2.
Qed.

(** [C36] Whatever bytes are written to a terminal, printable or control, escape
    sequences complete or not, the write ends, the window stays inside the
    buffer, it does not move or change size unless the terminal may grow, and no
    cell outside the window changes.  So terminals with disjoint windows on the
    same screen do not disturb each other. *)
Theorem term_write_confined l : forall s,
  wf_term (Z.of_nat (length l)) (tm s) ->
  exists s', term_write l s = Ret (tt, s') /\ wf_term 0 (tm s')
    /\ buf (tm s') = buf (tm s) /\ overflow_mode (tm s') = overflow_mode (tm s)
    /\ (overflow_mode (tm s) <> TERM_OF_GROW -> win (tm s') = win (tm s))
    /\ (forall a, in_win (buf (tm s)) (win (tm s)) a -> in_win (buf (tm s')) (win (tm s')) a)
    /\ forall a, ~ in_win (buf (tm s')) (win (tm s')) a -> scr s' a = scr s a.
Proof. exact (term_write_run l). Qed.

(** [scroll] moves every row of the window up by [row_ct], blanks the rows
    that come in at the bottom, moves the position along, and leaves the rest of
    the screen alone. *)
Theorem scroll_moves_rows s row_ct :
  wf_win (buf (tm s)) (win (tm s)) -> 0 < row_ct ->
  exists s', scroll row_ct s = Ret (tt, s')
    /\ tm s' = set_col (col (tm s)) (set_row (s32 (row (tm s) - row_ct)) (tm s))
    /\ (forall a, ~ in_win (buf (tm s)) (win (tm s)) a -> scr s' a = scr s a)
    /\ forall r c, 0 <= r < height (win (tm s)) -> 0 <= c < width (win (tm s)) ->
         scr s' (cell_of (buf (tm s)) (win (tm s)) r c)
         = if r + row_ct <? height (win (tm s))
           then scr s (cell_of (buf (tm s)) (win (tm s)) (r + row_ct) c)
           else colorchar COLOR_GREY_ON_BLACK 0.
Proof.
  intros Hw Hk. destruct (scroll_shows (tm s) Hw s row_ct eq_refl Hk) as (s' & E & _ & H2 & H3).
  eexists. by split.
Qed.

(** ** Escape sequences *)

(** A byte that the parser keeps for itself only changes the parser. *)
Lemma term_putc_escape s ch p' :
  cursor_visible (tm s) = false -> ansi_parse_putc ch (parser (tm s)) = Ret (- APS_ESCAPE, p') ->
  term_putc ch s = Ret (tt, mk_tst (set_parser p' (tm s)) (scr s)).
Proof.
  intros Hv Hp. unfold term_putc, clear_cursor. rewrite bind_assoc, bind_gets, Hv. cbn [when].
  rewrite bind_ret. unfold bind at 1, zoom. by rewrite Hp.
Qed.

Definition in_param (ps : list Z) (k c : Z) : ansi_parse := mk_ansi_parse AIS_PARAM ps k c.

(** The digits of a parameter are collected. *)
Lemma write_digits ds : forall s ps k c v,
  cursor_visible (tm s) = false -> parser (tm s) = in_param ps k c ->
  0 <= k < CSI_MAX_PARAM -> ps !! Z.to_nat k = Some v -> 0 <= v -> Forall is_digit ds -> dec v ds < 2 ^ 31 ->
  term_write ds s
  = Ret (tt, mk_tst (set_parser (in_param (<[Z.to_nat k := dec v ds]> ps) k c) (tm s)) (scr s)).
Proof.
  induction ds as [|d ds IH]; intros s ps k c v Hv Hp Hk Hl H0 Hd Hlt.
  - cbn. rewrite list_insert_id by done. rewrite <- Hp. by destruct s as [[] ?].
  - apply list.Forall_cons_1 in Hd as [Hd Hds]. unfold is_digit in Hd.
    pose proof (dec_mono ds (v * 10 + (d - 48)) ltac:(lia) Hds) as Hm.
    change (dec v (d :: ds)) with (dec (v * 10 + (d - 48)) ds) in *.
    cbn [term_write]. rewrite s8_small by lia.
    rewrite (bind_step _ _ s tt (mk_tst (set_parser (in_param (<[Z.to_nat k := v * 10 + (d - 48)]> ps) k c) (tm s)) (scr s))).
    + erewrite IH; [|done|done|done|apply list_lookup_insert_eq; by eapply lookup_lt_Some|lia|done|done].
      by rewrite list_insert_insert_eq.
    + apply term_putc_escape; [done|]. rewrite Hp. unfold ansi_parse_putc. rewrite bind_get. cbn [in_param _state].
      rewrite (proj2 (Z.leb_le 0x30 d)), (proj2 (Z.leb_le d 0x3f)) by lia. cbn [andb].
      unfold parameter_byte. rewrite bind_assoc, bind_get.
      rewrite (proj2 (Z.leb_le 48 d)), (proj2 (Z.leb_le d 57)) by lia. cbn [param_num in_param csi_param andb].
      rewrite (proj2 (Z.ltb_lt k CSI_MAX_PARAM)), (proj2 (Z.ltb_ge k 0)) by lia.
      rewrite Hl. cbn [from_option id]. rewrite (s32_small (v * 10)) by lia. by rewrite s32_small by lia.
Qed.

Lemma term_write_app l1 l2 s s' :
  term_write l1 s = Ret (tt, s') -> term_write (l1 ++ l2) s = term_write l2 s'.
Proof.
  revert s. induction l1 as [|ch l1 IH]; intros s E; cbn in *; [by injection E as ->|].
  unfold bind in *. destruct (term_putc (s8 ch) s) as [[[] s1]| | | |]; try done. by apply IH.
Qed.

Lemma pos_param_small n : 0 <= n < 2 ^ 31 -> s32 ((if n =? 0 then 1 else n) - 1) = Z.max 1 n - 1.
Proof. intros. zbool; rewrite s32_small; lia. Qed.

(** The final byte of a cursor positioning sequence. *)
Lemma term_putc_cup s n m x k :
  cursor_visible (tm s) = false -> parser (tm s) = in_param [n; m; x] k 0 ->
  term_putc (s8 ANSI_CUP) s
  = Ret (tt, mk_tst (set_col (s32 ((if m =? 0 then 1 else m) - 1)) (set_row (s32 ((if n =? 0 then 1 else n) - 1))
      (set_parser (mk_ansi_parse AIS_READY [n; m; x] k 72) (tm s)))) (scr s)).
Proof.
  intros Hv Hp. unfold term_putc, clear_cursor. rewrite bind_assoc, bind_gets, Hv. cbn [when].
  rewrite bind_ret. rewrite (bind_step (zoom _ _ _) _ s (- APS_FINAL)
    (mk_tst (set_parser (mk_ansi_parse AIS_READY [n; m; x] k 72) (tm s)) (scr s))).
  - reflexivity.
  - unfold zoom. by rewrite Hp.
Qed.

Lemma cursor_position_run s ns ms :
  _state (parser (tm s)) = AIS_READY -> cursor_visible (tm s) = false ->
  Forall is_digit ns -> Forall is_digit ms -> dec 0 ns < 2 ^ 31 -> dec 0 ms < 2 ^ 31 ->
  exists p', term_write ([ANSI_ESC; ANSI_CSI] ++ ns ++ [59] ++ ms ++ [ANSI_CUP]) s
    = Ret (tt, mk_tst (set_col (Z.max 1 (dec 0 ms) - 1) (set_row (Z.max 1 (dec 0 ns) - 1)
                         (set_parser p' (tm s)))) (scr s))
    /\ _state p' = AIS_READY.
Proof.
  intros Hr Hv Hn Hm Hln Hlm. pose proof (dec_mono ns 0 ltac:(lia) Hn) as Hn0.
  pose proof (dec_mono ms 0 ltac:(lia) Hm) as Hm0.
  assert (E1 : term_write [ANSI_ESC; ANSI_CSI] s
    = Ret (tt, mk_tst (set_parser (in_param [0; 0; 0] 0 0) (tm s)) (scr s))).
  { cbn [term_write]. set (s1 := mk_tst (set_parser (mk_ansi_parse AIS_ESC [0; 0; 0] 0 0) (tm s)) (scr s)).
    rewrite (bind_step _ _ s tt s1)
      by (apply term_putc_escape; [done|]; unfold ansi_parse_putc; by rewrite bind_get, Hr).
    by rewrite (bind_step _ _ _ _ _ (term_putc_escape s1 (s8 ANSI_CSI) (in_param [0; 0; 0] 0 0) Hv eq_refl)). }
  set (s1 := mk_tst (set_parser (in_param [0; 0; 0] 0 0) (tm s)) (scr s)) in *.
  rewrite (term_write_app _ _ _ _ E1).
  rewrite (term_write_app _ _ _ _ (write_digits ns s1 [0; 0; 0] 0 0 0 Hv eq_refl ltac:(done) eq_refl ltac:(lia) Hn Hln)).
  cbn [app term_write]. set (s2 := mk_tst _ _).
  rewrite (bind_step _ _ _ _ _ (term_putc_escape s2 (s8 59) (in_param [dec 0 ns; 0; 0] 1 0) Hv eq_refl)).
  set (s3 := mk_tst _ _).
  rewrite (term_write_app _ _ _ _
    (write_digits ms s3 [dec 0 ns; 0; 0] 1 0 0 Hv eq_refl ltac:(done) eq_refl ltac:(lia) Hm Hlm)).
  exists (mk_ansi_parse AIS_READY [dec 0 ns; dec 0 ms; 0] 1 72). split; [|done].
  cbn [app term_write]. set (s4 := mk_tst _ _).
  rewrite (bind_step _ _ _ _ _ (term_putc_cup s4 (dec 0 ns) (dec 0 ms) 0 1 Hv eq_refl)).
  unfold ret. do 3 f_equal. cbn -[Z.max Z.sub dec s32]. rewrite !pos_param_small by lia. done.
Qed.

(** Cursor positioning: the bytes of [ESC [ n ; m H], with any decimal
    numerals [n] and [m] that fit an [int], move the position to row [n - 1] and
    column [m - 1] (0 stands for 1) and change nothing on the screen. *)
Theorem cursor_position_sequence s ns ms :
  _state (parser (tm s)) = AIS_READY -> cursor_visible (tm s) = false ->
  Forall is_digit ns -> Forall is_digit ms -> dec 0 ns < 2 ^ 31 -> dec 0 ms < 2 ^ 31 ->
  exists p', term_write ([ANSI_ESC; ANSI_CSI] ++ ns ++ [59] ++ ms ++ [ANSI_CUP]) s
    = Ret (tt, mk_tst (set_col (Z.max 1 (dec 0 ms) - 1) (set_row (Z.max 1 (dec 0 ns) - 1)
                         (set_parser p' (tm s)))) (scr s))
    /\ _state p' = AIS_READY.
Proof. apply cursor_position_run. Qed.

(** Two ways in which plain text goes wrong.  After an escape byte that is not
    followed by a bracket the parser stays in its state: all text up to the next
    bracket is swallowed.  And the byte 0xfe, which is the [char] -2, is taken for
    the end of a sequence: the last escape command is executed again. *)
Theorem text_taken_for_escape s l :
  cursor_visible (tm s) = false ->
  (_state (parser (tm s)) = AIS_ESC -> Forall (fun ch => s8 ch <> ANSI_CSI) l ->
     term_write l s = Ret (tt, s))
  /\ (_state (parser (tm s)) = AIS_READY -> term_write [0xfe] s = execute_ansi_escape s).
Proof.
  intros Hv. assert (Hset : mk_tst (set_parser (parser (tm s)) (tm s)) (scr s) = s) by (by destruct s as [[] ?]).
  split; intros Hp.
  - induction l as [|ch l IH]; intros Hl; [done|]. apply list.Forall_cons_1 in Hl as [Hc Hl].
    cbn [term_write]. rewrite (bind_step _ _ s tt s); [by apply IH|].
    unfold term_putc, clear_cursor. rewrite bind_assoc, bind_gets, Hv. cbn [when]. rewrite bind_ret.
    rewrite (bind_step (zoom _ _ _) _ s (- APS_UNIMPLEMENTED) s); [done|].
    unfold zoom, ansi_parse_putc. rewrite bind_get, Hp, (proj2 (Z.eqb_neq _ _)) by done. by rewrite <- Hset at 2.
  - cbn [term_write]. change (s8 254) with (- APS_FINAL).
    unfold term_putc, clear_cursor. rewrite !bind_assoc, bind_gets, Hv. cbn [when]. rewrite !bind_ret.
    rewrite bind_assoc. rewrite (bind_step (zoom _ _ _) _ s (- APS_FINAL) s).
    + change (bind execute_ansi_escape (fun _ => ret tt) s = execute_ansi_escape s).
      unfold bind. by destruct (execute_ansi_escape s) as [[[] ?]| | | |].
    + unfold zoom, ansi_parse_putc. rewrite bind_get, Hp.
      change (Ret (- APS_FINAL, mk_tst (set_parser (parser (tm s)) (tm s)) (scr s)) = Ret (- APS_FINAL, s)).
      by rewrite Hset.
Qed.

(** ** Concrete instances *)

Module Term_instances.

(** The shell window, rows 0 to 6 and columns 30 to 79, and the clock next to it. *)
Definition shell : term := TERM_INIT_VGA_WIN 0 7 30 50.
Definition clock : term := TERM_INIT_VGA_WIN 0 1 0 30.
Definition screen : tst := mk_tst shell (fun a => a).

Lemma shell_wf n : 0 <= n < 2 ^ 31 -> wf_term n shell.
Proof. intros. unfold wf_term, wf_win, wf_parser, int32. cbn. unfold VGA_ROWS, VGA_COLS. lia. Qed.

(** Ten lines scroll the shell window and leave the clock alone. *)
Definition lines : list Z := concat (replicate 10 [104; 105; 10]).

Lemma term_write_confined_witness :
  exists s', term_write lines screen = Ret (tt, s') /\ win (tm s') = win shell
    /\ forall a, in_win (buf clock) (win clock) a -> scr s' a = a.
Proof.
  destruct (term_write_confined lines screen) as (s' & E & _ & B & _ & W & _ & S').
  - apply shell_wf. vm_compute. done.
  - exists s'. split; [exact E|]. rewrite W by done. split; [done|].
    intros a (r & c & Hr & Hc & ->). apply S'. rewrite B, W by done.
    intros (r' & c' & Hr' & Hc' & Ea). unfold cell_of in Ea. cbn in *. unfold VGA_COLS in *. lia.
Defined.

Lemma scroll_moves_rows_witness :
  exists s', scroll 2 screen = Ret (tt, s') /\ scr s' (cell_of (buf shell) (win shell) 1 3) = 3 * 80 + 33.
Proof.
  destruct (scroll_moves_rows screen 2) as (s' & E & _ & _ & H).
  - apply (shell_wf 0). lia.
  - lia.
  - exists s'. split; [exact E|]. etransitivity; [apply (H 1 3); cbn; lia|]. reflexivity.
Defined.

Lemma cursor_position_sequence_witness :
  exists p', term_write [27; 91; 49; 50; 59; 51; 52; 72] screen
    = Ret (tt, mk_tst (set_col 33 (set_row 11 (set_parser p' shell))) (scr screen)).
Proof.
  destruct (cursor_position_sequence screen [49; 50] [51; 52]) as (p' & E & _).
  - reflexivity.
  - reflexivity.
  - repeat constructor; unfold is_digit; lia.
  - repeat constructor; unfold is_digit; lia.
  - reflexivity.
  - reflexivity.
  - exists p'. exact E.
Defined.

Lemma text_taken_for_escape_witness :
  term_write [104; 101; 108] (mk_tst (set_parser (mk_ansi_parse AIS_ESC [0; 0; 0] 0 0) shell) (fun a => a))
  = Ret (tt, mk_tst (set_parser (mk_ansi_parse AIS_ESC [0; 0; 0] 0 0) shell) (fun a => a)).
Proof.
  destruct (text_taken_for_escape
    (mk_tst (set_parser (mk_ansi_parse AIS_ESC [0; 0; 0] 0 0) shell) (fun a => a)) [104; 101; 108]) as [H _].
  - reflexivity.
  - apply H; [reflexivity|]. repeat constructor; vm_compute; discriminate.
Defined.

End Term_instances.
