(* ===== verification/Tprintf.v ===== *)
(** * Formatted output on terminals

    Models [src/src/lib/ansi_term/tprintf.c]: [vtprintf] formats into a local
    buffer and prints the buffer on a terminal.  Its arguments are the address
    of the buffer, the format, the [va_list], the terminal with its screen and
    the memory. *)

From S2P Require Import Prelude CString Term Stdio StdioFacts.

Definition TPRINTF_BUFSZ : Z := 256.

Definition vtprintf (fuel : nat) (buf fmt : Z) (args : va_list) (s : tst) (m : bmem) : outcome (Z * tst * bmem) :=
  match vsnprintf fuel m buf TPRINTF_BUFSZ fmt args with
  | Ret (r, m') =>
    if r <? 0 then Ret (r, s, m')
    else
      match term_puts fuel m' buf s with
      | Ret (_, s') => Ret (r, s', m')
      | Halt => Halt
      | Wait => Wait
      | Stuck => Stuck
      | Fuel => Fuel
      end
  | Halt => Halt
  | Wait => Wait
  | Stuck => Stuck
  | Fuel => Fuel
  end.

Definition tprintf := vtprintf.

(** ** Cursor positioning through [tprintf] *)

Lemma term_puts_write l : forall fuel m a s,
  is_cstr m a l -> (length l < fuel)%nat -> term_puts_loop fuel m a s = term_write l s.
Proof.
  induction l as [|b l IH]; intros fuel m a s Hc Hf; (destruct fuel as [|n]; [cbn in Hf; lia|]);
    cbn [term_puts_loop term_write length] in *.
  - by rewrite (proj1 (is_cstr_nil _ _) Hc).
  - apply is_cstr_cons in Hc as [[-> Hb] Hc]. rewrite (proj2 (Z.eqb_neq b 0)) by lia.
    unfold bind. destruct (term_putc (s8 b) s) as [[u s']| | | |]; try done. apply IH; [done|lia].
Qed.

(** A decimal numeral is a sequence of decimal digits with its value. *)
Lemma numeral_dec num l : numeral 10 lowerhex num l -> Forall is_digit l /\ dec 0 l = num.
Proof.
  intros (ix & -> & Hix & <- & _).
  assert (Hl : forall i, 0 <= i < 10 -> default 0 (lowerhex !! Z.to_nat i) = 48 + i).
  { intros i Hi. assert (i = 0 \/ i = 1 \/ i = 2 \/ i = 3 \/ i = 4 \/ i = 5 \/ i = 6 \/ i = 7 \/ i = 8 \/ i = 9)
      as Hc by lia. repeat destruct Hc as [-> | Hc]; subst; done. }
  assert (H : forall v, Forall is_digit ((fun i => default 0 (lowerhex !! Z.to_nat i)) <$> ix)
    /\ dec v ((fun i => default 0 (lowerhex !! Z.to_nat i)) <$> ix) = fold_left (fun v i => v * 10 + i) ix v);
    [|apply (H 0)].
  induction ix as [|i ix IH]; intros v; [by split; [constructor|]|].
  apply list.Forall_cons_1 in Hix as [Hi Hix]. destruct (IH Hix (v * 10 + i)) as [IH1 IH2].
  cbn [fmap list_fmap fold_left]. rewrite (Hl i Hi). split.
  - constructor; [unfold is_digit; lia|done].
  - cbn [dec fold_left]. unfold dec in *. cbn [fold_left]. rewrite <- IH2. do 2 f_equal. lia.
Qed.

(** Ten digits are enough for an [int]. *)
Lemma small_numeral n :
  0 <= n < 2 ^ 31 -> exists l, (length l <= 10)%nat /\ numeral 10 lowerhex n l.
Proof.
  intros Hn. destruct (inttodigits_run 10 lowerhex ltac:(lia) 10 [] n) as (l & _ & Hl & Hnum); [lia|].
  by exists l.
Qed.

(** [ESC [ %d ; %d H] *)
Definition percent_d : dir := mk_dir [] WNone None LEN_NONE 100.
Definition ANSIF_CUP : format := ([([27; 91], percent_d); ([59], percent_d)], [72]).

Lemma percent_d_wf : wf_dir percent_d.
Proof.
  unfold wf_dir, plain, LENMOD_MAP. cbn. split_and!; try done; [lia|]. repeat constructor; lia.
Qed.

(** A plain [%d] prints the numeral of a positive number and nothing else. *)
Lemma percent_d_prints fuel f l its last r ds args txt :
  0 < r < 2 ^ 31 -> numeral 10 lowerhex r ds -> renders fuel f its last args txt ->
  renders fuel f ((l, percent_d) :: its) last (r :: args) (l ++ ds ++ txt).
Proof.
  intros Hr Hn. apply (renders_dir fuel f l percent_d its last (r :: args) (mk_layout false 0 None) (r :: args)); [done|done|].
  assert (Hne : ds <> []).
  { intros ->. destruct (numeral_dec _ _ Hn) as [_ E]. cbn in E. lia. }
  assert (Et : numeric percent_d (mk_layout false 0 None) (sign_text percent_d r) ds = ds).
  { unfold numeric, sign_text, has. cbn [d_flags percent_d]. rewrite !bool_decide_eq_false_2 by apply not_elem_of_nil.
    rewrite (proj2 (Z.ltb_ge r 0)) by lia. unfold least_zeros, padded. cbn [lay_prec lay_width lay_left default from_option id app].
    destruct ds as [|d ds]; [done|]. cbn [length]. replace (Z.to_nat (0 `max` _ + 0)) with O by lia. cbn [replicate app length].
    by replace (Z.to_nat (0 - _)) with O by lia. }
  assert (Ev : signed_value 32 (u32 r) = r).
  { unfold signed_value. rewrite u32_small by lia. change (32 - 1) with 31. by rewrite (proj2 (Z.ltb_lt r (2 ^ 31))) by lia. }
  pose proof (conv_signed fuel f percent_d (mk_layout false 0 None) (r :: args) args 32 (u32 r) ds) as Hc.
  cbv zeta in Hc. rewrite Ev, Et, Z.abs_eq in Hc by lia. apply Hc; [by left|by apply pulls_word; left|by apply digits_numeral].
Qed.

Lemma tprintf_cup_run fuel m buf fmt s r c :
  0 < r < 2 ^ 31 -> 0 < c < 2 ^ 31 -> 0 < buf < 2 ^ 31 -> (400 < fuel)%nat ->
  reads (file_init_string_io m buf TPRINTF_BUFSZ) (Addr fmt) (format_text ANSIF_CUP) ->
  _state (parser (tm s)) = AIS_READY -> cursor_visible (tm s) = false ->
  exists n p' m', vtprintf fuel buf fmt [r; c] s m
      = Ret (n, mk_tst (set_col (c - 1) (set_row (r - 1) (set_parser p' (tm s)))) (scr s), m')
    /\ _state p' = AIS_READY /\ forall x, ~ (buf <= x < buf + TPRINTF_BUFSZ) -> m' x = m x.
Proof.
  intros Hr Hc Hbuf Hf Hrd Hst Hv.
  destruct (small_numeral r) as (dr & Hlr & Hnr); [lia|]. destruct (small_numeral c) as (dc & Hlc & Hnc); [lia|].
  destruct (numeral_dec _ _ Hnr) as [Hdr Er]. destruct (numeral_dec _ _ Hnc) as [Hdc Ec].
  set (txt := [27; 91] ++ dr ++ [59] ++ dc ++ [72]).
  assert (Hlen : (length txt <= 30)%nat) by (unfold txt; rewrite !length_app; cbn; lia).
  destruct (vsnprintf_run fuel ltac:(lia) m buf TPRINTF_BUFSZ fmt ANSIF_CUP [r; c] txt) as (m' & E & Hm & Hs);
    try (unfold TPRINTF_BUFSZ; lia); try done.
  - split; [|by repeat constructor]. repeat constructor; try done; apply percent_d_wf.
  - cbn. lia.
  - apply (percent_d_prints fuel _ [27; 91]); [done|done|]. apply (percent_d_prints fuel _ [59]); [done|done|]. constructor.
  - specialize (Hs ltac:(done)). rewrite take_ge in Hs by (unfold TPRINTF_BUFSZ; lia).
    destruct (cursor_position_run s dr dc) as (p' & Ew & Hp'); try done; [lia|lia|].
    exists (Z.of_nat (length txt)), p', m'. split; [|done].
    unfold vtprintf. rewrite E, (proj2 (Z.ltb_ge _ 0)) by lia. unfold term_puts.
    rewrite (proj2 (Z.eqb_neq buf 0)) by lia. rewrite (term_puts_write txt) by (done || lia).
    unfold txt. unfold ANSI_ESC, ANSI_CSI, ANSI_CUP in Ew. rewrite Ew, Er, Ec. by rewrite !Z.max_r by lia.
Qed.

(** [tprintf(t, ANSIF_CUP, row, col)] on a terminal whose cursor is hidden
    and which is not inside another escape sequence: the position becomes
    ([row] - 1, [col] - 1), the screen does not change, and the memory changes in
    the local buffer only. *)
Theorem tprintf_positions_cursor fuel m buf fmt s r c :
  0 < r < 2 ^ 31 -> 0 < c < 2 ^ 31 -> 0 < buf < 2 ^ 31 -> (400 < fuel)%nat ->
  reads (file_init_string_io m buf TPRINTF_BUFSZ) (Addr fmt) (format_text ANSIF_CUP) ->
  _state (parser (tm s)) = AIS_READY -> cursor_visible (tm s) = false ->
  exists n s' m', vtprintf fuel buf fmt [r; c] s m = Ret (n, s', m')
    /\ row (tm s') = r - 1 /\ col (tm s') = c - 1 /\ _state (parser (tm s')) = AIS_READY /\ scr s' = scr s
    /\ forall x, ~ (buf <= x < buf + TPRINTF_BUFSZ) -> m' x = m x.
Proof.
  intros Hr Hc Hbuf Hf Hrd Hst Hv. destruct (tprintf_cup_run fuel m buf fmt s r c) as (n & p' & m' & E & Hp & Hm); try done.
  exists n. eexists _, m'. split; [exact E|]. split_and!; done.
Qed.

(** [%c] *)
Definition percent_c : dir := mk_dir [] WNone None LEN_NONE 99.
Definition CHAR_FMT : format := ([([], percent_c)], []).

Lemma percent_c_wf : wf_dir percent_c.
Proof.
  unfold wf_dir, plain, LENMOD_MAP. cbn. split_and!; try done; [lia|]. repeat constructor; lia.
Qed.

(** [tprintf(t, "%c", ch)] writes the character. *)
Lemma tprintf_char_run fuel m buf fmt s ch s' :
  0 < ch < 128 -> 0 < buf < 2 ^ 31 -> (400 < fuel)%nat ->
  reads (file_init_string_io m buf TPRINTF_BUFSZ) (Addr fmt) (format_text CHAR_FMT) -> term_write [ch] s = Ret (tt, s') ->
  exists m', vtprintf fuel buf fmt [ch] s m = Ret (1, s', m') /\ forall x, ~ (buf <= x < buf + TPRINTF_BUFSZ) -> m' x = m x.
Proof.
  intros Hch Hbuf Hf Hrd Hw.
  destruct (vsnprintf_run fuel ltac:(lia) m buf TPRINTF_BUFSZ fmt CHAR_FMT [ch] [ch]) as (m' & E & Hm & Hs); try (unfold TPRINTF_BUFSZ; cbn; lia); try done.
  - split; [|by repeat constructor]. repeat constructor; try done; apply percent_c_wf.
  - apply (renders_dir fuel _ [] percent_c [] [] [ch] (mk_layout false 0 None) [ch] [] [ch]); [done|done| |constructor].
    match goal with |- conversion _ ?f _ ?lay _ _ _ => pose proof (conv_char fuel f percent_c lay ch [] eq_refl eq_refl) as Hp end.
    rewrite (Z.mod_small ch 256), (proj2 (Z.eqb_neq ch 0)) in Hp by lia. exact Hp.
  - specialize (Hs ltac:(done)). change (take (Z.to_nat (TPRINTF_BUFSZ - 1)) [ch]) with [ch] in Hs. exists m'. split; [|exact Hm].
    unfold vtprintf. rewrite E. change (Z.of_nat (length [ch]) <? 0) with false. unfold term_puts.
    rewrite (proj2 (Z.eqb_neq buf 0)) by lia. rewrite (term_puts_write [ch]) by (done || cbn; lia). by rewrite Hw.
Qed.

(** ** Concrete instances *)

Module Print_instances.

Import String_instances.

(** The format [x=%5d|%.3s] at 1000, the string [hey] at 2000, the cursor format at
    3000; the rest of the memory is zero. *)
Definition percent_5d : dir := mk_dir [] (WNum [53]) None LEN_NONE 100.
Definition percent_3s : dir := mk_dir [] WNone (Some (WNum [51])) LEN_NONE 115.
Definition example : format := ([([120; 61], percent_5d); ([124], percent_3s)], []).

Definition mem : bmem :=
  fun a => if (1000 <=? a) && (a <? 1020) then mem_of 1000 (format_text example) a
           else if (2000 <=? a) && (a <? 2020) then mem_of 2000 [104; 101; 121] a
           else if (3000 <=? a) && (a <? 3020) then mem_of 3000 (format_text ANSIF_CUP) a
           else 0.

Lemma mem_reads a l buf bufsz :
  forallb (fun b => (0 <? b) && (b <? 256)) l = true -> cstr_b mem a l = true -> 0 < a -> 0 < buf ->
  a + Z.of_nat (length l) < buf -> buf + bufsz < 2 ^ 32 -> 0 <= bufsz ->
  reads (file_init_string_io mem buf bufsz) (Addr a) l.
Proof.
  intros Hb Hc Ha Hbuf Hend Hsz H0. split.
  - apply Forall_forall. intros b Hin. apply forallb_forall with (x := b) in Hb; [|done].
    apply andb_true_iff in Hb as [H1 H2]. lia.
  - unfold file_init_string_io, setvbuf. rewrite (proj2 (Z.eqb_neq buf 0)) by lia. cbn.
    rewrite u32_small by lia. split_and!; [done| |lia]. by apply cstr_b_ok.
Qed.

Lemma example_wf : wf_format example.
Proof.
  split; [|constructor].
  repeat constructor; cbn; try done; try (unfold is_digit; lia); unfold plain, LENMOD_MAP;
    try lia; repeat constructor; lia.
Qed.

Lemma digits_42 : digits_of 10 false 42 [52; 50].
Proof. exists [4; 2]. split_and!; [reflexivity| |reflexivity|discriminate]. repeat constructor; lia. Qed.


Lemma parse_spec_roundtrip_witness :
  parse_spec 200 mem 1002 = Some (1005, dir_spec 1002 percent_5d).
Proof.
  apply (parse_spec_roundtrip 200 mem percent_5d 1002 [124; 37; 46; 51; 115]).
  - destruct example_wf as [H _]. apply list.Forall_cons_1 in H as [[_ H] _]. exact H.
  - apply cstr_b_ok. reflexivity.
  - cbn. lia.
  - cbn. lia.
Defined.

Lemma inttodigits_denotes_witness :
  exists l, local_digits 255 16 lowerhex = Some l /\ numeral 16 lowerhex 255 l.
Proof.
  destruct (inttodigits_denotes 255 16 lowerhex) as (l & H1 & _ & H2).
  - lia.
  - lia.
  - exists l. split; [exact H1|exact H2].
Defined.

(** The percent sign at 1010, then a null, then what follows it in memory. *)
Definition percent_mem : bmem := mem_of 1010 [37; 0; 88; 0].

Lemma trailing_percent_overreads_witness :
  format_loop 200 100 1010 [] (file_init_string_io percent_mem 5000 16)
  = format_loop 200 99 1012 [] (out [37] (file_init_string_io percent_mem 5000 16)).
Proof.
  apply (trailing_percent_overreads 200 99 (file_init_string_io percent_mem 5000 16) 1010 []).
  - split; [repeat constructor; lia|]. split_and!; [lia|by apply cstr_b_ok|cbn; lia].
  - lia.
  - split; cbn; lia.
Defined.

Lemma tprintf_positions_cursor_witness :
  exists n s' m', vtprintf 500 5000 3000 [12; 34] Term_instances.screen mem = Ret (n, s', m')
    /\ row (tm s') = 11 /\ col (tm s') = 33.
Proof.
  destruct (tprintf_positions_cursor 500 mem 5000 3000 Term_instances.screen 12 34)
    as (n & s' & m' & E & Hr & Hc & _).
  - lia.
  - lia.
  - lia.
  - lia.
  - apply mem_reads; try (unfold TPRINTF_BUFSZ; cbn; lia); reflexivity.
  - reflexivity.
  - reflexivity.
  - exists n, s', m'. split; [exact E|]. split; [exact Hr|exact Hc].
Defined.

End Print_instances.
