(* ===== verification/Console.v ===== *)
(** * Kernel messages

    Models [src/src/kernel/lib/printk.c], the serial port
    ([src/src/kernel/hardware/serial.c]), the keyboard lights
    ([src/src/kernel/hardware/keyboard.c]) and the layout of the screen
    ([src/src/lib/syslib/screenpos.h]).

    What the ports deliver is a parameter, the value of the [n]-th read; the bytes
    written are recorded with their ports. *)

From S2P Require Import Prelude CString Term Stdio StdioFacts Tprintf.

(** ** Ports *)

Record wire : Type := mk_wire { in_reads : nat; written : list (Z * Z) }.

Section Lines.

Context (line : nat -> Z).

Definition inb : M wire Z := fun s => Ret (u8 (line (in_reads s)), mk_wire (S (in_reads s)) (written s)).
Definition outb (port v : Z) : M wire unit := modify (fun s => mk_wire (in_reads s) (written s ++ [(port, u8 v)])).

Lemma inb_ok {B} (k : Z -> M wire B) s : bind inb k s = k (u8 (line (in_reads s))) (mk_wire (S (in_reads s)) (written s)).
Proof. reflexivity. Qed.

(** ** serial.c *)

Definition POFF_LINECTL : Z := 3.
Definition DBITS_8 : Z := 3.
Definition LINESTAT_THRE : Z := Z.shiftl 1 5.
Definition PORT_COM1 : Z := 0x3f8.

Definition serial_set_data_bits (port bits : Z) : M wire unit := outb (port + POFF_LINECTL) bits.

Fixpoint serial_wait_for_transmit_empty (fuel : nat) : M wire unit :=
  match fuel with
  | O => out_of_fuel
  | S f => linestat <-- inb ;; if truth (Z.land linestat LINESTAT_THRE) then ret tt else serial_wait_for_transmit_empty f
  end.

Definition serial_putc (fuel : nat) (port ch : Z) : M wire Z :=
  serial_wait_for_transmit_empty fuel ;;; outb port ch ;;; ret ch.

(** [for (; *str; str++) serial_putc(port, *str);] *)
Fixpoint serial_puts_loop (fuel : nat) (m : bmem) (port str : Z) (n : nat) : M wire unit :=
  match n with
  | O => out_of_fuel
  | S n' => if m str =? 0 then ret tt else serial_putc fuel port (s8 (m str)) ;;; serial_puts_loop fuel m port (str + 1) n'
  end.

Definition serial_puts (fuel : nat) (m : bmem) (port str : Z) : M wire unit :=
  if str =? 0 then ret tt else serial_set_data_bits port DBITS_8 ;;; serial_puts_loop fuel m port str fuel.

(** The transmitter is free again within [b] readings. *)
Definition drains (b : nat) : Prop := forall n, exists k, (k < b)%nat /\ truth (Z.land (u8 (line (n + k)%nat)) LINESTAT_THRE) = true.

Lemma wait_empty_run k : forall fuel s, (k < fuel)%nat -> truth (Z.land (u8 (line (in_reads s + k)%nat)) LINESTAT_THRE) = true ->
  exists n, serial_wait_for_transmit_empty fuel s = Ret (tt, mk_wire n (written s)).
Proof.
  induction k as [|k IH]; intros [|fuel] s Hf Hk; try lia; cbn [serial_wait_for_transmit_empty]; rewrite inb_ok.
  - rewrite Nat.add_0_r in Hk. rewrite Hk. by eexists.
  - destruct (truth (Z.land (u8 (line (in_reads s))) LINESTAT_THRE)); [by eexists|]. apply (IH fuel (mk_wire _ _)); [lia|]. cbn [in_reads]. by rewrite Nat.add_succ_comm.
Qed.

Lemma serial_putc_run b fuel port ch s : drains b -> (b <= fuel)%nat ->
  exists n, serial_putc fuel port ch s = Ret (ch, mk_wire n (written s ++ [(port, u8 ch)])).
Proof.
  intros Hb Hf. destruct (Hb (in_reads s)) as (k & Hk & Ht). destruct (wait_empty_run k fuel s ltac:(lia) Ht) as (n & E).
  exists n. unfold serial_putc. by rewrite (bind_step _ _ _ _ _ E).
Qed.

Lemma u8_s8_byte x : 0 <= x < 256 -> u8 (s8 x) = x.
Proof. intros Hx. unfold u8, s8. rewrite Zminus_mod_idemp_l, Z.add_simpl_r. by apply Z.mod_small. Qed.

Lemma serial_loop_run b fuel port m l : drains b -> (b <= fuel)%nat -> forall n str s,
  is_cstr m str l -> (length l < n)%nat ->
  exists k, serial_puts_loop fuel m port str n s = Ret (tt, mk_wire k (written s ++ ((fun c => (port, c)) <$> l))).
Proof.
  intros Hb Hf. induction l as [|c l IH]; intros [|n] str s Hc Hn; cbn [length serial_puts_loop] in *; try lia.
  - rewrite (proj1 (is_cstr_nil _ _) Hc). exists (in_reads s). cbn. rewrite app_nil_r. by destruct s.
  - apply is_cstr_cons in Hc as [[-> Hr] Hc]. rewrite (proj2 (Z.eqb_neq c 0)) by lia.
    destruct (serial_putc_run b fuel port (s8 c) s Hb Hf) as (k & E). rewrite (bind_step _ _ _ _ _ E), u8_s8_byte by lia.
    destruct (IH n (str + 1) (mk_wire k (written s ++ [(port, c)])) Hc ltac:(lia)) as (k' & E'). exists k'. rewrite E'. cbn [written fmap list_fmap].
    by rewrite <- app_assoc.
Qed.

(** The bytes on the line: the data bits are set, then the string follows. *)
Definition line_bytes (port : Z) (l : list Z) : list (Z * Z) := (port + POFF_LINECTL, DBITS_8) :: ((fun c => (port, c)) <$> l).

Lemma serial_puts_run b fuel port m str l s : drains b -> (b <= fuel)%nat -> 0 < str -> is_cstr m str l -> (length l < fuel)%nat ->
  exists k, serial_puts fuel m port str s = Ret (tt, mk_wire k (written s ++ line_bytes port l)).
Proof.
  intros Hb Hf Hs Hc Hl. unfold serial_puts. rewrite (proj2 (Z.eqb_neq str 0)) by lia. unfold serial_set_data_bits, outb. rewrite bind_modify.
  destruct (serial_loop_run b fuel port m l Hb Hf fuel str (mk_wire (in_reads s) (written s ++ [(port + POFF_LINECTL, u8 DBITS_8)])) Hc Hl) as (k & E).
  exists k. rewrite E. cbn [written]. by rewrite <- app_assoc.
Qed.

(** ** printk.c *)

Definition PRINTK_BUF_SZ : Z := 256.

Inductive log_level : Type := LOG_ERROR | LOG_LOG | LOG_DUMP | LOG_WARN | LOG_INFO | LOG_DEBUG | LOG_SKIP.
#[global] Instance log_level_eq : EqDecision log_level.
Proof. solve_decision. Defined.

(** [printkterm] with the screen, the serial port and the memory. *)
Record log : Type := mk_log { printkterm : tst; serial : wire; memory : bmem }.

Definition set_overflow_mode (v : termwin_overflow) (t : term) : term :=
  mk_term (buf t) (win t) v (row t) (col t) (color t) (show_cursor t) (cursor_visible t) (cursor_color t) (parser t).

Definition vkprintf (fuel : nat) (buf : Z) (lvl : log_level) (fmt : Z) (args : va_list) : M log Z :=
  when (bool_decide (lvl = LOG_DUMP))
    (modify (fun s => mk_log (mk_tst (set_overflow_mode TERM_OF_GROW (tm (printkterm s))) (scr (printkterm s))) (serial s) (memory s))) ;;;
  m <-- gets memory ;;
  match vsnprintf fuel m buf PRINTK_BUF_SZ fmt args with
  | Ret (r, m') =>
      modify (fun s => mk_log (printkterm s) (serial s) m') ;;;
      if r <? 0 then ret r
      else
        when (negb (bool_decide (lvl = LOG_LOG)))
          (zoom printkterm (fun t s => mk_log t (serial s) (memory s)) (term_puts fuel m' buf)) ;;;
        zoom serial (fun w s => mk_log (printkterm s) w (memory s)) (serial_puts fuel m' PORT_COM1 buf) ;;;
        ret r
  | Halt => halt
  | Wait => wait
  | Stuck => stuck
  | Fuel => out_of_fuel
  end.

Definition kprintf := vkprintf.

(** The terminal a message of level [lvl] goes to. *)
Definition message_term (lvl : log_level) (t : tst) : tst :=
  if bool_decide (lvl = LOG_DUMP) then mk_tst (set_overflow_mode TERM_OF_GROW (tm t)) (scr t) else t.

Lemma vkprintf_run fuel b addr lvl fmt fm args txt (s : log) :
  drains b -> (b <= fuel)%nat -> (300 < fuel)%nat -> 0 < addr -> addr + Z.of_nat (length txt) + PRINTK_BUF_SZ < 2 ^ 31 ->
  wf_format fm -> reads (file_init_string_io (memory s) addr PRINTK_BUF_SZ) (Addr fmt) (format_text fm) ->
  (2 * length (format_text fm) + 2 < fuel)%nat -> Z.of_nat (length (format_text fm)) < 2 ^ 31 ->
  renders fuel (file_init_string_io (memory s) addr PRINTK_BUF_SZ) (fst fm) (snd fm) args txt ->
  wf_term 256 (tm (printkterm s)) ->
  let shown := take 255 txt in
  exists s' n, vkprintf fuel addr lvl fmt args s = Ret (Z.of_nat (length txt), s')
    /\ serial s' = mk_wire n (written (serial s) ++ line_bytes PORT_COM1 shown)
    /\ (if bool_decide (lvl = LOG_LOG) then printkterm s' = printkterm s
        else term_write shown (message_term lvl (printkterm s)) = Ret (tt, printkterm s'))
    /\ forall x, ~ (addr <= x < addr + PRINTK_BUF_SZ) -> memory s' x = memory s x.
Proof.
  unfold PRINTK_BUF_SZ. intros Hb Hbf Hf Ha Hlen Hwf Hrd Hf2 Hfl Hren Hterm. set (shown := take 255 txt).
  destruct (vsnprintf_run fuel ltac:(lia) (memory s) addr 256 fmt fm args txt) as (m' & E & Hm & Hs); try done; try lia.
  specialize (Hs ltac:(lia)). change (Z.to_nat (256 - 1)) with 255%nat in Hs. fold shown in Hs.
  assert (Hl : (length shown <= 255)%nat) by (unfold shown; rewrite length_take; lia).
  set (t1 := message_term lvl (printkterm s)).
  destruct (term_write_run shown t1) as (t2 & Ew & _).
  { destruct Hterm as (H1 & H2 & H3 & H4 & H5 & H6). unfold t1, message_term. case_bool_decide; (split; [exact H1|split; [exact H2|split; [exact H3|split; [exact H4|split; [exact H5|cbn; lia]]]]]). }
  destruct (serial_puts_run b fuel PORT_COM1 m' addr shown (serial s) Hb Hbf Ha Hs ltac:(lia)) as (n & Es).
  assert (E1 : forall B (g : M log B), (when (bool_decide (lvl = LOG_DUMP)) (modify (fun s => mk_log (mk_tst (set_overflow_mode TERM_OF_GROW (tm (printkterm s)))
      (scr (printkterm s))) (serial s) (memory s))) ;;; g) s = g (mk_log t1 (serial s) (memory s))).
  { intros B g. unfold t1, message_term. case_bool_decide; cbn [when]; [by rewrite bind_modify|]. rewrite bind_ret. by destruct s. }
  exists (mk_log (if bool_decide (lvl = LOG_LOG) then printkterm s else t2) (mk_wire n (written (serial s) ++ line_bytes PORT_COM1 shown)) m'), n.
  split_and!; [|done| |done].
  - unfold vkprintf. rewrite E1, bind_gets. cbn [memory]. unfold PRINTK_BUF_SZ. rewrite E, bind_modify, (proj2 (Z.ltb_ge _ 0)) by lia. cbn [printkterm serial].
    assert (Et : term_puts fuel m' addr t1 = Ret (tt, t2)).
    { unfold term_puts. rewrite (proj2 (Z.eqb_neq addr 0)) by lia. by rewrite (term_puts_write shown) by (done || lia). }
    destruct (bool_decide (lvl = LOG_LOG)) eqn:El; cbn [negb when].
    + rewrite bind_ret. unfold bind, zoom. cbn [serial]. rewrite Es. unfold ret. cbn [printkterm memory]. do 4 f_equal. unfold t1, message_term.
      apply bool_decide_eq_true in El as ->. done.
    + unfold bind, zoom. cbn [printkterm serial memory]. rewrite Et. cbn [serial]. by rewrite Es.
  - destruct (bool_decide (lvl = LOG_LOG)); [done|exact Ew].
Qed.

End Lines.

(** ** Keyboard lights *)

Definition PORT_PS2_DATA : Z := 0x60.
Definition PORT_PS2_STAT : Z := 0x64.
Definition PS2_STAT_INBUF_FULL : Z := Z.shiftl 1 1.
Definition KB_LED_ALL : Z := Z.lor (Z.lor (Z.shiftl 1 0) (Z.shiftl 1 1)) (Z.shiftl 1 2).
Definition KB_SET_LEDS : Z := 0xed.
Definition KB_ACK : Z := 0xfa.

Section Leds.

(** The [n]-th byte read, from the status port and from the data port. *)
Context (stat data : nat -> Z).

Fixpoint kb_wait_for_inbuf_empty (fuel : nat) : M wire unit :=
  match fuel with
  | O => out_of_fuel
  | S f => x <-- inb stat ;; if truth (Z.land x PS2_STAT_INBUF_FULL) then kb_wait_for_inbuf_empty f else ret tt
  end.

Fixpoint kb_wait_for_ack (fuel : nat) : M wire unit :=
  match fuel with
  | O => out_of_fuel
  | S f => x <-- inb data ;; if negb (x =? KB_ACK) then kb_wait_for_ack f else ret tt
  end.

Definition kb_set_leds (fuel : nat) (ledbits : Z) : M wire unit :=
  let ledbits := Z.land (u8 ledbits) KB_LED_ALL in
  kb_wait_for_inbuf_empty fuel ;;;
  outb PORT_PS2_DATA KB_SET_LEDS ;;;
  kb_wait_for_ack fuel ;;;
  outb PORT_PS2_DATA ledbits.

Lemma inbuf_empty_run k : forall fuel s, (k < fuel)%nat ->
  (forall i, (i < k)%nat -> truth (Z.land (u8 (stat (in_reads s + i)%nat)) PS2_STAT_INBUF_FULL) = true) ->
  truth (Z.land (u8 (stat (in_reads s + k)%nat)) PS2_STAT_INBUF_FULL) = false ->
  kb_wait_for_inbuf_empty fuel s = Ret (tt, mk_wire (S (in_reads s + k)) (written s)).
Proof.
  induction k as [|k IH]; intros [|fuel] s Hf Hb Hk; try lia; cbn [kb_wait_for_inbuf_empty]; rewrite inb_ok.
  - rewrite Nat.add_0_r in *. by rewrite Hk.
  - specialize (Hb 0%nat ltac:(lia)) as H0. rewrite Nat.add_0_r in H0. rewrite H0. rewrite (IH fuel (mk_wire _ _)); cbn [in_reads written].
    + by rewrite Nat.add_succ_comm.
    + lia.
    + intros i Hi. rewrite Nat.add_succ_comm. apply Hb. lia.
    + by rewrite Nat.add_succ_comm.
Qed.

Lemma ack_run k : forall fuel s, (k < fuel)%nat ->
  (forall i, (i < k)%nat -> u8 (data (in_reads s + i)%nat) <> KB_ACK) -> u8 (data (in_reads s + k)%nat) = KB_ACK ->
  kb_wait_for_ack fuel s = Ret (tt, mk_wire (S (in_reads s + k)) (written s)).
Proof.
  induction k as [|k IH]; intros [|fuel] s Hf Hb Hk; try lia; cbn [kb_wait_for_ack]; rewrite inb_ok.
  - rewrite Nat.add_0_r in *. by rewrite Hk.
  - specialize (Hb 0%nat ltac:(lia)) as H0. rewrite Nat.add_0_r in H0. rewrite (proj2 (Z.eqb_neq _ _)) by done. cbn [negb].
    rewrite (IH fuel (mk_wire _ _)); cbn [in_reads written].
    + by rewrite Nat.add_succ_comm.
    + lia.
    + intros i Hi. rewrite Nat.add_succ_comm. apply Hb. lia.
    + by rewrite Nat.add_succ_comm.
Qed.

(** The lights: the command goes out when the controller can take it, the bits of
    the lights when the keyboard has acknowledged it, and nothing else does. *)
Lemma kb_set_leds_sends fuel s leds k1 k2 : (k1 < fuel)%nat -> (k2 < fuel)%nat ->
  (forall i, (i < k1)%nat -> truth (Z.land (u8 (stat (in_reads s + i)%nat)) PS2_STAT_INBUF_FULL) = true) ->
  truth (Z.land (u8 (stat (in_reads s + k1)%nat)) PS2_STAT_INBUF_FULL) = false ->
  (forall i, (i < k2)%nat -> u8 (data (S (in_reads s + k1) + i)%nat) <> KB_ACK) -> u8 (data (S (in_reads s + k1) + k2)%nat) = KB_ACK ->
  kb_set_leds fuel leds s
  = Ret (tt, mk_wire (S (S (in_reads s + k1) + k2)) (written s ++ [(PORT_PS2_DATA, KB_SET_LEDS); (PORT_PS2_DATA, Z.land (u8 leds) 7)])).
Proof.
  intros Hf1 Hf2 H1 H2 H3 H4. unfold kb_set_leds. rewrite (bind_step _ _ _ _ _ (inbuf_empty_run k1 fuel s Hf1 H1 H2)).
  unfold outb at 1. rewrite bind_modify. rewrite (bind_step _ _ _ _ _ (ack_run k2 fuel (mk_wire _ _) Hf2 H3 H4)).
  unfold outb, modify. cbn [in_reads written]. do 3 f_equal. rewrite <- app_assoc. cbn [app]. do 3 f_equal.
  assert (Hl : 0 <= Z.land (u8 leds) KB_LED_ALL < 8).
  { change KB_LED_ALL with (Z.ones 3). rewrite Z.land_ones by lia. apply Z.mod_pos_bound. lia. }
  f_equal. f_equal. change 7 with KB_LED_ALL. unfold u8 at 1. apply Z.mod_small. lia.
Qed.

End Leds.

(** ** screenpos.h *)

Definition CLOCK_TERM_INIT : term := TERM_INIT_VGA_WIN 0 1 0 30.
Definition LOCKS_TERM_INIT : term := TERM_INIT_VGA_WIN 1 2 0 30.
Definition PROC3_TERM_INIT : term := TERM_INIT_VGA_WIN 4 2 0 15.
Definition PROC4_TERM_INIT : term := TERM_INIT_VGA_WIN 4 2 15 15.
Definition SUM_TERM_INIT : term := TERM_INIT_VGA_WIN 7 1 0 40.
Definition PROCTAB_TERM_INIT : term := TERM_INIT_VGA_WIN 9 13 0 40.
Definition SHELL_TERM_INIT : term := TERM_INIT_VGA_WIN 0 7 30 50.
Definition PLANE_TERM_INIT : term := TERM_INIT_VGA_WIN 7 4 40 40.
Definition MBOXTAB_TERM_INIT : term := TERM_INIT_VGA_WIN 12 9 40 40.
Definition PHL_TERM_INIT : term := TERM_INIT_VGA_WIN 16 3 40 40.
Definition BAR_TERM_INIT : term := TERM_INIT_VGA_WIN 19 3 40 40.
Definition PRINTK_TERM_INIT : term := TERM_INIT_VGA_WIN 22 3 0 80.

Definition displays : list term :=
  [CLOCK_TERM_INIT; LOCKS_TERM_INIT; PROC3_TERM_INIT; PROC4_TERM_INIT; SUM_TERM_INIT; PROCTAB_TERM_INIT; SHELL_TERM_INIT; PLANE_TERM_INIT;
   MBOXTAB_TERM_INIT; PHL_TERM_INIT; BAR_TERM_INIT; PRINTK_TERM_INIT].

(** The mailbox table, the 8th, lies under the philosophers and the barrier test. *)
Definition clash (i j : nat) : bool := ((i =? 8) && ((j =? 9) || (j =? 10)))%nat || ((j =? 8) && ((i =? 9) || (i =? 10)))%nat.

Definition apart (a b : termwin) : bool :=
  (start_row a + height a <=? start_row b) || (start_row b + height b <=? start_row a)
  || (start_col a + Term.width a <=? start_col b) || (start_col b + Term.width b <=? start_col a).

(** Every window is on the screen, and no two overlap but those three. *)
Lemma displays_apart i j t u : displays !! i = Some t -> displays !! j = Some u -> i <> j -> clash i j = false ->
  apart (win t) (win u) = true.
Proof.
  intros Hi Hj Hne Hc. pose proof (lookup_lt_Some _ _ _ Hi) as Hi'. pose proof (lookup_lt_Some _ _ _ Hj) as Hj'.
  assert (H : forallb (fun i => forallb (fun j => (i =? j)%nat || clash i j || match displays !! i, displays !! j with
    | Some t, Some u => apart (win t) (win u) | _, _ => false end) (seq 0 12)) (seq 0 12) = true) by reflexivity.
  rewrite forallb_forall in H. specialize (H i ltac:(apply in_seq; cbn in Hi'; lia)).
  rewrite forallb_forall in H. specialize (H j ltac:(apply in_seq; cbn in Hj'; lia)).
  rewrite Hi, Hj, Hc, (proj2 (Nat.eqb_neq i j)) in H by done. exact H.
Qed.

Lemma displays_on_screen i t : displays !! i = Some t -> buf t = mk_termbuf VGA_ROWS VGA_COLS /\ wf_win (buf t) (win t).
Proof.
  intros Hi. assert (H : Forall (fun t => buf t = mk_termbuf VGA_ROWS VGA_COLS /\ wf_win (buf t) (win t)) displays).
  { unfold displays, wf_win. do 12 (constructor; [split; [reflexivity|cbv; repeat split; discriminate]|]). constructor. }
  rewrite list.Forall_lookup in H. by apply (H i).
Qed.

(** Windows that are apart share no cell. *)
Lemma apart_cells b v w a : 0 < cols b -> wf_win b v -> wf_win b w -> apart v w = true -> in_win b v a -> ~ in_win b w a.
Proof.
  intros Hb (V1 & V2 & V3 & V4 & V5 & V6 & _) (W1 & W2 & W3 & W4 & W5 & W6 & _) Ha (r & c & Hr & Hc & ->) (r' & c' & Hr' & Hc' & E).
  unfold cell_of in E. assert (start_row v + r = start_row w + r') by nia. unfold apart in Ha. rewrite !orb_true_iff, !Z.leb_le in Ha. nia.
Qed.

(** No display of the layout starts in grow mode. *)
Lemma displays_mode i t : displays !! i = Some t -> overflow_mode t <> TERM_OF_GROW.
Proof.
  intros Hi. assert (H : Forall (fun t => overflow_mode t <> TERM_OF_GROW) displays) by (repeat (constructor; [discriminate|]); constructor).
  rewrite list.Forall_lookup in H. by apply (H i).
Qed.

(** [C37] The displays keep to themselves, as long as no dump is printed: whatever
    bytes one part of the system writes to its terminal, with escape sequences or
    not, while the terminal has the window and the overflow mode of the layout,
    it keeps both, and the window of every other terminal of the layout shows
    what it showed, unless the two are the mailbox table and one of the two test
    displays drawn over it.  Only a kernel message of level [LOG_DUMP] changes a
    mode: it makes the window of the kernel log grow over others
    ([dump_grows]). *)
Theorem displays_do_not_clash i j t u l s
  (Hi : displays !! i = Some t) (Hj : displays !! j = Some u) (Hne : i <> j) (Hclash : clash i j = false)
  (Hwin : win (tm s) = win t) (Hbuf : buf (tm s) = buf t) (Hmode : overflow_mode (tm s) = overflow_mode t)
  (Hwf : wf_term (Z.of_nat (length l)) (tm s)) :
  exists s', term_write l s = Ret (tt, s') /\ win (tm s') = win t /\ buf (tm s') = buf t /\ overflow_mode (tm s') = overflow_mode t
    /\ forall r c, 0 <= r < height (win u) -> 0 <= c < Term.width (win u) ->
         scr s' (cell_of (buf u) (win u) r c) = scr s (cell_of (buf u) (win u) r c).
Proof.
  destruct (term_write_run l s Hwf) as (s' & E & _ & B & O & W & _ & S).
  assert (Hg : overflow_mode (tm s) <> TERM_OF_GROW) by (rewrite Hmode; by eapply displays_mode). specialize (W Hg).
  destruct (displays_on_screen i t Hi) as [Bt Wt], (displays_on_screen j u Hj) as [Bu Wu].
  exists s'. split_and!; [exact E|by rewrite W|by rewrite B|by rewrite O|]. intros r c Hr Hc. apply S. rewrite B, W, Hbuf, Hwin. intros Hin.
  refine (apart_cells (buf t) (win t) (win u) _ _ Wt _ (displays_apart i j t u Hi Hj Hne Hclash) Hin _).
  - by rewrite Bt.
  - rewrite Bt, <- Bu. exact Wu.
  - exists r, c. by rewrite Bt, <- Bu.
Qed.

(** After a dump the window of the kernel log grows: with six lines it reaches up
    into the display of the process table and has overwritten its last row. *)
Lemma dump_grows :
  exists s', term_write (concat (replicate 6 [120; 10])) (message_term LOG_DUMP (mk_tst PRINTK_TERM_INIT (fun _ => 7))) = Ret (tt, s')
    /\ start_row (win (tm s')) < start_row (win PROCTAB_TERM_INIT) + height (win PROCTAB_TERM_INIT)
    /\ scr s' (cell_of (buf PROCTAB_TERM_INIT) (win PROCTAB_TERM_INIT) 12 0) <> 7.
Proof. eexists. split; [vm_compute; reflexivity|]. vm_compute. split; [reflexivity|discriminate]. Qed.

Module Console_instances.

(** The shell prints next to the clock. *)
Lemma displays_do_not_clash_witness :
  exists s', term_write [27; 91; 50; 74; 104; 105] (mk_tst SHELL_TERM_INIT (fun a => a)) = Ret (tt, s') /\ scr s' 5 = 5.
Proof.
  destruct (displays_do_not_clash 6 0 SHELL_TERM_INIT CLOCK_TERM_INIT [27; 91; 50; 74; 104; 105] (mk_tst SHELL_TERM_INIT (fun a => a))) as (s' & E & _ & _ & _ & K).
  - reflexivity.
  - reflexivity.
  - discriminate.
  - reflexivity.
  - reflexivity.
  - reflexivity.
  - reflexivity.
  - cbv. repeat split; discriminate.
  - exists s'. split; [exact E|]. apply (K 0 5); cbn; lia.
Defined.

End Console_instances.
