(* ===== verification/Plane.v ===== *)
(** * The plane

    Models [src/src/process/process1.c]: a plane that flies over its window of the
    screen and fires a bullet when a message arrives, drawn partly through a
    terminal and partly by writes to the screen memory.

    The mailbox system calls are the class [Commands]; the delay between two turns
    ([Userlib] has [ms_delay]) is left out. *)

From S2P Require Import Prelude CString Term Stdio StdioFacts Tprintf Console.

(** The system calls: [mbox_stat] with the number of messages it stores,
    [mbox_recv] with the size of the message. *)
Class Commands (K : Type) : Type := {
  sys_mbox_open : Z -> M K Z;
  sys_mbox_stat : Z -> M K Z;
  sys_mbox_recv : Z -> M K Z
}.

Definition PLANE_ROWS : Z := 4.
Definition PLANE_COLUMNS : Z := 18.

Definition plane_art : list (list Z) :=
  [[32; 32; 32; 32; 32; 95; 95; 95; 32; 32; 32; 32; 32; 32; 32; 95; 32; 32];
   [32; 124; 32; 95; 95; 92; 95; 92; 95; 111; 95; 95; 95; 95; 47; 95; 124; 32];
   [32; 60; 91; 95; 95; 95; 92; 95; 92; 95; 45; 45; 45; 45; 45; 60; 32; 32];
   [32; 124; 32; 32; 111; 39; 32; 32; 32; 32; 32; 32; 32; 32; 32; 32; 32; 32]].

Definition art (i j : Z) : Z := default 0 (plane_art !! Z.to_nat i ≫= fun l => l !! Z.to_nat j).

Definition COMMAND_MBOX : Z := 1.

(** The program: its terminal with the screen, its memory, and the kernel. *)
Record plane (K : Type) : Type := mk_plane { pl_term : tst; pl_mem : bmem; pl_kernel : K }.
Arguments mk_plane {K}.
Arguments pl_term {K}.
Arguments pl_mem {K}.
Arguments pl_kernel {K}.

Record bullet_state : Type := mk_bullet { q : Z; fired : bool; bullet_x : Z; bullet_y : Z }.

Section Program.

Context {K : Type} `{Commands K}.

(** The addresses of the local buffer of [tprintf] and of its two formats. *)
Context (fuel : nat) (buf cup chr : Z).

Definition print (fmt : Z) (args : va_list) : M (plane K) unit := fun s =>
  match tprintf fuel buf fmt args (pl_term s) (pl_mem s) with
  | Ret (_, t, m) => Ret (tt, mk_plane t m (pl_kernel s))
  | Halt => Halt
  | Wait => Wait
  | Stuck => Stuck
  | Fuel => Fuel
  end.

Definition draw_cell (x y i j : Z) : M (plane K) unit :=
  w <-- gets (fun s => win (tm (pl_term s))) ;;
  let row := s32 (y + i) in
  let col := s32 (x + j) in
  when ((0 <=? row) && (row <? height w) && (0 <=? col) && (col <? Term.width w))
    (print cup [s32 (row + 1); s32 (col + 1)] ;;;
     print chr [art i j]).

Definition draw_plane (x y : Z) : M (plane K) unit :=
  for_up (Z.to_nat PLANE_ROWS) 0 1 (fun i => for_up (Z.to_nat PLANE_COLUMNS) 0 1 (fun j => draw_cell x y i j)).

(** ** Bullets *)

Definition on_screen {A} (m : M tst A) : M (plane K) A := zoom pl_term (fun t s => mk_plane t (pl_mem s) (pl_kernel s)) m.
Definition syscall {A} (m : M K A) : M (plane K) A := zoom pl_kernel (fun k s => mk_plane (pl_term s) (pl_mem s) k) m.

Definition peek_screen (x y : Z) : M (plane K) Z :=
  gets (fun s => Z.land (scr (pl_term s) (y * VGA_COLS + x)) 0xff).
Definition poke_screen (x y ch : Z) : M (plane K) unit := on_screen (poke (y * VGA_COLS + x) ch).

Definition fgbg (fg bg : Z) : Z := u8 (Z.shiftl bg 4 + fg).
Definition COLOR_BLACK : Z := 0.
Definition COLOR_LIGHT_GREY : Z := 7.
Definition COLOR_BRIGHT_RED : Z := 12.

Definition draw_bullet (loc_x loc_y : Z) : M (plane K) unit :=
  poke_screen loc_x loc_y (colorchar (fgbg COLOR_BRIGHT_RED COLOR_BLACK) 60) ;;;
  poke_screen (loc_x + 1) loc_y (colorchar (fgbg COLOR_BRIGHT_RED COLOR_BLACK) 61).

Definition erase_bullet (loc_x loc_y : Z) : M (plane K) unit :=
  poke_screen loc_x loc_y (colorchar (fgbg COLOR_LIGHT_GREY COLOR_BLACK) 32) ;;;
  poke_screen (loc_x + 1) loc_y (colorchar (fgbg COLOR_LIGHT_GREY COLOR_BLACK) 32).

(** The first half of [bullet_logic]: a message fires a bullet; [None] when the
    program exits. *)
Definition fire (b : bullet_state) (plane_x plane_y : Z) : M (plane K) (option bullet_state) :=
  if (0 <=? q b) && negb (fired b) then
    msg_count <-- syscall (sys_mbox_stat (q b)) ;;
    if 0 <? msg_count then
      size <-- syscall (sys_mbox_recv (q b)) ;;
      if truth size then ret None
      else
        w <-- gets (fun s => win (tm (pl_term s))) ;;
        let loc_y := start_row w + plane_y in
        let loc_x := start_col w + plane_x in
        let x := loc_x - 2 in
        ret (Some (mk_bullet (q b) true (if x <? 0 then VGA_COLS - 1 else x) (loc_y + 2)))
    else ret (Some b)
  else ret (Some b).

(** Whether the bullet hits a character at [x]. *)
Definition hits (x y : Z) : M (plane K) bool :=
  if 0 <=? x then c <-- peek_screen x y ;; ret (negb (c =? 0) && negb (c =? 32)) else ret false.

(** The second half: the bullet moves on. *)
Definition fly (b : bullet_state) : M (plane K) bullet_state :=
  if fired b then
    erase_bullet (bullet_x b) (bullet_y b) ;;;
    h1 <-- hits (bullet_x b - 1) (bullet_y b) ;;
    if h1 : bool then erase_bullet (bullet_x b - 1) (bullet_y b) ;;; ret (mk_bullet (q b) false (bullet_x b) (bullet_y b))
    else
      h2 <-- hits (bullet_x b - 2) (bullet_y b) ;;
      if h2 : bool then erase_bullet (bullet_x b - 2) (bullet_y b) ;;; ret (mk_bullet (q b) false (bullet_x b) (bullet_y b))
      else
        let x := bullet_x b - 2 in
        if x <? 0 then ret (mk_bullet (q b) false x (bullet_y b))
        else draw_bullet x (bullet_y b) ;;; ret (mk_bullet (q b) true x (bullet_y b))
  else ret b.

Definition bullet_logic (b : bullet_state) (plane_x plane_y : Z) : M (plane K) (option bullet_state) :=
  r <-- fire b plane_x plane_y ;;
  match r with None => ret None | Some b' => b'' <-- fly b' ;; ret (Some b'') end.

(** ** [main] *)

Definition plane_step (plane_x : Z) (w : termwin) : Z :=
  if plane_x - 1 <? 0 - PLANE_COLUMNS then Term.width w else plane_x - 1.

(** A turn of the loop; [plane_y] is 0. *)
Definition turn (b : bullet_state) (plane_x : Z) : M (plane K) (option (bullet_state * Z)) :=
  w <-- gets (fun s => win (tm (pl_term s))) ;;
  let x := plane_step plane_x w in
  draw_plane x 0 ;;;
  r <-- bullet_logic b x 0 ;;
  ret (match r with None => None | Some b' => Some (b', x) end).

(** What [main] starts the loop with. *)
Definition start : M (plane K) (bullet_state * Z) :=
  q <-- syscall (sys_mbox_open COMMAND_MBOX) ;;
  w <-- gets (fun s => win (tm (pl_term s))) ;;
  ret (mk_bullet q false (-1) (-1), Term.width w).

End Program.

(** ** Drawing *)

(** The terminal of the plane between two calls of [tprintf]. *)
Record plain_term (t : term) : Prop := mk_plain_term {
  pt_buf : Term.buf t = mk_termbuf VGA_ROWS VGA_COLS;
  pt_win : win t = mk_termwin 7 4 40 40;
  pt_parser : _state (parser t) = AIS_READY;
  pt_visible : cursor_visible t = false;
  pt_show : show_cursor t = false;
  pt_color : color t = COLOR_GREY_ON_BLACK
}.

(** The cell in row [r] and column [c] of the window. *)
Definition cell (r c : Z) : Z := (7 + r) * 80 + 40 + c.

(** A printable character at a position in the window. *)
Lemma put_plain s ch :
  plain_term (tm s) -> 32 <= ch < 128 -> 0 <= row (tm s) < 4 -> 0 <= col (tm s) < 40 ->
  exists t, term_write [ch] s = Ret (tt, mk_tst t (fun a => if a =? cell (row (tm s)) (col (tm s)) then colorchar COLOR_GREY_ON_BLACK ch else scr s a))
    /\ plain_term t.
Proof.
  intros [Hb Hw Hp Hv Hs Hc] Hch Hr Hcol. cbn [term_write]. rewrite (s8_small ch) by lia.
  exists (set_col (col (tm s) + 1) (tm s)). split; [|by constructor].
  assert (Ep : ansi_parse_putc ch (parser (tm s)) = Ret (ch, parser (tm s))).
  { unfold ansi_parse_putc. rewrite bind_get, Hp. unfold ANSI_ESC. by rewrite (proj2 (Z.eqb_neq ch 27)) by lia. }
  assert (E : term_putc ch s = Ret (tt, mk_tst (set_col (col (tm s) + 1) (tm s))
    (fun a => if a =? cell (row (tm s)) (col (tm s)) then colorchar COLOR_GREY_ON_BLACK ch else scr s a))).
  { unfold term_putc, clear_cursor. rewrite bind_assoc, bind_gets, Hv. cbn [when]. rewrite bind_ret.
    rewrite (bind_step (zoom _ _ _) _ s ch s) by (unfold zoom; rewrite Ep; by destruct s as [[] ?]).
    unfold APS_ESCAPE, APS_INVALID, APS_UNIMPLEMENTED, APS_FINAL.
    rewrite (proj2 (Z.eqb_neq ch (Z.opp 1))), (proj2 (Z.eqb_neq ch (Z.opp 3))), (proj2 (Z.eqb_neq ch (Z.opp 4))), (proj2 (Z.eqb_neq ch (Z.opp 2))) by lia. cbn [orb].
    assert (Em : move_cursor_into_bounds s = Ret (tt, s)).
    { unfold move_cursor_into_bounds. rewrite bind_gets. destruct (overflow_mode (tm s)); [done|..];
        rewrite Hw; cbn [Term.width]; rewrite (proj2 (Z.leb_gt 40 _)) by lia; cbn [when]; rewrite bind_ret, bind_gets, Hw; cbn [height];
        by rewrite (proj2 (Z.leb_gt 4 _)) by lia. }
    rewrite (bind_step _ _ _ _ _ Em). unfold put_char. rewrite bind_assoc, bind_gets.
    rewrite (proj2 (Z.eqb_neq ch 10)), (proj2 (Z.eqb_neq ch 13)), (proj2 (Z.eqb_neq ch 8)) by lia.
    unfold setc, setcc. rewrite !bind_assoc, bind_gets.
    assert (Hin : is_in_bounds (tm s) (row (tm s)) (col (tm s)) = true) by (apply in_bounds_spec; rewrite Hw; cbn; lia).
    assert (Hcell : term_ptr (tm s) (row (tm s)) (col (tm s)) = cell (row (tm s)) (col (tm s))).
    { unfold term_ptr. rewrite Hw, Hb. cbn [start_row start_col cols]. unfold VGA_COLS, cell. rewrite s32_small, u32_small by lia. lia. }
    rewrite Hin. cbn [when]. unfold poke. rewrite bind_modify. unfold upd_term. rewrite bind_modify. cbn [tm scr]. rewrite Hcell, Hc.
    unfold write_cursor. rewrite bind_gets. cbn [tm]. change (show_cursor (set_col _ (tm s))) with (show_cursor (tm s)). rewrite Hs. cbn [when].
    rewrite s32_small by lia. reflexivity. }
  by rewrite (bind_step _ _ _ _ _ E).
Qed.

Section Drawing.

Context {K : Type} `{Commands K}.
Context (fuel : nat) (buf cup chr : Z).
Context (Hfuel : (400 < fuel)%nat) (Hbuf : 0 < buf < 2 ^ 31).

(** The formats are in memory, away from the buffer. *)
Definition has_formats (m : bmem) : Prop :=
  reads (file_init_string_io m buf TPRINTF_BUFSZ) (Addr cup) (format_text ANSIF_CUP)
  /\ reads (file_init_string_io m buf TPRINTF_BUFSZ) (Addr chr) (format_text CHAR_FMT).

Lemma reads_kept m m' a l : (forall x, ~ (buf <= x < buf + TPRINTF_BUFSZ) -> m' x = m x) ->
  reads (file_init_string_io m buf TPRINTF_BUFSZ) (Addr a) l -> reads (file_init_string_io m' buf TPRINTF_BUFSZ) (Addr a) l.
Proof.
  intros Hm [Hl (Ha & Hc & Ho)]. unfold file_init_string_io, setvbuf in *. rewrite (proj2 (Z.eqb_neq buf 0)) in * by lia. cbn in *.
  unfold TPRINTF_BUFSZ in *. rewrite u32_small in * by lia. split; [exact Hl|]. split_and!; [exact Ha| |exact Ho].
  eapply is_cstr_frame; [|exact Hc]. intros x Hx. apply Hm. apply Ho. lia.
Qed.

Lemma has_formats_kept m m' : (forall x, ~ (buf <= x < buf + TPRINTF_BUFSZ) -> m' x = m x) -> has_formats m -> has_formats m'.
Proof. intros Hm [H1 H2]. split; by eapply reads_kept. Qed.

Lemma art_printable i j : 0 <= i < 4 -> 0 <= j < 18 -> 32 <= art i j < 128.
Proof.
  intros Hi Hj. assert (H0 : forallb (fun l => (length l =? 18)%nat && forallb (fun c => (32 <=? c) && (c <? 128)) l) plane_art = true) by reflexivity.
  destruct (lookup_lt_is_Some_2 plane_art (Z.to_nat i)) as [l Hl]; [cbn; lia|]. unfold art. rewrite Hl. cbn [mbind option_bind].
  rewrite forallb_forall in H0. specialize (H0 l ltac:(apply list_elem_of_In; by eapply list_elem_of_lookup_2)). apply andb_true_iff in H0 as [H1 H2].
  apply Nat.eqb_eq in H1. destruct (lookup_lt_is_Some_2 l (Z.to_nat j)) as [c Hc]; [lia|]. rewrite Hc. cbn [from_option id].
  rewrite forallb_forall in H2. specialize (H2 c ltac:(apply list_elem_of_In; by eapply list_elem_of_lookup_2)). lia.
Qed.

(** The first [k] characters of the plane at ([x], [y]) are drawn, those that fall
    in the window, over the screen of [s0]. *)
Record drawn (s0 : plane K) (x y k : Z) (s : plane K) : Prop := mk_drawn {
  dr_term : plain_term (tm (pl_term s));
  dr_mem : has_formats (pl_mem s);
  dr_kernel : pl_kernel s = pl_kernel s0;
  dr_inside r c : 0 <= r < 4 -> 0 <= c < 40 ->
    scr (pl_term s) (cell r c)
    = if (0 <=? r - y) && (r - y <? 4) && (0 <=? c - x) && (c - x <? 18) && ((r - y) * 18 + (c - x) <? k)
      then colorchar COLOR_GREY_ON_BLACK (art (r - y) (c - x)) else scr (pl_term s0) (cell r c);
  dr_outside a : (forall r c, 0 <= r < 4 -> 0 <= c < 40 -> a <> cell r c) -> scr (pl_term s) a = scr (pl_term s0) a
}.

Lemma if_same {A} (a b : bool) (u v : A) : a = b -> (if a then u else v) = if b then u else v.
Proof. by intros ->. Qed.

Lemma window_cell_inj r c r' c' : 0 <= c < 40 -> 0 <= c' < 40 -> cell r c = cell r' c' -> r = r' /\ c = c'.
Proof. unfold cell. lia. Qed.

(** One character. *)
Lemma draw_cell_run s0 x y i j s :
  - 100 <= x <= 100 -> - 100 <= y <= 100 -> 0 <= i < 4 -> 0 <= j < 18 -> drawn s0 x y (i * 18 + j) s ->
  exists s', draw_cell fuel buf cup chr x y i j s = Ret (tt, s') /\ drawn s0 x y (i * 18 + j + 1) s'.
Proof.
  intros Hx Hy Hi Hj [T F Kn In Out]. pose proof (art_printable i j Hi Hj) as Ha.
  unfold draw_cell. rewrite bind_gets, (pt_win _ T). cbn [height Term.width]. cbv zeta. rewrite !(s32_small (_ + _)) by lia.
  destruct ((0 <=? y + i) && (y + i <? 4) && (0 <=? x + j) && (x + j <? 40)) eqn:Ev; cbn [when].
  - destruct (tprintf_cup_run fuel (pl_mem s) buf cup (pl_term s) (y + i + 1) (x + j + 1)) as (n & p & m & E & Hp & Hm);
      [lia|lia|lia|lia|apply F|apply T|apply T|].
    set (t1 := mk_tst _ _) in E. assert (T1 : plain_term (tm t1)) by (destruct T; by constructor).
    destruct (put_plain t1 (art i j) T1 Ha) as (t2 & E2 & T2); [cbn; lia|cbn; lia|].
    destruct (tprintf_char_run fuel m buf chr t1 (art i j) _ ltac:(lia) Hbuf ltac:(lia) (proj2 (has_formats_kept _ _ Hm F)) E2) as (m2 & E3 & Hm2).
    eexists. split.
    { unfold print at 1, bind at 1. unfold tprintf. rewrite E. unfold print, tprintf. cbn [pl_term pl_mem pl_kernel]. rewrite E3. reflexivity. }
    assert (Hrc : row (tm t1) = y + i /\ col (tm t1) = x + j) by (cbn; lia). destruct Hrc as [Hr Hc]. rewrite Hr, Hc.
    constructor; cbn [pl_term pl_mem pl_kernel tm scr t1]; [exact T2| |exact Kn| |].
    + eapply has_formats_kept; [exact Hm2|]. by eapply has_formats_kept.
    + intros r c Hr' Hc'. rewrite In by done. destruct (Z.eqb_spec (cell r c) (cell (y + i) (x + j))) as [Ec|Ec].
      * apply window_cell_inj in Ec as [-> ->]; [|lia|lia]. replace (y + i - y) with i by lia. replace (x + j - x) with j by lia.
        by replace ((0 <=? i) && (i <? 4) && (0 <=? j) && (j <? 18) && (i * 18 + j <? i * 18 + j + 1)) with true by lia.
      * apply if_same. unfold cell in Ec. lia.
    + intros a Hout. rewrite (proj2 (Z.eqb_neq a _)) by (apply Hout; lia). by apply Out.
  - exists s. split; [reflexivity|]. constructor; [exact T|exact F|exact Kn| |exact Out]. intros r c Hr Hc. rewrite In by done. apply if_same. lia.
Qed.

(** The whole plane. *)
Lemma draw_plane_run s x y :
  - 100 <= x <= 100 -> - 100 <= y <= 100 -> plain_term (tm (pl_term s)) -> has_formats (pl_mem s) ->
  exists s', draw_plane fuel buf cup chr x y s = Ret (tt, s') /\ drawn s x y 72 s'.
Proof.
  intros Hx Hy T F. unfold draw_plane, PLANE_ROWS, PLANE_COLUMNS.
  apply (for_up_rule (fun i => drawn s x y (i * 18))).
  - constructor; [exact T|exact F|reflexivity| |reflexivity]. intros r c Hr Hc.
    replace ((0 <=? r - y) && (r - y <? 4) && (0 <=? c - x) && (c - x <? 18) && ((r - y) * 18 + (c - x) <? 0 * 18)) with false by lia. done.
  - intros i s1 Hi D1. rewrite Z.add_0_l, Z.mul_1_r in *.
    destruct (for_up_rule (fun j => drawn s x y (i * 18 + j)) (fun j => draw_cell fuel buf cup chr x y i j) 1 (Z.to_nat 18) 0 s1) as (s2 & E & D2).
    + by rewrite Z.add_0_r.
    + intros j s2 Hj D2. rewrite Z.add_0_l, Z.mul_1_r in *. replace (i * 18 + (0 + (j + 1) * 1)) with (i * 18 + j + 1) by lia.
      apply draw_cell_run; (lia || done).
    + exists s2. split; [exact E|]. by replace ((0 + (i + 1) * 1) * 18) with (i * 18 + (0 + Z.of_nat (Z.to_nat 18) * 1)) by lia.
Qed.

(** ** The bullet *)

(** The bullet is in its row of the screen, with room for its two characters. *)
Definition bullet_ok (b : bullet_state) : Prop := fired b = true -> 0 <= bullet_x b <= 78 /\ bullet_y b = 9.

(** From [s] to [s'] only the screen changed, and of it only the bullet's row. *)
Record row_only (s s' : plane K) : Prop := mk_row_only {
  ro_term : tm (pl_term s') = tm (pl_term s);
  ro_mem : pl_mem s' = pl_mem s;
  ro_kernel : pl_kernel s' = pl_kernel s;
  ro_scr a : ~ (9 * 80 <= a < 10 * 80) -> scr (pl_term s') a = scr (pl_term s) a
}.

Lemma row_only_refl s : row_only s s.
Proof. done. Qed.

Lemma row_only_trans s1 s2 s3 : row_only s1 s2 -> row_only s2 s3 -> row_only s1 s3.
Proof. intros [] []. constructor; [congruence..|]. intros a Ha. rewrite ro_scr1 by done. by apply ro_scr0. Qed.

Lemma poke_run x ch s : 0 <= x < 80 -> exists s', poke_screen x 9 ch s = Ret (tt, s') /\ row_only s s'.
Proof.
  intros Hx. eexists. split; [reflexivity|]. constructor; [reflexivity..|]. intros a Ha. cbn. unfold VGA_COLS.
  by rewrite (proj2 (Z.eqb_neq a _)) by lia.
Qed.

Lemma two_pokes x c1 c2 s : 0 <= x <= 78 -> exists s', (poke_screen x 9 c1 ;;; poke_screen (x + 1) 9 c2) s = Ret (tt, s') /\ row_only s s'.
Proof.
  intros Hx. destruct (poke_run x c1 s ltac:(lia)) as (s1 & E1 & R1). destruct (poke_run (x + 1) c2 s1 ltac:(lia)) as (s2 & E2 & R2).
  exists s2. split; [by rewrite (bind_step _ _ _ _ _ E1)|]. by eapply row_only_trans.
Qed.

Lemma erase_run x s : 0 <= x <= 78 -> exists s', erase_bullet x 9 s = Ret (tt, s') /\ row_only s s'.
Proof. apply two_pokes. Qed.

Lemma draw_run x s : 0 <= x <= 78 -> exists s', draw_bullet x 9 s = Ret (tt, s') /\ row_only s s'.
Proof. apply two_pokes. Qed.

Lemma hits_run x y (s : plane K) : exists h : bool, hits x y s = Ret (h, s) /\ (h = true -> 0 <= x).
Proof. unfold hits. destruct (Z.leb_spec 0 x); [|by exists false]. by eexists. Qed.

(** The second half of [bullet_logic]: a bullet that flies on has moved two
    columns to the left. *)
Lemma fly_run b s : bullet_ok b ->
  exists b' s', fly b s = Ret (b', s') /\ row_only s s' /\ bullet_ok b' /\ q b' = q b
    /\ (fired b' = true -> fired b = true /\ bullet_x b' = bullet_x b - 2).
Proof.
  intros Hb. unfold fly. destruct (fired b) eqn:Ef; [|exists b, s; split_and!; [reflexivity|apply row_only_refl|exact Hb|reflexivity|by rewrite Ef]].
  destruct (Hb Ef) as [Hx ->].
  destruct (erase_run (bullet_x b) s Hx) as (s1 & E1 & R1). rewrite (bind_step _ _ _ _ _ E1). clear E1.
  destruct (hits_run (bullet_x b - 1) 9 s1) as ([] & E2 & H2); rewrite (bind_step _ _ _ _ _ E2); clear E2.
  { destruct (erase_run (bullet_x b - 1) s1 ltac:(specialize (H2 eq_refl); lia)) as (s2 & E3 & R2). rewrite (bind_step _ _ _ _ _ E3). eexists _, s2.
    split_and!; [reflexivity|by eapply row_only_trans|done|done|done]. }
  destruct (hits_run (bullet_x b - 2) 9 s1) as ([] & E3 & H3); rewrite (bind_step _ _ _ _ _ E3); clear E3.
  { destruct (erase_run (bullet_x b - 2) s1 ltac:(specialize (H3 eq_refl); lia)) as (s2 & E4 & R2). rewrite (bind_step _ _ _ _ _ E4). eexists _, s2.
    split_and!; [reflexivity|by eapply row_only_trans|done|done|done]. }
  destruct (Z.ltb_spec (bullet_x b - 2) 0); [eexists _, s1; split_and!; [reflexivity|done|done|done|done]|].
  destruct (draw_run (bullet_x b - 2) s1 ltac:(lia)) as (s2 & E4 & R2). rewrite (bind_step _ _ _ _ _ E4). eexists _, s2.
  split_and!; [reflexivity|by eapply row_only_trans| |done|done]. intros _. cbn. lia.
Qed.

(** ** Turns *)

(** The program between two turns. *)
Record flight (b : bullet_state) (x : Z) (s : plane K) : Prop := mk_flight {
  fl_plane : - 18 <= x <= 40;
  fl_bullet : bullet_ok b;
  fl_term : plain_term (tm (pl_term s));
  fl_mem : has_formats (pl_mem s)
}.

(** The cells the program may change: its window and the bullet's row. *)
Definition own (a : Z) : Prop := (exists r c, 0 <= r < 4 /\ 0 <= c < 40 /\ a = cell r c) \/ 9 * 80 <= a < 10 * 80.

(** The first half of [bullet_logic], with mailbox calls that return. *)
Lemma fire_run b x s : 
  (forall k, exists n k', sys_mbox_stat (q b) k = Ret (n, k')) -> (forall k, exists n k', sys_mbox_recv (q b) k = Ret (n, k')) ->
  - 18 <= x <= 40 -> bullet_ok b -> plain_term (tm (pl_term s)) ->
  exists r k, fire b x 0 s = Ret (r, mk_plane (pl_term s) (pl_mem s) k) /\ forall b', r = Some b' -> bullet_ok b'.
Proof.
  intros Hst Hrv Hx Hb T. unfold fire. assert (Hs : s = mk_plane (pl_term s) (pl_mem s) (pl_kernel s)) by (by destruct s).
  destruct ((0 <=? q b) && negb (fired b)); [|exists (Some b), (pl_kernel s); split; [by rewrite <- Hs|by intros ? [= <-]]].
  destruct (Hst (pl_kernel s)) as (n & k1 & E1). unfold syscall at 1. unfold bind at 1, zoom at 1. rewrite E1.
  destruct (0 <? n); [|exists (Some b), k1; split; [done|by intros ? [= <-]]].
  destruct (Hrv k1) as (z & k2 & E2). unfold syscall, bind at 1, zoom. cbn [pl_kernel]. rewrite E2. destruct (truth z); [by exists None, k2|].
  rewrite bind_gets. cbn [pl_term pl_mem pl_kernel]. rewrite (pt_win _ T). cbn [start_row start_col]. eexists _, k2. split; [reflexivity|].
  intros b' [= <-] _. cbn [bullet_x bullet_y]. rewrite (proj2 (Z.ltb_ge _ 0)) by lia. lia.
Qed.

(** A turn: it returns, the plane and the bullet stay within their bounds, and
    nothing of the screen changes but the window and the bullet's row. *)
Lemma turn_run b x s :
  (fired b = false -> (forall k, exists n k', sys_mbox_stat (q b) k = Ret (n, k')) /\ (forall k, exists n k', sys_mbox_recv (q b) k = Ret (n, k'))) ->
  flight b x s ->
  exists r s', turn fuel buf cup chr b x s = Ret (r, s') /\ (forall a, ~ own a -> scr (pl_term s') a = scr (pl_term s) a)
    /\ (r = None -> fired b = false)
    /\ forall b' x', r = Some (b', x') -> flight b' x' s' /\ x' = (if x =? -18 then 40 else x - 1)
         /\ (fired b = true -> fired b' = true -> bullet_x b' = bullet_x b - 2).
Proof.
  intros Hcalls [Hx Hb T F]. unfold turn. rewrite bind_gets, (pt_win _ T). unfold plane_step, PLANE_COLUMNS. cbn [Term.width]. cbv zeta.
  set (x1 := if x - 1 <? 0 - 18 then 40 else x - 1).
  assert (Hx1 : - 18 <= x1 <= 40 /\ x1 = if x =? -18 then 40 else x - 1) by (unfold x1; zbool; lia). destruct Hx1 as [Hx1 Ex1].
  destruct (draw_plane_run s x1 0 ltac:(lia) ltac:(lia) T F) as (s1 & E1 & [T1 F1 _ _ O1]). rewrite (bind_step _ _ _ _ _ E1).
  assert (Hf : exists r k, fire b x1 0 s1 = Ret (r, mk_plane (pl_term s1) (pl_mem s1) k) /\ (forall b', r = Some b' -> bullet_ok b')
    /\ (fired b = true -> r = Some b)).
  { destruct (fired b) eqn:Ef.
    - exists (Some b), (pl_kernel s1). unfold fire. rewrite Ef, andb_false_r. split_and!; [by destruct s1|by intros ? [= <-]|done].
    - destruct (Hcalls eq_refl) as [H1 H2]. destruct (fire_run b x1 s1 H1 H2 Hx1 Hb T1) as (r & k & E & Hr). exists r, k. done. }
  destruct Hf as (r & k & E2 & Hr & Hfb). set (s2 := mk_plane _ _ k) in E2.
  assert (Hout : forall a, ~ own a -> scr (pl_term s1) a = scr (pl_term s) a).
  { intros a Ha. apply O1. intros r0 c Hr0 Hc ->. apply Ha. left. by exists r0, c. }
  unfold bullet_logic. rewrite bind_assoc, (bind_step _ _ _ _ _ E2). destruct r as [b1|].
  - destruct (fly_run b1 s2 (Hr b1 eq_refl)) as (b2 & s3 & E3 & [R1 R2 _ R3] & Hb2 & _ & Hm). rewrite bind_assoc, (bind_step _ _ _ _ _ E3), bind_ret.
    eexists _, s3. split; [reflexivity|]. split_and!; [|done|].
    + intros a Ha. rewrite R3 by (intros Hin; apply Ha; by right). by apply Hout.
    + intros b' x' [= <- <-]. split_and!; [|exact Ex1|].
      * constructor; [exact Hx1|exact Hb2|by rewrite R1|by rewrite R2].
      * intros Hfi Hfi'. destruct (Hm Hfi') as [_ ->]. specialize (Hfb Hfi). by injection Hfb as ->.
  - rewrite bind_ret. eexists _, s2. split; [reflexivity|]. split_and!; [exact Hout| |done]. intros _. destruct (fired b); [|done]. by specialize (Hfb eq_refl).
Qed.

(** The loop of [main], for [n] turns. *)
Fixpoint turns (n : nat) (b : bullet_state) (x : Z) : M (plane K) (option (bullet_state * Z)) :=
  match n with
  | O => ret (Some (b, x))
  | S n' => r <-- turn fuel buf cup chr b x ;; match r with None => ret None | Some (b', x') => turns n' b' x' end
  end.

Lemma spent_within m : forall b x s, flight b x s -> fired b = true -> bullet_x b < 2 * Z.of_nat m ->
  exists n b' x' s', (n <= m)%nat /\ turns n b x s = Ret (Some (b', x'), s') /\ fired b' = false /\ flight b' x' s'
    /\ forall a, ~ own a -> scr (pl_term s') a = scr (pl_term s) a.
Proof.
  induction m as [|m IH]; intros b x s Fl Hf Hm.
  - destruct (fl_bullet _ _ _ Fl Hf). lia.
  - destruct (turn_run b x s) as ([[b1 x1]|] & s1 & E & O & Hn & Hs); [by rewrite Hf|exact Fl| |by specialize (Hn eq_refl); congruence].
    destruct (Hs b1 x1 eq_refl) as (Fl1 & _ & Hb1). destruct (fired b1) eqn:Ef1.
    + destruct (IH b1 x1 s1 Fl1 Ef1) as (n & b2 & x2 & s2 & Hle & E2 & Hf2 & Fl2 & O2); [rewrite (Hb1 Hf eq_refl); lia|].
      exists (S n), b2, x2, s2. split_and!; [lia| |done|done|by intros a Ha; rewrite O2, O].
      cbn [turns]. by rewrite (bind_step _ _ _ _ _ E).
    + exists 1%nat, b1, x1, s1. split_and!; [lia| |done|done|exact O]. cbn [turns]. by rewrite (bind_step _ _ _ _ _ E).
Qed.

(** A bullet does not fly for ever and does no harm: from any turn with a bullet
    in the air, the program reaches one without, after at most 40 turns and
    without waiting for a message; all that time the plane and the bullet are
    within their bounds and no cell of the screen changes outside the plane's
    window and the bullet's row. *)
Theorem bullet_is_spent b x s (Hflight : flight b x s) (Hfired : fired b = true) :
  exists n b' x' s', (n <= 40)%nat /\ turns n b x s = Ret (Some (b', x'), s') /\ fired b' = false /\ flight b' x' s'
    /\ forall a, ~ own a -> scr (pl_term s') a = scr (pl_term s) a.
Proof. apply (spent_within 40); [done|done|]. destruct (fl_bullet _ _ _ Hflight Hfired). lia. Qed.

End Drawing.

(** ** Concrete instances *)

Module Plane_instances.
Import String_instances.

#[local] Instance no_mail : Commands unit := {
  sys_mbox_open _ := ret 1;
  sys_mbox_stat _ := ret 0;
  sys_mbox_recv _ := ret 0
}.

(** The two formats at 1000 and 1100. *)
Definition memory : bmem := fun a => if a <? 1050 then mem_of 1000 (format_text ANSIF_CUP) a else mem_of 1100 (format_text CHAR_FMT) a.

Definition empty_sky : plane unit := mk_plane (mk_tst PLANE_TERM_INIT (fun _ => 0)) memory tt.

Lemma formats_there : has_formats 5000 1000 1100 memory.
Proof.
  split; (split; [repeat constructor; lia|]); (split; [lia|]); (split; [apply cstr_b_ok; reflexivity|]); cbn; intros x Hx; lia.
Qed.

Lemma bullet_is_spent_witness :
  exists n b' x' s', (n <= 40)%nat /\ turns 401 5000 1000 1100 n (mk_bullet 1 true 60 9) 10 empty_sky = Ret (Some (b', x'), s') /\ fired b' = false
    /\ scr (pl_term s') 5 = 0.
Proof.
  destruct (bullet_is_spent 401 5000 1000 1100 ltac:(lia) ltac:(lia) (mk_bullet 1 true 60 9) 10 empty_sky) as (n & b' & x' & s' & Hn & E & Hf & _ & O).
  - constructor; [lia|intros _; cbn; lia|by constructor|exact formats_there].
  - reflexivity.
  - exists n, b', x', s'. split; [exact Hn|]. split; [exact E|]. split; [exact Hf|]. apply (O 5). unfold own, cell. intros [(r & c & Hr & Hc & H0)|H0]; lia.
Defined.

End Plane_instances.
