(* ===== verification/Cpu.v ===== *)
(** * Descriptor tables

    Models the descriptors of [src/src/kernel/hardware/cpu_x86.h], the global
    descriptor table and the task-state segment of [src/src/kernel/cpu.c], and
    the interrupt descriptor table of [src/src/kernel/interrupt.c].

    The specification is how the processor reads a descriptor: base, limit,
    privilege level and type of a segment, and target and privilege level of a
    gate.  The addresses of the handlers and of the task-state segment are
    given by the linker, and are parameters. *)

From Stdlib Require Import Btauto.
From S2P Require Import Prelude.

(** ** Segments and gates *)

Definition PL0 : Z := 0.
Definition PL3 : Z := 3.
Definition PL_KERNEL : Z := PL0.
Definition PL_USER : Z := PL3.

Record descriptor : Type := mk_descriptor { low_w : Z; high_w : Z; high_dw : Z }.

Definition SD_BASE_31_24 : Z := 0xff000000.
Definition SD_FLAGS : Z := 0x00f09f00.
Definition SD_DPL : Z := 0x00006000.
Definition SD_LIMIT_19_16 : Z := 0x000f0000.
Definition SD_BASE_23_16 : Z := 0x000000ff.
Definition GD_OFFSET_31_16 : Z := 0xffff0000.
Definition SD_G : Z := Z.shiftl 1 23.
Definition SD_DB : Z := Z.shiftl 1 22.
Definition SD_P : Z := Z.shiftl 1 15.
Definition SD_S : Z := Z.shiftl 1 12.
Definition SD_CODE : Z := Z.lor (Z.shiftl 1 11) SD_S.
Definition CS_R : Z := Z.shiftl 1 9.
Definition SD_DATA : Z := Z.lor (Z.shiftl 0 11) SD_S.
Definition DS_W : Z := Z.shiftl 1 9.
Definition SD_TSS : Z := Z.shiftl 9 8.
Definition GD_INT_32 : Z := Z.shiftl 14 8.

Definition sd_init (base limit dpl flags : Z) : descriptor :=
  mk_descriptor (Z.land (u16 limit) 0xffff) (Z.land (u16 (u32 base)) 0xffff)
    (u32 (Z.lor (Z.lor (Z.lor (Z.lor (Z.land (u32 base) SD_BASE_31_24) (Z.land flags SD_FLAGS))
                              (Z.land limit SD_LIMIT_19_16))
                       (Z.land (Z.shiftl dpl 13) SD_DPL))
                (Z.land (Z.shiftr (u32 base) 16) SD_BASE_23_16))).

Definition igate_init (selector offset dpl flags : Z) : descriptor :=
  mk_descriptor (Z.land (u16 (u32 offset)) 0xffff) (u16 selector)
    (u32 (Z.lor (Z.lor (Z.lor (Z.land (u32 offset) GD_OFFSET_31_16) (Z.land flags SD_FLAGS))
                       (Z.land (Z.shiftl dpl 13) SD_DPL)) GD_INT_32)).

Definition segment_selector (index table_indicator rpl : Z) : Z :=
  Z.lor (Z.lor (Z.shiftl index 3) (Z.shiftl table_indicator 2)) rpl.

Definition GI_KERNEL_CODE : Z := 1.
Definition GI_KERNEL_DATA : Z := 2.
Definition GI_USER_CODE : Z := 3.
Definition GI_USER_DATA : Z := 4.
Definition GI_TSS : Z := 5.

Definition KERNEL_CS : Z := segment_selector GI_KERNEL_CODE 0 PL_KERNEL.
Definition KERNEL_DS : Z := segment_selector GI_KERNEL_DATA 0 PL_KERNEL.
Definition PROCESS_CS : Z := segment_selector GI_USER_CODE 0 PL_KERNEL.
Definition PROCESS_DS : Z := segment_selector GI_USER_DATA 0 PL_KERNEL.
Definition KERNEL_TSS : Z := segment_selector GI_TSS 0 PL_KERNEL.

(** ** How the processor reads descriptors *)

Definition field (x lo n : Z) : Z := x / 2 ^ lo mod 2 ^ n.

Definition seg_base (d : descriptor) : Z := high_w d + field (high_dw d) 0 8 * 2 ^ 16 + field (high_dw d) 24 8 * 2 ^ 24.
Definition seg_limit (d : descriptor) : Z := low_w d + field (high_dw d) 16 4 * 2 ^ 16.
Definition seg_dpl (d : descriptor) : Z := field (high_dw d) 13 2.
Definition seg_type (d : descriptor) : Z := field (high_dw d) 8 4.
Definition seg_system (d : descriptor) : Z := field (high_dw d) 12 1.
Definition seg_present (d : descriptor) : Z := field (high_dw d) 15 1.
Definition seg_flags (d : descriptor) : Z := field (high_dw d) 20 4.
Definition gate_offset (d : descriptor) : Z := low_w d + field (high_dw d) 16 16 * 2 ^ 16.
Definition gate_selector (d : descriptor) : Z := high_w d.

(** ** The global descriptor table and the task-state segment *)

Definition data_sd (dpl flags : Z) : descriptor :=
  sd_init 0x00000 0xfffff dpl (Z.lor (Z.lor (Z.lor SD_G SD_P) SD_DB) flags).

Definition gdt : list descriptor :=
  [mk_descriptor 0 0 0; data_sd PL_KERNEL (Z.lor SD_CODE CS_R); data_sd PL_KERNEL (Z.lor SD_DATA DS_W);
   data_sd PL_USER (Z.lor SD_CODE CS_R); data_sd PL_USER (Z.lor SD_DATA DS_W); mk_descriptor 0 0 0].

(** The fields of [struct tss] that are ever set; the others stay 0. *)
Record tss_t : Type := mk_tss { esp0 : Z; ss0 : Z }.

(** [gdt], [tss], and the task register. *)
Record cst : Type := mk_cst { cgdt : list descriptor; tss : tss_t; tr : Z }.

Definition SIZEOF_TSS : Z := 104.

(** The descriptor of an available 32-bit task-state segment, and the same
    descriptor once the segment is busy. *)
Definition available_tss (d : descriptor) : bool :=
  (seg_present d =? 1) && (seg_system d =? 0) && (seg_type d =? 9).
Definition busy (d : descriptor) : descriptor := mk_descriptor (low_w d) (high_w d) (Z.lor (high_dw d) (Z.shiftl 1 9)).

(** The instruction [ltr]: the selector must name the descriptor of a present and
    available task-state segment in the table, or the processor raises an
    exception that nothing handles yet; it marks the segment busy. *)
Definition ltr (selector : Z) : M cst unit :=
  fun s =>
    let i := Z.to_nat (selector / 8) in
    match cgdt s !! i with
    | Some d => if available_tss d then Ret (tt, mk_cst (<[i := busy d]> (cgdt s)) (tss s) selector) else Halt
    | None => Halt
    end.

Section Tables.

(** [&tss] *)
Context (tss_addr : Z).

Definition init_tss : M cst unit :=
  modify (fun s => mk_cst (cgdt s) (mk_tss 0 0) (tr s)) ;;;
  modify (fun s => mk_cst (<[Z.to_nat GI_TSS := sd_init tss_addr SIZEOF_TSS PL_KERNEL (Z.lor SD_P SD_TSS)]> (cgdt s))
                     (tss s) (tr s)) ;;;
  ltr KERNEL_TSS.

Definition init_cpu : M cst unit := init_tss.

Definition cpu_set_interrupt_stack (v : Z) : M cst unit :=
  modify (fun s => mk_cst (cgdt s) (mk_tss v KERNEL_DS) (tr s)).

End Tables.

(** ** The interrupt descriptor table *)

Definition IVEC_DE : Z := 0.
Definition IVEC_DB : Z := 1.
Definition IVEC_NMI : Z := 2.
Definition IVEC_BP : Z := 3.
Definition IVEC_OF : Z := 4.
Definition IVEC_BR : Z := 5.
Definition IVEC_UD : Z := 6.
Definition IVEC_NM : Z := 7.
Definition IVEC_DF : Z := 8.
Definition IVEC_CSO : Z := 9.
Definition IVEC_TS : Z := 10.
Definition IVEC_NP : Z := 11.
Definition IVEC_SS : Z := 12.
Definition IVEC_GP : Z := 13.
Definition IVEC_PF : Z := 14.
Definition IVEC_IRQ_0 : Z := 32.
Definition IVEC_SYSCALL : Z := 48.
Definition IDT_SIZE : Z := 49.

Definition IRQ_TIMER : Z := 0.
Definition IRQ_KEYBOARD : Z := 1.
Definition IRQ_MASTER_LOWEST_PRIORITY : Z := 7.

(** The functions that are installed. *)
Inductive handler : Type :=
| handle_unknown_generic | handle_div_zero | handle_debug_exc | handle_nmi | handle_breakpoint | handle_overflow
| handle_bound_range_exc | handle_undefined_opcode | handle_no_math | handle_double_fault | handle_co_seg_overrun
| handle_invalid_tss | handle_seg_not_present | handle_stack_seg_fault | handle_gen_protect_fault
| page_fault_handler_entry | timer_isr_entry | handle_spurious_irq | keyboard_isr_entry
| pci5_entry | pci9_entry | pci10_entry | pci11_entry | syscall_entry_interrupt.

Definition IRQ_CASCADE : Z := 2.

(** The request lines the kernel listens to: the cascade, the spurious line,
    timer, keyboard and the PCI lines 5, 9, 10 and 11. *)
Definition IRQS_TO_ENABLE : Z :=
  Z.lor (Z.lor (Z.lor (Z.lor (Z.lor (Z.lor (Z.lor (Z.shiftl 1 IRQ_CASCADE) (Z.shiftl 1 IRQ_MASTER_LOWEST_PRIORITY))
    (Z.shiftl 1 IRQ_TIMER)) (Z.shiftl 1 IRQ_KEYBOARD)) (Z.shiftl 1 5)) (Z.shiftl 1 9)) (Z.shiftl 1 10)) (Z.shiftl 1 11).

Section Idt.

Context (fn : handler -> Z).

Definition install_interrupt_handler (int_num : Z) (handler_fn : Z) (required_pl : Z) : M (list descriptor) unit :=
  fun idt =>
    if (0 <=? int_num) && (int_num <? Z.of_nat (length idt))
    then Ret (tt, <[Z.to_nat int_num := igate_init KERNEL_CS handler_fn required_pl SD_P]> idt)
    else Stuck.

(** What is installed over the generic handler, in the order of the code. *)
Definition specific : list (Z * handler * Z) :=
  [(IVEC_DE, handle_div_zero, PL0); (IVEC_DB, handle_debug_exc, PL0); (IVEC_NMI, handle_nmi, PL0);
   (IVEC_BP, handle_breakpoint, PL0); (IVEC_OF, handle_overflow, PL0); (IVEC_BR, handle_bound_range_exc, PL0);
   (IVEC_UD, handle_undefined_opcode, PL0); (IVEC_NM, handle_no_math, PL0); (IVEC_DF, handle_double_fault, PL0);
   (IVEC_CSO, handle_co_seg_overrun, PL0); (IVEC_TS, handle_invalid_tss, PL0); (IVEC_NP, handle_seg_not_present, PL0);
   (IVEC_SS, handle_stack_seg_fault, PL0); (IVEC_GP, handle_gen_protect_fault, PL0);
   (IVEC_PF, page_fault_handler_entry, PL0);
   (IVEC_IRQ_0 + IRQ_TIMER, timer_isr_entry, PL0);
   (IVEC_IRQ_0 + IRQ_MASTER_LOWEST_PRIORITY, handle_spurious_irq, PL0);
   (IVEC_IRQ_0 + IRQ_KEYBOARD, keyboard_isr_entry, PL0);
   (IVEC_IRQ_0 + 5, pci5_entry, PL0); (IVEC_IRQ_0 + 9, pci9_entry, PL0); (IVEC_IRQ_0 + 10, pci10_entry, PL0);
   (IVEC_IRQ_0 + 11, pci11_entry, PL0); (IVEC_SYSCALL, syscall_entry_interrupt, PL3)].

Fixpoint install_all (l : list (Z * handler * Z)) : M (list descriptor) unit :=
  match l with
  | [] => ret tt
  | (v, h, pl) :: l => install_interrupt_handler v (fn h) pl ;;; install_all l
  end.

(** The base and limit that [lidt] loads are fixed: [sizeof(idt)]. *)
Definition init_idt : M (list descriptor) unit :=
  for_up (Z.to_nat IDT_SIZE) 0 1 (fun i => install_interrupt_handler i (fn handle_unknown_generic) PL0) ;;;
  install_all specific.

End Idt.

(** ** Delivery of interrupts *)

(** Delivery of interrupt [vec]; [int_n] says that it comes from an [int]
    instruction, whose privilege level is checked.  The gate must be a present
    interrupt gate. *)
Inductive delivery : Type := Handler (selector offset : Z) | Fault.

Definition deliver (idt : list descriptor) (vec : Z) (int_n : bool) (cpl : Z) : delivery :=
  match (if vec <? 0 then None else idt !! Z.to_nat vec) with
  | None => Fault
  | Some g =>
      if int_n && (seg_dpl g <? cpl) then Fault
      else if negb ((seg_present g =? 1) && (seg_system g =? 0) && (seg_type g =? 14)) then Fault
      else Handler (gate_selector g) (gate_offset g)
  end.

(** ** Reading back what the code writes *)

(** The flags of a descriptor: granularity and size, present, type. *)
Definition flag_bits (g p st : Z) : Z := g * 2 ^ 20 + p * 2 ^ 15 + st * 2 ^ 8.

Lemma land_flags g p st :
  0 <= g < 16 -> 0 <= p < 2 -> 0 <= st < 32 ->
  Z.land (flag_bits g p st) SD_FLAGS = Z.lor (g * 2 ^ 20) (Z.lor (p * 2 ^ 15) (st * 2 ^ 8)).
Proof.
  intros Hg Hp Hs. unfold flag_bits.
  change SD_FLAGS with (Z.lor (Z.shiftl (Z.ones 4) 20) (Z.lor (Z.shiftl (Z.ones 1) 15) (Z.shiftl (Z.ones 5) 8))).
  rewrite !Z.land_lor_distr_r, !land_field by lia.
  change (2 ^ 20) with 1048576. change (2 ^ 15) with 32768. change (2 ^ 8) with 256. change (2 ^ 4) with 16.
  change (2 ^ 1) with 2. change (2 ^ 5) with 32. f_equal; [zdiv|f_equal; zdiv].
Qed.

Lemma low_word x : 0 <= x -> Z.land (u16 x) 0xffff = x mod 2 ^ 16.
Proof.
  intros Hx. unfold u16. change 0xffff with (Z.ones 16). rewrite Z.land_ones by lia. by rewrite Z.mod_mod.
Qed.

(** The fields of the upper word in order. *)
Lemma assemble a g l p d st b :
  0 <= a < 256 -> 0 <= g < 16 -> 0 <= l < 16 -> 0 <= p < 2 -> 0 <= d < 4 -> 0 <= st < 32 -> 0 <= b < 256 ->
  Z.lor (Z.lor (Z.lor (Z.lor (a * 2 ^ 24) (Z.lor (g * 2 ^ 20) (Z.lor (p * 2 ^ 15) (st * 2 ^ 8)))) (l * 2 ^ 16)) (d * 2 ^ 13)) b
  = a * 2 ^ 24 + g * 2 ^ 20 + l * 2 ^ 16 + p * 2 ^ 15 + d * 2 ^ 13 + st * 2 ^ 8 + b.
Proof.
  intros Ha Hg Hl Hp Hd Hs Hb.
  transitivity (Z.lor (a * 2 ^ 24) (Z.lor (g * 2 ^ 20) (Z.lor (l * 2 ^ 16) (Z.lor (p * 2 ^ 15) (Z.lor (d * 2 ^ 13) (Z.lor (st * 2 ^ 8) b)))))).
  { apply Z.bits_inj'. intros i _. rewrite !Z.lor_spec. btauto. }
  change (2 ^ 24) with 16777216. change (2 ^ 20) with 1048576. change (2 ^ 16) with 65536.
  change (2 ^ 15) with 32768. change (2 ^ 13) with 8192. change (2 ^ 8) with 256.
  rewrite (lor_comm_add b (st * 256) 8); [|lia|lia|zdiv].
  rewrite (lor_comm_add _ (d * 8192) 13); [|lia|lia|zdiv].
  rewrite (lor_comm_add _ (p * 32768) 15); [|lia|lia|zdiv].
  rewrite (lor_comm_add _ (l * 65536) 16); [|lia|lia|zdiv].
  rewrite (lor_comm_add _ (g * 1048576) 20); [|lia|lia|zdiv].
  rewrite (lor_comm_add _ (a * 16777216) 24); [|lia|lia|zdiv]. lia.
Qed.

Lemma sd_high base limit dpl g p st :
  0 <= base < 2 ^ 32 -> 0 <= limit < 2 ^ 20 -> 0 <= dpl < 4 -> 0 <= g < 16 -> 0 <= p < 2 -> 0 <= st < 32 ->
  high_dw (sd_init base limit dpl (flag_bits g p st))
  = base / 2 ^ 24 * 2 ^ 24 + g * 2 ^ 20 + limit / 2 ^ 16 * 2 ^ 16 + p * 2 ^ 15 + dpl * 2 ^ 13 + st * 2 ^ 8
    + base / 2 ^ 16 mod 2 ^ 8.
Proof.
  intros Hb Hl Hd Hg Hp Hs. cbn [high_dw sd_init]. rewrite land_flags, !(u32_small base) by done.
  change SD_BASE_31_24 with (Z.shiftl (Z.ones 8) 24). change SD_LIMIT_19_16 with (Z.shiftl (Z.ones 4) 16).
  change SD_DPL with (Z.shiftl (Z.ones 2) 13). change SD_BASE_23_16 with (Z.shiftl (Z.ones 8) 0).
  rewrite !land_field, Z.shiftl_mul_pow2, Z.shiftr_div_pow2 by lia.
  change (2 ^ 32) with 4294967296 in *. change (2 ^ 20) with 1048576 in *.
  rewrite Z.div_1_r, Z.mul_1_r, Z.div_mul by done.
  rewrite (Z.mod_small (base / 2 ^ 24)), (Z.mod_small (limit / 2 ^ 16)), (Z.mod_small dpl)
    by (change (2 ^ 24) with 16777216; change (2 ^ 16) with 65536; change (2 ^ 8) with 256; change (2 ^ 4) with 16;
        change (2 ^ 2) with 4; zdiv).
  rewrite assemble; [|change (2 ^ 24) with 16777216; zdiv|done|change (2 ^ 16) with 65536; zdiv|done|done|done
    |apply Z.mod_pos_bound; lia].
  apply u32_small. change (2 ^ 24) with 16777216; change (2 ^ 16) with 65536; change (2 ^ 20) with 1048576;
    change (2 ^ 15) with 32768; change (2 ^ 13) with 8192; change (2 ^ 8) with 256. zdiv.
Qed.

(** A segment descriptor that [sd_init] builds is read by the processor with
    exactly the base, limit, privilege level, type and flags that were given. *)
Theorem sd_init_reads_back base limit dpl g p st :
  0 <= base < 2 ^ 32 -> 0 <= limit < 2 ^ 20 -> 0 <= dpl < 4 -> 0 <= g < 16 -> 0 <= p < 2 -> 0 <= st < 32 ->
  let d := sd_init base limit dpl (flag_bits g p st) in
  seg_base d = base /\ seg_limit d = limit /\ seg_dpl d = dpl /\ seg_present d = p
  /\ seg_system d = st / 16 /\ seg_type d = st mod 16 /\ seg_flags d = g.
Proof.
  intros Hb Hl Hd Hg Hp Hs. cbv zeta. unfold seg_base, seg_limit, seg_dpl, seg_present, seg_system, seg_type, seg_flags, field.
  rewrite !sd_high by done. cbn [low_w high_w sd_init]. rewrite (u32_small base), !low_word by lia.
  change (2 ^ 32) with 4294967296 in *. change (2 ^ 24) with 16777216. change (2 ^ 20) with 1048576 in *.
  change (2 ^ 16) with 65536. change (2 ^ 15) with 32768. change (2 ^ 13) with 8192. change (2 ^ 12) with 4096.
  change (2 ^ 8) with 256. change (2 ^ 4) with 16. change (2 ^ 2) with 4. change (2 ^ 1) with 2. change (2 ^ 0) with 1.
  split_and!; zdiv.
Qed.

Lemma igate_high offset dpl :
  0 <= offset < 2 ^ 32 -> 0 <= dpl < 4 ->
  high_dw (igate_init KERNEL_CS offset dpl SD_P) = offset / 2 ^ 16 * 2 ^ 16 + 2 ^ 15 + dpl * 2 ^ 13 + 14 * 2 ^ 8.
Proof.
  intros Ho Hd. cbn [high_dw igate_init]. rewrite (u32_small offset) by done.
  change (Z.land SD_P SD_FLAGS) with (2 ^ 15). change GD_INT_32 with (14 * 2 ^ 8).
  change GD_OFFSET_31_16 with (Z.shiftl (Z.ones 16) 16). change SD_DPL with (Z.shiftl (Z.ones 2) 13).
  rewrite !land_field, Z.shiftl_mul_pow2 by lia. change (2 ^ 32) with 4294967296 in *.
  change (2 ^ 16) with 65536. change (2 ^ 15) with 32768. change (2 ^ 13) with 8192. change (2 ^ 8) with 256. change (2 ^ 2) with 4.
  rewrite Z.div_mul, (Z.mod_small dpl), (Z.mod_small (offset / 65536)) by (done || zdiv).
  rewrite <- !Z.lor_assoc.
  rewrite (lor_comm_add (14 * 256) (dpl * 8192) 13); [|lia|lia|zdiv].
  rewrite (lor_comm_add _ 32768 15); [|lia|lia|reflexivity].
  rewrite (lor_comm_add _ (offset / 65536 * 65536) 16); [|lia|lia|zdiv].
  rewrite u32_small; [lia|]. change (2 ^ 32) with 4294967296. zdiv.
Qed.

Lemma igate_reads_back offset dpl :
  0 <= offset < 2 ^ 32 -> 0 <= dpl < 4 ->
  let d := igate_init KERNEL_CS offset dpl SD_P in
  gate_offset d = offset /\ gate_selector d = KERNEL_CS /\ seg_dpl d = dpl
  /\ seg_present d = 1 /\ seg_system d = 0 /\ seg_type d = 14.
Proof.
  intros Ho Hd. cbv zeta. unfold gate_offset, gate_selector, seg_dpl, seg_present, seg_system, seg_type, field.
  rewrite !igate_high by done. cbn [low_w high_w igate_init]. rewrite (u32_small offset), low_word by lia.
  change (2 ^ 32) with 4294967296 in *. change (2 ^ 16) with 65536. change (2 ^ 15) with 32768. change (2 ^ 13) with 8192.
  change (2 ^ 12) with 4096. change (2 ^ 8) with 256. change (2 ^ 4) with 16. change (2 ^ 2) with 4. change (2 ^ 1) with 2.
  split_and!; (reflexivity || zdiv).
Qed.

(** ** The interrupt table *)

(** The handler of each vector: 0 to 14 are the exceptions of the processor, 32 to
    47 the lines of the two interrupt controllers, of which the timer (0), the
    keyboard (1), the lowest priority of the first controller (7) and four lines
    of PCI devices have handlers, and 48 is the system call. *)
Definition handler_for (vec : Z) : handler :=
  match vec with
  | 0 => handle_div_zero
  | 1 => handle_debug_exc
  | 2 => handle_nmi
  | 3 => handle_breakpoint
  | 4 => handle_overflow
  | 5 => handle_bound_range_exc
  | 6 => handle_undefined_opcode
  | 7 => handle_no_math
  | 8 => handle_double_fault
  | 9 => handle_co_seg_overrun
  | 10 => handle_invalid_tss
  | 11 => handle_seg_not_present
  | 12 => handle_stack_seg_fault
  | 13 => handle_gen_protect_fault
  | 14 => page_fault_handler_entry
  | 32 => timer_isr_entry
  | 33 => keyboard_isr_entry
  | 37 => pci5_entry
  | 39 => handle_spurious_irq
  | 41 => pci9_entry
  | 42 => pci10_entry
  | 43 => pci11_entry
  | 48 => syscall_entry_interrupt
  | _ => handle_unknown_generic
  end.

(** The least privileged level that may raise the vector with [int]. *)
Definition level (vec : Z) : Z := if vec =? 48 then 3 else 0.

Definition idt_table (fn : handler -> Z) : list descriptor :=
  (fun vec => igate_init KERNEL_CS (fn (handler_for vec)) (level vec) SD_P) <$> seqZ 0 49.

Lemma install_run idt v x pl :
  0 <= v < Z.of_nat (length idt) ->
  install_interrupt_handler v x pl idt = Ret (tt, <[Z.to_nat v := igate_init KERNEL_CS x pl SD_P]> idt).
Proof.
  intros Hv. unfold install_interrupt_handler. by rewrite (proj2 (Z.leb_le _ _)), (proj2 (Z.ltb_lt _ _)) by lia.
Qed.

Lemma fill_run x pl n : forall p rest,
  length rest = n ->
  for_up n (Z.of_nat (length p)) 1 (fun i => install_interrupt_handler i x pl) (p ++ rest)
  = Ret (tt, p ++ replicate n (igate_init KERNEL_CS x pl SD_P)).
Proof.
  induction n as [|n IH]; intros p [|r rest] Hl; try done. cbn [for_up replicate].
  rewrite (bind_step _ _ _ tt (p ++ igate_init KERNEL_CS x pl SD_P :: rest)).
  - rewrite cons_middle, app_assoc. replace (Z.of_nat (length p) + 1)
      with (Z.of_nat (length (p ++ [igate_init KERNEL_CS x pl SD_P]))) by (rewrite length_app; cbn; lia).
    rewrite IH by (cbn in Hl; lia). by rewrite <- app_assoc.
  - rewrite install_run by (rewrite length_app; cbn; lia). rewrite Nat2Z.id.
    by rewrite insert_app_r_alt, Nat.sub_diag by lia.
Qed.

Lemma init_idt_run fn idt0 : length idt0 = 49%nat -> init_idt fn idt0 = Ret (tt, idt_table fn).
Proof.
  intros Hl. unfold init_idt. rewrite (bind_step _ _ _ tt (replicate 49 (igate_init KERNEL_CS (fn handle_unknown_generic) PL0 SD_P))).
  - cbv -[igate_init KERNEL_CS SD_P]. reflexivity.
  - exact (fill_run (fn handle_unknown_generic) PL0 49 [] idt0 Hl).
Qed.

Lemma idt_table_delivers fn vec int_n cpl : (forall h, 0 <= fn h < 2 ^ 32) -> 0 <= cpl < 4 ->
  deliver (idt_table fn) vec int_n cpl
  = if (0 <=? vec) && (vec <? 49) && (negb int_n || (cpl <=? level vec))
    then Handler 8 (fn (handler_for vec)) else Fault.
Proof.
  intros Hfn Hc. unfold deliver. destruct (Z.ltb_spec vec 0).
  { by rewrite (proj2 (Z.leb_gt 0 vec)) by lia. }
  rewrite (proj2 (Z.leb_le 0 vec)) by lia. cbn [andb]. unfold idt_table. rewrite list_lookup_fmap.
  destruct (Z.ltb_spec vec 49) as [Hv|Hv].
  - rewrite lookup_seqZ_lt by lia. cbn [fmap option_fmap option_map andb].
    replace (0 + Z.of_nat (Z.to_nat vec)) with vec by lia.
    assert (Hlv : 0 <= level vec < 4) by (unfold level; destruct (vec =? 48); done).
    destruct (igate_reads_back (fn (handler_for vec)) (level vec) (Hfn _) Hlv) as (-> & -> & -> & -> & -> & ->).
    rewrite !Z.eqb_refl. cbn [andb negb]. destruct int_n; [|done]. cbn [andb negb orb].
    rewrite Z.leb_antisym. by destruct (level vec <? cpl).
  - by rewrite lookup_seqZ_ge by lia.
Qed.

(** [C29] After [init_idt], whatever the table held before, the processor delivers
    every vector below 49 in kernel mode to its handler; an [int] instruction of
    a user program reaches the system call handler and nothing else; other
    vectors fault. *)
Theorem idt_delivers fn idt0 :
  length idt0 = 49%nat -> (forall h, 0 <= fn h < 2 ^ 32) ->
  exists idt, init_idt fn idt0 = Ret (tt, idt)
    /\ forall vec int_n cpl, 0 <= cpl < 4 ->
         deliver idt vec int_n cpl
         = if (0 <=? vec) && (vec <? 49) && (negb int_n || (cpl <=? level vec))
           then Handler 8 (fn (handler_for vec)) else Fault.
Proof.
  intros Hl Hfn. exists (idt_table fn). split; [by apply init_idt_run|]. intros vec int_n cpl Hc. by apply idt_table_delivers.
Qed.

(** The descriptor of the task-state segment that [init_tss] writes, before and
    after [ltr]. *)
Definition tss_descriptor (tss_addr : Z) : descriptor :=
  sd_init tss_addr SIZEOF_TSS PL_KERNEL (Z.lor SD_P SD_TSS).

Lemma tss_available tss_addr : 0 <= tss_addr < 2 ^ 32 -> available_tss (tss_descriptor tss_addr) = true.
Proof.
  intros Ha. destruct (sd_init_reads_back tss_addr SIZEOF_TSS PL_KERNEL 0 1 9) as (_ & _ & _ & P & S & Ty & _); try done.
  unfold available_tss. change (tss_descriptor tss_addr) with (sd_init tss_addr SIZEOF_TSS PL_KERNEL (flag_bits 0 1 9)).
  by rewrite P, S, Ty.
Qed.

Lemma tss_busy tss_addr : 0 <= tss_addr < 2 ^ 32 ->
  busy (tss_descriptor tss_addr) = sd_init tss_addr SIZEOF_TSS PL_KERNEL (flag_bits 0 1 11).
Proof.
  intros Ha. unfold busy, tss_descriptor, sd_init. cbn [low_w high_w high_dw]. f_equal. unfold u32 at 1 4.
  rewrite <- !Z.land_ones by lia. change (Z.shiftl 1 9) with (Z.land (Z.shiftl 1 9) (Z.ones 32)) at 1.
  rewrite <- Z.land_lor_distr_l. f_equal. change (Z.land (flag_bits 0 1 11) SD_FLAGS)
    with (Z.lor (Z.land (Z.lor SD_P SD_TSS) SD_FLAGS) (Z.shiftl 1 9)).
  apply Z.bits_inj'. intros k _. rewrite !Z.lor_spec. btauto.
Qed.

Lemma init_cpu_run tss_addr t r : 0 <= tss_addr < 2 ^ 32 ->
  init_cpu tss_addr (mk_cst gdt t r)
  = Ret (tt, mk_cst (<[5%nat := busy (tss_descriptor tss_addr)]> gdt) (mk_tss 0 0) KERNEL_TSS).
Proof.
  intros Ha. unfold init_cpu, init_tss. rewrite !bind_modify. unfold ltr. cbn [cgdt tss].
  change (Z.to_nat (KERNEL_TSS / 8)) with 5%nat. change (Z.to_nat GI_TSS) with 5%nat. fold (tss_descriptor tss_addr).
  rewrite list_lookup_insert_eq by (cbn; lia). rewrite (tss_available _ Ha). by rewrite list_insert_insert_eq.
Qed.

(** [C32] The segments after [init_cpu]: the four code and data segments are flat,
    4 GB from address 0, those of the kernel with privilege level 0 and those of
    user programs with level 3; [ltr] finds a present and available task-state
    segment, so that it is not refused, and the task register selects its
    descriptor, which is now that of a busy segment at the address of [tss]. *)
Theorem gdt_segments tss_addr t r :
  0 <= tss_addr < 2 ^ 32 ->
  exists s, init_cpu tss_addr (mk_cst gdt t r) = Ret (tt, s)
    /\ (forall sel dpl ty, In (sel, dpl, ty) [(KERNEL_CS, 0, 10); (KERNEL_DS, 0, 2); (PROCESS_CS, 3, 10); (PROCESS_DS, 3, 2)] ->
        exists d, cgdt s !! Z.to_nat (sel / 8) = Some d /\ seg_base d = 0 /\ seg_limit d = 0xfffff /\ seg_flags d = 12
          /\ seg_dpl d = dpl /\ seg_present d = 1 /\ seg_system d = 1 /\ seg_type d = ty)
    /\ exists d, cgdt s !! Z.to_nat (tr s / 8) = Some d /\ seg_base d = tss_addr /\ seg_limit d = 104
         /\ seg_dpl d = 0 /\ seg_present d = 1 /\ seg_system d = 0 /\ seg_type d = 11.
Proof.
  intros Ha. eexists. split; [by apply init_cpu_run|]. split.
  - intros sel dpl ty H. cbn [In] in H.
    destruct H as [H|[H|[H|[H|[]]]]]; injection H as <- <- <-; eexists; (split; [reflexivity|]); by vm_compute.
  - exists (sd_init tss_addr SIZEOF_TSS PL_KERNEL (flag_bits 0 1 11)). split; [cbn [cgdt tr]; by rewrite (tss_busy _ Ha)|].
    by destruct (sd_init_reads_back tss_addr SIZEOF_TSS PL_KERNEL 0 1 11) as (-> & -> & -> & -> & -> & -> & _).
Qed.

(** ** Concrete instances *)

Module Cpu_instances.

Definition linked (h : handler) : Z :=
  match h with syscall_entry_interrupt => 0x8123 | timer_isr_entry => 0x9abcd | _ => 0x8000 end.

Lemma linked_range h : 0 <= linked h < 2 ^ 32.
Proof. destruct h; cbn; lia. Qed.

Lemma sd_init_reads_back_witness :
  seg_base (sd_init 0x12345678 0xabcde 3 (flag_bits 12 1 18)) = 0x12345678
  /\ seg_limit (sd_init 0x12345678 0xabcde 3 (flag_bits 12 1 18)) = 0xabcde.
Proof.
  destruct (sd_init_reads_back 0x12345678 0xabcde 3 12 1 18) as (H1 & H2 & _); [lia..|]. split; [exact H1|exact H2].
Defined.

Lemma idt_delivers_witness :
  exists idt, init_idt linked (replicate 49 (mk_descriptor 0 0 0)) = Ret (tt, idt)
    /\ deliver idt 48 true 3 = Handler 8 0x8123 /\ deliver idt 14 true 3 = Fault /\ deliver idt 32 false 3 = Handler 8 0x9abcd.
Proof.
  destruct (idt_delivers linked (replicate 49 (mk_descriptor 0 0 0)) eq_refl linked_range) as (idt & E & H).
  exists idt. split; [exact E|]. rewrite !H by lia. repeat split.
Defined.

Lemma gdt_segments_witness :
  exists s d, init_cpu 0xbeef0 (mk_cst gdt (mk_tss 1 1) 0) = Ret (tt, s)
    /\ cgdt s !! 5%nat = Some d /\ seg_base d = 0xbeef0.
Proof.
  destruct (gdt_segments 0xbeef0 (mk_tss 1 1) 0) as (s & E & _ & d & Hd & Hb & _); [lia|].
  exists s, d. split; [exact E|]. split; [|exact Hb]. rewrite init_cpu_run in E by lia. injection E as <-. exact Hd.
Defined.

End Cpu_instances.
