(* ===== verification/Pic.v ===== *)
(** * Interrupt controller and timer

    Models [src/src/kernel/hardware/intctl_8259.c], [pit_8235.c] with their
    headers, and [init_int_controller] and [init_pit] of
    [src/src/kernel/interrupt.c].

    The hardware is an interface: [PicPair] is a machine with port I/O and two
    8259 interrupt controllers that react to the command words the driver uses
    as the data sheet says; [two_pics] is one. *)

From S2P Require Import Prelude Cpu.

(** ** The chip *)

(** Mask, in-service and request registers, the vector of its first request
    line, which initialisation word it waits for (0: none), and which register
    the command port reads. *)
Record pic : Type := mk_pic { imr : Z; isr : Z; irr : Z; vbase : Z; icw : nat; read_isr : bool }.

(** A byte written to the command port: the first initialisation word, a
    specific end of interrupt, or the choice of the register to read; [None]
    where this says nothing. *)
Definition pic_cmd (v : Z) (p : pic) : option pic :=
  if v =? 0x11 then Some (mk_pic 0 0 (irr p) (vbase p) 2 false)
  else if (0x60 <=? v) && (v <? 0x68) then
    Some (mk_pic (imr p) (Z.ldiff (isr p) (2 ^ (v - 0x60))) (irr p) (vbase p) (icw p) (read_isr p))
  else if v =? 0x0a then Some (mk_pic (imr p) (isr p) (irr p) (vbase p) (icw p) false)
  else if v =? 0x0b then Some (mk_pic (imr p) (isr p) (irr p) (vbase p) (icw p) true)
  else None.

(** A byte written to the data port: an initialisation word or the mask. *)
Definition pic_data (v : Z) (p : pic) : pic :=
  match icw p with
  | 2%nat => mk_pic (imr p) (isr p) (irr p) (v - v mod 8) 3 (read_isr p)
  | 3%nat => mk_pic (imr p) (isr p) (irr p) (vbase p) 4 (read_isr p)
  | 4%nat => mk_pic (imr p) (isr p) (irr p) (vbase p) 0 (read_isr p)
  | _ => mk_pic v (isr p) (irr p) (vbase p) (icw p) (read_isr p)
  end.

Definition PORT_PIC_MASTER_CMD : Z := 0x20.
Definition PORT_PIC_MASTER_DATA : Z := 0x21.
Definition PORT_PIC_SLAVE_CMD : Z := 0xa0.
Definition PORT_PIC_SLAVE_DATA : Z := 0xa1.

(** [true] is the slave. *)
Definition cmd_port (w : bool) : Z := if w then PORT_PIC_SLAVE_CMD else PORT_PIC_MASTER_CMD.
Definition data_port (w : bool) : Z := if w then PORT_PIC_SLAVE_DATA else PORT_PIC_MASTER_DATA.

Class Ports (T : Type) : Type := {
  outb : Z -> Z -> T -> T;
  inb : Z -> T -> Z * T
}.

Class PicPair (T : Type) `{Ports T} : Type := {
  chip : bool -> T -> pic;
  chip_range w b : 0 <= imr (chip w b) < 256 /\ 0 <= isr (chip w b) < 256;
  out_cmd w v b p :
    0 <= v < 256 -> pic_cmd v (chip w b) = Some p ->
    chip w (outb (cmd_port w) v b) = p /\ chip (negb w) (outb (cmd_port w) v b) = chip (negb w) b;
  out_data w v b :
    0 <= v < 256 ->
    chip w (outb (data_port w) v b) = pic_data v (chip w b)
    /\ chip (negb w) (outb (data_port w) v b) = chip (negb w) b;
  out_other port v b w :
    (forall w', port <> cmd_port w' /\ port <> data_port w') -> chip w (outb port v b) = chip w b;
  in_data w b :
    exists b', inb (data_port w) b = (imr (chip w b), b') /\ forall w', chip w' b' = chip w' b;
  in_cmd w b :
    exists b', inb (cmd_port w) b = (if read_isr (chip w b) then isr (chip w b) else irr (chip w b), b')
      /\ forall w', chip w' b' = chip w' b
}.

(** ** The driver *)

Definition ICW1_INIT : Z := 0x10.
Definition ICW1_NEED_ICW4 : Z := 0x01.
Definition ICW4_MPM_8086 : Z := 0x01.
Definition OCW2_EOI_SPECIFIC : Z := 0x60.
Definition OCW3_READ_ISR : Z := 0x0b.

Definition IRQ_MAX : Z := 15.
Definition IRQ_SLAVE_START : Z := 8.
Definition IRQ_SLAVE_LOWEST_PRIORITY : Z := 15.

Section Driver.

Context {T : Type} `{Ports T}.

Definition out (port v : Z) : M T unit := modify (outb port v).
Definition inp (port : Z) : M T Z := fun b => Ret (inb port b).

Definition pic_irq_bit_single (irq : Z) : Z :=
  if irq <? IRQ_SLAVE_START then u8 (Z.shiftl 1 irq) else u8 (Z.shiftl 1 (irq - IRQ_SLAVE_START)).

Definition pic_irq_data_port (irq : Z) : Z :=
  if irq <? IRQ_SLAVE_START then PORT_PIC_MASTER_DATA else PORT_PIC_SLAVE_DATA.

Definition pic_init_single (cmd irq_start icw3 : Z) : M T unit :=
  let data := cmd + 1 in
  out cmd (Z.lor ICW1_INIT ICW1_NEED_ICW4) ;;;
  out data irq_start ;;;
  out data icw3 ;;;
  out data ICW4_MPM_8086.

Definition pic_init (irq_start : Z) : M T unit :=
  pic_init_single PORT_PIC_MASTER_CMD irq_start (u8 (Z.shiftl 1 IRQ_CASCADE)) ;;;
  pic_init_single PORT_PIC_SLAVE_CMD (u8 (irq_start + IRQ_SLAVE_START)) IRQ_CASCADE.

Definition pic_mask_irq (irq : Z) : M T unit :=
  let port := pic_irq_data_port irq in
  let irq_bit := pic_irq_bit_single irq in
  mask <-- inp port ;;
  out port (Z.lor mask irq_bit).

Definition pic_unmask_irq (irq : Z) : M T unit :=
  let port := pic_irq_data_port irq in
  let irq_bit := pic_irq_bit_single irq in
  mask <-- inp port ;;
  out port (u8 (Z.land mask (Z.lnot irq_bit))).

Definition pic_get_mask : M T Z :=
  m <-- inp PORT_PIC_MASTER_DATA ;;
  s <-- inp PORT_PIC_SLAVE_DATA ;;
  ret (u16 (Z.lor (Z.shiftl s IRQ_SLAVE_START) m)).

Definition pic_set_mask (mask : Z) : M T unit :=
  out PORT_PIC_MASTER_DATA (u8 mask) ;;;
  out PORT_PIC_SLAVE_DATA (u8 (Z.shiftr mask IRQ_SLAVE_START)).

Definition pic_send_eoi (irq : Z) : M T unit :=
  assertk (irq <=? IRQ_MAX) ;;;
  if irq <? IRQ_SLAVE_START then out PORT_PIC_MASTER_CMD (Z.lor OCW2_EOI_SPECIFIC irq)
  else
    let slave_irq := irq - IRQ_SLAVE_START in
    out PORT_PIC_SLAVE_CMD (Z.lor OCW2_EOI_SPECIFIC slave_irq) ;;;
    out PORT_PIC_MASTER_CMD (Z.lor OCW2_EOI_SPECIFIC IRQ_CASCADE).

Definition pic_read_reg (port ocw3 : Z) : M T Z := out port ocw3 ;;; inp port.

Definition pic_check_spurious (irq : Z) : M T bool :=
  let isr_lowest := u8 (Z.shiftl 1 IRQ_MASTER_LOWEST_PRIORITY) in
  if irq =? IRQ_MASTER_LOWEST_PRIORITY then
    isr <-- pic_read_reg PORT_PIC_MASTER_CMD OCW3_READ_ISR ;;
    ret (Z.land isr isr_lowest =? 0)
  else if irq =? IRQ_SLAVE_LOWEST_PRIORITY then
    isr <-- pic_read_reg PORT_PIC_SLAVE_CMD OCW3_READ_ISR ;;
    let is_spurious := Z.land isr isr_lowest =? 0 in
    when is_spurious (pic_send_eoi IRQ_CASCADE) ;;;
    ret is_spurious
  else ret false.

(** *** interrupt.c *)

Definition init_int_controller : M T unit :=
  pic_init IVEC_IRQ_0 ;;;
  pic_set_mask (u16 (Z.lnot IRQS_TO_ENABLE)) ;;;
  out 0x4d0 0x28 ;;;
  out 0x4d1 0x0e.

(** *** pit_8235.c *)

Definition PIT_BASE_HZ : Z := 1193180.
Definition PIT_CH_IRQ : Z := 0.
Definition PIT_RW_LSB_MSB : Z := 3.
Definition PIT_MODE_SQUARE_WAVE : Z := 3.
Definition PIT_BASE2 : Z := 0.
Definition PIT_PORT_CH0 : Z := 0x40.
Definition PIT_PORT_MODE_CMD : Z := 0x43.

Definition pit_cmd_byte (cntr rw mode bcd : Z) : Z :=
  u8 (Z.lor (Z.lor (Z.lor (Z.shiftl cntr 6) (Z.shiftl rw 4)) (Z.shiftl mode 1)) bcd).

(** A frequency of 0 is a division by zero. *)
Definition pit_set_irq_freq (mode target_hz : Z) : M T Z :=
  if target_hz =? 0 then stuck
  else
    let divisor := PIT_BASE_HZ / target_hz in
    out PIT_PORT_MODE_CMD (pit_cmd_byte PIT_CH_IRQ PIT_RW_LSB_MSB mode PIT_BASE2) ;;;
    out PIT_PORT_CH0 (Z.land divisor 0xff) ;;;
    out PIT_PORT_CH0 (Z.land (Z.shiftr divisor 8) 0xff) ;;;
    ret divisor.

Definition PREEMPT_IRQ_TARGET_HZ : Z := 100.
Definition PREEMPT_IRQ_PIT_MODE : Z := PIT_MODE_SQUARE_WAVE.

Definition init_pit : M T unit := pit_set_irq_freq PREEMPT_IRQ_PIT_MODE PREEMPT_IRQ_TARGET_HZ ;;; ret tt.

End Driver.

(** ** What the driver does to the chips *)

Section Facts.

Context {T : Type} `{PicPair T}.
Implicit Types (b : T).

(** Request line [irq] of the pair: its chip and its line there. *)
Definition side (irq : Z) : bool := IRQ_SLAVE_START <=? irq.
Definition line (irq : Z) : Z := irq mod 8.

Definition masked b (irq : Z) : bool := Z.testbit (imr (chip (side irq) b)) (line irq).
Definition in_service b (irq : Z) : bool := Z.testbit (isr (chip (side irq) b)) (line irq).
Definition vector b (irq : Z) : Z := vbase (chip (side irq) b) + line irq.

(** Both chips are initialised. *)
Definition operating b : Prop := forall w, icw (chip w b) = 0%nat.

(** Everything but the masks. *)
Definition same_but_masks b b' : Prop :=
  forall w, isr (chip w b') = isr (chip w b) /\ vbase (chip w b') = vbase (chip w b) /\ icw (chip w b') = icw (chip w b).

Lemma write_mask b w v :
  operating b -> 0 <= v < 256 ->
  imr (chip w (outb (data_port w) v b)) = v
  /\ imr (chip (negb w) (outb (data_port w) v b)) = imr (chip (negb w) b)
  /\ same_but_masks b (outb (data_port w) v b).
Proof.
  intros Ho Hv. destruct (out_data w v b Hv) as [E1 E2]. unfold pic_data in E1. rewrite (Ho w) in E1.
  rewrite E1, E2. split_and!; [done..|]. intros w'. destruct (decide (w' = w)) as [->|Hw].
  - rewrite E1. by rewrite (Ho w).
  - replace w' with (negb w) by (destruct w, w'; done). by rewrite E2.
Qed.

Lemma irq_port irq : pic_irq_data_port irq = data_port (side irq).
Proof. unfold pic_irq_data_port, side. rewrite Z.leb_antisym. by destruct (irq <? IRQ_SLAVE_START). Qed.

Lemma irq_bit irq : 0 <= irq < 16 -> pic_irq_bit_single irq = 2 ^ line irq.
Proof.
  intros Hi. unfold pic_irq_bit_single, IRQ_SLAVE_START, line, u8.
  destruct (Z.ltb_spec irq 8); rewrite Z.shiftl_1_l, Z.mod_small;
    [rewrite Z.mod_small; [done|lia]|split; [lia|apply Z.pow_lt_mono_r; lia]
    |replace irq with (irq - 8 + 1 * 8) at 2 by lia; rewrite Z.mod_add, Z.mod_small; [done|lia|done]
    |split; [lia|apply Z.pow_lt_mono_r; lia]].
Qed.

Lemma line_range irq : 0 <= line irq < 8.
Proof. by apply Z.mod_pos_bound. Qed.

Lemma byte_lor x y : 0 <= x < 256 -> 0 <= y < 256 -> 0 <= Z.lor x y < 256.
Proof.
  intros Hx Hy. split; [apply Z.lor_nonneg; lia|].
  change 256 with (2 ^ 8) in *. destruct (Z.eq_dec (Z.lor x y) 0) as [->|Hne]; [done|].
  assert (0 <= Z.lor x y) by (apply Z.lor_nonneg; lia).
  apply Z.log2_lt_pow2; [lia|]. rewrite Z.log2_lor by lia. apply Z.max_lub_lt.
  - destruct (Z.eq_dec x 0) as [->|]; [done|]. apply Z.log2_lt_pow2; lia.
  - destruct (Z.eq_dec y 0) as [->|]; [done|]. apply Z.log2_lt_pow2; lia.
Qed.

Lemma pow_line irq : 0 <= 2 ^ line irq < 256.
Proof. pose proof (line_range irq). split; [lia|]. change 256 with (2 ^ 8). apply Z.pow_lt_mono_r; lia. Qed.

(** Two request lines on the same chip are different lines. *)
Lemma same_line i j : 0 <= i < 16 -> 0 <= j < 16 -> side i = side j -> (line i =? line j) = (i =? j).
Proof.
  unfold side, line, IRQ_SLAVE_START. intros Hi Hj Hs. apply Bool.eq_true_iff_eq. rewrite !Z.eqb_eq.
  split; [|by intros ->]. revert Hs. destruct (Z.leb_spec 8 i), (Z.leb_spec 8 j); intros Hs; try done; zdiv.
Qed.

(** Reading the mask of a line, changing it and writing it back. *)
Lemma change_mask_run b irq (f : Z -> Z) (g : bool -> bool) (m : M T unit) :
  operating b -> 0 <= irq < 16 ->
  m = (mask <-- inp (pic_irq_data_port irq) ;; out (pic_irq_data_port irq) (f mask)) ->
  (forall x, 0 <= x < 256 -> 0 <= f x < 256 /\ forall j, 0 <= j < 8 ->
     Z.testbit (f x) j = if j =? line irq then g (Z.testbit x j) else Z.testbit x j) ->
  exists b', m b = Ret (tt, b') /\ same_but_masks b b'
    /\ forall j, 0 <= j < 16 -> masked b' j = if j =? irq then g (masked b j) else masked b j.
Proof.
  intros Ho Hi -> Hf. rewrite irq_port. destruct (in_data (side irq) b) as (b1 & E1 & Hc).
  set (x := imr (chip (side irq) b)) in *. destruct (chip_range (side irq) b) as [Hx _]. fold x in Hx.
  destruct (Hf x Hx) as [Hr Hbit].
  assert (Ho1 : operating b1) by (intros w; by rewrite Hc).
  destruct (write_mask b1 (side irq) (f x) Ho1 Hr) as (W1 & W2 & W3).
  eexists. split; [unfold inp at 1; by rewrite (bind_step _ _ _ x b1) by (by rewrite E1)|]. split.
  - intros w. rewrite <- (Hc w). apply W3.
  - intros j Hj. unfold masked. destruct (decide (side j = side irq)) as [Hs|Hs].
    + rewrite Hs, W1, Hbit by apply line_range. by rewrite (same_line j irq) by done.
    + replace (side j) with (negb (side irq)) by (destruct (side j), (side irq); done). rewrite W2, Hc.
      rewrite (proj2 (Z.eqb_neq j irq)) by congruence. done.
Qed.

Lemma testbit_pow i j : 0 <= i -> Z.testbit (2 ^ i) j = (j =? i).
Proof. intros Hi. rewrite Z.pow2_bits_eqb by done. apply Z.eqb_sym. Qed.

Lemma mask_irq_run b irq :
  operating b -> 0 <= irq < 16 ->
  exists b', pic_mask_irq irq b = Ret (tt, b') /\ same_but_masks b b'
    /\ forall j, 0 <= j < 16 -> masked b' j = if j =? irq then true else masked b j.
Proof.
  intros Ho Hi. apply (change_mask_run b irq (fun x => Z.lor x (pic_irq_bit_single irq)) (fun _ => true)); [done..|].
  intros x Hx. rewrite irq_bit by done. split; [apply byte_lor; [done|apply pow_line]|]. intros j Hj.
  rewrite Z.lor_spec, testbit_pow by apply line_range. destruct (j =? line irq); [by rewrite orb_true_r|by rewrite orb_false_r].
Qed.

Lemma unmask_irq_run b irq :
  operating b -> 0 <= irq < 16 ->
  exists b', pic_unmask_irq irq b = Ret (tt, b') /\ same_but_masks b b'
    /\ forall j, 0 <= j < 16 -> masked b' j = if j =? irq then false else masked b j.
Proof.
  intros Ho Hi. apply (change_mask_run b irq (fun x => u8 (Z.land x (Z.lnot (pic_irq_bit_single irq)))) (fun _ => false)); [done..|].
  intros x Hx. rewrite irq_bit by done. split; [apply u8_range|]. intros j Hj. unfold u8.
  rewrite Z.mod_pow2_bits_low, Z.land_spec, Z.lnot_spec, testbit_pow by (apply line_range || lia).
  destruct (j =? line irq); [by rewrite andb_false_r|by rewrite andb_true_r].
Qed.

(** An end of interrupt on one chip. *)
Lemma eoi_write b w n :
  0 <= n < 8 ->
  let b' := outb (cmd_port w) (Z.lor OCW2_EOI_SPECIFIC n) b in
  chip (negb w) b' = chip (negb w) b /\ imr (chip w b') = imr (chip w b) /\ vbase (chip w b') = vbase (chip w b)
  /\ icw (chip w b') = icw (chip w b)
  /\ forall j, Z.testbit (isr (chip w b')) j = negb (j =? n) && Z.testbit (isr (chip w b)) j.
Proof.
  intros Hn. cbv zeta. assert (E : Z.lor OCW2_EOI_SPECIFIC n = 0x60 + n).
  { apply (lor_comm_add n OCW2_EOI_SPECIFIC 3); [lia|done|reflexivity]. }
  rewrite E. destruct (out_cmd w (0x60 + n) b (mk_pic (imr (chip w b)) (Z.ldiff (isr (chip w b)) (2 ^ n))
    (irr (chip w b)) (vbase (chip w b)) (icw (chip w b)) (read_isr (chip w b)))) as [E1 E2]; [lia| |].
  { unfold pic_cmd. rewrite (proj2 (Z.eqb_neq _ _)), (proj2 (Z.leb_le _ _)), (proj2 (Z.ltb_lt _ _)) by lia. cbn [andb].
    by replace (0x60 + n - 0x60) with n by lia. }
  rewrite E1, E2. split_and!; [done..|]. intros j. cbn [isr]. rewrite Z.ldiff_spec, testbit_pow by lia.
  by rewrite andb_comm.
Qed.

(** Masks and vectors are unchanged. *)
Definition same_but_service b b' : Prop :=
  forall w, imr (chip w b') = imr (chip w b) /\ vbase (chip w b') = vbase (chip w b) /\ icw (chip w b') = icw (chip w b).

Lemma side_low i : i < 8 -> side i = false.
Proof. intros. by apply Z.leb_gt. Qed.

Lemma side_high i : 8 <= i -> side i = true.
Proof. intros. by apply Z.leb_le. Qed.

Lemma line_low i : 0 <= i < 8 -> line i = i.
Proof. intros. by apply Z.mod_small. Qed.

Lemma line_high i : 8 <= i < 16 -> line i = i - 8.
Proof. intros. unfold line. zdiv. Qed.

Lemma send_eoi_run b irq :
  0 <= irq < 16 ->
  exists b', pic_send_eoi irq b = Ret (tt, b') /\ same_but_service b b'
    /\ forall j, 0 <= j < 16 ->
         in_service b' j = in_service b j && negb (j =? irq) && negb ((8 <=? irq) && (j =? IRQ_CASCADE)).
Proof.
  intros Hi. unfold pic_send_eoi. rewrite bind_assertk_true by (apply Z.leb_le; unfold IRQ_MAX; lia).
  unfold IRQ_SLAVE_START. destruct (Z.ltb_spec irq 8) as [Hl|Hl].
  - destruct (eoi_write b false irq) as (E0 & E1 & E2 & E3 & E4); [lia|]. cbn [negb cmd_port] in *.
    eexists. split; [reflexivity|]. split.
    + intros []; [by rewrite E0|by split_and!].
    + intros j Hj. unfold in_service. rewrite (proj2 (Z.leb_gt 8 irq)) by lia. cbn [andb]. rewrite andb_true_r.
      destruct (Z.lt_ge_cases j 8).
      * rewrite side_low, line_low by lia. rewrite E4. by rewrite andb_comm.
      * rewrite side_high by lia. rewrite E0.
        rewrite (proj2 (Z.eqb_neq j irq)) by lia. by rewrite andb_true_r.
  - destruct (eoi_write b true (irq - 8)) as (E0 & E1 & E2 & E3 & E4); [lia|].
    set (b1 := outb _ _ b) in *. destruct (eoi_write b1 false IRQ_CASCADE) as (F0 & F1 & F2 & F3 & F4); [done|].
    cbn [negb cmd_port] in *. eexists. split; [reflexivity|]. fold b1. split.
    + intros []; [by rewrite F0|]. rewrite F1, F2, F3, E0. done.
    + intros j Hj. unfold in_service. rewrite (proj2 (Z.leb_le 8 irq)) by lia. cbn [andb].
      destruct (Z.lt_ge_cases j 8).
      * rewrite side_low, line_low by lia. rewrite F4, E0.
        rewrite (proj2 (Z.eqb_neq j irq)) by lia. rewrite andb_true_r. by rewrite andb_comm.
      * rewrite side_high, line_high by lia. rewrite F0, E4. rewrite (proj2 (Z.eqb_neq j IRQ_CASCADE)) by (unfold IRQ_CASCADE; lia).
        rewrite andb_true_r, andb_comm. f_equal. f_equal. apply Bool.eq_true_iff_eq. rewrite !Z.eqb_eq. lia.
Qed.

Lemma init_single_run b w start icw3 :
  0 <= start < 256 -> 0 <= icw3 < 256 ->
  exists b', pic_init_single (cmd_port w) start icw3 b = Ret (tt, b')
    /\ chip w b' = mk_pic 0 0 (irr (chip w b)) (start - start mod 8) 0 false
    /\ chip (negb w) b' = chip (negb w) b.
Proof.
  intros Hs Hi. unfold pic_init_single. cbv zeta.
  replace (cmd_port w + 1) with (data_port w) by (by destruct w).
  destruct (out_cmd w 0x11 b (mk_pic 0 0 (irr (chip w b)) (vbase (chip w b)) 2 false)) as [A1 A2]; [lia|done|].
  set (b1 := outb (cmd_port w) 0x11 b) in *.
  destruct (out_data w start b1 Hs) as [B1 B2]. set (b2 := outb (data_port w) start b1) in *.
  destruct (out_data w icw3 b2 Hi) as [C1 C2]. set (b3 := outb (data_port w) icw3 b2) in *.
  destruct (out_data w 1 b3 ltac:(lia)) as [D1 D2].
  exists (outb (data_port w) 1 b3). split; [reflexivity|].
  split; [|by rewrite D2, C2, B2, A2]. rewrite D1, C1, B1, A1. done.
Qed.

Lemma other_port port v b : port ∉ [0x20; 0x21; 0xa0; 0xa1] -> forall w, chip w (outb port v b) = chip w b.
Proof.
  intros Hp w. apply out_other. intros w'. rewrite !not_elem_of_cons in Hp.
  destruct Hp as (H1 & H2 & H3 & H4 & _). by destruct w'.
Qed.

Lemma set_mask_run b mask :
  operating b -> 0 <= mask < 2 ^ 16 ->
  exists b', pic_set_mask mask b = Ret (tt, b') /\ same_but_masks b b'
    /\ imr (chip false b') = mask mod 256 /\ imr (chip true b') = mask / 256.
Proof.
  intros Ho Hm. unfold pic_set_mask. eexists. split; [reflexivity|].
  assert (E : u8 (Z.shiftr mask IRQ_SLAVE_START) = mask / 256).
  { unfold IRQ_SLAVE_START. rewrite Z.shiftr_div_pow2 by lia. change (2 ^ 8) with 256. apply u8_small.
    change (2 ^ 16) with 65536 in Hm. zdiv. }
  rewrite E. destruct (write_mask b false (u8 mask) Ho (u8_range _)) as (A1 & A2 & A3).
  cbn [negb data_port] in *. set (b1 := outb _ _ b) in *.
  assert (Ho1 : operating b1) by (intros w; destruct (A3 w) as (_ & _ & ->); apply Ho).
  destruct (write_mask b1 true (mask / 256) Ho1) as (B1 & B2 & B3); [change (2 ^ 16) with 65536 in Hm; zdiv|].
  cbn [negb data_port] in *. split; [|by rewrite B1, B2].
  intros w. destruct (A3 w) as (? & ? & ?), (B3 w) as (? & ? & ?). split_and!; congruence.
Qed.

(** ** Theorems *)

(** [pic_mask_irq] and [pic_unmask_irq] change the mask of exactly the given
    request line of the pair; [pic_get_mask] returns what [pic_set_mask] set. *)
Theorem pic_masks_lines b irq mask :
  operating b -> 0 <= irq < 16 -> 0 <= mask < 2 ^ 16 ->
  (exists b', pic_mask_irq irq b = Ret (tt, b') /\ same_but_masks b b'
     /\ forall j, 0 <= j < 16 -> masked b' j = if j =? irq then true else masked b j)
  /\ (exists b', pic_unmask_irq irq b = Ret (tt, b') /\ same_but_masks b b'
     /\ forall j, 0 <= j < 16 -> masked b' j = if j =? irq then false else masked b j)
  /\ (exists b1 b2, pic_set_mask mask b = Ret (tt, b1) /\ pic_get_mask b1 = Ret (mask, b2)
     /\ (forall j, 0 <= j < 16 -> masked b1 j = Z.testbit mask j) /\ forall w, chip w b2 = chip w b1).
Proof.
  intros Ho Hi Hm. split; [by apply mask_irq_run|]. split; [by apply unmask_irq_run|].
  destruct (set_mask_run b mask Ho Hm) as (b1 & E1 & _ & M1 & M2).
  destruct (in_data false b1) as (b2 & E2 & C2), (in_data true b2) as (b3 & E3 & C3).
  exists b1, b3. split; [done|]. split_and!.
  - unfold pic_get_mask. unfold inp at 1. rewrite (bind_step _ _ _ (imr (chip false b1)) b2) by (by rewrite <- E2).
    unfold inp at 1. rewrite (bind_step _ _ _ (imr (chip true b2)) b3) by (by rewrite <- E3). rewrite C2, M1, M2.
    unfold ret. do 2 f_equal. unfold IRQ_SLAVE_START. rewrite Z.shiftl_mul_pow2 by lia.
    rewrite (lor_comm_add (mask mod 256) (mask / 256 * 2 ^ 8) 8); [|lia|apply Z.mod_pos_bound; lia|apply Z.mod_mul; lia].
    change (2 ^ 8) with 256. unfold u16. rewrite Z.mod_small; change (2 ^ 16) with 65536 in *; zdiv.
  - intros j Hj. unfold masked. destruct (Z.lt_ge_cases j 8).
    + rewrite side_low, line_low, M1 by lia. change 256 with (2 ^ 8). by rewrite Z.mod_pow2_bits_low by lia.
    + rewrite side_high, line_high, M2 by lia. change 256 with (2 ^ 8). rewrite Z.div_pow2_bits by lia. f_equal. lia.
  - intros w. by rewrite C3, C2.
Qed.

(** [init_int_controller], from any state of the hardware: request line [j]
    arrives at vector [32 + j], and exactly the timer, the keyboard, the
    cascade, the lines of the USB controllers and line 7 are enabled. *)
Theorem init_int_controller_lines b :
  exists b', init_int_controller b = Ret (tt, b') /\ operating b'
    /\ forall j, 0 <= j < 16 ->
         vector b' j = IVEC_IRQ_0 + j /\ in_service b' j = false
         /\ masked b' j = negb (bool_decide (j ∈ [0; 1; 2; 5; 7; 9; 10; 11])).
Proof.
  destruct (init_single_run b false IVEC_IRQ_0 (u8 (Z.shiftl 1 IRQ_CASCADE))) as (b1 & E1 & A1 & A2); [done|done|].
  destruct (init_single_run b1 true (u8 (IVEC_IRQ_0 + IRQ_SLAVE_START)) IRQ_CASCADE) as (b2 & E2 & B1 & B2); [done|done|].
  cbn [negb] in *.
  assert (Ho : operating b2) by (intros []; [by rewrite B1|by rewrite B2, A1]).
  destruct (set_mask_run b2 (u16 (Z.lnot IRQS_TO_ENABLE)) Ho) as (b3 & E3 & S3 & M1 & M2); [done|].
  eexists. split.
  { unfold init_int_controller, pic_init. rewrite bind_assoc, (bind_step _ _ _ _ _ E1), (bind_step _ _ _ _ _ E2).
    rewrite (bind_step _ _ _ _ _ E3). reflexivity. }
  set (b4 := outb 0x4d0 0x28 b3). set (b5 := outb 0x4d1 0x0e b4).
  assert (Hc : forall w, chip w b5 = chip w b3).
  { intros w. unfold b5, b4. rewrite !other_port; [done|..]; apply (bool_decide_unpack _); by vm_compute. }
  split; [intros w; rewrite Hc; destruct (S3 w) as (_ & _ & ->); apply Ho|].
  intros j Hj. unfold vector, in_service, masked. rewrite Hc. destruct (S3 (side j)) as (-> & -> & _).
  destruct (Z.lt_ge_cases j 8).
  - rewrite side_low, line_low, M1, B2, A1 by lia. cbn [vbase isr]. rewrite Z.testbit_0_l. split_and!; [done..|].
    assert (Hjs : j = 0 \/ j = 1 \/ j = 2 \/ j = 3 \/ j = 4 \/ j = 5 \/ j = 6 \/ j = 7) by lia.
    by destruct_or! Hjs; subst j; vm_compute.
  - rewrite side_high, line_high, M2, B1 by lia. cbn [vbase isr]. rewrite Z.testbit_0_l.
    split_and!; [change (40 + (j - 8) = 32 + j); lia|done|].
    assert (Hjs : j = 8 \/ j = 9 \/ j = 10 \/ j = 11 \/ j = 12 \/ j = 13 \/ j = 14 \/ j = 15) by lia.
    by destruct_or! Hjs; subst j; vm_compute.
Qed.

Lemma read_isr_run b w :
  exists b', pic_read_reg (cmd_port w) OCW3_READ_ISR b = Ret (isr (chip w b), b')
    /\ forall w', isr (chip w' b') = isr (chip w' b) /\ imr (chip w' b') = imr (chip w' b)
       /\ vbase (chip w' b') = vbase (chip w' b) /\ icw (chip w' b') = icw (chip w' b).
Proof.
  destruct (out_cmd w OCW3_READ_ISR b (mk_pic (imr (chip w b)) (isr (chip w b)) (irr (chip w b)) (vbase (chip w b))
    (icw (chip w b)) true)) as [E1 E2]; [done|done|].
  set (b1 := outb (cmd_port w) OCW3_READ_ISR b) in *. destruct (in_cmd w b1) as (b2 & E3 & Hc).
  rewrite E1 in E3. cbn [read_isr isr] in E3. exists b2. split.
  - unfold pic_read_reg, out. rewrite bind_modify. fold b1. unfold inp. by rewrite E3.
  - intros w'. rewrite Hc. destruct (decide (w' = w)) as [->|Hw]; [by rewrite E1|].
    replace w' with (negb w) by (destruct w, w'; done). by rewrite E2.
Qed.

Lemma bit7 x : (Z.land x (u8 (Z.shiftl 1 7)) =? 0) = negb (Z.testbit x 7).
Proof.
  change (u8 (Z.shiftl 1 7)) with (2 ^ 7).
  destruct (Z.testbit x 7) eqn:E.
  - apply Z.eqb_neq. intros H1. assert (Ht : Z.testbit (Z.land x (2 ^ 7)) 7 = true) by (by rewrite Z.land_spec, E).
    by rewrite H1 in Ht.
  - apply Z.eqb_eq, Z.bits_inj'. intros i Hi. rewrite Z.land_spec, Z.bits_0, testbit_pow by lia.
    destruct (Z.eqb_spec i 7) as [->|]; [by rewrite E|by rewrite andb_false_r].
Qed.

(** [pic_check_spurious]: an interrupt on the lowest line of a chip is
    spurious when the chip has it not in service; for the slave, the cascade
    line of the master is acknowledged then; nothing else changes. *)
Theorem pic_check_spurious_spec b irq :
  0 <= irq < 16 ->
  exists b', pic_check_spurious irq b = Ret (((irq =? 7) || (irq =? 15)) && negb (in_service b irq), b')
    /\ same_but_service b b'
    /\ forall j, 0 <= j < 16 -> in_service b' j
         = in_service b j && negb ((irq =? 15) && (j =? IRQ_CASCADE) && negb (in_service b irq)).
Proof.
  intros Hi. unfold pic_check_spurious. cbv zeta. unfold IRQ_MASTER_LOWEST_PRIORITY, IRQ_SLAVE_LOWEST_PRIORITY.
  destruct (Z.eqb_spec irq 7) as [->|H7].
  - destruct (read_isr_run b false) as (b1 & E1 & Hc). cbn [cmd_port] in E1. rewrite (bind_step _ _ _ _ _ E1), bit7. exists b1.
    split; [done|]. split; [intros w; apply (Hc w)|]. intros j Hj. unfold in_service.
    destruct (Hc (side j)) as (-> & _). cbn [Z.eqb Pos.eqb andb negb]. by rewrite andb_true_r.
  - destruct (Z.eqb_spec irq 15) as [->|H15]; cbn [orb andb].
    + destruct (read_isr_run b true) as (b1 & E1 & Hc). cbn [cmd_port] in E1. rewrite (bind_step _ _ _ _ _ E1), bit7.
      change (Z.testbit (isr (chip true b)) 7) with (in_service b 15). destruct (in_service b 15) eqn:Es; cbn [negb when].
      * exists b1. split; [done|]. split; [intros w; apply (Hc w)|]. intros j Hj. unfold in_service.
        destruct (Hc (side j)) as (-> & _). by rewrite andb_false_r, andb_true_r.
      * destruct (send_eoi_run b1 IRQ_CASCADE) as (b2 & E2 & S2 & H2); [done|].
        rewrite (bind_step _ _ _ _ _ E2). exists b2. split; [done|]. split.
        { intros w. destruct (S2 w) as (-> & -> & ->). apply (Hc w). }
        intros j Hj. rewrite (H2 j Hj). unfold in_service. destruct (Hc (side j)) as (-> & _).
        cbn [Z.leb Z.compare IRQ_CASCADE Pos.compare Pos.compare_cont andb negb]. by rewrite !andb_true_r.
    + exists b. split; [done|]. split; [done|]. intros j Hj. by rewrite andb_true_r.
Qed.

End Facts.

(** ** A concrete machine *)

Module Pic_instances.

Definition norm (p : pic) : pic := mk_pic (u8 (imr p)) (u8 (isr p)) (irr p) (vbase p) (icw p) (read_isr p).

(** Two chips and nothing else. *)
Record two_pics : Type := mk_pics { master : pic; slave : pic }.

Definition the_chip (w : bool) (b : two_pics) : pic := norm (if w then slave b else master b).
Definition set_chip (w : bool) (p : pic) (b : two_pics) : two_pics :=
  if w then mk_pics (master b) p else mk_pics p (slave b).

#[global] Instance two_pics_ports : Ports two_pics := {
  outb port v b :=
    if port =? 0x20 then default b ((fun p => set_chip false p b) <$> pic_cmd v (the_chip false b))
    else if port =? 0xa0 then default b ((fun p => set_chip true p b) <$> pic_cmd v (the_chip true b))
    else if port =? 0x21 then set_chip false (pic_data v (the_chip false b)) b
    else if port =? 0xa1 then set_chip true (pic_data v (the_chip true b)) b
    else b;
  inb port b :=
    (if port =? 0x21 then imr (the_chip false b)
     else if port =? 0xa1 then imr (the_chip true b)
     else if port =? 0x20 then if read_isr (the_chip false b) then isr (the_chip false b) else irr (the_chip false b)
     else if port =? 0xa0 then if read_isr (the_chip true b) then isr (the_chip true b) else irr (the_chip true b)
     else 0, b)
}.

Lemma norm_small p : 0 <= imr p < 256 -> 0 <= isr p < 256 -> norm p = p.
Proof. intros. destruct p. unfold norm. cbn in *. by rewrite !u8_small. Qed.

Lemma ldiff_byte x y : 0 <= x < 256 -> 0 <= y -> 0 <= Z.ldiff x y < 256.
Proof.
  intros Hx Hy. replace (Z.ldiff x y) with (Z.ldiff x y mod 2 ^ 8); [by apply Z.mod_pos_bound|].
  apply Z.bits_inj'. intros i Hi. destruct (Z.lt_ge_cases i 8).
  - by rewrite Z.mod_pow2_bits_low by lia.
  - rewrite Z.mod_pow2_bits_high, Z.ldiff_spec by lia.
    rewrite <- (Z.mod_small x (2 ^ 8)), Z.mod_pow2_bits_high by (done || lia). done.
Qed.

Lemma cmd_norm v p q : 0 <= v < 256 -> pic_cmd v (norm p) = Some q -> norm q = q.
Proof.
  intros Hv E. pose proof (u8_range (imr p)). pose proof (u8_range (isr p)). unfold pic_cmd in E.
  destruct (v =? 0x11); [injection E as <-; by apply norm_small|].
  destruct ((0x60 <=? v) && (v <? 0x68)); [injection E as <-; apply norm_small; [done|apply ldiff_byte; [done|apply Z.pow_nonneg; lia]]|].
  destruct (v =? 0x0a); [injection E as <-; by apply norm_small|].
  destruct (v =? 0x0b); [injection E as <-; by apply norm_small|done].
Qed.

Lemma data_norm v p : 0 <= v < 256 -> norm (pic_data v (norm p)) = pic_data v (norm p).
Proof.
  intros Hv. pose proof (u8_range (imr p)). pose proof (u8_range (isr p)).
  unfold pic_data. destruct (icw (norm p)) as [|[|[|[|[|]]]]]; by apply norm_small.
Qed.

#[global] Program Instance two_pics_pair : PicPair two_pics := { chip := the_chip }.
Next Obligation. intros w b. split; apply u8_range. Qed.
Next Obligation.
  intros w v b p Hv E. assert (Hn : norm p = p) by (by eapply cmd_norm).
  destruct w; cbn in *; unfold the_chip in *; cbn [negb] in *; rewrite E; by cbn.
Qed.
Next Obligation.
  intros w v b Hv. destruct w; (split; [|done]); by apply data_norm.
Qed.
Next Obligation.
  intros port v b w Hp. pose proof (Hp true) as [H1 H2]. pose proof (Hp false) as [H3 H4].
  cbn in *. unfold PORT_PIC_MASTER_CMD, PORT_PIC_MASTER_DATA, PORT_PIC_SLAVE_CMD, PORT_PIC_SLAVE_DATA in *.
  by rewrite !(proj2 (Z.eqb_neq port 0x20)), (proj2 (Z.eqb_neq port 0xa0)), (proj2 (Z.eqb_neq port 0x21)), (proj2 (Z.eqb_neq port 0xa1)).
Qed.
Next Obligation. intros w b. exists b. by destruct w. Qed.
Next Obligation. intros w b. exists b. by destruct w. Qed.

Definition running : two_pics := mk_pics (mk_pic 0xff 0x80 0 32 0 false) (mk_pic 0x0f 0 0 40 0 false).

Lemma running_operating : operating running.
Proof. by intros []. Qed.

Lemma pic_masks_lines_witness :
  exists b b1 b2, pic_unmask_irq 1 running = Ret (tt, b) /\ masked b 1 = false
    /\ pic_set_mask 0xabcd running = Ret (tt, b1) /\ pic_get_mask b1 = Ret (0xabcd, b2).
Proof.
  destruct (pic_masks_lines running 1 0xabcd running_operating) as (_ & (b & E & _ & H) & b1 & b2 & E1 & E2 & _); [lia|lia|].
  exists b, b1, b2. split; [exact E|]. split; [by rewrite H by lia|]. split; [exact E1|exact E2].
Defined.

Lemma pic_check_spurious_spec_witness :
  exists b b', pic_check_spurious 7 running = Ret (false, b) /\ pic_check_spurious 15 running = Ret (true, b').
Proof.
  destruct (pic_check_spurious_spec running 7) as (b & E & _); [lia|].
  destruct (pic_check_spurious_spec running 15) as (b' & E' & _); [lia|].
  exists b, b'. split; [exact E|exact E'].
Defined.

End Pic_instances.
