(* ===== verification/Time.v ===== *)
(** * Calibration of the time-stamp counter

    Models [src/src/kernel/time.c] and [time.h]: the speed of the processor is
    measured against 50 ms of the interval timer.  The values that port 0x61 and
    the time-stamp counter deliver are parameters; the bytes written to ports
    are recorded.  A [divl] whose quotient does not fit 32 bits is a fault,
    which is [Halt].  The numbers that are only printed are left out. *)

From S2P Require Import Prelude.

Definition HZ : Z := 100.
Definition CLOCK_TICK_RATE : Z := 1193180.
Definition LATCH : Z := (CLOCK_TICK_RATE + HZ / 2) / HZ.
Definition CALIBRATE_LATCH : Z := 5 * LATCH.
Definition CALIBRATE_TIME : Z := 5 * 1000020 / HZ.

(** [cpu_mhz], the bytes written to ports, and how often port 0x61 and the
    counter have been read. *)
Record clock_state : Type := mk_clock { mhz : Z; written : list (Z * Z); port_reads : nat; counter_reads : nat }.

Section Calibrate.

Context (port61 : nat -> Z) (tsc : nat -> Z).

Definition outb (port v : Z) : M clock_state unit :=
  modify (fun s => mk_clock (mhz s) (written s ++ [(port, v)]) (port_reads s) (counter_reads s)).

Definition inb_61 : M clock_state Z :=
  fun s => Ret (u8 (port61 (port_reads s)), mk_clock (mhz s) (written s) (S (port_reads s)) (counter_reads s)).

(** [rdtsc(low, high)] *)
Definition rdtsc : M clock_state (Z * Z) :=
  fun s => let x := tsc (counter_reads s) mod 2 ^ 64 in
           Ret ((x mod 2 ^ 32, x / 2 ^ 32), mk_clock (mhz s) (written s) (port_reads s) (S (counter_reads s))).

(** [divl d] of [edx:eax]: the quotient. *)
Definition divl (edx eax d : Z) : M clock_state Z :=
  if (d =? 0) || (2 ^ 32 <=? (edx * 2 ^ 32 + eax) / d) then halt
  else ret ((edx * 2 ^ 32 + eax) / d).

(** [do count++; while ((inb(0x61) & 0x20) == 0);] *)
Fixpoint count_loop (fuel : nat) (count : Z) : M clock_state Z :=
  match fuel with
  | O => out_of_fuel
  | S f =>
      let count := u32 (count + 1) in
      x <-- inb_61 ;;
      if Z.land x 0x20 =? 0 then count_loop f count else ret count
  end.

Definition calibrate_tsc (fuel : nat) : M clock_state Z :=
  x <-- inb_61 ;;
  outb 0x61 (u8 (Z.lor (Z.land x (Z.lnot 0x02)) 0x01)) ;;;
  outb 0x43 0xb0 ;;;
  outb 0x42 (Z.land CALIBRATE_LATCH 0xff) ;;;
  outb 0x42 (u8 (Z.shiftr CALIBRATE_LATCH 8)) ;;;
  start <-- rdtsc ;;
  count <-- count_loop fuel 0 ;;
  stop <-- rdtsc ;;
  if count <=? 1 then ret 0
  else
    let d := ((snd stop - snd start) * 2 ^ 32 + (fst stop - fst start)) mod 2 ^ 64 in
    let endlow := d mod 2 ^ 32 in
    let endhigh := d / 2 ^ 32 in
    if truth endhigh then ret 0
    else if endlow <=? CALIBRATE_TIME then ret 0
    else divl CALIBRATE_TIME 0 endlow.

Definition time_init (fuel : nat) : M clock_state unit :=
  tsc_quotient <-- calibrate_tsc fuel ;;
  if truth tsc_quotient then
    cpu_khz <-- divl 1000 0 tsc_quotient ;;
    modify (fun s => mk_clock (cpu_khz / 1000) (written s) (port_reads s) (counter_reads s))
  else modify (fun s => mk_clock 500 (written s) (port_reads s) (counter_reads s)).

Definition cpuspeed : M clock_state Z := gets (fun s => s32 (mhz s)).

(** ** Accuracy *)

(** The loop ends at the first reading with the bit set, the [n]-th of the loop. *)
Lemma count_loop_run n : forall fuel count s,
  (n < fuel)%nat -> 0 <= count -> count + Z.of_nat n + 1 < 2 ^ 32 ->
  (forall i, (i < n)%nat -> Z.land (u8 (port61 (port_reads s + i))) 0x20 = 0) ->
  Z.land (u8 (port61 (port_reads s + n))) 0x20 <> 0 ->
  count_loop fuel count s
  = Ret (count + Z.of_nat n + 1, mk_clock (mhz s) (written s) (port_reads s + n + 1) (counter_reads s)).
Proof.
  induction n as [|n IH]; intros fuel count s Hf Hc Hb Hlo Hhi; (destruct fuel as [|fuel]; [lia|]); cbn [count_loop]; cbv zeta.
  - rewrite Nat.add_0_r in Hhi. unfold inb_61, bind. rewrite (proj2 (Z.eqb_neq _ _)) by done.
    rewrite u32_small by lia. unfold ret. do 3 f_equal; lia.
  - pose proof (Hlo 0%nat ltac:(lia)) as H0. rewrite Nat.add_0_r in H0.
    unfold inb_61 at 1, bind at 1. rewrite H0. cbn [Z.eqb]. rewrite u32_small by lia.
    rewrite IH; cbn [port_reads mhz written counter_reads]; [|lia|lia|lia| |].
    + do 2 f_equal; [lia|]. f_equal. lia.
    + intros i Hi. specialize (Hlo (S i) ltac:(lia)). by replace (S (port_reads s) + i)%nat with (port_reads s + S i)%nat by lia.
    + by replace (S (port_reads s) + n)%nat with (port_reads s + S n)%nat by lia.
Qed.

(** The two quotients, for [d] ticks in the calibration time: neither overflows,
    and the result in kHz is at least the true value, rounded down, and exceeds
    it by at most 20 ppm. *)
Lemma quotient_bounds d :
  CALIBRATE_TIME < d < 2 ^ 32 ->
  let q := CALIBRATE_TIME * 2 ^ 32 / d in
  let khz := 1000 * 2 ^ 32 / q in
  CALIBRATE_TIME <= q < 2 ^ 32 /\ khz < 2 ^ 32
  /\ 1000 * d / CALIBRATE_TIME <= khz /\ khz * CALIBRATE_TIME * 50001 <= 1000 * d * 50002.
Proof.
  change CALIBRATE_TIME with 50001. change (2 ^ 32) with 4294967296. intros Hd. cbv zeta.
  pose proof (Z.div_mod (50001 * 4294967296) d ltac:(lia)) as Eq.
  pose proof (Z.mod_pos_bound (50001 * 4294967296) d ltac:(lia)) as Bq.
  set (q := 50001 * 4294967296 / d) in *. set (r := (50001 * 4294967296) mod d) in *.
  assert (Hq : 50001 <= q < 4294967296) by nia.
  pose proof (Z.div_mod (1000 * 4294967296) q ltac:(lia)) as Ek.
  pose proof (Z.mod_pos_bound (1000 * 4294967296) q ltac:(lia)) as Bk.
  set (khz := 1000 * 4294967296 / q) in *. set (r' := (1000 * 4294967296) mod q) in *.
  assert (H1 : q * khz <= 1000 * 4294967296) by lia.
  split; [done|]. split; [nia|]. split.
  - apply Z.lt_succ_r. apply Z.div_lt_upper_bound; [lia|].
    assert (1000 * 4294967296 < q * (khz + 1)) by lia. nia.
  - assert (H2 : 50001 * 4294967296 < (q + 1) * d) by nia.
    assert (H3 : q * khz * 50001 <= 1000 * ((q + 1) * d)) by nia.
    assert (H4 : q * (khz * 50001 * 50001) <= q * (1000 * d * 50002)) by nia.
    nia.
Qed.

(** [time_init], when the timer signals after at least one unsuccessful
    reading and the counter advanced by [d] in the meantime: the speed that is
    recorded is that of [d] ticks in 50.001 ms, at most one MHz below and 20 ppm
    above; no division overflows.  When [d] is too small or too large for the
    arithmetic, 500 MHz are assumed. *)
Theorem time_init_accuracy s n fuel :
  let d := (tsc (S (counter_reads s)) - tsc (counter_reads s)) mod 2 ^ 64 in
  (0 < n < fuel)%nat -> Z.of_nat n < 2 ^ 31 ->
  (forall i, (i < n)%nat -> Z.land (u8 (port61 (S (port_reads s) + i))) 0x20 = 0) ->
  Z.land (u8 (port61 (S (port_reads s) + n))) 0x20 <> 0 ->
  exists s', time_init fuel s = Ret (tt, s')
    /\ (if (CALIBRATE_TIME <? d) && (d <? 2 ^ 32) then
          d / CALIBRATE_TIME <= mhz s' /\ mhz s' * CALIBRATE_TIME * 50001 <= d * 50002
        else mhz s' = 500).
Proof.
  intros d Hn Hn2 Hlo Hhi. unfold time_init, calibrate_tsc. rewrite bind_assoc. unfold inb_61 at 1, bind at 1.
  rewrite !bind_assoc. unfold outb at 1. rewrite bind_modify.
  rewrite bind_assoc. unfold outb at 1. rewrite bind_modify. rewrite bind_assoc. unfold outb at 1. rewrite bind_modify.
  rewrite bind_assoc. unfold outb at 1. rewrite bind_modify. rewrite bind_assoc. unfold rdtsc at 1, bind at 1.
  cbn [mhz written port_reads counter_reads]. set (w := ((((written s ++ _) ++ _) ++ _) ++ _)).
  rewrite bind_assoc, (bind_step _ _ _ _ _ (count_loop_run n fuel 0 (mk_clock _ _ _ _) ltac:(lia) ltac:(lia) ltac:(lia) Hlo Hhi)).
  cbn [mhz written port_reads counter_reads]. rewrite bind_assoc. unfold rdtsc at 1, bind at 1.
  cbn [mhz written port_reads counter_reads fst snd]. rewrite (proj2 (Z.leb_gt _ _)) by lia. cbv zeta.
  set (x := tsc (counter_reads s)) in *. set (y := tsc (S (counter_reads s))) in *.
  assert (Ed : ((y mod 2 ^ 64 / 2 ^ 32 - x mod 2 ^ 64 / 2 ^ 32) * 2 ^ 32
     + ((y mod 2 ^ 64) mod 2 ^ 32 - (x mod 2 ^ 64) mod 2 ^ 32)) mod 2 ^ 64 = d).
  { unfold d. replace (_ + _) with (y mod 2 ^ 64 - x mod 2 ^ 64).
    - by rewrite Zminus_mod_idemp_l, Zminus_mod_idemp_r.
    - change (2 ^ 32) with 4294967296. change (2 ^ 64) with 18446744073709551616. zdiv. }
  rewrite Ed. clear Ed. assert (Hd : 0 <= d < 2 ^ 64) by (by apply Z.mod_pos_bound).
  destruct (Z.ltb_spec CALIBRATE_TIME d) as [Hd1|Hd1]; cbn [andb].
  - destruct (Z.ltb_spec d (2 ^ 32)) as [Hd2|Hd2].
    + rewrite (Z.div_small d (2 ^ 32)), (Z.mod_small d (2 ^ 32)) by (change CALIBRATE_TIME with 50001 in *; lia).
      cbn [truth Z.eqb negb]. rewrite (proj2 (Z.leb_gt _ _)) by done.
      destruct (quotient_bounds d) as (B1 & B2 & B3 & B4); [lia|]. cbv zeta in B2, B3, B4.
      set (q := CALIBRATE_TIME * 2 ^ 32 / d) in *. set (khz := 1000 * 2 ^ 32 / q) in *.
      unfold divl at 1. rewrite !Z.add_0_r. fold q. change CALIBRATE_TIME with 50001 in *.
      rewrite (proj2 (Z.eqb_neq d 0)), (proj2 (Z.leb_gt _ _)) by lia. cbn [orb]. rewrite bind_ret.
      rewrite (proj2 (truth_true q)) by lia. unfold divl. rewrite Z.add_0_r. fold khz.
      rewrite (proj2 (Z.eqb_neq q 0)), (proj2 (Z.leb_gt _ _)) by lia. cbn [orb]. rewrite bind_ret.
      eexists. split; [reflexivity|]. cbn [mhz]. clearbody khz q. clear -Hd1 Hd2 B3 B4.
      pose proof (Z.div_mod khz 1000 ltac:(lia)). pose proof (Z.mod_pos_bound khz 1000 ltac:(lia)). split.
      * apply Z.div_le_lower_bound; [lia|]. etransitivity; [|exact B3].
        apply Z.div_le_lower_bound; [lia|]. pose proof (Z.mul_div_le d 50001 ltac:(lia)). lia.
      * nia.
    + assert (Hh : d / 2 ^ 32 <> 0) by (pose proof (Z.div_str_pos d (2 ^ 32) ltac:(lia)); lia).
      rewrite (proj2 (truth_true _)) by done. rewrite bind_ret. cbn [truth Z.eqb negb]. by eexists.
  - change CALIBRATE_TIME with 50001 in *. rewrite (Z.div_small d), (Z.mod_small d) by lia. cbn [truth Z.eqb negb].
    rewrite (proj2 (Z.leb_le _ _)) by done. rewrite bind_ret. cbn [truth Z.eqb negb]. by eexists.
Qed.

(** After the reading that precedes the programming of the timer, bit 5 of the port
    is clear [n] times and then set. *)
Definition signals_after (s : clock_state) (n : nat) : Prop :=
  (forall i, (i < n)%nat -> Z.land (u8 (port61 (S (port_reads s) + i))) 0x20 = 0)
  /\ Z.land (u8 (port61 (S (port_reads s) + n))) 0x20 <> 0.

(** [time_init] returns when the timer signals, at once or later. *)
Lemma time_init_returns s n fuel :
  (n < fuel)%nat -> Z.of_nat n < 2 ^ 31 -> signals_after s n -> exists s', time_init fuel s = Ret (tt, s').
Proof.
  intros Hn Hn2 [Hlo Hhi]. destruct n as [|n].
  2: { destruct (time_init_accuracy s (S n) fuel ltac:(lia) Hn2 Hlo Hhi) as (s' & E & _). by exists s'. }
  unfold time_init, calibrate_tsc. rewrite bind_assoc. unfold inb_61 at 1, bind at 1.
  rewrite !bind_assoc. unfold outb at 1. rewrite bind_modify.
  rewrite bind_assoc. unfold outb at 1. rewrite bind_modify. rewrite bind_assoc. unfold outb at 1. rewrite bind_modify.
  rewrite bind_assoc. unfold outb at 1. rewrite bind_modify. rewrite bind_assoc. unfold rdtsc at 1, bind at 1.
  cbn [mhz written port_reads counter_reads]. set (w := ((((written s ++ _) ++ _) ++ _) ++ _)).
  rewrite bind_assoc, (bind_step _ _ _ _ _ (count_loop_run 0 fuel 0 (mk_clock _ _ _ _) Hn ltac:(lia) ltac:(lia) Hlo Hhi)).
  cbn [mhz written port_reads counter_reads]. rewrite bind_assoc. unfold rdtsc at 1, bind at 1. by eexists.
Qed.

End Calibrate.

Module Time_instances.

(** A processor of 2000 MHz; the timer signals at the third reading. *)
Lemma time_init_accuracy_witness :
  exists s', time_init (fun i => if (i <? 3)%nat then 0 else 0x20) (fun i => Z.of_nat i * 100002000) 10
      (mk_clock 0 [] 0 0) = Ret (tt, s') /\ 2000 <= mhz s' <= 2001.
Proof.
  destruct (time_init_accuracy (fun i => if (i <? 3)%nat then 0 else 0x20) (fun i => Z.of_nat i * 100002000)
    (mk_clock 0 [] 0 0) 2 10) as (s' & E & H).
  - lia.
  - lia.
  - intros i Hi. destruct i as [|[|]]; [reflexivity|reflexivity|lia].
  - discriminate.
  - exists s'. split; [exact E|]. cbv beta zeta in H. cbn [counter_reads] in H.
    change (((Z.of_nat 1 * 100002000) - (Z.of_nat 0 * 100002000)) mod 2 ^ 64) with 100002000 in H.
    change CALIBRATE_TIME with 50001 in H. cbn [Z.ltb Z.compare Pos.compare Pos.compare_cont andb] in H.
    change (100002000 <? 2 ^ 32) with true in H. change (100002000 / 50001) with 2000 in H. cbn [andb] in H. lia.
Defined.

End Time_instances.
