(* ===== verification/Sched.v ===== *)
(** * Processes: control blocks, ring queues and the scheduler

    Models [src/src/kernel/pcb.c] (queues and pcb allocation),
    [src/src/kernel/scheduler.c], [src/src/kernel/sleep.c], the critical
    sections of [src/src/kernel/sync.c] and the part of
    [src/src/kernel/scheduler_asm.S] the scheduler depends on.

    A [pcb_t *] is a [ptr]: 0 is the null pointer, [i + 1] is [&pcb[i]] and
    [DUMMY] is [dummy_kernel_pcb] of memory.c.  The control blocks live in a
    map from pointers to records.  The kernel runs with physical page 0 mapped
    (the identity mapping of the kernel area), so an access through the null
    pointer reads or writes low memory instead of faulting: the map has an
    entry at 0 for the bytes at address 0 seen as a [struct pcb]. *)

From S2P Require Import Prelude Cpu.

Definition ptr : Type := nat.
Definition NULL : ptr := O.
Definition PCB_TABLE_SIZE : nat := 128.
Definition DUMMY : ptr := 129%nat.

(** ** Critical sections (sync.c) *)

(** [nointerrupt_count_val], an [unsigned int], and the interrupt flag. *)
Record cpu_state : Type := mk_cpu {
  nointerrupt_count_val : Z;
  interrupts_on : bool
}.

Definition nointerrupt_enter (c : cpu_state) : cpu_state :=
  {| nointerrupt_count_val := u32 (nointerrupt_count_val c + 1); interrupts_on := false |}.

Definition nointerrupt_leave (c : cpu_state) : cpu_state :=
  let n := u32 (nointerrupt_count_val c - 1) in
  {| nointerrupt_count_val := n;
     interrupts_on := if n =? 0 then true else interrupts_on c |}.

(** [None] is the failed assertion. *)
Definition nointerrupt_leave_delayed (c : cpu_state) : option cpu_state :=
  let n := u32 (nointerrupt_count_val c - 1) in
  if n =? 0
  then Some {| nointerrupt_count_val := n; interrupts_on := interrupts_on c |}
  else None.

Definition nointerrupt_count (c : cpu_state) : Z := nointerrupt_count_val c.

(** ** Process control blocks (pcb.h) *)

(** [struct pcb].  [saved_count] is not a field of the struct: it is the
    critical section count that [scheduler_entry] pushes on the kernel stack
    of the thread it switches away from. *)
Record pcb : Type := mk_pcb {
  pcb_next : ptr;
  pcb_previous : ptr;
  pid : Z;
  is_thread : Z;
  start_pc : Z;
  status : Z;
  user_stack : Z;
  kernel_stack : Z;
  priority : Z;
  nested_count : Z;
  preempt_count : Z;
  yield_count : Z;
  base_kernel_stack : Z;
  pcb_ds : Z;
  pcb_cs : Z;
  int_controller_mask : Z;
  wakeup_time : Z;
  page_directory : Z;
  swap_loc : Z;
  swap_size : Z;
  page_fault_count : Z;
  saved_count : Z
}.

Definition set_pcb_next (v : ptr) (r : pcb) : pcb :=
  {| pcb_next := v; pcb_previous := pcb_previous r; pid := pid r; is_thread :=
     is_thread r; start_pc := start_pc r; status := status r; user_stack := user_stack
     r; kernel_stack := kernel_stack r; priority := priority r; nested_count :=
     nested_count r; preempt_count := preempt_count r; yield_count := yield_count r;
     base_kernel_stack := base_kernel_stack r; pcb_ds := pcb_ds r; pcb_cs := pcb_cs r;
     int_controller_mask := int_controller_mask r; wakeup_time := wakeup_time r;
     page_directory := page_directory r; swap_loc := swap_loc r; swap_size :=
     swap_size r; page_fault_count := page_fault_count r; saved_count := saved_count r
     |}.
Definition set_pcb_previous (v : ptr) (r : pcb) : pcb :=
  {| pcb_next := pcb_next r; pcb_previous := v; pid := pid r; is_thread := is_thread
     r; start_pc := start_pc r; status := status r; user_stack := user_stack r;
     kernel_stack := kernel_stack r; priority := priority r; nested_count :=
     nested_count r; preempt_count := preempt_count r; yield_count := yield_count r;
     base_kernel_stack := base_kernel_stack r; pcb_ds := pcb_ds r; pcb_cs := pcb_cs r;
     int_controller_mask := int_controller_mask r; wakeup_time := wakeup_time r;
     page_directory := page_directory r; swap_loc := swap_loc r; swap_size :=
     swap_size r; page_fault_count := page_fault_count r; saved_count := saved_count r
     |}.
Definition set_pid (v : Z) (r : pcb) : pcb :=
  {| pcb_next := pcb_next r; pcb_previous := pcb_previous r; pid := v; is_thread :=
     is_thread r; start_pc := start_pc r; status := status r; user_stack := user_stack
     r; kernel_stack := kernel_stack r; priority := priority r; nested_count :=
     nested_count r; preempt_count := preempt_count r; yield_count := yield_count r;
     base_kernel_stack := base_kernel_stack r; pcb_ds := pcb_ds r; pcb_cs := pcb_cs r;
     int_controller_mask := int_controller_mask r; wakeup_time := wakeup_time r;
     page_directory := page_directory r; swap_loc := swap_loc r; swap_size :=
     swap_size r; page_fault_count := page_fault_count r; saved_count := saved_count r
     |}.
Definition set_is_thread (v : Z) (r : pcb) : pcb :=
  {| pcb_next := pcb_next r; pcb_previous := pcb_previous r; pid := pid r; is_thread
     := v; start_pc := start_pc r; status := status r; user_stack := user_stack r;
     kernel_stack := kernel_stack r; priority := priority r; nested_count :=
     nested_count r; preempt_count := preempt_count r; yield_count := yield_count r;
     base_kernel_stack := base_kernel_stack r; pcb_ds := pcb_ds r; pcb_cs := pcb_cs r;
     int_controller_mask := int_controller_mask r; wakeup_time := wakeup_time r;
     page_directory := page_directory r; swap_loc := swap_loc r; swap_size :=
     swap_size r; page_fault_count := page_fault_count r; saved_count := saved_count r
     |}.
Definition set_start_pc (v : Z) (r : pcb) : pcb :=
  {| pcb_next := pcb_next r; pcb_previous := pcb_previous r; pid := pid r; is_thread
     := is_thread r; start_pc := v; status := status r; user_stack := user_stack r;
     kernel_stack := kernel_stack r; priority := priority r; nested_count :=
     nested_count r; preempt_count := preempt_count r; yield_count := yield_count r;
     base_kernel_stack := base_kernel_stack r; pcb_ds := pcb_ds r; pcb_cs := pcb_cs r;
     int_controller_mask := int_controller_mask r; wakeup_time := wakeup_time r;
     page_directory := page_directory r; swap_loc := swap_loc r; swap_size :=
     swap_size r; page_fault_count := page_fault_count r; saved_count := saved_count r
     |}.
Definition set_status (v : Z) (r : pcb) : pcb :=
  {| pcb_next := pcb_next r; pcb_previous := pcb_previous r; pid := pid r; is_thread
     := is_thread r; start_pc := start_pc r; status := v; user_stack := user_stack r;
     kernel_stack := kernel_stack r; priority := priority r; nested_count :=
     nested_count r; preempt_count := preempt_count r; yield_count := yield_count r;
     base_kernel_stack := base_kernel_stack r; pcb_ds := pcb_ds r; pcb_cs := pcb_cs r;
     int_controller_mask := int_controller_mask r; wakeup_time := wakeup_time r;
     page_directory := page_directory r; swap_loc := swap_loc r; swap_size :=
     swap_size r; page_fault_count := page_fault_count r; saved_count := saved_count r
     |}.
Definition set_user_stack (v : Z) (r : pcb) : pcb :=
  {| pcb_next := pcb_next r; pcb_previous := pcb_previous r; pid := pid r; is_thread
     := is_thread r; start_pc := start_pc r; status := status r; user_stack := v;
     kernel_stack := kernel_stack r; priority := priority r; nested_count :=
     nested_count r; preempt_count := preempt_count r; yield_count := yield_count r;
     base_kernel_stack := base_kernel_stack r; pcb_ds := pcb_ds r; pcb_cs := pcb_cs r;
     int_controller_mask := int_controller_mask r; wakeup_time := wakeup_time r;
     page_directory := page_directory r; swap_loc := swap_loc r; swap_size :=
     swap_size r; page_fault_count := page_fault_count r; saved_count := saved_count r
     |}.
Definition set_kernel_stack (v : Z) (r : pcb) : pcb :=
  {| pcb_next := pcb_next r; pcb_previous := pcb_previous r; pid := pid r; is_thread
     := is_thread r; start_pc := start_pc r; status := status r; user_stack :=
     user_stack r; kernel_stack := v; priority := priority r; nested_count :=
     nested_count r; preempt_count := preempt_count r; yield_count := yield_count r;
     base_kernel_stack := base_kernel_stack r; pcb_ds := pcb_ds r; pcb_cs := pcb_cs r;
     int_controller_mask := int_controller_mask r; wakeup_time := wakeup_time r;
     page_directory := page_directory r; swap_loc := swap_loc r; swap_size :=
     swap_size r; page_fault_count := page_fault_count r; saved_count := saved_count r
     |}.
Definition set_priority (v : Z) (r : pcb) : pcb :=
  {| pcb_next := pcb_next r; pcb_previous := pcb_previous r; pid := pid r; is_thread
     := is_thread r; start_pc := start_pc r; status := status r; user_stack :=
     user_stack r; kernel_stack := kernel_stack r; priority := v; nested_count :=
     nested_count r; preempt_count := preempt_count r; yield_count := yield_count r;
     base_kernel_stack := base_kernel_stack r; pcb_ds := pcb_ds r; pcb_cs := pcb_cs r;
     int_controller_mask := int_controller_mask r; wakeup_time := wakeup_time r;
     page_directory := page_directory r; swap_loc := swap_loc r; swap_size :=
     swap_size r; page_fault_count := page_fault_count r; saved_count := saved_count r
     |}.
Definition set_nested_count (v : Z) (r : pcb) : pcb :=
  {| pcb_next := pcb_next r; pcb_previous := pcb_previous r; pid := pid r; is_thread
     := is_thread r; start_pc := start_pc r; status := status r; user_stack :=
     user_stack r; kernel_stack := kernel_stack r; priority := priority r;
     nested_count := v; preempt_count := preempt_count r; yield_count := yield_count
     r; base_kernel_stack := base_kernel_stack r; pcb_ds := pcb_ds r; pcb_cs := pcb_cs
     r; int_controller_mask := int_controller_mask r; wakeup_time := wakeup_time r;
     page_directory := page_directory r; swap_loc := swap_loc r; swap_size :=
     swap_size r; page_fault_count := page_fault_count r; saved_count := saved_count r
     |}.
Definition set_preempt_count (v : Z) (r : pcb) : pcb :=
  {| pcb_next := pcb_next r; pcb_previous := pcb_previous r; pid := pid r; is_thread
     := is_thread r; start_pc := start_pc r; status := status r; user_stack :=
     user_stack r; kernel_stack := kernel_stack r; priority := priority r;
     nested_count := nested_count r; preempt_count := v; yield_count := yield_count r;
     base_kernel_stack := base_kernel_stack r; pcb_ds := pcb_ds r; pcb_cs := pcb_cs r;
     int_controller_mask := int_controller_mask r; wakeup_time := wakeup_time r;
     page_directory := page_directory r; swap_loc := swap_loc r; swap_size :=
     swap_size r; page_fault_count := page_fault_count r; saved_count := saved_count r
     |}.
Definition set_yield_count (v : Z) (r : pcb) : pcb :=
  {| pcb_next := pcb_next r; pcb_previous := pcb_previous r; pid := pid r; is_thread
     := is_thread r; start_pc := start_pc r; status := status r; user_stack :=
     user_stack r; kernel_stack := kernel_stack r; priority := priority r;
     nested_count := nested_count r; preempt_count := preempt_count r; yield_count :=
     v; base_kernel_stack := base_kernel_stack r; pcb_ds := pcb_ds r; pcb_cs := pcb_cs
     r; int_controller_mask := int_controller_mask r; wakeup_time := wakeup_time r;
     page_directory := page_directory r; swap_loc := swap_loc r; swap_size :=
     swap_size r; page_fault_count := page_fault_count r; saved_count := saved_count r
     |}.
Definition set_base_kernel_stack (v : Z) (r : pcb) : pcb :=
  {| pcb_next := pcb_next r; pcb_previous := pcb_previous r; pid := pid r; is_thread
     := is_thread r; start_pc := start_pc r; status := status r; user_stack :=
     user_stack r; kernel_stack := kernel_stack r; priority := priority r;
     nested_count := nested_count r; preempt_count := preempt_count r; yield_count :=
     yield_count r; base_kernel_stack := v; pcb_ds := pcb_ds r; pcb_cs := pcb_cs r;
     int_controller_mask := int_controller_mask r; wakeup_time := wakeup_time r;
     page_directory := page_directory r; swap_loc := swap_loc r; swap_size :=
     swap_size r; page_fault_count := page_fault_count r; saved_count := saved_count r
     |}.
Definition set_pcb_ds (v : Z) (r : pcb) : pcb :=
  {| pcb_next := pcb_next r; pcb_previous := pcb_previous r; pid := pid r; is_thread
     := is_thread r; start_pc := start_pc r; status := status r; user_stack :=
     user_stack r; kernel_stack := kernel_stack r; priority := priority r;
     nested_count := nested_count r; preempt_count := preempt_count r; yield_count :=
     yield_count r; base_kernel_stack := base_kernel_stack r; pcb_ds := v; pcb_cs :=
     pcb_cs r; int_controller_mask := int_controller_mask r; wakeup_time :=
     wakeup_time r; page_directory := page_directory r; swap_loc := swap_loc r;
     swap_size := swap_size r; page_fault_count := page_fault_count r; saved_count :=
     saved_count r |}.
Definition set_pcb_cs (v : Z) (r : pcb) : pcb :=
  {| pcb_next := pcb_next r; pcb_previous := pcb_previous r; pid := pid r; is_thread
     := is_thread r; start_pc := start_pc r; status := status r; user_stack :=
     user_stack r; kernel_stack := kernel_stack r; priority := priority r;
     nested_count := nested_count r; preempt_count := preempt_count r; yield_count :=
     yield_count r; base_kernel_stack := base_kernel_stack r; pcb_ds := pcb_ds r;
     pcb_cs := v; int_controller_mask := int_controller_mask r; wakeup_time :=
     wakeup_time r; page_directory := page_directory r; swap_loc := swap_loc r;
     swap_size := swap_size r; page_fault_count := page_fault_count r; saved_count :=
     saved_count r |}.
Definition set_int_controller_mask (v : Z) (r : pcb) : pcb :=
  {| pcb_next := pcb_next r; pcb_previous := pcb_previous r; pid := pid r; is_thread
     := is_thread r; start_pc := start_pc r; status := status r; user_stack :=
     user_stack r; kernel_stack := kernel_stack r; priority := priority r;
     nested_count := nested_count r; preempt_count := preempt_count r; yield_count :=
     yield_count r; base_kernel_stack := base_kernel_stack r; pcb_ds := pcb_ds r;
     pcb_cs := pcb_cs r; int_controller_mask := v; wakeup_time := wakeup_time r;
     page_directory := page_directory r; swap_loc := swap_loc r; swap_size :=
     swap_size r; page_fault_count := page_fault_count r; saved_count := saved_count r
     |}.
Definition set_wakeup_time (v : Z) (r : pcb) : pcb :=
  {| pcb_next := pcb_next r; pcb_previous := pcb_previous r; pid := pid r; is_thread
     := is_thread r; start_pc := start_pc r; status := status r; user_stack :=
     user_stack r; kernel_stack := kernel_stack r; priority := priority r;
     nested_count := nested_count r; preempt_count := preempt_count r; yield_count :=
     yield_count r; base_kernel_stack := base_kernel_stack r; pcb_ds := pcb_ds r;
     pcb_cs := pcb_cs r; int_controller_mask := int_controller_mask r; wakeup_time :=
     v; page_directory := page_directory r; swap_loc := swap_loc r; swap_size :=
     swap_size r; page_fault_count := page_fault_count r; saved_count := saved_count r
     |}.
Definition set_page_directory (v : Z) (r : pcb) : pcb :=
  {| pcb_next := pcb_next r; pcb_previous := pcb_previous r; pid := pid r; is_thread
     := is_thread r; start_pc := start_pc r; status := status r; user_stack :=
     user_stack r; kernel_stack := kernel_stack r; priority := priority r;
     nested_count := nested_count r; preempt_count := preempt_count r; yield_count :=
     yield_count r; base_kernel_stack := base_kernel_stack r; pcb_ds := pcb_ds r;
     pcb_cs := pcb_cs r; int_controller_mask := int_controller_mask r; wakeup_time :=
     wakeup_time r; page_directory := v; swap_loc := swap_loc r; swap_size :=
     swap_size r; page_fault_count := page_fault_count r; saved_count := saved_count r
     |}.
Definition set_swap_loc (v : Z) (r : pcb) : pcb :=
  {| pcb_next := pcb_next r; pcb_previous := pcb_previous r; pid := pid r; is_thread
     := is_thread r; start_pc := start_pc r; status := status r; user_stack :=
     user_stack r; kernel_stack := kernel_stack r; priority := priority r;
     nested_count := nested_count r; preempt_count := preempt_count r; yield_count :=
     yield_count r; base_kernel_stack := base_kernel_stack r; pcb_ds := pcb_ds r;
     pcb_cs := pcb_cs r; int_controller_mask := int_controller_mask r; wakeup_time :=
     wakeup_time r; page_directory := page_directory r; swap_loc := v; swap_size :=
     swap_size r; page_fault_count := page_fault_count r; saved_count := saved_count r
     |}.
Definition set_swap_size (v : Z) (r : pcb) : pcb :=
  {| pcb_next := pcb_next r; pcb_previous := pcb_previous r; pid := pid r; is_thread
     := is_thread r; start_pc := start_pc r; status := status r; user_stack :=
     user_stack r; kernel_stack := kernel_stack r; priority := priority r;
     nested_count := nested_count r; preempt_count := preempt_count r; yield_count :=
     yield_count r; base_kernel_stack := base_kernel_stack r; pcb_ds := pcb_ds r;
     pcb_cs := pcb_cs r; int_controller_mask := int_controller_mask r; wakeup_time :=
     wakeup_time r; page_directory := page_directory r; swap_loc := swap_loc r;
     swap_size := v; page_fault_count := page_fault_count r; saved_count :=
     saved_count r |}.
Definition set_page_fault_count (v : Z) (r : pcb) : pcb :=
  {| pcb_next := pcb_next r; pcb_previous := pcb_previous r; pid := pid r; is_thread
     := is_thread r; start_pc := start_pc r; status := status r; user_stack :=
     user_stack r; kernel_stack := kernel_stack r; priority := priority r;
     nested_count := nested_count r; preempt_count := preempt_count r; yield_count :=
     yield_count r; base_kernel_stack := base_kernel_stack r; pcb_ds := pcb_ds r;
     pcb_cs := pcb_cs r; int_controller_mask := int_controller_mask r; wakeup_time :=
     wakeup_time r; page_directory := page_directory r; swap_loc := swap_loc r;
     swap_size := swap_size r; page_fault_count := v; saved_count := saved_count r |}.
Definition set_saved_count (v : Z) (r : pcb) : pcb :=
  {| pcb_next := pcb_next r; pcb_previous := pcb_previous r; pid := pid r; is_thread
     := is_thread r; start_pc := start_pc r; status := status r; user_stack :=
     user_stack r; kernel_stack := kernel_stack r; priority := priority r;
     nested_count := nested_count r; preempt_count := preempt_count r; yield_count :=
     yield_count r; base_kernel_stack := base_kernel_stack r; pcb_ds := pcb_ds r;
     pcb_cs := pcb_cs r; int_controller_mask := int_controller_mask r; wakeup_time :=
     wakeup_time r; page_directory := page_directory r; swap_loc := swap_loc r;
     swap_size := swap_size r; page_fault_count := page_fault_count r; saved_count :=
     v |}.

(** ** Global state of the process subsystem

    [cpu_mhz] is the global of time.c; [pic_mask], [cr3] and [tss_esp0] are
    the hardware registers that [setup_current_running] loads; [tsc_reads]
    counts the reads of the time stamp counter so far. *)
Record kst : Type := mk_kst {
  cpu : cpu_state;
  pcbs : gmap ptr pcb;
  current_running : ptr;
  running_processes : Z;
  freelist : ptr;
  next_pid : Z;
  next_stack : Z;
  cpu_mhz : Z;
  tsc_reads : nat;
  pic_mask : Z;
  cr3 : Z;
  tss_esp0 : Z
}.

Definition set_cpu (v : cpu_state) (r : kst) : kst :=
  {| cpu := v; pcbs := pcbs r; current_running := current_running r; running_processes
     := running_processes r; freelist := freelist r; next_pid := next_pid r;
     next_stack := next_stack r; cpu_mhz := cpu_mhz r; tsc_reads := tsc_reads r;
     pic_mask := pic_mask r; cr3 := cr3 r; tss_esp0 := tss_esp0 r |}.
Definition set_pcbs (v : gmap ptr pcb) (r : kst) : kst :=
  {| cpu := cpu r; pcbs := v; current_running := current_running r; running_processes
     := running_processes r; freelist := freelist r; next_pid := next_pid r;
     next_stack := next_stack r; cpu_mhz := cpu_mhz r; tsc_reads := tsc_reads r;
     pic_mask := pic_mask r; cr3 := cr3 r; tss_esp0 := tss_esp0 r |}.
Definition set_current_running (v : ptr) (r : kst) : kst :=
  {| cpu := cpu r; pcbs := pcbs r; current_running := v; running_processes :=
     running_processes r; freelist := freelist r; next_pid := next_pid r; next_stack
     := next_stack r; cpu_mhz := cpu_mhz r; tsc_reads := tsc_reads r; pic_mask :=
     pic_mask r; cr3 := cr3 r; tss_esp0 := tss_esp0 r |}.
Definition set_running_processes (v : Z) (r : kst) : kst :=
  {| cpu := cpu r; pcbs := pcbs r; current_running := current_running r;
     running_processes := v; freelist := freelist r; next_pid := next_pid r;
     next_stack := next_stack r; cpu_mhz := cpu_mhz r; tsc_reads := tsc_reads r;
     pic_mask := pic_mask r; cr3 := cr3 r; tss_esp0 := tss_esp0 r |}.
Definition set_freelist (v : ptr) (r : kst) : kst :=
  {| cpu := cpu r; pcbs := pcbs r; current_running := current_running r;
     running_processes := running_processes r; freelist := v; next_pid := next_pid r;
     next_stack := next_stack r; cpu_mhz := cpu_mhz r; tsc_reads := tsc_reads r;
     pic_mask := pic_mask r; cr3 := cr3 r; tss_esp0 := tss_esp0 r |}.
Definition set_next_pid (v : Z) (r : kst) : kst :=
  {| cpu := cpu r; pcbs := pcbs r; current_running := current_running r;
     running_processes := running_processes r; freelist := freelist r; next_pid := v;
     next_stack := next_stack r; cpu_mhz := cpu_mhz r; tsc_reads := tsc_reads r;
     pic_mask := pic_mask r; cr3 := cr3 r; tss_esp0 := tss_esp0 r |}.
Definition set_next_stack (v : Z) (r : kst) : kst :=
  {| cpu := cpu r; pcbs := pcbs r; current_running := current_running r;
     running_processes := running_processes r; freelist := freelist r; next_pid :=
     next_pid r; next_stack := v; cpu_mhz := cpu_mhz r; tsc_reads := tsc_reads r;
     pic_mask := pic_mask r; cr3 := cr3 r; tss_esp0 := tss_esp0 r |}.
Definition set_cpu_mhz (v : Z) (r : kst) : kst :=
  {| cpu := cpu r; pcbs := pcbs r; current_running := current_running r;
     running_processes := running_processes r; freelist := freelist r; next_pid :=
     next_pid r; next_stack := next_stack r; cpu_mhz := v; tsc_reads := tsc_reads r;
     pic_mask := pic_mask r; cr3 := cr3 r; tss_esp0 := tss_esp0 r |}.
Definition set_tsc_reads (v : nat) (r : kst) : kst :=
  {| cpu := cpu r; pcbs := pcbs r; current_running := current_running r;
     running_processes := running_processes r; freelist := freelist r; next_pid :=
     next_pid r; next_stack := next_stack r; cpu_mhz := cpu_mhz r; tsc_reads := v;
     pic_mask := pic_mask r; cr3 := cr3 r; tss_esp0 := tss_esp0 r |}.
Definition set_pic_mask (v : Z) (r : kst) : kst :=
  {| cpu := cpu r; pcbs := pcbs r; current_running := current_running r;
     running_processes := running_processes r; freelist := freelist r; next_pid :=
     next_pid r; next_stack := next_stack r; cpu_mhz := cpu_mhz r; tsc_reads :=
     tsc_reads r; pic_mask := v; cr3 := cr3 r; tss_esp0 := tss_esp0 r |}.
Definition set_cr3 (v : Z) (r : kst) : kst :=
  {| cpu := cpu r; pcbs := pcbs r; current_running := current_running r;
     running_processes := running_processes r; freelist := freelist r; next_pid :=
     next_pid r; next_stack := next_stack r; cpu_mhz := cpu_mhz r; tsc_reads :=
     tsc_reads r; pic_mask := pic_mask r; cr3 := v; tss_esp0 := tss_esp0 r |}.
Definition set_tss_esp0 (v : Z) (r : kst) : kst :=
  {| cpu := cpu r; pcbs := pcbs r; current_running := current_running r;
     running_processes := running_processes r; freelist := freelist r; next_pid :=
     next_pid r; next_stack := next_stack r; cpu_mhz := cpu_mhz r; tsc_reads :=
     tsc_reads r; pic_mask := pic_mask r; cr3 := cr3 r; tss_esp0 := v |}.

(** Access through a [pcb_t *]. *)
Definition rd {A} (p : ptr) (f : pcb -> A) : M kst A :=
  fun s => match pcbs s !! p with Some r => Ret (f r, s) | None => Stuck end.

Definition wr (p : ptr) (f : pcb -> pcb) : M kst unit :=
  fun s => match pcbs s !! p with
           | Some r => Ret (tt, set_pcbs (<[p := f r]> (pcbs s)) s)
           | None => Stuck
           end.

Definition enter : M kst unit := modify (fun s => set_cpu (nointerrupt_enter (cpu s)) s).
Definition leave : M kst unit := modify (fun s => set_cpu (nointerrupt_leave (cpu s)) s).

(** ** Ring queues (pcb.c)

    A parameter [struct pcb **q] is passed as the value of [*q], and the new
    value of [*q] is part of the result. *)

Definition queue_insert (q p : ptr) : M kst ptr :=
  enter ;;;
  n <-- rd p pcb_next ;;
  assertk (n =? NULL)%nat ;;;
  q' <-- (if (q =? NULL)%nat then
            wr p (set_pcb_next p) ;;;
            wr p (set_pcb_previous p) ;;;
            ret p
          else
            last <-- rd q pcb_previous ;;
            wr p (set_pcb_previous last) ;;;
            wr p (set_pcb_next q) ;;;
            pp <-- rd p pcb_previous ;;
            wr pp (set_pcb_next p) ;;;
            pn <-- rd p pcb_next ;;
            wr pn (set_pcb_previous p) ;;;
            ret q) ;;
  leave ;;;
  ret q'.

(** The result is the removed thread and the new [*q]. *)
Definition queue_shift (q : ptr) : M kst (ptr * ptr) :=
  enter ;;;
  r <-- (if (q =? NULL)%nat then ret (NULL, q)
         else
           let p := q in
           n <-- rd p pcb_next ;;
           v <-- rd p pcb_previous ;;
           q' <-- (if ((n =? p) && (v =? p))%nat then ret NULL
                   else
                     pv <-- rd p pcb_previous ;;
                     pn <-- rd p pcb_next ;;
                     wr pv (set_pcb_next pn) ;;;
                     pn2 <-- rd p pcb_next ;;
                     pv2 <-- rd p pcb_previous ;;
                     wr pn2 (set_pcb_previous pv2) ;;;
                     rd p pcb_next) ;;
           wr p (set_pcb_previous NULL) ;;;
           wr p (set_pcb_next NULL) ;;;
           ret (p, q')) ;;
  leave ;;;
  ret r.

(** The loop of [queue_pos]; [i <= LIMIT] bounds it by the table size. *)
Fixpoint queue_pos_loop (fuel : nat) (start cur p : ptr) (i : Z) : M kst Z :=
  match fuel with
  | O => out_of_fuel
  | S f =>
      if (cur =? p)%nat then ret i
      else
        cur' <-- rd cur pcb_next ;;
        let i' := i + 1 in
        assertk (negb (cur' =? NULL)%nat) ;;;
        assertk (i' <=? Z.of_nat PCB_TABLE_SIZE) ;;;
        if (cur' =? start)%nat then ret (-1)
        else queue_pos_loop f start cur' p i'
  end.

Definition queue_pos (q p : ptr) : M kst Z :=
  enter ;;;
  pos <-- (if (q =? NULL)%nat then ret (-1)
           else queue_pos_loop (S (S PCB_TABLE_SIZE)) q q p 0) ;;
  leave ;;;
  ret pos.

Definition queue_remove (q p : ptr) : M kst ptr :=
  enter ;;;
  pos <-- queue_pos q p ;;
  assertk (0 <=? pos) ;;;
  n <-- rd p pcb_next ;;
  let q' := if ((q =? p) && (n =? p))%nat then NULL
            else if (q =? p)%nat then n
            else q in
  pv <-- rd p pcb_previous ;;
  pn <-- rd p pcb_next ;;
  wr pv (set_pcb_next pn) ;;;
  pn2 <-- rd p pcb_next ;;
  pv2 <-- rd p pcb_previous ;;
  wr pn2 (set_pcb_previous pv2) ;;;
  wr p (set_pcb_next NULL) ;;;
  wr p (set_pcb_previous NULL) ;;;
  leave ;;;
  ret q'.

(** ** Constants (addrs.h, scheduler.h, interrupt.h) *)

Definition STATUS_FIRST_TIME : Z := 0.
Definition STATUS_READY : Z := 1.
Definition STATUS_SLEEPING : Z := 2.
Definition STATUS_BLOCKED : Z := 3.
Definition STATUS_EXITED : Z := 4.

Definition T_KSTACK_AREA_MIN_PADDR : Z := 0x40000.
Definition T_KSTACK_AREA_MAX_PADDR : Z := 0x80000.
Definition T_KSTACK_SIZE_EACH : Z := 0x2000.
Definition T_KSTACK_START_OFFSET : Z := 0x1ffc.

(** ** PCB allocation (pcb.c) *)

Definition zero_pcb : pcb := mk_pcb NULL NULL 0 0 0 0 0 0 0 0 0 0 0 0 0 0 0 0 0 0 0 0.

(** [for (p = pcb; p < pcb + PCB_TABLE_SIZE; p++)]: the pointers [first],
    [first + 1], ... *)
Fixpoint init_pcb_loop (n : nat) (p q : ptr) : M kst ptr :=
  match n with
  | O => ret q
  | S n' =>
      wr p (fun r => set_saved_count (saved_count r) zero_pcb) ;;;
      q' <-- queue_insert q p ;;
      init_pcb_loop n' (S p) q'
  end.

Definition init_pcb_table : M kst unit :=
  modify (set_freelist NULL) ;;;
  q <-- init_pcb_loop PCB_TABLE_SIZE 1%nat NULL ;;
  modify (set_freelist q) ;;;
  modify (set_current_running NULL).

Definition alloc_pcb : M kst ptr :=
  enter ;;;
  f <-- gets freelist ;;
  assertk (negb (f =? NULL)%nat) ;;;
  r <-- queue_shift f ;;
  modify (set_freelist (snd r)) ;;;
  leave ;;;
  ret (fst r).

Definition free_pcb (p : ptr) : M kst unit :=
  enter ;;;
  f <-- gets freelist ;;
  f' <-- queue_insert f p ;;
  modify (set_freelist f') ;;;
  leave.

Definition create_pcb_common (p : ptr) : M kst unit :=
  enter ;;;
  n <-- gets next_pid ;;
  wr p (set_pid (u32 n)) ;;;
  modify (set_next_pid (s32 (n + 1))) ;;;
  leave ;;;
  st <-- gets next_stack ;;
  assertk (st <? T_KSTACK_AREA_MAX_PADDR) ;;;
  wr p (set_kernel_stack (u32 (st + T_KSTACK_START_OFFSET))) ;;;
  ks <-- rd p kernel_stack ;;
  wr p (set_base_kernel_stack ks) ;;;
  modify (fun s => set_next_stack (u32 (next_stack s + T_KSTACK_SIZE_EACH)) s) ;;;
  wr p (set_priority 10) ;;;
  wr p (set_status STATUS_FIRST_TIME) ;;;
  wr p (set_preempt_count 0) ;;;
  wr p (set_yield_count 0) ;;;
  wr p (set_page_fault_count 0) ;;;
  wr p (set_int_controller_mask (u16 (Z.lnot IRQS_TO_ENABLE))).

Definition getpid : M kst Z :=
  c <-- gets current_running ;; n <-- rd c pid ;; ret (s32 n).

(** ** The scheduler (scheduler.c) *)

Definition setup_current_running : M kst unit :=
  c <-- gets current_running ;;
  mask <-- rd c int_controller_mask ;;
  modify (set_pic_mask mask) ;;;
  dir <-- rd c page_directory ;;
  modify (set_cr3 dir) ;;;
  th <-- rd c is_thread ;;
  when (th =? 0)
    (st <-- rd c base_kernel_stack ;; modify (set_tss_esp0 st)).

(** [dispatch] (scheduler_asm.S).  The result tells where control goes: [true]
    is the [ret] into the [scheduler_entry] call that the new thread left off
    in, [false] the [iret] into a thread that runs for the first time.
    [movb $1] writes the low byte of the count only. *)
Definition dispatch : M kst bool :=
  setup_current_running ;;;
  c <-- gets current_running ;;
  st <-- rd c status ;;
  if st =? STATUS_FIRST_TIME then
    wr c (set_status STATUS_READY) ;;;
    s <-- get ;;
    let n := nointerrupt_count_val (cpu s) in
    match nointerrupt_leave_delayed
            (mk_cpu (Z.lor (Z.land n 0xffffff00) 1) (interrupts_on (cpu s))) with
    | None => halt
    | Some c' => modify (set_cpu (mk_cpu (nointerrupt_count_val c') true)) ;;; ret false
    end
  else ret true.

Section Scheduler.

(** The value of the [n]-th read of the time stamp counter. *)
Context (rdtsc : nat -> Z).

Definition read_cpu_ticks : M kst Z :=
  n <-- gets tsc_reads ;;
  modify (set_tsc_reads (S n)) ;;;
  ret (rdtsc n).

(** The body of the scheduler's loop: the [switch] on the status. *)
Definition scheduler_switch : M kst unit :=
  c <-- gets current_running ;;
  st <-- rd c status ;;
  if (st =? STATUS_SLEEPING) || (st =? STATUS_FIRST_TIME) || (st =? STATUS_READY) then
    when (st =? STATUS_SLEEPING)
      (t <-- read_cpu_ticks ;;
       w <-- rd c wakeup_time ;;
       when (w <? t) (wr c (set_status STATUS_READY))) ;;;
    n <-- rd c pcb_next ;;
    modify (set_current_running n)
  else if st =? STATUS_BLOCKED then
    r <-- queue_shift c ;;
    modify (set_current_running (snd r)) ;;;
    assertk (negb (snd r =? NULL)%nat)
  else if st =? STATUS_EXITED then
    r <-- queue_shift c ;;
    modify (set_current_running (snd r)) ;;;
    assertk (negb (snd r =? NULL)%nat) ;;;
    free_pcb (fst r)
  else halt.

(** [do ... while (status != STATUS_READY && status != STATUS_FIRST_TIME)] *)
Fixpoint scheduler_loop (fuel : nat) : M kst unit :=
  match fuel with
  | O => out_of_fuel
  | S f =>
      scheduler_switch ;;;
      c <-- gets current_running ;;
      st <-- rd c status ;;
      if negb (st =? STATUS_READY) && negb (st =? STATUS_FIRST_TIME)
      then scheduler_loop f else ret tt
  end.

(** [dispatch] switches stacks, so the [nointerrupt_leave] behind it in
    [scheduler] is not reached: control continues in [scheduler_entry] of the
    new thread, or in a fresh thread. *)
Definition scheduler (fuel : nat) : M kst bool :=
  enter ;;;
  c <-- gets current_running ;;
  m <-- gets pic_mask ;;
  wr c (set_int_controller_mask m) ;;;
  scheduler_loop fuel ;;;
  dispatch.

(** [scheduler_entry] (scheduler_asm.S): save the critical section count of
    the old thread, and restore that of the new one. *)
Definition scheduler_entry (fuel : nat) : M kst bool :=
  c <-- gets current_running ;;
  s <-- get ;;
  wr c (set_saved_count (nointerrupt_count_val (cpu s))) ;;;
  resumed <-- scheduler fuel ;;
  when resumed
    (c' <-- gets current_running ;;
     n <-- rd c' saved_count ;;
     modify (fun s => set_cpu (mk_cpu n (interrupts_on (cpu s))) s)) ;;;
  ret resumed.

(** A thread that called [yield], [preempt] or [block] resumes behind its
    [scheduler_entry], where the same [nointerrupt_leave] follows. *)
Definition yield (fuel : nat) : M kst unit :=
  enter ;;;
  c <-- gets current_running ;;
  wr c (fun r => set_yield_count (u32 (yield_count r + 1)) r) ;;;
  resumed <-- scheduler_entry fuel ;;
  when resumed leave.

Definition preempt (fuel : nat) : M kst unit :=
  enter ;;;
  c <-- gets current_running ;;
  wr c (fun r => set_preempt_count (u32 (preempt_count r + 1)) r) ;;;
  resumed <-- scheduler_entry fuel ;;
  when resumed leave.

(** [while (p->next != NULL) p = p->next;] *)
Fixpoint walk_to_end (fuel : nat) (p : ptr) : M kst ptr :=
  match fuel with
  | O => out_of_fuel
  | S f =>
      n <-- rd p pcb_next ;;
      if negb (n =? NULL)%nat then walk_to_end f n else ret p
  end.

(** The part of [block] before the switch: the new value of [*q]. *)
Definition block_enqueue (q : ptr) : M kst ptr :=
  enter ;;;
  c <-- gets current_running ;;
  wr c (set_status STATUS_BLOCKED) ;;;
  if (q =? NULL)%nat then ret c
  else
    e <-- walk_to_end (S PCB_TABLE_SIZE) q ;;
    wr e (set_pcb_next c) ;;;
    ret q.

Definition block (fuel : nat) (q : ptr) : M kst ptr :=
  q' <-- block_enqueue q ;;
  resumed <-- scheduler_entry fuel ;;
  when resumed leave ;;;
  ret q'.

Definition unblock (q : ptr) : M kst ptr :=
  enter ;;;
  assertk (negb (q =? NULL)%nat) ;;;
  r <-- queue_shift q ;;
  wr (fst r) (set_status STATUS_READY) ;;;
  c <-- gets current_running ;;
  c' <-- queue_insert c (fst r) ;;
  modify (set_current_running c') ;;;
  leave ;;;
  ret (snd r).

(** [exit] does not return to its caller. *)
Definition exit (fuel : nat) : M kst bool :=
  enter ;;;
  c <-- gets current_running ;;
  wr c (set_status STATUS_EXITED) ;;;
  th <-- rd c is_thread ;;
  when (th =? 0)
    (modify (fun s => set_running_processes (u32 (running_processes s - 1)) s)) ;;;
  scheduler_entry fuel.

Definition getpriority : M kst Z :=
  c <-- gets current_running ;; n <-- rd c priority ;; ret (s32 n).

Definition setpriority (p : Z) : M kst unit :=
  c <-- gets current_running ;; wr c (set_priority (u32 p)).

(** ** sleep.c

    [msecs * cpu_mhz * 1000] is a product of [uint32_t] values; the sum is an
    [uint64_t]. *)
Definition sleep_cycles (msecs mhz : Z) : Z := u32 (u32 (msecs * mhz) * 1000).

Definition msleep (fuel : nat) (msecs : Z) : M kst unit :=
  t <-- read_cpu_ticks ;;
  c <-- gets current_running ;;
  mhz <-- gets cpu_mhz ;;
  wr c (set_wakeup_time ((t + sleep_cycles msecs mhz) mod 2 ^ 64)) ;;;
  wr c (set_status STATUS_SLEEPING) ;;;
  yield fuel.

End Scheduler.
