(* ===== verification/Ring.v ===== *)
(** * Ring queues refine lists

    Facts about the pcb queues of [Sched]: the doubly linked ring with its head
    pointer represents a list of threads, [queue_insert] appends to it,
    [queue_shift] takes its head, [queue_pos] searches it, [queue_remove] deletes from
    it.  A wait queue is a null-terminated singly linked list; [block] appends
    to it and [unblock] takes its head. *)

From S2P Require Import Prelude Sched.

(** ** The interrupt counter *)

(** The counter tells whether interrupts are on, with room for [n] more nested
    critical sections. *)
Definition cpu_room (n : Z) (c : cpu_state) : Prop :=
  0 <= nointerrupt_count_val c < 2 ^ 32 - n
  /\ (interrupts_on c = (nointerrupt_count_val c =? 0)).

Lemma leave_enter n c : 1 <= n -> cpu_room n c -> nointerrupt_leave (nointerrupt_enter c) = c.
Proof.
  destruct c as [v i]. unfold cpu_room, nointerrupt_leave, nointerrupt_enter; cbn.
  intros Hn [H ->]. rewrite u32_succ_pred by lia. f_equal.
  by destruct (v =? 0).
Qed.

Lemma enter_room n c : 1 <= n -> cpu_room n c -> cpu_room (n - 1) (nointerrupt_enter c).
Proof.
  destruct c as [v i]. unfold cpu_room, nointerrupt_enter; cbn. intros Hn [H ->].
  rewrite u32_small by lia. split; [lia|]. symmetry. apply Z.eqb_neq. lia.
Qed.

Lemma room_weaken n m c : m <= n -> cpu_room n c -> cpu_room m c.
Proof. intros Hm [H1 H2]. split; [lia|done]. Qed.

(** ** Links *)

Section Links.
Implicit Types (h : gmap ptr pcb) (a b p q z : ptr) (l t : list ptr).

Definition nxt (h : gmap ptr pcb) (p : ptr) : option ptr := pcb_next <$> h !! p.
Definition prv (h : gmap ptr pcb) (p : ptr) : option ptr := pcb_previous <$> h !! p.

Lemma nxt_has h p v : nxt h p = Some v -> is_Some (h !! p).
Proof. unfold nxt. destruct (h !! p); by eauto. Qed.
Lemma prv_has h p v : prv h p = Some v -> is_Some (h !! p).
Proof. unfold prv. destruct (h !! p); by eauto. Qed.

Lemma has_alter (f : pcb -> pcb) h a p : is_Some (h !! p) -> is_Some (alter f a h !! p).
Proof. rewrite lookup_alter_is_Some. done. Qed.

Lemma nxt_set_next h a v p :
  nxt (alter (set_pcb_next v) a h) p = if decide (p = a) then (fun _ => v) <$> h !! a else nxt h p.
Proof.
  unfold nxt. destruct (decide (p = a)) as [->|].
  - rewrite lookup_alter_eq. by destruct (h !! a).
  - by rewrite lookup_alter_ne.
Qed.
Lemma prv_set_prev h a v p :
  prv (alter (set_pcb_previous v) a h) p = if decide (p = a) then (fun _ => v) <$> h !! a else prv h p.
Proof.
  unfold prv. destruct (decide (p = a)) as [->|].
  - rewrite lookup_alter_eq. by destruct (h !! a).
  - by rewrite lookup_alter_ne.
Qed.
(** A field update that does not touch the link. *)
Lemma nxt_frame (f : pcb -> pcb) h a p :
  (forall r, pcb_next (f r) = pcb_next r) -> nxt (alter f a h) p = nxt h p.
Proof.
  intros Hf. unfold nxt. destruct (decide (p = a)) as [->|].
  - rewrite lookup_alter_eq. destruct (h !! a); simpl; [by rewrite Hf|done].
  - by rewrite lookup_alter_ne.
Qed.
Lemma prv_frame (f : pcb -> pcb) h a p :
  (forall r, pcb_previous (f r) = pcb_previous r) -> prv (alter f a h) p = prv h p.
Proof.
  intros Hf. unfold prv. destruct (decide (p = a)) as [->|].
  - rewrite lookup_alter_eq. destruct (h !! a); simpl; [by rewrite Hf|done].
  - by rewrite lookup_alter_ne.
Qed.

(** [a -> b] in both directions. *)
Definition link (h : gmap ptr pcb) (a b : ptr) : Prop := nxt h a = Some b /\ prv h b = Some a.

(** A doubly linked path from [a] through [l] to [z]. *)
Fixpoint seg (h : gmap ptr pcb) (a : ptr) (l : list ptr) (z : ptr) : Prop :=
  match l with
  | [] => link h a z
  | b :: l' => link h a b /\ seg h b l' z
  end.

(** The ring that represents the list [l]; the head pointer is its first
    element. *)
Definition ring (h : gmap ptr pcb) (l : list ptr) : Prop :=
  NoDup l /\ (NULL ∉ l) /\ (match l with [] => True | x :: t => seg h x t x end).

Definition head_ptr (l : list ptr) : ptr := match l with [] => NULL | x :: _ => x end.

Lemma seg_app h a l1 b l2 z : seg h a (l1 ++ b :: l2) z <-> seg h a l1 b /\ seg h b l2 z.
Proof. revert a. induction l1 as [|c l1 IH]; intros a; simpl; [done|]. rewrite IH. tauto. Qed.

Lemma seg_frame h h' a l z :
  (forall u, u = a \/ u ∈ l -> nxt h' u = nxt h u) ->
  (forall u, u ∈ l \/ u = z -> prv h' u = prv h u) ->
  seg h a l z -> seg h' a l z.
Proof.
  revert a. induction l as [|b l IH]; intros a Hn Hp; simpl.
  - intros [H1 H2]. split; [rewrite Hn by auto|rewrite Hp by auto]; done.
  - intros [[H1 H2] H3]. split.
    + split; [rewrite Hn by auto|rewrite Hp by set_solver]; done.
    + apply IH; [set_solver..|done].
Qed.

(** The last element of a path and its link to the end. *)
Lemma seg_last h a l z : seg h a l z -> exists y, link h y z /\ (y = a /\ l = [] \/ exists l', l = l' ++ [y] /\ seg h a l' y).
Proof.
  destruct l as [|b l'] using rev_ind; [|clear IHl'].
  - intros H. exists a. split; [exact H|by left].
  - rewrite seg_app. intros [H1 H2]. exists b. split; [exact H2|right; by exists l'].
Qed.

Lemma seg_has h a l z u : seg h a l z -> u ∈ a :: l -> is_Some (h !! u).
Proof.
  revert a. induction l as [|b l IH]; intros a; simpl.
  - intros [H _] Hu. assert (u = a) as -> by set_solver. by eapply nxt_has.
  - intros [[H _] Hs] Hu. apply elem_of_cons in Hu as [->|Hu]; [by eapply nxt_has|by eapply IH].
Qed.

Lemma ring_has h l u : ring h l -> u ∈ l -> is_Some (h !! u).
Proof. intros (_ & _ & H) Hu. destruct l; [set_solver|]. by eapply seg_has. Qed.

(** Fields other than the links. *)
Definition unlinked (r : pcb) : pcb := set_pcb_next NULL (set_pcb_previous NULL r).

(** [h'] differs from [h] only in the links of the control blocks in [l]. *)
Definition links_only (h h' : gmap ptr pcb) (l : list ptr) : Prop :=
  (forall u, u ∉ l -> h' !! u = h !! u)
  /\ (forall u, unlinked <$> h' !! u = unlinked <$> h !! u).

Lemma links_only_refl h l : links_only h h l.
Proof. done. Qed.

Lemma links_only_alter (f : pcb -> pcb) h h' a l :
  (forall r, unlinked (f r) = unlinked r) -> a ∈ l ->
  links_only h h' l -> links_only h (alter f a h') l.
Proof.
  intros Hf Ha [H1 H2]. split; intros u.
  - intros Hu. rewrite lookup_alter_ne by (intros ->; done). auto.
  - rewrite <- H2. destruct (decide (u = a)) as [->|].
    + rewrite lookup_alter_eq. destruct (h' !! a); simpl; [by rewrite Hf|done].
    + by rewrite lookup_alter_ne.
Qed.

End Links.

(** ** Running reads and writes *)

Lemma rd_next_ok {B} s p v (k : ptr -> M kst B) :
  nxt (pcbs s) p = Some v -> bind (rd p pcb_next) k s = k v s.
Proof. unfold nxt, bind, rd. destruct (pcbs s !! p); by intros [= ->]. Qed.

Lemma rd_prev_ok {B} s p v (k : ptr -> M kst B) :
  prv (pcbs s) p = Some v -> bind (rd p pcb_previous) k s = k v s.
Proof. unfold prv, bind, rd. destruct (pcbs s !! p); by intros [= ->]. Qed.

Lemma rd_ok {A B} s p r (f : pcb -> A) (k : A -> M kst B) :
  pcbs s !! p = Some r -> bind (rd p f) k s = k (f r) s.
Proof. unfold bind, rd. by intros ->. Qed.

Lemma wr_run s p f :
  is_Some (pcbs s !! p) -> wr p f s = Ret (tt, set_pcbs (alter f p (pcbs s)) s).
Proof.
  intros [r Hr]. unfold wr. rewrite Hr. do 2 f_equal. f_equal.
  apply map_eq. intros i. destruct (decide (i = p)) as [->|].
  - by rewrite lookup_insert_eq, lookup_alter_eq, Hr.
  - by rewrite lookup_insert_ne, lookup_alter_ne.
Qed.

Lemma wr_ok {B} s p f (k : unit -> M kst B) :
  is_Some (pcbs s !! p) ->
  bind (wr p f) k s = k tt (set_pcbs (alter f p (pcbs s)) s).
Proof. intros H. by rewrite (bind_step _ _ _ _ _ (wr_run s p f H)). Qed.

Lemma enter_ok {B} s (k : unit -> M kst B) :
  bind enter k s = k tt (set_cpu (nointerrupt_enter (cpu s)) s).
Proof. reflexivity. Qed.

Lemma leave_ok {B} s (k : unit -> M kst B) :
  bind leave k s = k tt (set_cpu (nointerrupt_leave (cpu s)) s).
Proof. reflexivity. Qed.

#[export] Hint Rewrite @enter_ok @leave_ok : kmonad.

(** Projections of updated states. *)
Ltac kproj :=
  cbn [pcbs set_pcbs set_cpu cpu set_current_running current_running set_freelist freelist
       running_processes set_running_processes next_pid next_stack cpu_mhz tsc_reads
       pic_mask cr3 tss_esp0 set_pic_mask set_cr3 set_tss_esp0 set_tsc_reads set_next_pid
       set_next_stack fst snd].

(** Normal form of updated states: the control blocks innermost but for the
    interrupt state, each field written once. *)
Section StateNormal.
Implicit Types (s : kst) (h : gmap ptr pcb) (c : cpu_state) (p : ptr).

Lemma set_pcbs_pcbs h h' s : set_pcbs h (set_pcbs h' s) = set_pcbs h s.
Proof. reflexivity. Qed.
Lemma set_cpu_cpu c c' s : set_cpu c (set_cpu c' s) = set_cpu c s.
Proof. reflexivity. Qed.
Lemma set_cpu_pcbs c h s : set_cpu c (set_pcbs h s) = set_pcbs h (set_cpu c s).
Proof. reflexivity. Qed.
Lemma set_cpu_running c p s :
  set_cpu c (set_current_running p s) = set_current_running p (set_cpu c s).
Proof. reflexivity. Qed.
Lemma set_cpu_freelist c p s : set_cpu c (set_freelist p s) = set_freelist p (set_cpu c s).
Proof. reflexivity. Qed.
Lemma set_pcbs_running h p s :
  set_pcbs h (set_current_running p s) = set_current_running p (set_pcbs h s).
Proof. reflexivity. Qed.
Lemma set_pcbs_freelist h p s : set_pcbs h (set_freelist p s) = set_freelist p (set_pcbs h s).
Proof. reflexivity. Qed.
Lemma set_running_running p p' s :
  set_current_running p (set_current_running p' s) = set_current_running p s.
Proof. reflexivity. Qed.
Lemma set_freelist_freelist p p' s : set_freelist p (set_freelist p' s) = set_freelist p s.
Proof. reflexivity. Qed.
Lemma set_freelist_running p p' s :
  set_freelist p (set_current_running p' s) = set_current_running p' (set_freelist p s).
Proof. reflexivity. Qed.
Lemma set_cpu_restore n s :
  1 <= n -> cpu_room n (cpu s) -> set_cpu (nointerrupt_leave (nointerrupt_enter (cpu s))) s = s.
Proof. intros. rewrite (leave_enter n) by done. by destruct s. Qed.
End StateNormal.

Create Rewrite HintDb kst.
#[export] Hint Rewrite set_pcbs_pcbs set_cpu_cpu set_cpu_pcbs set_cpu_running set_cpu_freelist
  set_pcbs_running set_pcbs_freelist set_running_running set_freelist_freelist
  set_freelist_running : kst.

Ltac kst_eq := kproj; autorewrite with kst; rewrite ?(set_cpu_restore 1) by (done || lia);
  reflexivity.

(** Reads through updated links. *)
Ltac links :=
  repeat first
    [ rewrite nxt_set_next | rewrite prv_set_prev
    | rewrite (nxt_frame (set_pcb_previous _)) by done
    | rewrite (prv_frame (set_pcb_next _)) by done
    | rewrite (nxt_frame (set_status _)) by done
    | rewrite (prv_frame (set_status _)) by done ].

(** ** queue_insert *)

Lemma queue_insert_empty s p :
  cpu_room 1 (cpu s) -> nxt (pcbs s) p = Some NULL ->
  queue_insert NULL p s =
    Ret (p, set_pcbs (alter (set_pcb_previous p) p (alter (set_pcb_next p) p (pcbs s))) s).
Proof.
  intros Hc Hn. unfold queue_insert. rewrite enter_ok.
  erewrite rd_next_ok by exact Hn. rewrite bind_assertk_true by done.
  cbn [Nat.eqb NULL]. rewrite !bind_assoc.
  rewrite wr_ok by (by eapply nxt_has). rewrite ?bind_assoc.
  rewrite wr_ok by (kproj; apply has_alter; by eapply nxt_has).
  rewrite bind_ret, leave_ok. unfold ret. do 2 f_equal. kst_eq.
Qed.

Lemma queue_insert_nonempty s q p e :
  cpu_room 1 (cpu s) -> q <> NULL -> q <> p -> e <> p ->
  nxt (pcbs s) p = Some NULL -> prv (pcbs s) q = Some e -> is_Some (pcbs s !! e) ->
  queue_insert q p s =
    Ret (q, set_pcbs (alter (set_pcb_previous p) q (alter (set_pcb_next p) e
             (alter (set_pcb_next q) p (alter (set_pcb_previous e) p (pcbs s))))) s).
Proof.
  intros Hc Hq Hqp Hep Hn Hv He. pose proof (nxt_has _ _ _ Hn) as Hp.
  unfold queue_insert. rewrite enter_ok.
  erewrite rd_next_ok by exact Hn. rewrite bind_assertk_true by done.
  rewrite (proj2 (Nat.eqb_neq q NULL)) by done. rewrite !bind_assoc.
  erewrite rd_prev_ok by exact Hv. rewrite ?bind_assoc.
  rewrite wr_ok by done. rewrite ?bind_assoc. rewrite wr_ok by (kproj; by apply has_alter).
  kproj. rewrite ?bind_assoc.
  erewrite (rd_prev_ok _ p e)
    by (kproj; links; rewrite decide_True by done; by destruct Hp as [? ->]).
  rewrite ?bind_assoc. rewrite wr_ok by (kproj; by do 2 apply has_alter).
  kproj. rewrite ?bind_assoc.
  erewrite (rd_next_ok _ p q).
  2:{ kproj. links. rewrite decide_False, decide_True by done.
      destruct (has_alter (set_pcb_previous e) _ p p Hp) as [? E]. by rewrite E. }
  rewrite ?bind_assoc.
  rewrite wr_ok by (kproj; do 3 apply has_alter; by eapply prv_has).
  rewrite bind_ret, leave_ok. unfold ret. do 2 f_equal. kst_eq.
Qed.

Lemma head_ptr_app l p : l <> [] -> head_ptr (l ++ [p]) = head_ptr l.
Proof. by destruct l. Qed.

Lemma last_elem h (x y : ptr) t z :
  (y = x /\ t = [] \/ exists l', t = l' ++ [y] /\ seg h x l' z) -> y ∈ x :: t.
Proof. intros [[-> ->]|(l' & -> & _)]; set_solver. Qed.

Lemma NoDup_snoc (l : list ptr) p : NoDup l -> p ∉ l -> NoDup (l ++ [p]).
Proof.
  intros. apply list.NoDup_app. split_and!; [done|set_solver|apply NoDup_singleton].
Qed.

(** The ring after the four writes of [queue_insert]. *)
Lemma ring_insert_links h x t p e :
  ring h (x :: t) -> p ∉ x :: t -> p <> NULL -> is_Some (h !! p) -> prv h x = Some e ->
  let h' := alter (set_pcb_previous p) x (alter (set_pcb_next p) e
              (alter (set_pcb_next x) p (alter (set_pcb_previous e) p h))) in
  ring h' ((x :: t) ++ [p]) /\ links_only h h' ((x :: t) ++ [p]).
Proof.
  intros (Hnd & H0 & Hseg) Hp Hp0 Hhas He.
  destruct (seg_last _ _ _ _ Hseg) as (y & [Hy1 Hy2] & Hcase).
  rewrite Hy2 in He. injection He as <-.
  pose proof (last_elem _ _ _ _ _ Hcase) as Hy.
  assert (Hpx : p <> x) by (intros ->; apply Hp; left).
  assert (Hpy : p <> y) by (intros ->; done).
  assert (Hnd' : NoDup ((x :: t) ++ [p])) by (by apply NoDup_snoc).
  assert (H0' : NULL ∉ (x :: t) ++ [p]) by (clear -H0 Hp0; set_solver).
  assert (Hfr : forall l', t = l' ++ [y] -> forall u,
     (u = x \/ u ∈ l' -> u <> y /\ u <> p) /\ (u ∈ l' \/ u = y -> u <> x /\ u <> p)).
  { intros l' -> u. apply list.NoDup_cons in Hnd as [Hx Hnd].
    apply list.NoDup_app in Hnd as (_ & Hd & _). clear -Hx Hd Hp. set_solver. }
  assert (Hhx : is_Some (h !! x)) by (by eapply prv_has).
  assert (Hhy : is_Some (h !! y)) by (by eapply nxt_has).
  intros h'.
  assert (Hlinks : link h' y p /\ link h' p x).
  { unfold link, h'. split_and!; links.
    - rewrite decide_True by done.
      by destruct (has_alter (set_pcb_next x) _ p y (has_alter (set_pcb_previous y) _ p y Hhy)) as [? ->].
    - rewrite decide_False, decide_True by done. by destruct Hhas as [? ->].
    - rewrite decide_False, decide_True by done.
      by destruct (has_alter (set_pcb_previous y) _ p p Hhas) as [? ->].
    - rewrite decide_True by done.
      by destruct (has_alter (set_pcb_next p) _ y x (has_alter (set_pcb_next x) _ p x
           (has_alter (set_pcb_previous y) _ p x Hhx))) as [? ->]. }
  destruct Hlinks as [Hl1 Hl2]. split.
  - split_and!; [done|done|].
    simpl. apply seg_app. split; [|done].
    destruct Hcase as [[-> ->]|(l' & -> & Hs)]; [done|].
    apply seg_app. split; [|done].
    eapply seg_frame, Hs; intros u Hu; unfold h'; links.
    + destruct (proj1 (Hfr l' eq_refl u) Hu). by rewrite !decide_False.
    + destruct (proj2 (Hfr l' eq_refl u) Hu). by rewrite !decide_False.
  - unfold h'. clear h' Hl1 Hl2 Hfr.
    do 4 (apply links_only_alter; [done|clear -Hy; set_solver|]). apply links_only_refl.
Qed.

(** [queue_insert] refines appending to a list: on a ring that represents
    [l] and a thread that is in no queue, it leaves a ring for [l ++ [p]],
    changes only links of these control blocks, and leaves the interrupt state
    as it was. *)
Lemma queue_insert_ring s l p
  (Hcpu : cpu_room 1 (cpu s)) (Hring : ring (pcbs s) l)
  (Hfree : nxt (pcbs s) p = Some NULL) (Hp : p ∉ l) (Hp0 : p <> NULL) :
  exists h', queue_insert (head_ptr l) p s = Ret (head_ptr (l ++ [p]), set_pcbs h' s)
    /\ ring h' (l ++ [p]) /\ links_only (pcbs s) h' (l ++ [p]).
Proof.
  pose proof (nxt_has _ _ _ Hfree) as Hhas. destruct l as [|x t].
  - eexists. split; [by apply queue_insert_empty|]. split.
    + split_and!; [apply NoDup_singleton|set_solver|]. simpl. unfold link. links.
      rewrite !decide_True by done. destruct Hhas as [r Hr].
      by rewrite lookup_alter_eq, Hr.
    + do 2 (apply links_only_alter; [done|set_solver|]). apply links_only_refl.
  - destruct Hring as (Hnd & H0 & Hseg) eqn:E. clear E.
    destruct (seg_last _ _ _ _ Hseg) as (y & [Hy1 Hy2] & Hcase).
    pose proof (last_elem _ _ _ _ _ Hcase) as Hy.
    eexists. split.
    + rewrite head_ptr_app by done.
      apply (queue_insert_nonempty s x p y); try done.
      * intros ->. apply H0. left.
      * intros ->. apply Hp. left.
      * intros ->. done.
      * by eapply nxt_has.
    + by apply ring_insert_links.
Qed.

(** ** queue_shift *)

(** The writes of [queue_shift] on a queue of more than one thread. *)
Lemma queue_shift_run s p n v :
  cpu_room 1 (cpu s) -> p <> NULL ->
  nxt (pcbs s) p = Some n -> prv (pcbs s) p = Some v -> (n = p /\ v = p -> False) ->
  is_Some (pcbs s !! v) -> is_Some (pcbs s !! n) -> v <> p -> n <> p ->
  queue_shift p s = Ret ((p, n), set_pcbs
    (alter (set_pcb_next NULL) p (alter (set_pcb_previous NULL) p
       (alter (set_pcb_previous v) n (alter (set_pcb_next n) v (pcbs s))))) s).
Proof.
  intros Hc Hp0 Hn Hv Hne Hhv Hhn Hvp Hnp. pose proof (nxt_has _ _ _ Hn) as Hhp.
  unfold queue_shift. rewrite enter_ok, ?bind_assoc.
  rewrite (proj2 (Nat.eqb_neq p NULL)) by done.
  rewrite ?bind_assoc. erewrite rd_next_ok by exact Hn.
  rewrite ?bind_assoc. erewrite rd_prev_ok by exact Hv.
  rewrite ?bind_assoc, (proj2 (Nat.eqb_neq n p)) by done. cbn [andb].
  rewrite ?bind_assoc. erewrite rd_prev_ok by exact Hv.
  rewrite ?bind_assoc. erewrite rd_next_ok by exact Hn.
  rewrite ?bind_assoc. rewrite wr_ok by done. kproj.
  rewrite ?bind_assoc.
  erewrite (rd_next_ok _ p n) by (kproj; links; by rewrite decide_False by done).
  rewrite ?bind_assoc. erewrite (rd_prev_ok _ p v) by (kproj; by links).
  rewrite ?bind_assoc. rewrite wr_ok by (kproj; by apply has_alter). kproj.
  erewrite (rd_next_ok _ p n) by (kproj; links; by rewrite decide_False by done).
  rewrite ?bind_assoc. rewrite wr_ok by (kproj; by do 2 apply has_alter). kproj.
  rewrite ?bind_assoc. rewrite wr_ok by (kproj; by do 3 apply has_alter). kproj.
  rewrite bind_ret, leave_ok. unfold ret. do 2 f_equal. kst_eq.
Qed.

Lemma queue_shift_single s p :
  cpu_room 1 (cpu s) -> p <> NULL -> nxt (pcbs s) p = Some p -> prv (pcbs s) p = Some p ->
  queue_shift p s = Ret ((p, NULL), set_pcbs
    (alter (set_pcb_next NULL) p (alter (set_pcb_previous NULL) p (pcbs s))) s).
Proof.
  intros Hc Hp0 Hn Hv. pose proof (nxt_has _ _ _ Hn) as Hhp.
  unfold queue_shift. rewrite enter_ok, ?bind_assoc.
  rewrite (proj2 (Nat.eqb_neq p NULL)) by done.
  rewrite ?bind_assoc. erewrite rd_next_ok by exact Hn.
  rewrite ?bind_assoc. erewrite rd_prev_ok by exact Hv.
  rewrite Nat.eqb_refl. cbn [andb]. rewrite ?bind_assoc, bind_ret.
  rewrite ?bind_assoc. rewrite wr_ok by done. kproj.
  rewrite ?bind_assoc. rewrite wr_ok by (kproj; by apply has_alter). kproj.
  rewrite bind_ret, leave_ok. unfold ret. do 2 f_equal. kst_eq.
Qed.

Lemma ring_shift_links h p b t v :
  ring h (p :: b :: t) -> prv h p = Some v ->
  let h' := alter (set_pcb_next NULL) p (alter (set_pcb_previous NULL) p
              (alter (set_pcb_previous v) b (alter (set_pcb_next b) v h))) in
  ring h' (b :: t) /\ nxt h' p = Some NULL /\ prv h' p = Some NULL
  /\ links_only h h' (p :: b :: t) /\ v <> p /\ v ∈ b :: t.
Proof.
  intros (Hnd & H0 & Hpb & Hseg) Hv.
  destruct (seg_last _ _ _ _ Hseg) as (y & [Hy1 Hy2] & Hcase).
  rewrite Hy2 in Hv. injection Hv as <-.
  pose proof (last_elem _ _ _ _ _ Hcase) as Hy.
  apply list.NoDup_cons in Hnd as [Hp Hnd].
  assert (Hyp : y <> p) by (intros ->; done).
  assert (Hbp : b <> p) by (intros ->; apply Hp; left).
  assert (Hfr : forall l', t = l' ++ [y] -> forall u,
     (u = b \/ u ∈ l' -> u <> y /\ u <> p) /\ (u ∈ l' \/ u = y -> u <> b /\ u <> p)).
  { intros l' -> u. apply list.NoDup_cons in Hnd as [Hx Hnd].
    apply list.NoDup_app in Hnd as (_ & Hd & _). clear -Hx Hd Hp. set_solver. }
  assert (Hhp : is_Some (h !! p)) by (by eapply prv_has).
  assert (Hhy : is_Some (h !! y)) by (by eapply nxt_has).
  assert (Hhb : is_Some (h !! b)) by (destruct Hpb as [_ H]; by eapply prv_has).
  assert (H0' : NULL ∉ b :: t) by (intros H; apply H0; by right).
  intros h'.
  assert (Hl : link h' y b).
  { unfold link, h'. split; links.
    - rewrite decide_False, decide_True by done. by destruct Hhy as [? ->].
    - rewrite decide_False, decide_True by done.
      by destruct (has_alter (set_pcb_next b) _ y b Hhb) as [? ->]. }
  refine (conj (conj Hnd (conj H0' _)) (conj _ (conj _ (conj _ (conj Hyp Hy))))).
  - destruct Hcase as [[-> ->]|(l' & -> & Hs)]; [done|].
    apply seg_app. split; [|done]. eapply seg_frame, Hs; intros u Hu; unfold h'; links.
    + destruct (proj1 (Hfr l' eq_refl u) Hu). by rewrite !decide_False.
    + destruct (proj2 (Hfr l' eq_refl u) Hu). by rewrite !decide_False.
  - unfold h'. links. rewrite decide_True by done.
    by destruct (has_alter (set_pcb_previous NULL) _ p p (has_alter (set_pcb_previous y) _ b p
      (has_alter (set_pcb_next b) _ y p Hhp))) as [? ->].
  - unfold h'. links. rewrite decide_True by done.
    by destruct (has_alter (set_pcb_previous y) _ b p (has_alter (set_pcb_next b) _ y p Hhp)) as [? ->].
  - unfold h'. clear h' Hl Hfr.
    do 4 (apply links_only_alter; [done|clear -Hy; set_solver|]). apply links_only_refl.
Qed.

(** [queue_shift] refines taking the head of a list: on a ring for
    [p :: t] it returns [p] with both links null and leaves a ring for [t],
    touching nothing but links of these control blocks; on the empty queue it
    returns the null pointer. *)
Lemma queue_shift_ring s l
  (Hcpu : cpu_room 1 (cpu s)) (Hring : ring (pcbs s) l) :
  match l with
  | [] => queue_shift (head_ptr l) s = Ret ((NULL, NULL), s)
  | p :: t =>
      exists h', queue_shift (head_ptr l) s = Ret ((p, head_ptr t), set_pcbs h' s)
        /\ ring h' t /\ nxt h' p = Some NULL /\ prv h' p = Some NULL
        /\ links_only (pcbs s) h' l
  end.
Proof.
  destruct l as [|p [|b t]].
  - unfold queue_shift. rewrite enter_ok. cbn [head_ptr Nat.eqb NULL].
    rewrite bind_ret, leave_ok. unfold ret. do 2 f_equal. kst_eq.
  - destruct Hring as (_ & H0 & [Hn Hv]).
    assert (p <> NULL) by (intros ->; apply H0; left).
    pose proof (nxt_has _ _ _ Hn) as Hhp.
    eexists. split; [by apply queue_shift_single|].
    refine (conj (conj _ (conj _ I)) (conj _ (conj _ _))).
    + constructor.
    + apply not_elem_of_nil.
    + links. rewrite decide_True by done.
      by destruct (has_alter (set_pcb_previous NULL) _ p p Hhp) as [? ->].
    + links. rewrite decide_True by done. by destruct Hhp as [? ->].
    + do 2 (apply links_only_alter; [done|left|]). apply links_only_refl.
  - pose proof Hring as (_ & H0 & [Hn Hb] & Hseg).
    destruct (seg_last _ _ _ _ Hseg) as (v & [Hv1 Hv2] & _).
    destruct (ring_shift_links _ _ _ _ _ Hring Hv2) as (H1 & H2 & H3 & H4 & H5 & H6).
    assert (p <> NULL) by (intros ->; apply H0; left).
    assert (b <> p).
    { intros ->. destruct Hring as [Hnd _]. apply list.NoDup_cons in Hnd as [Hnd _].
      apply Hnd. left. }
    eexists. split; [apply (queue_shift_run s p b v); try done; [by intros [? _]|..]|].
    + by eapply nxt_has.
    + by eapply prv_has.
    + exact (conj H1 (conj H2 (conj H3 H4))).
Qed.

(** [C19] The ring queues of pcb.c refine lists: on a queue that represents [l],
    [queue_insert] of a thread that is in no queue appends it, [queue_shift]
    takes the head, or returns the null pointer when there is none; both touch
    nothing but links of the threads involved, and restore the interrupt state. *)
Theorem queue_refines_list s l (Hcpu : cpu_room 1 (cpu s)) (Hring : ring (pcbs s) l) :
  (forall p, nxt (pcbs s) p = Some NULL -> p ∉ l -> p <> NULL ->
     exists h', queue_insert (head_ptr l) p s = Ret (head_ptr (l ++ [p]), set_pcbs h' s)
       /\ ring h' (l ++ [p]) /\ links_only (pcbs s) h' (l ++ [p]))
  /\ match l with
     | [] => queue_shift (head_ptr l) s = Ret ((NULL, NULL), s)
     | p :: t =>
         exists h', queue_shift (head_ptr l) s = Ret ((p, head_ptr t), set_pcbs h' s)
           /\ ring h' t /\ nxt h' p = Some NULL /\ prv h' p = Some NULL
           /\ links_only (pcbs s) h' l
     end.
Proof. split; [intros; by apply queue_insert_ring|by apply queue_shift_ring]. Qed.

(** ** Wait queues *)

(** Threads linked by [next] up to [z], with null [previous]. *)
Fixpoint chain (h : gmap ptr pcb) (l : list ptr) (z : ptr) : Prop :=
  match l with
  | [] => True
  | x :: t =>
      nxt h x = Some (match t with [] => z | y :: _ => y end)
      /\ prv h x = Some NULL /\ chain h t z
  end.

(** A wait queue: what [block] builds and [unblock] takes apart. *)
Definition wait_queue (h : gmap ptr pcb) (l : list ptr) : Prop :=
  NoDup l /\ (NULL ∉ l) /\ chain h l NULL.

Lemma chain_frame h h' l z :
  (forall u, u ∈ l -> nxt h' u = nxt h u /\ prv h' u = prv h u) ->
  chain h l z -> chain h' l z.
Proof.
  induction l as [|x t IH]; simpl; [done|]. intros Hf (H1 & H2 & H3).
  destruct (Hf x) as [-> ->]; [left|]. split_and!; [done|done|].
  apply IH; [|done]. intros u Hu. apply Hf. by right.
Qed.

Lemma chain_snoc h l c z : chain h (l ++ [c]) z <->
  chain h l c /\ nxt h c = Some z /\ prv h c = Some NULL.
Proof.
  induction l as [|x t IH]; simpl; [tauto|].
  rewrite IH. destruct t as [|y t]; simpl; tauto.
Qed.

(** Moving the end of a chain: the last thread gets a new [next]. *)
Lemma chain_extend h l e c :
  NoDup (l ++ [e]) -> chain h (l ++ [e]) NULL ->
  chain (alter (set_pcb_next c) e h) (l ++ [e]) c.
Proof.
  intros Hnd. rewrite !chain_snoc. intros (H1 & H2 & H3). split_and!.
  - eapply chain_frame, H1. intros u Hu. split; links; [|done].
    rewrite decide_False; [done|]. intros ->.
    apply list.NoDup_app in Hnd as (_ & Hd & _). apply (Hd e Hu). left.
  - links. rewrite decide_True by done. by destruct (nxt_has _ _ _ H2) as [? ->].
  - by links.
Qed.

Lemma links_only_nxt h h' l u : links_only h h' l -> u ∉ l -> nxt h' u = nxt h u /\ prv h' u = prv h u.
Proof. intros [H _] Hu. unfold nxt, prv. by rewrite H. Qed.

Lemma links_only_chain h h' l t z :
  links_only h h' l -> (forall u, u ∈ t -> u ∉ l) -> chain h t z -> chain h' t z.
Proof. intros Hl Hd. apply chain_frame. intros u Hu. by eapply links_only_nxt, Hd. Qed.

Lemma links_only_ring h h' l t :
  links_only h h' l -> (forall u, u ∈ t -> u ∉ l) -> ring h t -> ring h' t.
Proof.
  intros Hl Hd (H1 & H2 & H3). split_and!; [done|done|]. destruct t as [|x t]; [done|].
  eapply seg_frame, H3; intros u Hu;
    (eapply links_only_nxt; [done|]; apply Hd; destruct Hu as [?|?]; subst; set_solver).
Qed.

Lemma walk_to_end_run s e : forall l fuel,
  chain (pcbs s) (l ++ [e]) NULL -> (NULL ∉ l ++ [e]) ->
  (length l < fuel)%nat -> walk_to_end fuel (head_ptr (l ++ [e])) s = Ret (e, s).
Proof.
  induction l as [|x l IH]; intros fuel Hch H0 Hf; (destruct fuel as [|f]; [lia|]).
  - destruct Hch as (Hn & _). cbn. by erewrite rd_next_ok by exact Hn.
  - destruct Hch as (Hn & _ & Hch). cbn [walk_to_end head_ptr app].
    erewrite rd_next_ok by exact Hn.
    assert (En : match l ++ [e] with [] => NULL | y :: _ => y end = head_ptr (l ++ [e]))
      by (by destruct l).
    rewrite En. assert (Hy : head_ptr (l ++ [e]) <> NULL).
    { intros E. apply H0. right. rewrite <- E. destruct l; left. }
    rewrite (proj2 (Nat.eqb_neq _ _)) by done. cbn [negb].
    apply IH; [done| |simpl in Hf; lia]. intros H. apply H0. by right.
Qed.

(** Taking the head of a wait queue: [queue_shift] writes through the null
    [previous] pointer, that is into low memory. *)
Lemma queue_shift_wait s p t :
  cpu_room 1 (cpu s) -> wait_queue (pcbs s) (p :: t) -> is_Some (pcbs s !! NULL) ->
  exists h', queue_shift p s = Ret ((p, head_ptr t), set_pcbs h' s)
    /\ wait_queue h' t /\ nxt h' p = Some NULL /\ prv h' p = Some NULL
    /\ nxt h' NULL = Some (head_ptr t)
    /\ links_only (pcbs s) h' (NULL :: p :: t).
Proof.
  intros Hc (Hnd & H0 & Hn & Hv & Hch) Hnull.
  apply list.NoDup_cons in Hnd as [Hp Hnd].
  assert (Hp0 : p <> NULL) by (intros ->; apply H0; left).
  pose proof (nxt_has _ _ _ Hn) as Hhp.
  set (n := head_ptr t). assert (En : match t with [] => NULL | y :: _ => y end = n) by (by destruct t).
  rewrite En in Hn.
  assert (Hhn : is_Some (pcbs s !! n)).
  { destruct t as [|y t]; [done|]. destruct Hch as (H & _). by eapply nxt_has. }
  assert (Hnp : n <> p) by (destruct t as [|y t]; [by intros <-|intros <-; apply Hp; left]).
  eexists. split; [apply (queue_shift_run s p n NULL); try done; by intros [? _]|].
  assert (Ht0 : NULL ∉ t) by (intros H; apply H0; by right).
  refine (conj (conj Hnd (conj Ht0 _)) (conj _ (conj _ (conj _ _)))).
  - eapply chain_frame, Hch. intros u Hu. links.
    assert (u <> p) by (intros ->; done). assert (u <> NULL) by (intros ->; done).
    rewrite !decide_False by done. split; [done|].
    destruct (decide (u = n)) as [->|]; [|done].
    destruct t as [|y t]; [done|]. destruct Hch as (_ & Hy & _).
    unfold n. cbn [head_ptr]. rewrite Hy.
    by destruct (has_alter (set_pcb_next y) _ NULL y (prv_has _ _ _ Hy)) as [? ->].
  - links. rewrite decide_True by done.
    by destruct (has_alter (set_pcb_previous NULL) _ p p (has_alter (set_pcb_previous NULL) _ n p
      (has_alter (set_pcb_next n) _ NULL p Hhp))) as [? ->].
  - links. rewrite decide_True by done.
    by destruct (has_alter (set_pcb_previous NULL) _ n p
      (has_alter (set_pcb_next n) _ NULL p Hhp)) as [? ->].
  - links. rewrite decide_False, decide_True by done. by destruct Hnull as [? ->].
  - assert (n ∈ NULL :: p :: t) by (destruct t; unfold n; simpl; set_solver).
    do 4 (apply links_only_alter; [done|first [done|left|right; left]|]). apply links_only_refl.
Qed.

Lemma set_running_same s p : current_running s = p -> set_current_running p s = s.
Proof. intros <-. by destruct s. Qed.

(** A status update changes no link. *)
Lemma ring_status h l a v : ring h l -> ring (alter (set_status v) a h) l.
Proof.
  intros (H1 & H2 & H3). split_and!; [done|done|]. destruct l; [done|].
  eapply seg_frame, H3; intros u _; by links.
Qed.

Lemma chain_status h l z a v : chain h l z -> chain (alter (set_status v) a h) l z.
Proof. apply chain_frame. intros u _. by links. Qed.

Definition status_of (h : gmap ptr pcb) (p : ptr) : option Z := status <$> h !! p.

Lemma links_only_status h h' l u : links_only h h' l -> status_of h' u = status_of h u.
Proof.
  intros [_ H]. specialize (H u). unfold status_of.
  destruct (h' !! u) as [r'|], (h !! u) as [r|]; try done.
  apply (f_equal (fmap status)) in H. exact H.
Qed.

Lemma unblock_run s p t r
  (Hcpu : cpu_room 2 (cpu s)) (Hwait : wait_queue (pcbs s) (p :: t))
  (Hready : ring (pcbs s) r) (Hcur : current_running s = head_ptr r)
  (Hr : r <> []) (Hdisj : forall u, u ∈ p :: t -> u ∉ r)
  (Hnull : is_Some (pcbs s !! NULL)) :
  exists h', unblock p s = Ret (head_ptr t, set_pcbs h' s)
    /\ wait_queue h' t /\ ring h' (r ++ [p])
    /\ status_of h' p = Some STATUS_READY
    /\ nxt h' NULL = Some (head_ptr t).
Proof.
  set (s1 := set_cpu (nointerrupt_enter (cpu s)) s).
  assert (Hc1 : cpu_room 1 (cpu s1)) by (apply (enter_room 2); [lia|done]).
  destruct Hwait as (Hnd & H0 & Hch) eqn:E. clear E.
  assert (Hp0 : p <> NULL) by (intros ->; apply H0; left).
  destruct (queue_shift_wait s1 p t Hc1 Hwait Hnull) as (h1 & Q1 & W1 & N1 & V1 & Z1 & L1).
  set (h2 := alter (set_status STATUS_READY) p h1).
  assert (Hp1 : is_Some (h1 !! p)) by (by eapply nxt_has).
  assert (R2 : ring h2 r).
  { apply ring_status. eapply links_only_ring; [exact L1| |exact Hready].
    intros u Hu Hin. destruct Hready as (_ & Hr0 & _).
    apply elem_of_cons in Hin as [->|Hin]; [done|]. by apply (Hdisj u). }
  destruct (queue_insert_ring (set_pcbs h2 s1) r p) as (h3 & Q3 & R3 & L3); try done.
  { unfold h2. cbn. by links. }
  { apply Hdisj. left. }
  exists h3. destruct W1 as (W1a & W1b & W1c).
  assert (Hpt : p ∉ t) by (by apply list.NoDup_cons in Hnd as [? _]).
  refine (conj _ (conj (conj W1a (conj W1b _)) (conj R3 (conj _ _)))).
  - unfold unblock. rewrite enter_ok. fold s1.
    rewrite bind_assertk_true by (apply negb_true_iff; by apply Nat.eqb_neq).
    rewrite (bind_step _ _ _ _ _ Q1). cbn [fst snd].
    rewrite wr_ok by done. kproj. rewrite bind_gets. kproj.
    change (current_running s1) with (current_running s). rewrite Hcur.
    rewrite set_pcbs_pcbs. fold h2. rewrite (bind_step _ _ _ _ _ Q3).
    rewrite bind_modify, leave_ok. unfold ret. do 2 f_equal. unfold s1.
    rewrite head_ptr_app by done. kproj. autorewrite with kst.
    rewrite (set_cpu_restore 2) by (done || lia).
    rewrite (set_running_same _ (head_ptr r)) by done. reflexivity.
  - eapply links_only_chain; [exact L3| |by apply chain_status].
    intros u Hu Hin. apply elem_of_app in Hin as [Hin|Hin].
    + apply (Hdisj u); [by right|done].
    + apply list_elem_of_singleton in Hin. subst. done.
  - rewrite (links_only_status _ _ _ _ L3). unfold h2, status_of. cbn.
    rewrite lookup_alter_eq. by destruct Hp1 as [? ->].
  - assert (Hn0 : NULL ∉ r ++ [p]).
    { destruct R3 as (_ & Hx & _). exact Hx. }
    destruct (links_only_nxt _ _ _ NULL L3 Hn0) as [-> _]. unfold h2. cbn. by links.
Qed.

(** [unblock] refines moving the head of the wait queue to the end of the
    ready ring: it marks that thread ready and returns the rest of the wait
    queue.  Because the threads of a wait queue have a null [previous], it also
    stores that rest through the null pointer, into the word at address 0. *)
Theorem unblock_moves_head s p t r
  (Hcpu : cpu_room 2 (cpu s)) (Hwait : wait_queue (pcbs s) (p :: t))
  (Hready : ring (pcbs s) r) (Hcur : current_running s = head_ptr r)
  (Hr : r <> []) (Hdisj : forall u, u ∈ p :: t -> u ∉ r)
  (Hnull : is_Some (pcbs s !! NULL)) :
  exists h', unblock p s = Ret (head_ptr t, set_pcbs h' s)
    /\ wait_queue h' t /\ ring h' (r ++ [p])
    /\ status_of h' p = Some STATUS_READY
    /\ nxt h' NULL = Some (head_ptr t).
Proof. by apply unblock_run. Qed.

(** [block] up to the switch: the thread is marked blocked and linked behind the
    last waiting thread; its own [next] still points into the ready ring. *)
Lemma block_enqueue_run s c r l :
  ring (pcbs s) (c :: r) -> current_running s = c -> wait_queue (pcbs s) l ->
  (length l <= PCB_TABLE_SIZE)%nat -> (forall u, u ∈ l -> u ∉ c :: r) ->
  exists h2, block_enqueue (head_ptr l) s
      = Ret (head_ptr (l ++ [c]), set_pcbs h2 (set_cpu (nointerrupt_enter (cpu s)) s))
    /\ chain h2 l c /\ ring h2 (c :: r) /\ status_of h2 c = Some STATUS_BLOCKED.
Proof.
  intros Hready Hcur Hwait Hlen Hdisj.
  set (s1 := set_cpu (nointerrupt_enter (cpu s)) s). destruct Hwait as (Hnd & H0 & Hch).
  assert (Hhc : is_Some (pcbs s !! c)) by (eapply ring_has; [done|left]).
  set (h1 := alter (set_status STATUS_BLOCKED) c (pcbs s)).
  unfold block_enqueue. rewrite enter_ok. fold s1. rewrite bind_gets.
  change (current_running s1) with (current_running s). rewrite Hcur.
  rewrite wr_ok by done. change (pcbs s1) with (pcbs s). fold h1.
  assert (R1 : ring h1 (c :: r)) by (by apply ring_status).
  assert (S1 : status_of h1 c = Some STATUS_BLOCKED).
  { unfold status_of, h1. rewrite lookup_alter_eq. by destruct Hhc as [? ->]. }
  destruct l as [|e l' _] using rev_ind; [exists h1; by split_and!|].
  assert (Hq : head_ptr (l' ++ [e]) <> NULL).
  { intros E. apply H0. rewrite <- E. destruct l'; left. }
  rewrite (proj2 (Nat.eqb_neq _ _)) by done.
  assert (Hw : chain h1 (l' ++ [e]) NULL) by (by apply chain_status).
  rewrite (bind_step _ _ _ _ _ (walk_to_end_run (set_pcbs h1 s1) e l'
    (S PCB_TABLE_SIZE) Hw H0 ltac:(rewrite length_app in Hlen; simpl in Hlen; lia))).
  assert (Hhe : is_Some (h1 !! e)).
  { apply chain_snoc in Hw as (_ & Hn & _). by eapply nxt_has. }
  rewrite wr_ok by done. exists (alter (set_pcb_next c) e h1). split.
  { unfold ret. do 2 f_equal. by destruct l'. }
  split_and!; [by apply chain_extend| |].
  - eapply links_only_ring; [|intros u Hu; exact (fun Hin => Hdisj u Hin Hu)|exact R1].
    apply links_only_alter; [done|set_solver|apply links_only_refl].
  - rewrite <- S1. eapply links_only_status.
    apply (links_only_alter _ _ _ _ [e]); [done|left|apply links_only_refl].
Qed.

(** [block] refines moving the running thread from the ready ring to the
    end of the wait queue: after the part of [block] before the switch and the
    scheduler's step for a blocked thread, the thread is the last of the wait
    queue, and the ready ring goes on with the next thread. *)
Theorem block_appends rdtsc s c b r l
  (Hcpu : cpu_room 2 (cpu s)) (Hready : ring (pcbs s) (c :: b :: r))
  (Hcur : current_running s = c) (Hwait : wait_queue (pcbs s) l)
  (Hlen : (length l <= PCB_TABLE_SIZE)%nat)
  (Hdisj : forall u, u ∈ l -> u ∉ c :: b :: r) :
  exists h', (q <-- block_enqueue (head_ptr l) ;; scheduler_switch rdtsc ;;; ret q) s
      = Ret (head_ptr (l ++ [c]),
             set_current_running b (set_pcbs h' (set_cpu (nointerrupt_enter (cpu s)) s)))
    /\ wait_queue h' (l ++ [c]) /\ ring h' (b :: r)
    /\ status_of h' c = Some STATUS_BLOCKED.
Proof.
  set (s1 := set_cpu (nointerrupt_enter (cpu s)) s).
  assert (Hc1 : cpu_room 1 (cpu s1)) by (apply (enter_room 2); [lia|done]).
  destruct Hwait as (Hnd & H0 & Hch).
  assert (Hcl : c ∉ l) by (intros H; apply (Hdisj c H); left).
  assert (Hc0 : c <> NULL) by (destruct Hready as (_ & H & _); intros ->; apply H; left).
  destruct (block_enqueue_run s c (b :: r) l) as (h2 & B2 & C2 & R2 & S2); try done.
  fold s1 in B2.
  destruct (queue_shift_ring (set_pcbs h2 s1) (c :: b :: r) Hc1 R2)
    as (h3 & Q3 & R3 & N3 & V3 & L3).
  exists h3. rewrite (bind_step _ _ _ _ _ B2).
  assert (Hsw : scheduler_switch rdtsc (set_pcbs h2 s1)
                = Ret (tt, set_current_running b (set_pcbs h3 s1))).
  { unfold scheduler_switch. rewrite bind_gets.
    change (current_running (set_pcbs h2 s1)) with (current_running s). rewrite Hcur.
    unfold status_of in S2. destruct (h2 !! c) as [rc|] eqn:Erc; [|done].
    injection S2 as S2. erewrite rd_ok by exact Erc. rewrite S2. cbn [Z.eqb orb STATUS_BLOCKED
      STATUS_SLEEPING STATUS_FIRST_TIME STATUS_READY Pos.eqb].
    cbn [head_ptr] in Q3. rewrite (bind_step _ _ _ _ _ Q3). cbn [fst snd].
    rewrite bind_modify. unfold assertk.
    assert (Hb : b <> NULL) by (destruct R3 as (_ & H & _); intros ->; apply H; left).
    by rewrite (proj2 (Nat.eqb_neq _ _) Hb). }
  rewrite (bind_step _ _ _ _ _ Hsw).
  refine (conj eq_refl (conj (conj _ (conj _ _)) (conj R3 _))).
  - by apply NoDup_snoc.
  - intros Hin. apply elem_of_app in Hin as [Hin|Hin]; [done|].
    by apply list_elem_of_singleton in Hin.
  - apply chain_snoc. split_and!; [|done|done].
    eapply links_only_chain; [exact L3| |exact C2]. exact Hdisj.
  - by rewrite (links_only_status _ _ _ _ L3).
Qed.
