(* ===== verification/Interrupt.v ===== *)
(** * Entering the kernel

    Models the entry points of [src/src/kernel/interrupt_asm.S] (hardware
    interrupts and page faults), [handle_spurious_irq] of
    [src/src/kernel/interrupt.c], and [src/src/kernel/syscall.c] with
    [syscall_asm.S]: what surrounds every handler and system call.

    The handlers themselves belong to other components and are parameters
    here.  Saving and restoring registers is not modelled; the processor clears
    the interrupt flag on entry and the final [iret] restores it. *)

From S2P Require Import Prelude Sched Ring Cpu Pic.

(** The process subsystem, the hardware, and [spurious_irq_ct]. *)
Record ist {T : Type} : Type := mk_ist { ikern : kst; iports : T; spurious_irq_ct : Z }.
Arguments ist T : clear implicits.
Arguments mk_ist {T}.

Definition set_ikern {T} v (s : ist T) : ist T := mk_ist v (iports s) (spurious_irq_ct s).
Definition set_iports {T} v (s : ist T) : ist T := mk_ist (ikern s) v (spurious_irq_ct s).
Definition set_spurious_irq_ct {T} v (s : ist T) : ist T := mk_ist (ikern s) (iports s) v.

Section Entry.

Context {T : Type} `{Ports T}.

Definition ik {A} (m : M kst A) : M (ist T) A := zoom ikern set_ikern m.
Definition ip {A} (m : M T A) : M (ist T) A := zoom iports set_iports m.

Definition leave_delayed : M kst unit :=
  fun s => match nointerrupt_leave_delayed (cpu s) with
           | Some c => Ret (tt, set_cpu c s)
           | None => Halt
           end.

(** [incl PCB_NESTED_COUNT(current_running)], and the decrement. *)
Definition nest (d : Z) : M kst unit :=
  c <-- gets current_running ;;
  wr c (fun r => set_nested_count (u32 (nested_count r + d)) r).

(** [IRQ_ENTRY_WRAPPER irqnum, wrapped_fn, nointerrupt_leave] *)
Definition irq_entry (irq : Z) (leave_first : bool) (wrapped_fn : M (ist T) unit) : M (ist T) unit :=
  ik enter ;;;
  ik (nest 1) ;;;
  ip (pic_mask_irq irq) ;;;
  ip (pic_send_eoi irq) ;;;
  when leave_first (ik leave) ;;;
  wrapped_fn ;;;
  when leave_first (ik enter) ;;;
  ik (nest (-1)) ;;;
  ip (pic_unmask_irq irq) ;;;
  ik leave_delayed.

Section Vectors.

Context (preempt keyboard_interrupt : M (ist T) unit) (pci_interrupt : Z -> M (ist T) unit).
Context (page_fault_handler : M (ist T) unit).

Definition timer_isr_entry : M (ist T) unit := irq_entry IRQ_TIMER false preempt.
Definition keyboard_isr_entry : M (ist T) unit := irq_entry IRQ_KEYBOARD true keyboard_interrupt.
Definition pci_entry (irq : Z) : M (ist T) unit := irq_entry irq true (pci_interrupt irq).

Definition page_fault_handler_entry : M (ist T) unit :=
  ik enter ;;;
  ik (nest 1) ;;;
  page_fault_handler ;;;
  ik (nest (-1)) ;;;
  ik leave_delayed.

End Vectors.

Definition handle_spurious_irq : M (ist T) unit :=
  is_spurious <-- ip (pic_check_spurious IRQ_MASTER_LOWEST_PRIORITY) ;;
  if is_spurious then modify (fun s => set_spurious_irq_ct (s32 (spurious_irq_ct s + 1)) s) else halt.

(** ** System calls *)

Definition SYSCALL_YIELD : Z := 0.
Definition SYSCALL_EXIT : Z := 1.
Definition SYSCALL_GETPID : Z := 2.
Definition SYSCALL_GETPRIORITY : Z := 3.
Definition SYSCALL_SETPRIORITY : Z := 4.
Definition SYSCALL_CPUSPEED : Z := 5.
Definition SYSCALL_MBOX_OPEN : Z := 6.
Definition SYSCALL_MBOX_CLOSE : Z := 7.
Definition SYSCALL_MBOX_STAT : Z := 8.
Definition SYSCALL_MBOX_RECV : Z := 9.
Definition SYSCALL_MBOX_SEND : Z := 10.
Definition SYSCALL_GETCHAR : Z := 11.
Definition SYSCALL_READDIR : Z := 12.
Definition SYSCALL_LOADPROC : Z := 13.
Definition SYSCALL_COUNT : Z := 14.

(** The kernel functions in the table. *)
Inductive syscall_t : Type :=
| Yield | Exit | Getpid | Getpriority | Setpriority | Cpuspeed | Mbox_open | Mbox_close | Mbox_stat
| Mbox_recv | Mbox_send | Getchar | Readdir | Loadproc.

Definition add_to_table (i : Z) (call : syscall_t) : M (list (option syscall_t)) unit :=
  assertk ((0 <=? i) && (i <? SYSCALL_COUNT)) ;;;
  modify (<[Z.to_nat i := Some call]>).

Definition init_syscall_jumptable : M (list (option syscall_t)) unit :=
  add_to_table SYSCALL_YIELD Yield ;;;
  add_to_table SYSCALL_EXIT Exit ;;;
  add_to_table SYSCALL_GETPID Getpid ;;;
  add_to_table SYSCALL_GETPRIORITY Getpriority ;;;
  add_to_table SYSCALL_SETPRIORITY Setpriority ;;;
  add_to_table SYSCALL_CPUSPEED Cpuspeed ;;;
  add_to_table SYSCALL_MBOX_OPEN Mbox_open ;;;
  add_to_table SYSCALL_MBOX_CLOSE Mbox_close ;;;
  add_to_table SYSCALL_MBOX_STAT Mbox_stat ;;;
  add_to_table SYSCALL_MBOX_RECV Mbox_recv ;;;
  add_to_table SYSCALL_MBOX_SEND Mbox_send ;;;
  add_to_table SYSCALL_GETCHAR Getchar ;;;
  add_to_table SYSCALL_READDIR Readdir ;;;
  add_to_table SYSCALL_LOADPROC Loadproc.

Definition init_syscalls : M (list (option syscall_t)) unit := init_syscall_jumptable.

(** [current_running->nested_count == 0] *)
Definition assert_not_nested : M kst unit :=
  c <-- gets current_running ;;
  n <-- rd c nested_count ;;
  assertk (n =? 0).

Section Dispatch.

Context (syscall_table : list (option syscall_t)) (call : syscall_t -> Z -> Z -> Z -> M (ist T) Z).

Definition syscall_dispatch (fn arg1 arg2 arg3 : Z) : M (ist T) Z :=
  ik assert_not_nested ;;;
  ik (nest 1) ;;;
  ik leave ;;;
  let fn := if (SYSCALL_COUNT <=? fn) || (fn <? 0) then SYSCALL_EXIT else fn in
  ret_val <-- match syscall_table !! Z.to_nat fn with
              | Some (Some f) => call f arg1 arg2 arg3
              | _ => stuck
              end ;;
  ik enter ;;;
  ik (nest (-1)) ;;;
  ik assert_not_nested ;;;
  ret ret_val.

(** [eax] holds the number and, afterwards, the result. *)
Definition syscall_entry_interrupt (eax ebx ecx edx : Z) : M (ist T) Z :=
  ik enter ;;;
  r <-- syscall_dispatch eax ebx ecx edx ;;
  ik leave_delayed ;;;
  ret r.

End Dispatch.

End Entry.

(** ** Balance of the entry code *)

Section Balance.

Context {T : Type} `{PicPair T}.
Implicit Types (s : ist T).

(** The running thread is [c], with [n] nested entries, and the critical section
    count and the interrupt flag are those of [cs]. *)
Definition runs s (c : ptr) (n : Z) (cs : cpu_state) : Prop :=
  current_running (ikern s) = c /\ (exists r, pcbs (ikern s) !! c = Some r /\ nested_count r = n) /\ cpu (ikern s) = cs.

(** The states of the critical section: outside, and in it once. *)
Definition outside : cpu_state := mk_cpu 0 true.
Definition on_entry : cpu_state := mk_cpu 0 false.
Definition inside : cpu_state := mk_cpu 1 false.

Lemma ik_run {A B} (m : M kst A) a k' s (k : A -> M (ist T) B) :
  m (ikern s) = Ret (a, k') -> bind (ik m) k s = k a (set_ikern k' s).
Proof. intros E. apply bind_step. unfold ik, zoom. by rewrite E. Qed.

Lemma ip_run {A B} (m : M T A) a b' s (k : A -> M (ist T) B) :
  m (iports s) = Ret (a, b') -> bind (ip m) k s = k a (set_iports b' s).
Proof. intros E. apply bind_step. unfold ip, zoom. by rewrite E. Qed.

Lemma enter_runs s c n cs :
  runs s c n cs ->
  exists s', ik enter s = Ret (tt, s') /\ runs s' c n (nointerrupt_enter cs)
    /\ iports s' = iports s /\ spurious_irq_ct s' = spurious_irq_ct s.
Proof.
  intros (Hc & (r & Hr & Hn) & Hcs). eexists. split; [reflexivity|]. split; [|done].
  split; [done|]. split; [by exists r|]. cbn. by rewrite Hcs.
Qed.

Lemma leave_runs s c n cs :
  runs s c n cs ->
  exists s', ik leave s = Ret (tt, s') /\ runs s' c n (nointerrupt_leave cs)
    /\ iports s' = iports s /\ spurious_irq_ct s' = spurious_irq_ct s.
Proof.
  intros (Hc & (r & Hr & Hn) & Hcs). eexists. split; [reflexivity|]. split; [|done].
  split; [done|]. split; [by exists r|]. cbn. by rewrite Hcs.
Qed.

Lemma nest_runs s c n cs d :
  runs s c n cs ->
  exists s', ik (nest d) s = Ret (tt, s') /\ runs s' c (u32 (n + d)) cs
    /\ iports s' = iports s /\ spurious_irq_ct s' = spurious_irq_ct s.
Proof.
  intros (Hc & (r & Hr & Hn) & Hcs). eexists. split.
  - unfold ik, zoom, nest. rewrite bind_gets, Hc, wr_run by (by exists r). reflexivity.
  - split; [|done]. split; [done|]. split; [|done]. exists (set_nested_count (u32 (nested_count r + d)) r).
    cbn. rewrite lookup_alter_eq, Hr. split; [done|]. cbn. by rewrite Hn.
Qed.

Lemma leave_delayed_runs s c n :
  runs s c n inside ->
  exists s', ik leave_delayed s = Ret (tt, s') /\ runs s' c n on_entry
    /\ iports s' = iports s /\ spurious_irq_ct s' = spurious_irq_ct s.
Proof.
  intros (Hc & (r & Hr & Hn) & Hcs). eexists. split.
  - unfold ik, zoom, leave_delayed. rewrite Hcs. reflexivity.
  - split; [|done]. split; [done|]. split; [by exists r|done].
Qed.

(** What a handler of line [irq] finds: the line masked and acknowledged, its
    thread nested once more, and the interrupts on or off as its entry says. *)
Definition handler_env (b0 : T) (irq : Z) (c : ptr) (n : Z) (leave_first : bool) s : Prop :=
  runs s c (u32 (n + 1)) (if leave_first then outside else inside) /\ operating (iports s)
  /\ (forall j, 0 <= j < 16 -> masked (iports s) j = if j =? irq then true else masked b0 j)
  /\ in_service (iports s) irq = false.

(** What it must leave: the same, the hardware as it found it. *)
Definition well_behaved (b0 : T) (irq : Z) (c : ptr) (n : Z) (leave_first : bool) (m : M (ist T) unit) : Prop :=
  forall s, handler_env b0 irq c n leave_first s ->
    exists s', m s = Ret (tt, s') /\ runs s' c (u32 (n + 1)) (if leave_first then outside else inside)
      /\ forall w, chip w (iports s') = chip w (iports s).

(** [C31] The entry code around a hardware interrupt handler is balanced: when the
    handler keeps the thread, its nesting and the hardware, then after the entry
    code the nesting and the critical section are as before, the line is
    unmasked, no other mask has changed, and the interrupt is acknowledged.  The
    handler runs with its line masked and acknowledged. *)
Theorem irq_entry_balanced s c n irq leave_first m :
  runs s c n on_entry -> 0 <= n < 2 ^ 31 -> operating (iports s) -> 0 <= irq < 16 ->
  well_behaved (iports s) irq c n leave_first m ->
  exists s', irq_entry irq leave_first m s = Ret (tt, s') /\ runs s' c n on_entry /\ operating (iports s')
    /\ (forall j, 0 <= j < 16 -> masked (iports s') j = if j =? irq then false else masked (iports s) j)
    /\ in_service (iports s') irq = false.
Proof.
  intros Hr Hn Ho Hi Hm. unfold irq_entry.
  destruct (enter_runs s c n _ Hr) as (s1 & E1 & R1 & P1 & _). rewrite (bind_step _ _ _ _ _ E1).
  destruct (nest_runs s1 c n _ 1 R1) as (s2 & E2 & R2 & P2 & _). rewrite (bind_step _ _ _ _ _ E2).
  rewrite P1 in P2. assert (Ho2 : operating (iports s2)) by (by rewrite P2).
  destruct (mask_irq_run (iports s2) irq Ho2 Hi) as (b3 & E3 & S3 & M3). rewrite (ip_run _ _ _ _ _ E3).
  set (s3 := set_iports b3 s2).
  destruct (send_eoi_run b3 irq Hi) as (b4 & E4 & S4 & V4).
  rewrite (ip_run (pic_send_eoi irq) tt b4 s3) by exact E4. set (s4 := set_iports b4 s3).
  assert (R4 : runs s4 c (u32 (n + 1)) inside) by exact R2.
  assert (Ho4 : operating b4).
  { intros w. destruct (S4 w) as (_ & _ & ->), (S3 w) as (_ & _ & ->). apply Ho2. }
  assert (M4 : forall j, 0 <= j < 16 -> masked b4 j = if j =? irq then true else masked (iports s) j).
  { intros j Hj. unfold masked at 1. destruct (S4 (side j)) as (-> & _). rewrite <- P2. by apply M3. }
  assert (V4' : in_service b4 irq = false) by (rewrite V4, Z.eqb_refl by done; by rewrite andb_false_r).
  assert (exists s5, when leave_first (ik leave) s4 = Ret (tt, s5) /\ handler_env (iports s) irq c n leave_first s5)
    as (s5 & E5 & Henv).
  { destruct leave_first; cbn [when].
    - destruct (leave_runs s4 c _ _ R4) as (s5 & E5 & R5 & P5 & _). exists s5. split; [done|].
      split; [exact R5|]. rewrite P5. by split_and!.
    - exists s4. by split. }
  rewrite (bind_step _ _ _ _ _ E5). destruct (Hm s5 Henv) as (s6 & E6 & R6 & C6). rewrite (bind_step _ _ _ _ _ E6).
  destruct Henv as (_ & Ho5 & M5 & V5).
  assert (exists s7, when leave_first (ik enter) s6 = Ret (tt, s7) /\ runs s7 c (u32 (n + 1)) inside
    /\ iports s7 = iports s6) as (s7 & E7 & R7 & P7).
  { destruct leave_first; cbn [when]; [|by exists s6].
    destruct (enter_runs s6 c _ _ R6) as (s7 & E7 & R7 & P7 & _). by exists s7. }
  rewrite (bind_step _ _ _ _ _ E7).
  destruct (nest_runs s7 c _ _ (-1) R7) as (s8 & E8 & R8 & P8 & _). rewrite (bind_step _ _ _ _ _ E8).
  assert (Ho8 : operating (iports s8)) by (intros w; rewrite P8, P7, C6; apply Ho5).
  destruct (unmask_irq_run (iports s8) irq Ho8 Hi) as (b9 & E9 & S9 & M9). rewrite (ip_run _ _ _ _ _ E9).
  set (s9 := set_iports b9 s8).
  assert (En : u32 (u32 (n + 1) + -1) = n) by (rewrite (u32_small (n + 1)), u32_small by lia; lia).
  assert (R9 : runs s9 c n inside) by (rewrite <- En; exact R8).
  destruct (leave_delayed_runs s9 c n R9) as (s' & E' & R' & P' & _). exists s'. split; [done|]. split; [done|].
  rewrite P'. cbn [iports s9 set_iports]. split_and!.
  - intros w. destruct (S9 w) as (_ & _ & ->). apply Ho8.
  - intros j Hj. rewrite M9 by done. destruct (Z.eqb_spec j irq) as [->|Hne]; [done|].
    unfold masked at 1. rewrite P8, P7, C6. fold (masked (iports s5) j). rewrite M5 by done.
    by rewrite (proj2 (Z.eqb_neq j irq)).
  - unfold in_service. destruct (S9 (side irq)) as (-> & _). rewrite P8, P7, C6. exact V5.
Qed.

(** The function of each system call number; every other number is [exit]. *)
Definition syscall_of (fn : Z) : syscall_t :=
  if fn <? 0 then Exit
  else default Exit ([Yield; Exit; Getpid; Getpriority; Setpriority; Cpuspeed; Mbox_open; Mbox_close; Mbox_stat;
                      Mbox_recv; Mbox_send; Getchar; Readdir; Loadproc] !! Z.to_nat fn).

Lemma table_lookup table fn :
  init_syscalls (replicate 14 None) = Ret (tt, table) ->
  table !! Z.to_nat (if (SYSCALL_COUNT <=? fn) || (fn <? 0) then SYSCALL_EXIT else fn) = Some (Some (syscall_of fn)).
Proof.
  intros E. vm_compute in E. injection E as <-. unfold syscall_of.
  destruct (Z.ltb_spec fn 0); [by rewrite orb_true_r|]. rewrite orb_false_r. unfold SYSCALL_COUNT.
  destruct (Z.leb_spec 14 fn) as [Hf|Hf].
  - assert (Hn : (14 <= Z.to_nat fn)%nat) by lia. revert Hn. generalize (Z.to_nat fn). intros n Hn.
    do 14 (destruct n as [|n]; [lia|]). done.
  - assert (Hn : (Z.to_nat fn < 14)%nat) by lia. revert Hn. generalize (Z.to_nat fn). intros n Hn.
    do 14 (destruct n as [|n]; [done|]). lia.
Qed.

Lemma assert_not_nested_runs s c n cs :
  runs s c n cs -> ik assert_not_nested s = if n =? 0 then Ret (tt, s) else Halt.
Proof.
  intros (Hc & (r & Hr & Hn) & _). unfold ik, zoom, assert_not_nested. rewrite bind_gets, Hc, (rd_ok _ _ r) by done.
  rewrite Hn. destruct (n =? 0); [|done]. cbn. by destruct s.
Qed.

(** A system call: whatever number the program passes, the entry code calls
    exactly the kernel function of that number, [exit] for an invalid one, with
    the three arguments, with interrupts enabled and the thread nested once; it returns the function's result and leaves the nesting and the
    critical section as they were.  The function may do anything that keeps the
    thread and its nesting. *)
Theorem syscall_calls_function table call s c fn a1 a2 a3 (P : Z -> Prop) :
  init_syscalls (replicate 14 None) = Ret (tt, table) ->
  runs s c 0 on_entry ->
  (forall s1, runs s1 c 1 outside -> iports s1 = iports s ->
     exists v s2, call (syscall_of fn) a1 a2 a3 s1 = Ret (v, s2) /\ runs s2 c 1 outside /\ P v) ->
  exists v s', syscall_entry_interrupt table call fn a1 a2 a3 s = Ret (v, s') /\ runs s' c 0 on_entry /\ P v.
Proof.
  intros Ht Hr Hcall. unfold syscall_entry_interrupt.
  destruct (enter_runs s c 0 _ Hr) as (s1 & E1 & R1 & P1 & _). rewrite (bind_step _ _ _ _ _ E1). unfold syscall_dispatch.
  rewrite bind_assoc, (bind_step (ik assert_not_nested) _ s1 tt s1) by (by rewrite (assert_not_nested_runs _ _ _ _ R1)).
  destruct (nest_runs s1 c 0 _ 1 R1) as (s2 & E2 & R2 & P2 & _). rewrite bind_assoc, (bind_step _ _ _ _ _ E2).
  destruct (leave_runs s2 c _ _ R2) as (s3 & E3 & R3 & P3 & _). rewrite bind_assoc, (bind_step _ _ _ _ _ E3). cbv zeta.
  rewrite (table_lookup table fn Ht). rewrite bind_assoc.
  destruct (Hcall s3) as (v & s4 & E4 & R4 & Hv); [exact R3|congruence|]. rewrite (bind_step _ _ _ _ _ E4).
  destruct (enter_runs s4 c _ _ R4) as (s5 & E5 & R5 & _). rewrite bind_assoc, (bind_step _ _ _ _ _ E5).
  destruct (nest_runs s5 c _ _ (-1) R5) as (s6 & E6 & R6 & _). rewrite bind_assoc, (bind_step _ _ _ _ _ E6).
  rewrite bind_assoc, (bind_step (ik assert_not_nested) _ s6 tt s6) by (by rewrite (assert_not_nested_runs _ _ _ _ R6)).
  rewrite bind_ret. destruct (leave_delayed_runs s6 c 0 R6) as (s7 & E7 & R7 & _).
  rewrite (bind_step _ _ _ _ _ E7). by exists v, s7.
Qed.

(** A thread that is already in the kernel must not make a system call. *)
Lemma syscall_nested_halts table call s c n fn a1 a2 a3 cs :
  runs s c n cs -> n <> 0 -> syscall_dispatch table call fn a1 a2 a3 s = Halt.
Proof.
  intros Hr Hn. unfold syscall_dispatch, bind at 1. rewrite (assert_not_nested_runs _ _ _ _ Hr).
  by rewrite (proj2 (Z.eqb_neq n 0)).
Qed.

End Balance.

(** ** Concrete instances *)

Module Interrupt_instances.

Definition thread : kst :=
  mk_kst on_entry {[ 1%nat := zero_pcb ]} 1%nat 1 NULL 1 0 500 O 0 0 0.

Definition state : ist Pic_instances.two_pics := mk_ist thread Pic_instances.running 0.

Lemma state_runs : runs state 1%nat 0 on_entry.
Proof. split; [done|]. split; [|done]. by eexists. Qed.

(** A handler that does nothing. *)
Lemma idle_behaves b0 irq c n l : well_behaved b0 irq c n l (@ret (ist Pic_instances.two_pics) unit tt).
Proof. intros s (Hr & _). by exists s. Qed.

Lemma irq_entry_balanced_witness :
  exists s', irq_entry 9 true (ret tt) state = Ret (tt, s') /\ masked (iports s') 9 = false /\ masked (iports s') 8 = true.
Proof.
  destruct (irq_entry_balanced state 1%nat 0 9 true (ret tt) state_runs) as (s' & E & _ & _ & Hm & _);
    [lia|exact Pic_instances.running_operating|lia|apply idle_behaves|].
  exists s'. split; [exact E|]. rewrite !Hm by lia. split; reflexivity.
Defined.

Definition getpid_only (f : syscall_t) (a1 a2 a3 : Z) : M (ist Pic_instances.two_pics) Z :=
  match f with Exit => ret (-1) | Getpid => ret 7 | _ => ret 0 end.

Lemma syscall_calls_function_witness :
  exists table v w s1 s2, init_syscalls (replicate 14 None) = Ret (tt, table)
    /\ syscall_entry_interrupt table getpid_only 2 0 0 0 state = Ret (v, s1) /\ v = 7
    /\ syscall_entry_interrupt table getpid_only 999 0 0 0 state = Ret (w, s2) /\ w = -1.
Proof.
  set (table := Some <$> [Yield; Exit; Getpid; Getpriority; Setpriority; Cpuspeed; Mbox_open; Mbox_close; Mbox_stat;
    Mbox_recv; Mbox_send; Getchar; Readdir; Loadproc]). exists table.
  assert (Et : init_syscalls (replicate 14 None) = Ret (tt, table)) by reflexivity.
  destruct (syscall_calls_function table getpid_only state 1%nat 2 0 0 0 (fun v => v = 7) Et state_runs) as (v & s1 & E1 & _ & Hv).
  { intros s1 Hr _. exists 7, s1. split; [reflexivity|]. split; [exact Hr|reflexivity]. }
  destruct (syscall_calls_function table getpid_only state 1%nat 999 0 0 0 (fun v => v = -1) Et state_runs) as (w & s2 & E2 & _ & Hw).
  { intros s2 Hr _. exists (-1), s2. split; [reflexivity|]. split; [exact Hr|reflexivity]. }
  exists v, w, s1, s2. split; [exact Et|]. split; [exact E1|]. split; [exact Hv|]. split; [exact E2|exact Hw].
Defined.

End Interrupt_instances.
