(* ===== verification/Userlib.v ===== *)
(** * The library of user programs

    Models [src/src/lib/syslib/syslib.c], the delays of [src/src/lib/util/util.c]
    and the sum of [src/src/process/process2.c].

    A system call is an [int] instruction: the processor finds the gate in the
    interrupt table, clears the interrupt flag and runs the handler, and the
    [iret] at its end puts the flag back.  [Cpu] models the gates and [Interrupt]
    the handler. *)

From S2P Require Import Prelude CString Sched Ring Cpu Pic Interrupt.

(** ** System calls *)

Section Syslib.

Context {T : Type} `{Ports T}.
Context (idt : list descriptor) (fn : handler -> Z) (table : list (option syscall_t)) (call : syscall_t -> Z -> Z -> Z -> M (ist T) Z).

Definition set_if (b : bool) : M kst unit := modify (fun k => set_cpu (mk_cpu (nointerrupt_count_val (cpu k)) b) k).

(** [int vec] in a user program; the table leads to no other handler than that of
    the system calls ([idt_delivers]), and what another one would do is not said
    here. *)
Definition int_instruction (vec eax ebx ecx edx : Z) : M (ist T) Z :=
  match deliver idt vec true 3 with
  | Fault => halt
  | Handler _ a =>
      if a =? fn Cpu.syscall_entry_interrupt then
        flag <-- ik (gets (fun k => interrupts_on (cpu k))) ;;
        ik (set_if false) ;;;
        r <-- Interrupt.syscall_entry_interrupt table call eax ebx ecx edx ;;
        ik (set_if flag) ;;;
        ret r
      else stuck
  end.

Definition invoke_syscall_interrupt (syscall_id arg1 arg2 arg3 : Z) : M (ist T) Z :=
  int_instruction IVEC_SYSCALL syscall_id arg1 arg2 arg3.

(** The macros convert the arguments to [int]. *)
Definition invoke_syscall (i arg1 arg2 arg3 : Z) : M (ist T) Z := invoke_syscall_interrupt i (s32 arg1) (s32 arg2) (s32 arg3).
Definition IGNORE : Z := 0.
Definition invoke_syscall0 (i : Z) : M (ist T) Z := invoke_syscall i IGNORE IGNORE IGNORE.
Definition invoke_syscall1 (i arg1 : Z) : M (ist T) Z := invoke_syscall i arg1 IGNORE IGNORE.
Definition invoke_syscall2 (i arg1 arg2 : Z) : M (ist T) Z := invoke_syscall i arg1 arg2 IGNORE.
Definition invoke_syscall3 (i arg1 arg2 arg3 : Z) : M (ist T) Z := invoke_syscall i arg1 arg2 arg3.

Definition yield : M (ist T) unit := invoke_syscall0 SYSCALL_YIELD ;;; ret tt.
(** Behind the call is [__builtin_unreachable]. *)
Definition exit : M (ist T) unit := invoke_syscall0 SYSCALL_EXIT ;;; stuck.
Definition getpid : M (ist T) Z := invoke_syscall0 SYSCALL_GETPID.
Definition getpriority : M (ist T) Z := invoke_syscall0 SYSCALL_GETPRIORITY.
Definition setpriority (p : Z) : M (ist T) unit := invoke_syscall1 SYSCALL_SETPRIORITY p ;;; ret tt.
Definition cpuspeed : M (ist T) Z := invoke_syscall0 SYSCALL_CPUSPEED.
Definition mbox_open (key : Z) : M (ist T) Z := invoke_syscall1 SYSCALL_MBOX_OPEN key.
Definition mbox_close (q : Z) : M (ist T) Z := invoke_syscall1 SYSCALL_MBOX_CLOSE q.
Definition mbox_stat (q count space : Z) : M (ist T) Z := invoke_syscall3 SYSCALL_MBOX_STAT q count space.
Definition mbox_recv (q m : Z) : M (ist T) Z := invoke_syscall2 SYSCALL_MBOX_RECV q m.
Definition mbox_send (q m : Z) : M (ist T) Z := invoke_syscall2 SYSCALL_MBOX_SEND q m.
Definition getchar (c : Z) : M (ist T) Z := invoke_syscall1 SYSCALL_GETCHAR c.
Definition readdir (buf : Z) : M (ist T) Z := invoke_syscall1 SYSCALL_READDIR buf.
Definition loadproc (location size : Z) : M (ist T) Z := invoke_syscall2 SYSCALL_LOADPROC location size.

End Syslib.

(** How a function of the library ends when its system call has returned [v]: with
    this result, with none, or not at all. *)
Inductive ending : Type := Result | Nothing | Never.
Definition finish {S} (e : ending) (v : Z) (s : S) : outcome (option Z * S) :=
  match e with Result => Ret (Some v, s) | Nothing => Ret (None, s) | Never => Stuck end.

(** The functions of the library, each with the kernel function it stands for, the
    arguments that this one gets, and how it ends. *)
Definition library {T} `{Ports T} idt fn table (call : syscall_t -> Z -> Z -> Z -> M (ist T) Z) (x y z : Z)
  : list (M (ist T) (option Z) * syscall_t * (Z * Z * Z) * ending) :=
  let result m := (v <-- m ;; ret (Some v)) in
  let nothing m := ((m : M (ist T) unit) ;;; ret None) in
  [(nothing (yield idt fn table call), Yield, (0, 0, 0), Nothing);
   (nothing (exit idt fn table call), Exit, (0, 0, 0), Never);
   (result (getpid idt fn table call), Getpid, (0, 0, 0), Result);
   (result (getpriority idt fn table call), Getpriority, (0, 0, 0), Result);
   (nothing (setpriority idt fn table call x), Setpriority, (s32 x, 0, 0), Nothing);
   (result (cpuspeed idt fn table call), Cpuspeed, (0, 0, 0), Result);
   (result (mbox_open idt fn table call x), Mbox_open, (s32 x, 0, 0), Result);
   (result (mbox_close idt fn table call x), Mbox_close, (s32 x, 0, 0), Result);
   (result (mbox_stat idt fn table call x y z), Mbox_stat, (s32 x, s32 y, s32 z), Result);
   (result (mbox_recv idt fn table call x y), Mbox_recv, (s32 x, s32 y, 0), Result);
   (result (mbox_send idt fn table call x y), Mbox_send, (s32 x, s32 y, 0), Result);
   (result (getchar idt fn table call x), Getchar, (s32 x, 0, 0), Result);
   (result (readdir idt fn table call x), Readdir, (s32 x, 0, 0), Result);
   (result (loadproc idt fn table call x y), Loadproc, (s32 x, s32 y, 0), Result)].

(** The state with the nested entries of thread [c] set to [n], and nothing else
    changed. *)
Definition nested_in {T} (c : ptr) (n : Z) (s : ist T) : ist T :=
  set_ikern (set_pcbs (alter (set_nested_count n) c (pcbs (ikern s))) (ikern s)) s.

Section Calls.

Context {T : Type} `{PicPair T}.
Context (fn : handler -> Z) (table : list (option syscall_t)) (call : syscall_t -> Z -> Z -> Z -> M (ist T) Z).
Context (Hfn : forall h, 0 <= fn h < 2 ^ 32) (Htable : init_syscalls (replicate 14 None) = Ret (tt, table)).
Implicit Types (s : ist T).

(** The entry code behind the kernel function, [iret] included. *)
Definition syscall_exit (v : Z) : M (ist T) Z :=
  ik enter ;;; ik (nest (-1)) ;;; ik assert_not_nested ;;; ik leave_delayed ;;; ik (set_if true) ;;; ret v.

Lemma nest_step {B} s c r d (g : unit -> M (ist T) B) n :
  current_running (ikern s) = c -> pcbs (ikern s) !! c = Some r -> u32 (nested_count r + d) = n ->
  bind (ik (nest d)) g s = g tt (nested_in c n s).
Proof.
  intros Hc Hr Hn. apply ik_run. unfold nest. rewrite bind_gets, Hc, wr_run by (by exists r). do 3 f_equal.
  apply map_eq. intros u. destruct (decide (c = u)) as [<-|Hne]; [|by rewrite !lookup_alter_ne].
  rewrite !lookup_alter_eq, Hr. cbn. by rewrite Hn.
Qed.

Lemma bind_ext {S A B} (m : M S A) (f g : A -> M S B) (s0 : S) : (forall a (s1 : S), f a s1 = g a s1) -> bind m f s0 = bind m g s0.
Proof. intros E. unfold bind. by destruct (m s0) as [[a s']| | | |]. Qed.

(** The way into the kernel. *)
Lemma invoke_run s c number a1 a2 a3 :
  runs s c 0 outside ->
  invoke_syscall (idt_table fn) fn table call number a1 a2 a3 s
  = bind (call (syscall_of number) (s32 a1) (s32 a2) (s32 a3)) syscall_exit (nested_in c 1 s).
Proof.
  intros (Hc & (r & Hr & Hn) & Hcs). unfold invoke_syscall, invoke_syscall_interrupt, int_instruction.
  assert (Hd : deliver (idt_table fn) IVEC_SYSCALL true 3 = Handler 8 (fn Cpu.syscall_entry_interrupt)).
  { by rewrite idt_table_delivers by (exact Hfn || lia). }
  rewrite Hd, Z.eqb_refl.
  rewrite (ik_run _ true (ikern s)) by (unfold gets; by rewrite Hcs). replace (set_ikern (ikern s) s) with s by (by destruct s).
  rewrite (ik_run (set_if false) tt (set_cpu on_entry (ikern s))) by (unfold set_if, modify; by rewrite Hcs).
  unfold Interrupt.syscall_entry_interrupt, syscall_dispatch. rewrite !bind_assoc.
  rewrite (ik_run enter tt (set_cpu inside (ikern s))) by (by destruct s as [[]]).
  set (s1 := set_ikern _ _). assert (R1 : runs s1 c 0 inside) by (split; [exact Hc|]; split; [by exists r|reflexivity]).
  rewrite !bind_assoc, (bind_step (ik assert_not_nested) _ s1 tt s1) by (by rewrite (assert_not_nested_runs _ _ _ _ R1)).
  rewrite !bind_assoc, (nest_step s1 c r 1 _ 1) by (exact Hc || exact Hr || (rewrite Hn; reflexivity)).
  rewrite !bind_assoc, (ik_run leave tt (ikern (nested_in c 1 s))) by (unfold leave, modify; subst s1; destruct s as [[]]; cbn in *; by rewrite Hcs).
  cbv zeta. rewrite (table_lookup table number Htable), !bind_assoc.
  replace (set_ikern (ikern (nested_in c 1 s)) (nested_in c 1 s1)) with (nested_in c 1 s) by (subst s1; by destruct s as [[]]).
  apply bind_ext. intros v s2. unfold syscall_exit. autorewrite with kmonad. by repeat (apply bind_ext; intros ? ?; autorewrite with kmonad).
Qed.

(** The way out of it. *)
Lemma syscall_exit_run v s c : runs s c 1 outside -> syscall_exit v s = Ret (v, nested_in c 0 s).
Proof.
  intros (Hc & (r & Hr & Hn) & Hcs). unfold syscall_exit.
  rewrite (ik_run enter tt (set_cpu inside (ikern s))) by (unfold enter, modify; by rewrite Hcs). set (s1 := set_ikern _ s).
  rewrite (nest_step s1 c r (-1) _ 0) by (exact Hc || exact Hr || (rewrite Hn; reflexivity)). set (s2 := nested_in c 0 s1).
  assert (R2 : runs s2 c 0 inside).
  { split; [exact Hc|]. split; [|reflexivity]. exists (set_nested_count 0 r). cbn. by rewrite lookup_alter_eq, Hr. }
  rewrite (bind_step (ik assert_not_nested) _ s2 tt s2) by (by rewrite (assert_not_nested_runs _ _ _ _ R2)).
  rewrite (ik_run leave_delayed tt (set_cpu on_entry (ikern s2))) by reflexivity.
  rewrite (ik_run (set_if true) tt (ikern (nested_in c 0 s))) by (unfold set_if, modify; destruct s as [[]]; cbn in *; by rewrite Hcs).
  subst s2 s1. by destruct s as [[]].
Qed.

(** [C30] The system call library and the kernel fit together.  Each function that a
    user program calls, [exit] included, runs the kernel function of the same name
    exactly once, with the program's arguments in order as [int]s, with interrupts
    enabled, in the state of the program with the process nested once more in the
    kernel.  When that function returns in the process, the program goes on in
    the state that it leaves, out of the kernel again, with its result if the
    library function has one; when it does not return, neither does the library
    function. *)
Theorem library_calls_kernel s c x y z m f a1 a2 a3 e
  (Hin : In (m, f, (a1, a2, a3), e) (library (idt_table fn) fn table call x y z)) (Hrun : runs s c 0 outside) :
  match call f a1 a2 a3 (nested_in c 1 s) with
  | Ret (v, s2) => runs s2 c 1 outside -> m s = finish e v (nested_in c 0 s2)
  | Halt => m s = Halt
  | Wait => m s = Wait
  | Stuck => m s = Stuck
  | Fuel => m s = Fuel
  end.
Proof.
  unfold library in Hin. cbv zeta in Hin. cbn [In] in Hin.
  repeat (destruct Hin as [Hin|Hin]; [injection Hin as <- <- <- <- <- <-|]); [..|done].
  all: unfold yield, exit, getpid, getpriority, setpriority, cpuspeed, mbox_open, mbox_close, mbox_stat, mbox_recv, mbox_send, getchar, readdir, loadproc,
    invoke_syscall0, invoke_syscall1, invoke_syscall2, invoke_syscall3.
  all: match goal with |- context [invoke_syscall _ _ _ _ ?i ?a ?b ?c'] => pose proof (invoke_run s c i a b c' Hrun) as E end.
  all: match type of E with context [syscall_of ?i] => let f := eval vm_compute in (syscall_of i) in change (syscall_of i) with f in E end.
  all: change (s32 IGNORE) with 0 in E.
  all: unfold bind at 1 in E; destruct (call _ _ _ _ _) as [[v s2]| | | |]; [intros R; rewrite (syscall_exit_run v s2 c R) in E|..].
  all: rewrite ?bind_assoc; unfold bind at 1; rewrite E; reflexivity.
Qed.

End Calls.

(** ** Delays *)

(** The [static] variable of [ms_to_cycles], and how often the time-stamp counter
    has been read. *)
Record delay_state : Type := mk_delay { cpu_spd : Z; counter : nat }.

Section Delay.

Context (tsc : nat -> Z) (cpuspeed_now : Z).

Definition read_cpu_ticks : M delay_state Z :=
  n <-- gets counter ;;
  modify (fun s => mk_delay (cpu_spd s) (S n)) ;;;
  ret (tsc n mod 2 ^ 64).

Definition ms_to_cycles (msecs : Z) : M delay_state Z :=
  spd <-- gets cpu_spd ;;
  when (spd =? 0) (modify (fun s => mk_delay (u32 cpuspeed_now) (counter s))) ;;;
  spd <-- gets cpu_spd ;;
  ret (u32 (spd * 1000) * msecs mod 2 ^ 64).

(** [while (cur_time < end_time) cur_time = read_cpu_ticks();] *)
Fixpoint delay_loop (fuel : nat) (cur_time end_time : Z) : M delay_state unit :=
  if cur_time <? end_time then
    match fuel with
    | O => out_of_fuel
    | S f => t <-- read_cpu_ticks ;; delay_loop f t end_time
    end
  else ret tt.

Definition ms_delay (fuel : nat) (msecs : Z) : M delay_state unit :=
  cur_time <-- read_cpu_ticks ;;
  c <-- ms_to_cycles msecs ;;
  delay_loop fuel cur_time ((cur_time + c) mod 2 ^ 64).

Lemma delay_loop_run e k : forall fuel n cur spd,
  cur < e -> (forall i, (i < k)%nat -> tsc (n + i)%nat mod 2 ^ 64 < e) -> e <= tsc (n + k)%nat mod 2 ^ 64 -> (k < fuel)%nat ->
  delay_loop fuel cur e (mk_delay spd n) = Ret (tt, mk_delay spd (S (n + k))).
Proof.
  induction k as [|k IH]; intros fuel n cur spd Hc Hb He Hf; (destruct fuel as [|fuel]; [lia|]); cbn [delay_loop];
    rewrite (proj2 (Z.ltb_lt cur e)) by lia; unfold read_cpu_ticks at 1; rewrite bind_assoc, bind_gets, bind_assoc, bind_modify, bind_ret; cbn [counter cpu_spd].
  - rewrite Nat.add_0_r in *. destruct fuel; cbn [delay_loop]; by rewrite (proj2 (Z.ltb_ge _ _)) by lia.
  - specialize (Hb 0%nat ltac:(lia)) as H0. rewrite Nat.add_0_r in H0. rewrite (IH fuel (S n) _ spd H0); [do 4 f_equal; lia| |by rewrite Nat.add_succ_comm|lia].
    intros i Hi. rewrite Nat.add_succ_comm. apply Hb. lia.
Qed.

(** [ms_delay] returns as soon as it reads a time of at least [msecs] milliseconds
    after the first one, and not before, if the counter does not wrap in between;
    the first call asks for the speed of the processor. *)
Lemma ms_delay_waits fuel s msecs k :
  0 < msecs < 2 ^ 32 -> 0 < cpuspeed_now * 1000 < 2 ^ 32 -> cpu_spd s = 0 \/ cpu_spd s = cpuspeed_now ->
  (forall i, 0 <= tsc i < 2 ^ 64) ->
  let e := tsc (counter s) + cpuspeed_now * 1000 * msecs in
  e < 2 ^ 64 -> (forall i, (i < k)%nat -> tsc (S (counter s) + i)%nat < e) -> e <= tsc (S (counter s) + k)%nat -> (k < fuel)%nat ->
  ms_delay fuel msecs s = Ret (tt, mk_delay cpuspeed_now (S (S (counter s) + k))).
Proof.
  intros Hm Hs Hspd Ht e He Hb Hk Hf. unfold ms_delay, read_cpu_ticks at 1. rewrite bind_assoc, bind_gets, bind_assoc, bind_modify, bind_ret.
  set (s1 := mk_delay (cpu_spd s) (S (counter s))).
  assert (E : ms_to_cycles msecs s1 = Ret (cpuspeed_now * 1000 * msecs, mk_delay cpuspeed_now (S (counter s)))).
  { assert (Hw : 0 <= cpuspeed_now * 1000 * msecs < 2 ^ 64).
    { split; [apply Z.mul_nonneg_nonneg; lia|]. change (2 ^ 64) with (2 ^ 32 * 2 ^ 32). apply Z.mul_lt_mono_nonneg; lia. }
    unfold ms_to_cycles. rewrite bind_gets. cbn [cpu_spd s1].
    destruct Hspd as [Es|Es]; rewrite Es; [|rewrite (proj2 (Z.eqb_neq cpuspeed_now 0)) by lia]; cbn [Z.eqb when].
    - rewrite bind_modify, bind_gets. cbn [cpu_spd]. rewrite (u32_small cpuspeed_now), u32_small by lia. unfold ret. by rewrite Z.mod_small by exact Hw.
    - rewrite bind_ret, bind_gets. cbn [cpu_spd s1]. rewrite Es, u32_small by lia. unfold s1, ret. rewrite Es. by rewrite Z.mod_small by exact Hw. }
  rewrite (bind_step _ _ _ _ _ E), (Z.mod_small (tsc _)) by done. fold e. pose proof (Ht (counter s)). rewrite (Z.mod_small e) by (unfold e in *; nia).
  apply delay_loop_run; [unfold e; nia| |by rewrite Z.mod_small|done]. intros i Hi. rewrite Z.mod_small by done. by apply Hb.
Qed.

End Delay.

(** ** process2.c *)

(** [rec]; [yield] is called for every multiple of 37 on the way. *)
Fixpoint rec {S} (yielded : M S unit) (n : nat) : M S Z :=
  when (Z.rem (Z.of_nat n) 37 =? 0) yielded ;;;
  match n with
  | O => ret 0
  | Datatypes.S n' => r <-- rec yielded n' ;; ret (s32 (Z.of_nat n + r))
  end.

(** The sum is right as long as it is an [int], and the recursion leaves the
    processor to others [n / 37 + 1] times. *)
Lemma rec_sums n : forall k, Z.of_nat n * (Z.of_nat n + 1) < 2 ^ 32 ->
  rec (modify (fun k : Z => k + 1)) n k = Ret (Z.of_nat n * (Z.of_nat n + 1) / 2, k + Z.of_nat n / 37 + 1).
Proof.
  induction n as [|n IH]; intros k Hn; [change (Z.of_nat 0 / 37) with 0; by rewrite Z.add_0_r|]. cbn [rec].
  assert (Hs : forall k', (r <-- rec (modify (fun k : Z => k + 1)) n ;; ret (s32 (Z.of_nat (S n) + r))) k'
    = Ret (Z.of_nat (S n) * (Z.of_nat (S n) + 1) / 2, k' + Z.of_nat n / 37 + 1)).
  { intros k'. rewrite (bind_step _ _ _ _ _ (IH k' ltac:(nia))). unfold ret. do 2 f_equal.
    replace (Z.of_nat (S n) * (Z.of_nat (S n) + 1)) with (Z.of_nat (S n) * 2 + Z.of_nat n * (Z.of_nat n + 1)) by nia.
    rewrite Z.div_add_l by lia. apply s32_small.
    pose proof (Z.div_pos (Z.of_nat n * (Z.of_nat n + 1)) 2 ltac:(nia) ltac:(lia)). split; [lia|]. apply Z.le_lt_trans with ((Z.of_nat n + 2) * (Z.of_nat n + 1) / 2).
    - replace ((Z.of_nat n + 2) * (Z.of_nat n + 1)) with (Z.of_nat (S n) * 2 + Z.of_nat n * (Z.of_nat n + 1)) by nia. rewrite Z.div_add_l by lia. lia.
    - apply Z.div_lt_upper_bound; nia. }
  destruct (Z.eqb_spec (Z.rem (Z.of_nat (S n)) 37) 0) as [E|E]; rewrite Z.rem_mod_nonneg in E by lia; cbn [when].
  - rewrite bind_modify, Hs. do 2 f_equal. zdiv.
  - rewrite bind_ret, Hs. do 2 f_equal. zdiv.
Qed.

(** ** Concrete instances *)

Module Userlib_instances.
Import Interrupt_instances Cpu_instances.

Definition user : ist Pic_instances.two_pics :=
  mk_ist (mk_kst outside {[ 1%nat := zero_pcb ]} 1%nat 1 NULL 1 0 500 O 0 0 0) Pic_instances.running 0.

Lemma user_runs : runs user 1%nat 0 outside.
Proof. split; [done|]. split; [|done]. by eexists. Qed.

Definition calls : list (option syscall_t) := Some <$> [Yield; Exit; Getpid; Getpriority; Setpriority; Cpuspeed; Mbox_open; Mbox_close; Mbox_stat;
    Mbox_recv; Mbox_send; Getchar; Readdir; Loadproc].

(** [getpid] returns the result of the kernel, [exit] never returns. *)
Lemma library_calls_kernel_witness :
  getpid (idt_table linked) linked calls getpid_only user = Ret (7, nested_in 1%nat 0 (nested_in 1%nat 1 user))
  /\ exit (idt_table linked) linked calls getpid_only user = Stuck.
Proof.
  pose proof (library_calls_kernel linked calls getpid_only linked_range eq_refl user 1%nat 0 0 0) as H. split.
  - specialize (H _ Getpid 0 0 0 Result (or_intror (or_intror (or_introl eq_refl))) user_runs). cbn [getpid_only ret] in H.
    assert (R : runs (nested_in 1%nat 1 user) 1%nat 1 outside) by (split; [reflexivity|]; split; [eexists; split; reflexivity|reflexivity]).
    specialize (H R). unfold bind in H. destruct (getpid _ _ _ _ user) as [[v s']| | | |]; try discriminate H. injection H as -> ->. reflexivity.
  - specialize (H _ Exit 0 0 0 Never (or_intror (or_introl eq_refl)) user_runs). cbn [getpid_only ret] in H.
    assert (R : runs (nested_in 1%nat 1 user) 1%nat 1 outside) by (split; [reflexivity|]; split; [eexists; split; reflexivity|reflexivity]).
    specialize (H R). unfold bind in H. destruct (exit _ _ _ _ user) as [[v s']| | | |]; try discriminate H. reflexivity.
Defined.

End Userlib_instances.
