(* ===== verification/Schedule.v ===== *)
(** * The scheduler picks the next runnable thread

    [scheduler_switch] and [scheduler_loop] of [Sched] on a ready ring and a
    free list that represent lists of threads. *)

From S2P Require Import Prelude Sched Ring.

Definition runnable (st : Z) : bool := (st =? STATUS_READY) || (st =? STATUS_FIRST_TIME).
(** Threads the scheduler takes out of the ready ring. *)
Definition leaves_ring (st : Z) : bool := (st =? STATUS_BLOCKED) || (st =? STATUS_EXITED).
Definition valid_status (st : Z) : Prop := 0 <= st <= 4.

Definition kept (st : ptr -> Z) (l : list ptr) : list ptr :=
  filter (fun u => leaves_ring (st u) = false) l.
Definition freed (st : ptr -> Z) (l : list ptr) : list ptr :=
  filter (fun u => (st u =? STATUS_EXITED) = true) l.

Lemma ring_rotate h x t : ring h (x :: t) -> ring h (t ++ [x]).
Proof.
  intros (Hnd & H0 & Hs). split_and!.
  - apply list.NoDup_cons in Hnd as [H1 H2]. by apply NoDup_snoc.
  - set_solver.
  - destruct t as [|y t]; simpl; [done|]. destruct Hs as [H1 H2].
    apply seg_app. done.
Qed.

Lemma ring_next h x t : ring h (x :: t) -> nxt h x = Some (head_ptr (t ++ [x])).
Proof. intros (_ & _ & Hs). destruct t as [|y t]; simpl in *; [apply Hs|apply Hs]. Qed.

(** Ready ring [l] and free list [fl] with their head pointers. *)
Record queues (s : kst) (l fl : list ptr) : Prop := {
  q_cpu : cpu_room 8 (cpu s);
  q_ready : ring (pcbs s) l;
  q_cur : current_running s = head_ptr l;
  q_free : ring (pcbs s) fl;
  q_freelist : freelist s = head_ptr fl;
  q_disj : forall u, u ∈ l -> u ∉ fl
}.

Definition valid_at (h : gmap ptr pcb) (u : ptr) : Prop := exists z, status_of h u = Some z /\ valid_status z.

(** The critical section count, and the counts saved for other threads, are
    the same in both states, a valid status stays valid, and a thread that has
    run does not become new. *)
Definition keeps (s s' : kst) : Prop :=
  cpu s' = cpu s /\ (forall u, saved_count <$> pcbs s' !! u = saved_count <$> pcbs s !! u)
  /\ (forall u, valid_at (pcbs s) u -> valid_at (pcbs s') u)
  /\ forall u, status_of (pcbs s) u <> Some STATUS_FIRST_TIME -> status_of (pcbs s') u <> Some STATUS_FIRST_TIME.

Lemma keeps_refl s : keeps s s.
Proof. done. Qed.

Lemma keeps_trans s1 s2 s3 : keeps s1 s2 -> keeps s2 s3 -> keeps s1 s3.
Proof.
  intros (A & B & C & G) (D & E & F & H). split_and!; [congruence| |auto|auto]. intros u. by rewrite E.
Qed.

Lemma saved_alter f p (h : gmap ptr pcb) u :
  (forall r, saved_count (f r) = saved_count r) ->
  saved_count <$> alter f p h !! u = saved_count <$> h !! u.
Proof.
  intros Hf. destruct (decide (p = u)) as [->|Hu]; [|by rewrite lookup_alter_ne].
  rewrite lookup_alter_eq. destruct (h !! u); cbn; [by rewrite Hf|done].
Qed.

Lemma links_only_saved h h' l u :
  links_only h h' l -> saved_count <$> h' !! u = saved_count <$> h !! u.
Proof.
  intros [_ H]. specialize (H u). destruct (h' !! u), (h !! u); try done.
  apply (f_equal (fmap saved_count)) in H. exact H.
Qed.

Lemma links_only_keeps s s' l : cpu s' = cpu s -> links_only (pcbs s) (pcbs s') l -> keeps s s'.
Proof.
  intros Hc L. split_and!; [done|intros u; by eapply links_only_saved|..].
  - intros u (z & H & Hv). exists z. by erewrite links_only_status.
  - intros u H. by erewrite links_only_status.
Qed.

Lemma free_pcb_run s l fl c :
  queues s l fl -> c ∉ l -> c ∉ fl -> c <> NULL -> nxt (pcbs s) c = Some NULL ->
  exists s', free_pcb c s = Ret (tt, s') /\ queues s' l (fl ++ [c])
    /\ (forall u, status_of (pcbs s') u = status_of (pcbs s) u)
    /\ keeps s s'.
Proof.
  intros [Q1 Q2 Q3 Q4 Q5 Q6] Hcl Hcf Hc0 Hn.
  set (s1 := set_cpu (nointerrupt_enter (cpu s)) s).
  assert (Hc1 : cpu_room 1 (cpu s1)).
  { eapply room_weaken; [|apply (enter_room 8); [lia|exact Q1]]. lia. }
  destruct (queue_insert_ring s1 fl c Hc1 Q4 Hn Hcf Hc0) as (h & E & R & L).
  eexists. split.
  - unfold free_pcb. rewrite enter_ok. fold s1. rewrite bind_gets.
    change (freelist s1) with (freelist s). rewrite Q5, (bind_step _ _ _ _ _ E).
    rewrite bind_modify. unfold leave, modify. reflexivity.
  - kproj. unfold s1. kproj. rewrite (leave_enter 8) by (done || lia).
    split_and!; [constructor; kproj; try done|intros u; by eapply links_only_status|].
    + eapply links_only_ring; [exact L| |exact Q2]. intros u Hu Hin.
      apply elem_of_app in Hin as [Hin|Hin]; [by eapply Q6|].
      apply list_elem_of_singleton in Hin. by subst.
    + intros u Hu Hin. apply elem_of_app in Hin as [Hin|Hin]; [by eapply Q6|].
      apply list_elem_of_singleton in Hin. by subst.
    + by eapply links_only_keeps.
Qed.

Section Switch.
Context (rdtsc : nat -> Z).

(** A step over a thread that stays in the ring. *)
Lemma switch_keep s c t fl st :
  queues s (c :: t) fl -> status_of (pcbs s) c = Some st -> valid_status st ->
  leaves_ring st = false ->
  exists s', scheduler_switch rdtsc s = Ret (tt, s') /\ queues s' (t ++ [c]) fl
    /\ (forall u, u <> c -> status_of (pcbs s') u = status_of (pcbs s) u) /\ keeps s s'.
Proof.
  intros [Q1 Q2 Q3 Q4 Q5 Q6] Hst Hv Hl.
  assert (Hd : forall u, u ∈ t ++ [c] -> u ∉ fl).
  { intros u Hu. apply Q6. clear -Hu. set_solver. }
  pose proof (ring_next _ _ _ Q2) as Hn. pose proof (nxt_has _ _ _ Hn) as [rc Hrc].
  unfold status_of in Hst. rewrite Hrc in Hst. injection Hst as Hst.
  unfold scheduler_switch. rewrite bind_gets, Q3. cbn [head_ptr].
  erewrite rd_ok by exact Hrc. rewrite Hst.
  assert (Hcase : st = STATUS_SLEEPING \/ st = STATUS_FIRST_TIME \/ st = STATUS_READY).
  { unfold valid_status, leaves_ring, STATUS_SLEEPING, STATUS_FIRST_TIME, STATUS_READY,
      STATUS_BLOCKED, STATUS_EXITED in *. apply orb_false_iff in Hl as [H1 H2].
    apply Z.eqb_neq in H1, H2. lia. }
  destruct Hcase as [->|Hcase].
  - cbn [Z.eqb STATUS_SLEEPING STATUS_FIRST_TIME STATUS_READY orb Pos.eqb when].
    rewrite !bind_assoc. unfold read_cpu_ticks. rewrite !bind_assoc, bind_gets, bind_assoc, bind_modify, bind_ret.
    rewrite bind_assoc. erewrite rd_ok by exact Hrc.
    destruct (wakeup_time rc <? rdtsc (tsc_reads s)); cbn [when].
    + rewrite wr_ok by (kproj; eauto). kproj.
      erewrite rd_next_ok by (kproj; links; exact Hn).
      eexists. split; [reflexivity|]. split_and!.
      * constructor; kproj; try done; [by apply ring_status, ring_rotate|by apply ring_status].
      * intros u Hu. kproj. unfold status_of. by rewrite lookup_alter_ne.
      * split_and!; [done|intros u; by apply saved_alter|kproj; intros u (z & H & Hz)|kproj; intros u H];
          (destruct (decide (u = c)) as [->|Hu]; [|try exists z; unfold status_of; by rewrite lookup_alter_ne]).
        -- exists STATUS_READY. unfold status_of. by rewrite lookup_alter_eq, Hrc.
        -- unfold status_of. by rewrite lookup_alter_eq, Hrc.
    + rewrite bind_ret. erewrite rd_next_ok by (kproj; exact Hn).
      eexists. split; [reflexivity|]. split; [|done].
      constructor; kproj; try done. by apply ring_rotate.
  - assert (E : (st =? STATUS_SLEEPING) || (st =? STATUS_FIRST_TIME) || (st =? STATUS_READY) = true).
    { by destruct Hcase as [->| ->]. }
    assert (E2 : (st =? STATUS_SLEEPING) = false) by (by destruct Hcase as [->| ->]).
    rewrite E, E2. cbn [when]. rewrite bind_ret. erewrite rd_next_ok by exact Hn.
    eexists. split; [reflexivity|]. split; [|done].
    constructor; kproj; try done. by apply ring_rotate.
Qed.

(** A step over a blocked or exited thread; another thread must be left. *)
Lemma switch_drop s c t fl st :
  queues s (c :: t) fl -> t <> [] -> status_of (pcbs s) c = Some st ->
  leaves_ring st = true ->
  exists s', scheduler_switch rdtsc s = Ret (tt, s')
    /\ queues s' t (fl ++ if st =? STATUS_EXITED then [c] else [])
    /\ (forall u, u <> c -> status_of (pcbs s') u = status_of (pcbs s) u) /\ keeps s s'.
Proof.
  intros Q Ht Hst Hl. pose proof Q as [Q1 Q2 Q3 Q4 Q5 Q6].
  assert (Hcf : c ∉ fl) by (apply Q6; left).
  assert (Hc0 : c <> NULL) by (destruct Q2 as (_ & H & _); intros ->; apply H; left).
  assert (Hct : c ∉ t) by (destruct Q2 as (H & _); by apply list.NoDup_cons in H as [? _]).
  assert (Htd : forall u, u ∈ t -> u ∉ fl) by (intros u Hu; apply Q6; by right).
  destruct (queue_shift_ring s (c :: t)) as (h & E & R & N & V & L);
    [eapply room_weaken; [|exact Q1]; lia|done|].
  assert (Hb : head_ptr t <> NULL).
  { destruct R as (_ & H & _). destruct t; [done|]. intros E0. apply H. cbn in E0. subst. left. }
  set (s1 := set_current_running (head_ptr t) (set_pcbs h s)).
  assert (Qs : queues s1 t fl).
  { constructor; unfold s1; kproj; try done. eapply links_only_ring; [exact L| |exact Q4].
    intros u Hu Hin. by apply (Q6 u). }
  assert (Hstat : forall u, status_of h u = status_of (pcbs s) u).
  { intros u. by eapply links_only_status. }
  assert (Hk : keeps s s1) by (by eapply links_only_keeps).
  assert (exists rc, pcbs s !! c = Some rc /\ status rc = st) as (rc & Hrc & Es).
  { unfold status_of in Hst. destruct (pcbs s !! c); [|done]. injection Hst as <-. eauto. }
  unfold scheduler_switch. rewrite bind_gets, Q3. cbn [head_ptr].
  erewrite rd_ok by exact Hrc. rewrite Es. cbn [head_ptr] in E.
  assert (A : forall k : unit -> M kst unit, bind (assertk (negb (head_ptr t =? NULL)%nat)) k s1 = k tt s1).
  { intros k. apply bind_assertk_true. by rewrite (proj2 (Nat.eqb_neq _ _) Hb). }
  apply orb_true_iff in Hl as [H|H]; apply Z.eqb_eq in H; rewrite H in *.
  - cbn [Z.eqb STATUS_BLOCKED STATUS_SLEEPING STATUS_FIRST_TIME STATUS_READY STATUS_EXITED orb Pos.eqb].
    rewrite (bind_step _ _ _ _ _ E). cbn [fst snd]. rewrite bind_modify. fold s1.
    exists s1. split_and!; [|by rewrite app_nil_r|intros; apply Hstat|done].
    unfold assertk. by rewrite (proj2 (Nat.eqb_neq _ _) Hb).
  - cbn [Z.eqb STATUS_BLOCKED STATUS_SLEEPING STATUS_FIRST_TIME STATUS_READY STATUS_EXITED orb Pos.eqb].
    rewrite (bind_step _ _ _ _ _ E). cbn [fst snd]. rewrite bind_modify. fold s1. rewrite A.
    destruct (free_pcb_run s1 t fl c Qs Hct Hcf Hc0 N) as (s2 & F & Q2' & S2 & K2).
    exists s2. split_and!; [done|done| |by eapply keeps_trans]. intros u Hu. rewrite S2. apply Hstat.
Qed.

(** Both cases. *)
Lemma switch_step s c t fl st :
  queues s (c :: t) fl -> t <> [] -> status_of (pcbs s) c = Some (st c) ->
  valid_status (st c) ->
  exists s', scheduler_switch rdtsc s = Ret (tt, s')
    /\ queues s' (t ++ kept st [c]) (fl ++ freed st [c])
    /\ (forall u, u <> c -> status_of (pcbs s') u = status_of (pcbs s) u) /\ keeps s s'.
Proof.
  intros Q Ht Hst Hv. unfold kept, freed.
  destruct (leaves_ring (st c)) eqn:E.
  - destruct (switch_drop s c t fl (st c) Q Ht Hst E) as (s' & H1 & H2 & H3 & H4).
    exists s'. split_and!; [done| |done|done].
    rewrite (filter_cons_False _ c) by congruence. rewrite filter_nil, app_nil_r.
    destruct (st c =? STATUS_EXITED) eqn:E2.
    + by rewrite (filter_cons_True _ c) by done.
    + by rewrite (filter_cons_False _ c) by congruence.
  - destruct (switch_keep s c t fl (st c) Q Hst Hv E) as (s' & H1 & H2 & H3 & H4).
    exists s'. split_and!; [done| |done|done].
    rewrite (filter_cons_True _ c) by done.
    rewrite (filter_cons_False _ c), !filter_nil, app_nil_r; [done|].
    unfold leaves_ring in E. apply orb_false_iff in E as [_ E]. congruence.
Qed.

End Switch.

Section Loop.
Context (rdtsc : nat -> Z).

Lemma scheduler_loop_aux st x : forall t1 c t2 fl s fuel,
  queues s (c :: t1 ++ x :: t2) fl ->
  (forall u, u ∈ c :: t1 ++ [x] -> status_of (pcbs s) u = Some (st u) /\ valid_status (st u)) ->
  (forall u, u ∈ t1 -> runnable (st u) = false) -> runnable (st x) = true ->
  (length t1 < fuel)%nat ->
  exists s', scheduler_loop rdtsc fuel s = Ret (tt, s')
    /\ queues s' (x :: t2 ++ kept st (c :: t1)) (fl ++ freed st (c :: t1))
    /\ (forall u, u ∉ c :: t1 -> status_of (pcbs s') u = status_of (pcbs s) u) /\ keeps s s'.
Proof.
  induction t1 as [|c' t1 IH]; intros c t2 fl s fuel Q Hst Hnr Hx Hf;
    (destruct fuel as [|f]; [lia|]); cbn [scheduler_loop].
  - destruct (Hst c) as [Hc Hv]; [left|].
    assert (Hxc : x <> c).
    { destruct Q as [_ (H & _) _ _ _ _]. apply list.NoDup_cons in H as [H _].
      intros ->. apply H. left. }
    destruct (switch_step rdtsc s c (x :: t2) fl st Q) as (s1 & E & Q1 & S1 & K1); [done..|].
    rewrite (bind_step _ _ _ _ _ E), bind_gets, (q_cur _ _ _ Q1). cbn [head_ptr app].
    assert (Sx : status_of (pcbs s1) x = Some (st x)).
    { rewrite S1 by done. apply Hst. right. left. }
    unfold status_of in Sx. destruct (pcbs s1 !! x) as [rx|] eqn:Ex; [|done].
    injection Sx as Sx. erewrite rd_ok by exact Ex. rewrite Sx.
    assert (negb (st x =? STATUS_READY) && negb (st x =? STATUS_FIRST_TIME) = false) as ->.
    { unfold runnable in Hx. by rewrite <- negb_orb, Hx. }
    exists s1. split_and!; [done|done| |done]. intros u Hu. apply S1. intros ->. apply Hu. left.
  - destruct (Hst c) as [Hc Hv]; [left|].
    assert (Hnd : c ∉ c' :: t1 ++ [x]).
    { destruct Q as [_ (H & _) _ _ _ _]. apply list.NoDup_cons in H as [H _].
      intros Hin. apply H. clear -Hin. set_solver. }
    destruct (switch_step rdtsc s c ((c' :: t1) ++ x :: t2) fl st Q) as (s1 & E & Q1 & S1 & K1); [done..|].
    rewrite (bind_step _ _ _ _ _ E), bind_gets, (q_cur _ _ _ Q1). cbn [head_ptr app].
    assert (Sall : forall u, u ∈ c' :: t1 ++ [x] -> status_of (pcbs s1) u = Some (st u) /\ valid_status (st u)).
    { intros u Hu. rewrite S1 by (intros ->; done). apply Hst. by right. }
    destruct (Sall c') as [Sc _]; [left|].
    unfold status_of in Sc. destruct (pcbs s1 !! c') as [rx|] eqn:Ex; [|done].
    injection Sc as Sc. erewrite rd_ok by exact Ex. rewrite Sc.
    assert (negb (st c' =? STATUS_READY) && negb (st c' =? STATUS_FIRST_TIME) = true) as ->.
    { rewrite <- negb_orb. change (negb (runnable (st c')) = true). rewrite Hnr by left. done. }
    cbn [app] in Q1. rewrite <- app_assoc in Q1. cbn [app] in Q1.
    destruct (IH c' (t2 ++ kept st [c]) (fl ++ freed st [c]) s1 f) as (s2 & E2 & Q2 & S2 & K2);
      [exact Q1|exact Sall|intros u Hu; apply Hnr; by right|done|simpl in Hf; lia|].
    exists s2. split_and!; [done| | |by eapply keeps_trans].
    + rewrite <- !app_assoc in Q2. unfold kept, freed in *.
      by rewrite <- !list.filter_app in Q2.
    + intros u Hu. rewrite S2 by (intros Hin; apply Hu; by right).
      apply S1. intros ->. apply Hu. left.
Qed.

(** [C17] The scheduler's loop terminates and picks fairly: when [x] is the
    first runnable thread behind the running one in the ready ring, the loop
    stops with [x] running after at most one round over the threads before it;
    the threads it passed are appended to the ring in order, except that blocked
    and exited ones are taken out, the exited ones going to the free list. *)
Theorem scheduler_loop_picks st s c t1 x t2 fl fuel
  (Hq : queues s (c :: t1 ++ x :: t2) fl)
  (Hst : forall u, u ∈ c :: t1 ++ [x] ->
           status_of (pcbs s) u = Some (st u) /\ valid_status (st u))
  (Hskip : forall u, u ∈ t1 -> runnable (st u) = false) (Hx : runnable (st x) = true)
  (Hfuel : (length t1 < fuel)%nat) :
  exists s', scheduler_loop rdtsc fuel s = Ret (tt, s')
    /\ current_running s' = x
    /\ queues s' (x :: t2 ++ kept st (c :: t1)) (fl ++ freed st (c :: t1)).
Proof.
  destruct (scheduler_loop_aux st x t1 c t2 fl s fuel) as (s' & H1 & H2 & _ & _); try done.
  exists s'. split_and!; [done| |done]. apply (q_cur _ _ _ H2).
Qed.

End Loop.

(** ** The pcb table *)

Lemma nxt_zero r p h :
  h !! p = Some r -> nxt (alter (fun r => set_saved_count (saved_count r) zero_pcb) p h) p = Some NULL.
Proof. intros H. unfold nxt. by rewrite lookup_alter_eq, H. Qed.

Lemma init_pcb_loop_run n : forall k s,
  cpu_room 8 (cpu s) -> ring (pcbs s) (seq 1 k) ->
  (forall p, (1 <= p <= k + n)%nat -> is_Some (pcbs s !! p)) ->
  exists h', init_pcb_loop n (S k) (head_ptr (seq 1 k)) s
      = Ret (head_ptr (seq 1 (k + n)), set_pcbs h' s)
    /\ ring h' (seq 1 (k + n)) /\ forall u, (k + n < u)%nat -> h' !! u = pcbs s !! u.
Proof.
  induction n as [|n IH]; intros k s Hc Hr Hall; cbn [init_pcb_loop].
  - exists (pcbs s). rewrite Nat.add_0_r. split_and!; [|done|done]. unfold ret. do 2 f_equal. by destruct s.
  - destruct (Hall (S k)) as [r Hk]; [lia|]. rewrite wr_ok by eauto.
    set (h1 := alter (fun r => set_saved_count (saved_count r) zero_pcb) (S k) (pcbs s)).
    assert (Hnk : S k ∉ seq 1 k) by (rewrite elem_of_seq; lia).
    destruct (queue_insert_ring (set_pcbs h1 s) (seq 1 k) (S k)) as (h2 & E & R & L); try done.
    + eapply room_weaken; [|exact Hc]. lia.
    + cbn. eapply (links_only_ring _ _ []); [|set_solver|].
      1: apply links_only_refl. destruct Hr as (H1 & H2 & H3). split_and!; [done|done|].
      destruct (seq 1 k) as [|x t] eqn:Es; [done|].
      eapply seg_frame, H3; intros u Hu; unfold h1, nxt, prv; rewrite lookup_alter_ne; try done;
        intros <-; apply Hnk; destruct Hu as [?|?]; subst; set_solver.
    + by eapply nxt_zero.
    + rewrite (bind_step _ _ _ _ _ E).
      assert (Es : @app ptr (seq 1 k) (@cons ptr (S k) (@nil ptr)) = seq 1 (S k)) by (symmetry; apply seq_S).
      rewrite Es in R, L.
      rewrite Es.
      rewrite set_pcbs_pcbs.
      destruct (IH (S k) (set_pcbs h2 s)) as (h3 & E3 & R3 & O3); [done|done| |].
      { intros p Hp. cbn. destruct (decide (p ∈ seq 1 (S k))) as [Hin|Hin].
        - by eapply ring_has.
        - destruct L as [L _]. rewrite L by done. unfold h1.
          apply has_alter. apply Hall. lia. }
      exists h3. rewrite E3. rewrite <- !plus_n_Sm. split_and!; [done|done|]. intros u Hu. rewrite O3 by lia. cbn.
      destruct L as [L _]. rewrite L by (rewrite elem_of_seq; lia).
      unfold h1. cbn [pcbs set_pcbs]. rewrite lookup_alter_ne by lia. done.
Qed.

(** [init_pcb_table] changes only the table, the free list and the ready ring. *)
Lemma init_pcb_table_run s :
  cpu_room 8 (cpu s) -> (forall p, (1 <= p <= PCB_TABLE_SIZE)%nat -> is_Some (pcbs s !! p)) ->
  exists h, init_pcb_table s = Ret (tt, set_current_running NULL (set_freelist 1%nat (set_pcbs h (set_freelist NULL s))))
    /\ ring h (seq 1 PCB_TABLE_SIZE) /\ forall u, (PCB_TABLE_SIZE < u)%nat -> h !! u = pcbs s !! u.
Proof.
  intros Hcpu Htab. unfold init_pcb_table. rewrite bind_modify.
  destruct (init_pcb_loop_run PCB_TABLE_SIZE 0 (set_freelist NULL s)) as (h & E & R & O); [done| |done|].
  { split_and!; [constructor|apply not_elem_of_nil|done]. }
  cbn [head_ptr seq] in E. rewrite (bind_step _ _ _ _ _ E), bind_modify. by exists h.
Qed.

(** [init_pcb_table] puts the whole table on the free list, in order, and
    leaves the ready ring empty; none of its queue assertions can fail. *)
Theorem init_pcb_table_freelist s
  (Hcpu : cpu_room 8 (cpu s))
  (Htab : forall p, (1 <= p <= PCB_TABLE_SIZE)%nat -> is_Some (pcbs s !! p)) :
  exists s', init_pcb_table s = Ret (tt, s')
    /\ queues s' [] (seq 1 PCB_TABLE_SIZE) /\ current_running s' = NULL.
Proof.
  destruct (init_pcb_table_run s Hcpu Htab) as (h & E & R & _). eexists. split; [exact E|]. split; [|done].
  constructor; kproj; try done.
  - split_and!; [constructor|apply not_elem_of_nil|done].
  - intros u Hu. by apply not_elem_of_nil in Hu.
Qed.

(** ** Sleeping *)

(** [msleep] computes its delay in 32 bits: the number of cycles is the
    intended [msecs * cpu_mhz * 1000] exactly when that product is below 2^32;
    beyond it the delay is shorter by a multiple of 2^32. *)
Theorem sleep_cycles_exact msecs mhz (Hm : 0 <= msecs) (Hz : 0 <= mhz) :
  (sleep_cycles msecs mhz = msecs * mhz * 1000 <-> msecs * mhz * 1000 < 2 ^ 32)
  /\ sleep_cycles msecs mhz = (msecs * mhz * 1000) mod 2 ^ 32.
Proof.
  assert (E : sleep_cycles msecs mhz = (msecs * mhz * 1000) mod 2 ^ 32).
  { unfold sleep_cycles, u32. by rewrite Zmult_mod_idemp_l. }
  split; [|done]. rewrite E. assert (0 <= msecs * mhz * 1000) by nia. split.
  - intros <-. apply Z.mod_pos_bound. lia.
  - intros. by apply Z.mod_small.
Qed.

(** ** Concrete instances *)

Module Schedule_instances.

Definition thread (n v : ptr) (st : Z) : pcb :=
  set_status st (set_pcb_next n (set_pcb_previous v zero_pcb)).

(** Threads 1, 2 and 3 in the ready ring with the given statuses, 4 and 5 in a
    wait queue, 6 in no queue. *)
Definition heap (s1 s2 s3 : Z) : gmap ptr pcb :=
  list_to_map [(0%nat, zero_pcb);
    (1%nat, thread 2%nat 3%nat s1); (2%nat, thread 3%nat 1%nat s2); (3%nat, thread 1%nat 2%nat s3);
    (4%nat, thread 5%nat 0%nat STATUS_BLOCKED); (5%nat, thread 0%nat 0%nat STATUS_BLOCKED);
    (6%nat, zero_pcb)].

Definition state (s1 s2 s3 : Z) : kst :=
  mk_kst (mk_cpu 0 true) (heap s1 s2 s3) 1%nat 0 NULL 0 T_KSTACK_AREA_MIN_PADDR 500 O 0 0 0.

Ltac concrete_list :=
  first [ apply (bool_decide_unpack _); vm_compute; exact I
        | intros H; apply (bool_decide_unpack _) in H; exact H ].

Lemma ready_ring s1 s2 s3 : ring (heap s1 s2 s3) [1; 2; 3]%nat.
Proof. split; [concrete_list|split; [concrete_list|repeat split]]. Qed.

Lemma waiting s1 s2 s3 : wait_queue (heap s1 s2 s3) [4; 5]%nat.
Proof. split; [concrete_list|split; [concrete_list|repeat split]]. Qed.

Lemma no_ring h : ring h [].
Proof. split_and!; [constructor|apply not_elem_of_nil|done]. Qed.

Lemma room n s1 s2 s3 : n <= 2 ^ 31 -> cpu_room n (cpu (state s1 s2 s3)).
Proof. intros. split; [cbn; lia|done]. Qed.

Lemma queue_refines_list_witness :
  (exists h', queue_insert 1%nat 6%nat (state 1 1 1) = Ret (1%nat, set_pcbs h' (state 1 1 1))
     /\ ring h' [1; 2; 3; 6]%nat)
  /\ exists h', queue_shift 1%nat (state 1 1 1) = Ret ((1, 2)%nat, set_pcbs h' (state 1 1 1))
     /\ ring h' [2; 3]%nat.
Proof.
  destruct (queue_refines_list (state 1 1 1) [1; 2; 3]%nat) as [Hi Hs].
  - by apply room.
  - apply ready_ring.
  - split.
    + destruct (Hi 6%nat) as (h' & H1 & H2 & _); [reflexivity|concrete_list|done|].
      exists h'. split; [exact H1|exact H2].
    + destruct Hs as (h' & H1 & H2 & _). exists h'. split; [exact H1|exact H2].
Defined.

Lemma unblock_moves_head_witness :
  exists h', unblock 4%nat (state 1 1 1) = Ret (5%nat, set_pcbs h' (state 1 1 1))
    /\ ring h' [1; 2; 3; 4]%nat /\ nxt h' NULL = Some 5%nat.
Proof.
  destruct (unblock_moves_head (state 1 1 1) 4%nat [5%nat] [1; 2; 3]%nat)
    as (h' & H1 & _ & H2 & _ & H3).
  - by apply room.
  - apply waiting.
  - apply ready_ring.
  - reflexivity.
  - done.
  - set_solver.
  - by eexists.
  - exists h'. split_and!; [exact H1|apply H2..|exact H3].
Defined.

Lemma block_appends_witness :
  exists h', (q <-- block_enqueue 4%nat ;; scheduler_switch (fun _ => 0) ;;; ret q) (state 1 1 1)
    = Ret (4%nat, set_current_running 2%nat (set_pcbs h'
        (set_cpu (nointerrupt_enter (mk_cpu 0 true)) (state 1 1 1))))
    /\ wait_queue h' [4; 5; 1]%nat.
Proof.
  destruct (block_appends (fun _ => 0) (state 1 1 1) 1%nat 2%nat [3%nat] [4; 5]%nat)
    as (h' & H1 & H2 & _).
  - by apply room.
  - apply ready_ring.
  - reflexivity.
  - apply waiting.
  - cbn. unfold PCB_TABLE_SIZE. lia.
  - set_solver.
  - exists h'. split; [exact H1|exact H2].
Defined.

(** Thread 1 has blocked, 2 sleeps, 3 is ready. *)
Lemma scheduler_loop_picks_witness :
  exists s', scheduler_loop (fun _ => 0) 5 (state 3 2 1) = Ret (tt, s')
    /\ current_running s' = 3%nat /\ queues s' [3; 2]%nat [].
Proof.
  destruct (scheduler_loop_picks (fun _ => 0)
    (fun u => match u with 1%nat => 3 | 2%nat => 2 | _ => 1 end)
    (state 3 2 1) 1%nat [2%nat] 3%nat [] [] 5%nat) as (s' & H1 & H2 & H3).
  - constructor; [by apply room|apply ready_ring|reflexivity|apply no_ring|reflexivity|].
    intros u _. apply not_elem_of_nil.
  - intros u Hu. unfold valid_status.
    repeat (apply elem_of_cons in Hu as [->|Hu]; [split; [reflexivity|lia]|]).
    by apply not_elem_of_nil in Hu.
  - intros u Hu. apply list_elem_of_singleton in Hu as ->. reflexivity.
  - reflexivity.
  - cbn. lia.
  - exists s'. split_and!; [exact H1|exact H2|exact H3].
Defined.

(** A table of zeroed control blocks. *)
Definition boot_heap : gmap ptr pcb :=
  list_to_map ((fun p => (p, zero_pcb)) <$> seq 0 130).

Lemma boot_heap_has p : (p < 130)%nat -> is_Some (boot_heap !! p).
Proof.
  intros Hp. exists zero_pcb. unfold boot_heap.
  apply elem_of_list_to_map_1.
  - rewrite <- list_fmap_compose. apply NoDup_fmap_2; [|apply NoDup_seq]. by intros ? ?.
  - apply list_elem_of_fmap. exists p. split; [done|]. apply elem_of_seq. lia.
Qed.

Definition boot_state : kst :=
  mk_kst (mk_cpu 1 false) boot_heap NULL 0 NULL 0 T_KSTACK_AREA_MIN_PADDR 0 O 0 0 0.

Lemma init_pcb_table_freelist_witness :
  exists s', init_pcb_table boot_state = Ret (tt, s') /\ freelist s' = 1%nat.
Proof.
  destruct (init_pcb_table_freelist boot_state) as (s' & H1 & H2 & _).
  - split; [cbn; lia|done].
  - intros p Hp. apply boot_heap_has. unfold PCB_TABLE_SIZE in Hp. lia.
  - exists s'. split; [exact H1|exact (q_freelist _ _ _ H2)].
Defined.

Lemma sleep_cycles_exact_witness :
  sleep_cycles 10000 500 = 705032704 /\ sleep_cycles 1000 500 = 500000000.
Proof.
  split.
  - rewrite (proj2 (sleep_cycles_exact 10000 500 ltac:(lia) ltac:(lia))). reflexivity.
  - apply (sleep_cycles_exact 1000 500); lia.
Defined.

End Schedule_instances.
