(* ===== verification/RoundRobin.v ===== *)
(** * Every ready thread gets the processor

    [yield] and [preempt] of [src/src/kernel/scheduler.c] with the whole
    context switch, [scheduler_entry] and [dispatch] of
    [src/src/kernel/scheduler_asm.S] included, and the code of
    [src/src/kernel/interrupt_asm.S] through which the timer reaches [preempt]:
    which threads run, in which order, when the running thread gives up the
    processor again and again.

    A thread that gets the processor back continues where it left off, on its own
    stack.  [left_in] records for each thread where that is. *)

From S2P Require Import Prelude Cpu Sched Ring Interrupt Schedule.

(** Where a thread left off: in a [yield] of its own (also that of [msleep]); in
    the [preempt] of a timer interrupt; or in a [block] inside a critical section
    of the routine that called it, such as [lock_acquire], from which it was
    unblocked since. *)
Inductive place : Type := In_yield | In_timer | In_section.

(** A context switch is asked for by the thread or by the timer. *)
Inductive switch : Type := By_yield | By_preempt.
Definition place_of (w : switch) : place := match w with By_yield => In_yield | By_preempt => In_timer end.

(** The critical sections a thread is in when it leaves off: that of [yield],
    [preempt] or [block], and that of the entry code or of the routine. *)
Definition sections (p : place) : Z := match p with In_yield => 1 | In_timer | In_section => 2 end.

Record rst : Type := mk_rst { rk : kst; left_in : gmap ptr place }.
Definition set_rk v s := mk_rst v (left_in s).
Definition set_left_in v s := mk_rst (rk s) v.
Definition on_kst {A} (m : M kst A) : M rst A := zoom rk set_rk m.

(** [IRQ_ENTRY_WRAPPER IRQ_TIMER, preempt] before and behind the call of
    [preempt]; the processor clears the interrupt flag on entry, as the [enter]
    does, and [iret] restores it.  The controller's mask is the field [pic_mask]. *)
Definition timer_enter : M kst unit :=
  enter ;;; nest 1 ;;; modify (fun s => set_pic_mask (Z.lor (pic_mask s) 1) s).
Definition iret : M kst unit := modify (fun s => set_cpu (mk_cpu (nointerrupt_count_val (cpu s)) true) s).
Definition timer_return : M kst unit :=
  nest (-1) ;;; modify (fun s => set_pic_mask (Z.land (pic_mask s) (Z.lnot 1)) s) ;;; leave_delayed ;;; iret.

(** What is left to do for the thread that continues, behind the [leave] of
    [yield], [preempt] or [block]. *)
Definition way_back (p : option place) : M kst unit :=
  match p with
  | None | Some In_yield => ret tt
  | Some In_timer => timer_return
  | Some In_section => leave
  end.

Section RoundRobin.
Context (rdtsc : nat -> Z).

Definition switch_task (w : switch) (fuel : nat) : M rst unit :=
  c <-- on_kst (gets current_running) ;;
  modify (fun s => set_left_in (<[c := place_of w]> (left_in s)) s) ;;;
  on_kst (match w with By_yield => yield rdtsc fuel | By_preempt => timer_enter ;;; preempt rdtsc fuel end) ;;;
  c' <-- on_kst (gets current_running) ;;
  p <-- gets (fun s => left_in s !! c') ;;
  on_kst (way_back p).

(** Switch once per element of [ws]; the threads that run, in order. *)
Fixpoint switch_tasks (ws : list switch) (fuel : nat) : M rst (list ptr) :=
  match ws with
  | [] => ret []
  | w :: ws' =>
      switch_task w fuel ;;;
      c <-- on_kst (gets current_running) ;;
      l <-- switch_tasks ws' fuel ;;
      ret (c :: l)
  end.

Definition st_of (s : kst) (u : ptr) : Z := default 0 (status_of (pcbs s) u).

(** How a thread that waits in the ring left off, and with which saved count: not
    at all if it has not run yet. *)
Definition waits (s : kst) (m : gmap ptr place) (u : ptr) : Prop :=
  match m !! u with
  | None => st_of s u = STATUS_FIRST_TIME
  | Some p => st_of s u <> STATUS_FIRST_TIME /\ saved_count <$> pcbs s !! u = Some (sections p)
  end.

(** The ready ring between two switches: the running thread is outside of all
    critical sections with interrupts on, every thread of the ring has a valid
    status, and those that wait left off as [left_in] says. *)
Record schedulable (s : rst) (l fl : list ptr) : Prop := {
  sc_queues : queues (rk s) l fl;
  sc_cpu : cpu (rk s) = mk_cpu 0 true;
  sc_valid : forall u, u ∈ l -> valid_at (pcbs (rk s)) u;
  sc_head : forall c, head l = Some c -> st_of (rk s) c <> STATUS_FIRST_TIME;
  sc_waits : forall u, u ∈ tail l -> waits (rk s) (left_in s) u
}.

Lemma valid_st_of s u : valid_at (pcbs s) u -> status_of (pcbs s) u = Some (st_of s u) /\ valid_status (st_of s u).
Proof. intros (z & H & Hv). unfold st_of. by rewrite H. Qed.

Lemma queues_fields f p s s' l fl :
  (forall r, pcb_next (f r) = pcb_next r) -> (forall r, pcb_previous (f r) = pcb_previous r) ->
  pcbs s' = alter f p (pcbs s) -> cpu_room 8 (cpu s') -> current_running s' = current_running s ->
  freelist s' = freelist s -> queues s l fl -> queues s' l fl.
Proof.
  intros Hn Hp Hs Hc Hr Hf [Q1 Q2 Q3 Q4 Q5 Q6].
  assert (Hring : forall t, ring (pcbs s) t -> ring (pcbs s') t).
  { intros t (H1 & H2 & H3). split_and!; [done|done|]. destruct t; [done|].
    eapply seg_frame, H3; intros u _; rewrite Hs; [by apply nxt_frame|by apply prv_frame]. }
  constructor; [done|auto|congruence|auto|congruence|done].
Qed.

Lemma status_alter f p (h : gmap ptr pcb) u :
  (forall r, status (f r) = status r) -> status_of (alter f p h) u = status_of h u.
Proof.
  intros Hf. unfold status_of. destruct (decide (p = u)) as [->|Hu]; [|by rewrite lookup_alter_ne].
  rewrite lookup_alter_eq. destruct (h !! u); cbn; [by rewrite Hf|done].
Qed.

(** [setup_current_running] sets up the hardware only. *)
Lemma setup_run s r :
  pcbs s !! current_running s = Some r ->
  exists s', setup_current_running s = Ret (tt, s') /\ pcbs s' = pcbs s /\ cpu s' = cpu s
    /\ current_running s' = current_running s /\ freelist s' = freelist s.
Proof.
  intros Hr. unfold setup_current_running. rewrite bind_gets. erewrite rd_ok by exact Hr.
  rewrite bind_modify. erewrite rd_ok by exact Hr. rewrite bind_modify. erewrite rd_ok by exact Hr.
  destruct (is_thread r =? 0); cbn [when].
  - erewrite rd_ok by exact Hr. eexists. split; [reflexivity|]. done.
  - eexists. split; [reflexivity|]. done.
Qed.

(** What [scheduler_entry] and its caller do behind the switch. *)
Definition resume (resumed : bool) : M kst unit :=
  b <-- (when resumed
    (c' <-- gets current_running ;;
     n <-- rd c' saved_count ;;
     modify (fun s => set_cpu (mk_cpu n (interrupts_on (cpu s))) s)) ;;;
   ret resumed) ;;
  when b leave.

(** The processor once a thread has the control: as the [leave] behind its
    [scheduler_entry] leaves it. *)
Definition resumed_cpu (p : option place) : cpu_state :=
  match p with None => mk_cpu 0 true | Some p => nointerrupt_leave (mk_cpu (sections p) false) end.

(** [dispatch] and the way back into the thread [x]. *)
Lemma dispatch_run s x t fl m k :
  queues s (x :: t) fl -> cpu s = mk_cpu k false -> 2 <= k <= 3 -> valid_at (pcbs s) x -> runnable (st_of s x) = true -> waits s m x ->
  exists s', bind dispatch resume s = Ret (tt, s') /\ queues s' (x :: t) fl /\ cpu s' = resumed_cpu (m !! x)
    /\ valid_at (pcbs s') x /\ st_of s' x <> STATUS_FIRST_TIME /\ (forall u, u <> x -> pcbs s' !! u = pcbs s !! u).
Proof.
  intros Q Hc Hk Hv Hr Hs. destruct (valid_st_of _ _ Hv) as [Hst _].
  destruct (pcbs s !! x) as [r|] eqn:Hx; [|unfold status_of in Hst; by rewrite Hx in Hst].
  assert (Est : status r = st_of s x) by (unfold status_of in Hst; rewrite Hx in Hst; by injection Hst).
  pose proof (q_cur _ _ _ Q) as Hcur. cbn [head_ptr] in Hcur.
  destruct (setup_run s r) as (s1 & E & P1 & C1 & R1 & F1); [by rewrite Hcur|].
  unfold dispatch. rewrite bind_assoc, (bind_step _ _ _ _ _ E), bind_assoc, bind_gets, R1, Hcur.
  rewrite bind_assoc. erewrite rd_ok by (rewrite P1; exact Hx). rewrite Est. unfold waits in Hs.
  destruct (m !! x) as [p|].
  - destruct Hs as [Ef Hs]. rewrite Hx in Hs. injection Hs as Hs. rewrite (proj2 (Z.eqb_neq _ _) Ef).
    rewrite bind_ret. unfold resume. cbn [when]. rewrite !bind_assoc, bind_gets, R1, Hcur.
    rewrite bind_assoc. erewrite rd_ok by (rewrite P1; exact Hx). rewrite Hs, bind_modify, bind_ret.
    eexists. split; [reflexivity|]. kproj. rewrite C1, Hc, P1. split_and!; try done.
    + destruct Q as [Q1 Q2 Q3 Q4 Q5 Q6].
      constructor; kproj; rewrite ?P1, ?C1, ?Hc, ?F1, ?R1; try done. by destruct p.
    + unfold st_of. kproj. by rewrite P1.
  - rewrite Hs, Z.eqb_refl.
    rewrite bind_assoc, wr_ok by (rewrite P1; eauto). rewrite bind_assoc, bind_get. kproj. rewrite C1, Hc.
    assert (Hb : Z.lor (Z.land k 0xffffff00) 1 = 1) by (assert (k = 2 \/ k = 3) as [-> | ->] by lia; reflexivity).
    cbn [nointerrupt_count_val interrupts_on]. rewrite Hb.
    cbn -[resume alter]. eexists. split; [reflexivity|]. split_and!.
    + eapply (queues_fields (set_status STATUS_READY) x s); try done; kproj; congruence.
    + done.
    + exists STATUS_READY. kproj. rewrite P1. unfold status_of. by rewrite lookup_alter_eq, Hx.
    + unfold st_of, status_of. kproj. by rewrite P1, lookup_alter_eq, Hx.
    + intros u Hu. kproj. by rewrite lookup_alter_ne, P1.
Qed.

Lemma enter_room8 k : 1 <= k <= 2 -> cpu_room 8 (nointerrupt_enter (mk_cpu k false)).
Proof.
  intros Hk. unfold cpu_room, nointerrupt_enter. cbn [nointerrupt_count_val interrupts_on].
  rewrite u32_small by lia. split; [lia|]. symmetry. apply Z.eqb_neq. lia.
Qed.

(** [scheduler_entry] in the critical section of [yield] or [preempt]. *)
Lemma entry_run s c t1 x t2 fl m k fuel :
  queues s (c :: t1 ++ x :: t2) fl -> cpu s = mk_cpu k false -> 1 <= k <= 2 ->
  (forall u, u ∈ c :: t1 ++ x :: t2 -> valid_at (pcbs s) u) ->
  (forall u, u ∈ t1 -> runnable (st_of s u) = false) -> runnable (st_of s x) = true ->
  waits s m x -> (length t1 < fuel)%nat ->
  exists s', (r <-- scheduler_entry rdtsc fuel ;; when r leave) s = Ret (tt, s')
    /\ queues s' (x :: t2 ++ kept (st_of s) (c :: t1)) (fl ++ freed (st_of s) (c :: t1))
    /\ cpu s' = resumed_cpu (m !! x)
    /\ (forall u, u ∈ x :: t2 ++ kept (st_of s) (c :: t1) -> valid_at (pcbs s') u)
    /\ st_of s' x <> STATUS_FIRST_TIME
    /\ (forall u, u ∈ t2 -> status_of (pcbs s') u = status_of (pcbs s) u)
    /\ (forall u, u <> x -> u ∈ c :: t1 ++ x :: t2 -> st_of s u <> STATUS_FIRST_TIME -> st_of s' u <> STATUS_FIRST_TIME)
    /\ (forall u, u <> x -> u <> c -> saved_count <$> pcbs s' !! u = saved_count <$> pcbs s !! u)
    /\ saved_count <$> pcbs s' !! c = Some k.
Proof.
  intros Q Hc Hk Hv Hnr Hx Hsx Hf. pose proof (q_cur _ _ _ Q) as Hcur. cbn [head_ptr] in Hcur.
  pose proof (q_ready _ _ _ Q) as (Hnd & Hn0 & _).
  assert (Hhas : is_Some (pcbs s !! c)) by (eapply ring_has; [apply (q_ready _ _ _ Q)|left]).
  assert (Hxc : (x <> c) /\ (x ∉ c :: t1) /\ (c ∉ t2) /\ (forall u, u ∈ t2 -> (u ∉ c :: t1) /\ u <> x)).
  { clear -Hnd. rewrite list.NoDup_cons, list.NoDup_app, list.NoDup_cons in Hnd.
    destruct Hnd as (A & B & C & D & E). split_and!; [set_solver..|]. intros u Hu.
    split; [|intros ->; done]. intros Hin. apply elem_of_cons in Hin as [->|Hin]; [set_solver|].
    by apply (C u Hin), list_elem_of_further. }
  destruct Hxc as (Hxc & Hx1 & Hc2 & Ht2).
  set (s1 := set_pcbs (alter (set_saved_count k) c (pcbs s)) s).
  set (s2 := set_cpu (nointerrupt_enter (cpu s)) s1).
  set (s3 := set_pcbs (alter (set_int_controller_mask (pic_mask s)) c (pcbs s2)) s2).
  assert (Q3 : queues s3 (c :: t1 ++ x :: t2) fl).
  { eapply (queues_fields (set_int_controller_mask (pic_mask s)) c s2); try done; [|].
    - unfold s3, s2. kproj. rewrite Hc. apply enter_room8; lia.
    - eapply (queues_fields (set_saved_count k) c s); try done. unfold s2. kproj. rewrite Hc. apply enter_room8; lia. }
  assert (S3 : forall u, status_of (pcbs s3) u = status_of (pcbs s) u).
  { intros u. unfold s3, s2, s1. kproj. by rewrite !status_alter. }
  destruct (scheduler_loop_aux rdtsc (st_of s) x t1 c t2 fl s3 fuel) as (s4 & E4 & Q4 & S4 & K4 & K5 & K6 & K7);
    [done| |done|done|done|].
  { intros u Hu. rewrite S3. apply valid_st_of, Hv. clear -Hu. set_solver. }
  assert (V4 : forall u, u ∈ c :: t1 ++ x :: t2 -> valid_at (pcbs s4) u).
  { intros u Hu. apply K6. destruct (Hv u Hu) as (z & Hz). exists z. by rewrite S3. }
  assert (Hst4 : st_of s4 x = st_of s x) by (unfold st_of; by rewrite S4, S3).
  assert (Hsv : forall u, u <> c -> saved_count <$> pcbs s4 !! u = saved_count <$> pcbs s !! u).
  { intros u Hu. rewrite K5. unfold s3, s2, s1. kproj. by rewrite !lookup_alter_ne. }
  destruct (dispatch_run s4 x (t2 ++ kept (st_of s) (c :: t1)) (fl ++ freed (st_of s) (c :: t1)) m (k + 1))
    as (s5 & E5 & Q5 & C5 & V5 & N5 & F5); [done| |lia| |by rewrite Hst4| |].
  { rewrite K4. unfold s3, s2. kproj. rewrite Hc. unfold nointerrupt_enter. cbn [nointerrupt_count_val]. by rewrite u32_small by lia. }
  { apply V4. clear. set_solver. }
  { unfold waits in *. by rewrite Hst4, Hsv. }
  exists s5. split_and!; [|done|done| |done| | | |].
  - unfold scheduler_entry. rewrite bind_assoc, bind_gets, Hcur, bind_assoc, bind_get, bind_assoc, wr_ok by done.
    rewrite Hc. cbn [nointerrupt_count_val]. fold s1.
    unfold scheduler. rewrite !bind_assoc, enter_ok, bind_assoc, bind_gets.
    change (set_cpu (nointerrupt_enter (cpu s1)) s1) with s2. change (current_running s2) with (current_running s).
    rewrite Hcur, bind_assoc, bind_gets, bind_assoc, wr_ok by (kproj; apply lookup_alter_is_Some; done).
    change (set_pcbs _ _) with s3. rewrite bind_assoc, (bind_step _ _ _ _ _ E4). exact E5.
  - intros u Hu. destruct (decide (u = x)) as [->|Hux]; [done|].
    assert (valid_at (pcbs s4) u) as (z & Hz & Hz').
    { apply V4. clear -Hu Hux. apply elem_of_cons in Hu as [?|Hu]; [done|].
      apply elem_of_app in Hu as [Hu|Hu]; [set_solver|]. apply list_elem_of_filter in Hu as [_ Hu]. set_solver. }
    exists z. unfold status_of. by rewrite F5.
  - intros u Hu. destruct (Ht2 u Hu) as [H1 H2]. unfold status_of. rewrite F5 by done.
    fold (status_of (pcbs s4) u). by rewrite S4.
  - intros u Hu Hin Hf1. unfold st_of, status_of. rewrite F5 by done. fold (status_of (pcbs s4) u). specialize (K7 u). rewrite S3 in K7.
    destruct (V4 u Hin) as (z & E1 & _). rewrite E1 in *. cbn. intros ->. apply K7; [|done].
    intros E0. apply Hf1. unfold st_of. by rewrite E0.
  - intros u H1 H2. rewrite F5 by done. by apply Hsv.
  - rewrite F5 by done. rewrite K5. unfold s3, s2, s1. kproj. rewrite saved_alter by done.
    rewrite lookup_alter_eq. destruct (pcbs s !! c) eqn:E; [done|by destruct Hhas].
Qed.

Lemma alter_twice (f g : pcb -> pcb) c (h : gmap ptr pcb) : alter f c (alter g c h) = alter (fun r => f (g r)) c h.
Proof.
  apply map_eq. intros u. destruct (decide (c = u)) as [->|Hne]; [|by rewrite !lookup_alter_ne].
  rewrite !lookup_alter_eq. by destruct (h !! u).
Qed.

(** The part of a switch before [scheduler_entry] only touches counters. *)
Definition counts (f : pcb -> pcb) : Prop :=
  forall r, status (f r) = status r /\ saved_count (f r) = saved_count r /\ pcb_next (f r) = pcb_next r /\ pcb_previous (f r) = pcb_previous r.

Lemma switch_out_run w s c t fl fuel :
  queues s (c :: t) fl -> cpu s = mk_cpu 0 true ->
  exists f m, counts f /\ (match w with By_yield => yield rdtsc fuel | By_preempt => timer_enter ;;; preempt rdtsc fuel end) s
    = (r <-- scheduler_entry rdtsc fuel ;; when r leave)
        (set_pic_mask m (set_pcbs (alter f c (pcbs s)) (set_cpu (mk_cpu (sections (place_of w)) false) s))).
Proof.
  intros Q Hc. pose proof (q_cur _ _ _ Q) as Hcur. cbn [head_ptr] in Hcur.
  assert (Hhas : is_Some (pcbs s !! c)) by (eapply ring_has; [apply (q_ready _ _ _ Q)|left]).
  destruct w; cbn [place_of sections].
  - exists (fun r => set_yield_count (u32 (yield_count r + 1)) r), (pic_mask s). split; [done|].
    unfold yield. rewrite enter_ok, bind_gets. change (current_running (set_cpu _ s)) with (current_running s).
    rewrite Hcur, wr_ok, Hc by done. by destruct s.
  - eexists (fun r => set_preempt_count (u32 (preempt_count r + 1)) (set_nested_count (u32 (nested_count r + 1)) r)), _. split; [done|].
    unfold timer_enter, nest. rewrite !bind_assoc, enter_ok, !bind_assoc, bind_gets.
    change (current_running (set_cpu _ s)) with (current_running s). rewrite Hcur, wr_ok, bind_modify by done.
    unfold preempt. rewrite enter_ok, bind_gets. kproj. rewrite Hcur, wr_ok by (kproj; by apply lookup_alter_is_Some). kproj. rewrite Hc.
    rewrite (alter_twice _ (fun r => set_nested_count (u32 (nested_count r + 1)) r)). reflexivity.
Qed.

(** The way back of the thread that continues ends its critical sections. *)
Lemma way_back_run s c t fl p :
  queues s (c :: t) fl -> cpu s = resumed_cpu p ->
  exists f m, counts f /\ way_back p s = Ret (tt, set_pic_mask m (set_pcbs (alter f c (pcbs s)) (set_cpu (mk_cpu 0 true) s))).
Proof.
  intros Q Hc. pose proof (q_cur _ _ _ Q) as Hcur. cbn [head_ptr] in Hcur.
  assert (Hhas : is_Some (pcbs s !! c)) by (eapply ring_has; [apply (q_ready _ _ _ Q)|left]).
  assert (Hid : alter (fun r => r) c (pcbs s) = pcbs s).
  { by apply alter_id. }
  destruct p as [[]|]; cbn [way_back resumed_cpu sections] in *.
  - exists (fun r => r), (pic_mask s). split; [done|]. rewrite Hid. unfold ret. change (nointerrupt_leave _) with (mk_cpu 0 true) in Hc.
    rewrite <- Hc. by destruct s.
  - eexists (fun r => set_nested_count (u32 (nested_count r + -1)) r), _. split; [done|]. unfold timer_return, nest.
    rewrite bind_assoc, bind_gets, Hcur, wr_ok, bind_modify by done. unfold bind at 1, leave_delayed at 1. kproj. rewrite Hc. reflexivity.
  - exists (fun r => r), (pic_mask s). split; [done|]. rewrite Hid. unfold leave, modify. rewrite Hc. by destruct s.
  - exists (fun r => r), (pic_mask s). split; [done|]. rewrite Hid. unfold ret. rewrite <- Hc. by destruct s.
Qed.

(** Counters do not matter to the ring. *)
Lemma counted s c f m v l fl : counts f -> cpu_room 8 v -> queues s l fl ->
  let s' := set_pic_mask m (set_pcbs (alter f c (pcbs s)) (set_cpu v s)) in
  queues s' l fl /\ (forall u, status_of (pcbs s') u = status_of (pcbs s) u)
  /\ (forall u, saved_count <$> pcbs s' !! u = saved_count <$> pcbs s !! u).
Proof.
  intros Hf Hv Q. cbv zeta. split_and!.
  - eapply (queues_fields f c s); try done; intros r; apply Hf.
  - intros u. apply status_alter. intros r. apply Hf.
  - intros u. apply saved_alter. intros r. apply Hf.
Qed.

Lemma current_of {B} s (g : ptr -> M rst B) : bind (on_kst (gets current_running)) g s = g (current_running (rk s)) s.
Proof. by destruct s. Qed.

Lemma on_kst_ok {A B} (m : M kst A) a k s (g : A -> M rst B) : m (rk s) = Ret (a, k) -> bind (on_kst m) g s = g a (set_rk k s).
Proof. intros E. apply bind_step. unfold on_kst, zoom. by rewrite E. Qed.

(** One switch. *)
Lemma switch_task_run w s c t1 x t2 fl fuel :
  schedulable s (c :: t1 ++ x :: t2) fl ->
  (forall u, u ∈ t1 -> runnable (st_of (rk s) u) = false) -> runnable (st_of (rk s) x) = true -> (length t1 < fuel)%nat ->
  exists s' fl', switch_task w fuel s = Ret (tt, s')
    /\ schedulable s' (x :: t2 ++ kept (st_of (rk s)) (c :: t1)) fl'
    /\ (forall u, u ∈ t2 -> st_of (rk s') u = st_of (rk s) u).
Proof.
  destruct s as [k m]. intros [Q Hc Hv Hh Hsv] Hnr Hx Hf. cbn [rk left_in] in *.
  pose proof (q_ready _ _ _ Q) as (Hnd & _ & _). pose proof (q_cur _ _ _ Q) as Hcur. cbn [head_ptr] in Hcur.
  assert (Hxc : x <> c) by (apply list.NoDup_cons in Hnd as [Hnd _]; intros ->; apply Hnd, elem_of_app; right; left).
  set (m' := <[c := place_of w]> m).
  destruct (switch_out_run w k c (t1 ++ x :: t2) fl fuel Q Hc) as (f & mask & Hf1 & E). set (k1 := set_pic_mask _ _) in E.
  destruct (counted k c f mask (mk_cpu (sections (place_of w)) false) _ fl Hf1 ltac:(destruct w; (split; [cbn; lia|done])) Q) as (Q1 & S1 & V1).
  fold k1 in Q1, S1, V1. assert (T1 : forall u, st_of k1 u = st_of k u) by (intros u; unfold st_of; by rewrite S1).
  destruct (entry_run k1 c t1 x t2 fl m' (sections (place_of w)) fuel) as (k2 & E2 & Q2 & C2 & V2 & N2 & S2 & F2 & K2 & Kc).
  { exact Q1. } { done. } { destruct w; cbn; lia. } { intros u Hu. destruct (Hv u Hu) as (z & Hz). exists z. by rewrite S1. }
  { intros u Hu. rewrite T1. auto. } { by rewrite T1. }
  { unfold waits, m'. rewrite lookup_insert_ne, T1, V1 by done. apply Hsv. cbn. set_solver. } { done. }
  assert (Ek : kept (st_of k1) (c :: t1) = kept (st_of k) (c :: t1)) by (unfold kept; apply list_filter_iff; intros u; by rewrite T1).
  rewrite Ek in *. destruct (way_back_run k2 x _ _ (m' !! x) Q2 C2) as (g & mask2 & Hg & E3). set (k3 := set_pic_mask mask2 _) in E3.
  destruct (counted k2 x g mask2 (mk_cpu 0 true) _ _ Hg ltac:(split; [cbn; lia|done]) Q2) as (Q3 & S3 & V3). fold k3 in Q3, S3, V3.
  assert (T3 : forall u, st_of k3 u = st_of k2 u) by (intros u; unfold st_of; by rewrite S3).
  exists (mk_rst k3 m'). eexists. split_and!.
  - unfold switch_task. rewrite current_of, bind_modify. cbn [rk]. rewrite Hcur. rewrite E2 in E. rewrite (on_kst_ok _ tt k2) by exact E.
    rewrite current_of, bind_gets. pose proof (q_cur _ _ _ Q2) as Hc2. cbn [head_ptr rk set_rk] in *. rewrite Hc2.
    cbn [left_in set_rk set_left_in]. fold m'. unfold on_kst, zoom. cbn [rk set_rk]. by rewrite E3.
  - constructor; cbn [rk left_in]; [exact Q3|done| | |].
    + intros u Hu. destruct (V2 u Hu) as (z & Hz). exists z. by rewrite S3.
    + intros u [= <-]. by rewrite T3.
    + intros u Hu. cbn [tail] in Hu. unfold waits. rewrite T3, V3.
      assert (Hux : u <> x) by (intros ->; destruct (q_ready _ _ _ Q2) as (H & _); by apply list.NoDup_cons in H as [H _]).
      unfold m'. destruct (decide (u = c)) as [->|Huc].
      { rewrite lookup_insert_eq. split; [apply F2; [done|left|rewrite T1; by apply Hh]|done]. }
      rewrite lookup_insert_ne, K2, V1 by done.
      assert (u ∈ tail (c :: t1 ++ x :: t2) /\ (st_of k u = STATUS_FIRST_TIME -> st_of k2 u = STATUS_FIRST_TIME)) as [Hin Hst].
      { apply elem_of_app in Hu as [Hu|Hu]; [split; [cbn; set_solver|unfold st_of; by rewrite S2, S1]|].
        apply list_elem_of_filter in Hu as [_ Hu]. apply elem_of_cons in Hu as [->|Hu]; [done|]. split; [cbn; set_solver|].
        intros E0. specialize (Hnr u Hu). by rewrite E0 in Hnr. }
      specialize (Hsv u Hin). unfold waits in Hsv. destruct (m !! u); [|auto]. destruct Hsv as [H1 H2]. split; [|done].
      apply F2; [done|right; exact Hin|by rewrite T1].
  - intros u Hu. cbn [rk]. rewrite T3. unfold st_of. by rewrite S2, S1.
Qed.

Lemma filter_same (p q : ptr -> bool) (l : list ptr) :
  (forall u, u ∈ l -> p u = q u) -> filter (fun u => p u = true) l = filter (fun u => q u = true) l.
Proof.
  induction l as [|a l IH]; intros H; [done|]. rewrite !filter_cons, (H a) by left.
  rewrite IH by (intros u Hu; apply H; by right). done.
Qed.

Lemma filter_none (p : ptr -> bool) (l : list ptr) :
  (forall u, u ∈ l -> p u = false) -> filter (fun u => p u = true) l = [].
Proof.
  induction l as [|a l IH]; intros H; [done|]. rewrite filter_cons, H by left. cbn.
  apply IH. intros u Hu. apply H. by right.
Qed.

Lemma first_of (p : ptr -> bool) (l : list ptr) :
  (forall u, u ∈ l -> p u = false)
  \/ exists a y b, l = a ++ y :: b /\ (forall u, u ∈ a -> p u = false) /\ p y = true.
Proof.
  induction l as [|z l IH]; [left; set_solver|]. destruct (p z) eqn:E.
  - right. exists [], z, l. split_and!; [done|set_solver|done].
  - destruct IH as [IH|(a & y & b & -> & H & Hy)]; [left|right].
    + intros u Hu. apply elem_of_cons in Hu as [->|Hu]; auto.
    + exists (z :: a), y, b. split_and!; [done| |done]. intros u Hu. apply elem_of_cons in Hu as [->|Hu]; auto.
Qed.

(** [C18] No ready thread starves.  Let [x] be a ready thread of the ready ring and
    [t1] the threads between the running one and [x].  Whether the threads
    yield or are preempted, and whether the others sleep, wait or have exited,
    the ready ones of [t1] run next, each once and in their order, and [x]
    runs right behind them.  A preemption comes from the timer interrupt, through
    its entry code; each thread continues where it left off, in a [yield], in an
    earlier timer interrupt or in a [block], and every one of these context
    switches ends with all critical sections left and interrupts on. *)
Theorem ready_thread_runs ws s c t1 x t2 fl fuel
  (Hs : schedulable s (c :: t1 ++ x :: t2) fl) (Hx : runnable (st_of (rk s) x) = true)
  (Hws : length ws = S (length (filter (fun u => runnable (st_of (rk s) u) = true) t1)))
  (Hfuel : (length t1 < fuel)%nat) :
  exists s' t' fl', switch_tasks ws fuel s = Ret (filter (fun u => runnable (st_of (rk s) u) = true) t1 ++ [x], s')
    /\ current_running (rk s') = x /\ schedulable s' (x :: t') fl'.
Proof.
  revert s c t1 t2 fl Hs Hx Hws Hfuel.
  induction ws as [|w ws IH]; intros s c t1 t2 fl Hs Hx Hws Hf; [done|].
  destruct (first_of (fun u => runnable (st_of (rk s) u)) t1) as [Hn|(a & y & b & -> & Ha & Hy)].
  - assert (Hnil : filter (fun u => runnable (st_of (rk s) u) = true) t1 = []).
    { by apply (filter_none (fun u => runnable (st_of (rk s) u))). }
    rewrite Hnil in *. injection Hws as Hws. apply nil_length_inv in Hws as ->.
    destruct (switch_task_run w s c t1 x t2 fl fuel) as (s1 & fl1 & E & S1 & _); [done..|].
    exists s1. do 2 eexists. split_and!; [|apply (q_cur _ _ _ (sc_queues _ _ _ S1))|exact S1].
    cbn [switch_tasks]. rewrite (bind_step _ _ _ _ _ E), current_of, bind_ret.
    by rewrite (q_cur _ _ _ (sc_queues _ _ _ S1)).
  - rewrite <- app_assoc in Hs. cbn [app] in Hs.
    destruct (switch_task_run w s c a y (b ++ x :: t2) fl fuel) as (s1 & fl1 & E & S1 & T1);
      [done|done|done|rewrite length_app in Hf; lia|].
    assert (Eb : filter (fun u => runnable (st_of (rk s1) u) = true) b = filter (fun u => runnable (st_of (rk s) u) = true) b).
    { apply (filter_same (fun u => runnable (st_of (rk s1) u)) (fun u => runnable (st_of (rk s) u))). intros u Hu. rewrite T1; [done|]. set_solver. }
    assert (Efa : filter (fun u => runnable (st_of (rk s) u) = true) (a ++ y :: b)
      = y :: filter (fun u => runnable (st_of (rk s) u) = true) b).
    { rewrite list.filter_app, filter_cons, Hy. cbn.
      by rewrite (filter_none (fun u => runnable (st_of (rk s) u)) a Ha). }
    rewrite Efa in *. cbn [length] in Hws. injection Hws as Hws.
    rewrite <- app_assoc in S1. cbn [app] in S1.
    destruct (IH s1 y b _ fl1 S1) as (s2 & t' & fl2 & E2 & C2 & S2);
      [by rewrite T1 by set_solver|by rewrite Eb|rewrite length_app in Hf; cbn in Hf; lia|].
    exists s2, t', fl2. split_and!; [|done|done].
    cbn [switch_tasks]. rewrite (bind_step _ _ _ _ _ E), current_of, (bind_step _ _ _ _ _ E2).
    rewrite (q_cur _ _ _ (sc_queues _ _ _ S1)), Eb. done.
Qed.

End RoundRobin.

(** ** Concrete instances *)

Module RoundRobin_instances.

Import Schedule_instances.

Definition parked (c : Z) (n v : ptr) (st : Z) : pcb := set_saved_count c (thread n v st).

(** Thread 1 runs, 2 is new, 3 sleeps, 4 was preempted, 5 was unblocked. *)
Definition five : gmap ptr pcb :=
  list_to_map [(0%nat, zero_pcb);
    (1%nat, parked 0 2%nat 5%nat STATUS_READY); (2%nat, thread 3%nat 1%nat STATUS_FIRST_TIME);
    (3%nat, set_wakeup_time 10 (parked 1 4%nat 2%nat STATUS_SLEEPING)); (4%nat, parked 2 5%nat 3%nat STATUS_READY);
    (5%nat, parked 2 1%nat 4%nat STATUS_READY)].

Definition running : rst :=
  mk_rst (mk_kst (mk_cpu 0 true) five 1%nat 0 NULL 0 T_KSTACK_AREA_MIN_PADDR 500 O 0 0 0)
    (list_to_map [(3%nat, In_yield); (4%nat, In_timer); (5%nat, In_section)]).

Lemma running_schedulable : schedulable running [1; 2; 3; 4; 5]%nat [].
Proof.
  constructor; [constructor| | | |].
  - split; [cbn; lia|done].
  - split; [concrete_list|split; [concrete_list|repeat split]].
  - done.
  - apply no_ring.
  - done.
  - intros u _. apply not_elem_of_nil.
  - done.
  - intros u Hu. repeat (apply elem_of_cons in Hu as [->|Hu]; [eexists; split; [reflexivity|done]|]).
    by apply not_elem_of_nil in Hu.
  - intros u [= <-]. done.
  - intros u Hu. repeat (apply elem_of_cons in Hu as [->|Hu]; [done|]). by apply not_elem_of_nil in Hu.
Qed.

Lemma ready_thread_runs_witness :
  exists s', switch_tasks (fun n => Z.of_nat n) [By_preempt; By_yield; By_preempt] 9 running = Ret ([2; 4; 5]%nat, s')
    /\ current_running (rk s') = 5%nat.
Proof.
  destruct (ready_thread_runs (fun n => Z.of_nat n) [By_preempt; By_yield; By_preempt] running
    1%nat [2; 3; 4]%nat 5%nat [] [] 9) as (s' & t' & fl' & E & C & _).
  - apply running_schedulable.
  - reflexivity.
  - reflexivity.
  - cbn. lia.
  - exists s'. split; [exact E|exact C].
Defined.

End RoundRobin_instances.
