(* ===== verification/Sync.v ===== *)
(** * Synchronisation primitives

    Models [src/src/kernel/sync.c] and [src/src/kernel/sync.h].

    Part 1 translates every operation of the three implementations as a
    computation of the calling thread.  An operation takes the value of the
    object it works on and returns the new one.  An operation that can call
    [block] returns a boolean too: [true] says that the thread has put itself on
    the wait queue and switches away now, [false] that the operation is
    complete.  When a thread resumes, a lock operation starts over with the
    object as it is then (the [while] loop), and a semaphore or condition
    operation goes on behind the [block].  A spinlock that is taken makes the
    thread [yield] until it is free: the outcome [Wait].

    Part 2 is the interleaving of any number of threads that call
    [lock_acquire] and [lock_release] on one lock with the implementation the
    kernel is configured for, [SYNC_IMPL_ATOMIC], as a step relation with one
    step per access to shared data. *)

From S2P Require Import Prelude Sched Ring Schedule.

(** ** Objects (sync.h) *)

Record spinlock_t : Type := mk_spinlock { sp_locked : bool; flag : bool }.

Record lock_t : Type := mk_lock { locked : bool; l_wait_queue : ptr; inner_lock : spinlock_t }.

Record condition_t : Type := mk_condition { cv_wait_queue : ptr; cv_inner_lock : spinlock_t }.

Record semaphore_t : Type := mk_semaphore {
  value : Z; sem_wait_queue : ptr; sem_inner_lock : spinlock_t }.

Record barrier_t : Type := mk_barrier {
  all_arrived : condition_t; mutex : lock_t;
  threads : Z; count1 : Z; count2 : Z; count_up : Z }.

Definition SPINLOCK_INIT : spinlock_t := mk_spinlock false false.
Definition LOCK_INIT : lock_t := mk_lock false NULL SPINLOCK_INIT.
Definition CONDITION_INIT : condition_t := mk_condition NULL SPINLOCK_INIT.
Definition SEMAPHORE_INIT (v : Z) : semaphore_t := mk_semaphore v NULL SPINLOCK_INIT.
Definition BARRIER_INIT (n : Z) : barrier_t :=
  mk_barrier CONDITION_INIT LOCK_INIT n 0 0 1.

Inductive sync_impl : Type :=
| SYNC_IMPL_COOP
| SYNC_IMPL_NOINTERRUPT
| SYNC_IMPL_ATOMIC.

Definition SYNC_IMPL : sync_impl := SYNC_IMPL_ATOMIC.

#[global] Instance sync_impl_eq_dec : EqDecision sync_impl.
Proof. solve_decision. Defined.

(** ** Spinlocks *)

Definition spinlock_acquire_coop (s : spinlock_t) : M kst spinlock_t :=
  if sp_locked s then wait
  else ret (mk_spinlock true (flag s)).

Definition spinlock_release_coop (s : spinlock_t) : M kst spinlock_t :=
  ret (mk_spinlock false (flag s)).

Definition spinlock_acquire_nointerrupt (s : spinlock_t) : M kst spinlock_t :=
  enter ;;;
  if sp_locked s then wait
  else leave ;;; ret (mk_spinlock true (flag s)).

Definition spinlock_release_nointerrupt (s : spinlock_t) : M kst spinlock_t :=
  enter ;;; leave ;;; ret (mk_spinlock false (flag s)).

(** [atomic_flag_test_and_set] returns the old value. *)
Definition spinlock_acquire_atomic (s : spinlock_t) : M kst spinlock_t :=
  if flag s then wait else ret (mk_spinlock (sp_locked s) true).

Definition spinlock_release_atomic (s : spinlock_t) : M kst spinlock_t :=
  ret (mk_spinlock (sp_locked s) false).

Section Impl.

Context (impl : sync_impl).

Definition spinlock_acquire (s : spinlock_t) : M kst spinlock_t :=
  match impl with
  | SYNC_IMPL_COOP => spinlock_acquire_coop s
  | SYNC_IMPL_NOINTERRUPT => spinlock_acquire_nointerrupt s
  | SYNC_IMPL_ATOMIC => spinlock_acquire_atomic s
  end.

Definition spinlock_release (s : spinlock_t) : M kst spinlock_t :=
  match impl with
  | SYNC_IMPL_COOP => spinlock_release_coop s
  | SYNC_IMPL_NOINTERRUPT => spinlock_release_nointerrupt s
  | SYNC_IMPL_ATOMIC => spinlock_release_atomic s
  end.

(** ** Locks *)

(** [block(&q)] up to the switch. *)
Definition lock_acquire_coop (l : lock_t) : M kst (bool * lock_t) :=
  if locked l then
    q <-- block_enqueue (l_wait_queue l) ;;
    ret (true, mk_lock (locked l) q (inner_lock l))
  else ret (false, mk_lock true (l_wait_queue l) (inner_lock l)).

(** [if (q) unblock(&q);] *)
Definition wake_one (q : ptr) : M kst ptr :=
  if (q =? NULL)%nat then ret q else unblock q.

Definition lock_release_coop (l : lock_t) : M kst lock_t :=
  q <-- wake_one (l_wait_queue l) ;;
  ret (mk_lock false q (inner_lock l)).

Definition lock_acquire_nointerrupt (l : lock_t) : M kst (bool * lock_t) :=
  enter ;;;
  if locked l then
    leave ;;;
    q <-- block_enqueue (l_wait_queue l) ;;
    ret (true, mk_lock (locked l) q (inner_lock l))
  else
    leave ;;;
    ret (false, mk_lock true (l_wait_queue l) (inner_lock l)).

Definition lock_release_nointerrupt (l : lock_t) : M kst lock_t :=
  enter ;;;
  q <-- wake_one (l_wait_queue l) ;;
  leave ;;;
  ret (mk_lock false q (inner_lock l)).

Definition lock_acquire_atomic (l : lock_t) : M kst (bool * lock_t) :=
  i <-- spinlock_acquire (inner_lock l) ;;
  if locked l then
    i' <-- spinlock_release i ;;
    q <-- block_enqueue (l_wait_queue l) ;;
    ret (true, mk_lock (locked l) q i')
  else
    i' <-- spinlock_release i ;;
    ret (false, mk_lock true (l_wait_queue l) i').

Definition lock_release_atomic (l : lock_t) : M kst lock_t :=
  i <-- spinlock_acquire (inner_lock l) ;;
  q <-- wake_one (l_wait_queue l) ;;
  i' <-- spinlock_release i ;;
  ret (mk_lock false q i').

Definition lock_acquire (l : lock_t) : M kst (bool * lock_t) :=
  match impl with
  | SYNC_IMPL_COOP => lock_acquire_coop l
  | SYNC_IMPL_NOINTERRUPT => lock_acquire_nointerrupt l
  | SYNC_IMPL_ATOMIC => lock_acquire_atomic l
  end.

Definition lock_release (l : lock_t) : M kst lock_t :=
  match impl with
  | SYNC_IMPL_COOP => lock_release_coop l
  | SYNC_IMPL_NOINTERRUPT => lock_release_nointerrupt l
  | SYNC_IMPL_ATOMIC => lock_release_atomic l
  end.

(** ** Condition variables *)

(** [condition_wait] is the same in all three implementations; up to the
    switch it releases the lock and puts the thread on the wait queue. *)
Definition condition_wait (m : lock_t) (c : condition_t) : M kst (lock_t * condition_t) :=
  m' <-- lock_release m ;;
  q <-- block_enqueue (cv_wait_queue c) ;;
  ret (m', mk_condition q (cv_inner_lock c)).

(** [while (c->wait_queue != NULL) unblock(&c->wait_queue);] *)
Fixpoint wake_all (fuel : nat) (q : ptr) : M kst ptr :=
  match fuel with
  | O => out_of_fuel
  | S f => if (q =? NULL)%nat then ret q else q' <-- unblock q ;; wake_all f q'
  end.

(** A wait queue has at most [PCB_TABLE_SIZE] threads. *)
Definition wake_fuel : nat := S PCB_TABLE_SIZE.

Definition condition_signal_coop (c : condition_t) : M kst condition_t :=
  q <-- wake_one (cv_wait_queue c) ;; ret (mk_condition q (cv_inner_lock c)).

Definition condition_broadcast_coop (c : condition_t) : M kst condition_t :=
  q <-- wake_all wake_fuel (cv_wait_queue c) ;; ret (mk_condition q (cv_inner_lock c)).

Definition condition_signal_nointerrupt (c : condition_t) : M kst condition_t :=
  enter ;;;
  q <-- wake_one (cv_wait_queue c) ;;
  leave ;;;
  ret (mk_condition q (cv_inner_lock c)).

Definition condition_broadcast_nointerrupt (c : condition_t) : M kst condition_t :=
  enter ;;;
  q <-- wake_all wake_fuel (cv_wait_queue c) ;;
  leave ;;;
  ret (mk_condition q (cv_inner_lock c)).

Definition condition_signal_atomic (c : condition_t) : M kst condition_t :=
  i <-- spinlock_acquire (cv_inner_lock c) ;;
  q <-- wake_one (cv_wait_queue c) ;;
  i' <-- spinlock_release i ;;
  ret (mk_condition q i').

Definition condition_broadcast_atomic (c : condition_t) : M kst condition_t :=
  i <-- spinlock_acquire (cv_inner_lock c) ;;
  q <-- wake_all wake_fuel (cv_wait_queue c) ;;
  i' <-- spinlock_release i ;;
  ret (mk_condition q i').

Definition condition_signal (c : condition_t) : M kst condition_t :=
  match impl with
  | SYNC_IMPL_COOP => condition_signal_coop c
  | SYNC_IMPL_NOINTERRUPT => condition_signal_nointerrupt c
  | SYNC_IMPL_ATOMIC => condition_signal_atomic c
  end.

Definition condition_broadcast (c : condition_t) : M kst condition_t :=
  match impl with
  | SYNC_IMPL_COOP => condition_broadcast_coop c
  | SYNC_IMPL_NOINTERRUPT => condition_broadcast_nointerrupt c
  | SYNC_IMPL_ATOMIC => condition_broadcast_atomic c
  end.

(** ** Semaphores *)

(** [if (s->value <= 0 && s->wait_queue) unblock(&s->wait_queue);] *)
Definition sem_wake (v : Z) (q : ptr) : M kst ptr :=
  if (v <=? 0) && negb (q =? NULL)%nat then unblock q else ret q.

Definition semaphore_up_nointerrupt (s : semaphore_t) : M kst semaphore_t :=
  enter ;;;
  let v := s32 (value s + 1) in
  q <-- sem_wake v (sem_wait_queue s) ;;
  leave ;;;
  ret (mk_semaphore v q (sem_inner_lock s)).

Definition semaphore_down_nointerrupt (s : semaphore_t) : M kst (bool * semaphore_t) :=
  enter ;;;
  let v := s32 (value s - 1) in
  if v <? 0 then
    leave ;;;
    q <-- block_enqueue (sem_wait_queue s) ;;
    ret (true, mk_semaphore v q (sem_inner_lock s))
  else
    leave ;;;
    ret (false, mk_semaphore v (sem_wait_queue s) (sem_inner_lock s)).

Definition semaphore_up_atomic (s : semaphore_t) : M kst semaphore_t :=
  i <-- spinlock_acquire (sem_inner_lock s) ;;
  let v := s32 (value s + 1) in
  q <-- sem_wake v (sem_wait_queue s) ;;
  i' <-- spinlock_release i ;;
  ret (mk_semaphore v q i').

Definition semaphore_down_atomic (s : semaphore_t) : M kst (bool * semaphore_t) :=
  i <-- spinlock_acquire (sem_inner_lock s) ;;
  let v := s32 (value s - 1) in
  if v <? 0 then
    i' <-- spinlock_release i ;;
    q <-- block_enqueue (sem_wait_queue s) ;;
    ret (true, mk_semaphore v q i')
  else
    i' <-- spinlock_release i ;;
    ret (false, mk_semaphore v (sem_wait_queue s) i').

Definition semaphore_up (s : semaphore_t) : M kst semaphore_t :=
  match impl with
  | SYNC_IMPL_COOP => halt
  | SYNC_IMPL_NOINTERRUPT => semaphore_up_nointerrupt s
  | SYNC_IMPL_ATOMIC => semaphore_up_atomic s
  end.

Definition semaphore_down (s : semaphore_t) : M kst (bool * semaphore_t) :=
  match impl with
  | SYNC_IMPL_COOP => halt
  | SYNC_IMPL_NOINTERRUPT => semaphore_down_nointerrupt s
  | SYNC_IMPL_ATOMIC => semaphore_down_atomic s
  end.

End Impl.

(** ** What the operations do to the queues *)

Lemma enter_leave_ok {B} s (k : unit -> M kst B) :
  cpu_room 1 (cpu s) -> bind enter (fun _ => bind leave k) s = k tt s.
Proof.
  intros Hc. rewrite enter_ok, leave_ok. kproj. f_equal.
  autorewrite with kst. by rewrite (set_cpu_restore 1).
Qed.

(** A spinlock that its holder has taken. *)
Definition taken (impl : sync_impl) : spinlock_t :=
  match impl with
  | SYNC_IMPL_ATOMIC => mk_spinlock false true
  | _ => mk_spinlock true false
  end.

Lemma spinlock_acquire_free impl s :
  cpu_room 1 (cpu s) -> spinlock_acquire impl SPINLOCK_INIT s = Ret (taken impl, s).
Proof. intros. destruct impl; [done| |done]. by apply enter_leave_ok. Qed.

Lemma spinlock_release_taken impl s :
  cpu_room 1 (cpu s) -> spinlock_release impl (taken impl) s = Ret (SPINLOCK_INIT, s).
Proof. intros. destruct impl; [done| |done]. by apply enter_leave_ok. Qed.

(** [wake_one] on the queue that represents [l]. *)
Lemma wake_one_run s l r :
  cpu_room 2 (cpu s) -> wait_queue (pcbs s) l -> ring (pcbs s) r ->
  current_running s = head_ptr r -> r <> [] -> (forall u, u ∈ l -> u ∉ r) ->
  is_Some (pcbs s !! NULL) ->
  exists h', wake_one (head_ptr l) s = Ret (head_ptr (tail l), set_pcbs h' s)
    /\ wait_queue h' (tail l) /\ ring h' (r ++ take 1 l)
    /\ (forall u, u ∈ take 1 l -> status_of h' u = Some STATUS_READY)
    /\ is_Some (h' !! NULL).
Proof.
  intros Hc Hw Hr Hcur Hne Hd H0. destruct l as [|p t].
  - exists (pcbs s). split; [unfold wake_one; cbn; by destruct s|].
    rewrite app_nil_r. split_and!; try done. intros u Hu. by apply not_elem_of_nil in Hu.
  - destruct (unblock_run s p t r) as (h' & E & W & R & S1 & N); try done.
    exists h'. unfold wake_one. cbn [head_ptr].
    assert (p <> NULL) by (destruct Hw as (_ & Hx & _); intros ->; apply Hx; left).
    rewrite (proj2 (Nat.eqb_neq p NULL)) by done.
    split_and!; try done; [|by eapply nxt_has].
    intros u Hu. cbn in Hu. apply list_elem_of_singleton in Hu as ->. done.
Qed.

(** [wake_all] moves the whole queue. *)
Lemma wake_all_run : forall l fuel s r,
  cpu_room 2 (cpu s) -> wait_queue (pcbs s) l -> ring (pcbs s) r ->
  current_running s = head_ptr r -> r <> [] -> (forall u, u ∈ l -> u ∉ r) ->
  is_Some (pcbs s !! NULL) -> (length l < fuel)%nat ->
  exists h', wake_all fuel (head_ptr l) s = Ret (NULL, set_pcbs h' s) /\ ring h' (r ++ l).
Proof.
  induction l as [|p t IH]; intros fuel s r Hc Hw Hr Hcur Hne Hd H0 Hf;
    (destruct fuel as [|f]; [cbn in Hf; lia|]); cbn [wake_all head_ptr].
  - exists (pcbs s). rewrite app_nil_r. split; [|done]. by destruct s.
  - destruct (unblock_run s p t r) as (h1 & E & W & R & _ & N); try done.
    destruct Hw as (Hnd & Hx & _).
    assert (p <> NULL) by (intros ->; apply Hx; left).
    rewrite (proj2 (Nat.eqb_neq p NULL)) by done. rewrite (bind_step _ _ _ _ _ E).
    destruct (IH f (set_pcbs h1 s) (r ++ [p])) as (h2 & E2 & R2); try done.
    + kproj. by rewrite head_ptr_app.
    + by destruct r.
    + apply list.NoDup_cons in Hnd as [Hpt _]. intros u Hu Hin.
      apply elem_of_app in Hin as [Hin|Hin]; [by apply (Hd u); [right|]|].
      apply list_elem_of_singleton in Hin as ->. done.
    + by eapply nxt_has.
    + cbn in Hf. lia.
    + exists h2. rewrite <- app_assoc in R2. by rewrite E2, set_pcbs_pcbs.
Qed.

Section Queue_effects.

Context (impl : sync_impl) (s : kst) (r l : list ptr).
Context (Hcpu : cpu_room 3 (cpu s)).
Context (Hready : ring (pcbs s) r) (Hcur : current_running s = head_ptr r) (Hr : r <> []).
Context (Hwait : wait_queue (pcbs s) l) (Hdisj : forall u, u ∈ l -> u ∉ r).
Context (Hnull : is_Some (pcbs s !! NULL)) (Hlen : (length l <= PCB_TABLE_SIZE)%nat).

Let s1 := set_cpu (nointerrupt_enter (cpu s)) s.

Lemma room1 : cpu_room 1 (cpu s).
Proof. by eapply room_weaken, Hcpu. Qed.

(** [lock_release], in each of the three implementations, frees the lock and
    hands it on: the first waiting thread, if there is one, leaves the wait
    queue and becomes the last of the ready ring. *)
Theorem lock_release_hands_on b :
  exists h', lock_release impl (mk_lock b (head_ptr l) SPINLOCK_INIT) s
      = Ret (mk_lock false (head_ptr (tail l)) SPINLOCK_INIT, set_pcbs h' s)
    /\ wait_queue h' (tail l) /\ ring h' (r ++ take 1 l)
    /\ forall u, u ∈ take 1 l -> status_of h' u = Some STATUS_READY.
Proof.
  pose proof room1 as Hc1.
  destruct impl; cbn [lock_release].
  - destruct (wake_one_run s l r) as (h' & E & W & R & S1 & _); try done.
    { by eapply room_weaken, Hcpu. }
    exists h'. split_and!; try done. unfold lock_release_coop. cbn [l_wait_queue].
    by rewrite (bind_step _ _ _ _ _ E).
  - destruct (wake_one_run s1 l r) as (h' & E & W & R & S1 & _); try done.
    { by apply (enter_room 3). }
    exists h'. split_and!; try done. unfold lock_release_nointerrupt. cbn [l_wait_queue].
    rewrite enter_ok. fold s1. rewrite (bind_step _ _ _ _ _ E), leave_ok. unfold s1.
    unfold ret. do 2 f_equal. kst_eq.
  - destruct (wake_one_run s l r) as (h' & E & W & R & S1 & _); try done.
    { by eapply room_weaken, Hcpu. }
    exists h'. split_and!; try done. unfold lock_release_atomic. cbn [l_wait_queue inner_lock].
    rewrite (bind_step _ _ _ _ _ (spinlock_acquire_free _ _ Hc1)), (bind_step _ _ _ _ _ E).
    by rewrite (bind_step _ _ _ _ _ (spinlock_release_taken SYNC_IMPL_ATOMIC (set_pcbs h' s) Hc1)).
Qed.

(** [condition_broadcast], in each implementation, wakes every waiting
    thread: the wait queue is empty afterwards and the threads follow the ready
    ring in the order in which they waited. *)
Theorem condition_broadcast_wakes_all :
  exists h', condition_broadcast impl (mk_condition (head_ptr l) SPINLOCK_INIT) s
      = Ret (mk_condition NULL SPINLOCK_INIT, set_pcbs h' s)
    /\ ring h' (r ++ l).
Proof.
  pose proof room1 as Hc1. assert (Hf : (length l < wake_fuel)%nat) by (unfold wake_fuel; lia).
  assert (Hc2 : cpu_room 2 (cpu s)) by (by eapply room_weaken, Hcpu).
  destruct impl; cbn [condition_broadcast].
  - destruct (wake_all_run l wake_fuel s r) as (h' & E & R); try done.
    exists h'. split; [|done]. unfold condition_broadcast_coop. cbn [cv_wait_queue].
    by rewrite (bind_step _ _ _ _ _ E).
  - destruct (wake_all_run l wake_fuel s1 r) as (h' & E & R); try done.
    { by apply (enter_room 3). }
    exists h'. split; [|done]. unfold condition_broadcast_nointerrupt. cbn [cv_wait_queue].
    rewrite enter_ok. fold s1. rewrite (bind_step _ _ _ _ _ E), leave_ok. unfold s1.
    unfold ret. do 2 f_equal. kst_eq.
  - destruct (wake_all_run l wake_fuel s r) as (h' & E & R); try done.
    exists h'. split; [|done]. unfold condition_broadcast_atomic. cbn [cv_wait_queue cv_inner_lock].
    rewrite (bind_step _ _ _ _ _ (spinlock_acquire_free _ _ Hc1)), (bind_step _ _ _ _ _ E).
    by rewrite (bind_step _ _ _ _ _ (spinlock_release_taken SYNC_IMPL_ATOMIC (set_pcbs h' s) Hc1)).
Qed.

(** The value of a semaphore against its wait queue: a negative value counts the
    waiting threads. *)
Definition sem_counts (v : Z) : Prop := Z.of_nat (length l) = Z.max 0 (- v).

Lemma sem_wake_one v :
  sem_counts v -> sem_wake (v + 1) (head_ptr l) = wake_one (head_ptr l).
Proof.
  unfold sem_counts, sem_wake, wake_one. intros Hv. destruct l as [|p t]; cbn [head_ptr].
  - cbn. by rewrite andb_false_r.
  - cbn [length] in Hv. destruct (p =? NULL)%nat; cbn [negb]; [by rewrite andb_false_r|].
    zbool; [done|lia].
Qed.

Lemma block_enqueue_room c r' :
  r = c :: r' ->
  exists h', block_enqueue (head_ptr l) s = Ret (head_ptr (l ++ [c]), set_pcbs h' s1)
    /\ chain h' l c /\ status_of h' c = Some STATUS_BLOCKED.
Proof.
  intros E. destruct (block_enqueue_run s c r' l) as (h' & B & C & _ & S1);
    try (rewrite <- ?E; done).
  - by rewrite Hcur, E.
  - by exists h'.
Qed.

(** Semaphores, where they are implemented: while a negative value counts
    the waiting threads, [semaphore_up] adds one and wakes exactly the first of
    them, and [semaphore_down] takes one and puts the caller on the wait queue
    exactly when the value was not positive; either way the count stays right. *)
Theorem semaphore_accounting v c r'
  (Himpl : impl <> SYNC_IMPL_COOP) (Hc : r = c :: r')
  (Hv : sem_counts v) (Hmax : - 2 ^ 31 < v < 2 ^ 31 - 1) :
  (exists h', semaphore_up impl (mk_semaphore v (head_ptr l) SPINLOCK_INIT) s
      = Ret (mk_semaphore (v + 1) (head_ptr (tail l)) SPINLOCK_INIT, set_pcbs h' s)
    /\ wait_queue h' (tail l) /\ ring h' (r ++ take 1 l)
    /\ Z.of_nat (length (tail l)) = Z.max 0 (- (v + 1)))
  /\ exists s', semaphore_down impl (mk_semaphore v (head_ptr l) SPINLOCK_INIT) s
      = Ret (if v <=? 0
             then (true, mk_semaphore (v - 1) (head_ptr (l ++ [c])) SPINLOCK_INIT)
             else (false, mk_semaphore (v - 1) (head_ptr l) SPINLOCK_INIT), s')
    /\ (if v <=? 0
        then chain (pcbs s') l c /\ Z.of_nat (length (l ++ [c])) = Z.max 0 (- (v - 1))
        else s' = s /\ Z.of_nat (length l) = Z.max 0 (- (v - 1))).
Proof.
  pose proof room1 as Hc1. unfold sem_counts in Hv.
  assert (Hup : s32 (v + 1) = v + 1) by (apply s32_small; lia).
  assert (Hdn : s32 (v - 1) = v - 1) by (apply s32_small; lia).
  assert (Hlt : (v - 1 <? 0) = (v <=? 0)) by (zbool; lia).
  assert (Htl : Z.of_nat (length (tail l)) = Z.max 0 (- (v + 1))).
  { destruct l; cbn [tail length] in *; lia. }
  destruct (block_enqueue_room c r' Hc) as (hb & B & C & _).
  destruct impl; [done|..]; cbn [semaphore_up semaphore_down]; split.
  - destruct (wake_one_run s1 l r) as (h' & E & W & R & _); try done.
    { by apply (enter_room 3). }
    exists h'. split_and!; try done. unfold semaphore_up_nointerrupt.
    cbn [value sem_wait_queue sem_inner_lock]. rewrite enter_ok. fold s1.
    rewrite Hup, sem_wake_one by done. rewrite (bind_step _ _ _ _ _ E), leave_ok.
    unfold ret, s1. do 2 f_equal. kst_eq.
  - unfold semaphore_down_nointerrupt. cbn [value sem_wait_queue sem_inner_lock].
    rewrite Hdn, Hlt. destruct (Z.leb_spec v 0).
    + rewrite enter_leave_ok by done. rewrite (bind_step _ _ _ _ _ B).
      eexists. split; [reflexivity|]. split; [exact C|]. rewrite length_app. cbn. lia.
    + rewrite enter_leave_ok by done. exists s. split_and!; [done..|]. lia.
  - destruct (wake_one_run s l r) as (h' & E & W & R & _); try done.
    { by eapply room_weaken, Hcpu. }
    exists h'. split_and!; try done. unfold semaphore_up_atomic.
    cbn [value sem_wait_queue sem_inner_lock].
    rewrite (bind_step _ _ _ _ _ (spinlock_acquire_free _ _ Hc1)).
    rewrite Hup, sem_wake_one by done. rewrite (bind_step _ _ _ _ _ E).
    by rewrite (bind_step _ _ _ _ _ (spinlock_release_taken SYNC_IMPL_ATOMIC (set_pcbs h' s) Hc1)).
  - unfold semaphore_down_atomic. cbn [value sem_wait_queue sem_inner_lock].
    rewrite (bind_step _ _ _ _ _ (spinlock_acquire_free _ _ Hc1)).
    rewrite Hdn, Hlt. destruct (Z.leb_spec v 0);
      rewrite (bind_step _ _ _ _ _ (spinlock_release_taken SYNC_IMPL_ATOMIC s Hc1)).
    + rewrite (bind_step _ _ _ _ _ B).
      eexists. split; [reflexivity|]. split; [exact C|]. rewrite length_app. cbn. lia.
    + exists s. split_and!; [done..|]. lia.
Qed.

End Queue_effects.

(** ** Concrete instances *)

Module Sync_instances.

Import Schedule_instances.

(** Threads 1, 2, 3 are ready and 4, 5 wait. *)
Lemma disjoint : forall u, u ∈ [4; 5]%nat -> u ∉ [1; 2; 3]%nat.
Proof. set_solver. Qed.

Lemma lock_release_hands_on_witness :
  exists h', lock_release SYNC_IMPL (mk_lock true 4%nat SPINLOCK_INIT) (state 1 1 1)
      = Ret (mk_lock false 5%nat SPINLOCK_INIT, set_pcbs h' (state 1 1 1))
    /\ ring h' [1; 2; 3; 4]%nat.
Proof.
  destruct (lock_release_hands_on SYNC_IMPL (state 1 1 1) [1; 2; 3]%nat [4; 5]%nat)
    with true as (h' & H1 & _ & H2 & _).
  - by apply room.
  - apply ready_ring.
  - reflexivity.
  - done.
  - apply waiting.
  - apply disjoint.
  - by eexists.
  - exists h'. split; [exact H1|exact H2].
Defined.

Lemma condition_broadcast_wakes_all_witness :
  exists h', condition_broadcast SYNC_IMPL (mk_condition 4%nat SPINLOCK_INIT) (state 1 1 1)
      = Ret (mk_condition NULL SPINLOCK_INIT, set_pcbs h' (state 1 1 1))
    /\ ring h' [1; 2; 3; 4; 5]%nat.
Proof.
  destruct (condition_broadcast_wakes_all SYNC_IMPL (state 1 1 1) [1; 2; 3]%nat [4; 5]%nat)
    as (h' & H1 & H2).
  - by apply room.
  - apply ready_ring.
  - reflexivity.
  - done.
  - apply waiting.
  - apply disjoint.
  - by eexists.
  - cbn. unfold PCB_TABLE_SIZE. lia.
  - exists h'. split; [exact H1|exact H2].
Defined.

Lemma semaphore_accounting_witness :
  exists h', semaphore_up SYNC_IMPL (mk_semaphore (-2) 4%nat SPINLOCK_INIT) (state 1 1 1)
      = Ret (mk_semaphore (-1) 5%nat SPINLOCK_INIT, set_pcbs h' (state 1 1 1))
    /\ ring h' [1; 2; 3; 4]%nat.
Proof.
  destruct (semaphore_accounting SYNC_IMPL (state 1 1 1) [1; 2; 3]%nat [4; 5]%nat)
    with (-2) 1%nat [2; 3]%nat as [(h' & H1 & _ & H2 & _) _].
  - by apply room.
  - apply ready_ring.
  - reflexivity.
  - done.
  - apply waiting.
  - apply disjoint.
  - by eexists.
  - cbn. unfold PCB_TABLE_SIZE. lia.
  - done.
  - reflexivity.
  - reflexivity.
  - lia.
  - exists h'. split; [exact H1|exact H2].
Defined.

End Sync_instances.
