(* ===== verification/Interleave.v ===== *)
(** * Interleavings: locks and barriers

    Threads that share one object of [src/src/kernel/sync.c], as step relations.

    Module [Lock]: any number of threads call [lock_acquire] and
    [lock_release] of the configured implementation, [SYNC_IMPL_ATOMIC], on one
    lock.  There is one step for every access to shared data, so a timer
    interrupt may switch threads between any two of them.  [block] and
    [unblock] run with interrupts off and are single steps; that they append to
    and take from the wait queue is proved in [Ring].

    Module [Barrier]: [barrier_wait].  Its body runs under the barrier's mutex,
    so there is one step for every part of it between a [lock_acquire] and the
    next [lock_release]; [condition_wait] releases the mutex and then blocks, and a
    thread may be interrupted between the two. *)

From S2P Require Import Prelude Sched Sync.

Module Lock.

(** Where a thread is: the comments give the statement that it executes next. *)
Inductive pc : Type :=
| Idle           (* outside; may call lock_acquire *)
| Acq_spin       (* spinlock_acquire(&l->inner_lock) *)
| Acq_test       (* while (l->locked) *)
| Acq_unspin     (* spinlock_release(&l->inner_lock), before block *)
| Acq_block      (* block(&l->wait_queue) *)
| Acq_blocked    (* in the wait queue; resumes at spinlock_acquire *)
| Acq_set        (* l->locked = true *)
| Acq_leave      (* spinlock_release(&l->inner_lock), last statement *)
| Held           (* lock_acquire has returned; may call lock_release *)
| Rel_spin       (* spinlock_acquire(&l->inner_lock) *)
| Rel_clear      (* l->locked = false *)
| Rel_test       (* if (l->wait_queue) *)
| Rel_wake       (* unblock(&l->wait_queue) *)
| Rel_unspin.    (* spinlock_release(&l->inner_lock) *)

#[global] Instance pc_eq_dec : EqDecision pc.
Proof. solve_decision. Defined.

Record config : Type := mk_config {
  c_flag : bool;
  c_locked : bool;
  c_queue : list nat;
  c_pc : nat -> pc
}.

Definition goto (t : nat) (p : pc) (f : nat -> pc) : nat -> pc :=
  fun u => if decide (u = t) then p else f u.

(** The step of thread [t]; [None] when it cannot move (the spinlock is taken,
    or it sleeps). *)
Definition lock_step (t : nat) (c : config) : option config :=
  let '(mk_config f l q p) := c in
  match p t with
  | Idle => Some (mk_config f l q (goto t Acq_spin p))
  | Acq_spin => if f then None else Some (mk_config true l q (goto t Acq_test p))
  | Acq_test => Some (mk_config f l q (goto t (if l then Acq_unspin else Acq_set) p))
  | Acq_unspin => Some (mk_config false l q (goto t Acq_block p))
  | Acq_block => Some (mk_config f l (q ++ [t]) (goto t Acq_blocked p))
  | Acq_blocked => None
  | Acq_set => Some (mk_config f true q (goto t Acq_leave p))
  | Acq_leave => Some (mk_config false l q (goto t Held p))
  | Held => Some (mk_config f l q (goto t Rel_spin p))
  | Rel_spin => if f then None else Some (mk_config true l q (goto t Rel_clear p))
  | Rel_clear => Some (mk_config f false q (goto t Rel_test p))
  | Rel_test =>
      Some (mk_config f l q (goto t (match q with [] => Rel_unspin | _ => Rel_wake end) p))
  | Rel_wake =>
      match q with
      | [] => None
      | u :: q' => Some (mk_config f l q' (goto t Rel_unspin (goto u Acq_spin p)))
      end
  | Rel_unspin => Some (mk_config false l q (goto t Idle p))
  end.

Definition init : config := mk_config false false [] (fun _ => Idle).

Inductive reachable : config -> Prop :=
| reach_init : reachable init
| reach_step t c c' : reachable c -> lock_step t c = Some c' -> reachable c'.

(** The run of a schedule. *)
Fixpoint run (ts : list nat) (c : config) : option config :=
  match ts with
  | [] => Some c
  | t :: ts' => match lock_step t c with Some c' => run ts' c' | None => None end
  end.

Lemma run_reachable ts c c' : reachable c -> run ts c = Some c' -> reachable c'.
Proof.
  revert c. induction ts as [|t ts IH]; cbn; intros c Hc H; [by simplify_eq|].
  destruct (lock_step t c) as [c1|] eqn:E; [|done]. eapply IH; [|done]. by econstructor.
Qed.

(** Threads that have the spinlock, and threads that have the lock. *)
Definition spinning (p : pc) : bool :=
  match p with
  | Acq_test | Acq_unspin | Acq_set | Acq_leave | Rel_clear | Rel_test | Rel_wake | Rel_unspin => true
  | _ => false
  end.

Definition holding (p : pc) : bool :=
  match p with Acq_leave | Held | Rel_spin | Rel_clear => true | _ => false end.

(** Who has what: one thread has the spinlock while its flag is set, one thread
    has the lock while [locked] is set. *)
Record owners (f l : bool) (p : nat -> pc) : Prop := mk_owners {
  own_spin : forall t u, spinning (p t) = true -> spinning (p u) = true -> t = u;
  own_flag : forall t, spinning (p t) = true -> f = true;
  own_hold : forall t u, holding (p t) = true -> holding (p u) = true -> t = u;
  own_locked : forall t, holding (p t) = true -> l = true;
  own_set : forall t, p t = Acq_set -> l = false;
  own_free : l = true -> exists t, holding (p t) = true
}.

(** The wait queue holds exactly the sleeping threads. *)
Record sleepers (q : list nat) (p : nat -> pc) : Prop := mk_sleepers {
  sl_queue : forall t, t ∈ q <-> p t = Acq_blocked;
  sl_nodup : NoDup q;
  sl_wake : forall t, p t = Rel_wake -> q <> []
}.

Definition inv (c : config) : Prop :=
  owners (c_flag c) (c_locked c) (c_pc c) /\ sleepers (c_queue c) (c_pc c).

Lemma goto_eq t p f : goto t p f t = p.
Proof. unfold goto. by rewrite decide_True. Qed.

Lemma goto_ne t u p f : u <> t -> goto t p f u = f u.
Proof. intros. unfold goto. by rewrite decide_False. Qed.

(** Case analysis on whether a thread is the one that moved. *)
Ltac by_thread :=
  repeat match goal with
  | H : context [goto ?t _ _ ?u] |- _ =>
      destruct (decide (u = t)); [subst u; rewrite goto_eq in H|rewrite goto_ne in H by done]
  | |- context [goto ?t _ _ ?u] =>
      destruct (decide (u = t)); [subst u; rewrite goto_eq|rewrite goto_ne by done]
  end.

(** A move of one thread from [a] to [b] that changes the flag from [f] to [f']
    and [locked] from [l] to [l']: the conditions are about these six values
    only. *)
Definition move_ok (f f' l l' : bool) (a b : pc) : bool :=
  (negb (spinning b) || f' && (spinning a || negb f))
  && (f' || negb f || spinning a)
  && (negb (holding b) || l' && (holding a || negb l))
  && (l' || negb l || holding a)
  && (negb (bool_decide (b = Acq_set)) || negb l')
  && (negb l' || l || spinning a)
  && (negb l' || holding b || l && negb (holding a)).

Lemma owners_move f f' l l' a b t p :
  owners f l p -> p t = a -> move_ok f f' l l' a b = true -> owners f' l' (goto t b p).
Proof.
  intros [O1 O2 O3 O4 O5 O6] Ea Hok. subst a. unfold move_ok in Hok.
  repeat rewrite ?andb_true_iff, ?orb_true_iff, ?negb_true_iff in Hok.
  destruct Hok as [[[[[[C1 C2] C3] C4] C5] C6] C7].
  assert (S0 : forall u, u <> t -> spinning (p u) = true -> spinning (p t) = true -> False) by eauto.
  assert (H0 : forall u, u <> t -> holding (p u) = true -> holding (p t) = true -> False) by eauto.
  constructor.
  - intros u w. by_thread; intros; try done; [| |by apply O1];
      exfalso; destruct C1 as [?|[? [?|?]]]; try congruence; eauto;
      match goal with H : spinning (p ?x) = true |- _ => pose proof (O2 x H); congruence end.
  - intros u. by_thread; intros Hs; [destruct C1 as [?|[? _]]; congruence|].
    pose proof (O2 _ Hs). destruct C2 as [[?|?]|?]; [done|congruence|]. by destruct (S0 u).
  - intros u w. by_thread; intros; try done; [| |by apply O3];
      exfalso; destruct C3 as [?|[? [?|?]]]; try congruence; eauto;
      match goal with H : holding (p ?x) = true |- _ => pose proof (O4 x H); congruence end.
  - intros u. by_thread; intros Hs; [destruct C3 as [?|[? _]]; congruence|].
    pose proof (O4 _ Hs). destruct C4 as [[?|?]|?]; [done|congruence|]. by destruct (H0 u).
  - intros u. by_thread; intros Hs.
    + destruct C5 as [C5|?]; [|done]. by apply bool_decide_eq_false in C5.
    + pose proof (O5 _ Hs). destruct C6 as [[?|?]|?]; [done|congruence|].
      destruct (S0 u); [done|by rewrite Hs|done].
  - intros ->. destruct C7 as [[?|?]|[-> Hn]]; [done| |].
    + exists t. by rewrite goto_eq.
    + destruct (O6 eq_refl) as [u Hu]. exists u. rewrite goto_ne; [done|]. intros ->. congruence.
Qed.

Lemma sleepers_move q b t p :
  sleepers q p -> p t <> Acq_blocked -> b <> Acq_blocked -> (b = Rel_wake -> q <> []) ->
  sleepers q (goto t b p).
Proof.
  intros [Q1 Q2 Q3] Ha Hb Hw. constructor; [|done|].
  - intros u. by_thread; [|done]. rewrite Q1. naive_solver.
  - intros u. by_thread; [done|]. apply Q3.
Qed.

Lemma sleepers_block q t p :
  sleepers q p -> p t = Acq_block -> sleepers (q ++ [t]) (goto t Acq_blocked p).
Proof.
  intros [Q1 Q2 Q3] Ha. constructor.
  - intros u. rewrite elem_of_app, list_elem_of_singleton. by_thread; [naive_solver|].
    rewrite Q1. naive_solver.
  - apply list.NoDup_app. split_and!; [done| |apply NoDup_singleton].
    intros u Hu Hin. apply list_elem_of_singleton in Hin as ->. apply Q1 in Hu. congruence.
  - intros u _. by destruct q.
Qed.

Lemma sleepers_wake u q p t :
  sleepers (u :: q) p -> p t = Rel_wake -> (forall w, p w = Rel_wake -> w = t) ->
  sleepers q (goto t Rel_unspin (goto u Acq_spin p)).
Proof.
  intros [Q1 Q2 Q3] Ht Huniq. apply list.NoDup_cons in Q2 as [Q2 Q2'].
  assert (Hu : p u = Acq_blocked) by (apply Q1; left).
  constructor; [|done|].
  - intros w. by_thread.
    + split; [|done]. intros Hin. assert (p t = Acq_blocked) by (apply Q1; by right). congruence.
    + naive_solver.
    + rewrite <- Q1. rewrite elem_of_cons. naive_solver.
  - intros w. by_thread; try done. intros Hw. by apply Huniq in Hw.
Qed.

Lemma inv_init : inv init.
Proof.
  split; constructor; cbn; try done; [|constructor]. intros t. by rewrite elem_of_nil.
Qed.

Lemma inv_step t c c' : inv c -> lock_step t c = Some c' -> inv c'.
Proof.
  destruct c as [f l q p]. intros [O Q]; cbn in *.
  pose proof (own_flag _ _ _ O t) as Hf. pose proof (own_locked _ _ _ O t) as Hl.
  pose proof (own_set _ _ _ O t) as Hs. pose proof (own_spin _ _ _ O) as Hu.
  destruct (p t) eqn:Et; intros Hstep; cbn in Hf, Hl; simplify_eq.
  all: try (specialize (Hf eq_refl)); try (specialize (Hl eq_refl)); try (specialize (Hs eq_refl)).
  all: try destruct f; try destruct l; try done; simplify_eq.
  all: try (split; cbn; [by eapply owners_move|
    first [by apply sleepers_block | apply sleepers_move; [done|congruence|done|done]]]).
  all: destruct q as [|u q']; simplify_eq.
  all: try (split; cbn; [by eapply owners_move|apply sleepers_move; [done|congruence|done|done]]).
  all: assert (p u = Acq_blocked) by (apply (sl_queue _ _ Q); left).
  all: split; cbn; [|apply sleepers_wake; [done..|]; intros w Hw; apply Hu; [by rewrite Hw|by rewrite Et]].
  all: match goal with |- owners _ ?l _ =>
    apply (owners_move true true l l Rel_wake);
    [by apply (owners_move true true l l Acq_blocked Acq_spin u)
    |rewrite goto_ne by congruence; done|done] end.
Qed.

Lemma reachable_inv c : reachable c -> inv c.
Proof. induction 1; [apply inv_init|by eapply inv_step]. Qed.

(** [C11] Mutual exclusion: whatever the interleaving, at most one thread is
    between [lock_acquire] and [lock_release]; the lock is marked taken while
    there is one and only then; and the wait queue holds exactly the threads
    that sleep on the lock, each once. *)
Theorem lock_mutual_exclusion c (Hreach : reachable c) :
  (forall t u, c_pc c t = Held -> c_pc c u = Held -> t = u)
  /\ (forall t, c_pc c t = Held -> c_locked c = true)
  /\ (c_locked c = true -> exists t, holding (c_pc c t) = true)
  /\ NoDup (c_queue c) /\ (forall t, t ∈ c_queue c <-> c_pc c t = Acq_blocked).
Proof.
  destruct (reachable_inv c Hreach) as [O Q]. split_and!.
  - intros t u Ht Hu. apply (own_hold _ _ _ O); by rewrite ?Ht, ?Hu.
  - intros t Ht. apply (own_locked _ _ _ O t). by rewrite Ht.
  - apply (own_free _ _ _ O).
  - apply (sl_nodup _ _ Q).
  - apply (sl_queue _ _ Q).
Qed.

(** Thread 0 takes the lock; thread 1 finds it taken and is interrupted between
    [spinlock_release] and [block]; thread 0 releases the lock and wakes nobody;
    thread 1 goes to sleep. *)
Definition lost_schedule : list nat :=
  [0; 0; 0; 0; 0; 1; 1; 1; 1; 0; 0; 0; 0; 0; 1]%nat.

(** A wake-up can get lost: [lock_acquire_atomic] gives up the spinlock
    before it blocks, and there is an interleaving after which the lock is free,
    no thread is using it, and yet a thread sleeps on its queue and cannot move. *)
Theorem lock_lost_wakeup :
  exists c, reachable c /\ c_locked c = false /\ c_flag c = false
    /\ c_queue c = [1%nat] /\ (forall t, t <> 1%nat -> c_pc c t = Idle)
    /\ lock_step 1 c = None.
Proof.
  destruct (run lost_schedule init) as [c|] eqn:E; [|by vm_compute in E].
  exists c. split; [by eapply run_reachable, E; constructor|].
  vm_compute in E. injection E as <-. split_and!; try done.
  intros [|[|t]] Ht; [reflexivity|done|reflexivity].
Qed.

End Lock.

Module Barrier.

Inductive pc : Type :=
| Out         (* not in barrier_wait *)
| GapUp       (* in condition_wait of the counting-up branch, before block *)
| WaitUp      (* asleep there *)
| WokenUp     (* woken, about to test the loop condition again *)
| GapDown
| WaitDown
| WokenDown.

#[global] Instance pc_eq_dec : EqDecision pc.
Proof. solve_decision. Defined.

(** The counters of [barrier_t], and for every thread its place and how many
    calls of [barrier_wait] it has begun. *)
Record config : Type := mk_config {
  b_count1 : Z;
  b_count2 : Z;
  b_count_up : Z;
  b_pc : nat -> pc;
  b_calls : nat -> nat
}.

Definition upd {A} (t : nat) (v : A) (f : nat -> A) : nat -> A :=
  fun u => if decide (u = t) then v else f u.

(** [condition_broadcast(&b->all_arrived)] *)
Definition woken (p : pc) : pc :=
  match p with WaitUp => WokenUp | WaitDown => WokenDown | _ => p end.

Definition broadcast (f : nat -> pc) : nat -> pc := fun u => woken (f u).

Section Steps.

(** [b->threads] *)
Context (threads : nat).

(** From the loop test on: [while (b->count1 < b->threads) condition_wait(...)]
    and what follows it, up to the next wait or the return. *)
Definition up_test (t : nat) (c : config) : config :=
  if b_count1 c <? Z.of_nat threads then
    mk_config (b_count1 c) (b_count2 c) (b_count_up c) (upd t GapUp (b_pc c)) (b_calls c)
  else if truth (b_count_up c) then
    mk_config (b_count1 c) (Z.of_nat threads) 0 (upd t Out (broadcast (b_pc c))) (b_calls c)
  else
    mk_config (b_count1 c) (b_count2 c) (b_count_up c) (upd t Out (b_pc c)) (b_calls c).

Definition down_test (t : nat) (c : config) : config :=
  if 0 <? b_count2 c then
    mk_config (b_count1 c) (b_count2 c) (b_count_up c) (upd t GapDown (b_pc c)) (b_calls c)
  else if b_count_up c =? 0 then
    mk_config 0 (b_count2 c) 1 (upd t Out (broadcast (b_pc c))) (b_calls c)
  else
    mk_config (b_count1 c) (b_count2 c) (b_count_up c) (upd t Out (b_pc c)) (b_calls c).

(** The call: [count1++] or [count2--], then the loop. *)
Definition barrier_enter (t : nat) (c : config) : config :=
  let calls := upd t (S (b_calls c t)) (b_calls c) in
  if truth (b_count_up c) then
    up_test t (mk_config (s32 (b_count1 c + 1)) (b_count2 c) (b_count_up c) (b_pc c) calls)
  else
    down_test t (mk_config (b_count1 c) (s32 (b_count2 c - 1)) (b_count_up c) (b_pc c) calls).

(** [block(&b->all_arrived.wait_queue)] *)
Definition go (t : nat) (p : pc) (c : config) : config :=
  mk_config (b_count1 c) (b_count2 c) (b_count_up c) (upd t p (b_pc c)) (b_calls c).

Definition barrier_step (t : nat) (c : config) : option config :=
  match b_pc c t with
  | Out => Some (barrier_enter t c)
  | GapUp => Some (go t WaitUp c)
  | WokenUp => Some (up_test t c)
  | GapDown => Some (go t WaitDown c)
  | WokenDown => Some (down_test t c)
  | WaitUp | WaitDown => None
  end.

(** [BARRIER_INIT] *)
Definition init : config := mk_config 0 0 1 (fun _ => Out) (fun _ => O).

Inductive reachable : config -> Prop :=
| reach_init : reachable init
| reach_step t c c' :
    reachable c -> (t < threads)%nat -> barrier_step t c = Some c' -> reachable c'.

End Steps.

Fixpoint run (threads : nat) (ts : list nat) (c : config) : option config :=
  match ts with
  | [] => Some c
  | t :: ts' =>
      match barrier_step threads t c with Some c' => run threads ts' c' | None => None end
  end.

Lemma rounds_reachable n ts c c' :
  reachable n c -> Forall (fun t => t < n)%nat ts -> run n ts c = Some c' -> reachable n c'.
Proof.
  revert c. induction ts as [|t ts IH]; cbn; intros c Hc Hts H; [by simplify_eq|].
  inversion_clear Hts. destruct (barrier_step n t c) as [c1|] eqn:E; [|done].
  eapply IH; [|done..]. by econstructor.
Qed.

(** Completed calls. *)
Definition returns (c : config) (t : nat) : nat :=
  match b_pc c t with Out => b_calls c t | _ => pred (b_calls c t) end.

(** Counting threads. *)
Fixpoint cnt (P : nat -> bool) (n : nat) : Z :=
  match n with O => 0 | S n' => cnt P n' + (if P n' then 1 else 0) end.

Lemma cnt_ext P Q n : (forall t, (t < n)%nat -> P t = Q t) -> cnt P n = cnt Q n.
Proof. induction n; intros H; [done|]. cbn. rewrite IHn, H by (intros; try apply H; lia). done. Qed.

Lemma cnt_bounds P n : 0 <= cnt P n <= Z.of_nat n.
Proof. induction n; cbn [cnt]; [lia|]. destruct (P n); lia. Qed.

Lemma cnt_full P n : cnt P n = Z.of_nat n -> forall t, (t < n)%nat -> P t = true.
Proof.
  induction n as [|n IH]; intros H t Ht; [lia|]. cbn [cnt] in H. pose proof (cnt_bounds P n).
  destruct (P n) eqn:E; [|lia]. destruct (decide (t = n)) as [->|]; [done|]. apply IH; lia.
Qed.

Lemma cnt_none n P : (forall t, (t < n)%nat -> P t = false) -> cnt P n = 0.
Proof. induction n as [|n IH]; intros H; [done|]. cbn. rewrite IH, H by (intros; try apply H; lia). done. Qed.

Lemma cnt_one P Q n t :
  (t < n)%nat -> P t = false -> Q t = true -> (forall u, u <> t -> Q u = P u) ->
  cnt Q n = cnt P n + 1.
Proof.
  induction n as [|n IH]; intros Ht HP HQ Hne; [lia|]. cbn.
  destruct (decide (t = n)) as [->|Hn].
  - rewrite HP, HQ. rewrite (cnt_ext Q P) by (intros; apply Hne; lia). lia.
  - rewrite IH, Hne by (done || lia). lia.
Qed.

Lemma fupd_eq {A} t (v : A) f : upd t v f t = v.
Proof. unfold upd. by rewrite decide_True. Qed.

Lemma fupd_ne {A} t u (v : A) f : u <> t -> upd t v f u = f u.
Proof. intros. unfold upd. by rewrite decide_False. Qed.

Ltac by_thread :=
  repeat match goal with
  | H : context [upd ?t _ _ ?u] |- _ =>
      destruct (decide (u = t)); [subst u; rewrite !fupd_eq in H|rewrite !fupd_ne in H by done]
  | |- context [upd ?t _ _ ?u] =>
      destruct (decide (u = t)); [subst u; rewrite !fupd_eq|rewrite !fupd_ne by done]
  end.

Section Invariant.

Context (n : nat) (Hn : Z.of_nat n < 2 ^ 31).

(** Threads that wait in the branch that counts up, and threads that have waited
    there when the round is over: woken, or not, when the wake-up came before they
    slept. *)
Definition up_wait (p : pc) : bool := match p with GapUp | WaitUp => true | _ => false end.
Definition down_wait (p : pc) : bool := match p with GapDown | WaitDown => true | _ => false end.
Definition up_late (p : pc) : bool := match p with GapUp | WaitUp | WokenUp => true | _ => false end.
Definition down_late (p : pc) : bool := match p with GapDown | WaitDown | WokenDown => true | _ => false end.

(** In round [g] a thread has either not yet called ([g] calls; it is out, or late
    from the round before) or it waits. *)
Definition in_round (g : nat) (waits late : pc -> bool) (c : config) : Prop :=
  forall t, (t < n)%nat ->
    (b_calls c t = g /\ (b_pc c t = Out \/ late (b_pc c t) = true /\ (0 < g)%nat))
    \/ (b_calls c t = S g /\ waits (b_pc c t) = true).

Definition arrived (g : nat) (c : config) : Z := cnt (fun t => bool_decide (b_calls c t = S g)) n.

Inductive inv (c : config) : Prop :=
| inv_up g :
    b_count_up c = 1 -> b_count2 c <= 0 -> b_count1 c = arrived g c ->
    arrived g c < Z.of_nat n -> in_round g up_wait down_late c -> inv c
| inv_down g :
    b_count_up c = 0 -> b_count1 c = Z.of_nat n -> b_count2 c = Z.of_nat n - arrived g c ->
    arrived g c < Z.of_nat n -> in_round g down_wait up_late c -> inv c.

Lemma round_inv_init : (0 < n)%nat -> inv init.
Proof.
  intros H0. apply (inv_up _ O); cbn; try done; try lia.
  - symmetry. by apply cnt_none.
  - unfold arrived. rewrite cnt_none; [lia|done].
  - intros t Ht. left. by split; [|left].
Qed.

Lemma arrived_call g t c c' :
  (t < n)%nat -> b_calls c t = g -> b_calls c' = upd t (S g) (b_calls c) ->
  arrived g c' = arrived g c + 1.
Proof.
  intros Ht Hc E. apply (cnt_one _ _ n t Ht); rewrite ?E.
  - apply bool_decide_eq_false. lia.
  - by rewrite fupd_eq, bool_decide_true.
  - intros u Hu. by rewrite fupd_ne.
Qed.

(** Everybody has arrived: the next round has no arrivals yet. *)
Lemma arrived_next g c :
  (forall t, (t < n)%nat -> b_calls c t = S g) -> arrived (S g) c = 0.
Proof. intros H. apply cnt_none. intros t Ht. rewrite H by done. apply bool_decide_eq_false. lia. Qed.

Lemma all_arrived g t c :
  arrived g c + 1 = Z.of_nat n -> (t < n)%nat -> b_calls c t = g ->
  forall u, (u < n)%nat -> u <> t -> b_calls c u = S g.
Proof.
  intros Hfull Ht Hc u Hu Hne.
  set (P := fun t => bool_decide (b_calls c t = S g)).
  assert (E : cnt (upd t true P) n = Z.of_nat n).
  { rewrite (cnt_one P _ n t Ht); [exact Hfull| |by rewrite fupd_eq|].
    - apply bool_decide_eq_false. lia.
    - intros w Hw. by rewrite fupd_ne. }
  pose proof (cnt_full _ n E u Hu) as H. rewrite fupd_ne in H by done.
  by apply bool_decide_eq_true in H.
Qed.

(** The two ways a call can go in a round: wait, or complete the round. *)
Lemma round_wait g w k t p c c' :
  in_round g w k c -> b_calls c t = g -> w p = true ->
  b_calls c' = upd t (S g) (b_calls c) -> b_pc c' = upd t p (b_pc c) ->
  in_round g w k c'.
Proof. intros Hr Hc Hp E1 E2 u Hu. rewrite E1, E2. by_thread; [by right|by apply Hr]. Qed.

Lemma round_complete g w k w' k' t c c' :
  in_round g w k c -> (t < n)%nat -> b_calls c t = g -> arrived g c + 1 = Z.of_nat n ->
  (forall p, w p = true -> k' (woken p) = true) ->
  b_calls c' = upd t (S g) (b_calls c) -> b_pc c' = upd t Out (broadcast (b_pc c)) ->
  in_round (S g) w' k' c' /\ arrived (S g) c' = 0.
Proof.
  intros Hr Ht Hc Hfull Hk E1 E2.
  assert (Hall : forall u, (u < n)%nat -> b_calls c' u = S g).
  { intros u Hu. rewrite E1. by_thread; [done|]. by apply (all_arrived g t c). }
  split; [|by apply arrived_next]. intros u Hu. left. split; [by apply Hall|].
  rewrite E2. by_thread; [by left|right]. split; [|lia]. apply Hk.
  destruct (Hr u Hu) as [[Hg _]|[_ ?]]; [|done].
  rewrite (all_arrived g t c) in Hg by done. lia.
Qed.

(** A late thread returns or goes to sleep, a waiting thread goes to sleep. *)
Lemma round_move g w k t p c c' :
  in_round g w k c -> (t < n)%nat -> b_pc c t <> Out ->
  (k (b_pc c t) = true -> p = Out \/ k p = true) -> (w (b_pc c t) = true -> w p = true) ->
  b_calls c' = b_calls c -> b_pc c' = upd t p (b_pc c) ->
  in_round g w k c' /\ arrived g c' = arrived g c.
Proof.
  intros Hr Ht Hne Hk Hw E1 E2. split; [|unfold arrived; by rewrite E1].
  intros u Hu. rewrite E1, E2. by_thread; [|by apply Hr].
  destruct (Hr t Ht) as [[? [?|[Hl ?]]]|[? ?]]; [done| |right; auto].
  left. split; [done|]. destruct (Hk Hl) as [->|]; auto.
Qed.

Lemma calls_out g w k t c :
  in_round g w k c -> (t < n)%nat -> b_pc c t = Out -> w Out = false -> b_calls c t = g.
Proof. intros Hr Ht Ho Hw. destruct (Hr t Ht) as [[? _]|[_ Hp]]; [done|]. rewrite Ho in Hp. congruence. Qed.

Lemma enter_up g t c :
  b_count_up c = 1 -> b_count2 c <= 0 -> b_count1 c = arrived g c ->
  arrived g c < Z.of_nat n -> in_round g up_wait down_late c -> (t < n)%nat -> b_pc c t = Out ->
  inv (barrier_enter n t c).
Proof.
  intros Hup H2 H1 Hlt Hr Ht Ho. pose proof (cnt_bounds (fun t => bool_decide (b_calls c t = S g)) n).
  assert (Hg : b_calls c t = g) by (by eapply calls_out).
  unfold barrier_enter. rewrite Hup. cbn [truth Z.eqb negb].
  assert (Es : s32 (b_count1 c + 1) = arrived g c + 1).
  { rewrite H1. apply s32_small. fold (arrived g c) in *. lia. }
  rewrite Es, Hg. unfold up_test. cbn. destruct (Z.ltb_spec (arrived g c + 1) (Z.of_nat n)).
  - apply (inv_up _ g); cbn; try done.
    + symmetry. by apply (arrived_call g t c).
    + by rewrite (arrived_call g t c).
    + by eapply (round_wait g _ _ t GapUp c).
  - match goal with |- inv ?c' =>
      destruct (round_complete g up_wait down_late down_wait up_late t c c') as [R A] end;
      [done|done|done|lia|by intros []|reflexivity|reflexivity|].
    eapply (inv_down _ (S g)); cbn.
    + done.
    + lia.
    + rewrite A. lia.
    + rewrite A. lia.
    + exact R.
Qed.

Lemma enter_down g t c :
  b_count_up c = 0 -> b_count1 c = Z.of_nat n -> b_count2 c = Z.of_nat n - arrived g c ->
  arrived g c < Z.of_nat n -> in_round g down_wait up_late c -> (t < n)%nat -> b_pc c t = Out ->
  inv (barrier_enter n t c).
Proof.
  intros Hup H1 H2 Hlt Hr Ht Ho. pose proof (cnt_bounds (fun t => bool_decide (b_calls c t = S g)) n).
  assert (Hg : b_calls c t = g) by (by eapply calls_out).
  unfold barrier_enter. rewrite Hup. cbn [truth Z.eqb negb].
  assert (Es : s32 (b_count2 c - 1) = Z.of_nat n - (arrived g c + 1)).
  { rewrite H2. rewrite s32_small; fold (arrived g c) in *; lia. }
  rewrite Es, Hg. unfold down_test. cbn.
  destruct (Z.ltb_spec 0 (Z.of_nat n - (arrived g c + 1))).
  - apply (inv_down _ g); cbn; try done.
    + f_equal. symmetry. by apply (arrived_call g t c).
    + rewrite (arrived_call g t c); [lia|done..].
    + by eapply (round_wait g _ _ t GapDown c).
  - match goal with |- inv ?c' =>
      destruct (round_complete g down_wait up_late up_wait down_late t c c') as [R A] end;
      [done|done|done|lia|by intros []|reflexivity|reflexivity|].
    eapply (inv_up _ (S g)); cbn.
    + done.
    + lia.
    + by rewrite A.
    + rewrite A. lia.
    + exact R.
Qed.

Lemma step_up g t c c' :
  b_count_up c = 1 -> b_count2 c <= 0 -> b_count1 c = arrived g c ->
  arrived g c < Z.of_nat n -> in_round g up_wait down_late c -> (t < n)%nat ->
  barrier_step n t c = Some c' -> inv c'.
Proof.
  intros Hup H2 H1 Hlt Hr Ht Hs. unfold barrier_step in Hs. destruct (b_pc c t) eqn:Ep; simplify_eq.
  - by apply (enter_up g).
  - destruct (round_move g up_wait down_late t WaitUp c (go t WaitUp c)) as [R A]; rewrite ?Ep; try done.
    apply (inv_up _ g); cbn; [done|done|by rewrite A|by rewrite A|exact R].
  - destruct (Hr t Ht) as [[_ [?|[Hp _]]]|[_ Hp]]; rewrite Ep in *; done.
  - destruct (round_move g up_wait down_late t WaitDown c (go t WaitDown c)) as [R A]; rewrite ?Ep; auto.
    apply (inv_up _ g); cbn; [done|done|by rewrite A|by rewrite A|exact R].
  - unfold down_test. rewrite Hup. replace (0 <? b_count2 c) with false by (symmetry; zbool; [lia|done]). cbn [Z.eqb].
    match goal with |- inv ?c' => destruct (round_move g up_wait down_late t Out c c') as [R A] end; rewrite ?Ep; auto; try done.
    apply (inv_up _ g); cbn; [done|done|by rewrite A|by rewrite A|exact R].
Qed.

Lemma step_down g t c c' :
  b_count_up c = 0 -> b_count1 c = Z.of_nat n -> b_count2 c = Z.of_nat n - arrived g c ->
  arrived g c < Z.of_nat n -> in_round g down_wait up_late c -> (t < n)%nat ->
  barrier_step n t c = Some c' -> inv c'.
Proof.
  intros Hup H1 H2 Hlt Hr Ht Hs. unfold barrier_step in Hs. destruct (b_pc c t) eqn:Ep; simplify_eq.
  - by apply (enter_down g).
  - destruct (round_move g down_wait up_late t WaitUp c (go t WaitUp c)) as [R A]; rewrite ?Ep; auto.
    apply (inv_down _ g); cbn; [done|done|by rewrite A|by rewrite A|exact R].
  - unfold up_test. rewrite Hup. replace (b_count1 c <? Z.of_nat n) with false by (symmetry; zbool; [lia|done]).
    cbn [truth Z.eqb negb].
    match goal with |- inv ?c' => destruct (round_move g down_wait up_late t Out c c') as [R A] end; rewrite ?Ep; auto; try done.
    apply (inv_down _ g); cbn; [done|done|by rewrite A|by rewrite A|exact R].
  - destruct (round_move g down_wait up_late t WaitDown c (go t WaitDown c)) as [R A]; rewrite ?Ep; try done.
    apply (inv_down _ g); cbn; [done|done|by rewrite A|by rewrite A|exact R].
  - destruct (Hr t Ht) as [[_ [?|[Hp _]]]|[_ Hp]]; rewrite Ep in *; done.
Qed.

Lemma round_inv_step t c c' : inv c -> (t < n)%nat -> barrier_step n t c = Some c' -> inv c'.
Proof. intros Hi Ht Hs. destruct Hi as [g|g]; [by eapply (step_up g)|by eapply (step_down g)]. Qed.

Lemma round_inv_reachable c : (0 < n)%nat -> reachable n c -> inv c.
Proof. intros H0. induction 1; [by apply round_inv_init|by eapply round_inv_step]. Qed.

Lemma round_bounds g w k c t :
  in_round g w k c -> w Out = false -> (t < n)%nat -> (returns c t <= g <= b_calls c t)%nat.
Proof.
  intros Hr Hw Ht. unfold returns.
  destruct (Hr t Ht) as [[-> [->|[_ ?]]]|[-> Hp]]; [lia|destruct (b_pc c t); lia|].
  destruct (b_pc c t); (congruence || lia).
Qed.

(** [C12] [barrier_wait] is a barrier: under any interleaving of [n] threads, no
    thread returns from its [k]-th call before every thread has made its
    [k]-th call; and while nobody waits, everybody is in the same round, so the
    barrier can be used again. *)
Theorem barrier_separates_rounds c t u
  (H0 : (0 < n)%nat) (Hreach : reachable n c) (Ht : (t < n)%nat) (Hu : (u < n)%nat) :
  (returns c t <= b_calls c u)%nat
  /\ (b_pc c t = Out -> b_pc c u = Out -> b_calls c t = b_calls c u).
Proof.
  destruct (round_inv_reachable c H0 Hreach) as [g _ _ _ _ Hr|g _ _ _ _ Hr].
  all: pose proof (round_bounds g _ _ c t Hr ltac:(done) Ht).
  all: pose proof (round_bounds g _ _ c u Hr ltac:(done) Hu).
  all: split; [lia|]; intros Et Eu.
  all: trans g; [by eapply calls_out|symmetry; by eapply calls_out].
Qed.

End Invariant.

(** A barrier for two threads: thread 0 releases the mutex in [condition_wait];
    before it blocks thread 1 arrives, wakes nobody and goes on to its next
    call. *)
Definition lost_schedule : list nat := [0; 1; 0; 1; 1]%nat.

(** A wake-up can get lost: [condition_wait] releases the mutex before it blocks,
    and there is an interleaving after which every thread sleeps in [barrier_wait]
    forever, although the first round was complete. *)
Theorem barrier_lost_wakeup :
  exists c, reachable 2 c /\ (forall t, (t < 2)%nat -> barrier_step 2 t c = None)
    /\ b_calls c 0%nat = 1%nat /\ b_calls c 1%nat = 2%nat.
Proof.
  destruct (run 2 lost_schedule init) as [c|] eqn:E; [|by vm_compute in E].
  exists c. split; [eapply rounds_reachable; [apply reach_init| |exact E]; repeat constructor; lia|].
  vm_compute in E. injection E as <-. split; [|done]. intros [|[|t]] Ht; [done|done|lia].
Qed.

End Barrier.

(** ** Concrete instances *)

Module Interleave_instances.

(** Two threads take turns with the lock. *)
Lemma lock_mutual_exclusion_witness :
  exists c, Lock.run [0; 0; 0; 0; 0; 1; 1]%nat Lock.init = Some c
    /\ Lock.c_pc c 0%nat = Lock.Held /\ Lock.c_locked c = true.
Proof.
  destruct (Lock.run [0; 0; 0; 0; 0; 1; 1]%nat Lock.init) as [c|] eqn:E; [|by vm_compute in E].
  exists c. split; [reflexivity|].
  assert (H : Lock.c_pc c 0%nat = Lock.Held) by (vm_compute in E; injection E as <-; reflexivity).
  split; [exact H|].
  apply (Lock.lock_mutual_exclusion c (Lock.run_reachable _ _ _ Lock.reach_init E)) with 0%nat.
  exact H.
Defined.

(** Two threads, through the barrier once and into the second round. *)
Lemma barrier_separates_rounds_witness :
  exists c, Barrier.run 2 [0; 0; 1; 0; 1]%nat Barrier.init = Some c
    /\ Barrier.returns c 0%nat = 1%nat
    /\ (Barrier.returns c 0%nat <= Barrier.b_calls c 1%nat)%nat.
Proof.
  destruct (Barrier.run 2 [0; 0; 1; 0; 1]%nat Barrier.init) as [c|] eqn:E; [|by vm_compute in E].
  exists c. split; [reflexivity|].
  split; [vm_compute in E; injection E as <-; reflexivity|].
  apply (Barrier.barrier_separates_rounds 2 ltac:(cbn; lia) c 0%nat 1%nat); [lia| |lia|lia].
  eapply (Barrier.rounds_reachable 2 [0; 0; 1; 0; 1]%nat); [apply Barrier.reach_init| |exact E].
  repeat constructor; lia.
Defined.

End Interleave_instances.
