(* ===== verification/Dining.v ===== *)
(** * Semaphores under all interleavings, and the dining philosophers

    Module [Sem]: any number of threads call [semaphore_down] and [semaphore_up]
    of [src/src/kernel/sync.c], in the configured implementation
    [SYNC_IMPL_ATOMIC], on one semaphore.  There is one step for every access to
    shared data; [value] is touched under the spinlock only, so that changing and
    testing it is one step.  [block] and [unblock] run with interrupts off.

    Module [Philosophers]: the three threads of [src/src/kernel/philosophers.c].
    Delays, the keyboard lights and what the threads print are left out. *)

From S2P Require Import Prelude Sched Sync Interleave.

Abbreviation cnt := Barrier.cnt.
Abbreviation upd := Barrier.upd.

Definition bz (b : bool) : Z := if b then 1 else 0.

(** Counting after one thread has moved. *)
Lemma cnt_upd {A} (P : A -> bool) (f : nat -> A) (n t : nat) (a : A) :
  (t < n)%nat -> cnt (fun u => P (upd t a f u)) n = cnt (fun u => P (f u)) n - bz (P (f t)) + bz (P a).
Proof.
  induction n as [|n IH]; intros Ht; [lia|]. cbn [Barrier.cnt]. destruct (decide (t = n)) as [->|Hn].
  - rewrite Barrier.fupd_eq, (Barrier.cnt_ext _ (fun u => P (f u)) n).
    + destruct (P a), (P (f n)); cbn; lia.
    + intros u Hu. by rewrite Barrier.fupd_ne by lia.
  - rewrite IH by lia. rewrite Barrier.fupd_ne by lia. lia.
Qed.

Lemma cnt_le P Q n : (forall t, (t < n)%nat -> P t = true -> Q t = true) -> cnt P n <= cnt Q n.
Proof.
  induction n as [|n IH]; intros H; cbn [Barrier.cnt]; [lia|]. specialize (IH (fun t Ht => H t ltac:(lia))).
  specialize (H n ltac:(lia)). destruct (P n); [rewrite H by done; lia|]. destruct (Q n); lia.
Qed.

Lemma cnt_two P n t u : (t < n)%nat -> (u < n)%nat -> t <> u -> P t = true -> P u = true -> 2 <= cnt P n.
Proof.
  intros Ht Hu Hne HP HQ. pose proof (Barrier.cnt_one (fun v => P v && negb (bool_decide (v = t))) P n t Ht) as E1.
  rewrite E1; [|by rewrite bool_decide_eq_true_2, andb_false_r|done|intros v Hv; by rewrite bool_decide_eq_false_2, andb_true_r].
  enough (1 <= cnt (fun v => P v && negb (bool_decide (v = t))) n) by lia.
  assert (Hb := Barrier.cnt_bounds (fun v => P v && negb (bool_decide (v = t))) n).
  destruct (Z.eq_dec (cnt (fun v => P v && negb (bool_decide (v = t))) n) 0) as [E0|]; [|lia]. exfalso.
  assert (H1 : cnt (fun v => bool_decide (v = u)) n <= cnt (fun v => P v && negb (bool_decide (v = t))) n).
  { apply cnt_le. intros v Hv Ev. apply bool_decide_eq_true in Ev as ->. by rewrite HQ, bool_decide_eq_false_2. }
  rewrite (Barrier.cnt_one (fun _ => false) _ n u Hu) in H1; [|done|by apply bool_decide_eq_true|].
  - rewrite Barrier.cnt_none in H1 by done. lia.
  - intros v Hv. by apply bool_decide_eq_false.
Qed.

Module Sem.

(** Where a thread is; the comments give what it executes next. *)
Inductive pc : Type :=
| Idle         (* may call semaphore_down *)
| Dn_spin      (* spinlock_acquire(&s->inner_lock) *)
| Dn_dec       (* s->value--; if (s->value < 0) *)
| Dn_unspin    (* spinlock_release(&s->inner_lock), before block *)
| Dn_block     (* block(&s->wait_queue) *)
| Dn_blocked   (* in the wait queue; resumes at spinlock_acquire *)
| Dn_spin2     (* spinlock_acquire(&s->inner_lock), behind block *)
| Dn_leave     (* spinlock_release(&s->inner_lock), last statement *)
| Held         (* semaphore_down has returned; may call semaphore_up *)
| Up_spin      (* spinlock_acquire(&s->inner_lock) *)
| Up_inc       (* s->value++ *)
| Up_test      (* if (s->value <= 0 && s->wait_queue) *)
| Up_wake      (* unblock(&s->wait_queue) *)
| Up_leave.    (* spinlock_release(&s->inner_lock) *)

#[global] Instance pc_eq_dec : EqDecision pc.
Proof. solve_decision. Defined.

Record config : Type := mk_config { flag : bool; value : Z; queue : list nat; at_ : nat -> pc }.

Definition move (t : nat) (p : pc) (c : config) : config := mk_config (flag c) (value c) (queue c) (upd t p (at_ c)).
Definition set_flag (b : bool) (c : config) : config := mk_config b (value c) (queue c) (at_ c).
Definition set_value (v : Z) (c : config) : config := mk_config (flag c) v (queue c) (at_ c).
Definition set_queue (q : list nat) (c : config) : config := mk_config (flag c) (value c) q (at_ c).

(** The step of thread [t]; [None] when the spinlock is taken or it sleeps. *)
Definition sem_step (t : nat) (c : config) : option config :=
  match at_ c t with
  | Idle => Some (move t Dn_spin c)
  | Dn_spin => if flag c then None else Some (set_flag true (move t Dn_dec c))
  | Dn_dec =>
      let v := s32 (value c - 1) in
      Some (set_value v (move t (if v <? 0 then Dn_unspin else Dn_leave) c))
  | Dn_unspin => Some (set_flag false (move t Dn_block c))
  | Dn_block => Some (set_queue (queue c ++ [t]) (move t Dn_blocked c))
  | Dn_blocked => None
  | Dn_spin2 => if flag c then None else Some (set_flag true (move t Dn_leave c))
  | Dn_leave => Some (set_flag false (move t Held c))
  | Held => Some (move t Up_spin c)
  | Up_spin => if flag c then None else Some (set_flag true (move t Up_inc c))
  | Up_inc => Some (set_value (s32 (value c + 1)) (move t Up_test c))
  | Up_test =>
      Some (move t (if (value c <=? 0) && negb (bool_decide (queue c = [])) then Up_wake else Up_leave) c)
  | Up_wake =>
      match queue c with
      | [] => None
      | u :: q => Some (set_queue q (move t Up_leave (move u Dn_spin2 c)))
      end
  | Up_leave => Some (set_flag false (move t Idle c))
  end.

(** [SEMAPHORE_INIT(n)] *)
Definition init (n : Z) : config := mk_config false n [] (fun _ => Idle).

(** Threads with the spinlock; threads whose decrement has not been taken back;
    threads that the semaphore has let in, or that are about to let one in. *)
Definition spinning (p : pc) : bool :=
  match p with Dn_dec | Dn_unspin | Dn_leave | Up_inc | Up_test | Up_wake | Up_leave => true | _ => false end.

Definition owning (p : pc) : bool :=
  match p with Dn_spin2 | Dn_leave | Held | Up_spin | Up_inc => true | _ => false end.

Definition counted (p : pc) : bool :=
  owning p || match p with Dn_unspin | Dn_block | Dn_blocked => true | _ => false end.

Definition inside (p : pc) : bool := owning p || match p with Up_test | Up_wake => true | _ => false end.

Section Invariant.

Context (threads : nat) (n : Z) (Hn : 0 <= n) (Hsmall : n + Z.of_nat threads < 2 ^ 31).

Inductive reachable : config -> Prop :=
| reach_init : reachable (init n)
| reach_step t c c' : reachable c -> (t < threads)%nat -> sem_step t c = Some c' -> reachable c'.

(** Who has the spinlock. *)
Definition spin_ok (f : bool) (p : nat -> pc) : Prop :=
  (forall t u, spinning (p t) = true -> spinning (p u) = true -> t = u)
  /\ (forall t, spinning (p t) = true -> f = true)
  /\ (f = true -> exists t, (t < threads)%nat /\ spinning (p t) = true).

(** The wait queue holds exactly the sleeping threads. *)
Definition sleep_ok (q : list nat) (p : nat -> pc) : Prop :=
  (forall t, t ∈ q <-> p t = Dn_blocked) /\ NoDup q /\ (forall t, p t = Up_wake -> q <> []).

(** [value] counts; at most [n] threads are let in. *)
Definition count_ok (v : Z) (p : nat -> pc) : Prop :=
  v = n - cnt (fun t => counted (p t)) threads /\ cnt (fun t => inside (p t)) threads <= n.

Record inv (c : config) : Prop := mk_inv {
  in_spin : spin_ok (flag c) (at_ c);
  in_sleep : sleep_ok (queue c) (at_ c);
  in_count : count_ok (value c) (at_ c);
  in_dom : forall t, at_ c t <> Idle -> (t < threads)%nat
}.

Lemma sem_inv_init : inv (init n).
Proof.
  constructor; [..|done].
  - by split_and!.
  - split_and!; [|constructor|done]. intros t. split; [by intros ?%elem_of_nil|done].
  - split; [rewrite Barrier.cnt_none; [cbn; lia|done]|by rewrite Barrier.cnt_none].
Qed.

Ltac by_thread := Barrier.by_thread.

Lemma spin_move f t b p :
  spin_ok f p -> (t < threads)%nat -> (spinning b = true -> spinning (p t) = true \/ f = false) ->
  spin_ok (if spinning (p t) then spinning b else f || spinning b) (upd t b p).
Proof.
  intros (S1 & S2 & S3) Ht Hb. split_and!.
  - intros u w. by_thread; intros Hu Hw; try done; [| |by apply S1].
    + destruct (Hb Hu) as [Hp| ->]; [by rewrite (S1 w t Hw Hp) in *|]. by specialize (S2 _ Hw).
    + destruct (Hb Hw) as [Hp| ->]; [by rewrite (S1 u t Hu Hp) in *|]. by specialize (S2 _ Hu).
  - intros u. by_thread; intros Hu; [rewrite Hu; destruct (spinning (p t)); [done|by rewrite orb_true_r]|].
    rewrite (S2 _ Hu). destruct (spinning (p t)) eqn:E; [|done]. by rewrite (S1 u t Hu E) in *.
  - destruct (spinning b) eqn:Eb; [intros _; exists t; by rewrite Barrier.fupd_eq|].
    destruct (spinning (p t)) eqn:E; [done|]. rewrite orb_false_r. intros Hf. destruct (S3 Hf) as (u & Hu & Hs).
    exists u. split; [done|]. rewrite Barrier.fupd_ne; [done|]. intros ->. congruence.
Qed.

Lemma sleep_move q t b p :
  sleep_ok q p -> p t <> Dn_blocked -> b <> Dn_blocked -> (b = Up_wake -> q <> []) -> sleep_ok q (upd t b p).
Proof.
  intros (Q1 & Q2 & Q3) Ha Hb Hw. split_and!; [|done|].
  - intros u. by_thread; [|done]. rewrite Q1. naive_solver.
  - intros u. by_thread; [done|]. apply Q3.
Qed.

Lemma sleep_block q t p : sleep_ok q p -> p t = Dn_block -> sleep_ok (q ++ [t]) (upd t Dn_blocked p).
Proof.
  intros (Q1 & Q2 & Q3) Ha. split_and!.
  - intros u. rewrite elem_of_app, list_elem_of_singleton. by_thread; [naive_solver|]. rewrite Q1. naive_solver.
  - apply list.NoDup_app. split_and!; [done| |apply NoDup_singleton].
    intros u Hu Hin. apply list_elem_of_singleton in Hin as ->. apply Q1 in Hu. congruence.
  - intros u _. by destruct q.
Qed.

Lemma sleep_wake u q p t :
  sleep_ok (u :: q) p -> p t = Up_wake -> (forall w, p w = Up_wake -> w = t) ->
  sleep_ok q (upd t Up_leave (upd u Dn_spin2 p)).
Proof.
  intros (Q1 & Q2 & Q3) Ht Huniq. apply list.NoDup_cons in Q2 as [Q2 Q2'].
  assert (Hu : p u = Dn_blocked) by (apply Q1; left).
  split_and!; [|done|].
  - intros w. by_thread.
    + split; [|done]. intros Hin. assert (p t = Dn_blocked) by (apply Q1; by right). congruence.
    + naive_solver.
    + rewrite <- Q1. rewrite elem_of_cons. naive_solver.
  - intros w. by_thread; try done. intros Hw. by apply Huniq in Hw.
Qed.

Lemma count_move v v' t b p :
  count_ok v p -> (t < threads)%nat -> v' = v + bz (counted (p t)) - bz (counted b) ->
  (inside b = true -> inside (p t) = true \/ cnt (fun u => inside (p u)) threads < n) -> count_ok v' (upd t b p).
Proof.
  intros [Hv Hi] Ht -> Hb. split; rewrite cnt_upd by done; [lia|].
  destruct (inside b) eqn:Eb; [|destruct (inside (p t)); cbn; lia].
  destruct Hb as [->|Hlt]; [done|cbn; lia|]. destruct (inside (p t)); cbn; lia.
Qed.

(** A step that moves one thread. *)
Lemma sem_move_inv t c b f' v' q' :
  (t < threads)%nat -> inv c ->
  f' = (if spinning (at_ c t) then spinning b else flag c || spinning b) ->
  (spinning b = true -> spinning (at_ c t) = true \/ flag c = false) ->
  v' = value c + bz (counted (at_ c t)) - bz (counted b) ->
  (inside b = true -> inside (at_ c t) = true \/ cnt (fun u => inside (at_ c u)) threads < n) ->
  sleep_ok q' (upd t b (at_ c)) -> inv (mk_config f' v' q' (upd t b (at_ c))).
Proof.
  intros Ht [S Q C D] -> Hs Hv Hi Hq. constructor; cbn; [by apply spin_move|done|by eapply count_move|].
  intros u. by_thread; [done|apply D].
Qed.

(** While a thread that is not about to let one in has the spinlock, the threads
    that are let in are among those that [value] counts. *)
Lemma inside_counted t c : inv c -> spinning (at_ c t) = true -> inside (at_ c t) = false ->
  cnt (fun u => inside (at_ c u)) threads <= cnt (fun u => counted (at_ c u)) threads.
Proof.
  intros [(S1 & _) _ _ _] Hs Hi. apply cnt_le. intros u Hu Hin. unfold inside, counted in *.
  destruct (owning (at_ c u)) eqn:Eo; [done|]. destruct (at_ c u) eqn:Eu; try done;
    (rewrite (S1 t u) in Hi; [by rewrite Eu in Hi|done|by rewrite Eu]).
Qed.

Lemma wake_inv t c u q : (t < threads)%nat -> inv c -> at_ c t = Up_wake -> queue c = u :: q ->
  inv (set_queue q (move t Up_leave (move u Dn_spin2 c))).
Proof.
  intros Ht [S Q C D] Et Eq. assert (Hu : at_ c u = Dn_blocked) by (apply (proj1 Q); rewrite Eq; left).
  assert (Hut : u <> t) by congruence. assert (Hlt : (u < threads)%nat) by (apply D; by rewrite Hu).
  pose proof S as (S1 & S2 & _). assert (Hf : flag c = true) by (apply (S2 t); by rewrite Et).
  constructor; cbn.
  - pose proof (spin_move (flag c) u Dn_spin2 (at_ c) S Hlt ltac:(done)) as M. rewrite Hu, Hf in M. cbn in M.
    pose proof (spin_move true t Up_leave _ M Ht) as M2. rewrite Barrier.fupd_ne, Et in M2 by congruence.
    rewrite Hf. apply M2. by left.
  - apply sleep_wake; [by rewrite <- Eq|done|]. intros w Hw. apply S1; by rewrite ?Hw, ?Et.
  - destruct C as [Hv Hi]. split; rewrite !cnt_upd by done; rewrite Barrier.fupd_ne, Et, Hu by congruence; cbn; lia.
  - intros w. by_thread; [done|done|apply D].
Qed.

Lemma sem_inv_step t c c' : (t < threads)%nat -> inv c -> sem_step t c = Some c' -> inv c'.
Proof.
  intros Ht I. pose proof I as [S Q [Hv Hi] D]. unfold sem_step.
  pose proof (inside_counted t c I) as HC. pose proof (Barrier.cnt_bounds (fun t => counted (at_ c t)) threads) as B.
  destruct (at_ c t) eqn:Et; intros E.
  all: try (rewrite !s32_small in E by lia).
  all: try match type of E with context [if ?x then None else _] => destruct x eqn:Ef; [discriminate E|] end.
  all: try match type of E with context [if ?x then _ else _] => destruct x eqn:Ec end.
  all: try match type of E with context [match queue ?x with _ => _ end] => destruct (queue x) eqn:Eq end.
  all: simplify_eq; try (by eapply wake_inv).
  all: apply sem_move_inv; rewrite ?Et; cbn [spinning counted inside owning bz orb move set_queue set_value set_flag flag value queue at_];
    auto; try lia.
  all: try (by rewrite ?orb_false_r, ?orb_true_r).
  all: try (by apply sleep_block).
  all: try (apply sleep_move; [done|congruence|done|done]).
  all: try (apply (proj1 (proj2 S) t); by rewrite Et).
  - intros _. right. specialize (HC eq_refl eq_refl). apply Z.ltb_ge in Ec. lia.
  - apply sleep_move; [done|congruence|done|]. intros _. apply andb_true_iff in Ec as [_ Ec].
    by apply negb_true_iff, bool_decide_eq_false in Ec.
Qed.

Lemma sem_reachable_inv c : reachable c -> inv c.
Proof. induction 1; [apply sem_inv_init|by eapply sem_inv_step]. Qed.

(** [C24] A semaphore that starts at [n] lets at most [n] threads in: whatever the
    interleaving, at most [n] threads are between their [semaphore_down] and their
    [semaphore_up], and [value] is [n] less the threads that have counted it down
    and not yet up again.  *)
Theorem semaphore_bounds_threads c (Hreach : reachable c) :
  cnt (fun t => bool_decide (at_ c t = Held)) threads <= n
  /\ value c = n - cnt (fun t => counted (at_ c t)) threads.
Proof.
  destruct (sem_reachable_inv c Hreach) as [_ _ [Hv Hi] _]. split; [|done]. etrans; [|exact Hi].
  apply cnt_le. intros t _ E. apply bool_decide_eq_true in E as ->. done.
Qed.

(** The run of a schedule. *)
Fixpoint run (ts : list nat) (c : config) : option config :=
  match ts with
  | [] => Some c
  | t :: ts' => match sem_step t c with Some c' => run ts' c' | None => None end
  end.

Lemma sem_run_reachable ts : forall c c', Forall (fun t => t < threads)%nat ts -> reachable c -> run ts c = Some c' -> reachable c'.
Proof.
  induction ts as [|t ts IH]; cbn; intros c c' Hts Hc H; [by simplify_eq|]. inversion_clear Hts.
  destruct (sem_step t c) as [c1|] eqn:E; [|done]. eapply IH; [done| |done]. by econstructor.
Qed.

End Invariant.

End Sem.

Module Philosophers.

Inductive phl_state : Type := PHL_THINKING | PHL_HUNGRY | PHL_EATING | PHL_FULL.

#[global] Instance phl_state_eq_dec : EqDecision phl_state.
Proof. solve_decision. Defined.

Record philosopher : Type := mk_phl {
  forka : nat;
  forkb : nat;
  has_forka : bool;
  has_forkb : bool;
  state : phl_state;
  meals : Z
}.

Definition set_has_forka (b : bool) (p : philosopher) : philosopher :=
  mk_phl (forka p) (forkb p) b (has_forkb p) (state p) (meals p).
Definition set_has_forkb (b : bool) (p : philosopher) : philosopher :=
  mk_phl (forka p) (forkb p) (has_forka p) b (state p) (meals p).
Definition set_state (v : phl_state) (p : philosopher) : philosopher :=
  mk_phl (forka p) (forkb p) (has_forka p) (has_forkb p) v (meals p).
Definition set_meals (v : Z) (p : philosopher) : philosopher :=
  mk_phl (forka p) (forkb p) (has_forka p) (has_forkb p) (state p) v.

Definition PHL_CT : nat := 3.

(** The table of the program; members that it does not name are zero. *)
Definition philosophers (phli : nat) : philosopher :=
  match phli with
  | O => mk_phl 0 1 false false PHL_THINKING 0
  | 1%nat => mk_phl 2 1 false false PHL_THINKING 0
  | _ => mk_phl 0 2 false false PHL_THINKING 0
  end.

(** The statement that a thread executes next.  [Init k] is the loop of
    [do_init] before fork [k], and for [k = PHL_CT] the assignment to
    [init_complete]; [Crashed] is a failed assertion. *)
Inductive pc : Type :=
| Init (k : nat) | Wait_init | Enter | Think | Hungry | Down_a | Down_b | Eat | Check_right | Check_left | Full
| Up_a | Up_b | Crashed.

Record config : Type := mk_config {
  init_complete : bool;
  forks : nat -> Sem.config;
  phl : nat -> philosopher;
  at_ : nat -> pc
}.

Definition goto (t : nat) (p : pc) (c : config) : config := mk_config (init_complete c) (forks c) (phl c) (upd t p (at_ c)).
Definition set_init_complete (b : bool) (c : config) : config := mk_config b (forks c) (phl c) (at_ c).
Definition set_fork (f : nat) (s : Sem.config) (c : config) : config := mk_config (init_complete c) (upd f s (forks c)) (phl c) (at_ c).
Definition set_phl (t : nat) (g : philosopher -> philosopher) (c : config) : config :=
  mk_config (init_complete c) (forks c) (upd t (g (phl c t)) (phl c)) (at_ c).

(** One step inside a call of [semaphore_down] or [semaphore_up] on fork [f]; at
    [last], where the call returns, thread [t] goes on with [k]. *)
Definition in_call (t f : nat) (last : Sem.pc) (k : config -> config) (c : config) : option config :=
  match Sem.sem_step t (forks c f) with
  | None => None
  | Some s =>
      let c' := set_fork f s c in
      Some (if decide (Sem.at_ s t = last) then k c' else c')
  end.

(** [philosophize(t)] *)
Definition philosophize (t : nat) (c : config) : option config :=
  let self := phl c t in
  let previ := ((t + PHL_CT - 1) mod PHL_CT)%nat in
  let nexti := ((t + 1) mod PHL_CT)%nat in
  match at_ c t with
  | Init k =>
      if (k <? PHL_CT)%nat then Some (goto t (Init (S k)) (set_fork k (Sem.init 1) c))
      else Some (goto t Enter (set_init_complete true c))
  | Wait_init => if init_complete c then Some (goto t Enter c) else None
  | Enter => Some (goto t Think (set_phl t (fun p => set_has_forkb false (set_has_forka false p)) c))
  | Think => Some (goto t Hungry (set_phl t (set_state PHL_THINKING) c))
  | Hungry => Some (goto t Down_a (set_phl t (set_state PHL_HUNGRY) c))
  | Down_a => in_call t (forka self) Sem.Held (fun c => goto t Down_b (set_phl t (set_has_forka true) c)) c
  | Down_b => in_call t (forkb self) Sem.Held (fun c => goto t Eat (set_phl t (set_has_forkb true) c)) c
  | Eat => Some (goto t Check_right (set_phl t (fun p => set_meals (s32 (meals p + 1)) (set_state PHL_EATING p)) c))
  | Check_right => Some (goto t (if decide (state (phl c previ) = PHL_EATING) then Crashed else Check_left) c)
  | Check_left => Some (goto t (if decide (state (phl c nexti) = PHL_EATING) then Crashed else Full) c)
  | Full => Some (goto t Up_a (set_phl t (set_state PHL_FULL) c))
  | Up_a => in_call t (forka self) Sem.Idle (fun c => goto t Up_b (set_phl t (set_has_forka false) c)) c
  | Up_b => in_call t (forkb self) Sem.Idle (fun c => goto t Think (set_phl t (set_has_forkb false) c)) c
  | Crashed => None
  end.

(** Static storage: the semaphores are zero until [do_init] has run. *)
Definition start : config :=
  mk_config false (fun _ => Sem.init 0) philosophers (fun t => match t with O => Init 0 | _ => Wait_init end).

Inductive reachable : config -> Prop :=
| reach_start : reachable start
| reach_step t c c' : reachable c -> (t < PHL_CT)%nat -> philosophize t c = Some c' -> reachable c'.

Fixpoint run (ts : list nat) (c : config) : option config :=
  match ts with
  | [] => Some c
  | t :: ts' => match philosophize t c with Some c' => run ts' c' | None => None end
  end.

Lemma phl_run_reachable ts : forall c c', Forall (fun t => t < PHL_CT)%nat ts -> reachable c -> run ts c = Some c' -> reachable c'.
Proof.
  induction ts as [|t ts IH]; cbn; intros c c' Hts Hc H; [by simplify_eq|]. inversion_clear Hts.
  destruct (philosophize t c) as [c1|] eqn:E; [|done]. eapply IH; [done| |done]. by econstructor.
Qed.

(** ** The invariant *)

Definition downing (p : Sem.pc) : bool :=
  match p with
  | Sem.Idle | Sem.Dn_spin | Sem.Dn_dec | Sem.Dn_unspin | Sem.Dn_block | Sem.Dn_blocked | Sem.Dn_spin2 | Sem.Dn_leave => true
  | _ => false
  end.
Definition upping (p : Sem.pc) : bool := negb (downing p).

(** Where a thread is in its calls on the forks, [s], fits its place. *)
Definition place (p : philosopher) (a : pc) (s : nat -> Sem.pc) : Prop :=
  (forall f, f <> forka p -> f <> forkb p -> s f = Sem.Idle) /\
  match a with
  | Init _ | Wait_init | Enter | Think | Hungry => s (forka p) = Sem.Idle /\ s (forkb p) = Sem.Idle
  | Down_a => downing (s (forka p)) = true /\ s (forkb p) = Sem.Idle
  | Down_b => s (forka p) = Sem.Held /\ downing (s (forkb p)) = true
  | Eat | Check_right | Check_left | Full => s (forka p) = Sem.Held /\ s (forkb p) = Sem.Held
  | Up_a => upping (s (forka p)) = true /\ s (forkb p) = Sem.Held
  | Up_b => s (forka p) = Sem.Idle /\ upping (s (forkb p)) = true
  | Crashed => False
  end.

Definition eating (a : pc) : bool := match a with Check_right | Check_left | Full => true | _ => false end.
Definition starting (a : pc) : bool := match a with Init _ | Wait_init => true | _ => false end.

Record inv (c : config) : Prop := mk_inv {
  in_forks : forall f, exists n, 0 <= n <= 1 /\ Sem.inv PHL_CT n (forks c f);
  in_place : forall t, (t < PHL_CT)%nat -> place (phl c t) (at_ c t) (fun f => Sem.at_ (forks c f) t);
  in_table : forall t, forka (phl c t) = forka (philosophers t) /\ forkb (phl c t) = forkb (philosophers t);
  in_eating : forall t, (t < PHL_CT)%nat -> state (phl c t) = PHL_EATING -> eating (at_ c t) = true;
  in_start : init_complete c = false -> forall t, starting (at_ c t) = true;
  in_ready : init_complete c = true -> forall t k, at_ c t <> Init k;
  in_zero : forall t k, (0 < t)%nat -> at_ c t <> Init k;
  in_first : at_ c 0%nat <> Wait_init
}.

Lemma forks_differ t : forka (philosophers t) <> forkb (philosophers t).
Proof. by destruct t as [|[|t]]. Qed.

Lemma phl_inv_start : inv start.
Proof.
  constructor; cbn; try done.
  - intros f. exists 0. split; [lia|]. by apply Sem.sem_inv_init.
  - intros t _. split; [done|]. by destruct t as [|t].
  - intros t _. by destruct t as [|[|t]].
  - intros _ t. by destruct t.
  - intros t k Ht. destruct t; [lia|done].
Qed.

(** What a step on a semaphore does to the threads: another thread is at most
    woken, the thread itself goes forward. *)
Lemma sem_step_other n t u s s' : Sem.inv PHL_CT n s -> Sem.sem_step t s = Some s' -> u <> t ->
  Sem.at_ s' u = Sem.at_ s u \/ Sem.at_ s u = Sem.Dn_blocked /\ Sem.at_ s' u = Sem.Dn_spin2.
Proof.
  intros [_ (Q & _) _ _] E Hu. unfold Sem.sem_step in E.
  destruct (Sem.at_ s t); repeat case_match; simplify_eq; cbn; rewrite !Barrier.fupd_ne by done; auto.
  match goal with H : Sem.queue s = ?v :: _ |- _ => destruct (decide (u = v)) as [->|];
    [right; rewrite Barrier.fupd_eq; split; [apply Q; left|done]|left; by rewrite Barrier.fupd_ne] end.
Qed.

Lemma sem_step_down t s s' : Sem.sem_step t s = Some s' -> downing (Sem.at_ s t) = true ->
  downing (Sem.at_ s' t) = true \/ Sem.at_ s' t = Sem.Held.
Proof.
  intros E. unfold Sem.sem_step in E.
  destruct (Sem.at_ s t); repeat case_match; simplify_eq; cbn; rewrite ?Barrier.fupd_eq; auto; case_match; auto.
Qed.

Lemma sem_step_up t s s' : Sem.sem_step t s = Some s' -> upping (Sem.at_ s t) = true ->
  upping (Sem.at_ s' t) = true \/ Sem.at_ s' t = Sem.Idle.
Proof.
  intros E. unfold Sem.sem_step in E.
  destruct (Sem.at_ s t); repeat case_match; simplify_eq; cbn; rewrite ?Barrier.fupd_eq; auto; case_match; auto.
Qed.

Lemma place_woken p a s s' :
  place p a s -> (forall f, s' f = s f \/ s f = Sem.Dn_blocked /\ s' f = Sem.Dn_spin2) -> place p a s'.
Proof.
  intros [P1 P2] H. split.
  - intros f A B. destruct (H f) as [->|[E _]]; [auto|]. by rewrite P1 in E.
  - destruct (H (forka p)) as [Ea|[Ea Ea']], (H (forkb p)) as [Eb|[Eb Eb']].
    all: destruct a; rewrite ?Ea, ?Eb, ?Ea', ?Eb' in *; tauto || (destruct P2; done) || auto.
Qed.

(** A step of a thread that is not initialising: it may change its own record and
    its place, and take a step on one of its forks. *)
Lemma phl_move_inv t c fs ph pcs :
  (t < PHL_CT)%nat -> inv c -> init_complete c = true ->
  (forall u, u <> t -> ph u = phl c u) -> forka (ph t) = forka (phl c t) -> forkb (ph t) = forkb (phl c t) ->
  (forall f, exists n, 0 <= n <= 1 /\ Sem.inv PHL_CT n (fs f)) ->
  (forall u f, u <> t -> Sem.at_ (fs f) u = Sem.at_ (forks c f) u
      \/ Sem.at_ (forks c f) u = Sem.Dn_blocked /\ Sem.at_ (fs f) u = Sem.Dn_spin2) ->
  (forall u, u <> t -> pcs u = at_ c u) -> place (phl c t) (pcs t) (fun f => Sem.at_ (fs f) t) ->
  (state (ph t) = PHL_EATING -> eating (pcs t) = true) -> (forall k, pcs t <> Init k) ->
  (pcs t = Wait_init -> at_ c t = Wait_init) -> inv (mk_config (init_complete c) fs ph pcs).
Proof.
  intros Ht [F P T E S R Z W] Hc Hph Ga Gb Hf Ho Ha Hp He Hb Hw. constructor; cbn; try done.
  - intros u Hu. destruct (decide (u = t)) as [->|].
    + destruct Hp as [H1 H2]. split; rewrite Ga, Gb; [exact H1|]. clear -H2 Ga Gb. destruct (pcs t); exact H2.
    + rewrite Hph, Ha by done. eapply place_woken; [by apply P|]. intros f. by apply Ho.
  - intros u. destruct (decide (u = t)) as [->|]; [rewrite Ga, Gb; apply T|rewrite Hph by done; apply T].
  - intros u Hu. destruct (decide (u = t)) as [->|]; [done|]. rewrite Hph, Ha by done. by apply E.
  - by rewrite Hc.
  - intros _ u k. destruct (decide (u = t)) as [->|]; [apply Hb|rewrite Ha by done; by apply R].
  - intros u k Hu. destruct (decide (u = t)) as [->|]; [apply Hb|rewrite Ha by done; by apply Z].
  - destruct (decide (0%nat = t)) as [<-|]; [intros E0; by apply W, Hw|by rewrite Ha].
Qed.

(** A step that touches no fork. *)
Lemma phl_local_inv t b c ph :
  (t < PHL_CT)%nat -> inv c -> init_complete c = true ->
  (forall u, u <> t -> ph u = phl c u) -> forka (ph t) = forka (phl c t) -> forkb (ph t) = forkb (phl c t) ->
  (forall s, place (phl c t) (at_ c t) s -> place (phl c t) b s) ->
  (state (ph t) = PHL_EATING -> eating b = true) -> (forall k, b <> Init k) -> b <> Wait_init ->
  inv (mk_config (init_complete c) (forks c) ph (upd t b (at_ c))).
Proof.
  intros Ht I Hc Hph Ga Gb Hp He Hb Hw. apply (phl_move_inv t); rewrite ?Barrier.fupd_eq; auto; [apply (in_forks _ I)| | |done].
  - intros u Hu. by rewrite Barrier.fupd_ne.
  - apply Hp, (in_place _ I), Ht.
Qed.

(** A step inside a call. *)
Lemma call_inv t f s c ph pcs :
  (t < PHL_CT)%nat -> inv c -> init_complete c = true -> Sem.sem_step t (forks c f) = Some s ->
  (forall u, u <> t -> ph u = phl c u) -> forka (ph t) = forka (phl c t) -> forkb (ph t) = forkb (phl c t) ->
  state (ph t) = state (phl c t) -> eating (at_ c t) = false -> (forall u, u <> t -> pcs u = at_ c u) ->
  place (phl c t) (pcs t) (upd f (Sem.at_ s t) (fun f => Sem.at_ (forks c f) t)) -> (forall k, pcs t <> Init k) ->
  (pcs t = Wait_init -> at_ c t = Wait_init) ->
  inv (mk_config (init_complete c) (upd f s (forks c)) ph pcs).
Proof.
  intros Ht I Hc Es Hph Ga Gb Gs Hne Ha Hp Hb Hw. destruct (in_forks _ I f) as (n & Hn & Hi). apply (phl_move_inv t); auto.
  - intros f'. Barrier.by_thread; [|apply (in_forks _ I)]. exists n. split; [done|].
    eapply Sem.sem_inv_step; [lia|unfold PHL_CT; lia|exact Ht|exact Hi|exact Es].
  - intros u f' Hu. Barrier.by_thread; [by eapply sem_step_other|by left].
  - destruct Hp as [H1 H2]. assert (Eq : forall x, Sem.at_ (upd f s (forks c) x) t = upd f (Sem.at_ s t) (fun f => Sem.at_ (forks c f) t) x).
    { intros x. by Barrier.by_thread. }
    split; [intros x A B; rewrite Eq; by apply H1|]. by rewrite !Eq.
  - rewrite Gs. intros He. apply (in_eating _ I) in He; [congruence|done].
Qed.

(** The four calls: [b] is the place of the call, on fork [f], and [b'] the place
    behind it. *)
Lemma in_call_inv t f last b' g c c' :
  (t < PHL_CT)%nat -> inv c -> init_complete c = true ->
  in_call t f last (fun c => goto t b' (set_phl t g c)) c = Some c' ->
  (forall p, forka (g p) = forka p /\ forkb (g p) = forkb p /\ state (g p) = state p) ->
  eating (at_ c t) = false -> (forall k, at_ c t <> Init k) -> (forall k, b' <> Init k) -> b' <> Wait_init ->
  (forall s, Sem.sem_step t (forks c f) = Some s ->
     place (phl c t) (if decide (Sem.at_ s t = last) then b' else at_ c t)
       (upd f (Sem.at_ s t) (fun f => Sem.at_ (forks c f) t))) -> inv c'.
Proof.
  intros Ht I Hc E Hg He Hk Hb Hw Hp. unfold in_call in E. destruct (Sem.sem_step t (forks c f)) as [s|] eqn:Es; [|done].
  specialize (Hp s eq_refl). destruct (decide _) as [Hl|Hl]; simplify_eq; unfold goto, set_phl, set_fork; cbn.
  - destruct (Hg (phl c t)) as (Ga & Gb & Gs). apply (call_inv t f s c); try done; rewrite ?Barrier.fupd_eq; try done.
    + intros u Hu. by rewrite Barrier.fupd_ne.
    + intros u Hu. by rewrite Barrier.fupd_ne.
  - by apply (call_inv t f s c).
Qed.

Lemma phl_init_inv k c : inv c -> at_ c 0%nat = Init k -> forall c', philosophize 0 c = Some c' -> inv c'.
Proof.
  intros I Ea c' E. pose proof I as [F P T E' S R Z W]. unfold philosophize in E. rewrite Ea in E.
  assert (Hc : init_complete c = false) by (destruct (init_complete c) eqn:Hc; [by destruct (R eq_refl 0%nat k)|done]).
  specialize (S Hc).
  assert (Hidle : forall t f, (t < PHL_CT)%nat -> Sem.at_ (forks c f) t = Sem.Idle).
  { intros t f Ht. destruct (P t Ht) as [P1 P2]. specialize (S t).
    destruct (decide (f = forka (phl c t))) as [->|]; [destruct (at_ c t); try done; apply P2|].
    destruct (decide (f = forkb (phl c t))) as [->|]; [destruct (at_ c t); try done; apply P2|]. auto. }
  destruct (Nat.ltb_spec k PHL_CT); simplify_eq; constructor; cbn; try done.
  - intros f. Barrier.by_thread; [|apply F]. exists 1. split; [lia|]. by apply Sem.sem_inv_init.
  - intros t Ht. assert (Hs : starting (upd 0%nat (Init (Datatypes.S k)) (at_ c) t) = true) by (Barrier.by_thread; auto).
    assert (Hi : forall f, Sem.at_ (upd k (Sem.init 1) (forks c) f) t = Sem.Idle) by (intros f; Barrier.by_thread; auto).
    split; [auto|]. destruct (upd _ _ _ t); done || auto.
  - intros t Ht He. apply E' in He; [|done]. specialize (S t). by destruct (at_ c t).
  - intros _ t. Barrier.by_thread; auto.
  - by rewrite Hc.
  - intros t j Ht. Barrier.by_thread; [lia|by apply Z].
  - intros t Ht. split; [auto|]. specialize (S t). Barrier.by_thread; [auto|]. destruct (at_ c t); done || auto.
  - intros t Ht He. apply E' in He; [|done]. specialize (S t). by destruct (at_ c t).
  - intros _ t j. Barrier.by_thread; [done|]. intros Ej. by destruct (Z t j); [lia|].
  - intros t j Ht. Barrier.by_thread; [lia|by apply Z].
Qed.

(** Any two philosophers share a fork. *)
Lemma share_fork t u : (t < PHL_CT)%nat -> (u < PHL_CT)%nat -> t <> u -> exists f,
  (f = forka (philosophers t) \/ f = forkb (philosophers t)) /\ (f = forka (philosophers u) \/ f = forkb (philosophers u)).
Proof.
  unfold PHL_CT. intros Ht Hu Hne. destruct t as [|[|[|]]], u as [|[|[|]]]; try lia; cbn; eauto.
Qed.

Lemma eat_alone t u c : inv c -> (t < PHL_CT)%nat -> (u < PHL_CT)%nat ->
  eating (at_ c t) = true -> eating (at_ c u) = true -> t = u.
Proof.
  intros [F P T _ _ _ _ _] Ht Hu Et Eu. destruct (decide (t = u)) as [|Hne]; [done|]. exfalso.
  destruct (share_fork t u Ht Hu Hne) as (f & Hft & Hfu). destruct (F f) as (n & Hn & [_ _ [_ Hi] _]).
  assert (held : forall v, (v < PHL_CT)%nat -> eating (at_ c v) = true ->
    f = forka (philosophers v) \/ f = forkb (philosophers v) -> Sem.inside (Sem.at_ (forks c f) v) = true).
  { intros v Hv Ev Hf. destruct (P v Hv) as [_ H2]. destruct (T v) as [Ta Tb]. rewrite <- Ta, <- Tb in Hf.
    destruct (at_ c v); try done; destruct H2 as [Ha Hb], Hf as [->| ->]; by rewrite ?Ha, ?Hb. }
  pose proof (cnt_two (fun v => Sem.inside (Sem.at_ (forks c f) v)) PHL_CT t u Ht Hu Hne (held t Ht Et Hft) (held u Hu Eu Hfu)). lia.
Qed.

Lemma neighbours_wait t u c : inv c -> (t < PHL_CT)%nat -> eating (at_ c t) = true ->
  u = ((t + PHL_CT - 1) mod PHL_CT)%nat \/ u = ((t + 1) mod PHL_CT)%nat -> state (phl c u) <> PHL_EATING.
Proof.
  intros I Ht He Hu Hs. assert (Hlt : (u < PHL_CT)%nat) by (destruct Hu as [-> | ->]; by apply Nat.mod_upper_bound).
  pose proof (eat_alone t u c I Ht Hlt He (in_eating _ I u Hlt Hs)) as <-.
  unfold PHL_CT in *. destruct t as [|[|[|t]]]; cbn in Hu; lia.
Qed.

Lemma phl_inv_step t c c' : (t < PHL_CT)%nat -> inv c -> philosophize t c = Some c' -> inv c'.
Proof.
  intros Ht I E. destruct (init_complete c) eqn:Hc.
  2: { pose proof (in_start _ I Hc t) as S. destruct (at_ c t) eqn:Ea; try done.
    - destruct t as [|t]; [by eapply phl_init_inv|]. exfalso. by apply (in_zero _ I (Datatypes.S t) k); [lia|].
    - unfold philosophize in E. by rewrite Ea, Hc in E. }
  pose proof (in_ready _ I Hc t) as R. pose proof (in_place _ I t Ht) as P. unfold philosophize in E.
  destruct (at_ c t) eqn:Ea; [by destruct (R k)|..].
  all: pose proof (in_eating _ I t Ht) as He; rewrite Ea in He.
  1: rewrite Hc in E.
  all: try (simplify_eq; unfold goto, set_phl; cbn [init_complete forks phl at_]; apply phl_local_inv; cbn;
    rewrite ?Barrier.fupd_eq, ?Ea; try done; intros u Hu; by rewrite Barrier.fupd_ne).
  all: try (simplify_eq; unfold goto, set_phl; cbn [init_complete forks phl at_]; apply phl_local_inv; cbn;
    rewrite ?Barrier.fupd_eq, ?Ea; try done; [intros u Hu; by rewrite Barrier.fupd_ne|];
    intros s [H1 [H2 H3]]; split; [done|]; by rewrite ?H2, ?H3).
  all: assert (Hab : forka (phl c t) <> forkb (phl c t))
    by (destruct (in_table _ I t) as [-> ->]; apply forks_differ).
  all: destruct P as [P1 [Pa Pb]].
  all: try (eapply (in_call_inv t); rewrite ?Ea; [exact Ht|exact I|exact Hc|exact E|done..|]; intros s Es;
    split; [intros x A B; rewrite Barrier.fupd_ne by done; by apply P1|];
    first [destruct (sem_step_down _ _ _ Es ltac:(by rewrite ?Pa, ?Pb)) as [H|H]
          |destruct (sem_step_up _ _ _ Es ltac:(by rewrite ?Pa, ?Pb)) as [H|H]];
    destruct (decide _) as [D|D]; try done; try (by rewrite D in H);
    rewrite Barrier.fupd_eq, Barrier.fupd_ne by congruence; split; by rewrite ?H, ?Pa, ?Pb).
  all: simplify_eq; unfold goto; cbn [init_complete forks phl at_]; apply phl_local_inv; try done;
    destruct (decide _) as [D|D]; try done; rewrite ?Ea; try done;
    exfalso; (eapply neighbours_wait; [exact I|exact Ht|by rewrite Ea| |exact D]); auto.
Qed.

Lemma phl_reachable_inv c : reachable c -> inv c.
Proof. induction 1; [apply phl_inv_start|by eapply phl_inv_step]. Qed.

(** [C13] Whatever the interleaving, no two philosophers eat at the same time, and
    the assertions that the program makes about this never fail. *)
Theorem philosophers_eat_alone c (Hreach : reachable c) :
  (forall t u, (t < PHL_CT)%nat -> (u < PHL_CT)%nat -> state (phl c t) = PHL_EATING -> state (phl c u) = PHL_EATING -> t = u)
  /\ forall t, (t < PHL_CT)%nat -> at_ c t <> Crashed.
Proof.
  pose proof (phl_reachable_inv c Hreach) as I. split.
  - intros t u Ht Hu Et Eu. by apply (eat_alone t u c); [done..|apply (in_eating _ I)|apply (in_eating _ I)].
  - intros t Ht E. destruct (in_place _ I t Ht) as [_ H]. by rewrite E in H.
Qed.

(** Philosopher 1 eats; philosopher 0 has fork 0, counts fork 1 down and is
    interrupted between [spinlock_release] and [block]; philosopher 1 puts fork 1
    back and wakes nobody; philosopher 0 goes to sleep, and philosophers 1 and 2
    run until they sleep, too. *)
Definition deadly : list nat :=
  replicate 4 0%nat ++ replicate 12 1%nat ++ replicate 11 0%nat ++ replicate 14 1%nat
    ++ [0%nat] ++ replicate 11 1%nat ++ replicate 9 2%nat.

(** [C14] The order in which the forks are taken does not rule out a deadlock,
    because a wake-up can get lost in [semaphore_down]: there is an interleaving
    after which all three philosophers sleep, although nobody has fork 1. *)
Theorem philosophers_deadlock : exists c, reachable c /\ (forall t, (t < PHL_CT)%nat -> philosophize t c = None)
  /\ (forall t, Sem.owning (Sem.at_ (forks c 1%nat) t) = false) /\ Sem.queue (forks c 1%nat) = [0%nat; 1%nat].
Proof.
  destruct (run deadly start) as [c|] eqn:E; [|by vm_compute in E].
  exists c. split; [eapply phl_run_reachable; [|constructor|exact E]; repeat constructor|].
  vm_compute in E. injection E as <-. split_and!.
  - intros t Ht. unfold PHL_CT in Ht. destruct t as [|[|[|t]]]; [reflexivity..|lia].
  - intros t. destruct t as [|[|t]]; reflexivity.
  - reflexivity.
Qed.

(** A step on a semaphore is impossible only when the thread sleeps or another
    one has the spinlock. *)
Lemma sem_stuck n t s : Sem.inv PHL_CT n s -> Sem.sem_step t s = None -> Sem.at_ s t = Sem.Dn_blocked \/
  Sem.flag s = true /\ Sem.spinning (Sem.at_ s t) = false.
Proof.
  intros [_ (_ & _ & Q) _ _] E. unfold Sem.sem_step in E. specialize (Q t).
  destruct (Sem.at_ s t); try done; auto; repeat case_match; auto; try done. by destruct Q.
Qed.

Lemma call_stuck t f last k c : in_call t f last k c = None -> Sem.sem_step t (forks c f) = None.
Proof. unfold in_call. by destruct (Sem.sem_step _ _). Qed.

(** A thread with the spinlock of a fork can go on. *)
Lemma spinner_moves t f c : inv c -> (t < PHL_CT)%nat -> Sem.spinning (Sem.at_ (forks c f) t) = true -> philosophize t c <> None.
Proof.
  intros I Ht Hs E. destruct (in_forks _ I f) as (n & _ & Hi).
  assert (Hn : Sem.sem_step t (forks c f) <> None).
  { intros Es. destruct (sem_stuck _ _ _ Hi Es) as [Eb|[_ Eb]]; [by rewrite Eb in Hs|congruence]. }
  destruct (in_place _ I t Ht) as [P1 P2]. unfold philosophize in E.
  assert (Hf : f = forka (phl c t) \/ f = forkb (phl c t)).
  { destruct (decide (f = forka (phl c t))); [by left|]. destruct (decide (f = forkb (phl c t))); [by right|].
    by rewrite P1 in Hs. }
  destruct (at_ c t) eqn:Ea; try done; destruct P2 as [Pa Pb]; destruct Hf as [->| ->]; rewrite ?Pa, ?Pb in Hs; try done;
    by apply call_stuck in E.
Qed.

(** A philosopher who cannot go on, while no thread has the spinlock of a fork,
    sleeps on a fork. *)
Lemma stuck_sleeps t c : inv c -> (t < PHL_CT)%nat -> init_complete c = true -> (forall f, Sem.flag (forks c f) = false) ->
  philosophize t c = None ->
  at_ c t = Down_a /\ Sem.at_ (forks c (forka (phl c t))) t = Sem.Dn_blocked
  \/ at_ c t = Down_b /\ Sem.at_ (forks c (forkb (phl c t))) t = Sem.Dn_blocked.
Proof.
  intros I Ht Hc Hf E. destruct (in_place _ I t Ht) as [P1 P2]. unfold philosophize in E.
  assert (Hs : forall f, Sem.sem_step t (forks c f) = None -> Sem.at_ (forks c f) t = Sem.Dn_blocked).
  { intros f Es. destruct (in_forks _ I f) as (n & _ & Hi). destruct (sem_stuck _ _ _ Hi Es) as [|[H _]]; [done|].
    by rewrite Hf in H. }
  destruct (at_ c t); try done; try (by rewrite Hc in E); try (by destruct (k <? PHL_CT)%nat); apply call_stuck, Hs in E; auto.
  - destruct P2 as [P2 _]. unfold upping in P2. by rewrite E in P2.
  - destruct P2 as [_ P2]. unfold upping in P2. by rewrite E in P2.
Qed.

(** The owner of a fork, when it sleeps, has it as its first fork and waits for
    its second. *)
Lemma sleeping_owner u f c : inv c -> (u < PHL_CT)%nat -> Sem.owning (Sem.at_ (forks c f) u) = true ->
  at_ c u = Down_a /\ Sem.at_ (forks c (forka (phl c u))) u = Sem.Dn_blocked
  \/ at_ c u = Down_b /\ Sem.at_ (forks c (forkb (phl c u))) u = Sem.Dn_blocked ->
  at_ c u = Down_b /\ f = forka (philosophers u).
Proof.
  intros I Hu Ho Hs. destruct (in_place _ I u Hu) as [P1 P2]. destruct (in_table _ I u) as [Ta Tb].
  destruct (decide (f = forka (phl c u))) as [Ef|N1].
  - split; [|congruence]. destruct Hs as [[Ea E]|[Ea _]]; [|done]. subst f. by rewrite E in Ho.
  - exfalso. destruct (decide (f = forkb (phl c u))) as [->|N2]; [|by rewrite P1 in Ho].
    destruct Hs as [[Ea E]|[Ea E]]; rewrite Ea in P2; [destruct P2 as [_ P2]; by rewrite P2 in Ho|by rewrite E in Ho].
Qed.

Lemma all_stuck c : (exists t, (t < PHL_CT)%nat /\ philosophize t c <> None) \/ (forall t, (t < PHL_CT)%nat -> philosophize t c = None).
Proof.
  destruct (philosophize 0 c) eqn:E0; [left; exists 0%nat; split; [by unfold PHL_CT; lia|congruence]|].
  destruct (philosophize 1 c) eqn:E1; [left; exists 1%nat; split; [by unfold PHL_CT; lia|congruence]|].
  destruct (philosophize 2 c) eqn:E2; [left; exists 2%nat; split; [by unfold PHL_CT; lia|congruence]|].
  right. unfold PHL_CT. intros [|[|[|t]]] Ht; [done..|lia].
Qed.

(** Apart from lost wake-ups the order of the forks does rule out a deadlock:
    while every fork that a philosopher sleeps on belongs to somebody, one of the
    philosophers can go on. *)
Theorem philosophers_progress c (Hreach : reachable c)
  (Hlost : forall f t, (t < PHL_CT)%nat -> Sem.at_ (forks c f) t = Sem.Dn_blocked ->
     exists u, (u < PHL_CT)%nat /\ Sem.owning (Sem.at_ (forks c f) u) = true) :
  exists t, (t < PHL_CT)%nat /\ philosophize t c <> None.
Proof.
  pose proof (phl_reachable_inv c Hreach) as I. destruct (all_stuck c) as [|Hall]; [done|]. exfalso.
  assert (Hf : forall f, Sem.flag (forks c f) = false).
  { intros f. destruct (Sem.flag (forks c f)) eqn:Ef; [|done]. destruct (in_forks _ I f) as (n & _ & [(_ & _ & S) _ _ _]).
    destruct (S Ef) as (u & Hu & Hs). by destruct (spinner_moves u f c I Hu Hs); apply Hall. }
  assert (H3 : (0 < PHL_CT)%nat /\ (1 < PHL_CT)%nat) by (unfold PHL_CT; lia). destruct H3 as [L0 L1].
  destruct (init_complete c) eqn:Hc.
  2: { pose proof (in_start _ I Hc 0%nat) as S. pose proof (in_first _ I) as W. specialize (Hall 0%nat L0).
    unfold philosophize in Hall. destruct (at_ c 0%nat); try done. by destruct (k <? PHL_CT)%nat. }
  assert (Hs : forall t, (t < PHL_CT)%nat -> _) by (intros t Ht; exact (stuck_sleeps t c I Ht Hc Hf (Hall t Ht))).
  assert (Hown : forall f t, (t < PHL_CT)%nat -> Sem.at_ (forks c f) t = Sem.Dn_blocked ->
    exists u, (u < PHL_CT)%nat /\ at_ c u = Down_b /\ f = forka (philosophers u)).
  { intros f t Ht E. destruct (Hlost f t Ht E) as (u & Hu & Ho). exists u. split; [done|].
    by apply (sleeping_owner u f c I Hu Ho), Hs. }
  pose proof (in_table _ I 1%nat) as [Ta Tb]. cbn in Ta, Tb. destruct (Hs 1%nat L1) as [[E1 B1]|[E1 B1]].
  - rewrite Ta in B1. destruct (Hown _ _ L1 B1) as (u & Hu & Eu & Ef).
    unfold PHL_CT in Hu. destruct u as [|[|[|u]]]; cbn in Ef; try lia. congruence.
  - rewrite Tb in B1. destruct (Hown _ _ L1 B1) as (u & Hu & Eu & Ef).
    unfold PHL_CT in Hu. destruct u as [|[|[|u]]]; cbn in Ef; lia.
Qed.

End Philosophers.

(** ** Concrete instances *)

Module Dining_instances.

(** Thread 0 has a semaphore of one, thread 1 sleeps on it. *)
Lemma semaphore_bounds_threads_witness :
  exists c, Sem.at_ c 0%nat = Sem.Held /\ Sem.at_ c 1%nat = Sem.Dn_blocked /\ Sem.value c = -1
    /\ cnt (fun t => bool_decide (Sem.at_ c t = Sem.Held)) 2 <= 1.
Proof.
  set (ts := [0; 0; 0; 0; 1; 1; 1; 1; 1]%nat).
  destruct (Sem.run ts (Sem.init 1)) as [c|] eqn:E; [|vm_compute in E; discriminate E].
  exists c. destruct (Sem.semaphore_bounds_threads 2 1 ltac:(lia) ltac:(lia) c) as [H _].
  { refine (Sem.sem_run_reachable 2 1 ts _ _ _ (Sem.reach_init _ _) E). subst ts. repeat constructor. }
  split; [vm_compute in E; by injection E as <-|]. split; [vm_compute in E; by injection E as <-|].
  split; [vm_compute in E; by injection E as <-|exact H].
Defined.

Import Philosophers.

(** Philosopher 1 eats. *)
Lemma philosophers_eat_alone_witness :
  exists c, state (phl c 1%nat) = PHL_EATING /\ state (phl c 0%nat) <> PHL_EATING.
Proof.
  set (ts := replicate 4 0%nat ++ replicate 13 1%nat).
  destruct (run ts start) as [c|] eqn:E; [|vm_compute in E; discriminate E].
  exists c. assert (H1 : state (phl c 1%nat) = PHL_EATING) by (vm_compute in E; by injection E as <-).
  split; [exact H1|]. intros H0.
  destruct (philosophers_eat_alone c) as [H _].
  { refine (phl_run_reachable ts _ _ _ reach_start E). subst ts. repeat constructor. }
  discriminate (H 0%nat 1%nat ltac:(unfold PHL_CT; lia) ltac:(unfold PHL_CT; lia) H0 H1).
Defined.

(** Philosopher 2 sleeps on fork 0, which philosopher 0 has. *)
Lemma philosophers_progress_witness :
  exists c, Sem.at_ (forks c 0%nat) 2%nat = Sem.Dn_blocked /\ exists t, (t < PHL_CT)%nat /\ philosophize t c <> None.
Proof.
  set (ts := replicate 11 0%nat ++ replicate 9 2%nat).
  destruct (run ts start) as [c|] eqn:E; [|vm_compute in E; discriminate E].
  exists c. split; [vm_compute in E; by injection E as <-|]. apply philosophers_progress.
  - refine (phl_run_reachable ts _ _ _ reach_start E). subst ts. repeat constructor.
  - vm_compute in E. injection E as <-. intros f t Ht Hb. unfold PHL_CT in *.
    destruct f as [|[|[|f]]]; destruct t as [|[|[|t]]]; try lia; try discriminate Hb.
    exists 0%nat. split; [lia|reflexivity].
Defined.

End Dining_instances.
