(* ===== verification/TestThreads.v ===== *)
(** * The test threads of the kernel

    Module [BarrierTest]: [src/src/kernel/barrier_test.c], three threads that
    count in step, on the barrier of [Interleave].  Module [LockTest]:
    [src/src/kernel/th2.c], two threads that take turns with a counter in a
    monitor.  The threads are interleaved in any order; what they print is left
    out, but for the status that a thread of [LockTest] reports. *)

From S2P Require Import Prelude Sched Sync Interleave.

Abbreviation upd := Barrier.upd.

Module BarrierTest.

Definition BTHREAD_CT : nat := 3.
Definition ITERATIONS : Z := 20000.

(** The statement that a thread executes next; [Check bj] is the loop that
    compares the variables, [Crashed] a failed assertion. *)
Inductive pc : Type := Top | Wait1 | Check (bj : nat) | Wait2 | Final | Exited | Crashed.

Record config : Type := mk_config {
  bar : Barrier.config;
  bvar : nat -> Z;
  i : nat -> Z;
  at_ : nat -> pc
}.

Definition goto (t : nat) (p : pc) (c : config) : config := mk_config (bar c) (bvar c) (i c) (upd t p (at_ c)).

(** A step inside [barrier_wait(&barrier)]; at its return the thread goes on with
    [k]. *)
Definition in_wait (t : nat) (k : config -> config) (c : config) : option config :=
  match Barrier.barrier_step BTHREAD_CT t (bar c) with
  | None => None
  | Some b =>
      let c' := mk_config b (bvar c) (i c) (at_ c) in
      Some (if decide (Barrier.b_pc b t = Barrier.Out) then k c' else c')
  end.

Definition barrier_test (bi : nat) (c : config) : option config :=
  match at_ c bi with
  | Top =>
      if i c bi <? ITERATIONS then
        Some (goto bi Wait1 (mk_config (bar c) (upd bi (s32 (bvar c bi + 1)) (bvar c)) (i c) (at_ c)))
      else Some (goto bi Final c)
  | Wait1 => in_wait bi (goto bi (Check 0)) c
  | Check bj =>
      Some (goto bi (if (bj <? BTHREAD_CT)%nat then
                       if bvar c bi =? bvar c bj then Check (S bj) else Crashed
                     else Wait2) c)
  | Wait2 => in_wait bi (fun c => goto bi Top (mk_config (bar c) (bvar c) (upd bi (i c bi + 1) (i c)) (at_ c))) c
  | Final => Some (goto bi (if bvar c bi =? ITERATIONS then Exited else Crashed) c)
  | Exited | Crashed => None
  end.

Definition start : config := mk_config Barrier.init (fun _ => 0) (fun _ => 0) (fun _ => Top).

Inductive reachable : config -> Prop :=
| reach_start : reachable start
| reach_step t c c' : reachable c -> (t < BTHREAD_CT)%nat -> barrier_test t c = Some c' -> reachable c'.

(** How often a thread has called the barrier, and its variable, at its place. *)
Definition fits (p : pc) (i v : Z) (b : Barrier.pc) (calls : Z) : Prop :=
  0 <= i <= ITERATIONS /\
  match p with
  | Top => v = i /\ b = Barrier.Out /\ calls = 2 * i
  | Wait1 => i < ITERATIONS /\ v = i + 1 /\ (b = Barrier.Out /\ calls = 2 * i \/ b <> Barrier.Out /\ calls = 2 * i + 1)
  | Check _ => i < ITERATIONS /\ v = i + 1 /\ b = Barrier.Out /\ calls = 2 * i + 1
  | Wait2 => i < ITERATIONS /\ v = i + 1 /\ (b = Barrier.Out /\ calls = 2 * i + 1 \/ b <> Barrier.Out /\ calls = 2 * i + 2)
  | Final | Exited => v = i /\ i = ITERATIONS /\ b = Barrier.Out /\ calls = 2 * i
  | Crashed => False
  end.

Record inv (c : config) : Prop := mk_inv {
  in_bar : Barrier.reachable BTHREAD_CT (bar c);
  in_fits : forall t, (t < BTHREAD_CT)%nat ->
    fits (at_ c t) (i c t) (bvar c t) (Barrier.b_pc (bar c) t) (Z.of_nat (Barrier.b_calls (bar c) t))
}.

(** A thread whose calls and returns are on the two sides of call [2 j + 1]. *)
Lemma fits_between p k v b calls j :
  fits p k v b calls -> (if decide (b = Barrier.Out) then calls else calls - 1) <= 2 * j + 1 <= calls -> v = j + 1.
Proof. intros [_ H]. destruct p; destruct (decide (b = Barrier.Out)); try done; repeat (destruct_and? || destruct_or?); try done; lia. Qed.

(** What a step at the barrier does to the calls and returns of the threads. *)
Lemma barrier_other t u b b' : Barrier.barrier_step BTHREAD_CT t b = Some b' -> u <> t ->
  Barrier.b_calls b' u = Barrier.b_calls b u /\ (Barrier.b_pc b' u = Barrier.Out <-> Barrier.b_pc b u = Barrier.Out).
Proof.
  intros E Hu. unfold Barrier.barrier_step, Barrier.barrier_enter, Barrier.up_test, Barrier.down_test, Barrier.go in E.
  destruct (Barrier.b_pc b t); repeat case_match; simplify_eq; cbn; rewrite ?Barrier.fupd_ne by done;
    (split; [done|]); unfold Barrier.broadcast; destruct (Barrier.b_pc b u); done.
Qed.

Lemma barrier_self t b b' : Barrier.barrier_step BTHREAD_CT t b = Some b' ->
  Barrier.b_calls b' t = if decide (Barrier.b_pc b t = Barrier.Out) then S (Barrier.b_calls b t) else Barrier.b_calls b t.
Proof.
  intros E. unfold Barrier.barrier_step, Barrier.barrier_enter, Barrier.up_test, Barrier.down_test, Barrier.go in E.
  destruct (Barrier.b_pc b t); repeat case_match; simplify_eq; cbn; rewrite ?Barrier.fupd_eq; done.
Qed.

Lemma fits_out p k v b b' calls : fits p k v b calls -> (b' = Barrier.Out <-> b = Barrier.Out) -> fits p k v b' calls.
Proof. intros [H1 H] Hb. split; [done|]. destruct p; tauto. Qed.

(** A step of thread [t] that leaves the barrier alone. *)
Lemma bt_local_inv t c c' : inv c -> bar c' = bar c ->
  (forall u, u <> t -> bvar c' u = bvar c u /\ i c' u = i c u /\ at_ c' u = at_ c u) ->
  fits (at_ c' t) (i c' t) (bvar c' t) (Barrier.b_pc (bar c) t) (Z.of_nat (Barrier.b_calls (bar c) t)) -> inv c'.
Proof.
  intros [B F] Hb Ho Hf. constructor; rewrite Hb; [done|]. intros u Hu.
  destruct (decide (u = t)) as [->|Hne]; [done|]. destruct (Ho u Hne) as (-> & -> & ->). by apply F.
Qed.

(** A step of thread [t] at the barrier. *)
Lemma wait_inv t k c c' :
  inv c -> (t < BTHREAD_CT)%nat -> in_wait t k c = Some c' ->
  (forall b u, u <> t -> let c1 := mk_config b (bvar c) (i c) (at_ c) in
     bar (k c1) = b /\ bvar (k c1) u = bvar c u /\ i (k c1) u = i c u /\ at_ (k c1) u = at_ c u) ->
  (forall b, let c1 := mk_config b (bvar c) (i c) (at_ c) in
     bar (k c1) = b /\ forall calls, calls = Z.of_nat (Barrier.b_calls (bar c) t) + (if decide (Barrier.b_pc (bar c) t = Barrier.Out) then 1 else 0) ->
       fits (at_ (k c1) t) (i (k c1) t) (bvar (k c1) t) Barrier.Out calls
       /\ forall p, p <> Barrier.Out -> fits (at_ c t) (i c t) (bvar c t) p calls) -> inv c'.
Proof.
  intros [B F] Ht E Ho Hs. unfold in_wait in E. destruct (Barrier.barrier_step BTHREAD_CT t (bar c)) as [b|] eqn:Eb; [|done].
  pose proof (Barrier.reach_step _ _ _ _ B Ht Eb) as B'. pose proof (barrier_self _ _ _ Eb) as Ec. destruct (Hs b) as [Hb Hc].
  specialize (Hc (Z.of_nat (Barrier.b_calls b t)) ltac:(rewrite Ec; destruct (decide (Barrier.b_pc (bar c) t = Barrier.Out)); lia)).
  destruct (decide (Barrier.b_pc b t = Barrier.Out)) as [Eo|Eo]; simplify_eq; constructor; rewrite ?Hb; try done.
  all: intros u Hu; destruct (decide (u = t)) as [->|Hne].
  - rewrite Eo. apply Hc.
  - destruct (Ho b u Hne) as (_ & -> & -> & ->). destruct (barrier_other _ _ _ _ Eb Hne) as [-> Hp].
    by eapply fits_out; [apply F|].
  - cbn. by apply Hc.
  - cbn. destruct (barrier_other _ _ _ _ Eb Hne) as [-> Hp]. by eapply fits_out; [apply F|].
Qed.

Lemma in_step c t j : inv c -> (t < BTHREAD_CT)%nat -> (j < BTHREAD_CT)%nat ->
  (exists bj, at_ c t = Check bj) -> bvar c t = bvar c j.
Proof.
  intros [B F] Ht Hj [bj Ea]. pose proof (F t Ht) as Ft. rewrite Ea in Ft. destruct Ft as (_ & _ & Hv & Ho & Hc).
  rewrite Hv. symmetry. eapply fits_between; [by apply F|].
  destruct (Barrier.round_inv_reachable BTHREAD_CT ltac:(unfold BTHREAD_CT; lia) (bar c) ltac:(unfold BTHREAD_CT; lia) B)
    as [g _ _ _ _ Hr|g _ _ _ _ Hr].
  all: pose proof (Barrier.round_bounds BTHREAD_CT g _ _ (bar c) t Hr eq_refl Ht) as Gt.
  all: pose proof (Barrier.round_bounds BTHREAD_CT g _ _ (bar c) j Hr eq_refl Hj) as Gj.
  all: unfold Barrier.returns in *; rewrite Ho in Gt.
  all: destruct (decide _) as [E|E]; [rewrite E in Gj|]; [lia|]; destruct (Barrier.b_pc (bar c) j); done || lia.
Qed.

Lemma bt_inv_start : inv start.
Proof. constructor; [constructor|]. intros t _. by vm_compute. Qed.

Lemma bt_inv_step t c c' : (t < BTHREAD_CT)%nat -> inv c -> barrier_test t c = Some c' -> inv c'.
Proof.
  intros Ht I E. pose proof (in_fits _ I t Ht) as F. pose proof (in_step c t) as Hst. unfold barrier_test in E.
  assert (Hne : forall A (v : A) f u, u <> t -> upd t v f u = f u) by (intros; by apply Barrier.fupd_ne).
  unfold fits, ITERATIONS in F. destruct (at_ c t) eqn:Ea; simplify_eq.
  - destruct (Z.ltb_spec (i c t) ITERATIONS) as [Hi|Hi]; unfold ITERATIONS in Hi; simplify_eq;
      eapply (bt_local_inv t); try done; cbn; try (intros u Hu; by rewrite ?Hne); rewrite ?Barrier.fupd_eq.
    + rewrite s32_small by lia. unfold fits, ITERATIONS. lia || (destruct_and?; split_and!; try lia; auto).
    + unfold fits, ITERATIONS. destruct_and?; split_and!; done || lia.
  - eapply (wait_inv t); [done|done|exact E| |]; cbn.
    + intros b u Hu. by rewrite Hne.
    + intros b. split; [done|]. rewrite Barrier.fupd_eq, Ea. unfold fits, ITERATIONS. intros calls ->.
      destruct F as (? & ? & ? & [[? ?]|[? ?]]); destruct (decide _); try done; split; [split_and!; done || lia| |split_and!; done || lia|];
        intros p Hp; split_and!; try lia; right; split; done || lia.
  - destruct (Nat.ltb_spec bj BTHREAD_CT) as [Hj|Hj]; eapply (bt_local_inv t); try done; cbn;
      try (intros u Hu; by rewrite ?Hne); rewrite Barrier.fupd_eq.
    + rewrite <- (Hst bj) by eauto. rewrite Z.eqb_refl. exact F.
    + unfold fits, ITERATIONS. destruct_and?. split_and!; try lia. by left.
  - eapply (wait_inv t); [done|done|exact E| |]; cbn.
    + intros b u Hu. by rewrite !Hne.
    + intros b. split; [done|]. rewrite !Barrier.fupd_eq, Ea. unfold fits, ITERATIONS. intros calls ->.
      destruct F as (? & ? & ? & [[? ?]|[? ?]]); destruct (decide _); try done; split; [split_and!; done || lia| |split_and!; done || lia|];
        intros p Hp; split_and!; try lia; right; split; done || lia.
  - eapply (bt_local_inv t); try done; cbn; try (intros u Hu; by rewrite ?Hne). rewrite Barrier.fupd_eq.
    replace (bvar c t =? ITERATIONS) with true by (symmetry; apply Z.eqb_eq; unfold ITERATIONS; lia). exact F.
Qed.

Lemma bt_reachable_inv c : reachable c -> inv c.
Proof. induction 1; [apply bt_inv_start|by eapply bt_inv_step]. Qed.

(** The threads count in step: under any interleaving no assertion of the test
    fails, so a thread that checks the variables finds them equal and a thread
    that exits has counted to [ITERATIONS]. *)
Theorem barrier_test_in_step c (Hreach : reachable c) t (Ht : (t < BTHREAD_CT)%nat) :
  at_ c t <> Crashed /\ (at_ c t = Exited -> bvar c t = ITERATIONS)
  /\ forall u, (u < BTHREAD_CT)%nat -> (exists bj, at_ c t = Check bj) -> bvar c t = bvar c u.
Proof.
  pose proof (bt_reachable_inv c Hreach) as I. pose proof (in_fits _ I t Ht) as F. split_and!.
  - intros E. rewrite E in F. by destruct F.
  - intros E. rewrite E in F. destruct F as (_ & ? & ? & _). congruence.
  - intros u Hu Hc. by apply (in_step c t u).
Qed.

End BarrierTest.

Module LockTest.

(** [n2] and [n3], the iterations of [lock_thread0] and [lock_thread1]. *)
Definition rounds (t : nat) : Z := match t with O => 200 | _ => 100 end.
Definition ntotal : Z := 300.
Definition divby : Z := 3.

Inductive lock_thread_status : Type := RUNNING | OK | FAILED.

(** What a thread waits for before it counts; the variable is never negative. *)
Definition wanted (t : nat) (v : Z) : bool :=
  match t with O => negb (v mod divby =? 0) | _ => v mod divby =? 0 end.

(** The statement that a thread executes next.  [Gap] is inside [condition_wait],
    between [lock_release] and [block]; [Rel_poll] carries [both_exited]. *)
Inductive pc : Type :=
| Init | Wait_init | Top | Acquire | Test | Gap | Asleep | Reacquire | Assertion | Read | Write | Signal | Release
| Acq_exit | Inc_exit | Rel_exit | Acq_poll | Poll | Rel_poll (both : bool) | Acq_final | Report | Rel_final | Exited | Crashed.

#[global] Instance pc_eq_dec : EqDecision pc.
Proof. solve_decision. Defined.

Record config : Type := mk_config {
  init : bool;
  owner : option nat;   (* the thread that has the lock l *)
  shared_var : Z;
  exit_count : Z;
  i : nat -> Z;
  tmp : nat -> Z;
  status : nat -> lock_thread_status;
  at_ : nat -> pc
}.

Definition goto (t : nat) (p : pc) (c : config) : config :=
  mk_config (init c) (owner c) (shared_var c) (exit_count c) (i c) (tmp c) (status c) (upd t p (at_ c)).
Definition set_owner (o : option nat) (c : config) : config :=
  mk_config (init c) o (shared_var c) (exit_count c) (i c) (tmp c) (status c) (at_ c).

(** [lock_acquire(&l)]; the thread waits while the lock is taken. *)
Definition acquire (t : nat) (p : pc) (c : config) : option config :=
  match owner c with None => Some (goto t p (set_owner (Some t) c)) | Some _ => None end.
Definition release (t : nat) (p : pc) (c : config) : option config := Some (goto t p (set_owner None c)).

(** [condition_signal] and [condition_broadcast]: the other thread is the only one
    that can sleep on the condition, so that they do the same. *)
Definition wake (t : nat) (c : config) : config :=
  match at_ c t with Asleep => goto t Reacquire c | _ => c end.

(** [lock_thread0] for [t = 0] and [lock_thread1] for [t = 1]. *)
Definition lock_thread (t : nat) (c : config) : option config :=
  match at_ c t with
  | Init => Some (goto t Top (mk_config true None (shared_var c) (exit_count c) (i c) (tmp c) (status c) (at_ c)))
  | Wait_init => if init c then Some (goto t Top c) else None
  | Top => Some (goto t (if i c t <? rounds t then Acquire else Acq_exit) c)
  | Acquire => acquire t Test c
  | Test => if wanted t (shared_var c) then Some (goto t Assertion c) else release t Gap c
  | Gap => Some (goto t Asleep c)
  | Asleep => None
  | Reacquire => acquire t Test c
  | Assertion => Some (goto t (if wanted t (shared_var c) then Read else Crashed) c)
  | Read => Some (goto t Write (mk_config (init c) (owner c) (shared_var c) (exit_count c) (i c) (upd t (shared_var c) (tmp c)) (status c) (at_ c)))
  | Write => Some (goto t Signal (mk_config (init c) (owner c) (s32 (tmp c t + 1)) (exit_count c) (i c) (tmp c) (status c) (at_ c)))
  | Signal => Some (goto t Release (if wanted (1 - t) (shared_var c) then wake (1 - t)%nat c else c))
  | Release =>
      release t Top (mk_config (init c) (owner c) (shared_var c) (exit_count c) (upd t (i c t + 1) (i c)) (tmp c) (status c) (at_ c))
  | Acq_exit => acquire t Inc_exit c
  | Inc_exit => Some (goto t Rel_exit (mk_config (init c) (owner c) (shared_var c) (s32 (exit_count c + 1)) (i c) (tmp c) (status c) (at_ c)))
  | Rel_exit => release t Acq_poll c
  | Acq_poll => acquire t Poll c
  | Poll => Some (goto t (Rel_poll (exit_count c =? 2)) c)
  | Rel_poll both => release t (if both then Acq_final else Acq_poll) c
  | Acq_final => acquire t Report c
  | Report =>
      let s := if exit_count c =? 2 then if shared_var c =? ntotal then OK else FAILED else status c t in
      Some (goto t Rel_final (mk_config (init c) (owner c) (shared_var c) (exit_count c) (i c) (tmp c) (upd t s (status c)) (at_ c)))
  | Rel_final => release t Exited c
  | Exited | Crashed => None
  end.

Definition start : config :=
  mk_config false None 0 0 (fun _ => 0) (fun _ => 0) (fun _ => RUNNING) (fun t => match t with O => Init | _ => Wait_init end).

Inductive reachable : config -> Prop :=
| reach_start : reachable start
| reach_step t c c' : reachable c -> (t < 2)%nat -> lock_thread t c = Some c' -> reachable c'.

(** ** The invariant *)

Definition holding (p : pc) : bool :=
  match p with
  | Test | Assertion | Read | Write | Signal | Release | Inc_exit | Rel_exit | Poll | Rel_poll _ | Report | Rel_final => true
  | _ => false
  end.

(** Counted in the current iteration; counted as an exited thread. *)
Definition counted (p : pc) : Z := match p with Signal | Release => 1 | _ => 0 end.
Definition gone (p : pc) : Z :=
  match p with Rel_exit | Acq_poll | Poll | Rel_poll _ | Acq_final | Report | Rel_final | Exited => 1 | _ => 0 end.

Definition place (t : nat) (p : pc) (n tmp_ v e : Z) : Prop :=
  0 <= n <= rounds t /\
  match p with
  | Init | Wait_init | Top => True
  | Acquire | Test | Gap | Asleep | Reacquire | Signal | Release => n < rounds t
  | Assertion | Read => n < rounds t /\ wanted t v = true
  | Write => n < rounds t /\ tmp_ = v
  | Acq_exit | Inc_exit | Rel_exit | Acq_poll | Poll | Rel_poll false => n = rounds t
  | Rel_poll true | Acq_final | Report | Rel_final | Exited => n = rounds t /\ e = 2
  | Crashed => False
  end.

Record inv (c : config) : Prop := mk_inv {
  in_lock : forall t, (t < 2)%nat -> holding (at_ c t) = true <-> owner c = Some t;
  in_owner : forall t, owner c = Some t -> (t < 2)%nat;
  in_sum : shared_var c = i c 0%nat + counted (at_ c 0%nat) + (i c 1%nat + counted (at_ c 1%nat));
  in_gone : exit_count c = gone (at_ c 0%nat) + gone (at_ c 1%nat);
  in_place : forall t, (t < 2)%nat -> place t (at_ c t) (i c t) (tmp c t) (shared_var c) (exit_count c);
  in_status : forall t, (t < 2)%nat -> status c t <> FAILED;
  in_init : (init c = false -> at_ c 1%nat = Wait_init) /\ (at_ c 0%nat = Init -> init c = false) /\ at_ c 1%nat <> Init
}.

Lemma lt_inv_start : inv start.
Proof.
  constructor; cbn; try done.
  - intros [|t] _; done.
  - intros [|t] _; split; done || (cbn; lia).
Qed.

Lemma place_other t p n m v e v' e' :
  place t p n m v e -> (v' = v \/ holding p = false) -> (e' = e \/ e <> 2) -> place t p n m v' e'.
Proof. intros [H1 H] Hv He. split; [done|]. destruct p as [| | | | | | | | | | | | | | | | | |[]| | | | |]; cbn in *; try done; naive_solver. Qed.

(** A step of thread [t], which may wake the other one. *)
Lemma lt_move_inv t c c' :
  (t < 2)%nat -> inv c -> init c' = init c -> at_ c t <> Init -> at_ c' t <> Init -> init c = true \/ t = 0%nat ->
  (at_ c' (1 - t)%nat = at_ c (1 - t)%nat \/ at_ c (1 - t)%nat = Asleep /\ at_ c' (1 - t)%nat = Reacquire) ->
  i c' (1 - t)%nat = i c (1 - t)%nat -> tmp c' (1 - t)%nat = tmp c (1 - t)%nat -> status c' (1 - t)%nat = status c (1 - t)%nat ->
  owner c' = (if holding (at_ c' t) then Some t else if holding (at_ c t) then None else owner c) ->
  (holding (at_ c' t) = true -> holding (at_ c t) = true \/ owner c = None) ->
  shared_var c' + (i c t + counted (at_ c t)) = shared_var c + (i c' t + counted (at_ c' t)) ->
  (shared_var c' = shared_var c \/ holding (at_ c t) = true) ->
  exit_count c' + gone (at_ c t) = exit_count c + gone (at_ c' t) -> gone (at_ c t) <= gone (at_ c' t) ->
  place t (at_ c' t) (i c' t) (tmp c' t) (shared_var c') (exit_count c') -> status c' t <> FAILED -> inv c'.
Proof.
  intros Ht [L O S G P F N] Ei Hn1 Hn2 Hw Hu Eu1 Eu2 Eu3 Eo Ho Hs Hv Hg Hgm Hp Hf.
  assert (Hx : (1 - t < 2)%nat /\ (1 - t)%nat <> t) by lia. destruct Hx as [Hx Hxt].
  assert (Hsame : holding (at_ c' (1 - t)%nat) = holding (at_ c (1 - t)%nat) /\ counted (at_ c' (1 - t)%nat) = counted (at_ c (1 - t)%nat)
    /\ gone (at_ c' (1 - t)%nat) = gone (at_ c (1 - t)%nat)) by (destruct Hu as [->|[-> ->]]; done).
  destruct Hsame as (Hh & Hc & Hgo).
  assert (Hex : holding (at_ c t) = true -> holding (at_ c (1 - t)%nat) = false).
  { intros E. apply L in E; [|done]. destruct (holding (at_ c (1 - t)%nat)) eqn:Ex; [|done]. apply L in Ex; [|done]. congruence. }
  assert (Hcase : forall w, (w < 2)%nat -> w = t \/ w = (1 - t)%nat) by lia.
  assert (Hge : gone (at_ c (1 - t)%nat) <= 1) by (destruct (at_ c (1 - t)%nat); cbn; lia).
  assert (Hsum : exit_count c = gone (at_ c t) + gone (at_ c (1 - t)%nat)) by (destruct t as [|[|t]]; cbn in *; lia).
  assert (Hge2 : 0 <= gone (at_ c t) /\ gone (at_ c' t) <= 1) by (destruct (at_ c t), (at_ c' t); cbn; lia).
  constructor.
  - intros w Hw'. destruct (Hcase w Hw') as [->| ->].
    + rewrite Eo. specialize (L t Ht). destruct (holding (at_ c' t)), (holding (at_ c t)); try done; naive_solver.
    + rewrite Eo, Hh. specialize (L _ Hx). destruct (holding (at_ c' t)) eqn:E1.
      * destruct (Ho eq_refl) as [E2|E2]; [rewrite (Hex E2); naive_solver|]. rewrite L, E2. naive_solver.
      * destruct (holding (at_ c t)); [rewrite Hex by done; naive_solver|done].
  - intros w E. rewrite Eo in E. destruct (holding (at_ c' t)); [congruence|]. destruct (holding (at_ c t)); [done|by apply O].
  - destruct t as [|[|t]]; [| |lia]; cbn in *; rewrite ?Eu1, ?Hc in *; lia.
  - destruct t as [|[|t]]; [| |lia]; cbn in *; rewrite ?Hgo in *; lia.
  - intros w Hw'. destruct (Hcase w Hw') as [->| ->]; [done|]. specialize (P _ Hx). rewrite Eu1, Eu2.
    apply (place_other _ _ _ _ (shared_var c) (exit_count c)); [|destruct Hv as [|Hv]; [by left|right; rewrite Hh; by apply Hex]|lia].
    destruct Hu as [->|[E ->]]; [done|]. by rewrite E in P.
  - intros w Hw'. destruct (Hcase w Hw') as [->| ->]; [done|]. rewrite Eu3. by apply F.
  - rewrite Ei. destruct N as (N1 & N2 & N3). destruct t as [|[|t]]; [| |lia]; cbn in Hu.
    + split_and!; [|done|destruct Hu as [->|[_ ->]]; done]. intros E. destruct Hu as [->|[E1 _]]; [by apply N1|].
      rewrite N1 in E1; done.
    + split_and!; [|intros E; apply N2; destruct Hu as [<-|[_ E1]]; [done|congruence]|done].
      intros E. destruct Hw; [congruence|done].
Qed.

Lemma counter_bounds c : inv c -> 0 <= shared_var c <= 302 /\ 0 <= exit_count c <= 2.
Proof.
  intros I. destruct (in_place _ I 0%nat ltac:(lia)) as [P0 _]. destruct (in_place _ I 1%nat ltac:(lia)) as [P1 _].
  rewrite (in_sum _ I), (in_gone _ I). cbn in P0, P1. destruct (at_ c 0%nat), (at_ c 1%nat); cbn; lia.
Qed.

Lemma all_gone c : inv c -> exit_count c = 2 -> shared_var c = ntotal.
Proof.
  intros I E. destruct (in_place _ I 0%nat ltac:(lia)) as [P0 Q0]. destruct (in_place _ I 1%nat ltac:(lia)) as [P1 Q1].
  rewrite (in_gone _ I) in E. rewrite (in_sum _ I). unfold ntotal.
  assert (H0 : i c 0%nat = 200 /\ counted (at_ c 0%nat) = 0).
  { destruct (at_ c 0%nat) as [| | | | | | | | | | | | | | | | | |[]| | | | |], (at_ c 1%nat); cbn in *; lia. }
  assert (H1 : i c 1%nat = 100 /\ counted (at_ c 1%nat) = 0).
  { destruct (at_ c 1%nat) as [| | | | | | | | | | | | | | | | | |[]| | | | |], (at_ c 0%nat); cbn in *; lia. }
  lia.
Qed.

Lemma lt_init_inv c : inv c -> at_ c 0%nat = Init -> forall c', lock_thread 0 c = Some c' -> inv c'.
Proof.
  intros [L O S G P F (N1 & N2 & N3)] Ea c' E. unfold lock_thread in E. rewrite Ea in E. simplify_eq.
  specialize (N1 (N2 Ea)). rewrite Ea, N1 in *. pose proof (P 0%nat ltac:(lia)) as P0. pose proof (P 1%nat ltac:(lia)) as P1.
  rewrite ?Ea, ?N1 in *. constructor; cbn [goto owner at_ shared_var exit_count i tmp status init].
  - intros [|[|t]] Ht; [done| |lia]. rewrite Barrier.fupd_ne, N1 by done. done.
  - done.
  - rewrite Barrier.fupd_eq, Barrier.fupd_ne, N1 by done. exact S.
  - rewrite Barrier.fupd_eq, Barrier.fupd_ne, N1 by done. exact G.
  - intros [|[|t]] Ht; [exact P0| |lia]. rewrite Barrier.fupd_ne, N1 by done. exact P1.
  - exact F.
  - rewrite Barrier.fupd_eq, Barrier.fupd_ne, N1 by done. done.
Qed.

Lemma lt_inv_step t c c' : (t < 2)%nat -> inv c -> lock_thread t c = Some c' -> inv c'.
Proof.
  intros Ht I E. destruct (decide (at_ c t = Init)) as [Ei|Ei].
  { destruct t as [|[|t]]; [by eapply lt_init_inv| |lia]. by destruct (in_init _ I) as (_ & _ & ?). }
  assert (Hr : init c = true \/ t = 0%nat).
  { destruct (init c) eqn:E0; [by left|]. destruct t as [|[|t]]; [by right| |lia]. destruct (in_init _ I) as (N & _).
    unfold lock_thread in E. by rewrite (N E0), E0 in E. }
  pose proof (in_place _ I t Ht) as [Hi P]. pose proof (proj1 (in_lock _ I t Ht)) as L. pose proof (in_status _ I t Ht) as F.
  assert (Hne : forall A (v : A) f, upd t v f (1 - t)%nat = f (1 - t)%nat) by (intros; apply Barrier.fupd_ne; lia).
  assert (Hne' : forall A (v : A) f, upd (1 - t)%nat v f t = f t) by (intros; apply Barrier.fupd_ne; lia).
  assert (Hwk : wake (1 - t)%nat c = c \/ at_ c (1 - t)%nat = Asleep /\ wake (1 - t)%nat c = goto (1 - t)%nat Reacquire c).
  { unfold wake. destruct (at_ c (1 - t)%nat); auto. }
  pose proof (counter_bounds c I) as [B1 B2]. unfold lock_thread, acquire, release in E.
  destruct (at_ c t) eqn:Ea; try done; cbn [holding] in L; try specialize (L eq_refl).
  all: repeat match type of E with context [match ?x with _ => _ end] => destruct x eqn:? end; simplify_eq.
  all: try (destruct Hwk as [-> | [Eu ->]]).
  all: apply (lt_move_inv t c); try done; cbn [goto set_owner owner at_ shared_var exit_count i tmp status init];
    rewrite ?Barrier.fupd_eq, ?Hne, ?Hne', ?Barrier.fupd_eq, ?Ea; cbn [holding counted gone]; try done; try lia; auto.
  - apply Z.ltb_lt in Heqb. by split.
  - apply Z.ltb_ge in Heqb. split; cbn; lia.
  - split; [done|tauto].
  - split; [done|]. cbn. tauto.
  - destruct P as [_ ->]. rewrite s32_small by lia. lia.
  - split; [done|]. apply P.
  - split; cbn in *; lia || done.
  - rewrite s32_small by lia. lia.
  - split; [done|]. destruct (Z.eqb_spec (exit_count c) 2); cbn in *; tauto || done.
  - exfalso. assert (exit_count c = 2) as E2 by (by apply Z.eqb_eq). rewrite (all_gone c I E2) in *. done.
Qed.

Lemma lt_reachable_inv c : reachable c -> inv c.
Proof. induction 1; [apply lt_inv_start|by eapply lt_inv_step]. Qed.

(** The monitor works: under any interleaving the assertions hold, the two threads
    lose no update of the counter, and a thread that reports a result reports
    [OK]. *)
Theorem lock_test_ok c (Hreach : reachable c) :
  (forall t, (t < 2)%nat -> at_ c t <> Crashed /\ status c t <> FAILED)
  /\ shared_var c = i c 0%nat + counted (at_ c 0%nat) + (i c 1%nat + counted (at_ c 1%nat))
  /\ (forall t, (t < 2)%nat -> at_ c t = Exited -> shared_var c = ntotal).
Proof.
  pose proof (lt_reachable_inv c Hreach) as I. split_and!; [|apply (in_sum _ I)|].
  - intros t Ht. split; [|by apply (in_status _ I)]. intros E. destruct (in_place _ I t Ht) as [_ P]. by rewrite E in P.
  - intros t Ht E. apply (all_gone c I). destruct (in_place _ I t Ht) as [_ P]. rewrite E in P. apply P.
Qed.

End LockTest.

(** ** Concrete instances *)

Module TestThreads_instances.

(** The run of a schedule. *)
Fixpoint run {C} (step : nat -> C -> option C) (ts : list nat) (c : C) : option C :=
  match ts with
  | [] => Some c
  | t :: ts' => match step t c with Some c' => run step ts' c' | None => None end
  end.

Lemma barrier_run ts : forall c c', Forall (fun t => t < 3)%nat ts -> BarrierTest.reachable c ->
  run BarrierTest.barrier_test ts c = Some c' -> BarrierTest.reachable c'.
Proof.
  induction ts as [|t ts IH]; cbn; intros c c' Hts Hc H; [by simplify_eq|]. inversion_clear Hts.
  destruct (BarrierTest.barrier_test t c) as [c1|] eqn:E; [|done]. eapply IH; [done| |done]. by econstructor.
Qed.

Lemma lock_run ts : forall c c', Forall (fun t => t < 2)%nat ts -> LockTest.reachable c ->
  run LockTest.lock_thread ts c = Some c' -> LockTest.reachable c'.
Proof.
  induction ts as [|t ts IH]; cbn; intros c c' Hts Hc H; [by simplify_eq|]. inversion_clear Hts.
  destruct (LockTest.lock_thread t c) as [c1|] eqn:E; [|done]. eapply IH; [done| |done]. by econstructor.
Qed.

(** The third thread completes the first round and compares. *)
Lemma barrier_test_in_step_witness :
  exists c, BarrierTest.at_ c 2%nat = BarrierTest.Check 0 /\ BarrierTest.bvar c 2%nat = BarrierTest.bvar c 0%nat.
Proof.
  set (ts := [0; 0; 0; 1; 1; 1; 2; 2]%nat).
  destruct (run BarrierTest.barrier_test ts BarrierTest.start) as [c|] eqn:E; [|vm_compute in E; discriminate E].
  exists c. assert (Ea : BarrierTest.at_ c 2%nat = BarrierTest.Check 0) by (vm_compute in E; by injection E as <-).
  split; [exact Ea|].
  destruct (BarrierTest.barrier_test_in_step c) with (t := 2%nat) as (_ & _ & H).
  - refine (barrier_run ts _ _ _ BarrierTest.reach_start E). subst ts. repeat constructor.
  - unfold BarrierTest.BTHREAD_CT. lia.
  - apply (H 0%nat); [unfold BarrierTest.BTHREAD_CT; lia|by exists 0%nat].
Defined.

(** The first thread sleeps, the second one counts and wakes it. *)
Lemma lock_test_ok_witness :
  exists c, LockTest.at_ c 0%nat = LockTest.Reacquire /\ LockTest.shared_var c = 1 /\ LockTest.at_ c 1%nat <> LockTest.Crashed.
Proof.
  set (ts := [0; 0; 0; 0; 0; 1; 1; 1; 1; 1; 1; 1; 1]%nat).
  destruct (run LockTest.lock_thread ts LockTest.start) as [c|] eqn:E; [|vm_compute in E; discriminate E].
  exists c. destruct (LockTest.lock_test_ok c) as (H & _ & _).
  { refine (lock_run ts _ _ _ LockTest.reach_start E). subst ts. repeat constructor. }
  split; [vm_compute in E; by injection E as <-|]. split; [vm_compute in E; by injection E as <-|].
  apply (H 1%nat). lia.
Defined.

End TestThreads_instances.
