(* ===== verification/Mbox.v ===== *)
(** * Mailboxes

    Models [src/src/kernel/mbox.c] and [src/src/kernel/mbox.h]: five bounded
    message queues, each a circular byte buffer used as a monitor (a lock and
    two condition variables of [Sync]).

    A message is its size field and its bytes; in the buffer it is the four
    little-endian bytes of the size followed by the body.  An operation that
    has to wait returns [Blocked]: the thread has put itself on a wait queue
    (and has released the lock, if it had it) and starts the operation again
    when it is woken, which is what the [while] loops do.

    [print_trace] and [print_mbox_status] only print and are left out. *)

From S2P Require Import Prelude Sched Ring Schedule Sync.

Definition MAX_MBOX : Z := 5.
Definition BUFFER_SIZE : Z := 1024.
Definition MSG_T_HEADER_SIZE : Z := 4.

Record mbox_t : Type := mk_mbox {
  used : Z;
  box_lock : lock_t;
  moreSpace : condition_t;
  moreData : condition_t;
  box_count : Z;
  head : Z;
  tail : Z;
  buffer : list Z
}.

Definition set_used (v : Z) (b : mbox_t) : mbox_t :=
  mk_mbox v (box_lock b) (moreSpace b) (moreData b) (box_count b) (head b) (tail b) (buffer b).
Definition set_box_lock (v : lock_t) (b : mbox_t) : mbox_t :=
  mk_mbox (used b) v (moreSpace b) (moreData b) (box_count b) (head b) (tail b) (buffer b).
Definition set_moreSpace (v : condition_t) (b : mbox_t) : mbox_t :=
  mk_mbox (used b) (box_lock b) v (moreData b) (box_count b) (head b) (tail b) (buffer b).
Definition set_moreData (v : condition_t) (b : mbox_t) : mbox_t :=
  mk_mbox (used b) (box_lock b) (moreSpace b) v (box_count b) (head b) (tail b) (buffer b).
Definition set_box_count (v : Z) (b : mbox_t) : mbox_t :=
  mk_mbox (used b) (box_lock b) (moreSpace b) (moreData b) v (head b) (tail b) (buffer b).
Definition set_head (v : Z) (b : mbox_t) : mbox_t :=
  mk_mbox (used b) (box_lock b) (moreSpace b) (moreData b) (box_count b) v (tail b) (buffer b).
Definition set_tail (v : Z) (b : mbox_t) : mbox_t :=
  mk_mbox (used b) (box_lock b) (moreSpace b) (moreData b) (box_count b) (head b) v (buffer b).
Definition set_buffer (v : list Z) (b : mbox_t) : mbox_t :=
  mk_mbox (used b) (box_lock b) (moreSpace b) (moreData b) (box_count b) (head b) (tail b) v.

(** The mailboxes and the process subsystem. *)
Record mst : Type := mk_mst { procs : kst; Q : list mbox_t }.

(** [Q[q]]: nothing checks that the handle is in range. *)
Definition boxes (q : Z) : M mst mbox_t :=
  fun s => match (if q <? 0 then None else Q s !! Z.to_nat q) with
           | Some b => Ret (b, s)
           | None => Stuck
           end.

Definition put_box (q : Z) (f : mbox_t -> mbox_t) : M mst unit :=
  fun s => match (if q <? 0 then None else Q s !! Z.to_nat q) with
           | Some b => Ret (tt, mk_mst (procs s) (<[Z.to_nat q := f b]> (Q s)))
           | None => Stuck
           end.

Definition pop {A} (m : M kst A) : M mst A := zoom procs (fun k s => mk_mst k (Q s)) m.

(** The result of an operation that may wait. *)
Inductive result (A : Type) : Type :=
| Blocked
| Done (a : A).
Arguments Blocked {A}.
Arguments Done {A} a.

(** ** The circular buffer *)

Definition space_available (b : mbox_t) : Z :=
  if (tail b =? head b) && negb (box_count b =? 0) then 0
  else if head b <? tail b then tail b - head b
  else tail b + BUFFER_SIZE - head b.

(** [buf[(start + i) % BUFFER_SIZE]]; the indices are not negative. *)
Definition buffer_to_msg (buf : list Z) (start bytes : Z) : list Z :=
  (fun i => default 0 (buf !! Z.to_nat ((start + i) mod BUFFER_SIZE))) <$> seqZ 0 bytes.

Fixpoint msg_to_buffer (msg : list Z) (buf : list Z) (start : Z) : list Z :=
  match msg with
  | [] => buf
  | x :: msg' => msg_to_buffer msg' (<[Z.to_nat (start mod BUFFER_SIZE) := x]> buf) (start + 1)
  end.

(** ** Messages *)

Record msg_t : Type := mk_msg { size : Z; body : list Z }.

Definition MSG_SIZE (m : msg_t) : Z := s32 (u32 (MSG_T_HEADER_SIZE + size m)).

(** The bytes of the message in memory. *)
Definition msg_bytes (m : msg_t) : list Z := le4 (u32 (size m)) ++ body m.

(** ** Operations *)

(** [lock_acquire(&Q[q].l)]; [true] when the thread goes to sleep. *)
Definition acquire_box (q : Z) : M mst bool :=
  b <-- boxes q ;;
  r <-- pop (lock_acquire SYNC_IMPL (box_lock b)) ;;
  put_box q (set_box_lock (snd r)) ;;;
  ret (fst r).

Definition release_box (q : Z) : M mst unit :=
  b <-- boxes q ;;
  l <-- pop (lock_release SYNC_IMPL (box_lock b)) ;;
  put_box q (set_box_lock l).

(** The iteration of [mbox_init] for one mailbox. *)
Definition init_box (b : mbox_t) : mbox_t :=
  set_moreData CONDITION_INIT (set_moreSpace CONDITION_INIT (set_box_lock LOCK_INIT (set_used 0 b))).

Definition mbox_init : M mst unit :=
  for_up (Z.to_nat MAX_MBOX) 0 1 (fun i => put_box i init_box).

Definition mbox_open (key : Z) : M mst (result Z) :=
  if (key <? MAX_MBOX) && (0 <=? key) then
    blocked <-- acquire_box key ;;
    if blocked : bool then ret Blocked
    else
      b <-- boxes key ;;
      when (used b =? 0)
        (put_box key (set_head 0) ;;;
         put_box key (set_tail 0) ;;;
         put_box key (set_box_count 0)) ;;;
      put_box key (fun b => set_used (s32 (used b + 1)) b) ;;;
      release_box key ;;;
      ret (Done key)
  else ret (Done (-1)).

Definition mbox_close (q : Z) : M mst (result Z) :=
  blocked <-- acquire_box q ;;
  if blocked : bool then ret Blocked
  else
    put_box q (fun b => set_used (s32 (used b - 1)) b) ;;;
    release_box q ;;;
    ret (Done 1).

(** The count and the space. *)
Definition mbox_stat (q : Z) : M mst (result (Z * Z)) :=
  blocked <-- acquire_box q ;;
  if blocked : bool then ret Blocked
  else
    b <-- boxes q ;;
    let count := box_count b in
    let space := space_available b in
    release_box q ;;;
    ret (Done (count, space)).

Definition mbox_recv (q : Z) : M mst (result msg_t) :=
  blocked <-- acquire_box q ;;
  if blocked : bool then ret Blocked
  else
    b <-- boxes q ;;
    if box_count b =? 0 then
      w <-- pop (condition_wait SYNC_IMPL (box_lock b) (moreData b)) ;;
      put_box q (fun b => set_moreData (snd w) (set_box_lock (fst w) b)) ;;;
      ret Blocked
    else
      let header := buffer_to_msg (buffer b) (tail b) MSG_T_HEADER_SIZE in
      let sz := match header with
                | [b0; b1; b2; b3] => s32 (of_le4 b0 b1 b2 b3)
                | _ => 0
                end in
      put_box q (fun b => set_tail (u32 (tail b + MSG_T_HEADER_SIZE) mod BUFFER_SIZE) b) ;;;
      b1 <-- boxes q ;;
      let body := buffer_to_msg (buffer b1) (tail b1) sz in
      put_box q (fun b => set_tail (u32 (tail b + u32 (MSG_T_HEADER_SIZE + sz) - MSG_T_HEADER_SIZE)
                                    mod BUFFER_SIZE) b) ;;;
      b2 <-- boxes q ;;
      c <-- pop (condition_broadcast SYNC_IMPL (moreSpace b2)) ;;
      put_box q (set_moreSpace c) ;;;
      put_box q (fun b => set_box_count (s32 (box_count b - 1)) b) ;;;
      release_box q ;;;
      ret (Done (mk_msg sz body)).

(** [msgSize] bytes are copied from the memory at [m]; a message whose body is
    shorter than its size says reads past its end. *)
Definition mbox_send (q : Z) (m : msg_t) : M mst (result Z) :=
  let msgSize := MSG_SIZE m in
  blocked <-- acquire_box q ;;
  if blocked : bool then ret Blocked
  else
    b <-- boxes q ;;
    if space_available b <? msgSize then
      w <-- pop (condition_wait SYNC_IMPL (box_lock b) (moreSpace b)) ;;
      put_box q (fun b => set_moreSpace (snd w) (set_box_lock (fst w) b)) ;;;
      ret Blocked
    else if Z.of_nat (length (msg_bytes m)) <? msgSize then stuck
    else
      put_box q (fun b => set_buffer
        (msg_to_buffer (take (Z.to_nat msgSize) (msg_bytes m)) (buffer b) (head b)) b) ;;;
      put_box q (fun b => set_head (Z.rem (s32 (head b + msgSize)) BUFFER_SIZE) b) ;;;
      b1 <-- boxes q ;;
      c <-- pop (condition_signal SYNC_IMPL (moreData b1)) ;;
      put_box q (set_moreData c) ;;;
      put_box q (fun b => set_box_count (s32 (box_count b + 1)) b) ;;;
      release_box q ;;;
      ret (Done 1).

(** ** The circular buffer as a byte sequence *)

Lemma mod_inj a i j :
  0 <= i < BUFFER_SIZE -> 0 <= j < BUFFER_SIZE ->
  (a + i) mod BUFFER_SIZE = (a + j) mod BUFFER_SIZE -> i = j.
Proof. unfold BUFFER_SIZE. intros. zdiv. Qed.

Lemma cell_bound a : (Z.to_nat (a mod BUFFER_SIZE) < 1024)%nat.
Proof. pose proof (Z.mod_pos_bound a BUFFER_SIZE). unfold BUFFER_SIZE in *. lia. Qed.

Lemma cell_inj a b :
  Z.to_nat (a mod BUFFER_SIZE) = Z.to_nat (b mod BUFFER_SIZE) -> a mod BUFFER_SIZE = b mod BUFFER_SIZE.
Proof.
  pose proof (Z.mod_pos_bound a BUFFER_SIZE). pose proof (Z.mod_pos_bound b BUFFER_SIZE).
  unfold BUFFER_SIZE in *. lia.
Qed.

(** The byte [i] places behind [start]. *)
Definition cell (buf : list Z) (start i : Z) : Z :=
  default 0 (buf !! Z.to_nat ((start + i) mod BUFFER_SIZE)).

Lemma msg_to_buffer_length msg : forall buf start,
  length (msg_to_buffer msg buf start) = length buf.
Proof. induction msg as [|x msg IH]; intros; cbn; [done|]. by rewrite IH, length_insert. Qed.

Lemma msg_to_buffer_out msg : forall buf start a i,
  length buf = 1024%nat -> 0 <= i < BUFFER_SIZE -> Z.of_nat (length msg) <= BUFFER_SIZE - i ->
  (a + BUFFER_SIZE) mod BUFFER_SIZE = (start + BUFFER_SIZE) mod BUFFER_SIZE ->
  forall j, Z.of_nat (length msg) <= j < BUFFER_SIZE ->
  cell (msg_to_buffer msg buf start) a j = cell buf a j.
Proof.
  induction msg as [|x msg IH]; intros buf start a i Hl Hi Hm Ha j Hj; [done|].
  cbn [msg_to_buffer length] in *. unfold cell in *.
  transitivity (default 0 (<[Z.to_nat (start mod BUFFER_SIZE):=x]> buf !! Z.to_nat ((a + j) mod BUFFER_SIZE))).
  - replace (a + j) with (a + 1 + (j - 1)) by lia.
    apply (IH _ (start + 1) (a + 1) i); [by rewrite length_insert|done|lia| |lia].
    unfold BUFFER_SIZE in *. zdiv.
  - rewrite list_lookup_insert_ne; [done|]. intros E. apply cell_inj in E.
    unfold BUFFER_SIZE in *. zdiv.
Qed.

Lemma msg_to_buffer_in msg : forall buf start i x,
  length buf = 1024%nat -> Z.of_nat (length msg) <= BUFFER_SIZE -> msg !! i = Some x ->
  cell (msg_to_buffer msg buf start) start (Z.of_nat i) = x.
Proof.
  induction msg as [|y msg IH]; intros buf start i x Hl Hm Hi; [done|].
  cbn [msg_to_buffer length] in *. destruct i as [|i].
  - injection Hi as ->.
    assert (Hb : length (<[Z.to_nat (start mod BUFFER_SIZE):=x]> buf) = 1024%nat) by (by rewrite length_insert).
    pose proof (msg_to_buffer_out msg _ (start + 1) (start + 1) 0 Hb) as Ho.
    specialize (Ho ltac:(unfold BUFFER_SIZE; lia) ltac:(lia) eq_refl (BUFFER_SIZE - 1)
                  ltac:(unfold BUFFER_SIZE in *; lia)).
    unfold cell in *. replace (start + 1 + (BUFFER_SIZE - 1)) with (start + 1 * BUFFER_SIZE) in Ho by lia.
    rewrite Z_mod_plus_full in Ho. rewrite Z.add_0_r, Ho.
    rewrite list_lookup_insert_eq; [done|]. rewrite Hl. apply cell_bound.
  - cbn in Hi. replace (Z.of_nat (S i)) with (1 + Z.of_nat i) by lia.
    unfold cell. rewrite Z.add_assoc. apply (IH _ (start + 1) i x); [by rewrite length_insert|lia|done].
Qed.

Lemma msg_to_buffer_kept msg buf start a n j :
  length buf = 1024%nat -> start mod BUFFER_SIZE = (a + n) mod BUFFER_SIZE ->
  0 <= n -> n + Z.of_nat (length msg) <= BUFFER_SIZE -> 0 <= j < n ->
  cell (msg_to_buffer msg buf start) a j = cell buf a j.
Proof.
  intros Hl Hs Hn Hm Hj.
  pose proof (msg_to_buffer_out msg buf start (a + n) 0 Hl) as Ho.
  specialize (Ho ltac:(unfold BUFFER_SIZE; lia) ltac:(lia)).
  specialize (Ho ltac:(rewrite <- (Zplus_mod_idemp_l start), Hs, Zplus_mod_idemp_l; done)).
  specialize (Ho (BUFFER_SIZE - n + j) ltac:(lia)). unfold cell in *.
  by replace (a + n + (BUFFER_SIZE - n + j)) with (a + j + 1 * BUFFER_SIZE) in Ho by lia;
    rewrite Z_mod_plus_full in Ho.
Qed.

Lemma cell_mod buf a i : cell buf (a mod BUFFER_SIZE) i = cell buf a i.
Proof. unfold cell. by rewrite Zplus_mod_idemp_l. Qed.

Lemma msg_to_buffer_mod msg : forall buf a b,
  a mod BUFFER_SIZE = b mod BUFFER_SIZE -> msg_to_buffer msg buf a = msg_to_buffer msg buf b.
Proof.
  induction msg as [|x msg IH]; intros buf a b H; [done|]. cbn. rewrite H. apply IH.
  by rewrite <- (Zplus_mod_idemp_l a), H, Zplus_mod_idemp_l.
Qed.

(** The bytes [l] lie in the buffer from [start] on. *)
Definition lies (buf : list Z) (start : Z) (l : list Z) : Prop :=
  forall i x, l !! i = Some x -> cell buf start (Z.of_nat i) = x.

Lemma lies_app buf a l1 l2 :
  lies buf a (l1 ++ l2) <-> lies buf a l1 /\ lies buf (a + Z.of_nat (length l1)) l2.
Proof.
  split.
  - intros H. split; intros i x Hi.
    + apply H. by apply lookup_app_l_Some.
    + unfold cell. rewrite <- Z.add_assoc, <- Nat2Z.inj_add. apply H.
      rewrite lookup_app_r by lia. by replace (length l1 + i - length l1)%nat with i by lia.
  - intros [H1 H2] i x Hi. apply lookup_app_Some in Hi as [Hi|[Hge Hi]]; [by apply H1|].
    rewrite <- (H2 _ _ Hi). unfold cell. do 4 f_equal. lia.
Qed.

Lemma lies_mod buf a l : lies buf (a mod BUFFER_SIZE) l <-> lies buf a l.
Proof. unfold lies. by setoid_rewrite cell_mod. Qed.

Lemma lies_read buf a l : lies buf a l -> buffer_to_msg buf a (Z.of_nat (length l)) = l.
Proof.
  intros H. apply list_eq. intros i. unfold buffer_to_msg.
  rewrite list_lookup_fmap. destruct (l !! i) as [x|] eqn:E.
  - pose proof (lookup_lt_Some _ _ _ E). rewrite lookup_seqZ_lt by lia. cbn.
    f_equal. by apply H.
  - apply lookup_ge_None in E. by rewrite lookup_seqZ_ge by lia.
Qed.

Lemma lies_write buf a l m :
  length buf = 1024%nat -> Z.of_nat (length (l ++ m)) <= BUFFER_SIZE -> lies buf a l ->
  lies (msg_to_buffer m buf ((a + Z.of_nat (length l)) mod BUFFER_SIZE)) a (l ++ m).
Proof.
  intros Hb Hl H. rewrite length_app in Hl. apply lies_app. split.
  - intros i x Hi. pose proof (lookup_lt_Some _ _ _ Hi). rewrite <- (H _ _ Hi).
    apply (msg_to_buffer_kept _ _ _ _ (Z.of_nat (length l))); try done; [|lia..].
    by rewrite Zmod_mod.
  - apply lies_mod. intros i x Hi. apply msg_to_buffer_in; [done|lia|done].
Qed.

(** ** What a mailbox promises: a bounded first-in first-out queue of messages *)

Definition wf_msg (m : msg_t) : Prop := size m = Z.of_nat (length (body m)).

Definition stored (ms : list msg_t) : list Z := concat (msg_bytes <$> ms).

Definition total (ms : list msg_t) : Z := Z.of_nat (length (stored ms)).

(** The mailbox holds the messages [ms], the oldest first. *)
Definition holds (b : mbox_t) (ms : list msg_t) : Prop :=
  length (buffer b) = 1024%nat /\ box_count b = Z.of_nat (length ms)
  /\ 0 <= tail b < BUFFER_SIZE /\ head b = (tail b + total ms) mod BUFFER_SIZE
  /\ total ms <= BUFFER_SIZE /\ Forall wf_msg ms /\ lies (buffer b) (tail b) (stored ms).

Lemma msg_bytes_length m : Z.of_nat (length (msg_bytes m)) = 4 + Z.of_nat (length (body m)).
Proof. unfold msg_bytes. rewrite length_app. cbn. lia. Qed.

Lemma stored_snoc ms m : stored (ms ++ [m]) = stored ms ++ msg_bytes m.
Proof. unfold stored. by rewrite fmap_app, concat_app; cbn; rewrite app_nil_r. Qed.

Lemma total_count ms : 4 * Z.of_nat (length ms) <= total ms.
Proof.
  unfold total. induction ms as [|m ms IH]; [done|].
  unfold stored in *. cbn [fmap list_fmap concat length]. rewrite length_app.
  pose proof (msg_bytes_length m). lia.
Qed.

Lemma space_available_total b ms : holds b ms -> space_available b = BUFFER_SIZE - total ms.
Proof.
  intros (_ & Hc & Ht & Hh & Hle & _). unfold space_available. rewrite Hc, Hh.
  pose proof (total_count ms). assert (0 <= total ms) by (unfold total; lia).
  assert (length ms = O -> total ms = 0) by (by destruct ms).
  unfold BUFFER_SIZE in *. zbool; cbn [andb negb]; zdiv.
Qed.

Lemma MSG_SIZE_bytes m :
  wf_msg m -> Z.of_nat (length (msg_bytes m)) <= BUFFER_SIZE ->
  MSG_SIZE m = Z.of_nat (length (msg_bytes m)).
Proof.
  unfold wf_msg, MSG_SIZE, MSG_T_HEADER_SIZE, BUFFER_SIZE. intros Hw Hl.
  rewrite msg_bytes_length in *. rewrite Hw, u32_small, s32_small; lia.
Qed.

Lemma holds_push b ms m l d :
  holds b ms -> wf_msg m -> Z.of_nat (length (msg_bytes m)) <= BUFFER_SIZE - total ms ->
  holds (mk_mbox (used b) l (moreSpace b) d (s32 (box_count b + 1))
           (Z.rem (s32 (head b + Z.of_nat (length (msg_bytes m)))) BUFFER_SIZE) (tail b)
           (msg_to_buffer (msg_bytes m) (buffer b) (head b))) (ms ++ [m]).
Proof.
  intros (H1 & H2 & H3 & H4 & H5 & H6 & H7) Hm Hf. pose proof (total_count ms).
  assert (0 <= total ms) by (unfold total; lia).
  assert (Ht : total (ms ++ [m]) = total ms + Z.of_nat (length (msg_bytes m)))
    by (unfold total; rewrite stored_snoc, length_app; lia).
  assert (0 <= head b < BUFFER_SIZE) by (rewrite H4; apply Z.mod_pos_bound; done).
  unfold holds. cbn [box_count head tail buffer]. split_and!.
  - by rewrite msg_to_buffer_length.
  - rewrite length_app, H2, s32_small; [cbn; lia|]. unfold BUFFER_SIZE in *. lia.
  - lia.
  - lia.
  - rewrite s32_small by (unfold BUFFER_SIZE in *; lia). rewrite Z.rem_mod_nonneg by (done || lia).
    rewrite H4, Zplus_mod_idemp_l. f_equal. lia.
  - lia.
  - by apply Forall_app_2; [|constructor].
  - rewrite stored_snoc, H4. apply lies_write; [done| |done]. rewrite length_app. unfold total in *. lia.
Qed.

(** The oldest message, as the header and the body are read. *)
Lemma holds_pop b m ms :
  holds b (m :: ms) ->
  0 < box_count b
  /\ buffer_to_msg (buffer b) (tail b) MSG_T_HEADER_SIZE = le4 (u32 (size m))
  /\ s32 (u32 (size m)) = size m
  /\ buffer_to_msg (buffer b) (u32 (tail b + MSG_T_HEADER_SIZE) mod BUFFER_SIZE) (size m) = body m
  /\ forall l c,
       holds (mk_mbox (used b) l c (moreData b) (s32 (box_count b - 1)) (head b)
                (u32 (u32 (tail b + MSG_T_HEADER_SIZE) mod BUFFER_SIZE
                      + u32 (MSG_T_HEADER_SIZE + size m) - MSG_T_HEADER_SIZE) mod BUFFER_SIZE)
                (buffer b)) ms.
Proof.
  intros (H1 & H2 & H3 & H4 & H5 & H6 & H7). apply list.Forall_cons_1 in H6 as [Hm H6].
  change (stored (m :: ms)) with (msg_bytes m ++ stored ms) in H7.
  assert (Ht : total (m :: ms) = Z.of_nat (length (msg_bytes m)) + total ms)
    by (unfold total; cbn; rewrite length_app; unfold stored; lia).
  pose proof (total_count (m :: ms)) as Hcnt. pose proof (msg_bytes_length m) as Hlen. rewrite <- Hm in Hlen.
  assert (0 <= total ms) by (unfold total; lia).
  apply lies_app in H7 as [H7 H8]. unfold msg_bytes in H7 at 1. apply lies_app in H7 as [H7 H9].
  change (Z.of_nat (length (le4 (u32 (size m))))) with MSG_T_HEADER_SIZE in H9.
  assert (0 <= size m) by (rewrite Hm; lia).
  unfold MSG_T_HEADER_SIZE, BUFFER_SIZE in *.
  rewrite (u32_small (size m)), (u32_small (tail b + 4)), (u32_small (4 + size m)) by lia.
  split_and!; [rewrite H2; cbn; lia| | |..].
  - rewrite (u32_small (size m)) in H7 by lia. apply (lies_read _ _ _ H7).
  - apply s32_small. lia.
  - rewrite Hm. apply lies_read. by apply (proj2 (lies_mod _ _ _)).
  - intros l c. unfold holds. cbn [box_count head tail buffer].
    rewrite u32_small by zdiv.
    replace ((tail b + 4) mod 1024 + (4 + size m) - 4) with ((tail b + 4) mod 1024 + size m) by lia.
    rewrite Zplus_mod_idemp_l. split_and!; try done.
    + rewrite H2, s32_small; cbn [length]; [lia|]. cbn [length] in Hcnt. lia.
    + apply Z.mod_pos_bound. done.
    + apply Z.mod_pos_bound. done.
    + rewrite H4, Ht, Hlen, Zplus_mod_idemp_l. f_equal. lia.
    + unfold BUFFER_SIZE. lia.
    + apply (proj2 (lies_mod _ _ _)). replace (tail b + 4 + size m) with (tail b + Z.of_nat (length (msg_bytes m))) by lia. done.
Qed.

(** ** Running the operations *)

Section Runs.

Context (s : mst) (q : Z) (b : mbox_t).
Context (Hq : 0 <= q) (Hb : Q s !! Z.to_nat q = Some b).

Let put (b' : mbox_t) (k : kst) : mst := mk_mst k (<[Z.to_nat q := b']> (Q s)).

Lemma put_get k b' : Q (put b' k) !! Z.to_nat q = Some b'.
Proof. cbn. apply list_lookup_insert_eq. by eapply lookup_lt_Some. Qed.

Lemma boxes_ok {B} b' k (f : mbox_t -> M mst B) : bind (boxes q) f (put b' k) = f b' (put b' k).
Proof.
  unfold bind, boxes. rewrite (proj2 (Z.ltb_ge q 0)) by done. by rewrite put_get.
Qed.

Lemma put_box_ok {B} b' k f (g : unit -> M mst B) :
  bind (put_box q f) g (put b' k) = g tt (put (f b') k).
Proof.
  unfold bind, put_box. rewrite (proj2 (Z.ltb_ge q 0)) by done. rewrite put_get.
  unfold put. cbn [procs Q]. by rewrite list_insert_insert_eq.
Qed.

Lemma pop_ok {A B} (m : M kst A) b' k a k' (g : A -> M mst B) :
  m k = Ret (a, k') -> bind (pop m) g (put b' k) = g a (put b' k').
Proof. intros H. unfold bind, pop, zoom, put. cbn [procs]. by rewrite H. Qed.

Lemma start_put : put b (procs s) = s.
Proof. unfold put. rewrite list_insert_id by done. by destruct s. Qed.

Definition held : lock_t := mk_lock true NULL SPINLOCK_INIT.

Lemma acquire_box_ok {B} b' k (g : bool -> M mst B) :
  box_lock b' = LOCK_INIT -> bind (acquire_box q) g (put b' k) = g false (put (set_box_lock held b') k).
Proof.
  intros H. unfold acquire_box. rewrite bind_assoc, boxes_ok, bind_assoc, H.
  rewrite (pop_ok _ _ _ (false, held) k) by done. by rewrite bind_assoc, put_box_ok.
Qed.

Lemma release_box_ok {B} b' k (g : unit -> M mst B) :
  box_lock b' = held -> bind (release_box q) g (put b' k) = g tt (put (set_box_lock LOCK_INIT b') k).
Proof.
  intros H. unfold release_box. rewrite bind_assoc, boxes_ok, bind_assoc, H.
  rewrite (pop_ok _ _ _ LOCK_INIT k) by done. by rewrite put_box_ok.
Qed.

Ltac mstep := first
  [ rewrite acquire_box_ok by done | rewrite boxes_ok | rewrite put_box_ok
  | rewrite release_box_ok by done ]; cbn beta.

Lemma mbox_send_run m ms c k' :
  box_lock b = LOCK_INIT -> holds b ms -> wf_msg m -> 4 + size m <= BUFFER_SIZE - total ms ->
  condition_signal SYNC_IMPL (moreData b) (procs s) = Ret (c, k') ->
  exists b', mbox_send q m s = Ret (Done 1, mk_mst k' (<[Z.to_nat q := b']> (Q s)))
    /\ holds b' (ms ++ [m]) /\ box_lock b' = LOCK_INIT /\ moreSpace b' = moreSpace b
    /\ used b' = used b /\ moreData b' = c.
Proof.
  intros Hl Hh Hm Hs E. pose proof (space_available_total _ _ Hh) as Hsp.
  assert (Hlen' : Z.of_nat (length (msg_bytes m)) <= BUFFER_SIZE - total ms)
    by (rewrite msg_bytes_length, <- Hm; done).
  assert (Hms : MSG_SIZE m = Z.of_nat (length (msg_bytes m)))
    by (apply MSG_SIZE_bytes; [done|unfold total in *; lia]).
  eexists. rewrite <- start_put at 1. unfold mbox_send. rewrite Hms.
  mstep. mstep.
  change (space_available (set_box_lock held b)) with (space_available b).
  rewrite (proj2 (Z.ltb_ge _ _)) by lia. rewrite Z.ltb_irrefl.
  rewrite Nat2Z.id, firstn_all. do 3 mstep. cbn [moreData set_head set_buffer set_box_lock].
  rewrite (pop_ok _ _ _ _ _ _ E). do 2 mstep. rewrite release_box_ok by done.
  split; [reflexivity|]. split_and!; try done.
  apply (holds_push b ms m LOCK_INIT c Hh Hm). lia.
Qed.

Lemma mbox_recv_run m ms c k' :
  box_lock b = LOCK_INIT -> holds b (m :: ms) ->
  condition_broadcast SYNC_IMPL (moreSpace b) (procs s) = Ret (c, k') ->
  exists b', mbox_recv q s = Ret (Done m, mk_mst k' (<[Z.to_nat q := b']> (Q s)))
    /\ holds b' ms /\ box_lock b' = LOCK_INIT /\ moreSpace b' = c
    /\ used b' = used b /\ moreData b' = moreData b.
Proof.
  intros Hl Hh E. destruct (holds_pop _ _ _ Hh) as (Hc & Hhd & Hsz & Hbd & Hp).
  eexists. rewrite <- start_put at 1. unfold mbox_recv. mstep. mstep.
  cbn [box_count set_box_lock buffer tail]. rewrite (proj2 (Z.eqb_neq _ _)) by lia.
  rewrite Hhd. unfold le4. cbn iota. rewrite of_le4_le4 by apply u32_range. rewrite Hsz.
  mstep. mstep. cbn [buffer set_tail set_box_lock tail]. rewrite Hbd. mstep. mstep.
  cbn [moreSpace set_tail set_box_lock]. rewrite (pop_ok _ _ _ _ _ _ E).
  do 2 mstep. rewrite release_box_ok by done.
  split; [by destruct m|]. split_and!; try done. apply Hp.
Qed.

Lemma mbox_stat_run ms :
  box_lock b = LOCK_INIT -> holds b ms ->
  mbox_stat q s = Ret (Done (Z.of_nat (length ms), BUFFER_SIZE - total ms), s).
Proof.
  intros Hl Hh. pose proof (space_available_total _ _ Hh) as Hsp. destruct Hh as (_ & H2 & _).
  rewrite <- start_put at 1. unfold mbox_stat. mstep. mstep.
  change (space_available (set_box_lock held b)) with (space_available b).
  change (box_count (set_box_lock held b)) with (box_count b).
  rewrite release_box_ok by done. rewrite Hsp, H2. unfold ret. do 2 f_equal.
  rewrite <- start_put. f_equal. destruct b. cbn in *. by subst.
Qed.

Context (r l : list ptr).
Context (Hcpu : cpu_room 3 (cpu (procs s))).
Context (Hready : ring (pcbs (procs s)) r) (Hcur : current_running (procs s) = head_ptr r) (Hr : r <> []).
Context (Hwait : wait_queue (pcbs (procs s)) l) (Hdisj : forall u, u ∈ l -> u ∉ r).
Context (Hnull : is_Some (pcbs (procs s) !! NULL)) (Hlen : (length l <= PCB_TABLE_SIZE)%nat).

Lemma signal_run :
  exists h', condition_signal SYNC_IMPL (mk_condition (head_ptr l) SPINLOCK_INIT) (procs s)
      = Ret (mk_condition (head_ptr (list.tail l)) SPINLOCK_INIT, set_pcbs h' (procs s))
    /\ wait_queue h' (list.tail l) /\ ring h' (r ++ take 1 l) /\ is_Some (h' !! NULL).
Proof.
  assert (Hc1 : cpu_room 1 (cpu (procs s))) by (by eapply room_weaken, Hcpu).
  destruct (wake_one_run (procs s) l r) as (h' & E & W & R & _ & N); try done.
  { by eapply room_weaken, Hcpu. }
  exists h'. split_and!; try done. cbn [condition_signal SYNC_IMPL]. unfold condition_signal_atomic.
  cbn [cv_wait_queue cv_inner_lock].
  rewrite (bind_step _ _ _ _ _ (spinlock_acquire_free _ _ Hc1)), (bind_step _ _ _ _ _ E).
  by rewrite (bind_step _ _ _ _ _ (spinlock_release_taken SYNC_IMPL_ATOMIC (set_pcbs h' (procs s)) Hc1)).
Qed.

Lemma broadcast_run :
  exists h', condition_broadcast SYNC_IMPL (mk_condition (head_ptr l) SPINLOCK_INIT) (procs s)
      = Ret (CONDITION_INIT, set_pcbs h' (procs s)) /\ ring h' (r ++ l).
Proof.
  assert (Hc1 : cpu_room 1 (cpu (procs s))) by (by eapply room_weaken, Hcpu).
  destruct (wake_all_run l wake_fuel (procs s) r) as (h' & E & R); try done.
  { by eapply room_weaken, Hcpu. }
  { unfold wake_fuel. lia. }
  exists h'. split; [|done]. cbn [condition_broadcast SYNC_IMPL]. unfold condition_broadcast_atomic.
  cbn [cv_wait_queue cv_inner_lock].
  rewrite (bind_step _ _ _ _ _ (spinlock_acquire_free _ _ Hc1)), (bind_step _ _ _ _ _ E).
  by rewrite (bind_step _ _ _ _ _ (spinlock_release_taken SYNC_IMPL_ATOMIC (set_pcbs h' (procs s)) Hc1)).
Qed.

(** [C20] [mbox_send] of a message that fits: it becomes the newest message of the
    mailbox, the others are untouched, and the first thread that waits for data,
    if there is one, is woken. *)
Theorem mbox_send_appends m ms :
  box_lock b = LOCK_INIT -> moreData b = mk_condition (head_ptr l) SPINLOCK_INIT ->
  holds b ms -> wf_msg m -> 4 + size m <= space_available b ->
  exists h' b', mbox_send q m s = Ret (Done 1, mk_mst (set_pcbs h' (procs s)) (<[Z.to_nat q := b']> (Q s)))
    /\ holds b' (ms ++ [m]) /\ ring h' (r ++ take 1 l)
    /\ wait_queue h' (list.tail l)
    /\ box_lock b' = LOCK_INIT /\ moreSpace b' = moreSpace b /\ used b' = used b
    /\ moreData b' = mk_condition (head_ptr (list.tail l)) SPINLOCK_INIT.
Proof.
  intros Hl Hd Hh Hm Hs. rewrite (space_available_total _ _ Hh) in Hs.
  destruct signal_run as (h' & E & W & R & N). rewrite <- Hd in E.
  destruct (mbox_send_run m ms _ _ Hl Hh Hm Hs E) as (b' & H1 & H2 & H3 & H4 & H5 & H6).
  by exists h', b'.
Qed.

(** [C21] [mbox_recv] of a mailbox that is not empty returns the oldest message,
    exactly as it was sent, leaves the others, and wakes every thread that waits
    for space. *)
Theorem mbox_recv_takes_oldest m ms :
  box_lock b = LOCK_INIT -> moreSpace b = mk_condition (head_ptr l) SPINLOCK_INIT ->
  holds b (m :: ms) ->
  exists h' b', mbox_recv q s = Ret (Done m, mk_mst (set_pcbs h' (procs s)) (<[Z.to_nat q := b']> (Q s)))
    /\ holds b' ms /\ ring h' (r ++ l)
    /\ box_lock b' = LOCK_INIT /\ moreSpace b' = CONDITION_INIT /\ used b' = used b
    /\ moreData b' = moreData b.
Proof.
  intros Hl Hd Hh. destruct broadcast_run as (h' & E & R). rewrite <- Hd in E.
  destruct (mbox_recv_run m ms _ _ Hl Hh E) as (b' & H1 & H2 & H3 & H4 & H5 & H6).
  by exists h', b'.
Qed.

Lemma wait_run c r' :
  r = c :: r' ->
  exists h', condition_wait SYNC_IMPL held (mk_condition (head_ptr l) SPINLOCK_INIT) (procs s)
      = Ret ((LOCK_INIT, mk_condition (head_ptr (l ++ [c])) SPINLOCK_INIT),
             set_pcbs h' (set_cpu (nointerrupt_enter (cpu (procs s))) (procs s)))
    /\ chain h' l c /\ status_of h' c = Some STATUS_BLOCKED.
Proof.
  intros Hc. destruct (block_enqueue_room (procs s) r l) with c r' as (h' & E & C & S1); try done.
  exists h'. split; [|done]. unfold condition_wait. cbn [cv_wait_queue cv_inner_lock].
  rewrite (bind_step _ _ _ LOCK_INIT (procs s)) by done. by rewrite (bind_step _ _ _ _ _ E).
Qed.

(** When there is not enough space [mbox_send] waits, and so does [mbox_recv]
    when there is no message: no message is touched, the lock is free again and
    the calling thread is the last of the right wait queue. *)
Theorem mbox_waits c r' m ms :
  r = c :: r' -> box_lock b = LOCK_INIT -> holds b ms -> wf_msg m -> size m <= BUFFER_SIZE ->
  (BUFFER_SIZE - total ms < 4 + size m -> moreSpace b = mk_condition (head_ptr l) SPINLOCK_INIT ->
   exists k, mbox_send q m s = Ret (Blocked,
       mk_mst k (<[Z.to_nat q := set_moreSpace (mk_condition (head_ptr (l ++ [c])) SPINLOCK_INIT) b]> (Q s)))
     /\ chain (pcbs k) l c /\ status_of (pcbs k) c = Some STATUS_BLOCKED)
  /\ (ms = [] -> moreData b = mk_condition (head_ptr l) SPINLOCK_INIT ->
   exists k, mbox_recv q s = Ret (Blocked,
       mk_mst k (<[Z.to_nat q := set_moreData (mk_condition (head_ptr (l ++ [c])) SPINLOCK_INIT) b]> (Q s)))
     /\ chain (pcbs k) l c /\ status_of (pcbs k) c = Some STATUS_BLOCKED).
Proof.
  intros Hc Hl Hh Hm Hmax. destruct (wait_run c r' Hc) as (h' & E & C & S1).
  pose proof (space_available_total _ _ Hh) as Hsp. destruct Hh as (_ & H2 & _).
  assert (Hms : MSG_SIZE m = 4 + size m).
  { unfold wf_msg in Hm. unfold MSG_SIZE, MSG_T_HEADER_SIZE, BUFFER_SIZE in *.
    rewrite u32_small, s32_small; lia. }
  split; intros Hcase Hd;
    (exists (set_pcbs h' (set_cpu (nointerrupt_enter (cpu (procs s))) (procs s))); split; [|by split]);
    rewrite <- start_put at 1.
  - unfold mbox_send. rewrite Hms. mstep. mstep.
    change (space_available (set_box_lock held b)) with (space_available b).
    rewrite (proj2 (Z.ltb_lt _ _)) by lia. cbn [moreSpace set_box_lock box_lock].
    rewrite Hd, (pop_ok _ _ _ _ _ _ E). mstep. unfold ret, put, set_moreSpace. cbn. by rewrite Hl.
  - unfold mbox_recv. mstep. mstep. cbn [box_count set_box_lock].
    assert (Hz : box_count b = 0) by (by rewrite H2, Hcase). rewrite Hz, Z.eqb_refl.
    cbn [moreData set_box_lock box_lock].
    rewrite Hd, (pop_ok _ _ _ _ _ _ E). mstep. unfold ret, put, set_moreData. cbn. by rewrite Hl.
Qed.

(** Opening an unused mailbox, whatever it held before, makes it empty. *)
Lemma mbox_open_empties :
  q < MAX_MBOX -> box_lock b = LOCK_INIT -> used b = 0 -> length (buffer b) = 1024%nat ->
  exists b', mbox_open q s = Ret (Done q, mk_mst (procs s) (<[Z.to_nat q := b']> (Q s)))
    /\ holds b' [] /\ used b' = 1 /\ box_lock b' = LOCK_INIT
    /\ moreSpace b' = moreSpace b /\ moreData b' = moreData b.
Proof.
  intros Hlt Hl Hu Hlen'. eexists. rewrite <- start_put at 1. unfold mbox_open.
  rewrite (proj2 (Z.ltb_lt _ _)), (proj2 (Z.leb_le _ _)) by done. cbn [andb].
  mstep. mstep. cbn [used set_box_lock]. rewrite Hu. cbn [Z.eqb when]. rewrite bind_assoc.
  mstep. rewrite bind_assoc. do 3 mstep. rewrite release_box_ok by done. split; [reflexivity|].
  cbn [used set_box_lock set_used set_head set_tail set_box_count box_lock moreSpace moreData].
  split_and!; try done. by rewrite Hu.
Qed.

End Runs.

(** ** Concrete instances *)

Module Mbox_instances.

Import Schedule_instances Sync_instances.

(** Threads 1, 2, 3 are ready and 4, 5 wait; mailbox 2 starts at index 1020, so
    that its first message wraps around. *)
Definition hello : msg_t := mk_msg 5 [104; 101; 108; 108; 111].
Definition big : msg_t := mk_msg 1015 (replicate 1015 7).

Definition wrapped : mbox_t :=
  mk_mbox 1 LOCK_INIT (mk_condition 4%nat SPINLOCK_INIT) (mk_condition 4%nat SPINLOCK_INIT)
    1 5 1020 (msg_to_buffer (msg_bytes hello) (replicate 1024 0) 1020).

Definition nothing : mbox_t :=
  mk_mbox 0 LOCK_INIT CONDITION_INIT CONDITION_INIT 0 0 0 (replicate 1024 0).

Definition machine : mst := mk_mst (state 1 1 1) [nothing; nothing; wrapped; nothing; nothing].

Lemma wrapped_holds : holds wrapped [hello].
Proof.
  split_and!; try (vm_compute; done); [vm_compute; repeat constructor|].
  intros i x Hi. pose proof (lookup_lt_Some _ _ _ Hi) as Hlt. cbn in Hlt.
  do 9 (destruct i as [|i]; [vm_compute in Hi |- *; congruence|]). lia.
Qed.

Ltac machine_facts :=
  first [ by apply room | apply ready_ring | apply waiting
        | reflexivity | apply wrapped_holds | done
        | apply disjoint | by eexists | (cbn; unfold PCB_TABLE_SIZE; lia) ].

Lemma mbox_send_appends_witness :
  exists h' b', mbox_send 2 hello machine
      = Ret (Done 1, mk_mst (set_pcbs h' (state 1 1 1)) (<[2%nat := b']> (Q machine)))
    /\ holds b' [hello; hello] /\ ring h' [1; 2; 3; 4]%nat.
Proof.
  destruct (mbox_send_appends machine 2 wrapped) with [1; 2; 3]%nat [4; 5]%nat hello [hello]
    as (h' & b' & H1 & H2 & H3 & _); [machine_facts..|].
  exists h', b'. split; [exact H1|]. split; [exact H2|exact H3].
Defined.

Lemma mbox_recv_takes_oldest_witness :
  exists h' b', mbox_recv 2 machine
      = Ret (Done hello, mk_mst (set_pcbs h' (state 1 1 1)) (<[2%nat := b']> (Q machine)))
    /\ holds b' [] /\ ring h' [1; 2; 3; 4; 5]%nat.
Proof.
  destruct (mbox_recv_takes_oldest machine 2 wrapped) with [1; 2; 3]%nat [4; 5]%nat hello (@nil msg_t)
    as (h' & b' & H1 & H2 & H3 & _); [machine_facts..|].
  exists h', b'. split; [exact H1|]. split; [exact H2|exact H3].
Defined.

Lemma mbox_waits_witness :
  exists k, mbox_send 2 big machine = Ret (Blocked,
      mk_mst k (<[2%nat := set_moreSpace (mk_condition 4%nat SPINLOCK_INIT) wrapped]> (Q machine)))
    /\ chain (pcbs k) [4; 5]%nat 1%nat.
Proof.
  destruct (mbox_waits machine 2 wrapped) with [1; 2; 3]%nat [4; 5]%nat 1%nat [2; 3]%nat big [hello]
    as [H _]; [machine_facts..|].
  destruct H as (k & H1 & H2 & _); [reflexivity|reflexivity|].
  exists k. split; [exact H1|exact H2].
Defined.

End Mbox_instances.
