(* ===== verification/Flow.v ===== *)
(** * Two processes that take turns

    Models [src/src/process/process3.c] and [src/src/process/process4.c]: the
    first sends a thousand messages to the second, which checks them; both use
    two more mailboxes to pass a token that says whose turn it is.

    The processes are written against an interface, [Mailboxes], that has two
    instances.  [kernel_boxes] is the mailboxes of [mbox.c] with their buffers of
    bytes: a call is the function of [Mbox], run while no other thread is inside
    the mailbox, which its lock ensures.  [queue_boxes] is what [Mbox] shows
    mailboxes to be, queues of messages that together take at most 1024 bytes; the
    protocol is analysed on it and the analysis carried over.

    The two processes are interleaved in any order.  A call whose condition does
    not hold goes through [condition_wait] of [sync.c] as it is written: the lock
    is released, and the process puts itself on the wait queue in a step of its
    own; a signal that is sent in between finds nobody there.  Preemption is
    possible at that point because [syscall_dispatch] leaves the critical section
    before it calls the service.  What the processes print is left out, and memory
    is what the processes wrote: paging is not part of this model. *)

From S2P Require Import Prelude Sched Ring Schedule Sync Mbox.

(** ** Mailboxes between processes *)

(** [None]: the caller has to wait. *)
Class Mailboxes (N : Type) : Type := {
  mb_open : Z -> N -> option (Z * N);
  mb_close : Z -> N -> option N;
  mb_stat : Z -> N -> option (Z * Z);
  mb_send : Z -> msg_t -> N -> option N;
  mb_recv : Z -> N -> option (msg_t * N)
}.

(** *** The mailboxes of the kernel *)

(** The threads while a process is inside a mailbox: it runs, and two are ready.
    The wait queues of the mailboxes are part of [flow] below, so that none of
    them is touched here. *)
Definition quiet_threads : kst := Schedule_instances.state 1 1 1.

Definition call {A} (m : M mst (result A)) (boxes : list mbox_t) : option (A * list mbox_t) :=
  match m (mk_mst quiet_threads boxes) with
  | Ret (Done a, s) => Some (a, Q s)
  | _ => None
  end.

#[global] Instance kernel_boxes : Mailboxes (list mbox_t) := {
  mb_open k n := call (mbox_open k) n;
  mb_close k n := snd <$> call (mbox_close k) n;
  mb_stat k n := fst <$> call (mbox_stat k) n;
  mb_send k m n := snd <$> call (mbox_send k m) n;
  mb_recv k n := call (mbox_recv k) n
}.

(** *** Queues *)

Record box : Type := mk_box { b_used : Z; b_msgs : list msg_t }.

Definition open_box (b : box) : box := mk_box (b_used b + 1) (if b_used b =? 0 then [] else b_msgs b).
Definition close_box (b : box) : box := mk_box (b_used b - 1) (b_msgs b).
Definition space (b : box) : Z := BUFFER_SIZE - total (b_msgs b).

Definition send_box (m : msg_t) (b : box) : option box :=
  if space b <? MSG_SIZE m then None else Some (mk_box (b_used b) (b_msgs b ++ [m])).

Definition recv_box (b : box) : option (msg_t * box) :=
  match b_msgs b with [] => None | m :: ms => Some (m, mk_box (b_used b) ms) end.

Definition net : Type := Z -> box.
Definition put (k : Z) (b : box) (n : net) : net := fun j => if j =? k then b else n j.

#[global] Instance queue_boxes : Mailboxes net := {
  mb_open k n := Some (k, put k (open_box (n k)) n);
  mb_close k n := Some (put k (close_box (n k)) n);
  mb_stat k n := Some (Z.of_nat (length (b_msgs (n k))), space (n k));
  mb_send k m n := match send_box m (n k) with Some b => Some (put k b n) | None => None end;
  mb_recv k n := match recv_box (n k) with Some (m, b) => Some (m, put k b n) | None => None end
}.

(** ** The processes *)

(** [FLOW_3] is [FLOW_IN] of process3 and [FLOW_OUT] of process4. *)
Definition QUEUE : Z := 2.
Definition FLOW_3 : Z := 3.
Definition FLOW_4 : Z := 4.

Definition ACTUAL_MSG_SIZE (n : Z) : Z := n + 4.

(** The statement that a process executes next.  [Transfer] is [mbox_send(q, m)]
    of process3, and [mbox_recv(q, m)] of process4 with the checks behind it;
    [Last] is the last token of process3; [Failed] is an [exit()] behind an error
    message. *)
Inductive pc : Type :=
| Open_q | Open_fi | Open_fo | Top | Recv_token | Stat | Send_token | Transfer | Last
| Close_q | Close_fi | Close_fo | Finished | Failed.

#[global] Instance pc_eq_dec : EqDecision pc.
Proof. solve_decision. Defined.

(** The local variables, and [token.size]. *)
Record proc : Type := mk_proc { at_ : pc; i : Z; wait : bool; token_size : Z }.

Definition goto (a : pc) (p : proc) : proc := mk_proc a (i p) (wait p) (token_size p).
Definition set_i (v : Z) (p : proc) : proc := mk_proc (at_ p) v (wait p) (token_size p).
Definition set_wait (v : bool) (p : proc) : proc := mk_proc (at_ p) (i p) v (token_size p).
Definition set_token_size (v : Z) (p : proc) : proc := mk_proc (at_ p) (i p) (wait p) v.

(** The message of an iteration. *)
Definition message (i : Z) : msg_t := mk_msg (128 + i mod 128) (replicate (Z.to_nat (128 + i mod 128)) (97 + i mod 26)).

(** [token]: nothing but its size. *)
Definition token_of (p : proc) : msg_t := mk_msg (token_size p) [].

(** The loop that compares the body with the expected characters. *)
Definition verify (size_ c : Z) (m : msg_t) : bool :=
  (size m =? size_) && forallb (fun j => default 0 (body m !! Z.to_nat j) =? c) (seqZ 0 size_).

Section Processes.

Context {N : Type} `{Mailboxes N}.

(** [if ((q = mbox_open(k)) < 0) exit();] *)
Definition open_or_exit (k : Z) (next : pc) (p : proc) (n : N) : option (proc * N) :=
  match mb_open k n with
  | None => None
  | Some (r, n) => Some (if r <? 0 then goto Failed p else goto next p, n)
  end.

Definition close (k : Z) (next : pc) (p : proc) (n : N) : option (proc * N) :=
  match mb_close k n with None => None | Some n => Some (goto next p, n) end.

(** [mbox_recv(fi, &token)] and the test behind it. *)
Definition recv_token (fi : Z) (p : proc) (n : N) : option (proc * N) :=
  match mb_recv fi n with
  | None => None
  | Some (m, n) =>
      let p := set_token_size (size m) p in
      Some (if size m =? 0 then goto Transfer (set_wait false p) else goto Failed p, n)
  end.

(** [token.size = 0; mbox_send(fo, &token); wait = true] *)
Definition send_token (fo : Z) (p : proc) (n : N) : option (proc * N) :=
  let p := set_token_size 0 p in
  match mb_send fo (token_of p) n with
  | None => None
  | Some n => Some (goto Transfer (set_wait true p), n)
  end.

Definition process3 (p : proc) (n : N) : option (proc * N) :=
  match at_ p with
  | Open_q => open_or_exit QUEUE Open_fi p n
  | Open_fi => open_or_exit FLOW_3 Open_fo p n
  | Open_fo => open_or_exit FLOW_4 Top p n
  | Top => Some (goto (if i p <? 1000 then if wait p then Recv_token else Stat else Last) p, n)
  | Recv_token => recv_token FLOW_3 p n
  | Stat =>
      match mb_stat QUEUE n with
      | None => None
      | Some (count, space) =>
          Some (goto (if space <? ACTUAL_MSG_SIZE (size (message (i p))) then Send_token else Transfer) p, n)
      end
  | Send_token => send_token FLOW_4 p n
  | Transfer =>
      match mb_send QUEUE (message (i p)) n with
      | None => None
      | Some n => Some (goto Top (set_i (i p + 1) p), n)
      end
  | Last =>
      match mb_send FLOW_4 (token_of p) n with
      | None => None
      | Some n => Some (goto Close_q p, n)
      end
  | Close_q => close QUEUE Close_fi p n
  | Close_fi => close FLOW_3 Close_fo p n
  | Close_fo => close FLOW_4 Finished p n
  | Finished | Failed => None
  end.

Definition process4 (p : proc) (n : N) : option (proc * N) :=
  match at_ p with
  | Open_q => open_or_exit QUEUE Open_fi p n
  | Open_fi => open_or_exit FLOW_4 Open_fo p n
  | Open_fo => open_or_exit FLOW_3 Top p n
  | Top => Some (goto (if i p <? 1000 then if wait p then Recv_token else Stat else Close_q) p, n)
  | Recv_token => recv_token FLOW_4 p n
  | Stat =>
      match mb_stat QUEUE n with
      | None => None
      | Some (count, space) => Some (goto (if count =? 0 then Send_token else Transfer) p, n)
      end
  | Send_token => send_token FLOW_3 p n
  | Transfer =>
      match mb_recv QUEUE n with
      | None => None
      | Some (m, n) =>
          Some (if verify (128 + i p mod 128) (97 + i p mod 26) m then goto Top (set_i (i p + 1) p) else goto Failed p, n)
      end
  | Close_q => close QUEUE Close_fi p n
  | Close_fi => close FLOW_4 Close_fo p n
  | Close_fo => close FLOW_3 Finished p n
  | Last | Finished | Failed => None
  end.

End Processes.

(** ** The two on the kernel's mailboxes *)

Inductive who : Type := Sender | Receiver.

(** The call that a process makes at a place, if it is one that can wait. *)
Inductive waiting_call : Type := Sends (k : Z) | Receives (k : Z).

Definition pending3 (a : pc) : option waiting_call :=
  match a with
  | Recv_token => Some (Receives FLOW_3)
  | Send_token | Last => Some (Sends FLOW_4)
  | Transfer => Some (Sends QUEUE)
  | _ => None
  end.

Definition pending4 (a : pc) : option waiting_call :=
  match a with
  | Recv_token => Some (Receives FLOW_4)
  | Send_token => Some (Sends FLOW_3)
  | Transfer => Some (Receives QUEUE)
  | _ => None
  end.

(** Where a process is in its call: not in [condition_wait], between its
    [lock_release] and its [block], or on the wait queue. *)
Inductive sleep : Type := Awake | Late | Asleep.

(** The effect of a completed call on the other process: a send signals
    [moreData], a receive wakes all on [moreSpace]. *)
Definition signal (done other : option waiting_call) (h : sleep) : sleep :=
  match h, done, other with
  | Asleep, Some (Sends k), Some (Receives j) => if k =? j then Awake else Asleep
  | Asleep, Some (Receives k), Some (Sends j) => if k =? j then Awake else Asleep
  | _, _, _ => h
  end.

Record flow : Type := mk_flow { f3 : proc; h3 : sleep; f4 : proc; h4 : sleep; f_boxes : list mbox_t }.

(** A step: the whole call when it can complete, otherwise the [lock_release] of
    [condition_wait]; or the [block] after it. *)
Definition flow_step (w : who) (c : flow) : option flow :=
  match w with
  | Sender =>
      match h3 c with
      | Asleep => None
      | Late => Some (mk_flow (f3 c) Asleep (f4 c) (h4 c) (f_boxes c))
      | Awake =>
          match process3 (f3 c) (f_boxes c), pending3 (at_ (f3 c)) with
          | Some (p, n), call => Some (mk_flow p Awake (f4 c) (signal call (pending4 (at_ (f4 c))) (h4 c)) n)
          | None, Some _ => Some (mk_flow (f3 c) Late (f4 c) (h4 c) (f_boxes c))
          | None, None => None
          end
      end
  | Receiver =>
      match h4 c with
      | Asleep => None
      | Late => Some (mk_flow (f3 c) (h3 c) (f4 c) Asleep (f_boxes c))
      | Awake =>
          match process4 (f4 c) (f_boxes c), pending4 (at_ (f4 c)) with
          | Some (p, n), call => Some (mk_flow (f3 c) (signal call (pending3 (at_ (f3 c))) (h3 c)) p Awake n)
          | None, Some _ => Some (mk_flow (f3 c) (h3 c) (f4 c) Late (f_boxes c))
          | None, None => None
          end
      end
  end.

Fixpoint flow_run (ws : list who) (c : flow) : option flow :=
  match ws with
  | [] => Some c
  | w :: ws' => match flow_step w c with Some c' => flow_run ws' c' | None => None end
  end.

(** Both processes start; the mailboxes are as the kernel has them. *)
Definition flow_start (boxes : list mbox_t) : flow :=
  mk_flow (mk_proc Open_q 0 true 0) Awake (mk_proc Open_q 0 false 0) Awake boxes.

(** Nobody is in a mailbox, and nobody uses the three; they may hold anything from
    earlier. *)
Definition at_rest (b : mbox_t) : Prop :=
  box_lock b = LOCK_INIT /\ moreSpace b = CONDITION_INIT /\ moreData b = CONDITION_INIT /\ length (buffer b) = 1024%nat.

Definition unused_boxes (boxes : list mbox_t) : Prop :=
  forall k, 2 <= k <= 4 -> exists b, boxes !! Z.to_nat k = Some b /\ at_rest b /\ used b = 0.

(** ** The two on queues *)

Record config : Type := mk_config { p3 : proc; p4 : proc; boxes_of : net }.

Definition step (w : who) (c : config) : option config :=
  match w with
  | Sender => match process3 (p3 c) (boxes_of c) with Some (p, n) => Some (mk_config p (p4 c) n) | None => None end
  | Receiver => match process4 (p4 c) (boxes_of c) with Some (p, n) => Some (mk_config (p3 c) p n) | None => None end
  end.

Definition start (n : net) : config := mk_config (mk_proc Open_q 0 true 0) (mk_proc Open_q 0 false 0) n.

(** Nobody uses the three mailboxes; they may hold anything from earlier. *)
Definition unused (n : net) : Prop := forall k, k = QUEUE \/ k = FLOW_3 \/ k = FLOW_4 -> b_used (n k) = 0.

(** ** Lemmas on mailboxes *)

(** What a mailbox holds for those who have it open or will open it. *)
Definition contents (b : box) : list msg_t := if b_used b =? 0 then [] else b_msgs b.

Lemma contents_used b : 0 < b_used b -> contents b = b_msgs b.
Proof. intros H. unfold contents. by rewrite (proj2 (Z.eqb_neq _ 0)) by lia. Qed.

Lemma contents_open b : 0 <= b_used b -> contents (open_box b) = contents b.
Proof. intros H. unfold contents, open_box. cbn. by rewrite (proj2 (Z.eqb_neq (b_used b + 1) 0)) by lia. Qed.

Lemma contents_close b : b_used b = 1 -> contents (close_box b) = [].
Proof. intros H. unfold contents, close_box. cbn. by rewrite H. Qed.

Lemma contents_closed b : 1 < b_used b -> contents (close_box b) = contents b.
Proof.
  intros H. unfold contents, close_box. cbn. by rewrite (proj2 (Z.eqb_neq (b_used b - 1) 0)), (proj2 (Z.eqb_neq (b_used b) 0)) by lia.
Qed.

Lemma put_eq k b n : put k b n k = b.
Proof. unfold put. by rewrite Z.eqb_refl. Qed.

Lemma put_ne k j b n : j <> k -> put k b n j = n j.
Proof. intros H. unfold put. by rewrite (proj2 (Z.eqb_neq j k)). Qed.

Definition cost (i : Z) : Z := 132 + i mod 128.

Lemma cost_bounds i : 132 <= cost i <= 259.
Proof. unfold cost. pose proof (Z.mod_pos_bound i 128 ltac:(lia)). lia. Qed.

Lemma message_size i : MSG_SIZE (message i) = cost i.
Proof.
  pose proof (cost_bounds i). unfold MSG_SIZE, MSG_T_HEADER_SIZE, message, cost in *. cbn [size].
  rewrite u32_small, s32_small; lia.
Qed.

Lemma total_cons m ms : total (m :: ms) = 4 + Z.of_nat (length (body m)) + total ms.
Proof. unfold total, stored. cbn [fmap list_fmap concat]. rewrite length_app. pose proof (msg_bytes_length m). lia. Qed.

Lemma total_app ms ms' : total (ms ++ ms') = total ms + total ms'.
Proof. induction ms as [|m ms IH]; [done|]. cbn [app]. rewrite !total_cons. lia. Qed.

(** The messages that are under way, from number [a] on. *)
Definition sent (a n : Z) : list msg_t := message <$> seqZ a n.

Lemma sent_length a n : 0 <= n -> Z.of_nat (length (sent a n)) = n.
Proof. intros. unfold sent. rewrite length_fmap, length_seqZ. lia. Qed.

Lemma sent_cons a n : 0 < n -> sent a n = message a :: sent (a + 1) (n - 1).
Proof. intros. unfold sent. rewrite seqZ_cons by lia. cbn. do 2 f_equal; f_equal; lia. Qed.

Lemma sent_snoc a n : 0 <= n -> sent a (n + 1) = sent a n ++ [message (a + n)].
Proof. intros. unfold sent. rewrite seqZ_app by lia. rewrite fmap_app. done. Qed.

Lemma total_message a ms : total (message a :: ms) = cost a + total ms.
Proof.
  rewrite total_cons. unfold message, cost. cbn [body]. rewrite length_replicate.
  pose proof (Z.mod_pos_bound a 128 ltac:(lia)). lia.
Qed.

Lemma total_sent n : forall a, 0 <= n -> 132 * n <= total (sent a n) <= 259 * n.
Proof.
  intros a Hn. revert a. apply (natlike_ind (fun n => forall a, 132 * n <= total (sent a n) <= 259 * n)); [done| |done].
  intros k Hk IH a. rewrite sent_cons by lia. rewrite total_message. specialize (IH (a + 1)).
  replace (Z.succ k - 1) with k by lia. pose proof (cost_bounds a). lia.
Qed.

(** The token. *)
Definition tok : msg_t := mk_msg 0 [].

Lemma total_tokens k : 0 <= k -> total (replicate (Z.to_nat k) tok) = 4 * k.
Proof.
  intros H. replace k with (Z.of_nat (Z.to_nat k)) at 2 by lia. induction (Z.to_nat k) as [|n IH]; [done|].
  cbn [replicate]. rewrite total_cons. cbn [body tok length]. lia.
Qed.

Lemma send_ok m b : MSG_SIZE m <= BUFFER_SIZE - total (b_msgs b) -> send_box m b = Some (mk_box (b_used b) (b_msgs b ++ [m])).
Proof. intros H. unfold send_box, space. by rewrite (proj2 (Z.ltb_ge _ _)) by lia. Qed.

Lemma send_inv m b b' : send_box m b = Some b' -> b' = mk_box (b_used b) (b_msgs b ++ [m]) /\ MSG_SIZE m <= BUFFER_SIZE - total (b_msgs b).
Proof. unfold send_box, space. destruct (Z.ltb_spec (BUFFER_SIZE - total (b_msgs b)) (MSG_SIZE m)); [done|]. intros [= <-]. by split. Qed.

Lemma verify_message j : verify (128 + j mod 128) (97 + j mod 26) (message j) = true.
Proof.
  unfold verify, message. cbn [size body]. rewrite Z.eqb_refl. cbn [andb]. apply forallb_forall. intros x Hx.
  apply list_elem_of_In, elem_of_seqZ in Hx. rewrite lookup_replicate_2 by lia. cbn. apply Z.eqb_refl.
Qed.

(** ** The invariant *)

(** Places of a process as numbers, so that the accounts are linear. *)
Definition tr (a : pc) : Z := match a with Transfer => 1 | _ => 0 end.
Definition st (a : pc) : Z := match a with Send_token => 1 | _ => 0 end.
Definition fin (a : pc) : Z := match a with Close_q | Close_fi | Close_fo | Finished => 1 | _ => 0 end.
Definition bz (w : bool) : Z := if w then 1 else 0.

(** Which of the mailboxes a process has open: the queue, its incoming and its
    outgoing tokens. *)
Definition has_q (a : pc) : Z := match a with Open_q | Close_fi | Close_fo | Finished => 0 | _ => 1 end.
Definition has_fi (a : pc) : Z := match a with Open_q | Open_fi | Close_fo | Finished => 0 | _ => 1 end.
Definition has_fo (a : pc) : Z := match a with Open_q | Open_fi | Open_fo | Finished => 0 | _ => 1 end.

(** The loop variable and [wait] fit the place; [w0] is the first value of
    [wait]. *)
Definition phase (w0 : bool) (p : proc) : Prop :=
  token_size p = 0 /\ 0 <= i p <= 1000 /\
  match at_ p with
  | Open_q | Open_fi | Open_fo => i p = 0 /\ wait p = w0
  | Top => True
  | Recv_token => i p < 1000 /\ wait p = true
  | Stat | Send_token => i p < 1000 /\ wait p = false
  | Transfer => i p < 1000
  | Last | Close_q | Close_fi | Close_fo | Finished => i p = 1000
  | Failed => False
  end.

(** The accounts: [k3] and [k4] tokens are under way to process3 and process4,
    [len] messages to process4. *)
Definition accounts (a3 a4 : pc) (w3 w4 : bool) (k3 k4 len : Z) : Prop :=
  k3 + k4 = bz w3 + bz w4 - 1 + fin a3
  /\ (1 <= k3 -> len + tr a3 <= tr a4)
  /\ (1 <= st a4 -> len + tr a3 <= 1)
  /\ (1 <= tr a4 -> bz w4 = 0 -> 1 <= len)
  /\ (1 <= k4 -> fin a3 = 0 -> 1 + tr a4 <= len)
  /\ (1 <= st a3 -> 2 + tr a4 <= len).

Record inv (c : config) (k3 k4 : Z) : Prop := mk_inv {
  in_p3 : phase true (p3 c);
  in_p4 : phase false (p4 c) /\ at_ (p4 c) <> Last;
  in_le : i (p4 c) <= i (p3 c);
  in_used_q : b_used (boxes_of c QUEUE) = has_q (at_ (p3 c)) + has_q (at_ (p4 c));
  in_used_3 : b_used (boxes_of c FLOW_3) = has_fi (at_ (p3 c)) + has_fo (at_ (p4 c));
  in_used_4 : b_used (boxes_of c FLOW_4) = has_fo (at_ (p3 c)) + has_fi (at_ (p4 c));
  in_q : contents (boxes_of c QUEUE) = sent (i (p4 c)) (i (p3 c) - i (p4 c));
  in_3 : contents (boxes_of c FLOW_3) = replicate (Z.to_nat k3) tok;
  in_4 : contents (boxes_of c FLOW_4) = replicate (Z.to_nat k4) tok;
  in_fits : total (sent (i (p4 c)) (i (p3 c) - i (p4 c))) <= BUFFER_SIZE;
  in_few : 0 <= k3 /\ 0 <= k4 /\ k3 + k4 <= 1 + fin (at_ (p3 c));
  in_acc : fin (at_ (p4 c)) = 0 ->
    accounts (at_ (p3 c)) (at_ (p4 c)) (wait (p3 c)) (wait (p4 c)) k3 k4 (i (p3 c) - i (p4 c));
  in_room : at_ (p3 c) = Transfer -> wait (p3 c) = false ->
    total (sent (i (p4 c)) (i (p3 c) - i (p4 c))) + cost (i (p3 c)) <= BUFFER_SIZE
}.

Lemma flow_inv_start n : unused n -> inv (start n) 0 0.
Proof.
  intros H. constructor; cbn; unfold contents; rewrite ?H by (unfold QUEUE, FLOW_3, FLOW_4; tauto); try done; try lia.
  all: try (split; done).
Qed.

Lemma tr_bounds a : 0 <= tr a <= 1.
Proof. destruct a; cbn; lia. Qed.

Lemma has_bounds a : 0 <= has_q a <= 1 /\ 0 <= has_fi a <= 1 /\ 0 <= has_fo a <= 1.
Proof. destruct a; cbn; lia. Qed.

Lemma phase_fin w0 p : phase w0 p -> fin (at_ p) = 0 \/ fin (at_ p) = 1 /\ i p = 1000.
Proof. intros (_ & _ & H). destruct (at_ p); cbn; auto. Qed.

Lemma phase_places w0 p :
  phase w0 p -> (1 <= tr (at_ p) -> i p < 1000) /\ (1 <= st (at_ p) -> i p < 1000 /\ bz (wait p) = 0).
Proof. intros (_ & _ & H). destruct (at_ p); cbn in *; try lia. destruct H as [? ->]. cbn. lia. Qed.

(** A process that is past its first iteration has all mailboxes open until it
    finishes. *)
Lemma phase_has w0 p :
  phase w0 p -> 0 < i p -> fin (at_ p) = 1 \/ has_q (at_ p) = 1 /\ has_fi (at_ p) = 1 /\ has_fo (at_ p) = 1.
Proof. intros (_ & _ & H) Hi. destruct (at_ p); cbn in *; auto; lia. Qed.

Lemma bz_bounds w : 0 <= bz w <= 1.
Proof. destruct w; cbn; lia. Qed.

(** The calls on queues. *)
Ltac on_queues :=
  unfold open_or_exit, close, recv_token, send_token; cbn [mb_open mb_close mb_stat mb_send mb_recv queue_boxes];
  change (QUEUE <? 0) with false; change (FLOW_3 <? 0) with false; change (FLOW_4 <? 0) with false; cbv iota.

Ltac boxes :=
  cbn [p3 p4 boxes_of at_ i wait token_size goto set_i set_wait set_token_size] in *;
  repeat first [rewrite put_eq | rewrite put_ne by (unfold QUEUE, FLOW_3, FLOW_4; lia)].

Lemma token_fits b k : 0 <= k <= 2 -> b_msgs b = replicate (Z.to_nat k) tok ->
  send_box tok b = Some (mk_box (b_used b) (replicate (Z.to_nat (k + 1)) tok)).
Proof.
  intros Hk E. rewrite send_ok.
  - rewrite E. replace (Z.to_nat (k + 1)) with (Z.to_nat k + 1)%nat by lia. by rewrite replicate_add.
  - rewrite E, total_tokens by lia. change (MSG_SIZE tok) with 4. unfold BUFFER_SIZE. lia.
Qed.

(** The fields that a step does not touch, and the ones that are arithmetic. *)
Ltac account :=
  constructor; boxes; unfold BUFFER_SIZE in *; cbn [has_q has_fi has_fo tr st fin bz b_used open_box close_box] in *;
  try done; try (split; done); try lia; try (split_and!; cbn; (done || lia));
  try (split; [split_and!; cbn; (done || lia)|done]).

Lemma step3_inv c k3 k4 c' : inv c k3 k4 -> step Sender c = Some c' -> exists k3' k4', inv c' k3' k4'.
Proof.
  destruct c as [[a3 i3 w3 t3] [a4 i4 w4 t4] n]. intros [P3 P4 Hle Uq U3 U4 Cq C3 C4 Ht Hf Ha Hr]. unfold step, process3. on_queues.
  cbn [p3 p4 boxes_of at_ i wait token_size] in *. unfold BUFFER_SIZE in *.
  pose proof (tr_bounds a4) as T4. pose proof (has_bounds a4) as H4. pose proof (phase_fin _ _ (proj1 P4)) as F4. cbn [at_ i] in F4.
  pose proof (phase_places _ _ (proj1 P4)) as G4. pose proof (bz_bounds w4) as B4. cbn [at_ i wait] in G4.
  pose proof (phase_has _ _ (proj1 P4)) as Z4. cbn [at_ i] in Z4. pose proof (total_sent (i3 - i4) i4 ltac:(lia)) as TS.
  destruct P3 as (Et & Hi & Ph). cbn [token_size i at_ wait] in *. subst t3.
  destruct a3; cbn [has_q has_fi has_fo tr st fin] in *; intros E; simplify_eq.
  - exists k3, k4. account. rewrite contents_open; [done|lia].
  - exists k3, k4. account. rewrite contents_open; [done|lia].
  - exists k3, k4. account. rewrite contents_open; [done|lia].
  - exists k3, k4. destruct (Z.ltb_spec i3 1000); destruct w3; account.
  - destruct Ph as [Ph ->]. rewrite contents_used in C3 by lia. unfold recv_box in E. rewrite C3 in E.
    destruct (decide (k3 = 0)) as [->|Hk]; [done|]. replace (Z.to_nat k3) with (S (Z.to_nat (k3 - 1))) in E by lia.
    cbn in E. simplify_eq. assert (Hl : fin a4 = 0) by lia. specialize (Ha Hl). unfold accounts in Ha. cbn in Ha.
    exists (k3 - 1), k4. account.
    + rewrite contents_used by (cbn; lia). done.
    + intros _. unfold accounts. cbn. lia.
    + intros _ _. pose proof (cost_bounds i3). lia.
  - exists k3, k4. destruct Ph as [Ph ->]. unfold space, BUFFER_SIZE. rewrite contents_used in Cq by lia. rewrite Cq.
    assert (Ez : ACTUAL_MSG_SIZE (size (message i3)) = cost i3) by (unfold ACTUAL_MSG_SIZE, message, cost; cbn [size]; lia).
    rewrite Ez. pose proof (cost_bounds i3). 
    destruct (Z.ltb_spec (1024 - total (sent i4 (i3 - i4))) (cost i3)); account.
    + by rewrite contents_used by lia.
    + intros Hl. specialize (Ha Hl). unfold accounts in *. cbn in *. lia.
    + by rewrite contents_used by lia.
    + intros Hl. specialize (Ha Hl). unfold accounts in *. cbn in *. lia.
  - destruct Ph as [Ph ->]. rewrite contents_used in C4 by lia.
    assert (Hl : fin a4 = 0) by lia. specialize (Ha Hl). unfold accounts in Ha. cbn in Ha.
    change (token_of _) with tok in E. rewrite (token_fits _ k4) in E by (done || lia). simplify_eq.
    exists k3, (k4 + 1). account.
    + by rewrite contents_used by (cbn; lia).
    + intros _. unfold accounts. cbn. lia.
  - rewrite contents_used in Cq by lia. destruct (send_box _ _) as [b|] eqn:Es; [|done].
    apply send_inv in Es as [-> Es]. rewrite message_size, Cq in Es. simplify_eq.
    assert (Hl : fin a4 = 0) by lia. specialize (Ha Hl). unfold accounts in Ha. cbn in Ha.
    assert (Esnoc : sent i4 (i3 + 1 - i4) = sent i4 (i3 - i4) ++ [message i3]).
    { replace (i3 + 1 - i4) with (i3 - i4 + 1) by lia. rewrite sent_snoc by lia. do 2 f_equal. f_equal. lia. }
    exists k3, k4. account.
    + rewrite contents_used by (cbn; lia). cbn [b_msgs]. by rewrite Cq.
    + rewrite Esnoc, total_app, total_message. change (total []) with 0. lia.
    + intros _. unfold accounts. cbn. lia.
  - rewrite contents_used in C4 by lia.
    change (token_of _) with tok in E. rewrite (token_fits _ k4) in E by (done || lia). simplify_eq.
    exists k3, (k4 + 1). account.
    + by rewrite contents_used by (cbn; lia).
    + intros Hl. specialize (Ha Hl). unfold accounts in *. cbn in *. lia.
  - exists k3, k4. account. destruct (decide (1 < b_used (n QUEUE))); [by rewrite contents_closed|].
    assert (i4 = 1000) as -> by lia. by rewrite contents_close by lia.
  - destruct (decide (1 < b_used (n FLOW_3))); [exists k3, k4; account; by rewrite contents_closed|].
    exists 0, k4. account. by rewrite contents_close by lia.
  - destruct (decide (1 < b_used (n FLOW_4))); [exists k3, k4; account; by rewrite contents_closed|].
    exists k3, 0. account. by rewrite contents_close by lia.
Qed.

Lemma step4_inv c k3 k4 c' : inv c k3 k4 -> step Receiver c = Some c' -> exists k3' k4', inv c' k3' k4'.
Proof.
  destruct c as [[a3 i3 w3 t3] [a4 i4 w4 t4] n]. intros [P3 [P4 HL] Hle Uq U3 U4 Cq C3 C4 Ht Hf Ha Hr]. unfold step, process4. on_queues.
  cbn [p3 p4 boxes_of at_ i wait token_size] in *. unfold BUFFER_SIZE in *.
  pose proof (tr_bounds a3) as T3. pose proof (has_bounds a3) as H3. pose proof (phase_fin _ _ P3) as F3.
  pose proof (phase_places _ _ P3) as G3. pose proof (bz_bounds w3) as B3.
  pose proof (total_sent (i3 - i4) i4 ltac:(lia)) as TS. pose proof (proj1 (proj2 P3)) as I3.
  cbn [at_ i wait] in F3, G3, I3.
  destruct P4 as (Et & Hi & Ph). cbn [token_size i at_ wait] in *. subst t4.
  destruct a4; cbn [has_q has_fi has_fo tr st fin] in *; intros E; simplify_eq.
  - exists k3, k4. account. rewrite contents_open; [done|lia].
  - exists k3, k4. account. rewrite contents_open; [done|lia].
  - exists k3, k4. account. rewrite contents_open; [done|lia].
  - exists k3, k4. specialize (Ha eq_refl). unfold accounts in Ha. cbn in Ha.
    destruct (Z.ltb_spec i4 1000); destruct w4; account.

  - destruct Ph as [Ph ->]. rewrite contents_used in C4 by lia. unfold recv_box in E. rewrite C4 in E.
    destruct (decide (k4 = 0)) as [->|Hk]; [done|]. replace (Z.to_nat k4) with (S (Z.to_nat (k4 - 1))) in E by lia.
    cbn in E. simplify_eq. specialize (Ha eq_refl). unfold accounts in Ha. cbn in Ha.
    exists k3, (k4 - 1). account.
    + by rewrite contents_used by (cbn; lia).
    + intros _. unfold accounts. cbn. lia.
  - exists k3, k4. destruct Ph as [Ph ->]. rewrite contents_used in Cq by lia. rewrite Cq, sent_length by lia.
    specialize (Ha eq_refl). unfold accounts in Ha. cbn in Ha.
    destruct (Z.eqb_spec (i3 - i4) 0); account.
    + by rewrite contents_used by lia.
    + intros _. unfold accounts. cbn. lia.
    + by rewrite contents_used by lia.
    + intros _. unfold accounts. cbn. lia.
  - destruct Ph as [Ph ->]. rewrite contents_used in C3 by lia.
    specialize (Ha eq_refl). unfold accounts in Ha. cbn in Ha.
    change (token_of _) with tok in E. rewrite (token_fits _ k3) in E by (done || lia). simplify_eq.
    exists (k3 + 1), k4. account.
    + by rewrite contents_used by (cbn; lia).
    + intros _. unfold accounts. cbn. lia.
  - rewrite contents_used in Cq by lia. unfold recv_box in E. rewrite Cq in E.
    destruct (decide (i3 - i4 = 0)) as [E0|Hn]; [by rewrite E0 in E|]. rewrite sent_cons in E by lia.
    rewrite verify_message in E. simplify_eq. specialize (Ha eq_refl). unfold accounts in Ha. cbn in Ha.
    rewrite (sent_cons i4) in Cq, Ht, Hr by lia. rewrite total_message in Ht, Hr. pose proof (cost_bounds i4).
    replace (i3 - i4 - 1) with (i3 - (i4 + 1)) in * by lia.
    exists k3, k4. account.
    + by rewrite contents_used by (cbn; lia).
    + intros _. unfold accounts. cbn. lia.
    + intros A1 A2. specialize (Hr A1 A2). lia.
  - exists k3, k4. account. destruct (decide (1 < b_used (n QUEUE))); [by rewrite contents_closed|].
    replace i3 with 1000 by lia. by rewrite contents_close by lia.
  - destruct (decide (1 < b_used (n FLOW_4))); [exists k3, k4; account; by rewrite contents_closed|].
    exists k3, 0. account. by rewrite contents_close by lia.
  - destruct (decide (1 < b_used (n FLOW_3))); [exists k3, k4; account; by rewrite contents_closed|].
    exists 0, k4. account. by rewrite contents_close by lia.
Qed.

(** ** Progress *)

(** What a process can be waiting for. *)
Lemma sender_waits c k3 k4 : inv c k3 k4 -> step Sender c = None ->
  at_ (p3 c) = Finished \/ at_ (p3 c) = Recv_token /\ wait (p3 c) = true /\ k3 = 0
  \/ at_ (p3 c) = Transfer /\ wait (p3 c) = true /\ BUFFER_SIZE < total (sent (i (p4 c)) (i (p3 c) - i (p4 c))) + cost (i (p3 c)).
Proof.
  destruct c as [[a3 i3 w3 t3] [a4 i4 w4 t4] n]. intros [P3 [P4 HL] Hle Uq U3 U4 Cq C3 C4 Ht Hf Ha Hr] E.
  cbn [p3 p4 boxes_of at_ i wait token_size] in *. pose proof (has_bounds a4).
  destruct P3 as (Et & Hi & Ph). cbn [token_size i at_ wait] in *. subst t3. revert E. unfold step, process3. on_queues. intros E.
  destruct a3; cbn [p3 p4 boxes_of at_ i wait has_q has_fi has_fo fin] in *; auto; try done.
  - destruct Ph as [Ph ->]. right; left. split_and!; try done. rewrite contents_used in C3 by lia.
    unfold recv_box in E. rewrite C3 in E.
    destruct (decide (k3 = 0)); [done|]. by replace (Z.to_nat k3) with (S (Z.to_nat (k3 - 1))) in E by lia.
  - rewrite contents_used in C4 by lia. change (token_of _) with tok in E.
    by rewrite (token_fits _ k4) in E by (done || lia).
  - right; right. rewrite contents_used in Cq by lia. unfold send_box, space in E. rewrite message_size, Cq in E.
    destruct (Z.ltb_spec (BUFFER_SIZE - total (sent i4 (i3 - i4))) (cost i3)); [|done].
    destruct w3; [|specialize (Hr eq_refl eq_refl); lia]. split_and!; try done. lia.
  - rewrite contents_used in C4 by lia. change (token_of _) with tok in E. by rewrite (token_fits _ k4) in E by (done || lia).
Qed.

Lemma receiver_waits c k3 k4 : inv c k3 k4 -> step Receiver c = None ->
  at_ (p4 c) = Finished \/ at_ (p4 c) = Recv_token /\ wait (p4 c) = true /\ k4 = 0
  \/ at_ (p4 c) = Transfer /\ i (p4 c) = i (p3 c).
Proof.
  destruct c as [[a3 i3 w3 t3] [a4 i4 w4 t4] n]. intros [P3 [P4 HL] Hle Uq U3 U4 Cq C3 C4 Ht Hf Ha Hr] E.
  cbn [p3 p4 boxes_of at_ i wait token_size] in *. pose proof (has_bounds a3). pose proof (phase_fin _ _ P3) as F3. cbn [at_ i] in F3.
  destruct P4 as (Et & Hi & Ph). cbn [token_size i at_ wait] in *. subst t4. revert E. unfold step, process4. on_queues. intros E.
  destruct a4; cbn [p3 p4 boxes_of at_ i wait has_q has_fi has_fo fin] in *; auto; try done.
  - destruct Ph as [Ph ->]. right; left. split_and!; try done. rewrite contents_used in C4 by lia.
    unfold recv_box in E. rewrite C4 in E.
    destruct (decide (k4 = 0)); [done|]. by replace (Z.to_nat k4) with (S (Z.to_nat (k4 - 1))) in E by lia.
  - rewrite contents_used in C3 by lia. change (token_of _) with tok in E.
    by rewrite (token_fits _ k3) in E by (done || lia).
  - right; right. split; [done|]. rewrite contents_used in Cq by lia. unfold recv_box in E. rewrite Cq in E.
    destruct (decide (i4 = i3)); [done|]. by rewrite sent_cons in E by lia.
Qed.

(** While they have not both finished, one of them can go on. *)
Lemma progress c k3 k4 : inv c k3 k4 -> (forall w, step w c = None) -> at_ (p3 c) = Finished /\ at_ (p4 c) = Finished.
Proof.
  intros I H. pose proof (sender_waits _ _ _ I (H Sender)) as W3. pose proof (receiver_waits _ _ _ I (H Receiver)) as W4.
  destruct I as [P3 [P4 _] Hle _ _ _ _ _ _ _ Hf Ha _]. pose proof (total_sent (i (p3 c) - i (p4 c)) (i (p4 c)) ltac:(lia)) as TS.
  pose proof (cost_bounds (i (p3 c))). unfold BUFFER_SIZE in *. unfold phase, accounts in *.
  destruct W3 as [E3|[(E3 & Ew3 & K3)|(E3 & Ew3 & K3)]]; destruct W4 as [E4|[(E4 & Ew4 & K4)|(E4 & K4)]];
    rewrite ?E3, ?E4, ?Ew3, ?Ew4 in *; cbn in *; try lia; try tauto.
  all: pose proof (bz_bounds (wait (p3 c))); pose proof (bz_bounds (wait (p4 c))); try lia.
Qed.

(** ** The kernel's mailboxes refine the queues *)

(** Mailbox [b] is the queue [x]; one that nobody uses may hold anything. *)
Definition is_box (b : mbox_t) (x : box) : Prop :=
  at_rest b /\ used b = b_used x /\ (b_used x <> 0 -> holds b (b_msgs x)).

Definition refines (l : list mbox_t) (n : net) : Prop :=
  forall k, 2 <= k <= 4 -> exists b, l !! Z.to_nat k = Some b /\ is_box b (n k).

Lemma refines_put l n k b x : 2 <= k <= 4 -> refines l n -> is_box b x -> refines (<[Z.to_nat k := b]> l) (put k x n).
Proof.
  intros Hk R Hb j Hj. destruct (decide (j = k)) as [->|Hne].
  - destruct (R k Hk) as (b0 & E & _). exists b. rewrite put_eq. split; [|done].
    apply list_lookup_insert_eq. by eapply lookup_lt_Some.
  - rewrite put_ne by done. rewrite list_lookup_insert_ne by lia. by apply R.
Qed.

Lemma holds_buffer b ms : holds b ms -> length (buffer b) = 1024%nat.
Proof. by intros [H _]. Qed.

Lemma open_refines l n k :
  2 <= k <= 4 -> refines l n -> 0 <= b_used (n k) < 100 ->
  exists l', mb_open k l = Some (k, l') /\ refines l' (put k (open_box (n k)) n).
Proof.
  intros Hk R Hu. destruct (R k Hk) as (b & E & (A1 & A2 & A3 & A4) & U & Hh).
  destruct (decide (b_used (n k) = 0)) as [H0|H0].
  - destruct (mbox_open_empties (mk_mst quiet_threads l) k b) as (b' & Eo & Hh' & U' & L' & S' & D'); try done; [lia|unfold MAX_MBOX; lia|lia|].
    eexists. split; [cbn [mb_open kernel_boxes]; unfold call; rewrite Eo; reflexivity|]. apply refines_put; [done|done|].
    unfold open_box. rewrite H0. split; [split_and!; [done|congruence|congruence|by eapply holds_buffer]|]. by split.
  - exists (<[Z.to_nat k := set_used (used b + 1) b]> l). split.
    + cbn [mb_open kernel_boxes]. unfold call. set (s := mk_mst quiet_threads l).
      rewrite <- (start_put s k b E). unfold mbox_open. rewrite (proj2 (Z.ltb_lt k MAX_MBOX)), (proj2 (Z.leb_le 0 k)) by (unfold MAX_MBOX; lia).
      cbn [andb]. rewrite (acquire_box_ok s k b ltac:(lia) E) by done. rewrite (boxes_ok s k b ltac:(lia) E). cbn [used set_box_lock].
      rewrite U, (proj2 (Z.eqb_neq _ _) H0). cbn [when]. rewrite bind_ret. rewrite (put_box_ok s k b ltac:(lia) E).
      rewrite (release_box_ok s k b ltac:(lia) E) by done. unfold ret. cbn [Q]. do 4 f_equal. cbn. rewrite U, s32_small by lia. destruct b. cbn in *. by subst.
    + apply refines_put; [done|done|]. unfold open_box. rewrite (proj2 (Z.eqb_neq _ _) H0).
      split; [done|]. split; [cbn; lia|]. intros _. cbn [b_msgs]. specialize (Hh H0). by destruct b.
Qed.

Lemma close_refines l n k :
  2 <= k <= 4 -> refines l n -> 0 < b_used (n k) < 100 ->
  exists l', mb_close k l = Some l' /\ refines l' (put k (close_box (n k)) n).
Proof.
  intros Hk R Hu. destruct (R k Hk) as (b & E & (A1 & A2 & A3 & A4) & U & Hh).
  exists (<[Z.to_nat k := set_used (used b - 1) b]> l). split.
  - cbn [mb_close kernel_boxes]. unfold call. set (s := mk_mst quiet_threads l).
    rewrite <- (start_put s k b E). unfold mbox_close. rewrite (acquire_box_ok s k b ltac:(lia) E) by done.
    rewrite (put_box_ok s k b ltac:(lia) E). rewrite (release_box_ok s k b ltac:(lia) E) by done. unfold ret. cbn [Q fmap option_fmap option_map snd].
    do 2 f_equal. cbn. rewrite U, s32_small by lia. destruct b. cbn in *. by subst.
  - apply refines_put; [done|done|]. split; [done|]. split; [cbn; lia|]. intros _. cbn [b_msgs close_box].
    specialize (Hh ltac:(lia)). by destruct b.
Qed.

Lemma stat_refines l n k :
  2 <= k <= 4 -> refines l n -> b_used (n k) <> 0 ->
  mb_stat k l = Some (Z.of_nat (length (b_msgs (n k))), space (n k)).
Proof.
  intros Hk R Hu. destruct (R k Hk) as (b & E & (A1 & _) & _ & Hh). specialize (Hh Hu).
  cbn [mb_stat kernel_boxes]. unfold call. by rewrite (mbox_stat_run (mk_mst quiet_threads l) k b ltac:(lia) E (b_msgs (n k)) A1 Hh).
Qed.

(** A call that waits does not complete. *)
Lemma waits_none {A} {B} (m : M mst B) (f : B -> mbox_t -> mbox_t) q (s : mst) :
  match (w <-- m ;; put_box q (f w) ;;; ret (@Blocked A)) s with Ret (Done a, s') => Some (a, Q s') | _ => None end = None.
Proof.
  unfold bind, put_box, ret. destruct (m s) as [[w s1]| | | |]; try done. by destruct (if q <? 0 then None else Q s1 !! Z.to_nat q).
Qed.

Lemma send_refines l n k m :
  2 <= k <= 4 -> refines l n -> b_used (n k) <> 0 -> wf_msg m -> size m <= 1020 ->
  match send_box m (n k) with
  | Some x => exists l', mb_send k m l = Some l' /\ refines l' (put k x n)
  | None => mb_send k m l = None
  end.
Proof.
  intros Hk R Hu Hm Hs. destruct (R k Hk) as (b & E & (A1 & A2 & A3 & A4) & U & Hh). specialize (Hh Hu).
  assert (Ez : MSG_SIZE m = 4 + size m).
  { pose proof Hm as Hm'. unfold wf_msg in Hm'. unfold MSG_SIZE, MSG_T_HEADER_SIZE. rewrite u32_small, s32_small; lia. }
  unfold send_box, space. rewrite Ez. destruct (Z.ltb_spec (BUFFER_SIZE - total (b_msgs (n k))) (4 + size m)) as [Hlt|Hge].
  - cbn [mb_send kernel_boxes]. unfold call. set (s := mk_mst quiet_threads l).
    rewrite <- (start_put s k b E). unfold mbox_send. rewrite (acquire_box_ok s k b ltac:(lia) E) by done. rewrite (boxes_ok s k b ltac:(lia) E).
    change (space_available (set_box_lock held b)) with (space_available b).
    rewrite (space_available_total _ _ Hh), Ez, (proj2 (Z.ltb_lt _ _) Hlt).
    match goal with |- context [bind ?m _ ?s0] => pose proof (waits_none (A := Z) m (fun w b => set_moreSpace (snd w) (set_box_lock (fst w) b)) k s0) as W end.
    cbn [Q] in W |- *. by rewrite W.
  - destruct (mbox_send_run (mk_mst quiet_threads l) k b ltac:(lia) E m (b_msgs (n k)) CONDITION_INIT quiet_threads A1 Hh Hm Hge)
      as (b' & Es & Hh' & L' & S' & U' & D'); [by rewrite A3|].
    eexists. split; [cbn [mb_send kernel_boxes]; unfold call; rewrite Es; reflexivity|]. apply refines_put; [done|done|].
    split; [split_and!; [done|congruence|done|by eapply holds_buffer]|]. split; [cbn; congruence|]. intros _. exact Hh'.
Qed.

Lemma recv_refines l n k :
  2 <= k <= 4 -> refines l n -> b_used (n k) <> 0 ->
  match recv_box (n k) with
  | Some (m, x) => exists l', mb_recv k l = Some (m, l') /\ refines l' (put k x n)
  | None => mb_recv k l = None
  end.
Proof.
  intros Hk R Hu. destruct (R k Hk) as (b & E & (A1 & A2 & A3 & A4) & U & Hh). specialize (Hh Hu).
  unfold recv_box. destruct (b_msgs (n k)) as [|m ms] eqn:Em.
  - cbn [mb_recv kernel_boxes]. unfold call. set (s := mk_mst quiet_threads l).
    rewrite <- (start_put s k b E). unfold mbox_recv. rewrite (acquire_box_ok s k b ltac:(lia) E) by done. rewrite (boxes_ok s k b ltac:(lia) E).
    destruct Hh as (_ & Hc & _). change (box_count (set_box_lock held b)) with (box_count b). rewrite Hc. change (Z.of_nat (length (@nil msg_t)) =? 0) with true. cbv iota.
    match goal with |- context [bind ?m _ ?s0] => apply (waits_none (A := msg_t) m (fun w b => set_moreData (snd w) (set_box_lock (fst w) b)) k s0) end.
  - destruct (mbox_recv_run (mk_mst quiet_threads l) k b ltac:(lia) E m ms CONDITION_INIT quiet_threads A1 Hh)
      as (b' & Es & Hh' & L' & S' & U' & D'); [by rewrite A2|].
    eexists. split; [cbn [mb_recv kernel_boxes]; unfold call; rewrite Es; reflexivity|]. apply refines_put; [done|done|].
    split; [split_and!; [done|done|congruence|by eapply holds_buffer]|]. split; [cbn; congruence|]. intros _. exact Hh'.
Qed.

(** The result of a process on the kernel's mailboxes follows the one on queues. *)
Definition follows (o : option (proc * list mbox_t)) (a : option (proc * net)) : Prop :=
  match a with
  | Some (p, n) => exists l, o = Some (p, l) /\ refines l n
  | None => o = None
  end.

Lemma open_follows l n k next p :
  2 <= k <= 4 -> refines l n -> 0 <= b_used (n k) < 100 -> follows (open_or_exit k next p l) (open_or_exit k next p n).
Proof.
  intros Hk R Hu. destruct (open_refines l n k Hk R Hu) as (l' & E & R'). unfold open_or_exit. rewrite E.
  cbn [mb_open queue_boxes follows]. by exists l'.
Qed.

Lemma close_follows l n k next p :
  2 <= k <= 4 -> refines l n -> 0 < b_used (n k) < 100 -> follows (close k next p l) (close k next p n).
Proof.
  intros Hk R Hu. destruct (close_refines l n k Hk R Hu) as (l' & E & R'). unfold close. rewrite E.
  cbn [mb_close queue_boxes follows]. by exists l'.
Qed.

Lemma recv_token_follows l n k p :
  2 <= k <= 4 -> refines l n -> b_used (n k) <> 0 -> follows (recv_token k p l) (recv_token k p n).
Proof.
  intros Hk R Hu. pose proof (recv_refines l n k Hk R Hu) as Hr. unfold recv_token. cbn [mb_recv queue_boxes].
  destruct (recv_box (n k)) as [[m x]|]; [|by rewrite Hr]. destruct Hr as (l' & -> & R'). by exists l'.
Qed.

Lemma send_follows (g : proc) l n k m :
  2 <= k <= 4 -> refines l n -> b_used (n k) <> 0 -> wf_msg m -> size m <= 1020 ->
  follows (match mb_send k m l with None => None | Some l' => Some (g, l') end)
    (match mb_send k m n with None => None | Some n' => Some (g, n') end).
Proof.
  intros Hk R Hu Hm Hs. pose proof (send_refines l n k m Hk R Hu Hm Hs) as Hr. cbn [mb_send queue_boxes].
  destruct (send_box m (n k)) as [x|]; [|by rewrite Hr]. destruct Hr as (l' & -> & R'). by exists l'.
Qed.

Lemma message_wf j : wf_msg (message j) /\ size (message j) <= 1020.
Proof.
  pose proof (Z.mod_pos_bound j 128 ltac:(lia)). unfold wf_msg, message. cbn [size body]. rewrite length_replicate. lia.
Qed.

(** A mailbox that a process has open is used, by at most two. *)
Lemma inv_used c k3 k4 : inv c k3 k4 ->
  (0 <= b_used (boxes_of c QUEUE) <= 2 /\ has_q (at_ (p3 c)) + has_q (at_ (p4 c)) = b_used (boxes_of c QUEUE))
  /\ (0 <= b_used (boxes_of c FLOW_3) <= 2 /\ has_fi (at_ (p3 c)) + has_fo (at_ (p4 c)) = b_used (boxes_of c FLOW_3))
  /\ (0 <= b_used (boxes_of c FLOW_4) <= 2 /\ has_fo (at_ (p3 c)) + has_fi (at_ (p4 c)) = b_used (boxes_of c FLOW_4)).
Proof.
  intros I. pose proof (has_bounds (at_ (p3 c))). pose proof (has_bounds (at_ (p4 c))).
  rewrite (in_used_q _ _ _ I), (in_used_3 _ _ _ I), (in_used_4 _ _ _ I). lia.
Qed.

Lemma process3_follows c k3 k4 l : inv c k3 k4 -> refines l (boxes_of c) -> follows (process3 (p3 c) l) (process3 (p3 c) (boxes_of c)).
Proof.
  intros I R. pose proof (inv_used _ _ _ I) as U. pose proof (has_bounds (at_ (p4 c))) as Hb. pose proof (in_p3 _ _ _ I) as (Et & _).
  unfold process3, send_token. destruct (at_ (p3 c)) eqn:Ea; cbn [has_q has_fi has_fo] in U;
    try (apply open_follows; [unfold QUEUE, FLOW_3, FLOW_4; lia|done|lia]);
    try (apply close_follows; [unfold QUEUE, FLOW_3, FLOW_4; lia|done|lia]); try done.
  - by exists l.
  - apply recv_token_follows; [unfold FLOW_3; lia|done|lia].
  - rewrite (stat_refines l (boxes_of c)) by (done || unfold QUEUE in *; lia). cbn [mb_stat queue_boxes]. by exists l.
  - apply send_follows; [unfold FLOW_4; lia|done|lia|done|cbn; lia].
  - apply send_follows; [unfold QUEUE; lia|done|lia|apply message_wf..].
  - apply send_follows; [unfold FLOW_4; lia|done|lia|unfold wf_msg, token_of; by rewrite Et|unfold token_of; rewrite Et; cbn; lia].
Qed.

Lemma process4_follows c k3 k4 l : inv c k3 k4 -> refines l (boxes_of c) -> follows (process4 (p4 c) l) (process4 (p4 c) (boxes_of c)).
Proof.
  intros I R. pose proof (inv_used _ _ _ I) as U. pose proof (has_bounds (at_ (p3 c))) as Hb.
  unfold process4, send_token. destruct (at_ (p4 c)) eqn:Ea; cbn [has_q has_fi has_fo] in U;
    try (apply open_follows; [unfold QUEUE, FLOW_3, FLOW_4; lia|done|lia]);
    try (apply close_follows; [unfold QUEUE, FLOW_3, FLOW_4; lia|done|lia]); try done.
  - by exists l.
  - apply recv_token_follows; [unfold FLOW_4; lia|done|lia].
  - rewrite (stat_refines l (boxes_of c)) by (done || unfold QUEUE in *; lia). cbn [mb_stat queue_boxes]. by exists l.
  - apply send_follows; [unfold FLOW_3; lia|done|lia|done|cbn; lia].
  - pose proof (recv_refines l (boxes_of c) QUEUE ltac:(unfold QUEUE; lia) R ltac:(lia)) as Hr. cbn [mb_recv queue_boxes].
    destruct (recv_box (boxes_of c QUEUE)) as [[m x]|]; [|by rewrite Hr]. destruct Hr as (l' & -> & R'). by exists l'.
Qed.

(** The invariant of the two on the kernel's mailboxes: they are somewhere in the
    analysed protocol, and whoever is in [condition_wait] is in a call that can
    wait. *)
Definition flow_inv (c : flow) : Prop :=
  exists n k3 k4, refines (f_boxes c) n /\ inv (mk_config (f3 c) (f4 c) n) k3 k4
    /\ (h3 c <> Awake -> is_Some (pending3 (at_ (f3 c)))) /\ (h4 c <> Awake -> is_Some (pending4 (at_ (f4 c)))).

Lemma signal_awake d o h : h = Awake \/ signal d o h <> Awake -> signal d o h = h.
Proof. destruct h, d as [[]|], o as [[]|]; cbn; repeat case_match; naive_solver. Qed.

Lemma flow_step_inv w c c' : flow_inv c -> flow_step w c = Some c' -> flow_inv c'.
Proof.
  intros (n & k3 & k4 & R & I & A3 & A4) E. set (a := mk_config (f3 c) (f4 c) n) in *.
  destruct w; cbn [flow_step] in E.
  - pose proof (process3_follows a k3 k4 (f_boxes c) I R) as F. cbn [p3 boxes_of a] in F.
    destruct (h3 c) eqn:Eh; simplify_eq.
    + destruct (process3 (f3 c) n) as [[p n']|] eqn:Ep; cbn [follows] in F.
      * destruct F as (l & El & R'). rewrite El in E. simplify_eq.
        destruct (step3_inv a k3 k4 (mk_config p (f4 c) n') I) as (k3' & k4' & I'); [cbn [step p3 boxes_of a]; by rewrite Ep|].
        exists n', k3', k4'. split_and!; [exact R'|exact I'|done|]. cbn [h4 f4]. intros Hn. rewrite signal_awake in Hn by (by right). auto.
      * rewrite F in E. destruct (pending3 (at_ (f3 c))) eqn:Epd; simplify_eq. exists n, k3, k4. cbn. rewrite Epd. by split_and!.
    + exists n, k3, k4. by split_and!; [|exact I|intros _; apply A3|].
  - pose proof (process4_follows a k3 k4 (f_boxes c) I R) as F. cbn [p4 boxes_of a] in F.
    destruct (h4 c) eqn:Eh; simplify_eq.
    + destruct (process4 (f4 c) n) as [[p n']|] eqn:Ep; cbn [follows] in F.
      * destruct F as (l & El & R'). rewrite El in E. simplify_eq.
        destruct (step4_inv a k3 k4 (mk_config (f3 c) p n') I) as (k3' & k4' & I'); [cbn [step p4 boxes_of a]; by rewrite Ep|].
        exists n', k3', k4'. split_and!; [exact R'|exact I'| |done]. cbn [h3 f3]. intros Hn. rewrite signal_awake in Hn by (by right). auto.
      * rewrite F in E. destruct (pending4 (at_ (f4 c))) eqn:Epd; simplify_eq. exists n, k3, k4. cbn. rewrite Epd. by split_and!.
    + exists n, k3, k4. by split_and!; [|exact I| |intros _; apply A4].
Qed.

Lemma flow_start_inv l : unused_boxes l -> flow_inv (flow_start l).
Proof.
  intros H. exists (fun _ => mk_box 0 []), 0, 0. split_and!; [|by apply flow_inv_start|done|done].
  intros k Hk. destruct (H k Hk) as (b & E & A & U). exists b. split; [done|]. by split_and!.
Qed.

Lemma flow_run_inv ws : forall c c', flow_inv c -> flow_run ws c = Some c' -> flow_inv c'.
Proof.
  induction ws as [|w ws IH]; intros c c' I E; cbn [flow_run] in E; [by simplify_eq|].
  destruct (flow_step w c) as [c1|] eqn:Es; [|done]. eapply IH; [|exact E]. by eapply flow_step_inv.
Qed.

(** [C16] Whatever the mailboxes held before and however the two processes are
    interleaved, with signals lost or not: no token is bad, process4 finds every
    message it receives as process3 made it, and the mailbox between them holds
    exactly the messages that were sent and not yet received, in their order. *)
Theorem flow_messages_verified l ws c (Hl : unused_boxes l) (Hrun : flow_run ws (flow_start l) = Some c) :
  at_ (f3 c) <> Failed /\ at_ (f4 c) <> Failed /\ i (f4 c) <= i (f3 c)
  /\ exists b, f_boxes c !! Z.to_nat QUEUE = Some b
       /\ (used b <> 0 -> holds b (message <$> seqZ (i (f4 c)) (i (f3 c) - i (f4 c)))).
Proof.
  destruct (flow_run_inv _ _ _ (flow_start_inv l Hl) Hrun) as (n & k3 & k4 & R & I & _).
  destruct (R QUEUE ltac:(unfold QUEUE; lia)) as (b & Eb & _ & U & Hh).
  pose proof I as [P3 [P4 _] Hle _ _ _ Cq _ _ _ _ _ _]. cbn [p3 p4 boxes_of] in *.
  split_and!; [| |done|exists b; split; [done|]].
  - intros Ef. destruct P3 as (_ & _ & P). by rewrite Ef in P.
  - intros Ef. destruct P4 as (_ & _ & P). by rewrite Ef in P.
  - rewrite U. intros Hu. specialize (Hh Hu). unfold contents in Cq. rewrite (proj2 (Z.eqb_neq _ _) Hu) in Cq. by rewrite Cq in Hh.
Qed.


(** ** Concrete runs *)

Module Flow_instances.

(** The mailboxes after [mbox_init], with bytes left in them. *)
Definition stale : mbox_t := mk_mbox 0 LOCK_INIT CONDITION_INIT CONDITION_INIT 3 7 9 (replicate 1024 5).
Definition kernel_mail : list mbox_t := replicate 5 stale.

Lemma kernel_mail_unused : unused_boxes kernel_mail.
Proof.
  intros k Hk. exists stale. split; [apply lookup_replicate; split; [done|lia]|]. by split_and!.
Qed.

(** Process3 opens its mailboxes, finds no token and releases the lock; process4
    sends the token and goes to sleep until there is a message; process3 goes to
    sleep until there is a token. *)
Definition unlucky : list who := replicate 5 Sender ++ replicate 8 Receiver ++ [Sender].

Definition hung : flow := match flow_run unlucky (flow_start kernel_mail) with Some c => c | None => flow_start [] end.

Lemma hung_run : flow_run unlucky (flow_start kernel_mail) = Some hung.
Proof. vm_compute. reflexivity. Qed.

Lemma hung_stops w : flow_step w hung = None.
Proof. destruct w; vm_compute; reflexivity. Qed.

(** The processes can deadlock: a run of their steps and of [condition_wait] in
    which neither has finished, both sleep and the token that process3 waits for
    is in its mailbox. *)
Lemma flow_deadlocks :
  exists ws c, flow_run ws (flow_start kernel_mail) = Some c /\ (forall w, flow_step w c = None)
    /\ h3 c = Asleep /\ h4 c = Asleep /\ at_ (f3 c) = Recv_token /\ mb_stat FLOW_3 (f_boxes c) = Some (1, 1020).
Proof.
  exists unlucky, hung. split; [exact hung_run|]. split; [exact hung_stops|]. vm_compute. by split_and!.
Qed.


(** A run in which both go on and process4 has received a message. *)
Definition lucky : list who := replicate 3 Sender ++ replicate 6 Receiver ++ replicate 7 Sender ++ replicate 2 Receiver.

Lemma flow_messages_verified_witness :
  exists c, flow_run lucky (flow_start kernel_mail) = Some c /\ at_ (f4 c) <> Failed /\ i (f4 c) = 1 /\ i (f3 c) = 2.
Proof.
  eexists. split; [vm_compute; reflexivity|].
  destruct (flow_messages_verified kernel_mail lucky _ kernel_mail_unused ltac:(vm_compute; reflexivity)) as (_ & H & _).
  split; [exact H|]. by split.
Defined.

End Flow_instances.
