(* ===== verification/Keyboard.v ===== *)
(** * The keyboard

    Models [src/src/kernel/keyboard.c] and [src/src/kernel/keyboard.h]: the
    interrupt handler turns scan codes into characters, keeps the state of the
    shift keys, and puts the characters into mailbox 0, from which [getchar]
    takes them.  The bytes that the controller delivers on port 0x60 are a
    parameter, [inb n] being the [n]-th byte that one interrupt reads.

    The correctness statement is a simulation: the driver behaves like an
    abstract keyboard whose state is the set of modifier keys that are down
    and the sequence of characters that wait to be read. *)

From S2P Require Import Prelude Sched Ring Schedule Sync Mbox.

Definition RIGHT_SHIFT : Z := 1.
Definition LEFT_SHIFT : Z := 2.
Definition CAPS_SHIFT : Z := 4.
Definition CONTROL : Z := 8.
Definition ALT : Z := 16.
Definition QUEUE : Z := 0.
Definition CHAR_MSG_SIZE : Z := MSG_T_HEADER_SIZE + 1.

(** The functions a [handler] pointer can point to. *)
Inductive handler_t : Type :=
| normal_handler
| escape_handler
| right_shift_handler
| left_shift_handler
| control_handler
| alt_handler
| caps_lock_handler
| num_lock_handler
| scroll_lock_handler.

#[global] Instance handler_t_eq_dec : EqDecision handler_t.
Proof. solve_decision. Defined.

Record ascii : Type := mk_ascii {
  no_shift : Z;
  shift : Z;
  control : Z;
  handler : handler_t
}.

Record character_t : Type := mk_character {
  character : Z;
  attribute : Z;
  scancode : Z
}.

Definition scan_to_ascii : list ascii :=
  [
    mk_ascii 0x00 0x00 0x00 normal_handler;
    mk_ascii 0x1b 0x1b 0x1b escape_handler;
    mk_ascii 0x31 0x21 0x00 normal_handler;
    mk_ascii 0x32 0x40 0x00 normal_handler;
    mk_ascii 0x33 0x23 0x00 normal_handler;
    mk_ascii 0x34 0x24 0x00 normal_handler;
    mk_ascii 0x35 0x25 0x00 normal_handler;
    mk_ascii 0x36 0x5e 0x1e normal_handler;
    mk_ascii 0x37 0x26 0x00 normal_handler;
    mk_ascii 0x38 0x2a 0x00 normal_handler;
    mk_ascii 0x39 0x28 0x00 normal_handler;
    mk_ascii 0x30 0x29 0x00 normal_handler;
    mk_ascii 0x2d 0x5f 0x1f normal_handler;
    mk_ascii 0x3d 0x2b 0x00 normal_handler;
    mk_ascii 0x08 0x08 0x7f normal_handler;
    mk_ascii 0x09 0x00 0x00 normal_handler;
    mk_ascii 0x71 0x51 0x11 normal_handler;
    mk_ascii 0x77 0x57 0x17 normal_handler;
    mk_ascii 0x65 0x45 0x05 normal_handler;
    mk_ascii 0x72 0x52 0x12 normal_handler;
    mk_ascii 0x74 0x54 0x14 normal_handler;
    mk_ascii 0x79 0x59 0x19 normal_handler;
    mk_ascii 0x75 0x55 0x15 normal_handler;
    mk_ascii 0x69 0x49 0x09 normal_handler;
    mk_ascii 0x6f 0x4f 0x0f normal_handler;
    mk_ascii 0x70 0x50 0x10 normal_handler;
    mk_ascii 0x5b 0x7b 0x1b normal_handler;
    mk_ascii 0x5d 0x7d 0x1d normal_handler;
    mk_ascii 0x0d 0x0d 0x0a normal_handler;
    mk_ascii 0x00 0x00 0x00 control_handler;
    mk_ascii 0x61 0x41 0x01 normal_handler;
    mk_ascii 0x73 0x53 0x13 normal_handler;
    mk_ascii 0x64 0x44 0x04 normal_handler;
    mk_ascii 0x66 0x46 0x06 normal_handler;
    mk_ascii 0x67 0x47 0x07 normal_handler;
    mk_ascii 0x68 0x48 0x08 normal_handler;
    mk_ascii 0x6a 0x4a 0x0a normal_handler;
    mk_ascii 0x6b 0x4b 0x0b normal_handler;
    mk_ascii 0x6c 0x4c 0x0c normal_handler;
    mk_ascii 0x3b 0x3a 0x00 normal_handler;
    mk_ascii 0x27 0x22 0x00 normal_handler;
    mk_ascii 0x60 0x7e 0x00 normal_handler;
    mk_ascii 0x00 0x00 0x00 left_shift_handler;
    mk_ascii 0x5c 0x7c 0x00 normal_handler;
    mk_ascii 0x7a 0x5a 0x1a normal_handler;
    mk_ascii 0x78 0x58 0x18 normal_handler;
    mk_ascii 0x63 0x43 0x03 normal_handler;
    mk_ascii 0x76 0x56 0x16 normal_handler;
    mk_ascii 0x62 0x42 0x02 normal_handler;
    mk_ascii 0x6e 0x4e 0x0e normal_handler;
    mk_ascii 0x6d 0x4d 0x0d normal_handler;
    mk_ascii 0x2c 0x3c 0x00 normal_handler;
    mk_ascii 0x2e 0x2e 0x00 normal_handler;
    mk_ascii 0x2f 0x3f 0x00 normal_handler;
    mk_ascii 0x00 0x00 0x00 right_shift_handler;
    mk_ascii 0x2a 0x2a 0x00 normal_handler;
    mk_ascii 0x00 0x00 0x00 alt_handler;
    mk_ascii 0x20 0x20 0x02 normal_handler;
    mk_ascii 0x00 0x00 0x00 caps_lock_handler;
    mk_ascii 0x00 0x00 0x00 normal_handler;
    mk_ascii 0x00 0x00 0x00 normal_handler;
    mk_ascii 0x00 0x00 0x00 normal_handler;
    mk_ascii 0x00 0x00 0x00 normal_handler;
    mk_ascii 0x00 0x00 0x00 normal_handler;
    mk_ascii 0x00 0x00 0x00 normal_handler;
    mk_ascii 0x00 0x00 0x00 normal_handler;
    mk_ascii 0x00 0x00 0x00 normal_handler;
    mk_ascii 0x00 0x00 0x00 normal_handler;
    mk_ascii 0x00 0x00 0x00 normal_handler;
    mk_ascii 0x00 0x00 0x00 num_lock_handler;
    mk_ascii 0x00 0x00 0x00 scroll_lock_handler;
    mk_ascii 0x00 0x37 0x00 normal_handler;
    mk_ascii 0xb8 0x38 0x00 normal_handler;
    mk_ascii 0xb9 0x39 0x00 normal_handler;
    mk_ascii 0x2d 0x2d 0x00 normal_handler;
    mk_ascii 0x00 0x34 0x00 normal_handler;
    mk_ascii 0x00 0x35 0x00 normal_handler;
    mk_ascii 0x00 0x36 0x00 normal_handler;
    mk_ascii 0x2b 0x2b 0x00 normal_handler;
    mk_ascii 0x00 0x31 0x00 normal_handler;
    mk_ascii 0x00 0x32 0x00 normal_handler;
    mk_ascii 0xb3 0x33 0x00 normal_handler;
    mk_ascii 0x00 0x30 0x00 normal_handler;
    mk_ascii 0x00 0x2e 0x00 normal_handler
  ].

(** The static variables of the driver, over the state of the mailboxes.
    [shift_status] is a [char]; [key_release] and [multiread] are only ever
    assigned [true] and [false]. *)
Record kbst : Type := mk_kbst {
  mail : mst;
  shift_status : Z;
  key_release : bool;
  multiread : bool;
  kb_mbox : Z
}.

Definition set_mail (v : mst) (s : kbst) : kbst :=
  mk_kbst v (shift_status s) (key_release s) (multiread s) (kb_mbox s).
Definition set_shift_status (v : Z) (s : kbst) : kbst :=
  mk_kbst (mail s) (s8 v) (key_release s) (multiread s) (kb_mbox s).
Definition set_key_release (v : bool) (s : kbst) : kbst :=
  mk_kbst (mail s) (shift_status s) v (multiread s) (kb_mbox s).
Definition set_multiread (v : bool) (s : kbst) : kbst :=
  mk_kbst (mail s) (shift_status s) (key_release s) v (kb_mbox s).
Definition set_kb_mbox (v : Z) (s : kbst) : kbst :=
  mk_kbst (mail s) (shift_status s) (key_release s) (multiread s) v.

Definition mailing {A} (m : M mst A) : M kbst A := zoom mail set_mail m.
Definition kb_enter : M kbst unit := mailing (pop enter).
Definition kb_leave : M kbst unit := mailing (pop leave).

(** ** Characters in and out *)

Definition putchar (c : character_t) : M kbst (result unit) :=
  let m := mk_msg 1 [character c] in
  kb_enter ;;;
  q <-- gets kb_mbox ;;
  st <-- mailing (mbox_stat q) ;;
  match st with
  | Blocked => ret Blocked
  | Done (count, available_space) =>
      if CHAR_MSG_SIZE <=? available_space then
        sent <-- mailing (mbox_send q m) ;;
        match sent with
        | Blocked => ret Blocked
        | Done _ => kb_leave ;;; ret (Done tt)
        end
      else kb_leave ;;; ret (Done tt)
  end.

(** The return value, always 1, is left out; the result is what is stored in
    [*c]: the body is an array of (signed) [char]. *)
Definition getchar : M kbst (result Z) :=
  kb_enter ;;;
  q <-- gets kb_mbox ;;
  r <-- mailing (mbox_recv q) ;;
  match r with
  | Blocked => ret Blocked
  | Done m =>
      kb_leave ;;;
      assertk (size m =? 1) ;;;
      match body m with
      | x :: _ => ret (Done (s8 x))
      | [] => stuck
      end
  end.

(** ** Key handlers *)

Definition run_normal_handler (scan : Z) : M kbst (result unit) :=
  s <-- get ;;
  if key_release s then ret (Done tt)
  else
    match scan_to_ascii !! Z.to_nat scan with
    | None => stuck
    | Some a =>
        let st := shift_status s in
        let ch :=
          if (st =? LEFT_SHIFT) || (st =? RIGHT_SHIFT) || (st =? CAPS_SHIFT) then shift a
          else if st =? CONTROL then control a
          else if st =? 0 then no_shift a
          else 0 in
        putchar (mk_character ch (u8 st) scan)
    end.

(** [shift_status |= bit] on a press, [shift_status &= ~bit] on a release. *)
Definition run_modifier_handler (bit : Z) : M kbst (result unit) :=
  s <-- get ;;
  (if key_release s then modify (set_shift_status (Z.land (shift_status s) (Z.lnot bit)))
   else modify (set_shift_status (Z.lor (shift_status s) bit))) ;;;
  ret (Done tt).

Definition run_caps_lock_handler : M kbst (result unit) :=
  s <-- get ;;
  (if key_release s then ret tt
   else if truth (Z.land (shift_status s) CAPS_SHIFT)
        then modify (set_shift_status (Z.land (shift_status s) (Z.lnot CAPS_SHIFT)))
        else modify (set_shift_status (Z.lor (shift_status s) CAPS_SHIFT))) ;;;
  ret (Done tt).

Definition call_handler (h : handler_t) (key : Z) : M kbst (result unit) :=
  match h with
  | normal_handler => run_normal_handler key
  | right_shift_handler => run_modifier_handler RIGHT_SHIFT
  | left_shift_handler => run_modifier_handler LEFT_SHIFT
  | control_handler => run_modifier_handler CONTROL
  | alt_handler => run_modifier_handler ALT
  | caps_lock_handler => run_caps_lock_handler
  | escape_handler | num_lock_handler | scroll_lock_handler => ret (Done tt)
  end.

Definition keyboard_interrupt (inb : nat -> Z) : M kbst (result unit) :=
  let key := u8 (inb 0%nat) in
  modify (set_key_release (truth (Z.land key 0x80))) ;;;
  let key := Z.land key 0x7f in
  key <-- (if key =? 0xe0 then modify (set_multiread true) ;;; ret (u8 (inb 1%nat)) else ret key) ;;
  if key <? 0x54 then
    match scan_to_ascii !! Z.to_nat key with
    | Some a => call_handler (handler a) key
    | None => stuck
    end
  else ret (Done tt).

Definition keyboard_init : M kbst (result unit) :=
  r <-- mailing (mbox_open QUEUE) ;;
  match r with
  | Blocked => ret Blocked
  | Done m => modify (set_kb_mbox m) ;;; assertk (0 <=? m) ;;; ret (Done tt)
  end.

(** ** The abstract keyboard *)

Record mods : Type := mk_mods {
  right_down : bool;
  left_down : bool;
  caps_on : bool;
  control_down : bool;
  alt_down : bool
}.

Definition no_mods : mods := mk_mods false false false false false.

(** The bits of [shift_status]. *)
Definition encode (m : mods) : Z :=
  Z.b2z (right_down m) + 2 * Z.b2z (left_down m) + 4 * Z.b2z (caps_on m)
  + 8 * Z.b2z (control_down m) + 16 * Z.b2z (alt_down m).

(** What a byte from the controller says: the key, and whether it went down. *)
Definition code_of (k : Z) : Z := k mod 128.
Definition pressed (k : Z) : bool := k <? 128.

Definition key_of (k : Z) : option ascii := scan_to_ascii !! Z.to_nat (code_of k).

Definition next_mods (m : mods) (k : Z) : mods :=
  let d := pressed k in
  match handler <$> key_of k with
  | Some right_shift_handler => mk_mods d (left_down m) (caps_on m) (control_down m) (alt_down m)
  | Some left_shift_handler => mk_mods (right_down m) d (caps_on m) (control_down m) (alt_down m)
  | Some caps_lock_handler =>
      mk_mods (right_down m) (left_down m) (xorb (caps_on m) d) (control_down m) (alt_down m)
  | Some control_handler => mk_mods (right_down m) (left_down m) (caps_on m) d (alt_down m)
  | Some alt_handler => mk_mods (right_down m) (left_down m) (caps_on m) (control_down m) d
  | _ => m
  end.

(** The character of a key: the shifted one when exactly one of the two shift
    keys and caps lock is on, the control character when only control is, the
    plain one when nothing is, and 0 for every other combination. *)
Definition character_of (m : mods) (a : ascii) : Z :=
  match m with
  | mk_mods true false false false false
  | mk_mods false true false false false
  | mk_mods false false true false false => shift a
  | mk_mods false false false true false => control a
  | mk_mods false false false false false => no_shift a
  | _ => 0
  end.

(** The character that a byte from the controller produces. *)
Definition typed (m : mods) (k : Z) : option Z :=
  match key_of k with
  | Some a => if pressed k && bool_decide (handler a = normal_handler)
              then Some (character_of m a) else None
  | None => None
  end.

(** The mailbox takes 204 characters; what comes on top is dropped. *)
Definition capacity : Z := BUFFER_SIZE / CHAR_MSG_SIZE.

Definition queue_char (cs : list Z) (c : option Z) : list Z :=
  match c with
  | Some c => if Z.of_nat (length cs) <? capacity then cs ++ [c] else cs
  | None => cs
  end.

Definition kb_step (st : mods * list Z) (k : Z) : mods * list Z :=
  (next_mods st.1 k, queue_char st.2 (typed st.1 k)).

Definition letter (c : Z) : msg_t := mk_msg 1 [c].

(** The driver represents modifiers [m] and waiting characters [cs]; the ready
    threads are [r], and the threads [l] wait in [getchar]. *)
Record represents (s : kbst) (m : mods) (cs : list Z) (r l : list ptr) : Prop := {
  kb_cpu : cpu_room 5 (cpu (procs (mail s)));
  kb_ready : ring (pcbs (procs (mail s))) r;
  kb_current : current_running (procs (mail s)) = head_ptr r;
  kb_some : r <> [];
  kb_waiting : wait_queue (pcbs (procs (mail s))) l;
  kb_disj : forall u, u ∈ l -> u ∉ r;
  kb_null : is_Some (pcbs (procs (mail s)) !! NULL);
  kb_len : (length l <= PCB_TABLE_SIZE)%nat;
  kb_handle : kb_mbox s = QUEUE;
  kb_status : shift_status s = encode m;
  kb_box : exists b, Q (mail s) !! 0%nat = Some b /\ box_lock b = LOCK_INIT
    /\ moreSpace b = CONDITION_INIT /\ moreData b = mk_condition (head_ptr l) SPINLOCK_INIT
    /\ holds b (letter <$> cs)
}.

(** ** The mailbox of letters *)

Lemma letters_wf cs : Forall wf_msg (letter <$> cs).
Proof. apply list.Forall_fmap, Forall_true. done. Qed.

Lemma letters_total cs : total (letter <$> cs) = 5 * Z.of_nat (length cs).
Proof.
  unfold total, stored. induction cs as [|c cs IH]; [done|].
  rewrite !fmap_cons. cbn [concat]. rewrite length_app.
  change (length (msg_bytes (letter c))) with 5%nat. cbn [length]. lia.
Qed.

Lemma broadcast_none k : condition_broadcast SYNC_IMPL CONDITION_INIT k = Ret (CONDITION_INIT, k).
Proof. done. Qed.

Lemma mailing_ok {A B} (m : M mst A) s a m' (g : A -> M kbst B) :
  m (mail s) = Ret (a, m') -> bind (mailing m) g s = g a (set_mail m' s).
Proof. intros H. unfold bind, mailing, zoom. by rewrite H. Qed.

(** The machine inside the critical section. *)
Definition entered (k : kst) : kst := set_cpu (nointerrupt_enter (cpu k)) k.

Lemma left_entered h k :
  cpu_room 1 (cpu k) ->
  set_cpu (nointerrupt_leave (cpu (set_pcbs h (entered k)))) (set_pcbs h (entered k)) = set_pcbs h k.
Proof.
  intros Hc. unfold entered. kproj. rewrite (leave_enter 1) by done. by destruct k.
Qed.

Lemma queue_char_room cs c :
  queue_char cs (Some c) = if CHAR_MSG_SIZE <=? BUFFER_SIZE - total (letter <$> cs) then cs ++ [c] else cs.
Proof.
  rewrite letters_total. unfold queue_char, capacity, CHAR_MSG_SIZE, MSG_T_HEADER_SIZE, BUFFER_SIZE.
  change (1024 / (4 + 1)) with 204. destruct (Z.ltb_spec (Z.of_nat (length cs)) 204);
    destruct (Z.leb_spec (4 + 1) (1024 - 5 * Z.of_nat (length cs))); done || lia.
Qed.

(** [putchar] queues the character if there is room, wakes the first reader,
    and never waits. *)
Lemma putchar_run s m cs r l ch at_ sc :
  represents s m cs r l ->
  exists s' r' l', putchar (mk_character ch at_ sc) s = Ret (Done tt, s')
    /\ represents s' m (queue_char cs (Some ch)) r' l' /\ r' ++ l' = r ++ l
    /\ key_release s' = key_release s.
Proof.
  intros [R1 R2 R3 R4 R5 R6 R7 R8 R9 R10 (b & B1 & B2 & B3 & B4 & B5)].
  set (k := procs (mail s)) in *.
  set (M1 := mk_mst (entered k) (Q (mail s))). set (s1 := set_mail M1 s).
  assert (Hc3 : cpu_room 3 (cpu (entered k))).
  { eapply room_weaken; [|apply (enter_room 5); [lia|done]]. lia. }
  assert (Hc1 : cpu_room 1 (cpu k)) by (eapply room_weaken, R1; lia).
  unfold putchar, kb_enter. cbv zeta. rewrite (mailing_ok _ _ tt M1) by done. fold s1.
  rewrite bind_gets. change (kb_mbox s1) with (kb_mbox s). rewrite R9.
  cbn [character]. fold (letter ch).
  rewrite (mailing_ok (mbox_stat QUEUE) s1 _ _ _ (mbox_stat_run M1 QUEUE b ltac:(done) B1 _ B2 B5)).
  rewrite queue_char_room. destruct (Z.leb_spec CHAR_MSG_SIZE (BUFFER_SIZE - total (letter <$> cs))) as [Hroom|Hroom].
  - destruct (signal_run M1 r l Hc3 R2 R3 R4 R5 R6 R7) as (h' & E & W & R' & N).
    change (procs M1) with (entered k) in E. rewrite <- B4 in E.
    destruct (mbox_send_run M1 QUEUE b ltac:(done) B1 (letter ch) _ _ _ B2 B5 ltac:(done) Hroom E)
      as (b' & E2 & H1 & H2 & H3 & H4 & H5).
    rewrite (mailing_ok (mbox_send QUEUE (letter ch)) s1 _ _ _ E2). unfold kb_leave.
    exists (set_mail (mk_mst (set_pcbs h' k) (<[0%nat := b']> (Q (mail s)))) s), (r ++ take 1 l), (list.tail l).
    split_and!.
    + erewrite mailing_ok by reflexivity. unfold ret. do 2 f_equal.
      unfold set_mail at 1. cbn [procs mail set_mail]. by rewrite left_entered.
    + destruct R5 as (Hnd & _). split; try done.
      * cbn [procs mail set_mail current_running set_pcbs]. rewrite R3. by destruct r.
      * by destruct r.
      * cbn. intros u Hu Hin. apply elem_of_app in Hin as [Hin|Hin].
        -- apply (R6 u); [|done]. destruct l; [done|by right].
        -- destruct l as [|p l]; [by apply not_elem_of_nil in Hin|]. cbn in Hin, Hu.
           apply list_elem_of_singleton in Hin as ->. by apply list.NoDup_cons in Hnd as [? _].
      * cbn. destruct l; cbn in *; lia.
      * exists b'. cbn [mail set_mail Q]. rewrite list_lookup_insert_eq by (by eapply lookup_lt_Some).
        rewrite fmap_app. by rewrite H3.
    + rewrite <- app_assoc. by destruct l.
    + done.
  - unfold kb_leave. exists s, r, l. split_and!; try done.
    + erewrite mailing_ok by reflexivity. unfold ret. do 2 f_equal.
      destruct s as [[k0 q0] ? ? ? ?]. cbn in *. unfold set_mail. cbn. do 2 f_equal.
      subst k. rewrite (leave_enter 1) by done. by destruct k0.
    + split; try done. by exists b.
Qed.

(** Changing the modifiers and the flags only. *)
Lemma represents_flags s s' m m' cs r l :
  represents s m cs r l -> mail s' = mail s -> kb_mbox s' = kb_mbox s ->
  shift_status s' = encode m' -> represents s' m' cs r l.
Proof. intros [] E1 E2 E3. split; rewrite ?E1, ?E2; done. Qed.

Lemma release_bit k : 0 <= k < 256 -> truth (Z.land k 0x80) = negb (pressed k).
Proof.
  intros Hk. change 0x80 with (Z.shiftl (Z.ones 1) 7). rewrite land_field by done.
  unfold truth, pressed. change (2 ^ 7) with 128. change (2 ^ 1) with 2.
  destruct (Z.ltb_spec k 128); destruct (Z.eqb_spec (k / 128 mod 2 * 128) 0); try done; zdiv.
Qed.

Lemma code_bits k : Z.land k 0x7f = code_of k.
Proof. change 0x7f with (Z.ones 7). by rewrite Z.land_ones. Qed.

Lemma key_of_None k : 0x54 <= code_of k -> key_of k = None.
Proof. intros H. apply lookup_ge_None. cbn. lia. Qed.

Lemma normal_run s m cs r l k a :
  represents s m cs r l -> key_release s = negb (pressed k) -> key_of k = Some a ->
  exists s' r' l', run_normal_handler (code_of k) s = Ret (Done tt, s')
    /\ represents s' m (queue_char cs (if pressed k then Some (character_of m a) else None)) r' l'
    /\ r' ++ l' = r ++ l.
Proof.
  intros HR Hk Ha. unfold run_normal_handler. rewrite bind_get, Hk.
  destruct (pressed k); cbn [negb]; [|by exists s, r, l].
  unfold key_of in Ha. rewrite Ha. rewrite (kb_status _ _ _ _ _ HR).
  assert ((if (encode m =? LEFT_SHIFT) || (encode m =? RIGHT_SHIFT) || (encode m =? CAPS_SHIFT)
           then shift a else if encode m =? CONTROL then control a
           else if encode m =? 0 then no_shift a else 0) = character_of m a) as ->.
  { by destruct m as [[] [] [] [] []]. }
  destruct (putchar_run s m cs r l (character_of m a) (u8 (encode m)) (code_of k) HR)
    as (s' & r' & l' & E & H1 & H2 & _). by exists s', r', l'.
Qed.

(** The modifier of a bit of [shift_status] goes up or down. *)
Definition set_mod (bit : Z) (d : bool) (m : mods) : mods :=
  match bit with
  | 1 => mk_mods d (left_down m) (caps_on m) (control_down m) (alt_down m)
  | 2 => mk_mods (right_down m) d (caps_on m) (control_down m) (alt_down m)
  | 4 => mk_mods (right_down m) (left_down m) d (control_down m) (alt_down m)
  | 8 => mk_mods (right_down m) (left_down m) (caps_on m) d (alt_down m)
  | _ => mk_mods (right_down m) (left_down m) (caps_on m) (control_down m) d
  end.

Lemma encode_set m bit :
  bit ∈ [RIGHT_SHIFT; LEFT_SHIFT; CAPS_SHIFT; CONTROL; ALT] ->
  s8 (Z.lor (encode m) bit) = encode (set_mod bit true m)
  /\ s8 (Z.land (encode m) (Z.lnot bit)) = encode (set_mod bit false m).
Proof.
  intros Hb. repeat (apply elem_of_cons in Hb as [->|Hb]); [..|by apply not_elem_of_nil in Hb];
    by destruct m as [[] [] [] [] []].
Qed.

Lemma modifier_run s m cs r l bit d :
  represents s m cs r l -> key_release s = negb d ->
  bit ∈ [RIGHT_SHIFT; LEFT_SHIFT; CAPS_SHIFT; CONTROL; ALT] ->
  exists s' r' l', run_modifier_handler bit s = Ret (Done tt, s')
    /\ represents s' (set_mod bit d m) cs r' l' /\ r' ++ l' = r ++ l.
Proof.
  intros HR Hd Hb. destruct (encode_set m bit Hb) as [H1 H2].
  unfold run_modifier_handler. rewrite bind_get, Hd, (kb_status _ _ _ _ _ HR).
  destruct d; cbn [negb]; rewrite bind_modify; (eexists _, r, l; split_and!; [reflexivity| |done]);
    by apply (represents_flags s _ m).
Qed.

Lemma caps_run s m cs r l d :
  represents s m cs r l -> key_release s = negb d ->
  exists s' r' l', run_caps_lock_handler s = Ret (Done tt, s')
    /\ represents s' (set_mod CAPS_SHIFT (xorb (caps_on m) d) m) cs r' l' /\ r' ++ l' = r ++ l.
Proof.
  intros HR Hd. unfold run_caps_lock_handler. rewrite bind_get, Hd, (kb_status _ _ _ _ _ HR).
  destruct d; cbn [negb]; rewrite ?bind_ret.
  2: { exists s, r, l. split_and!; try done. rewrite xorb_false_r. by destruct m. }
  assert (truth (Z.land (encode m) CAPS_SHIFT) = caps_on m) as -> by (by destruct m as [[] [] [] [] []]).
  destruct (encode_set m CAPS_SHIFT) as [H1 H2]; [set_solver|].
  destruct (caps_on m); rewrite bind_modify; (eexists _, r, l; split_and!; [reflexivity| |done]);
    by apply (represents_flags s _ m).
Qed.

(** One interrupt is one step of the abstract keyboard. *)
Lemma interrupt_run s m cs r l inb :
  represents s m cs r l -> 0 <= inb 0%nat < 256 ->
  exists s' r' l', keyboard_interrupt inb s = Ret (Done tt, s')
    /\ represents s' (kb_step (m, cs) (inb 0%nat)).1 (kb_step (m, cs) (inb 0%nat)).2 r' l'
    /\ r' ++ l' = r ++ l.
Proof.
  intros HR Hk. unfold keyboard_interrupt. rewrite u8_small by done.
  generalize dependent (inb 0%nat). intros k Hk.
  rewrite bind_modify, release_bit, code_bits by done. set (s1 := set_key_release (negb (pressed k)) s).
  assert (HR1 : represents s1 m cs r l) by (by apply (represents_flags s _ m); try done; apply HR).
  assert (0 <= code_of k < 128) by (unfold code_of; zdiv).
  rewrite (proj2 (Z.eqb_neq (code_of k) 0xe0)), bind_ret by lia.
  cbn [kb_step fst snd]. unfold next_mods, typed.
  destruct (Z.ltb_spec (code_of k) 0x54) as [Hlt|Hge].
  2: { rewrite key_of_None by done. by exists s1, r, l. }
  destruct (key_of k) as [a|] eqn:Ha.
  2: { apply lookup_ge_None in Ha. cbn in Ha. lia. }
  pose proof Ha as Ha'. unfold key_of in Ha'. rewrite Ha'. cbn [fmap option_fmap option_map].
  destruct (handler a) eqn:Hh; cbn [call_handler];
    rewrite ?bool_decide_eq_true_2 by done; rewrite ?bool_decide_eq_false_2 by done;
    rewrite ?andb_true_r, ?andb_false_r; cbn [queue_char].
  1: by apply normal_run.
  1, 7, 8: by exists s1, r, l.
  5: by apply caps_run.
  1: apply (modifier_run s1 m cs r l RIGHT_SHIFT (pressed k)); [done|done|set_solver].
  1: apply (modifier_run s1 m cs r l LEFT_SHIFT (pressed k)); [done|done|set_solver].
  1: apply (modifier_run s1 m cs r l CONTROL (pressed k)); [done|done|set_solver].
  1: apply (modifier_run s1 m cs r l ALT (pressed k)); [done|done|set_solver].
Qed.

(** ** Sequences of interrupts and of reads *)

(** One interrupt for each byte of the controller. *)
Fixpoint interrupts (ks : list Z) : M kbst (result unit) :=
  match ks with
  | [] => ret (Done tt)
  | k :: ks' =>
      r <-- keyboard_interrupt (fun _ => k) ;;
      match r with
      | Blocked => ret Blocked
      | Done _ => interrupts ks'
      end
  end.

(** [n] calls of [getchar]. *)
Fixpoint getchars (n : nat) : M kbst (result (list Z)) :=
  match n with
  | O => ret (Done [])
  | S n' =>
      r <-- getchar ;;
      match r with
      | Blocked => ret Blocked
      | Done c =>
          rest <-- getchars n' ;;
          match rest with
          | Blocked => ret Blocked
          | Done cs => ret (Done (c :: cs))
          end
      end
  end.

Lemma interrupts_run ks : forall s m cs r l,
  represents s m cs r l -> Forall (fun k => 0 <= k < 256) ks ->
  exists s' r' l', interrupts ks s = Ret (Done tt, s')
    /\ represents s' (fold_left kb_step ks (m, cs)).1 (fold_left kb_step ks (m, cs)).2 r' l'
    /\ r' ++ l' = r ++ l.
Proof.
  induction ks as [|k ks IH]; intros s m cs r l HR Hks; [by exists s, r, l|].
  apply list.Forall_cons_1 in Hks as [Hk Hks].
  destruct (interrupt_run s m cs r l (fun _ => k) HR Hk) as (s1 & r1 & l1 & E & HR1 & P1).
  destruct (IH _ _ _ _ _ HR1 Hks) as (s2 & r2 & l2 & E2 & HR2 & P2).
  exists s2, r2, l2. cbn [interrupts fold_left]. rewrite (bind_step _ _ _ _ _ E).
  rewrite <- surjective_pairing in HR2. split_and!; [done|done|congruence].
Qed.

Lemma getchar_run s m c cs r l :
  represents s m (c :: cs) r l ->
  exists s', getchar s = Ret (Done (s8 c), s') /\ represents s' m cs r l
    /\ key_release s' = key_release s.
Proof.
  intros [R1 R2 R3 R4 R5 R6 R7 R8 R9 R10 (b & B1 & B2 & B3 & B4 & B5)].
  set (k := procs (mail s)) in *. set (M1 := mk_mst (entered k) (Q (mail s))). set (s1 := set_mail M1 s).
  assert (Hc1 : cpu_room 1 (cpu k)) by (eapply room_weaken, R1; lia).
  unfold getchar, kb_enter. rewrite (mailing_ok _ _ tt M1) by done. fold s1.
  rewrite bind_gets. change (kb_mbox s1) with (kb_mbox s). rewrite R9.
  rewrite fmap_cons in B5.
  pose proof (broadcast_none (entered k)) as E. rewrite <- B3 in E.
  destruct (mbox_recv_run M1 QUEUE b ltac:(done) B1 _ _ _ _ B2 B5 E) as (b' & E2 & H1 & H2 & H3 & H4 & H5).
  rewrite (mailing_ok (mbox_recv QUEUE) s1 _ _ _ E2). unfold kb_leave.
  exists (set_mail (mk_mst k (<[0%nat := b']> (Q (mail s)))) s). split_and!; [|split; try done|done].
  - erewrite mailing_ok by reflexivity. cbn. unfold ret, bind, set_mail. cbn.
    rewrite (leave_enter 1) by done. by destruct k.
  - exists b'. cbn [mail set_mail Q]. rewrite list_lookup_insert_eq by (by eapply lookup_lt_Some).
    by rewrite H3, H5, B3.
Qed.

Lemma getchars_run cs : forall s m rest r l,
  represents s m (cs ++ rest) r l ->
  exists s', getchars (length cs) s = Ret (Done (s8 <$> cs), s') /\ represents s' m rest r l.
Proof.
  induction cs as [|c cs IH]; intros s m rest r l HR; [by exists s|].
  destruct (getchar_run _ _ _ _ _ _ HR) as (s1 & E & HR1 & _).
  destruct (IH _ _ _ _ _ HR1) as (s2 & E2 & HR2). exists s2. split; [|done].
  cbn [getchars length fmap list_fmap]. rewrite (bind_step _ _ _ _ _ E). by rewrite (bind_step _ _ _ _ _ E2).
Qed.

(** [C22] The keyboard driver implements the abstract keyboard: for every sequence
    of bytes from the controller, every interrupt completes (it neither waits
    nor faults), the bits of [shift_status] are the modifiers, and mailbox 0
    holds exactly the characters of the pressed keys, in order, the ones that
    did not fit left out.  No thread is lost: those that wait in [getchar] are
    woken in their order, or still wait. *)
Theorem keyboard_simulates s m cs r l ks :
  represents s m cs r l -> Forall (fun k => 0 <= k < 256) ks ->
  exists s' r' l', interrupts ks s = Ret (Done tt, s')
    /\ represents s' (fold_left kb_step ks (m, cs)).1 (fold_left kb_step ks (m, cs)).2 r' l'
    /\ r' ++ l' = r ++ l.
Proof. apply interrupts_run. Qed.

(** ** The modifiers as a function of the history *)

(** Whether the last event of the key [code] was a press. *)
Definition last_event (code : Z) (ks : list Z) : bool :=
  match list.last (filter (fun k => code_of k = code) ks) with
  | Some k => pressed k
  | None => false
  end.

(** Whether the key was pressed an odd number of times. *)
Definition toggled (code : Z) (ks : list Z) : bool :=
  Nat.odd (length (filter (fun k => code_of k = code /\ pressed k = true) ks)).

(** The scan codes of the modifier keys. *)
Definition is_modifier (n : nat) (h : handler_t) : bool :=
  match h with
  | right_shift_handler => (n =? 0x36)%nat
  | left_shift_handler => (n =? 0x2a)%nat
  | caps_lock_handler => (n =? 0x3a)%nat
  | control_handler => (n =? 0x1d)%nat
  | alt_handler => (n =? 0x38)%nat
  | _ => negb (existsb (Nat.eqb n) [0x36; 0x2a; 0x3a; 0x1d; 0x38])%nat
  end.

Lemma modifier_codes :
  forallb (fun n => match scan_to_ascii !! n with Some a => is_modifier n (handler a) | None => true end)
    (seq 0 84) = true.
Proof. reflexivity. Qed.

Lemma next_mods_code m k :
  next_mods m k =
  mk_mods (if code_of k =? 0x36 then pressed k else right_down m)
          (if code_of k =? 0x2a then pressed k else left_down m)
          (if code_of k =? 0x3a then xorb (caps_on m) (pressed k) else caps_on m)
          (if code_of k =? 0x1d then pressed k else control_down m)
          (if code_of k =? 0x38 then pressed k else alt_down m).
Proof.
  assert (Hc : 0 <= code_of k < 128) by (unfold code_of; zdiv).
  unfold next_mods, key_of. destruct (scan_to_ascii !! Z.to_nat (code_of k)) as [a|] eqn:Ha.
  - pose proof (lookup_lt_Some _ _ _ Ha) as Hlt. cbn in Hlt.
    pose proof modifier_codes as Hm. rewrite forallb_forall in Hm.
    specialize (Hm (Z.to_nat (code_of k)) ltac:(apply in_seq; lia)). rewrite Ha in Hm.
    assert (Hn : forall z, 0 <= z -> (code_of k =? z) = (Z.to_nat (code_of k) =? Z.to_nat z)%nat).
    { intros z Hz. destruct (Z.eqb_spec (code_of k) z); symmetry; [apply Nat.eqb_eq|apply Nat.eqb_neq]; lia. }
    rewrite !Hn by done. cbn [fmap option_fmap option_map].
    destruct (handler a); cbn [is_modifier] in Hm;
      try (apply Nat.eqb_eq in Hm as ->; by destruct m);
      apply negb_true_iff in Hm; cbn [existsb] in Hm; rewrite !orb_false_iff in Hm;
      destruct Hm as (H1 & H2 & H3 & H4 & H5 & _); destruct m;
      change (Z.to_nat 54) with 54%nat; change (Z.to_nat 42) with 42%nat;
      change (Z.to_nat 58) with 58%nat; change (Z.to_nat 29) with 29%nat;
      change (Z.to_nat 56) with 56%nat; by rewrite H1, H2, H3, H4, H5.
  - apply lookup_ge_None in Ha. cbn in Ha. cbn [fmap option_fmap option_map].
    rewrite !(proj2 (Z.eqb_neq (code_of k) _)) by lia. by destruct m.
Qed.

Lemma kb_step_mods ks : forall m cs,
  (fold_left kb_step ks (m, cs)).1 = fold_left next_mods ks m.
Proof. induction ks as [|k ks IH]; intros m cs; [done|]. cbn [fold_left]. apply IH. Qed.

Lemma last_event_snoc code ks k :
  last_event code (ks ++ [k]) = if code_of k =? code then pressed k else last_event code ks.
Proof.
  unfold last_event. rewrite list.filter_app. destruct (Z.eqb_spec (code_of k) code) as [E|E].
  - rewrite (list.filter_cons_True _ k), list.filter_nil by done. by rewrite last_snoc.
  - rewrite (list.filter_cons_False _ k), list.filter_nil by done. by rewrite app_nil_r.
Qed.

Lemma toggled_snoc code ks k :
  toggled code (ks ++ [k]) = if code_of k =? code then xorb (toggled code ks) (pressed k) else toggled code ks.
Proof.
  unfold toggled. rewrite list.filter_app, length_app, Nat.odd_add.
  destruct (Z.eqb_spec (code_of k) code) as [E|E]; [destruct (pressed k) eqn:Hp|].
  - by rewrite (list.filter_cons_True _ k).
  - rewrite (list.filter_cons_False _ k) by (rewrite Hp; naive_solver). by rewrite !xorb_false_r.
  - rewrite (list.filter_cons_False _ k) by naive_solver. by rewrite xorb_false_r.
Qed.

Lemma mods_history ks :
  fold_left next_mods ks no_mods
  = mk_mods (last_event 0x36 ks) (last_event 0x2a ks) (toggled 0x3a ks) (last_event 0x1d ks) (last_event 0x38 ks).
Proof.
  induction ks as [|k ks IH] using rev_ind; [done|].
  rewrite fold_left_app, IH. cbn [fold_left]. rewrite next_mods_code. cbn.
  by rewrite !last_event_snoc, toggled_snoc.
Qed.

(** Whatever keys are pressed and released, the bit of a shift, control or
    alt key in [shift_status] says whether the last event of that key was a
    press, and the caps lock bit whether it was pressed an odd number of times;
    the unused bits stay clear. *)
Theorem shift_status_history s cs r l ks :
  represents s no_mods cs r l -> Forall (fun k => 0 <= k < 256) ks ->
  exists s', interrupts ks s = Ret (Done tt, s')
    /\ 0 <= shift_status s' < 32
    /\ Z.testbit (shift_status s') 0 = last_event 0x36 ks
    /\ Z.testbit (shift_status s') 1 = last_event 0x2a ks
    /\ Z.testbit (shift_status s') 2 = toggled 0x3a ks
    /\ Z.testbit (shift_status s') 3 = last_event 0x1d ks
    /\ Z.testbit (shift_status s') 4 = last_event 0x38 ks.
Proof.
  intros HR Hks. destruct (interrupts_run ks s no_mods cs r l HR Hks) as (s' & r' & l' & E & HR' & _).
  exists s'. split; [done|]. rewrite (kb_status _ _ _ _ _ HR'), kb_step_mods, mods_history.
  by destruct (last_event 0x36 ks), (last_event 0x2a ks), (toggled 0x3a ks),
    (last_event 0x1d ks), (last_event 0x38 ks).
Qed.

(** ** Typed text *)

(** The press of a key that produces a character. *)
Definition plain (k : Z) : bool :=
  match key_of k with
  | Some a => pressed k && bool_decide (handler a = normal_handler)
  | None => false
  end.

Definition lower (k : Z) : Z := from_option no_shift 0 (key_of k).
Definition upper (k : Z) : Z := from_option shift 0 (key_of k).

Lemma plain_step m cs k :
  plain k = true -> Z.of_nat (length cs) < capacity ->
  kb_step (m, cs) k = (m, cs ++ [from_option (character_of m) 0 (key_of k)]).
Proof.
  intros Hp Hc. unfold plain in Hp. unfold kb_step, next_mods, typed. cbn [fst snd].
  destruct (key_of k) as [a|]; [|done]. rewrite Hp. apply andb_true_iff in Hp as [_ Hh].
  apply bool_decide_eq_true in Hh. cbn [fmap option_fmap option_map from_option queue_char]. rewrite Hh.
  by rewrite (proj2 (Z.ltb_lt _ _)).
Qed.

Lemma plain_steps m ks : forall cs,
  Forall (fun k => plain k = true) ks -> Z.of_nat (length cs + length ks) <= capacity ->
  fold_left kb_step ks (m, cs) = (m, cs ++ ((fun k => from_option (character_of m) 0 (key_of k)) <$> ks)).
Proof.
  induction ks as [|k ks IH]; intros cs Hp Hc; [by rewrite app_nil_r|].
  apply list.Forall_cons_1 in Hp as [Hk Hp]. cbn [length] in Hc. cbn [fold_left].
  rewrite plain_step by (done || lia). rewrite IH by (done || (rewrite length_app; cbn; lia)).
  by rewrite <- app_assoc.
Qed.

Lemma shifted_steps ks ks' :
  Forall (fun k => plain k = true) (ks ++ ks') -> Z.of_nat (length ks + length ks') <= capacity ->
  fold_left kb_step (ks ++ [0x2a] ++ ks' ++ [0xaa]) (no_mods, [])
  = (no_mods, (lower <$> ks) ++ (upper <$> ks')).
Proof.
  intros Hp Hc. apply list.Forall_app in Hp as [Hp Hp'].
  rewrite fold_left_app, plain_steps by (done || (cbn; lia)). cbn [app fold_left].
  rewrite fold_left_app.
  match goal with |- context [kb_step (no_mods, ?cs) 42] =>
    change (kb_step (no_mods, cs) 42) with (mk_mods false true false false false, cs) end.
  rewrite plain_steps by (done || (rewrite length_fmap; lia)). done.
Qed.

(** Typing and reading back: text typed on the keyboard, the second part with
    the left shift key held down, is what [getchar] returns, key by key and in
    order, as long as it fits into the mailbox (204 characters). *)
Theorem typed_text_read_back s r l ks ks' :
  represents s no_mods [] r l -> Forall (fun k => 0 <= k < 256) (ks ++ ks') ->
  Forall (fun k => plain k = true) (ks ++ ks') -> Z.of_nat (length ks + length ks') <= capacity ->
  exists s1 s2, interrupts (ks ++ [0x2a] ++ ks' ++ [0xaa]) s = Ret (Done tt, s1)
    /\ getchars (length (ks ++ ks')) s1 = Ret (Done (s8 <$> ((lower <$> ks) ++ (upper <$> ks'))), s2).
Proof.
  intros HR Hb Hp Hc. apply list.Forall_app in Hb as Hb'. destruct Hb' as [Hb1 Hb2].
  destruct (interrupts_run (ks ++ [0x2a] ++ ks' ++ [0xaa]) s no_mods [] r l HR) as (s1 & r' & l' & E & HR' & _).
  { rewrite !list.Forall_app. split_and!; repeat constructor; done. }
  rewrite shifted_steps in HR' by done. cbn [fst snd] in HR'. rewrite <- (app_nil_r (_ ++ _)) in HR'.
  destruct (getchars_run _ _ _ _ _ _ HR') as (s2 & E2 & _). exists s1, s2. split; [done|].
  by rewrite length_app, !length_fmap, <- length_app in E2.
Qed.

(** Opening the keyboard's mailbox. *)
Lemma keyboard_init_ready s b r :
  cpu_room 5 (cpu (procs (mail s))) -> ring (pcbs (procs (mail s))) r ->
  current_running (procs (mail s)) = head_ptr r -> r <> [] ->
  is_Some (pcbs (procs (mail s)) !! NULL) ->
  Q (mail s) !! 0%nat = Some b -> box_lock b = LOCK_INIT -> used b = 0 ->
  moreSpace b = CONDITION_INIT -> moreData b = CONDITION_INIT ->
  length (buffer b) = 1024%nat -> shift_status s = 0 ->
  exists s', keyboard_init s = Ret (Done tt, s') /\ represents s' no_mods [] r [].
Proof.
  intros H1 H2 H3 H4 H5 H6 H7 H8 H9 H10 H11 H12.
  destruct (mbox_open_empties (mail s) QUEUE b) as (b' & E & Hb & _ & Hl & Hs & Hd); try done.
  unfold keyboard_init. rewrite (mailing_ok (mbox_open QUEUE) s _ _ _ E). eexists. split; [reflexivity|].
  split; cbn [mail set_mail set_kb_mbox procs kb_mbox shift_status]; try done.
  - repeat split; [constructor|apply not_elem_of_nil].
  - intros u Hu. by apply not_elem_of_nil in Hu.
  - cbn. lia.
  - exists b'. cbn [Q]. rewrite list_lookup_insert_eq by (by eapply lookup_lt_Some).
    by rewrite Hs, Hd, H9, H10.
Qed.

Module Keyboard_instances.

Import Schedule_instances Sync_instances Mbox_instances.

(** Threads 1, 2, 3 are ready, nobody waits, and the mailboxes are fresh. *)
Definition fresh : kbst :=
  mk_kbst (mk_mst (state 1 1 1) (replicate 5 nothing)) 0 false false 0.

Lemma fresh_ready : exists s', keyboard_init fresh = Ret (Done tt, s') /\ represents s' no_mods [] [1; 2; 3]%nat [].
Proof.
  apply (keyboard_init_ready fresh nothing);
    first [ by apply room | apply ready_ring | done | by eexists | reflexivity ].
Qed.

(** The keyboard with the characters it starts with, empty. *)
Definition opened : kbst :=
  mk_kbst (mk_mst (state 1 1 1) (set_used 1 nothing :: replicate 4 nothing)) 0 false false 0.

Lemma opened_represents : represents opened no_mods [] [1; 2; 3]%nat [].
Proof.
  destruct fresh_ready as (s' & E & HR). replace opened with s'; [done|].
  assert (Ho : keyboard_init fresh = Ret (Done tt, opened)) by (vm_compute; reflexivity).
  congruence.
Qed.

(** The keys h and i, then the key 1 with shift. *)
Lemma typed_text_read_back_witness :
  exists s1 s2, interrupts [0x23; 0x17; 0x2a; 0x02; 0xaa] opened = Ret (Done tt, s1)
    /\ getchars 3 s1 = Ret (Done [104; 105; 33], s2).
Proof.
  apply (typed_text_read_back opened [1; 2; 3]%nat [] [0x23; 0x17] [0x02]);
    [apply opened_represents|repeat constructor; done..|done].
Defined.

Lemma shift_status_history_witness :
  exists s', interrupts [0x2a; 0x3a; 0x1d; 0x9d; 0xba] opened = Ret (Done tt, s')
    /\ Z.testbit (shift_status s') 1 = true /\ Z.testbit (shift_status s') 3 = false.
Proof.
  destruct (shift_status_history opened [] [1; 2; 3]%nat [] [0x2a; 0x3a; 0x1d; 0x9d; 0xba])
    as (s' & H1 & _ & _ & H2 & _ & H3 & _); [apply opened_represents|repeat constructor; done|].
  exists s'. split; [exact H1|]. split; [exact H2|exact H3].
Defined.

Lemma keyboard_simulates_witness :
  exists s' r' l', interrupts [0x1e; 0x9e] opened = Ret (Done tt, s')
    /\ represents s' no_mods [97] r' l' /\ r' ++ l' = [1; 2; 3]%nat.
Proof.
  apply (keyboard_simulates opened no_mods [] [1; 2; 3]%nat [] [0x1e; 0x9e]);
    [apply opened_represents|repeat constructor; done].
Defined.

End Keyboard_instances.
