(* ===== verification/UsbKeyboard.v ===== *)
(** * The USB keyboard

    Models [src/src/kernel/usb/usb_keyboard.c] and [usb_keyboard.h]: the handler
    of the interrupt pipe turns the boot protocol reports of the keyboard, which
    list the keys that are down, into characters, and puts them into the mailbox
    of [Keyboard].

    As for the other keyboard the correctness statement is a simulation of an
    abstract keyboard; here its state is the two lock keys, the keys that were
    down in the last report, and the characters that wait to be read.  Its layout
    is that of a US keyboard with the key numbers of the USB usage tables
    ([us_layout]), written down without the driver's table.  The driver differs
    from it on some keys; [ordinary] says which, and [ordinary_exact] that these
    are all. *)

From Stdlib Require Import Ascii.

From S2P Require Import Prelude Sched Ring Schedule Sync Mbox Keyboard.

Definition BOOT_REPORT_SIZE : nat := 8.

(** Modifier bits, the first byte of a report. *)
Definition LEFT_CTRL : Z := 1.
Definition LEFT_SHIFT : Z := 2.
Definition LEFT_ALT : Z := 4.
Definition RIGHT_CTRL : Z := 16.
Definition RIGHT_SHIFT : Z := 32.
Definition RIGHT_ALT : Z := 64.

(** The functions of the table. *)
Inductive key_func : Type := normal_h | escape_h | num_lock_h | caps_lock_h | func_h.

#[global] Instance key_func_eq_dec : EqDecision key_func.
Proof. solve_decision. Defined.

(** [struct key_map]; [None] is the null pointer. *)
Record key_map : Type := mk_key { key : Z; key1 : Z; func0 : option key_func; func1 : option key_func }.

(** The table [usb_keyboard]. *)
Definition usb_keyboard_map : list key_map :=
  [
    mk_key 0x00 0x00 None None;
    mk_key 0x00 0x00 None None;
    mk_key 0x00 0x00 None None;
    mk_key 0x00 0x00 None None;
    mk_key 0x61 0x41 (Some normal_h) (Some normal_h);
    mk_key 0x62 0x42 (Some normal_h) (Some normal_h);
    mk_key 0x63 0x43 (Some normal_h) (Some normal_h);
    mk_key 0x64 0x44 (Some normal_h) (Some normal_h);
    mk_key 0x65 0x45 (Some normal_h) (Some normal_h);
    mk_key 0x66 0x46 (Some normal_h) (Some normal_h);
    mk_key 0x67 0x47 (Some normal_h) (Some normal_h);
    mk_key 0x68 0x48 (Some normal_h) (Some normal_h);
    mk_key 0x69 0x49 (Some normal_h) (Some normal_h);
    mk_key 0x6a 0x4a (Some normal_h) (Some normal_h);
    mk_key 0x6b 0x4b (Some normal_h) (Some normal_h);
    mk_key 0x6c 0x4c (Some normal_h) (Some normal_h);
    mk_key 0x6d 0x4d (Some normal_h) (Some normal_h);
    mk_key 0x6e 0x4e (Some normal_h) (Some normal_h);
    mk_key 0x6f 0x4f (Some normal_h) (Some normal_h);
    mk_key 0x70 0x50 (Some normal_h) (Some normal_h);
    mk_key 0x71 0x51 (Some normal_h) (Some normal_h);
    mk_key 0x72 0x52 (Some normal_h) (Some normal_h);
    mk_key 0x73 0x53 (Some normal_h) (Some normal_h);
    mk_key 0x74 0x54 (Some normal_h) (Some normal_h);
    mk_key 0x75 0x55 (Some normal_h) (Some normal_h);
    mk_key 0x76 0x56 (Some normal_h) (Some normal_h);
    mk_key 0x77 0x57 (Some normal_h) (Some normal_h);
    mk_key 0x78 0x58 (Some normal_h) (Some normal_h);
    mk_key 0x79 0x59 (Some normal_h) (Some normal_h);
    mk_key 0x7a 0x5a (Some normal_h) (Some normal_h);
    mk_key 0x31 0x21 (Some normal_h) (Some normal_h);
    mk_key 0x32 0x40 (Some normal_h) (Some normal_h);
    mk_key 0x33 0x23 (Some normal_h) (Some normal_h);
    mk_key 0x34 0x24 (Some normal_h) (Some normal_h);
    mk_key 0x35 0x25 (Some normal_h) (Some normal_h);
    mk_key 0x36 0x5e (Some normal_h) (Some normal_h);
    mk_key 0x37 0x26 (Some normal_h) (Some normal_h);
    mk_key 0x38 0x52 (Some normal_h) (Some normal_h);
    mk_key 0x39 0x28 (Some normal_h) (Some normal_h);
    mk_key 0x30 0x29 (Some normal_h) (Some normal_h);
    mk_key 0x0d 0x0d (Some normal_h) (Some normal_h);
    mk_key 0x1b 0x1b (Some normal_h) (Some normal_h);
    mk_key 0x08 0x08 (Some normal_h) (Some normal_h);
    mk_key 0x09 0x09 (Some normal_h) (Some normal_h);
    mk_key 0x20 0x20 (Some normal_h) (Some normal_h);
    mk_key 0x2d 0x5f (Some normal_h) (Some normal_h);
    mk_key 0x3d 0x2b (Some normal_h) (Some normal_h);
    mk_key 0x5b 0x7b (Some normal_h) (Some normal_h);
    mk_key 0x5d 0x7d (Some normal_h) (Some normal_h);
    mk_key 0x5c 0x7c (Some normal_h) (Some normal_h);
    mk_key 0x23 0x7e (Some normal_h) (Some normal_h);
    mk_key 0x3b 0x3a (Some normal_h) (Some normal_h);
    mk_key 0x27 0x22 (Some normal_h) (Some normal_h);
    mk_key 0x60 0x7e (Some normal_h) (Some normal_h);
    mk_key 0x2c 0x3c (Some normal_h) (Some normal_h);
    mk_key 0x2e 0x3e (Some normal_h) (Some normal_h);
    mk_key 0x2f 0x3f (Some normal_h) (Some normal_h);
    mk_key 0x00 0x00 (Some caps_lock_h) (Some caps_lock_h);
    mk_key 0x01 0x00 (Some func_h) (Some func_h);
    mk_key 0x02 0x00 (Some func_h) (Some func_h);
    mk_key 0x03 0x00 (Some func_h) (Some func_h);
    mk_key 0x04 0x00 (Some func_h) (Some func_h);
    mk_key 0x05 0x00 (Some func_h) (Some func_h);
    mk_key 0x06 0x00 (Some func_h) (Some func_h);
    mk_key 0x07 0x00 (Some func_h) (Some func_h);
    mk_key 0x08 0x00 (Some func_h) (Some func_h);
    mk_key 0x09 0x00 (Some func_h) (Some func_h);
    mk_key 0x0a 0x00 (Some func_h) (Some func_h);
    mk_key 0x0b 0x00 (Some func_h) (Some func_h);
    mk_key 0x0c 0x00 (Some func_h) (Some func_h);
    mk_key 0x00 0x00 None None;
    mk_key 0x00 0x00 None None;
    mk_key 0x00 0x00 None None;
    mk_key 0x00 0x00 None None;
    mk_key 0x48 0x48 (Some escape_h) (Some escape_h);
    mk_key 0x00 0x00 None None;
    mk_key 0x00 0x00 None None;
    mk_key 0x46 0x46 (Some escape_h) (Some escape_h);
    mk_key 0x00 0x00 None None;
    mk_key 0x43 0x43 (Some escape_h) (Some escape_h);
    mk_key 0x44 0x44 (Some escape_h) (Some escape_h);
    mk_key 0x42 0x42 (Some escape_h) (Some escape_h);
    mk_key 0x41 0x41 (Some escape_h) (Some escape_h);
    mk_key 0x00 0x00 (Some num_lock_h) (Some num_lock_h);
    mk_key 0x2f 0x2f (Some normal_h) (Some normal_h);
    mk_key 0x2a 0x2a (Some normal_h) (Some normal_h);
    mk_key 0x2d 0x2d (Some normal_h) (Some normal_h);
    mk_key 0x2b 0x2b (Some normal_h) (Some normal_h);
    mk_key 0x0d 0x0d (Some normal_h) (Some normal_h);
    mk_key 0x31 0x46 (Some normal_h) (Some escape_h);
    mk_key 0x32 0x42 (Some normal_h) (Some escape_h);
    mk_key 0x33 0x00 (Some normal_h) None;
    mk_key 0x34 0x44 (Some normal_h) (Some escape_h);
    mk_key 0x35 0x35 (Some normal_h) (Some normal_h);
    mk_key 0x36 0x43 (Some normal_h) (Some escape_h);
    mk_key 0x37 0x48 (Some normal_h) (Some escape_h);
    mk_key 0x38 0x41 (Some normal_h) (Some escape_h);
    mk_key 0x39 0x00 (Some normal_h) None;
    mk_key 0x30 0x00 (Some normal_h) None;
    mk_key 0x2e 0x00 (Some normal_h) None;
    mk_key 0x00 0x00 None None;
    mk_key 0x00 0x00 None None;
    mk_key 0x00 0x00 None None;
    mk_key 0x3d 0x3d (Some normal_h) (Some normal_h);
    mk_key 0x00 0x00 None None;
    mk_key 0x00 0x00 None None;
    mk_key 0x00 0x00 None None;
    mk_key 0x00 0x00 None None;
    mk_key 0x00 0x00 None None;
    mk_key 0x00 0x00 None None;
    mk_key 0x00 0x00 None None;
    mk_key 0x00 0x00 None None;
    mk_key 0x00 0x00 None None;
    mk_key 0x00 0x00 None None;
    mk_key 0x00 0x00 None None;
    mk_key 0x00 0x00 None None;
    mk_key 0x00 0x00 None None;
    mk_key 0x00 0x00 None None;
    mk_key 0x00 0x00 None None;
    mk_key 0x00 0x00 None None;
    mk_key 0x00 0x00 None None;
    mk_key 0x00 0x00 None None;
    mk_key 0x00 0x00 None None;
    mk_key 0x00 0x00 None None;
    mk_key 0x00 0x00 None None;
    mk_key 0x00 0x00 None None;
    mk_key 0x00 0x00 None None;
    mk_key 0x00 0x00 None None;
    mk_key 0x00 0x00 None None;
    mk_key 0x00 0x00 None None;
    mk_key 0x00 0x00 None None;
    mk_key 0x00 0x00 (Some num_lock_h) (Some num_lock_h);
    mk_key 0x00 0x00 None None;
    mk_key 0x27 0x27 (Some normal_h) (Some normal_h);
    mk_key 0x3d 0x3d (Some normal_h) (Some normal_h);
    mk_key 0x00 0x00 None None;
    mk_key 0x00 0x00 None None;
    mk_key 0x00 0x00 None None;
    mk_key 0x00 0x00 None None;
    mk_key 0x00 0x00 None None;
    mk_key 0x00 0x00 None None;
    mk_key 0x00 0x00 None None;
    mk_key 0x00 0x00 None None;
    mk_key 0x00 0x00 None None;
    mk_key 0x00 0x00 None None;
    mk_key 0x00 0x00 None None;
    mk_key 0x00 0x00 None None;
    mk_key 0x00 0x00 None None;
    mk_key 0x00 0x00 None None;
    mk_key 0x00 0x00 None None;
    mk_key 0x00 0x00 None None;
    mk_key 0x00 0x00 None None
  ].

(** [struct usb_keyboard] without the pointers and the unused mailbox number. *)
Record usb_keyboard : Type := mk_uk {
  report : list Z;
  last_report : list Z;
  caps_lock_key : Z;
  num_lock_key : Z;
  shift_key : Z;
  ctrl_key : Z;
  alt_key : Z
}.

Definition set_last_report v u := mk_uk (report u) v (caps_lock_key u) (num_lock_key u) (shift_key u) (ctrl_key u) (alt_key u).
Definition set_report v u := mk_uk v (last_report u) (caps_lock_key u) (num_lock_key u) (shift_key u) (ctrl_key u) (alt_key u).
Definition set_caps_lock_key v u := mk_uk (report u) (last_report u) v (num_lock_key u) (shift_key u) (ctrl_key u) (alt_key u).
Definition set_num_lock_key v u := mk_uk (report u) (last_report u) (caps_lock_key u) v (shift_key u) (ctrl_key u) (alt_key u).
Definition set_modifier_keys s c a u := mk_uk (report u) (last_report u) (caps_lock_key u) (num_lock_key u) s c a.

(** The keyboard queue, and the record of the USB keyboard. *)
Record ukst : Type := mk_ukst { kbd : kbst; uk : usb_keyboard }.

Definition set_kbd (v : kbst) (s : ukst) : ukst := mk_ukst v (uk s).
Definition set_uk (v : usb_keyboard) (s : ukst) : ukst := mk_ukst (kbd s) v.
Definition upd_uk (f : usb_keyboard -> usb_keyboard) : M ukst unit := modify (fun s => set_uk (f (uk s)) s).

(** Sequencing of operations that may wait. *)
Definition then_ {S} (m : M S (result unit)) (k : M S (result unit)) : M S (result unit) :=
  r <-- m ;; match r with Blocked => ret Blocked | Done _ => k end.

(** ** Operations *)

(** [c] is a [char]; [putchar] reads only the first field of the structure, the
    others are not initialised. *)
Definition usb_keyboard_put_char (c : Z) : M ukst (result unit) :=
  zoom kbd set_kbd (putchar (mk_character (u8 (s8 c)) 0 0)).

Definition key_entry (key_code : Z) : M ukst key_map :=
  match usb_keyboard_map !! Z.to_nat key_code with Some e => ret e | None => stuck end.

Definition run_normal_h (key_code : Z) : M ukst (result unit) :=
  u <-- gets uk ;;
  e <-- key_entry key_code ;;
  usb_keyboard_put_char (if Z.rem (shift_key u + caps_lock_key u) 2 =? 0 then key e else key1 e).

Definition run_escape_h (key_code : Z) : M ukst (result unit) :=
  e <-- key_entry key_code ;;
  then_ (usb_keyboard_put_char 0x1b)
    (then_ (usb_keyboard_put_char 0x5d) (usb_keyboard_put_char (key1 e))).

Definition call_func (f : key_func) (key_code : Z) : M ukst (result unit) :=
  match f with
  | normal_h => run_normal_h key_code
  | escape_h => run_escape_h key_code
  | num_lock_h => upd_uk (fun u => set_num_lock_key (1 - num_lock_key u) u) ;;; ret (Done tt)
  | caps_lock_h => upd_uk (fun u => set_caps_lock_key (1 - caps_lock_key u) u) ;;; ret (Done tt)
  | func_h => ret (Done tt)
  end.

(** One round of the loop over the keys of the report. *)
Definition handle_key (key_code : Z) : M ukst (result unit) :=
  u <-- gets uk ;;
  let key_pressed := negb (existsb (Z.eqb key_code) (drop 2 (last_report u))) in
  if key_pressed && (key_code <? 0x64) then
    e <-- key_entry key_code ;;
    let func :=
      if (0x54 <=? key_code) && (key_code <=? 0x63) && (num_lock_key u =? 0) then func1 e else func0 e in
    match func with
    | Some f => call_func f key_code
    | None => ret (Done tt)
    end
  else ret (Done tt).

Fixpoint handle_keys (ks : list Z) : M ukst (result unit) :=
  match ks with
  | [] => ret (Done tt)
  | k :: ks' => then_ (handle_key k) (handle_keys ks')
  end.

Definition modifier (b bits : Z) : Z := if negb (Z.land b bits =? 0) then 1 else 0.

Definition usb_kbd_ihandler : M ukst (result unit) :=
  u <-- gets uk ;;
  match report u with
  | [] => stuck
  | b :: _ =>
      upd_uk (set_modifier_keys (modifier b (Z.lor LEFT_SHIFT RIGHT_SHIFT))
                (modifier b (Z.lor LEFT_CTRL RIGHT_CTRL)) (modifier b (Z.lor LEFT_ALT RIGHT_ALT))) ;;;
      then_ (handle_keys (drop 2 (report u)))
        (upd_uk (fun u => set_last_report (report u) u) ;;; ret (Done tt))
  end.

(** One interrupt for each report that the host controller stores. *)
Fixpoint reports (rs : list (list Z)) : M ukst (result unit) :=
  match rs with
  | [] => ret (Done tt)
  | r :: rs' => upd_uk (set_report r) ;;; then_ usb_kbd_ihandler (reports rs')
  end.

(** ** The states of a keyboard *)

Record ukb : Type := mk_ukb { caps : bool; num : bool; down : list Z; waiting : list Z }.

Definition keypad (k : Z) : bool := (0x54 <=? k) && (k <=? 0x63).

(** What the key does by the driver's table: the second meaning of a keypad key
    holds while num lock is off. *)
Definition func_of (num : bool) (k : Z) : option key_func :=
  e ← usb_keyboard_map !! Z.to_nat k; if keypad k && negb num then func1 e else func0 e.

(** The characters of a key by the driver's table. *)
Definition chars_of (shift caps num : bool) (k : Z) : list Z :=
  match usb_keyboard_map !! Z.to_nat k with
  | None => []
  | Some e =>
      match func_of num k with
      | Some normal_h => [if xorb shift caps then key1 e else key e]
      | Some escape_h => [0x1b; 0x5d; key1 e]
      | _ => []
      end
  end.

Definition queue_chars (cs l : list Z) : list Z := fold_left (fun cs c => queue_char cs (Some c)) l cs.

Definition press (shift : bool) (st : ukb) (k : Z) : ukb :=
  mk_ukb (xorb (caps st) (bool_decide (func_of (num st) k = Some caps_lock_h)))
         (xorb (num st) (bool_decide (func_of (num st) k = Some num_lock_h)))
         (down st) (queue_chars (waiting st) (chars_of shift (caps st) (num st) k)).

Definition shift_down (rep : list Z) : bool :=
  match rep with b :: _ => Z.testbit b 1 || Z.testbit b 5 | [] => false end.

(** The keys of the report that were not down before are pressed, in their
    order. *)
Definition new_keys (last rep : list Z) : list Z := filter (fun k => (k ∉ last) /\ k < 0x64) (drop 2 rep).

Definition uk_step (st : ukb) (rep : list Z) : ukb :=
  let st' := fold_left (press (shift_down rep)) (new_keys (down st) rep) st in
  mk_ukb (caps st') (num st') (drop 2 rep) (waiting st').

Definition is_report (rep : list Z) : Prop := length rep = BOOT_REPORT_SIZE /\ Forall (fun b => 0 <= b < 256) rep.

Record uk_represents (s : ukst) (st : ukb) (r l : list ptr) : Prop := {
  ur_queue : exists m, represents (kbd s) m (waiting st) r l;
  ur_caps : caps_lock_key (uk s) = Z.b2z (caps st);
  ur_num : num_lock_key (uk s) = Z.b2z (num st);
  ur_down : drop 2 (last_report (uk s)) = down st
}.

(** ** The driver follows it *)

Definition entry_ok (e : key_map) : bool := (0 <=? key e) && (key e <? 256) && (0 <=? key1 e) && (key1 e <? 256).

Lemma entries_ok : forallb entry_ok usb_keyboard_map = true.
Proof. reflexivity. Qed.

Lemma entry_bytes k e : usb_keyboard_map !! k = Some e -> 0 <= key e < 256 /\ 0 <= key1 e < 256.
Proof.
  intros H. pose proof entries_ok as A. rewrite forallb_forall in A.
  specialize (A e (proj1 (list_elem_of_In _ _) (list_elem_of_lookup_2 _ _ _ H))).
  unfold entry_ok in A. rewrite !andb_true_iff, !Z.leb_le, !Z.ltb_lt in A. lia.
Qed.

Lemma u8_s8 c : 0 <= c < 256 -> u8 (s8 c) = c.
Proof.
  intros. unfold u8, s8. change (2 ^ 7) with 128. change (2 ^ 8) with 256.
  rewrite Zminus_mod_idemp_l. rewrite Z.mod_small; lia.
Qed.

Lemma put_char_run s st r l c :
  uk_represents s st r l -> 0 <= c < 256 ->
  exists s' r' l', usb_keyboard_put_char c s = Ret (Done tt, s')
    /\ uk_represents s' (mk_ukb (caps st) (num st) (down st) (queue_char (waiting st) (Some c))) r' l'
    /\ r' ++ l' = r ++ l /\ uk s' = uk s.
Proof.
  intros [(m & Hr) Hc Hn Hd] Hb. unfold usb_keyboard_put_char. rewrite u8_s8 by done.
  destruct (putchar_run _ _ _ _ _ c 0 0 Hr) as (k' & r' & l' & E & Hr' & P & _).
  exists (set_kbd k' s), r', l'. unfold zoom. rewrite E. split_and!; [done| |done|done].
  split; [by exists m|done|done|done].
Qed.

Lemma then_step {S} (m k : M S (result unit)) s s' : m s = Ret (Done tt, s') -> then_ m k s = k s'.
Proof. intros H. unfold then_. by rewrite (bind_step _ _ _ _ _ H). Qed.

Lemma key_entry_ok k e : usb_keyboard_map !! Z.to_nat k = Some e ->
  forall B (g : key_map -> M ukst B) s, bind (key_entry k) g s = g e s.
Proof. intros H B g s. unfold key_entry. by rewrite H. Qed.

(** One key press. *)
Lemma call_func_run s st r l k e f shift :
  uk_represents s st r l -> usb_keyboard_map !! Z.to_nat k = Some e -> func_of (num st) k = Some f ->
  shift_key (uk s) = Z.b2z shift ->
  exists s' r' l', call_func f k s = Ret (Done tt, s')
    /\ uk_represents s' (press shift st k) r' l' /\ r' ++ l' = r ++ l
    /\ report (uk s') = report (uk s) /\ last_report (uk s') = last_report (uk s) /\ shift_key (uk s') = shift_key (uk s).
Proof.
  intros HR He Hf Hs. destruct (entry_bytes _ _ He) as [B1 B2]. unfold press, chars_of. rewrite He, Hf.
  destruct f; cbn [call_func queue_chars fold_left];
    rewrite ?bool_decide_eq_true_2 by done; rewrite ?bool_decide_eq_false_2 by done; rewrite ?xorb_false_r.
  - unfold run_normal_h. rewrite bind_gets, (key_entry_ok _ _ He).
    assert ((Z.rem (shift_key (uk s) + caps_lock_key (uk s)) 2 =? 0) = negb (xorb shift (caps st))) as ->.
    { rewrite Hs, (ur_caps _ _ _ _ HR). by destruct shift, (caps st). }
    replace (if negb (xorb shift (caps st)) then key e else key1 e) with (if xorb shift (caps st) then key1 e else key e)
      by (by destruct (xorb _ _)).
    destruct (put_char_run s st r l (if xorb shift (caps st) then key1 e else key e) HR)
      as (s' & r' & l' & E & HR' & P & U); [by destruct (xorb _ _)|].
    exists s', r', l'. by rewrite U.
  - unfold run_escape_h. rewrite (key_entry_ok _ _ He).
    destruct (put_char_run _ _ _ _ 0x1b HR) as (s1 & r1 & l1 & E1 & HR1 & P1 & U1); [lia|].
    rewrite (then_step _ _ _ _ E1).
    destruct (put_char_run _ _ _ _ 0x5d HR1) as (s2 & r2 & l2 & E2 & HR2 & P2 & U2); [lia|].
    rewrite (then_step _ _ _ _ E2).
    destruct (put_char_run _ _ _ _ (key1 e) HR2) as (s3 & r3 & l3 & E3 & HR3 & P3 & U3); [lia|].
    exists s3, r3, l3. rewrite U3, U2, U1. split_and!; try done. congruence.
  - eexists _, r, l. split; [reflexivity|]. destruct HR as [H1 H2 H3 H4].
    split_and!; [split|done..]; try done. cbn. rewrite H3. by destruct (num st).
  - eexists _, r, l. split; [reflexivity|]. destruct HR as [H1 H2 H3 H4].
    split_and!; [split|done..]; try done. cbn. rewrite H2. by destruct (caps st).
  - exists s, r, l. split_and!; try done. by destruct st.
Qed.

Lemma press_none shift st k : func_of (num st) k = None -> press shift st k = st.
Proof.
  intros H. unfold press, chars_of. rewrite H. rewrite !bool_decide_eq_false_2 by done. rewrite !xorb_false_r.
  destruct st; cbn. by destruct (usb_keyboard_map !! Z.to_nat k).
Qed.

Lemma existsb_elem k (l : list Z) : existsb (Z.eqb k) l = bool_decide (k ∈ l).
Proof.
  induction l as [|a l IH]; [done|]. cbn [existsb]. rewrite IH.
  destruct (Z.eqb_spec k a) as [->|Hn]; cbn [orb].
  - symmetry. apply bool_decide_eq_true_2. left.
  - apply bool_decide_ext. rewrite elem_of_cons. tauto.
Qed.

Lemma map_covers k : 0 <= k < 0x64 -> is_Some (usb_keyboard_map !! Z.to_nat k).
Proof. intros H. apply lookup_lt_is_Some_2. cbn. lia. Qed.

Lemma keypad_func num k e :
  usb_keyboard_map !! Z.to_nat k = Some e ->
  (if (0x54 <=? k) && (k <=? 0x63) && (Z.b2z num =? 0) then func1 e else func0 e) = func_of num k.
Proof. intros H. unfold func_of, keypad. rewrite H. cbn. by destruct num. Qed.

Lemma handle_key_run s st r l k shift :
  uk_represents s st r l -> 0 <= k < 256 -> shift_key (uk s) = Z.b2z shift ->
  exists s' r' l', handle_key k s = Ret (Done tt, s')
    /\ uk_represents s' (fold_left (press shift) (filter (fun k => (k ∉ down st) /\ k < 0x64) [k]) st) r' l'
    /\ r' ++ l' = r ++ l
    /\ report (uk s') = report (uk s) /\ last_report (uk s') = last_report (uk s) /\ shift_key (uk s') = shift_key (uk s).
Proof.
  intros HR Hk Hs. unfold handle_key. rewrite bind_gets, (ur_down _ _ _ _ HR), existsb_elem.
  rewrite filter_cons, filter_nil.
  destruct (decide ((k ∉ down st) /\ k < 0x64)) as [[H1 H2]|Hno].
  - rewrite bool_decide_eq_false_2 by done. rewrite (proj2 (Z.ltb_lt _ _) H2). cbn [negb andb fold_left].
    destruct (map_covers k) as [e He]; [lia|]. rewrite (key_entry_ok _ _ He).
    rewrite (ur_num _ _ _ _ HR), (keypad_func _ _ _ He).
    destruct (func_of (num st) k) as [g|] eqn:Hg.
    + by eapply call_func_run.
    + exists s, r, l. rewrite (press_none _ _ _ Hg). done.
  - cbn [fold_left]. exists s, r, l. split_and!; try done.
    destruct (bool_decide_reflect (k ∈ down st)); [done|]. cbn [negb andb].
    rewrite (proj2 (Z.ltb_ge _ _)); [done|]. apply not_and_l in Hno as [?|?]; [done|lia].
Qed.

Lemma down_press shift ks : forall st, down (fold_left (press shift) ks st) = down st.
Proof. induction ks as [|k ks IH]; intros st; [done|]. cbn [fold_left]. by rewrite IH. Qed.

Lemma handle_keys_run shift ks : forall s st r l,
  uk_represents s st r l -> Forall (fun k => 0 <= k < 256) ks -> shift_key (uk s) = Z.b2z shift ->
  exists s' r' l', handle_keys ks s = Ret (Done tt, s')
    /\ uk_represents s' (fold_left (press shift) (filter (fun k => (k ∉ down st) /\ k < 0x64) ks) st) r' l'
    /\ r' ++ l' = r ++ l /\ report (uk s') = report (uk s).
Proof.
  induction ks as [|k ks IH]; intros s st r l HR Hks Hs; [by exists s, r, l|].
  apply list.Forall_cons_1 in Hks as [Hk Hks].
  destruct (handle_key_run _ _ _ _ _ _ HR Hk Hs) as (s1 & r1 & l1 & E1 & HR1 & P1 & R1 & _ & S1).
  destruct (IH _ _ _ _ HR1 Hks) as (s2 & r2 & l2 & E2 & HR2 & P2 & R2); [congruence|].
  exists s2, r2, l2. cbn [handle_keys]. rewrite (then_step _ _ _ _ E1).
  split_and!; [done| |congruence|congruence].
  change (k :: ks) with ([k] ++ ks). rewrite list.filter_app, fold_left_app. by rewrite down_press in HR2.
Qed.

Lemma modifier_shift b : 0 <= b < 256 -> modifier b (Z.lor LEFT_SHIFT RIGHT_SHIFT) = Z.b2z (Z.testbit b 1 || Z.testbit b 5).
Proof.
  intros Hb. unfold modifier. change (Z.lor LEFT_SHIFT RIGHT_SHIFT) with (Z.lor (2 ^ 1) (2 ^ 5)).
  destruct (Z.eqb_spec (Z.land b (Z.lor (2 ^ 1) (2 ^ 5))) 0) as [E|E]; cbn [negb].
  - assert (H : forall i, i = 1 \/ i = 5 -> Z.testbit b i = false).
    { intros i Hi. assert (T : Z.testbit (Z.land b (Z.lor (2 ^ 1) (2 ^ 5))) i = false) by (rewrite E; apply Z.testbit_0_l).
      rewrite Z.land_spec in T. destruct Hi as [->| ->]; by rewrite andb_true_r in T. }
    by rewrite !H by auto.
  - destruct (Z.testbit b 1) eqn:E1; [done|]. destruct (Z.testbit b 5) eqn:E5; [done|]. exfalso. apply E.
    apply Z.bits_inj'. intros n Hn. rewrite Z.land_spec, Z.lor_spec, Z.testbit_0_l, !Z.pow2_bits_eqb by lia.
    destruct (Z.eqb_spec 1 n) as [<-|]; [by rewrite E1|]. destruct (Z.eqb_spec 5 n) as [<-|]; [by rewrite E5|].
    by rewrite andb_false_r.
Qed.

Lemma ihandler_run s st r l :
  uk_represents s st r l -> is_report (report (uk s)) ->
  exists s' r' l', usb_kbd_ihandler s = Ret (Done tt, s')
    /\ uk_represents s' (uk_step st (report (uk s))) r' l' /\ r' ++ l' = r ++ l.
Proof.
  intros HR [Hlen Hb]. unfold usb_kbd_ihandler. rewrite bind_gets.
  destruct (report (uk s)) as [|b rest] eqn:Er; [done|]. unfold upd_uk. rewrite bind_modify.
  apply list.Forall_cons_1 in Hb as Hb'. destruct Hb' as [Hb0 _].
  set (s1 := set_uk _ s).
  assert (HR1 : uk_represents s1 st r l) by (destruct HR; by split).
  assert (S1 : shift_key (uk s1) = Z.b2z (shift_down (b :: rest))) by (by apply modifier_shift).
  destruct (handle_keys_run _ (drop 2 (b :: rest)) _ _ _ _ HR1 (Forall_drop _ _ _ Hb) S1)
    as (s2 & r2 & l2 & E2 & HR2 & P2 & R2).
  eexists _, r2, l2. rewrite (then_step _ _ _ _ E2). split; [reflexivity|]. split; [|done].
  destruct HR2 as [H1 H2 H3 H4]. split; [done..|].
  cbn [uk set_uk last_report set_last_report]. rewrite R2. unfold s1. cbn. by rewrite Er.
Qed.

Lemma reports_run rs : forall s st r l,
  uk_represents s st r l -> Forall is_report rs ->
  exists s' r' l', reports rs s = Ret (Done tt, s')
    /\ uk_represents s' (fold_left uk_step rs st) r' l' /\ r' ++ l' = r ++ l.
Proof.
  induction rs as [|rep rs IH]; intros s st r l HR Hrs; [by exists s, r, l|].
  apply list.Forall_cons_1 in Hrs as [Hrep Hrs]. cbn [reports]. unfold upd_uk. rewrite bind_modify.
  destruct (ihandler_run (set_uk (set_report rep (uk s)) s) st r l) as (s1 & r1 & l1 & E1 & HR1 & P1);
    [destruct HR; by split|done|].
  destruct (IH _ _ _ _ HR1 Hrs) as (s2 & r2 & l2 & E2 & HR2 & P2).
  exists s2, r2, l2. rewrite (then_step _ _ _ _ E1). split_and!; [done|done|congruence].
Qed.

(** ** The US keyboard *)

Inductive action : Type :=
| Letter (c : Z)
| Types (plain shifted : Z)
| Cursor (final : Z)
| Caps_lock
| Num_lock
| No_action.

Definition chr (c : Ascii.ascii) : Z := Z.of_N (Ascii.N_of_ascii c).
Arguments chr c%_char_scope.

(** The keys of a US keyboard by their numbers in the USB usage tables; [num] is
    the state of num lock, without which the keypad moves the cursor.  Function
    keys, Insert, Delete, Page Up and Page Down type nothing. *)
Definition us_layout (num : bool) (k : Z) : action :=
  if (4 <=? k) && (k <=? 29) then Letter (chr "a" + (k - 4))
  else match k with
  | 30 => Types (chr "1") (chr "!") | 31 => Types (chr "2") (chr "@") | 32 => Types (chr "3") (chr "#")
  | 33 => Types (chr "4") (chr "$") | 34 => Types (chr "5") (chr "%") | 35 => Types (chr "6") (chr "^")
  | 36 => Types (chr "7") (chr "&") | 37 => Types (chr "8") (chr "*") | 38 => Types (chr "9") (chr "(")
  | 39 => Types (chr "0") (chr ")")
  | 40 => Types 13 13 | 41 => Types 27 27 | 42 => Types 8 8 | 43 => Types 9 9 | 44 => Types 32 32
  | 45 => Types (chr "-") (chr "_") | 46 => Types (chr "=") (chr "+")
  | 47 => Types (chr "[") (chr "{") | 48 => Types (chr "]") (chr "}") | 49 => Types (chr "\") (chr "|")
  | 50 => Types (chr "#") (chr "~") | 51 => Types (chr ";") (chr ":") | 52 => Types (chr "'") 34
  | 53 => Types (chr "`") (chr "~") | 54 => Types (chr ",") (chr "<") | 55 => Types (chr ".") (chr ">")
  | 56 => Types (chr "/") (chr "?")
  | 57 => Caps_lock
  | 74 => Cursor (chr "H") | 77 => Cursor (chr "F") | 79 => Cursor (chr "C") | 80 => Cursor (chr "D")
  | 81 => Cursor (chr "B") | 82 => Cursor (chr "A")
  | 83 => Num_lock
  | 84 => Types (chr "/") (chr "/") | 85 => Types (chr "*") (chr "*") | 86 => Types (chr "-") (chr "-")
  | 87 => Types (chr "+") (chr "+") | 88 => Types 13 13
  | 89 => if num then Types (chr "1") (chr "1") else Cursor (chr "F")
  | 90 => if num then Types (chr "2") (chr "2") else Cursor (chr "B")
  | 91 => if num then Types (chr "3") (chr "3") else No_action
  | 92 => if num then Types (chr "4") (chr "4") else Cursor (chr "D")
  | 93 => Types (chr "5") (chr "5")
  | 94 => if num then Types (chr "6") (chr "6") else Cursor (chr "C")
  | 95 => if num then Types (chr "7") (chr "7") else Cursor (chr "H")
  | 96 => if num then Types (chr "8") (chr "8") else Cursor (chr "A")
  | 97 => if num then Types (chr "9") (chr "9") else No_action
  | 98 => if num then Types (chr "0") (chr "0") else No_action
  | 99 => if num then Types (chr ".") (chr ".") else No_action
  | _ => No_action
  end.

(** Caps lock is for the letters; the cursor keys send the sequences of ANSI
    terminals, which begin with an opening bracket. *)
Definition us_chars (shift caps num : bool) (k : Z) : list Z :=
  match us_layout num k with
  | Letter c => [if xorb shift caps then c - 32 else c]
  | Types plain shifted => [if shift then shifted else plain]
  | Cursor final => [27; chr "["; final]
  | Caps_lock | Num_lock | No_action => []
  end.

Definition us_press (shift : bool) (st : ukb) (k : Z) : ukb :=
  mk_ukb (xorb (caps st) (match us_layout (num st) k with Caps_lock => true | _ => false end))
         (xorb (num st) (match us_layout (num st) k with Num_lock => true | _ => false end))
         (down st) (queue_chars (waiting st) (us_chars shift (caps st) (num st) k)).

(** The keys that were not down before are pressed, in the order of the report. *)
Definition us_new_keys (last rep : list Z) : list Z := filter (fun k => k ∉ last) (drop 2 rep).

Definition us_step (st : ukb) (rep : list Z) : ukb :=
  let st' := fold_left (us_press (shift_down rep)) (us_new_keys (down st) rep) st in
  mk_ukb (caps st') (num st') (drop 2 rep) (waiting st').

(** Where the driver types what a US keyboard types: not for the cursor keys, not
    for the asterisk, not for other keys with two characters while caps lock is
    on, and not for the digits of the keypad together with shift or caps lock. *)
Definition ordinary (shift caps num : bool) (k : Z) : bool :=
  match us_layout num k with
  | Letter _ | Caps_lock | Num_lock | No_action => true
  | Cursor _ => false
  | Types plain shifted =>
      if (89 <=? k) && negb (k =? 93) then negb (xorb shift caps)
      else (plain =? shifted) || (negb caps && negb (shift && (k =? 37)))
  end.

(** A report without the codes 1 to 3, with which a keyboard says that it cannot
    report the keys. *)
Definition says_keys (rep : list Z) : bool := forallb (fun k => (k =? 0) || (4 <=? k)) (drop 2 rep).

Fixpoint ordinary_keys (shift : bool) (ks : list Z) (st : ukb) : bool :=
  match ks with
  | [] => true
  | k :: ks' => ordinary shift (caps st) (num st) k && ordinary_keys shift ks' (us_press shift st k)
  end.

Fixpoint ordinary_run (rs : list (list Z)) (st : ukb) : bool :=
  match rs with
  | [] => true
  | rep :: rs' =>
      says_keys rep && ordinary_keys (shift_down rep) (us_new_keys (down st) rep) st && ordinary_run rs' (us_step st rep)
  end.

(** The driver's table against the layout, on all keys it looks at. *)
Definition same_locks (nl : bool) (k : Z) : bool :=
  Bool.eqb (bool_decide (func_of nl k = Some caps_lock_h)) (match us_layout nl k with Caps_lock => true | _ => false end)
  && Bool.eqb (bool_decide (func_of nl k = Some num_lock_h)) (match us_layout nl k with Num_lock => true | _ => false end).

Lemma table_checked :
  forallb (fun nl => forallb (fun k => same_locks nl k
    && forallb (fun sh => forallb (fun cl => Bool.eqb (ordinary sh cl nl k) (bool_decide (chars_of sh cl nl k = us_chars sh cl nl k)))
      [true; false]) [true; false]) (seqZ 0 100)) [true; false] = true.
Proof. reflexivity. Qed.

Lemma both_bools (f : bool -> bool) b : forallb f [true; false] = true -> f b = true.
Proof. intros H. apply andb_true_iff in H as [H1 H2]. apply andb_true_iff in H2 as [H2 _]. by destruct b. Qed.

Lemma table_at nl k : 0 <= k < 100 -> same_locks nl k = true
  /\ forall sh cl, ordinary sh cl nl k = bool_decide (chars_of sh cl nl k = us_chars sh cl nl k).
Proof.
  intros Hk. pose proof (both_bools _ nl table_checked) as H. cbv beta in H. rewrite forallb_forall in H.
  assert (Hin : k ∈ seqZ 0 100) by (apply elem_of_seqZ; lia). specialize (H k (proj1 (list_elem_of_In _ _) Hin)).
  apply andb_true_iff in H as [H1 H2]. split; [done|]. intros sh cl.
  apply (both_bools _ sh) in H2. apply (both_bools _ cl) in H2. by apply eqb_prop.
Qed.

(** [ordinary] is exact: the driver types the characters of the layout on the keys
    that are ordinary, and other characters on all the others. *)
Theorem ordinary_exact shift caps num k : 0 <= k < 100 ->
  ordinary shift caps num k = true <-> chars_of shift caps num k = us_chars shift caps num k.
Proof. intros Hk. destruct (table_at num k Hk) as [_ H]. rewrite H. apply bool_decide_eq_true. Qed.

(** The four ways in which the driver differs: the introducer of the cursor
    sequences, the asterisk, caps lock and the keypad. *)
Lemma driver_deviations :
  chars_of false false true 82 = [27; 93; 65] /\ us_chars false false true 82 = [27; 91; 65]
  /\ chars_of true false true 37 = [82] /\ us_chars true false true 37 = [42]
  /\ chars_of false true true 30 = [33] /\ us_chars false true true 30 = [49]
  /\ chars_of true false true 89 = [70] /\ us_chars true false true 89 = [49].
Proof. repeat split. Qed.

Lemma press_ordinary shift st k : 0 <= k < 100 -> ordinary shift (caps st) (num st) k = true -> press shift st k = us_press shift st k.
Proof.
  intros Hk Ho. destruct (table_at (num st) k Hk) as [H1 H2]. rewrite H2 in Ho. apply bool_decide_eq_true in Ho.
  apply andb_true_iff in H1 as [A B]. apply eqb_prop in A, B. unfold press, us_press. by rewrite A, B, Ho.
Qed.

Lemma us_press_none shift st k : 100 <= k -> us_press shift st k = st.
Proof.
  intros Hk. assert (E : us_layout (num st) k = No_action).
  { unfold us_layout. rewrite (proj2 (Z.leb_gt k 29)), andb_false_r by lia.
    destruct k as [|q|q]; try lia. do 7 (destruct q as [q|q|]; try lia; try reflexivity). }
  unfold us_press, us_chars. rewrite E, !xorb_false_r. by destruct st.
Qed.

Lemma step_ordinary st rep' : is_report rep' -> ordinary_keys (shift_down rep') (us_new_keys (down st) rep') st = true ->
  uk_step st rep' = us_step st rep'.
Proof.
  intros [_ Hb]. unfold uk_step, us_step, us_new_keys, new_keys. set (sh := shift_down rep').
  assert (H : forall ks s0, Forall (fun b => 0 <= b < 256) ks -> ordinary_keys sh (filter (fun k => k ∉ down st) ks) s0 = true ->
    fold_left (press sh) (filter (fun k => (k ∉ down st) /\ k < 0x64) ks) s0 = fold_left (us_press sh) (filter (fun k => k ∉ down st) ks) s0).
  { induction ks as [|k ks IH]; intros s0 Hks Ho; [done|]. apply list.Forall_cons_1 in Hks as [Hk Hks]. rewrite !filter_cons in *.
    destruct (decide (k ∉ down st)) as [Hd|Hd]; [|rewrite decide_False by tauto; by apply IH].
    cbn [ordinary_keys] in Ho. apply andb_true_iff in Ho as [Ho1 Ho2]. cbn [fold_left].
    destruct (decide (k < 0x64)) as [Hlt|Hge].
    - rewrite decide_True by done. cbn [fold_left]. rewrite (press_ordinary sh s0 k) by (done || lia). by apply IH.
    - rewrite decide_False by tauto. rewrite us_press_none in * by lia. by apply IH. }
  intros Ho. rewrite (H (drop 2 rep') st (Forall_drop _ _ _ Hb) Ho). done.
Qed.

(** ** Theorems *)

(** [C23] The USB keyboard driver implements a US keyboard: for every sequence of
    reports in which the keys that are pressed are ordinary ones, the handler
    completes each time, the lock keys follow, and the mailbox gets exactly the
    characters of the US layout for the keys that a report has and the report
    before did not have, in their order, with shift and the lock keys as they are
    at that moment, the ones that do not fit left out.  No thread that waits in
    [getchar] is lost. *)
Theorem usb_keyboard_simulates s st r l rs :
  uk_represents s st r l -> Forall is_report rs -> ordinary_run rs st = true ->
  exists s' r' l', reports rs s = Ret (Done tt, s')
    /\ uk_represents s' (fold_left us_step rs st) r' l' /\ r' ++ l' = r ++ l.
Proof.
  intros HR Hrs Ho. replace (fold_left us_step rs st) with (fold_left uk_step rs st); [by apply reports_run|].
  clear HR. revert st Ho. induction Hrs as [|rep' rs Hrep Hrs IH]; intros st Ho; [done|]. cbn [ordinary_run fold_left] in *.
  rewrite !andb_true_iff in Ho. destruct Ho as ((_ & Ho1) & Ho2). rewrite (step_ordinary st rep') by done. by apply IH.
Qed.

(** Nothing is new in a report that is repeated. *)
Lemma new_keys_same (last rep : list Z) : (forall k, k ∈ drop 2 rep -> k ∈ last) -> new_keys last rep = [].
Proof.
  unfold new_keys. generalize (drop 2 rep). intros ks H. induction ks as [|k ks IH]; [done|].
  rewrite filter_cons. destruct (decide _) as [[Hk _]|_].
  - exfalso. apply Hk, H. left.
  - apply IH. intros x Hx. apply H. by right.
Qed.

Lemma held_steps st rep n : fold_left uk_step (replicate n rep) (uk_step st rep) = uk_step st rep.
Proof.
  induction n as [|n IH]; [done|]. cbn [replicate fold_left].
  replace (uk_step (uk_step st rep) rep) with (uk_step st rep); [done|].
  unfold uk_step at 2. cbn [down]. by rewrite new_keys_same.
Qed.

(** Keys that are held down type once: the keyboard repeats its report every 20
    milliseconds, and however often it does, the lock keys and the queue of
    characters are as after the first time. *)
Theorem held_keys_typed_once s st r l rep n :
  uk_represents s st r l -> is_report rep ->
  exists s' r' l', reports (replicate (S n) rep) s = Ret (Done tt, s')
    /\ uk_represents s' (uk_step st rep) r' l' /\ r' ++ l' = r ++ l.
Proof.
  intros HR Hrep. destruct (reports_run (replicate (S n) rep) s st r l HR) as (s' & r' & l' & E & HR' & P).
  { by apply Forall_replicate. }
  exists s', r', l'. split_and!; [done| |done]. cbn [replicate fold_left] in HR'. by rewrite held_steps in HR'.
Qed.

(** The letter keys, pressed and released one after the other. *)
Definition key_down (k : Z) : list Z := [0; 0; k; 0; 0; 0; 0; 0].
Definition typing (ks : list Z) : list (list Z) := concat ((fun k => [key_down k; replicate 8 0]) <$> ks).

Definition no_key : list Z := replicate 6 0.

Lemma letter_chars nl k : 0x04 <= k <= 0x1d -> func_of nl k = Some normal_h /\ chars_of false false nl k = [k + 93].
Proof.
  intros Hk.
  assert (H : forallb (fun k => bool_decide (func_of nl k = Some normal_h) && bool_decide (chars_of false false nl k = [k + 93]))
    (seqZ 4 26) = true) by (destruct nl; reflexivity).
  rewrite forallb_forall in H. specialize (H k). rewrite andb_true_iff, !bool_decide_eq_true in H. apply H.
  apply list_elem_of_In, elem_of_seqZ. lia.
Qed.

Lemma type_letter nl cs k :
  0x04 <= k <= 0x1d -> Z.of_nat (length cs) < capacity ->
  uk_step (uk_step (mk_ukb false nl no_key cs) (key_down k)) (replicate 8 0) = mk_ukb false nl no_key (cs ++ [k + 93]).
Proof.
  intros Hk Hc. destruct (letter_chars nl k Hk) as [Hf Hch].
  assert (N : new_keys no_key (key_down k) = [k]).
  { unfold new_keys, key_down. cbn [drop]. rewrite filter_cons. rewrite decide_True.
    - done.
    - split; [|lia]. unfold no_key. intros Hin. apply elem_of_replicate in Hin. lia. }
  unfold uk_step at 2. cbn [down]. rewrite N. cbn [fold_left].
  unfold press. cbn [caps num down waiting shift_down key_down Z.testbit orb]. rewrite Hf, Hch.
  rewrite !bool_decide_eq_false_2 by done. cbn [xorb drop queue_chars fold_left queue_char].
  rewrite (proj2 (Z.ltb_lt _ _) Hc). unfold uk_step. cbn [down].
  rewrite new_keys_same; [|cbn; set_solver]. cbn. by rewrite xorb_false_r.
Qed.

Lemma type_letters nl ks : forall cs,
  Forall (fun k => 0x04 <= k <= 0x1d) ks -> Z.of_nat (length cs + length ks) <= capacity ->
  fold_left uk_step (typing ks) (mk_ukb false nl no_key cs) = mk_ukb false nl no_key (cs ++ ((fun k => k + 93) <$> ks)).
Proof.
  induction ks as [|k ks IH]; intros cs Hks Hc; [by rewrite app_nil_r|].
  apply list.Forall_cons_1 in Hks as [Hk Hks]. unfold typing in *. cbn [fmap list_fmap concat app fold_left].
  cbn [length] in Hc. rewrite type_letter by (done || lia). rewrite IH by (done || (rewrite length_app; cbn; lia)).
  by rewrite <- app_assoc.
Qed.

(** Text typed on the letter keys is what [getchar] returns, in order. *)
Theorem usb_typed_text s nl r l ks :
  uk_represents s (mk_ukb false nl no_key []) r l -> Forall (fun k => 0x04 <= k <= 0x1d) ks ->
  (length ks <= 204)%nat ->
  exists s1 s2, reports (typing ks) s = Ret (Done tt, s1)
    /\ zoom kbd set_kbd (getchars (length ks)) s1 = Ret (Done ((fun k => k + 93) <$> ks), s2).
Proof.
  intros HR Hks Hlen. destruct (reports_run (typing ks) s _ r l HR) as (s1 & r1 & l1 & E1 & HR1 & _).
  { clear -Hks. induction Hks as [|k ks Hk _ IH]; [constructor|].
    constructor; [split; [done|]; unfold key_down; repeat constructor; lia|].
    constructor; [split; [done|]; repeat constructor; lia|done]. }
  rewrite type_letters in HR1; [|done|change capacity with 204; cbn; lia].
  destruct HR1 as [(m & Hq) _ _ _]. cbn [waiting app] in Hq.
  destruct (getchars_run ((fun k => k + 93) <$> ks) (kbd s1) m [] r1 l1) as (k2 & E2 & _).
  { by rewrite app_nil_r. }
  exists s1, (set_kbd k2 s1). split; [done|]. unfold zoom. rewrite length_fmap in E2. rewrite E2. do 3 f_equal.
  rewrite <- list_fmap_compose. apply list_fmap_ext. intros i k Hik. cbn.
  apply s8_small. pose proof (Forall_lookup_1 _ _ _ _ Hks Hik). cbn in *. lia.
Qed.

(** ** Concrete instances *)

Module UsbKeyboard_instances.

Import Keyboard_instances.

Definition plugged : ukst :=
  mk_ukst opened (mk_uk (replicate 8 0) (replicate 8 0) 0 0 0 0 0).

Lemma plugged_represents : uk_represents plugged (mk_ukb false false no_key []) [1; 2; 3]%nat [].
Proof. split; [eexists; apply opened_represents|done..]. Qed.

Lemma report_ok rep : forallb (fun b => (0 <=? b) && (b <? 256)) rep = true -> length rep = 8%nat -> is_report rep.
Proof.
  intros H L. split; [done|]. apply Forall_forall. intros b Hb. rewrite forallb_forall in H.
  specialize (H b Hb). lia.
Qed.

(** Shift and the keys a and 9, then b beside them. *)
Lemma usb_keyboard_simulates_witness :
  exists s' r' l', reports [[2; 0; 4; 38; 0; 0; 0; 0]; [0; 0; 4; 38; 5; 0; 0; 0]] plugged = Ret (Done tt, s')
    /\ uk_represents s' (mk_ukb false false [4; 38; 5; 0; 0; 0] [65; 40; 98]) r' l' /\ r' ++ l' = [1; 2; 3]%nat.
Proof.
  apply (usb_keyboard_simulates plugged (mk_ukb false false no_key []) [1; 2; 3]%nat []
    [[2; 0; 4; 38; 0; 0; 0; 0]; [0; 0; 4; 38; 5; 0; 0; 0]]).
  - apply plugged_represents.
  - do 2 (constructor; [by apply report_ok|]); constructor.
  - reflexivity.
Defined.

Lemma held_keys_typed_once_witness :
  exists s' r' l', reports (replicate 50 [0; 0; 4; 0; 0; 0; 0; 0]) plugged = Ret (Done tt, s')
    /\ uk_represents s' (mk_ukb false false [4; 0; 0; 0; 0; 0] [97]) r' l' /\ r' ++ l' = [1; 2; 3]%nat.
Proof.
  apply (held_keys_typed_once plugged (mk_ukb false false no_key []) [1; 2; 3]%nat [] [0; 0; 4; 0; 0; 0; 0; 0] 49).
  - apply plugged_represents.
  - by apply report_ok.
Defined.

Lemma usb_typed_text_witness :
  exists s1 s2, reports (typing [0x0b; 0x0c]) plugged = Ret (Done tt, s1)
    /\ zoom kbd set_kbd (getchars 2) s1 = Ret (Done [104; 105], s2).
Proof.
  apply (usb_typed_text plugged false [1; 2; 3]%nat [] [0x0b; 0x0c]).
  - apply plugged_represents.
  - repeat constructor; lia.
  - cbn. lia.
Defined.

End UsbKeyboard_instances.
