(* ===== verification/Alloc.v ===== *)
(** * The kernel heap of the USB driver

    Models [src/src/kernel/usb/allocator.c] and [allocator.h]: 64 KB of memory
    in 1024 chunks of 64 bytes, described by an array of boundary tags.  Only
    the first and the last chunk of an allocated block are marked; every free
    chunk knows the length of the free run from itself on, every block the
    length of the run of blocks from itself on.

    An index outside the array is [Stuck].  [report_usage], which nothing
    calls, adds to its two pointer arguments instead of what they point to,
    and so changes nothing; it is left out. *)

From S2P Require Import Prelude CString Sched Ring Schedule Sync.

Definition KERNEL_ALLOC_START : Z := 0x030000.
Definition KERNEL_ALLOC_STOP : Z := 0x040000.
Definition CHUNK_SIZE : Z := 64.
Definition CHUNK_NUM : Z := (KERNEL_ALLOC_STOP - KERNEL_ALLOC_START) / CHUNK_SIZE.

Record mem_chunk : Type := mk_chunk { is_free : Z; total_size : Z; chunk_size : Z }.

Definition set_is_free (v : Z) (c : mem_chunk) : mem_chunk := mk_chunk v (total_size c) (chunk_size c).
Definition set_total_size (v : Z) (c : mem_chunk) : mem_chunk := mk_chunk (is_free c) v (chunk_size c).
Definition set_chunk_size (v : Z) (c : mem_chunk) : mem_chunk := mk_chunk (is_free c) (total_size c) v.

(** The array, its lock, the memory it describes, and the process subsystem that
    the spinlock works on. *)
Record hst : Type := mk_hst {
  hkern : kst;
  mem_chunk_list : list mem_chunk;
  memlock : spinlock_t;
  hmem : bmem
}.

Definition set_hkern (v : kst) (s : hst) : hst := mk_hst v (mem_chunk_list s) (memlock s) (hmem s).
Definition set_chunks (v : list mem_chunk) (s : hst) : hst := mk_hst (hkern s) v (memlock s) (hmem s).
Definition set_memlock (v : spinlock_t) (s : hst) : hst := mk_hst (hkern s) (mem_chunk_list s) v (hmem s).
Definition set_hmem (v : bmem) (s : hst) : hst := mk_hst (hkern s) (mem_chunk_list s) (memlock s) v.

Definition hop {A} (m : M kst A) : M hst A := zoom hkern set_hkern m.

(** [mem_chunk_list[i]], read and written. *)
Definition tag (i : Z) : M hst mem_chunk :=
  fun s => match (if i <? 0 then None else mem_chunk_list s !! Z.to_nat i) with
           | Some c => Ret (c, s)
           | None => Stuck
           end.

Definition put_tag (i : Z) (f : mem_chunk -> mem_chunk) : M hst unit :=
  c <-- tag i ;;
  modify (fun s => set_chunks (<[Z.to_nat i := f c]> (mem_chunk_list s)) s).

Definition mem_acquire : M hst unit :=
  l <-- gets memlock ;;
  l' <-- hop (spinlock_acquire SYNC_IMPL l) ;;
  modify (set_memlock l').

Definition mem_release : M hst unit :=
  l <-- gets memlock ;;
  l' <-- hop (spinlock_release SYNC_IMPL l) ;;
  modify (set_memlock l').

(** The loops go down to 0, so [i] steps are enough. *)
Fixpoint update_allocated_loop (fuel : nat) (i total : Z) : M hst unit :=
  if 0 <? i then
    match fuel with
    | O => out_of_fuel
    | S f =>
        p <-- tag (u32 (i - 1)) ;;
        if is_free p =? 0 then
          let i := u32 (i - chunk_size p) in
          c <-- tag i ;;
          let total := u32 (total + chunk_size c) in
          put_tag i (set_total_size total) ;;;
          update_allocated_loop f i total
        else ret tt
    end
  else ret tt.

Definition update_allocated (i total : Z) : M hst unit := update_allocated_loop (Z.to_nat i) i total.

Fixpoint update_free_loop (fuel : nat) (i total : Z) : M hst unit :=
  if 0 <? i then
    match fuel with
    | O => out_of_fuel
    | S f =>
        p <-- tag (u32 (i - 1)) ;;
        if is_free p =? 1 then
          let i := u32 (i - 1) in
          let total := u32 (total + 1) in
          put_tag i (set_total_size total) ;;;
          update_free_loop f i total
        else ret tt
    end
  else ret tt.

Definition update_free (i total : Z) : M hst unit := update_free_loop (Z.to_nat i) i total.

(** The chunks to skip so that the block starts at a multiple of [chunk_align]. *)
Definition to_align (chunk_align chunk : Z) : Z :=
  if truth chunk_align then u32 (chunk_align - chunk mod chunk_align) mod chunk_align else 0.

(** The [for] loop: the first free run that is long enough, and the chunks to
    skip there; [None] when the loop runs to the end. *)
Fixpoint find_chunk (fuel : nat) (req_chunks chunk_align chunk : Z) : M hst (option (Z * Z)) :=
  if chunk <? CHUNK_NUM then
    match fuel with
    | O => out_of_fuel
    | S f =>
        c <-- tag chunk ;;
        let next := u32 (chunk + total_size c) in
        if is_free c =? 0 then find_chunk f req_chunks chunk_align next
        else
          let req_to_align := to_align chunk_align chunk in
          if u32 (req_chunks + req_to_align) <=? total_size c then ret (Some (chunk, req_to_align))
          else find_chunk f req_chunks chunk_align next
    end
  else if chunk =? CHUNK_NUM then ret None
  else stuck.

Definition search_fuel : nat := Z.to_nat CHUNK_NUM.

(** Marking the first and the last chunk of the block, its run length, and the
    run lengths of the chunks before it. *)
Definition place_block (chunk req_chunks : Z) : M hst unit :=
  put_tag chunk (set_is_free 0) ;;;
  put_tag chunk (set_chunk_size req_chunks) ;;;
  put_tag (u32 (chunk + req_chunks - 1)) (set_is_free 0) ;;;
  put_tag (u32 (chunk + req_chunks - 1)) (set_chunk_size req_chunks) ;;;
  next <-- tag (u32 (chunk + req_chunks)) ;;
  (if is_free next =? 0 then put_tag chunk (set_total_size (u32 (req_chunks + total_size next)))
   else put_tag chunk (set_total_size req_chunks)) ;;;
  when (0 <? chunk)
    (p <-- tag (u32 (chunk - 1)) ;;
     if is_free p =? 0 then c <-- tag chunk ;; update_allocated chunk (total_size c)
     else update_free chunk 0).

Definition kzalloc_align (size alignment : Z) : M hst Z :=
  let req_chunks := u32 (Z.quot (size - 1) CHUNK_SIZE + 1) in
  let chunk_align := u32 (Z.quot alignment CHUNK_SIZE) in
  mem_acquire ;;;
  found <-- find_chunk search_fuel req_chunks chunk_align 0 ;;
  match found with
  | None => mem_release ;;; ret 0
  | Some (chunk, req_to_align) =>
      let chunk := u32 (chunk + req_to_align) in
      place_block chunk req_chunks ;;;
      mem_release ;;;
      let ptr := u32 (KERNEL_ALLOC_START + chunk * CHUNK_SIZE) in
      modify (fun s => set_hmem (String_core.bzero (hmem s) ptr (s32 (u32 (req_chunks * CHUNK_SIZE)))) s) ;;;
      ret ptr
  end.

Definition kzalloc (size : Z) : M hst Z := kzalloc_align size 0.

Definition kfree (ptr : Z) : M hst unit :=
  mem_acquire ;;;
  let chunk := u32 (ptr - KERNEL_ALLOC_START) / CHUNK_SIZE in
  assertk (chunk <? CHUNK_NUM) ;;;
  c <-- tag chunk ;;
  let size := chunk_size c in
  put_tag chunk (set_is_free 1) ;;;
  put_tag (u32 (chunk + size - 1)) (set_is_free 1) ;;;
  total <-- (if u32 (chunk + size) <? CHUNK_NUM then
               next <-- tag (u32 (chunk + size)) ;;
               ret (if is_free next =? 1 then total_size next else 0)
             else ret 0) ;;
  update_free (u32 (chunk + size)) total ;;;
  when (0 <? chunk)
    (p <-- tag (u32 (chunk - 1)) ;;
     when (is_free p =? 0) (update_allocated chunk 0)) ;;;
  mem_release.

Definition allocator_init : M hst unit :=
  for_up (Z.to_nat CHUNK_NUM) 0 1 (fun i =>
    put_tag i (set_is_free 1) ;;;
    put_tag i (set_total_size (CHUNK_NUM - i)) ;;;
    put_tag i (set_chunk_size (CHUNK_NUM - i))) ;;;
  mem_release.

(** ** Boundary tags and what they represent

    The heap is a sequence of segments: [None] is one free chunk, [Some n] an
    allocated block of [n] chunks. *)

Abbreviation segment := (option Z).

Definition seg_len (g : segment) : Z := match g with Some n => n | None => 1 end.
Definition seg_ok (g : segment) : Prop := 1 <= seg_len g.

Fixpoint span (gs : list segment) : Z :=
  match gs with
  | [] => 0
  | g :: t => seg_len g + span t
  end.

(** The lengths of the leading free run and of the leading run of blocks. *)
Fixpoint free_run (gs : list segment) : Z :=
  match gs with
  | None :: t => 1 + free_run t
  | _ => 0
  end.

Fixpoint used_run (gs : list segment) : Z :=
  match gs with
  | Some n :: t => n + used_run t
  | _ => 0
  end.

Definition run (gs : list segment) : Z :=
  match gs with
  | None :: _ => free_run gs
  | _ => used_run gs
  end.

Implicit Types (c : Z -> mem_chunk) (gs p t : list segment) (cs : list mem_chunk).

Definition block_tags c (o n : Z) : Prop :=
  is_free (c o) = 0 /\ is_free (c (o + n - 1)) = 0
  /\ chunk_size (c o) = n /\ chunk_size (c (o + n - 1)) = n
  /\ forall j, o < j < o + n - 1 -> is_free (c j) = 1.

(** The marks and sizes of the segments from chunk [o] on. *)
Fixpoint marked c (o : Z) gs : Prop :=
  match gs with
  | [] => True
  | None :: t => is_free (c o) = 1 /\ marked c (o + 1) t
  | Some n :: t => block_tags c o n /\ marked c (o + n) t
  end.

(** The run lengths. *)
Fixpoint counted c (o : Z) gs : Prop :=
  match gs with
  | [] => True
  | g :: t => total_size (c o) = run (g :: t) /\ counted c (o + seg_len g) t
  end.

Definition chunk_at cs (i : Z) : mem_chunk := default (mk_chunk 0 0 0) (cs !! Z.to_nat i).

Definition heap cs gs : Prop :=
  Z.of_nat (length cs) = CHUNK_NUM /\ span gs = CHUNK_NUM /\ Forall seg_ok gs
  /\ marked (chunk_at cs) 0 gs /\ counted (chunk_at cs) 0 gs.

(** ** Segments *)

Lemma span_app p t : span (p ++ t) = span p + span t.
Proof. induction p as [|g p IH]; cbn; [done|]. rewrite IH. lia. Qed.

Lemma span_free k : span (replicate k None) = Z.of_nat k.
Proof. induction k as [|k IH]; [done|]. cbn [replicate span]. rewrite IH. cbn. lia. Qed.

Lemma span_nonneg gs : Forall seg_ok gs -> 0 <= span gs.
Proof.
  induction gs as [|g gs IH]; intros H; cbn; [done|]. apply list.Forall_cons_1 in H as [H1 H2].
  specialize (IH H2). unfold seg_ok in H1. lia.
Qed.

Lemma span_pos gs : Forall seg_ok gs -> gs <> [] -> 1 <= span gs.
Proof.
  intros H Hne. destruct gs as [|g gs]; [done|]. apply list.Forall_cons_1 in H as [H1 H2].
  pose proof (span_nonneg _ H2). unfold seg_ok in H1. cbn. lia.
Qed.

Lemma marked_app c p t : forall o, marked c o (p ++ t) <-> marked c o p /\ marked c (o + span p) t.
Proof.
  induction p as [|[n|] p IH]; intros o; cbn [app marked span].
  - rewrite Z.add_0_r. naive_solver.
  - rewrite IH. cbn [seg_len]. rewrite Z.add_assoc. naive_solver.
  - rewrite IH. cbn [seg_len]. rewrite Z.add_assoc. naive_solver.
Qed.

(** [marked] looks at the marks and sizes of its own chunks only. *)
Lemma marked_ext c c' gs : forall o,
  Forall seg_ok gs ->
  (forall j, o <= j < o + span gs -> is_free (c' j) = is_free (c j) /\ chunk_size (c' j) = chunk_size (c j)) ->
  marked c o gs -> marked c' o gs.
Proof.
  induction gs as [|[n|] gs IH]; intros o Hok H; [done|..]; apply list.Forall_cons_1 in Hok as [Hn Hok];
    pose proof (span_nonneg _ Hok); unfold seg_ok in Hn; cbn [seg_len span marked] in *; intros [H1 H2].
  - split; [|apply IH; [done| |done]; intros j Hj; apply H; lia].
    destruct H1 as (A & B & C & E & F). unfold block_tags.
    destruct (H o ltac:(lia)) as [-> ->]. destruct (H (o + n - 1) ltac:(lia)) as [-> ->].
    split_and!; try done. intros j Hj. destruct (H j ltac:(lia)) as [-> _]. by apply F.
  - destruct (H o ltac:(lia)) as [E _]. split; [by rewrite E|]. apply IH; [done| |done]. intros j Hj. apply H. lia.
Qed.

Lemma counted_ext c c' gs : forall o,
  Forall seg_ok gs -> (forall j, o <= j < o + span gs -> total_size (c' j) = total_size (c j)) ->
  counted c o gs -> counted c' o gs.
Proof.
  induction gs as [|g gs IH]; intros o Hok H; [done|]; apply list.Forall_cons_1 in Hok as [Hn Hok].
  pose proof (span_nonneg _ Hok). unfold seg_ok in Hn. cbn [span counted] in *. intros [H1 H2].
  split; [rewrite H by lia; done|]. apply IH; [done| |done]. intros j Hj. apply H. lia.
Qed.

Lemma marked_free c k : forall o,
  marked c o (replicate k None) <-> forall j, o <= j < o + Z.of_nat k -> is_free (c j) = 1.
Proof.
  induction k as [|k IH]; intros o; cbn [replicate marked].
  - split; [intros _ j Hj; lia|done].
  - rewrite IH. split.
    + intros [H1 H2] j Hj. destruct (decide (j = o)) as [->|]; [done|]. apply H2. lia.
    + intros H. split; [apply H; lia|]. intros j Hj. apply H. lia.
Qed.

(** ** Runs *)

Abbreviation frees k := (replicate k (@None Z)).
Abbreviation blocks us := (fmap (M := list) (@Some Z) us).

Definition sum (us : list Z) : Z := span (blocks us).

(** Each block of [us] counts the blocks behind it, and [total] more. *)
Fixpoint tallied c (o : Z) (us : list Z) (total : Z) : Prop :=
  match us with
  | [] => True
  | n :: u => total_size (c o) = n + sum u + total /\ tallied c (o + n) u total
  end.

Lemma sum_cons n us : sum (n :: us) = n + sum us.
Proof. done. Qed.

Lemma sum_snoc us n : sum (us ++ [n]) = sum us + n.
Proof. unfold sum. rewrite fmap_app, span_app. cbn. lia. Qed.

Lemma tallied_snoc c us n total : forall o,
  tallied c o (us ++ [n]) total <-> tallied c o us (n + total) /\ total_size (c (o + sum us)) = n + total.
Proof.
  induction us as [|m us IH]; intros o; cbn [app tallied].
  - replace (o + sum []) with o by (unfold sum; cbn; lia). unfold sum. cbn. rewrite Z.add_0_r. naive_solver.
  - rewrite IH, sum_snoc, sum_cons. replace (o + m + sum us) with (o + (m + sum us)) by lia.
    replace (m + (sum us + n) + total) with (m + sum us + (n + total)) by lia. naive_solver.
Qed.

Lemma used_run_blocks us t : used_run (blocks us ++ t) = sum us + used_run t.
Proof. induction us as [|n us IH]; [done|]. cbn [fmap list_fmap app used_run]. rewrite IH, sum_cons. lia. Qed.

Lemma free_run_frees k t : free_run (frees k ++ t) = Z.of_nat k + free_run t.
Proof. induction k as [|k IH]; [done|]. cbn [replicate app free_run]. rewrite IH. lia. Qed.

Lemma counted_blocks c us t : forall o,
  counted c o (blocks us ++ t) <-> tallied c o us (used_run t) /\ counted c (o + sum us) t.
Proof.
  induction us as [|n us IH]; intros o.
  - cbn. unfold sum. cbn. rewrite Z.add_0_r. naive_solver.
  - cbn [fmap list_fmap app counted tallied seg_len]. rewrite IH, sum_cons, Z.add_assoc.
    assert (run (Some n :: (blocks us ++ t)) = n + sum us + used_run t) as ->
      by (unfold run; cbn [used_run]; rewrite used_run_blocks; lia). naive_solver.
Qed.

Lemma counted_frees c k t : forall o,
  counted c o (frees k ++ t)
  <-> (forall j, o <= j < o + Z.of_nat k -> total_size (c j) = o + Z.of_nat k - j + free_run t)
      /\ counted c (o + Z.of_nat k) t.
Proof.
  induction k as [|k IH]; intros o.
  - cbn [replicate app]. rewrite Z.add_0_r. split; [intros H; split; [intros j Hj; lia|done]|naive_solver].
  - cbn [replicate app counted seg_len]. rewrite IH.
    assert (run (None :: (frees k ++ t)) = 1 + Z.of_nat k + free_run t) as ->
      by (unfold run; cbn [free_run]; rewrite free_run_frees; lia).
    replace (o + 1 + Z.of_nat k) with (o + Z.of_nat (S k)) by lia. split.
    + intros (H1 & H2 & H3). split; [|done]. intros j Hj. destruct (decide (j = o)) as [->|]; [lia|]. apply H2. lia.
    + intros [H1 H2]. split; [rewrite H1 by lia; lia|]. split; [|done]. intros j Hj. apply H1. lia.
Qed.

(** Where a run ends, the counts do not look further. *)
Definition breaks p t : Prop :=
  match list.last p, head t with
  | Some None, Some None => False
  | Some (Some _), Some (Some _) => False
  | _, _ => True
  end.

Lemma run_breaks p t : p <> [] -> breaks p t -> run (p ++ t) = run p.
Proof.
  induction p as [|g p IH]; intros Hp Hb; [done|].
  destruct p as [|g' p].
  - destruct g as [n|], t as [|[m|] t]; cbn in *; try done; lia.
  - assert (Hb' : breaks (g' :: p) t) by done. specialize (IH ltac:(done) Hb').
    unfold run in *. destruct g as [n|], g' as [n'|]; cbn [app used_run free_run] in *; lia.
Qed.

Lemma counted_breaks c p t : forall o,
  breaks p t -> (counted c o (p ++ t) <-> counted c o p /\ counted c (o + span p) t).
Proof.
  induction p as [|g p IH]; intros o Hb.
  - cbn. rewrite Z.add_0_r. naive_solver.
  - assert (Hr : run (g :: (p ++ t)) = run (g :: p)) by (by apply (run_breaks (g :: p))).
    cbn [app counted]. rewrite Hr. cbn [span]. rewrite Z.add_assoc.
    destruct p as [|g' p].
    + cbn. rewrite Z.add_0_r. naive_solver.
    + rewrite IH by done. naive_solver.
Qed.

(** Every sequence ends in a run of blocks and a free run. *)
Definition ends_used p : Prop := exists n, list.last p = Some (Some n).
Definition ends_free p : Prop := list.last p = Some None.

Lemma split_frees p : exists p1 m, p = p1 ++ frees m /\ ~ ends_free p1.
Proof.
  induction p as [|[n|] p IH] using rev_ind.
  - by exists [], 0%nat.
  - exists (p ++ [Some n]), 0%nat. rewrite app_nil_r. split; [done|]. unfold ends_free. by rewrite last_snoc.
  - destruct IH as (p1 & m & -> & H). exists p1, (S m). split; [|done].
    rewrite <- app_assoc. f_equal. symmetry. apply replicate_cons_app.
Qed.

Lemma split_blocks p : exists p0 us, p = p0 ++ blocks us /\ ~ ends_used p0.
Proof.
  induction p as [|[n|] p IH] using rev_ind.
  - exists [], []. split; [done|]. intros [n H]. done.
  - destruct IH as (p0 & us & -> & H). exists p0, (us ++ [n]). split; [|done]. by rewrite fmap_app, app_assoc.
  - exists (p ++ [None]), []. rewrite app_nil_r. split; [done|]. intros [n H]. rewrite last_snoc in H. done.
Qed.

(** ** Running the loops *)

Lemma tag_ok {B} i s (k : mem_chunk -> M hst B) :
  0 <= i < Z.of_nat (length (mem_chunk_list s)) ->
  bind (tag i) k s = k (chunk_at (mem_chunk_list s) i) s.
Proof.
  intros Hi. unfold bind, tag, chunk_at. rewrite (proj2 (Z.ltb_ge i 0)) by lia.
  destruct (lookup_lt_is_Some_2 (mem_chunk_list s) (Z.to_nat i)) as [x Hx]; [lia|]. by rewrite Hx.
Qed.

(** The array with one element changed. *)
Definition changed (i : Z) (f : mem_chunk -> mem_chunk) cs : list mem_chunk :=
  <[Z.to_nat i := f (chunk_at cs i)]> cs.

Lemma put_tag_ok {B} i f s (k : unit -> M hst B) :
  0 <= i < Z.of_nat (length (mem_chunk_list s)) ->
  bind (put_tag i f) k s = k tt (set_chunks (changed i f (mem_chunk_list s)) s).
Proof. intros Hi. unfold put_tag. by rewrite bind_assoc, tag_ok. Qed.

Lemma changed_length i f cs : length (changed i f cs) = length cs.
Proof. apply length_insert. Qed.

Lemma chunk_at_changed i f cs j :
  0 <= i < Z.of_nat (length cs) -> 0 <= j ->
  chunk_at (changed i f cs) j = if j =? i then f (chunk_at cs i) else chunk_at cs j.
Proof.
  intros Hi Hj. unfold changed, chunk_at at 1. destruct (Z.eqb_spec j i) as [->|Hne].
  - by rewrite list_lookup_insert_eq by lia.
  - by rewrite list_lookup_insert_ne by lia.
Qed.

Lemma set_chunks_chunks cs cs' s : set_chunks cs' (set_chunks cs s) = set_chunks cs' s.
Proof. done. Qed.

Lemma set_chunks_same s : set_chunks (mem_chunk_list s) s = s.
Proof. by destruct s. Qed.

(** [update_free] over [k] free chunks before [i]. *)
Lemma update_free_run k : forall fuel i total s,
  Z.of_nat (length (mem_chunk_list s)) = CHUNK_NUM ->
  0 <= i - Z.of_nat k -> i <= CHUNK_NUM -> i <= Z.of_nat fuel ->
  (forall j, i - Z.of_nat k <= j < i -> is_free (chunk_at (mem_chunk_list s) j) = 1) ->
  (i - Z.of_nat k = 0 \/ is_free (chunk_at (mem_chunk_list s) (i - Z.of_nat k - 1)) = 0) ->
  0 <= total <= CHUNK_NUM - i ->
  exists cs', update_free_loop fuel i total s = Ret (tt, set_chunks cs' s)
    /\ length cs' = length (mem_chunk_list s)
    /\ forall j, 0 <= j -> chunk_at cs' j =
         if (i - Z.of_nat k <=? j) && (j <? i)
         then set_total_size (total + (i - j)) (chunk_at (mem_chunk_list s) j)
         else chunk_at (mem_chunk_list s) j.
Proof.
  change CHUNK_NUM with 1024. induction k as [|k IH]; intros fuel i total s Hlen Hk Hi Hf Hfree Hstop Ht.
  - exists (mem_chunk_list s). rewrite set_chunks_same. split_and!; [|done|].
    + destruct (Z.eq_dec i 0) as [->|Hne]; [by destruct fuel|]. destruct Hstop as [|Hstop]; [lia|].
      destruct fuel as [|f]; [lia|]. cbn [update_free_loop]. rewrite (proj2 (Z.ltb_lt 0 i)) by lia.
      rewrite u32_small, tag_ok by lia. replace (i - Z.of_nat 0 - 1) with (i - 1) in Hstop by lia. by rewrite Hstop.
    + intros j Hj. destruct (Z.leb_spec (i - Z.of_nat 0) j), (Z.ltb_spec j i); try done. lia.
  - destruct fuel as [|f]; [lia|]. cbn [update_free_loop]. rewrite (proj2 (Z.ltb_lt 0 i)) by lia.
    rewrite !u32_small by lia. rewrite tag_ok, Hfree by lia. cbn [Z.eqb Pos.eqb]. rewrite put_tag_ok by lia.
    set (cs1 := changed (i - 1) (set_total_size (total + 1)) (mem_chunk_list s)).
    assert (Hat : forall j, 0 <= j -> chunk_at cs1 j =
      if j =? i - 1 then set_total_size (total + 1) (chunk_at (mem_chunk_list s) (i - 1)) else chunk_at (mem_chunk_list s) j).
    { intros j Hj. apply chunk_at_changed; lia. }
    assert (Hmark : forall j, 0 <= j -> is_free (chunk_at cs1 j) = is_free (chunk_at (mem_chunk_list s) j)).
    { intros j Hj. rewrite Hat by done. destruct (Z.eqb_spec j (i - 1)) as [->|]; done. }
    destruct (IH f (i - 1) (total + 1) (set_chunks cs1 s)) as (cs' & E & L & H); try lia; cbn [mem_chunk_list set_chunks].
    + unfold cs1. by rewrite changed_length.
    + intros j Hj. rewrite Hmark by lia. apply Hfree. lia.
    + destruct Hstop as [?|Hstop]; [left; lia|]. destruct (Z.eq_dec (i - 1 - Z.of_nat k) 0); [by left|right].
      rewrite Hmark by lia. rewrite <- Hstop. do 2 f_equal. lia.
    + exists cs'. split_and!; [done|rewrite L; cbn; unfold cs1; by rewrite changed_length|].
      intros j Hj. rewrite H by done. cbn [mem_chunk_list set_chunks]. rewrite Hat by done.
      destruct (Z.leb_spec (i - 1 - Z.of_nat k) j), (Z.ltb_spec j (i - 1)), (Z.leb_spec (i - Z.of_nat (S k)) j),
        (Z.ltb_spec j i), (Z.eqb_spec j (i - 1)); cbn [andb]; try lia; try done; subst; f_equal; lia.
Qed.

Lemma sum_nonneg us : Forall (fun n => 1 <= n) us -> 0 <= sum us.
Proof.
  induction us as [|n us IH]; intros H; [done|]. apply list.Forall_cons_1 in H as [H1 H2].
  rewrite sum_cons. specialize (IH H2). lia.
Qed.

Lemma blocks_ok us : Forall seg_ok (blocks us) <-> Forall (fun n => 1 <= n) us.
Proof. rewrite list.Forall_fmap. done. Qed.

Lemma tallied_ext c c' us total : forall o,
  Forall (fun n => 1 <= n) us -> (forall j, o <= j < o + sum us -> total_size (c' j) = total_size (c j)) ->
  tallied c o us total -> tallied c' o us total.
Proof.
  induction us as [|n us IH]; intros o Hok H; [done|]; apply list.Forall_cons_1 in Hok as [Hn Hok].
  pose proof (sum_nonneg _ Hok). rewrite sum_cons in H. cbn [tallied]. intros [H1 H2].
  split; [rewrite H by lia; done|]. apply IH; [done| |done]. intros j Hj. apply H. lia.
Qed.

(** [update_allocated] over the blocks [us] before [i]. *)
Lemma update_allocated_run us : forall fuel i total s,
  Z.of_nat (length (mem_chunk_list s)) = CHUNK_NUM -> Forall (fun n => 1 <= n) us ->
  0 <= i - sum us -> i <= CHUNK_NUM -> i <= Z.of_nat fuel ->
  marked (chunk_at (mem_chunk_list s)) (i - sum us) (blocks us) ->
  (i - sum us = 0 \/ is_free (chunk_at (mem_chunk_list s) (i - sum us - 1)) = 1) ->
  0 <= total <= CHUNK_NUM - i ->
  exists cs', update_allocated_loop fuel i total s = Ret (tt, set_chunks cs' s)
    /\ length cs' = length (mem_chunk_list s)
    /\ (forall j, 0 <= j -> is_free (chunk_at cs' j) = is_free (chunk_at (mem_chunk_list s) j)
          /\ chunk_size (chunk_at cs' j) = chunk_size (chunk_at (mem_chunk_list s) j))
    /\ (forall j, 0 <= j -> j < i - sum us \/ i <= j ->
          total_size (chunk_at cs' j) = total_size (chunk_at (mem_chunk_list s) j))
    /\ tallied (chunk_at cs') (i - sum us) us total.
Proof.
  change CHUNK_NUM with 1024. induction us as [|n us IH] using rev_ind; intros fuel i total s Hlen Hok Hlo Hi Hf Hm Hstop Ht.
  - exists (mem_chunk_list s). rewrite set_chunks_same. split_and!; try done.
    change (sum []) with 0 in *. rewrite Z.sub_0_r in *.
    destruct (Z.eq_dec i 0) as [->|Hne]; [by destruct fuel|]. destruct Hstop as [|Hstop]; [lia|].
    destruct fuel as [|f]; [lia|]. cbn [update_allocated_loop]. rewrite (proj2 (Z.ltb_lt 0 i)) by lia.
    rewrite u32_small, tag_ok by lia. by rewrite Hstop.
  - apply list.Forall_app in Hok as [Hok Hn]. apply list.Forall_cons_1 in Hn as [Hn _].
    pose proof (sum_nonneg _ Hok). rewrite sum_snoc in *.
    rewrite fmap_app in Hm. apply marked_app in Hm as [Hm Hb]. change (span (blocks us)) with (sum us) in Hb.
    replace (i - (sum us + n) + sum us) with (i - n) in Hb by lia.
    destruct Hb as [(B1 & B2 & B3 & B4 & B5) _]. replace (i - n + n - 1) with (i - 1) in * by lia.
    destruct fuel as [|f]; [lia|]. cbn [update_allocated_loop]. rewrite (proj2 (Z.ltb_lt 0 i)) by lia.
    rewrite u32_small, tag_ok, B2, B4 by lia. cbn [Z.eqb]. rewrite u32_small, tag_ok, B3 by lia.
    rewrite u32_small, put_tag_ok by lia.
    set (cs1 := changed (i - n) (set_total_size (total + n)) (mem_chunk_list s)).
    assert (Hat : forall j, 0 <= j -> chunk_at cs1 j =
      if j =? i - n then set_total_size (total + n) (chunk_at (mem_chunk_list s) (i - n)) else chunk_at (mem_chunk_list s) j).
    { intros j Hj. apply chunk_at_changed; lia. }
    assert (Hmark : forall j, 0 <= j -> is_free (chunk_at cs1 j) = is_free (chunk_at (mem_chunk_list s) j)
      /\ chunk_size (chunk_at cs1 j) = chunk_size (chunk_at (mem_chunk_list s) j)).
    { intros j Hj. rewrite Hat by done. destruct (Z.eqb_spec j (i - n)) as [->|]; done. }
    replace (i - (sum us + n)) with (i - n - sum us) in * by lia.
    destruct (IH f (i - n) (total + n) (set_chunks cs1 s)) as (cs' & E & L & H1 & H2 & H3); try lia; try done;
      cbn [mem_chunk_list set_chunks] in *.
    + unfold cs1. by rewrite changed_length.
    + apply (marked_ext (chunk_at (mem_chunk_list s))); [|intros j Hj; apply Hmark; lia|done].
      by apply list.Forall_fmap.
    + destruct Hstop as [?|Hstop]; [left; lia|]. destruct (Z.eq_dec (i - n - sum us) 0); [by left|right].
      destruct (Hmark (i - n - sum us - 1)) as [-> _]; [lia|done].
    + exists cs'. split_and!; [done|rewrite L; unfold cs1; by rewrite changed_length| | |].
      * intros j Hj. destruct (H1 j Hj) as [-> ->]. by apply Hmark.
      * intros j Hj Hout. rewrite H2 by lia. rewrite Hat by done.
        destruct (Z.eqb_spec j (i - n)); [lia|done].
      * apply tallied_snoc. rewrite Z.add_comm. split; [done|]. replace (i - n - sum us + sum us) with (i - n) by lia.
        rewrite H2 by lia. rewrite Hat, Z.eqb_refl by lia. cbn. lia.
Qed.

(** ** The search *)

(** A maximal free run of [S k] chunks behind [p]. *)
Definition maximal p (k : nat) t gs : Prop :=
  gs = p ++ frees (S k) ++ t /\ ~ ends_free p /\ head t <> Some None.

Lemma lead_frees gs : exists k t, gs = frees k ++ t /\ head t <> Some None.
Proof.
  induction gs as [|[n|] gs IH]; [by exists 0%nat, []|by exists 0%nat, (Some n :: gs)|].
  destruct IH as (k & t & -> & H). by exists (S k), t.
Qed.

Lemma lead_blocks gs : exists us t, gs = blocks us ++ t /\ forall n, head t <> Some (Some n).
Proof.
  induction gs as [|[n|] gs IH]; [by exists [], []| |by exists [], (None :: gs)].
  destruct IH as (us & t & -> & H). by exists (n :: us), t.
Qed.

Lemma free_run_head t : head t <> Some None -> free_run t = 0.
Proof. by destruct t as [|[]]. Qed.

Lemma used_run_head t : (forall n, head t <> Some (Some n)) -> used_run t = 0.
Proof. destruct t as [|[n|]]; [done| |done]. intros H. by destruct (H n). Qed.

Lemma ends_free_app p q : q <> [] -> ends_free (p ++ q) <-> ends_free q.
Proof.
  intros Hq. unfold ends_free. destruct q as [|g q] using rev_ind; [done|]. by rewrite app_assoc, !last_snoc.
Qed.

Lemma ends_free_replicate a : ~ ends_free (frees a) -> a = 0%nat.
Proof.
  destruct a as [|a]; [done|]. intros H. destruct H. unfold ends_free.
  rewrite <- Nat.add_1_r, replicate_add. apply last_snoc.
Qed.

Lemma maximal_frees p k t k0 gs :
  maximal p k t (frees (S k0) ++ gs) -> head gs <> Some None ->
  (p = [] /\ k = k0) \/ exists p', p = frees (S k0) ++ p' /\ maximal p' k t gs.
Proof.
  intros (E & Hp & Ht) Hg. apply app_eq_inv in E as [(q & E1 & E2)|(q & E1 & E2)].
  - left. assert (Hp0 : p = []).
    { assert (Hf : p = frees (length p)).
      { symmetry. apply replicate_as_Forall. split; [done|].
        assert (HF : Forall (eq None) (frees (S k0))) by (by apply Forall_replicate). rewrite E1 in HF.
        by apply list.Forall_app in HF as [HF _]. }
      rewrite Hf in Hp. apply ends_free_replicate in Hp. by apply nil_length_inv. }
    split; [done|]. subst p. cbn [app] in E1. subst q.
    assert (Hr : free_run (frees (S k) ++ t) = free_run (frees (S k0) ++ gs)) by (by rewrite E2).
    rewrite !free_run_frees, !free_run_head in Hr by done. lia.
  - right. exists q. split; [done|]. split; [done|]. split; [|done]. subst p.
    destruct (decide (q = [])) as [->|Hq]; [done|]. by rewrite ends_free_app in Hp.
Qed.

Lemma maximal_blocks p k t us gs :
  maximal p k t (blocks us ++ gs) -> exists p', p = blocks us ++ p' /\ maximal p' k t gs.
Proof.
  intros (E & Hp & Ht). apply app_eq_inv in E as [(q & E1 & E2)|(q & E1 & E2)].
  - destruct q as [|g q].
    + exists []. rewrite app_nil_r in *. split; [done|]. cbn in E2. by split.
    + assert (HF : Forall is_Some (blocks us)) by (apply list.Forall_fmap, Forall_true; by eexists).
      rewrite E1 in HF. apply list.Forall_app in HF as [_ HF]. apply list.Forall_cons_1 in HF as [[n ->] _]. done.
  - exists q. split; [done|]. split; [done|]. split; [|done]. subst p.
    destruct (decide (q = [])) as [->|Hq]; [done|]. by rewrite ends_free_app in Hp.
Qed.

Lemma to_align_range al o : 0 <= al < 2 ^ 31 -> 0 <= o -> 0 <= to_align al o <= al.
Proof.
  intros Ha Ho. unfold to_align, truth. destruct (Z.eqb_spec al 0) as [->|H]; cbn [negb]; [lia|].
  pose proof (Z.mod_pos_bound (u32 (al - o mod al)) al ltac:(lia)). lia.
Qed.

Lemma ends_free_blocks us : ~ ends_free (blocks us).
Proof.
  unfold ends_free. destruct us as [|n us] using rev_ind; [done|].
  rewrite fmap_app. change (blocks [n]) with [Some n]. by rewrite last_snoc.
Qed.

Lemma maximal_after_blocks us p k t gs : maximal p k t gs -> maximal (blocks us ++ p) k t (blocks us ++ gs).
Proof.
  intros (-> & Hp & Ht). split; [by rewrite <- app_assoc|]. split; [|done].
  destruct (decide (p = [])) as [->|Hq]; [rewrite app_nil_r; apply ends_free_blocks|by rewrite ends_free_app].
Qed.

Lemma maximal_after_frees k0 p k t gs :
  maximal p k t gs -> head gs <> Some None -> maximal (frees (S k0) ++ p) k t (frees (S k0) ++ gs).
Proof.
  intros (-> & Hp & Ht) Hg. split; [by rewrite <- app_assoc|]. split; [|done].
  destruct (decide (p = [])) as [->|Hq]; [done|by rewrite ends_free_app].
Qed.

(** The outcome of the search from chunk [o] on. *)
Definition searched r al (o : Z) gs (m : M hst (option (Z * Z))) s : Prop :=
  (m s = Ret (None, s)
   /\ forall p k t, maximal p k t gs -> Z.of_nat (S k) < r + to_align al (o + span p))
  \/ (exists p k t, maximal p k t gs
       /\ m s = Ret (Some (o + span p, to_align al (o + span p)), s)
       /\ r + to_align al (o + span p) <= Z.of_nat (S k)).

Lemma searched_blocks r al o us gs m s :
  searched r al (o + sum us) gs m s -> searched r al o (blocks us ++ gs) m s.
Proof.
  intros [[E H]|(p & k & t & H1 & H2 & H3)].
  - left. split; [done|]. intros p k t Hm. apply maximal_blocks in Hm as (p' & -> & Hm).
    rewrite span_app, Z.add_assoc. by apply (H p' k t).
  - right. exists (blocks us ++ p), k, t. rewrite span_app, Z.add_assoc. split; [|done]. by apply maximal_after_blocks.
Qed.

Lemma searched_frees r al o k0 gs m s :
  head gs <> Some None -> Z.of_nat (S k0) < r + to_align al o ->
  searched r al (o + Z.of_nat (S k0)) gs m s -> searched r al o (frees (S k0) ++ gs) m s.
Proof.
  intros Hg Hk [[E H]|(p & k & t & H1 & H2 & H3)].
  - left. split; [done|]. intros p k t Hm. apply maximal_frees in Hm as [[-> ->]|(p' & -> & Hm)]; [| |done].
    + cbn [span]. by rewrite Z.add_0_r.
    + rewrite span_app, span_free, Z.add_assoc. by apply (H p' k t).
  - right. exists (frees (S k0) ++ p), k, t. rewrite span_app, span_free, Z.add_assoc. split; [|done].
    by apply maximal_after_frees.
Qed.

Lemma find_chunk_run r al (Hr : 0 <= r < 2 ^ 31) (Hal : 0 <= al < 2 ^ 31) s :
  Z.of_nat (length (mem_chunk_list s)) = CHUNK_NUM ->
  forall m gs fuel o,
  (length gs <= m)%nat -> 0 <= o -> o + span gs = CHUNK_NUM -> Forall seg_ok gs ->
  CHUNK_NUM - o <= Z.of_nat fuel ->
  marked (chunk_at (mem_chunk_list s)) o gs -> counted (chunk_at (mem_chunk_list s)) o gs ->
  searched r al o gs (find_chunk fuel r al o) s.
Proof.
  intros Hlen. induction m as [|m IH]; intros gs fuel o Hm Ho Hend Hok Hf Hmk Hct.
  all: destruct gs as [|g gs];
    [cbn in Hend; rewrite Z.add_0_r in Hend; subst o; left;
     split; [by destruct fuel|]; intros p k t (E & _); by destruct p|].
  { cbn in Hm. lia. }
  assert (Ho' : 0 <= span gs /\ o < CHUNK_NUM).
  { apply list.Forall_cons_1 in Hok as [H1 H2]. pose proof (span_nonneg _ H2). unfold seg_ok in H1. cbn in Hend. lia. }
  assert (Hrun : total_size (chunk_at (mem_chunk_list s) o) = run (g :: gs)) by apply Hct.
  destruct fuel as [|f]; [lia|]. unfold searched. cbn [find_chunk].
  rewrite (proj2 (Z.ltb_lt o CHUNK_NUM)), tag_ok by lia. rewrite Hrun. clear Hrun.
  change CHUNK_NUM with 1024 in *. destruct g as [n|].
  - assert (is_free (chunk_at (mem_chunk_list s) o) = 0) as -> by (by destruct Hmk as [(B1 & _) _]). cbn [Z.eqb].
    destruct (lead_blocks (Some n :: gs)) as (us & t & E & Ht).
    assert (Hus : us <> []) by (destruct us; [|done]; cbn in E; subst t; by destruct (Ht n)).
    change (run (Some n :: gs)) with (used_run (Some n :: gs)). rewrite E in *. clear E.
    rewrite used_run_blocks, used_run_head, Z.add_0_r by done.
    apply list.Forall_app in Hok as [Hok1 Hok2]. rewrite span_app in Hend. change (span (blocks us)) with (sum us) in Hend.
    assert (Hpos : 0 < sum us).
    { apply blocks_ok in Hok1. destruct us as [|n' us]; [done|]. rewrite sum_cons.
      apply list.Forall_cons_1 in Hok1 as [H1 H2]. pose proof (sum_nonneg _ H2). lia. }
    pose proof (span_nonneg _ Hok2). rewrite u32_small by lia.
    apply searched_blocks. apply marked_app in Hmk as [_ Hmk]. apply counted_blocks in Hct as [_ Hct].
    apply IH; try done; try lia. rewrite length_app, length_fmap in Hm. destruct us; [done|]. cbn in Hm. lia.
  - assert (is_free (chunk_at (mem_chunk_list s) o) = 1) as -> by (by destruct Hmk as [B1 _]). cbn [Z.eqb].
    destruct (lead_frees gs) as (k & t & E & Ht). subst gs. change (None :: frees k ++ t) with (frees (S k) ++ t) in *.
    change (run (frees (S k) ++ t)) with (free_run (frees (S k) ++ t)).
    rewrite free_run_frees, free_run_head, Z.add_0_r by done.
    rewrite span_app, span_free in Hend.
    apply list.Forall_app in Hok as [Hok1 Hok2]. pose proof (span_nonneg _ Hok2).
    pose proof (to_align_range al o Hal Ho). rewrite (u32_small (r + _)), u32_small by lia.
    destruct (Z.leb_spec (r + to_align al o) (Z.of_nat (S k))) as [Hle|Hgt].
    + right. exists [], k, t. cbn [span]. rewrite Z.add_0_r. split_and!; done.
    + apply searched_frees; [done|done|]. apply marked_app in Hmk as [_ Hmk]. rewrite span_free in Hmk.
      apply counted_frees in Hct as [_ Hct]. apply IH; try done; try lia.
      rewrite length_app, length_replicate in Hm. lia.
Qed.

(** ** Allocation *)

Lemma last_chunk c p : forall o,
  Forall seg_ok p -> p <> [] -> ~ ends_free p -> marked c o p -> is_free (c (o + span p - 1)) = 0.
Proof.
  intros o Hok Hp He Hm. destruct p as [|g p] using rev_ind; [done|]. clear IHp.
  destruct g as [n|]; [|destruct He; unfold ends_free; by rewrite last_snoc].
  apply marked_app in Hm as [_ [(_ & B & _) _]]. rewrite span_app. cbn [span seg_len]. rewrite <- B.
  do 2 f_equal. lia.
Qed.

Lemma last_free_chunk c p : forall o,
  Forall seg_ok p -> p <> [] -> ~ ends_used p -> marked c o p -> is_free (c (o + span p - 1)) = 1.
Proof.
  intros o Hok Hp He Hm. destruct p as [|g p] using rev_ind; [done|]. clear IHp.
  destruct g as [n|]; [destruct He; exists n; by rewrite last_snoc|].
  apply marked_app in Hm as [_ [B _]]. rewrite span_app. cbn [span seg_len]. rewrite <- B. do 2 f_equal. lia.
Qed.

Lemma breaks_free p t : ~ ends_free p -> (forall n, head t <> Some (Some n)) -> breaks p t.
Proof.
  intros H1 H2. unfold breaks, ends_free in *. destruct (list.last p) as [[n|]|], (head t) as [[m|]|]; try done.
  by destruct (H2 m).
Qed.

Lemma breaks_used p t : ~ ends_used p -> head t <> Some None -> breaks p t.
Proof.
  intros H1 H2. unfold breaks, ends_used in *. destruct (list.last p) as [[n|]|], (head t) as [[m|]|]; try done.
  destruct H1. by exists n.
Qed.

(** The tags of the first segment. *)
Lemma head_tag c o t :
  t <> [] -> marked c o t -> counted c o t ->
  (is_free (c o) = 0 /\ total_size (c o) = used_run t /\ free_run t = 0)
  \/ (is_free (c o) = 1 /\ total_size (c o) = free_run t /\ used_run t = 0).
Proof.
  destruct t as [|[n|] t]; [done|..]; intros _ Hm [Hc _].
  - left. destruct Hm as [(B & _) _]. done.
  - right. destruct Hm as [B _]. done.
Qed.

Lemma frees_app a b : frees (a + b) = frees a ++ frees b.
Proof. apply replicate_add. Qed.

(** What a heap with a maximal free run looks like from the two ends of a block
    that is placed in it. *)
Section Place.

Context (c : Z -> mem_chunk) (p rest : list segment) (a r : nat).
Context (Hok : Forall seg_ok p) (Hokr : Forall seg_ok rest) (Hp : ~ ends_free p).
Context (Hm : marked c 0 (p ++ frees a ++ frees r ++ rest)).
Context (Hc : counted c 0 (p ++ frees a ++ frees r ++ rest)).
Context (Hr : (0 < r)%nat).

Let ch := span p + Z.of_nat a.

Lemma place_facts :
  marked c 0 p /\ marked c (span p) (frees a)
  /\ (forall j, ch <= j < ch + Z.of_nat r -> is_free (c j) = 1)
  /\ marked c (ch + Z.of_nat r) rest /\ counted c 0 p /\ counted c (ch + Z.of_nat r) rest.
Proof.
  apply marked_app in Hm as [M1 M2]. apply marked_app in M2 as [M2 M3]. apply marked_app in M3 as [M3 M4].
  rewrite !span_free in *. rewrite Z.add_0_l in *. rewrite marked_free in M3.
  assert (Hb : breaks p (frees a ++ frees r ++ rest)).
  { apply breaks_free; [done|]. intros n. destruct a; [destruct r; [lia|]|]; done. }
  apply (counted_breaks _ _ _ _ Hb) in Hc as [C1 C2].
  apply counted_frees in C2 as [_ C2]. apply counted_frees in C2 as [_ C2]. rewrite Z.add_0_l in *. done.
Qed.

(** The tags after the block has been placed. *)
Context (c' : Z -> mem_chunk).
Context (Hfree : forall j, 0 <= j -> is_free (c' j)
  = if (j =? ch) || (j =? ch + Z.of_nat r - 1) then 0 else is_free (c j)).
Context (Hsize : forall j, 0 <= j -> chunk_size (c' j)
  = if (j =? ch) || (j =? ch + Z.of_nat r - 1) then Z.of_nat r else chunk_size (c j)).
Context (Hrest : forall j, ch + Z.of_nat r <= j -> total_size (c' j) = total_size (c j)).
Context (Hch : total_size (c' ch) = Z.of_nat r + used_run rest).

Lemma placed_marked : marked c' 0 (p ++ frees a ++ Some (Z.of_nat r) :: rest).
Proof.
  pose proof (span_nonneg _ Hok). destruct place_facts as (M1 & M2 & M3 & M4 & _).
  assert (Hsame : forall j, 0 <= j -> j < ch \/ ch + Z.of_nat r <= j ->
    is_free (c' j) = is_free (c j) /\ chunk_size (c' j) = chunk_size (c j)).
  { intros j Hj Hout. rewrite Hfree, Hsize by done.
    destruct (Z.eqb_spec j ch), (Z.eqb_spec j (ch + Z.of_nat r - 1)); try lia. done. }
  apply marked_app. rewrite Z.add_0_l. split; [|apply marked_app; rewrite span_free; split; [|split]].
  - apply (marked_ext c); [done| |done]. intros j Hj. apply Hsame; unfold ch; lia.
  - apply (marked_ext c); [by apply Forall_replicate| |done]. rewrite span_free. intros j Hj. apply Hsame; unfold ch; lia.
  - fold ch. unfold block_tags. rewrite !Hfree, !Hsize by (unfold ch; lia). rewrite !Z.eqb_refl, orb_true_r. cbn [orb].
    split_and!; try done. intros j Hj. rewrite Hfree by (unfold ch in *; lia).
    rewrite !(proj2 (Z.eqb_neq j _)) by lia. apply M3. lia.
  - apply (marked_ext c); [done| |done]. intros j Hj. apply Hsame; unfold ch in *; lia.
Qed.

Lemma placed_tail : counted c' ch (Some (Z.of_nat r) :: rest).
Proof.
  destruct place_facts as (_ & _ & _ & _ & _ & C). split; [done|].
  apply (counted_ext c); [done| |done]. intros j Hj. apply Hrest. cbn in Hj. lia.
Qed.

Lemma placed_counted_after_free :
  (0 < a)%nat -> (forall j, 0 <= j < span p -> total_size (c' j) = total_size (c j)) ->
  (forall j, span p <= j < ch -> total_size (c' j) = ch - j) ->
  counted c' 0 (p ++ frees a ++ Some (Z.of_nat r) :: rest).
Proof.
  intros Ha Hbefore Hrun. destruct place_facts as (_ & _ & _ & _ & C & _).
  apply counted_breaks; [apply breaks_free; [done|]; destruct a; [lia|done]|].
  rewrite Z.add_0_l. split; [apply (counted_ext c); [done| |done]; intros j Hj; apply Hbefore; lia|].
  apply counted_frees. split; [|apply placed_tail]. intros j Hj. cbn [free_run]. rewrite Hrun by (unfold ch; lia).
  unfold ch. lia.
Qed.

Lemma placed_counted_after_blocks p0 us :
  a = 0%nat -> p = p0 ++ blocks us -> ~ ends_used p0 ->
  (forall j, 0 <= j < span p0 -> total_size (c' j) = total_size (c j)) ->
  tallied c' (span p0) us (Z.of_nat r + used_run rest) ->
  counted c' 0 (p ++ frees a ++ Some (Z.of_nat r) :: rest).
Proof.
  intros Ha E Hp0 Hbefore Ht. destruct place_facts as (_ & _ & _ & _ & C & _).
  assert (Hs : span p = span p0 + sum us) by (rewrite E, span_app; done).
  pose proof placed_tail as Htail. unfold ch in Htail. rewrite Ha in *. cbn [replicate app].
  rewrite Z.add_0_r, Hs in Htail. rewrite E in *. apply list.Forall_app in Hok as [Hok0 _].
  assert (Hnone : head (blocks us) <> Some None) by (by destruct us).
  apply (counted_breaks _ _ _ _ (breaks_used _ _ Hp0 Hnone)) in C as [C _].
  rewrite <- app_assoc. apply counted_breaks; [apply breaks_used; [done|by destruct us]|]. rewrite Z.add_0_l.
  split; [apply (counted_ext c); [done| |done]; intros j Hj; apply Hbefore; lia|].
  apply counted_blocks. by split.
Qed.

End Place.

Lemma used_run_nonneg gs : Forall seg_ok gs -> 0 <= used_run gs.
Proof.
  induction gs as [|[n|] gs IH]; intros H; cbn; [done| |done]. apply list.Forall_cons_1 in H as [H1 H2].
  specialize (IH H2). unfold seg_ok in H1. cbn in H1. lia.
Qed.

Lemma used_run_span gs : Forall seg_ok gs -> used_run gs <= span gs.
Proof.
  induction gs as [|[n|] gs IH]; intros H; cbn; [done|..]; apply list.Forall_cons_1 in H as [H1 H2].
  - specialize (IH H2). lia.
  - pose proof (span_nonneg _ H2). lia.
Qed.

(** Where the walk back over a run stops. *)
Lemma stop_free c p :
  Forall seg_ok p -> ~ ends_free p -> marked c 0 p ->
  span p = 0 \/ 1 <= span p /\ is_free (c (span p - 1)) = 0.
Proof.
  intros Hok He Hm. destruct (decide (p = [])) as [->|Hp]; [by left|right]. split; [by apply span_pos|].
  pose proof (last_chunk c p 0 Hok Hp He Hm) as H. by rewrite Z.add_0_l in H.
Qed.

Lemma stop_used c p :
  Forall seg_ok p -> ~ ends_used p -> marked c 0 p ->
  span p = 0 \/ 1 <= span p /\ is_free (c (span p - 1)) = 1.
Proof.
  intros Hok He Hm. destruct (decide (p = [])) as [->|Hp]; [by left|right]. split; [by apply span_pos|].
  pose proof (last_free_chunk c p 0 Hok Hp He Hm) as H. by rewrite Z.add_0_l in H.
Qed.

Lemma prefix_blocks p0 us : Forall seg_ok (p0 ++ blocks us) -> Forall seg_ok p0 /\ Forall (fun n => 1 <= n) us.
Proof. rewrite list.Forall_app, blocks_ok. done. Qed.

Lemma span_blocks p0 us : span (p0 ++ blocks us) = span p0 + sum us.
Proof. apply span_app. Qed.

(** [update_allocated] behind [p], which ends in the blocks [us]. *)
Lemma update_allocated_before s p0 us T :
  let cs := mem_chunk_list s in
  let o := span (p0 ++ blocks us) in
  Z.of_nat (length cs) = CHUNK_NUM -> Forall seg_ok (p0 ++ blocks us) -> ~ ends_used p0 ->
  marked (chunk_at cs) 0 (p0 ++ blocks us) -> o <= CHUNK_NUM -> 0 <= T <= CHUNK_NUM - o ->
  exists cs', update_allocated o T s = Ret (tt, set_chunks cs' s) /\ Z.of_nat (length cs') = CHUNK_NUM
    /\ (forall j, 0 <= j -> is_free (chunk_at cs' j) = is_free (chunk_at cs j)
          /\ chunk_size (chunk_at cs' j) = chunk_size (chunk_at cs j))
    /\ (forall j, 0 <= j -> j < span p0 \/ o <= j -> total_size (chunk_at cs' j) = total_size (chunk_at cs j))
    /\ tallied (chunk_at cs') (span p0) us T.
Proof.
  intros cs o Hlen Hok He Hm Ho HT. apply prefix_blocks in Hok as [Hok0 Hoku]. pose proof (sum_nonneg _ Hoku).
  pose proof (span_nonneg _ Hok0). apply marked_app in Hm as [M0 Mu]. rewrite Z.add_0_l in Mu.
  assert (Hst : o - sum us = span p0) by (unfold o; rewrite span_blocks; lia).
  destruct (update_allocated_run us (Z.to_nat o) o T s) as (cs' & E & L & U1 & U2 & U3); rewrite ?Hst; try done; try lia.
  - destruct (stop_used _ _ Hok0 He M0) as [?|[_ ?]]; [by left|by right].
  - exists cs'. rewrite Hst in U2, U3. split_and!; try done. by rewrite L.
Qed.

(** The marks and the run length of the block. *)
Lemma place_marks s chunk r next_run :
  let cs := mem_chunk_list s in
  let next := chunk_at cs (chunk + r) in
  Z.of_nat (length cs) = CHUNK_NUM -> 0 <= chunk -> 0 < r -> chunk + r < CHUNK_NUM ->
  (is_free next = 0 /\ total_size next = next_run) \/ (is_free next = 1 /\ next_run = 0) ->
  0 <= next_run <= CHUNK_NUM ->
  exists cs2, place_block chunk r s =
    when (0 <? chunk)
      (p <-- tag (u32 (chunk - 1)) ;;
       if is_free p =? 0 then c <-- tag chunk ;; update_allocated chunk (total_size c)
       else update_free chunk 0) (set_chunks cs2 s)
    /\ Z.of_nat (length cs2) = CHUNK_NUM
    /\ forall j, 0 <= j -> chunk_at cs2 j =
         let e := (j =? chunk) || (j =? chunk + r - 1) in
         mk_chunk (if e then 0 else is_free (chunk_at cs j))
           (if j =? chunk then r + next_run else total_size (chunk_at cs j))
           (if e then r else chunk_size (chunk_at cs j)).
Proof.
  intros cs next Hlen Hch Hr Hlt Hnext Hrun. change CHUNK_NUM with 1024 in *. unfold place_block.
  assert (Hlen' : Z.of_nat (length (mem_chunk_list s)) = 1024) by exact Hlen.
  rewrite (u32_small (chunk + r - 1)), (u32_small (chunk + r)) by lia.
  rewrite put_tag_ok by lia. do 3 (rewrite put_tag_ok by (cbn; rewrite !changed_length; lia)).
  cbn [mem_chunk_list set_chunks]. rewrite !set_chunks_chunks.
  match goal with |- context [set_chunks ?x s] => set (cs1 := x) end.
  assert (A1 : forall j, 0 <= j -> chunk_at cs1 j =
    let e := (j =? chunk) || (j =? chunk + r - 1) in
    mk_chunk (if e then 0 else is_free (chunk_at cs j)) (total_size (chunk_at cs j))
             (if e then r else chunk_size (chunk_at cs j))).
  { intros j Hj. unfold cs1. repeat (rewrite chunk_at_changed by (rewrite ?changed_length; lia)).
    fold cs. rewrite !Z.eqb_refl. set (e := chunk + r - 1). cbv zeta. destruct (Z.eqb_spec e chunk) as [E|E].
    - rewrite E. destruct (Z.eqb_spec j chunk) as [->|]; cbn [orb]; [done|by destruct (chunk_at cs j)].
    - destruct (Z.eqb_spec j e) as [->|]; [by rewrite orb_true_r|].
      destruct (Z.eqb_spec j chunk) as [->|]; cbn [orb]; [done|by destruct (chunk_at cs j)]. }
  assert (L1 : Z.of_nat (length cs1) = 1024) by (unfold cs1; by rewrite !changed_length). clearbody cs1.
  assert (N : chunk_at cs1 (chunk + r) = next).
  { rewrite A1, (proj2 (Z.eqb_neq (chunk + r) chunk)), (proj2 (Z.eqb_neq (chunk + r) (chunk + r - 1))) by lia.
    unfold next. by destruct (chunk_at cs (chunk + r)). }
  rewrite tag_ok by (cbn; lia). cbn [mem_chunk_list set_chunks]. rewrite N.
  assert (S2 : (if is_free next =? 0 then put_tag chunk (set_total_size (u32 (r + total_size next)))
     else put_tag chunk (set_total_size r)) = put_tag chunk (set_total_size (r + next_run))).
  { destruct Hnext as [[-> ->]|[-> ->]]; cbn [Z.eqb]; do 2 f_equal; [apply u32_small|]; lia. }
  rewrite S2, put_tag_ok by (cbn; lia). cbn [mem_chunk_list set_chunks]. rewrite set_chunks_chunks.
  eexists. split; [reflexivity|]. split; [by rewrite changed_length|]. intros j Hj.
  rewrite chunk_at_changed by lia. destruct (Z.eqb_spec j chunk) as [->|Hne]; rewrite A1 by lia.
  - by rewrite Z.eqb_refl.
  - by rewrite (proj2 (Z.eqb_neq j chunk)).
Qed.

Lemma place_block_run s p rest a r :
  let gs := p ++ frees a ++ frees r ++ rest in
  heap (mem_chunk_list s) gs -> ~ ends_free p -> (0 < r)%nat -> rest <> [] ->
  exists cs', place_block (span p + Z.of_nat a) (Z.of_nat r) s = Ret (tt, set_chunks cs' s)
    /\ heap cs' (p ++ frees a ++ Some (Z.of_nat r) :: rest).
Proof.
  intros gs (Hlen & Hspan & Hok & Hm & Hc) Hp Hr Hrest.
  set (ch := span p + Z.of_nat a). unfold gs in *. rewrite !span_app, !span_free in Hspan.
  apply list.Forall_app in Hok as [Hok1 Hok2].
  apply list.Forall_app in Hok2 as [_ Hok2]. apply list.Forall_app in Hok2 as [_ Hok2].
  pose proof (span_nonneg _ Hok1). pose proof (span_pos _ Hok2 Hrest) as Hpos.
  pose proof (used_run_span _ Hok2). pose proof (used_run_nonneg _ Hok2).
  destruct (place_facts _ p rest a r Hp Hm Hc Hr) as (M1 & M2 & M3 & M4 & C1 & C2). fold ch in M3, M4, C2.
  change CHUNK_NUM with 1024 in *. assert (Hch : 0 <= ch /\ ch + Z.of_nat r < 1024) by (unfold ch; lia).
  destruct (place_marks s ch (Z.of_nat r) (used_run rest)) as (cs2 & E2 & L2 & A2); try (change CHUNK_NUM with 1024); try lia.
  { destruct (head_tag _ _ _ Hrest M4 C2) as [(? & ? & _)|(? & _ & ?)]; [by left|by right]. }
  rewrite E2. clear E2. set (cs := mem_chunk_list s) in *. change CHUNK_NUM with 1024 in L2.
  assert (Prev : forall j, 0 <= j < ch -> chunk_at cs2 j = chunk_at cs j).
  { intros j Hj. rewrite A2 by lia. rewrite (proj2 (Z.eqb_neq j ch)), (proj2 (Z.eqb_neq j (ch + Z.of_nat r - 1))) by lia.
    by destruct (chunk_at cs j). }
  assert (Next : forall j, ch + Z.of_nat r <= j -> total_size (chunk_at cs2 j) = total_size (chunk_at cs j)).
  { intros j Hj. rewrite A2 by lia. cbn. by rewrite (proj2 (Z.eqb_neq j ch)) by lia. }
  assert (Here : total_size (chunk_at cs2 ch) = Z.of_nat r + used_run rest) by (rewrite A2 by lia; cbn; by rewrite Z.eqb_refl).
  assert (Mp : marked (chunk_at cs2) 0 p).
  { apply (marked_ext (chunk_at cs)); [done| |done]. intros j Hj. by rewrite Prev by (unfold ch; lia). }
  (* it is enough to get the run lengths right *)
  assert (Hend : forall cs', Z.of_nat (length cs') = 1024 ->
     (forall j, 0 <= j -> is_free (chunk_at cs' j) = is_free (chunk_at cs2 j)
        /\ chunk_size (chunk_at cs' j) = chunk_size (chunk_at cs2 j)) ->
     counted (chunk_at cs') 0 (p ++ frees a ++ Some (Z.of_nat r) :: rest) ->
     heap cs' (p ++ frees a ++ Some (Z.of_nat r) :: rest)).
  { intros cs' L' HF HC. split_and!; try done.
    - rewrite !span_app, span_free. cbn [span seg_len]. change CHUNK_NUM with 1024. lia.
    - apply list.Forall_app. split; [done|]. apply list.Forall_app. split; [by apply Forall_replicate|].
      constructor; [|done]. unfold seg_ok. cbn. lia.
    - apply (placed_marked (chunk_at cs)); try done.
      + intros j Hj. destruct (HF j Hj) as [-> _]. by rewrite A2.
      + intros j Hj. destruct (HF j Hj) as [_ ->]. by rewrite A2. }
  destruct (decide (a = 0)%nat) as [Ha|Ha].
  - assert (ch = span p) as Hchp by (unfold ch; lia). destruct (split_blocks p) as (p0 & us & E & Hp0).
    destruct (update_allocated_before (set_chunks cs2 s) p0 us (Z.of_nat r + used_run rest))
      as (cs' & E' & L' & U1 & U2 & U3); rewrite <- ?E, <- ?Hchp; change CHUNK_NUM with 1024; try done; try lia.
    rewrite <- E, <- Hchp in E', U2. cbn [mem_chunk_list set_chunks] in U1, U2.
    assert (Hfin : heap cs' (p ++ frees a ++ Some (Z.of_nat r) :: rest)).
    { pose proof (prefix_blocks p0 us ltac:(by rewrite <- E)) as [Hok0 Hoku]. pose proof (sum_nonneg _ Hoku).
      assert (Hs : span p = span p0 + sum us) by (by rewrite E, span_blocks). pose proof (span_nonneg _ Hok0).
      apply Hend; [done|done|]. apply (placed_counted_after_blocks (chunk_at cs) p rest a r) with (p0 := p0) (us := us); try done.
      - intros j Hj. fold ch in Hj. rewrite U2 by lia. by apply Next.
      - fold ch. by rewrite U2 by lia.
      - intros j Hj. rewrite U2 by lia. by rewrite Prev by lia. }
    destruct (stop_free _ _ Hok1 Hp Mp) as [Hz|[Hp1 Hl]]; rewrite <- Hchp in *.
    + rewrite (proj2 (Z.ltb_ge 0 ch)) by lia. exists cs2. split; [done|].
      assert (p = []) as Hnil by (destruct (decide (p = [])) as [|Hne]; [done|]; pose proof (span_pos _ Hok1 Hne); lia).
      apply Hend; [done|done|]. apply (placed_counted_after_blocks (chunk_at cs) p rest a r) with (p0 := []) (us := []); try done.
      * by intros [? ?].
      * intros j Hj. cbn in Hj. lia.
    + exists cs'. split; [|done]. rewrite (proj2 (Z.ltb_lt 0 ch)) by lia.
      cbn [when]. rewrite u32_small, tag_ok by (cbn; lia). cbn [mem_chunk_list set_chunks]. rewrite Hl. cbn [Z.eqb].
      rewrite tag_ok by (cbn; lia). cbn [mem_chunk_list set_chunks]. by rewrite Here.
  - rewrite marked_free in M2. rewrite (proj2 (Z.ltb_lt 0 ch)) by (unfold ch; lia). cbn [when].
    rewrite u32_small, tag_ok by (cbn; unfold ch in *; lia). cbn [mem_chunk_list set_chunks].
    rewrite Prev, M2 by (unfold ch; lia). cbn [Z.eqb].
    assert (Hst : ch - Z.of_nat a = span p) by (unfold ch; lia).
    destruct (update_free_run a (Z.to_nat ch) ch 0 (set_chunks cs2 s)) as (cs' & E' & L' & V1);
      cbn [mem_chunk_list set_chunks]; rewrite ?Hst; change CHUNK_NUM with 1024; try done; try lia.
    + intros j Hj. rewrite Prev by lia. apply M2. unfold ch in Hj. lia.
    + destruct (stop_free _ _ Hok1 Hp Mp) as [?|[_ ?]]; [by left|by right].
    + unfold update_free. exists cs'. split; [done|]. cbn [mem_chunk_list set_chunks] in L', V1. rewrite Hst in V1.
      assert (Hout : forall j, 0 <= j -> j < span p \/ ch <= j -> chunk_at cs' j = chunk_at cs2 j).
      { intros j Hj Ho. rewrite V1 by done. destruct (Z.leb_spec (span p) j), (Z.ltb_spec j ch); cbn [andb]; try done; lia. }
      assert (Hmarks : forall j, 0 <= j -> is_free (chunk_at cs' j) = is_free (chunk_at cs2 j)
        /\ chunk_size (chunk_at cs' j) = chunk_size (chunk_at cs2 j))
        by (intros j Hj; rewrite V1 by done; by destruct (_ && _)).
      apply Hend; [lia|done|]. apply (placed_counted_after_free (chunk_at cs) p rest a r); try done; try lia.
      * intros j Hj. destruct (Hmarks j Hj) as [-> _]. by rewrite A2.
      * intros j Hj. destruct (Hmarks j Hj) as [_ ->]. by rewrite A2.
      * intros j Hj. fold ch in Hj. rewrite Hout by lia. by apply Next.
      * fold ch. by rewrite Hout by lia.
      * intros j Hj. rewrite Hout by lia. by rewrite Prev by (unfold ch; lia).
      * intros j Hj. fold ch in Hj. fold ch. rewrite V1 by lia.
        rewrite (proj2 (Z.leb_le _ _)), (proj2 (Z.ltb_lt _ _)) by lia. cbn. lia.
Qed.

Lemma mem_acquire_run {B} s (k : unit -> M hst B) :
  memlock s = SPINLOCK_INIT -> cpu_room 1 (cpu (hkern s)) ->
  bind mem_acquire k s = k tt (set_memlock (taken SYNC_IMPL) s).
Proof.
  intros Hl Hc. unfold mem_acquire. rewrite bind_assoc, bind_gets, Hl, bind_assoc.
  unfold bind at 1, hop, zoom. rewrite (spinlock_acquire_free _ _ Hc). rewrite bind_modify. by destruct s.
Qed.

Lemma mem_release_run {B} s (k : unit -> M hst B) :
  memlock s = taken SYNC_IMPL -> cpu_room 1 (cpu (hkern s)) ->
  bind mem_release k s = k tt (set_memlock SPINLOCK_INIT s).
Proof.
  intros Hl Hc. unfold mem_release. rewrite bind_assoc, bind_gets, Hl, bind_assoc.
  unfold bind at 1, hop, zoom. rewrite (spinlock_release_taken _ _ Hc). rewrite bind_modify. by destruct s.
Qed.

Lemma place_block_past_end s chunk r :
  Z.of_nat (length (mem_chunk_list s)) = CHUNK_NUM -> 0 <= chunk -> 0 < r -> chunk + r = CHUNK_NUM ->
  place_block chunk r s = Stuck.
Proof.
  change CHUNK_NUM with 1024. intros Hl H1 H2 H3. unfold place_block.
  rewrite (u32_small (chunk + r - 1)), (u32_small (chunk + r)) by lia.
  rewrite put_tag_ok by lia. do 3 (rewrite put_tag_ok by (cbn; rewrite !changed_length; lia)).
  unfold bind at 1, tag. rewrite (proj2 (Z.ltb_ge _ _)) by lia.
  rewrite (proj2 (lookup_ge_None _ _)); [done|]. cbn. rewrite !changed_length. lia.
Qed.

Lemma to_align_aligned al o : 0 < al < 2 ^ 31 -> 0 <= o -> (o + to_align al o) mod al = 0.
Proof.
  intros Ha Ho. unfold to_align, truth. rewrite (proj2 (Z.eqb_neq al 0)) by lia. cbn [negb].
  pose proof (Z.mod_pos_bound o al ltac:(lia)). rewrite u32_small by lia.
  rewrite Zplus_mod_idemp_r. rewrite (Z.div_mod o al) at 1 by lia.
  replace (al * (o / al) + o mod al + (al - o mod al)) with ((o / al + 1) * al) by lia.
  apply Z_mod_mult.
Qed.

Lemma bzero_loop_clears n : forall m area i x,
  String_core.bzero_loop m area i n x
  = if (area + i <=? x) && (x <? area + i + Z.of_nat n) then 0 else m x.
Proof.
  induction n as [|n IH]; intros m area i x; cbn [String_core.bzero_loop].
  - destruct (Z.leb_spec (area + i) x), (Z.ltb_spec x (area + i + Z.of_nat 0)); cbn [andb]; try done. lia.
  - rewrite IH. unfold upd.
    destruct (Z.leb_spec (area + (i + 1)) x), (Z.ltb_spec x (area + (i + 1) + Z.of_nat n)),
      (Z.leb_spec (area + i) x), (Z.ltb_spec x (area + i + Z.of_nat (S n))), (Z.eqb_spec x (area + i));
      cbn [andb]; try done; lia.
Qed.

Lemma sizes size alignment :
  1 <= size < 2 ^ 31 -> 0 <= alignment < 2 ^ 31 ->
  let r := (size - 1) / CHUNK_SIZE + 1 in
  let al := alignment / CHUNK_SIZE in
  1 <= r < 2 ^ 31 /\ 0 <= al < 2 ^ 31
  /\ u32 (Z.quot (size - 1) CHUNK_SIZE + 1) = r /\ u32 (Z.quot alignment CHUNK_SIZE) = al.
Proof.
  intros Hsize Halign r al. unfold r, al, CHUNK_SIZE. assert (1 <= (size - 1) / 64 + 1 < 2 ^ 31) by zdiv.
  assert (0 <= alignment / 64 < 2 ^ 31) by zdiv.
  rewrite !Z.quot_div_nonneg, !u32_small by lia. done.
Qed.

Section Kzalloc.

Context (s : hst) (gs : list segment) (size alignment : Z).
Context (Hheap : heap (mem_chunk_list s) gs).
Context (Hlock : memlock s = SPINLOCK_INIT) (Hcpu : cpu_room 1 (cpu (hkern s))).
Context (Hsize : 1 <= size < 2 ^ 31) (Halign : 0 <= alignment < 2 ^ 31).

(** Chunks for [size] bytes, and the alignment in chunks. *)
Let r := (size - 1) / CHUNK_SIZE + 1.
Let al := alignment / CHUNK_SIZE.

(** Where the block goes in the free run behind [p]. *)
Let start p := span p + to_align al (span p).

Definition zeroed (ptr n : Z) (m m' : bmem) : Prop :=
  forall x, m' x = if (ptr <=? x) && (x <? ptr + n) then 0 else m x.

Lemma kzalloc_align_run :
  (kzalloc_align size alignment s = Ret (0, s)
   /\ forall p k t, maximal p k t gs -> Z.of_nat (S k) < r + to_align al (span p))
  \/ (exists p k t, maximal p k t gs /\ r + to_align al (span p) <= Z.of_nat (S k)
      /\ (start p + r = CHUNK_NUM -> kzalloc_align size alignment s = Stuck)
      /\ (start p + r <> CHUNK_NUM ->
          exists cs' m', kzalloc_align size alignment s
              = Ret (KERNEL_ALLOC_START + start p * CHUNK_SIZE, set_hmem m' (set_chunks cs' s))
            /\ heap cs' (p ++ frees (Z.to_nat (to_align al (span p))) ++ [Some r]
                 ++ frees (Z.to_nat (Z.of_nat (S k) - to_align al (span p) - r)) ++ t)
            /\ zeroed (KERNEL_ALLOC_START + start p * CHUNK_SIZE) (r * CHUNK_SIZE) (hmem s) m')).
Proof.
  destruct (sizes size alignment Hsize Halign) as (Hr & Hal & Er & Eal). fold r in Hr, Er. fold al in Hal, Eal. pose proof Hheap as (Hlen & Hspan & Hok & Hm & Hc).
  unfold kzalloc_align. cbv zeta. rewrite Er, Eal, mem_acquire_run by done.
  set (s1 := set_memlock (taken SYNC_IMPL) s).
  destruct (find_chunk_run r al ltac:(lia) Hal s1 Hlen (length gs) gs search_fuel 0) as [[E H]|(p & k & t & H1 & H2 & H3)]; try done.
  - left. rewrite (bind_step _ _ _ _ _ E). rewrite mem_release_run by done. split; [|done].
    unfold ret. do 2 f_equal. unfold s1. rewrite <- Hlock. by destruct s.
  - right. rewrite Z.add_0_l in *. exists p, k, t. split; [done|]. split; [done|].
    rewrite (bind_step _ _ _ _ _ H2). set (a := to_align al (span p)) in *.
    destruct H1 as (E & Hp & Ht). rewrite E in Hspan, Hok. rewrite !span_app, span_free in Hspan.
    apply list.Forall_app in Hok as [Hok1 Hok2]. apply list.Forall_app in Hok2 as [_ Hok2].
    pose proof (span_nonneg _ Hok1). pose proof (span_nonneg _ Hok2). 
    assert (Ha : 0 <= a) by (apply to_align_range; done).
    change CHUNK_NUM with 1024 in *. rewrite (u32_small (span p + a)) by lia.
    change (start p) with (span p + a). split.
    + intros Hend. unfold bind at 1. by rewrite place_block_past_end by (try done; lia).
    + intros Hend. set (k' := Z.to_nat (Z.of_nat (S k) - a - r)).
      assert (Hgs : gs = p ++ frees (Z.to_nat a) ++ frees (Z.to_nat r) ++ (frees k' ++ t)).
      { rewrite E. f_equal. rewrite !app_assoc, <- !frees_app. do 2 f_equal. unfold k'. lia. }
      destruct (place_block_run s1 p (frees k' ++ t) (Z.to_nat a) (Z.to_nat r)) as (cs' & E' & HH); try done.
      { by rewrite <- Hgs. }
      { lia. }
      { intros Hnil. apply app_eq_nil in Hnil as [Hk ->]. apply (f_equal length) in Hk.
        rewrite length_replicate in Hk. cbn in Hk, Hspan. unfold k' in Hk. lia. }
      rewrite (Z2Nat.id a), (Z2Nat.id r) in E' by lia. rewrite (Z2Nat.id r) in HH by lia. rewrite (bind_step _ _ _ _ _ E'). rewrite mem_release_run by done.
      rewrite bind_modify. unfold KERNEL_ALLOC_START, CHUNK_SIZE.
      rewrite (u32_small (0x030000 + _)), (u32_small (r * 64)), s32_small by lia.
      exists cs'. eexists. split_and!; [|exact HH|].
      * unfold ret. do 2 f_equal. unfold s1, set_hmem, set_memlock, set_chunks. cbn. by rewrite Hlock.
      * intros x. cbn [hmem set_memlock set_chunks s1]. unfold String_core.bzero. rewrite bzero_loop_clears, Z2Nat.id by lia.
        by rewrite Z.add_0_r.
Qed.

End Kzalloc.

(** ** Freeing *)

Lemma free_run_span gs : Forall seg_ok gs -> 0 <= free_run gs <= span gs.
Proof.
  induction gs as [|[n|] gs IH]; intros H; cbn; [done|..]; apply list.Forall_cons_1 in H as [H1 H2].
  - pose proof (span_nonneg _ H2). unfold seg_ok in H1. cbn in H1. lia.
  - specialize (IH H2). lia.
Qed.

Lemma not_ends p : ~ ends_free p -> ~ ends_used p -> p = [].
Proof.
  intros H1 H2. destruct p as [|[n|] p] using rev_ind; [done|..].
  - destruct H2. exists n. by rewrite last_snoc.
  - destruct H1. unfold ends_free. by rewrite last_snoc.
Qed.

Lemma breaks_blocks p us t : ~ ends_free (p ++ blocks us) -> ~ ends_used p -> breaks p (blocks us ++ t).
Proof.
  intros H1 H2. destruct us as [|n us].
  - cbn in H1. rewrite app_nil_r in H1. rewrite (not_ends p); done.
  - by apply breaks_used.
Qed.

(** The tags after a block has been freed: [p0], the blocks [us], the free run
    that the block joins, and [t]. *)
Section Freed.

Context (c c' : Z -> mem_chunk) (p0 t : list segment) (us : list Z) (m : nat) (n : Z).
Context (Hn : 1 <= n) (Hok0 : Forall seg_ok p0) (Hoku : Forall (fun n => 1 <= n) us) (Hokt : Forall seg_ok t).
Context (Hp1 : ~ ends_free (p0 ++ blocks us)) (Hp0 : ~ ends_used p0).
Context (Hm : marked c 0 (p0 ++ blocks us ++ frees m ++ Some n :: t)).
Context (Hc : counted c 0 (p0 ++ blocks us ++ frees m ++ Some n :: t)).

Let lo := span p0 + sum us.
Let o := lo + Z.of_nat m.

Lemma freed_facts :
  marked c 0 p0 /\ marked c (span p0) (blocks us) /\ marked c lo (frees m) /\ block_tags c o n
  /\ marked c (o + n) t /\ counted c 0 p0 /\ counted c (o + n) t
  /\ ((0 < m)%nat -> tallied c (span p0) us 0).
Proof.
  apply marked_app in Hm as [M1 M2]. apply marked_app in M2 as [M2 M3]. apply marked_app in M3 as [M3 M4].
  destruct M4 as [M4 M5]. change (span (blocks us)) with (sum us) in *. rewrite span_free, Z.add_0_l in *.
  fold lo in M3, M4, M5. fold o in M4, M5.
  apply (counted_breaks _ _ _ _ (breaks_blocks _ _ _ Hp1 Hp0)) in Hc as [C1 C2].
  apply counted_blocks in C2 as [C2 C3]. apply counted_frees in C3 as [_ [_ C4]].
  rewrite Z.add_0_l in *. split_and!; try done. intros Hpos. destruct m; [lia|]. done.
Qed.

Context (Hmark : forall j, 0 <= j -> is_free (c' j) = if (o <=? j) && (j <? o + n) then 1 else is_free (c j)).
Context (Hsame : forall j, 0 <= j -> j < o \/ o + n <= j -> chunk_size (c' j) = chunk_size (c j)).
Context (Hlow : forall j, 0 <= j < span p0 -> total_size (c' j) = total_size (c j)).
Context (Htally : tallied c' (span p0) us 0).
Context (Hrun : forall j, lo <= j < o + n -> total_size (c' j) = o + n - j + free_run t).
Context (Hhigh : forall j, o + n <= j -> total_size (c' j) = total_size (c j)).

Lemma freed_heap cs' :
  c' = chunk_at cs' -> Z.of_nat (length cs') = CHUNK_NUM -> o + n + span t = CHUNK_NUM ->
  heap cs' ((p0 ++ blocks us ++ frees m) ++ frees (Z.to_nat n) ++ t).
Proof.
  intros Ec L Hsp. destruct freed_facts as (M1 & M2 & M3 & M4 & M5 & C1 & C2 & _). subst c'.
  pose proof (span_nonneg _ Hok0). pose proof (sum_nonneg _ Hoku).
  assert (Hout : forall j, 0 <= j -> j < o \/ o + n <= j -> is_free (chunk_at cs' j) = is_free (c j)).
  { intros j Hj Ho. rewrite Hmark by done. destruct (Z.leb_spec o j), (Z.ltb_spec j (o + n)); cbn [andb]; try done. lia. }
  rewrite <- !app_assoc. split_and!; try done.
  - rewrite !span_app, !span_free. change (span (blocks us)) with (sum us). unfold o, lo in Hsp. lia.
  - repeat (apply list.Forall_app; split); try done; [by apply blocks_ok|by apply Forall_replicate..].
  - apply marked_app. rewrite Z.add_0_l. split; [|apply marked_app; change (span (blocks us)) with (sum us); split;
      [|apply marked_app; rewrite span_free; split; [|apply marked_app; rewrite span_free, Z2Nat.id by lia; split]]].
    + apply (marked_ext c); [done| |done]. intros j Hj. split; [apply Hout|apply Hsame]; unfold o, lo; lia.
    + apply (marked_ext c); [by apply blocks_ok| |done]. change (span (blocks us)) with (sum us).
      intros j Hj. split; [apply Hout|apply Hsame]; unfold o, lo; lia.
    + apply (marked_ext c); [by apply Forall_replicate| |done]. rewrite span_free.
      intros j Hj. split; [apply Hout|apply Hsame]; unfold o, lo; lia.
    + apply marked_free. rewrite Z2Nat.id by lia. fold lo o. intros j Hj. rewrite Hmark by (unfold o, lo in *; lia).
      by rewrite (proj2 (Z.leb_le _ _)), (proj2 (Z.ltb_lt _ _)) by lia.
    + apply (marked_ext c); [done| |done]. fold lo o. intros j Hj. split; [apply Hout|apply Hsame]; unfold o, lo in *; lia.
  - apply counted_breaks; [by apply breaks_blocks|]. rewrite Z.add_0_l.
    split; [apply (counted_ext c); [done| |done]; intros j Hj; apply Hlow; lia|].
    apply counted_blocks. fold lo. rewrite app_assoc, <- frees_app.
    assert (Hk : Z.of_nat (m + Z.to_nat n) = Z.of_nat m + n) by lia.
    split.
    + replace (used_run (frees (m + Z.to_nat n) ++ t)) with 0; [done|].
      destruct (m + Z.to_nat n)%nat eqn:E; [lia|done].
    + apply counted_frees. rewrite Hk. split.
      * intros j Hj. rewrite Hrun by (unfold o; lia). unfold o. lia.
      * replace (lo + (Z.of_nat m + n)) with (o + n) by (unfold o; lia).
        apply (counted_ext c); [done| |done]. intros j Hj. apply Hhigh. lia.
Qed.

End Freed.

(** [kfree] up to the calls of the two loops. *)
Lemma free_marks s o n next_run :
  let cs := mem_chunk_list s in
  let s1 := set_memlock (taken SYNC_IMPL) s in
  Z.of_nat (length cs) = CHUNK_NUM -> memlock s = SPINLOCK_INIT -> cpu_room 1 (cpu (hkern s)) ->
  0 <= o -> 1 <= n -> o + n <= CHUNK_NUM -> block_tags (chunk_at cs) o n ->
  (o + n = CHUNK_NUM -> next_run = 0) ->
  (o + n < CHUNK_NUM -> let next := chunk_at cs (o + n) in
     (is_free next = 0 /\ next_run = 0) \/ (is_free next = 1 /\ total_size next = next_run)) ->
  exists cs1, kfree (KERNEL_ALLOC_START + o * CHUNK_SIZE) s =
    (update_free (o + n) next_run ;;;
     when (0 <? o) (p <-- tag (u32 (o - 1)) ;; when (is_free p =? 0) (update_allocated o 0)) ;;;
     mem_release) (set_chunks cs1 s1)
    /\ Z.of_nat (length cs1) = CHUNK_NUM
    /\ (forall j, o <= j < o + n -> is_free (chunk_at cs1 j) = 1)
    /\ (forall j, 0 <= j -> j < o \/ o + n <= j -> chunk_at cs1 j = chunk_at cs j).
Proof.
  intros cs s1 Hlen Hlock Hcpu Ho Hn Hon (B1 & B2 & B3 & B4 & B5) Hlast Hnext. change CHUNK_NUM with 1024 in *.
  assert (L0 : Z.of_nat (length (mem_chunk_list s1)) = 1024) by exact Hlen.
  unfold kfree. rewrite mem_acquire_run by done. fold s1.
  cbv zeta. replace (u32 (KERNEL_ALLOC_START + o * CHUNK_SIZE - KERNEL_ALLOC_START) / CHUNK_SIZE) with o.
  2: { unfold CHUNK_SIZE, KERNEL_ALLOC_START. rewrite u32_small by lia. zdiv. }
  change CHUNK_NUM with 1024. rewrite bind_assertk_true by (apply Z.ltb_lt; lia).
  rewrite tag_ok by lia. cbn [mem_chunk_list set_memlock s1]. fold cs. rewrite B3.
  rewrite (u32_small (o + n - 1)), (u32_small (o + n)) by lia.
  rewrite put_tag_ok by lia. rewrite put_tag_ok by (cbn; rewrite changed_length; fold cs; lia).
  cbn [mem_chunk_list set_chunks set_memlock s1]. rewrite set_chunks_chunks. fold cs s1.
  match goal with |- context [set_chunks ?x s1] => set (cs1 := x) end.
  assert (A1 : forall j, 0 <= j -> chunk_at cs1 j =
    let e := (j =? o) || (j =? o + n - 1) in
    mk_chunk (if e then 1 else is_free (chunk_at cs j)) (total_size (chunk_at cs j)) (chunk_size (chunk_at cs j))).
  { intros j Hj. unfold cs1. repeat (rewrite chunk_at_changed by (rewrite ?changed_length; lia)).
    set (e := o + n - 1). cbv zeta.
    destruct (Z.eqb_spec j e) as [->|]; destruct (Z.eqb_spec e o) as [E|E]; rewrite ?E, ?Z.eqb_refl, ?orb_true_r; try done.
    all: destruct (Z.eqb_spec j o) as [->|]; cbn [orb]; try done; by destruct (chunk_at cs j). }
  assert (L1 : Z.of_nat (length cs1) = 1024) by (unfold cs1; by rewrite !changed_length). clearbody cs1.
  assert (Out1 : forall j, 0 <= j -> j < o \/ o + n <= j -> chunk_at cs1 j = chunk_at cs j).
  { intros j Hj Hout. rewrite A1 by done. rewrite (proj2 (Z.eqb_neq j o)), (proj2 (Z.eqb_neq j (o + n - 1))) by lia.
    by destruct (chunk_at cs j). }
  exists cs1. split_and!; [|done| |done].
  - destruct (Z.ltb_spec (o + n) 1024) as [Hlt|Hge].
    + rewrite bind_assoc, tag_ok by (cbn; lia). cbn [mem_chunk_list set_chunks]. rewrite Out1, bind_ret by lia.
      destruct (Hnext Hlt) as [[-> ->]|[-> ->]]; done.
    + rewrite bind_ret. by rewrite Hlast by lia.
  - intros j Hj. rewrite A1 by lia. cbn [is_free]. destruct (Z.eqb_spec j o); [done|].
    destruct (Z.eqb_spec j (o + n - 1)); [done|]. cbn [orb]. apply B5. lia.
Qed.

(** The marks after [update_free]. *)
Lemma run_marks cs cs1 cs2 lo o n total :
  (forall j, o <= j < o + n -> is_free (chunk_at cs1 j) = 1) ->
  (forall j, 0 <= j -> j < o \/ o + n <= j -> chunk_at cs1 j = chunk_at cs j) ->
  (forall j, 0 <= j -> chunk_at cs2 j =
     if (lo <=? j) && (j <? o + n) then set_total_size (total + (o + n - j)) (chunk_at cs1 j) else chunk_at cs1 j) ->
  forall j, 0 <= j ->
  is_free (chunk_at cs2 j) = if (o <=? j) && (j <? o + n) then 1 else is_free (chunk_at cs j).
Proof.
  intros Fr1 Out1 A2 j Hj. rewrite A2 by done.
  assert (Es : forall b : bool, is_free (if b then set_total_size (total + (o + n - j)) (chunk_at cs1 j) else chunk_at cs1 j)
    = is_free (chunk_at cs1 j)) by (by intros []). rewrite Es.
  destruct (Z.leb_spec o j), (Z.ltb_spec j (o + n)); cbn [andb]; [apply Fr1; lia|by rewrite Out1 by lia..].
Qed.

Lemma kfree_run s p n t :
  heap (mem_chunk_list s) (p ++ Some n :: t) -> memlock s = SPINLOCK_INIT -> cpu_room 1 (cpu (hkern s)) ->
  exists cs', kfree (KERNEL_ALLOC_START + span p * CHUNK_SIZE) s = Ret (tt, set_chunks cs' s)
    /\ heap cs' (p ++ frees (Z.to_nat n) ++ t).
Proof.
  intros (Hlen & Hspan & Hok & Hm & Hc) Hlock Hcpu.
  destruct (split_frees p) as (p1 & m & -> & Hp1). destruct (split_blocks p1) as (p0 & us & -> & Hp0).
  rewrite <- !app_assoc in Hm, Hc, Hok, Hspan. rewrite app_assoc in Hok. apply list.Forall_app in Hok as [Hok1 Hok].
  destruct (prefix_blocks _ _ Hok1) as [Hok0 Hoku].
  apply list.Forall_app in Hok as [_ Hok]. apply list.Forall_cons_1 in Hok as [Hn Hokt]. unfold seg_ok in Hn. cbn in Hn.
  pose proof (span_nonneg _ Hok0). pose proof (sum_nonneg _ Hoku). pose proof (span_nonneg _ Hokt).
  pose proof (free_run_span _ Hokt) as Hfr.
  destruct (freed_facts _ p0 t us m n Hp1 Hp0 Hm Hc) as (M1 & M2 & M3 & B & M5 & C1 & C2 & C3).
  rewrite span_app, span_free, span_blocks. rewrite !span_app, span_free in Hspan.
  change (span (blocks us)) with (sum us) in Hspan. cbn [span seg_len] in Hspan.
  set (lo := span p0 + sum us) in *. set (o := lo + Z.of_nat m) in *.
  assert (Ho : 0 <= o /\ o + n <= CHUNK_NUM /\ o + n + span t = CHUNK_NUM) by (unfold o, lo; lia).
  destruct (free_marks s o n (free_run t)) as (cs1 & -> & L1 & Fr1 & Out1); try done; try lia.
  { intros Hlt. assert (Ht : t <> []) by (intros ->; cbn in *; lia).
    destruct (head_tag _ _ _ Ht M5 C2) as [(? & _ & ?)|(? & ? & _)]; [by left|by right]. }
  set (s1 := set_memlock (taken SYNC_IMPL) s). set (cs := mem_chunk_list s) in *. rewrite marked_free in M3.
  assert (Hk : o + n - Z.of_nat (m + Z.to_nat n) = lo) by (unfold o; lia).
  assert (Mp : marked (chunk_at cs) 0 (p0 ++ blocks us)) by (apply marked_app; by split).
  destruct (update_free_run (m + Z.to_nat n) (Z.to_nat (o + n)) (o + n) (free_run t) (set_chunks cs1 s1))
    as (cs2 & E2 & L2 & A2); cbn [mem_chunk_list set_chunks] in *; rewrite ?Hk; try done; try lia.
  { intros j Hj. destruct (Z.lt_ge_cases j o); [rewrite Out1 by lia; apply M3; unfold o in *; lia|apply Fr1; lia]. }
  { destruct (stop_free _ _ Hok1 Hp1 Mp) as [Hz|[Hz Hl]]; rewrite span_blocks in Hz; fold lo in Hz; [by left|right].
    rewrite span_blocks in Hl. by rewrite Out1 by (unfold o; lia). }
  rewrite Hk in A2. unfold update_free. rewrite (bind_step _ _ _ _ _ E2), set_chunks_chunks.
  assert (Low : forall j, 0 <= j < lo -> chunk_at cs2 j = chunk_at cs j).
  { intros j Hj. rewrite A2 by lia. rewrite (proj2 (Z.leb_gt lo j)) by lia. cbn [andb]. apply Out1; unfold o; lia. }
  (* it is enough to get the run lengths of the blocks before right *)
  assert (Hend : forall cs', Z.of_nat (length cs') = CHUNK_NUM ->
     (forall j, 0 <= j -> is_free (chunk_at cs' j) = is_free (chunk_at cs2 j)
        /\ chunk_size (chunk_at cs' j) = chunk_size (chunk_at cs2 j)) ->
     (forall j, 0 <= j -> j < span p0 \/ lo <= j -> total_size (chunk_at cs' j) = total_size (chunk_at cs2 j)) ->
     tallied (chunk_at cs') (span p0) us 0 ->
     mem_release (set_chunks cs' s1) = Ret (tt, set_chunks cs' s)
     /\ heap cs' (((p0 ++ blocks us) ++ frees m) ++ frees (Z.to_nat n) ++ t)).
  { intros cs' L' HF HT HU. split.
    - rewrite <- (bind_ret_r mem_release), mem_release_run by done. unfold ret, s1. destruct s. cbn in *. by subst.
    - rewrite <- (app_assoc p0). apply (freed_heap (chunk_at cs) (chunk_at cs') p0 t us m n); try done; fold lo o; try lia.
      + intros j Hj. destruct (HF j Hj) as [-> _]. by apply (run_marks cs cs1 cs2 lo o n (free_run t)).
      + intros j Hj Hout. destruct (HF j Hj) as [_ ->]. rewrite <- (Out1 j), A2 by done. by destruct (_ && _).
      + intros j Hj. rewrite HT by lia. by rewrite Low by (unfold lo; lia).
      + intros j Hj. rewrite HT, A2 by (unfold lo in *; lia).
        rewrite (proj2 (Z.leb_le lo j)), (proj2 (Z.ltb_lt j (o + n))) by lia. cbn. lia.
      + intros j Hj. rewrite HT, A2 by (unfold o, lo in *; lia).
        rewrite (proj2 (Z.ltb_ge j (o + n))), andb_false_r by lia. by rewrite Out1 by lia. }
  assert (Mp2 : marked (chunk_at cs2) 0 (p0 ++ blocks us)).
  { apply (marked_ext (chunk_at cs)); [done| |done]. rewrite span_blocks. intros j Hj. by rewrite Low by lia. }
  assert (L2' : Z.of_nat (length cs2) = CHUNK_NUM) by (by rewrite L2). destruct (decide (m = 0%nat)) as [Hm0|Hm0].
  - assert (Hol : o = lo) by (unfold o; lia). 
    destruct (update_allocated_before (set_chunks cs2 s1) p0 us 0) as (cs' & E' & L' & U1 & U2 & U3);
      rewrite ?span_blocks; fold lo; try done; try lia.
    rewrite span_blocks in E', U2. fold lo in E', U2. rewrite Hol in *.
    destruct (stop_free _ _ Hok1 Hp1 Mp2) as [Hz|[Hz Hl]]; rewrite span_blocks in Hz; fold lo in Hz.
    + rewrite (proj2 (Z.ltb_ge 0 lo)) by lia. exists cs2. cbn [when]. rewrite bind_ret. apply Hend; try done.
      assert (us = []) as ->; [|done]. destruct us as [|u us']; [done|].
      apply list.Forall_cons_1 in Hoku as [G1 G2]. pose proof (sum_nonneg _ G2).
      unfold lo in Hz. rewrite sum_cons in Hz. lia.
    + rewrite span_blocks in Hl. fold lo in Hl. rewrite (proj2 (Z.ltb_lt 0 lo)) by lia. cbn [when].
      rewrite bind_assoc, u32_small, tag_ok by (cbn; change CHUNK_NUM with 1024 in *; lia).
      cbn [mem_chunk_list set_chunks]. rewrite Hl. cbn [Z.eqb when]. rewrite (bind_step _ _ _ _ _ E').
      exists cs'. by apply Hend.
  - exists cs2. rewrite (proj2 (Z.ltb_lt 0 o)) by (unfold o, lo; lia). cbn [when].
    rewrite bind_assoc, u32_small, tag_ok by (cbn; unfold o, lo in *; change CHUNK_NUM with 1024 in *; lia).
    cbn [mem_chunk_list set_chunks].
    assert (is_free (chunk_at cs2 (o - 1)) = 1) as ->.
    { rewrite (run_marks cs cs1 cs2 lo o n (free_run t)) by (done || (unfold o, lo; lia)).
      rewrite (proj2 (Z.leb_gt o (o - 1))) by lia. apply M3. unfold o. lia. }
    cbn [Z.eqb when]. rewrite bind_ret. apply Hend; try done.
    apply (tallied_ext (chunk_at cs)); [done| |apply C3; lia]. intros j Hj. by rewrite Low by (unfold lo; lia).
Qed.

(** ** Initialisation *)

Definition fresh_tag (j : Z) : mem_chunk := mk_chunk 1 (CHUNK_NUM - j) (CHUNK_NUM - j).

Lemma init_tag_run s i :
  0 <= i < Z.of_nat (length (mem_chunk_list s)) ->
  (put_tag i (set_is_free 1) ;;; put_tag i (set_total_size (CHUNK_NUM - i)) ;;;
   put_tag i (set_chunk_size (CHUNK_NUM - i))) s
  = Ret (tt, set_chunks (<[Z.to_nat i := fresh_tag i]> (mem_chunk_list s)) s).
Proof.
  intros Hi. do 2 (rewrite put_tag_ok by (cbn; rewrite ?changed_length; lia)).
  rewrite <- (bind_ret_r (put_tag _ _)), put_tag_ok by (cbn; rewrite ?changed_length; lia).
  unfold ret. cbn [mem_chunk_list set_chunks]. rewrite !set_chunks_chunks. do 3 f_equal.
  unfold changed at 1. rewrite !chunk_at_changed by (rewrite ?changed_length; lia). rewrite Z.eqb_refl.
  unfold changed. by rewrite !list_insert_insert_eq.
Qed.

Lemma allocator_init_run s :
  Z.of_nat (length (mem_chunk_list s)) = CHUNK_NUM -> memlock s = SPINLOCK_INIT ->
  exists cs', allocator_init s = Ret (tt, set_chunks cs' s)
    /\ heap cs' (frees (Z.to_nat CHUNK_NUM)).
Proof.
  intros Hlen Hl. unfold allocator_init.
  pose (I := fun i s' => exists cs', s' = set_chunks cs' s /\ Z.of_nat (length cs') = CHUNK_NUM
    /\ forall j, 0 <= j < i -> chunk_at cs' j = fresh_tag j).
  destruct (for_up_rule I (fun i => put_tag i (set_is_free 1) ;;; put_tag i (set_total_size (CHUNK_NUM - i)) ;;;
      put_tag i (set_chunk_size (CHUNK_NUM - i))) 1 (Z.to_nat CHUNK_NUM) 0 s) as (s' & E & (cs' & -> & L & H)).
  - exists (mem_chunk_list s). split_and!; [by rewrite set_chunks_same|done|lia].
  - intros k s' Hk (cs' & -> & L & H). rewrite Z.mul_1_r, Z.add_0_l in *. change CHUNK_NUM with 1024 in *.
    eexists. split; [rewrite init_tag_run by (cbn; lia); reflexivity|].
    exists (<[Z.to_nat k := fresh_tag k]> cs'). split_and!; [done|by rewrite length_insert|].
    intros j Hj. unfold chunk_at. destruct (decide (j = k)) as [->|].
    + by rewrite list_lookup_insert_eq by lia.
    + rewrite list_lookup_insert_ne by lia. apply H. lia.
  - rewrite (bind_step _ _ _ _ _ E). exists cs'. split.
    + unfold mem_release. rewrite bind_gets. destruct s. cbn in *. by subst.
    + rewrite Z.mul_1_r, Z.add_0_l, Z2Nat.id in H by done.
      split_and!; [done|by rewrite span_free|by apply Forall_replicate| |].
      * apply marked_free. intros j Hj. rewrite Z2Nat.id in Hj by done. by rewrite H by lia.
      * rewrite <- (app_nil_r (frees _)). apply counted_frees. split; [|done].
        rewrite Z2Nat.id by done. intros j Hj. rewrite H by lia. cbn. lia.
Qed.

(** ** Theorems *)

Section Allocator.

Context (s : hst) (gs : list segment).
Context (Hheap : heap (mem_chunk_list s) gs).
Context (Hlock : memlock s = SPINLOCK_INIT) (Hcpu : cpu_room 1 (cpu (hkern s))).

(** [C38] [kzalloc_align] on a well-formed heap.  It returns [NULL] and changes nothing
    exactly when no free run has room for the block at its alignment.  Otherwise
    the block goes into a maximal free run, at the first aligned chunk of it:
    the pointer is to that chunk, the heap is well-formed again with the block
    in it and everything else as before, and the memory of the block, and no
    other, is zero.  A block that would end at the end of the heap makes the
    code read the tag behind the last one. *)
Theorem kzalloc_places_block size alignment :
  1 <= size < 2 ^ 31 -> 0 <= alignment < 2 ^ 31 ->
  let r := (size - 1) / CHUNK_SIZE + 1 in
  let al := alignment / CHUNK_SIZE in
  (kzalloc_align size alignment s = Ret (0, s)
   /\ forall p k t, maximal p k t gs -> Z.of_nat (S k) < r + to_align al (span p))
  \/ (exists p k t, maximal p k t gs /\
      let a := to_align al (span p) in
      let ptr := KERNEL_ALLOC_START + (span p + a) * CHUNK_SIZE in
      r + a <= Z.of_nat (S k)
      /\ (span p + a + r = CHUNK_NUM -> kzalloc_align size alignment s = Stuck)
      /\ (span p + a + r <> CHUNK_NUM ->
          exists cs' m', kzalloc_align size alignment s = Ret (ptr, set_hmem m' (set_chunks cs' s))
            /\ (0 < al -> (span p + a) mod al = 0)
            /\ heap cs' (p ++ frees (Z.to_nat a) ++ [Some r] ++ frees (Z.to_nat (Z.of_nat (S k) - a - r)) ++ t)
            /\ zeroed ptr (r * CHUNK_SIZE) (hmem s) m')).
Proof.
  intros Hs Ha r al. destruct (kzalloc_align_run s gs size alignment Hheap Hlock Hcpu Hs Ha)
    as [H|(p & k & t & H1 & H2 & H3 & H4)]; [by left|right].
  exists p, k, t. split; [done|]. cbv zeta. split; [done|]. split; [done|]. intros Hne.
  destruct (H4 Hne) as (cs' & m' & E & HH & Z). exists cs', m'. split_and!; try done. intros Hal.
  destruct (sizes size alignment Hs Ha) as (_ & Hal' & _).
  apply to_align_aligned; [unfold al in *; lia|]. destruct Hheap as (_ & _ & Hok & _), H1 as (-> & _).
  apply list.Forall_app in Hok as [Hok _]. by apply span_nonneg.
Qed.

(** [C39] [kfree] of an allocated block makes its chunks free, joined with the free
    runs on both sides, and leaves every other block. *)
Theorem kfree_joins_runs p n t :
  gs = p ++ Some n :: t ->
  exists cs', kfree (KERNEL_ALLOC_START + span p * CHUNK_SIZE) s = Ret (tt, set_chunks cs' s)
    /\ heap cs' (p ++ frees (Z.to_nat n) ++ t).
Proof. intros ->. by apply kfree_run. Qed.

(** Freeing what was just allocated restores the heap. *)
Theorem kzalloc_kfree_roundtrip size alignment ptr s' :
  1 <= size < 2 ^ 31 -> 0 <= alignment < 2 ^ 31 ->
  kzalloc_align size alignment s = Ret (ptr, s') -> ptr <> 0 ->
  exists cs'', kfree ptr s' = Ret (tt, set_chunks cs'' s') /\ heap cs'' gs.
Proof.
  intros Hs Ha E Hp. destruct (kzalloc_align_run s gs size alignment Hheap Hlock Hcpu Hs Ha)
    as [[E' _]|(p & k & t & H1 & H2 & H3 & H4)].
  { rewrite E' in E. by injection E as <- _. }
  set (a := to_align (alignment / CHUNK_SIZE) (span p)) in *. set (r := (size - 1) / CHUNK_SIZE + 1) in *.
  destruct (Z.eq_dec (span p + a + r) CHUNK_NUM) as [Hc|Hc]; [rewrite (H3 Hc) in E; done|].
  destruct (H4 Hc) as (cs' & m' & E' & HH & _). rewrite E' in E. injection E as <- <-.
  destruct (sizes size alignment Hs Ha) as (Hr & Hal & _). fold r in Hr.
  assert (Hok : Forall seg_ok p) by (destruct Hheap as (_ & _ & Hok & _), H1 as (-> & _); by apply list.Forall_app in Hok as [? _]).
  assert (Ha0 : 0 <= a) by (apply to_align_range; [done|by apply span_nonneg]).
  rewrite app_assoc in HH.
  destruct (kfree_run (set_hmem m' (set_chunks cs' s)) (p ++ frees (Z.to_nat a)) r
    (frees (Z.to_nat (Z.of_nat (S k) - a - r)) ++ t) HH Hlock Hcpu) as (cs'' & E & HH').
  rewrite span_app, span_free, Z2Nat.id in E by done. exists cs''. split; [done|].
  destruct H1 as (-> & _). rewrite <- app_assoc, (app_assoc (frees (Z.to_nat r))), <- frees_app, (app_assoc (frees (Z.to_nat a))), <- frees_app in HH'.
  by replace (Z.to_nat a + (Z.to_nat r + Z.to_nat (Z.of_nat (S k) - a - r)))%nat with (S k) in HH' by lia.
Qed.

End Allocator.

(** A request for the whole of a fresh heap reads behind the array of tags. *)
Lemma kzalloc_whole_heap s :
  heap (mem_chunk_list s) (frees (Z.to_nat CHUNK_NUM)) -> memlock s = SPINLOCK_INIT -> cpu_room 1 (cpu (hkern s)) ->
  kzalloc (CHUNK_NUM * CHUNK_SIZE) s = Stuck.
Proof.
  intros Hh Hl Hc. unfold kzalloc.
  destruct (kzalloc_align_run s _ (CHUNK_NUM * CHUNK_SIZE) 0 Hh Hl Hc ltac:(done) ltac:(done))
    as [[_ H]|(p & k & t & H1 & H2 & H3 & _)].
  - specialize (H [] 1023%nat []). cbn in H. exfalso. apply (Z.lt_irrefl 1024). apply H. by split_and!.
  - apply H3. assert (Hm : maximal p k t (frees (S 1023) ++ [])) by (by rewrite app_nil_r).
    apply maximal_frees in Hm as [[-> ->]|(p' & _ & (E & _))]; [done| |done]. by destruct p'.
Qed.

(** ** Concrete instances *)

Module Alloc_instances.

Definition blank : hst :=
  mk_hst (Schedule_instances.state 1 1 1) (replicate 1024 (mk_chunk 0 0 0)) SPINLOCK_INIT (fun _ => 7).

(** The heap after [allocator_init]. *)
Definition fresh : hst := match allocator_init blank with Ret (_, s) => s | _ => blank end.

Lemma fresh_heap :
  heap (mem_chunk_list fresh) (frees 1024) /\ memlock fresh = SPINLOCK_INIT
  /\ cpu_room 1 (cpu (hkern fresh)).
Proof.
  destruct (allocator_init_run blank) as (cs' & E & H); [by vm_compute|done|].
  assert (En : Z.to_nat CHUNK_NUM = 1024%nat) by (vm_compute; reflexivity). rewrite En in H.
  unfold fresh. rewrite E. split_and!; [exact H|reflexivity|by apply Schedule_instances.room].
Qed.

(** The first block of a fresh heap. *)
Lemma first_block s :
  heap (mem_chunk_list s) (frees 1024) -> memlock s = SPINLOCK_INIT -> cpu_room 1 (cpu (hkern s)) ->
  exists cs' m', kzalloc_align 100 0 s = Ret (KERNEL_ALLOC_START, set_hmem m' (set_chunks cs' s))
    /\ heap cs' (Some 2 :: frees 1022).
Proof.
  intros Hh Hl Hc.
  destruct (kzalloc_align_run s (frees 1024) 100 0 Hh Hl Hc ltac:(lia) ltac:(lia)) as [[_ H]|(p & k & t & H1 & _ & _ & H4)].
  - specialize (H [] 1023%nat []). exfalso. assert (Hlt : 1024 < 2) by (apply H; split_and!; [reflexivity|discriminate..]). lia.
  - assert (Hm : maximal p k t (frees (S 1023) ++ [])) by (rewrite app_nil_r; exact H1).
    apply maximal_frees in Hm as [[-> ->]|(p' & _ & (E & _))]; [|by destruct p'|discriminate].
    destruct H1 as (Et & _). rewrite <- (app_nil_r (frees 1024)) in Et.
    apply (app_inv_head (frees 1024)) in Et. subst t. destruct (H4 ltac:(discriminate)) as (cs' & m' & E & HH & _).
    exists cs', m'. split; [exact E|]. rewrite app_nil_r in HH. exact HH.
Qed.

Lemma kzalloc_places_block_witness :
  kzalloc_align 100 256 fresh = Ret (0, fresh)
  \/ exists p k t, maximal p k t (frees 1024) /\ 2 + to_align 4 (span p) <= Z.of_nat (S k).
Proof.
  destruct fresh_heap as (Hh & Hl & Hc).
  destruct (kzalloc_places_block fresh _ Hh Hl Hc 100 256) as [[H _]|(p & k & t & H1 & H2 & _)]; [lia|lia|left; exact H|].
  right. exists p, k, t. split; [exact H1|exact H2].
Defined.

Lemma kfree_joins_runs_witness :
  exists s cs', kfree KERNEL_ALLOC_START s = Ret (tt, set_chunks cs' s) /\ heap cs' (frees 2 ++ frees 1022).
Proof.
  generalize fresh, fresh_heap. intros s (Hh & Hl & Hc). destruct (first_block s Hh Hl Hc) as (cs1 & m' & _ & HH).
  destruct (kfree_joins_runs (set_hmem m' (set_chunks cs1 s)) _ HH Hl Hc [] 2 (frees 1022) eq_refl) as (cs' & E & H).
  exists (set_hmem m' (set_chunks cs1 s)), cs'. split; [exact E|exact H].
Defined.

Lemma kzalloc_kfree_roundtrip_witness :
  exists ptr s' cs'', kzalloc_align 100 0 fresh = Ret (ptr, s')
    /\ kfree ptr s' = Ret (tt, set_chunks cs'' s') /\ heap cs'' (frees 1024).
Proof.
  generalize fresh, fresh_heap. intros s (Hh & Hl & Hc). destruct (first_block s Hh Hl Hc) as (cs1 & m' & E & _).
  destruct (kzalloc_kfree_roundtrip s _ Hh Hl Hc 100 0 _ _ ltac:(lia) ltac:(lia) E) as (cs'' & E' & H); [discriminate|].
  eexists _, _, cs''. split; [exact E|]. split; [exact E'|exact H].
Defined.

End Alloc_instances.
