(* ===== verification/HeapRoom.v ===== *)
(** * Room in the kernel heap

    When the heap of [Alloc] ends in a long enough free run, [kzalloc] succeeds,
    and what is left of that run is known.  The drivers that allocate records
    are proved against this. *)

From S2P Require Import Prelude CString Sched Ring Schedule Sync Alloc.

(** The last [n] chunks are free. *)
Definition free_end (n : nat) (gs : list segment) : Prop := exists p, gs = p ++ frees n.

(** The heap can give [n] more chunks, one record after the other. *)
Definition room (h : hst) (n : nat) : Prop :=
  memlock h = SPINLOCK_INIT /\ cpu_room 1 (cpu (hkern h))
  /\ exists gs, heap (mem_chunk_list h) gs /\ free_end (S n) gs.

Lemma free_end_max n k p : free_end n (p ++ frees k) -> ~ ends_free p -> (n <= k)%nat.
Proof.
  intros [q E] Hp. destruct (decide (n <= k)%nat) as [|Hn]; [done|]. exfalso. apply Hp.
  replace n with (S (n - k - 1) + k)%nat in E by lia. rewrite frees_app, app_assoc in E.
  apply app_inv_tail in E. rewrite E. apply ends_free_app; [done|]. unfold ends_free.
  rewrite <- Nat.add_1_r, frees_app. apply last_snoc.
Qed.

Lemma free_end_after n q m t : free_end n (q ++ Some m :: t) -> free_end n t.
Proof.
  revert n. induction t as [|g t IH] using rev_ind; intros n [p E].
  - destruct n as [|n]; [by exists []|]. exfalso. rewrite <- Nat.add_1_r, frees_app, app_assoc in E.
    apply app_inj_tail in E as [_ E]. done.
  - destruct n as [|n]; [by exists (t ++ [g]); rewrite app_nil_r|].
    rewrite <- Nat.add_1_r, frees_app, app_assoc, app_comm_cons, app_assoc in E.
    apply app_inj_tail in E as [E Eg]. subst g.
    destruct (IH n) as [p' Ep]; [by exists p|]. exists p'.
    rewrite <- Nat.add_1_r, frees_app, app_assoc. by rewrite <- Ep.
Qed.

Lemma free_end_app n q t : free_end n t -> free_end n (q ++ t).
Proof. intros [p ->]. exists (q ++ p). by rewrite app_assoc. Qed.

Lemma free_end_le n k q : (n <= k)%nat -> free_end n (q ++ frees k).
Proof. intros H. exists (q ++ frees (k - n)). rewrite <- app_assoc, <- frees_app. do 2 f_equal. lia. Qed.

Lemma room_weaken_n h n m : (m <= n)%nat -> room h n -> room h m.
Proof.
  intros Hm (Hl & Hc & gs & Hh & p & ->). split_and!; [done|done|]. eexists. split; [exact Hh|].
  apply free_end_le. lia.
Qed.

(** The addresses of the allocated blocks. *)
Fixpoint owners_from (o : Z) (gs : list segment) : list Z :=
  match gs with
  | [] => []
  | None :: t => owners_from (o + 1) t
  | Some n :: t => KERNEL_ALLOC_START + o * CHUNK_SIZE :: owners_from (o + n) t
  end.
Definition owners (gs : list segment) : list Z := owners_from 0 gs.

Lemma owners_app p t : forall o, owners_from o (p ++ t) = owners_from o p ++ owners_from (o + span p) t.
Proof.
  induction p as [|[n|] p IH]; intros o; cbn [app owners_from span seg_len].
  - by rewrite Z.add_0_r.
  - rewrite IH. by rewrite Z.add_assoc.
  - rewrite IH. by rewrite Z.add_assoc.
Qed.

Lemma owners_frees k : forall o, owners_from o (frees k) = [].
Proof. induction k as [|k IH]; intros o; [done|]. apply IH. Qed.

Lemma owners_range gs a : forall o, Forall seg_ok gs -> a ∈ owners_from o gs ->
  exists c, o <= c < o + span gs /\ a = KERNEL_ALLOC_START + c * CHUNK_SIZE.
Proof.
  induction gs as [|[n|] gs IH]; intros o Hok Ha; cbn [owners_from] in Ha; [by apply elem_of_nil in Ha| |];
    apply list.Forall_cons in Hok as [Hn Hok]; unfold seg_ok in Hn; cbn [span seg_len] in *; pose proof (span_nonneg _ Hok).
  - apply elem_of_cons in Ha as [->|Ha]; [exists o; lia|]. destruct (IH _ Hok Ha) as (c & Hc & ->). exists c. lia.
  - destruct (IH _ Hok Ha) as (c & Hc & ->). exists c. lia.
Qed.

(** What an allocated address is like. *)
Lemma owners_addr cs gs a : heap cs gs -> a ∈ owners gs -> KERNEL_ALLOC_START <= a < KERNEL_ALLOC_START + CHUNK_NUM * CHUNK_SIZE /\ a mod 64 = 0.
Proof.
  intros (_ & Hspan & Hok & _) Ha. destruct (owners_range _ _ _ Hok Ha) as (c & Hc & ->). rewrite Hspan in Hc.
  unfold KERNEL_ALLOC_START, CHUNK_NUM, CHUNK_SIZE in *. split; [lia|]. zdiv.
Qed.

Lemma owners_nodup gs : forall o, Forall seg_ok gs -> NoDup (owners_from o gs).
Proof.
  induction gs as [|[n|] gs IH]; intros o Hok; cbn [owners_from]; [apply NoDup_nil_2| |];
    apply list.Forall_cons in Hok as [Hn Hok]; unfold seg_ok in Hn; cbn [seg_len] in Hn; [|by apply IH].
  constructor; [|by apply IH]. intros Hx. apply owners_range in Hx as (c & Hc & E); [|done]. unfold CHUNK_SIZE in E. lia.
Qed.

Lemma heap_owners_nodup cs gs : heap cs gs -> NoDup (owners gs).
Proof. intros (_ & _ & Hok & _). by apply owners_nodup. Qed.

(** A heap with [n] chunks to give at its end, and its segments. *)
Definition roomy (h : hst) (gs : list segment) (n : nat) : Prop :=
  memlock h = SPINLOCK_INIT /\ cpu_room 1 (cpu (hkern h)) /\ heap (mem_chunk_list h) gs /\ free_end (S n) gs.

Lemma roomy_weaken h gs n m : roomy h gs n -> (m <= n)%nat -> roomy h gs m.
Proof.
  intros (A & B & C & p & ->) Hm. split; [done|]. split; [done|]. split; [done|]. apply free_end_le. lia.
Qed.

Lemma to_align_below al o : 0 < al < 2 ^ 31 -> 0 <= o -> to_align al o < al.
Proof.
  intros Ha Ho. unfold to_align, truth. rewrite (proj2 (Z.eqb_neq al 0)) by lia. cbn [negb].
  apply Z.mod_pos_bound. lia.
Qed.

(** [kzalloc_align] of a record of [r] chunks, with [al - 1] chunks to spare for
    the alignment, gives memory that no other block has. *)
Lemma kzalloc_align_roomy h gs n size alignment :
  1 <= size < 2 ^ 31 -> 0 <= alignment < 2 ^ 31 ->
  roomy h gs (n + Z.to_nat ((size - 1) / CHUNK_SIZE + 1) + Z.to_nat (alignment / CHUNK_SIZE - 1)) ->
  exists p h' gs', kzalloc_align size alignment h = Ret (p, h') /\ p <> 0 /\ roomy h' gs' n /\ hkern h' = hkern h
    /\ owners gs' ≡ₚ p :: owners gs /\ (p ∉ owners gs)
    /\ (0 < alignment / CHUNK_SIZE -> exists c, p = KERNEL_ALLOC_START + c * CHUNK_SIZE /\ c mod (alignment / CHUNK_SIZE) = 0).
Proof.
  intros Hs Hal (Hl & Hc & Hh & Hend). set (r := (size - 1) / CHUNK_SIZE + 1) in *. set (al := alignment / CHUNK_SIZE) in *.
  assert (Hr : 1 <= r) by (unfold r, CHUNK_SIZE; zdiv). assert (Hal0 : 0 <= al < 2 ^ 31) by (unfold al, CHUNK_SIZE; zdiv).
  pose proof Hh as (_ & Hspan & Hok & _).
  assert (Hto : forall q, Forall seg_ok q -> 0 <= to_align al (span q) <= Z.max 0 (al - 1)).
  { intros q Hq. destruct (Z.eq_dec al 0) as [->|Hne]; [done|].
    pose proof (to_align_range al (span q) ltac:(lia) (span_nonneg _ Hq)). pose proof (to_align_below al (span q) ltac:(lia) (span_nonneg _ Hq)). lia. }
  destruct (kzalloc_align_run h gs size alignment Hh Hl Hc Hs Hal) as [[_ H]|(p & k & t & Hm & Hk & _ & H)];
    fold r al in H.
  { exfalso. destruct (split_frees gs) as (p & k & -> & Hp). pose proof (free_end_max _ _ _ Hend Hp) as Hle.
    destruct k as [|k]; [lia|].
    assert (Hmax : maximal p k [] (p ++ frees (S k))) by (split_and!; [by rewrite app_nil_r|done|done]).
    specialize (H _ _ _ Hmax). apply list.Forall_app in Hok as [Hok _]. specialize (Hto p Hok). lia. }
  fold r al in Hk. destruct Hm as (Eg & Hp & Ht). set (a := to_align al (span p)) in *.
  assert (Ha : 0 <= a <= Z.max 0 (al - 1)) by (apply Hto; rewrite Eg in Hok; by apply list.Forall_app in Hok as [? _]).
  assert (Hfit : span p + a + r < CHUNK_NUM
    /\ free_end (S n) (p ++ frees (Z.to_nat a) ++ [Some r] ++ frees (Z.to_nat (Z.of_nat (S k) - a - r)) ++ t)).
  { rewrite Eg, !span_app, span_free in Hspan. rewrite Eg in Hok. apply list.Forall_app in Hok as [_ Hok].
    apply list.Forall_app in Hok as [_ Hok]. destruct t as [|[m|] t]; [| |done].
    - rewrite Eg, app_nil_r in Hend. pose proof (free_end_max _ _ _ Hend Hp). cbn [span] in Hspan. split; [lia|].
      rewrite app_nil_r, !app_assoc. apply free_end_le. lia.
    - pose proof (span_pos _ Hok ltac:(done)). split; [lia|].
      rewrite Eg, app_assoc in Hend. apply free_end_after in Hend. destruct Hend as [q ->].
      rewrite !app_assoc. apply free_end_app. apply (free_end_app _ [Some m]), free_end_le. lia. }
  destruct Hfit as [Hfit Hfree].
  destruct (H ltac:(lia)) as (cs' & m' & E & Hh' & _). eexists _, _, _. split; [exact E|].
  rewrite Eg in Hok. apply list.Forall_app in Hok as [Hok1 Hok2]. apply list.Forall_app in Hok2 as [_ Hok2].
  pose proof (span_nonneg _ Hok1) as Hp0.
  split; [unfold KERNEL_ALLOC_START, CHUNK_SIZE; lia|]. split; [split; [exact Hl|]; split; [exact Hc|]; split; [exact Hh'|exact Hfree]|].
  split; [reflexivity|]. subst gs. unfold owners. rewrite !owners_app, !owners_frees, ?span_app, ?span_free. cbn [app owners_from].
  rewrite !Z2Nat.id by lia. rewrite !Z.add_0_l. split.
  { rewrite <- Permutation_middle. cbn [span seg_len]. rewrite Z.add_0_r.
    by replace (span p + a + r + (Z.of_nat (S k) - a - r)) with (span p + Z.of_nat (S k)) by lia. }
  split.
  - intros Hx. apply elem_of_app in Hx as [Hx|Hx]; apply owners_range in Hx as (c & Hc' & E'); try done;
      unfold CHUNK_SIZE in E'; lia.
  - intros Hpos. eexists. split; [reflexivity|]. apply to_align_aligned; [lia|done].
Qed.

Lemma kzalloc_roomy h gs n size :
  1 <= size < 2 ^ 31 -> roomy h gs (n + Z.to_nat ((size - 1) / CHUNK_SIZE + 1)) ->
  exists p h' gs', kzalloc size h = Ret (p, h') /\ p <> 0 /\ roomy h' gs' n /\ hkern h' = hkern h
    /\ owners gs' ≡ₚ p :: owners gs /\ (p ∉ owners gs).
Proof.
  intros Hs Hr. destruct (kzalloc_align_roomy h gs n size 0 Hs) as (p & h' & gs' & E & A & B & C & D & F & _);
    [lia|by rewrite Nat.add_0_r|]. by exists p, h', gs'.
Qed.

Lemma kzalloc_room h n size :
  1 <= size < 2 ^ 31 -> room h (n + Z.to_nat ((size - 1) / CHUNK_SIZE + 1)) ->
  exists p h', kzalloc size h = Ret (p, h') /\ p <> 0 /\ room h' n /\ hkern h' = hkern h.
Proof.
  intros Hs (Hl & Hc & gs & Hh & Hend).
  destruct (kzalloc_roomy h gs n size Hs (conj Hl (conj Hc (conj Hh Hend)))) as (p & h' & gs' & E & Hp & (L' & C' & H' & F') & K & _).
  exists p, h'. split; [exact E|]. split; [exact Hp|]. split; [|exact K]. split; [exact L'|]. split; [exact C'|]. by exists gs'.
Qed.

(** What [kzalloc] took can be given back in any later heap with the same
    segments, which restores the segments from before. *)
Lemma kzalloc_releasable h gs size p h1 :
  heap (mem_chunk_list h) gs -> memlock h = SPINLOCK_INIT -> cpu_room 1 (cpu (hkern h)) -> 1 <= size < 2 ^ 31 ->
  kzalloc size h = Ret (p, h1) -> p <> 0 ->
  exists gs1, heap (mem_chunk_list h1) gs1 /\ memlock h1 = memlock h /\ hkern h1 = hkern h
    /\ forall s, heap (mem_chunk_list s) gs1 -> memlock s = SPINLOCK_INIT -> cpu_room 1 (cpu (hkern s)) ->
       exists cs, kfree p s = Ret (tt, set_chunks cs s) /\ heap cs gs.
Proof.
  intros Hh Hl Hc Hs E Hp. unfold kzalloc in E.
  destruct (kzalloc_align_run h gs size 0 Hh Hl Hc Hs ltac:(lia)) as [[E' _]|(q & k & t & Hm & Hk & H3 & H4)].
  { rewrite E' in E. by injection E as <- _. }
  change (to_align (0 / CHUNK_SIZE) (span q)) with 0 in *. set (r := (size - 1) / CHUNK_SIZE + 1) in *.
  assert (Hr : 1 <= r) by (unfold r, CHUNK_SIZE; zdiv).
  destruct (Z.eq_dec (span q + 0 + r) CHUNK_NUM) as [Hn|Hn]; [rewrite (H3 Hn) in E; done|].
  destruct (H4 Hn) as (cs' & m' & E' & HH & _). rewrite E' in E. injection E as <- <-.
  eexists. split; [exact HH|]. split; [done|]. split; [done|]. intros s Hh' Hl' Hc'.
  cbn [frees repeat app] in Hh'. rewrite Z.add_0_r.
  destruct (kfree_run s q r _ Hh' Hl' Hc') as (cs & E & HH'). exists cs. split; [exact E|].
  destruct Hm as (-> & _). rewrite (app_assoc (frees (Z.to_nat r))), <- frees_app in HH'.
  by replace (Z.to_nat r + Z.to_nat (Z.of_nat (S k) - 0 - r))%nat with (S k) in HH' by lia.
Qed.

(** Two records taken one after the other and given back in the opposite order. *)
Lemma kzalloc_pair_releasable h gs sz1 sz2 p q h1 h2 :
  heap (mem_chunk_list h) gs -> memlock h = SPINLOCK_INIT -> cpu_room 1 (cpu (hkern h)) ->
  1 <= sz1 < 2 ^ 31 -> 1 <= sz2 < 2 ^ 31 ->
  kzalloc sz1 h = Ret (p, h1) -> p <> 0 -> kzalloc sz2 h1 = Ret (q, h2) -> q <> 0 ->
  exists cs1 cs2, kfree q h2 = Ret (tt, set_chunks cs1 h2)
    /\ kfree p (set_chunks cs1 h2) = Ret (tt, set_chunks cs2 h2) /\ heap cs2 gs.
Proof.
  intros Hh Hl Hc Hs1 Hs2 E1 Hp E2 Hq.
  destruct (kzalloc_releasable _ _ _ _ _ Hh Hl Hc Hs1 E1 Hp) as (gs1 & Hh1 & L1 & K1 & R1).
  rewrite <- L1 in Hl. rewrite <- K1 in Hc.
  destruct (kzalloc_releasable _ _ _ _ _ Hh1 Hl Hc Hs2 E2 Hq) as (gs2 & Hh2 & L2 & K2 & R2).
  rewrite <- L2 in Hl. rewrite <- K2 in Hc.
  destruct (R2 h2 Hh2 Hl Hc) as (cs1 & F1 & G1). destruct (R1 (set_chunks cs1 h2) G1 Hl Hc) as (cs2 & F2 & G2).
  exists cs1, cs2. split_and!; [exact F1|exact F2|exact G2].
Qed.

(** A fresh heap has 1023 chunks to give. *)
Lemma fresh_room : room Alloc_instances.fresh 1023.
Proof.
  destruct Alloc_instances.fresh_heap as (Hh & Hl & Hc). split_and!; [done|done|].
  eexists. split; [exact Hh|]. by exists [].
Qed.
