(* ===== verification/Pci.v ===== *)
(** * The PCI bus

    Models [src/src/kernel/usb/pci.c], [pci.h] and [ehci_pci.c]: access to the configuration
    space, the scan of the bus, the search for drivers and the dispatch of
    interrupts.

    The host bridge is an interface, [HostBridge]: port I/O on its address and
    data registers that selects and reads configuration registers, as the PCI
    specification defines it (configuration mechanism 1).  A device driver is a
    number; what its [init] and [interrupt] functions do is a parameter, as they
    are called through pointers.  The two linked lists are the lists [Dlist]
    shows them to be.  Devices are only ever appended, so a pointer to a device
    is its position in the list; that the allocator returns new memory for each
    is shown in [Alloc]. *)

From S2P Require Import Prelude CString Sched Ring Schedule Sync Alloc HeapRoom.

(** ** Data *)

Definition PCI_IO_CONFIG_ADDRESS : Z := 0x0cf8.
Definition PCI_IO_CONFIG_DATA : Z := 0x0cfc.

Definition PCI_DEV_VENDOR : Z := 0x00.
Definition PCI_DEV_DEVICE : Z := 0x02.
Definition PCI_DEV_PROG_IF : Z := 0x09.
Definition PCI_DEV_SUBCLASS : Z := 0x0a.
Definition PCI_DEV_CLASS : Z := 0x0b.
Definition PCI_DEV_HEADER : Z := 0x0e.
Definition PCI_DEV_INT_LINE : Z := 0x3c.
Definition PCI_DEV_HEADER_MF_BIT : Z := 0x80.

Definition DEV_STATUS_OPERATING : Z := 0.
Definition DEV_STATUS_NO_DRIVER : Z := 1.
Definition DEV_STATUS_UNKNOWN : Z := 2.

Definition ERR_NO_MEM : Z := -1.
Definition ERR_NO_DRIVER : Z := -1000.

(** [pdd_id] names the [init] function, [pdd_interrupt] the [interrupt] function,
    [None] the null pointer. *)
Record pci_dev_driver : Type := mk_pdd {
  pdd_class_code : Z; pdd_subclass_code : Z; pdd_prog_ifc : Z; pdd_id : nat; pdd_interrupt : option nat
}.

(** The pointer [driver] belongs to the driver; [interrupt] is the number of
    the driver whose function it is, [None] the null pointer. *)
Record pci_dev : Type := mk_pci {
  pci_bus : Z; pci_slot : Z; pci_func : Z;
  pci_op_state : Z;
  pci_vendor : Z; pci_device : Z;
  pci_class_code : Z; pci_subclass_code : Z; pci_prog_ifc : Z; pci_header : Z; pci_interrupt_line : Z;
  pci_handler : option nat
}.

Definition set_pci_op_state v d := mk_pci (pci_bus d) (pci_slot d) (pci_func d) v (pci_vendor d) (pci_device d)
  (pci_class_code d) (pci_subclass_code d) (pci_prog_ifc d) (pci_header d) (pci_interrupt_line d) (pci_handler d).
Definition set_pci_handler v d := mk_pci (pci_bus d) (pci_slot d) (pci_func d) (pci_op_state d) (pci_vendor d) (pci_device d)
  (pci_class_code d) (pci_subclass_code d) (pci_prog_ifc d) (pci_header d) (pci_interrupt_line d) v.

(** Port I/O of three widths. *)
Class ConfigPorts (T : Type) : Type := {
  outl : Z -> Z -> T -> T; outw : Z -> Z -> T -> T; outb : Z -> Z -> T -> T;
  inl_ : Z -> T -> Z * T; inw : Z -> T -> Z * T; inb : Z -> T -> Z * T
}.

Record pcis {T : Type} : Type := mk_pcis {
  pheap : hst; pci_drv_list : list pci_dev_driver; pci_dev_list : list pci_dev; hw : T
}.
Arguments pcis T : clear implicits.
Arguments mk_pcis {T}.

Definition set_pheap {T} v (s : pcis T) : pcis T := mk_pcis v (pci_drv_list s) (pci_dev_list s) (hw s).
Definition set_pci_drv_list {T} v (s : pcis T) : pcis T := mk_pcis (pheap s) v (pci_dev_list s) (hw s).
Definition set_pci_dev_list {T} v (s : pcis T) : pcis T := mk_pcis (pheap s) (pci_drv_list s) v (hw s).
Definition set_hw {T} v (s : pcis T) : pcis T := mk_pcis (pheap s) (pci_drv_list s) (pci_dev_list s) v.

(** ** Operations *)

Section Operations.

Context {T : Type} `{ConfigPorts T}.
Context (drv_init : nat -> nat -> M (pcis T) Z) (drv_interrupt : nat -> nat -> M (pcis T) unit).

Definition port_out (f : T -> T) : M (pcis T) unit := modify (fun s => set_hw (f (hw s)) s).
Definition port_in (f : T -> Z * T) : M (pcis T) Z := fun s => let '(v, t) := f (hw s) in Ret (v, set_hw t s).
Definition pheap_op {A} (m : M hst A) : M (pcis T) A := zoom pheap set_pheap m.

Definition config_address (bus slot func offset : Z) : Z :=
  u32 (Z.lor (Z.lor (Z.lor (Z.lor (Z.shiftl 1 31) (Z.shiftl bus 16)) (Z.shiftl slot 11)) (Z.shiftl func 8))
    (Z.land offset 0xfc)).

Definition set_configuration_address (bus slot func offset : Z) : M (pcis T) unit :=
  port_out (outl PCI_IO_CONFIG_ADDRESS (config_address bus slot func offset)).

Definition pci_dev_exists (bus slot func : Z) : M (pcis T) bool :=
  set_configuration_address bus slot func PCI_DEV_VENDOR ;;;
  v <-- port_in (inw (PCI_IO_CONFIG_DATA + Z.land PCI_DEV_VENDOR 0x02)) ;;
  ret (negb (u16 v =? 0xffff)).

Definition pci_read_dev_reg32 (d : pci_dev) (offset : Z) : M (pcis T) Z :=
  set_configuration_address (pci_bus d) (pci_slot d) (pci_func d) offset ;;;
  v <-- port_in (inl_ (PCI_IO_CONFIG_DATA + Z.land offset 0x03)) ;; ret (u32 v).
Definition pci_read_dev_reg16 (d : pci_dev) (offset : Z) : M (pcis T) Z :=
  set_configuration_address (pci_bus d) (pci_slot d) (pci_func d) offset ;;;
  v <-- port_in (inw (PCI_IO_CONFIG_DATA + Z.land offset 0x03)) ;; ret (u16 v).
Definition pci_read_dev_reg8 (d : pci_dev) (offset : Z) : M (pcis T) Z :=
  set_configuration_address (pci_bus d) (pci_slot d) (pci_func d) offset ;;;
  v <-- port_in (inb (PCI_IO_CONFIG_DATA + Z.land offset 0x03)) ;; ret (u8 v).

Definition pci_write_dev_reg32 (d : pci_dev) (offset data : Z) : M (pcis T) unit :=
  set_configuration_address (pci_bus d) (pci_slot d) (pci_func d) offset ;;;
  port_out (outl (PCI_IO_CONFIG_DATA + Z.land offset 0x03) (u32 data)).
Definition pci_write_dev_reg16 (d : pci_dev) (offset data : Z) : M (pcis T) unit :=
  set_configuration_address (pci_bus d) (pci_slot d) (pci_func d) offset ;;;
  port_out (outw (PCI_IO_CONFIG_DATA + Z.land offset 0x03) (u16 data)).
Definition pci_write_dev_reg8 (d : pci_dev) (offset data : Z) : M (pcis T) unit :=
  set_configuration_address (pci_bus d) (pci_slot d) (pci_func d) offset ;;;
  port_out (outb (PCI_IO_CONFIG_DATA + Z.land offset 0x03) (u8 data)).

Definition pci_dev_driver_register (pdd : pci_dev_driver) : M (pcis T) Z :=
  pdl <-- pheap_op (kzalloc 12) ;;
  if pdl =? 0 then ret ERR_NO_MEM
  else modify (fun s => set_pci_drv_list (pci_drv_list s ++ [pdd]) s) ;;; ret 0.

(** Device [i] of the list, and an assignment to it. *)
Definition pci_get (i : nat) : M (pcis T) pci_dev :=
  fun s => match pci_dev_list s !! i with Some d => Ret (d, s) | None => Stuck end.
Definition pci_set (i : nat) (f : pci_dev -> pci_dev) : M (pcis T) unit :=
  modify (fun s => set_pci_dev_list (alter f i (pci_dev_list s)) s).

Definition matches (d : pci_dev) (pdd : pci_dev_driver) : bool :=
  (pci_class_code d =? pdd_class_code pdd) && (pci_subclass_code d =? pdd_subclass_code pdd)
  && (pci_prog_ifc d =? pdd_prog_ifc pdd).

Definition pci_lookup_driver (i : nat) : M (pcis T) Z :=
  d <-- pci_get i ;;
  l <-- gets pci_drv_list ;;
  match List.find (matches d) l with
  | Some pdd => pci_set i (set_pci_handler (pdd_interrupt pdd)) ;;; drv_init (pdd_id pdd) i
  | None => ret ERR_NO_DRIVER
  end.

(** The record before any field of it but the location is read. *)
Definition new_pci (bus slot func : Z) : pci_dev := mk_pci (u16 bus) (u16 slot) (u16 func) 0 0 0 0 0 0 0 0 None.

Definition read_header (d : pci_dev) : M (pcis T) pci_dev :=
  v <-- pci_read_dev_reg16 d PCI_DEV_VENDOR ;;
  e <-- pci_read_dev_reg16 d PCI_DEV_DEVICE ;;
  c <-- pci_read_dev_reg8 d PCI_DEV_CLASS ;;
  sc <-- pci_read_dev_reg8 d PCI_DEV_SUBCLASS ;;
  pi <-- pci_read_dev_reg8 d PCI_DEV_PROG_IF ;;
  h <-- pci_read_dev_reg8 d PCI_DEV_HEADER ;;
  il <-- pci_read_dev_reg8 d PCI_DEV_INT_LINE ;;
  ret (mk_pci (pci_bus d) (pci_slot d) (pci_func d) (pci_op_state d) v e c sc pi h il (pci_handler d)).

Definition pci_init_device (bus slot func : Z) : M (pcis T) Z :=
  p <-- pheap_op (kzalloc 40) ;;
  if p =? 0 then ret 0
  else
    d <-- read_header (new_pci bus slot func) ;;
    pheap_op (hop enter) ;;;
    i <-- gets (fun s => length (pci_dev_list s)) ;;
    modify (fun s => set_pci_dev_list (pci_dev_list s ++ [d]) s) ;;;
    pheap_op (hop leave) ;;;
    err <-- pci_lookup_driver i ;;
    pci_set i (set_pci_op_state
      (if err =? 0 then DEV_STATUS_OPERATING
       else if err =? ERR_NO_DRIVER then DEV_STATUS_NO_DRIVER
       else if err =? ERR_NO_MEM then DEV_STATUS_NO_DRIVER
       else DEV_STATUS_UNKNOWN)) ;;;
    d <-- pci_get i ;;
    ret (if negb (Z.land (pci_header d) PCI_DEV_HEADER_MF_BIT =? 0) then 1 else 0).

Definition probe_function (bus slot func : Z) : M (pcis T) unit :=
  x <-- pci_dev_exists bus slot func ;;
  when x (pci_init_device bus slot func ;;; ret tt).

Definition probe_slot (bus slot : Z) : M (pcis T) unit :=
  x <-- pci_dev_exists bus slot 0 ;;
  when x
    (mf <-- pci_init_device bus slot 0 ;;
     when (mf =? 1) (for_up 7 1 1 (probe_function bus slot))).

Definition pci_bus_probe : M (pcis T) unit :=
  for_up 1 0 1 (fun bus => for_up 32 0 1 (probe_slot bus)).

(** The drivers of the UHCI and of the EHCI controllers; the second has no
    interrupt function. *)
Definition uhci_pci_driver : pci_dev_driver := mk_pdd 0x0c 0x03 0x00 0 (Some 0%nat).
Definition ehci_pci_driver : pci_dev_driver := mk_pdd 0x0c 0x03 0x20 1 None.

Definition pci_static_init : M (pcis T) unit :=
  modify (set_pci_drv_list []) ;;; modify (set_pci_dev_list []) ;;;
  pci_dev_driver_register uhci_pci_driver ;;;
  pci_dev_driver_register ehci_pci_driver ;;;
  pci_bus_probe.

(** The loop over the devices [i], [i + 1], ...; the list does not shrink while
    handlers run. *)
Fixpoint interrupt_devices (n i : nat) (int_line : Z) : M (pcis T) unit :=
  match n with
  | O => ret tt
  | S n' =>
      d <-- pci_get i ;;
      when ((pci_op_state d =? DEV_STATUS_OPERATING) && (pci_interrupt_line d =? int_line))
        (match pci_handler d with Some id => drv_interrupt id i | None => stuck end) ;;;
      interrupt_devices n' (S i) int_line
  end.

Definition pci_interrupt (int_line : Z) : M (pcis T) unit :=
  n <-- gets (fun s => length (pci_dev_list s)) ;; interrupt_devices n 0 int_line.

(** *** The EHCI controller

    It is only reset, which gives its devices to the UHCI controllers.  Its
    registers are in memory; [mmio8], [mmio32] and [mmio32_write] access them. *)

Context (mmio8 mmio32 : Z -> T -> Z * T) (mmio32_write : Z -> Z -> T -> T).

Definition EHCI_PCIREG_BASE : Z := 0x10.
Definition EHCI_HCCREG_CAPLENGTH : Z := 0x00.
Definition EHCI_HCCREG_HCCPARAMS : Z := 0x08.
Definition EHCI_OPREG_USBCMD : Z := 0x00.

Definition eecp_of (hcc_params : Z) : Z := Z.shiftr (Z.land hcc_params 0x0000ff00) 16.

Fixpoint wait_ehci_reset (polls : nat) (usbcmd : Z) : M (pcis T) unit :=
  v <-- port_in (mmio32 usbcmd) ;;
  if truth (Z.land v 0x2) then
    match polls with
    | O => out_of_fuel
    | S polls' => wait_ehci_reset polls' usbcmd
    end
  else ret tt.

(** The register is read once more for a debug message. *)
Definition ehci_pci_init (polls i : nat) : M (pcis T) Z :=
  d <-- pci_get i ;;
  b <-- pci_read_dev_reg32 d EHCI_PCIREG_BASE ;;
  let hccreg_base := Z.land b 0xffffff00 in
  cap_length <-- port_in (mmio8 (hccreg_base + EHCI_HCCREG_CAPLENGTH)) ;;
  hcc_params <-- port_in (mmio32 (hccreg_base + EHCI_HCCREG_HCCPARAMS)) ;;
  let eecp := eecp_of hcc_params in
  let usbcmd := u32 (hccreg_base + u8 cap_length + EHCI_OPREG_USBCMD) in
  port_in (mmio32 usbcmd) ;;;
  port_out (mmio32_write usbcmd 0x2) ;;;
  wait_ehci_reset polls usbcmd ;;;
  ret 1.

End Operations.

(** ** Polling a register *)

(** What reading [f] gives the [k]-th time, from 0. *)
Fixpoint polled {T} (f : T -> Z * T) (k : nat) (t : T) : Z * T :=
  match k with
  | O => f t
  | S k' => polled f k' (snd (f t))
  end.

(** Bit 1, the reset bit, is clear at one of the readings 0, ..., [polls]. *)
Definition clears {T} (f : T -> Z * T) (polls : nat) (t : T) : Prop :=
  exists k, (k <= polls)%nat /\ Z.testbit (fst (polled f k t)) 1 = false.

(** A loop that polls ends when the bit is clear; [keep] is what reading keeps. *)
Lemma clears_step {T} (f : T -> Z * T) polls t :
  clears f polls t -> Z.testbit (fst (f t)) 1 = false \/ exists polls', polls = S polls' /\ clears f polls' (snd (f t)).
Proof.
  intros ([|k] & Hk & Hb); [by left|]. destruct polls as [|polls]; [lia|]. right. exists polls.
  split; [done|]. exists k. split; [lia|exact Hb].
Qed.

Lemma wait_ehci_reset_run {T} mmio32 usbcmd polls : forall s : pcis T,
  clears (mmio32 usbcmd) polls (hw s) ->
  forall keep : T -> Prop, keep (hw s) -> (forall t, keep t -> keep (snd (mmio32 usbcmd t))) ->
  exists t, wait_ehci_reset mmio32 polls usbcmd s = Ret (tt, set_hw t s) /\ keep t.
Proof.
  induction polls as [|polls IH]; intros s Hc keep H0 Hk; cbn [wait_ehci_reset]; unfold port_in, bind;
    specialize (Hk _ H0) as H1; apply clears_step in Hc; destruct (mmio32 usbcmd (hw s)) as [v t] eqn:E; cbn [fst snd] in *;
    change 0x2 with (Z.shiftl 1 1); rewrite truth_bit by lia.
  - destruct Hc as [->|(? & ? & _)]; [|done]. by exists t.
  - destruct (Z.testbit v 1); [|by exists t]. destruct Hc as [|(p & Ep & Hc)]; [done|]. injection Ep as <-.
    apply (IH (set_hw t s) Hc keep H1 Hk).
Qed.

(** The capability pointer is masked with bits 8 to 15 and shifted by 16: it is
    always 0. *)
Lemma eecp_zero v : 0 <= v -> eecp_of v = 0.
Proof.
  intros Hv. unfold eecp_of. change 0x0000ff00 with (Z.shiftl (Z.ones 8) 8). rewrite land_field by lia.
  rewrite Z.shiftr_div_pow2 by lia. change (2 ^ 8) with 256. change (2 ^ 16) with 65536. zdiv.
Qed.

(** ** The configuration space *)

(** The byte address of a function's registers, and what is read there. *)
Definition loc (bus slot func : Z) : Z := bus * 2 ^ 16 + slot * 2 ^ 11 + func * 2 ^ 8.
Definition word_of (c : Z -> Z) (a : Z) : Z := c a + c (a + 1) * 256.
Definition long_of (c : Z -> Z) (a : Z) : Z := of_le4 (c a) (c (a + 1)) (c (a + 2)) (c (a + 3)).

(** The register that an address selects: bit 31 enables it. *)
Definition selected (v : Z) : Z := v mod 2 ^ 24 / 4 * 4.

Class HostBridge (T : Type) `{ConfigPorts T} : Type := {
  space : T -> Z -> Z;
  address_reg : T -> Z;
  space_byte t a : 0 <= space t a < 256;
  out_address v t :
    0 <= v < 2 ^ 32 ->
    address_reg (outl PCI_IO_CONFIG_ADDRESS v t) = v /\ space (outl PCI_IO_CONFIG_ADDRESS v t) = space t;
  in_byte t o :
    2 ^ 31 <= address_reg t -> 0 <= o < 4 ->
    exists t', inb (PCI_IO_CONFIG_DATA + o) t = (space t (selected (address_reg t) + o), t') /\ space t' = space t;
  in_word t o :
    2 ^ 31 <= address_reg t -> o = 0 \/ o = 2 ->
    exists t', inw (PCI_IO_CONFIG_DATA + o) t = (word_of (space t) (selected (address_reg t) + o), t') /\ space t' = space t;
  in_long t :
    2 ^ 31 <= address_reg t ->
    exists t', inl_ PCI_IO_CONFIG_DATA t = (long_of (space t) (selected (address_reg t)), t') /\ space t' = space t
}.

Definition is_function (bus slot func : Z) : Prop := 0 <= bus < 256 /\ 0 <= slot < 32 /\ 0 <= func < 8.

Lemma config_address_sum bus slot func o :
  is_function bus slot func -> 0 <= o < 256 ->
  config_address bus slot func o = 2 ^ 31 + loc bus slot func + o / 4 * 4.
Proof.
  intros (Hb & Hs & Hf) Ho. unfold config_address, loc. rewrite !Z.shiftl_mul_pow2 by lia.
  assert (E : Z.land o 0xfc = o / 4 * 4).
  { change 0xfc with (Z.shiftl (Z.ones 6) 2). rewrite land_field by lia. change (2 ^ 2) with 4. change (2 ^ 6) with 64. zdiv. }
  rewrite E. change (2 ^ 31) with 2147483648. change (2 ^ 16) with 65536. change (2 ^ 11) with 2048. change (2 ^ 8) with 256.
  rewrite <- !Z.lor_assoc.
  rewrite (lor_comm_add (o / 4 * 4) (func * 256) 8); [|lia|change (2 ^ 8) with 256; zdiv|change (2 ^ 8) with 256; zdiv].
  rewrite (lor_comm_add _ (slot * 2048) 11); [|lia|change (2 ^ 11) with 2048; zdiv|change (2 ^ 11) with 2048; zdiv].
  rewrite (lor_comm_add _ (bus * 65536) 16); [|lia|change (2 ^ 16) with 65536; zdiv|change (2 ^ 16) with 65536; zdiv].
  rewrite (lor_comm_add _ (1 * 2147483648) 31); [|lia|change (2 ^ 31) with 2147483648; zdiv|done].
  rewrite u32_small by (change (2 ^ 32) with 4294967296; zdiv). lia.
Qed.

Lemma selected_register bus slot func o :
  is_function bus slot func -> 0 <= o < 256 ->
  selected (config_address bus slot func o) + Z.land o 3 = loc bus slot func + o
  /\ 2 ^ 31 <= config_address bus slot func o < 2 ^ 32.
Proof.
  intros Hf Ho. rewrite config_address_sum by done. destruct Hf as (Hb & Hs & Hf). unfold selected, loc.
  change 3 with (Z.ones 2) at 1. rewrite Z.land_ones by lia.
  change (2 ^ 31) with 2147483648. change (2 ^ 16) with 65536. change (2 ^ 11) with 2048.
  change (2 ^ 8) with 256. change (2 ^ 24) with 16777216. change (2 ^ 2) with 4. change (2 ^ 32) with 4294967296.
  split; [|zdiv].
  replace ((2147483648 + (bus * 65536 + slot * 2048 + func * 256) + o / 4 * 4) mod 16777216)
    with (bus * 65536 + slot * 2048 + func * 256 + o / 4 * 4) by zdiv.
  zdiv.
Qed.

Section Bridge.

Context {T : Type} `{HostBridge T}.

Definition of_dev (d : pci_dev) : Z := loc (pci_bus d) (pci_slot d) (pci_func d).
Definition located (d : pci_dev) : Prop := is_function (pci_bus d) (pci_slot d) (pci_func d).

Lemma port_in_ok {B} (f : T -> Z * T) v t' (s : pcis T) (k : Z -> M (pcis T) B) :
  f (hw s) = (v, t') -> bind (port_in f) k s = k v (set_hw t' s).
Proof. intros E. unfold bind, port_in. by rewrite E. Qed.

Lemma select_ok {B} bus slot func o (s : pcis T) (k : unit -> M (pcis T) B) :
  is_function bus slot func -> 0 <= o < 256 ->
  exists t, bind (set_configuration_address bus slot func o) k s = k tt (set_hw t s)
    /\ address_reg t = config_address bus slot func o /\ space t = space (hw s).
Proof.
  intros Hf Ho. destruct (selected_register _ _ _ _ Hf Ho) as [_ Hr].
  destruct (out_address (config_address bus slot func o) (hw s)) as [E1 E2]; [lia|].
  eexists. split; [reflexivity|]. done.
Qed.

Lemma land3 o : 0 <= o -> Z.land o 3 = o mod 4.
Proof. intros. change 3 with (Z.ones 2). by rewrite Z.land_ones. Qed.

Lemma read8_run d o (s : pcis T) :
  located d -> 0 <= o < 256 ->
  exists t, pci_read_dev_reg8 d o s = Ret (space (hw s) (of_dev d + o), set_hw t s) /\ space t = space (hw s).
Proof.
  intros Hd Ho. unfold pci_read_dev_reg8.
  match goal with |- context [bind _ ?k s] => destruct (select_ok _ _ _ o s k Hd Ho) as (t & -> & A & Sp) end.
  destruct (selected_register _ _ _ _ Hd Ho) as [E Hr].
  destruct (in_byte t (Z.land o 3)) as (t' & Ei & Sp'); [lia|rewrite land3 by lia; zdiv|].
  rewrite A, E, Sp in Ei. erewrite port_in_ok by exact Ei. exists t'.
  unfold u8, ret. rewrite Z.mod_small by apply space_byte. split; [by destruct s|congruence].
Qed.

Lemma config_word_range c a : (forall a : Z, 0 <= c a < 256) -> 0 <= word_of c a < 2 ^ 16.
Proof. intros Hc. unfold word_of. pose proof (Hc a). pose proof (Hc (a + 1)). lia. Qed.

Lemma read16_run d o (s : pcis T) :
  located d -> 0 <= o < 256 -> o mod 2 = 0 ->
  exists t, pci_read_dev_reg16 d o s = Ret (word_of (space (hw s)) (of_dev d + o), set_hw t s) /\ space t = space (hw s).
Proof.
  intros Hd Ho Hev. unfold pci_read_dev_reg16.
  match goal with |- context [bind _ ?k s] => destruct (select_ok _ _ _ o s k Hd Ho) as (t & -> & A & Sp) end.
  destruct (selected_register _ _ _ _ Hd Ho) as [E Hr].
  destruct (in_word t (Z.land o 3)) as (t' & Ei & Sp'); [lia|rewrite land3 by lia; zdiv|].
  rewrite A, E, Sp in Ei. erewrite port_in_ok by exact Ei. exists t'.
  unfold u16, ret. rewrite Z.mod_small by (apply config_word_range, space_byte). split; [by destruct s|congruence].
Qed.

Lemma long_range c a : (forall a : Z, 0 <= c a < 256) -> 0 <= long_of c a < 2 ^ 32.
Proof.
  intros Hc. unfold long_of, of_le4. pose proof (Hc a). pose proof (Hc (a + 1)). pose proof (Hc (a + 2)).
  pose proof (Hc (a + 3)). lia.
Qed.

Lemma read32_run d o (s : pcis T) :
  located d -> 0 <= o < 256 -> o mod 4 = 0 ->
  exists t, pci_read_dev_reg32 d o s = Ret (long_of (space (hw s)) (of_dev d + o), set_hw t s) /\ space t = space (hw s).
Proof.
  intros Hd Ho Hev. unfold pci_read_dev_reg32.
  match goal with |- context [bind _ ?k s] => destruct (select_ok _ _ _ o s k Hd Ho) as (t & -> & A & Sp) end.
  destruct (selected_register _ _ _ _ Hd Ho) as [E Hr]. rewrite land3 in * by lia. rewrite Hev in *. rewrite Z.add_0_r in E.
  destruct (in_long t) as (t' & Ei & Sp'); [lia|].
  rewrite A, E, Sp in Ei. erewrite port_in_ok by (rewrite Z.add_0_r; exact Ei). exists t'.
  unfold u32, ret. rewrite Z.mod_small by (apply long_range, space_byte). split; [by destruct s|congruence].
Qed.

Definition present (c : Z -> Z) (bus slot func : Z) : bool := negb (word_of c (loc bus slot func) =? 0xffff).

Lemma exists_run bus slot func (s : pcis T) :
  is_function bus slot func ->
  exists t, pci_dev_exists bus slot func s = Ret (present (space (hw s)) bus slot func, set_hw t s) /\ space t = space (hw s).
Proof.
  intros Hf. unfold pci_dev_exists, PCI_DEV_VENDOR.
  match goal with |- context [bind _ ?k s] => destruct (select_ok _ _ _ 0 s k Hf ltac:(lia)) as (t & -> & A & Sp) end.
  destruct (selected_register _ _ _ 0 Hf ltac:(lia)) as [E Hr].
  destruct (in_word t 0) as (t' & Ei & Sp'); [lia|by left|].
  rewrite A, Sp in Ei. change (Z.land 0 3) with 0 in E. rewrite E, Z.add_0_r in Ei.
  change (Z.land 0 2) with 0. erewrite port_in_ok by exact Ei. exists t'.
  unfold u16, ret. rewrite Z.mod_small by (apply config_word_range, space_byte). rewrite Z.add_0_r. split; [by destruct s|congruence].
Qed.

(** What the configuration space says about a function. *)
Definition header_at (c : Z -> Z) (bus slot func : Z) : pci_dev :=
  let a := loc bus slot func in
  mk_pci bus slot func 0 (word_of c (a + PCI_DEV_VENDOR)) (word_of c (a + PCI_DEV_DEVICE))
    (c (a + PCI_DEV_CLASS)) (c (a + PCI_DEV_SUBCLASS)) (c (a + PCI_DEV_PROG_IF)) (c (a + PCI_DEV_HEADER))
    (c (a + PCI_DEV_INT_LINE)) None.

Lemma read_header_run bus slot func (s : pcis T) :
  is_function bus slot func ->
  exists t, read_header (new_pci bus slot func) s = Ret (header_at (space (hw s)) bus slot func, set_hw t s)
    /\ space t = space (hw s).
Proof.
  intros Hf. assert (Hn : new_pci bus slot func = mk_pci bus slot func 0 0 0 0 0 0 0 0 None).
  { destruct Hf as (? & ? & ?). unfold new_pci, u16. by rewrite !Z.mod_small by lia. }
  rewrite Hn. set (d := mk_pci _ _ _ _ _ _ _ _ _ _ _ _). assert (Hd : located d) by done.
  unfold read_header.
  destruct (read16_run d PCI_DEV_VENDOR s Hd ltac:(done) ltac:(done)) as (t1 & E1 & S1). rewrite (bind_step _ _ _ _ _ E1).
  destruct (read16_run d PCI_DEV_DEVICE (set_hw t1 s) Hd ltac:(done) ltac:(done)) as (t2 & E2 & S2). rewrite (bind_step _ _ _ _ _ E2).
  destruct (read8_run d PCI_DEV_CLASS (set_hw t2 (set_hw t1 s)) Hd ltac:(done)) as (t3 & E3 & S3). rewrite (bind_step _ _ _ _ _ E3).
  match type of E3 with _ = Ret (_, ?x) => destruct (read8_run d PCI_DEV_SUBCLASS x Hd ltac:(done)) as (t4 & E4 & S4) end.
  rewrite (bind_step _ _ _ _ _ E4).
  match type of E4 with _ = Ret (_, ?x) => destruct (read8_run d PCI_DEV_PROG_IF x Hd ltac:(done)) as (t5 & E5 & S5) end.
  rewrite (bind_step _ _ _ _ _ E5).
  match type of E5 with _ = Ret (_, ?x) => destruct (read8_run d PCI_DEV_HEADER x Hd ltac:(done)) as (t6 & E6 & S6) end.
  rewrite (bind_step _ _ _ _ _ E6).
  match type of E6 with _ = Ret (_, ?x) => destruct (read8_run d PCI_DEV_INT_LINE x Hd ltac:(done)) as (t7 & E7 & S7) end.
  rewrite (bind_step _ _ _ _ _ E7). cbn [hw set_hw] in *. exists t7.
  rewrite S7, S6, S5, S4, S3, S2, S1 in *. split; [by destruct s|done].
Qed.

End Bridge.

(** ** The scan of the bus *)

(** A device without what its driver decides. *)
Definition stripped (d : pci_dev) : pci_dev := set_pci_op_state 0 (set_pci_handler None d).

(** The functions of a slot: the first, and when its header says so the others
    that exist. *)
Definition scanned (c : Z -> Z) (bus slot : Z) : list pci_dev :=
  if present c bus slot 0 then
    header_at c bus slot 0 ::
      (if Z.testbit (pci_header (header_at c bus slot 0)) 7
       then header_at c bus slot <$> filter (fun f => present c bus slot f = true) (seqZ 1 7) else [])
  else [].

(** Two configuration spaces with the same headers: the first 64 bytes of each
    function. *)
Definition agree (c c' : Z -> Z) : Prop :=
  forall bus slot func o, is_function bus slot func -> 0 <= o < 64 -> c' (loc bus slot func + o) = c (loc bus slot func + o).

#[global] Instance agree_refl : Reflexive agree.
Proof. done. Qed.

Lemma agree_trans c1 c2 c3 : agree c1 c2 -> agree c2 c3 -> agree c1 c3.
Proof. intros A B bus slot func o Hf Ho. by rewrite B, A. Qed.

Lemma word_agree c c' bus slot func o :
  agree c c' -> is_function bus slot func -> 0 <= o < 63 -> word_of c' (loc bus slot func + o) = word_of c (loc bus slot func + o).
Proof.
  intros A Hf Ho. unfold word_of. rewrite (A _ _ _ o) by (done || lia).
  rewrite <- Z.add_assoc. by rewrite (A _ _ _ (o + 1)) by (done || lia).
Qed.

Lemma long_agree c c' bus slot func o :
  agree c c' -> is_function bus slot func -> 0 <= o < 61 -> long_of c' (loc bus slot func + o) = long_of c (loc bus slot func + o).
Proof.
  intros A Hf Ho. unfold long_of. rewrite <- !Z.add_assoc. by rewrite !(A bus slot func) by (done || lia).
Qed.

Lemma header_agree c c' bus slot func :
  agree c c' -> is_function bus slot func -> header_at c' bus slot func = header_at c bus slot func.
Proof. intros A Hf. unfold header_at. f_equal; first [by apply word_agree|by apply A]. Qed.

Lemma present_agree c c' bus slot func :
  agree c c' -> is_function bus slot func -> present c' bus slot func = present c bus slot func.
Proof.
  intros A Hf. unfold present. pose proof (word_agree _ _ _ _ _ 0 A Hf ltac:(lia)) as E. rewrite !Z.add_0_r in E. by rewrite E.
Qed.

Section Probe.

Context {T : Type} `{HostBridge T}.
Context (drv_init : nat -> nat -> M (pcis T) Z) (drvs : list pci_dev_driver) (cost : pci_dev -> nat).

(** What a driver leaves alone: the lists, the headers of all functions, the
    threads. *)
Definition same_bus (s s' : pcis T) : Prop :=
  pci_drv_list s' = pci_drv_list s /\ agree (space (hw s)) (space (hw s'))
  /\ stripped <$> pci_dev_list s' = stripped <$> pci_dev_list s /\ hkern (pheap s') = hkern (pheap s).

(** The driver [pdd] of device [d]; its initialisation takes at most [cost d] chunks
    of the heap. *)
Definition driver_ok : Prop :=
  forall pdd i d s n, pdd ∈ drvs -> matches d pdd = true -> pci_dev_list s !! i = Some d -> located d ->
    stripped d = header_at (space (hw s)) (pci_bus d) (pci_slot d) (pci_func d) -> room (pheap s) (n + cost (stripped d)) ->
    exists rc s', drv_init (pdd_id pdd) i s = Ret (rc, s') /\ room (pheap s') n /\ same_bus s s'.

Lemma same_bus_trans s1 s2 s3 : same_bus s1 s2 -> same_bus s2 s3 -> same_bus s1 s3.
Proof.
  intros (A & B & C & D) (A' & B' & C' & D'). split_and!; [congruence| |congruence|congruence].
  by eapply agree_trans.
Qed.

Lemma set_keeps f i s : (forall d, stripped (f d) = stripped d) -> same_bus s (set_pci_dev_list (alter f i (pci_dev_list s)) s).
Proof.
  intros Hf. split_and!; [done|done| |done]. cbn [pci_dev_list set_pci_dev_list].
  apply list_eq. intros j. rewrite !list_lookup_fmap. destruct (decide (i = j)) as [->|Hij].
  - rewrite list_lookup_alter_eq. destruct (pci_dev_list s !! j) as [d|]; [|done]. exact (f_equal Some (Hf d)).
  - by rewrite list_lookup_alter_ne.
Qed.

Lemma lookup_driver_run s i d n (Hdrv : driver_ok) :
  pci_drv_list s = drvs -> room (pheap s) (n + cost (stripped d)) -> pci_dev_list s !! i = Some d -> located d ->
  stripped d = header_at (space (hw s)) (pci_bus d) (pci_slot d) (pci_func d) ->
  exists rc s', pci_lookup_driver drv_init i s = Ret (rc, s') /\ room (pheap s') n /\ same_bus s s'.
Proof.
  intros Hl Hr Hd Hloc Hh. unfold pci_lookup_driver. unfold bind at 1, pci_get at 1. rewrite Hd. rewrite bind_gets, Hl.
  destruct (List.find (matches d) drvs) as [pdd|] eqn:Ef;
    [|exists ERR_NO_DRIVER, s; split; [done|split; [eapply room_weaken_n, Hr; lia|done]]].
  apply List.find_some in Ef as [Hin Hm]. unfold pci_set. rewrite bind_modify.
  set (s1 := set_pci_dev_list _ s).
  destruct (Hdrv pdd i (set_pci_handler (pdd_interrupt pdd) d) s1 n) as (rc & s' & E & Hr' & K);
    [by apply list_elem_of_In|exact Hm| |exact Hloc|exact Hh|exact Hr|].
  { cbn [pci_dev_list set_pci_dev_list s1]. by rewrite list_lookup_alter_eq, Hd. }
  exists rc, s'. split; [done|]. split; [done|]. eapply (same_bus_trans s s1 s'); [by apply set_keeps|done].
Qed.

Lemma stripped_at (s s' : pcis T) i d :
  stripped <$> pci_dev_list s' = stripped <$> pci_dev_list s -> pci_dev_list s !! i = Some d ->
  exists d', pci_dev_list s' !! i = Some d' /\ stripped d' = stripped d.
Proof.
  intros E Hd. apply (f_equal (fun l => l !! i)) in E. rewrite !list_lookup_fmap, Hd in E.
  destruct (pci_dev_list s' !! i) as [d'|]; [|done]. exists d'. split; [done|]. exact (inj Some _ _ E).
Qed.

Lemma init_device_run s bus slot func n (Hdrv : driver_ok) :
  pci_drv_list s = drvs -> is_function bus slot func ->
  room (pheap s) (S (n + cost (header_at (space (hw s)) bus slot func))) ->
  exists s', pci_init_device drv_init bus slot func s
      = Ret (if Z.testbit (pci_header (header_at (space (hw s)) bus slot func)) 7 then 1 else 0, s')
    /\ room (pheap s') n /\ pci_drv_list s' = drvs /\ agree (space (hw s)) (space (hw s')) /\ hkern (pheap s') = hkern (pheap s)
    /\ stripped <$> pci_dev_list s' = (stripped <$> pci_dev_list s) ++ [header_at (space (hw s)) bus slot func].
Proof.
  intros Hl Hf Hr. set (c := space (hw s)) in *. set (d := header_at c bus slot func) in *.
  destruct (kzalloc_room (pheap s) (n + cost d) 40 ltac:(lia) ltac:(by rewrite Nat.add_1_r)) as (p & h & E & Hp & Hr' & Hk).
  unfold pci_init_device. unfold pheap_op at 1, bind at 1, zoom at 1. rewrite E.
  rewrite (proj2 (Z.eqb_neq p 0) Hp).
  destruct (read_header_run bus slot func (set_pheap h s) Hf) as (t & E2 & Sp). rewrite (bind_step _ _ _ _ _ E2).
  cbn [hw set_pheap] in *. fold c in Sp. fold c. fold d.
  assert (Hroom1 : cpu_room 1 (cpu (hkern h))) by apply Hr'.
  set (s2 := set_pci_dev_list (pci_dev_list s ++ [d]) (set_hw t (set_pheap h s))).
  match goal with |- context [bind (pheap_op (hop enter)) ?k ?s0] =>
    assert (E3 : bind (pheap_op (hop enter)) k s0
      = bind (pci_lookup_driver drv_init (length (pci_dev_list s))) (fun err => pci_set (length (pci_dev_list s)) (set_pci_op_state
         (if err =? 0 then DEV_STATUS_OPERATING else if err =? ERR_NO_DRIVER then DEV_STATUS_NO_DRIVER
          else if err =? ERR_NO_MEM then DEV_STATUS_NO_DRIVER else DEV_STATUS_UNKNOWN)) ;;;
         d <-- pci_get (length (pci_dev_list s)) ;;
         ret (if negb (Z.land (pci_header d) PCI_DEV_HEADER_MF_BIT =? 0) then 1 else 0)) s2) end.
  { unfold bind, pheap_op, zoom, hop, enter, leave, modify, gets, zoom, s2, set_pheap, set_pci_dev_list, set_hw. cbn.
    unfold set_hkern. cbn. unfold set_cpu. cbn. rewrite (leave_enter 1) by done. by destruct h as [[]]. }
  rewrite E3. clear E3.
  assert (Hd : pci_dev_list s2 !! length (pci_dev_list s) = Some d) by (by apply list_lookup_middle).
  destruct (lookup_driver_run s2 _ d n Hdrv Hl Hr' Hd Hf) as (rc & s3 & E4 & Hr3 & K3).
  { cbn [hw s2 set_hw set_pci_dev_list]. by rewrite Sp. }
  rewrite (bind_step _ _ _ _ _ E4). unfold pci_set. rewrite bind_modify.
  match goal with |- context [alter ?f _ (pci_dev_list s3)] => pose proof (set_keeps f (length (pci_dev_list s)) s3 ltac:(done)) as K4 end.
  set (s4 := set_pci_dev_list _ s3) in *. pose proof (same_bus_trans _ _ _ K3 K4) as (K5 & K6 & K7 & K8).
  destruct (stripped_at _ _ _ _ K7 Hd) as (d' & Hd' & Ed).
  assert (pci_header d' = pci_header d) as Eh by (by apply (f_equal pci_header) in Ed).
  exists s4. unfold bind, pci_get. rewrite Hd', Eh. split_and!; [|done|by rewrite K5| |by rewrite K8|].
  - unfold ret. do 3 f_equal. change (negb ?x) with (truth (Z.land (pci_header d) (Z.shiftl 1 7))).
    by rewrite truth_bit.
  - cbn [hw s2 set_hw set_pci_dev_list] in K6. rewrite Sp in K6. exact K6.
  - rewrite K7. unfold s2. cbn [pci_dev_list set_pci_dev_list]. by rewrite fmap_app.
Qed.

(** The chunks that a list of functions takes: a record each, and what the driver
    takes. *)
Definition weight (l : list pci_dev) : nat := sum_list_with (fun d => S (cost d)) l.

Lemma weight_app l l' : weight (l ++ l') = (weight l + weight l')%nat.
Proof. apply sum_list_with_app. Qed.

(** State of a scan: [devs] have been found behind those of [s0], and there are
    chunks for [k] in all. *)
Definition found (s0 : pcis T) (k : nat) (devs : list pci_dev) (s : pcis T) : Prop :=
  room (pheap s) (k - weight devs) /\ pci_drv_list s = drvs /\ agree (space (hw s0)) (space (hw s))
  /\ hkern (pheap s) = hkern (pheap s0) /\ stripped <$> pci_dev_list s = (stripped <$> pci_dev_list s0) ++ devs.

Lemma exists_found s0 k devs s bus slot func :
  found s0 k devs s -> is_function bus slot func ->
  exists s1, pci_dev_exists bus slot func s = Ret (present (space (hw s0)) bus slot func, s1) /\ found s0 k devs s1.
Proof.
  intros (Hr & Hl & Hsp & Hk & Hd) Hf. destruct (exists_run bus slot func s Hf) as (t & E & Sp).
  exists (set_hw t s). rewrite E, (present_agree _ _ _ _ _ Hsp Hf). split; [done|]. split; [exact Hr|]. split; [done|].
  split; [cbn [hw set_hw]; by rewrite Sp|]. by split.
Qed.

Lemma init_found s0 k devs s bus slot func (Hdrv : driver_ok) :
  found s0 k devs s -> (weight (devs ++ [header_at (space (hw s0)) bus slot func]) <= k)%nat -> is_function bus slot func ->
  exists s1, pci_init_device drv_init bus slot func s
      = Ret (if Z.testbit (pci_header (header_at (space (hw s0)) bus slot func)) 7 then 1 else 0, s1)
    /\ found s0 k (devs ++ [header_at (space (hw s0)) bus slot func]) s1.
Proof.
  intros (Hr & Hl & Hsp & Hk & Hd) Hw Hf. pose proof (header_agree _ _ _ _ _ Hsp Hf) as Eh.
  set (d := header_at (space (hw s0)) bus slot func) in *. rewrite weight_app in Hw. cbn [weight sum_list_with foldr] in Hw.
  destruct (init_device_run s bus slot func (k - weight (devs ++ [d])) Hdrv Hl Hf) as (s1 & E & A & B & C & D & F); rewrite ?Eh in *.
  { eapply room_weaken_n, Hr. rewrite weight_app. cbn [weight sum_list_with foldr]. lia. }
  exists s1. split; [done|]. split; [exact A|]. split; [done|]. split; [by eapply agree_trans|]. split; [congruence|].
  rewrite F, Hd. by rewrite app_assoc.
Qed.

Lemma seqZ_snoc m n : 0 <= n -> seqZ m (Z.succ n) = seqZ m n ++ [m + n].
Proof. intros. unfold Z.succ. rewrite seqZ_app by lia. done. Qed.

(** The functions [1], ..., [j - 1] of a slot that exist. *)
Definition functions (c : Z -> Z) (bus slot j : Z) : list pci_dev :=
  header_at c bus slot <$> filter (fun f => present c bus slot f = true) (seqZ 1 (j - 1)).

Lemma functions_succ c bus slot j : 1 <= j ->
  functions c bus slot (j + 1) = functions c bus slot j ++ (if present c bus slot j then [header_at c bus slot j] else []).
Proof.
  intros Hj. unfold functions. replace (j + 1 - 1) with (Z.succ (j - 1)) by lia. rewrite seqZ_snoc by lia.
  rewrite list.filter_app, fmap_app, filter_cons, filter_nil. replace (1 + (j - 1)) with j by lia.
  by destruct (present c bus slot j).
Qed.

Lemma functions_mono c bus slot j n : 1 <= j -> (weight (functions c bus slot j) <= weight (functions c bus slot (j + Z.of_nat n)))%nat.
Proof.
  intros Hj. induction n as [|n IH]; [by rewrite Z.add_0_r|]. rewrite Nat2Z.inj_succ.
  replace (j + Z.succ (Z.of_nat n)) with (j + Z.of_nat n + 1) by lia. rewrite functions_succ, weight_app by lia. lia.
Qed.

Lemma functions_run s0 k devs s bus slot (Hdrv : driver_ok) :
  0 <= bus < 256 -> 0 <= slot < 32 -> found s0 k devs s ->
  (weight (devs ++ functions (space (hw s0)) bus slot 8) <= k)%nat ->
  exists s1, for_up 7 1 1 (probe_function drv_init bus slot) s = Ret (tt, s1)
    /\ found s0 k (devs ++ functions (space (hw s0)) bus slot 8) s1.
Proof.
  intros Hb Hs HF Hk. set (c := space (hw s0)) in *.
  destruct (for_up_rule (fun j s => found s0 k (devs ++ functions c bus slot j) s)
    (probe_function drv_init bus slot) 1 7 1 s) as (s1 & E & HI).
  - change (functions c bus slot 1) with (@nil pci_dev). by rewrite app_nil_r.
  - intros i s1 Hi HI. replace (1 + i * 1) with (1 + i) in * by lia. replace (1 + (i + 1) * 1) with (1 + i + 1) by lia.
    assert (Hf : is_function bus slot (1 + i)) by (split_and!; lia).
    unfold probe_function. destruct (exists_found _ _ _ _ _ _ _ HI Hf) as (s2 & E2 & HI2).
    rewrite (bind_step _ _ _ _ _ E2). fold c.
    pose proof (functions_mono c bus slot (1 + i + 1) (Z.to_nat (6 - i)) ltac:(lia)) as Hmono.
    replace (1 + i + 1 + Z.of_nat (Z.to_nat (6 - i))) with 8 in Hmono by lia.
    rewrite functions_succ in * by lia. destruct (present c bus slot (1 + i)); cbn [when].
    + destruct (init_found s0 k _ s2 bus slot (1 + i) Hdrv HI2) as (s3 & E3 & HI3); [|done|].
      { rewrite !weight_app in *. fold c. lia. }
      exists s3. rewrite (bind_step _ _ _ _ _ E3). split; [done|]. by rewrite app_assoc.
    + exists s2. split; [done|]. by rewrite app_nil_r.
  - exists s1. split; [done|]. exact HI.
Qed.

Lemma slot_run s0 k devs s slot (Hdrv : driver_ok) :
  0 <= slot < 32 -> found s0 k devs s -> (weight (devs ++ scanned (space (hw s0)) 0 slot) <= k)%nat ->
  exists s1, probe_slot drv_init 0 slot s = Ret (tt, s1) /\ found s0 k (devs ++ scanned (space (hw s0)) 0 slot) s1.
Proof.
  intros Hs HF Hk. assert (Hf : is_function 0 slot 0) by (split_and!; lia).
  unfold probe_slot, scanned in *. destruct (exists_found _ _ _ _ _ _ _ HF Hf) as (s1 & E1 & HF1).
  rewrite (bind_step _ _ _ _ _ E1). destruct (present (space (hw s0)) 0 slot 0); cbn [when].
  2: { exists s1. by rewrite app_nil_r. }
  destruct (init_found s0 k devs s1 0 slot 0 Hdrv HF1) as (s2 & E2 & HF2); [rewrite !weight_app in *; cbn [weight sum_list_with foldr] in *; lia|done|].
  rewrite (bind_step _ _ _ _ _ E2). destruct (Z.testbit _ 7); cbn [Z.eqb Pos.eqb when].
  - destruct (functions_run s0 k _ s2 0 slot Hdrv ltac:(lia) Hs HF2) as (s3 & E3 & HF3); [by rewrite <- app_assoc|].
    exists s3. split; [done|]. by rewrite <- app_assoc in HF3.
  - by exists s2.
Qed.

(** The registers of a PCI function: [pci_read_dev_reg8], [16] and [32] return
    exactly the bytes that the function has at the offset in its configuration
    space, and change nothing in it. *)
Theorem pci_reads_registers (s : pcis T) d o :
  located d -> 0 <= o < 256 ->
  (exists t, pci_read_dev_reg8 d o s = Ret (space (hw s) (of_dev d + o), set_hw t s) /\ space t = space (hw s))
  /\ (o mod 2 = 0 -> exists t, pci_read_dev_reg16 d o s = Ret (word_of (space (hw s)) (of_dev d + o), set_hw t s)
        /\ space t = space (hw s))
  /\ (o mod 4 = 0 -> exists t, pci_read_dev_reg32 d o s = Ret (long_of (space (hw s)) (of_dev d + o), set_hw t s)
        /\ space t = space (hw s)).
Proof. intros Hd Ho. split_and!; [by apply read8_run|by apply read16_run|by apply read32_run]. Qed.

(** The scan of the bus, on a heap with room for a record for each function
    that there is and for what its driver takes: it completes, and appends to the
    list of devices exactly the functions that the configuration space has on bus
    0, in the order of slots and functions, with the identification that it gives;
    the functions beyond the first are looked for only in slots whose first
    function says that there are more. *)
Theorem pci_bus_probe_finds (s : pcis T) :
  let devs := concat (scanned (space (hw s)) 0 <$> seqZ 0 32) in
  driver_ok -> pci_drv_list s = drvs -> room (pheap s) (weight devs) ->
  exists s', pci_bus_probe drv_init s = Ret (tt, s')
    /\ stripped <$> pci_dev_list s' = (stripped <$> pci_dev_list s) ++ devs
    /\ agree (space (hw s)) (space (hw s')) /\ hkern (pheap s') = hkern (pheap s) /\ pci_drv_list s' = drvs.
Proof.
  intros devs Hdrv Hl Hr. set (c := space (hw s)).
  destruct (for_up_rule (fun j s1 => found s (weight devs) (concat (scanned c 0 <$> seqZ 0 j)) s1)
    (probe_slot drv_init 0) 1 32 0 s) as (s1 & E & HI).
  - change (seqZ 0 0) with (@nil Z). cbn [fmap list_fmap concat]. split; [by rewrite Nat.sub_0_r|]. split; [done|]. split; [done|].
    split; [done|]. by rewrite app_nil_r.
  - intros i s1 Hi HI. replace (0 + i * 1) with i in * by lia. replace (0 + (i + 1) * 1) with (Z.succ i) by lia.
    assert (Hle : (weight (concat (scanned c 0 <$> seqZ 0 i) ++ scanned c 0 i) <= weight devs)%nat).
    { unfold devs. fold c. replace 32 with (Z.succ i + (31 - i)) by lia. rewrite seqZ_app by lia.
      rewrite (seqZ_snoc 0 i), !fmap_app, !concat_app, !weight_app by lia. cbn [fmap list_fmap concat]. rewrite app_nil_r, Z.add_0_l. lia. }
    destruct (slot_run s _ _ s1 i Hdrv ltac:(lia) HI Hle) as (s2 & E2 & HI2).
    exists s2. split; [done|]. rewrite seqZ_snoc by lia. rewrite fmap_app, concat_app. cbn [fmap list_fmap concat].
    rewrite app_nil_r, Z.add_0_l. exact HI2.
  - unfold pci_bus_probe. cbn [for_up]. exists s1. rewrite (bind_step _ _ _ _ _ E). destruct HI as (_ & Hl1 & Hsp & Hk & Hd).
    split; [done|]. split; [exact Hd|]. by split_and!.
Qed.

End Probe.

(** ** A concrete bus *)

Module Pci_instances.

(** A bridge in front of a configuration space of bytes. *)
Record bridge : Type := mk_bridge { regs : Z -> Z; sel : Z }.

Definition byte (t : bridge) (o : Z) : Z := u8 (regs t (selected (sel t) + o)).

#[global] Instance bridge_ports : ConfigPorts bridge := {
  outl port v t := if port =? PCI_IO_CONFIG_ADDRESS then mk_bridge (regs t) v else t;
  outw _ _ t := t; outb _ _ t := t;
  inl_ _ t := (of_le4 (byte t 0) (byte t 1) (byte t 2) (byte t 3), t);
  inw port t := let o := port - PCI_IO_CONFIG_DATA in (byte t o + byte t (o + 1) * 256, t);
  inb port t := (byte t (port - PCI_IO_CONFIG_DATA), t)
}.

#[global] Program Instance bridge_laws : HostBridge bridge := {
  space t a := u8 (regs t a); address_reg := sel
}.
Next Obligation. intros t a. apply u8_range. Qed.
Next Obligation. intros v t _. done. Qed.
Next Obligation.
  intros t o _ _. exists t. split; [|done]. cbn [inb bridge_ports]. unfold byte. do 3 f_equal. lia.
Qed.
Next Obligation.
  intros t o _ _. exists t. split; [|done]. cbn [inw bridge_ports]. unfold byte, word_of.
  replace (PCI_IO_CONFIG_DATA + o - PCI_IO_CONFIG_DATA) with o by lia. by rewrite <- Z.add_assoc.
Qed.
Next Obligation.
  intros t _. exists t. split; [|done]. cbn [inl_ bridge_ports]. unfold byte, long_of. by rewrite Z.add_0_r.
Qed.

(** Slot 1 has a controller with two functions, all other slots are empty. *)
Definition board : bridge :=
  mk_bridge (fun a =>
    if (loc 0 1 0 <=? a) && (a <? loc 0 1 0 + 256) then
      nth (Z.to_nat (a - loc 0 1 0)) [0x86; 0x80; 0x20; 0x70; 0; 0; 0; 0; 0; 0x00; 0x03; 0x0c; 0; 0; 0x80] 0
    else if (loc 0 1 2 <=? a) && (a <? loc 0 1 2 + 256) then
      nth (Z.to_nat (a - loc 0 1 2)) [0x86; 0x80; 0xcd; 0x24; 0; 0; 0; 0; 0; 0x20; 0x03; 0x0c; 0; 0; 0] 0
    else 0xff) 0.

Definition machine : pcis bridge := mk_pcis Alloc_instances.fresh [uhci_pci_driver; ehci_pci_driver] [] board.

(** A driver that keeps a record of its own. *)
Definition record_init (_ _ : nat) : M (pcis bridge) Z := pheap_op (kzalloc 56) ;;; ret 0.

Lemma record_ok : driver_ok record_init [uhci_pci_driver; ehci_pci_driver] (fun _ => 1%nat).
Proof.
  intros pdd i d s n _ _ _ _ _ Hr. destruct (kzalloc_room (pheap s) n 56) as (p & h & E & _ & R & K); [lia|exact Hr|].
  exists 0, (set_pheap h s). unfold record_init, pheap_op, bind, zoom. rewrite E. split; [done|]. split; [exact R|by split_and!].
Qed.

Definition usb1 : pci_dev := mk_pci 0 1 0 0 0x8086 0x7020 0x0c 0x03 0x00 0x80 0 None.

Lemma pci_reads_registers_witness :
  exists t, pci_read_dev_reg32 usb1 8 machine = Ret (0x0c030000, set_hw t machine) /\ space t = space board.
Proof.
  destruct (pci_reads_registers machine usb1 8) as (_ & _ & H); [split_and!; cbn; lia|lia|].
  exact (H ltac:(reflexivity)).
Defined.

Lemma pci_bus_probe_finds_witness :
  exists s', pci_bus_probe record_init machine = Ret (tt, s')
    /\ stripped <$> pci_dev_list s' = [usb1; mk_pci 0 1 2 0 0x8086 0x24cd 0x0c 0x03 0x20 0 0 None].
Proof.
  destruct (pci_bus_probe_finds record_init _ _ machine record_ok eq_refl) as (s' & E & H & _).
  - eapply room_weaken_n, fresh_room. apply Nat.leb_le. vm_compute. reflexivity.
  - exists s'. split; [exact E|]. rewrite H. vm_compute. reflexivity.
Defined.

End Pci_instances.
