(* ===== verification/Paging.v ===== *)
(** * Page tables

    The address arithmetic and the page-table writes of
    [src/src/kernel/memory.c] (lines 532-609 and 765-795), the constants of
    [src/src/kernel/memory.h] and [src/src/lib/syslib/addrs.h], and, as the
    specification they are proved against, the two-level walk that the i386
    performs.

    Physical memory is a map from the byte address of an aligned 32-bit word to
    its value; an address with no entry holds 0.  Every access of memory.c to
    tables and frames is an access to such words.  The translation lookaside
    buffer is not part of the state: [invalidate_page] leaves it unchanged, and
    the theorems speak of what the tables in memory say. *)

From S2P Require Import Prelude.

(** ** Constants *)

Definition PAGE_SIZE : Z := 0x1000.
Definition SECTOR_SIZE : Z := 512.
Definition PAGEABLE_PAGES : Z := 33.
Definition PAGING_AREA_MIN_PADDR : Z := 0x100000.
Definition PAGING_AREA_MAX_PADDR : Z := PAGING_AREA_MIN_PADDR + PAGE_SIZE * PAGEABLE_PAGES.
Definition PROCESS_VADDR : Z := 0x1000000.
Definition PROCESS_STACK_VADDR : Z := 0xeffffff0.
Definition VGA_TEXT_PADDR : Z := 0xb8000.
Definition KERNEL_SIZE : Z := 0x400000.
Definition USER_STACK_SIZE : Z := 0x1000.

Definition PAGE_N_ENTRIES : Z := PAGE_SIZE / 4.
Definition SECTORS_PER_PAGE : Z := PAGE_SIZE / SECTOR_SIZE.
Definition PE_P : Z := Z.shiftl 1 0.
Definition PE_RW : Z := Z.shiftl 1 1.
Definition PE_US : Z := Z.shiftl 1 2.
Definition PE_PWT : Z := Z.shiftl 1 3.
Definition PE_PCD : Z := Z.shiftl 1 4.
Definition PE_A : Z := Z.shiftl 1 5.
Definition PE_D : Z := Z.shiftl 1 6.
Definition PE_BASE_ADDR_MASK : Z := 0xfffff000.
Definition PAGE_DIRECTORY_BITS : Z := 22.
Definition PAGE_TABLE_BITS : Z := 12.
Definition PAGE_DIRECTORY_MASK : Z := 0xffc00000.
Definition PAGE_TABLE_MASK : Z := 0x003ff000.
Definition PAGE_MASK : Z := 0x00000fff.
Definition MODE_MASK : Z := 0x000003ff.

(** [~PE_BASE_ADDR_MASK], an [unsigned int]. *)
Definition not_base_mask : Z := u32 (Z.lnot PE_BASE_ADDR_MASK).

(** ** Physical memory *)

Abbreviation ram := (gmap Z Z) (only parsing).

Definition ld (a : Z) (m : ram) : Z := default 0 (m !! a).
Definition st (a v : Z) (m : ram) : ram := <[a := v]> m.

(** [table[index]] of a [uint32_t *]. *)
Definition slot (table index : Z) : Z := u32 (table + 4 * index).

(** ** Operations (memory.c) *)

Definition get_directory_index (vaddr : Z) : Z :=
  Z.shiftr (Z.land vaddr PAGE_DIRECTORY_MASK) PAGE_DIRECTORY_BITS.

Definition get_table_index (vaddr : Z) : Z :=
  Z.shiftr (Z.land vaddr PAGE_TABLE_MASK) PAGE_TABLE_BITS.

Definition invalidate_page (vaddr : Z) : M ram unit := ret tt.

Definition table_map_page (table vaddr paddr mode : Z) : M ram unit :=
  let index := get_table_index vaddr in
  modify (st (slot table index)
             (Z.lor (Z.land paddr PE_BASE_ADDR_MASK) (Z.land mode not_base_mask))) ;;;
  invalidate_page vaddr.

Definition dir_ins_table (directory vaddr table mode : Z) : M ram unit :=
  let access := Z.land mode MODE_MASK in
  let taddr := table in
  let index := get_directory_index vaddr in
  modify (st (slot directory index) (Z.lor (Z.land taddr PE_BASE_ADDR_MASK) access)).

Definition page_set_mode (pdir vaddr mode : Z) : M ram unit :=
  let dir_index := get_directory_index vaddr in
  let index := get_table_index vaddr in
  dir_entry <-- gets (ld (slot pdir dir_index)) ;;
  assertk (truth (Z.land dir_entry PE_P)) ;;;
  let table := Z.land dir_entry PE_BASE_ADDR_MASK in
  e <-- gets (ld (slot table index)) ;;
  let entry := Z.land e PE_BASE_ADDR_MASK in
  let entry := Z.lor entry (Z.land mode not_base_mask) in
  modify (st (slot table index) entry) ;;;
  invalidate_page vaddr.

Definition unmap_physical_page (process_directory vaddr : Z) : M ram unit :=
  page_set_mode process_directory vaddr 0.

Definition is_page_dirty (vaddr page_directory : Z) : M ram bool :=
  let dir_index := get_directory_index vaddr in
  dir_entry <-- gets (ld (slot page_directory dir_index)) ;;
  if negb (truth (Z.land dir_entry PE_P)) then ret false
  else
    let page_table := Z.land dir_entry PE_BASE_ADDR_MASK in
    let table_index := get_table_index vaddr in
    page_entry <-- gets (ld (slot page_table table_index)) ;;
    ret (truth (Z.land page_entry PE_D)).

(** The result 0 is the null pointer. *)
Definition get_page_table (vaddr page_directory : Z) : M ram Z :=
  let dir_index := get_directory_index vaddr in
  dir_entry <-- gets (ld (slot page_directory dir_index)) ;;
  if negb (truth (Z.land dir_entry PE_P)) then ret 0
  else ret (Z.land dir_entry PE_BASE_ADDR_MASK).

(** The number of iterations of [for (x = lo; x < hi; x += step)]. *)
Definition trip_count (lo hi step : Z) : nat := Z.to_nat ((hi - lo + step - 1) / step).

(** The body of the two identity-mapping loops; [fill] is [first_time]. *)
Definition map_kernel_page (fill : bool) (table pdir mode paddr : Z) : M ram unit :=
  when fill (table_map_page table paddr paddr mode) ;;;
  dir_ins_table pdir paddr table mode.

Definition kernel_area_loops (fill : bool) (table pdir kernel_mode : Z) : M ram unit :=
  for_up (trip_count 0 KERNEL_SIZE PAGE_SIZE) 0 PAGE_SIZE
    (map_kernel_page fill table pdir kernel_mode) ;;;
  for_up (trip_count PAGING_AREA_MIN_PADDR PAGING_AREA_MAX_PADDR PAGE_SIZE)
    PAGING_AREA_MIN_PADDR PAGE_SIZE
    (map_kernel_page fill table pdir kernel_mode).

(** [user_kernel_ptable] is a global of memory.c, here an argument. *)
Definition user_setup_kernel_vmem (user_kernel_ptable pdir : Z) (first_time : bool) : M ram unit :=
  let user_mode := Z.lor (Z.lor PE_P PE_RW) PE_US in
  let kernel_mode := Z.lor PE_P PE_RW in
  kernel_area_loops first_time user_kernel_ptable pdir kernel_mode ;;;
  dir_ins_table pdir 0 user_kernel_ptable kernel_mode ;;;
  let mode := Z.lor user_mode PE_PCD in
  when first_time
    (table_map_page user_kernel_ptable VGA_TEXT_PADDR VGA_TEXT_PADDR mode) ;;;
  dir_ins_table pdir VGA_TEXT_PADDR user_kernel_ptable mode.

(** ** The processor's page walk

    [Some (paddr, user, write)] when both entries are present: the physical
    address, and whether both entries allow user accesses and writes. *)
Definition walk (m : ram) (pdir vaddr : Z) : option (Z * bool * bool) :=
  let pde := ld (slot pdir (get_directory_index vaddr)) m in
  if truth (Z.land pde PE_P) then
    let pte := ld (slot (Z.land pde PE_BASE_ADDR_MASK) (get_table_index vaddr)) m in
    if truth (Z.land pte PE_P) then
      Some (Z.land pte PE_BASE_ADDR_MASK + Z.land vaddr PAGE_MASK,
            truth (Z.land pde PE_US) && truth (Z.land pte PE_US),
            truth (Z.land pde PE_RW) && truth (Z.land pte PE_RW))
    else None
  else None.

(** A frame address: a page-aligned 32-bit address. *)
Definition is_frame (p : Z) : Prop := 0 <= p < 2 ^ 32 /\ p mod PAGE_SIZE = 0.

#[global] Instance is_frame_decision p : Decision (is_frame p).
Proof. unfold is_frame. apply _. Defined.

(** ** Address arithmetic *)

Lemma directory_index_div v : 0 <= v < 2 ^ 32 -> get_directory_index v = v / 2 ^ 22.
Proof.
  intros Hv. unfold get_directory_index, PAGE_DIRECTORY_BITS.
  change PAGE_DIRECTORY_MASK with (Z.shiftl (Z.ones 10) 22).
  rewrite land_field, Z.shiftr_div_pow2, Z.div_mul by lia. apply Z.mod_small. zdiv.
Qed.

Lemma table_index_div v : get_table_index v = (v / 2 ^ 12) mod 2 ^ 10.
Proof.
  unfold get_table_index, PAGE_TABLE_BITS.
  change PAGE_TABLE_MASK with (Z.shiftl (Z.ones 10) 12).
  by rewrite land_field, Z.shiftr_div_pow2, Z.div_mul by lia.
Qed.

Lemma base_mask_div x : 0 <= x < 2 ^ 32 -> Z.land x PE_BASE_ADDR_MASK = x / 4096 * 4096.
Proof.
  intros Hx. change PE_BASE_ADDR_MASK with (Z.shiftl (Z.ones 20) 12).
  rewrite land_field by lia. f_equal. apply Z.mod_small. zdiv.
Qed.

Lemma base_mask_frame p : is_frame p -> Z.land p PE_BASE_ADDR_MASK = p.
Proof. intros [H1 H2]. rewrite base_mask_div by done. unfold PAGE_SIZE in H2. zdiv. Qed.

Lemma low_mask_mod x : Z.land x not_base_mask = x mod 4096.
Proof. change not_base_mask with (Z.ones 12). by rewrite Z.land_ones by lia. Qed.

Lemma page_mask_mod x : Z.land x PAGE_MASK = x mod 4096.
Proof. apply low_mask_mod. Qed.

Lemma mode_mask_mod x : Z.land x MODE_MASK = x mod 1024.
Proof. change MODE_MASK with (Z.ones 10). by rewrite Z.land_ones by lia. Qed.

Lemma directory_index_range v : 0 <= v < 2 ^ 32 -> 0 <= get_directory_index v < 1024.
Proof. intros. rewrite directory_index_div by done. zdiv. Qed.

Lemma table_index_range v : 0 <= get_table_index v < 1024.
Proof. rewrite table_index_div. apply (Z.mod_pos_bound _ (2 ^ 10)). lia. Qed.

(** The directory index, the table index and the page offset of a 32-bit
    virtual address are in range and together determine the address. *)
Theorem vaddr_split v (Hv : 0 <= v < 2 ^ 32) :
  0 <= get_directory_index v < PAGE_N_ENTRIES /\ 0 <= get_table_index v < PAGE_N_ENTRIES
  /\ v = Z.lor (Z.lor (Z.shiftl (get_directory_index v) PAGE_DIRECTORY_BITS)
                      (Z.shiftl (get_table_index v) PAGE_TABLE_BITS))
               (Z.land v PAGE_MASK).
Proof.
  split; [by apply directory_index_range|]. split; [apply table_index_range|].
  unfold PAGE_DIRECTORY_BITS, PAGE_TABLE_BITS.
  rewrite page_mask_mod, !Z.shiftl_mul_pow2 by lia.
  pose proof (table_index_range v). rewrite directory_index_div by done.
  rewrite (lor_comm_add (get_table_index v * 2 ^ 12) _ 22); [|lia..|apply Z.mod_mul; lia].
  rewrite (lor_comm_add (v mod 4096) _ 12); [|lia|apply Z.mod_pos_bound; lia|].
  - rewrite table_index_div. change (2 ^ 22) with 4194304. change (2 ^ 12) with 4096.
    change (2 ^ 10) with 1024. zdiv.
  - replace (v / 2 ^ 22 * 2 ^ 22 + get_table_index v * 2 ^ 12)
      with ((v / 2 ^ 22 * 2 ^ 10 + get_table_index v) * 2 ^ 12) by ring.
    apply Z.mod_mul. lia.
Qed.

(** Flags of an entry: bit tests and the base address. *)
(** An entry with base [p] and low bits [f]. *)
Lemma entry_sum p f : is_frame p -> 0 <= f < 4096 -> Z.lor p f = p + f.
Proof. intros [_ H] Hf. by apply (lor_comm_add f p 12). Qed.

Lemma entry_base p f :
  is_frame p -> 0 <= f < 4096 -> Z.land (Z.lor p f) PE_BASE_ADDR_MASK = p.
Proof.
  intros Hp Hf. rewrite entry_sum by done. destruct Hp as [H1 H2]. unfold PAGE_SIZE in H2.
  assert (p + f < 2 ^ 32) by zdiv.
  rewrite base_mask_div by lia. zdiv.
Qed.

Lemma entry_bit p f i : is_frame p -> 0 <= i < 12 -> Z.testbit (Z.lor p f) i = Z.testbit f i.
Proof.
  intros [_ Hp] Hi. rewrite Z.lor_spec. rewrite <- (Z.mod_pow2_bits_low p 12) by lia.
  unfold PAGE_SIZE in Hp. change (2 ^ 12) with 0x1000. by rewrite Hp, Z.bits_0.
Qed.

(** The two kinds of entries the code writes. *)
Definition pte (p mode : Z) : Z := Z.lor (Z.land p PE_BASE_ADDR_MASK) (Z.land mode not_base_mask).
Definition pde (t mode : Z) : Z := Z.lor (Z.land t PE_BASE_ADDR_MASK) (Z.land mode MODE_MASK).

Lemma pte_base p mode : is_frame p -> Z.land (pte p mode) PE_BASE_ADDR_MASK = p.
Proof.
  intros. unfold pte. rewrite low_mask_mod, (base_mask_frame p) by done.
  apply entry_base; [done|]. apply Z.mod_pos_bound. lia.
Qed.

Lemma pde_base p mode : is_frame p -> Z.land (pde p mode) PE_BASE_ADDR_MASK = p.
Proof.
  intros. unfold pde. rewrite mode_mask_mod, (base_mask_frame p) by done.
  apply entry_base; [done|]. pose proof (Z.mod_pos_bound mode 1024). lia.
Qed.

Lemma pte_flag p mode i :
  is_frame p -> 0 <= i < 12 -> truth (Z.land (pte p mode) (Z.shiftl 1 i)) = Z.testbit mode i.
Proof.
  intros. rewrite truth_bit by lia. unfold pte. rewrite (base_mask_frame p) by done.
  rewrite entry_bit by done. rewrite low_mask_mod. apply (Z.mod_pow2_bits_low _ 12). lia.
Qed.

Lemma pde_flag p mode i :
  is_frame p -> 0 <= i < 10 -> truth (Z.land (pde p mode) (Z.shiftl 1 i)) = Z.testbit mode i.
Proof.
  intros. rewrite truth_bit by lia. unfold pde. rewrite (base_mask_frame p) by done.
  rewrite entry_bit by (done || lia). rewrite mode_mask_mod. apply (Z.mod_pow2_bits_low _ 10). lia.
Qed.

(** ** Memory accesses *)

Lemma ld_st a v b m : ld a (st b v m) = if decide (a = b) then v else ld a m.
Proof.
  unfold ld, st. destruct (decide (a = b)) as [->|H].
  - by rewrite lookup_insert_eq.
  - by rewrite lookup_insert_ne by done.
Qed.

Lemma ld_st_eq a v m : ld a (st a v m) = v.
Proof. rewrite ld_st. by rewrite decide_True. Qed.

Lemma ld_st_ne a v b m : a <> b -> ld a (st b v m) = ld a m.
Proof. intros. rewrite ld_st. by rewrite decide_False. Qed.

Lemma slot_frame t i : is_frame t -> 0 <= i < 1024 -> slot t i = t + 4 * i.
Proof.
  intros [H1 H2] Hi. unfold slot. unfold PAGE_SIZE in H2. apply u32_small. zdiv.
Qed.

Lemma slot_inj t1 t2 i j :
  is_frame t1 -> is_frame t2 -> 0 <= i < 1024 -> 0 <= j < 1024 ->
  slot t1 i = slot t2 j -> t1 = t2 /\ i = j.
Proof.
  intros H1 H2 Hi Hj. rewrite !slot_frame by done.
  destruct H1 as [_ H1], H2 as [_ H2]. unfold PAGE_SIZE in *. intros. split; zdiv.
Qed.

(** Words of a frame. *)
Definition in_frame (p a : Z) : Prop := p <= a < p + PAGE_SIZE.

Lemma slot_in_frame t i : is_frame t -> 0 <= i < 1024 -> in_frame t (slot t i).
Proof. intros. rewrite slot_frame by done. unfold in_frame, PAGE_SIZE. lia. Qed.

Lemma table_map_page_run table vaddr paddr mode m :
  table_map_page table vaddr paddr mode m
  = Ret (tt, st (slot table (get_table_index vaddr)) (pte paddr mode) m).
Proof. reflexivity. Qed.

Lemma dir_ins_table_run pdir vaddr table mode m :
  dir_ins_table pdir vaddr table mode m
  = Ret (tt, st (slot pdir (get_directory_index vaddr)) (pde table mode) m).
Proof. reflexivity. Qed.

Create HintDb paging.
#[export] Hint Resolve directory_index_range table_index_range : paging.
#[export] Hint Extern 1 (_ <= _ < _) => lia : paging.

(** ** Mapping a page *)

(** The words a walk of [vaddr] reads. *)
Definition pde_slot (pdir vaddr : Z) : Z := slot pdir (get_directory_index vaddr).
Definition walk_table (m : ram) (pdir vaddr : Z) : Z :=
  Z.land (ld (pde_slot pdir vaddr) m) PE_BASE_ADDR_MASK.
Definition pte_slot (m : ram) (pdir vaddr : Z) : Z :=
  slot (walk_table m pdir vaddr) (get_table_index vaddr).

Lemma walk_ext m m' pdir v :
  ld (pde_slot pdir v) m' = ld (pde_slot pdir v) m ->
  ld (pte_slot m pdir v) m' = ld (pte_slot m pdir v) m ->
  walk m' pdir v = walk m pdir v.
Proof. unfold walk, pte_slot, walk_table, pde_slot. intros -> H. by rewrite H. Qed.

Lemma walk_entries m pdir v table dmode paddr pmode :
  is_frame table -> is_frame paddr ->
  ld (pde_slot pdir v) m = pde table dmode ->
  ld (slot table (get_table_index v)) m = pte paddr pmode ->
  Z.testbit dmode 0 = true ->
  walk m pdir v =
    if Z.testbit pmode 0
    then Some (paddr + v mod 4096, Z.testbit dmode 2 && Z.testbit pmode 2,
               Z.testbit dmode 1 && Z.testbit pmode 1)
    else None.
Proof.
  intros Ht Hp Hd He Hd0. unfold walk. fold (pde_slot pdir v). rewrite Hd.
  unfold PE_P, PE_US, PE_RW. rewrite !pde_flag, Hd0, pde_base, He by (done || lia).
  rewrite !pte_flag by (done || lia). destruct (Z.testbit pmode 0); [|done].
  by rewrite pte_base, page_mask_mod.
Qed.

(** The words of a frame and the walks through another directory index. *)
Definition page_of (v : Z) : Z := v / PAGE_SIZE.

Lemma page_of_indices v v' :
  0 <= v < 2 ^ 32 -> 0 <= v' < 2 ^ 32 ->
  get_directory_index v = get_directory_index v' -> get_table_index v = get_table_index v' ->
  page_of v = page_of v'.
Proof.
  intros Hv Hv'. rewrite !directory_index_div, !table_index_div by done.
  unfold page_of, PAGE_SIZE. intros. zdiv.
Qed.

(** No other directory entry of [pdir] refers to [table] or to [pdir]. *)
Definition table_private (m : ram) (pdir table vaddr : Z) : Prop :=
  forall v, 0 <= v < 2 ^ 32 -> get_directory_index v <> get_directory_index vaddr ->
    is_frame (walk_table m pdir v) /\ walk_table m pdir v <> table /\ walk_table m pdir v <> pdir.

Lemma walk_table_frame m pdir v :
  0 <= ld (pde_slot pdir v) m < 2 ^ 32 -> is_frame (walk_table m pdir v).
Proof.
  intros H. unfold walk_table, is_frame, PAGE_SIZE. rewrite base_mask_div by done.
  split; [zdiv|]. apply Z.mod_mul. lia.
Qed.

(** Installing [table] in the directory and mapping a frame in it makes the
    processor translate every address of that page to the frame, with the
    rights both modes grant.  When no other directory entry uses the same
    table, the pages of the other directory entries keep their translation, and
    so do those of the same entry if it already held this table. *)
Theorem map_page_walk m pdir table vaddr paddr dmode pmode
  (Hpd : is_frame pdir) (Ht : is_frame table) (Hp : is_frame paddr) (Hne : pdir <> table)
  (Hv : 0 <= vaddr < 2 ^ 32)
  (Hd0 : Z.testbit dmode 0 = true) (Hp0 : Z.testbit pmode 0 = true)
  (Hpriv : table_private m pdir table vaddr) :
  exists m', (dir_ins_table pdir vaddr table dmode ;;;
              table_map_page table vaddr paddr pmode) m = Ret (tt, m')
    /\ walk m' pdir vaddr
       = Some (paddr + vaddr mod PAGE_SIZE,
               Z.testbit dmode 2 && Z.testbit pmode 2, Z.testbit dmode 1 && Z.testbit pmode 1)
    /\ forall v, 0 <= v < 2 ^ 32 -> page_of v <> page_of vaddr ->
         get_directory_index v <> get_directory_index vaddr
         \/ ld (pde_slot pdir vaddr) m = pde table dmode ->
         walk m' pdir v = walk m pdir v.
Proof.
  rewrite (bind_step _ _ _ _ _ (dir_ins_table_run _ _ _ _ _)), table_map_page_run.
  eexists. split; [reflexivity|].
  pose proof (directory_index_range _ Hv) as Hdi. pose proof (table_index_range vaddr) as Hti.
  assert (Hdt : forall i j, 0 <= i < 1024 -> 0 <= j < 1024 -> slot pdir i <> slot table j).
  { intros i j Hi Hj E. by apply slot_inj in E as [? _]. }
  split.
  - rewrite (walk_entries _ pdir vaddr table dmode paddr pmode); try done.
    + by rewrite Hp0.
    + unfold pde_slot. rewrite ld_st_ne, ld_st_eq; [done|]. by apply Hdt.
    + by rewrite ld_st_eq.
  - intros v Hv' Hpg Hcase.
    pose proof (directory_index_range _ Hv') as Hdv. pose proof (table_index_range v) as Htv.
    destruct (decide (get_directory_index v = get_directory_index vaddr)) as [Hd|Hd].
    + destruct Hcase as [?|Hold]; [done|]. unfold pde_slot in Hold.
      apply walk_ext.
      * unfold pde_slot. rewrite Hd, ld_st_ne, ld_st_eq by (by apply Hdt). done.
      * unfold pte_slot, walk_table, pde_slot. rewrite Hd, Hold, pde_base by done.
        rewrite !ld_st_ne; [done|apply not_eq_sym; by apply Hdt|].
        intros E. apply slot_inj in E as [_ E]; try done. by apply Hpg, page_of_indices.
    + destruct (Hpriv v Hv' Hd) as (Hf & H1 & H2). apply walk_ext.
      * unfold pde_slot. rewrite !ld_st_ne; [done| |by apply Hdt].
        intros E. by apply slot_inj in E as [_ ?].
      * unfold pte_slot. rewrite !ld_st_ne; [done| |];
          intros E; by apply slot_inj in E as [? _].
Qed.

(** [unmap_physical_page] (as [page_free] uses it when it evicts) makes the
    page not present, keeps the frame address in the entry, and leaves the
    translation of every other page that uses the same table unchanged. *)
Theorem unmap_walk m pdir vaddr
  (Hpd : is_frame pdir) (Hv : 0 <= vaddr < 2 ^ 32)
  (Hmapped : walk m pdir vaddr <> None)
  (Ht : is_frame (walk_table m pdir vaddr)) (Hne : walk_table m pdir vaddr <> pdir)
  (Hpte : 0 <= ld (pte_slot m pdir vaddr) m < 2 ^ 32) :
  exists m', unmap_physical_page pdir vaddr m = Ret (tt, m')
    /\ walk m' pdir vaddr = None
    /\ Z.land (ld (pte_slot m pdir vaddr) m') PE_BASE_ADDR_MASK
       = Z.land (ld (pte_slot m pdir vaddr) m) PE_BASE_ADDR_MASK
    /\ forall v, 0 <= v < 2 ^ 32 -> page_of v <> page_of vaddr ->
         get_directory_index v = get_directory_index vaddr ->
         walk m' pdir v = walk m pdir v.
Proof.
  pose proof (directory_index_range _ Hv) as Hdi. pose proof (table_index_range vaddr) as Hti.
  set (t := walk_table m pdir vaddr) in *. set (e := ld (pte_slot m pdir vaddr) m) in *.
  set (m' := st (pte_slot m pdir vaddr) (Z.lor (Z.land e PE_BASE_ADDR_MASK) 0) m).
  assert (Hrun : unmap_physical_page pdir vaddr m = Ret (tt, m')).
  { unfold unmap_physical_page, page_set_mode. rewrite bind_gets, bind_assertk_true; [done|].
    unfold walk in Hmapped. destruct (truth _) eqn:E in Hmapped; [done|by destruct Hmapped]. }
  assert (Hbase : is_frame (Z.land e PE_BASE_ADDR_MASK)).
  { rewrite base_mask_div by done. split; [zdiv|apply Z.mod_mul; done]. }
  assert (Hpde : forall v, 0 <= v < 2 ^ 32 -> ld (pde_slot pdir v) m' = ld (pde_slot pdir v) m).
  { intros v Hv'. apply ld_st_ne. intros E.
    apply slot_inj in E as [? _]; auto with paging. }
  assert (Hpte' : ld (pte_slot m pdir vaddr) m' = Z.lor (Z.land e PE_BASE_ADDR_MASK) 0)
    by apply ld_st_eq.
  rewrite Z.lor_0_r in Hpte'.
  exists m'. split; [done|]. split_and!.
  - unfold walk. fold (pde_slot pdir vaddr). rewrite Hpde by done.
    destruct (truth _); [|done]. fold (walk_table m pdir vaddr).
    fold (pte_slot m pdir vaddr). rewrite Hpte'.
    unfold PE_P. rewrite truth_bit by lia.
    rewrite <- (Z.lor_0_r (Z.land _ PE_BASE_ADDR_MASK)), entry_bit by (done || lia).
    by rewrite Z.bits_0.
  - rewrite Hpte'. by apply base_mask_frame.
  - intros v Hv' Hpg Hdd. apply walk_ext; [by apply Hpde|].
    assert (Hw : walk_table m pdir v = t) by (unfold t, walk_table, pde_slot; by rewrite Hdd).
    unfold pte_slot. rewrite Hw. apply ld_st_ne. unfold pte_slot. fold t.
    intros E. apply slot_inj in E as [_ E]; auto with paging.
    apply Hpg. by apply page_of_indices.
Qed.

(** ** The identity mapping of the kernel *)

Definition kernel_mode : Z := Z.lor PE_P PE_RW.
Definition vga_mode : Z := Z.lor (Z.lor (Z.lor PE_P PE_RW) PE_US) PE_PCD.

(** Nothing but the table and the first directory entry differs. *)
Definition outside (pdir table a : Z) : Prop :=
  a <> slot pdir 0 /\ forall j, 0 <= j < 1024 -> a <> slot table j.

Lemma page_frame j : 0 <= j < 2 ^ 20 -> is_frame (j * 4096).
Proof. intros. unfold is_frame, PAGE_SIZE. split; [lia|]. by apply Z.mod_mul. Qed.

Lemma kernel_page_indices j :
  0 <= j < 1024 -> get_directory_index (j * 4096) = 0 /\ get_table_index (j * 4096) = j.
Proof.
  intros. rewrite directory_index_div, table_index_div by lia.
  change (2 ^ 22) with 4194304. change (2 ^ 12) with 4096. change (2 ^ 10) with 1024.
  split; zdiv.
Qed.

Lemma map_kernel_page_run fill table pdir mode j m :
  0 <= j < 1024 ->
  map_kernel_page fill table pdir mode (j * 4096) m
  = Ret (tt, st (slot pdir 0) (pde table mode)
               (if fill then st (slot table j) (pte (j * 4096) mode) m else m)).
Proof.
  intros Hj. destruct (kernel_page_indices j Hj) as [E1 E2].
  unfold map_kernel_page. destruct fill; cbn [when].
  - rewrite (bind_step _ _ _ _ _ (table_map_page_run _ _ _ _ _)), dir_ins_table_run.
    by rewrite E1, E2.
  - rewrite bind_ret, dir_ins_table_run. by rewrite E1.
Qed.

Lemma kernel_loop fill table pdir mode :
  is_frame pdir -> is_frame table -> pdir <> table ->
  forall n k m, 0 <= k -> k + Z.of_nat n <= 1024 ->
  exists m', for_up n (k * 4096) PAGE_SIZE (map_kernel_page fill table pdir mode) m = Ret (tt, m')
    /\ (forall j, 0 <= j < 1024 -> ld (slot table j) m'
          = if fill && (k <=? j) && (j <? k + Z.of_nat n) then pte (j * 4096) mode
            else ld (slot table j) m)
    /\ ld (slot pdir 0) m' = (if decide (n = O) then ld (slot pdir 0) m else pde table mode)
    /\ forall a, outside pdir table a -> ld a m' = ld a m.
Proof.
  intros Hpd Ht Hne. induction n as [|n IH]; intros k m Hk Hn.
  - exists m. cbn [for_up]. split_and!; try done. intros j Hj.
    rewrite <- andb_assoc, (andb_comm (k <=? j)). by zbool; rewrite ?andb_false_r; try lia.
  - cbn [for_up]. rewrite (bind_step _ _ _ _ _ (map_kernel_page_run fill table pdir mode k m ltac:(lia))).
    replace (k * 4096 + PAGE_SIZE) with ((k + 1) * 4096) by (unfold PAGE_SIZE; lia).
    edestruct (IH (k + 1)) as (m' & E & H1 & H2 & H3); [lia..|].
    exists m'. split; [exact E|].
    assert (Hsl : forall j, 0 <= j < 1024 -> slot table j <> slot pdir 0).
    { intros j Hj E'. apply slot_inj in E' as [? _]; auto with paging. }
    split_and!.
    + intros j Hj. rewrite H1, ld_st_ne by auto. destruct fill; [|done]. cbn [andb].
      rewrite ld_st. destruct (decide (slot table j = slot table k)) as [Es|Es].
      * apply slot_inj in Es as [_ ->]; auto with paging. zbool; cbn; (done || lia).
      * assert (j <> k) by (intros ->; done). zbool; cbn; (done || lia).
    + rewrite H2. rewrite ld_st_eq. by destruct (decide (n = O)).
    + intros a [Ha1 Ha2]. rewrite H3 by done. rewrite ld_st_ne by done.
      destruct fill; [|done]. apply ld_st_ne. apply Ha2. lia.
Qed.

(** What [user_kernel_ptable] holds once the first process was set up. *)
Definition kernel_table (m : ram) (table : Z) : Prop :=
  forall j, 0 <= j < 1024 ->
    ld (slot table j) m = pte (j * 4096) (if j =? page_of VGA_TEXT_PADDR then vga_mode else kernel_mode).

(** The kernel's addresses are mapped to themselves, writable, and only the
    page of the VGA memory is open to user code. *)
Definition kernel_mapped (m : ram) (pdir : Z) : Prop :=
  forall v, 0 <= v < KERNEL_SIZE ->
    walk m pdir v = Some (v, page_of v =? page_of VGA_TEXT_PADDR, true).

Lemma kernel_area_loops_run fill table pdir mode m :
  is_frame pdir -> is_frame table -> pdir <> table ->
  exists m', kernel_area_loops fill table pdir mode m = Ret (tt, m')
    /\ (forall j, 0 <= j < 1024 ->
          ld (slot table j) m' = if fill then pte (j * 4096) mode else ld (slot table j) m)
    /\ ld (slot pdir 0) m' = pde table mode
    /\ forall a, outside pdir table a -> ld a m' = ld a m.
Proof.
  intros Hpd Ht Hne. unfold kernel_area_loops.
  change (trip_count 0 KERNEL_SIZE PAGE_SIZE) with 1024%nat.
  change (trip_count PAGING_AREA_MIN_PADDR PAGING_AREA_MAX_PADDR PAGE_SIZE) with 33%nat.
  change (for_up 1024 0) with (for_up (S:=ram) 1024 (0 * 4096)).
  change (for_up 33 PAGING_AREA_MIN_PADDR) with (for_up (S:=ram) 33 (256 * 4096)).
  destruct (kernel_loop fill table pdir mode Hpd Ht Hne 1024 0 m) as (m1 & E1 & A1 & B1 & C1); [lia..|].
  rewrite (bind_step _ _ _ _ _ E1).
  destruct (kernel_loop fill table pdir mode Hpd Ht Hne 33 256 m1) as (m2 & E2 & A2 & B2 & C2); [lia..|].
  exists m2. split; [done|]. split_and!.
  - intros j Hj. rewrite A2, A1 by done. destruct fill; [|done]. cbn [andb].
    by zbool; try lia.
  - rewrite B2. by rewrite decide_False.
  - intros a Ha. by rewrite C2, C1.
Qed.

Lemma user_setup_run (first_time : bool) table pdir m :
  is_frame pdir -> is_frame table -> pdir <> table -> (first_time = false -> kernel_table m table) ->
  exists m', user_setup_kernel_vmem table pdir first_time m = Ret (tt, m')
    /\ kernel_table m' table /\ ld (slot pdir 0) m' = pde table vga_mode
    /\ forall a, outside pdir table a -> ld a m' = ld a m.
Proof.
  intros Hpd Ht Hne Hf. unfold user_setup_kernel_vmem.
  destruct (kernel_area_loops_run first_time table pdir kernel_mode m Hpd Ht Hne) as (m1 & E1 & A & B & C).
  rewrite (bind_step _ _ _ _ _ E1), (bind_step _ _ _ _ _ (dir_ins_table_run _ _ _ _ _)).
  change (Z.lor (Z.lor (Z.lor PE_P PE_RW) PE_US) PE_PCD) with vga_mode.
  change (get_directory_index 0) with 0.
  assert (Hsl : forall j, 0 <= j < 1024 -> slot table j <> slot pdir 0).
  { intros j Hj E'. apply slot_inj in E' as [? _]; auto with paging. }
  destruct first_time; cbn [when].
  - rewrite (bind_step _ _ _ _ _ (table_map_page_run _ _ _ _ _)), dir_ins_table_run.
    change (get_directory_index VGA_TEXT_PADDR) with 0.
    change (get_table_index VGA_TEXT_PADDR) with 184.
    eexists. split; [reflexivity|]. split_and!.
    + intros j Hj. change (page_of VGA_TEXT_PADDR) with 184.
      rewrite ld_st_ne, ld_st by auto. destruct (decide _) as [Es|Es].
      * apply slot_inj in Es as [_ ->]; auto with paging.
      * rewrite ld_st_ne, A by auto. zbool; [by subst|done].
    + apply ld_st_eq.
    + intros a [H1 H2]. rewrite !ld_st_ne; try done; [by apply C|by apply H2].
  - rewrite bind_ret, dir_ins_table_run. change (get_directory_index VGA_TEXT_PADDR) with 0.
    eexists. split; [reflexivity|]. split_and!.
    + intros j Hj. rewrite !ld_st_ne, A by auto. by apply Hf.
    + apply ld_st_eq.
    + intros a [H1 H2]. rewrite !ld_st_ne; try done. by apply C.
Qed.

Lemma kernel_table_mapped m table pdir :
  is_frame pdir -> is_frame table ->
  kernel_table m table -> ld (slot pdir 0) m = pde table vga_mode -> kernel_mapped m pdir.
Proof.
  intros Hpd Ht Hk Hd v Hv. unfold KERNEL_SIZE in Hv.
  assert (Hj : 0 <= v / 4096 < 1024) by zdiv.
  destruct (kernel_page_indices _ Hj) as [E1 E2].
  assert (Hdi : get_directory_index v = 0) by (rewrite directory_index_div by lia; change (2^22) with 4194304; zdiv).
  assert (Hti : get_table_index v = v / 4096).
  { rewrite table_index_div. change (2 ^ 12) with 4096. by apply Z.mod_small. }
  rewrite (walk_entries m pdir v table vga_mode (v / 4096 * 4096)
             (if v / 4096 =? page_of VGA_TEXT_PADDR then vga_mode else kernel_mode)).
  - unfold page_of at 4. change PAGE_SIZE with 4096.
    assert (Hs : v / 4096 * 4096 + v mod 4096 = v) by zdiv. rewrite Hs.
    by destruct (v / 4096 =? page_of VGA_TEXT_PADDR).
  - done.
  - by apply page_frame; lia.
  - unfold pde_slot. by rewrite Hdi.
  - rewrite Hti. by apply Hk.
  - done.
Qed.

(** [user_setup_kernel_vmem]: after the first process the shared table maps
    the whole kernel area to itself; user code can reach the VGA page of it and
    nothing else; a later process gets the same view by its directory entry
    alone, and no memory outside the table and that entry changes. *)
Theorem user_setup_kernel_vmem_identity m table pdir pdir2
  (Hpd : is_frame pdir) (Hpd2 : is_frame pdir2) (Ht : is_frame table)
  (Hne : pdir <> table) (Hne2 : pdir2 <> table) (Hdd : pdir <> pdir2) :
  exists m1 m2, user_setup_kernel_vmem table pdir true m = Ret (tt, m1)
    /\ user_setup_kernel_vmem table pdir2 false m1 = Ret (tt, m2)
    /\ kernel_mapped m1 pdir /\ kernel_mapped m2 pdir /\ kernel_mapped m2 pdir2
    /\ forall a, outside pdir table a -> outside pdir2 table a -> ld a m2 = ld a m.
Proof.
  destruct (user_setup_run true table pdir m) as (m1 & E1 & K1 & D1 & O1); try done.
  destruct (user_setup_run false table pdir2 m1) as (m2 & E2 & K2 & D2 & O2); try done.
  exists m1, m2. split_and!; try done.
  - by eapply kernel_table_mapped.
  - eapply kernel_table_mapped; try done. rewrite O2; [done|]. split.
    + intros E. apply slot_inj in E as [? _]; auto with paging.
    + intros j Hj E. apply slot_inj in E as [? _]; auto with paging.
  - by eapply kernel_table_mapped.
  - intros a H1 H2. by rewrite O2, O1.
Qed.

(** ** Concrete instances *)

Module Paging_instances.

Lemma vaddr_split_witness :
  0xeffffff0 = Z.lor (Z.lor (Z.shiftl (get_directory_index 0xeffffff0) PAGE_DIRECTORY_BITS)
                        (Z.shiftl (get_table_index 0xeffffff0) PAGE_TABLE_BITS))
                     (Z.land 0xeffffff0 PAGE_MASK).
Proof. apply (vaddr_split 0xeffffff0). lia. Defined.

Ltac frame := apply (bool_decide_unpack _); vm_compute; exact I.

(** The first page of a process, mapped for user code. *)
Lemma map_page_walk_witness :
  exists m', (dir_ins_table 0x100000 PROCESS_VADDR 0x101000 7 ;;;
              table_map_page 0x101000 PROCESS_VADDR 0x102000 7) ∅ = Ret (tt, m')
    /\ walk m' 0x100000 PROCESS_VADDR = Some (0x102000, true, true).
Proof.
  destruct (map_page_walk ∅ 0x100000 0x101000 PROCESS_VADDR 0x102000 7 7)
    as (m' & H1 & H2 & _); [frame..| |].
  - intros v Hv _. unfold walk_table, ld. rewrite lookup_empty.
    split; [frame|split; frame].
  - exists m'. split; [exact H1|exact H2].
Defined.

Definition mapped : ram := list_to_map [(0x100010, 0x101007); (0x101000, 0x102067)].

Lemma unmap_walk_witness :
  walk mapped 0x100000 PROCESS_VADDR = Some (0x102000, true, true) /\
  exists m', unmap_physical_page 0x100000 PROCESS_VADDR mapped = Ret (tt, m')
    /\ walk m' 0x100000 PROCESS_VADDR = None.
Proof.
  split; [vm_compute; reflexivity|].
  destruct (unmap_walk mapped 0x100000 PROCESS_VADDR) as (m' & H1 & H2 & _);
    [frame..|].
  exists m'. split; [exact H1|exact H2].
Defined.

Lemma user_setup_kernel_vmem_identity_witness :
  exists m1 m2, user_setup_kernel_vmem 0x102000 0x103000 true ∅ = Ret (tt, m1)
    /\ user_setup_kernel_vmem 0x102000 0x105000 false m1 = Ret (tt, m2)
    /\ walk m2 0x105000 0x8000 = Some (0x8000, false, true)
    /\ walk m2 0x105000 0xb8004 = Some (0xb8004, true, true).
Proof.
  destruct (user_setup_kernel_vmem_identity ∅ 0x102000 0x103000 0x105000)
    as (m1 & m2 & H1 & H2 & _ & _ & H3 & _); [frame..|].
  exists m1, m2. split; [exact H1|]. split; [exact H2|].
  split; [apply (H3 0x8000)|apply (H3 0xb8004)]; unfold KERNEL_SIZE; lia.
Defined.

End Paging_instances.
