(* ===== verification/Frames.v ===== *)
(** * Page frames: the FIFO of evictable frames and the frame table

    Models the bookkeeping of [src/src/kernel/memory.c] (lines 108-373): the
    circular buffer [fifo_queue], the arrays [page_frame_info] and
    [page_frame_info_shared] and the list of free frames that is threaded
    through the former.

    Module [Fifo] is proved to be a bounded first-in first-out queue; module
    [Table] to be a frame table with a free list. *)

From S2P Require Import Prelude Sched Paging.

Module Fifo.

Record FIFOQueue : Type := mk_fifo {
  next_in : Z;
  next_out : Z;
  queue : list Z;
  items : Z
}.

(** The array has [PAGEABLE_PAGES] elements and the indices are remainders by
    that number, so every access is in range (lemma [fifo_in_range]). *)
Definition fifo_init : FIFOQueue :=
  mk_fifo 0 0 (replicate (Z.to_nat PAGEABLE_PAGES) 0) 0.

Definition fifo_is_empty (q : FIFOQueue) : bool := items q =? 0.

Definition fifo_is_full (q : FIFOQueue) : bool :=
  u32 (next_in q + 1) mod PAGEABLE_PAGES =? next_out q.

Definition fifo_enqueue (item : Z) (q : FIFOQueue) : bool * FIFOQueue :=
  if fifo_is_full q then (false, q)
  else
    (true, mk_fifo (u32 (next_in q + 1) mod PAGEABLE_PAGES) (next_out q)
             (<[Z.to_nat (next_in q) := item]> (queue q)) (u32 (items q + 1))).

(** The result is the item, whether [*error] was set to 1, and the queue. *)
Definition fifo_dequeue (q : FIFOQueue) : Z * bool * FIFOQueue :=
  let error := fifo_is_empty q in
  let item := default 0 (queue q !! Z.to_nat (next_out q)) in
  (item, error,
   mk_fifo (next_in q) (u32 (next_out q + 1) mod PAGEABLE_PAGES) (queue q) (u32 (items q - 1))).

(** ** The queue as a list *)

(** [q] holds the items [l], oldest first. *)
Record holds (q : FIFOQueue) (l : list Z) : Prop := mk_holds {
  h_size : length (queue q) = Z.to_nat PAGEABLE_PAGES;
  h_out : 0 <= next_out q < PAGEABLE_PAGES;
  h_room : Z.of_nat (length l) < PAGEABLE_PAGES;
  h_in : next_in q = (next_out q + Z.of_nat (length l)) mod PAGEABLE_PAGES;
  h_items : items q = Z.of_nat (length l);
  h_cells : forall i x, l !! i = Some x ->
    queue q !! Z.to_nat ((next_out q + Z.of_nat i) mod PAGEABLE_PAGES) = Some x
}.

Lemma fifo_in_range q l :
  holds q l -> 0 <= next_in q < PAGEABLE_PAGES /\ 0 <= next_out q < PAGEABLE_PAGES.
Proof.
  intros [_ H _ E _ _]. split; [|done]. rewrite E. by apply Z.mod_pos_bound.
Qed.

Lemma next_index i : 0 <= i < PAGEABLE_PAGES -> u32 (i + 1) mod PAGEABLE_PAGES = (i + 1) mod PAGEABLE_PAGES.
Proof. unfold PAGEABLE_PAGES. intros. by rewrite u32_small by lia. Qed.

Lemma fifo_full_length q l :
  holds q l -> fifo_is_full q = (Z.of_nat (length l) =? PAGEABLE_PAGES - 1).
Proof.
  intros H. destruct (fifo_in_range q l H) as [Hin Hout]. unfold fifo_is_full.
  rewrite next_index by done. destruct H as [_ _ Hr E _ _]. rewrite E.
  rewrite Zplus_mod_idemp_l. unfold PAGEABLE_PAGES in *. zbool; [done|zdiv..|done].
Qed.

Lemma holds_init : holds fifo_init [].
Proof. constructor; try done. Qed.

Lemma holds_enqueue q l x :
  holds q l -> Z.of_nat (length l) < PAGEABLE_PAGES - 1 ->
  exists q', fifo_enqueue x q = (true, q') /\ holds q' (l ++ [x]).
Proof.
  intros H Hl. pose proof (fifo_in_range q l H) as [Hin Hout]. unfold fifo_enqueue.
  rewrite (fifo_full_length q l H). destruct (Z.eqb_spec (Z.of_nat (length l)) (PAGEABLE_PAGES - 1)); [lia|].
  eexists. split; [done|]. rewrite next_index by done.
  destruct H as [Hs _ Hr E Hi Hc]. unfold PAGEABLE_PAGES in *.
  constructor; cbn [queue next_out next_in items]; unfold PAGEABLE_PAGES.
  - by rewrite length_insert.
  - done.
  - rewrite length_app. cbn. lia.
  - rewrite E, length_app, Zplus_mod_idemp_l. f_equal. cbn. lia.
  - rewrite Hi, length_app, u32_small; cbn; lia.
  - intros i y Hy. apply lookup_app_Some in Hy as [Hy|[Hi' Hy]].
    + rewrite list_lookup_insert_ne; [by apply Hc|].
      pose proof (lookup_lt_Some _ _ _ Hy). rewrite E. zdiv.
    + apply list_lookup_singleton_Some in Hy as [Hz <-].
      assert (i = length l) as -> by lia.
      rewrite <- E. apply list_lookup_insert_eq. rewrite Hs. lia.
Qed.

Lemma holds_dequeue q x l :
  holds q (x :: l) -> exists q', fifo_dequeue q = (x, false, q') /\ holds q' l.
Proof.
  intros H. pose proof (fifo_in_range q _ H) as [Hin Hout]. unfold fifo_dequeue.
  destruct H as [Hs _ Hr E Hi Hc]. rewrite next_index by done.
  assert (Hx : queue q !! Z.to_nat (next_out q) = Some x).
  { pose proof (Hc O x eq_refl) as Hx. rewrite Z.add_0_r, Z.mod_small in Hx by done. done. }
  rewrite Hx. unfold fifo_is_empty. rewrite Hi. cbn [length] in *. unfold PAGEABLE_PAGES in *.
  destruct (Z.eqb_spec (Z.of_nat (S (length l))) 0); [lia|].
  eexists. split; [done|]. constructor; cbn [queue next_out next_in items]; unfold PAGEABLE_PAGES.
  - done.
  - by apply Z.mod_pos_bound.
  - lia.
  - rewrite E, Zplus_mod_idemp_l. f_equal. lia.
  - rewrite u32_small; lia.
  - intros i y Hy. rewrite Zplus_mod_idemp_l.
    rewrite <- (Hc (S i) y Hy). do 2 f_equal. f_equal. lia.
Qed.

(** The eviction queue is a first-in first-out queue of capacity
    [PAGEABLE_PAGES - 1]: [fifo_enqueue] appends, or reports failure and changes
    nothing when the queue is full; [fifo_dequeue] takes the oldest item. *)
Theorem fifo_refines_list q l (Hq : holds q l) :
  (forall x, if bool_decide (Z.of_nat (length l) < PAGEABLE_PAGES - 1)
             then exists q', fifo_enqueue x q = (true, q') /\ holds q' (l ++ [x])
             else fifo_enqueue x q = (false, q))
  /\ fifo_is_empty q = bool_decide (l = [])
  /\ match l with
     | [] => True
     | x :: t => exists q', fifo_dequeue q = (x, false, q') /\ holds q' t
     end.
Proof.
  split_and!.
  - intros x. case_bool_decide as Hl; [by apply holds_enqueue|].
    unfold fifo_enqueue. rewrite (fifo_full_length q l Hq).
    destruct Hq as [_ _ Hr _ _ _]. by rewrite (proj2 (Z.eqb_eq _ _)) by lia.
  - unfold fifo_is_empty. rewrite (h_items _ _ Hq). by destruct l.
  - destruct l as [|x t]; [done|]. by apply holds_dequeue.
Qed.

(** [fifo_dequeue] on an empty queue reports the error and yet takes an
    item: the count wraps to [2 ^ 32 - 1], after which the queue no longer
    reports that it is empty. *)
Theorem fifo_dequeue_empty q (Hq : holds q []) :
  exists x q', fifo_dequeue q = (x, true, q') /\ items q' = 2 ^ 32 - 1
    /\ fifo_is_empty q' = false /\ next_out q' <> next_out q.
Proof.
  pose proof (fifo_in_range q _ Hq) as [_ Hout]. unfold fifo_dequeue, fifo_is_empty.
  rewrite (h_items _ _ Hq). eexists _, _. split; [done|]. cbn [items next_out].
  split_and!; [done|done|]. rewrite next_index by done. unfold PAGEABLE_PAGES in *. zdiv.
Qed.

Lemma fifo_refines_list_witness :
  exists q, fifo_enqueue 7 fifo_init = (true, q) /\ holds q [7].
Proof.
  destruct (fifo_refines_list fifo_init [] holds_init) as [H _]. exact (H 7).
Defined.

Lemma fifo_dequeue_empty_witness :
  exists x q', fifo_dequeue fifo_init = (x, true, q') /\ items q' = 2 ^ 32 - 1.
Proof.
  destruct (fifo_dequeue_empty fifo_init holds_init) as (x & q' & H1 & H2 & _).
  exists x, q'. split; [exact H1|exact H2].
Defined.

End Fifo.

Module Table.

(** A [page_frame_info_t *]: null, or an element of one of the two arrays. *)
Inductive iptr : Type :=
| INull
| IFrame (i : nat)
| IShared (i : nat).

#[global] Instance iptr_eq_dec : EqDecision iptr.
Proof. solve_decision. Defined.

Record page_frame_info_t : Type := mk_info {
  owner : ptr;
  next_shared_info : iptr;
  next_free_page : iptr;
  paddr : Z;
  vaddr : Z;
  info_mode : Z
}.

Definition set_owner (v : ptr) (r : page_frame_info_t) : page_frame_info_t :=
  mk_info v (next_shared_info r) (next_free_page r) (paddr r) (vaddr r) (info_mode r).
Definition set_next_shared_info (v : iptr) (r : page_frame_info_t) : page_frame_info_t :=
  mk_info (owner r) v (next_free_page r) (paddr r) (vaddr r) (info_mode r).
Definition set_next_free_page (v : iptr) (r : page_frame_info_t) : page_frame_info_t :=
  mk_info (owner r) (next_shared_info r) v (paddr r) (vaddr r) (info_mode r).
Definition set_paddr (v : Z) (r : page_frame_info_t) : page_frame_info_t :=
  mk_info (owner r) (next_shared_info r) (next_free_page r) v (vaddr r) (info_mode r).
Definition set_vaddr (v : Z) (r : page_frame_info_t) : page_frame_info_t :=
  mk_info (owner r) (next_shared_info r) (next_free_page r) (paddr r) v (info_mode r).
Definition set_info_mode (v : Z) (r : page_frame_info_t) : page_frame_info_t :=
  mk_info (owner r) (next_shared_info r) (next_free_page r) (paddr r) (vaddr r) v.

(** [set_frame_info(frame, ownerv, next_shared_infov, paddrv, info_modev)] *)
Definition set_frame_info (o : ptr) (n : iptr) (p m : Z) (r : page_frame_info_t) : page_frame_info_t :=
  set_info_mode m (set_paddr p (set_next_shared_info n (set_owner o r))).

(** The globals [page_frame_info], [page_frame_info_shared] and
    [page_free_head]. *)
Record frames : Type := mk_frames {
  page_frame_info : list page_frame_info_t;
  page_frame_info_shared : list page_frame_info_t;
  page_free_head : iptr
}.

Definition set_page_frame_info (v : list page_frame_info_t) (s : frames) : frames :=
  mk_frames v (page_frame_info_shared s) (page_free_head s).
Definition set_page_frame_info_shared (v : list page_frame_info_t) (s : frames) : frames :=
  mk_frames (page_frame_info s) v (page_free_head s).
Definition set_page_free_head (v : iptr) (s : frames) : frames :=
  mk_frames (page_frame_info s) (page_frame_info_shared s) v.

(** Access through an info pointer; there is nothing behind the null pointer or
    outside the arrays. *)
Definition info_at (p : iptr) (s : frames) : option page_frame_info_t :=
  match p with
  | INull => None
  | IFrame i => page_frame_info s !! i
  | IShared i => page_frame_info_shared s !! i
  end.

Definition info_upd (p : iptr) (r : page_frame_info_t) (s : frames) : frames :=
  match p with
  | INull => s
  | IFrame i => set_page_frame_info (<[i := r]> (page_frame_info s)) s
  | IShared i => set_page_frame_info_shared (<[i := r]> (page_frame_info_shared s)) s
  end.

Definition rdi {A} (p : iptr) (f : page_frame_info_t -> A) : M frames A :=
  fun s => match info_at p s with Some r => Ret (f r, s) | None => Stuck end.

Definition wri (p : iptr) (f : page_frame_info_t -> page_frame_info_t) : M frames unit :=
  fun s => match info_at p s with Some r => Ret (tt, info_upd p (f r) s) | None => Stuck end.

Definition calculate_info_index (paddr : Z) : Z :=
  u32 (paddr - PAGING_AREA_MIN_PADDR) / PAGE_SIZE.

(** [&page_frame_info[calculate_info_index(paddr)]] *)
Definition info_of (paddr : Z) : iptr := IFrame (Z.to_nat (calculate_info_index paddr)).

(** The loop body for index [i]; [paddr] has been advanced by the iterations so
    far. *)
Definition init_frame (i : Z) : M frames unit :=
  let p := u32 (PAGING_AREA_MIN_PADDR + i * PAGE_SIZE) in
  wri (IFrame (Z.to_nat i)) (set_frame_info NULL INull p 0) ;;;
  wri (IShared (Z.to_nat i)) (set_frame_info NULL INull 0 0) ;;;
  wri (IFrame (Z.to_nat (i - 1))) (set_next_free_page (IFrame (Z.to_nat i))).

Definition initialize_page_frame_infos : M frames unit :=
  modify (set_page_free_head (IFrame 0)) ;;;
  wri (IFrame 0) (set_frame_info NULL INull PAGING_AREA_MIN_PADDR 0) ;;;
  wri (IShared 0) (set_frame_info NULL INull 0 0) ;;;
  for_up (trip_count 1 PAGEABLE_PAGES 1) 1 1 init_frame ;;;
  wri (IFrame (Z.to_nat (PAGEABLE_PAGES - 1))) (set_next_free_page INull).

Definition add_page_frame_to_free_list_info (paddress : Z) : M frames unit :=
  let page_frame := info_of paddress in
  h <-- gets page_free_head ;;
  wri page_frame (set_next_free_page h) ;;;
  modify (set_page_free_head page_frame).

Definition remove_page_frame_from_free_list_info : M frames iptr :=
  h <-- gets page_free_head ;;
  if decide (h = INull) then ret INull
  else
    n <-- rdi h next_free_page ;;
    modify (set_page_free_head n) ;;;
    wri h (set_next_free_page INull) ;;;
    ret h.

(** ** The free list *)

(** Frames linked by [next_free_page]. *)
Fixpoint flist (infos : list page_frame_info_t) (h : iptr) (l : list nat) : Prop :=
  match l with
  | [] => h = INull
  | i :: l' => h = IFrame i /\ exists r, infos !! i = Some r /\ flist infos (next_free_page r) l'
  end.

Definition free_list (s : frames) (l : list nat) : Prop :=
  flist (page_frame_info s) (page_free_head s) l /\ NoDup l.

(** Frame [i] of the table describes the [i]-th page of the paging area. *)
Definition frame_addr (i : nat) : Z := PAGING_AREA_MIN_PADDR + Z.of_nat i * PAGE_SIZE.

Definition addressed (s : frames) : Prop :=
  length (page_frame_info s) = Z.to_nat PAGEABLE_PAGES
  /\ length (page_frame_info_shared s) = Z.to_nat PAGEABLE_PAGES
  /\ forall i r, page_frame_info s !! i = Some r -> paddr r = frame_addr i.

Lemma info_index_addr i :
  (i < Z.to_nat PAGEABLE_PAGES)%nat -> calculate_info_index (frame_addr i) = Z.of_nat i.
Proof.
  unfold PAGEABLE_PAGES, calculate_info_index, frame_addr, PAGE_SIZE, PAGING_AREA_MIN_PADDR.
  intros. rewrite u32_small by lia. rewrite Z.add_simpl_l. by apply Z.div_mul.
Qed.

Lemma info_of_addr i : (i < Z.to_nat PAGEABLE_PAGES)%nat -> info_of (frame_addr i) = IFrame i.
Proof. intros. unfold info_of. by rewrite info_index_addr, Nat2Z.id. Qed.

Lemma frame_addr_frame i : (i < Z.to_nat PAGEABLE_PAGES)%nat -> is_frame (frame_addr i).
Proof.
  unfold PAGEABLE_PAGES, is_frame, frame_addr, PAGE_SIZE, PAGING_AREA_MIN_PADDR. intros.
  split; [lia|]. change 0x100000 with (256 * 0x1000). rewrite <- Z.mul_add_distr_r. by apply Z.mod_mul.
Qed.

Lemma flist_insert infos h l i r : i ∉ l -> flist infos h l -> flist (<[i := r]> infos) h l.
Proof.
  revert h. induction l as [|j l IH]; [done|]. intros h Hi (-> & r' & Hj & Hl).
  split; [done|]. exists r'. rewrite list_lookup_insert_ne by set_solver.
  split; [done|]. apply IH; [set_solver|done].
Qed.

Lemma wri_run p f s r : info_at p s = Some r -> wri p f s = Ret (tt, info_upd p (f r) s).
Proof. unfold wri. by intros ->. Qed.

Lemma wri_ok {B} p f s r (k : unit -> M frames B) :
  info_at p s = Some r -> bind (wri p f) k s = k tt (info_upd p (f r) s).
Proof. intros H. by rewrite (bind_step _ _ _ _ _ (wri_run p f s r H)). Qed.

Lemma rdi_ok {A B} p (f : page_frame_info_t -> A) s r (k : A -> M frames B) :
  info_at p s = Some r -> bind (rdi p f) k s = k (f r) s.
Proof. intros H. unfold bind, rdi. by rewrite H. Qed.

(** What [remove_page_frame_from_free_list_info] does to the table. *)
Definition taken_frame (i : nat) (r : page_frame_info_t) (s : frames) : frames :=
  set_page_frame_info (<[i := set_next_free_page INull r]> (page_frame_info s))
    (set_page_free_head (next_free_page r) s).

Lemma remove_free_run s i l r :
  free_list s (i :: l) -> page_frame_info s !! i = Some r ->
  remove_page_frame_from_free_list_info s = Ret (IFrame i, taken_frame i r s)
  /\ free_list (taken_frame i r s) l.
Proof.
  intros [(Hh & r' & Hr' & Hl) Hnd] Hr. rewrite Hr in Hr'. injection Hr' as <-.
  apply list.NoDup_cons in Hnd as [Hi Hnd]. split.
  - unfold remove_page_frame_from_free_list_info. rewrite bind_gets, Hh.
    rewrite decide_False by done. rewrite (rdi_ok _ _ _ r) by done. rewrite bind_modify.
    by rewrite (wri_ok _ _ _ r) by done.
  - split; [|done]. by apply flist_insert.
Qed.

Lemma remove_free_empty s :
  free_list s [] -> remove_page_frame_from_free_list_info s = Ret (INull, s).
Proof.
  intros [H _]. unfold remove_page_frame_from_free_list_info. rewrite bind_gets, H.
  by rewrite decide_True.
Qed.

Lemma add_free_run s i l :
  addressed s -> free_list s l -> (i < Z.to_nat PAGEABLE_PAGES)%nat -> i ∉ l ->
  exists s', add_page_frame_to_free_list_info (frame_addr i) s = Ret (tt, s')
    /\ free_list s' (i :: l) /\ addressed s'.
Proof.
  intros (L1 & L2 & Ha) [Hf Hnd] Hi Hil.
  destruct (lookup_lt_is_Some_2 (page_frame_info s) i) as [r Hr]; [by rewrite L1|].
  unfold add_page_frame_to_free_list_info. rewrite info_of_addr by done.
  rewrite bind_gets, (wri_ok _ _ _ r) by done.
  eexists. split; [reflexivity|]. split; [split|split_and!]; cbn.
  - split; [done|]. eexists. rewrite list_lookup_insert_eq by (by rewrite L1).
    split; [done|]. by apply flist_insert.
  - by constructor.
  - by rewrite length_insert.
  - done.
  - intros j r' Hj. destruct (decide (j = i)) as [->|Hne].
    + rewrite list_lookup_insert_eq in Hj by (by rewrite L1). injection Hj as <-.
      by apply (Ha i r).
    + rewrite list_lookup_insert_ne in Hj by done. by apply Ha.
Qed.

(** The free list is a stack of frames: [remove_page_frame_from_free_list_info]
    takes the frame at its head, or returns the null pointer when it is empty,
    and [add_page_frame_to_free_list_info] pushes the frame of a physical
    address. *)
Theorem free_list_refines_stack s l (Ha : addressed s) (Hl : free_list s l) :
  match l with
  | [] => remove_page_frame_from_free_list_info s = Ret (INull, s)
  | i :: t => exists s', remove_page_frame_from_free_list_info s = Ret (IFrame i, s')
                /\ free_list s' t
  end
  /\ forall i, (i < Z.to_nat PAGEABLE_PAGES)%nat -> i ∉ l ->
       exists s', add_page_frame_to_free_list_info (frame_addr i) s = Ret (tt, s')
         /\ free_list s' (i :: l).
Proof.
  split.
  - destruct l as [|i t]; [by apply remove_free_empty|].
    pose proof Hl as [(_ & r & Hr & _) _].
    destruct (remove_free_run s i t r Hl Hr). eauto.
  - intros i Hi Hil. destruct (add_free_run s i l) as (s' & H1 & H2 & _); try done. eauto.
Qed.

(** ** Initialisation *)

(** The table after the indices below [k] were initialised. *)
Record init_upto (k : nat) (s : frames) : Prop := mk_init_upto {
  iu_len : length (page_frame_info s) = Z.to_nat PAGEABLE_PAGES;
  iu_slen : length (page_frame_info_shared s) = Z.to_nat PAGEABLE_PAGES;
  iu_head : page_free_head s = IFrame 0;
  iu_info : forall j, (j < k)%nat -> exists r, page_frame_info s !! j = Some r
    /\ owner r = NULL /\ next_shared_info r = INull /\ info_mode r = 0 /\ paddr r = frame_addr j
    /\ ((S j < k)%nat -> next_free_page r = IFrame (S j));
  iu_shared : forall j, (j < k)%nat -> exists r, page_frame_info_shared s !! j = Some r
    /\ owner r = NULL /\ next_shared_info r = INull
}.

Lemma init_frame_run k s :
  (0 < k)%nat -> (k < Z.to_nat PAGEABLE_PAGES)%nat -> init_upto k s ->
  exists s', init_frame (Z.of_nat k) s = Ret (tt, s') /\ init_upto (S k) s'.
Proof.
  intros H0 Hk [L1 L2 Hh Hi Hs].
  destruct (lookup_lt_is_Some_2 (page_frame_info s) k) as [r Hr]; [by rewrite L1|].
  destruct (lookup_lt_is_Some_2 (page_frame_info_shared s) k) as [q Hq]; [by rewrite L2|].
  destruct (Hi (k - 1)%nat) as (r1 & Hr1 & F1 & F2 & F3 & F4 & _); [lia|].
  unfold init_frame. rewrite Nat2Z.id.
  replace (Z.to_nat (Z.of_nat k - 1)) with (k - 1)%nat by lia.
  assert (Ep : u32 (PAGING_AREA_MIN_PADDR + Z.of_nat k * PAGE_SIZE) = frame_addr k).
  { unfold frame_addr, PAGING_AREA_MIN_PADDR, PAGE_SIZE, PAGEABLE_PAGES in *. apply u32_small. lia. }
  rewrite Ep. rewrite (wri_ok _ _ _ r) by done. rewrite (wri_ok _ _ _ q) by done.
  rewrite (wri_run _ _ _ r1).
  2: { cbn. rewrite list_lookup_insert_ne by lia. done. }
  eexists. split; [reflexivity|]. constructor; cbn.
  - by rewrite !length_insert.
  - by rewrite !length_insert.
  - done.
  - intros j Hj. destruct (decide (j = k)) as [->|Hjk].
    + eexists. rewrite list_lookup_insert_ne by lia.
      rewrite list_lookup_insert_eq by (by rewrite L1). split; [done|]. split_and!; try done. lia.
    + destruct (decide (j = k - 1)%nat) as [->|Hj1].
      * eexists. rewrite list_lookup_insert_eq by (rewrite length_insert; lia).
        split; [done|]. split_and!; try done. intros _. cbn. f_equal. lia.
      * rewrite !list_lookup_insert_ne by lia.
        destruct (Hi j) as (r' & ? & ? & ? & ? & ? & Hn); [lia|]. exists r'.
        split_and!; try done. intros _. apply Hn. lia.
  - intros j Hj. destruct (decide (j = k)) as [->|Hjk].
    + eexists. rewrite list_lookup_insert_eq by (by rewrite L2). by split_and!.
    + rewrite list_lookup_insert_ne by done. apply Hs. lia.
Qed.

Lemma init_flist s n : forall k,
  (k + n = Z.to_nat PAGEABLE_PAGES)%nat ->
  (forall j, (k <= j)%nat -> (j < Z.to_nat PAGEABLE_PAGES)%nat ->
     exists r, page_frame_info s !! j = Some r
       /\ next_free_page r = if decide (S j = Z.to_nat PAGEABLE_PAGES) then INull else IFrame (S j)) ->
  flist (page_frame_info s) (if decide (n = O) then INull else IFrame k) (seq k n).
Proof.
  induction n as [|n IH]; intros k Hk Hall; [done|]. cbn [seq flist].
  destruct (Hall k) as (r & Hr & Hn); [lia..|].
  split; [by rewrite decide_False|]. exists r. split; [done|]. rewrite Hn.
  specialize (IH (S k)). destruct (decide (n = O)) as [->|Hn0].
  - rewrite decide_True by lia. apply IH; [lia|]. intros. apply Hall; lia.
  - rewrite decide_False by lia. apply IH; [lia|]. intros. apply Hall; lia.
Qed.

Lemma for_init_frame : forall n k s,
  (0 < k)%nat -> (k + n = Z.to_nat PAGEABLE_PAGES)%nat -> init_upto k s ->
  exists s', for_up n (Z.of_nat k) 1 init_frame s = Ret (tt, s')
    /\ init_upto (Z.to_nat PAGEABLE_PAGES) s'.
Proof.
  induction n as [|n IH]; intros k s H0 Hk HI; cbn [for_up].
  - exists s. split; [done|]. by replace (Z.to_nat PAGEABLE_PAGES) with k by lia.
  - destruct (init_frame_run k s) as (s1 & E & H1); [done|lia|done|].
    rewrite (bind_step _ _ _ _ _ E). replace (Z.of_nat k + 1) with (Z.of_nat (S k)) by lia.
    apply IH; [lia|lia|done].
Qed.

(** The statements before the loop. *)
Lemma init_first s r q :
  length (page_frame_info s) = 33%nat -> length (page_frame_info_shared s) = 33%nat ->
  init_upto 1 (info_upd (IShared 0) (set_frame_info NULL INull 0 0 q)
    (info_upd (IFrame 0) (set_frame_info NULL INull PAGING_AREA_MIN_PADDR 0 r)
      (set_page_free_head (IFrame 0) s))).
Proof.
  intros L1 L2. constructor; cbn.
  - by rewrite length_insert.
  - by rewrite length_insert.
  - done.
  - intros j Hj. assert (j = O) as -> by lia. eexists.
    rewrite list_lookup_insert_eq by lia. split; [done|]. split_and!; try done. lia.
  - intros j Hj. assert (j = O) as -> by lia. eexists.
    rewrite list_lookup_insert_eq by lia. by split_and!.
Qed.

(** The last statement ends the list. *)
Lemma init_finish s :
  init_upto (Z.to_nat PAGEABLE_PAGES) s ->
  exists s', wri (IFrame (Z.to_nat (PAGEABLE_PAGES - 1))) (set_next_free_page INull) s = Ret (tt, s')
    /\ page_free_head s' = IFrame 0 /\ length (page_frame_info s') = 33%nat
    /\ page_frame_info_shared s' = page_frame_info_shared s
    /\ forall j, (j < 33)%nat -> exists r, page_frame_info s' !! j = Some r
         /\ owner r = NULL /\ next_shared_info r = INull /\ info_mode r = 0 /\ paddr r = frame_addr j
         /\ next_free_page r = if decide (S j = 33%nat) then INull else IFrame (S j).
Proof.
  change (Z.to_nat PAGEABLE_PAGES) with 33%nat. intros [I1 I2 I3 I4 I5].
  change (Z.to_nat PAGEABLE_PAGES) with 33%nat in *.
  destruct (I4 32%nat) as (rl & Hl & F1 & F2 & F3 & F4 & _); [lia|].
  change (Z.to_nat (PAGEABLE_PAGES - 1)) with 32%nat. rewrite (wri_run _ _ _ rl) by done.
  eexists. split; [reflexivity|]. cbn. split_and!; try done; [by rewrite length_insert|].
  intros j Hj. destruct (decide (j = 32%nat)) as [->|Hne].
  - rewrite list_lookup_insert_eq by lia. eexists. by split_and!.
  - rewrite list_lookup_insert_ne by done.
    destruct (I4 j) as (r' & ? & ? & ? & ? & ? & Hnx); [lia|]. exists r'.
    rewrite decide_False by lia. split_and!; try done. apply Hnx. lia.
Qed.

Lemma initialize_run s :
  length (page_frame_info s) = Z.to_nat PAGEABLE_PAGES ->
  length (page_frame_info_shared s) = Z.to_nat PAGEABLE_PAGES ->
  exists s', initialize_page_frame_infos s = Ret (tt, s')
    /\ free_list s' (seq 0 (Z.to_nat PAGEABLE_PAGES)) /\ addressed s'
    /\ (forall i r, page_frame_info s' !! i = Some r ->
          owner r = NULL /\ next_shared_info r = INull /\ info_mode r = 0)
    /\ (forall i r, page_frame_info_shared s' !! i = Some r -> owner r = NULL).
Proof.
  change (Z.to_nat PAGEABLE_PAGES) with 33%nat. intros L1 L2.
  destruct (lookup_lt_is_Some_2 (page_frame_info s) 0) as [r Hr]; [lia|].
  destruct (lookup_lt_is_Some_2 (page_frame_info_shared s) 0) as [q Hq]; [lia|].
  unfold initialize_page_frame_infos. rewrite bind_modify.
  rewrite (wri_ok _ _ _ r) by done. rewrite (wri_ok _ _ _ q) by done.
  edestruct (for_init_frame 32 1) as (s1 & E & HI); [lia|done|apply init_first; eassumption|].
  change (trip_count 1 PAGEABLE_PAGES 1) with 32%nat.
  change (for_up 32 1 1 init_frame) with (for_up 32 (Z.of_nat 1) 1 init_frame).
  rewrite (bind_step _ _ _ _ _ E).
  destruct (init_finish s1 HI) as (s' & E' & Hh & Hlen & Hsh & Hall).
  exists s'. rewrite E'. split; [done|].
  assert (Hat : forall i r, page_frame_info s' !! i = Some r ->
    owner r = NULL /\ next_shared_info r = INull /\ info_mode r = 0 /\ paddr r = frame_addr i).
  { intros i r' Hi. pose proof (lookup_lt_Some _ _ _ Hi) as Hlt.
    destruct (Hall i) as (r'' & Hi' & ? & ? & ? & ? & _); [lia|].
    rewrite Hi in Hi'. injection Hi' as <-. done. }
  split_and!.
  - split; [|apply NoDup_seq]. rewrite Hh. apply (init_flist s' 33 0); [done|].
    intros j _ Hj. destruct (Hall j) as (r' & Hr' & _ & _ & _ & _ & Hnx); [done|]. by exists r'.
  - split_and!; [done|rewrite Hsh; apply (iu_slen _ _ HI)|]. intros i r' Hi. by apply Hat.
  - intros i r' Hi. destruct (Hat i r' Hi) as (? & ? & ? & _). done.
  - intros i r' Hi. rewrite Hsh in Hi. pose proof (lookup_lt_Some _ _ _ Hi) as Hlt.
    rewrite (iu_slen _ _ HI) in Hlt.
    destruct (iu_shared _ _ HI i) as (r'' & Hi' & ? & _); [done|].
    rewrite Hi in Hi'. by injection Hi' as <-.
Qed.

(** [initialize_page_frame_infos] puts every frame of the paging area on
    the free list, in ascending order, each with its physical address and no
    owner. *)
Theorem initialize_free_list s
  (H1 : length (page_frame_info s) = Z.to_nat PAGEABLE_PAGES)
  (H2 : length (page_frame_info_shared s) = Z.to_nat PAGEABLE_PAGES) :
  exists s', initialize_page_frame_infos s = Ret (tt, s')
    /\ free_list s' (seq 0 (Z.to_nat PAGEABLE_PAGES)) /\ addressed s'
    /\ forall i r, page_frame_info s' !! i = Some r -> owner r = NULL /\ info_mode r = 0.
Proof.
  destruct (initialize_run s H1 H2) as (s' & E & F & A & O & _). exists s'. split_and!; try done.
  intros i r Hr. destruct (O i r Hr) as (? & _ & ?). done.
Qed.

(** ** Concrete instances *)

Definition blank : page_frame_info_t := mk_info NULL INull INull 0 0 0.

Definition boot_frames : frames := mk_frames (replicate 33 blank) (replicate 33 blank) INull.

Lemma initialize_free_list_witness :
  exists s', initialize_page_frame_infos boot_frames = Ret (tt, s')
    /\ free_list s' (seq 0 33).
Proof.
  destruct (initialize_free_list boot_frames eq_refl eq_refl) as (s' & H1 & H2 & _).
  exists s'. split; [exact H1|exact H2].
Defined.

Lemma free_list_refines_stack_witness :
  exists s s', initialize_page_frame_infos boot_frames = Ret (tt, s)
    /\ remove_page_frame_from_free_list_info s = Ret (IFrame 0, s')
    /\ free_list s' (seq 1 32).
Proof.
  destruct (initialize_run boot_frames eq_refl eq_refl) as (s & H1 & H2 & H3 & _).
  destruct (free_list_refines_stack s (seq 0 33) H3 H2) as [(s' & H4 & H5) _].
  exists s, s'. split; [exact H1|split; [exact H4|exact H5]].
Defined.

End Table.
