(* ===== verification/Vmem.v ===== *)
(** * Virtual memory: allocation, eviction, demand paging

    Models the operations of [src/src/kernel/memory.c] on top of [Paging] (page
    tables), [Frames] (frame table, FIFO), [Sched] (control blocks, critical
    sections) and [Sync] (locks).

    The block device is an interface, [BlockDevice]: [scsi_read] and
    [scsi_write] of [src/src/kernel/usb/scsi.h], a sector being 128 words.
    [BlockDeviceLaws] says what a working device promises; [ideal_disk] is one.

    The calls that only print ([pr_log], [pr_debug], [pr_error],
    [print_fifo_queue], [print_page_table_info], [log_interrupt_frame]) have no
    effect on this state and are left out; the critical sections around them
    are kept. *)

From S2P Require Import Prelude Sched Ring Sync Paging Frames.
Export Fifo Table.

(** ** The block device *)

Class BlockDevice (D : Type) : Type := {
  (** Return code, the words transferred, the device afterwards. *)
  scsi_read (block_start block_count : Z) (d : D) : Z * list Z * D;
  scsi_write (block_start block_count : Z) (data : list Z) (d : D) : Z * D
}.

Definition SECTOR_WORDS : Z := SECTOR_SIZE / 4.

(** A 32-bit word. *)
Definition is_word (w : Z) : Prop := 0 <= w < 2 ^ 32.

Class BlockDeviceLaws (D : Type) `{BlockDevice D} : Type := {
  sector : D -> Z -> list Z;
  blocks : D -> Z;
  sector_length d i : length (sector d i) = Z.to_nat SECTOR_WORDS;
  read_sectors loc count d :
    0 <= loc -> 0 < count -> loc + count <= blocks d ->
    exists d', scsi_read loc count d = (0, mjoin (sector d <$> seqZ loc count), d')
      /\ blocks d' = blocks d /\ forall i, sector d' i = sector d i;
  write_sectors loc count data d :
    0 <= loc -> 0 < count -> loc + count <= blocks d ->
    length data = Z.to_nat (count * SECTOR_WORDS) -> Forall is_word data ->
    exists d', scsi_write loc count data d = (0, d') /\ blocks d' = blocks d
      /\ forall i, sector d' i =
           if bool_decide (loc <= i < loc + count)
           then take (Z.to_nat SECTOR_WORDS) (drop (Z.to_nat ((i - loc) * SECTOR_WORDS)) data)
           else sector d i
}.

(** ** Global state *)

(** The globals of memory.c, with the process subsystem, physical memory, the
    block device and the register with the faulting address. *)
Record mm {D : Type} : Type := mk_mm {
  kern : kst;
  mem : ram;
  fr : frames;
  fifo_queue : FIFOQueue;
  kernel_pdir : Z;
  user_kernel_ptable : Z;
  first_process : Z;
  first_process_pid : Z;
  number_of_pinned_page_frames : Z;
  next_free_mem : Z;
  random_index_val : Z;
  page_map_lock : lock_t;
  write_buffer_lock : lock_t;
  read_buffer_lock : lock_t;
  page_frame_info_lock : spinlock_t;
  pinned_pages_counter_lock : spinlock_t;
  next_free_mem_lock : spinlock_t;
  read_buffer : list Z;
  disk : D;
  cr2 : Z
}.
Arguments mm D : clear implicits.

Definition set_kern {D} (v : kst) (r : mm D) : mm D :=
  {| kern := v; mem := mem r; fr := fr r; fifo_queue := fifo_queue r; kernel_pdir :=
     kernel_pdir r; user_kernel_ptable := user_kernel_ptable r; first_process :=
     first_process r; first_process_pid := first_process_pid r;
     number_of_pinned_page_frames := number_of_pinned_page_frames r; next_free_mem :=
     next_free_mem r; random_index_val := random_index_val r; page_map_lock :=
     page_map_lock r; write_buffer_lock := write_buffer_lock r; read_buffer_lock :=
     read_buffer_lock r; page_frame_info_lock := page_frame_info_lock r;
     pinned_pages_counter_lock := pinned_pages_counter_lock r; next_free_mem_lock :=
     next_free_mem_lock r; read_buffer := read_buffer r; disk := disk r; cr2 := cr2 r
     |}.
Definition set_mem {D} (v : ram) (r : mm D) : mm D :=
  {| kern := kern r; mem := v; fr := fr r; fifo_queue := fifo_queue r; kernel_pdir :=
     kernel_pdir r; user_kernel_ptable := user_kernel_ptable r; first_process :=
     first_process r; first_process_pid := first_process_pid r;
     number_of_pinned_page_frames := number_of_pinned_page_frames r; next_free_mem :=
     next_free_mem r; random_index_val := random_index_val r; page_map_lock :=
     page_map_lock r; write_buffer_lock := write_buffer_lock r; read_buffer_lock :=
     read_buffer_lock r; page_frame_info_lock := page_frame_info_lock r;
     pinned_pages_counter_lock := pinned_pages_counter_lock r; next_free_mem_lock :=
     next_free_mem_lock r; read_buffer := read_buffer r; disk := disk r; cr2 := cr2 r
     |}.
Definition set_fr {D} (v : frames) (r : mm D) : mm D :=
  {| kern := kern r; mem := mem r; fr := v; fifo_queue := fifo_queue r; kernel_pdir :=
     kernel_pdir r; user_kernel_ptable := user_kernel_ptable r; first_process :=
     first_process r; first_process_pid := first_process_pid r;
     number_of_pinned_page_frames := number_of_pinned_page_frames r; next_free_mem :=
     next_free_mem r; random_index_val := random_index_val r; page_map_lock :=
     page_map_lock r; write_buffer_lock := write_buffer_lock r; read_buffer_lock :=
     read_buffer_lock r; page_frame_info_lock := page_frame_info_lock r;
     pinned_pages_counter_lock := pinned_pages_counter_lock r; next_free_mem_lock :=
     next_free_mem_lock r; read_buffer := read_buffer r; disk := disk r; cr2 := cr2 r
     |}.
Definition set_fifo_queue {D} (v : FIFOQueue) (r : mm D) : mm D :=
  {| kern := kern r; mem := mem r; fr := fr r; fifo_queue := v; kernel_pdir :=
     kernel_pdir r; user_kernel_ptable := user_kernel_ptable r; first_process :=
     first_process r; first_process_pid := first_process_pid r;
     number_of_pinned_page_frames := number_of_pinned_page_frames r; next_free_mem :=
     next_free_mem r; random_index_val := random_index_val r; page_map_lock :=
     page_map_lock r; write_buffer_lock := write_buffer_lock r; read_buffer_lock :=
     read_buffer_lock r; page_frame_info_lock := page_frame_info_lock r;
     pinned_pages_counter_lock := pinned_pages_counter_lock r; next_free_mem_lock :=
     next_free_mem_lock r; read_buffer := read_buffer r; disk := disk r; cr2 := cr2 r
     |}.
Definition set_kernel_pdir {D} (v : Z) (r : mm D) : mm D :=
  {| kern := kern r; mem := mem r; fr := fr r; fifo_queue := fifo_queue r; kernel_pdir
     := v; user_kernel_ptable := user_kernel_ptable r; first_process := first_process
     r; first_process_pid := first_process_pid r; number_of_pinned_page_frames :=
     number_of_pinned_page_frames r; next_free_mem := next_free_mem r;
     random_index_val := random_index_val r; page_map_lock := page_map_lock r;
     write_buffer_lock := write_buffer_lock r; read_buffer_lock := read_buffer_lock r;
     page_frame_info_lock := page_frame_info_lock r; pinned_pages_counter_lock :=
     pinned_pages_counter_lock r; next_free_mem_lock := next_free_mem_lock r;
     read_buffer := read_buffer r; disk := disk r; cr2 := cr2 r |}.
Definition set_user_kernel_ptable {D} (v : Z) (r : mm D) : mm D :=
  {| kern := kern r; mem := mem r; fr := fr r; fifo_queue := fifo_queue r; kernel_pdir
     := kernel_pdir r; user_kernel_ptable := v; first_process := first_process r;
     first_process_pid := first_process_pid r; number_of_pinned_page_frames :=
     number_of_pinned_page_frames r; next_free_mem := next_free_mem r;
     random_index_val := random_index_val r; page_map_lock := page_map_lock r;
     write_buffer_lock := write_buffer_lock r; read_buffer_lock := read_buffer_lock r;
     page_frame_info_lock := page_frame_info_lock r; pinned_pages_counter_lock :=
     pinned_pages_counter_lock r; next_free_mem_lock := next_free_mem_lock r;
     read_buffer := read_buffer r; disk := disk r; cr2 := cr2 r |}.
Definition set_first_process {D} (v : Z) (r : mm D) : mm D :=
  {| kern := kern r; mem := mem r; fr := fr r; fifo_queue := fifo_queue r; kernel_pdir
     := kernel_pdir r; user_kernel_ptable := user_kernel_ptable r; first_process := v;
     first_process_pid := first_process_pid r; number_of_pinned_page_frames :=
     number_of_pinned_page_frames r; next_free_mem := next_free_mem r;
     random_index_val := random_index_val r; page_map_lock := page_map_lock r;
     write_buffer_lock := write_buffer_lock r; read_buffer_lock := read_buffer_lock r;
     page_frame_info_lock := page_frame_info_lock r; pinned_pages_counter_lock :=
     pinned_pages_counter_lock r; next_free_mem_lock := next_free_mem_lock r;
     read_buffer := read_buffer r; disk := disk r; cr2 := cr2 r |}.
Definition set_first_process_pid {D} (v : Z) (r : mm D) : mm D :=
  {| kern := kern r; mem := mem r; fr := fr r; fifo_queue := fifo_queue r; kernel_pdir
     := kernel_pdir r; user_kernel_ptable := user_kernel_ptable r; first_process :=
     first_process r; first_process_pid := v; number_of_pinned_page_frames :=
     number_of_pinned_page_frames r; next_free_mem := next_free_mem r;
     random_index_val := random_index_val r; page_map_lock := page_map_lock r;
     write_buffer_lock := write_buffer_lock r; read_buffer_lock := read_buffer_lock r;
     page_frame_info_lock := page_frame_info_lock r; pinned_pages_counter_lock :=
     pinned_pages_counter_lock r; next_free_mem_lock := next_free_mem_lock r;
     read_buffer := read_buffer r; disk := disk r; cr2 := cr2 r |}.
Definition set_number_of_pinned_page_frames {D} (v : Z) (r : mm D) : mm D :=
  {| kern := kern r; mem := mem r; fr := fr r; fifo_queue := fifo_queue r; kernel_pdir
     := kernel_pdir r; user_kernel_ptable := user_kernel_ptable r; first_process :=
     first_process r; first_process_pid := first_process_pid r;
     number_of_pinned_page_frames := v; next_free_mem := next_free_mem r;
     random_index_val := random_index_val r; page_map_lock := page_map_lock r;
     write_buffer_lock := write_buffer_lock r; read_buffer_lock := read_buffer_lock r;
     page_frame_info_lock := page_frame_info_lock r; pinned_pages_counter_lock :=
     pinned_pages_counter_lock r; next_free_mem_lock := next_free_mem_lock r;
     read_buffer := read_buffer r; disk := disk r; cr2 := cr2 r |}.
Definition set_next_free_mem {D} (v : Z) (r : mm D) : mm D :=
  {| kern := kern r; mem := mem r; fr := fr r; fifo_queue := fifo_queue r; kernel_pdir
     := kernel_pdir r; user_kernel_ptable := user_kernel_ptable r; first_process :=
     first_process r; first_process_pid := first_process_pid r;
     number_of_pinned_page_frames := number_of_pinned_page_frames r; next_free_mem :=
     v; random_index_val := random_index_val r; page_map_lock := page_map_lock r;
     write_buffer_lock := write_buffer_lock r; read_buffer_lock := read_buffer_lock r;
     page_frame_info_lock := page_frame_info_lock r; pinned_pages_counter_lock :=
     pinned_pages_counter_lock r; next_free_mem_lock := next_free_mem_lock r;
     read_buffer := read_buffer r; disk := disk r; cr2 := cr2 r |}.
Definition set_random_index_val {D} (v : Z) (r : mm D) : mm D :=
  {| kern := kern r; mem := mem r; fr := fr r; fifo_queue := fifo_queue r; kernel_pdir
     := kernel_pdir r; user_kernel_ptable := user_kernel_ptable r; first_process :=
     first_process r; first_process_pid := first_process_pid r;
     number_of_pinned_page_frames := number_of_pinned_page_frames r; next_free_mem :=
     next_free_mem r; random_index_val := v; page_map_lock := page_map_lock r;
     write_buffer_lock := write_buffer_lock r; read_buffer_lock := read_buffer_lock r;
     page_frame_info_lock := page_frame_info_lock r; pinned_pages_counter_lock :=
     pinned_pages_counter_lock r; next_free_mem_lock := next_free_mem_lock r;
     read_buffer := read_buffer r; disk := disk r; cr2 := cr2 r |}.
Definition set_page_map_lock {D} (v : lock_t) (r : mm D) : mm D :=
  {| kern := kern r; mem := mem r; fr := fr r; fifo_queue := fifo_queue r; kernel_pdir
     := kernel_pdir r; user_kernel_ptable := user_kernel_ptable r; first_process :=
     first_process r; first_process_pid := first_process_pid r;
     number_of_pinned_page_frames := number_of_pinned_page_frames r; next_free_mem :=
     next_free_mem r; random_index_val := random_index_val r; page_map_lock := v;
     write_buffer_lock := write_buffer_lock r; read_buffer_lock := read_buffer_lock r;
     page_frame_info_lock := page_frame_info_lock r; pinned_pages_counter_lock :=
     pinned_pages_counter_lock r; next_free_mem_lock := next_free_mem_lock r;
     read_buffer := read_buffer r; disk := disk r; cr2 := cr2 r |}.
Definition set_write_buffer_lock {D} (v : lock_t) (r : mm D) : mm D :=
  {| kern := kern r; mem := mem r; fr := fr r; fifo_queue := fifo_queue r; kernel_pdir
     := kernel_pdir r; user_kernel_ptable := user_kernel_ptable r; first_process :=
     first_process r; first_process_pid := first_process_pid r;
     number_of_pinned_page_frames := number_of_pinned_page_frames r; next_free_mem :=
     next_free_mem r; random_index_val := random_index_val r; page_map_lock :=
     page_map_lock r; write_buffer_lock := v; read_buffer_lock := read_buffer_lock r;
     page_frame_info_lock := page_frame_info_lock r; pinned_pages_counter_lock :=
     pinned_pages_counter_lock r; next_free_mem_lock := next_free_mem_lock r;
     read_buffer := read_buffer r; disk := disk r; cr2 := cr2 r |}.
Definition set_read_buffer_lock {D} (v : lock_t) (r : mm D) : mm D :=
  {| kern := kern r; mem := mem r; fr := fr r; fifo_queue := fifo_queue r; kernel_pdir
     := kernel_pdir r; user_kernel_ptable := user_kernel_ptable r; first_process :=
     first_process r; first_process_pid := first_process_pid r;
     number_of_pinned_page_frames := number_of_pinned_page_frames r; next_free_mem :=
     next_free_mem r; random_index_val := random_index_val r; page_map_lock :=
     page_map_lock r; write_buffer_lock := write_buffer_lock r; read_buffer_lock := v;
     page_frame_info_lock := page_frame_info_lock r; pinned_pages_counter_lock :=
     pinned_pages_counter_lock r; next_free_mem_lock := next_free_mem_lock r;
     read_buffer := read_buffer r; disk := disk r; cr2 := cr2 r |}.
Definition set_page_frame_info_lock {D} (v : spinlock_t) (r : mm D) : mm D :=
  {| kern := kern r; mem := mem r; fr := fr r; fifo_queue := fifo_queue r; kernel_pdir
     := kernel_pdir r; user_kernel_ptable := user_kernel_ptable r; first_process :=
     first_process r; first_process_pid := first_process_pid r;
     number_of_pinned_page_frames := number_of_pinned_page_frames r; next_free_mem :=
     next_free_mem r; random_index_val := random_index_val r; page_map_lock :=
     page_map_lock r; write_buffer_lock := write_buffer_lock r; read_buffer_lock :=
     read_buffer_lock r; page_frame_info_lock := v; pinned_pages_counter_lock :=
     pinned_pages_counter_lock r; next_free_mem_lock := next_free_mem_lock r;
     read_buffer := read_buffer r; disk := disk r; cr2 := cr2 r |}.
Definition set_pinned_pages_counter_lock {D} (v : spinlock_t) (r : mm D) : mm D :=
  {| kern := kern r; mem := mem r; fr := fr r; fifo_queue := fifo_queue r; kernel_pdir
     := kernel_pdir r; user_kernel_ptable := user_kernel_ptable r; first_process :=
     first_process r; first_process_pid := first_process_pid r;
     number_of_pinned_page_frames := number_of_pinned_page_frames r; next_free_mem :=
     next_free_mem r; random_index_val := random_index_val r; page_map_lock :=
     page_map_lock r; write_buffer_lock := write_buffer_lock r; read_buffer_lock :=
     read_buffer_lock r; page_frame_info_lock := page_frame_info_lock r;
     pinned_pages_counter_lock := v; next_free_mem_lock := next_free_mem_lock r;
     read_buffer := read_buffer r; disk := disk r; cr2 := cr2 r |}.
Definition set_next_free_mem_lock {D} (v : spinlock_t) (r : mm D) : mm D :=
  {| kern := kern r; mem := mem r; fr := fr r; fifo_queue := fifo_queue r; kernel_pdir
     := kernel_pdir r; user_kernel_ptable := user_kernel_ptable r; first_process :=
     first_process r; first_process_pid := first_process_pid r;
     number_of_pinned_page_frames := number_of_pinned_page_frames r; next_free_mem :=
     next_free_mem r; random_index_val := random_index_val r; page_map_lock :=
     page_map_lock r; write_buffer_lock := write_buffer_lock r; read_buffer_lock :=
     read_buffer_lock r; page_frame_info_lock := page_frame_info_lock r;
     pinned_pages_counter_lock := pinned_pages_counter_lock r; next_free_mem_lock :=
     v; read_buffer := read_buffer r; disk := disk r; cr2 := cr2 r |}.
Definition set_read_buffer {D} (v : list Z) (r : mm D) : mm D :=
  {| kern := kern r; mem := mem r; fr := fr r; fifo_queue := fifo_queue r; kernel_pdir
     := kernel_pdir r; user_kernel_ptable := user_kernel_ptable r; first_process :=
     first_process r; first_process_pid := first_process_pid r;
     number_of_pinned_page_frames := number_of_pinned_page_frames r; next_free_mem :=
     next_free_mem r; random_index_val := random_index_val r; page_map_lock :=
     page_map_lock r; write_buffer_lock := write_buffer_lock r; read_buffer_lock :=
     read_buffer_lock r; page_frame_info_lock := page_frame_info_lock r;
     pinned_pages_counter_lock := pinned_pages_counter_lock r; next_free_mem_lock :=
     next_free_mem_lock r; read_buffer := v; disk := disk r; cr2 := cr2 r |}.
Definition set_disk {D} (v : D) (r : mm D) : mm D :=
  {| kern := kern r; mem := mem r; fr := fr r; fifo_queue := fifo_queue r; kernel_pdir
     := kernel_pdir r; user_kernel_ptable := user_kernel_ptable r; first_process :=
     first_process r; first_process_pid := first_process_pid r;
     number_of_pinned_page_frames := number_of_pinned_page_frames r; next_free_mem :=
     next_free_mem r; random_index_val := random_index_val r; page_map_lock :=
     page_map_lock r; write_buffer_lock := write_buffer_lock r; read_buffer_lock :=
     read_buffer_lock r; page_frame_info_lock := page_frame_info_lock r;
     pinned_pages_counter_lock := pinned_pages_counter_lock r; next_free_mem_lock :=
     next_free_mem_lock r; read_buffer := read_buffer r; disk := v; cr2 := cr2 r |}.
Definition set_cr2 {D} (v : Z) (r : mm D) : mm D :=
  {| kern := kern r; mem := mem r; fr := fr r; fifo_queue := fifo_queue r; kernel_pdir
     := kernel_pdir r; user_kernel_ptable := user_kernel_ptable r; first_process :=
     first_process r; first_process_pid := first_process_pid r;
     number_of_pinned_page_frames := number_of_pinned_page_frames r; next_free_mem :=
     next_free_mem r; random_index_val := random_index_val r; page_map_lock :=
     page_map_lock r; write_buffer_lock := write_buffer_lock r; read_buffer_lock :=
     read_buffer_lock r; page_frame_info_lock := page_frame_info_lock r;
     pinned_pages_counter_lock := pinned_pages_counter_lock r; next_free_mem_lock :=
     next_free_mem_lock r; read_buffer := read_buffer r; disk := disk r; cr2 := v |}.


(** ** Lifting the operations of the components *)

Section Lift.

Context {D : Type}.

Definition kop {A} (m : M kst A) : M (mm D) A := zoom kern set_kern m.
Definition rop {A} (m : M ram A) : M (mm D) A := zoom mem set_mem m.
Definition fop {A} (m : M frames A) : M (mm D) A := zoom fr set_fr m.

Definition kenter : M (mm D) unit := kop enter.
Definition kleave : M (mm D) unit := kop leave.

(** [lock_acquire] and [lock_release] of a lock of memory.c; a thread that has
    to sleep on it stops here. *)
Definition acquire (prj : mm D -> lock_t) (upd : lock_t -> mm D -> mm D) : M (mm D) unit :=
  l <-- gets prj ;;
  r <-- kop (lock_acquire SYNC_IMPL l) ;;
  modify (upd (snd r)) ;;;
  if fst r : bool then wait else ret tt.

Definition release (prj : mm D -> lock_t) (upd : lock_t -> mm D -> mm D) : M (mm D) unit :=
  l <-- gets prj ;;
  l' <-- kop (lock_release SYNC_IMPL l) ;;
  modify (upd l').

Definition spin (prj : mm D -> spinlock_t) (upd : spinlock_t -> mm D -> mm D) : M (mm D) unit :=
  l <-- gets prj ;;
  l' <-- kop (spinlock_acquire SYNC_IMPL l) ;;
  modify (upd l').

Definition unspin (prj : mm D -> spinlock_t) (upd : spinlock_t -> mm D -> mm D) : M (mm D) unit :=
  l <-- gets prj ;;
  l' <-- kop (spinlock_release SYNC_IMPL l) ;;
  modify (upd l').

End Lift.

(** [PE_INFO_*] *)
Definition PE_INFO_USER_MODE : Z := Z.shiftl 1 0.
Definition PE_INFO_KERNEL_DUMMY : Z := Z.shiftl 1 1.
Definition PE_INFO_PINNED : Z := Z.shiftl 1 2.
Definition PE_INFO_STACK : Z := Z.shiftl 1 3.

(** config.h *)
Definition PROCESSES_SHARE_KERNEL_PAGE_TABLE : bool := true.
Definition PIN_SHELL : bool := false.
Definition EVICTION_STRATEGY_FIFO : Z := 1.
Definition EVICTION_STRATEGY_RANDOM : Z := 2.
Definition EVICTION_STRATEGY : Z := EVICTION_STRATEGY_FIFO.

(** Bounds of the loops over chains of shared infos: a chain has at most the
    frame's own info and the elements of the shared array. *)
Definition chain_fuel : nat := S (S (Z.to_nat PAGEABLE_PAGES)).

Section Memory.

Context {D : Type} `{BlockDevice D}.
Context (rdtsc : nat -> Z).

Implicit Types (s : mm D).

(** ** Frame infos *)

(** [while (last_info->next_shared_info) last_info = last_info->next_shared_info;] *)
Fixpoint last_shared (fuel : nat) (p : iptr) : M frames iptr :=
  match fuel with
  | O => out_of_fuel
  | S f =>
      n <-- rdi p next_shared_info ;;
      if decide (n = INull) then ret p else last_shared f n
  end.

(** The index of the first shared info without an owner, from [i] on. *)
Fixpoint free_shared (fuel : nat) (i : nat) : M frames (option nat) :=
  match fuel with
  | O => ret None
  | S f =>
      o <-- rdi (IShared i) owner ;;
      if (o =? NULL)%nat then ret (Some i) else free_shared f (S i)
  end.

Definition insert_page_frame_info (pa va : Z) (owner_pcb : ptr) (mode : Z) : M (mm D) iptr :=
  let info := info_of pa in
  let va := Z.land va 0xfffff000 in
  o <-- fop (rdi info owner) ;;
  if negb (o =? NULL)%nat then
    th <-- kop (rd o is_thread) ;;
    when (th =? 0)
      (assertk ((PAGING_AREA_MIN_PADDR <=? va) && (va <? PAGING_AREA_MAX_PADDR))) ;;;
    last_info <-- fop (last_shared chain_fuel info) ;;
    slot <-- fop (free_shared (Z.to_nat PAGEABLE_PAGES) 0) ;;
    match slot with
    | Some i =>
        let shared_info := IShared i in
        fop (wri last_info (set_next_shared_info shared_info)) ;;;
        fop (wri shared_info (set_owner owner_pcb)) ;;;
        fop (wri shared_info (set_paddr pa)) ;;;
        fop (wri shared_info (set_vaddr va)) ;;;
        fop (wri shared_info (set_info_mode mode)) ;;;
        ret shared_info
    | None =>
        kenter ;;; kleave ;;; ret INull
    end
  else
    fop (wri info (set_owner owner_pcb)) ;;;
    fop (wri info (set_next_shared_info INull)) ;;;
    fop (wri info (set_vaddr va)) ;;;
    fop (wri info (set_info_mode mode)) ;;;
    ret info.

Definition inc_pinned_pages (increment : Z) : M (mm D) unit :=
  spin pinned_pages_counter_lock set_pinned_pages_counter_lock ;;;
  modify (fun s => set_number_of_pinned_page_frames
                     (u32 (number_of_pinned_page_frames s + increment)) s) ;;;
  unspin pinned_pages_counter_lock set_pinned_pages_counter_lock.

Definition fifo_enqueue_info (pa : Z) : M (mm D) unit :=
  let info_index := calculate_info_index pa in
  mode <-- fop (rdi (info_of pa) info_mode) ;;
  when (negb (truth (Z.land mode PE_INFO_PINNED)))
    (modify (fun s => set_fifo_queue (snd (fifo_enqueue info_index (fifo_queue s))) s)).

(** [fifo_dequeue]: the item and whether [*error] was set. *)
Definition dequeue : M (mm D) (Z * bool) :=
  q <-- gets fifo_queue ;;
  let '(item, error, q') := fifo_dequeue q in
  modify (set_fifo_queue q') ;;;
  ret (item, error).

(** [error] in [if (error)] is the pointer, which is not null. *)
Definition fifo_dequeue_info : M (mm D) (Z * bool) :=
  r <-- dequeue ;;
  ret (0, snd r).

(** The zeroing loop stores [PAGE_SIZE] words. *)
Definition allocate_page_internal : M (mm D) Z :=
  page_info_frame <-- fop remove_page_frame_from_free_list_info ;;
  if decide (page_info_frame = INull) then ret 0
  else
    pa <-- fop (rdi page_info_frame paddr) ;;
    for_up (trip_count 0 PAGE_SIZE 1) 0 1 (fun i => modify (fun s => set_mem (st (u32 (pa + 4 * i)) 0 (mem s)) s)) ;;;
    ret pa.

(** The [do ... while] loop of [page_clear_info]. *)
Fixpoint clear_infos (fuel : nat) (p : iptr) : M frames unit :=
  match fuel with
  | O => out_of_fuel
  | S f =>
      wri p (set_owner NULL) ;;;
      wri p (set_vaddr 0) ;;;
      wri p (set_info_mode 0) ;;;
      n <-- rdi p next_shared_info ;;
      wri p (set_next_shared_info INull) ;;;
      if decide (n = INull) then ret tt else clear_infos f n
  end.

Definition page_clear_info (pa : Z) : M (mm D) unit :=
  fop (clear_infos chain_fuel (info_of pa)).

(** The [do ... while] loop of [page_free]. *)
Fixpoint free_infos (fuel : nat) (pa : Z) (evict : bool) (p : iptr) : M (mm D) unit :=
  match fuel with
  | O => out_of_fuel
  | S f =>
      o <-- fop (rdi p owner) ;;
      kp <-- gets kernel_pdir ;;
      is_kernel <-- (if (o =? DUMMY)%nat then ret true
                     else d <-- kop (rd o page_directory) ;; ret (d =? kp)) ;;
      (if is_kernel : bool then kenter ;;; kleave ;;; halt else ret tt) ;;;
      va <-- fop (rdi p vaddr) ;;
      kenter ;;;
      (if evict then d <-- kop (rd o page_directory) ;; rop (unmap_physical_page d va)
       else fop (add_page_frame_to_free_list_info pa)) ;;;
      kleave ;;;
      fop (wri p (set_owner NULL)) ;;;
      fop (wri p (set_vaddr 0)) ;;;
      fop (wri p (set_info_mode 0)) ;;;
      n <-- fop (rdi p next_shared_info) ;;
      fop (wri p (set_next_shared_info INull)) ;;;
      if decide (n = INull) then ret tt else free_infos f pa evict n
  end.

Definition page_free (pa : Z) (evict : bool) : M (mm D) unit :=
  free_infos chain_fuel pa evict (info_of pa).

Definition free_memory (p : Z) : M (mm D) unit :=
  spin next_free_mem_lock set_next_free_mem_lock ;;;
  unspin next_free_mem_lock set_next_free_mem_lock.

(** ** Eviction *)

Definition select_page_for_eviction_v2 : M (mm D) Z :=
  r <-- fifo_dequeue_info ;;
  when (snd r) (kenter ;;; kleave ;;; halt) ;;;
  ret (fst r).

Definition select_page_for_eviction_v1 : M (mm D) Z :=
  r <-- dequeue ;;
  when (snd r) (kenter ;;; kleave ;;; halt) ;;;
  spin page_frame_info_lock set_page_frame_info_lock ;;;
  pa <-- fop (rdi (IFrame (Z.to_nat (fst r))) paddr) ;;
  unspin page_frame_info_lock set_page_frame_info_lock ;;;
  ret pa.

Definition random_index_generator : M (mm D) Z :=
  t <-- kop (read_cpu_ticks rdtsc) ;;
  modify (fun s => set_random_index_val
    (u32 (u32 (random_index_val s * 1103515245 + 12345) + t mod 2397)) s) ;;;
  v <-- gets random_index_val ;;
  ret ((v / 65536) mod PAGEABLE_PAGES).

(** The loop goes on until it meets a frame that is not pinned. *)
Fixpoint evict_random_page (fuel : nat) : M (mm D) Z :=
  match fuel with
  | O => out_of_fuel
  | S f =>
      index <-- random_index_generator ;;
      mode <-- fop (rdi (IFrame (Z.to_nat index)) info_mode) ;;
      if truth (Z.land mode PE_INFO_PINNED) then evict_random_page f
      else fop (rdi (IFrame (Z.to_nat index)) paddr)
  end.

Definition random_fuel : nat := 1000.

Definition select_page_for_eviction : M (mm D) Z :=
  evicted_page <--
    (if EVICTION_STRATEGY =? EVICTION_STRATEGY_RANDOM then evict_random_page random_fuel
     else select_page_for_eviction_v1) ;;
  o <-- fop (rdi (info_of evicted_page) owner) ;;
  when (negb (o =? NULL)%nat)
    (v <-- fop (rdi (info_of evicted_page) vaddr) ;; rop (invalidate_page v)) ;;;
  ret evicted_page.

(** The page of [vaddr] in the image of the process, in sectors. *)
Definition disk_offset (va : Z) : Z :=
  u32 (u32 (va - PROCESS_VADDR) / PAGE_SIZE * (PAGE_SIZE / SECTOR_SIZE)).

(** [MIN(PAGE_SIZE / SECTOR_SIZE, pcb->swap_size - disk_offset)] *)
Definition block_count (size off : Z) : Z :=
  if PAGE_SIZE / SECTOR_SIZE <? u32 (size - off) then PAGE_SIZE / SECTOR_SIZE
  else u32 (size - off).

(** The words at [pa], [n] of them. *)
Definition words (pa : Z) (n : nat) (m : ram) : list Z :=
  (fun i => ld (u32 (pa + 4 * i)) m) <$> seqZ 0 (Z.of_nat n).

Definition write_page_back_to_disk (va : Z) (p : ptr) (pa : Z) : M (mm D) Z :=
  let off := disk_offset va in
  size <-- kop (rd p swap_size) ;;
  loc <-- kop (rd p swap_loc) ;;
  let write_block_count := block_count size off in
  let disk_loc := u32 (loc + off) in
  if size <? off then kenter ;;; kleave ;;; ret (-1)
  else
    d <-- kop (rd p page_directory) ;;
    table <-- rop (get_page_table va d) ;;
    if table =? 0 then ret (-1)
    else
      acquire write_buffer_lock set_write_buffer_lock ;;;
      s <-- get ;;
      let data := words pa (Z.to_nat (write_block_count * SECTOR_WORDS)) (mem s) in
      let '(success, dk) := scsi_write (s32 disk_loc) (s32 write_block_count) data (disk s) in
      modify (set_disk dk) ;;;
      rop (invalidate_page va) ;;;
      release write_buffer_lock set_write_buffer_lock ;;;
      ret success.

(** Overwriting the front of a buffer. *)
Definition overlay (data buf : list Z) : list Z := take (length buf) (data ++ drop (length data) buf).

(** Storing words at [pa]. *)
Fixpoint store_words (pa : Z) (ws : list Z) (m : ram) : ram :=
  match ws with
  | [] => m
  | w :: ws' => store_words (u32 (pa + 4)) ws' (st (u32 pa) w m)
  end.

(** [bcopy(read_buffer, frameref, PAGE_SIZE)]: the buffer and a frame of the
    paging area do not overlap. *)
Definition disk_loader (disk_loc count frameref : Z) : M (mm D) Z :=
  acquire read_buffer_lock set_read_buffer_lock ;;;
  modify (set_read_buffer (replicate (Z.to_nat PAGE_N_ENTRIES) 0)) ;;;
  s <-- get ;;
  let '(success, data, dk) := scsi_read disk_loc count (disk s) in
  modify (set_disk dk) ;;;
  modify (fun s => set_read_buffer (overlay data (read_buffer s)) s) ;;;
  when (0 <=? success)
    (kenter ;;;
     modify (fun s => set_mem (store_words frameref (read_buffer s) (mem s)) s) ;;;
     kleave) ;;;
  release read_buffer_lock set_read_buffer_lock ;;;
  ret success.

(** The loop of [page_frame_check_dirty]. *)
Fixpoint check_dirty (fuel : nat) (dirty : Z) (p : iptr) : M (mm D) Z :=
  match fuel with
  | O => out_of_fuel
  | S f =>
      if decide (p = INull) then ret dirty
      else
        o <-- fop (rdi p owner) ;;
        if (o =? NULL)%nat then ret dirty
        else
          d <-- kop (rd o page_directory) ;;
          va <-- fop (rdi p vaddr) ;;
          mode <-- fop (rdi p info_mode) ;;
          if negb (truth (Z.land mode PE_INFO_KERNEL_DUMMY)) then
            b <-- rop (is_page_dirty va d) ;;
            n <-- fop (rdi p next_shared_info) ;;
            check_dirty f (dirty + (if b : bool then 1 else 0)) n
          else kenter ;;; kleave ;;; ret (-1)
  end.

Definition page_frame_check_dirty (pa : Z) : M (mm D) Z :=
  check_dirty chain_fuel 0 (info_of pa).

Definition try_evict_page_v2 : M (mm D) Z :=
  page_frame_ref <-- select_page_for_eviction ;;
  if page_frame_ref =? 0 then kenter ;;; kleave ;;; ret 0
  else
    let frame_info := info_of page_frame_ref in
    mode <-- fop (rdi frame_info info_mode) ;;
    when (truth (Z.land mode PE_INFO_PINNED)) (kenter ;;; kleave ;;; halt) ;;;
    when (truth (Z.land mode PE_INFO_KERNEL_DUMMY)) (kenter ;;; kleave ;;; halt) ;;;
    va <-- fop (rdi frame_info vaddr) ;;
    o <-- fop (rdi frame_info owner) ;;
    c <-- kop (gets current_running) ;;
    when (o =? c)%nat (rop (invalidate_page va)) ;;;
    dirty <-- page_frame_check_dirty page_frame_ref ;;
    pa <-- fop (rdi frame_info paddr) ;;
    when (truth dirty) (write_page_back_to_disk va o pa ;;; ret tt) ;;;
    page_free pa true ;;;
    ret page_frame_ref.

Definition try_evict_page : M (mm D) Z := try_evict_page_v2.

Definition allocate_page : M (mm D) Z :=
  p0 <-- allocate_page_internal ;;
  pa <-- (if p0 =? 0 then kenter ;;; p1 <-- try_evict_page ;; kleave ;;; ret p1 else ret p0) ;;
  if pa =? 0 then kenter ;;; kleave ;;; halt
  else kenter ;;; kleave ;;; ret pa.

(** ** Demand paging *)

Definition load_page_from_disk (va : Z) (p : ptr) : M (mm D) Z :=
  fault_dir <-- kop (rd p page_directory) ;;
  let off := disk_offset va in
  loc <-- kop (rd p swap_loc) ;;
  let disk_loc := u32 (loc + off) in
  size <-- kop (rd p swap_size) ;;
  let count := block_count size off in
  kenter ;;; kleave ;;;
  let mode := Z.lor (Z.lor PE_P PE_RW) PE_US in
  th <-- kop (rd p is_thread) ;;
  when (negb (th =? 0)) halt ;;;
  let mode := Z.lor mode PE_US in
  the_pid <-- kop (rd p pid) ;;
  fpid <-- gets first_process_pid ;;
  let info_mode := if (the_pid =? fpid) && PIN_SHELL
                   then Z.lor PE_INFO_USER_MODE PE_INFO_PINNED else PE_INFO_USER_MODE in
  frameref <-- allocate_page ;;
  success <--
    (if frameref =? 0 then kenter ;;; kleave ;;; halt
     else
       rop (invalidate_page va) ;;;
       r <-- disk_loader (s32 disk_loc) (s32 count) frameref ;;
       rop (invalidate_page va) ;;;
       ret r) ;;
  table0 <-- rop (get_page_table va fault_dir) ;;
  frameref_table <--
    (if table0 =? 0 then
       t <-- allocate_page ;;
       insert_page_frame_info t va p info_mode ;;;
       inc_pinned_pages 1 ;;;
       rop (dir_ins_table fault_dir va t mode) ;;;
       ret t
     else ret table0) ;;
  if success <? 0 then
    release page_map_lock set_page_map_lock ;;;
    ret success
  else
    when (negb (truth (Z.land info_mode PE_INFO_PINNED))
          && (EVICTION_STRATEGY =? EVICTION_STRATEGY_FIFO))
      (fifo_enqueue_info frameref) ;;;
    insert_page_frame_info frameref va p info_mode ;;;
    rop (table_map_page frameref_table va frameref mode) ;;;
    rop (dir_ins_table fault_dir va frameref_table mode) ;;;
    rop (invalidate_page va) ;;;
    kenter ;;; kleave ;;;
    ret success.

(** [todo_abort] is [abortk]. *)
Definition page_fault_handler (error_code : Z) : M (mm D) unit :=
  fault_address <-- gets cr2 ;;
  rop (invalidate_page fault_address) ;;;
  fault_pcb <-- kop (gets current_running) ;;
  kop (wr fault_pcb (fun r => set_page_fault_count (u32 (page_fault_count r + 1)) r)) ;;;
  (if truth (Z.land error_code 1) then halt else kenter ;;; kleave) ;;;
  kleave ;;;
  acquire page_map_lock set_page_map_lock ;;;
  success <-- load_page_from_disk fault_address fault_pcb ;;
  release page_map_lock set_page_map_lock ;;;
  kenter ;;;
  if 0 <=? success then ret tt else halt.

(** ** Kernel and process setup *)

Definition setup_kernel_vmem_common (p : ptr) (pdir : Z) (is_user : bool) : M (mm D) unit :=
  let user_mode := Z.lor (Z.lor PE_P PE_RW) PE_US in
  let kernel_mode := Z.lor PE_P PE_RW in
  kernel_ptable <-- allocate_page ;;
  insert_page_frame_info kernel_ptable kernel_ptable p PE_INFO_PINNED ;;;
  inc_pinned_pages 1 ;;;
  rop (kernel_area_loops true kernel_ptable pdir kernel_mode) ;;;
  rop (dir_ins_table pdir 0 kernel_ptable kernel_mode) ;;;
  let mode := Z.lor (if is_user then user_mode else kernel_mode) PE_PCD in
  rop (table_map_page kernel_ptable VGA_TEXT_PADDR VGA_TEXT_PADDR mode) ;;;
  rop (dir_ins_table pdir VGA_TEXT_PADDR kernel_ptable mode).

Definition setup_kernel_vmem : M (mm D) unit :=
  acquire page_map_lock set_page_map_lock ;;;
  kop (wr DUMMY (set_is_thread 1)) ;;;
  let info_mode := Z.lor PE_INFO_PINNED PE_INFO_KERNEL_DUMMY in
  kp <-- allocate_page ;;
  modify (set_kernel_pdir kp) ;;;
  insert_page_frame_info kp kp DUMMY info_mode ;;;
  inc_pinned_pages 1 ;;;
  setup_kernel_vmem_common DUMMY kp false ;;;
  when PROCESSES_SHARE_KERNEL_PAGE_TABLE
    (t <-- allocate_page ;;
     modify (set_user_kernel_ptable t) ;;;
     insert_page_frame_info t t DUMMY (Z.lor PE_INFO_PINNED PE_INFO_KERNEL_DUMMY) ;;;
     inc_pinned_pages 1) ;;;
  release page_map_lock set_page_map_lock.

(** The iteration of the image loop for [offset]. *)
Definition map_image_page (p : ptr) (proc_ptable user_mode offset : Z) : M (mm D) unit :=
  loc <-- kop (rd p swap_loc) ;;
  let pa := u32 (loc * SECTOR_SIZE + offset) in
  let va := u32 (PROCESS_VADDR + offset) in
  kenter ;;; kleave ;;;
  rop (table_map_page proc_ptable va pa user_mode).

(** [for (offset = 0; offset < upper_lim; offset += PAGE_SIZE)] *)
Fixpoint map_image (fuel : nat) (p : ptr) (proc_ptable user_mode upper_lim offset : Z) : M (mm D) unit :=
  match fuel with
  | O => out_of_fuel
  | S f =>
      if offset <? upper_lim then
        map_image_page p proc_ptable user_mode offset ;;;
        map_image f p proc_ptable user_mode upper_lim (u32 (offset + PAGE_SIZE))
      else ret tt
  end.

Definition image_fuel (upper_lim : Z) : nat := S (trip_count 0 upper_lim PAGE_SIZE).

(** [for (v = base; v > lim; v -= PAGE_SIZE)], one iteration per page of the
    user stack. *)
Definition map_stack_page (p : ptr) (proc_ptable user_mode flags stack_vaddr : Z) : M (mm D) unit :=
  stack_page <-- allocate_page ;;
  insert_page_frame_info stack_page stack_vaddr p (Z.lor flags PE_INFO_STACK) ;;;
  inc_pinned_pages 1 ;;;
  rop (table_map_page proc_ptable stack_vaddr stack_page (Z.lor user_mode PE_P)).

Definition setup_process_vmem (p : ptr) : M (mm D) unit :=
  acquire page_map_lock set_page_map_lock ;;;
  th <-- kop (rd p is_thread) ;;
  if negb (th =? 0) then
    kp <-- gets kernel_pdir ;;
    kop (wr p (set_page_directory kp)) ;;;
    release page_map_lock set_page_map_lock
  else
    let base_page_info_flags := Z.lor PE_INFO_USER_MODE PE_INFO_PINNED in
    proc_pdir <-- allocate_page ;;
    insert_page_frame_info proc_pdir proc_pdir p base_page_info_flags ;;;
    let user_mode := Z.lor PE_RW PE_US in
    first <-- gets first_process ;;
    shared <-- gets user_kernel_ptable ;;
    (if truth first then
       kenter ;;;
       n <-- kop (rd p pid) ;;
       modify (set_first_process_pid n) ;;;
       modify (set_first_process 0) ;;;
       kleave ;;;
       when PROCESSES_SHARE_KERNEL_PAGE_TABLE (rop (user_setup_kernel_vmem shared proc_pdir true))
     else
       when PROCESSES_SHARE_KERNEL_PAGE_TABLE (rop (user_setup_kernel_vmem shared proc_pdir false))) ;;;
    when (negb PROCESSES_SHARE_KERNEL_PAGE_TABLE) (setup_kernel_vmem_common p proc_pdir true) ;;;
    proc_ptable <-- allocate_page ;;
    rop (dir_ins_table proc_pdir PROCESS_VADDR proc_ptable (Z.lor user_mode PE_P)) ;;;
    insert_page_frame_info proc_ptable proc_ptable p base_page_info_flags ;;;
    inc_pinned_pages 2 ;;;
    size <-- kop (rd p swap_size) ;;
    let upper_lim := u32 (size * SECTOR_SIZE) in
    map_image (image_fuel upper_lim) p proc_ptable user_mode upper_lim 0 ;;;
    let stack_lim := PROCESS_STACK_VADDR - USER_STACK_SIZE in
    let stack_base := PROCESS_STACK_VADDR in
    rop (dir_ins_table proc_pdir stack_base proc_ptable (Z.lor user_mode PE_P)) ;;;
    for_up (trip_count stack_lim stack_base PAGE_SIZE) stack_base (- PAGE_SIZE)
      (map_stack_page p proc_ptable user_mode base_page_info_flags) ;;;
    kop (wr p (set_page_directory proc_pdir)) ;;;
    release page_map_lock set_page_map_lock.

Definition init_memory : M (mm D) unit :=
  fop initialize_page_frame_infos ;;;
  modify (set_fifo_queue fifo_init) ;;;
  modify (set_next_free_mem PAGING_AREA_MIN_PADDR) ;;;
  setup_kernel_vmem.

End Memory.
