(* ===== verification/VmemFacts.v ===== *)
(** * Properties of virtual memory

    Symbolic execution lemmas for the operations of [Vmem], and the theorems
    about page allocation, eviction, write-back and demand paging. *)

From S2P Require Import Prelude Sched Ring Sync Paging Frames Vmem.

(** ** Running lifted operations *)

Section Steps.

Context {D : Type}.
Implicit Types (s : mm D).

Lemma set_kern_same s : set_kern (kern s) s = s.
Proof. by destruct s. Qed.
Lemma set_mem_same s : set_mem (mem s) s = s.
Proof. by destruct s. Qed.
Lemma set_fr_same s : set_fr (fr s) s = s.
Proof. by destruct s. Qed.

Lemma kop_run {A} (m : M kst A) s a k : m (kern s) = Ret (a, k) -> kop m s = Ret (a, set_kern k s).
Proof. unfold kop, zoom. by intros ->. Qed.

Lemma rop_run {A} (m : M ram A) s a k : m (mem s) = Ret (a, k) -> rop m s = Ret (a, set_mem k s).
Proof. unfold rop, zoom. by intros ->. Qed.

Lemma fop_run {A} (m : M frames A) s a k : m (fr s) = Ret (a, k) -> fop m s = Ret (a, set_fr k s).
Proof. unfold fop, zoom. by intros ->. Qed.

(** Reads leave the state as it is. *)
Lemma krd_ok {A B} p (f : pcb -> A) s r (k : A -> M (mm D) B) :
  pcbs (kern s) !! p = Some r -> bind (kop (rd p f)) k s = k (f r) s.
Proof.
  intros H. rewrite (bind_step (kop _) _ s (f r) s); [done|].
  unfold kop, zoom, rd. by rewrite H, set_kern_same.
Qed.

Lemma frd_ok {A B} p (f : page_frame_info_t -> A) s r (k : A -> M (mm D) B) :
  info_at p (fr s) = Some r -> bind (fop (rdi p f)) k s = k (f r) s.
Proof.
  intros H. rewrite (bind_step (fop _) _ s (f r) s); [done|].
  unfold fop, zoom, rdi. by rewrite H, set_fr_same.
Qed.

Lemma fwr_ok {B} p f s r (k : unit -> M (mm D) B) :
  info_at p (fr s) = Some r -> bind (fop (wri p f)) k s = k tt (set_fr (info_upd p (f r) (fr s)) s).
Proof. intros H. by rewrite (bind_step _ _ _ _ _ (fop_run _ _ _ _ (wri_run _ f _ _ H))). Qed.

Lemma rop_ok {A B} (m : M ram A) s a m' (k : A -> M (mm D) B) :
  m (mem s) = Ret (a, m') -> bind (rop m) k s = k a (set_mem m' s).
Proof. intros H. by rewrite (bind_step _ _ _ _ _ (rop_run m s a m' H)). Qed.

Lemma invalidate_ok {B} v s (k : unit -> M (mm D) B) : bind (rop (invalidate_page v)) k s = k tt s.
Proof. rewrite (rop_ok _ s tt (mem s)) by done. by rewrite set_mem_same. Qed.

(** An empty critical section. *)
Lemma crit_ok {B} s (k : unit -> M (mm D) B) :
  cpu_room 1 (cpu (kern s)) -> bind kenter (fun _ => bind kleave k) s = k tt s.
Proof.
  intros Hc. unfold bind, kenter, kleave, kop, zoom, enter, leave, modify. f_equal.
  transitivity (set_kern (set_cpu (nointerrupt_leave (nointerrupt_enter (cpu (kern s)))) (kern s)) s);
    [reflexivity|]. by rewrite (set_cpu_restore 1), set_kern_same.
Qed.

(** Free locks. *)
Definition held : lock_t := mk_lock true NULL SPINLOCK_INIT.

Lemma acquire_ok {B} (prj : mm D -> lock_t) upd s (k : unit -> M (mm D) B) :
  prj s = LOCK_INIT -> bind (acquire prj upd) k s = k tt (upd held s).
Proof.
  intros H. unfold acquire. rewrite bind_assoc, bind_gets, H, bind_assoc.
  rewrite (bind_step (kop _) _ s (false, held) s); [by rewrite bind_assoc, bind_modify|].
  unfold kop, zoom. cbn. by rewrite set_kern_same.
Qed.

Lemma release_ok {B} (prj : mm D -> lock_t) upd s (k : unit -> M (mm D) B) :
  prj s = held -> bind (release prj upd) k s = k tt (upd LOCK_INIT s).
Proof.
  intros H. unfold release. rewrite bind_assoc, bind_gets, H, bind_assoc.
  rewrite (bind_step (kop _) _ s LOCK_INIT s); [by rewrite bind_modify|].
  unfold kop, zoom. cbn. by rewrite set_kern_same.
Qed.

Definition spinning : spinlock_t := mk_spinlock false true.

Lemma spin_ok {B} (prj : mm D -> spinlock_t) upd s (k : unit -> M (mm D) B) :
  prj s = SPINLOCK_INIT -> bind (spin prj upd) k s = k tt (upd spinning s).
Proof.
  intros H. unfold spin. rewrite bind_assoc, bind_gets, H, bind_assoc.
  rewrite (bind_step (kop _) _ s spinning s); [by rewrite bind_modify|].
  unfold kop, zoom. cbn. by rewrite set_kern_same.
Qed.

Lemma unspin_ok {B} (prj : mm D -> spinlock_t) upd s (k : unit -> M (mm D) B) :
  prj s = spinning -> bind (unspin prj upd) k s = k tt (upd SPINLOCK_INIT s).
Proof.
  intros H. unfold unspin. rewrite bind_assoc, bind_gets, H, bind_assoc.
  rewrite (bind_step (kop _) _ s SPINLOCK_INIT s); [by rewrite bind_modify|].
  unfold kop, zoom. cbn. by rewrite set_kern_same.
Qed.

End Steps.

(** ** Words in memory *)

Fixpoint zeroed (n : nat) (pa i : Z) (m : ram) : ram :=
  match n with O => m | S n' => zeroed n' pa (i + 1) (st (u32 (pa + 4 * i)) 0 m) end.

Lemma zeroed_in n pa : forall i m j,
  0 <= pa -> 0 <= i -> pa + 4 * (i + Z.of_nat n) <= 2 ^ 32 -> i <= j < i + Z.of_nat n ->
  ld (pa + 4 * j) (zeroed n pa i m) = 0.
Proof.
  induction n as [|n IH]; intros i m j Hp Hi Hb Hj; [lia|]. cbn [zeroed].
  destruct (decide (j = i)) as [->|Hne]; [|apply IH; lia].
  assert (Hout : forall k n' m', i < k -> pa + 4 * (k + Z.of_nat n') <= 2 ^ 32 ->
    ld (pa + 4 * i) (zeroed n' pa k m') = ld (pa + 4 * i) m').
  { intros k n'. revert k. induction n' as [|n' IH']; intros k m' Hk Hb'; [done|]. cbn [zeroed].
    rewrite IH' by lia. apply ld_st_ne. rewrite u32_small by lia. lia. }
  rewrite Hout by lia. rewrite u32_small by lia. apply ld_st_eq.
Qed.

Lemma zeroed_out n pa : forall i m a,
  0 <= pa -> 0 <= i -> pa + 4 * (i + Z.of_nat n) <= 2 ^ 32 ->
  (forall j, i <= j < i + Z.of_nat n -> a <> pa + 4 * j) ->
  ld a (zeroed n pa i m) = ld a m.
Proof.
  induction n as [|n IH]; intros i m a Hp Hi Hb Ha; [done|]. cbn [zeroed].
  rewrite IH; [|lia|lia|lia|intros; apply Ha; lia].
  apply ld_st_ne. rewrite u32_small by lia. apply Ha. lia.
Qed.

(** The word list of a frame, and storing it. *)
Lemma words_length pa n m : length (words pa n m) = n.
Proof. unfold words. rewrite length_fmap, length_seqZ. lia. Qed.

Lemma words_lookup pa n m i :
  (i < n)%nat -> words pa n m !! i = Some (ld (u32 (pa + 4 * Z.of_nat i)) m).
Proof.
  intros Hi. unfold words. by rewrite list_lookup_fmap, lookup_seqZ_lt by lia.
Qed.

Lemma words_range m pa n w :
  (forall a v, m !! a = Some v -> is_word v) -> w ∈ words pa n m -> is_word w.
Proof.
  intros Hm Hw. unfold words in Hw. apply list_elem_of_fmap in Hw as (j & -> & _). unfold ld.
  destruct (m !! _) eqn:E; [by eapply Hm|done].
Qed.

Lemma words_ext pa n m m' :
  (forall i, (i < n)%nat -> ld (u32 (pa + 4 * Z.of_nat i)) m' = ld (u32 (pa + 4 * Z.of_nat i)) m) ->
  words pa n m' = words pa n m.
Proof.
  intros H. apply list_eq. intros i. destruct (decide (i < n)%nat).
  - by rewrite !words_lookup, H by done.
  - by rewrite !lookup_ge_None_2 by (rewrite words_length; lia).
Qed.

Lemma store_out ws : forall pa m a,
  0 <= pa -> pa + 4 * Z.of_nat (length ws) <= 2 ^ 32 ->
  (a < pa \/ pa + 4 * Z.of_nat (length ws) <= a) -> ld a (store_words pa ws m) = ld a m.
Proof.
  induction ws as [|w ws IH]; intros pa m a Hp Hb Ha; [done|]. cbn [store_words length] in *.
  rewrite (u32_small pa) by lia.
  destruct (decide (ws = [])) as [->|Hne].
  - cbn. apply ld_st_ne. lia.
  - assert (0 < length ws)%nat by (destruct ws; [done|cbn; lia]).
    rewrite (u32_small (pa + 4)) by lia.
    rewrite IH by lia. apply ld_st_ne. lia.
Qed.

Lemma store_in ws : forall pa m i w,
  0 <= pa -> pa + 4 * Z.of_nat (length ws) <= 2 ^ 32 -> ws !! i = Some w ->
  ld (pa + 4 * Z.of_nat i) (store_words pa ws m) = w.
Proof.
  induction ws as [|w0 ws IH]; intros pa m i w Hp Hb Hi; [done|]. cbn [store_words length] in *.
  rewrite (u32_small pa) by lia. destruct i as [|i].
  - injection Hi as ->. rewrite Z.add_0_r. destruct (decide (ws = [])) as [->|Hne].
    + cbn. apply ld_st_eq.
    + assert (0 < length ws)%nat by (destruct ws; [done|cbn; lia]).
      rewrite (u32_small (pa + 4)) by lia. rewrite store_out by lia. apply ld_st_eq.
  - cbn in Hi. pose proof (lookup_lt_Some _ _ _ Hi).
    rewrite (u32_small (pa + 4)) by lia.
    replace (pa + 4 * Z.of_nat (S i)) with (pa + 4 + 4 * Z.of_nat i) by lia.
    apply IH; [lia|lia|done].
Qed.

Lemma words_store pa ws m :
  0 <= pa -> pa + 4 * Z.of_nat (length ws) <= 2 ^ 32 ->
  words pa (length ws) (store_words pa ws m) = ws.
Proof.
  intros Hp Hb. apply list_eq. intros i. destruct (decide (i < length ws)%nat) as [Hi|Hi].
  - rewrite words_lookup by done. destruct (lookup_lt_is_Some_2 _ _ Hi) as [w Hw].
    rewrite u32_small by lia. rewrite Hw. f_equal. by apply store_in.
  - by rewrite !lookup_ge_None_2 by (rewrite ?words_length; lia).
Qed.

(** ** Allocation *)

Section Allocation.

Context {D : Type} `{BlockDevice D}.
Context (rdtsc : nat -> Z).
Implicit Types (s : mm D).

(** The memory after [allocate_page_internal] has cleared the page at [pa]. *)
Definition cleared (pa : Z) (m : ram) : ram := zeroed (trip_count 0 PAGE_SIZE 1) pa 0 m.

Lemma page_trips : Z.of_nat (trip_count 0 PAGE_SIZE 1) = 4096.
Proof. by vm_compute. Qed.
#[local] Opaque trip_count.

Lemma zero_loop n pa : forall i s,
  for_up n i 1 (fun i => modify (fun s => set_mem (st (u32 (pa + 4 * i)) 0 (mem s)) s)) s
  = Ret (tt, set_mem (zeroed n pa i (mem s)) s).
Proof.
  induction n as [|n IH]; intros i s; cbn [for_up zeroed].
  - by rewrite set_mem_same.
  - rewrite bind_modify, IH. by destruct s.
Qed.

Lemma frame_addr_bounds i :
  (i < Z.to_nat PAGEABLE_PAGES)%nat ->
  PAGING_AREA_MIN_PADDR <= frame_addr i <= PAGING_AREA_MAX_PADDR - PAGE_SIZE.
Proof.
  unfold frame_addr, PAGING_AREA_MAX_PADDR, PAGEABLE_PAGES, PAGE_SIZE, PAGING_AREA_MIN_PADDR. lia.
Qed.

Definition alloc_state (i : nat) (r : page_frame_info_t) (s : mm D) : mm D :=
  set_mem (cleared (frame_addr i) (mem s)) (set_fr (taken_frame i r (fr s)) s).

Lemma free_list_info s i l :
  addressed (fr s) -> free_list (fr s) (i :: l) ->
  exists r, page_frame_info (fr s) !! i = Some r /\ paddr r = frame_addr i
    /\ (i < Z.to_nat PAGEABLE_PAGES)%nat.
Proof.
  intros (L & _ & Ha) [(_ & r & Hr & _) _]. exists r. split_and!; [done|by apply Ha|].
  rewrite <- L. by eapply lookup_lt_Some.
Qed.

Lemma allocate_internal_run s i l r :
  addressed (fr s) -> free_list (fr s) (i :: l) -> page_frame_info (fr s) !! i = Some r ->
  allocate_page_internal s = Ret (frame_addr i, alloc_state i r s).
Proof.
  intros Ha Hl Hr. destruct (remove_free_run _ _ _ _ Hl Hr) as [E _].
  unfold allocate_page_internal. rewrite (bind_step _ _ _ _ _ (fop_run _ _ _ _ E)).
  rewrite decide_False by done.
  assert (Hlt : (i < Z.to_nat PAGEABLE_PAGES)%nat).
  { destruct Ha as (L & _). rewrite <- L. by eapply lookup_lt_Some. }
  rewrite (frd_ok _ _ _ (set_next_free_page INull r)).
  2: { cbn. apply list_lookup_insert_eq. by eapply lookup_lt_Some. }
  cbn [paddr set_next_free_page]. destruct Ha as (_ & _ & Ha). rewrite (Ha i r Hr).
  by rewrite (bind_step _ _ _ _ _ (zero_loop _ (frame_addr i) 0 _)).
Qed.

Lemma allocate_page_free s i l r :
  cpu_room 1 (cpu (kern s)) ->
  addressed (fr s) -> free_list (fr s) (i :: l) -> page_frame_info (fr s) !! i = Some r ->
  allocate_page rdtsc s = Ret (frame_addr i, alloc_state i r s).
Proof.
  intros Hc Ha Hl Hr. unfold allocate_page.
  rewrite (bind_step _ _ _ _ _ (allocate_internal_run s i l r Ha Hl Hr)).
  assert (Hnz : (frame_addr i =? 0) = false).
  { apply Z.eqb_neq. unfold frame_addr, PAGING_AREA_MIN_PADDR, PAGE_SIZE. lia. }
  rewrite Hnz, bind_ret, Hnz. by rewrite crit_ok.
Qed.

Lemma cleared_in i m a :
  (i < Z.to_nat PAGEABLE_PAGES)%nat -> a mod 4 = 0 ->
  frame_addr i <= a < frame_addr i + 4 * PAGE_SIZE -> ld a (cleared (frame_addr i) m) = 0.
Proof.
  intros Hi Ha Hr. pose proof (frame_addr_bounds i Hi). pose proof page_trips as Hn.
  unfold cleared. set (n := trip_count 0 PAGE_SIZE 1) in *. clearbody n.
  destruct (frame_addr_frame i Hi) as [_ Hf].
  unfold PAGING_AREA_MAX_PADDR, PAGEABLE_PAGES, PAGE_SIZE, PAGING_AREA_MIN_PADDR in *.
  replace a with (frame_addr i + 4 * ((a - frame_addr i) / 4)) by zdiv.
  apply zeroed_in; rewrite ?Hn; zdiv.
Qed.

Lemma cleared_out i m a :
  (i < Z.to_nat PAGEABLE_PAGES)%nat ->
  a < frame_addr i \/ frame_addr i + 4 * PAGE_SIZE <= a -> ld a (cleared (frame_addr i) m) = ld a m.
Proof.
  intros Hi Hr. pose proof (frame_addr_bounds i Hi). pose proof page_trips as Hn.
  unfold cleared. set (n := trip_count 0 PAGE_SIZE 1) in *. clearbody n.
  unfold PAGING_AREA_MAX_PADDR, PAGEABLE_PAGES, PAGE_SIZE, PAGING_AREA_MIN_PADDR in *.
  apply zeroed_out; rewrite ?Hn; [lia..|]. intros. lia.
Qed.

(** While a frame is free, [allocate_page] returns the first frame of the
    free list, takes it from the list, and clears it.  It clears four pages:
    the loop counts words as if they were bytes, so the three pages behind the
    frame are set to zero as well; all other memory is untouched. *)
Theorem allocate_page_clears s i l
  (Hcpu : cpu_room 1 (cpu (kern s))) (Ha : addressed (fr s)) (Hl : free_list (fr s) (i :: l)) :
  exists s', allocate_page rdtsc s = Ret (frame_addr i, s')
    /\ free_list (fr s') l
    /\ (forall a, a mod 4 = 0 -> frame_addr i <= a < frame_addr i + 4 * PAGE_SIZE -> ld a (mem s') = 0)
    /\ (forall a, a < frame_addr i \/ frame_addr i + 4 * PAGE_SIZE <= a -> ld a (mem s') = ld a (mem s)).
Proof.
  destruct (free_list_info s i l Ha Hl) as (r & Hr & _ & Hi).
  exists (alloc_state i r s). split; [by eapply allocate_page_free|].
  destruct (remove_free_run _ _ _ _ Hl Hr) as [_ Hf]. split_and!.
  - exact Hf.
  - intros a H1 H2. by apply cleared_in.
  - intros a H1. by apply cleared_out.
Qed.

End Allocation.

(** ** Demand paging *)

Section Demand.

Context {D : Type} `{BlockDeviceLaws D}.
Context (rdtsc : nat -> Z).
Implicit Types (s : mm D).

(** The info of a frame that was given to the page of [va] in [p]. *)
Definition claimed (va : Z) (p : ptr) (mode : Z) (r : page_frame_info_t) : page_frame_info_t :=
  set_info_mode mode (set_vaddr (Z.land va 0xfffff000) (set_next_shared_info INull (set_owner p r))).

Lemma insert_info_free s i va p mode r :
  (i < Z.to_nat PAGEABLE_PAGES)%nat -> page_frame_info (fr s) !! i = Some r -> owner r = NULL ->
  insert_page_frame_info (frame_addr i) va p mode s
  = Ret (IFrame i, set_fr (info_upd (IFrame i) (claimed va p mode r) (fr s)) s).
Proof.
  intros Hi Hr Ho. unfold insert_page_frame_info. rewrite info_of_addr by done.
  rewrite (frd_ok _ _ _ r) by done. rewrite Ho. cbn [Nat.eqb negb NULL].
  assert (Hlt : (i < length (page_frame_info (fr s)))%nat) by (by eapply lookup_lt_Some).
  rewrite (fwr_ok _ _ _ r) by done.
  do 3 (erewrite fwr_ok; [|cbn; apply list_lookup_insert_eq; by rewrite ?length_insert]).
  unfold ret. apply (f_equal (fun f => Ret (IFrame i, set_fr (set_page_frame_info f (fr s)) s))).
  cbn. by rewrite !list_insert_insert_eq.
Qed.

Lemma disk_loader_ok s loc count f data dk :
  cpu_room 1 (cpu (kern s)) -> read_buffer_lock s = LOCK_INIT ->
  scsi_read loc count (disk s) = (0, data, dk) ->
  let buf := overlay data (replicate (Z.to_nat PAGE_N_ENTRIES) 0) in
  disk_loader loc count f s
  = Ret (0, set_mem (store_words f buf (mem s)) (set_read_buffer buf (set_disk dk s))).
Proof.
  intros Hc Hl Hr buf. unfold disk_loader. subst buf.
  generalize (replicate (Z.to_nat PAGE_N_ENTRIES) 0) as z. intros z.
  set (buf := overlay data z). rewrite acquire_ok by done.
  rewrite bind_modify, bind_get.
  change (disk (set_read_buffer z (set_read_buffer_lock held s))) with (disk s). rewrite Hr. cbv beta iota. rewrite !bind_modify.
  change (0 <=? 0) with true. cbn [when]. rewrite !bind_assoc. set (s1 := set_read_buffer _ _).
  rewrite (bind_step kenter _ s1 tt (set_kern (set_cpu (nointerrupt_enter (cpu (kern s1))) (kern s1)) s1))
    by done.
  rewrite bind_assoc, bind_modify.
  rewrite (bind_step kleave _ _ tt (set_mem (store_words f buf (mem s)) s1)).
  2: { unfold kleave, kop, zoom, leave, modify. do 2 f_equal.
       transitivity (set_kern (set_cpu (nointerrupt_leave (nointerrupt_enter (cpu (kern s)))) (kern s))
                       (set_mem (store_words f buf (mem s)) s1)); [reflexivity|].
       rewrite (set_cpu_restore 1) by done. reflexivity. }
  rewrite release_ok by done. unfold ret, s1. destruct s; cbn in *. by subst.
Qed.

(** The four pages that clearing frame [i] writes do not meet the frame [f]. *)
Definition clear_of (i : nat) (f : Z) : Prop :=
  f + PAGE_SIZE <= frame_addr i \/ frame_addr i + 4 * PAGE_SIZE <= f.

(** The first sector of the page of [va] within the image of its process: pages
    of 4096 bytes count from the address 16 M, and each takes eight sectors. *)
Definition page_sector (va : Z) : Z := (va - 0x1000000) mod 2 ^ 32 / 4096 * 8.

Lemma page_sector_range va : 0 <= page_sector va < 2 ^ 32.
Proof.
  unfold page_sector. set (x := (va - 0x1000000) mod 2 ^ 32).
  assert (Hx : 0 <= x < 2 ^ 32) by by apply Z.mod_pos_bound.
  pose proof (Z.div_pos x 4096). pose proof (Z.mul_div_le x 4096). lia.
Qed.

Lemma page_sector_offset va : disk_offset va = page_sector va.
Proof. apply Z.mod_small, page_sector_range. Qed.

(** When a page of the image of [p] can be loaded into the free frame [i]. *)
Record loadable (s : mm D) (p : ptr) (r : pcb) (va : Z) (i : nat) (l : list nat) (q : list Z) : Prop :=
  mk_loadable {
    lo_cpu : cpu_room 1 (cpu (kern s));
    lo_pcb : pcbs (kern s) !! p = Some r;
    lo_process : is_thread r = 0;
    lo_addressed : addressed (fr s);
    lo_free : free_list (fr s) (i :: l);
    lo_unowned info : page_frame_info (fr s) !! i = Some info -> owner info = NULL /\ info_mode info = 0;
    lo_lock : read_buffer_lock s = LOCK_INIT;
    lo_va : 0 <= va < 2 ^ 32;
    lo_dir : is_frame (page_directory r);
    lo_present : truth (Z.land (ld (pde_slot (page_directory r) va) (mem s)) PE_P) = true;
    lo_table : is_frame (walk_table (mem s) (page_directory r) va);
    lo_table_nonnull : walk_table (mem s) (page_directory r) va <> 0;
    lo_distinct : page_directory r <> walk_table (mem s) (page_directory r) va;
    lo_dir_clear : clear_of i (page_directory r);
    lo_table_clear : clear_of i (walk_table (mem s) (page_directory r) va);
    lo_image : page_sector va + 8 <= swap_size r < 2 ^ 32;
    lo_disk : 0 <= swap_loc r /\ swap_loc r + page_sector va + 8 <= blocks (disk s) < 2 ^ 31;
    lo_fifo : holds (fifo_queue s) q;
    lo_fifo_room : Z.of_nat (length q) < PAGEABLE_PAGES - 1
  }.

(** The contents of the page of [va] on the disk. *)
Definition disk_page (d : D) (r : pcb) (va : Z) : list Z :=
  mjoin (sector d <$> seqZ (swap_loc r + page_sector va) 8).

Lemma block_count_full size off :
  0 <= off -> off + 8 <= size < 2 ^ 32 -> block_count size off = 8.
Proof.
  intros Ho Hs. unfold block_count. change (PAGE_SIZE / SECTOR_SIZE) with 8.
  rewrite u32_small by lia. zbool; lia.
Qed.

Lemma join_sectors_length d loc n :
  0 <= n -> length (mjoin (sector d <$> seqZ loc n)) = Z.to_nat (n * SECTOR_WORDS).
Proof.
  intros Hn. rewrite <- (Z2Nat.id n) by done. generalize (Z.to_nat n) as k. intros k.
  revert loc. induction k as [|k IH]; intros loc; [done|].
  rewrite seqZ_cons by lia. cbn [fmap list_fmap mjoin list_join]. rewrite length_app, sector_length.
  replace (Z.pred (Z.of_nat (S k))) with (Z.of_nat k) by lia.
  rewrite IH. unfold SECTOR_WORDS. change (SECTOR_SIZE / 4) with 128. lia.
Qed.

Lemma disk_page_length d r va : length (disk_page d r va) = Z.to_nat PAGE_N_ENTRIES.
Proof. unfold disk_page. by rewrite join_sectors_length. Qed.

Lemma overlay_full data n : length data = n -> overlay data (replicate n 0) = data.
Proof.
  intros Hl. unfold overlay. rewrite length_replicate.
  rewrite (drop_ge (replicate n 0)) by (rewrite length_replicate; lia).
  rewrite app_nil_r. apply take_ge. lia.
Qed.

(** Memory after loading [page] into frame [i] and mapping it. *)
Definition loaded_ram (m : ram) (d t va : Z) (i : nat) (page : list Z) : ram :=
  st (slot d (get_directory_index va)) (pde t 7)
    (st (slot t (get_table_index va)) (pte (frame_addr i) 7)
       (store_words (frame_addr i) page (cleared (frame_addr i) m))).

Lemma store_cleared_out i page m a :
  (i < Z.to_nat PAGEABLE_PAGES)%nat -> length page = Z.to_nat PAGE_N_ENTRIES ->
  a < frame_addr i \/ frame_addr i + 4 * PAGE_SIZE <= a ->
  ld a (store_words (frame_addr i) page (cleared (frame_addr i) m)) = ld a m.
Proof.
  intros Hi Hp Ha. pose proof (frame_addr_bounds i Hi).
  assert (Hn : Z.of_nat (length page) = 1024) by (rewrite Hp; done).
  unfold PAGING_AREA_MAX_PADDR, PAGEABLE_PAGES, PAGING_AREA_MIN_PADDR, PAGE_SIZE in *.
  rewrite store_out by lia. apply cleared_out; [done|]. unfold PAGE_SIZE. lia.
Qed.

Lemma clear_of_out i f a : clear_of i f -> in_frame f a ->
  a < frame_addr i \/ frame_addr i + 4 * PAGE_SIZE <= a.
Proof. unfold clear_of, in_frame, PAGE_SIZE. lia. Qed.

Section Loaded.

Context (m : ram) (d t va : Z) (i : nat) (page : list Z).
Context (Hd : is_frame d) (Ht : is_frame t) (Hdt : d <> t) (Hva : 0 <= va < 2 ^ 32).
Context (Hi : (i < Z.to_nat PAGEABLE_PAGES)%nat) (Hcd : clear_of i d) (Hct : clear_of i t).
Context (Hpage : length page = Z.to_nat PAGE_N_ENTRIES).

Let m2 := store_words (frame_addr i) page (cleared (frame_addr i) m).

Lemma tables_kept a : in_frame d a \/ in_frame t a -> ld a m2 = ld a m.
Proof.
  intros Ha. apply store_cleared_out; [done..|].
  destruct Ha; [by apply (clear_of_out i d)|by apply (clear_of_out i t)].
Qed.

Lemma loaded_walk :
  walk (loaded_ram m d t va i page) d va = Some (frame_addr i + va mod 4096, true, true).
Proof.
  rewrite (walk_entries _ d va t 7 (frame_addr i) 7); try done.
  - by apply frame_addr_frame.
  - apply ld_st_eq.
  - unfold loaded_ram. rewrite ld_st_ne, ld_st_eq; [done|].
    intros E. apply slot_inj in E as [? _]; auto with paging.
Qed.

Lemma loaded_words : words (frame_addr i) (Z.to_nat PAGE_N_ENTRIES) (loaded_ram m d t va i page) = page.
Proof.
  pose proof (frame_addr_bounds i Hi).
  assert (Hn : Z.of_nat (length page) = 1024) by (rewrite Hpage; done).
  unfold PAGING_AREA_MAX_PADDR, PAGEABLE_PAGES, PAGING_AREA_MIN_PADDR, PAGE_SIZE in *.
  rewrite <- Hpage. rewrite <- (words_store (frame_addr i) page (cleared (frame_addr i) m)) at 3 by lia.
  apply words_ext. intros j Hj. rewrite u32_small by lia. unfold loaded_ram.
  rewrite !ld_st_ne; [done| |]; intros E.
  - pose proof (slot_in_frame t (get_table_index va) Ht (table_index_range va)) as Hs.
    rewrite <- E in Hs. pose proof (clear_of_out _ _ _ Hct Hs). unfold PAGE_SIZE in *. lia.
  - pose proof (slot_in_frame d (get_directory_index va) Hd (directory_index_range va Hva)) as Hs.
    rewrite <- E in Hs. pose proof (clear_of_out _ _ _ Hcd Hs). unfold PAGE_SIZE in *. lia.
Qed.

Lemma loaded_frame a :
  a < frame_addr i \/ frame_addr i + 4 * PAGE_SIZE <= a ->
  a <> slot d (get_directory_index va) -> a <> slot t (get_table_index va) ->
  ld a (loaded_ram m d t va i page) = ld a m.
Proof.
  intros Ha H1 H2. unfold loaded_ram. rewrite !ld_st_ne by done. by apply store_cleared_out.
Qed.

End Loaded.

End Demand.
