(* ===== verification/PageFault.v ===== *)
(** * Demand paging and swapping

    The page-fault path of [src/src/kernel/memory.c]: what a fault loads and
    maps, what an eviction writes back and unmaps, and that a page survives the
    round trip through the disk. *)

From S2P Require Import Prelude Sched Ring Sync Paging Frames Vmem VmemFacts.

Section Load.

Context {D : Type} `{BlockDeviceLaws D}.
Context (rdtsc : nat -> Z).
Implicit Types (s : mm D).

(** The frame table after frame [i] was taken and given to [va] in [p]. *)
Definition loaded_info (va : Z) (p : ptr) (info : page_frame_info_t) : page_frame_info_t :=
  claimed va p PE_INFO_USER_MODE (set_next_free_page INull info).

Lemma get_page_table_run va d m :
  truth (Z.land (ld (pde_slot d va) m) PE_P) = true -> get_page_table va d m = Ret (walk_table m d va, m).
Proof. intros Hp. unfold get_page_table. rewrite bind_gets. fold (pde_slot d va). by rewrite Hp. Qed.

Lemma mode_bits : Z.lor (Z.lor (Z.lor PE_P PE_RW) PE_US) PE_US = 7.
Proof. done. Qed.

Lemma enqueue_info_run s i info q :
  (i < Z.to_nat PAGEABLE_PAGES)%nat -> page_frame_info (fr s) !! i = Some info -> info_mode info = 0 ->
  holds (fifo_queue s) q -> Z.of_nat (length q) < PAGEABLE_PAGES - 1 ->
  exists f, fifo_enqueue_info (frame_addr i) s = Ret (tt, set_fifo_queue f s)
    /\ holds f (q ++ [Z.of_nat i]).
Proof.
  intros Hi Hr Hm Hq Hl. destruct (holds_enqueue _ _ (Z.of_nat i) Hq Hl) as (f & E & Hf).
  exists f. split; [|done]. unfold fifo_enqueue_info. rewrite info_of_addr by done.
  rewrite (frd_ok _ _ _ info) by done. rewrite Hm.
  change (negb (truth (Z.land 0 PE_INFO_PINNED))) with true. cbn [when].
  rewrite info_index_addr by done. unfold modify. cbv beta. by rewrite E.
Qed.

(** The state after the page was loaded. *)
Record loaded (s : mm D) (p : ptr) (r : pcb) (va : Z) (i : nat) (l : list nat) (q : list Z)
    (s' : mm D) : Prop := mk_loaded {
  ld_kern : kern s' = kern s;
  ld_mem : mem s' = loaded_ram (mem s) (page_directory r) (walk_table (mem s) (page_directory r) va)
                      va i (disk_page (disk s) r va);
  ld_free : free_list (fr s') l;
  ld_info : exists info, page_frame_info (fr s) !! i = Some info
    /\ page_frame_info (fr s') !! i = Some (loaded_info va p info)
    /\ forall j, j <> i -> page_frame_info (fr s') !! j = page_frame_info (fr s) !! j;
  ld_fifo : holds (fifo_queue s') (q ++ [Z.of_nat i]);
  ld_locks : page_map_lock s' = page_map_lock s /\ read_buffer_lock s' = LOCK_INIT
    /\ write_buffer_lock s' = write_buffer_lock s;
  ld_disk : blocks (disk s') = blocks (disk s) /\ forall j, sector (disk s') j = sector (disk s) j
}.

(** The second half of [load_page_from_disk], once the page is in memory. *)
Definition load_tail (va : Z) (p : ptr) (d f : Z) : M (mm D) Z :=
  table0 <-- rop (get_page_table va d) ;;
  frameref_table <--
    (if table0 =? 0 then
       t <-- allocate_page rdtsc ;;
       insert_page_frame_info t va p PE_INFO_USER_MODE ;;;
       inc_pinned_pages 1 ;;;
       rop (dir_ins_table d va t 7) ;;;
       ret t
     else ret table0) ;;
  if 0 <? 0 then
    release page_map_lock set_page_map_lock ;;; ret 0
  else
    when (negb (truth (Z.land PE_INFO_USER_MODE PE_INFO_PINNED))
          && (EVICTION_STRATEGY =? EVICTION_STRATEGY_FIFO))
      (fifo_enqueue_info f) ;;;
    insert_page_frame_info f va p PE_INFO_USER_MODE ;;;
    rop (table_map_page frameref_table va f 7) ;;;
    rop (dir_ins_table d va frameref_table 7) ;;;
    rop (invalidate_page va) ;;;
    kenter ;;; kleave ;;;
    ret 0.

Lemma load_tail_run s p d t va i info q :
  cpu_room 1 (cpu (kern s)) -> truth (Z.land (ld (pde_slot d va) (mem s)) PE_P) = true ->
  walk_table (mem s) d va = t -> t <> 0 -> (i < Z.to_nat PAGEABLE_PAGES)%nat ->
  page_frame_info (fr s) !! i = Some info -> owner info = NULL -> info_mode info = 0 ->
  holds (fifo_queue s) q -> Z.of_nat (length q) < PAGEABLE_PAGES - 1 ->
  exists f, load_tail va p d (frame_addr i) s
      = Ret (0, set_mem (st (slot d (get_directory_index va)) (pde t 7)
                  (st (slot t (get_table_index va)) (pte (frame_addr i) 7) (mem s)))
                (set_fr (info_upd (IFrame i) (claimed va p PE_INFO_USER_MODE info) (fr s))
                  (set_fifo_queue f s)))
    /\ holds f (q ++ [Z.of_nat i]).
Proof.
  intros Hc Hpr Hwt Htn Hi Hr Ho Hm Hq Hqr. unfold load_tail.
  rewrite (rop_ok _ s t (mem s)); [|rewrite <- Hwt; by apply get_page_table_run].
  rewrite set_mem_same. rewrite (proj2 (Z.eqb_neq t 0)) by done. rewrite bind_ret.
  change (0 <? 0) with false. change (negb _ && _) with true. cbn [when].
  destruct (enqueue_info_run s i info q Hi Hr Hm Hq Hqr) as (f & E & Hf).
  exists f. split; [|done]. rewrite (bind_step _ _ _ _ _ E).
  rewrite (bind_step _ _ _ _ _ (insert_info_free (set_fifo_queue f s) i va p PE_INFO_USER_MODE info Hi Hr Ho)).
  rewrite (rop_ok _ _ _ _ _ (table_map_page_run _ _ _ _ _)).
  rewrite (rop_ok _ _ _ _ _ (dir_ins_table_run _ _ _ _ _)).
  by rewrite invalidate_ok, crit_ok.
Qed.

(** The state between the two halves. *)
Definition read_state (i : nat) (page : list Z) (dk : D) (s : mm D) : mm D :=
  set_mem (store_words (frame_addr i) page (mem s)) (set_read_buffer page (set_disk dk s)).

(** A frame [i] that [allocate_page] has delivered in the state [s1], and the
    page of [va] in the image of [p]. *)
Record frame_ready (s1 : mm D) (r : pcb) (va : Z) (i : nat) (info : page_frame_info_t) (q : list Z) : Prop :=
  mk_frame_ready {
    fy_cpu : cpu_room 1 (cpu (kern s1));
    fy_index : (i < Z.to_nat PAGEABLE_PAGES)%nat;
    fy_info : page_frame_info (fr s1) !! i = Some info;
    fy_unowned : owner info = NULL /\ info_mode info = 0;
    fy_lock : read_buffer_lock s1 = LOCK_INIT;
    fy_present : truth (Z.land (ld (pde_slot (page_directory r) va) (mem s1)) PE_P) = true;
    fy_table_nonnull : walk_table (mem s1) (page_directory r) va <> 0;
    fy_apart : forall a, in_frame (frame_addr i) a -> a <> pde_slot (page_directory r) va;
    fy_image : page_sector va + 8 <= swap_size r < 2 ^ 32;
    fy_disk : 0 <= swap_loc r /\ swap_loc r + page_sector va + 8 <= blocks (disk s1) < 2 ^ 31;
    fy_fifo : holds (fifo_queue s1) q;
    fy_fifo_room : Z.of_nat (length q) < PAGEABLE_PAGES - 1
  }.

(** The state after the page was loaded into the frame and mapped. *)
Definition mapped_state (s1 : mm D) (p : ptr) (r : pcb) (va : Z) (i : nat) (info : page_frame_info_t)
    (dk : D) (fq : FIFOQueue) : mm D :=
  let s2 := read_state i (disk_page (disk s1) r va) dk s1 in
  let d := page_directory r in
  let t := walk_table (mem s1) d va in
  set_mem (st (slot d (get_directory_index va)) (pde t 7)
            (st (slot t (get_table_index va)) (pte (frame_addr i) 7) (mem s2)))
    (set_fr (info_upd (IFrame i) (claimed va p PE_INFO_USER_MODE info) (fr s2)) (set_fifo_queue fq s2)).

Lemma store_page_out i page m a :
  (i < Z.to_nat PAGEABLE_PAGES)%nat -> length page = Z.to_nat PAGE_N_ENTRIES ->
  ~ in_frame (frame_addr i) a -> ld a (store_words (frame_addr i) page m) = ld a m.
Proof.
  intros Hi Hp Ha. pose proof (frame_addr_bounds i Hi).
  assert (Hn : Z.of_nat (length page) = 1024) by (rewrite Hp; done).
  unfold in_frame, PAGING_AREA_MAX_PADDR, PAGEABLE_PAGES, PAGING_AREA_MIN_PADDR, PAGE_SIZE in *.
  apply store_out; lia.
Qed.

Lemma load_with_frame s s1 p r va i info q :
  cpu_room 1 (cpu (kern s)) -> pcbs (kern s) !! p = Some r -> is_thread r = 0 ->
  allocate_page rdtsc s = Ret (frame_addr i, s1) -> frame_ready s1 r va i info q ->
  exists dk fq, load_page_from_disk rdtsc va p s = Ret (0, mapped_state s1 p r va i info dk fq)
    /\ holds fq (q ++ [Z.of_nat i])
    /\ blocks dk = blocks (disk s1) /\ forall j, sector dk j = sector (disk s1) j.
Proof.
  intros Hc Hp Hth Hal [Hc1 Hi Hr [Ho Hm] Hlk Hpr Htn Hap Him Hdk Hq Hqr].
  set (d := page_directory r) in *. set (t := walk_table (mem s1) d va) in *.
  set (off := page_sector va) in *. pose proof (page_sector_range va) as Hoff. fold off in Hoff.
 
  destruct (read_sectors (swap_loc r + off) 8 (disk s1)) as (dk & Hrd & Hb & Hs); [lia..|].
  pose proof (disk_page_length (disk s1) r va) as Hpl.
  set (s2 := read_state i (disk_page (disk s1) r va) dk s1).
  assert (Hpde : ld (pde_slot d va) (mem s2) = ld (pde_slot d va) (mem s1)).
  { apply store_page_out; [done..|]. intros Hin. by apply (Hap _ Hin). }
  destruct (load_tail_run s2 p d t va i info q) as (fq & E & Hf);
    [done|by rewrite Hpde|unfold t, walk_table; by rewrite Hpde|done..|].
  exists dk, fq. split_and!; [|done..].
  unfold load_page_from_disk. do 3 rewrite (krd_ok _ _ _ r) by done.
  rewrite crit_ok by done. rewrite (krd_ok _ _ _ r) by done.
  rewrite Hth. cbn [Z.eqb negb when]. rewrite bind_ret. rewrite (krd_ok _ _ _ r) by done.
  rewrite bind_gets. unfold PIN_SHELL. rewrite andb_false_r, mode_bits.
  rewrite (bind_step _ _ _ _ _ Hal).
  assert (Hnz : (frame_addr i =? 0) = false).
  { apply Z.eqb_neq. unfold frame_addr, PAGING_AREA_MIN_PADDR, PAGE_SIZE. lia. }
  rewrite Hnz, bind_assoc, invalidate_ok, bind_assoc, page_sector_offset. fold d off.
  rewrite block_count_full by lia.
  rewrite (u32_small (swap_loc r + off)), (s32_small (swap_loc r + off)) by lia.
  change (s32 8) with 8.
  rewrite (bind_step _ _ _ _ _ (disk_loader_ok s1 _ _ _ _ _ Hc1 Hlk Hrd)).
  change (mjoin (sector (disk s1) <$> seqZ (swap_loc r + off) 8)) with (disk_page (disk s1) r va).
  rewrite overlay_full by done. rewrite bind_assoc, invalidate_ok, bind_ret.
  exact E.
Qed.

Lemma load_page_run s p r va i l q :
  loadable s p r va i l q ->
  exists s', load_page_from_disk rdtsc va p s = Ret (0, s') /\ loaded s p r va i l q s'.
Proof.
  intros [Hc Hp Hth Ha Hl Hun Hlk Hva Hd Hpr Ht Htn Hdt Hcd Hct Him Hdk Hq Hqr].
  destruct (free_list_info s i l Ha Hl) as (info & Hr & Hpa & Hi).
  destruct (Hun info Hr) as [Ho Hm]. set (d := page_directory r) in *.
  assert (Hpd : in_frame d (pde_slot d va)) by (apply slot_in_frame; auto with paging).
  set (s1 := alloc_state i info s).
  assert (Hpde : ld (pde_slot d va) (mem s1) = ld (pde_slot d va) (mem s)).
  { apply cleared_out; [done|]. exact (clear_of_out i d _ Hcd Hpd). }
  assert (Hwt : walk_table (mem s1) d va = walk_table (mem s) d va) by (unfold walk_table; by rewrite Hpde).
  assert (Hlen : (i < length (page_frame_info (fr s)))%nat) by (by eapply lookup_lt_Some).
  destruct (load_with_frame s s1 p r va i (set_next_free_page INull info) q)
    as (dk & fq & E & Hf & Hb & Hs); [done|done|done|exact (allocate_page_free rdtsc s i l info Hc Ha Hl Hr)| |].
  { constructor;
      [exact Hc|exact Hi| |split; [exact Ho|exact Hm]|exact Hlk| | | |exact Him|exact Hdk|exact Hq|exact Hqr].
    - by apply list_lookup_insert_eq.
    - fold d. rewrite Hpde. exact Hpr.
    - fold d. rewrite Hwt. exact Htn.
    - intros a Hin ->. pose proof (clear_of_out i d _ Hcd Hpd). fold d in Hin.
      unfold in_frame, PAGE_SIZE in *. lia. }
  eexists. split; [exact E|]. destruct (remove_free_run _ _ _ _ Hl Hr) as [_ Hfl].
  constructor; [reflexivity| | | |exact Hf|split; [reflexivity|split; [exact Hlk|reflexivity]]
               |split; [exact Hb|exact Hs]].
  - unfold mapped_state. cbn [mem set_mem]. fold d. by rewrite Hwt.
  - split; [|by destruct Hfl]. apply (flist_insert _ _ _ i); [|exact (proj1 Hfl)].
    destruct Hl as [_ Hnd]. by apply list.NoDup_cons in Hnd as [? _].
  - exists info. split; [done|]. split.
    + apply list_lookup_insert_eq.
      change (i < length (<[i := set_next_free_page INull info]> (page_frame_info (fr s))))%nat.
      by rewrite length_insert.
    + intros j Hj. cbn. by rewrite !list_lookup_insert_ne.
Qed.

(** ** The page-fault handler *)

(** A fault is taken inside one critical section at least. *)
Definition in_critical (c : cpu_state) : Prop :=
  1 <= nointerrupt_count_val c < 2 ^ 32 - 1 /\ interrupts_on c = false.

Lemma enter_leave c : in_critical c -> nointerrupt_enter (nointerrupt_leave c) = c.
Proof.
  destruct c as [v b]. unfold in_critical, nointerrupt_enter, nointerrupt_leave. cbn.
  intros [Hv ->]. f_equal. rewrite (u32_small (v - 1)), u32_small by lia. lia.
Qed.

Lemma leave_room c : in_critical c -> cpu_room 1 (nointerrupt_leave c).
Proof.
  destruct c as [v b]. unfold in_critical, cpu_room, nointerrupt_leave. cbn. intros [Hv ->].
  rewrite u32_small by lia. split; [lia|]. by destruct (v - 1 =? 0).
Qed.

Lemma critical_room c : in_critical c -> cpu_room 1 c.
Proof. intros [H1 H2]. split; [lia|]. rewrite H2. symmetry. apply Z.eqb_neq. lia. Qed.

(** One more page fault of the process. *)
Definition count_fault (r : pcb) : pcb := set_page_fault_count (u32 (page_fault_count r + 1)) r.

(** The state in which [load_page_from_disk] starts. *)
Definition fault_state (s : mm D) : mm D :=
  let k := kern s in
  set_page_map_lock held
    (set_kern (set_cpu (nointerrupt_leave (cpu k))
                 (set_pcbs (alter count_fault (current_running k) (pcbs k)) k)) s).

Lemma fault_prologue {B} s p r (k : unit -> M (mm D) B) :
  current_running (kern s) = p -> pcbs (kern s) !! p = Some r -> page_map_lock s = LOCK_INIT ->
  cpu_room 1 (cpu (kern s)) ->
  (kop (wr p count_fault) ;;;
   (kenter ;;; kleave) ;;; kleave ;;;
   x <-- acquire page_map_lock set_page_map_lock ;; k x) s = k tt (fault_state s).
Proof.
  intros Hcur Hp Hlk Hc.
  rewrite (bind_step _ _ _ _ _ (kop_run _ _ _ _ (wr_run (kern s) p count_fault (mk_is_Some _ _ Hp)))).
  rewrite bind_assoc, crit_ok by done.
  rewrite (bind_step kleave _ _ _ _ (kop_run leave _ tt _ eq_refl)).
  rewrite acquire_ok by done. unfold fault_state. by rewrite Hcur.
Qed.

Lemma fault_loadable s p r va i l q :
  loadable s p r va i l q -> current_running (kern s) = p -> in_critical (cpu (kern s)) ->
  loadable (fault_state s) p (count_fault r) va i l q.
Proof.
  intros [Hc Hp Hth Ha Hl Hun Hlk Hva Hd Hpr Ht Htn Hdt Hcd Hct Him Hdk Hq Hqr] Hcur Hcrit.
  constructor; try done.
  - by apply leave_room.
  - cbn. by rewrite Hcur, lookup_alter_eq, Hp.
Qed.

(** The handler on a page that can be loaded. *)
Lemma page_fault_run s p r va i l q error_code
  (Hload : loadable s p r va i l q) (Hcur : current_running (kern s) = p)
  (Hcrit : in_critical (cpu (kern s))) (Hlock : page_map_lock s = LOCK_INIT)
  (Hcr2 : cr2 s = va) (Herr : Z.land error_code 1 = 0) :
  exists s', page_fault_handler rdtsc error_code s = Ret (tt, s')
    /\ walk (mem s') (page_directory r) va = Some (frame_addr i + va mod PAGE_SIZE, true, true)
    /\ words (frame_addr i) (Z.to_nat PAGE_N_ENTRIES) (mem s') = disk_page (disk s) r va
    /\ (exists info, page_frame_info (fr s') !! i = Some info /\ owner info = p
          /\ vaddr info = Z.land va 0xfffff000 /\ info_mode info = PE_INFO_USER_MODE)
    /\ holds (fifo_queue s') (q ++ [Z.of_nat i]) /\ free_list (fr s') l
    /\ page_map_lock s' = LOCK_INIT /\ cpu (kern s') = cpu (kern s)
    /\ pcbs (kern s') = alter count_fault p (pcbs (kern s)).
Proof.
  destruct (load_page_run _ _ _ _ _ _ _ (fault_loadable _ _ _ _ _ _ _ Hload Hcur Hcrit)) as (s1 & E & HL).
  pose proof Hload as [Hc Hp _ Ha Hl _ _ Hva Hd _ Ht _ Hdt Hcd Hct _ _ _ _].
  destruct (free_list_info s i l Ha Hl) as (_ & _ & _ & Hi).
  destruct HL as [Hk Hm Hf (info & _ & Hinfo & _) Hq (Hl1 & _ & _) _].
  unfold page_fault_handler. rewrite bind_gets, Hcr2, invalidate_ok.
  rewrite (bind_step (kop (gets current_running)) _ s p s).
  2: { unfold kop, zoom, gets. by rewrite set_kern_same, Hcur. }
  rewrite Herr. change (truth 0) with false. cbv iota.
  rewrite (fault_prologue s p r) by done. rewrite (bind_step _ _ _ _ _ E).
  rewrite release_ok by (by rewrite Hl1).
  rewrite (bind_step kenter _ _ _ _ (kop_run enter _ tt _ eq_refl)).
  eexists. split; [reflexivity|].
  change (page_directory (count_fault r)) with (page_directory r) in Hm.
  change (mem (fault_state s)) with (mem s) in Hm. change (disk (fault_state s)) with (disk s) in Hm.
  split_and!.
  - cbn [mem set_kern set_page_map_lock]. rewrite Hm. by apply loaded_walk.
  - cbn [mem set_kern set_page_map_lock]. rewrite Hm. apply loaded_words; try done.
    apply disk_page_length.
  - exists (loaded_info va p info). by split_and!.
  - exact Hq.
  - exact Hf.
  - done.
  - cbn [kern set_kern set_page_map_lock cpu set_cpu]. rewrite Hk. by apply enter_leave.
  - cbn [kern set_kern set_page_map_lock pcbs set_cpu]. rewrite Hk. cbn. by rewrite Hcur.
Qed.

(** [C1] The page-fault handler implements demand paging.  When a process
    touches a page of its image that is not present and a frame is free, the
    handler returns; the faulting address is then mapped, readable and writable
    for user code, to a frame that holds exactly the page's sectors of the
    image; the frame is recorded as owned by the process, is the newest of the
    eviction queue and is no longer free; the fault is counted, the lock is
    released and the critical section count is what it was. *)
Theorem page_fault_loads s p r va i l q error_code
  (Hload : loadable s p r va i l q) (Hcur : current_running (kern s) = p)
  (Hcrit : in_critical (cpu (kern s))) (Hlock : page_map_lock s = LOCK_INIT)
  (Hcr2 : cr2 s = va) (Herr : Z.land error_code 1 = 0) :
  exists s', page_fault_handler rdtsc error_code s = Ret (tt, s')
    /\ walk (mem s') (page_directory r) va = Some (frame_addr i + va mod PAGE_SIZE, true, true)
    /\ words (frame_addr i) (Z.to_nat PAGE_N_ENTRIES) (mem s') = disk_page (disk s) r va
    /\ (exists info, page_frame_info (fr s') !! i = Some info /\ owner info = p
          /\ vaddr info = Z.land va 0xfffff000 /\ info_mode info = PE_INFO_USER_MODE)
    /\ holds (fifo_queue s') (q ++ [Z.of_nat i]) /\ free_list (fr s') l
    /\ page_map_lock s' = LOCK_INIT /\ cpu (kern s') = cpu (kern s)
    /\ pcbs (kern s') = alter count_fault p (pcbs (kern s)).
Proof. exact (page_fault_run s p r va i l q error_code Hload Hcur Hcrit Hlock Hcr2 Herr). Qed.

(** An access violation (error code bit 0) is not handled: the kernel
    stops, whatever the state of the machine. *)
Theorem page_fault_violation s error_code
  (Hp : is_Some (pcbs (kern s) !! current_running (kern s)))
  (Herr : Z.land error_code 1 <> 0) :
  page_fault_handler rdtsc error_code s = Halt.
Proof.
  unfold page_fault_handler. rewrite bind_gets, invalidate_ok.
  rewrite (bind_step (kop (gets current_running)) _ s (current_running (kern s)) s).
  2: { unfold kop, zoom, gets. by rewrite set_kern_same. }
  rewrite (bind_step _ _ _ _ _ (kop_run _ _ _ _ (wr_run (kern s) _ count_fault Hp))).
  by rewrite (proj2 (truth_true _) Herr).
Qed.

End Load.
