(* ===== verification/Evict.v ===== *)
(** * Eviction and the round trip through the disk

    The eviction path of [src/src/kernel/memory.c]: [select_page_for_eviction],
    [page_frame_check_dirty], [write_page_back_to_disk], [page_free] and
    [try_evict_page], and what [allocate_page] does when no frame is free. *)

From S2P Require Import Prelude Sched Ring Sync Paging Frames Vmem VmemFacts PageFault.

Section Evict.

Context {D : Type} `{BlockDeviceLaws D}.
Context (rdtsc : nat -> Z).
Implicit Types (s : mm D).

Lemma chain_fuel_S : chain_fuel = S (S (Z.to_nat PAGEABLE_PAGES)).
Proof. reflexivity. Qed.

(** The words of a frame lie in the frame. *)
Lemma frame_word i j :
  (i < Z.to_nat PAGEABLE_PAGES)%nat -> (j < Z.to_nat PAGE_N_ENTRIES)%nat ->
  in_frame (frame_addr i) (u32 (frame_addr i + 4 * Z.of_nat j)).
Proof.
  intros Hi Hj. pose proof (frame_addr_bounds i Hi) as Hb.
  assert (Z.of_nat j < 1024) by (change 1024 with (Z.of_nat (Z.to_nat PAGE_N_ENTRIES)); lia).
  unfold PAGING_AREA_MAX_PADDR, PAGEABLE_PAGES, PAGING_AREA_MIN_PADDR, PAGE_SIZE in Hb.
  rewrite u32_small by lia. unfold in_frame, PAGE_SIZE. lia.
Qed.

(** A critical section around an operation on memory. *)
Lemma crit_rop {B} s m' (x : M (mm D) unit) (k : unit -> M (mm D) B) :
  cpu_room 1 (cpu (kern s)) ->
  (forall c, x (set_kern (set_cpu c (kern s)) s) = Ret (tt, set_kern (set_cpu c (kern s)) (set_mem m' s))) ->
  bind kenter (fun _ => bind x (fun _ => bind kleave k)) s = k tt (set_mem m' s).
Proof.
  intros Hc Hx. rewrite (bind_step kenter _ _ _ _ (kop_run enter _ tt _ eq_refl)).
  rewrite (bind_step x _ _ _ _ (Hx _)).
  rewrite (bind_step kleave _ _ tt (set_mem m' s)); [done|].
  unfold kleave, kop, zoom, leave, modify. do 2 f_equal.
  transitivity (set_kern (set_cpu (nointerrupt_leave (nointerrupt_enter (cpu (kern s)))) (kern s))
                  (set_mem m' s)); [reflexivity|].
  by rewrite (set_cpu_restore 1), <- (set_kern_same (set_mem m' s)) at 1.
Qed.

(** Frame [i] is the oldest of the eviction queue and belongs, unshared, to the
    page [va] of the process [o]. *)
Record evictable (s : mm D) (i : nat) (q : list Z) (info : page_frame_info_t) (r : pcb) : Prop :=
  mk_evictable {
    ev_cpu : cpu_room 1 (cpu (kern s));
    ev_fifo : holds (fifo_queue s) (Z.of_nat i :: q);
    ev_index : (i < Z.to_nat PAGEABLE_PAGES)%nat;
    ev_addressed : addressed (fr s);
    ev_info : page_frame_info (fr s) !! i = Some info;
    ev_mode : info_mode info = PE_INFO_USER_MODE;
    ev_shared : next_shared_info info = INull;
    ev_owner : owner info <> NULL /\ owner info <> DUMMY;
    ev_pcb : pcbs (kern s) !! owner info = Some r;
    ev_kernel : page_directory r <> kernel_pdir s;
    ev_va : 0 <= vaddr info < 2 ^ 32;
    ev_dir : is_frame (page_directory r);
    ev_table : is_frame (walk_table (mem s) (page_directory r) (vaddr info));
    ev_table_nonnull : walk_table (mem s) (page_directory r) (vaddr info) <> 0;
    ev_distinct : walk_table (mem s) (page_directory r) (vaddr info) <> page_directory r;
    ev_mapped : walk (mem s) (page_directory r) (vaddr info) <> None;
    ev_entry : 0 <= ld (pte_slot (mem s) (page_directory r) (vaddr info)) (mem s) < 2 ^ 32;
    ev_outside : forall a, in_frame (frame_addr i) a ->
      a <> pte_slot (mem s) (page_directory r) (vaddr info);
    ev_image : page_sector (vaddr info) + 8 <= swap_size r < 2 ^ 32;
    ev_disk : 0 <= swap_loc r
      /\ swap_loc r + page_sector (vaddr info) + 8 <= blocks (disk s) < 2 ^ 31;
    ev_spin : page_frame_info_lock s = SPINLOCK_INIT;
    ev_lock : write_buffer_lock s = LOCK_INIT;
    ev_words : Forall is_word (words (frame_addr i) (Z.to_nat PAGE_N_ENTRIES) (mem s))
  }.

Section One.

Context (s : mm D) (i : nat) (q : list Z) (info : page_frame_info_t) (r : pcb).
Context (Hev : evictable s i q info r).

Let d := page_directory r.
Let va := vaddr info.
Let f := frame_addr i.

(** The dirty bit of the page-table entry. *)
Definition is_dirty : bool := truth (Z.land (ld (pte_slot (mem s) d va) (mem s)) PE_D).

Lemma ev_present : truth (Z.land (ld (pde_slot d va) (mem s)) PE_P) = true.
Proof.
  pose proof (ev_mapped _ _ _ _ _ Hev) as Hm. unfold walk in Hm. fold d va in Hm.
  fold (pde_slot d va) in Hm. destruct (truth _); [done|by destruct Hm].
Qed.

Lemma ev_paddr : paddr info = f.
Proof. destruct (ev_addressed _ _ _ _ _ Hev) as (_ & _ & Ha). apply Ha, (ev_info _ _ _ _ _ Hev). Qed.

Lemma info_of_f : info_of f = IFrame i.
Proof. apply info_of_addr, (ev_index _ _ _ _ _ Hev). Qed.

Lemma select_run :
  exists fq, select_page_for_eviction rdtsc s = Ret (f, set_fifo_queue fq s) /\ holds fq q.
Proof.
  destruct (holds_dequeue _ _ _ (ev_fifo _ _ _ _ _ Hev)) as (fq & E & Hq). exists fq. split; [|done].
  unfold select_page_for_eviction, EVICTION_STRATEGY, EVICTION_STRATEGY_FIFO, EVICTION_STRATEGY_RANDOM.
  cbn [Z.eqb Pos.eqb]. unfold select_page_for_eviction_v1.
  assert (Hd : dequeue s = Ret ((Z.of_nat i, false), set_fifo_queue fq s)).
  { unfold dequeue. rewrite bind_gets, E. by rewrite bind_modify. }
  rewrite bind_assoc, (bind_step _ _ _ _ _ Hd). cbn [fst snd when]. rewrite bind_assoc, bind_ret.
  rewrite bind_assoc, spin_ok by apply (ev_spin _ _ _ _ _ Hev). rewrite bind_assoc, Nat2Z.id.
  rewrite (frd_ok _ _ _ info) by apply (ev_info _ _ _ _ _ Hev).
  rewrite bind_assoc, unspin_ok by done. rewrite bind_ret, ev_paddr.
  set (s1 := set_page_frame_info_lock SPINLOCK_INIT _).
  assert (Es : s1 = set_fifo_queue fq s).
  { unfold s1. pose proof (ev_spin _ _ _ _ _ Hev) as Hs. destruct s; cbn in *. by subst. }
  rewrite Es. rewrite info_of_f.
  rewrite (frd_ok _ _ _ info) by apply (ev_info _ _ _ _ _ Hev).
  rewrite (proj2 (Nat.eqb_neq _ _)) by apply (ev_owner _ _ _ _ _ Hev). cbn [negb when].
  rewrite bind_assoc, (frd_ok _ _ _ info) by apply (ev_info _ _ _ _ _ Hev).
  by rewrite invalidate_ok.
Qed.

Lemma check_dirty_run s1 :
  fr s1 = fr s -> kern s1 = kern s -> mem s1 = mem s ->
  page_frame_check_dirty f s1 = Ret (if is_dirty then 1 else 0, s1).
Proof.
  intros Ef Ek Em. unfold page_frame_check_dirty. rewrite info_of_f, chain_fuel_S. cbn [check_dirty].
  rewrite decide_False by done.
  assert (Hi : info_at (IFrame i) (fr s1) = Some info) by (rewrite Ef; apply (ev_info _ _ _ _ _ Hev)).
  assert (Hp : pcbs (kern s1) !! owner info = Some r) by (rewrite Ek; apply (ev_pcb _ _ _ _ _ Hev)).
  rewrite (frd_ok _ _ _ info) by done.
  rewrite (proj2 (Nat.eqb_neq _ _)) by apply (ev_owner _ _ _ _ _ Hev).
  rewrite (krd_ok _ _ _ r) by done. rewrite (frd_ok _ _ _ info) by done.
  rewrite (frd_ok _ _ _ info) by done. rewrite (ev_mode _ _ _ _ _ Hev).
  change (truth (Z.land PE_INFO_USER_MODE PE_INFO_KERNEL_DUMMY)) with false. cbn [negb].
  rewrite (rop_ok _ s1 is_dirty (mem s1)).
  - rewrite set_mem_same, (frd_ok _ _ _ info) by done. rewrite (ev_shared _ _ _ _ _ Hev).
    rewrite decide_True by done. by destruct is_dirty.
  - unfold is_page_dirty. rewrite bind_gets. fold d va. fold (pde_slot d va). rewrite Em, ev_present.
    cbn [negb]. by rewrite bind_gets.
Qed.

(** The device after the page was written back. *)
Definition written_back (dk : D) : Prop :=
  blocks dk = blocks (disk s)
  /\ disk_page dk r va = words f (Z.to_nat PAGE_N_ENTRIES) (mem s)
  /\ forall j, ~ (swap_loc r + page_sector va <= j < swap_loc r + page_sector va + 8) ->
       sector dk j = sector (disk s) j.

Lemma join_chunks (data : list Z) (g : Z -> list Z) n : forall loc,
  length data = (n * 128)%nat ->
  (forall j, loc <= j < loc + Z.of_nat n -> g j = take 128 (drop (Z.to_nat ((j - loc) * 128)) data)) ->
  mjoin (g <$> seqZ loc (Z.of_nat n)) = data.
Proof.
  revert data. induction n as [|n IH]; intros data loc Hlen Hg.
  - destruct data; done.
  - rewrite seqZ_cons, fmap_cons by lia.
    match goal with |- mjoin (?x :: ?l) = _ => change (x ++ mjoin l = data) end.
    replace (Z.pred (Z.of_nat (S n))) with (Z.of_nat n) by lia.
    rewrite (IH (drop 128 data) (Z.succ loc)).
    + rewrite Hg by lia. rewrite Z.sub_diag. cbn [Z.mul Z.to_nat]. rewrite drop_0. apply take_drop.
    + rewrite length_drop. lia.
    + intros j Hj. rewrite Hg by lia. rewrite drop_drop. do 2 f_equal. lia.
Qed.

Lemma write_back_run s1 :
  kern s1 = kern s -> mem s1 = mem s -> disk s1 = disk s -> write_buffer_lock s1 = LOCK_INIT ->
  exists dk, write_page_back_to_disk va (owner info) f s1 = Ret (0, set_disk dk s1) /\ written_back dk.
Proof.
  intros Ek Em Ed El.
  destruct (ev_disk _ _ _ _ _ Hev) as [Hl0 Hl1]. pose proof (ev_image _ _ _ _ _ Hev) as Him.
  fold va in Hl1, Him. pose proof (page_sector_range va) as Ho.
  set (off := page_sector va) in *.
  assert (Hp : pcbs (kern s1) !! owner info = Some r) by (rewrite Ek; apply (ev_pcb _ _ _ _ _ Hev)).
  set (data := words f (Z.to_nat PAGE_N_ENTRIES) (mem s)).
  destruct (write_sectors (swap_loc r + off) 8 data (disk s)) as (dk & E & Hb & Hs); [lia..| | |].
  { unfold data. by rewrite words_length. }
  { apply (ev_words _ _ _ _ _ Hev). }
  exists dk. split.
  - unfold write_page_back_to_disk. rewrite (krd_ok _ _ _ r) by done. rewrite (krd_ok _ _ _ r) by done.
    rewrite page_sector_offset. fold off. rewrite block_count_full by lia. destruct (Z.ltb_spec (swap_size r) off); [lia|].
    rewrite (krd_ok _ _ _ r) by done.
    rewrite (rop_ok _ s1 (walk_table (mem s) d va) (mem s1)).
    2: { rewrite Em. apply get_page_table_run, ev_present. }
    rewrite set_mem_same. rewrite (proj2 (Z.eqb_neq _ _)) by apply (ev_table_nonnull _ _ _ _ _ Hev).
    rewrite acquire_ok by done. rewrite bind_get.
    change (mem (set_write_buffer_lock held s1)) with (mem s1).
    change (disk (set_write_buffer_lock held s1)) with (disk s1).
    change (Z.to_nat (8 * SECTOR_WORDS)) with (Z.to_nat PAGE_N_ENTRIES). rewrite Em, Ed. fold data.
    rewrite (u32_small (swap_loc r + off)), (s32_small (swap_loc r + off)) by lia.
    change (s32 8) with 8. rewrite E. rewrite bind_modify, invalidate_ok, release_ok by done.
    unfold ret. do 2 f_equal. destruct s1; cbn in *. by subst.
  - split; [done|]. split.
    + unfold disk_page. apply (join_chunks _ _ 8).
      * unfold data. by rewrite words_length.
      * intros j Hj. rewrite Hs, bool_decide_true by done. done.
    + intros j Hj. rewrite Hs. by rewrite bool_decide_false.
Qed.

(** The info of the frame afterwards. *)
Definition cleared_info : page_frame_info_t :=
  set_next_shared_info INull (set_info_mode 0 (set_vaddr 0 (set_owner NULL info))).

Lemma page_free_run s1 :
  fr s1 = fr s -> kern s1 = kern s -> mem s1 = mem s -> kernel_pdir s1 = kernel_pdir s ->
  exists m', unmap_physical_page d va (mem s) = Ret (tt, m')
    /\ page_free f true s1
       = Ret (tt, set_fr (info_upd (IFrame i) cleared_info (fr s)) (set_mem m' s1)).
Proof.
  intros Ef Ek Em Ep.
  destruct (unmap_walk (mem s) d va) as (m' & Eu & _); try apply Hev.
  exists m'. split; [done|]. unfold page_free. rewrite info_of_f, chain_fuel_S. cbn [free_infos].
  assert (Hi : info_at (IFrame i) (fr s1) = Some info) by (rewrite Ef; apply (ev_info _ _ _ _ _ Hev)).
  assert (Hp : pcbs (kern s1) !! owner info = Some r) by (rewrite Ek; apply (ev_pcb _ _ _ _ _ Hev)).
  rewrite (frd_ok _ _ _ info) by done. rewrite bind_gets.
  rewrite (proj2 (Nat.eqb_neq (owner info) DUMMY)) by apply (ev_owner _ _ _ _ _ Hev).
  rewrite bind_assoc, (krd_ok _ _ _ r) by done. rewrite bind_ret, Ep.
  rewrite (proj2 (Z.eqb_neq _ _)) by apply (ev_kernel _ _ _ _ _ Hev). rewrite bind_ret.
  rewrite (frd_ok _ _ _ info) by done. fold va.
  rewrite (crit_rop s1 m').
  2: { rewrite Ek. apply (ev_cpu _ _ _ _ _ Hev). }
  2: { intros c. rewrite (krd_ok _ _ _ r) by done. fold d.
       rewrite (rop_run _ _ tt m'); [done|]. change (unmap_physical_page d va (mem s1) = Ret (tt, m')). by rewrite Em. }
  assert (Hlt : (i < length (page_frame_info (fr s1)))%nat) by (by eapply lookup_lt_Some).
  rewrite (fwr_ok _ _ _ info) by done.
  do 2 (erewrite fwr_ok; [|cbn; apply list_lookup_insert_eq; by rewrite ?length_insert]).
  erewrite frd_ok; [|cbn; apply list_lookup_insert_eq; by rewrite ?length_insert].
  erewrite fwr_ok; [|cbn; apply list_lookup_insert_eq; by rewrite ?length_insert].
  cbn [next_shared_info set_info_mode set_vaddr set_owner]. rewrite (ev_shared _ _ _ _ _ Hev).
  rewrite decide_True by done. rewrite <- Ef. unfold ret.
  apply (f_equal (fun g => Ret (tt, set_fr (set_page_frame_info g (fr s1)) (set_mem m' s1)))).
  cbn. by rewrite !list_insert_insert_eq.
Qed.

(** The state after the eviction; [dk] and [m'] are the device and the memory. *)
Definition evicted_state (fq : FIFOQueue) (dk : D) (m' : ram) : mm D :=
  set_fr (info_upd (IFrame i) cleared_info (fr s)) (set_mem m' (set_disk dk (set_fifo_queue fq s))).

Lemma set_disk_same s1 : set_disk (disk s1) s1 = s1.
Proof. by destruct s1. Qed.

Lemma try_evict_run :
  exists fq dk m', try_evict_page rdtsc s = Ret (f, evicted_state fq dk m')
    /\ holds fq q /\ unmap_physical_page d va (mem s) = Ret (tt, m')
    /\ if is_dirty then written_back dk else dk = disk s.
Proof.
  destruct select_run as (fq & E & Hq). set (s1 := set_fifo_queue fq s) in *.
  unfold try_evict_page, try_evict_page_v2. rewrite (bind_step _ _ _ _ _ E).
  rewrite (proj2 (Z.eqb_neq f 0)) by (unfold f, frame_addr, PAGING_AREA_MIN_PADDR, PAGE_SIZE; lia).
  rewrite info_of_f.
  assert (Hi : info_at (IFrame i) (fr s1) = Some info) by apply (ev_info _ _ _ _ _ Hev).
  rewrite (frd_ok _ _ _ info) by done. rewrite (ev_mode _ _ _ _ _ Hev).
  change (truth (Z.land PE_INFO_USER_MODE PE_INFO_PINNED)) with false.
  change (truth (Z.land PE_INFO_USER_MODE PE_INFO_KERNEL_DUMMY)) with false. cbn [when].
  rewrite !bind_ret, (frd_ok _ _ _ info) by done. rewrite (frd_ok _ _ _ info) by done.
  rewrite (bind_step (kop (gets current_running)) _ s1 (current_running (kern s1)) s1)
    by (unfold kop, zoom, gets; by rewrite set_kern_same).
  assert (Hinv : forall b, when b (rop (invalidate_page (vaddr info))) s1 = Ret (tt, s1)).
  { intros [|]; [|done]. cbn [when]. rewrite (rop_run _ s1 tt (mem s1)) by done. by rewrite set_mem_same. }
  rewrite (bind_step _ _ _ _ _ (Hinv _)).
  rewrite (bind_step _ _ _ _ _ (check_dirty_run s1 eq_refl eq_refl eq_refl)).
  rewrite (frd_ok _ _ _ info) by done. rewrite ev_paddr. fold va.
  assert (exists dk, when (truth (if is_dirty then 1 else 0))
      (write_page_back_to_disk va (owner info) f ;;; ret tt) s1 = Ret (tt, set_disk dk s1)
      /\ if is_dirty then written_back dk else dk = disk s) as (dk & Ew & Hdk).
  { destruct is_dirty; cbn [truth Z.eqb negb when].
    - destruct (write_back_run s1) as (dk & Ew & Hw); [done..|apply (ev_lock _ _ _ _ _ Hev)|].
      exists dk. split; [|done]. by rewrite (bind_step _ _ _ _ _ Ew).
    - exists (disk s). split; [|done]. change (disk s) with (disk s1). by rewrite set_disk_same. }
  rewrite (bind_step _ _ _ _ _ Ew).
  destruct (page_free_run (set_disk dk s1)) as (m' & Eu & Ef); [done..|].
  rewrite (bind_step _ _ _ _ _ Ef). by exists fq, dk, m'.
Qed.

Lemma unmap_kept m' a :
  unmap_physical_page d va (mem s) = Ret (tt, m') -> a <> pte_slot (mem s) d va -> ld a m' = ld a (mem s).
Proof.
  intros Hu Ha. unfold unmap_physical_page, page_set_mode in Hu.
  rewrite bind_gets, bind_assertk_true in Hu by apply ev_present.
  injection Hu as <-. by apply ld_st_ne.
Qed.

End One.

(** [C3] Eviction.  The victim is the oldest frame of the eviction queue.  If
    its page is dirty the page's sectors on the disk hold the frame's contents
    afterwards and no other sector changes; if not, the disk is not written.
    The page is unmapped in its owner's address space, the frame has no owner,
    and the frame's contents are left as they are. *)
Theorem try_evict_page_spec s i q info r (Hev : evictable s i q info r) :
  exists s', try_evict_page rdtsc s = Ret (frame_addr i, s')
    /\ holds (fifo_queue s') q
    /\ walk (mem s') (page_directory r) (vaddr info) = None
    /\ (if is_dirty s info r then written_back s i info r (disk s') else disk s' = disk s)
    /\ (exists info', page_frame_info (fr s') !! i = Some info' /\ owner info' = NULL
          /\ info_mode info' = 0)
    /\ words (frame_addr i) (Z.to_nat PAGE_N_ENTRIES) (mem s')
       = words (frame_addr i) (Z.to_nat PAGE_N_ENTRIES) (mem s).
Proof.
  destruct (try_evict_run s i q info r Hev) as (fq & dk & m' & E & Hq & Hu & Hdk).
  eexists. split; [exact E|].
  destruct (unmap_walk (mem s) (page_directory r) (vaddr info)) as (m1 & Hu1 & Hw & _); try apply Hev.
  rewrite Hu in Hu1. injection Hu1 as <-. split_and!; [exact Hq|exact Hw|exact Hdk| |].
  - exists (cleared_info info). split; [|done].
    apply list_lookup_insert_eq. eapply lookup_lt_Some, (ev_info _ _ _ _ _ Hev).
  - apply words_ext. intros j Hj. apply (unmap_kept s i q info r Hev); [done|].
    apply (ev_outside _ _ _ _ _ Hev). apply frame_word; [apply (ev_index _ _ _ _ _ Hev)|done].
Qed.

Lemma allocate_evict_run s i q info r :
  evictable s i q info r -> cpu_room 2 (cpu (kern s)) -> free_list (fr s) [] ->
  exists fq dk m', allocate_page rdtsc s = Ret (frame_addr i, evicted_state s i info fq dk m')
    /\ holds fq q /\ unmap_physical_page (page_directory r) (vaddr info) (mem s) = Ret (tt, m')
    /\ if is_dirty s info r then written_back s i info r dk else dk = disk s.
Proof.
  intros Hev Hroom Hfree.
  set (se := set_kern (set_cpu (nointerrupt_enter (cpu (kern s))) (kern s)) s).
  assert (Hev' : evictable se i q info r).
  { destruct Hev. constructor; try done. by apply (enter_room 2). }
  destruct (try_evict_run se i q info r Hev') as (fq & dk & m' & E & Hq & Hu & Hdk).
  exists fq, dk, m'. split_and!; [|exact Hq|exact Hu|exact Hdk].
  unfold allocate_page. rewrite (bind_step allocate_page_internal _ s 0 s).
  2: { unfold allocate_page_internal.
       rewrite (bind_step _ _ _ _ _ (fop_run _ _ _ _ (remove_free_empty _ Hfree))).
       rewrite set_fr_same. by rewrite decide_True. }
  cbn [Z.eqb]. rewrite !bind_assoc.
  rewrite (bind_step kenter _ _ _ _ (kop_run enter _ tt _ eq_refl)). fold se.
  rewrite bind_assoc, (bind_step _ _ _ _ _ E), bind_assoc.
  assert (Hl : kleave (evicted_state se i info fq dk m') = Ret (tt, evicted_state s i info fq dk m')).
  { unfold kleave, kop, zoom, leave, modify. do 2 f_equal.
    transitivity (set_kern (set_cpu (nointerrupt_leave (nointerrupt_enter (cpu (kern s)))) (kern s))
                    (evicted_state se i info fq dk m')); [reflexivity|].
    by rewrite (set_cpu_restore 2) by (done || lia). }
  rewrite (bind_step _ _ _ _ _ Hl), bind_ret.
  rewrite (proj2 (Z.eqb_neq (frame_addr i) 0))
    by (unfold frame_addr, PAGING_AREA_MIN_PADDR, PAGE_SIZE; lia).
  by rewrite crit_ok by (by eapply (room_weaken 2)).
Qed.

(** When no frame is free, [allocate_page] evicts one and returns it with
    the old contents still in it: a page that comes from the free list is
    cleared, a page that comes from an eviction is not. *)
Theorem allocate_page_evicts s i q info r
  (Hev : evictable s i q info r) (Hroom : cpu_room 2 (cpu (kern s))) (Hfree : free_list (fr s) []) :
  exists s', allocate_page rdtsc s = Ret (frame_addr i, s')
    /\ holds (fifo_queue s') q
    /\ words (frame_addr i) (Z.to_nat PAGE_N_ENTRIES) (mem s')
       = words (frame_addr i) (Z.to_nat PAGE_N_ENTRIES) (mem s).
Proof.
  destruct (allocate_evict_run s i q info r Hev Hroom Hfree) as (fq & dk & m' & E & Hq & Hu & _).
  eexists. split; [exact E|]. split; [exact Hq|].
  apply words_ext. intros j Hj. apply (unmap_kept s i q info r Hev); [exact Hu|].
  apply (ev_outside _ _ _ _ _ Hev). apply frame_word; [apply (ev_index _ _ _ _ _ Hev)|done].
Qed.

(** The faulting page: its process [p], and that its directory entry is neither
    in the victim's frame nor the entry that the eviction clears. *)
Record faulting (s : mm D) (p : ptr) (r : pcb) (va : Z) (i : nat) (vslot : Z) : Prop := mk_faulting {
  ft_pcb : pcbs (kern s) !! p = Some r;
  ft_process : is_thread r = 0;
  ft_va : 0 <= va < 2 ^ 32;
  ft_dir : is_frame (page_directory r);
  ft_present : truth (Z.land (ld (pde_slot (page_directory r) va) (mem s)) PE_P) = true;
  ft_table : is_frame (walk_table (mem s) (page_directory r) va);
  ft_table_nonnull : walk_table (mem s) (page_directory r) va <> 0;
  ft_distinct : page_directory r <> walk_table (mem s) (page_directory r) va;
  ft_dir_apart : page_directory r <> frame_addr i;
  ft_table_apart : walk_table (mem s) (page_directory r) va <> frame_addr i;
  ft_slot : pde_slot (page_directory r) va <> vslot;
  ft_lock : read_buffer_lock s = LOCK_INIT;
  ft_image : page_sector va + 8 <= swap_size r < 2 ^ 32;
  ft_disk : 0 <= swap_loc r
    /\ swap_loc r + page_sector va + 8 <= blocks (disk s) < 2 ^ 31
}.

Lemma frames_apart f g a : is_frame f -> is_frame g -> f <> g -> in_frame f a -> ~ in_frame g a.
Proof. unfold is_frame, in_frame, PAGE_SIZE. intros [_ Hf] [_ Hg] Hne H1 H2. zdiv. Qed.

(** The state in which a page was loaded into the frame [i] of the victim. *)
Definition swapped_state (s : mm D) (i : nat) (info : page_frame_info_t) (p : ptr) (r : pcb) (va : Z)
    (fq fq' : FIFOQueue) (dk dk' : D) (m' : ram) : mm D :=
  mapped_state (evicted_state s i info fq dk m') p r va i (cleared_info info) dk' fq'.

Lemma load_evicts_run s i q info rv p r va :
  evictable s i q info rv -> faulting s p r va i (pte_slot (mem s) (page_directory rv) (vaddr info)) ->
  cpu_room 2 (cpu (kern s)) -> free_list (fr s) [] ->
  exists fq fq' dk dk' m',
    load_page_from_disk rdtsc va p s = Ret (0, swapped_state s i info p r va fq fq' dk dk' m')
    /\ unmap_physical_page (page_directory rv) (vaddr info) (mem s) = Ret (tt, m')
    /\ (if is_dirty s info rv then written_back s i info rv dk else dk = disk s)
    /\ blocks dk' = blocks (disk s) /\ (forall j, sector dk' j = sector dk j)
    /\ holds fq' (q ++ [Z.of_nat i]).
Proof.
  intros Hev Hft Hroom Hfree.
  destruct (allocate_evict_run s i q info rv Hev Hroom Hfree) as (fq & dk & m' & E & Hq & Hu & Hdk).
  pose proof Hft as [Hp Hth Hva Hd Hpr Ht Htn Hdt Hda Hta Hsl Hlk Him Hdisk].
  pose proof (ev_index _ _ _ _ _ Hev) as Hi. pose proof (frame_addr_frame i Hi) as Hfi.
  set (d := page_directory r) in *. set (t := walk_table (mem s) d va) in *.
  set (s1 := evicted_state s i info fq dk m').
  assert (Hpde : ld (pde_slot d va) (mem s1) = ld (pde_slot d va) (mem s)) by (by eapply unmap_kept).
  assert (Hwt : walk_table (mem s1) d va = t) by (unfold t, walk_table; by rewrite Hpde).
  assert (Hbl : blocks dk = blocks (disk s)).
  { destruct (is_dirty s info rv); [apply Hdk|by rewrite Hdk]. }
  assert (Hpd : in_frame d (pde_slot d va)) by (apply slot_in_frame; auto with paging).
  assert (Hroom1 : cpu_room 1 (cpu (kern s))) by (by eapply (room_weaken 2)).
  pose proof (ev_info _ _ _ _ _ Hev) as Hinfo.
  destruct (load_with_frame rdtsc s s1 p r va i (cleared_info info) q)
    as (dk' & fq' & El & Hf & Hb & Hs); [exact Hroom1|exact Hp|exact Hth|exact E| |].
  { constructor; [exact Hroom1|exact Hi| |done|exact Hlk| | | |exact Him| |exact Hq| ].
    - apply list_lookup_insert_eq. by eapply lookup_lt_Some.
    - fold d. rewrite Hpde. exact Hpr.
    - fold d. rewrite Hwt. exact Htn.
    - intros a Hin ->. by eapply (frames_apart d (frame_addr i)).
    - change (disk s1) with dk. rewrite Hbl. exact Hdisk.
    - pose proof (h_room _ _ (ev_fifo _ _ _ _ _ Hev)) as Hl. cbn [length] in Hl. lia. }
  exists fq, fq', dk, dk', m'. split_and!; [exact El|exact Hu|exact Hdk| |exact Hs|exact Hf].
  rewrite Hb. exact Hbl.
Qed.

(** Paging under memory pressure.  With no free frame, a page is loaded
    into the frame of the oldest evictable page: the faulting address is mapped
    to that frame, which then holds the new page as the disk has it; and the
    page that had to leave is, if it was dirty, preserved on the disk: its
    sectors hold what its frame held (unless the two pages share sectors). *)
Theorem load_page_evicts s i q info rv p r va
  (Hev : evictable s i q info rv) (Hft : faulting s p r va i (pte_slot (mem s) (page_directory rv) (vaddr info)))
  (Hroom : cpu_room 2 (cpu (kern s))) (Hfree : free_list (fr s) []) :
  exists s' dk, load_page_from_disk rdtsc va p s = Ret (0, s')
    /\ walk (mem s') (page_directory r) va = Some (frame_addr i + va mod PAGE_SIZE, true, true)
    /\ words (frame_addr i) (Z.to_nat PAGE_N_ENTRIES) (mem s') = disk_page dk r va
    /\ (if is_dirty s info rv then written_back s i info rv dk else dk = disk s)
    /\ (forall j, sector (disk s') j = sector dk j)
    /\ holds (fifo_queue s') (q ++ [Z.of_nat i]) /\ kern s' = kern s.
Proof.
  destruct (load_evicts_run s i q info rv p r va Hev Hft Hroom Hfree)
    as (fq & fq' & dk & dk' & m' & El & Hu & Hdk & _ & Hs & Hf).
  destruct Hft as [Hp Hth Hva Hd Hpr Ht Htn Hdt Hda Hta Hsl Hlk Him Hdisk].
  pose proof (ev_index _ _ _ _ _ Hev) as Hi. pose proof (frame_addr_frame i Hi) as Hfi.
  set (d := page_directory r) in *. set (t := walk_table (mem s) d va) in *.
  assert (Hwt : walk_table m' d va = t).
  { unfold t, walk_table. by rewrite (unmap_kept s i q info rv Hev m') by done. }
  eexists _, dk. split; [exact El|]. unfold swapped_state, mapped_state. fold d.
  set (s1 := evicted_state s i info fq dk m'). change (mem s1) with m'. rewrite Hwt.
  pose proof (disk_page_length dk r va) as Hpl.
  change (disk s1) with dk in *. cbn [mem set_mem].
  assert (Hpd : in_frame d (pde_slot d va)) by (apply slot_in_frame; auto with paging).
  assert (Hsd : ~ in_frame (frame_addr i) (slot d (get_directory_index va))).
  { eapply frames_apart; [exact Hd| | |]; try done. }
  assert (Hst : ~ in_frame (frame_addr i) (slot t (get_table_index va))).
  { eapply (frames_apart t); try done. apply slot_in_frame; auto with paging. }
  split_and!; [| |exact Hdk|exact Hs|exact Hf|reflexivity].
  - rewrite (walk_entries _ d va t 7 (frame_addr i) 7); try done.
    + apply ld_st_eq.
    + rewrite ld_st_ne, ld_st_eq; [done|]. intros Es. apply slot_inj in Es as [? _]; auto with paging.
  - rewrite <- (words_store (frame_addr i) (disk_page dk r va) (mem s1)) at 2.
    + rewrite Hpl. apply words_ext. intros j Hj. pose proof (frame_word i j Hi Hj) as Hw.
      rewrite !ld_st_ne; [done| |]; intros Es; rewrite Es in Hw; done.
    + pose proof (frame_addr_bounds i Hi). unfold PAGING_AREA_MIN_PADDR in *. lia.
    + pose proof (frame_addr_bounds i Hi). rewrite Hpl.
      change (Z.of_nat (Z.to_nat PAGE_N_ENTRIES)) with 1024.
      unfold PAGING_AREA_MAX_PADDR, PAGEABLE_PAGES, PAGING_AREA_MIN_PADDR, PAGE_SIZE in *. lia.
Qed.

(** No sector belongs both to the page [va] of [r] and to the page [va'] of [r']. *)
Definition sectors_apart (r : pcb) (va : Z) (r' : pcb) (va' : Z) : Prop :=
  swap_loc r + page_sector va + 8 <= swap_loc r' + page_sector va'
  \/ swap_loc r' + page_sector va' + 8 <= swap_loc r + page_sector va.

Lemma disk_page_ext d d' r va :
  (forall j, swap_loc r + page_sector va <= j < swap_loc r + page_sector va + 8 -> sector d j = sector d' j) ->
  disk_page d r va = disk_page d' r va.
Proof.
  intros Hj. unfold disk_page. f_equal. apply list_fmap_ext. intros n j Hn.
  apply list_elem_of_lookup_2, elem_of_seqZ in Hn. apply Hj. lia.
Qed.

Lemma disk_page_kept s i info rv dk r va :
  (if is_dirty s info rv then written_back s i info rv dk else dk = disk s) ->
  sectors_apart r va rv (vaddr info) -> disk_page dk r va = disk_page (disk s) r va.
Proof.
  intros Hdk Ha. destruct (is_dirty s info rv); [|by rewrite Hdk].
  destruct Hdk as (_ & _ & Hk). apply disk_page_ext. intros j Hj. apply Hk. destruct Ha; lia.
Qed.


End Evict.
