(* ===== verification/VmemInstances.v ===== *)
(** * An ideal disk and concrete instances for virtual memory

    [ideal_disk] is a device that satisfies [BlockDeviceLaws], so the theorems
    about paging are not about an empty class of devices; the lemmas after it
    apply them to a small machine. *)

From S2P Require Import Prelude Sched Ring Schedule Sync Paging Frames Vmem VmemFacts PageFault Evict.

(** ** The ideal disk *)

Record ideal_disk : Type := mk_disk { capacity : Z; contents : Z -> Z }.

Definition disk_in_range (loc count : Z) (d : ideal_disk) : bool :=
  (0 <=? loc) && (0 <? count) && (loc + count <=? capacity d).

Definition disk_sector (d : ideal_disk) (i : Z) : list Z :=
  (fun j => contents d (i * SECTOR_WORDS + j)) <$> seqZ 0 SECTOR_WORDS.

#[global] Instance ideal_device : BlockDevice ideal_disk := {
  scsi_read loc count d :=
    if disk_in_range loc count d then (0, mjoin (disk_sector d <$> seqZ loc count), d) else (-1, [], d);
  scsi_write loc count data d :=
    if disk_in_range loc count d then
      (0, mk_disk (capacity d) (fun w =>
            if (loc * SECTOR_WORDS <=? w) && (w <? (loc + count) * SECTOR_WORDS)
            then default 0 (data !! Z.to_nat (w - loc * SECTOR_WORDS))
            else contents d w))
    else (-1, d)
}.

Lemma disk_sector_length d i : length (disk_sector d i) = Z.to_nat SECTOR_WORDS.
Proof. unfold disk_sector. by rewrite length_fmap, length_seqZ. Qed.

Lemma disk_sector_lookup d i j :
  (j < Z.to_nat SECTOR_WORDS)%nat ->
  disk_sector d i !! j = Some (contents d (i * SECTOR_WORDS + Z.of_nat j)).
Proof.
  intros Hj. unfold disk_sector. rewrite list_lookup_fmap, lookup_seqZ_lt by lia. cbn.
  by rewrite Z.add_0_l.
Qed.

Lemma in_range_true loc count d :
  0 <= loc -> 0 < count -> loc + count <= capacity d -> disk_in_range loc count d = true.
Proof. intros. unfold disk_in_range. rewrite !andb_true_iff. zbool; lia. Qed.

#[global] Program Instance ideal_laws : BlockDeviceLaws ideal_disk := {
  sector := disk_sector;
  blocks := capacity
}.
Next Obligation. apply disk_sector_length. Qed.
Next Obligation.
  intros loc count d H1 H2 H3. cbn. rewrite in_range_true by done. by exists d.
Qed.
Next Obligation.
  intros loc count data d H1 H2 H3 Hl _. cbn. rewrite in_range_true by done.
  eexists. split; [reflexivity|]. split; [done|]. intros i.
  assert (HW : SECTOR_WORDS = 128) by done. rewrite HW in *.
  apply list_eq. intros j. destruct (decide (j < 128)%nat) as [Hj|Hj].
  - rewrite disk_sector_lookup by (rewrite HW; lia). cbn [contents]. rewrite HW.
    case_bool_decide as Hin.
    + rewrite lookup_take_lt, lookup_drop by lia.
      destruct (lookup_lt_is_Some_2 data (Z.to_nat ((i - loc) * 128) + j)) as [w Hw]; [lia|].
      rewrite Hw. f_equal.
      replace (Z.to_nat (i * 128 + Z.of_nat j - loc * 128)) with (Z.to_nat ((i - loc) * 128) + j)%nat by lia.
      rewrite Hw. cbn. zbool; cbn; (done || lia).
    + rewrite disk_sector_lookup by (rewrite HW; lia). rewrite HW. f_equal. zbool; cbn; (done || lia).
  - rewrite lookup_ge_None_2 by (rewrite disk_sector_length, HW; lia). symmetry.
    case_bool_decide.
    + apply lookup_ge_None_2. rewrite length_take. lia.
    + apply lookup_ge_None_2. rewrite disk_sector_length, HW. lia.
Qed.

(** ** A small machine

    One process, with its directory in frame 16 and its table in frame 17; its
    image is 24 sectors long and starts at sector 8 of a disk on which word [w]
    holds [w]. *)

Module Machine.

Definition proc : pcb :=
  set_page_directory 0x110000 (set_swap_loc 8 (set_swap_size 24 zero_pcb)).

Definition kernel : kst :=
  mk_kst (mk_cpu 1 false) {[ 1%nat := proc ]} 1%nat 1 NULL 1 0 500 O 0 0x110000 0.

Definition the_disk : ideal_disk := mk_disk 1000 (fun w => w).

Definition frames0 : frames :=
  match initialize_page_frame_infos boot_frames with Ret (_, s) => s | _ => boot_frames end.

Definition machine (m : ram) (f : frames) (q : FIFOQueue) : mm ideal_disk :=
  mk_mm ideal_disk kernel m f q 0x10f000 0 0 1 0 0 45 LOCK_INIT LOCK_INIT LOCK_INIT
    SPINLOCK_INIT SPINLOCK_INIT SPINLOCK_INIT [] the_disk PROCESS_VADDR.

Lemma frames0_ok :
  free_list frames0 (seq 0 33) /\ addressed frames0
  /\ forall i r, page_frame_info frames0 !! i = Some r -> owner r = NULL /\ info_mode r = 0.
Proof.
  destruct (initialize_run boot_frames eq_refl eq_refl) as (s & E & H1 & H2 & H3 & _).
  unfold frames0. rewrite E. split_and!; [exact H1|exact H2|].
  intros i r Hr. destruct (H3 i r Hr) as (Ho & _ & Hm). exact (conj Ho Hm).
Qed.

#[local] Opaque frames0.

#[local] Instance in_frame_decision p a : Decision (in_frame p a).
Proof. unfold in_frame. apply _. Defined.

#[local] Instance not_in_frame p a : Decision (in_frame p a -> False) := not_dec (in_frame_decision p a).

Ltac decided := apply (bool_decide_unpack _); vm_compute; exact I.

(** The page is not present: its directory entry is, its table entry is not. *)
Definition before : ram := {[ 0x110010 := 0x111007 ]}.

Lemma before_loadable :
  loadable (machine before frames0 fifo_init) 1%nat proc PROCESS_VADDR 0 (seq 1 32) [].
Proof.
  destruct frames0_ok as (H1 & H2 & H3).
  constructor; [split; [cbn; lia|done]|reflexivity|reflexivity|exact H2|exact H1|exact (H3 0%nat)
    |reflexivity|decided|decided|vm_compute; reflexivity|decided|decided|decided
    |right; decided|right; decided|decided|decided|exact holds_init|decided].
Qed.

Lemma critical : in_critical (cpu kernel).
Proof. split; [cbn; lia|done]. Qed.

Lemma page_fault_loads_witness :
  exists s', page_fault_handler (fun _ => 0) 4 (machine before frames0 fifo_init) = Ret (tt, s')
    /\ walk (mem s') 0x110000 PROCESS_VADDR = Some (0x100000, true, true)
    /\ words 0x100000 (Z.to_nat PAGE_N_ENTRIES) (mem s') = disk_page the_disk proc PROCESS_VADDR.
Proof.
  destruct (page_fault_loads (fun _ => 0) (machine before frames0 fifo_init) 1%nat proc PROCESS_VADDR
              0%nat (seq 1 32) [] 4) as (s' & E & Hw & Hd & _).
  - exact before_loadable.
  - reflexivity.
  - exact critical.
  - reflexivity.
  - reflexivity.
  - reflexivity.
  - exists s'. split; [exact E|]. split; [exact Hw|exact Hd].
Defined.

Lemma page_fault_violation_witness :
  page_fault_handler (fun _ => 0) 7 (machine before frames0 fifo_init) = Halt.
Proof. apply page_fault_violation; [by exists proc|done]. Defined.

Lemma allocate_page_clears_witness :
  exists s', allocate_page (fun _ => 0) (machine before frames0 fifo_init) = Ret (0x100000, s')
    /\ ld 0x103ffc (mem s') = 0.
Proof.
  destruct frames0_ok as (H1 & H2 & _).
  destruct (allocate_page_clears (fun _ => 0) (machine before frames0 fifo_init) 0%nat (seq 1 32))
    as (s' & E & _ & Hz & _).
  - split; [cbn; lia|done].
  - exact H2.
  - exact H1.
  - exists s'. split; [exact E|]. apply Hz; decided.
Defined.

(** The page is in frame 0, dirty, and the frame is the only evictable one. *)
Definition during : ram :=
  list_to_map [(0x110010, 0x111007); (0x110014, 0x112007); (0x111000, 0x100067); (0x100008, 77)].

Definition victim : page_frame_info_t := mk_info 1%nat INull INull 0x100000 PROCESS_VADDR PE_INFO_USER_MODE.

Definition full_frames : frames :=
  mk_frames (<[0%nat := victim]> (page_frame_info frames0)) (page_frame_info_shared frames0) INull.

Definition one : FIFOQueue := snd (fifo_enqueue 0 fifo_init).

Lemma one_holds : holds one [0].
Proof.
  destruct (holds_enqueue fifo_init [] 0 holds_init) as (q & E & H); [done|].
  unfold one. by rewrite E.
Qed.

Lemma full_addressed : addressed full_frames.
Proof.
  destruct frames0_ok as (_ & (L1 & L2 & H2) & _).
  split; [unfold full_frames; cbn [page_frame_info]; by rewrite length_insert|].
  split; [exact L2|]. cbn [page_frame_info full_frames]. intros i r Hr.
  destruct (decide (i = O)) as [->|Hi].
  - rewrite list_lookup_insert_eq in Hr by (rewrite L1; decided). by injection Hr as <-.
  - rewrite list_lookup_insert_ne in Hr by done. by apply H2.
Qed.

Definition pressed : mm ideal_disk := machine during full_frames one.

Lemma pressed_evictable : evictable pressed 0 [] victim proc.
Proof.
  constructor; [split; [cbn; lia|reflexivity]|exact one_holds|decided|exact full_addressed| |reflexivity
    |reflexivity|decided|reflexivity|decided|decided|decided|decided|decided|decided
    |vm_compute; discriminate|decided| |decided|decided|reflexivity|reflexivity|].
  - destruct frames0_ok as (_ & (L1 & _ & _) & _).
    apply list_lookup_insert_eq. rewrite L1. decided.
  - intros a Ha ->. revert Ha. apply (bool_decide_unpack _). vm_compute. exact I.
  - apply list.Forall_forall. intros w Hw. revert Hw. apply words_range.
    intros a v Hv. apply elem_of_list_to_map_2 in Hv. rewrite !elem_of_cons in Hv.
    destruct_or! Hv; [injection Hv as -> ->; unfold is_word; lia..|by apply not_elem_of_nil in Hv].
Qed.

Lemma try_evict_page_spec_witness :
  is_dirty pressed victim proc = true /\
  exists s', try_evict_page (fun _ => 0) pressed = Ret (0x100000, s')
    /\ walk (mem s') 0x110000 PROCESS_VADDR = None
    /\ disk_page (disk s') proc PROCESS_VADDR = words 0x100000 (Z.to_nat PAGE_N_ENTRIES) during.
Proof.
  assert (Hdirty : is_dirty pressed victim proc = true) by (by vm_compute).
  split; [exact Hdirty|].
  destruct (try_evict_page_spec (fun _ => 0) pressed 0%nat [] victim proc pressed_evictable)
    as (s' & E & _ & Hw & Hd & _).
  exists s'. split; [exact E|]. split; [exact Hw|]. rewrite Hdirty in Hd. apply Hd.
Defined.

Lemma pressed_room : cpu_room 2 (cpu (kern pressed)).
Proof. split; [cbn; lia|done]. Qed.

Lemma no_free : free_list (fr pressed) [].
Proof. split; [done|constructor]. Qed.

(** The old word 77 is still in the page that was allocated. *)
Lemma allocate_page_evicts_witness :
  exists s', allocate_page (fun _ => 0) pressed = Ret (0x100000, s')
    /\ words 0x100000 (Z.to_nat PAGE_N_ENTRIES) (mem s') !! 2%nat = Some 77.
Proof.
  destruct (allocate_page_evicts (fun _ => 0) pressed 0%nat [] victim proc pressed_evictable
              pressed_room no_free) as (s' & E & _ & Hw).
  exists s'. split; [exact E|].
  change (frame_addr 0) with 0x100000 in Hw. rewrite Hw. by vm_compute.
Defined.

(** The same process faults on a page of another table. *)
Lemma pressed_faulting :
  faulting pressed 1%nat proc 0x1001000 0
    (pte_slot (mem pressed) (page_directory proc) (vaddr victim)).
Proof.
  constructor; [reflexivity|reflexivity|decided|decided|vm_compute; reflexivity|decided..
    |reflexivity|decided|decided].
Qed.

Lemma load_page_evicts_witness :
  exists s' dk, load_page_from_disk (fun _ => 0) 0x1001000 1%nat pressed = Ret (0, s')
    /\ walk (mem s') 0x110000 0x1001000 = Some (0x100000, true, true)
    /\ words 0x100000 (Z.to_nat PAGE_N_ENTRIES) (mem s') = disk_page dk proc 0x1001000.
Proof.
  destruct (load_page_evicts (fun _ => 0) pressed 0%nat [] victim proc 1%nat proc 0x1001000
              pressed_evictable pressed_faulting pressed_room no_free)
    as (s' & dk & E & Hw & Hd & _).
  exists s', dk. split; [exact E|]. split; [exact Hw|exact Hd].
Defined.

(** Frame 1 holds a dirty page too, and frame 0 is the older of the two. *)
Definition crowd : ram :=
  list_to_map [(0x110010, 0x111007); (0x111000, 0x100067); (0x111008, 0x101067); (0x100008, 77)].

Definition second : page_frame_info_t := mk_info 1%nat INull INull 0x101000 0x1002000 PE_INFO_USER_MODE.

Definition crowd_frames : frames :=
  mk_frames (<[1%nat := second]> (page_frame_info full_frames)) (page_frame_info_shared frames0) INull.

Definition two : FIFOQueue := snd (fifo_enqueue 1 one).

Definition crowded : mm ideal_disk := machine crowd crowd_frames two.

Lemma two_holds : holds two [0; 1].
Proof.
  destruct (holds_enqueue one [0] 1 one_holds) as (q & E & H); [done|].
  unfold two. by rewrite E.
Qed.

Lemma crowd_addressed : addressed crowd_frames.
Proof.
  destruct full_addressed as (L1 & L2 & H2).
  split; [unfold crowd_frames; cbn [page_frame_info]; by rewrite length_insert|].
  split; [exact L2|]. cbn [page_frame_info crowd_frames]. intros i r Hr.
  destruct (decide (i = 1%nat)) as [->|Hi].
  - rewrite list_lookup_insert_eq in Hr by (rewrite L1; decided). by injection Hr as <-.
  - rewrite list_lookup_insert_ne in Hr by done. by apply H2.
Qed.

Lemma crowd_words i : Forall is_word (words (frame_addr i) (Z.to_nat PAGE_N_ENTRIES) crowd).
Proof.
  apply list.Forall_forall. intros w Hw. revert Hw. apply words_range.
  intros a v Hv. apply elem_of_list_to_map_2 in Hv. rewrite !elem_of_cons in Hv.
  destruct_or! Hv; [injection Hv as -> ->; unfold is_word; lia..|by apply not_elem_of_nil in Hv].
Qed.

Lemma crowded_evictable : evictable crowded 0 [1] victim proc.
Proof.
  constructor; [split; [cbn; lia|reflexivity]|exact two_holds|decided|exact crowd_addressed| |reflexivity
    |reflexivity|decided|reflexivity|decided|decided|decided|decided|decided|decided
    |vm_compute; discriminate|decided| |decided|decided|reflexivity|reflexivity|exact (crowd_words 0)].
  - destruct frames0_ok as (_ & (L1 & _ & _) & _).
    cbn [crowd_frames page_frame_info crowded machine fr]. rewrite list_lookup_insert_ne by done.
    apply list_lookup_insert_eq. rewrite L1. decided.
  - intros a Ha ->. revert Ha. apply (bool_decide_unpack _). vm_compute. exact I.
Qed.

Lemma crowded_faulting :
  faulting crowded 1%nat proc 0x1001000 0 (pte_slot (mem crowded) (page_directory proc) (vaddr victim)).
Proof.
  constructor; [reflexivity|reflexivity|decided|decided|vm_compute; reflexivity|decided..
    |reflexivity|decided|decided].
Qed.

(** Memory after the first fault: frame 0, the three entries involved, and for
    the rest what it was. *)
Lemma swapped_mem fq fq' dk dk' m' :
  unmap_physical_page 0x110000 PROCESS_VADDR crowd = Ret (tt, m') ->
  let s1 := swapped_state crowded 0 victim 1%nat proc 0x1001000 fq fq' dk dk' m' in
  ld 0x110010 (mem s1) = 0x111007
  /\ forall a, ~ in_frame 0x100000 a -> a <> 0x110010 -> a <> 0x111000 -> a <> 0x111004 ->
       ld a (mem s1) = ld a crowd.
Proof.
  intros Hu. pose proof (unmap_kept crowded 0 [1] victim proc crowded_evictable m') as Hk.
  assert (Ht : walk_table m' 0x110000 0x1001000 = 0x111000).
  { unfold walk_table. rewrite Hk; [by vm_compute|exact Hu|decided]. }
  unfold swapped_state, mapped_state. cbn [mem set_mem evicted_state read_state page_directory proc].
  change (page_directory proc) with 0x110000. change (mem (evicted_state _ _ _ _ _ _)) with m'. rewrite Ht.
  change (slot 0x110000 (get_directory_index 0x1001000)) with 0x110010.
  change (slot 0x111000 (get_table_index 0x1001000)) with 0x111004.
  split; [by rewrite ld_st_eq|]. intros a Ha H1 H2 H3. rewrite !ld_st_ne by done.
  rewrite store_page_out; [|decided|apply disk_page_length|exact Ha]. apply Hk; [exact Hu|exact H2].
Qed.

Section Swapped.

Context (fq fq' : FIFOQueue) (dk dk' : ideal_disk) (m' : ram).
Context (Hu : unmap_physical_page 0x110000 PROCESS_VADDR crowd = Ret (tt, m')).
Context (Hb : blocks dk' = 1000) (Hf : holds fq' [1; 0]).

Let s1 := swapped_state crowded 0 victim 1%nat proc 0x1001000 fq fq' dk dk' m'.

Lemma swapped_table va : pde_slot 0x110000 va = 0x110010 -> walk_table (mem s1) 0x110000 va = 0x111000.
Proof.
  intros E. unfold walk_table. rewrite E. unfold s1. by rewrite (proj1 (swapped_mem _ _ _ _ _ Hu)).
Qed.

Lemma swapped_second : ld 0x111008 (mem s1) = 0x101067.
Proof. unfold s1. rewrite (proj2 (swapped_mem _ _ _ _ _ Hu)) by decided. by vm_compute. Qed.

Lemma swapped_slot : pte_slot (mem s1) 0x110000 0x1002000 = 0x111008.
Proof. unfold pte_slot. by rewrite swapped_table. Qed.

Lemma swapped_directory : ld 0x110010 (mem s1) = 0x111007.
Proof. apply (proj1 (swapped_mem _ _ _ _ _ Hu)). Qed.

Lemma swapped_frames :
  addressed (fr s1) /\ page_frame_info (fr s1) !! 1%nat = Some second /\ free_list (fr s1) [].
Proof.
  pose proof crowd_addressed as (L1 & L2 & H2).
  assert (El : page_frame_info (fr s1)
    = <[0%nat := claimed 0x1001000 1%nat PE_INFO_USER_MODE (cleared_info victim)]> (page_frame_info crowd_frames)).
  { unfold s1, swapped_state, mapped_state. cbn. by rewrite list_insert_insert_eq. }
  split_and!; [split_and!| |].
  - by rewrite El, length_insert.
  - exact L2.
  - intros i r Hr. rewrite El in Hr. destruct (decide (i = O)) as [->|Hi].
    + rewrite list_lookup_insert_eq in Hr by (rewrite L1; decided). by injection Hr as <-.
    + rewrite list_lookup_insert_ne in Hr by done. by apply H2.
  - rewrite El, list_lookup_insert_ne by done. apply list_lookup_insert_eq.
    unfold full_frames. cbn [page_frame_info]. rewrite length_insert.
    destruct frames0_ok as (_ & (L & _ & _) & _). rewrite L. decided.
  - split; [done|constructor].
Qed.

Lemma swapped_evictable : evictable s1 1 [0] second proc.
Proof.
  destruct swapped_frames as (A & Hi & _). pose proof swapped_slot as Hs.
  constructor; [split; [cbn; lia|reflexivity]|exact Hf|decided|exact A|exact Hi|reflexivity
    |reflexivity|decided|reflexivity|decided|decided|decided| | | | | | |decided| |reflexivity|reflexivity|].
  1-3: change (page_directory proc) with 0x110000; change (vaddr second) with 0x1002000;
       rewrite swapped_table by done; decided.
  - unfold walk. change (page_directory proc) with 0x110000. change (vaddr second) with 0x1002000.
    change (slot 0x110000 (get_directory_index 0x1002000)) with 0x110010.
    rewrite swapped_directory. cbn [truth Z.eqb negb Z.land].
    change (slot (Z.land 0x111007 PE_BASE_ADDR_MASK) (get_table_index 0x1002000)) with 0x111008.
    rewrite swapped_second. vm_compute. discriminate.
  - change (page_directory proc) with 0x110000. change (vaddr second) with 0x1002000.
    rewrite Hs, swapped_second. decided.
  - intros a Ha ->. change (page_directory proc) with 0x110000 in Ha. change (vaddr second) with 0x1002000 in Ha.
    rewrite Hs in Ha. revert Ha. apply (bool_decide_unpack _). vm_compute. exact I.
  - change (disk s1) with dk'. rewrite Hb. decided.
  - replace (words (frame_addr 1) (Z.to_nat PAGE_N_ENTRIES) (mem s1))
      with (words (frame_addr 1) (Z.to_nat PAGE_N_ENTRIES) crowd); [apply crowd_words|].
    symmetry. apply words_ext. intros j Hj. pose proof (frame_word 1 j ltac:(decided) Hj) as Hw.
    change (frame_addr 1) with 0x101000 in *. unfold in_frame, PAGE_SIZE in Hw.
    apply (proj2 (swapped_mem _ _ _ _ _ Hu)); unfold in_frame, PAGE_SIZE; lia.
Qed.

Lemma swapped_faulting :
  faulting s1 1%nat proc PROCESS_VADDR 1 (pte_slot (mem s1) (page_directory proc) (vaddr second)).
Proof.
  pose proof swapped_slot as Hs. pose proof (swapped_table PROCESS_VADDR eq_refl) as Ht.
  constructor; [reflexivity|reflexivity|decided|decided| | | | |decided| | |reflexivity|decided| ];
    change (page_directory proc) with 0x110000; change (vaddr second) with 0x1002000;
    rewrite ?Ht, ?Hs; [|decided..|].
  - change (pde_slot 0x110000 PROCESS_VADDR) with 0x110010. by rewrite swapped_directory.
  - change (disk s1) with dk'. rewrite Hb. decided.
Qed.

End Swapped.


End Machine.
