(* ===== verification/VmemSetup.v ===== *)
(** * The address spaces of the kernel and of a new process

    What [init_memory] and [setup_process_vmem] of [src/src/kernel/memory.c],
    which [Vmem] models, leave in the page tables and in the frame table, and
    that the first page fault of a process then finds its image on the disk. *)

From S2P Require Import Prelude Sched Ring Schedule Sync Paging Frames Vmem VmemFacts PageFault Evict VmemInstances.
Import Fifo Table.

(** ** Frames that are handed out *)

(** The frames [l] can be allocated, in this order. *)
Record stocked (f : frames) (l : list nat) : Prop := mk_stocked {
  st_addressed : addressed f;
  st_free : free_list f l;
  st_unowned : forall i r, i ∈ l -> page_frame_info f !! i = Some r -> owner r = NULL /\ info_mode r = 0
}.

(** Frame [i] belongs to page [va] of [p]. *)
Definition belongs (f : frames) (i : nat) (va : Z) (p : ptr) (mode : Z) : Prop :=
  exists r, page_frame_info f !! i = Some r /\ owner r = p /\ vaddr r = Z.land va 0xfffff000 /\ info_mode r = mode.

(** The entries of the table other than [i] are the same. *)
Definition same_but (i : nat) (f f' : frames) : Prop :=
  forall j, j <> i -> page_frame_info f' !! j = page_frame_info f !! j.

Lemma belongs_kept i j f f' va p mode : same_but i f f' -> j <> i -> belongs f j va p mode -> belongs f' j va p mode.
Proof. intros H Hj (r & Hr & ?). exists r. by rewrite H. Qed.

Section Setup.

Context {D : Type} `{BlockDevice D}.
Context (rdtsc : nat -> Z).
Implicit Types (s : mm D).

Lemma stocked_insert f l i r : stocked f l -> i ∉ l -> paddr r = frame_addr i -> stocked (info_upd (IFrame i) r f) l.
Proof.
  intros [(L1 & L2 & A) [F N] U] Hi Hp. constructor.
  - split_and!; cbn; [by rewrite length_insert|done|]. intros j r' Hj.
    destruct (decide (j = i)) as [->|Hne]; [|rewrite list_lookup_insert_ne in Hj by done; by apply A].
    destruct (decide (i < length (page_frame_info f))%nat) as [Hlt|Hge].
    + rewrite list_lookup_insert_eq in Hj by done. by injection Hj as <-.
    + rewrite list_insert_ge in Hj by lia. by apply A.
  - split; [|done]. cbn. by apply flist_insert.
  - intros j r' Hj Hr'. cbn in Hr'. rewrite list_lookup_insert_ne in Hr' by set_solver. by apply (U j).
Qed.

(** [allocate_page] hands out the first of them. *)
Lemma alloc_stocked s i l :
  cpu_room 1 (cpu (kern s)) -> stocked (fr s) (i :: l) ->
  exists f r, allocate_page rdtsc s = Ret (frame_addr i, set_mem (cleared (frame_addr i) (mem s)) (set_fr f s))
    /\ stocked f l /\ (i < Z.to_nat PAGEABLE_PAGES)%nat /\ (i ∉ l) /\ same_but i (fr s) f
    /\ page_frame_info f !! i = Some r /\ owner r = NULL.
Proof.
  intros Hc [A F U]. destruct (free_list_info s i l A F) as (r & Hr & Hp & Hi).
  destruct (remove_free_run _ _ _ _ F Hr) as [_ F']. pose proof F as [_ Hnd]. apply list.NoDup_cons in Hnd as [Hil Hnd].
  destruct (U i r ltac:(left) Hr) as [Ho _]. exists (taken_frame i r (fr s)), (set_next_free_page INull r).
  split_and!; [by apply (allocate_page_free rdtsc s i l r)| |done|done| | |done].
  - destruct A as (L1 & L2 & A). constructor; [split_and!; cbn; [by rewrite length_insert|done|]|done|].
    + intros j r' Hj. destruct (decide (j = i)) as [->|Hne]; [|rewrite list_lookup_insert_ne in Hj by done; by apply A].
      rewrite list_lookup_insert_eq in Hj by (by rewrite L1). by injection Hj as <-.
    + intros j r' Hj Hr'. cbn in Hr'. rewrite list_lookup_insert_ne in Hr' by set_solver. apply (U j); [by right|done].
  - intros j Hj. cbn. by rewrite list_lookup_insert_ne.
  - cbn. apply list_lookup_insert_eq. by destruct A as (-> & _).
Qed.

(** [insert_page_frame_info] makes it the frame of a page. *)
Lemma insert_stocked s i l va p mode r :
  stocked (fr s) l -> (i < Z.to_nat PAGEABLE_PAGES)%nat -> i ∉ l -> page_frame_info (fr s) !! i = Some r -> owner r = NULL ->
  exists f, insert_page_frame_info (frame_addr i) va p mode s = Ret (IFrame i, set_fr f s)
    /\ stocked f l /\ belongs f i va p mode /\ same_but i (fr s) f.
Proof.
  intros S Hi Hil Hr Ho. eexists. split; [by apply insert_info_free|]. pose proof (st_addressed _ _ S) as (L1 & _ & A). split_and!.
  - apply stocked_insert; [done|done|]. by apply (A i r).
  - eexists. split; [cbn; by apply list_lookup_insert_eq; rewrite L1|]. done.
  - intros j Hj. cbn. by rewrite list_lookup_insert_ne.
Qed.

Lemma inc_pinned_run n s : pinned_pages_counter_lock s = SPINLOCK_INIT ->
  inc_pinned_pages n s = Ret (tt, set_number_of_pinned_page_frames (u32 (number_of_pinned_page_frames s + n)) s).
Proof.
  intros Hs. unfold inc_pinned_pages. rewrite spin_ok, bind_modify, <- bind_ret_r, unspin_ok by done.
  unfold ret. destruct s; cbn in *. by subst.
Qed.

(** ** The kernel's own address space *)

(** The kernel area is mapped to itself, for the kernel alone. *)
Definition kernel_only (m : ram) (pdir : Z) : Prop :=
  forall v, 0 <= v < KERNEL_SIZE -> walk m pdir v = Some (v, false, true).

Definition kernel_pages (m : ram) (pdir table : Z) : Prop :=
  (forall j, 0 <= j < 1024 -> exists mode, ld (slot table j) m = pte (j * 4096) mode
     /\ Z.testbit mode 0 = true /\ Z.testbit mode 1 = true)
  /\ ld (slot pdir 0) m = pde table (Z.lor kernel_mode PE_PCD).

Lemma kernel_pages_kept m m' pdir table :
  is_frame pdir -> is_frame table -> (forall a, in_frame pdir a \/ in_frame table a -> ld a m' = ld a m) ->
  kernel_pages m pdir table -> kernel_pages m' pdir table.
Proof.
  intros Hpd Ht E [Hk Hd]. split.
  - intros j Hj. rewrite E by (right; by apply slot_in_frame). by apply Hk.
  - rewrite E by (left; apply slot_in_frame; auto with paging). done.
Qed.

Lemma kernel_walk m pdir table : is_frame pdir -> is_frame table -> kernel_pages m pdir table -> kernel_only m pdir.
Proof.
  intros Hpd Ht [Hk Hd] v Hv. unfold KERNEL_SIZE in Hv. assert (Hj : 0 <= v / 4096 < 1024) by zdiv.
  destruct (kernel_page_indices _ Hj) as [E1 E2].
  assert (Hdi : get_directory_index v = 0) by (rewrite directory_index_div by lia; change (2^22) with 4194304; zdiv).
  assert (Hti : get_table_index v = v / 4096) by (rewrite table_index_div; change (2 ^ 12) with 4096; by apply Z.mod_small).
  destruct (Hk _ Hj) as (mode & E & B0 & B1).
  rewrite (walk_entries m pdir v table (Z.lor kernel_mode PE_PCD) (v / 4096 * 4096) mode).
  - rewrite B0, B1. change (Z.testbit (Z.lor kernel_mode PE_PCD) 2) with false. change (Z.testbit (Z.lor kernel_mode PE_PCD) 1) with true.
    cbn [andb]. do 3 f_equal. zdiv.
  - done.
  - apply page_frame; lia.
  - unfold pde_slot. by rewrite Hdi.
  - by rewrite Hti.
  - done.
Qed.

(** [setup_kernel_vmem_common] for the kernel. *)
Lemma kernel_common_run s p pdir i l :
  cpu_room 1 (cpu (kern s)) -> stocked (fr s) (i :: l) -> pinned_pages_counter_lock s = SPINLOCK_INIT ->
  is_frame pdir -> pdir + PAGE_SIZE <= frame_addr i ->
  exists f m, setup_kernel_vmem_common rdtsc p pdir false s
      = Ret (tt, set_number_of_pinned_page_frames (u32 (number_of_pinned_page_frames s + 1)) (set_mem m (set_fr f s)))
    /\ stocked f l /\ belongs f i (frame_addr i) p PE_INFO_PINNED /\ same_but i (fr s) f /\ kernel_pages m pdir (frame_addr i)
    /\ forall a, a < frame_addr i -> ~ in_frame pdir a -> ld a m = ld a (mem s).
Proof.
  intros Hc Hs Hsp Hpd Hlt. destruct (alloc_stocked s i l Hc Hs) as (f1 & r & E1 & S1 & Hi & Hil & K1 & Hr & Ho).
  pose proof (frame_addr_frame i Hi) as Ht. assert (Hne : pdir <> frame_addr i) by (unfold PAGE_SIZE in *; lia).
  unfold setup_kernel_vmem_common. rewrite (bind_step _ _ _ _ _ E1). set (s1 := set_mem _ _).
  destruct (insert_stocked s1 i l (frame_addr i) p PE_INFO_PINNED r S1 Hi Hil Hr Ho) as (f2 & E2 & S2 & B2 & K2).
  rewrite (bind_step _ _ _ _ _ E2). rewrite (bind_step _ _ _ _ _ (inc_pinned_run 1 (set_fr f2 s1) Hsp)).
  cbv zeta. set (s2 := set_number_of_pinned_page_frames _ _).
  destruct (kernel_area_loops_run true (frame_addr i) pdir (Z.lor PE_P PE_RW) (mem s2) Hpd Ht Hne) as (m1 & E3 & A & B & C).
  rewrite (bind_step _ _ _ _ _ (rop_run _ s2 _ _ E3)).
  rewrite (bind_step _ _ _ _ _ (rop_run _ _ _ _ (dir_ins_table_run _ _ _ _ _))).
  rewrite (bind_step _ _ _ _ _ (rop_run _ _ _ _ (table_map_page_run _ _ _ _ _))).
  rewrite (rop_run _ _ _ _ (dir_ins_table_run _ _ _ _ _)).
  change (get_directory_index VGA_TEXT_PADDR) with 0. change (get_table_index VGA_TEXT_PADDR) with 184. change (get_directory_index 0) with 0.
  assert (Hsl : forall j, 0 <= j < 1024 -> slot (frame_addr i) j <> slot pdir 0).
  { intros j Hj E'. apply slot_inj in E' as [? _]; auto with paging. }
  eexists f2, (st (slot pdir 0) (pde (frame_addr i) (Z.lor kernel_mode PE_PCD))
    (st (slot (frame_addr i) 184) (pte VGA_TEXT_PADDR (Z.lor kernel_mode PE_PCD)) (st (slot pdir 0) (pde (frame_addr i) kernel_mode) m1))).
  split; [by destruct s|]. split_and!; [done|done| | |].
  - intros j Hj. by rewrite K2, K1.
  - split.
    + intros j Hj. rewrite ld_st_ne by auto. rewrite ld_st. destruct (decide _) as [Es|Es].
      * apply slot_inj in Es as [_ ->]; auto with paging. exists (Z.lor kernel_mode PE_PCD).
        change VGA_TEXT_PADDR with (184 * 4096). split_and!; reflexivity.
      * exists (Z.lor PE_P PE_RW). rewrite ld_st_ne by (by apply Hsl). rewrite (A j Hj). split_and!; reflexivity.
    + apply ld_st_eq.
  - intros a Ha Hn. assert (Hp : a <> slot pdir 0) by (intros ->; apply Hn; apply slot_in_frame; auto with paging).
    assert (Hq : forall j, 0 <= j < 1024 -> a <> slot (frame_addr i) j).
    { intros j Hj ->. rewrite slot_frame in Ha by done. lia. }
    rewrite ld_st_ne by done. rewrite ld_st_ne by (apply Hq; lia). rewrite ld_st_ne by done. rewrite (C a (conj Hp Hq)).
    change (mem s2) with (cleared (frame_addr i) (mem s)). apply cleared_out; [done|by left].
Qed.

(** The state in which the kernel sets up its memory. *)
Record unset (s : mm D) : Prop := mk_unset {
  un_infos : length (page_frame_info (fr s)) = Z.to_nat PAGEABLE_PAGES;
  un_shared : length (page_frame_info_shared (fr s)) = Z.to_nat PAGEABLE_PAGES;
  un_cpu : cpu_room 1 (cpu (kern s));
  un_lock : page_map_lock s = LOCK_INIT;
  un_spin : pinned_pages_counter_lock s = SPINLOCK_INIT;
  un_dummy : is_Some (pcbs (kern s) !! DUMMY)
}.

Lemma frames_below i j a : (i < j)%nat -> in_frame (frame_addr i) a -> a < frame_addr j.
Proof. unfold in_frame, frame_addr, PAGE_SIZE. lia. Qed.

Lemma frames_differ i j : i <> j -> frame_addr i <> frame_addr j.
Proof. unfold frame_addr, PAGE_SIZE. lia. Qed.

(** What [init_memory] leaves: the first three frames are the kernel's directory,
    its page table and the table that processes share, and belong to the dummy
    control block; all the others are free; nothing waits for eviction. *)
Record memory_up (s s' : mm D) : Prop := mk_memory_up {
  mu_kern : kern s' = set_pcbs (alter (set_is_thread 1) DUMMY (pcbs (kern s))) (kern s);
  mu_pdir : kernel_pdir s' = frame_addr 0;
  mu_table : user_kernel_ptable s' = frame_addr 2;
  mu_pages : kernel_pages (mem s') (frame_addr 0) (frame_addr 1);
  mu_stock : stocked (fr s') (seq 3 30);
  mu_frame0 : belongs (fr s') 0 (frame_addr 0) DUMMY (Z.lor PE_INFO_PINNED PE_INFO_KERNEL_DUMMY);
  mu_frame1 : belongs (fr s') 1 (frame_addr 1) DUMMY PE_INFO_PINNED;
  mu_frame2 : belongs (fr s') 2 (frame_addr 2) DUMMY (Z.lor PE_INFO_PINNED PE_INFO_KERNEL_DUMMY);
  mu_pinned : number_of_pinned_page_frames s' = u32 (u32 (u32 (number_of_pinned_page_frames s + 1) + 1) + 1);
  mu_fifo : fifo_queue s' = fifo_init;
  mu_lock : page_map_lock s' = LOCK_INIT;
  mu_spin : pinned_pages_counter_lock s' = SPINLOCK_INIT;
  mu_read : read_buffer_lock s' = read_buffer_lock s;
  mu_first : first_process s' = first_process s;
  mu_disk : disk s' = disk s
}.

Lemma init_memory_run s : unset s -> exists s', init_memory rdtsc s = Ret (tt, s') /\ memory_up s s'.
Proof.
  intros [L1 L2 Hc Hl Hsp Hd]. destruct (initialize_run (fr s) L1 L2) as (f0 & E0 & F0 & A0 & O0 & _).
  assert (S0 : stocked f0 (seq 0 33)).
  { constructor; [done|exact F0|]. intros i r _ Hr. destruct (O0 i r Hr) as (? & _ & ?). done. }
  unfold init_memory. rewrite (bind_step _ _ _ _ _ (fop_run _ s _ _ E0)), !bind_modify. clear E0 F0 A0 O0 L1 L2.
  unfold setup_kernel_vmem. rewrite acquire_ok by exact Hl. cbv zeta.
  set (s1 := set_page_map_lock held _).
  rewrite (bind_step _ _ _ _ _ (kop_run _ s1 _ _ (wr_run (kern s1) DUMMY (set_is_thread 1) Hd))).
  set (s2 := set_kern _ s1).
  destruct (alloc_stocked s2 0 (seq 1 32) Hc S0) as (f1 & r0 & E1 & S1 & Hi & Hil & K1 & Hr & Ho).
  rewrite (bind_step _ _ _ _ _ E1), bind_modify. set (s3 := set_kernel_pdir _ _).
  destruct (insert_stocked s3 0 (seq 1 32) (frame_addr 0) DUMMY (Z.lor PE_INFO_PINNED PE_INFO_KERNEL_DUMMY) r0 S1 Hi Hil Hr Ho) as (f2 & E2 & S2 & B0 & K2).
  rewrite (bind_step _ _ _ _ _ E2). rewrite (bind_step _ _ _ _ _ (inc_pinned_run 1 (set_fr f2 s3) Hsp)).
  set (s4 := set_number_of_pinned_page_frames _ _). pose proof (frame_addr_frame 0 Hi) as Hf0.
  destruct (kernel_common_run s4 DUMMY (frame_addr 0) 1 (seq 2 31)) as (f3 & m3 & E3 & S3 & B1 & K3 & P3 & O3);
    [exact Hc|exact S2|exact Hsp|exact Hf0|unfold frame_addr, PAGE_SIZE; lia|].
  rewrite (bind_step _ _ _ _ _ E3). set (s5 := set_number_of_pinned_page_frames _ _).
  change PROCESSES_SHARE_KERNEL_PAGE_TABLE with true. cbn [when]. rewrite !bind_assoc.
  destruct (alloc_stocked s5 2 (seq 3 30) Hc S3) as (f4 & r2 & E4 & S4 & Hi2 & Hil2 & K4 & Hr2 & Ho2).
  rewrite (bind_step _ _ _ _ _ E4), !bind_assoc, bind_modify. set (s6 := set_user_kernel_ptable _ _).
  destruct (insert_stocked s6 2 (seq 3 30) (frame_addr 2) DUMMY (Z.lor PE_INFO_PINNED PE_INFO_KERNEL_DUMMY) r2 S4 Hi2 Hil2 Hr2 Ho2) as (f5 & E5 & S5 & B2 & K5).
  rewrite ?bind_assoc, (bind_step _ _ _ _ _ E5). rewrite ?bind_assoc, (bind_step _ _ _ _ _ (inc_pinned_run 1 (set_fr f5 s6) Hsp)).
  rewrite <- bind_ret_r, release_ok by reflexivity.
  eexists. split; [reflexivity|]. constructor; [reflexivity|reflexivity|reflexivity| |exact S5| | |exact B2|reflexivity|reflexivity|reflexivity|exact Hsp|reflexivity|reflexivity|reflexivity].
  - eapply kernel_pages_kept; [exact Hf0|by apply frame_addr_frame; unfold PAGEABLE_PAGES; lia| |exact P3].
    intros a Ha. change (ld a (cleared (frame_addr 2) m3) = ld a m3). apply cleared_out; [done|left]. destruct Ha as [Ha|Ha]; (eapply frames_below; [|exact Ha]; lia).
  - eapply belongs_kept; [exact K5|done|]. eapply belongs_kept; [exact K4|done|]. eapply belongs_kept; [exact K3|done|]. exact B0.
  - eapply belongs_kept; [exact K5|done|]. eapply belongs_kept; [exact K4|done|]. exact B1.
Qed.

(** ** The address space of a process *)

Lemma first_process_run {B} s p r (k : unit -> M (mm D) B) :
  cpu_room 1 (cpu (kern s)) -> pcbs (kern s) !! p = Some r ->
  (kenter ;;;
   n <-- kop (rd p pid) ;; modify (set_first_process_pid n) ;;; modify (set_first_process 0) ;;;
   x <-- kleave ;; k x) s = k tt (set_first_process 0 (set_first_process_pid (pid r) s)).
Proof.
  intros Hc Hp. rewrite (bind_step kenter _ _ _ _ (kop_run enter s tt _ eq_refl)).
  rewrite (krd_ok p pid _ r) by exact Hp. rewrite !bind_modify.
  rewrite (bind_step kleave _ _ _ _ (kop_run leave _ tt _ eq_refl)). f_equal.
  pose proof (set_cpu_restore 1 (kern s) ltac:(lia) Hc) as E. destruct s. cbn in *.
  unfold set_kern, set_first_process, set_first_process_pid. cbn. f_equal. by rewrite set_cpu_cpu.
Qed.

Lemma image_index j : 0 <= j < 1024 -> get_table_index (u32 (PROCESS_VADDR + j * 4096)) = j.
Proof.
  intros Hj. unfold PROCESS_VADDR. rewrite u32_small by lia. rewrite table_index_div.
  change (2 ^ 12) with 4096. change (2 ^ 10) with 1024. zdiv.
Qed.

Lemma map_image_page_run s p r t um off : cpu_room 1 (cpu (kern s)) -> pcbs (kern s) !! p = Some r ->
  map_image_page p t um off s
  = Ret (tt, set_mem (st (slot t (get_table_index (u32 (PROCESS_VADDR + off)))) (pte (u32 (swap_loc r * SECTOR_SIZE + off)) um) (mem s)) s).
Proof.
  intros Hc Hp. unfold map_image_page. rewrite (krd_ok p swap_loc _ r) by exact Hp. cbv zeta. rewrite crit_ok by done.
  by rewrite (rop_run _ s _ _ (table_map_page_run _ _ _ _ _)).
Qed.

(** The entries of an image: the pages are not present. *)
Lemma map_image_run p r t um ul : is_frame t -> 0 <= ul <= 1023 * 4096 ->
  forall n k fuel s, cpu_room 1 (cpu (kern s)) -> pcbs (kern s) !! p = Some r -> 0 <= k -> ul <= (k + Z.of_nat n) * 4096 -> (n < fuel)%nat ->
  exists m, map_image fuel p t um ul (k * 4096) s = Ret (tt, set_mem m s)
    /\ (forall j, 0 <= j < 1024 -> ld (slot t j) m
          = if (k <=? j) && (j * 4096 <? ul) then pte (u32 (swap_loc r * SECTOR_SIZE + j * 4096)) um else ld (slot t j) (mem s))
    /\ forall a, ~ in_frame t a -> ld a m = ld a (mem s).
Proof.
  intros Ht Hul. induction n as [|n IH]; intros k fuel s Hc Hp Hk Hn Hf; (destruct fuel as [|fuel]; [lia|]); cbn [map_image].
  - exists (mem s). rewrite (proj2 (Z.ltb_ge _ _)) by lia. split_and!; [unfold ret; by rewrite set_mem_same| |done].
    intros j Hj. destruct (Z.leb_spec k j), (Z.ltb_spec (j * 4096) ul); done || lia.
  - destruct (Z.ltb_spec (k * 4096) ul) as [Hlt|Hge].
    2: { exists (mem s). split_and!; [unfold ret; by rewrite set_mem_same| |done].
         intros j Hj. destruct (Z.leb_spec k j), (Z.ltb_spec (j * 4096) ul); done || lia. }
    rewrite (bind_step _ _ _ _ _ (map_image_page_run s p r t um (k * 4096) Hc Hp)).
    replace (u32 (k * 4096 + PAGE_SIZE)) with ((k + 1) * 4096) by (unfold PAGE_SIZE; rewrite u32_small; lia).
    rewrite image_index by lia. set (s1 := set_mem _ s).
    destruct (IH (k + 1) fuel s1 Hc Hp ltac:(lia) ltac:(lia) ltac:(lia)) as (m & E & A & O). exists m. split_and!; [exact E| |].
    + intros j Hj. rewrite A by done. cbn [s1 mem set_mem]. rewrite ld_st. destruct (decide (slot t j = slot t k)) as [Es|Es].
      * apply slot_inj in Es as [_ ->]; [|done|done|done|lia]. rewrite (proj2 (Z.leb_gt (k + 1) k)), Z.leb_refl, (proj2 (Z.ltb_lt _ _)) by lia. done.
      * assert (j <> k) by congruence. destruct (Z.leb_spec (k + 1) j), (Z.leb_spec k j); done || lia.
    + intros a Ha. rewrite O by done. cbn [s1 mem set_mem]. apply ld_st_ne. intros ->. apply Ha, slot_in_frame; [done|lia].
Qed.

(** The memory through [setup_process_vmem]: [d] is the directory, [t] the page
    table, [u] the shared kernel table. *)
Section Tables.

Context (m2 m5 : ram) (u : Z) (i0 i1 i2 : nat) (loc ul : Z).
Let d := frame_addr i0.
Let t := frame_addr i1.
Let um := Z.lor PE_RW PE_US.
Let m4 := st (slot d 4) (pde t (Z.lor um PE_P)) (cleared t m2).
Let m8 := st (slot t 1023) (pte (frame_addr i2) (Z.lor um PE_P))
            (cleared (frame_addr i2) (st (slot d 959) (pde t (Z.lor um PE_P)) m5)).

Hypothesis (Hi0 : (i0 < i1)%nat) (Hi1 : (i1 < i2)%nat) (Hi2 : (i2 < Z.to_nat PAGEABLE_PAGES)%nat).
Hypothesis (Hu : is_frame u) (Hud : u + PAGE_SIZE <= d).
Hypothesis (Hk : kernel_table m2 u) (Hd : ld (slot d 0) m2 = pde u vga_mode).
Hypothesis (Hul : ul <= 1023 * 4096).
Hypothesis (H5 : forall j, 0 <= j < 1024 -> ld (slot t j) m5
  = if (0 <=? j) && (j * 4096 <? ul) then pte (u32 (loc * SECTOR_SIZE + j * 4096)) um else ld (slot t j) m4).
Hypothesis (O5 : forall a, ~ in_frame t a -> ld a m5 = ld a m4).

Lemma frames_ok : is_frame d /\ is_frame t /\ is_frame (frame_addr i2).
Proof. split_and!; apply frame_addr_frame; lia. Qed.

(** What lies below the page table stays as it was but for the two entries. *)
Lemma below_kept a : a < t -> a <> slot d 4 -> a <> slot d 959 -> ld a m8 = ld a m2.
Proof.
  destruct frames_ok as (Fd & Ft & _). intros Ha H4 H959. unfold m8.
  assert (Ht : ~ in_frame t a) by (unfold in_frame; lia).
  rewrite ld_st_ne by (intros ->; apply Ht, slot_in_frame; [done|lia]).
  assert (Hb : frame_addr i1 < frame_addr i2) by (unfold frame_addr, PAGE_SIZE; lia).
  rewrite cleared_out by (try done; left; subst t; lia).
  rewrite ld_st_ne by done. rewrite O5 by done. unfold m4. rewrite ld_st_ne by done. apply cleared_out; [lia|by left].
Qed.

Lemma shared_kept : kernel_table m8 u /\ ld (slot d 0) m8 = pde u vga_mode.
Proof.
  destruct frames_ok as (Fd & Ft & _).
  assert (Hdt : d < t) by (unfold d, t, frame_addr, PAGE_SIZE; lia). unfold PAGE_SIZE in Hud. split.
  - intros j Hj. rewrite slot_frame by done. rewrite below_kept.
    + rewrite <- slot_frame by done. by apply Hk.
    + lia.
    + rewrite slot_frame by (done || lia). lia.
    + rewrite slot_frame by (done || lia). lia.
  - rewrite below_kept; [done| | |]; rewrite !slot_frame by (done || lia); [|lia|lia].
    unfold d, t, frame_addr, PAGE_SIZE. lia.
Qed.

Lemma entry_kept k : k = 4 \/ k = 959 -> ld (slot d k) m8 = pde t (Z.lor um PE_P).
Proof.
  destruct frames_ok as (Fd & Ft & _). intros Hk'. unfold m8. rewrite slot_frame by (done || lia).
  assert (Hdt : d + 4096 <= t) by (unfold d, t, frame_addr, PAGE_SIZE; lia).
  assert (Hti : t < frame_addr i2) by (unfold t, frame_addr, PAGE_SIZE; lia).
  rewrite ld_st_ne by (rewrite slot_frame by (done || lia); lia).
  rewrite cleared_out by (try done; left; lia). rewrite ld_st, slot_frame by (done || lia).
  destruct (decide _) as [|Hne]; [done|]. destruct Hk' as [->| ->]; [|lia].
  rewrite O5 by (unfold in_frame; lia). unfold m4. rewrite slot_frame by (done || lia). apply ld_st_eq.
Qed.

Lemma table_entry j : 0 <= j < 1024 -> j <> 1023 -> exists v, 0 <= v < 2 ^ 32 /\ (ld (slot t j) m8 = pte v um \/ ld (slot t j) m8 = 0).
Proof.
  destruct frames_ok as (Fd & Ft & _). intros Hj Hne. unfold m8.
  assert (Hti : t + 4096 <= frame_addr i2) by (unfold t, frame_addr, PAGE_SIZE; lia).
  assert (Hdt : d + 4096 <= t) by (unfold d, t, frame_addr, PAGE_SIZE; lia).
  rewrite ld_st_ne by (intros E; apply slot_inj in E as [_ ?]; auto with paging).
  rewrite cleared_out by (try done; left; rewrite slot_frame by done; lia).
  rewrite ld_st_ne by (intros E; apply slot_inj in E as [? _]; auto with paging; lia).
  rewrite H5 by done. destruct (_ && _); [eexists; split; [|by left]; unfold u32; apply Z.mod_pos_bound; lia|]. exists 0. split; [lia|]. right. unfold m4.
  rewrite ld_st_ne by (intros E; apply slot_inj in E as [? _]; auto with paging; lia).
  destruct Ft as [Ft1 Ft2]. rewrite slot_frame by done. unfold PAGE_SIZE in Ft2.
  apply (cleared_in rdtsc i1).
  - lia.
  - zdiv.
  - fold t. unfold PAGE_SIZE. lia.
Qed.

Lemma absent_entry v : 0 <= v < 2 ^ 32 -> truth (Z.land (pte v um) PE_P) = false.
Proof.
  intros Hv. assert (F : is_frame (v / 4096 * 4096)) by (apply page_frame; zdiv).
  replace (pte v um) with (pte (v / 4096 * 4096) um); [by unfold PE_P; rewrite pte_flag by (done || lia)|].
  unfold pte. by rewrite (base_mask_frame _ F), base_mask_div.
Qed.

(** The pages of the image are not present, but their directory entry is. *)
Lemma image_absent va : PROCESS_VADDR <= va < PROCESS_VADDR + 1023 * 4096 ->
  truth (Z.land (ld (pde_slot d va) m8) PE_P) = true /\ walk_table m8 d va = t /\ walk m8 d va = None.
Proof.
  unfold PROCESS_VADDR. intros Hva. destruct frames_ok as (_ & Ft & _).
  assert (Hdi : get_directory_index va = 4) by (rewrite directory_index_div by lia; change (2 ^ 22) with 4194304; zdiv).
  assert (Hti : 0 <= get_table_index va < 1024 /\ get_table_index va <> 1023).
  { rewrite table_index_div. change (2 ^ 12) with 4096. change (2 ^ 10) with 1024. zdiv. }
  assert (Hp : ld (pde_slot d va) m8 = pde t (Z.lor um PE_P)) by (unfold pde_slot; rewrite Hdi; apply entry_kept; by left).
  assert (Hpp : truth (Z.land (pde t (Z.lor um PE_P)) PE_P) = true) by exact (pde_flag t (Z.lor um PE_P) 0 Ft ltac:(lia)).
  unfold walk_table. rewrite Hp, pde_base by exact Ft. split_and!; [exact Hpp|reflexivity|].
  unfold walk. fold (pde_slot d va). rewrite Hp, Hpp, pde_base by exact Ft.
  destruct (table_entry (get_table_index va)) as (v & Hv & [E|E]); [lia|lia| |].
  - rewrite E, absent_entry by exact Hv. reflexivity.
  - rewrite E. reflexivity.
Qed.

(** The page of the stack is. *)
Lemma stack_present va : 0xeffff000 <= va < 0xf0000000 -> walk m8 d va = Some (frame_addr i2 + va mod 4096, true, true).
Proof.
  intros Hva. destruct frames_ok as (_ & Ft & Fs).
  assert (Hdi : get_directory_index va = 959) by (rewrite directory_index_div by lia; change (2 ^ 22) with 4194304; zdiv).
  assert (Hti : get_table_index va = 1023) by (rewrite table_index_div; change (2 ^ 12) with 4096; change (2 ^ 10) with 1024; zdiv).
  rewrite (walk_entries m8 d va t (Z.lor um PE_P) (frame_addr i2) (Z.lor um PE_P)); [reflexivity|exact Ft|exact Fs| | |reflexivity].
  - unfold pde_slot. rewrite Hdi. apply entry_kept. by right.
  - rewrite Hti. apply ld_st_eq.
Qed.

Lemma stack_zero a : in_frame (frame_addr i2) a -> a mod 4 = 0 -> ld a m8 = 0.
Proof.
  intros Ha H4. destruct frames_ok as (_ & Ft & _). unfold m8, in_frame, PAGE_SIZE in *.
  assert (Hti : t + 4096 <= frame_addr i2) by (unfold t, frame_addr, PAGE_SIZE; lia).
  rewrite ld_st_ne by (rewrite slot_frame by (done || lia); lia).
  apply (cleared_in rdtsc i2); [done|done|]. unfold PAGE_SIZE. lia.
Qed.

Definition process_ram : ram := m8.

Lemma tables_up : kernel_table process_ram u /\ kernel_mapped process_ram d
  /\ (forall va, PROCESS_VADDR <= va < PROCESS_VADDR + 1023 * 4096 ->
        truth (Z.land (ld (pde_slot d va) process_ram) PE_P) = true /\ walk_table process_ram d va = t /\ walk process_ram d va = None)
  /\ (forall va, 0xeffff000 <= va < 0xf0000000 -> walk process_ram d va = Some (frame_addr i2 + va mod 4096, true, true))
  /\ forall a, in_frame (frame_addr i2) a -> a mod 4 = 0 -> ld a process_ram = 0.
Proof.
  destruct frames_ok as (Fd & _). destruct shared_kept as [K E]. split_and!.
  - exact K.
  - exact (kernel_table_mapped m8 u d Fd Hu K E).
  - exact image_absent.
  - exact stack_present.
  - exact stack_zero.
Qed.

End Tables.

(** When a process can be given an address space: three free frames in ascending
    order, behind the table of the kernel area, and an image that leaves the last
    entry of its page table to the stack. *)
Record startable (s : mm D) (p : ptr) (r : pcb) (i0 i1 i2 : nat) (l : list nat) : Prop := mk_startable {
  sa_cpu : cpu_room 1 (cpu (kern s));
  sa_pcb : pcbs (kern s) !! p = Some r;
  sa_process : is_thread r = 0;
  sa_stock : stocked (fr s) (i0 :: i1 :: i2 :: l);
  sa_order : (i0 < i1 < i2)%nat;
  sa_lock : page_map_lock s = LOCK_INIT;
  sa_spin : pinned_pages_counter_lock s = SPINLOCK_INIT;
  sa_table : is_frame (user_kernel_ptable s);
  sa_below : user_kernel_ptable s + PAGE_SIZE <= frame_addr i0;
  sa_shared : first_process s = 0 -> kernel_table (mem s) (user_kernel_ptable s);
  sa_size : 0 <= swap_size r /\ swap_size r * SECTOR_SIZE <= 1023 * 4096
}.

(** The address space of [p] in [s']. *)
Record process_up (s : mm D) (p : ptr) (r : pcb) (i0 i1 i2 : nat) (l : list nat) (s' : mm D) : Prop := mk_process_up {
  pu_kern : kern s' = set_pcbs (alter (set_page_directory (frame_addr i0)) p (pcbs (kern s))) (kern s);
  pu_shared : kernel_table (mem s') (user_kernel_ptable s');
  pu_kernel : kernel_mapped (mem s') (frame_addr i0);
  pu_image va : PROCESS_VADDR <= va < PROCESS_VADDR + 1023 * 4096 ->
    truth (Z.land (ld (pde_slot (frame_addr i0) va) (mem s')) PE_P) = true
    /\ walk_table (mem s') (frame_addr i0) va = frame_addr i1 /\ walk (mem s') (frame_addr i0) va = None;
  pu_stack va : 0xeffff000 <= va < 0xf0000000 ->
    walk (mem s') (frame_addr i0) va = Some (frame_addr i2 + va mod 4096, true, true);
  pu_zero a : in_frame (frame_addr i2) a -> a mod 4 = 0 -> ld a (mem s') = 0;
  pu_stock : stocked (fr s') l;
  pu_frame0 : belongs (fr s') i0 (frame_addr i0) p (Z.lor PE_INFO_USER_MODE PE_INFO_PINNED);
  pu_frame1 : belongs (fr s') i1 (frame_addr i1) p (Z.lor PE_INFO_USER_MODE PE_INFO_PINNED);
  pu_frame2 : belongs (fr s') i2 PROCESS_STACK_VADDR p (Z.lor (Z.lor PE_INFO_USER_MODE PE_INFO_PINNED) PE_INFO_STACK);
  pu_table : user_kernel_ptable s' = user_kernel_ptable s;
  pu_first : first_process s' = 0;
  pu_lock : page_map_lock s' = LOCK_INIT;
  pu_spin : pinned_pages_counter_lock s' = SPINLOCK_INIT;
  pu_read : read_buffer_lock s' = read_buffer_lock s;
  pu_fifo : fifo_queue s' = fifo_queue s;
  pu_disk : disk s' = disk s
}.

(** The two branches of [first_process]. *)
Lemma shared_branch s p r pdir :
  cpu_room 1 (cpu (kern s)) -> pcbs (kern s) !! p = Some r -> is_frame pdir -> is_frame (user_kernel_ptable s) ->
  pdir <> user_kernel_ptable s -> (first_process s = 0 -> kernel_table (mem s) (user_kernel_ptable s)) ->
  exists m pid', (if truth (first_process s) then
       kenter ;;;
       n <-- kop (rd p pid) ;;
       modify (set_first_process_pid n) ;;;
       modify (set_first_process 0) ;;;
       kleave ;;;
       when PROCESSES_SHARE_KERNEL_PAGE_TABLE (rop (user_setup_kernel_vmem (user_kernel_ptable s) pdir true))
     else
       when PROCESSES_SHARE_KERNEL_PAGE_TABLE (rop (user_setup_kernel_vmem (user_kernel_ptable s) pdir false))) s
      = Ret (tt, set_mem m (set_first_process 0 (set_first_process_pid pid' s)))
    /\ kernel_table m (user_kernel_ptable s) /\ ld (slot pdir 0) m = pde (user_kernel_ptable s) vga_mode.
Proof.
  intros Hc Hp Hpd Hu Hne Hk. change PROCESSES_SHARE_KERNEL_PAGE_TABLE with true. cbn [when].
  unfold truth. destruct (Z.eqb_spec (first_process s) 0) as [E|E]; cbn [negb].
  - destruct (user_setup_run false (user_kernel_ptable s) pdir (mem s) Hpd Hu Hne (fun _ => Hk E)) as (m & Em & K & Dm & _).
    exists m, (first_process_pid s). rewrite (rop_run _ s _ _ Em). split_and!; [|done|done]. do 2 f_equal. destruct s. cbn in *. by subst.
  - destruct (user_setup_run true (user_kernel_ptable s) pdir (mem s) Hpd Hu Hne ltac:(done)) as (m & Em & K & Dm & _).
    exists m, (pid r). split_and!; [|done|done].
    rewrite (first_process_run s p r) by done.
    exact (rop_run _ (set_first_process 0 (set_first_process_pid (pid r) s)) _ _ Em).
Qed.

Lemma image_trips ul : 0 <= ul -> ul <= Z.of_nat (trip_count 0 ul PAGE_SIZE) * 4096.
Proof. intros. unfold trip_count, PAGE_SIZE. zdiv. Qed.

Lemma setup_process_run s p r i0 i1 i2 l : startable s p r i0 i1 i2 l ->
  exists s', setup_process_vmem rdtsc p s = Ret (tt, s') /\ process_up s p r i0 i1 i2 l s'.
Proof.
  intros [Hc Hp Hth Hs [H01 H12] Hl Hsp Hu Hb Hk [Hz0 Hz]]. unfold setup_process_vmem. rewrite acquire_ok by exact Hl.
  rewrite (krd_ok p is_thread _ r) by exact Hp. rewrite Hth. cbn [Z.eqb negb]. cbv zeta.
  set (s1 := set_page_map_lock held s).
  destruct (alloc_stocked s1 i0 (i1 :: i2 :: l) Hc Hs) as (f1 & r0 & E1 & S1 & Hi0 & N0 & K1 & Hr0 & Ho0).
  rewrite (bind_step _ _ _ _ _ E1). set (s2 := set_mem _ _).
  destruct (insert_stocked s2 i0 _ (frame_addr i0) p (Z.lor PE_INFO_USER_MODE PE_INFO_PINNED) r0 S1 Hi0 N0 Hr0 Ho0) as (f2 & E2 & S2 & B0 & K2).
  rewrite (bind_step _ _ _ _ _ E2), !bind_gets. set (s3 := set_fr f2 s2).
  pose proof (frame_addr_frame i0 Hi0) as F0.
  destruct (shared_branch s3 p r (frame_addr i0)) as (m2 & pid' & E3 & T2 & D2);
    [exact Hc|exact Hp|exact F0|exact Hu|change (user_kernel_ptable s3) with (user_kernel_ptable s); unfold PAGE_SIZE in Hb; lia| |].
  { intros Hfp j Hj. change (mem s3) with (cleared (frame_addr i0) (mem s)). change (user_kernel_ptable s3) with (user_kernel_ptable s) in *.
    rewrite cleared_out; [by apply Hk|done|]. left. rewrite slot_frame by done. unfold PAGE_SIZE in Hb. lia. }
  rewrite (bind_step _ _ _ _ _ E3). clear E3. set (s4 := set_mem m2 _). change PROCESSES_SHARE_KERNEL_PAGE_TABLE with true. cbn [negb when]. rewrite bind_ret.
  destruct (alloc_stocked s4 i1 (i2 :: l) Hc S2) as (f3 & r1 & E4 & S3 & Hi1 & N1 & K3 & Hr1 & Ho1).
  rewrite (bind_step _ _ _ _ _ E4). set (s5 := set_mem _ _).
  rewrite (bind_step _ _ _ _ _ (rop_run _ s5 _ _ (dir_ins_table_run _ _ _ _ _))).
  change (get_directory_index PROCESS_VADDR) with 4. set (s6 := set_mem _ _).
  destruct (insert_stocked s6 i1 _ (frame_addr i1) p (Z.lor PE_INFO_USER_MODE PE_INFO_PINNED) r1 S3 Hi1 N1 Hr1 Ho1) as (f4 & E5 & S4 & B1 & K4).
  rewrite (bind_step _ _ _ _ _ E5). rewrite (bind_step _ _ _ _ _ (inc_pinned_run 2 (set_fr f4 s6) Hsp)).
  set (s7 := set_number_of_pinned_page_frames _ _). rewrite (krd_ok p swap_size _ r) by exact Hp.
  rewrite (u32_small (swap_size r * SECTOR_SIZE)) by (unfold SECTOR_SIZE in *; lia).
  set (ul := swap_size r * SECTOR_SIZE) in *. assert (Hul : 0 <= ul) by (unfold ul, SECTOR_SIZE; lia).
  pose proof (frame_addr_frame i1 Hi1) as F1.
  destruct (map_image_run p r (frame_addr i1) (Z.lor PE_RW PE_US) ul F1 ltac:(lia) (trip_count 0 ul PAGE_SIZE) 0 (image_fuel ul) s7 Hc Hp ltac:(lia)
    (image_trips ul Hul) ltac:(unfold image_fuel; lia)) as (m5 & E6 & A5 & O5).
  assert (M7 : mem s7 = st (slot (frame_addr i0) 4) (pde (frame_addr i1) (Z.lor (Z.lor PE_RW PE_US) PE_P)) (cleared (frame_addr i1) m2)) by reflexivity.
  rewrite M7 in A5, O5.
  rewrite (bind_step _ _ _ _ _ E6). set (s8 := set_mem m5 s7).
  rewrite (bind_step _ _ _ _ _ (rop_run _ s8 _ _ (dir_ins_table_run _ _ _ _ _))).
  change (get_directory_index PROCESS_STACK_VADDR) with 959. set (s9 := set_mem _ _).
  change (trip_count (PROCESS_STACK_VADDR - USER_STACK_SIZE) PROCESS_STACK_VADDR PAGE_SIZE) with 1%nat. cbn [for_up]. unfold map_stack_page.
  rewrite !bind_assoc. destruct (alloc_stocked s9 i2 l Hc S4) as (f5 & r2 & E7 & S5 & Hi2 & N2 & K5 & Hr2 & Ho2).
  rewrite (bind_step _ _ _ _ _ E7). set (s10 := set_mem _ _).
  destruct (insert_stocked s10 i2 l PROCESS_STACK_VADDR p (Z.lor (Z.lor PE_INFO_USER_MODE PE_INFO_PINNED) PE_INFO_STACK) r2 S5 Hi2 N2 Hr2 Ho2)
    as (f6 & E8 & S6 & B2 & K6).
  rewrite !bind_assoc, (bind_step _ _ _ _ _ E8). rewrite !bind_assoc, (bind_step _ _ _ _ _ (inc_pinned_run 1 (set_fr f6 s10) Hsp)).
  set (s11 := set_number_of_pinned_page_frames _ _). rewrite ?bind_assoc.
  rewrite (bind_step _ _ _ _ _ (rop_run _ s11 _ _ (table_map_page_run _ _ _ _ _))), bind_ret.
  change (get_table_index PROCESS_STACK_VADDR) with 1023. set (s12 := set_mem _ _).
  rewrite (bind_step _ _ _ _ _ (kop_run _ s12 _ _ (wr_run (kern s12) p _ (mk_is_Some _ _ Hp)))).
  rewrite <- bind_ret_r, release_ok by reflexivity.
  destruct (tables_up m2 m5 (user_kernel_ptable s) i0 i1 i2 (swap_loc r) ul H01 H12 Hi2 Hu Hb T2 D2 A5 O5) as (X1 & X2 & X3 & X4 & X5).
  eexists. split; [reflexivity|].
  assert (Em : forall m, mem (set_page_map_lock LOCK_INIT (set_kern m s12)) = process_ram m5 i0 i1 i2).
  { intros m. unfold s12, s11, s10, s9, s8. cbn [mem set_page_map_lock set_kern set_mem set_fr set_number_of_pinned_page_frames]. unfold process_ram. reflexivity. }
  assert (H10 : i0 <> i1 /\ i0 <> i2 /\ i1 <> i2) by lia. destruct H10 as (N01 & N02 & N12).
  constructor; rewrite ?Em; [reflexivity|exact X1|exact X2|exact X3|exact X4|exact X5|exact S6| | |exact B2|reflexivity..|exact Hsp|reflexivity|reflexivity|reflexivity].
  - eapply belongs_kept; [exact K6|exact N02|]. eapply belongs_kept; [exact K5|exact N02|].
    eapply belongs_kept; [exact K4|exact N01|]. eapply belongs_kept; [exact K3|exact N01|]. exact B0.
  - eapply belongs_kept; [exact K6|exact N12|]. eapply belongs_kept; [exact K5|exact N12|]. exact B1.
Qed.

(** [C8] [init_memory] gives the kernel its memory: it returns with the locks free,
    the kernel area mapped to itself for the kernel alone, writable, through a
    directory and a page table in the first two frames; these and the table that
    processes will share belong to the dummy control block and are pinned, all
    the other frames are free in ascending order, and no page waits for
    eviction. *)
Theorem init_memory_ready s (Hs : unset s) :
  exists s', init_memory rdtsc s = Ret (tt, s') /\ memory_up s s' /\ kernel_only (mem s') (kernel_pdir s').
Proof.
  destruct (init_memory_run s Hs) as (s' & E & U). exists s'. split_and!; [exact E|exact U|]. rewrite (mu_pdir _ _ U).
  apply (kernel_walk _ _ (frame_addr 1)); [by apply frame_addr_frame; unfold PAGEABLE_PAGES; lia..|apply (mu_pages _ _ U)].
Qed.

End Setup.

(** ** From the address space to the first page *)

Section First.

Context {D : Type} `{BlockDeviceLaws D}.
Context (rdtsc : nat -> Z).
Implicit Types (s : mm D).

(** Once its address space is set up, a process can load its image. *)
Lemma process_loadable s p r i0 i1 i2 i3 l q s' k va :
  startable s p r i0 i1 i2 (i3 :: l) -> process_up s p r i0 i1 i2 (i3 :: l) s' -> (i2 < i3)%nat ->
  read_buffer_lock s = LOCK_INIT -> holds (fifo_queue s) q -> Z.of_nat (length q) < PAGEABLE_PAGES - 1 ->
  0 <= swap_loc r /\ swap_loc r + swap_size r <= blocks (disk s) < 2 ^ 31 ->
  pcbs k !! p = Some (set_page_directory (frame_addr i0) r) -> in_critical (cpu k) ->
  PROCESS_VADDR <= va < PROCESS_VADDR + 1023 * 4096 -> page_sector va + 8 <= swap_size r ->
  loadable (set_cr2 va (set_kern k s')) p (set_page_directory (frame_addr i0) r) va i3 l q.
Proof.
  intros [_ Hp Hth Hs [H01 H12] _ _ _ _ _ [Hz0 Hz]] U H23 Hrb Hq Hql Hd Hk Hcr Hva Ho.
  destruct (pu_image _ _ _ _ _ _ _ _ U va Hva) as (P1 & P2 & _). pose proof (pu_stock _ _ _ _ _ _ _ _ U) as [A F Un].
  pose proof (page_sector_range va) as Hon. unfold PROCESS_VADDR in Hva.
  assert (Hi3 : (i3 < Z.to_nat PAGEABLE_PAGES)%nat) by (destruct (free_list_info s' i3 l A F) as (_ & _ & _ & ?); done).
  assert (F0 : is_frame (frame_addr i0)) by (apply frame_addr_frame; lia).
  assert (F1 : is_frame (frame_addr i1)) by (apply frame_addr_frame; lia).
  constructor.
  - by apply critical_room.
  - exact Hk.
  - exact Hth.
  - exact A.
  - exact F.
  - intros info Hinfo. apply (Un i3 info); [by left|exact Hinfo].
  - cbn [read_buffer_lock set_cr2 set_kern]. by rewrite (pu_read _ _ _ _ _ _ _ _ U).
  - lia.
  - exact F0.
  - exact P1.
  - cbn [page_directory set_page_directory mem set_cr2 set_kern]. by rewrite P2.
  - cbn [page_directory set_page_directory mem set_cr2 set_kern]. rewrite P2. unfold frame_addr, PAGING_AREA_MIN_PADDR, PAGE_SIZE. lia.
  - cbn [page_directory set_page_directory mem set_cr2 set_kern]. rewrite P2. apply frames_differ. lia.
  - left. cbn [page_directory set_page_directory]. unfold frame_addr, PAGE_SIZE. lia.
  - left. cbn [page_directory set_page_directory mem set_cr2 set_kern]. rewrite P2. unfold frame_addr, PAGE_SIZE. lia.
  - cbn [swap_size set_page_directory]. unfold SECTOR_SIZE in Hz. lia.
  - cbn [swap_size swap_loc set_page_directory disk set_cr2 set_kern]. rewrite (pu_disk _ _ _ _ _ _ _ _ U). lia.
  - cbn [fifo_queue set_cr2 set_kern]. by rewrite (pu_fifo _ _ _ _ _ _ _ _ U).
  - exact Hql.
Qed.


End First.

(** ** Concrete instances *)

Module Setup_instances.
Import Machine.

Definition boot_kernel : kst := mk_kst (mk_cpu 0 true) {[ DUMMY := zero_pcb ]} NULL 0 NULL 1 0 500 O 0 0 0.

Definition boot_machine : mm ideal_disk :=
  mk_mm ideal_disk boot_kernel ∅ boot_frames fifo_init 0 0 1 0 0 0 45 LOCK_INIT LOCK_INIT LOCK_INIT
    SPINLOCK_INIT SPINLOCK_INIT SPINLOCK_INIT [] the_disk 0.

Lemma init_memory_ready_witness :
  exists s', init_memory (fun _ => 0) boot_machine = Ret (tt, s') /\ walk (mem s') (kernel_pdir s') 0x1234 = Some (0x1234, false, true).
Proof.
  destruct (init_memory_ready (fun _ => 0) boot_machine) as (s' & E & _ & K).
  - constructor; [reflexivity|reflexivity|split; [cbn; lia|reflexivity]|reflexivity|reflexivity|by eexists].
  - exists s'. split; [exact E|]. apply K. unfold KERNEL_SIZE. lia.
Defined.

(** A process whose image takes 16 sectors from sector 8 on, before the first
    process was set up. *)
Definition shell : pcb := set_swap_loc 8 (set_swap_size 16 zero_pcb).

Definition shell_machine : mm ideal_disk :=
  mk_mm ideal_disk (mk_kst (mk_cpu 0 true) {[ 1%nat := shell ]} 1%nat 1 NULL 1 0 500 O 0 0 0) ∅ frames0 fifo_init 0xfe000 0xff000 1 0 0 0 45
    LOCK_INIT LOCK_INIT LOCK_INIT SPINLOCK_INIT SPINLOCK_INIT SPINLOCK_INIT [] the_disk 0.


End Setup_instances.
