(* ===== verification/Process.v ===== *)
(** * Creating threads and processes

    Models the rest of [src/src/kernel/pcb.c]: [create_thread],
    [create_process] with its admission control, [readdir] and [loadproc].

    While a thread sleeps in [msleep] the others run.  What the system does from
    the call to its return is the argument [sleep] of [create_process]. *)

From S2P Require Import Prelude CString Sched Ring Schedule Sync Paging Frames Vmem VmemFacts.
From S2P Require Import PageFault Evict VmemInstances Cpu.

Definition SCHEDULE_PROCESS_LAUNCHING : bool := true.
Definition AVERAGE_PAGES_PER_PROCESS : Z := 7.
Definition NEW_PROCESS_WAIT_TIME_FOR_PAGES : Z := 1000.

(** [queue_insert(&current_running, p)] *)
Definition make_ready (p : ptr) : M kst unit :=
  c <-- gets current_running ;;
  q <-- queue_insert c p ;;
  modify (set_current_running q).

(** [create_thread] up to the call of [setup_process_vmem]. *)
Definition new_thread (start_addr : Z) : M kst ptr :=
  enter ;;;
  p <-- alloc_pcb ;;
  create_pcb_common p ;;;
  wr p (set_is_thread 1) ;;;
  leave ;;;
  wr p (set_nested_count 1) ;;;
  wr p (set_user_stack 0) ;;;
  wr p (set_start_pc start_addr) ;;;
  wr p (set_pcb_cs KERNEL_CS) ;;;
  wr p (set_pcb_ds KERNEL_DS) ;;;
  wr p (set_swap_loc 0) ;;;
  wr p (set_swap_size 0) ;;;
  ret p.

(** The part of [create_process] that sets up the control block. *)
Definition new_process (location size : Z) : M kst ptr :=
  enter ;;;
  p <-- alloc_pcb ;;
  create_pcb_common p ;;;
  wr p (set_is_thread 0) ;;;
  wr p (set_nested_count 0) ;;;
  wr p (set_user_stack PROCESS_STACK_VADDR) ;;;
  wr p (set_start_pc PROCESS_VADDR) ;;;
  wr p (set_pcb_cs (Z.lor PROCESS_CS 3)) ;;;
  wr p (set_pcb_ds (Z.lor PROCESS_DS 3)) ;;;
  wr p (set_swap_loc location) ;;;
  wr p (set_swap_size size) ;;;
  leave ;;;
  ret p.

(** The globals of pcb.c that the process subsystem does not have. *)
Record pst (D : Type) : Type := mk_pst {
  vm : mm D;
  load_process_lock_debug : lock_t;
  pcb_first_process : Z;
  wait_load : Z;
  rand_val : Z
}.
Arguments mk_pst {D} _ _ _ _ _.
Arguments vm {D} _.
Arguments load_process_lock_debug {D} _.
Arguments pcb_first_process {D} _.
Arguments wait_load {D} _.
Arguments rand_val {D} _.

Section Processes.

Context {D : Type} `{BlockDevice D} (rdtsc : nat -> Z).

Definition create_thread (start_addr : Z) : M (mm D) Z :=
  p <-- kop (new_thread start_addr) ;;
  setup_process_vmem rdtsc p ;;;
  kop (make_ready p) ;;;
  ret 0.

Definition vop {A} (m : M (mm D) A) : M (pst D) A :=
  zoom vm (fun v s => mk_pst v (load_process_lock_debug s) (pcb_first_process s) (wait_load s) (rand_val s)) m.

Definition set_load_lock (l : lock_t) (s : pst D) : pst D :=
  mk_pst (vm s) l (pcb_first_process s) (wait_load s) (rand_val s).
Definition set_pcb_first_process (v : Z) (s : pst D) : pst D :=
  mk_pst (vm s) (load_process_lock_debug s) v (wait_load s) (rand_val s).
Definition set_wait_load (v : Z) (s : pst D) : pst D :=
  mk_pst (vm s) (load_process_lock_debug s) (pcb_first_process s) v (rand_val s).
Definition set_rand_val (v : Z) (s : pst D) : pst D :=
  mk_pst (vm s) (load_process_lock_debug s) (pcb_first_process s) (wait_load s) v.

Definition load_acquire : M (pst D) unit :=
  l <-- gets load_process_lock_debug ;;
  r <-- vop (kop (lock_acquire SYNC_IMPL l)) ;;
  modify (set_load_lock (snd r)) ;;;
  if fst r : bool then wait else ret tt.

Definition load_release : M (pst D) unit :=
  l <-- gets load_process_lock_debug ;;
  l' <-- vop (kop (lock_release SYNC_IMPL l)) ;;
  modify (set_load_lock l').

Definition running : M (pst D) Z := gets (fun s => running_processes (kern (vm s))).
Definition set_running (v : Z) : M (pst D) unit := vop (kop (modify (set_running_processes v))).

(** [PAGEABLE_PAGES - running_processes * AVERAGE_PAGES_PER_PROCESS], unsigned. *)
Definition page_space (n : Z) : Z := u32 (PAGEABLE_PAGES - n * AVERAGE_PAGES_PER_PROCESS).

Context (sleep : Z -> M (pst D) unit).

(** The [while] loop; [true] when it gives up. *)
Fixpoint wait_for_pages (fuel : nat) (page_space_available wait_counter : Z) : M (pst D) bool :=
  if page_space_available <? AVERAGE_PAGES_PER_PROCESS + 1 then
    match fuel with
    | O => out_of_fuel
    | S f =>
      n <-- running ;;
      modify (set_wait_load 1) ;;;
      sleep NEW_PROCESS_WAIT_TIME_FOR_PAGES ;;;
      let wait_counter' := u32 (wait_counter + 1) in
      if 2000 <? u32 (wait_counter' * NEW_PROCESS_WAIT_TIME_FOR_PAGES) then load_release ;;; ret true
      else wait_for_pages f (page_space n) wait_counter'
    end
  else ret false.

(** The loop gives up in its third round. *)
Definition wait_fuel : nat := 3.

Definition create_process (location size : Z) : M (pst D) Z :=
  load_acquire ;;;
  first <-- gets pcb_first_process ;;
  when (truth first) (set_running 0 ;;; modify (set_pcb_first_process 0)) ;;;
  gave_up <-- (if SCHEDULE_PROCESS_LAUNCHING then
    n <-- running ;;
    gave_up <-- wait_for_pages wait_fuel (page_space n) 0 ;;
    (if gave_up : bool then ret true
     else
       w <-- gets wait_load ;;
       when (truth w)
         (v <-- gets rand_val ;;
          modify (set_rand_val (snd (Stdlib_core.rand v))) ;;;
          sleep (245 + Z.rem (fst (Stdlib_core.rand v)) 420) ;;;
          modify (set_wait_load 0)) ;;;
       ret false)
   else ret false) ;;
  if gave_up : bool then ret 1
  else
    n <-- running ;;
    set_running (u32 (n + 1)) ;;;
    vop kenter ;;;
    vop kleave ;;;
    p <-- vop (kop (new_process location size)) ;;
    vop (setup_process_vmem rdtsc p) ;;;
    vop kenter ;;;
    vop (kop (make_ready p)) ;;;
    vop kleave ;;;
    load_release ;;;
    ret 0.

Definition loadproc (location size : Z) : M (pst D) Z := create_process (u32 location) (u32 size).

(** [readdir]: the return code and the bytes copied to the buffer; the size of
    the kernel in sectors is the 16-bit word at offset 2 of the boot block. *)
Definition OS_SIZE_LOC : Z := 2.

Definition readdir (d : D) : Z * option (list Z) * D :=
  let '(rc, boot, d1) := scsi_read 0 1 d in
  if rc <? 0 then (-1, None, d1)
  else
    let os_size := Z.shiftr (default 0 (head boot)) 16 in
    let '(rc, dir, d2) := scsi_read (u32 (u16 os_size + 1)) 1 d1 in
    if rc <? 0 then (-1, None, d2) else (0, Some dir, d2).

End Processes.

(** ** Running the set-up of a control block *)

Lemma wr_here {B} p f h r s (k : unit -> M kst B) :
  bind (wr p f) k (set_pcbs (<[p := r]> h) s) = k tt (set_pcbs (<[p := f r]> h) s).
Proof.
  unfold bind, wr. cbn [pcbs set_pcbs]. rewrite lookup_insert_eq.
  by rewrite insert_insert_eq.
Qed.

Lemma rd_here {A B} p (f : pcb -> A) h r s (k : A -> M kst B) :
  bind (rd p f) k (set_pcbs (<[p := r]> h) s) = k (f r) (set_pcbs (<[p := r]> h) s).
Proof. unfold bind, rd. cbn [pcbs set_pcbs]. by rewrite lookup_insert_eq. Qed.

(** What [create_pcb_common] leaves in the control block and in the counters. *)
Definition common_pcb (n st : Z) (r : pcb) : pcb :=
  set_int_controller_mask (u16 (Z.lnot IRQS_TO_ENABLE)) (set_page_fault_count 0 (set_yield_count 0
    (set_preempt_count 0 (set_status STATUS_FIRST_TIME (set_priority 10
      (set_base_kernel_stack (u32 (st + T_KSTACK_START_OFFSET))
        (set_kernel_stack (u32 (st + T_KSTACK_START_OFFSET)) (set_pid (u32 n) r)))))))).

Definition counted (s : kst) : kst :=
  set_next_stack (u32 (next_stack s + T_KSTACK_SIZE_EACH)) (set_next_pid (s32 (next_pid s + 1)) s).

Lemma create_pcb_common_run p h r s :
  cpu_room 1 (cpu s) -> next_stack s < T_KSTACK_AREA_MAX_PADDR ->
  create_pcb_common p (set_pcbs (<[p := r]> h) s)
  = Ret (tt, set_pcbs (<[p := common_pcb (next_pid s) (next_stack s) r]> h) (counted s)).
Proof.
  intros Hc Hs. unfold create_pcb_common. rewrite enter_ok.
  change (set_cpu (nointerrupt_enter (cpu (set_pcbs (<[p:=r]> h) s))) (set_pcbs (<[p:=r]> h) s))
    with (set_pcbs (<[p:=r]> h) (set_cpu (nointerrupt_enter (cpu s)) s)).
  rewrite bind_gets, wr_here, bind_modify, leave_ok. cbn [next_pid set_pcbs set_cpu].
  match goal with |- bind _ _ ?x = _ =>
    change x with (set_pcbs (<[p := set_pid (u32 (next_pid s)) r]> h)
      (set_next_pid (s32 (next_pid s + 1)) (set_cpu (nointerrupt_leave (nointerrupt_enter (cpu s))) s))) end.
  rewrite (set_cpu_restore 1) by (done || lia). rewrite bind_gets. cbn [next_stack set_pcbs set_next_pid].
  rewrite bind_assertk_true by (by apply Z.ltb_lt).
  rewrite wr_here, rd_here, wr_here, bind_modify.
  match goal with |- bind _ _ (set_next_stack ?v (set_pcbs ?m ?x)) = _ =>
    change (set_next_stack v (set_pcbs m x)) with (set_pcbs m (set_next_stack v x)) end.
  rewrite !wr_here. unfold wr. cbn [pcbs set_pcbs]. rewrite lookup_insert_eq, insert_insert_eq. reflexivity.
Qed.

Lemma nxt_insert_ne p r h u : u <> p -> nxt (<[p := r]> h) u = nxt h u.
Proof. intros. unfold nxt. by rewrite lookup_insert_ne. Qed.
Lemma prv_insert_ne p r h u : u <> p -> prv (<[p := r]> h) u = prv h u.
Proof. intros. unfold prv. by rewrite lookup_insert_ne. Qed.

Lemma ring_insert p r h l : p ∉ l -> ring h l -> ring (<[p := r]> h) l.
Proof.
  intros Hp (H1 & H2 & H3). split_and!; [done|done|]. destruct l as [|x t]; [done|].
  eapply seg_frame, H3; intros u Hu; [apply nxt_insert_ne|apply prv_insert_ne]; set_solver.
Qed.

Lemma alloc_pcb_run s l p fl :
  cpu_room 2 (cpu s) -> ring (pcbs s) l -> ring (pcbs s) (p :: fl) -> freelist s = p ->
  (forall u, u ∈ l -> u ∉ p :: fl) ->
  exists h r, alloc_pcb s = Ret (p, set_pcbs (<[p := r]> h) (set_freelist (head_ptr fl) s))
    /\ ring h l /\ ring h fl /\ pcb_next r = NULL /\ p <> NULL
    /\ (forall u, u ∈ l -> h !! u = pcbs s !! u).
Proof.
  intros Q1 Q2 Q4 Q5 Q6. set (s1 := set_cpu (nointerrupt_enter (cpu s)) s).
  assert (Hc1 : cpu_room 1 (cpu s1)) by (apply (enter_room 2); [lia|exact Q1]).
  destruct (queue_shift_ring s1 (p :: fl) Hc1 Q4) as (h & E & R & N & V & L).
  assert (Hp0 : p <> NULL) by (destruct Q4 as (_ & H0 & _); intros ->; apply H0; left).
  destruct (nxt_has _ _ _ N) as [r Hr]. exists h, r. split_and!; try done.
  - unfold alloc_pcb. rewrite enter_ok. fold s1. rewrite bind_gets.
    change (freelist s1) with (freelist s). rewrite Q5. cbn [head_ptr].
    rewrite (bind_assertk_true (S := kst)) by (by apply negb_true_iff, Nat.eqb_neq).
    cbn [head_ptr] in E. rewrite (bind_step _ _ _ _ _ E), bind_modify, leave_ok. cbn [fst snd].
    unfold ret. do 2 f_equal. rewrite insert_id by done. unfold s1.
    match goal with |- ?x = _ =>
      change x with (set_pcbs h (set_freelist (head_ptr fl)
        (set_cpu (nointerrupt_leave (nointerrupt_enter (cpu s))) s))) end.
    by rewrite (set_cpu_restore 2) by (done || lia).
  - eapply links_only_ring; [exact L| |exact Q2]. exact Q6.
  - unfold nxt in N. rewrite Hr in N. by injection N.
  - intros u Hu. apply L. by apply Q6.
Qed.

(** The control block of a new thread. *)
Definition thread_pcb (start_addr n st : Z) (r : pcb) : pcb :=
  set_swap_size 0 (set_swap_loc 0 (set_pcb_ds KERNEL_DS (set_pcb_cs KERNEL_CS (set_start_pc start_addr
    (set_user_stack 0 (set_nested_count 1 (set_is_thread 1 (common_pcb n st r)))))))).

Lemma new_thread_run s l p fl a :
  queues s l (p :: fl) -> next_stack s < T_KSTACK_AREA_MAX_PADDR ->
  exists h r, new_thread a s
      = Ret (p, set_pcbs (<[p := thread_pcb a (next_pid s) (next_stack s) r]> h)
                  (set_freelist (head_ptr fl) (counted s)))
    /\ ring h l /\ ring h fl /\ pcb_next r = NULL /\ p <> NULL /\ (forall u, u ∈ l -> h !! u = pcbs s !! u).
Proof.
  intros [Q1 Q2 Q3 Q4 Q5 Q6] Hst. set (s1 := set_cpu (nointerrupt_enter (cpu s)) s).
  assert (Hroom : cpu_room 7 (cpu s1)) by (apply (enter_room 8); [lia|exact Q1]).
  destruct (alloc_pcb_run s1 l p fl) as (h & r & E & R1 & R2 & N & Hp0 & Hold);
    [eapply room_weaken, Hroom; lia|done|done|done|done|].
  exists h, r. split_and!; try done. unfold new_thread. rewrite enter_ok. fold s1.
  rewrite (bind_step _ _ _ _ _ E).
  rewrite (bind_step _ _ _ _ _ (create_pcb_common_run p h r (set_freelist (head_ptr fl) s1)
    ltac:(eapply room_weaken, Hroom; lia) Hst)).
  rewrite wr_here, leave_ok. cbn [next_pid next_stack set_freelist set_cpu s1].
  match goal with |- bind _ _ (set_cpu _ (set_pcbs ?m _)) = _ =>
    match goal with |- bind ?w ?k ?x = _ =>
      change (bind w k (set_pcbs m (set_freelist (head_ptr fl)
        (counted (set_cpu (nointerrupt_leave (nointerrupt_enter (cpu s))) s)))) =
        Ret (p, set_pcbs (<[p := thread_pcb a (next_pid s) (next_stack s) r]> h)
                  (set_freelist (head_ptr fl) (counted s)))) end end.
  rewrite (set_cpu_restore 8) by (done || lia). by rewrite !wr_here.
Qed.

Lemma links_only_lookup h h' l p r :
  links_only h h' l -> h !! p = Some r -> exists r', h' !! p = Some r' /\ unlinked r' = unlinked r.
Proof.
  intros [_ L] Hr. specialize (L p). rewrite Hr in L. destruct (h' !! p) as [r'|]; [|done].
  exists r'. split; [done|]. by apply (inj Some) in L.
Qed.

(** [make_ready] appends to the ready ring. *)
Lemma make_ready_run s l fl p r :
  cpu_room 8 (cpu s) -> ring (pcbs s) l -> ring (pcbs s) fl -> current_running s = head_ptr l ->
  freelist s = head_ptr fl -> (forall u, u ∈ l -> u ∉ fl) -> p ∉ l -> p ∉ fl -> p <> NULL ->
  pcbs s !! p = Some r -> pcb_next r = NULL ->
  exists s' r', make_ready p s = Ret (tt, s') /\ queues s' (l ++ [p]) fl
    /\ pcbs s' !! p = Some r' /\ unlinked r' = unlinked r
    /\ next_pid s' = next_pid s /\ next_stack s' = next_stack s /\ cpu s' = cpu s
    /\ (forall u, unlinked <$> pcbs s' !! u = unlinked <$> pcbs s !! u).
Proof.
  intros Hc Rl Rf Hcur Hfl Hd Hpl Hpf Hp0 Hr Hn.
  destruct (queue_insert_ring s l p) as (h & E & R & L); try done.
  { eapply room_weaken, Hc. lia. }
  { unfold nxt. rewrite Hr. cbn. by rewrite Hn. }
  destruct (links_only_lookup _ _ _ _ _ L Hr) as (r' & Hr' & Hu).
  eexists _, r'. split_and!.
  - unfold make_ready. rewrite bind_gets, Hcur, (bind_step _ _ _ _ _ E). reflexivity.
  - constructor; kproj; try done.
    + eapply links_only_ring; [exact L| |exact Rf]. intros u Hu' Hin.
      apply elem_of_app in Hin as [Hin|Hin]; [by eapply Hd|].
      apply list_elem_of_singleton in Hin. by subst.
    + intros u Hu' Hin. apply elem_of_app in Hu' as [Hu'|Hu']; [by eapply Hd|].
      apply list_elem_of_singleton in Hu'. by subst.
  - done.
  - done.
  - done.
  - done.
  - done.
  - apply L.
Qed.

Section Create.

Context {D : Type} `{BlockDevice D} (rdtsc : nat -> Z).

Lemma kop_ok {A B} (m : M kst A) (s : mm D) a k (g : A -> M (mm D) B) :
  m (kern s) = Ret (a, k) -> bind (kop m) g s = g a (set_kern k s).
Proof. intros E. by rewrite (bind_step _ _ _ _ _ (kop_run m s a k E)). Qed.

(** [setup_process_vmem] of a thread: it runs in the kernel's address space. *)
Lemma setup_thread_vmem (s : mm D) p r h k :
  page_map_lock s = LOCK_INIT -> kern s = set_pcbs (<[p := r]> h) k -> is_thread r = 1 ->
  setup_process_vmem rdtsc p s
  = Ret (tt, set_kern (set_pcbs (<[p := set_page_directory (kernel_pdir s) r]> h) k) s).
Proof.
  intros Hl Hk Ht. unfold setup_process_vmem. rewrite acquire_ok by done.
  rewrite (kop_ok _ _ (is_thread r) (kern s)).
  2: { cbn [kern set_page_map_lock]. rewrite Hk. unfold rd. cbn [pcbs set_pcbs]. by rewrite lookup_insert_eq. }
  rewrite Ht. cbn [Z.eqb negb]. rewrite bind_gets.
  rewrite (kop_ok _ _ tt (set_pcbs (<[p := set_page_directory (kernel_pdir s) r]> h) k)).
  2: { cbn [kern set_page_map_lock set_kern kernel_pdir]. rewrite Hk. unfold wr. cbn [pcbs set_pcbs].
       rewrite lookup_insert_eq, insert_insert_eq. reflexivity. }
  rewrite <- bind_ret_r, release_ok by done. unfold ret. do 2 f_equal.
  destruct s; cbn in *. by subst.
Qed.

(** [create_thread]: the first free control block becomes the last of the
    ready ring, set up as a kernel thread that starts at the given address with
    the next process number, a kernel stack of its own and the kernel's page
    directory; the counters move on, and of the other threads only links change. *)
Theorem create_thread_ready (s : mm D) l p fl a :
  queues (kern s) l (p :: fl) -> next_stack (kern s) < T_KSTACK_AREA_MAX_PADDR ->
  page_map_lock s = LOCK_INIT ->
  exists k r, create_thread rdtsc a s = Ret (0, set_kern k s)
    /\ queues k (l ++ [p]) fl /\ pcbs k !! p = Some r
    /\ pid r = u32 (next_pid (kern s)) /\ is_thread r = 1 /\ status r = STATUS_FIRST_TIME
    /\ start_pc r = a /\ nested_count r = 1 /\ pcb_cs r = KERNEL_CS /\ pcb_ds r = KERNEL_DS
    /\ kernel_stack r = u32 (next_stack (kern s) + T_KSTACK_START_OFFSET)
    /\ base_kernel_stack r = kernel_stack r /\ page_directory r = kernel_pdir s
    /\ next_pid k = s32 (next_pid (kern s) + 1)
    /\ next_stack k = u32 (next_stack (kern s) + T_KSTACK_SIZE_EACH) /\ cpu k = cpu (kern s)
    /\ (forall u, u ∈ l -> unlinked <$> pcbs k !! u = unlinked <$> pcbs (kern s) !! u).
Proof.
  intros HQ Hst Hl.
  destruct (new_thread_run (kern s) l p fl a HQ Hst) as (h & r & E & R1 & R2 & N & Hp0 & Hold).
  destruct HQ as [Q1 Q2 Q3 Q4 Q5 Q6].
  assert (Hpf : p ∉ fl) by (destruct Q4 as (Hnd & _); by apply list.NoDup_cons in Hnd as [? _]).
  assert (Hpl : p ∉ l) by (intros Hin; apply (Q6 p Hin); left).
  set (k1 := set_freelist (head_ptr fl) (counted (kern s))) in *.
  set (r1 := set_page_directory (kernel_pdir s) (thread_pcb a (next_pid (kern s)) (next_stack (kern s)) r)).
  destruct (make_ready_run (set_pcbs (<[p := r1]> h) k1) l fl p r1) as (k & r' & E3 & Q & Hr' & Hu & H1 & H2 & H3 & H4);
    try done.
  - by apply ring_insert.
  - by apply ring_insert.
  - intros u Hu Hin. apply (Q6 u Hu). by right.
  - apply lookup_insert_eq.
  - exists k, r'. unfold create_thread. rewrite (kop_ok _ _ _ _ _ E).
    rewrite (bind_step _ _ _ _ _ (setup_thread_vmem (set_kern _ s) p
      (thread_pcb a (next_pid (kern s)) (next_stack (kern s)) r) h k1 Hl eq_refl eq_refl)).
    rewrite (kop_ok (make_ready p) _ tt k) by exact E3.
    split; [unfold ret; do 2 f_equal; by destruct s|]. split; [done|]. split; [done|].
    assert (Hf : forall {A} (g : pcb -> A), (forall x, g (unlinked x) = g x) -> g r' = g r1).
    { intros A g Hg. rewrite <- Hg, Hu. apply Hg. }
    rewrite !Hf by done. rewrite H1, H2, H3. split_and!; try done.
    intros u Hu'. rewrite H4. cbn. rewrite lookup_insert_ne by (intros ->; done). by rewrite Hold.
Qed.

(** ** Admission control *)

Lemma load_acquire_ok {B} (s : pst D) (k : unit -> M (pst D) B) :
  load_process_lock_debug s = LOCK_INIT -> bind load_acquire k s = k tt (set_load_lock held s).
Proof.
  intros E. unfold load_acquire. rewrite bind_assoc, bind_gets, E, bind_assoc.
  rewrite (bind_step (vop _) _ s (false, held) s); [by rewrite bind_assoc, bind_modify|].
  unfold vop, kop, zoom. cbn. rewrite set_kern_same. by destruct s.
Qed.

Lemma load_release_ok {B} (s : pst D) (k : unit -> M (pst D) B) :
  load_process_lock_debug s = held -> bind load_release k s = k tt (set_load_lock LOCK_INIT s).
Proof.
  intros E. unfold load_release. rewrite bind_assoc, bind_gets, E, bind_assoc.
  rewrite (bind_step (vop _) _ s LOCK_INIT s); [by rewrite bind_modify|].
  unfold vop, kop, zoom. cbn. rewrite set_kern_same. by destruct s.
Qed.

(** One round of the loop. *)
Lemma wait_round sleep f space c (s s1 : pst D) :
  space < 8 -> 0 <= c < 3 -> load_process_lock_debug s1 = held ->
  sleep 1000 (set_wait_load 1 s) = Ret (tt, s1) ->
  wait_for_pages sleep (S f) space c s
  = if c =? 2 then Ret (true, set_load_lock LOCK_INIT s1)
    else wait_for_pages sleep f (page_space (running_processes (kern (vm s)))) (c + 1) s1.
Proof.
  intros Hs Hc Hl E. cbn [wait_for_pages]. unfold AVERAGE_PAGES_PER_PROCESS, NEW_PROCESS_WAIT_TIME_FOR_PAGES.
  rewrite (proj2 (Z.ltb_lt space (7 + 1))) by lia. unfold running. rewrite bind_gets, bind_modify.
  rewrite (bind_step _ _ _ _ _ E). rewrite (u32_small (c + 1)), u32_small by lia.
  destruct (Z.eqb_spec c 2) as [->|Hne].
  - rewrite (proj2 (Z.ltb_lt 2000 _)) by lia. by rewrite load_release_ok.
  - by rewrite (proj2 (Z.ltb_ge 2000 _)) by lia.
Qed.

(** The admission loop ends: whatever happens while the caller sleeps, as long
    as its sleep returns with the lock still its own, it goes on or gives up
    after at most three sleeps. *)
Theorem wait_for_pages_terminates sleep (s : pst D) :
  (forall ms s0, load_process_lock_debug s0 = held ->
     exists s1, sleep ms s0 = Ret (tt, s1) /\ load_process_lock_debug s1 = held) ->
  load_process_lock_debug s = held ->
  exists gave_up s', wait_for_pages sleep wait_fuel (page_space (running_processes (kern (vm s)))) 0 s
    = Ret (gave_up, s').
Proof.
  intros Hs Hl.
  assert (Hgen : forall f space c s0, load_process_lock_debug s0 = held -> 0 <= c < 3 -> 3 - c <= Z.of_nat f ->
            exists gave_up s', wait_for_pages sleep f space c s0 = Ret (gave_up, s')); [|by apply Hgen].
  induction f as [|f IH]; intros space c s0 Hl0 Hc Hf; [lia|].
  destruct (Z.ltb_spec space 8).
  - destruct (Hs 1000 (set_wait_load 1 s0)) as (s1 & E & Hl1); [done|].
    rewrite (wait_round sleep f space c s0 s1) by done.
    destruct (Z.eqb_spec c 2); [by eexists _, _|]. apply IH; [done|lia|lia].
  - cbn [wait_for_pages]. unfold AVERAGE_PAGES_PER_PROCESS. rewrite (proj2 (Z.ltb_ge space (7 + 1))) by lia.
    by eexists _, _.
Qed.

(** With four processes running, and as long as none of them ends,
    [create_process] sleeps three times and then gives up: it returns 1, creates
    nothing and frees its lock. *)
Theorem create_process_gives_up sleep (s : pst D) loc size :
  load_process_lock_debug s = LOCK_INIT -> pcb_first_process s = 0 ->
  running_processes (kern (vm s)) = 4 -> (forall ms s1, sleep ms s1 = Ret (tt, s1)) ->
  create_process rdtsc sleep loc size s = Ret (1, set_wait_load 1 s).
Proof.
  intros Hl Hf Hn Hs. unfold create_process. rewrite load_acquire_ok by done.
  rewrite bind_gets. cbn [pcb_first_process set_load_lock]. rewrite Hf. cbn [truth Z.eqb negb when].
  rewrite bind_ret. cbn [SCHEDULE_PROCESS_LAUNCHING]. unfold running at 1. rewrite !bind_assoc, bind_gets.
  cbn [vm set_load_lock]. rewrite Hn. change (page_space 4) with 5. unfold wait_fuel.
  assert (E : wait_for_pages sleep 3 5 0 (set_load_lock held s) = Ret (true, set_wait_load 1 s)).
  { set (s1 := set_wait_load 1 (set_load_lock held s)).
    assert (Hw : forall f c, 0 <= c < 3 -> wait_for_pages sleep (S f) 5 c s1
      = if c =? 2 then Ret (true, set_load_lock LOCK_INIT s1) else wait_for_pages sleep f 5 (c + 1) s1).
    { intros f c Hc. rewrite (wait_round sleep f 5 c s1 s1) by (done || lia || apply Hs).
      change (kern (vm s1)) with (kern (vm s)). by rewrite Hn. }
    rewrite (wait_round sleep 2 5 0 _ s1) by (done || lia || apply Hs). cbn [Z.eqb].
    cbn [vm set_load_lock]. rewrite Hn. change (page_space 4) with 5.
    change (0 + 1) with 1. rewrite (Hw 1%nat 1) by lia. change (1 =? 2) with false. cbv iota.
    change (1 + 1) with 2. rewrite (Hw O 2) by lia. rewrite Z.eqb_refl. unfold s1.
    unfold set_load_lock, set_wait_load. cbn. by rewrite Hl. }
  rewrite bind_assoc, (bind_step _ _ _ _ _ E). done.
Qed.

(** [readdir] reads the sector behind the kernel image, whose length in
    sectors is the upper half of the first word of the boot block. *)
Lemma readdir_run `{!BlockDeviceLaws D} (d : D) boot rest os_size :
  sector d 0 = boot :: rest -> 0 <= boot < 2 ^ 32 -> os_size = boot / 2 ^ 16 -> os_size + 1 < blocks d ->
  exists d', readdir d = (0, Some (sector d (os_size + 1)), d') /\ forall i, sector d' i = sector d i.
Proof.
  intros Hb Hr Hos Hn. unfold readdir.
  assert (H16 : 0 <= os_size < 2 ^ 16) by (subst; split; [apply Z.div_pos; lia|apply Z.div_lt_upper_bound; lia]).
  assert (J : forall dd i, mjoin (sector dd <$> seqZ i 1) = sector dd i).
  { intros dd i. rewrite seqZ_cons by lia. cbn. apply app_nil_r. }
  destruct (read_sectors 0 1 d) as (d1 & E1 & B1 & S1); [lia..|]. rewrite E1, J, Hb.
  change (0 <? 0) with false. cbv iota. cbn [list.head from_option id].
  rewrite Z.shiftr_div_pow2, <- Hos by lia. unfold u16. rewrite (Z.mod_small os_size), u32_small by lia.
  destruct (read_sectors (os_size + 1) 1 d1) as (d2 & E2 & _ & S2); [lia..|]. rewrite E2, J, S1.
  change (0 <? 0) with false. cbv iota.
  exists d2. split; [done|]. intros i. by rewrite S2, S1.
Qed.

End Create.

(** ** Concrete instances *)

Module Process_instances.

Import Schedule_instances.

(** Threads 1, 2 and 3 are ready and control block 6 is free. *)
Definition heap6 : gmap ptr pcb := <[6%nat := thread 6%nat 6%nat STATUS_EXITED]> (heap 1 1 1).

Definition kernel6 (n : Z) : kst :=
  mk_kst (mk_cpu 0 true) heap6 1%nat n 6%nat 9 T_KSTACK_AREA_MIN_PADDR 500 O 0 0 0.

Definition machine6 (n : Z) : mm ideal_disk := set_kern (kernel6 n) (Machine.machine ∅ boot_frames fifo_init).

Lemma queues6 n : queues (kern (machine6 n)) [1; 2; 3]%nat [6]%nat.
Proof.
  assert (Hq : ring heap6 [1; 2; 3]%nat) by (split; [concrete_list|split; [concrete_list|repeat split]]).
  assert (Hf : ring heap6 [6]%nat) by (split; [concrete_list|split; [concrete_list|repeat split]]).
  constructor; [done|exact Hq|done|exact Hf|done|set_solver].
Qed.

Lemma create_thread_ready_witness :
  exists k r, create_thread (fun _ => 0) 0x9000 (machine6 0) = Ret (0, set_kern k (machine6 0))
    /\ queues k [1; 2; 3; 6]%nat [] /\ pcbs k !! 6%nat = Some r /\ pid r = 9 /\ start_pc r = 0x9000.
Proof.
  destruct (create_thread_ready (fun _ => 0) (machine6 0) [1; 2; 3]%nat 6%nat [] 0x9000)
    as (k & r & E & Q & Hr & Hp & _ & _ & Ha & _).
  - apply queues6.
  - reflexivity.
  - reflexivity.
  - exists k, r. split; [exact E|]. split; [exact Q|]. split; [exact Hr|]. split; [exact Hp|exact Ha].
Defined.

Definition processes (l : lock_t) (n : Z) : pst ideal_disk := mk_pst (machine6 n) l 0 0 1.

Lemma create_process_gives_up_witness :
  create_process (fun _ => 0) (fun _ s => Ret (tt, s)) 8 16 (processes LOCK_INIT 4)
  = Ret (1, set_wait_load 1 (processes LOCK_INIT 4)).
Proof.
  apply (create_process_gives_up (fun _ => 0) (fun _ s => Ret (tt, s)) (processes LOCK_INIT 4) 8 16).
  - reflexivity.
  - reflexivity.
  - reflexivity.
  - reflexivity.
Defined.

(** A process ends during every sleep. *)
Definition one_ends (ms : Z) (s : pst ideal_disk) : outcome (unit * pst ideal_disk) :=
  Ret (tt, mk_pst (set_kern (set_running_processes (u32 (running_processes (kern (vm s)) - 1)) (kern (vm s))) (vm s))
             (load_process_lock_debug s) (pcb_first_process s) (wait_load s) (rand_val s)).

Lemma wait_for_pages_terminates_witness :
  exists gave_up s', wait_for_pages one_ends wait_fuel (page_space 4) 0 (processes held 4) = Ret (gave_up, s').
Proof.
  apply (wait_for_pages_terminates one_ends (processes held 4)).
  - intros ms s0 H. eexists. split; [reflexivity|]. exact H.
  - reflexivity.
Defined.

End Process_instances.
