(* ===== verification/Loader.v ===== *)
(** * Loading a program

    What [create_process] of [src/src/kernel/pcb.c], which [Process] models, does
    when it admits a process, and the threads of [src/src/kernel/th1.c] that load
    the shell and show the time.  ([usb_thread] only calls [msleep] and
    [usb_hub_scan_ports].)

    As in [Process], what the system does while a thread waits is an argument:
    [yielded] is what happens from a call of [yield] to its return, and [up] the
    results of [scsi_up]. *)

From S2P Require Import Prelude Sched Ring Schedule RoundRobin Sync Paging Frames Vmem VmemFacts PageFault Evict VmemInstances VmemSetup.
From S2P Require Import Cpu Process.
Import Fifo Table.

(** ** A process is admitted *)

(** The control block of a new process. *)
Definition process_pcb (location size n st : Z) (r : pcb) : pcb :=
  set_swap_size size (set_swap_loc location (set_pcb_ds (Z.lor PROCESS_DS 3) (set_pcb_cs (Z.lor PROCESS_CS 3)
    (set_start_pc PROCESS_VADDR (set_user_stack PROCESS_STACK_VADDR (set_nested_count 0 (set_is_thread 0 (common_pcb n st r)))))))).

Lemma new_process_run s l p fl location size :
  queues s l (p :: fl) -> next_stack s < T_KSTACK_AREA_MAX_PADDR ->
  exists h r, new_process location size s
      = Ret (p, set_pcbs (<[p := process_pcb location size (next_pid s) (next_stack s) r]> h)
                  (set_freelist (head_ptr fl) (counted s)))
    /\ ring h l /\ ring h fl /\ pcb_next r = NULL /\ p <> NULL /\ (forall u, u ∈ l -> h !! u = pcbs s !! u).
Proof.
  intros [Q1 Q2 Q3 Q4 Q5 Q6] Hst. set (s1 := set_cpu (nointerrupt_enter (cpu s)) s).
  assert (Hroom : cpu_room 7 (cpu s1)) by (apply (enter_room 8); [lia|exact Q1]).
  destruct (alloc_pcb_run s1 l p fl) as (h & r & E & R1 & R2 & N & Hp0 & Hold);
    [eapply room_weaken, Hroom; lia|done|done|done|done|].
  exists h, r. split_and!; try done. unfold new_process. rewrite enter_ok. fold s1.
  rewrite (bind_step _ _ _ _ _ E).
  rewrite (bind_step _ _ _ _ _ (create_pcb_common_run p h r (set_freelist (head_ptr fl) s1)
    ltac:(eapply room_weaken, Hroom; lia) Hst)).
  rewrite !wr_here, leave_ok. cbn [next_pid next_stack set_freelist set_cpu s1]. unfold ret. do 2 f_equal.
  match goal with |- set_cpu _ (set_pcbs ?m _) = _ => change (set_pcbs m (set_freelist (head_ptr fl)
        (counted (set_cpu (nointerrupt_leave (nointerrupt_enter (cpu s))) s)))
      = set_pcbs m (set_freelist (head_ptr fl) (counted s))) end.
  by rewrite (set_cpu_restore 8) by (done || lia).
Qed.

(** The control block of a process that has not run yet. *)
Record process_of (r : pcb) (location size n st dir : Z) : Prop := mk_process_of {
  po_pid : pid r = u32 n;
  po_process : is_thread r = 0;
  po_status : status r = STATUS_FIRST_TIME;
  po_start : start_pc r = PROCESS_VADDR;
  po_stack : user_stack r = PROCESS_STACK_VADDR;
  po_nested : nested_count r = 0;
  po_cs : pcb_cs r = Z.lor PROCESS_CS 3;
  po_ds : pcb_ds r = Z.lor PROCESS_DS 3;
  po_kstack : base_kernel_stack r = u32 (st + T_KSTACK_START_OFFSET);
  po_dir : page_directory r = dir;
  po_loc : swap_loc r = location;
  po_size : swap_size r = size
}.

Lemma process_unlinked r r' location size n st dir :
  unlinked r' = unlinked r -> process_of r location size n st dir -> process_of r' location size n st dir.
Proof.
  intros E [H1 H2 H3 H4 H5 H6 H7 H8 H9 H10 H11 H12].
  assert (Hf : forall {A} (g : pcb -> A), (forall x, g (unlinked x) = g x) -> g r' = g r).
  { intros A g Hg. rewrite <- Hg, E. apply Hg. }
  constructor; rewrite ?(Hf _ pid), ?(Hf _ is_thread), ?(Hf _ status), ?(Hf _ start_pc), ?(Hf _ user_stack), ?(Hf _ nested_count), ?(Hf _ pcb_cs),
    ?(Hf _ pcb_ds), ?(Hf _ base_kernel_stack), ?(Hf _ page_directory), ?(Hf _ swap_loc), ?(Hf _ swap_size) by reflexivity; assumption.
Qed.

(** [make_ready] in a critical section. *)
Lemma ready_section k l p r :
  cpu_room 2 (cpu k) -> ring (pcbs k) l -> current_running k = head_ptr l -> p ∉ l -> p <> NULL -> pcbs k !! p = Some r -> pcb_next r = NULL ->
  exists h, make_ready p (set_cpu (nointerrupt_enter (cpu k)) k)
      = Ret (tt, set_current_running (head_ptr (l ++ [p])) (set_pcbs h (set_cpu (nointerrupt_enter (cpu k)) k)))
    /\ ring h (l ++ [p]) /\ links_only (pcbs k) h (l ++ [p]).
Proof.
  intros Hc R Hcur Hp Hp0 Hr Hn. set (k1 := set_cpu _ k).
  destruct (queue_insert_ring k1 l p) as (h & E & R' & L);
    [apply (enter_room 2); [lia|exact Hc]|exact R|unfold nxt; change (pcbs k1) with (pcbs k); rewrite Hr; cbn; by rewrite Hn|done|done|].
  exists h. split_and!; [|done|done]. unfold make_ready. rewrite bind_gets. change (current_running k1) with (current_running k).
  rewrite Hcur, (bind_step _ _ _ _ _ E). reflexivity.
Qed.

Lemma appended_queues k l p fl h :
  cpu_room 8 (cpu k) -> ring h (l ++ [p]) -> links_only (pcbs k) h (l ++ [p]) -> ring (pcbs k) fl -> freelist k = head_ptr fl ->
  (forall u, u ∈ l -> u ∉ fl) -> p ∉ fl -> queues (set_current_running (head_ptr (l ++ [p])) (set_pcbs h k)) (l ++ [p]) fl.
Proof.
  intros C R L F Hf Hd Hp. assert (Hd' : forall u, u ∈ l ++ [p] -> u ∉ fl).
  { intros u [Hu|Hu%list_elem_of_singleton]%elem_of_app; [by apply Hd|by subst]. }
  constructor; [exact C|exact R|reflexivity| |exact Hf|exact Hd'].
  eapply links_only_ring; [exact L| |exact F]. intros u Hu Hin. by apply (Hd' u Hin).
Qed.

Section Load.

Context {D : Type} `{BlockDevice D} (rdtsc : nat -> Z).
Context (sleep : Z -> M (pst D) unit).
Implicit Types (s : pst D).

Definition set_vm (v : mm D) s : pst D := mk_pst v (load_process_lock_debug s) (pcb_first_process s) (wait_load s) (rand_val s).

Lemma vop_ok {A B} (m : M (mm D) A) s a v (g : A -> M (pst D) B) : m (vm s) = Ret (a, v) -> bind (vop m) g s = g a (set_vm v s).
Proof. intros E. unfold bind, vop, zoom. by rewrite E. Qed.

Lemma vop_section {B} s (g : M (pst D) B) : cpu_room 1 (cpu (kern (vm s))) -> (vop kenter ;;; vop kleave ;;; g) s = g s.
Proof.
  intros Hc. rewrite (vop_ok _ s _ _ _ (kop_run enter (vm s) tt _ eq_refl)).
  erewrite vop_ok by (apply (kop_run leave); reflexivity). f_equal.
  pose proof (set_cpu_restore 1 (kern (vm s)) ltac:(lia) Hc) as E. destruct s as [v ? ? ? ?]; destruct v. cbn in *.
  unfold set_vm, set_kern; cbn. do 2 f_equal. exact E.
Qed.

(** How many processes run when the next one is counted. *)
Definition running_now s : Z := if truth (pcb_first_process s) then 0 else running_processes (kern (vm s)).

(** The machine can take one more process, of [size] sectors: a control block
    [p], a stack, three frames, and pages enough for [create_process]. *)
Record admits s (size : Z) (l : list ptr) (p : ptr) (fl : list ptr) (i0 i1 i2 : nat) (fs : list nat) : Prop := mk_admits {
  ad_queues : queues (kern (vm s)) l (p :: fl);
  ad_load : load_process_lock_debug s = LOCK_INIT;
  ad_running : 0 <= running_now s <= 3;
  ad_wait : wait_load s = 0;
  ad_kstack : next_stack (kern (vm s)) < T_KSTACK_AREA_MAX_PADDR;
  ad_stock : stocked (fr (vm s)) (i0 :: i1 :: i2 :: fs);
  ad_order : (i0 < i1 < i2)%nat;
  ad_lock : page_map_lock (vm s) = LOCK_INIT;
  ad_spin : pinned_pages_counter_lock (vm s) = SPINLOCK_INIT;
  ad_table : is_frame (user_kernel_ptable (vm s));
  ad_below : user_kernel_ptable (vm s) + PAGE_SIZE <= frame_addr i0;
  ad_shared : first_process (vm s) = 0 -> kernel_table (mem (vm s)) (user_kernel_ptable (vm s));
  ad_size : 0 <= size /\ size * SECTOR_SIZE <= 1023 * 4096
}.

(** The machine with the process counted, and the lock taken. *)
Definition counted_process s : pst D :=
  mk_pst (set_kern (set_running_processes (u32 (running_now s + 1)) (kern (vm s))) (vm s)) held 0 (wait_load s) (rand_val s).

(** [create_process] from there on. *)
#[local] Definition enter_process (location size : Z) : M (pst D) Z :=
  vop kenter ;;;
  vop kleave ;;;
  p <-- vop (kop (new_process location size)) ;;
  vop (setup_process_vmem rdtsc p) ;;;
  vop kenter ;;;
  vop (kop (make_ready p)) ;;;
  vop kleave ;;;
  load_release ;;;
  ret 0.

Lemma set_running_ok {B} n s (g : unit -> M (pst D) B) :
  bind (set_running n) g s = g tt (set_vm (set_kern (set_running_processes n (kern (vm s))) (vm s)) s).
Proof. unfold set_running. by erewrite vop_ok by (apply kop_run; reflexivity). Qed.

(** The first part of [create_process]: the lock is taken, nobody has to wait,
    and the process is counted. *)
Lemma admission_run s location size : load_process_lock_debug s = LOCK_INIT -> 0 <= running_now s <= 3 -> wait_load s = 0 ->
  create_process rdtsc sleep location size s = enter_process location size (counted_process s).
Proof.
  intros Hl Hn Hw.
  set (s1 := mk_pst (set_kern (set_running_processes (running_now s) (kern (vm s))) (vm s)) held 0 (wait_load s) (rand_val s)).
  assert (E1 : forall B (g : M (pst D) B),
    (load_acquire ;;; first <-- gets pcb_first_process ;;
     when (truth first) (set_running 0 ;;; modify (set_pcb_first_process 0)) ;;; g) s = g s1).
  { intros B g. rewrite load_acquire_ok by done. rewrite bind_gets. cbn [pcb_first_process set_load_lock]. unfold s1, running_now.
    destruct (truth (pcb_first_process s)) eqn:Ef; cbn [when].
    - rewrite bind_assoc, set_running_ok, bind_modify. reflexivity.
    - apply truth_false in Ef. rewrite bind_ret. f_equal. destruct s as [v ? ? ? ?]. destruct v as [k]. destruct k. cbn in *. by subst. }
  unfold create_process. rewrite E1. cbn [SCHEDULE_PROCESS_LAUNCHING]. unfold running at 1. rewrite !bind_assoc, bind_gets.
  change (running_processes (kern (vm s1))) with (running_now s).
  assert (E2 : wait_for_pages sleep wait_fuel (page_space (running_now s)) 0 s1 = Ret (false, s1)).
  { unfold wait_fuel. cbn [wait_for_pages]. unfold page_space, PAGEABLE_PAGES, AVERAGE_PAGES_PER_PROCESS. rewrite u32_small by lia.
    by rewrite (proj2 (Z.ltb_ge _ _)) by lia. }
  rewrite bind_assoc, (bind_step _ _ _ _ _ E2), !bind_assoc, bind_gets. change (wait_load s1) with (wait_load s). rewrite Hw.
  cbn [truth Z.eqb negb when]. rewrite bind_assoc, !bind_ret. unfold running. rewrite bind_gets, set_running_ok. reflexivity.
Qed.

(** The process [p] is ready to run, in an address space of its own. *)
Record process_ready s (location size : Z) (l : list ptr) (p : ptr) (fl : list ptr) (i0 i1 i2 : nat) (fs : list nat) (s' : pst D) : Prop := mk_process_ready {
  pr_queues : queues (kern (vm s')) (l ++ [p]) fl;
  pr_pcb : exists r, pcbs (kern (vm s')) !! p = Some r
    /\ process_of r location size (next_pid (kern (vm s))) (next_stack (kern (vm s))) (frame_addr i0);
  pr_others u : u ∈ l -> unlinked <$> pcbs (kern (vm s')) !! u = unlinked <$> pcbs (kern (vm s)) !! u;
  pr_cpu : cpu (kern (vm s')) = cpu (kern (vm s));
  pr_running : running_processes (kern (vm s')) = running_now s + 1;
  pr_load : load_process_lock_debug s' = LOCK_INIT;
  pr_first : pcb_first_process s' = 0;
  pr_kernel : kernel_mapped (mem (vm s')) (frame_addr i0);
  pr_image va : PROCESS_VADDR <= va < PROCESS_VADDR + 1023 * 4096 -> walk (mem (vm s')) (frame_addr i0) va = None;
  pr_stack va : 0xeffff000 <= va < 0xf0000000 -> walk (mem (vm s')) (frame_addr i0) va = Some (frame_addr i2 + va mod 4096, true, true);
  pr_stock : stocked (fr (vm s')) fs;
  pr_lock : page_map_lock (vm s') = LOCK_INIT;
  pr_disk : disk (vm s') = disk (vm s)
}.

Lemma enter_process_run s location size l p fl i0 i1 i2 fs : admits s size l p fl i0 i1 i2 fs ->
  exists s', enter_process location size (counted_process s) = Ret (0, s') /\ process_ready s location size l p fl i0 i1 i2 fs s'.
Proof.
  intros A. destruct A as [Q Hl Hn Hw Hst Hs Ho Hlk Hsp Ht Hb Hsh Hsz]. set (s1 := counted_process s).
  assert (Q1 : queues (kern (vm s1)) l (p :: fl)) by (destruct Q; by constructor).
  destruct (new_process_run (kern (vm s1)) l p fl location size Q1 Hst) as (h & r & E1 & R1 & R2 & N & Hp0 & Hold).
  set (r1 := process_pcb _ _ _ _ r) in E1. set (k1 := set_pcbs (<[p := r1]> h) _) in E1.
  destruct Q as [C Q2 Q3 Q4 Q5 Q6].
  assert (Hpf : p ∉ fl) by (destruct Q4 as (Hnd & _); by apply list.NoDup_cons in Hnd as [? _]).
  assert (Hpl : p ∉ l) by (intros Hin; apply (Q6 p Hin); left).
  destruct (setup_process_run rdtsc (set_kern k1 (vm s1)) p r1 i0 i1 i2 fs) as (v & E2 & U).
  { constructor; [eapply room_weaken, C; lia|apply lookup_insert_eq|reflexivity|exact Hs|exact Ho|exact Hlk|exact Hsp|exact Ht|exact Hb|exact Hsh|exact Hsz]. }
  set (r2 := set_page_directory (frame_addr i0) r1).
  assert (Hk : kern v = set_pcbs (<[p := r2]> h) k1).
  { rewrite (pu_kern _ _ _ _ _ _ _ _ U). cbn [kern set_kern]. unfold k1. cbn [pcbs set_pcbs]. by rewrite alter_insert_eq. }
  destruct (ready_section (kern v) l p r2) as (h' & E3 & R3 & L3);
    [rewrite Hk; eapply room_weaken, C; lia|rewrite Hk; by apply ring_insert|rewrite Hk; exact Q3|done|done|rewrite Hk; apply lookup_insert_eq|exact N|].
  assert (Hcpu : cpu (kern v) = cpu (kern (vm s))) by (rewrite Hk; reflexivity).
  set (k2 := set_current_running (head_ptr (l ++ [p])) (set_pcbs h' (kern v))).
  set (s2 := set_load_lock LOCK_INIT (set_vm (set_kern k2 v) s1)).
  exists s2. split.
  - unfold enter_process. rewrite vop_section by (eapply room_weaken, C; lia).
    rewrite (vop_ok _ s1 _ _ _ (kop_run _ (vm s1) _ _ E1)). erewrite vop_ok by exact E2.
    erewrite vop_ok by (apply (kop_run enter); reflexivity). erewrite vop_ok by (apply kop_run; exact E3).
    erewrite vop_ok by (apply (kop_run leave); reflexivity). rewrite load_release_ok by reflexivity.
    unfold ret, s2, k2. do 3 f_equal. cbn [kern set_kern vm set_vm cpu set_current_running set_pcbs set_cpu].
    rewrite (leave_enter 1) by (lia || (rewrite Hcpu; eapply room_weaken, C; lia)). destruct v as [kk]; destruct kk. reflexivity.
  - destruct (links_only_lookup _ _ _ p r2 L3) as (r3 & Hr3 & Hu3); [rewrite Hk; apply lookup_insert_eq|].
    constructor; [|exists r3; split; [exact Hr3|]|..].
    + apply appended_queues; [by rewrite Hcpu|exact R3|exact L3|rewrite Hk; by apply ring_insert|by rewrite Hk| |done].
      intros u Hu Hin. apply (Q6 u Hu). by right.
    + eapply process_unlinked; [exact Hu3|]. by constructor.
    + intros u Hu. change (unlinked <$> h' !! u = unlinked <$> pcbs (kern (vm s)) !! u). rewrite (proj2 L3), Hk. cbn [pcbs set_pcbs].
      rewrite lookup_insert_ne by (intros ->; done). by rewrite Hold.
    + exact Hcpu.
    + change (running_processes (kern v) = running_now s + 1). rewrite Hk. change (u32 (running_now s + 1) = running_now s + 1). apply u32_small. lia.
    + reflexivity.
    + reflexivity.
    + apply (pu_kernel _ _ _ _ _ _ _ _ U).
    + intros va Hva. apply (pu_image _ _ _ _ _ _ _ _ U va Hva).
    + apply (pu_stack _ _ _ _ _ _ _ _ U).
    + apply (pu_stock _ _ _ _ _ _ _ _ U).
    + apply (pu_lock _ _ _ _ _ _ _ _ U).
    + apply (pu_disk _ _ _ _ _ _ _ _ U).
Qed.

(** ** th1.c *)

Context (yielded : M (pst D) unit) (up : nat -> Z).

(** [while (!scsi_up()) yield();] *)
Fixpoint wait_scsi_up (fuel i : nat) : M (pst D) unit :=
  if truth (up i) then ret tt
  else match fuel with O => out_of_fuel | S f => yielded ;;; wait_scsi_up f (S i) end.

(** [loader_thread]; [buf] is what its buffer holds when it starts.  The result is
    that of [exit]. *)
Definition loader_thread (fuel efuel : nat) (buf : list Z) : M (pst D) bool :=
  wait_scsi_up fuel 0 ;;;
  d <-- gets (fun s => disk (vm s)) ;;
  let '(rc, sec, d') := readdir d in
  vop (modify (set_disk d')) ;;;
  let dir := default buf sec in
  let location := default 0 (dir !! 0%nat) in
  let size := default 0 (dir !! 1%nat) in
  when (truth location) (loadproc rdtsc sleep location size ;;; ret tt) ;;;
  vop (kop (exit rdtsc efuel)).

Lemma wait_scsi_up_run (st : nat -> pst D) n : forall fuel i,
  (forall j, (i <= j < i + n)%nat -> up j = 0 /\ yielded (st j) = Ret (tt, st (S j))) -> up (i + n)%nat <> 0 -> (n <= fuel)%nat ->
  wait_scsi_up fuel i (st i) = Ret (tt, st (i + n)%nat).
Proof.
  induction n as [|n IH]; intros fuel i Hst Hup Hf.
  - rewrite Nat.add_0_r in *. destruct fuel; cbn [wait_scsi_up]; by rewrite (proj2 (truth_true _)).
  - destruct fuel as [|fuel]; [lia|]. destruct (Hst i) as [E1 E2]; [lia|]. cbn [wait_scsi_up]. rewrite E1. cbn [truth Z.eqb negb].
    rewrite (bind_step _ _ _ _ _ E2). rewrite Nat.add_succ_r, <- Nat.add_succ_l in *. apply IH; [|done|lia]. intros j Hj. apply Hst. lia.
Qed.

(** The thread once the disk is there. *)
Lemma loader_up fuel efuel buf (st : nat -> pst D) n :
  (forall j, (j < n)%nat -> up j = 0 /\ yielded (st j) = Ret (tt, st (S j))) -> up n <> 0 -> (n <= fuel)%nat ->
  loader_thread fuel efuel buf (st 0%nat)
  = (let '(_, sec, d') := readdir (disk (vm (st n))) in
     let dir := default buf sec in
     let location := default 0 (dir !! 0%nat) in
     when (truth location) (loadproc rdtsc sleep location (default 0 (dir !! 1%nat)) ;;; ret tt) ;;; vop (kop (exit rdtsc efuel)))
    (set_vm (set_disk (snd (readdir (disk (vm (st n))))) (vm (st n))) (st n)).
Proof.
  intros Hst Hup Hf. unfold loader_thread. rewrite (bind_step _ _ _ _ _ (wait_scsi_up_run st n fuel 0 ltac:(intros j Hj; apply Hst; lia) Hup Hf)).
  rewrite bind_gets. cbn [Nat.add]. destruct (readdir _) as [[rc sec] d']. cbn [snd]. by erewrite vop_ok by reflexivity.
Qed.

End Load.

Section Loader.

Context {D : Type} `{BlockDeviceLaws D} (rdtsc : nat -> Z) (sleep : Z -> M (pst D) unit) (yielded : M (pst D) unit) (up : nat -> Z).
Implicit Types (s : pst D).

(** Whether a process is admitted does not depend on the disk. *)
Lemma admits_disk s d size l p fl i0 i1 i2 fs :
  admits s size l p fl i0 i1 i2 fs -> admits (set_vm (set_disk d (vm s)) s) size l p fl i0 i1 i2 fs.
Proof. intros []. by constructor. Qed.

(** [C6] The loader thread starts the shell: once the disk has come up, which it waits
    for without holding up the others, it reads the directory and goes to its
    end with the first program of the directory as a new process, the last of
    the ready ring: it will start in user mode at the first address of its image,
    its control block names the program's sectors on the disk, and its address
    space has the kernel closed but for the screen, a stack page and no page of
    the image yet; the other threads are as they were, and the lock of
    [create_process] is free again. *)
Theorem loader_loads_shell fuel efuel buf (st : nat -> pst D) n boot rest size location more l p fl i0 i1 i2 fs
  (Hwait : forall j, (j < n)%nat -> up j = 0 /\ yielded (st j) = Ret (tt, st (S j))) (Hup : up n <> 0) (Hfuel : (n <= fuel)%nat)
  (Hboot : sector (disk (vm (st n))) 0 = boot :: rest) (Hword : 0 <= boot < 2 ^ 32) (Hblocks : boot / 2 ^ 16 + 1 < blocks (disk (vm (st n))))
  (Hdir : sector (disk (vm (st n))) (boot / 2 ^ 16 + 1) = location :: size :: more)
  (Hloc : 0 < location < 2 ^ 32) (Hadm : admits (st n) size l p fl i0 i1 i2 fs) :
  exists d s', loader_thread rdtsc sleep yielded up fuel efuel buf (st 0%nat) = vop (kop (exit rdtsc efuel)) s'
    /\ (forall i, sector d i = sector (disk (vm (st n))) i)
    /\ process_ready (set_vm (set_disk d (vm (st n))) (st n)) location size l p fl i0 i1 i2 fs s'.
Proof.
  destruct (readdir_run (disk (vm (st n))) boot rest (boot / 2 ^ 16) Hboot Hword eq_refl Hblocks) as (d & Er & Hd).
  pose proof (admits_disk (st n) d _ _ _ _ _ _ _ _ Hadm) as Ha. set (s1 := set_vm _ (st n)) in *.
  destruct (enter_process_run rdtsc s1 location size l p fl i0 i1 i2 fs Ha) as (s' & Ep & R).
  exists d, s'. split_and!; [|exact Hd|exact R]. rewrite (loader_up rdtsc sleep yielded up fuel efuel buf st n Hwait Hup Hfuel).
  rewrite Er. cbn [snd]. fold s1. cbv zeta. rewrite Hdir. cbn [from_option id lookup list_lookup].
  rewrite (proj2 (truth_true location)) by lia. cbn [when]. rewrite bind_assoc. unfold loadproc.
  pose proof (ad_size _ _ _ _ _ _ _ _ _ Ha) as [? ?]. unfold SECTOR_SIZE in *. rewrite !u32_small by lia.
  erewrite bind_step; [rewrite bind_ret; reflexivity|].
  rewrite admission_run; [exact Ep|apply (ad_load _ _ _ _ _ _ _ _ _ Ha)|apply (ad_running _ _ _ _ _ _ _ _ _ Ha)|apply (ad_wait _ _ _ _ _ _ _ _ _ Ha)].
Qed.

(** The thread does not look at the result of [readdir]: when the directory cannot
    be read, it takes the location and the size of the program from what the stack
    happened to hold. *)
Lemma loader_loads_unread fuel efuel buf s d location size :
  up 0%nat <> 0 -> readdir (disk (vm s)) = (-1, None, d) -> buf !! 0%nat = Some location -> location <> 0 -> buf !! 1%nat = Some size ->
  loader_thread rdtsc sleep yielded up fuel efuel buf s
  = (loadproc rdtsc sleep location size ;;; vop (kop (exit rdtsc efuel))) (set_vm (set_disk d (vm s)) s).
Proof.
  intros Hup Er Hl Hl0 Hz. rewrite (loader_up rdtsc sleep yielded up fuel efuel buf (fun _ => s) 0) by (done || lia || (intros; lia)).
  rewrite Er. cbn [snd]. cbv zeta. cbn [from_option id]. rewrite Hl, Hz. cbn [from_option id]. rewrite (proj2 (truth_true location)) by done.
  cbn [when]. rewrite bind_assoc. unfold bind. by destruct (loadproc _ _ _ _ _) as [[? ?]| | | |].
Qed.

End Loader.

(** ** The clock *)

(** The seconds [clock_thread] shows; [speed] is what [cpuspeed] returns, and a
    speed of zero is a fault. *)
Definition clock_seconds (start_ticks ticks_now speed : Z) : option Z :=
  let elapsed := (ticks_now - start_ticks) mod 2 ^ 64 in
  let elapsed_shift := u32 (s32 (Z.shiftr elapsed 20)) in
  let mhz := u32 speed in
  if truth mhz then Some (elapsed_shift / mhz) else None.

(** Before the shifted count outgrows 32 bits the clock is never fast, and it is
    slow by less than a second and a part of 2^20 to a million (4.9 percent). *)
Lemma clock_error start now speed :
  0 <= now - start < 2 ^ 52 -> 0 < speed < 2 ^ 31 ->
  exists t, clock_seconds start now speed = Some t /\ t <= (now - start) / (speed * 1000000)
    /\ (now - start) / (speed * 1000000) * 1000000 < (t + 1) * 2 ^ 20.
Proof.
  intros Ht Hs. set (e := now - start) in *. unfold clock_seconds. fold e. rewrite (Z.mod_small e) by lia.
  rewrite (u32_small speed) by lia. rewrite (proj2 (truth_true speed)) by lia.
  assert (He : 0 <= Z.shiftr e 20 < 2 ^ 32).
  { rewrite Z.shiftr_div_pow2 by lia. split; [apply Z.div_pos; lia|apply Z.div_lt_upper_bound; lia]. }
  eexists. split; [reflexivity|]. replace (u32 (s32 (Z.shiftr e 20))) with (Z.shiftr e 20).
  2: { rewrite <- (u32_small _ He) at 1. unfold u32, s32. by rewrite Zminus_mod_idemp_l, Z.add_simpl_r. }
  rewrite Z.shiftr_div_pow2, Z.div_div by lia.
  pose proof (Z.mul_div_le e (2 ^ 20 * speed) ltac:(lia)). pose proof (Z.mul_succ_div_gt e (2 ^ 20 * speed) ltac:(lia)).
  pose proof (Z.mul_div_le e (speed * 1000000) ltac:(lia)). pose proof (Z.div_pos e (2 ^ 20 * speed) ltac:(lia) ltac:(lia)).
  split; [apply Z.div_le_lower_bound; nia|nia].
Qed.

Module Loader_instances.
Import Machine Process_instances.

(** One free control block, three threads that are ready, and the program of 129
    sectors at sector 128 in the directory. *)
Definition boot_machine : pst ideal_disk :=
  mk_pst (mk_mm ideal_disk (kernel6 0) ∅ frames0 fifo_init 0xfe000 0xff000 1 0 0 0 45
    LOCK_INIT LOCK_INIT LOCK_INIT SPINLOCK_INIT SPINLOCK_INIT SPINLOCK_INIT [] the_disk 0) LOCK_INIT 1 0 1.

Lemma loader_loads_shell_witness :
  exists s' r, loader_thread (fun _ => 0) (fun _ => ret tt) (ret tt) (fun i => if (i <? 2)%nat then 0 else 1) 2 9 [] boot_machine
      = vop (kop (exit (fun _ => 0) 9)) s'
    /\ queues (kern (vm s')) [1; 2; 3; 6]%nat [] /\ pcbs (kern (vm s')) !! 6%nat = Some r /\ swap_loc r = 128 /\ swap_size r = 129.
Proof.
  destruct frames0_ok as (H1 & H2 & H3).
  destruct (loader_loads_shell (fun _ => 0) (fun _ => ret tt) (ret tt) (fun i => if (i <? 2)%nat then 0 else 1) 2 9 [] (fun _ => boot_machine) 2
    0 (seqZ 1 127) 129 128 (seqZ 130 126) [1; 2; 3]%nat 6%nat [] 0 1 2 (seq 3 30)) as (d & s' & E & _ & R).
  - intros j Hj. split; [|reflexivity]. rewrite (proj2 (Nat.ltb_lt j 2)) by exact Hj. reflexivity.
  - discriminate.
  - lia.
  - reflexivity.
  - lia.
  - reflexivity.
  - reflexivity.
  - lia.
  - constructor; [apply queues6|reflexivity|cbn; lia|reflexivity|reflexivity| |lia|reflexivity|reflexivity|decided|decided|discriminate|decided].
    constructor; [exact H2|exact H1|]. intros i r _ Hr. exact (H3 i r Hr).
  - destruct (pr_pcb _ _ _ _ _ _ _ _ _ _ _ R) as (r & Hr & P). exists s', r. split; [exact E|].
    split; [exact (pr_queues _ _ _ _ _ _ _ _ _ _ _ R)|]. split; [exact Hr|]. split; [exact (po_loc _ _ _ _ _ _ P)|exact (po_size _ _ _ _ _ _ P)].
Defined.

End Loader_instances.
