(* ===== verification/Usb.v ===== *)
(** * The USB core

    Models [src/src/kernel/usb/usb.c] and [usb.h]: control transfers, reading and
    searching descriptors, and the configuration of a device.

    The host controller is an interface, [HostController]: the operations of
    [struct usb_hc_ops] that the core calls.  An operation works on a pipe of
    the device, given by its index in [udev->pipe], and returns the value the
    driver returns, the bytes that it put at the start of the caller's buffer,
    and the data toggle of the pipe afterwards.

    One device is modelled.  The buffers that descriptors are read into are
    lists of the bytes that have been written; reading a byte that was never
    written, or that lies behind the buffer, is [Stuck]. *)

From S2P Require Import Prelude CString.

(** ** Data *)

Definition ERR_NO_MEM : Z := -1.
Definition ERR_DEV_STALLED : Z := -2.
Definition ERR_XFER : Z := -3.
Definition ERR_PROTO : Z := -4.
Definition ERR_NO_DRIVER : Z := -1000.

Definition USB_LS_DEV : Z := 0.

Definition USB_STATUS_CONFIGURED : Z := 4.
Definition USB_STATUS_NO_DRIVER : Z := 6.

Definition USB_PIPE_DATA_BULK : Z := 0x02.
Definition USB_PIPE_DIR_MASK : Z := 0x80.
Definition USB_PIPE_DIR_IN : Z := 0x01.
Definition USB_PIPE_DIR_OUT : Z := 0x00.
Definition MAX_USB_PIPES : nat := 16.

Definition USB_CREAD : Z := 1.
Definition USB_CWRITE : Z := 0.

Definition CLEAR_FEATURE : Z := 1.
Definition SET_ADDRESS : Z := 5.
Definition GET_DESCRIPTOR : Z := 6.
Definition SET_CONFIGURATION : Z := 9.
Definition SET_INTERFACE : Z := 11.

Definition USB_RECIV_DEVICE : Z := 0.
Definition USB_RECIV_INTERFACE : Z := 1.
Definition USB_RECIV_ENDPOINT : Z := 2.

Definition USB_FEATURE_ENDPOINT_HALT : Z := 0.

Definition USB_DEVICE_DESCRIPTOR : Z := 0x01.
Definition USB_CONFIGURATION_DESCRIPTOR : Z := 0x02.
Definition USB_INTERFACE_DESCRIPTOR : Z := 0x04.
Definition USB_ENDPOINT_DESCRIPTOR : Z := 0x05.

(** The pointer back to the device and the transfer of the pipe, which only the
    host controller driver uses, are left out. *)
Record usb_pipe : Type := mk_pipe {
  ep_address : Z; direction : Z; attributes : Z; max_packet_size : Z; interval : Z; toggle_bit : Z
}.

Definition set_toggle (v : Z) (p : usb_pipe) : usb_pipe :=
  mk_pipe (ep_address p) (direction p) (attributes p) (max_packet_size p) (interval p) v.
Definition set_max_packet_size (v : Z) (p : usb_pipe) : usb_pipe :=
  mk_pipe (ep_address p) (direction p) (attributes p) v (interval p) (toggle_bit p).

(** The driver functions are those of the driver numbered [driver_id]. *)
Record usb_dev_driver : Type := mk_driver {
  drv_class_code : Z; drv_subclass_code : Z; drv_protocol_code : Z; driver_id : nat
}.

Record usb_dev : Type := mk_udev {
  address : Z;
  vendor : Z;
  product : Z;
  configurations_num : Z;
  usb_sc : Z;
  class_code : Z;
  subclass_code : Z;
  protocol_code : Z;
  ifc_number : Z;
  udd : option usb_dev_driver;
  op_state : Z;
  pipe_count : Z;
  pipe : list usb_pipe
}.

Definition set_address v d := mk_udev v (vendor d) (product d) (configurations_num d) (usb_sc d)
  (class_code d) (subclass_code d) (protocol_code d) (ifc_number d) (udd d) (op_state d) (pipe_count d) (pipe d).
Definition set_general v p n d := mk_udev (address d) v p n (usb_sc d)
  (class_code d) (subclass_code d) (protocol_code d) (ifc_number d) (udd d) (op_state d) (pipe_count d) (pipe d).
Definition set_interface c sc p i d := mk_udev (address d) (vendor d) (product d) (configurations_num d) (usb_sc d)
  c sc p i (udd d) (op_state d) (pipe_count d) (pipe d).
Definition set_udd v d := mk_udev (address d) (vendor d) (product d) (configurations_num d) (usb_sc d)
  (class_code d) (subclass_code d) (protocol_code d) (ifc_number d) v (op_state d) (pipe_count d) (pipe d).
Definition set_op_state v d := mk_udev (address d) (vendor d) (product d) (configurations_num d) (usb_sc d)
  (class_code d) (subclass_code d) (protocol_code d) (ifc_number d) (udd d) v (pipe_count d) (pipe d).
Definition set_pipe_count v d := mk_udev (address d) (vendor d) (product d) (configurations_num d) (usb_sc d)
  (class_code d) (subclass_code d) (protocol_code d) (ifc_number d) (udd d) (op_state d) v (pipe d).
Definition set_pipes v d := mk_udev (address d) (vendor d) (product d) (configurations_num d) (usb_sc d)
  (class_code d) (subclass_code d) (protocol_code d) (ifc_number d) (udd d) (op_state d) (pipe_count d) v.

(** [struct usb_dev_setup_request] and its eight bytes. *)
Record usb_dev_setup_request : Type := mk_request {
  bmRequestType : Z; bRequest : Z; wValue : Z; wIndex : Z; wLength : Z
}.

Definition le2 (x : Z) : list Z := [x mod 256; x / 256 mod 256].
Definition of_le2 (b0 b1 : Z) : Z := b0 + b1 * 256.

Lemma u16_small x : 0 <= x < 2 ^ 16 -> u16 x = x.
Proof. apply Z.mod_small. Qed.

Definition request_bytes (r : usb_dev_setup_request) : list Z :=
  [u8 (bmRequestType r); u8 (bRequest r)] ++ le2 (u16 (wValue r)) ++ le2 (u16 (wIndex r)) ++ le2 (u16 (wLength r)).

(** ** The host controller *)

Class HostController (T : Type) : Type := {
  hc_read : usb_dev -> nat -> Z -> T -> outcome (Z * list Z * Z * T);
  hc_write : usb_dev -> nat -> list Z -> T -> outcome (Z * Z * T);
  hc_setup : usb_dev -> nat -> list Z -> T -> outcome (Z * Z * T)
}.

Record ubs {T : Type} : Type := mk_ubs {
  udev : usb_dev;
  usb_drv_list : list usb_dev_driver;
  bus : T
}.
Arguments ubs T : clear implicits.
Arguments mk_ubs {T}.

Definition set_udev {T} v (s : ubs T) : ubs T := mk_ubs v (usb_drv_list s) (bus s).
Definition set_drv_list {T} v (s : ubs T) : ubs T := mk_ubs (udev s) v (bus s).
Definition set_bus {T} v (s : ubs T) : ubs T := mk_ubs (udev s) (usb_drv_list s) v.

(** Byte [i] of what a buffer holds. *)
Definition byte_at {S} (buf : list Z) (i : Z) : M S Z :=
  match (if i <? 0 then None else buf !! Z.to_nat i) with
  | Some b => ret b
  | None => stuck
  end.

Definition short_at {S} (buf : list Z) (i : Z) : M S Z :=
  lo <-- byte_at buf i ;; hi <-- byte_at buf (i + 1) ;; ret (of_le2 lo hi).

Section Core.

Context {T : Type} `{HostController T}.

(** An operation of the host controller on pipe [i]. *)
Definition hc_op {A} (i : nat) (f : usb_dev -> nat -> T -> outcome (A * Z * T)) : M (ubs T) A :=
  fun s =>
    match f (udev s) i (bus s) with
    | Ret (a, t, b) =>
        Ret (a, set_bus b (set_udev (set_pipes (alter (set_toggle t) i (pipe (udev s))) (udev s)) s))
    | Halt => Halt
    | Wait => Wait
    | Stuck => Stuck
    | Fuel => Fuel
    end.

Definition usb_read (i : nat) (size : Z) : M (ubs T) (Z * list Z) :=
  hc_op i (fun d i b => hc_read d i size b).

Definition usb_write (i : nat) (data : list Z) : M (ubs T) Z :=
  hc_op i (fun d i b => hc_write d i data b).

(** [size] bytes of [data] for a write; the result is the return value and the
    bytes read. *)
Definition control_transfer (req : usb_dev_setup_request) (dir size : Z) (data : list Z) : M (ubs T) (Z * list Z) :=
  rc <-- hc_op 0 (fun d i b => hc_setup d i (request_bytes req) b) ;;
  if negb (rc =? 8) then ret (ERR_XFER, [])
  else
    r <-- (if 0 <? size then
             if dir =? USB_CREAD then usb_read 0 size
             else rc <-- usb_write 0 data ;; ret (rc, [])
           else ret (size, [])) ;;
    if negb (fst r =? size) then ret (ERR_XFER, snd r)
    else
      modify (fun s => set_udev (set_pipes (alter (set_toggle 1) 0%nat (pipe (udev s))) (udev s)) s) ;;;
      rc <-- (if dir =? USB_CREAD then usb_write 0 [] else r <-- usb_read 0 0 ;; ret (fst r)) ;;
      if negb (rc =? 0) then ret (ERR_XFER, snd r) else ret (0, snd r).

(** The pipe given to [usb_setup] only names the device. *)
Definition usb_setup (req : usb_dev_setup_request) (dir size : Z) (data : list Z) : M (ubs T) (Z * list Z) :=
  control_transfer req dir size data.

Definition load_descriptor (desc_type desc_index size : Z) : M (ubs T) (Z * list Z) :=
  control_transfer
    (mk_request 0x80 GET_DESCRIPTOR (Z.lor (Z.shiftl desc_type 8) desc_index) 0 size)
    USB_CREAD size [].

(** The bytes written over the start of a buffer. *)
Definition overlay (new old : list Z) : list Z := new ++ drop (length new) old.

(** What [buff] has room for behind the device descriptor. *)
Definition CONF_ROOM : nat := (512 - 18)%nat.

(** The return value, and the contents of [conf_buff] afterwards. *)
Definition load_configuration (conf_index : Z) (conf_buff : list Z) : M (ubs T) (Z * list Z) :=
  udc <-- load_descriptor USB_CONFIGURATION_DESCRIPTOR conf_index 9 ;;
  if fst udc <? 0 then ret (ERR_XFER, conf_buff)
  else
    ty <-- byte_at (snd udc) 1 ;;
    if negb (ty =? USB_CONFIGURATION_DESCRIPTOR) then ret (ERR_XFER, conf_buff)
    else
      total <-- short_at (snd udc) 2 ;;
      r <-- load_descriptor USB_CONFIGURATION_DESCRIPTOR conf_index total ;;
      if (CONF_ROOM <? length (snd r))%nat then stuck
      else if fst r =? 0 then ret (total, overlay (snd r) conf_buff)
      else ret (ERR_XFER, overlay (snd r) conf_buff).

(** The offset of the descriptor, [None] for the null pointer; [off] is how far
    [conf_buff] has been advanced, which is [scanned_conf_bytes]. *)
Fixpoint get_descriptor_ptr (fuel : nat) (descriptor_type index conf_size : Z) (conf_buff : list Z) (off : Z)
    : M (ubs T) (option Z) :=
  match fuel with
  | O => out_of_fuel
  | S f =>
      ty <-- byte_at conf_buff (off + 1) ;;
      if (ty =? descriptor_type) && (index =? 0) then ret (Some off)
      else
        let index := if ty =? descriptor_type then index - 1 else index in
        len <-- byte_at conf_buff off ;;
        let off := off + len in
        if off <? conf_size then get_descriptor_ptr f descriptor_type index conf_size conf_buff off
        else ret None
  end.

(** A descriptor has at least one byte, and the buffer at most [CONF_ROOM]. *)
Definition scan_fuel : nat := S CONF_ROOM.

Definition send_request (rec req_type value index : Z) : M (ubs T) Z :=
  r <-- control_transfer (mk_request (Z.lor 0 rec) req_type value index 0) USB_CWRITE 0 [] ;;
  ret (fst r).

Definition usb_lookup_driver : M (ubs T) (option usb_dev_driver) :=
  gets (fun s =>
    list_find (fun d => class_code (udev s) = drv_class_code d /\ protocol_code (udev s) = drv_protocol_code d)
      (usb_drv_list s) ≫= fun x => Some (snd x)).

(** The scan of the interfaces of one configuration: the driver and the offset
    of its interface descriptor. *)
Fixpoint scan_interfaces (n : nat) (ifc_i conf_size : Z) (buf : list Z) : M (ubs T) (option (usb_dev_driver * Z)) :=
  match n with
  | O => ret None
  | S n =>
      ptr <-- get_descriptor_ptr scan_fuel USB_INTERFACE_DESCRIPTOR ifc_i conf_size buf 0 ;;
      match ptr with
      | None => ret None
      | Some o =>
          c <-- byte_at buf (o + 5) ;; sc <-- byte_at buf (o + 6) ;;
          p <-- byte_at buf (o + 7) ;; i <-- byte_at buf (o + 2) ;;
          modify (fun s => set_udev (set_interface c sc p i (udev s)) s) ;;;
          d <-- usb_lookup_driver ;;
          match d with
          | Some d => ret (Some (d, o))
          | None => scan_interfaces n (ifc_i + 1) conf_size buf
          end
      end
  end.

(** The scan of the configurations: the driver, the offset of the interface, the
    size of the configuration and the contents of the buffer. *)
Fixpoint scan_configurations (n : nat) (conf_i : Z) (buf : list Z)
    : M (ubs T) (option (usb_dev_driver * Z * Z * list Z)) :=
  match n with
  | O => ret None
  | S n =>
      r <-- load_configuration conf_i buf ;;
      let '(conf_size, buf) := r in
      ifcs <-- byte_at buf 4 ;;
      x <-- scan_interfaces (Z.to_nat ifcs) 0 conf_size buf ;;
      match x with
      | Some (d, o) => ret (Some (d, o, conf_size, buf))
      | None => scan_configurations n (conf_i + 1) buf
      end
  end.

(** Records endpoint [ep_i] as pipe [pipe_i]. *)
Definition add_pipe (ep_i : Z) (pipe_i : nat) (conf_size : Z) (buf : list Z) : M (ubs T) unit :=
  ptr <-- get_descriptor_ptr scan_fuel USB_ENDPOINT_DESCRIPTOR ep_i conf_size buf 0 ;;
  match ptr with
  | None => stuck
  | Some o =>
      a <-- byte_at buf (o + 2) ;; attr <-- byte_at buf (o + 3) ;;
      size <-- short_at buf (o + 4) ;; int <-- byte_at buf (o + 6) ;;
      if (pipe_i <? MAX_USB_PIPES)%nat then
        let p := mk_pipe (Z.land a 0x0f)
                   (if negb (Z.land a USB_PIPE_DIR_MASK =? 0) then USB_PIPE_DIR_IN else USB_PIPE_DIR_OUT)
                   attr size int 0 in
        modify (fun s => set_udev (set_pipes (<[pipe_i := p]> (pipe (udev s))) (udev s)) s)
      else stuck
  end.

Fixpoint add_pipes (n : nat) (ep_i : Z) (pipe_i : nat) (conf_size : Z) (buf : list Z) : M (ubs T) nat :=
  match n with
  | O => ret pipe_i
  | S n => add_pipe ep_i pipe_i conf_size buf ;;; add_pipes n (ep_i + 1) (S pipe_i) conf_size buf
  end.

(** Everything up to the call of the driver's [init]: an error, or the driver. *)
Definition configure (addr : Z) : M (ubs T) (Z + usb_dev_driver) :=
  modify (fun s => set_udev (set_op_state USB_STATUS_NO_DRIVER (set_address 0 (udev s))) s) ;;;
  modify (fun s => set_udev (set_pipes
    (<[0%nat := mk_pipe 0 0 0 (if usb_sc (udev s) =? USB_LS_DEV then 8 else 64) 0 0]> (pipe (udev s))) (udev s)) s) ;;;
  r <-- load_descriptor USB_DEVICE_DESCRIPTOR 0 18 ;;
  let desc := snd r in
  mps <-- byte_at desc 7 ;;
  modify (fun s => set_udev (set_pipes (alter (set_max_packet_size mps) 0%nat (pipe (udev s))) (udev s)) s) ;;;
  v <-- short_at desc 8 ;; p <-- short_at desc 10 ;; n <-- byte_at desc 17 ;;
  modify (fun s => set_udev (set_general v p n (udev s)) s) ;;;
  x <-- scan_configurations (Z.to_nat n) 0 [] ;;
  match x with
  | None => ret (inl ERR_NO_DRIVER)
  | Some (d, o, conf_size, buf) =>
      modify (fun s => set_udev (set_udd (Some d) (udev s)) s) ;;;
      eps <-- byte_at buf (o + 4) ;;
      k <-- add_pipes (Z.to_nat eps) 0 1 conf_size buf ;;
      modify (fun s => set_udev (set_pipe_count (Z.of_nat k) (udev s)) s) ;;;
      send_request USB_RECIV_DEVICE SET_ADDRESS (u16 addr) 0 ;;;
      modify (fun s => set_udev (set_address (u8 addr) (udev s)) s) ;;;
      cv <-- byte_at buf 5 ;;
      send_request USB_RECIV_DEVICE SET_CONFIGURATION cv 0 ;;;
      alt <-- byte_at buf (o + 3) ;; num <-- byte_at buf (o + 2) ;;
      send_request USB_RECIV_INTERFACE SET_INTERFACE alt num ;;;
      modify (fun s => set_udev (set_op_state USB_STATUS_CONFIGURED (udev s)) s) ;;;
      ret (inr d)
  end.

(** In a state that contains that of the core and those of the drivers. *)
Definition usb_configure_device {S} (ub : S -> ubs T) (set_ub : ubs T -> S -> S)
    (init : usb_dev_driver -> M S Z) (addr : Z) : M S Z :=
  r <-- zoom ub set_ub (configure addr) ;;
  match r with
  | inl rc => ret rc
  | inr d => init d ;;; ret 0
  end.

End Core.

(** ** Searching descriptors

    A configuration is a sequence of descriptors: the first byte of each is its
    length and the second its type. *)

Definition desc_ok (d : list Z) : Prop := exists ty rest, d = Z.of_nat (length d) :: ty :: rest.

Definition desc_type (d : list Z) : Z := default 0 (d !! 1%nat).

(** The offsets of the descriptors of type [ty], the first descriptor being at
    [off]. *)
Fixpoint offsets (ty : Z) (off : Z) (ds : list (list Z)) : list Z :=
  match ds with
  | [] => []
  | d :: ds =>
      (if desc_type d =? ty then [off] else []) ++ offsets ty (off + Z.of_nat (length d)) ds
  end.

Section Search.

Context {T : Type}.
Implicit Types (s : ubs T).

Lemma byte_at_app {S} (p : list Z) (b : Z) (r : list Z) (i : Z) (s : S) :
  i = Z.of_nat (length p) -> byte_at (p ++ b :: r) i s = Ret (b, s).
Proof.
  intros ->. unfold byte_at. rewrite (proj2 (Z.ltb_ge _ _)), Nat2Z.id by lia.
  by rewrite list_lookup_middle.
Qed.

Lemma get_descriptor_ptr_run s ty conf_size tail ds : forall fuel p index,
  Forall desc_ok ds -> ds <> [] -> (length ds <= fuel)%nat ->
  conf_size = Z.of_nat (length (p ++ concat ds)) ->
  get_descriptor_ptr (T := T) fuel ty (Z.of_nat index) conf_size (p ++ concat ds ++ tail) (Z.of_nat (length p)) s
  = Ret (offsets ty (Z.of_nat (length p)) ds !! index, s).
Proof.
  induction ds as [|d ds IH]; intros fuel p index Hok Hne Hf Hsize; [done|].
  apply list.Forall_cons_1 in Hok as [Hd Hok]. destruct fuel as [|fuel]; [cbn in Hf; lia|].
  cbn [concat]. rewrite <- !app_assoc. cbn [get_descriptor_ptr offsets].
  destruct Hd as (t & rest & Ed). assert (Et : desc_type d = t) by (by rewrite Ed).
  rewrite (bind_step _ _ _ t s).
  2: { rewrite Ed. cbn [app]. change (?a :: t :: ?r) with ([a] ++ t :: r). rewrite app_assoc.
       apply byte_at_app. rewrite length_app. cbn. lia. }
  rewrite Et. set (o := offsets ty _ ds).
  assert (El : forall B (k : Z -> M (ubs T) B),
    bind (byte_at (p ++ d ++ concat ds ++ tail) (Z.of_nat (length p))) k s = k (Z.of_nat (length d)) s).
  { intros B k. apply bind_step. rewrite Ed at 1. cbn [app]. by apply byte_at_app. }
  assert (Hnext : forall index',
    bind (byte_at (p ++ d ++ concat ds ++ tail) (Z.of_nat (length p))) (fun len =>
      if Z.of_nat (length p) + len <? conf_size
      then get_descriptor_ptr fuel ty (Z.of_nat index') conf_size (p ++ d ++ concat ds ++ tail) (Z.of_nat (length p) + len)
      else ret None) s = Ret (o !! index', s)).
  { intros index'. rewrite El. destruct ds as [|d' ds'].
    - rewrite (proj2 (Z.ltb_ge _ _)); [done|]. rewrite Hsize, length_app. cbn [concat]. rewrite length_app. cbn. lia.
    - assert (Hd' : (0 < length (concat (d' :: ds')))%nat).
      { cbn [concat]. rewrite length_app. apply list.Forall_cons_1 in Hok as [(t' & r' & ->) _]. cbn. lia. }
      rewrite (proj2 (Z.ltb_lt _ _)) by (rewrite Hsize, length_app; cbn [concat]; rewrite length_app; cbn [concat] in Hd'; lia).
      rewrite <- Nat2Z.inj_add, <- length_app, (app_assoc p d). unfold o. rewrite <- Nat2Z.inj_add, <- length_app.
      apply IH; [done|done|cbn in Hf |- *; lia|]. rewrite Hsize. cbn [concat]. by rewrite !app_assoc. }
  destruct (Z.eqb_spec t ty) as [->|Hne'].
  - destruct index as [|index].
    + cbn [Z.of_nat Z.eqb andb app]. done.
    + rewrite (proj2 (Z.eqb_neq (Z.of_nat (S index)) 0)) by lia. cbn [andb app].
      replace (Z.of_nat (S index) - 1) with (Z.of_nat index) by lia. apply Hnext.
  - cbn [andb app]. apply Hnext.
Qed.

Lemma concat_count (ds : list (list Z)) : Forall desc_ok ds -> (length ds <= length (concat ds))%nat.
Proof.
  induction 1 as [|d ds (t & r & ->) _ IH]; [done|]. cbn [concat length]. rewrite length_app. cbn. lia.
Qed.

(** [C40] [get_descriptor_ptr] on a configuration of well-formed descriptors returns
    the address of the descriptor of the given type and index, counted from the
    start of the configuration, and the null pointer when there are not so many;
    the search ends. *)
Theorem get_descriptor_ptr_finds s ty index ds tail :
  Forall desc_ok ds -> ds <> [] -> (length (concat ds) <= CONF_ROOM)%nat ->
  get_descriptor_ptr (T := T) scan_fuel ty (Z.of_nat index) (Z.of_nat (length (concat ds))) (concat ds ++ tail) 0 s
  = Ret (offsets ty 0 ds !! index, s).
Proof.
  intros Hok Hne Hl. apply (get_descriptor_ptr_run s ty _ tail ds scan_fuel []); try done.
  pose proof (concat_count ds Hok). unfold scan_fuel. lia.
Qed.

(** A descriptor of another type whose length byte is 0 makes the search go on
    forever. *)
Lemma get_descriptor_ptr_loops s ty ty' index conf_size rest fuel :
  ty' <> ty -> 0 < conf_size ->
  get_descriptor_ptr (T := T) fuel ty index conf_size (0 :: ty' :: rest) 0 s = Fuel.
Proof.
  intros Hty Hc. revert index. induction fuel as [|fuel IH]; intros index; [done|]. cbn [get_descriptor_ptr].
  rewrite (bind_step _ _ _ ty' s) by done. rewrite (proj2 (Z.eqb_neq ty' ty)) by done. cbn [andb].
  rewrite (bind_step _ _ _ 0 s) by done. rewrite Z.add_0_l, (proj2 (Z.ltb_lt _ _)) by done. apply IH.
Qed.

End Search.

Module Usb_instances.

(** A mass storage configuration: one interface with two bulk endpoints. *)
Definition stick_conf : list (list Z) :=
  [[9; 2; 32; 0; 1; 1; 0; 0x80; 50]; [9; 4; 0; 0; 2; 0x08; 0x06; 0x50; 0];
   [7; 5; 0x81; 2; 64; 0; 0]; [7; 5; 0x02; 2; 64; 0; 0]].

Lemma get_descriptor_ptr_finds_witness :
  let s := mk_ubs (mk_udev 0 0 0 0 1 0 0 0 0 None 0 0 []) [] tt in
  get_descriptor_ptr scan_fuel USB_ENDPOINT_DESCRIPTOR 1 32 (concat stick_conf) 0 s = Ret (Some 25, s).
Proof.
  set (s := mk_ubs _ _ _). cbv zeta. transitivity (Ret (offsets USB_ENDPOINT_DESCRIPTOR 0 stick_conf !! 1%nat, s)); [|reflexivity].
  apply (get_descriptor_ptr_finds s USB_ENDPOINT_DESCRIPTOR 1 stick_conf []).
  - repeat constructor; eexists _, _; reflexivity.
  - discriminate.
  - apply Nat.leb_le. reflexivity.
Defined.

(** A device with these descriptors: the answer to the last request is what it
    sends next. *)
Definition device_desc : list Z := [18; 1; 0; 2; 0; 0; 0; 64; 0x81; 0x07; 0x51; 0x51; 0; 1; 1; 2; 3; 1].

Definition answer (req : list Z) : list Z :=
  let n := Z.to_nat (of_le2 (default 0 (req !! 6%nat)) (default 0 (req !! 7%nat))) in
  match req !! 3%nat with
  | Some 1 => take n device_desc
  | Some 2 => take n (concat stick_conf)
  | _ => []
  end.

#[local] Instance stick_controller : HostController (list Z) := {
  hc_read ud i size b := Ret (size, if size =? 0 then [] else answer b, 0, b);
  hc_write ud i data b := Ret (0, 0, b);
  hc_setup ud i req b := Ret (8, 0, req)
}.

Definition blank_pipe : usb_pipe := mk_pipe 0 0 0 0 0 0.

Definition plugged_in : ubs (list Z) :=
  mk_ubs (mk_udev 0 0 0 0 1 0 0 0 0 None 0 0 (replicate 16 blank_pipe))
    [mk_driver 0x09 0x00 0x00 0; mk_driver 0x08 0x06 0x50 1] [].

(** Its configuration: the mass storage driver, the two bulk pipes, the address. *)
Lemma configure_stick :
  exists s, configure 5 plugged_in = Ret (inr (mk_driver 0x08 0x06 0x50 1), s)
    /\ udev s = mk_udev 5 0x0781 0x5151 1 1 0x08 0x06 0x50 0 (Some (mk_driver 0x08 0x06 0x50 1))
         USB_STATUS_CONFIGURED 3
         (mk_pipe 0 0 0 64 0 0 :: mk_pipe 1 USB_PIPE_DIR_IN USB_PIPE_DATA_BULK 64 0 0
          :: mk_pipe 2 USB_PIPE_DIR_OUT USB_PIPE_DATA_BULK 64 0 0 :: replicate 13 blank_pipe).
Proof. eexists. split; [vm_compute; reflexivity|]. vm_compute. reflexivity. Qed.

End Usb_instances.
