(* ===== verification/Hid.v ===== *)
(** * Human interface devices

    Models [src/src/kernel/usb/usb_hid.c] and the initialisation part of
    [usb_keyboard.c]: how a USB keyboard is bound to its driver when it is
    attached, and released when it is removed.  The handler of its reports is in
    [UsbKeyboard].

    The operations of the host controller that register handlers for interrupt
    pipes are an interface, [InterruptHost]; a handler is given by the address
    of the [struct usb_interrupt] and its contents.  Its function always is
    [usb_kbd_ihandler]. *)

From S2P Require Import Prelude CString Sched Ring Schedule Sync Alloc HeapRoom Usb.

(** ** Data *)

Definition USB_PIPE_INTERRUPT : Z := 0x03.
Definition BOOT_REPORT_SIZE : Z := 8.

Definition SIZEOF_HID : Z := 16.
Definition SIZEOF_KEYBOARD : Z := 68.
(** Offsets of [report] and of [usb_kbd_interrupt] in [struct usb_keyboard]. *)
Definition OFF_REPORT : Z := 4.
Definition OFF_INTERRUPT : Z := 20.

(** [struct usb_interrupt]; a pipe is an index into [udev->pipe]. *)
Record usb_interrupt : Type := mk_ui { ui_pipe : option nat; ui_buff : Z; ui_size : Z; ui_freq : Z; ui_data : Z }.

(** [struct usb_hid_dev]; [driver_data] is the address of the keyboard record,
    0 the null pointer. *)
Record usb_hid_dev : Type := mk_hid { interrupt_in : option nat; driver_data : Z }.

Definition set_interrupt_in v h := mk_hid v (driver_data h).
Definition set_driver_data v h := mk_hid (interrupt_in h) v.

Class InterruptHost (T : Type) : Type := {
  hc_register_interrupt : usb_dev -> Z -> usb_interrupt -> T -> outcome (Z * T);
  hc_remove_interrupt : usb_dev -> Z -> T -> outcome (Z * T)
}.

(** The device with its host controller, the heap, and [udev->driver_data]. *)
Record hidst {T : Type} : Type := mk_hidst { ub : ubs T; uheap : hst; hid : option (Z * usb_hid_dev) }.
Arguments hidst T : clear implicits.
Arguments mk_hidst {T}.

Definition set_ub {T} v (s : hidst T) : hidst T := mk_hidst v (uheap s) (hid s).
Definition set_uheap {T} v (s : hidst T) : hidst T := mk_hidst (ub s) v (hid s).
Definition set_hid {T} v (s : hidst T) : hidst T := mk_hidst (ub s) (uheap s) v.

Definition set_direction (v : Z) (p : usb_pipe) : usb_pipe :=
  mk_pipe (ep_address p) v (attributes p) (max_packet_size p) (interval p) (toggle_bit p).

(** ** Operations *)

Section Operations.

Context {T : Type} `{HostController T} `{InterruptHost T}.

Definition uop {A} (m : M (ubs T) A) : M (hidst T) A := zoom ub set_ub m.
Definition heap_op {A} (m : M hst A) : M (hidst T) A := zoom uheap set_uheap m.

(** An operation on the bus that does not use a pipe. *)
Definition bus_op (f : usb_dev -> T -> outcome (Z * T)) : M (hidst T) Z :=
  fun s => match f (udev (ub s)) (bus (ub s)) with
           | Ret (v, b) => Ret (v, set_ub (set_bus b (ub s)) s)
           | Halt => Halt
           | Wait => Wait
           | Stuck => Stuck
           | Fuel => Fuel
           end.

Definition the_hid : M (hidst T) (Z * usb_hid_dev) :=
  fun s => match hid s with Some x => Ret (x, s) | None => Stuck end.
Definition upd_hid (f : usb_hid_dev -> usb_hid_dev) : M (hidst T) unit :=
  x <-- the_hid ;; modify (set_hid (Some (fst x, f (snd x)))).

Definition class_request (bRequest wValue : Z) : M (hidst T) Z :=
  i <-- gets (fun s => ifc_number (udev (ub s))) ;;
  r <-- uop (usb_setup (mk_request 0x21 bRequest wValue i 0) USB_CWRITE 0 []) ;;
  ret (if negb (fst r =? 0) then ERR_XFER else 0).

Definition usb_hid_set_boot_proto : M (hidst T) Z := class_request 0x0b 0.
Definition usb_hid_set_idle : M (hidst T) Z := class_request 0x0a (Z.shiftl 5 8).

(** *** usb_keyboard.c *)

Definition usb_keyboard_reg_interrupt (uk : Z) : M (hidst T) unit :=
  x <-- the_hid ;;
  bus_op (fun d => hc_register_interrupt d (uk + OFF_INTERRUPT)
    (mk_ui (interrupt_in (snd x)) (uk + OFF_REPORT) BOOT_REPORT_SIZE 1 uk)) ;;;
  ret tt.

Definition usb_keyboard_init : M (hidst T) Z :=
  uk <-- heap_op (kzalloc SIZEOF_KEYBOARD) ;;
  if uk =? 0 then ret ERR_NO_MEM
  else upd_hid (set_driver_data uk) ;;; usb_keyboard_reg_interrupt uk ;;; ret 0.

Definition usb_keyboard_free : M (hidst T) unit :=
  x <-- the_hid ;;
  let uk := driver_data (snd x) in
  bus_op (fun d => hc_remove_interrupt d (uk + OFF_INTERRUPT)) ;;;
  heap_op (kfree uk).

(** *** usb_hid.c *)

(** The condition of the [if] assigns the direction, which makes it true. *)
Definition scan_pipe (i : nat) : M (hidst T) unit :=
  x <-- gets (fun s => pipe (udev (ub s)) !! i) ;;
  match x with
  | None => stuck
  | Some p =>
      when (attributes p =? USB_PIPE_INTERRUPT)
        (modify (fun s => set_ub (set_udev (set_pipes (alter (set_direction USB_PIPE_DIR_IN) i (pipe (udev (ub s))))
           (udev (ub s))) (ub s)) s) ;;;
         upd_hid (set_interrupt_in (Some i)))
  end.

Fixpoint scan_pipes (n i : nat) : M (hidst T) unit :=
  match n with
  | O => ret tt
  | S n' => scan_pipe i ;;; scan_pipes n' (S i)
  end.

Definition usb_hid_init : M (hidst T) Z :=
  p <-- heap_op (kzalloc SIZEOF_HID) ;;
  if p =? 0 then ret ERR_NO_MEM
  else
    modify (set_hid (Some (p, mk_hid None 0))) ;;;
    count <-- gets (fun s => pipe_count (udev (ub s))) ;;
    scan_pipes (Z.to_nat (count - 1)) 1 ;;;
    h <-- the_hid ;;
    match interrupt_in (snd h) with
    | None => ret ERR_NO_DRIVER
    | Some _ =>
        sc <-- gets (fun s => subclass_code (udev (ub s))) ;;
        if sc =? 0x01 then
          rc <-- usb_hid_set_boot_proto ;;
          idle <-- usb_hid_set_idle ;;
          let rc := rc - idle in
          if rc <? 0 then ret ERR_NO_DRIVER else usb_keyboard_init
        else ret ERR_NO_DRIVER
    end.

Definition usb_hid_free : M (hidst T) unit :=
  h <-- the_hid ;;
  sc <-- gets (fun s => subclass_code (udev (ub s))) ;;
  when (sc =? 0x01) (usb_keyboard_free ;;; heap_op (kfree (fst h))).

End Operations.

(** ** What the initialisation does *)

(** The last interrupt pipe among pipes [i], ..., [i + n - 1]. *)
Fixpoint last_interrupt (l : list usb_pipe) (n i : nat) (acc : option nat) : option nat :=
  match n with
  | O => acc
  | S n' => last_interrupt l n' (S i)
              (if bool_decide (attributes <$> l !! i = Some USB_PIPE_INTERRUPT) then Some i else acc)
  end.

Section Facts.

Context {T : Type} `{HostController T} `{InterruptHost T}.

(** The device record up to its pipes, whose attributes are the same. *)
Definition same_device (d d' : usb_dev) : Prop :=
  set_pipes [] d' = set_pipes [] d /\ attributes <$> pipe d' = attributes <$> pipe d.

Lemma same_device_refl d : same_device d d.
Proof. done. Qed.

Lemma same_device_trans d1 d2 d3 : same_device d1 d2 -> same_device d2 d3 -> same_device d1 d3.
Proof. intros [A B] [C D]. split; congruence. Qed.

Lemma same_subclass d d' : same_device d d' -> subclass_code d' = subclass_code d.
Proof. intros [E _]. by apply (f_equal subclass_code) in E. Qed.

Lemma same_ifc d d' : same_device d d' -> ifc_number d' = ifc_number d.
Proof. intros [E _]. by apply (f_equal ifc_number) in E. Qed.

Lemma last_interrupt_same l l' n : attributes <$> l = attributes <$> l' -> forall i acc,
  last_interrupt l n i acc = last_interrupt l' n i acc.
Proof.
  intros E. induction n as [|n IH]; intros i acc; [done|]. cbn [last_interrupt]. rewrite IH.
  by rewrite <- !list_lookup_fmap, E.
Qed.

Lemma upd_hid_run f s p h : hid s = Some (p, h) -> upd_hid (T := T) f s = Ret (tt, set_hid (Some (p, f h)) s).
Proof. intros E. unfold upd_hid, bind, the_hid. by rewrite E. Qed.

Lemma scan_pipes_run n : forall i s p acc dd,
  hid s = Some (p, mk_hid acc dd) -> (i + n <= length (pipe (udev (ub s))))%nat ->
  exists u, scan_pipes (T := T) n i s
      = Ret (tt, mk_hidst u (uheap s) (Some (p, mk_hid (last_interrupt (pipe (udev (ub s))) n i acc) dd)))
    /\ same_device (udev (ub s)) (udev u) /\ usb_drv_list u = usb_drv_list (ub s) /\ bus u = bus (ub s).
Proof.
  induction n as [|n IH]; intros i s p acc dd Hh Hn.
  - exists (ub s). cbn. split; [|done]. rewrite <- Hh. unfold ret. by destruct s.
  - cbn [scan_pipes last_interrupt]. unfold scan_pipe. rewrite bind_assoc, bind_gets.
    destruct (lookup_lt_is_Some_2 (pipe (udev (ub s))) i ltac:(lia)) as [q Hq]. rewrite Hq. cbn [fmap option_fmap option_map].
    destruct (Z.eqb_spec (attributes q) USB_PIPE_INTERRUPT) as [Ha|Ha]; cbn [when].
    + rewrite bool_decide_eq_true_2 by congruence. rewrite bind_assoc, bind_modify.
      set (d1 := set_pipes (alter (set_direction USB_PIPE_DIR_IN) i (pipe (udev (ub s)))) (udev (ub s))).
      set (s1 := set_ub (set_udev d1 (ub s)) s).
      rewrite (bind_step _ _ _ _ _ (upd_hid_run (set_interrupt_in (Some i)) s1 _ _ Hh)).
      assert (Ea : attributes <$> pipe d1 = attributes <$> pipe (udev (ub s))).
      { cbn [pipe set_pipes d1]. apply list_eq. intros j. rewrite !list_lookup_fmap.
        destruct (decide (i = j)) as [<-|Hij]; [|by rewrite list_lookup_alter_ne].
        rewrite list_lookup_alter_eq. by destruct (pipe (udev (ub s)) !! i). }
      destruct (IH (S i) (set_hid (Some (p, mk_hid (Some i) dd)) s1) p (Some i) dd) as (u & E & A & B & C); [done| |].
      { cbn [ub set_hid s1 udev set_udev set_ub]. rewrite <- (length_fmap attributes (pipe d1)), Ea, length_fmap. lia. }
      exists u. split_and!; [|apply (same_device_trans _ d1); [split; [done|exact Ea]|exact A]|done|done].
      change (set_hid (Some (p, set_interrupt_in (Some i) {| interrupt_in := acc; driver_data := dd |})) s1)
        with (set_hid (Some (p, mk_hid (Some i) dd)) s1).
      rewrite E. do 5 f_equal. cbn [ub set_hid s1 udev set_udev set_ub]. f_equal. by apply last_interrupt_same.
    + rewrite bool_decide_eq_false_2 by congruence. rewrite bind_ret. apply IH; [done|lia].
Qed.

(** A device that gives each request the same answer, 0 for success. *)
Definition answers (P : usb_dev_setup_request -> Z) : Prop :=
  forall req u, exists bytes u', usb_setup (T := T) req USB_CWRITE 0 [] u = Ret ((P req, bytes), u')
    /\ same_device (udev u) (udev u').

Definition boot_request (d : usb_dev) : usb_dev_setup_request := mk_request 0x21 0x0b 0 (ifc_number d) 0.
Definition idle_request (d : usb_dev) : usb_dev_setup_request := mk_request 0x21 0x0a (Z.shiftl 5 8) (ifc_number d) 0.

Lemma request_run P r v s :
  answers P ->
  exists s', class_request (T := T) r v s
      = Ret (if negb (P (mk_request 0x21 r v (ifc_number (udev (ub s))) 0) =? 0) then ERR_XFER else 0, s')
    /\ same_device (udev (ub s)) (udev (ub s')) /\ uheap s' = uheap s /\ hid s' = hid s.
Proof.
  intros HP. unfold class_request. rewrite bind_gets.
  destruct (HP (mk_request 0x21 r v (ifc_number (udev (ub s))) 0) (ub s)) as (bytes & u' & E & A).
  exists (set_ub u' s). unfold bind, uop, zoom. rewrite E. cbn [fst]. done.
Qed.

(** The requests are independent of the order of their failures. *)
Lemma hid_init_run P s i n :
  answers P ->
  (forall d a ui b, exists v b', hc_register_interrupt (T := T) d a ui b = Ret (v, b')) ->
  room (uheap s) (n + 3) -> pipe_count (udev (ub s)) <= Z.of_nat (length (pipe (udev (ub s)))) ->
  1 <= pipe_count (udev (ub s)) ->
  subclass_code (udev (ub s)) = 1 ->
  last_interrupt (pipe (udev (ub s))) (Z.to_nat (pipe_count (udev (ub s)) - 1)) 1 None = Some i ->
  exists p h1, kzalloc SIZEOF_HID (uheap s) = Ret (p, h1) /\ p <> 0
    /\ if negb (P (boot_request (udev (ub s))) =? 0) && (P (idle_request (udev (ub s))) =? 0)
       then exists s', usb_hid_init s = Ret (ERR_NO_DRIVER, s') /\ uheap s' = h1
       else exists s' uk h2 d b v, usb_hid_init s = Ret (0, s')
         /\ kzalloc SIZEOF_KEYBOARD h1 = Ret (uk, h2) /\ uk <> 0 /\ uheap s' = h2
         /\ hid s' = Some (p, mk_hid (Some i) uk) /\ subclass_code (udev (ub s')) = 1
         /\ hc_register_interrupt d (uk + OFF_INTERRUPT) (mk_ui (Some i) (uk + OFF_REPORT) BOOT_REPORT_SIZE 1 uk) b
            = Ret (v, bus (ub s')).
Proof.
  intros HP Hreg Hr Hc Hc1 Hsc Hi.
  destruct (kzalloc_room (uheap s) (n + 2) SIZEOF_HID ltac:(done)) as (p & h1 & E1 & Hp & Hr1 & _);
    [eapply room_weaken_n, Hr; change (Z.to_nat ((SIZEOF_HID - 1) / CHUNK_SIZE + 1)) with 1%nat; lia|].
  exists p, h1. split; [done|]. split; [done|].
  destruct (kzalloc_room h1 n SIZEOF_KEYBOARD ltac:(done) Hr1) as (uk & h2 & E2 & Huk & _ & _).
  set (s1 := set_hid (Some (p, mk_hid None 0)) (set_uheap h1 s)).
  destruct (scan_pipes_run (Z.to_nat (pipe_count (udev (ub s)) - 1)) 1 s1 p None 0) as (u & E3 & D3 & _ & _);
    [done|cbn; lia|]. change (ub s1) with (ub s) in *. rewrite Hi in E3.
  set (s2 := mk_hidst u (uheap s1) (Some (p, mk_hid (Some i) 0))) in *.
  destruct (request_run P 0x0b 0 s2 HP) as (s3 & E4 & D4 & H4 & K4).
  destruct (request_run P 0x0a (Z.shiftl 5 8) s3 HP) as (s4 & E5 & D5 & H5 & K5).
  assert (Ei : ifc_number (udev (ub s2)) = ifc_number (udev (ub s)) /\ ifc_number (udev (ub s3)) = ifc_number (udev (ub s))).
  { split; [by apply same_ifc|]. rewrite (same_ifc _ _ D4). by apply same_ifc. }
  destruct Ei as [Ei2 Ei3]. rewrite Ei2 in E4. rewrite Ei3 in E5.
  assert (Eq : forall A (k : Z -> M (hidst T) A) (s : hidst T) h v,
    kzalloc v (uheap s) = Ret h -> bind (heap_op (kzalloc v)) k s = k (fst h) (set_uheap (snd h) s)).
  { intros A k s0 [a h] v E. unfold bind, heap_op, zoom. by rewrite E. }
  assert (Einit : usb_hid_init s =
    (if (if negb (P (boot_request (udev (ub s))) =? 0) then ERR_XFER else 0)
        - (if negb (P (idle_request (udev (ub s))) =? 0) then ERR_XFER else 0) <? 0
     then ret ERR_NO_DRIVER else usb_keyboard_init) s4).
  { unfold usb_hid_init. rewrite (Eq _ _ _ _ _ E1). cbn [fst snd]. rewrite (proj2 (Z.eqb_neq p 0) Hp).
    rewrite bind_modify, bind_gets. fold s1. change (ub s1) with (ub s). rewrite (bind_step _ _ _ _ _ E3).
    unfold the_hid at 1. unfold bind at 1. cbn [hid s2 snd interrupt_in]. rewrite bind_gets.
    rewrite (same_subclass _ _ D3 : subclass_code (udev (ub s2)) = _), Hsc. cbn [Z.eqb Pos.eqb].
    unfold usb_hid_set_boot_proto, usb_hid_set_idle.
    rewrite (bind_step _ _ _ _ _ E4), (bind_step _ _ _ _ _ E5). reflexivity. }
  destruct (negb (P (boot_request (udev (ub s))) =? 0)) eqn:Eb, (P (idle_request (udev (ub s))) =? 0) eqn:Ed;
    cbn [andb negb] in *.
  1: { exists s4. split; [exact Einit|]. by rewrite H5, H4. }
  all: change (_ <? 0) with false in Einit; cbn iota in Einit.
  all: assert (Eh : uheap s4 = h1) by (by rewrite H5, H4).
  all: assert (Ek : hid s4 = Some (p, mk_hid (Some i) 0)) by (by rewrite K5, K4).
  all: destruct (Hreg (udev (ub s4)) (uk + OFF_INTERRUPT) (mk_ui (Some i) (uk + OFF_REPORT) BOOT_REPORT_SIZE 1 uk) (bus (ub s4)))
         as (v & b' & Er).
  all: set (s5 := mk_hidst (set_bus b' (ub s4)) h2 (Some (p, mk_hid (Some i) uk))).
  all: exists s5, uk, h2, (udev (ub s4)), (bus (ub s4)), v; split_and!; try done.
  all: try (change (subclass_code (udev (ub s4)) = 1); rewrite (same_subclass _ _ D5), (same_subclass _ _ D4);
    rewrite <- Hsc; exact (same_subclass _ _ D3)).
  all: rewrite Einit; unfold usb_keyboard_init; rewrite <- Eh in E2; rewrite (Eq _ _ _ _ _ E2); cbn [fst snd];
    rewrite (proj2 (Z.eqb_neq uk 0) Huk);
    rewrite (bind_step _ _ _ _ _ (upd_hid_run _ (set_uheap h2 s4) _ _ Ek));
    unfold usb_keyboard_reg_interrupt, the_hid, bus_op, bind, ret, set_driver_data, set_hid, set_uheap; cbn;
    rewrite Er; reflexivity.
Qed.

(** Attaching a keyboard whose report pipe is pipe [i].  The result is
    [ERR_NO_DRIVER] exactly when the boot protocol is refused and the idle rate
    accepted: the return values of the two requests are subtracted, so that a
    refused idle rate is ignored and two refusals cancel.  In every other case
    the report pipe is polled into the eight bytes at [report] of a new keyboard
    record, with that record as the handler's argument. *)
Theorem usb_hid_init_outcome P s i n :
  answers P ->
  (forall d a ui b, exists v b', hc_register_interrupt (T := T) d a ui b = Ret (v, b')) ->
  room (uheap s) (n + 3) -> 1 <= pipe_count (udev (ub s)) <= Z.of_nat (length (pipe (udev (ub s)))) ->
  subclass_code (udev (ub s)) = 1 ->
  last_interrupt (pipe (udev (ub s))) (Z.to_nat (pipe_count (udev (ub s)) - 1)) 1 None = Some i ->
  exists p s', p <> 0 /\
    if negb (P (boot_request (udev (ub s))) =? 0) && (P (idle_request (udev (ub s))) =? 0)
    then usb_hid_init s = Ret (ERR_NO_DRIVER, s')
    else exists uk d b v, usb_hid_init s = Ret (0, s') /\ hid s' = Some (p, mk_hid (Some i) uk) /\ uk <> 0
      /\ hc_register_interrupt d (uk + OFF_INTERRUPT) (mk_ui (Some i) (uk + OFF_REPORT) BOOT_REPORT_SIZE 1 uk) b
         = Ret (v, bus (ub s')).
Proof.
  intros HP Hreg Hr [H1 Hc] Hsc Hi. destruct (hid_init_run P s i n HP Hreg Hr Hc H1 Hsc Hi) as (p & h1 & _ & Hp & H2).
  exists p. destruct (negb _ && _).
  - destruct H2 as (s' & E & _). by exists s'.
  - destruct H2 as (s' & uk & h2 & d & b & v & E & _ & Huk & _ & Eh & _ & Er). exists s'. split; [done|].
    by exists uk, d, b, v.
Qed.

(** Removing a keyboard that was attached takes its handler off the bus and gives
    both of its records back: the heap has the segments from before. *)
Theorem usb_hid_attach_detach P s i n gs s' :
  answers P ->
  (forall d a ui b, exists v b', hc_register_interrupt (T := T) d a ui b = Ret (v, b')) ->
  (forall d a b, exists v b', hc_remove_interrupt (T := T) d a b = Ret (v, b')) ->
  room (uheap s) (n + 3) -> 1 <= pipe_count (udev (ub s)) <= Z.of_nat (length (pipe (udev (ub s)))) ->
  subclass_code (udev (ub s)) = 1 ->
  last_interrupt (pipe (udev (ub s))) (Z.to_nat (pipe_count (udev (ub s)) - 1)) 1 None = Some i ->
  heap (mem_chunk_list (uheap s)) gs -> usb_hid_init s = Ret (0, s') ->
  exists a d ui b v v' s'',
    hc_register_interrupt d a ui b = Ret (v, bus (ub s'))
    /\ usb_hid_free s' = Ret (tt, s'') /\ hc_remove_interrupt (udev (ub s')) a (bus (ub s')) = Ret (v', bus (ub s''))
    /\ heap (mem_chunk_list (uheap s'')) gs.
Proof.
  intros HP Hreg Hrem Hr [H1 Hc] Hsc Hi Hh Einit.
  destruct (hid_init_run P s i n HP Hreg Hr Hc H1 Hsc Hi) as (p & h1 & E1 & Hp & H2).
  destruct (negb _ && _).
  { destruct H2 as (s2 & E & _). rewrite E in Einit. discriminate. }
  destruct H2 as (s2 & uk & h2 & d & b & v & E & E2 & Huk & Eh & Ehid & Esc & Er).
  rewrite E in Einit. injection Einit as ->. pose proof Hr as (Hl & Hcpu & _).
  assert (Hz1 : 1 <= SIZEOF_HID < 2 ^ 31) by done. assert (Hz2 : 1 <= SIZEOF_KEYBOARD < 2 ^ 31) by done.
  destruct (kzalloc_pair_releasable _ gs _ _ _ _ _ _ Hh Hl Hcpu Hz1 Hz2 E1 Hp E2 Huk)
    as (cs1 & cs2 & F1 & F2 & G).
  destruct (Hrem (udev (ub s')) (uk + OFF_INTERRUPT) (bus (ub s'))) as (v' & b' & Ev).
  exists (uk + OFF_INTERRUPT), d, (mk_ui (Some i) (uk + OFF_REPORT) BOOT_REPORT_SIZE 1 uk), b, v, v'.
  exists (mk_hidst (set_bus b' (ub s')) (set_chunks cs2 h2) (hid s')). split; [exact Er|]. split; [|split; [exact Ev|exact G]].
  subst h2. unfold usb_hid_free, usb_keyboard_free, bind, the_hid, gets. rewrite Ehid. cbn [fst snd].
  rewrite Esc. cbn [Z.eqb Pos.eqb when]. unfold bind, bus_op. rewrite Ehid. cbn [fst snd driver_data].
  rewrite Ev. unfold heap_op, zoom. cbn [uheap set_ub]. rewrite F1. cbn [uheap set_uheap]. rewrite F2, <- Ehid. reflexivity.
Qed.

End Facts.

(** ** Concrete instances *)

Module Hid_instances.

Section Controller.

(** A device that refuses the class requests with these numbers.  The bus keeps
    the addresses of the handlers. *)
Context (refuses : Z -> bool).

#[local] Instance keyboard_controller : HostController (list Z) := {
  hc_read ud i size b := Ret (size, [], 0, b);
  hc_write ud i data b := Ret (Z.of_nat (length data), 0, b);
  hc_setup ud i req b := Ret (if refuses (default 0 (req !! 1%nat)) then ERR_DEV_STALLED else 8, 0, b)
}.

#[local] Instance keyboard_interrupts : InterruptHost (list Z) := {
  hc_register_interrupt ud a ui b := Ret (0, a :: b);
  hc_remove_interrupt ud a b := Ret (0, filter (fun x => x <> a) b)
}.

Lemma keyboard_answers :
  answers (fun req => if refuses (u8 (bRequest req)) then ERR_XFER else 0).
Proof.
  intros req u. unfold usb_setup, control_transfer, hc_op, hc_setup, keyboard_controller.
  change (default 0 (request_bytes req !! 1%nat)) with (u8 (bRequest req)).
  assert (Ha : forall v i (l : list usb_pipe), attributes <$> alter (set_toggle v) i l = attributes <$> l).
  { intros v i l. apply list_eq. intros j. rewrite !list_lookup_fmap.
    destruct (decide (i = j)) as [<-|Hij]; [rewrite list_lookup_alter_eq|by rewrite list_lookup_alter_ne].
    by destruct (l !! i). }
  destruct (refuses (u8 (bRequest req))).
  - eexists _, _. split; [reflexivity|]. split; [done|]. cbn. apply Ha.
  - eexists _, _. split; [reflexivity|]. split; [done|]. cbn. by rewrite !Ha.
Qed.

End Controller.

(** A keyboard with a control pipe and a report pipe. *)
Definition attached : hidst (list Z) :=
  mk_hidst (mk_ubs (mk_udev 3 0 0 1 1 0x03 0x01 0x01 0 None 0 2
    (mk_pipe 0 0 0 8 0 0 :: mk_pipe 1 USB_PIPE_DIR_IN USB_PIPE_INTERRUPT 8 10 0
     :: replicate 14 Usb_instances.blank_pipe)) [] []) Alloc_instances.fresh None.

Lemma attached_room : room (uheap attached) (1020 + 3).
Proof. exact fresh_room. Qed.

(** Refusing the boot protocol alone is an error; refusing both requests is not. *)
Lemma usb_hid_init_outcome_witness :
  (exists s', usb_hid_init (H := keyboard_controller (Z.eqb 0x0b)) (H0 := keyboard_interrupts) attached = Ret (ERR_NO_DRIVER, s'))
  /\ exists s', usb_hid_init (H := keyboard_controller (fun _ => true)) (H0 := keyboard_interrupts) attached = Ret (0, s').
Proof.
  split.
  - destruct (usb_hid_init_outcome (H := keyboard_controller (Z.eqb 0x0b)) (H0 := keyboard_interrupts) _ attached 1 1020
      (keyboard_answers (Z.eqb 0x0b))) as (p & s' & _ & E).
    + intros d a ui b. eexists _, _. reflexivity.
    + exact attached_room.
    + split; apply Z.leb_le; reflexivity.
    + reflexivity.
    + reflexivity.
    + exists s'. exact E.
  - destruct (usb_hid_init_outcome (H := keyboard_controller (fun _ => true)) (H0 := keyboard_interrupts) _ attached 1 1020
      (keyboard_answers (fun _ => true))) as (p & s' & _ & uk & d & b & v & E & _).
    + intros d a ui b. eexists _, _. reflexivity.
    + exact attached_room.
    + split; apply Z.leb_le; reflexivity.
    + reflexivity.
    + reflexivity.
    + exists s'. exact E.
Defined.

Lemma usb_hid_attach_detach_witness :
  exists s' s'', usb_hid_init (H := keyboard_controller (fun _ => false)) (H0 := keyboard_interrupts) attached = Ret (0, s')
    /\ usb_hid_free (H0 := keyboard_interrupts) s' = Ret (tt, s'') /\ heap (mem_chunk_list (uheap s'')) (frees 1024).
Proof.
  destruct (hid_init_run (H := keyboard_controller (fun _ => false)) (H0 := keyboard_interrupts) _ attached 1 1020
    (keyboard_answers (fun _ => false))) as (p & h1 & _ & _ & s' & uk & h2 & d & b & v & E & _).
  - intros d a ui b. eexists _, _. reflexivity.
  - exact attached_room.
  - apply Z.leb_le. reflexivity.
  - apply Z.leb_le. reflexivity.
  - reflexivity.
  - reflexivity.
  - exists s'.
    destruct (usb_hid_attach_detach (H := keyboard_controller (fun _ => false)) (H0 := keyboard_interrupts) _ attached 1 1020
      (frees 1024) s' (keyboard_answers (fun _ => false))) as (a & d' & ui & b' & v1 & v2 & s'' & _ & E' & _ & G).
    + intros d0 a ui b0. eexists _, _. reflexivity.
    + intros d0 a b0. eexists _, _. reflexivity.
    + exact attached_room.
    + split; apply Z.leb_le; reflexivity.
    + reflexivity.
    + reflexivity.
    + exact (proj1 Alloc_instances.fresh_heap).
    + exact E.
    + exists s''. split; [exact E|]. split; [exact E'|exact G].
Defined.

End Hid_instances.
