(* ===== verification/Hub.v ===== *)
(** * USB hubs

    Models [src/src/kernel/usb/usb_hub.c] and [usb_hub.h]: the list of hubs and
    the scan of their ports, which attaches and removes devices; and
    [usb_free_device] of [usb.c].

    What a hub calls through pointers is the interface [HubOps]: the operations
    of its ports, the address allocator of its host controller, and the
    configuration and the release of a device, which are in [Usb] and in the
    drivers.  The list of hubs is the list [Dlist] shows it to be.  [ms_delay]
    only lets time pass and has no counterpart. *)

From S2P Require Import Prelude CString Sched Ring Schedule Sync Alloc HeapRoom.

(** ** Data *)

(** [enum port_status_e] and [enum uhub_port_command_e] *)
Inductive port_status_e : Type :=
| USB_PORT_DISCONNECTED | USB_PORT_DISABLED | USB_PORT_ENABLED | USB_PORT_SUSPENDED.
Inductive uhub_port_command_e : Type :=
| USB_PORT_RESET | USB_PORT_CLEAR_RESET | USB_PORT_ENABLE | USB_PORT_DISABLE | USB_PORT_CLEAR_SUSPEND.

#[global] Instance port_status_eq_dec : EqDecision port_status_e.
Proof. solve_decision. Defined.
#[global] Instance port_command_eq_dec : EqDecision uhub_port_command_e.
Proof. solve_decision. Defined.

Definition MAX_PORTS_PER_HUB : nat := 16.
Definition SIZEOF_USB_DEV : Z := 376.

(** The address of the device on the port, 0 the null pointer. *)
Record usb_hub_port : Type := mk_port { port_status : port_status_e; port_udev : Z }.
Definition set_port_status v (p : usb_hub_port) := mk_port v (port_udev p).
Definition set_port_udev v (p : usb_hub_port) := mk_port (port_status p) v.

(** [hub_hc] is the address of the host controller's state. *)
Record usb_hub : Type := mk_hub { port_num : Z; port : list usb_hub_port; hub_hc : Z }.
Definition set_ports v (h : usb_hub) := mk_hub (port_num h) v (hub_hc h).

(** A hub as [kzalloc] and its driver leave it. *)
Definition new_hub (n hc : Z) : usb_hub := mk_hub n (replicate MAX_PORTS_PER_HUB (mk_port USB_PORT_DISCONNECTED 0)) hc.

(** What the scan writes into a device: [hc], [hub], [port] and [usb_sc]. *)
Record attachment : Type := mk_att { att_hc : Z; att_hub : nat; att_port : nat; att_sc : Z }.
Definition set_att_sc v a := mk_att (att_hc a) (att_hub a) (att_port a) v.

(** Where a state keeps the kernel heap. *)
Class HasHeap (T : Type) : Type := { heap_of : T -> hst; with_heap : hst -> T -> T }.

(** The functions behind pointers: [hub_ops], [hc_ops->get_next_addr],
    [usb_configure_device] and [udd->free]. *)
Class HubOps (T : Type) : Type := {
  op_port_status : Z -> nat -> M T port_status_e;
  op_port_command : Z -> nat -> uhub_port_command_e -> M T unit;
  op_port_speed : Z -> nat -> M T Z;
  op_get_next_addr : Z -> M T Z;
  op_configure : Z -> attachment -> Z -> M T Z;
  op_driver_free : Z -> M T unit
}.

Record hubst {T : Type} : Type := mk_hubst { uhub_list : list usb_hub; udevs : gmap Z attachment; hbus : T }.
Arguments hubst T : clear implicits.
Arguments mk_hubst {T}.
Definition set_uhub_list {T} v (s : hubst T) : hubst T := mk_hubst v (udevs s) (hbus s).
Definition set_udevs {T} v (s : hubst T) : hubst T := mk_hubst (uhub_list s) v (hbus s).
Definition set_hbus {T} v (s : hubst T) : hubst T := mk_hubst (uhub_list s) (udevs s) v.

(** ** Operations *)

Section Operations.

Context {T : Type} `{HasHeap T} `{HubOps T}.

Definition on_bus {A} (m : M T A) : M (hubst T) A := zoom hbus set_hbus m.
Definition on_heap {A} (m : M hst A) : M (hubst T) A := on_bus (zoom heap_of with_heap m).

Definition usb_hub_static_init : M (hubst T) Z := modify (set_uhub_list []) ;;; ret 0.
Definition usb_hub_register (h : usb_hub) : M (hubst T) Z :=
  modify (fun s => set_uhub_list (uhub_list s ++ [h]) s) ;;; ret 0.

Definition usb_free_device (p : Z) : M (hubst T) unit :=
  on_bus (op_driver_free p) ;;; on_heap (kfree p).

Definition get_hub (h : nat) : M (hubst T) usb_hub :=
  fun s => match uhub_list s !! h with Some x => Ret (x, s) | None => Stuck end.
Definition get_port (h i : nat) : M (hubst T) usb_hub_port :=
  x <-- get_hub h ;; match port x !! i with Some p => ret p | None => stuck end.
Definition upd_port (h i : nat) (f : usb_hub_port -> usb_hub_port) : M (hubst T) unit :=
  modify (fun s => set_uhub_list (alter (fun x => set_ports (alter f i (port x)) x) h (uhub_list s)) s).
Definition upd_dev (p : Z) (f : attachment -> attachment) : M (hubst T) unit :=
  modify (fun s => set_udevs (alter f p (udevs s)) s).

(** A device has been disconnected. *)
Definition detach (h i : nat) : M (hubst T) unit :=
  x <-- get_port h i ;;
  let p := port_udev x in
  when (negb (p =? 0))
    (usb_free_device p ;;;
     on_heap (kfree p) ;;;
     upd_port h i (set_port_udev 0)).

(** A device has been connected.  [false] when the loop over the ports is left. *)
Definition attach (h i : nat) : M (hubst T) bool :=
  p <-- on_heap (kzalloc SIZEOF_USB_DEV) ;;
  if p =? 0 then ret false
  else
    x <-- get_hub h ;;
    modify (fun s => set_udevs (<[p := mk_att (hub_hc x) h i 0]> (udevs s)) s) ;;;
    upd_port h i (set_port_udev p) ;;;
    on_bus (op_port_command (hub_hc x) i USB_PORT_CLEAR_SUSPEND) ;;;
    on_bus (op_port_command (hub_hc x) i USB_PORT_RESET) ;;;
    on_bus (op_port_command (hub_hc x) i USB_PORT_CLEAR_RESET) ;;;
    on_bus (op_port_command (hub_hc x) i USB_PORT_ENABLE) ;;;
    address <-- on_bus (op_get_next_addr (hub_hc x)) ;;
    sc <-- on_bus (op_port_speed (hub_hc x) i) ;;
    upd_dev p (set_att_sc sc) ;;;
    on_bus (op_port_status (hub_hc x) i) ;;;
    d <-- gets (fun s => udevs s !! p) ;;
    match d with
    | Some a => on_bus (op_configure p a address) ;;; ret true
    | None => stuck
    end.

(** One port; [false] when the loop over the ports is left. *)
Definition scan_port (h i : nat) : M (hubst T) bool :=
  x <-- get_hub h ;;
  current_ps <-- on_bus (op_port_status (hub_hc x) i) ;;
  q <-- get_port h i ;;
  let previous_ps := port_status q in
  upd_port h i (set_port_status current_ps) ;;;
  if negb (bool_decide (previous_ps = USB_PORT_DISCONNECTED)) && bool_decide (current_ps = USB_PORT_DISCONNECTED)
  then detach h i ;;; ret true
  else if bool_decide (previous_ps = USB_PORT_DISCONNECTED) && negb (bool_decide (current_ps = USB_PORT_DISCONNECTED))
  then attach h i
  else ret true.

Fixpoint scan_ports (n h i : nat) : M (hubst T) unit :=
  match n with
  | O => ret tt
  | S n' => go <-- scan_port h i ;; when go (scan_ports n' h (S i))
  end.

Fixpoint scan_hubs (n h : nat) : M (hubst T) unit :=
  match n with
  | O => ret tt
  | S n' => x <-- get_hub h ;; scan_ports (Z.to_nat (port_num x)) h 0 ;;; scan_hubs n' (S h)
  end.

Definition usb_hub_scan_ports : M (hubst T) unit :=
  n <-- gets (fun s => length (uhub_list s)) ;; scan_hubs n 0.

End Operations.

(** ** What a scan does to a port *)

Section Facts.

Context {T : Type} `{HasHeap T} `{HubOps T}.
Implicit Types s : hubst T.

(** Port [i] of hub [h]. *)
Definition port_of s (h i : nat) : option usb_hub_port := x ← uhub_list s !! h; port x !! i.

Definition put_port (h i : nat) (f : usb_hub_port -> usb_hub_port) s : hubst T :=
  set_uhub_list (alter (fun x => set_ports (alter f i (port x)) x) h (uhub_list s)) s.

Lemma port_of_put s h i f p : port_of s h i = Some p -> port_of (put_port h i f s) h i = Some (f p).
Proof.
  unfold port_of, put_port. cbn. intros E. destruct (uhub_list s !! h) as [x|] eqn:Ex; [|done]. cbn in E.
  rewrite list_lookup_alter_eq, Ex. cbn. by rewrite list_lookup_alter_eq, E.
Qed.

Lemma hub_put s h i f x : uhub_list s !! h = Some x ->
  uhub_list (put_port h i f s) !! h = Some (set_ports (alter f i (port x)) x).
Proof. intros E. cbn. by rewrite list_lookup_alter_eq, E. Qed.

(** The status is read, compared with the recorded one and recorded. *)
Lemma scan_port_start s h i x p st b :
  uhub_list s !! h = Some x -> port x !! i = Some p -> op_port_status (hub_hc x) i (hbus s) = Ret (st, b) ->
  scan_port h i s
  = (if negb (bool_decide (port_status p = USB_PORT_DISCONNECTED)) && bool_decide (st = USB_PORT_DISCONNECTED)
     then detach h i ;;; ret true
     else if bool_decide (port_status p = USB_PORT_DISCONNECTED) && negb (bool_decide (st = USB_PORT_DISCONNECTED))
     then attach h i else ret true) (put_port h i (set_port_status st) (set_hbus b s)).
Proof.
  intros Ex Ep Es. unfold scan_port, get_hub. unfold bind at 1. rewrite Ex. unfold bind at 1, on_bus, zoom. rewrite Es.
  unfold get_port, get_hub. rewrite bind_assoc. unfold bind at 1. cbn [uhub_list set_hbus]. rewrite Ex.
  unfold bind at 1. rewrite Ep. cbn [ret]. unfold upd_port. rewrite bind_modify. reflexivity.
Qed.

(** A port whose connection has not changed is left alone. *)
Lemma scan_port_unchanged s h i x p st b :
  uhub_list s !! h = Some x -> port x !! i = Some p -> op_port_status (hub_hc x) i (hbus s) = Ret (st, b) ->
  (port_status p = USB_PORT_DISCONNECTED <-> st = USB_PORT_DISCONNECTED) ->
  scan_port h i s = Ret (true, put_port h i (set_port_status st) (set_hbus b s)).
Proof.
  intros Ex Ep Es Hst. rewrite (scan_port_start _ _ _ _ _ _ _ Ex Ep Es).
  destruct (decide (st = USB_PORT_DISCONNECTED)) as [Hd|Hd].
  - rewrite !bool_decide_eq_true_2 by tauto. done.
  - rewrite !bool_decide_eq_false_2 by tauto. done.
Qed.

(** A connected device: a record for it, the reset sequence, an address, its
    speed, and its configuration, in this order. *)
Theorem scan_port_attaches s h i x p st b hp p0 b1 b2 b3 b4 b5 b6 b7 b8 a sc st' rc :
  uhub_list s !! h = Some x -> port x !! i = Some p -> port_status p = USB_PORT_DISCONNECTED ->
  op_port_status (hub_hc x) i (hbus s) = Ret (st, b) -> st <> USB_PORT_DISCONNECTED ->
  kzalloc SIZEOF_USB_DEV (heap_of b) = Ret (p0, hp) -> p0 <> 0 ->
  op_port_command (hub_hc x) i USB_PORT_CLEAR_SUSPEND (with_heap hp b) = Ret (tt, b1) ->
  op_port_command (hub_hc x) i USB_PORT_RESET b1 = Ret (tt, b2) ->
  op_port_command (hub_hc x) i USB_PORT_CLEAR_RESET b2 = Ret (tt, b3) ->
  op_port_command (hub_hc x) i USB_PORT_ENABLE b3 = Ret (tt, b4) ->
  op_get_next_addr (hub_hc x) b4 = Ret (a, b5) -> op_port_speed (hub_hc x) i b5 = Ret (sc, b6) ->
  op_port_status (hub_hc x) i b6 = Ret (st', b7) ->
  op_configure p0 (mk_att (hub_hc x) h i sc) a b7 = Ret (rc, b8) ->
  exists s', scan_port h i s = Ret (true, s') /\ hbus s' = b8
    /\ port_of s' h i = Some (mk_port st p0) /\ udevs s' = <[p0 := mk_att (hub_hc x) h i sc]> (udevs s).
Proof.
  intros Ex Ep Hd Es Hst Ek Hp0 E1 E2 E3 E4 E5 E6 E7 E8. rewrite (scan_port_start _ _ _ _ _ _ _ Ex Ep Es).
  rewrite (bool_decide_eq_true_2 _ Hd), (bool_decide_eq_false_2 _ Hst). cbn [negb andb].
  set (s1 := put_port h i (set_port_status st) (set_hbus b s)).
  assert (Ex1 : uhub_list s1 !! h = Some (set_ports (alter (set_port_status st) i (port x)) x)) by (by apply hub_put).
  unfold attach, on_heap, on_bus. unfold bind at 1, zoom. cbn [hbus s1 put_port set_uhub_list set_hbus]. rewrite Ek.
  rewrite (proj2 (Z.eqb_neq p0 0) Hp0). unfold get_hub. unfold bind at 1. fold s1.
  change (uhub_list (set_hbus (with_heap hp b) s1)) with (uhub_list s1). rewrite Ex1. cbn [hub_hc set_ports].
  unfold upd_port, upd_dev. rewrite !bind_modify.
  do 4 (unfold bind at 1; cbn [hbus set_udevs set_uhub_list set_hbus]; rewrite ?E1, ?E2, ?E3, ?E4).
  unfold bind at 1; cbn [hbus set_hbus]; rewrite E5. unfold bind at 1; cbn [hbus set_hbus]; rewrite E6.
  rewrite bind_modify. unfold bind at 1. cbn [hbus set_udevs set_hbus]. rewrite E7. rewrite bind_gets.
  cbn [udevs set_hbus set_udevs set_uhub_list]. rewrite lookup_alter_eq, lookup_insert_eq. cbn [fmap option_fmap option_map].
  unfold set_att_sc at 1. cbn [att_hc att_hub att_port]. unfold bind. cbn [hbus set_hbus set_udevs set_uhub_list]. rewrite E8.
  eexists. split; [reflexivity|]. split; [done|]. split.
  - unfold port_of. cbn [uhub_list set_hbus set_udevs set_uhub_list s1 put_port].
    rewrite list_lookup_alter_eq, list_lookup_alter_eq, Ex. cbn. by rewrite !list_lookup_alter_eq, Ep.
  - cbn. by rewrite alter_insert_eq.
Qed.

(** When there is no memory for a new device, its port is recorded as connected
    all the same, and no later scan tries again while it stays connected. *)
Theorem failed_attach_not_retried s h i x p st b hp :
  uhub_list s !! h = Some x -> port x !! i = Some p -> port_status p = USB_PORT_DISCONNECTED ->
  op_port_status (hub_hc x) i (hbus s) = Ret (st, b) -> st <> USB_PORT_DISCONNECTED ->
  kzalloc SIZEOF_USB_DEV (heap_of b) = Ret (0, hp) ->
  exists s', scan_port h i s = Ret (false, s') /\ port_of s' h i = Some (mk_port st (port_udev p))
    /\ forall s2 x2 st2 b2, uhub_list s2 !! h = Some x2 -> port_of s2 h i = port_of s' h i ->
       op_port_status (hub_hc x2) i (hbus s2) = Ret (st2, b2) -> st2 <> USB_PORT_DISCONNECTED ->
       scan_port h i s2 = Ret (true, put_port h i (set_port_status st2) (set_hbus b2 s2)).
Proof.
  intros Ex Ep Hd Es Hst Ek. rewrite (scan_port_start _ _ _ _ _ _ _ Ex Ep Es).
  rewrite (bool_decide_eq_true_2 _ Hd), (bool_decide_eq_false_2 _ Hst). cbn [negb andb].
  unfold attach, on_heap, on_bus. unfold bind at 1, zoom. cbn [hbus put_port set_uhub_list set_hbus]. rewrite Ek. cbn [Z.eqb].
  eexists. split; [reflexivity|].
  match goal with |- port_of ?t h i = _ /\ _ => assert (Eo : port_of t h i = Some (mk_port st (port_udev p))) end.
  { unfold port_of. cbn [uhub_list set_hbus set_uhub_list put_port]. rewrite list_lookup_alter_eq, Ex. cbn. by rewrite list_lookup_alter_eq, Ep. }
  split; [exact Eo|]. intros s2 x2 st2 b2 Ex2 Eo2 Es2 Hst2. rewrite Eo in Eo2. unfold port_of in Eo2. rewrite Ex2 in Eo2. cbn in Eo2.
  eapply scan_port_unchanged; [exact Ex2|exact Eo2|exact Es2|]. cbn. tauto.
Qed.

End Facts.

(** ** Concrete instances *)

Module Hub_instances.

#[local] Instance heap_itself : HasHeap hst := { heap_of s := s; with_heap h _ := h }.

(** A hub with something on every port. *)
#[local] Instance busy_ports : HubOps hst := {
  op_port_status _ _ := ret USB_PORT_DISABLED;
  op_port_command _ _ _ := ret tt;
  op_port_speed _ _ := ret 1;
  op_get_next_addr _ := ret 1;
  op_configure _ _ _ := ret 0;
  op_driver_free _ := ret tt
}.

(** One block takes the whole heap. *)
Definition full : hst :=
  mk_hst (Schedule_instances.state 1 1 1) (replicate 1024 (mk_chunk 0 1024 1024)) SPINLOCK_INIT (fun _ => 0).

Lemma full_heap : exists h, kzalloc SIZEOF_USB_DEV full = Ret (0, h).
Proof. eexists. vm_compute. reflexivity. Qed.

Definition root : hubst hst := mk_hubst [new_hub 2 0x80] ∅ full.

Lemma failed_attach_not_retried_witness :
  exists s', scan_port 0 0 root = Ret (false, s') /\ port_of s' 0 0 = Some (mk_port USB_PORT_DISABLED 0).
Proof.
  destruct full_heap as [h E].
  destruct (failed_attach_not_retried root 0 0 (new_hub 2 0x80) (mk_port USB_PORT_DISCONNECTED 0) USB_PORT_DISABLED full h)
    as (s' & E1 & E2 & _); [reflexivity|reflexivity|reflexivity|reflexivity|discriminate|exact E|].
  exists s'. split; [exact E1|exact E2].
Defined.

End Hub_instances.
