(* ===== verification/Uhci.v ===== *)
(** * The UHCI host controller driver

    Models [src/src/kernel/usb/uhci.c], [uhci.h] and [uhci_pci.c]: the pools of
    transfer descriptors and transfer units, the schedule of queue heads, data
    transfers over pipes, interrupt pipes, the ports of the root hub and the
    initialisation.

    Objects that are reached through pointers are kept in one store per type,
    indexed by address; 0 is the null pointer.  The queue head of a transfer
    unit at [x] is an object of its own at [x + 16], its offset in the structure,
    because the schedule links queue heads of both kinds.  Page 0 is mapped, so
    what a null pointer names can be read and written if the store has an entry
    there.  The linked lists of [list.h] are the lists [Dlist] shows them to be.

    What is behind pointers or in hardware is a parameter: the ports of the
    controller ([ConfigPorts]), the function of an interrupt pipe, and what
    happens while [yield()] lets the controller and other threads run.
    [ms_delay] only lets time pass; [xfer_print] prints a debug message. *)

From S2P Require Import Prelude CString Sched Ring Schedule Sync Alloc HeapRoom Pci Usb Hub.

(** ** Constants *)

Definition UHCI_FRAME_LIST_SIZE : Z := 1024.
Definition UHCI_LP_ADDR_MASK : Z := 0xfffffff0.
Definition UHCI_LP_QH : Z := 2.
Definition UHCI_LP_TERMINATE : Z := 1.

Definition UHCI_TD_PID_IN : Z := 0x69.
Definition UHCI_TD_PID_OUT : Z := 0xE1.
Definition UHCI_TD_PID_SETUP : Z := 0x2D.
Definition UHCI_TD_DEV_ADDR_OFF : Z := 8.
Definition UHCI_TD_END_POINT_OFF : Z := 15.
Definition UHCI_TD_DATA_TOGGLE_OFF : Z := 19.
Definition UHCI_TD_DATA_TOGGLE_BIT : Z := Z.shiftl 1 19.
Definition UHCI_TD_MAX_LEN_OFF : Z := 21.

Definition UHCI_TD_ERROR_COUNTDOWN_OFF : Z := 27.
Definition UHCI_TD_LS_DEV_OFF : Z := 26.
Definition UHCI_TD_IOC_OFF : Z := 24.
Definition UHCI_TD_ACTIVE_BIT : Z := Z.shiftl 1 23.
Definition UHCI_TD_STALLED_BIT : Z := Z.shiftl 1 22.
Definition UHCI_TD_STATUS_MASK : Z := 0x00fe0000.
Definition UHCI_TD_ACTLEN : Z := 0x000007ff.

Definition UHCI_PORTSC_SUSPEND : Z := Z.shiftl 1 12.
Definition UHCI_PORTSC_RESET : Z := Z.shiftl 1 9.
Definition UHCI_PORTSC_LS_DEV : Z := Z.shiftl 1 8.
Definition UHCI_PORTSC_ENABLE : Z := Z.shiftl 1 2.
Definition UHCI_PORTSC_CURRENT_CONNECT : Z := Z.shiftl 1 0.

Definition UHCI_SS_USB_INT : Z := Z.shiftl 1 0.

Definition USB_PIPE_INTERRUPT : Z := 0x03.
Definition USB_FS_DEV : Z := 1.

Definition SIZEOF_TDC : Z := 12.
Definition SIZEOF_TD : Z := 16.
Definition SIZEOF_QH : Z := 16.
Definition SIZEOF_XFER : Z := 48.
Definition SIZEOF_IQ : Z := 12.
Definition SIZEOF_UHCI : Z := 56.
Definition SIZEOF_HUB : Z := 288.
(** The offset of [qh] in [struct uhci_transfer_unit]. *)
Definition OFF_QH : Z := 16.

(** [enum uhci_registers_enum] *)
Inductive uhci_reg : Type :=
| UHCI_COMMAND | UHCI_STATUS | UHCI_INT_EN | UHCI_FRAME_NUM | UHCI_FRAME_BASE_ADDR | UHCI_START_OF_FRAME_MD.

(** ** Data *)

Record uhci_queue_head : Type := mk_qh { horiz_lp : Z; vert_lp : Z; prev_qh : Z; is_top_queue : Z }.
Definition set_horiz_lp v q := mk_qh v (vert_lp q) (prev_qh q) (is_top_queue q).
Definition set_vert_lp v q := mk_qh (horiz_lp q) v (prev_qh q) (is_top_queue q).
Definition set_prev_qh v q := mk_qh (horiz_lp q) (vert_lp q) v (is_top_queue q).
Definition set_is_top_queue v q := mk_qh (horiz_lp q) (vert_lp q) (prev_qh q) v.

Record uhci_transfer_descriptor : Type := mk_td { lp : Z; control_status : Z; token : Z; buffer_pointer : Z }.
Definition set_lp v t := mk_td v (control_status t) (token t) (buffer_pointer t).
Definition set_control_status v t := mk_td (lp t) v (token t) (buffer_pointer t).
Definition set_token v t := mk_td (lp t) (control_status t) v (buffer_pointer t).

(** [uh] is the address of the controller or 0, [td_list] the containers linked
    on [td_list_head]. *)
Record uhci_transfer_unit : Type := mk_xfer { xuh : Z; td_list : list Z; frame_num : Z }.
Definition set_xuh v x := mk_xfer v (td_list x) (frame_num x).
Definition set_td_list v x := mk_xfer (xuh x) v (frame_num x).
Definition set_frame_num v x := mk_xfer (xuh x) (td_list x) v.

Record uhci : Type := mk_uhci {
  frame_base_addr : Z;
  interrupt_qh : Z; control_qh : Z; bulk_in_qh : Z; bulk_out_qh : Z;
  xfer_qh_lock : spinlock_t;
  next_address : Z;
  iobase : Z;
  interrupt_handlers : list Z
}.
Definition set_frame_base_addr v u := mk_uhci v (interrupt_qh u) (control_qh u) (bulk_in_qh u) (bulk_out_qh u) (xfer_qh_lock u) (next_address u) (iobase u) (interrupt_handlers u).
Definition set_top_qhs i c bi bo u := mk_uhci (frame_base_addr u) i c bi bo (xfer_qh_lock u) (next_address u) (iobase u) (interrupt_handlers u).
Definition set_xfer_qh_lock v u := mk_uhci (frame_base_addr u) (interrupt_qh u) (control_qh u) (bulk_in_qh u) (bulk_out_qh u) v (next_address u) (iobase u) (interrupt_handlers u).
Definition set_next_address v u := mk_uhci (frame_base_addr u) (interrupt_qh u) (control_qh u) (bulk_in_qh u) (bulk_out_qh u) (xfer_qh_lock u) v (iobase u) (interrupt_handlers u).
Definition set_handlers v u := mk_uhci (frame_base_addr u) (interrupt_qh u) (control_qh u) (bulk_in_qh u) (bulk_out_qh u) (xfer_qh_lock u) (next_address u) (iobase u) v.

(** A pipe with the device it belongs to: [udev->hc], [udev->usb_sc],
    [udev->address] and the fields of [struct usb_pipe]. *)
Record upipe : Type := mk_upipe { up_hc : Z; up_sc : Z; up_address : Z; up_pipe : usb_pipe; up_xfer : Z }.
Definition set_up_toggle v p := mk_upipe (up_hc p) (up_sc p) (up_address p) (Usb.set_toggle v (up_pipe p)) (up_xfer p).
Definition set_up_xfer v p := mk_upipe (up_hc p) (up_sc p) (up_address p) (up_pipe p) v.

(** [struct usb_interrupt]; the pipe is an address. *)
Record usb_interrupt : Type := mk_interrupt { int_pipe : Z; int_buff : Z; int_size : Z; int_data : Z }.

Record uhcis {T : Type} : Type := mk_uhcis {
  gheap : hst;
  free_xfers : list Z; xfer_lock : spinlock_t;
  free_tdcs : list Z; tdc_lock : spinlock_t;
  qhs : gmap Z uhci_queue_head;
  tds : gmap Z uhci_transfer_descriptor;
  tdcs : gmap Z Z;
  xfers : gmap Z uhci_transfer_unit;
  iqs : gmap Z Z;
  uis : gmap Z usb_interrupt;
  upipes : gmap Z upipe;
  uhs : gmap Z uhci;
  frame_words : gmap Z Z;
  uhubs : list usb_hub;
  io : T
}.
Arguments uhcis T : clear implicits.
Arguments mk_uhcis {T}.

Section Setters.
Context {T : Type}.
Implicit Type s : uhcis T.
Definition set_gheap v s := mk_uhcis v (free_xfers s) (xfer_lock s) (free_tdcs s) (tdc_lock s) (qhs s) (tds s) (tdcs s) (xfers s) (iqs s) (uis s) (upipes s) (uhs s) (frame_words s) (uhubs s) (io s).
Definition set_free_xfers v s := mk_uhcis (gheap s) v (xfer_lock s) (free_tdcs s) (tdc_lock s) (qhs s) (tds s) (tdcs s) (xfers s) (iqs s) (uis s) (upipes s) (uhs s) (frame_words s) (uhubs s) (io s).
Definition set_xfer_lock v s := mk_uhcis (gheap s) (free_xfers s) v (free_tdcs s) (tdc_lock s) (qhs s) (tds s) (tdcs s) (xfers s) (iqs s) (uis s) (upipes s) (uhs s) (frame_words s) (uhubs s) (io s).
Definition set_free_tdcs v s := mk_uhcis (gheap s) (free_xfers s) (xfer_lock s) v (tdc_lock s) (qhs s) (tds s) (tdcs s) (xfers s) (iqs s) (uis s) (upipes s) (uhs s) (frame_words s) (uhubs s) (io s).
Definition set_tdc_lock v s := mk_uhcis (gheap s) (free_xfers s) (xfer_lock s) (free_tdcs s) v (qhs s) (tds s) (tdcs s) (xfers s) (iqs s) (uis s) (upipes s) (uhs s) (frame_words s) (uhubs s) (io s).
Definition set_qhs v s := mk_uhcis (gheap s) (free_xfers s) (xfer_lock s) (free_tdcs s) (tdc_lock s) v (tds s) (tdcs s) (xfers s) (iqs s) (uis s) (upipes s) (uhs s) (frame_words s) (uhubs s) (io s).
Definition set_tds v s := mk_uhcis (gheap s) (free_xfers s) (xfer_lock s) (free_tdcs s) (tdc_lock s) (qhs s) v (tdcs s) (xfers s) (iqs s) (uis s) (upipes s) (uhs s) (frame_words s) (uhubs s) (io s).
Definition set_tdcs v s := mk_uhcis (gheap s) (free_xfers s) (xfer_lock s) (free_tdcs s) (tdc_lock s) (qhs s) (tds s) v (xfers s) (iqs s) (uis s) (upipes s) (uhs s) (frame_words s) (uhubs s) (io s).
Definition set_xfers v s := mk_uhcis (gheap s) (free_xfers s) (xfer_lock s) (free_tdcs s) (tdc_lock s) (qhs s) (tds s) (tdcs s) v (iqs s) (uis s) (upipes s) (uhs s) (frame_words s) (uhubs s) (io s).
Definition set_iqs v s := mk_uhcis (gheap s) (free_xfers s) (xfer_lock s) (free_tdcs s) (tdc_lock s) (qhs s) (tds s) (tdcs s) (xfers s) v (uis s) (upipes s) (uhs s) (frame_words s) (uhubs s) (io s).
Definition set_upipes v s := mk_uhcis (gheap s) (free_xfers s) (xfer_lock s) (free_tdcs s) (tdc_lock s) (qhs s) (tds s) (tdcs s) (xfers s) (iqs s) (uis s) v (uhs s) (frame_words s) (uhubs s) (io s).
Definition set_uhs v s := mk_uhcis (gheap s) (free_xfers s) (xfer_lock s) (free_tdcs s) (tdc_lock s) (qhs s) (tds s) (tdcs s) (xfers s) (iqs s) (uis s) (upipes s) v (frame_words s) (uhubs s) (io s).
Definition set_frame_words v s := mk_uhcis (gheap s) (free_xfers s) (xfer_lock s) (free_tdcs s) (tdc_lock s) (qhs s) (tds s) (tdcs s) (xfers s) (iqs s) (uis s) (upipes s) (uhs s) v (uhubs s) (io s).
Definition set_uhubs v s := mk_uhcis (gheap s) (free_xfers s) (xfer_lock s) (free_tdcs s) (tdc_lock s) (qhs s) (tds s) (tdcs s) (xfers s) (iqs s) (uis s) (upipes s) (uhs s) (frame_words s) v (io s).
Definition set_io (v : T) s := mk_uhcis (gheap s) (free_xfers s) (xfer_lock s) (free_tdcs s) (tdc_lock s) (qhs s) (tds s) (tdcs s) (xfers s) (iqs s) (uis s) (upipes s) (uhs s) (frame_words s) (uhubs s) v.
End Setters.

(** ** Access to objects and locks *)

Section Operations.

Context {T : Type} `{ConfigPorts T}.

Abbreviation U := (M (uhcis T)).

(** A store, and how to replace it. *)
Record cell {V : Type} : Type := mk_cell { store_of : uhcis T -> gmap Z V; with_store : gmap Z V -> uhcis T -> uhcis T }.
Arguments cell V : clear implicits.

Definition QH : cell uhci_queue_head := mk_cell _ qhs set_qhs.
Definition TD : cell uhci_transfer_descriptor := mk_cell _ tds set_tds.
Definition TDC : cell Z := mk_cell _ tdcs set_tdcs.
Definition XFER : cell uhci_transfer_unit := mk_cell _ xfers set_xfers.
Definition IQ : cell Z := mk_cell _ iqs set_iqs.
Definition PIPE : cell upipe := mk_cell _ upipes set_upipes.
Definition UH : cell uhci := mk_cell _ uhs set_uhs.

(** [p->...] read, an assignment to a field of [*p], and a new object. *)
Definition load {V} (c : cell V) (p : Z) : U V :=
  fun s => match store_of c s !! p with Some v => Ret (v, s) | None => Stuck end.
Definition update {V} (c : cell V) (p : Z) (f : V -> V) : U unit :=
  v <-- load c p ;; modify (fun s => with_store c (<[p := f v]> (store_of c s)) s).
Definition create {V} (c : cell V) (p : Z) (v : V) : U unit :=
  modify (fun s => with_store c (<[p := v]> (store_of c s)) s).

Definition load_ui (p : Z) : U usb_interrupt :=
  fun s => match uis s !! p with Some v => Ret (v, s) | None => Stuck end.

Definition gh {A} (m : M hst A) : U A := zoom gheap set_gheap m.
Definition gk {A} (m : M kst A) : U A := gh (hop m).
Definition port_w (f : T -> T) : U unit := modify (fun s => set_io (f (io s)) s).
Definition port_r (f : T -> Z * T) : U Z := fun s => let '(v, t) := f (io s) in Ret (v, set_io t s).

(** [spinlock_acquire] and [spinlock_release] of a lock of this state. *)
Definition lock (prj : uhcis T -> spinlock_t) (upd : spinlock_t -> uhcis T -> uhcis T) : U unit :=
  l <-- gets prj ;; l' <-- gk (spinlock_acquire SYNC_IMPL l) ;; modify (upd l').
Definition unlock (prj : uhcis T -> spinlock_t) (upd : spinlock_t -> uhcis T -> uhcis T) : U unit :=
  l <-- gets prj ;; l' <-- gk (spinlock_release SYNC_IMPL l) ;; modify (upd l').
Definition lock_uh (u : Z) : U unit :=
  h <-- load UH u ;; l' <-- gk (spinlock_acquire SYNC_IMPL (xfer_qh_lock h)) ;; update UH u (set_xfer_qh_lock l').
Definition unlock_uh (u : Z) : U unit :=
  h <-- load UH u ;; l' <-- gk (spinlock_release SYNC_IMPL (xfer_qh_lock h)) ;; update UH u (set_xfer_qh_lock l').

(** ** uhci_pci.c: registers *)

Definition uhci_pci_read (iobase : Z) (ureg : uhci_reg) : U Z :=
  let iobase := u16 iobase in
  match ureg with
  | UHCI_COMMAND => v <-- port_r (inw iobase) ;; ret (u16 v)
  | UHCI_STATUS => v <-- port_r (inw (iobase + 0x02)) ;; ret (u16 v)
  | UHCI_INT_EN => v <-- port_r (inw (iobase + 0x04)) ;; ret (u16 v)
  | UHCI_FRAME_NUM => v <-- port_r (inw (iobase + 0x06)) ;; ret (u16 v)
  | UHCI_FRAME_BASE_ADDR => v <-- port_r (inl_ (iobase + 0x08)) ;; ret (u32 v)
  | UHCI_START_OF_FRAME_MD => v <-- port_r (inb (iobase + 0x0C)) ;; ret (u8 v)
  end.

Definition uhci_pci_write (iobase : Z) (ureg : uhci_reg) (data : Z) : U unit :=
  let iobase := u16 iobase in
  match ureg with
  | UHCI_COMMAND => port_w (outw (iobase + 0x00) (u16 data))
  | UHCI_STATUS => port_w (outw (iobase + 0x02) (u16 data))
  | UHCI_INT_EN => port_w (outw (iobase + 0x04) (u16 data))
  | UHCI_FRAME_NUM => port_w (outw (iobase + 0x06) (u16 data))
  | UHCI_FRAME_BASE_ADDR => port_w (outl (iobase + 0x08) (u32 data))
  | UHCI_START_OF_FRAME_MD => port_w (outb (iobase + 0x0C) (u8 data))
  end.

Definition uhci_pci_read_portsc (iobase port : Z) : U Z :=
  if 2 <=? port then ret 0 else v <-- port_r (inw (u16 iobase + 0x10 + port * 2)) ;; ret (u16 v).
Definition uhci_pci_write_portsc (iobase port data : Z) : U unit :=
  if 2 <=? port then ret tt else port_w (outw (u16 iobase + 0x10 + port * 2) (u16 data)).

(** ** Transfer descriptors *)

(** A container that is freed at once has no entry in the store. *)
Definition tdc_alloc : U Z :=
  lock tdc_lock set_tdc_lock ;;;
  l <-- gets free_tdcs ;;
  match l with
  | tdc :: rest => modify (set_free_tdcs rest) ;;; unlock tdc_lock set_tdc_lock ;;; ret tdc
  | [] =>
      unlock tdc_lock set_tdc_lock ;;;
      tdc <-- gh (kzalloc SIZEOF_TDC) ;;
      if tdc =? 0 then ret 0
      else
        td <-- gh (kzalloc_align SIZEOF_TD 16) ;;
        if td =? 0 then gh (kfree tdc) ;;; ret 0
        else create TDC tdc td ;;; create TD td (mk_td 0 0 0 0) ;;; ret tdc
  end.

Definition tdc_free (tdc : Z) : U unit :=
  lock tdc_lock set_tdc_lock ;;;
  modify (fun s => set_free_tdcs (free_tdcs s ++ [tdc]) s) ;;;
  unlock tdc_lock set_tdc_lock.

Definition reactivated (toggle : Z) (t : uhci_transfer_descriptor) : uhci_transfer_descriptor :=
  let cs := Z.land (control_status t) (Z.lnot UHCI_TD_ACTLEN) in
  let cs := Z.land cs (Z.lnot UHCI_TD_STATUS_MASK) in
  let cs := Z.lor cs UHCI_TD_ACTIVE_BIT in
  let tok := Z.land (token t) (Z.lnot UHCI_TD_DATA_TOGGLE_BIT) in
  set_token (u32 (Z.lor tok toggle)) (set_control_status (u32 cs) t).

Definition td_reactivate (pipe td : Z) : U unit :=
  p <-- load PIPE pipe ;; update TD td (reactivated (toggle_bit (up_pipe p))).

Definition td_status (sc attr : Z) : Z :=
  u32 (Z.lor (Z.lor (Z.lor (Z.shiftl (if sc =? USB_LS_DEV then 1 else 0) UHCI_TD_LS_DEV_OFF)
                           (Z.shiftl 3 UHCI_TD_ERROR_COUNTDOWN_OFF))
                    (Z.shiftl (if attr =? USB_PIPE_INTERRUPT then 1 else 0) UHCI_TD_IOC_OFF))
             UHCI_TD_ACTIVE_BIT).

Definition td_token (size toggle ep address pid : Z) : Z :=
  u32 (Z.lor (Z.lor (Z.lor (Z.lor (Z.shiftl (size - 1) UHCI_TD_MAX_LEN_OFF)
                                  (Z.shiftl toggle UHCI_TD_DATA_TOGGLE_OFF))
                           (Z.shiftl ep UHCI_TD_END_POINT_OFF))
                    (Z.shiftl address UHCI_TD_DEV_ADDR_OFF)) pid).

(** The descriptor that [td_build] fills in. *)
Definition built (p : upipe) (pid size data : Z) : uhci_transfer_descriptor :=
  mk_td UHCI_LP_TERMINATE (td_status (up_sc p) (attributes (up_pipe p)))
    (td_token size (toggle_bit (up_pipe p)) (ep_address (up_pipe p)) (up_address p) (u8 pid)) (u32 data).

Definition td_build (pipe pid size data : Z) : U Z :=
  tdc <-- tdc_alloc ;;
  if tdc =? 0 then ret 0
  else
    td <-- load TDC tdc ;;
    p <-- load PIPE pipe ;;
    update TD td (fun _ => built p pid size data) ;;;
    ret tdc.

(** ** Transfer units *)

Definition blank_qh : uhci_queue_head := mk_qh 0 0 0 0.

(** [xfer->qh.horiz_lp = ...; xfer->qh.vert_lp = ...; LIST_INIT(...)]: after these
    the unit is known up to the other fields of [v] and [q]. *)
Definition prepare_xfer (x : Z) (q : uhci_queue_head) (v : uhci_transfer_unit) : U unit :=
  create QH (x + OFF_QH) (set_vert_lp UHCI_LP_TERMINATE (set_horiz_lp UHCI_LP_TERMINATE q)) ;;;
  create XFER x (set_td_list [] v).

(** The first unit of the free list that the controller is done with. *)
Fixpoint find_xfer (l : list Z) : U (option Z) :=
  match l with
  | [] => ret None
  | x :: l' =>
      v <-- load XFER x ;;
      if negb (xuh v =? 0) then
        uh <-- load UH (xuh v) ;;
        n <-- uhci_pci_read (iobase uh) UHCI_FRAME_NUM ;;
        if frame_num v =? n then find_xfer l' else ret (Some x)
      else ret (Some x)
  end.

Definition unlink (x : Z) (l : list Z) : list Z := filter (fun y => y <> x) l.

Definition xfer_alloc : U Z :=
  lock xfer_lock set_xfer_lock ;;;
  l <-- gets free_xfers ;;
  r <-- find_xfer l ;;
  match r with
  | Some x =>
      modify (fun s => set_free_xfers (unlink x (free_xfers s)) s) ;;;
      unlock xfer_lock set_xfer_lock ;;;
      prepare_xfer x blank_qh (mk_xfer 0 [] 0) ;;;
      ret x
  | None =>
      unlock xfer_lock set_xfer_lock ;;;
      x <-- gh (kzalloc SIZEOF_XFER) ;;
      prepare_xfer x blank_qh (mk_xfer 0 [] 0) ;;;
      ret x
  end.

Fixpoint free_each (x : Z) (l : list Z) : U unit :=
  match l with
  | [] => ret tt
  | tdc :: l' =>
      update XFER x (fun v => set_td_list (unlink tdc (td_list v)) v) ;;;
      tdc_free tdc ;;;
      free_each x l'
  end.

Definition xfer_free (x : Z) : U unit :=
  v <-- load XFER x ;;
  free_each x (td_list v) ;;;
  lock xfer_lock set_xfer_lock ;;;
  modify (fun s => set_free_xfers (free_xfers s ++ [x]) s) ;;;
  unlock xfer_lock set_xfer_lock.

Fixpoint count_bytes (l : list Z) (xfer_bytes : Z) : U Z :=
  match l with
  | [] => ret xfer_bytes
  | tdc :: l' =>
      td <-- load TDC tdc ;; t <-- load TD td ;;
      count_bytes l' (s32 (xfer_bytes + Z.land (u32 (control_status t + 1)) UHCI_TD_ACTLEN))
  end.

Definition xfer_count_bytes (x : Z) : U Z := v <-- load XFER x ;; count_bytes (td_list v) 0.

Fixpoint sum_status (l : list Z) (status : Z) : U Z :=
  match l with
  | [] => ret status
  | tdc :: l' =>
      td <-- load TDC tdc ;; t <-- load TD td ;; sum_status l' (Z.lor status (control_status t))
  end.

Definition xfer_get_status (x : Z) : U Z :=
  v <-- load XFER x ;; status <-- sum_status (td_list v) 0 ;; ret (Z.land status UHCI_TD_STATUS_MASK).

Definition xfer_add_tdc (x tdc : Z) : U unit :=
  q <-- load QH (x + OFF_QH) ;;
  td <-- load TDC tdc ;;
  (if vert_lp q =? UHCI_LP_TERMINATE then update QH (x + OFF_QH) (set_vert_lp (u32 td))
   else
     v <-- load XFER x ;;
     match list.last (td_list v) with
     | None => stuck
     | Some tdc_tmp => td_tmp <-- load TDC tdc_tmp ;; update TD td_tmp (set_lp (u32 td))
     end) ;;;
  update XFER x (fun v => set_td_list (td_list v ++ [tdc]) v).

(** ** The schedule *)

Definition xfer_enqueue (x u uhci_qh : Z) : U unit :=
  update XFER x (set_xuh u) ;;;
  lock_uh u ;;;
  top <-- load QH uhci_qh ;;
  (if truth (Z.land (vert_lp top) UHCI_LP_TERMINATE) then
     update QH (x + OFF_QH) (set_horiz_lp (horiz_lp top))
   else
     update QH (x + OFF_QH) (set_horiz_lp (vert_lp top)) ;;;
     update QH (Z.land (vert_lp top) UHCI_LP_ADDR_MASK) (set_prev_qh (x + OFF_QH))) ;;;
  update QH (x + OFF_QH) (set_prev_qh uhci_qh) ;;;
  update QH uhci_qh (set_vert_lp (Z.lor (u32 (x + OFF_QH)) UHCI_LP_QH)) ;;;
  unlock_uh u.

Definition xfer_dequeue (x : Z) : U unit :=
  let qh := x + OFF_QH in
  v <-- load XFER x ;;
  let u := xuh v in
  lock_uh u ;;;
  q <-- load QH qh ;;
  let next_qh := Z.land (horiz_lp q) UHCI_LP_ADDR_MASK in
  n <-- load QH next_qh ;;
  when (is_top_queue n =? 0) (update QH next_qh (set_prev_qh (prev_qh q))) ;;;
  q <-- load QH qh ;;
  let prev_qh := prev_qh q in
  p <-- load QH prev_qh ;;
  n <-- load QH next_qh ;;
  (if truth (is_top_queue p) && truth (is_top_queue n) then update QH prev_qh (set_vert_lp UHCI_LP_TERMINATE)
   else if truth (is_top_queue p) then update QH prev_qh (set_vert_lp (horiz_lp q))
   else update QH prev_qh (set_horiz_lp (horiz_lp q))) ;;;
  uh <-- load UH u ;;
  f <-- uhci_pci_read (iobase uh) UHCI_FRAME_NUM ;;
  update XFER x (set_frame_num f) ;;;
  unlock_uh u.

Definition uhci_static_init : U unit :=
  modify (fun s => set_xfer_lock SPINLOCK_INIT (set_free_xfers [] s)) ;;;
  modify (fun s => set_tdc_lock SPINLOCK_INIT (set_free_tdcs [] s)).

(** ** Data transfers *)

(** What happens while [yield()] waits for this thread to be chosen again, and
    the function of an interrupt pipe applied to its argument. *)
Context (pause : U unit) (interrupt_h : Z -> U unit).

(** The [do] loop over packets: [ERR_NO_MEM], or 0 when all are linked.  Each
    round but the last transfers at least one byte if [max_packet_size] is
    positive, so [size + 1] rounds are enough. *)
Fixpoint build_packets (fuel : nat) (pipe pid x remaining_size data : Z) : U Z :=
  p <-- load PIPE pipe ;;
  let mps := max_packet_size (up_pipe p) in
  let packet_size := if mps <? remaining_size then mps else remaining_size in
  let remaining_size := remaining_size - packet_size in
  tdc <-- td_build pipe pid packet_size data ;;
  let data := u32 (data + packet_size) in
  if tdc =? 0 then ret ERR_NO_MEM
  else
    update PIPE pipe (fun p => set_up_toggle (1 - toggle_bit (up_pipe p)) p) ;;;
    xfer_add_tdc x tdc ;;;
    if 0 <? remaining_size then
      match fuel with
      | O => out_of_fuel
      | S fuel' => build_packets fuel' pipe pid x remaining_size data
      end
    else ret 0.

(** The loop that waits for the controller; [polls] bounds the number of
    [yield]s. *)
Fixpoint wait_done (polls : nat) (x : Z) : U Z :=
  status <-- xfer_get_status x ;;
  if status =? 0 then ret 0
  else if truth (Z.land status UHCI_TD_STALLED_BIT) then ret ERR_DEV_STALLED
  else match polls with
       | O => out_of_fuel
       | S polls' => pause ;;; wait_done polls' x
       end.

(** The top queue for a packet identifier. *)
Definition queue_for (pid : Z) (uh : uhci) : option Z :=
  if pid =? UHCI_TD_PID_IN then Some (bulk_in_qh uh)
  else if pid =? UHCI_TD_PID_OUT then Some (bulk_out_qh uh)
  else if pid =? UHCI_TD_PID_SETUP then Some (control_qh uh)
  else None.

(** From the enqueueing of the transfer to its removal. *)
Definition run_transfer (polls : nat) (u pid x : Z) : U Z :=
  uh <-- load UH u ;;
  match queue_for pid uh with
  | None => ret ERR_PROTO
  | Some top =>
      xfer_enqueue x u top ;;;
      err <-- wait_done polls x ;;
      xfer_dequeue x ;;;
      if err =? 0 then xfer_count_bytes x else ret err
  end.

Definition uhci_read_write (polls : nat) (pipe pid size data : Z) : U Z :=
  p <-- load PIPE pipe ;;
  let u := up_hc p in
  when (pid =? UHCI_TD_PID_SETUP) (update PIPE pipe (set_up_toggle 0)) ;;;
  x <-- xfer_alloc ;;
  if x =? 0 then ret ERR_NO_MEM
  else
    err <-- build_packets (Z.to_nat size) pipe pid x size data ;;
    err <-- (if negb (err =? 0) then ret err else run_transfer polls u pid x) ;;
    xfer_free x ;;;
    ret err.

Definition uhci_read (polls : nat) (pipe size data : Z) : U Z := uhci_read_write polls pipe UHCI_TD_PID_IN size data.
Definition uhci_write (polls : nat) (pipe size data : Z) : U Z := uhci_read_write polls pipe UHCI_TD_PID_OUT size data.
Definition uhci_setup (polls : nat) (pipe data : Z) : U Z := uhci_read_write polls pipe UHCI_TD_PID_SETUP 8 data.

Definition uhci_get_next_address (u : Z) : U Z :=
  uh <-- load UH u ;;
  update UH u (fun uh => set_next_address (s32 (next_address uh + 1)) uh) ;;;
  ret (u8 (next_address uh)).

(** ** Interrupt pipes *)

Definition uhci_register_interrupt_h (ui : Z) : U Z :=
  i <-- load_ui ui ;;
  p <-- load PIPE (int_pipe i) ;;
  let u := up_hc p in
  iq <-- gh (kzalloc SIZEOF_IQ) ;;
  if iq =? 0 then ret ERR_NO_MEM
  else
    create IQ iq ui ;;;
    x <-- xfer_alloc ;;
    if x =? 0 then ret ERR_NO_MEM
    else
      tdc <-- td_build (int_pipe i) UHCI_TD_PID_IN (int_size i) (int_buff i) ;;
      if tdc =? 0 then xfer_free x ;;; gh (kfree iq) ;;; ret ERR_NO_MEM
      else
        xfer_add_tdc x tdc ;;;
        update PIPE (int_pipe i) (set_up_xfer x) ;;;
        gk enter ;;;
        update UH u (fun h => set_handlers (interrupt_handlers h ++ [iq]) h) ;;;
        gk leave ;;;
        uh <-- load UH u ;;
        xfer_enqueue x u (interrupt_qh uh) ;;;
        ret 0.

Fixpoint find_handler (ui : Z) (l : list Z) : U (option Z) :=
  match l with
  | [] => ret None
  | iq :: l' => v <-- load IQ iq ;; if v =? ui then ret (Some iq) else find_handler ui l'
  end.

Definition uhci_remove_interrupt_h (ui : Z) : U Z :=
  i <-- load_ui ui ;;
  p <-- load PIPE (int_pipe i) ;;
  let u := up_hc p in
  uh <-- load UH u ;;
  r <-- find_handler ui (interrupt_handlers uh) ;;
  match r with
  | None => ret 0
  | Some iq =>
      gk enter ;;;
      update UH u (fun h => set_handlers (unlink iq (interrupt_handlers h)) h) ;;;
      gk leave ;;;
      p <-- load PIPE (int_pipe i) ;;
      xfer_dequeue (up_xfer p) ;;;
      xfer_free (up_xfer p) ;;;
      gh (kfree iq) ;;;
      ret 0
  end.

(** One registered handler; [xfer_status] is a [uint16_t]. *)
Definition serve (iq : Z) : U unit :=
  ui <-- load IQ iq ;;
  i <-- load_ui ui ;;
  p <-- load PIPE (int_pipe i) ;;
  let x := up_xfer p in
  status <-- xfer_get_status x ;;
  let xfer_status := u16 status in
  if truth (Z.land xfer_status UHCI_TD_ACTIVE_BIT) then ret tt
  else
    interrupt_h (int_data i) ;;;
    update PIPE (int_pipe i) (fun p => set_up_toggle (1 - toggle_bit (up_pipe p)) p) ;;;
    v <-- load XFER x ;;
    match td_list v with
    | [] => stuck
    | tdc :: _ =>
        td <-- load TDC tdc ;;
        td_reactivate (int_pipe i) td ;;;
        update QH (x + OFF_QH) (set_vert_lp (u32 td))
    end.

Fixpoint serve_all (l : list Z) : U unit :=
  match l with
  | [] => ret tt
  | iq :: l' => serve iq ;;; serve_all l'
  end.

(** The handlers of this system do not change the list while it is walked. *)
Definition uhci_interrupt (u : Z) : U unit :=
  uh <-- load UH u ;;
  int_status <-- uhci_pci_read (iobase uh) UHCI_STATUS ;;
  uhci_pci_write (iobase uh) UHCI_STATUS int_status ;;;
  when (truth (Z.land int_status UHCI_SS_USB_INT))
    (uh <-- load UH u ;; serve_all (interrupt_handlers uh)).

(** ** Ports of the root hub *)

Definition uhci_port_set_bit (u port bit : Z) : U unit :=
  uh <-- load UH u ;;
  status <-- uhci_pci_read_portsc (iobase uh) port ;;
  uhci_pci_write_portsc (iobase uh) port (u16 (Z.lor status bit)).

Definition uhci_port_clear_bit (u port bit : Z) : U unit :=
  uh <-- load UH u ;;
  status <-- uhci_pci_read_portsc (iobase uh) port ;;
  uhci_pci_write_portsc (iobase uh) port (u16 (Z.land status (Z.lnot bit))).

Definition uhci_port_status (u port : Z) : U port_status_e :=
  uh <-- load UH u ;;
  status <-- uhci_pci_read_portsc (iobase uh) port ;;
  ret (if Z.land status UHCI_PORTSC_CURRENT_CONNECT =? 0 then USB_PORT_DISCONNECTED
       else if Z.land status UHCI_PORTSC_ENABLE =? 0 then USB_PORT_DISABLED
       else if Z.land status UHCI_PORTSC_SUSPEND =? 0 then USB_PORT_ENABLED
       else USB_PORT_SUSPENDED).

(** The loop of [USB_PORT_ENABLE], which polls until the port is enabled or
    nothing is connected. *)
Fixpoint wait_enabled (polls : nat) (u port : Z) : U unit :=
  uh <-- load UH u ;;
  value <-- uhci_pci_read_portsc (iobase uh) port ;;
  if (Z.land value UHCI_PORTSC_ENABLE =? 0) && truth (Z.land value UHCI_PORTSC_CURRENT_CONNECT) then
    match polls with
    | O => out_of_fuel
    | S polls' => wait_enabled polls' u port
    end
  else ret tt.

Definition uhci_port_command (polls : nat) (u port : Z) (command : uhub_port_command_e) : U unit :=
  match command with
  | USB_PORT_RESET => uhci_port_set_bit u port UHCI_PORTSC_RESET
  | USB_PORT_CLEAR_RESET => uhci_port_clear_bit u port UHCI_PORTSC_RESET
  | USB_PORT_ENABLE => uhci_port_set_bit u port UHCI_PORTSC_ENABLE ;;; wait_enabled polls u port
  | USB_PORT_DISABLE => uhci_port_clear_bit u port UHCI_PORTSC_ENABLE
  | USB_PORT_CLEAR_SUSPEND => uhci_port_clear_bit u port UHCI_PORTSC_SUSPEND
  end.

Definition uhci_port_speed (u port : Z) : U Z :=
  uh <-- load UH u ;;
  v <-- uhci_pci_read_portsc (iobase uh) port ;;
  ret (if negb (Z.land v UHCI_PORTSC_LS_DEV =? 0) then USB_LS_DEV else USB_FS_DEV).

(** ** Initialisation *)

(** A new queue head; nothing is created at the null pointer. *)
Definition new_qh : U Z :=
  q <-- gh (kzalloc_align SIZEOF_QH 16) ;;
  when (negb (q =? 0)) (create QH q blank_qh) ;;;
  ret q.

Definition link_top (q next : Z) : U unit :=
  update QH q (set_horiz_lp next) ;;;
  update QH q (set_vert_lp UHCI_LP_TERMINATE) ;;;
  update QH q (set_is_top_queue 1).

Definition fill_frames (base v : Z) : U unit :=
  for_up (Z.to_nat UHCI_FRAME_LIST_SIZE) base 4 (fun a =>
    modify (fun s => set_frame_words (<[u32 a := v]> (frame_words s)) s)).

Fixpoint wait_reset (polls : nat) (base : Z) : U unit :=
  c <-- uhci_pci_read base UHCI_COMMAND ;;
  if negb (Z.land c 0x0002 =? 0) then
    match polls with
    | O => out_of_fuel
    | S polls' => wait_reset polls' base
    end
  else ret tt.

Definition uhci_init (polls : nat) (u : Z) : U Z :=
  i <-- new_qh ;; c <-- new_qh ;; bi <-- new_qh ;; bo <-- new_qh ;;
  update UH u (set_top_qhs i c bi bo) ;;;
  link_top i (Z.lor (u32 c) UHCI_LP_QH) ;;;
  link_top c (Z.lor (u32 bi) UHCI_LP_QH) ;;;
  link_top bi (Z.lor (u32 bo) UHCI_LP_QH) ;;;
  link_top bo UHCI_LP_TERMINATE ;;;
  update UH u (set_xfer_qh_lock SPINLOCK_INIT) ;;;
  update UH u (set_next_address 1) ;;;
  update UH u (set_handlers []) ;;;
  fb <-- gh (kzalloc_align (UHCI_FRAME_LIST_SIZE * 4) (Z.shiftl 1 12)) ;;
  update UH u (set_frame_base_addr fb) ;;;
  fill_frames fb UHCI_LP_TERMINATE ;;;
  fill_frames fb (Z.lor (u32 i) UHCI_LP_QH) ;;;
  uh <-- load UH u ;;
  uhci_pci_write (iobase uh) UHCI_COMMAND 0x0004 ;;;
  wait_reset polls (iobase uh) ;;;
  uhci_pci_write (iobase uh) UHCI_COMMAND 0x0000 ;;;
  uhci_pci_write (iobase uh) UHCI_FRAME_BASE_ADDR (u32 fb) ;;;
  uhci_pci_write (iobase uh) UHCI_FRAME_NUM 0 ;;;
  uhci_pci_write (iobase uh) UHCI_INT_EN 0x0004 ;;;
  uhci_pci_write (iobase uh) UHCI_COMMAND 0x00C1 ;;;
  h <-- gh (kzalloc SIZEOF_HUB) ;;
  if h =? 0 then ret ERR_NO_MEM
  else modify (fun s => set_uhubs (uhubs s ++ [new_hub 2 u]) s) ;;; ret 0.

(** [uhci_pci_init]; [pci_read] and [pci_write] are the accesses to the
    configuration space of the device, which [Pci] models. *)
Definition uhci_pci_init (pci_read : Z -> U Z) (pci_write : Z -> Z -> U unit) (polls : nat) : U Z :=
  u <-- gh (kzalloc SIZEOF_UHCI) ;;
  if u =? 0 then ret ERR_NO_MEM
  else
    b <-- pci_read 0x20 ;;
    create UH u (mk_uhci 0 0 0 0 0 SPINLOCK_INIT 0 (Z.land b 0xfffc) []) ;;;
    pci_write 0x00c0 0x2000 ;;;
    err <-- uhci_init polls u ;;
    if err <? 0 then ret err else ret 0.

Definition uhci_pci_interrupt (driver : Z) : U unit := uhci_interrupt driver.

End Operations.

#[global] Arguments cell T V : clear implicits.
