(* ===== verification/UhciSched.v ===== *)
(** * The UHCI schedule

    The queue heads that [uhci.c] links form one chain for the controller:
    each top queue leads into the transfers that are queued on it, and the last
    of these leads to the next top queue.  This file states what the links
    represent, a list of transfers per top queue; shows that [xfer_enqueue] and
    [xfer_dequeue] are insertion and removal in these lists; and that the walk of
    the controller along the links visits each transfer once and ends. *)

From S2P Require Import Prelude CString Sched Ring Schedule Sync Alloc HeapRoom Pci Usb Hub Uhci.

(** ** Link pointers *)

(** Queue heads are aligned to 16 bytes and not at the null pointer. *)
Definition qaddr (a : Z) : Prop := 0 < a < 2 ^ 32 /\ a mod 16 = 0.
Definition to_qh (a : Z) : Z := Z.lor a UHCI_LP_QH.

Lemma to_qh_sum a : a mod 16 = 0 -> to_qh a = a + 2.
Proof. intros Ha. unfold to_qh, UHCI_LP_QH. apply (lor_comm_add 2 a 4); [lia|lia|exact Ha]. Qed.

Lemma mask_addr v : 0 <= v < 2 ^ 32 -> Z.land v UHCI_LP_ADDR_MASK = v / 16 * 16.
Proof.
  intros Hv. unfold UHCI_LP_ADDR_MASK. change 0xfffffff0 with (Z.shiftl (Z.ones 28) 4). rewrite land_field by lia.
  change (2 ^ 4) with 16. change (2 ^ 28) with 268435456. change (2 ^ 32) with 4294967296 in Hv. zdiv.
Qed.

Lemma mask_to_qh a : qaddr a -> Z.land (to_qh a) UHCI_LP_ADDR_MASK = a.
Proof.
  intros [Hr Ha]. rewrite to_qh_sum by done. change (2 ^ 32) with 4294967296 in Hr.
  rewrite mask_addr by (change (2 ^ 32) with 4294967296; zdiv). zdiv.
Qed.

Lemma land_bit v n : 0 <= n -> Z.land v (2 ^ n) = if Z.testbit v n then 2 ^ n else 0.
Proof.
  intros Hn. apply Z.bits_inj'. intros k Hk. rewrite Z.land_spec, Z.pow2_bits_eqb by done.
  destruct (Z.eqb_spec n k) as [->|Hne]; [|rewrite andb_false_r; destruct (Z.testbit v n);
    by rewrite ?Z.pow2_bits_false, ?Z.bits_0 by done].
  rewrite andb_true_r. destruct (Z.testbit v k) eqn:E; [by rewrite Z.pow2_bits_true|by rewrite Z.bits_0].
Qed.

Lemma to_qh_valid a : a mod 16 = 0 -> Z.land (to_qh a) UHCI_LP_TERMINATE = 0 /\ Z.land (to_qh a) UHCI_LP_QH = 2.
Proof.
  intros Ha. rewrite to_qh_sum by done. unfold UHCI_LP_TERMINATE, UHCI_LP_QH. split.
  - change 1 with (Z.ones 1). rewrite Z.land_ones by lia. change (2 ^ 1) with 2. zdiv.
  - rewrite (land_bit _ 1) by lia. rewrite Z.testbit_odd, Z.shiftr_div_pow2 by lia. change (2 ^ 1) with 2.
    replace (Z.odd ((a + 2) / 2)) with true; [done|]. symmetry. rewrite Zodd_mod. apply Z.eqb_eq. zdiv.
Qed.

(** ** Chains of queue heads *)

(** The link to the first of [xs], or past its end. *)
Definition link (xs : list Z) (e : Z) : Z := match xs with [] => e | q :: _ => to_qh q end.

(** [xs] in the order of their horizontal links, the last one linked to [e]; the
    back references start at [p]; the vertical links are not to queue heads. *)
Fixpoint qchain (m : gmap Z uhci_queue_head) (p : Z) (xs : list Z) (e : Z) : Prop :=
  match xs with
  | [] => True
  | q :: xs' =>
      (exists r, m !! q = Some r /\ horiz_lp r = link xs' e /\ prev_qh r = p /\ is_top_queue r = 0
        /\ Z.land (vert_lp r) UHCI_LP_QH = 0)
      /\ qchain m q xs' e
  end.

Lemma qchain_ext m m' xs e : forall p, (forall a, a ∈ xs -> m' !! a = m !! a) -> qchain m p xs e -> qchain m' p xs e.
Proof.
  induction xs as [|q xs IH]; intros p Hm; [done|]. intros [H1 H2]. split.
  - rewrite Hm by left. exact H1.
  - apply IH; [|done]. intros a Ha. apply Hm. by right.
Qed.

Lemma qchain_app m l1 l2 e : forall p,
  qchain m p (l1 ++ l2) e <-> qchain m p l1 (link l2 e) /\ qchain m (default p (list.last l1)) l2 e.
Proof.
  induction l1 as [|q l1 IH]; intros p; cbn [app]; [cbn; naive_solver|]. cbn [qchain]. rewrite IH.
  assert (El : link (l1 ++ l2) e = link l1 (link l2 e)) by (by destruct l1). rewrite El.
  assert (Ed : default p (list.last (q :: l1)) = default q (list.last l1)).
  { destruct l1 as [|a l1]; [done|]. change (list.last (q :: a :: l1)) with (list.last (a :: l1)).
    destruct (list.last (a :: l1)) eqn:E; [done|]. by apply last_None in E. }
  rewrite Ed. naive_solver.
Qed.

(** A new exit for a chain that is not empty. *)
Lemma qchain_set_exit m l q e e' r : forall p,
  qchain m p (l ++ [q]) e -> (q ∉ l) -> m !! q = Some r ->
  qchain (<[q := set_horiz_lp e' r]> m) p (l ++ [q]) e'.
Proof.
  intros p H Hq Er. apply qchain_app in H as [H1 H2]. apply qchain_app. cbn [link] in *. split.
  - eapply qchain_ext, H1. intros a Ha. rewrite lookup_insert_ne; [done|]. by intros ->.
  - destruct H2 as [(r' & E' & A & B & C & D) _]. rewrite Er in E'. injection E' as <-.
    split; [|done]. exists (set_horiz_lp e' r). rewrite lookup_insert_eq. done.
Qed.

(** A new predecessor for the first of a chain. *)
Lemma qchain_set_prev m p p' q xs e r :
  qchain m p (q :: xs) e -> (q ∉ xs) -> m !! q = Some r ->
  qchain (<[q := set_prev_qh p' r]> m) p' (q :: xs) e.
Proof.
  intros [(r' & E' & A & B & C & D) H2] Hq Er. rewrite Er in E'. injection E' as <-. split.
  - exists (set_prev_qh p' r). by rewrite lookup_insert_eq.
  - eapply qchain_ext, H2. intros a Ha. rewrite lookup_insert_ne; [done|]. by intros ->.
Qed.

(** A top queue [t], the link [nx] to the one after it, and its transfers. *)
Definition top_ok (m : gmap Z uhci_queue_head) (t nx : Z) (xs : list Z) : Prop :=
  (exists r, m !! t = Some r /\ is_top_queue r = 1 /\ horiz_lp r = nx /\ vert_lp r = link xs UHCI_LP_TERMINATE)
  /\ qchain m t xs nx.

Lemma top_ok_ext m m' t nx xs : (forall a, a ∈ t :: xs -> m' !! a = m !! a) -> top_ok m t nx xs -> top_ok m' t nx xs.
Proof.
  intros Hm [H1 H2]. split; [rewrite Hm by left; done|]. eapply qchain_ext, H2. intros a Ha. apply Hm. by right.
Qed.

(** The schedule: top queues with their transfers. *)
Definition heads (qs : list (Z * list Z)) : Z := match qs with [] => UHCI_LP_TERMINATE | (t, _) :: _ => to_qh t end.

Fixpoint queues (m : gmap Z uhci_queue_head) (qs : list (Z * list Z)) : Prop :=
  match qs with
  | [] => True
  | (t, xs) :: qs' => top_ok m t (heads qs') xs /\ queues m qs'
  end.

(** All its queue heads, in the order the controller meets them. *)
Definition members (qs : list (Z * list Z)) : list Z := concat ((fun '(t, xs) => t :: xs) <$> qs).

Lemma members_app l r : members (l ++ r) = members l ++ members r.
Proof. unfold members. by rewrite fmap_app, concat_app. Qed.

Lemma queues_ext m m' qs : (forall a, a ∈ members qs -> m' !! a = m !! a) -> queues m qs -> queues m' qs.
Proof.
  induction qs as [|[t xs] qs IH]; intros Hm; [done|]. cbn [members fmap list_fmap concat] in Hm. intros [H1 H2]. split.
  - eapply top_ok_ext, H1. intros a Ha. apply Hm. apply elem_of_app. by left.
  - apply IH; [|done]. intros a Ha. apply Hm. apply elem_of_app. by right.
Qed.

(** The part of one top queue can be replaced. *)
Lemma queues_focus m l t xs r :
  queues m (l ++ (t, xs) :: r) ->
  top_ok m t (heads r) xs
  /\ forall m' xs', (forall a, a ∈ members l ++ members r -> m' !! a = m !! a) -> top_ok m' t (heads r) xs' ->
     queues m' (l ++ (t, xs') :: r).
Proof.
  induction l as [|[t' ys] l IH]; cbn [app queues].
  - intros [H1 H2]. split; [done|]. intros m' xs' Hm H'. split; [done|]. by eapply queues_ext, H2.
  - intros [H1 H2]. destruct (IH H2) as [H3 H4]. split; [done|]. intros m' xs' Hm H'. split.
    + assert (Eh : heads (l ++ (t, xs') :: r) = heads (l ++ (t, xs) :: r)) by (by destruct l as [|[] ?]).
      rewrite Eh. eapply top_ok_ext, H1. intros a Ha. apply Hm. apply elem_of_app. left.
      cbn [members fmap list_fmap concat]. apply elem_of_app. by left.
    + apply H4; [|done]. intros a Ha. apply Hm. apply elem_of_app in Ha as [Ha|Ha]; apply elem_of_app; [left|by right].
      cbn [members fmap list_fmap concat]. apply elem_of_app. by right.
Qed.

Lemma last_or_nil {A} (l : list A) : l = [] \/ exists l' z, l = l' ++ [z].
Proof. induction l as [|z l _] using rev_ind; [by left|right]. by exists l, z. Qed.

(** ** Insertion and removal, on the store of queue heads *)

(** The assignments of [xfer_enqueue]: [q] in front of the transfers of [t]. *)
Lemma top_enqueue m t nx xs q r rt :
  top_ok m t nx xs -> NoDup (q :: t :: xs) -> m !! q = Some r -> is_top_queue r = 0 ->
  Z.land (vert_lp r) UHCI_LP_QH = 0 -> m !! t = Some rt ->
  let r1 := set_horiz_lp (if decide (xs = []) then horiz_lp rt else vert_lp rt) r in
  let m1 := <[q := r1]> m in
  let m2 := match xs with
            | [] => m1
            | n :: _ => match m1 !! n with Some rn => <[n := set_prev_qh q rn]> m1 | None => m1 end
            end in
  top_ok (<[t := set_vert_lp (to_qh q) rt]> (<[q := set_prev_qh t r1]> m2)) t nx (q :: xs).
Proof.
  intros [(r' & E' & A & B & C) H2] Hnd Er Htop Hvert Et. rewrite Et in E'. injection E' as <-. cbv zeta.
  apply list.NoDup_cons in Hnd as [Hq Hnd]. apply list.NoDup_cons in Hnd as [Ht Hnd]. apply not_elem_of_cons in Hq as [Hqt Hqx].
  split; [exists (set_vert_lp (to_qh q) rt); by rewrite lookup_insert_eq|].
  eapply qchain_ext; [intros a Ha; rewrite lookup_insert_ne; [reflexivity|]; intros <-|].
  { apply elem_of_cons in Ha as [->|Ha]; done. }
  destruct xs as [|n xs]; cbn [qchain link] in *.
  - rewrite decide_True by done. split; [|done]. eexists. rewrite lookup_insert_eq. split; [reflexivity|].
    cbn. rewrite B. done.
  - rewrite decide_False by done. rewrite not_elem_of_cons in Hqx. destruct Hqx as [Hqn Hqx].
    rewrite (lookup_insert_ne m q n) by done. destruct H2 as [(rn & En & D) H2]. rewrite En. split.
    + eexists. rewrite lookup_insert_eq. split; [reflexivity|]. cbn. rewrite C. done.
    + apply list.NoDup_cons in Hnd as [Hn _]. split.
      * exists (set_prev_qh q rn). rewrite lookup_insert_ne, lookup_insert_eq by done. cbn. naive_solver.
      * eapply qchain_ext, H2. intros a Ha. rewrite lookup_insert_ne by (by intros ->).
        rewrite lookup_insert_ne by (by intros ->). rewrite lookup_insert_ne by (by intros ->). done.
Qed.

(** The assignments of [xfer_dequeue]: [q] out of the transfers of [t].  [n] is
    what the horizontal link of [q] names, [e] the record there. *)
Lemma top_dequeue m t nx l1 q l2 rq n e p rp :
  top_ok m t nx (l1 ++ q :: l2) -> NoDup (t :: l1 ++ q :: l2) -> m !! q = Some rq ->
  n = match l2 with [] => n | y :: _ => y end -> m !! n = Some e ->
  (l2 = [] -> (n ∉ (t :: l1 ++ q :: l2)) /\ (is_top_queue e <> 0 \/ nx = UHCI_LP_TERMINATE)) ->
  p = prev_qh rq -> m !! p = Some rp ->
  let m1 := if is_top_queue e =? 0 then <[n := set_prev_qh p e]> m else m in
  let f := if truth (is_top_queue rp) && truth (is_top_queue e) then set_vert_lp UHCI_LP_TERMINATE
           else if truth (is_top_queue rp) then set_vert_lp (horiz_lp rq) else set_horiz_lp (horiz_lp rq) in
  top_ok (<[p := f rp]> m1) t nx (l1 ++ l2).
Proof.
  intros [(rt & Et & A & B & C) H2] Hnd Eq Hn En Hlast Hp Ep. cbv zeta.
  apply list.NoDup_cons in Hnd as [Ht Hnd]. apply list.NoDup_app in Hnd as (Hnd1 & Hdis & Hnd2). apply list.NoDup_cons in Hnd2 as [Hq2 Hnd2].
  apply not_elem_of_app in Ht as [Ht1 Ht2]. apply not_elem_of_cons in Ht2 as [Htq Ht2].
  apply qchain_app in H2 as [Hc1 Hc2]. destruct Hc2 as [(rq' & Eq' & Q1 & Q2 & Q3 & Q4) Hc2].
  rewrite Eq in Eq'. injection Eq' as <-. rewrite Q2 in Hp. rewrite Q1.
  (* the store after the back reference of the next one is set *)
  set (m1 := if is_top_queue e =? 0 then <[n := set_prev_qh p e]> m else m).
  assert (Hm1 : forall a, a <> n -> m1 !! a = m !! a).
  { intros a Ha. unfold m1. destruct (is_top_queue e =? 0); [|done]. by rewrite lookup_insert_ne. }
  assert (Hn1 : (n ∉ t :: l1)).
  { destruct l2 as [|y l2']; [destruct (Hlast eq_refl) as [Hx _]|subst n].
    - set_solver.
    - apply not_elem_of_cons. split; [set_solver|]. intros Hy. apply (Hdis y Hy). set_solver. }
  assert (Hc2' : qchain m1 p l2 nx).
  { destruct l2 as [|y l2']; [done|]. subst n. destruct Hc2 as [(ry & Ey & Y) Hc2]. rewrite En in Ey. injection Ey as <-.
    apply list.NoDup_cons in Hnd2 as [Hy _]. unfold m1. rewrite (proj2 (Z.eqb_eq _ _)) by apply Y.
    apply (qchain_set_prev m q p y l2' nx e); [|done|done]. split; [exists e; split; [done|]; exact Y|done]. }
  assert (Hc1' : qchain m1 t l1 (to_qh q)).
  { eapply qchain_ext, Hc1. intros a Ha. apply Hm1. intros ->. apply Hn1. by right. }
  assert (Et1 : m1 !! t = Some rt) by (rewrite Hm1; [done|intros ->; apply Hn1; by left]).
  destruct (last_or_nil l1) as [->|(l1' & z & ->)].
  - (* the first transfer: its predecessor is the top queue *)
    cbn [default list.last] in Hp. subst p. rewrite Et in Ep. injection Ep as <-. rewrite A. cbn [truth Z.eqb negb andb].
    cbn [app]. assert (Hv : (if truth (is_top_queue e) then set_vert_lp UHCI_LP_TERMINATE else set_vert_lp (link l2 nx)) rt
      = set_vert_lp (link l2 UHCI_LP_TERMINATE) rt).
    { destruct l2 as [|y l2']; [destruct (Hlast eq_refl) as [_ [Hx|Hx]]|].
      - by rewrite (proj2 (truth_true _)).
      - rewrite Hx. by destruct (truth _).
      - destruct Hc2 as [(ry & Ey & _ & _ & Y & _) _]. subst n. rewrite En in Ey. injection Ey as <-. by rewrite Y. }
    change (truth 1) with true. cbn [andb]. rewrite Hv. split.
    + eexists. rewrite lookup_insert_eq. split; [reflexivity|]. done.
    + eapply qchain_ext, Hc2'. intros a Ha. rewrite lookup_insert_ne; [done|]. intros <-. by apply Ht2.
  - (* its predecessor is another transfer *)
    rewrite last_snoc in Hp. cbn [default] in Hp. unfold id in Hp. subst p.
    assert (Hz : z ∉ l1') by (apply list.NoDup_app in Hnd1 as (_ & Hx & _); intros Hz; apply (Hx z Hz); set_solver).
    assert (Ez1 : m1 !! z = Some rp) by (rewrite Hm1; [done|intros ->; apply Hn1; set_solver]).
    apply qchain_app in Hc1 as [_ [(rz & Ez & _ & _ & Z3 & _) _]]. rewrite Ep in Ez. injection Ez as <-.
    rewrite Z3. cbn [truth Z.eqb negb andb]. split.
    + exists rt. rewrite lookup_insert_ne by set_solver. split; [done|]. split; [done|]. split; [done|].
      rewrite C. rewrite <- !app_assoc. by destruct l1'.
    + apply qchain_app. split.
      * apply (qchain_set_exit m1 l1' z (to_qh q)); [exact Hc1'|done|done].
      * rewrite last_snoc. cbn [default]. eapply qchain_ext, Hc2'. intros a Ha. rewrite lookup_insert_ne; [done|].
        intros <-. apply (Hdis z); set_solver.
Qed.

(** ** Symbolic execution of the driver *)

Section Run.

Context {T : Type} `{ConfigPorts T}.
Implicit Types s : uhcis T.

Lemma bind_load {V B} (c : cell T V) p v s (k : V -> M (uhcis T) B) :
  store_of c s !! p = Some v -> bind (load c p) k s = k v s.
Proof. intros E. unfold bind, load. by rewrite E. Qed.

Lemma bind_update {V B} (c : cell T V) p f v s (k : unit -> M (uhcis T) B) :
  store_of c s !! p = Some v -> bind (update c p f) k s = k tt (with_store c (<[p := f v]> (store_of c s)) s).
Proof. intros E. unfold update. rewrite bind_assoc, (bind_load _ _ _ _ _ E). reflexivity. Qed.

Definition calm s : Prop := cpu_room 1 (cpu (hkern (gheap s))).

Lemma gk_ok {A B} (m : M kst A) a s (k : A -> M (uhcis T) B) :
  m (hkern (gheap s)) = Ret (a, hkern (gheap s)) -> bind (gk m) k s = k a s.
Proof. intros E. unfold bind, gk, gh, hop, zoom. rewrite E. by destruct s as [[] ? ? ? ? ? ? ? ? ? ? ? ? ? ? ?]. Qed.

Lemma lock_uh_run {B} u uh s (k : unit -> M (uhcis T) B) :
  uhs s !! u = Some uh -> xfer_qh_lock uh = SPINLOCK_INIT -> calm s ->
  bind (lock_uh u) k s = k tt (set_uhs (<[u := set_xfer_qh_lock (taken SYNC_IMPL) uh]> (uhs s)) s).
Proof.
  intros E L C. unfold lock_uh. rewrite bind_assoc, (bind_load UH _ _ _ _ E), L, bind_assoc.
  rewrite (gk_ok _ (taken SYNC_IMPL)) by (by apply spinlock_acquire_free). by rewrite (bind_update UH _ _ _ _ _ E).
Qed.

Lemma unlock_uh_run {B} u uh s m (k : unit -> M (uhcis T) B) :
  uhs s = <[u := set_xfer_qh_lock (taken SYNC_IMPL) uh]> m -> m !! u = Some uh -> xfer_qh_lock uh = SPINLOCK_INIT ->
  calm s -> bind (unlock_uh u) k s = k tt (set_uhs m s).
Proof.
  intros E Em L C. unfold unlock_uh.
  assert (E' : store_of UH s !! u = Some (set_xfer_qh_lock (taken SYNC_IMPL) uh)) by (cbn; by rewrite E, lookup_insert_eq).
  rewrite bind_assoc, (bind_load UH _ _ _ _ E'), bind_assoc.
  rewrite (gk_ok _ SPINLOCK_INIT) by (by apply spinlock_release_taken).
  rewrite (bind_update UH _ _ _ _ _ E'). cbn [store_of with_store UH]. rewrite E, insert_insert_eq.
  do 3 f_equal. rewrite <- (insert_id m u uh Em) at 2. f_equal. rewrite <- L. by destruct uh.
Qed.

(** The schedule of the controller at [u]. *)
Definition scheduled s (u : Z) (uh : uhci) (qs : list (Z * list Z)) : Prop :=
  uhs s !! u = Some uh /\ xfer_qh_lock uh = SPINLOCK_INIT /\ calm s
  /\ queues (qhs s) qs /\ NoDup (members qs) /\ Forall qaddr (members qs) /\ is_Some (qhs s !! 0).

Lemma queues_members m qs a : queues m qs -> a ∈ members qs -> is_Some (m !! a).
Proof.
  assert (Hc : forall xs p e, qchain m p xs e -> a ∈ xs -> is_Some (m !! a)).
  { induction xs as [|q xs IH]; intros p e Hc Ha; [set_solver|]. destruct Hc as [(r & E & _) Hc].
    apply elem_of_cons in Ha as [->|Ha]; [by eexists|by eapply IH]. }
  induction qs as [|[t xs] qs IH]; [set_solver|]. intros [[(r & E & _) H1] H2] Ha.
  cbn [members fmap list_fmap concat] in Ha. apply elem_of_app in Ha as [Ha|Ha]; [|by apply IH].
  apply elem_of_cons in Ha as [->|Ha]; [by eexists|by eapply Hc].
Qed.

(** Changes of the store that keep the schedule and what it does not mention. *)
Lemma scheduled_replace s s' u uh l t xs xs' r :
  scheduled s u uh (l ++ (t, xs) :: r) ->
  uhs s' = uhs s -> calm s' ->
  (forall a, a ∈ members l ++ members r -> qhs s' !! a = qhs s !! a) ->
  top_ok (qhs s') t (heads r) xs' ->
  NoDup (members (l ++ (t, xs') :: r)) -> Forall qaddr (members (l ++ (t, xs') :: r)) ->
  is_Some (qhs s' !! 0) ->
  scheduled s' u uh (l ++ (t, xs') :: r).
Proof.
  intros (E & L & C & Q & _) Eu C' Hm Ht Hnd Hq H0. split_and!; [by rewrite Eu|done|done| |done|done|done].
  by apply (proj2 (queues_focus _ _ _ _ _ Q)).
Qed.

Lemma members_focus l t xs r : members (l ++ (t, xs) :: r) ≡ₚ (t :: xs) ++ members l ++ members r.
Proof.
  rewrite members_app. cbn [members fmap list_fmap concat]. fold (members r).
  rewrite (Permutation_app_comm (members l)). rewrite <- app_assoc. f_equiv. apply Permutation_app_comm.
Qed.

(** [xfer_enqueue] puts the transfer in front of the queue. *)
Lemma xfer_enqueue_run s u uh l t xs r x v rq :
  scheduled s u uh (l ++ (t, xs) :: r) -> xfers s !! x = Some v ->
  qhs s !! (x + OFF_QH) = Some rq -> is_top_queue rq = 0 -> Z.land (vert_lp rq) UHCI_LP_QH = 0 ->
  qaddr (x + OFF_QH) -> (x + OFF_QH ∉ members (l ++ (t, xs) :: r)) ->
  exists m, xfer_enqueue x u t s = Ret (tt, set_qhs m (set_xfers (<[x := set_xuh u v]> (xfers s)) s))
    /\ scheduled (set_qhs m (set_xfers (<[x := set_xuh u v]> (xfers s)) s)) u uh (l ++ (t, (x + OFF_QH) :: xs) :: r)
    /\ (forall a, a <> x + OFF_QH -> (a ∉ members (l ++ (t, xs) :: r)) -> m !! a = qhs s !! a)
    /\ (vert_lp <$> m !! (x + OFF_QH) = Some (vert_lp rq)).
Proof.
  intros HS Ex Eq Htop Hvert Haddr Hnew. pose proof HS as (Eu & L & C & Q & Hnd & Hall & H0).
  destruct (queues_focus _ _ _ _ _ Q) as [Hok _]. pose proof Hok as [(rt & Et & T1 & T2 & T3) Hch].
  rewrite members_focus in Hnew, Hnd. apply not_elem_of_app in Hnew as [Hn1 Hn2].
  apply list.NoDup_app in Hnd as (Hnd1 & Hdis & Hnd2). set (q := x + OFF_QH) in *.
  assert (Hqt : q <> t) by (intros ->; apply Hn1; left).
  assert (H00 : forall a, a ∈ members (l ++ (t, xs) :: r) -> a <> 0)
    by (intros a Ha ->; rewrite list.Forall_forall in Hall; apply Hall in Ha; destruct Ha; lia).
  pose proof (top_enqueue _ _ _ _ q rq rt Hok ltac:(constructor; done) Eq Htop Hvert Et) as Hok'. cbv zeta in Hok'.
  set (r1 := set_horiz_lp (if decide (xs = []) then horiz_lp rt else vert_lp rt) rq) in *.
  set (m2 := match xs with [] => _ | _ => _ end) in Hok'.
  set (m := <[t := _]> _) in Hok'. exists m.
  set (s1 := set_xfers (<[x := set_xuh u v]> (xfers s)) s).
  assert (Hm : forall a, (a ∉ q :: t :: xs) -> m !! a = qhs s !! a).
  { intros a Ha. apply not_elem_of_cons in Ha as [Ha Ha']. apply not_elem_of_cons in Ha' as [Ha' Ha''].
    unfold m. rewrite !lookup_insert_ne by done. unfold m2. destruct xs as [|n xs']; [by rewrite lookup_insert_ne|].
    apply not_elem_of_cons in Ha'' as [Hn _]. destruct (_ !! n); by rewrite ?lookup_insert_ne by done. }
  split_and!.
  - unfold xfer_enqueue. rewrite (bind_update XFER _ _ _ _ _ Ex). cbn [with_store store_of XFER]. fold s1.
    rewrite (lock_uh_run u uh) by done. set (s2 := set_uhs _ s1). rewrite (bind_load QH t rt) by exact Et.
    fold q.
    assert (Estep : forall B (k : unit -> M (uhcis T) B),
      bind (if truth (Z.land (vert_lp rt) UHCI_LP_TERMINATE) then update QH q (set_horiz_lp (horiz_lp rt))
            else update QH q (set_horiz_lp (vert_lp rt)) ;;;
                 update QH (Z.land (vert_lp rt) UHCI_LP_ADDR_MASK) (set_prev_qh q)) k s2
      = k tt (set_qhs m2 s2)).
    { intros B k. rewrite T3. unfold m2, r1. destruct xs as [|n xs']; cbn [link].
      - rewrite decide_True by done. change (truth (Z.land UHCI_LP_TERMINATE UHCI_LP_TERMINATE)) with true. cbn iota.
        by rewrite (bind_update QH q _ rq) by exact Eq.
      - assert (Hqn : qaddr n) by (rewrite members_focus in Hall; rewrite list.Forall_forall in Hall; apply Hall; set_solver).
        rewrite decide_False by done. destruct (to_qh_valid n (proj2 Hqn)) as [-> _]. cbn [truth Z.eqb negb].
        rewrite bind_assoc, (bind_update QH q _ rq) by exact Eq. cbn [with_store store_of QH].
        rewrite mask_to_qh by done. destruct Hch as [(rn & En & _) _]. assert (n <> q) by (intros ->; apply Hn1; set_solver).
        rewrite (lookup_insert_ne (qhs s) q n) by done. rewrite En. rewrite T3. cbn [link].
        rewrite (bind_update QH n _ rn); [done|]. cbn. by rewrite lookup_insert_ne. }
    rewrite Estep.
    assert (E1 : m2 !! q = Some r1).
    { unfold m2. destruct xs as [|n xs']; [by rewrite lookup_insert_eq|].
      assert (n <> q) by (intros ->; apply Hn1; set_solver).
      destruct (_ !! n); [rewrite lookup_insert_ne by done|]; by rewrite lookup_insert_eq. }
    assert (E2 : m2 !! t = Some rt).
    { unfold m2. destruct xs as [|n xs']; [by rewrite lookup_insert_ne|].
      assert (n <> t) by (intros ->; apply list.NoDup_cons in Hnd1 as [Hx _]; apply Hx; left).
      destruct (_ !! n); [rewrite lookup_insert_ne by done|]; by rewrite lookup_insert_ne. }
    rewrite (bind_update QH q _ r1) by exact E1. cbn [with_store store_of QH qhs set_qhs].
    rewrite (bind_update QH t _ rt) by (cbn; by rewrite lookup_insert_ne). cbn [with_store store_of QH qhs set_qhs].
    rewrite u32_small by (destruct Haddr; lia). rewrite <- bind_ret_r.
    rewrite (unlock_uh_run u uh _ (uhs s)); [|done..]. by destruct s.
  - apply (scheduled_replace s _ u uh l t xs); [exact HS|done|exact C| |exact Hok'| | |].
    + intros a Ha. apply Hm. intros Hx. apply elem_of_cons in Hx as [->|Hx]; [by apply Hn2|by apply (Hdis a)].
    + rewrite members_focus. cbn [app]. rewrite (perm_swap q t). constructor.
      * rewrite app_comm_cons. apply not_elem_of_app. done.
      * rewrite app_comm_cons. apply list.NoDup_app. done.
    + rewrite members_focus in *. cbn [app] in *. rewrite list.Forall_cons in *. destruct Hall. split; [done|]. by constructor.
    + cbn [qhs set_qhs]. rewrite Hm; [done|]. intros Hx. apply elem_of_cons in Hx as [Hx|Hx]; [destruct Haddr; lia|].
      apply (H00 0); [|done]. rewrite members_focus. apply elem_of_app. by left.
  - intros a H1 H2. apply Hm. rewrite members_focus in H2. apply not_elem_of_app in H2 as [H2 _].
    apply not_elem_of_cons. done.
  - unfold m. rewrite lookup_insert_ne, lookup_insert_eq by done. done.
Qed.

(** What the horizontal link of a transfer names: the next transfer, the next top
    queue, or the null pointer behind the last top queue. *)
Definition after (l2 : list Z) (r : list (Z * list Z)) : Z :=
  match l2, r with y :: _, _ => y | [], (t, _) :: _ => t | [], [] => 0 end.

Lemma link_after l2 r :
  Forall qaddr (l2 ++ members r) -> Z.land (link l2 (heads r)) UHCI_LP_ADDR_MASK = after l2 r.
Proof.
  intros Hall. destruct l2 as [|y l2]; [destruct r as [|[t' ys] r]; [reflexivity|]|];
    apply mask_to_qh; cbn in Hall; by apply list.Forall_cons in Hall as [? _].
Qed.

(** The record there: only a top queue or what is at address 0 can follow the
    last transfer. *)
Lemma after_record m t nx l1 q l2 r l :
  queues m (l ++ (t, l1 ++ q :: l2) :: r) -> nx = heads r -> NoDup (members (l ++ (t, l1 ++ q :: l2) :: r)) ->
  Forall qaddr (members (l ++ (t, l1 ++ q :: l2) :: r)) -> is_Some (m !! 0) ->
  exists e, m !! after l2 r = Some e
    /\ (l2 = [] -> (after l2 r ∉ t :: l1 ++ q :: l2) /\ (is_top_queue e <> 0 \/ nx = UHCI_LP_TERMINATE))
    /\ (after l2 r ∉ q :: t :: l1)
    /\ (is_top_queue e = 0 -> (after l2 r ∉ members l ++ members r)).
Proof.
  intros Q -> Hnd Hall [e0 H0]. destruct (queues_focus _ _ _ _ _ Q) as [[_ Hch] _].
  rewrite members_focus in Hnd, Hall. apply list.NoDup_app in Hnd as (Hnd1 & Hdis & Hnd2).
  assert (Hz : 0 ∉ (t :: l1 ++ q :: l2) ++ members l ++ members r).
  { intros Hx. rewrite list.Forall_forall in Hall. apply Hall in Hx as [Hx _]. lia. }
  apply not_elem_of_app in Hz as [Hz1 Hz2]. destruct l2 as [|y l2]; cbn [after].
  - assert (Hsub : forall a, (a ∉ t :: l1 ++ [q]) -> a ∉ q :: t :: l1).
    { intros a Ha Hx. apply Ha. rewrite elem_of_cons, elem_of_app, list_elem_of_singleton.
      apply elem_of_cons in Hx as [->|Hx]; [naive_solver|]. apply elem_of_cons in Hx as [->|Hx]; naive_solver. }
    destruct r as [|[t' ys] r].
    + exists e0. split_and!; [done|split; [done|by right]|by apply Hsub|done].
    + assert (Q' : queues m ((t', ys) :: r)).
      { clear -Q. induction l as [|[] l IH]; cbn [app queues] in Q; [apply Q|]. apply IH, Q. }
      destruct Q' as [[(e & Ee & A & _) _] _].
      assert (Hx : t' ∉ t :: l1 ++ [q]).
      { intros Hx. apply (Hdis t' Hx). apply elem_of_app. right. left. }
      exists e. split_and!; [done|split; [done|left; lia]|by apply Hsub|lia].
  - apply qchain_app in Hch as [_ [_ [(e & Ee & _ & _ & A & _) _]]]. exists e.
    apply list.NoDup_cons in Hnd1 as [Ht Hnd1]. apply list.NoDup_app in Hnd1 as (_ & Hd1 & Hnd1).
    apply list.NoDup_cons in Hnd1 as [Hq Hnd1].
    assert (Hy : y ∈ t :: l1 ++ q :: y :: l2) by (right; apply elem_of_app; right; right; left).
    split_and!; [done|done| |intros _; by apply Hdis]. intros Hx. apply elem_of_cons in Hx as [->|Hx]; [apply Hq; left|].
    apply elem_of_cons in Hx as [->|Hx]; [apply Ht; apply elem_of_app; right; right; left|].
    apply (Hd1 y Hx). right. left.
Qed.

Lemma port_r_ok {B} (f : T -> Z * T) s (k : Z -> M (uhcis T) B) :
  bind (port_r f) k s = k (fst (f (io s))) (set_io (snd (f (io s))) s).
Proof. unfold bind, port_r. by destruct (f (io s)). Qed.

Lemma frame_num_ok {B} base s (k : Z -> M (uhcis T) B) :
  exists f t, bind (uhci_pci_read base UHCI_FRAME_NUM) k s = k f (set_io t s).
Proof. eexists _, _. unfold uhci_pci_read. rewrite bind_assoc, port_r_ok. reflexivity. Qed.

(** [xfer_dequeue] takes the transfer out of its queue. *)
Lemma xfer_dequeue_run s u uh l t l1 l2 r x v :
  scheduled s u uh (l ++ (t, l1 ++ (x + OFF_QH) :: l2) :: r) -> xfers s !! x = Some v -> xuh v = u ->
  exists f b m, let s' := set_io b (set_qhs m (set_xfers (<[x := set_frame_num f v]> (xfers s)) s)) in
    xfer_dequeue x s = Ret (tt, s')
    /\ scheduled s' u uh (l ++ (t, l1 ++ l2) :: r)
    /\ (forall a, a = x + OFF_QH \/ a <> 0 /\ (a ∉ members (l ++ (t, l1 ++ (x + OFF_QH) :: l2) :: r)) -> m !! a = qhs s !! a).
Proof.
  intros HS Ex Hu. pose proof HS as (Eu & L & C & Q & Hnd & Hall & H0). set (q := x + OFF_QH) in *.
  destruct (queues_focus _ _ _ _ _ Q) as [Hok _]. pose proof Hok as [(rt & Et & _) Hch].
  destruct (after_record _ _ _ _ _ _ _ _ Q eq_refl Hnd Hall H0) as (e & Ee & Hlast & Hn & Htop).
  assert (Hmem : forall a, a ∈ t :: l1 ++ q :: l2 -> exists ra, qhs s !! a = Some ra).
  { intros a Ha. apply (queues_members _ _ a Q). rewrite members_focus. apply elem_of_app. by left. }
  assert (Hqm : q ∈ t :: l1 ++ q :: l2) by (right; apply elem_of_app; right; left).
  assert (Hpm : default t (list.last l1) ∈ t :: l1).
  { destruct (last_or_nil l1) as [->|(l1' & z & ->)]; [left|]. rewrite last_snoc. right. apply elem_of_app. right. left. }
  destruct (Hmem q Hqm) as [rq Eq]. destruct (Hmem (default t (list.last l1))) as [rp Ep].
  { rewrite app_comm_cons. apply elem_of_app. by left. }
  pose proof Hch as Hch'. apply qchain_app in Hch' as [_ [(rq' & Eq' & Q1 & Q2 & _) _]]. rewrite Eq in Eq'. injection Eq' as <-.
  rewrite members_focus in Hnd, Hall. pose proof Hnd as Hnd0. apply list.NoDup_app in Hnd as (Hnd1 & Hdis & Hnd2).
  rewrite <- Q2 in Hpm, Ep.
  assert (Hnx : after l2 r = match l2 with [] => after l2 r | y :: _ => y end) by (by destruct l2).
  pose proof (top_dequeue _ _ _ _ _ _ rq _ e _ rp Hok Hnd1 Eq Hnx Ee Hlast eq_refl Ep) as Hok'. cbv zeta in Hok'.
  set (n := after l2 r) in *. set (m1 := if is_top_queue e =? 0 then _ else _) in Hok'. set (m := <[_ := _]> m1) in Hok'.
  assert (Hpn : prev_qh rq <> n) by (intros E; apply Hn; rewrite <- E; by right).
  assert (Hqn : q <> n) by (intros E; apply Hn; rewrite <- E; left).
  assert (Hqp : q <> prev_qh rq).
  { intros E. rewrite <- E in Hpm. apply list.NoDup_cons in Hnd1 as [Ht Hnd1]. apply list.NoDup_app in Hnd1 as (_ & Hd1 & _).
    apply elem_of_cons in Hpm as [Hx|Hx]; [|apply (Hd1 q Hx); left]. apply Ht. rewrite <- Hx. apply elem_of_app. right. left. }
  assert (Hm1 : forall a, a <> n -> m1 !! a = qhs s !! a).
  { intros a Ha. unfold m1. destruct (_ =? 0); [by rewrite lookup_insert_ne|done]. }
  assert (Hout : forall a, a <> prev_qh rq -> (is_top_queue e = 0 -> a <> n) -> m !! a = qhs s !! a).
  { intros a Ha Hb. unfold m. rewrite lookup_insert_ne by done. unfold m1.
    destruct (Z.eqb_spec (is_top_queue e) 0); [rewrite lookup_insert_ne by (intros E; by apply Hb)|]; done. }
  assert (Hmn : exists e', m1 !! n = Some e' /\ is_top_queue e' = is_top_queue e).
  { unfold m1. destruct (is_top_queue e =? 0); [|by exists e]. exists (set_prev_qh (prev_qh rq) e). by rewrite lookup_insert_eq. }
  assert (E1 : m1 !! q = Some rq) by (by rewrite Hm1). assert (E2 : m1 !! prev_qh rq = Some rp) by (by rewrite Hm1).
  destruct Hmn as (e' & En' & Etop). assert (Hpr : prev_qh rq ∈ t :: l1 ++ q :: l2) by (rewrite app_comm_cons; apply elem_of_app; by left).
  assert (Enext : Z.land (horiz_lp rq) UHCI_LP_ADDR_MASK = n).
  { rewrite Q1. apply link_after. rewrite list.Forall_app in Hall. destruct Hall as [Ha Hb].
    rewrite app_comm_cons, list.Forall_app in Ha. apply list.Forall_app. destruct Ha as [_ Ha].
    apply list.Forall_cons in Ha as [_ Ha]. by apply list.Forall_app in Hb as [_ Hb]. }
  destruct (frame_num_ok (iobase uh) (set_qhs m (set_uhs (<[u := set_xfer_qh_lock (taken SYNC_IMPL) uh]> (uhs s)) s))
    (fun f => update XFER x (set_frame_num f) ;;; unlock_uh u)) as (f & b & Ef).
  exists f, b, m. cbv zeta. split_and!.
  - unfold xfer_dequeue. fold q. rewrite (bind_load XFER x v) by done. rewrite Hu, (lock_uh_run u uh) by done.
    set (s1 := set_uhs _ s) in *. rewrite (bind_load QH q rq) by exact Eq. rewrite Enext.
    rewrite (bind_load QH n e) by exact Ee.
    assert (Estep : forall B (k : unit -> M (uhcis T) B),
      bind (when (is_top_queue e =? 0) (update QH n (set_prev_qh (prev_qh rq)))) k s1 = k tt (set_qhs m1 s1)).
    { intros B k. unfold m1. destruct (is_top_queue e =? 0); cbn [when].
      - by rewrite (bind_update QH n _ e) by exact Ee.
      - rewrite bind_ret. by destruct s. }
    rewrite Estep, (bind_load QH q rq) by exact E1. rewrite (bind_load QH _ rp) by exact E2.
    rewrite (bind_load QH n e') by exact En'. rewrite Etop.
    assert (Estep2 : forall B g (k : unit -> M (uhcis T) B),
      bind (update QH (prev_qh rq) g) k (set_qhs m1 s1) = k tt (set_qhs (<[prev_qh rq := g rp]> m1) s1)).
    { intros B g k. rewrite (bind_update QH _ _ rp) by exact E2. done. }
    assert (Estep3 : forall B (k : unit -> M (uhcis T) B),
      bind (if truth (is_top_queue rp) && truth (is_top_queue e) then update QH (prev_qh rq) (set_vert_lp UHCI_LP_TERMINATE)
            else if truth (is_top_queue rp) then update QH (prev_qh rq) (set_vert_lp (horiz_lp rq))
            else update QH (prev_qh rq) (set_horiz_lp (horiz_lp rq))) k (set_qhs m1 s1) = k tt (set_qhs m s1)).
    { intros B k. unfold m. destruct (_ && _); [by rewrite Estep2|]. destruct (truth _); by rewrite Estep2. }
    rewrite Estep3, (bind_load UH u (set_xfer_qh_lock (taken SYNC_IMPL) uh)) by (cbn; by rewrite lookup_insert_eq).
    change (iobase (set_xfer_qh_lock (taken SYNC_IMPL) uh)) with (iobase uh). rewrite Ef.
    rewrite (bind_update XFER x _ v) by exact Ex. rewrite <- bind_ret_r.
    rewrite (unlock_uh_run u uh _ (uhs s)); [|done..]. by destruct s.
  - apply (scheduled_replace s _ u uh l t (l1 ++ q :: l2)); [exact HS|done|exact C| |exact Hok'| | |].
    + intros a Ha. apply Hout; [intros ->; by apply (Hdis _ Hpr)|]. intros Hz ->. by apply Htop.
    + rewrite members_focus. rewrite app_comm_cons in Hnd0 |- *. rewrite <- (Permutation_middle (t :: l1) l2 q) in Hnd0.
      by apply list.NoDup_cons in Hnd0 as [_ Hnd0].
    + rewrite members_focus. rewrite app_comm_cons in Hall |- *. rewrite <- (Permutation_middle (t :: l1) l2 q) in Hall.
      by apply list.Forall_cons in Hall as [_ Hall].
    + cbn [qhs set_io set_qhs]. unfold m. apply lookup_insert_is_Some'. right. unfold m1.
      destruct (_ =? 0); [apply lookup_insert_is_Some'; by right|done].
  - intros a [->|[Ha0 Ha]]; [by apply Hout|]. rewrite members_focus in Ha. apply Hout.
    + intros ->. apply Ha. apply elem_of_app. by left.
    + intros Hz ->. assert (Hx : n = 0 \/ n ∈ t :: l1 ++ q :: l2).
      { unfold n, after. destruct l2 as [|y l2]; [|right; right; apply elem_of_app; right; right; left].
        destruct r as [|[t' ys] r]; [by left|]. exfalso. apply (Htop Hz). apply elem_of_app. right. left. }
      destruct Hx as [Hx|Hx]; [done|]. apply Ha. apply elem_of_app. by left.
Qed.

End Run.

(** ** The walk of the controller

    As the UHCI design guide defines it: from a queue head the controller goes
    down the vertical link if that is valid and names a queue head, and along the
    horizontal link otherwise, until a link is not valid. *)

Definition hc_next (r : uhci_queue_head) : Z :=
  if (Z.land (vert_lp r) UHCI_LP_TERMINATE =? 0) && truth (Z.land (vert_lp r) UHCI_LP_QH) then vert_lp r else horiz_lp r.

Fixpoint walk (fuel : nat) (m : gmap Z uhci_queue_head) (lp : Z) : option (list Z) :=
  if truth (Z.land lp UHCI_LP_TERMINATE) then Some []
  else match fuel with
       | O => None
       | S fuel' =>
           let q := Z.land lp UHCI_LP_ADDR_MASK in
           r ← m !! q; cons q <$> walk fuel' m (hc_next r)
       end.

Lemma walk_step m q r k : qaddr q -> m !! q = Some r -> walk (S k) m (to_qh q) = cons q <$> walk k m (hc_next r).
Proof.
  intros Hq Er. cbn [walk]. destruct (to_qh_valid q (proj2 Hq)) as [-> _]. cbn [truth Z.eqb negb].
  rewrite mask_to_qh by done. by rewrite Er.
Qed.

Lemma walk_chain m xs e k : forall p,
  qchain m p xs e -> Forall qaddr xs -> walk (length xs + k) m (link xs e) = app xs <$> walk k m e.
Proof.
  induction xs as [|q xs IH]; intros p Hc Hall; [cbn [length Nat.add link]; by destruct (walk k m e)|].
  destruct Hc as [(r & Er & A & _ & _ & B) Hc]. apply list.Forall_cons in Hall as [Hq Hall]. cbn [link length Nat.add].
  rewrite (walk_step _ _ r) by done. unfold hc_next. rewrite B, andb_false_r, A, (IH _ Hc Hall).
  by destruct (walk k m e).
Qed.

Lemma walk_queues m qs : queues m qs -> Forall qaddr (members qs) -> walk (length (members qs)) m (heads qs) = Some (members qs).
Proof.
  induction qs as [|[t xs] qs IH]; [done|]. intros [[(r & Er & _ & B & C) Hc] Hq] Hall.
  cbn [members fmap list_fmap concat heads] in *. fold (members qs) in *. apply list.Forall_app in Hall as [Hall1 Hall2].
  apply list.Forall_cons in Hall1 as [Ht Hx]. rewrite <- app_comm_cons. cbn [length]. rewrite (walk_step _ _ r) by done.
  assert (En : hc_next r = link xs (heads qs)).
  { unfold hc_next. rewrite C, B. destruct xs as [|y xs]; [done|]. cbn [link]. apply list.Forall_cons in Hx as [Hy _].
    by destruct (to_qh_valid y (proj2 Hy)) as [-> ->]. }
  rewrite En, length_app, (walk_chain _ _ _ _ t), IH by done. done.
Qed.

(** ** Theorems *)

Section Theorems.

Context {T : Type} `{ConfigPorts T} (s : uhcis T) (u : Z) (uh : uhci).
Context (l r : list (Z * list Z)) (t : Z) (xs : list Z).
Context (Hsched : scheduled s u uh (l ++ (t, xs) :: r)).

(** [C9] The links of the queue heads implement one list of transfers per top queue:
    [xfer_enqueue] of a prepared transfer unit inserts it in front of the list
    of the given top queue, [xfer_dequeue] removes a unit from the list it is
    in, wherever it is and whatever memory holds at address 0.  Both change no
    other list and leave the lock free. *)
Theorem uhci_schedule_refines :
  (forall x v rq, xfers s !! x = Some v -> qhs s !! (x + OFF_QH) = Some rq -> is_top_queue rq = 0 ->
     Z.land (vert_lp rq) UHCI_LP_QH = 0 -> qaddr (x + OFF_QH) -> (x + OFF_QH ∉ members (l ++ (t, xs) :: r)) ->
     exists s', xfer_enqueue x u t s = Ret (tt, s') /\ scheduled s' u uh (l ++ (t, (x + OFF_QH) :: xs) :: r)
       /\ xfers s' = <[x := set_xuh u v]> (xfers s))
  /\ (forall x v l1 l2, xs = l1 ++ (x + OFF_QH) :: l2 -> xfers s !! x = Some v -> xuh v = u ->
     exists s' f, xfer_dequeue x s = Ret (tt, s') /\ scheduled s' u uh (l ++ (t, l1 ++ l2) :: r)
       /\ xfers s' = <[x := set_frame_num f v]> (xfers s)).
Proof.
  split.
  - intros x v rq Hx Hq Htop Hv Ha Hn. destruct (xfer_enqueue_run _ _ _ _ _ _ _ _ _ _ Hsched Hx Hq Htop Hv Ha Hn) as (m & E & Hs & _).
    eexists. split; [exact E|]. by split.
  - intros x v l1 l2 Exs Hx Hu. rewrite Exs in Hsched.
    destruct (xfer_dequeue_run _ _ _ _ _ _ _ _ _ _ Hsched Hx Hu) as (f & b & m & E & Hs & _).
    eexists _, f. split; [exact E|]. by split.
Qed.

(** From the first top queue the controller meets every top queue and every
    queued transfer, each once, and then stops. *)
Theorem controller_walk_visits :
  walk (length (members (l ++ (t, xs) :: r))) (qhs s) (heads (l ++ (t, xs) :: r)) = Some (members (l ++ (t, xs) :: r))
  /\ NoDup (members (l ++ (t, xs) :: r)).
Proof. destruct Hsched as (_ & _ & _ & Q & Hnd & Hall & _). split; [by apply walk_queues|done]. Qed.

End Theorems.

(** ** Concrete instances *)

Module UhciSched_instances.

(** A controller whose registers all read as 0. *)
#[global] Instance quiet_ports : ConfigPorts unit := {
  outl _ _ t := t; outw _ _ t := t; outb _ _ t := t;
  inl_ _ t := (0, t); inw _ t := (0, t); inb _ t := (0, t)
}.

(** One transfer at 0x200 is queued for output, one at 0x240 is prepared. *)
Definition queue_heads : gmap Z uhci_queue_head := list_to_map
  [(0, mk_qh 0 0 0 0); (0x100, mk_qh 0x142 1 0 1); (0x140, mk_qh 0x182 1 0 1); (0x180, mk_qh 0x1c2 1 0 1);
   (0x1c0, mk_qh 1 0x212 0 1); (0x210, mk_qh 1 0x300 0x1c0 0); (0x250, mk_qh 1 0x340 0 0)].

Definition controller : uhci := mk_uhci 0x1000 0x100 0x140 0x180 0x1c0 SPINLOCK_INIT 1 0xc000 [].

Definition state : uhcis unit :=
  mk_uhcis Alloc_instances.fresh [] SPINLOCK_INIT [] SPINLOCK_INIT queue_heads ∅ ∅
    (list_to_map [(0x200, mk_xfer 0x80 [] 0); (0x240, mk_xfer 0 [] 0)]) ∅ ∅ ∅
    {[ 0x80 := controller ]} ∅ [] tt.

Definition queued : list (Z * list Z) := [(0x100, []); (0x140, []); (0x180, []); (0x1c0, [0x210])].

Lemma state_scheduled : scheduled state 0x80 controller queued.
Proof.
  split; [reflexivity|]. split; [reflexivity|].
  split; [exact (proj2 (proj2 Alloc_instances.fresh_heap))|]. split; [|split; [|split]].
  - cbn [queues queued]. unfold top_ok. cbn [qchain link heads].
    repeat match goal with |- _ /\ _ => split end; try done; eexists; split_and!; reflexivity.
  - apply (bool_decide_unpack _). reflexivity.
  - repeat constructor.
  - eexists. reflexivity.
Qed.

Lemma uhci_schedule_refines_witness :
  (exists s', xfer_enqueue 0x240 0x80 0x1c0 state = Ret (tt, s')
     /\ scheduled s' 0x80 controller [(0x100, []); (0x140, []); (0x180, []); (0x1c0, [0x250; 0x210])])
  /\ (exists s', xfer_dequeue 0x200 state = Ret (tt, s')
     /\ scheduled s' 0x80 controller [(0x100, []); (0x140, []); (0x180, []); (0x1c0, [])]).
Proof.
  destruct (uhci_schedule_refines state 0x80 controller [(0x100, []); (0x140, []); (0x180, [])] [] 0x1c0 [0x210] state_scheduled)
    as [He Hd].
  split.
  - destruct (He 0x240 (mk_xfer 0 [] 0) (mk_qh 1 0x340 0 0)) as (s' & E & Hs & _);
      [reflexivity|reflexivity|reflexivity|reflexivity|split; [split; reflexivity|reflexivity]| |].
    + intros Hx. vm_compute in Hx. repeat (apply elem_of_cons in Hx as [Hx|Hx]; [discriminate|]). apply elem_of_nil in Hx. exact Hx.
    + exists s'. split; [exact E|exact Hs].
  - destruct (Hd 0x200 (mk_xfer 0x80 [] 0) [] []) as (s' & f & E & Hs & _); [reflexivity..|].
    exists s'. split; [exact E|exact Hs].
Defined.

Lemma controller_walk_visits_witness :
  walk 5 (qhs state) (to_qh 0x100) = Some [0x100; 0x140; 0x180; 0x1c0; 0x210].
Proof.
  exact (proj1 (controller_walk_visits state 0x80 controller [(0x100, []); (0x140, []); (0x180, [])] [] 0x1c0 [0x210] state_scheduled)).
Defined.

End UhciSched_instances.
