(* ===== verification/UhciXfer.v ===== *)
(** * Transfers over UHCI

    What [uhci_read_write] of [uhci.c] does: the packets it makes of a buffer,
    the chain of transfer descriptors it hands to the controller, and the result
    it returns when the controller is done, while other threads use the same
    schedule and pools. *)

From S2P Require Import Prelude CString Sched Ring Schedule Sync Alloc HeapRoom Pci Usb Hub Uhci UhciSched.

(** ** Fields of a descriptor *)

Lemma shiftl_mul a n : 0 <= n -> Z.shiftl a n = a * 2 ^ n.
Proof. apply Z.shiftl_mul_pow2. Qed.

Lemma td_token_sum size toggle ep address pid :
  -1 <= size - 1 < 2048 -> 0 <= toggle < 2 -> 0 <= ep < 16 -> 0 <= address < 128 -> 0 <= pid < 256 ->
  td_token size toggle ep address pid
  = (size - 1) mod 2048 * 2097152 + toggle * 524288 + ep * 32768 + address * 256 + pid.
Proof.
  intros Hs Ht He Ha Hp. unfold td_token, UHCI_TD_MAX_LEN_OFF, UHCI_TD_DATA_TOGGLE_OFF, UHCI_TD_END_POINT_OFF, UHCI_TD_DEV_ADDR_OFF.
  rewrite !shiftl_mul by lia. change (2 ^ 21) with 2097152. change (2 ^ 19) with 524288. change (2 ^ 15) with 32768.
  change (2 ^ 8) with 256. rewrite <- !Z.lor_assoc.
  rewrite (lor_comm_add pid (address * 256) 8); [|lia|change (2 ^ 8) with 256; lia|change (2 ^ 8) with 256; zdiv].
  rewrite (lor_comm_add _ (ep * 32768) 15); [|lia|change (2 ^ 15) with 32768; lia|change (2 ^ 15) with 32768; zdiv].
  rewrite (lor_comm_add _ (toggle * 524288) 19); [|lia|change (2 ^ 19) with 524288; lia|change (2 ^ 19) with 524288; zdiv].
  rewrite (lor_comm_add _ ((size - 1) * 2097152) 21); [|lia|change (2 ^ 21) with 2097152; lia|change (2 ^ 21) with 2097152; zdiv].
  unfold u32. change (2 ^ 32) with 4294967296. zdiv.
Qed.

(** What the controller reads in a token. *)
Definition token_pid (v : Z) : Z := v mod 256.
Definition token_address (v : Z) : Z := v / 256 mod 128.
Definition token_endpoint (v : Z) : Z := v / 32768 mod 16.
Definition token_toggle (v : Z) : Z := v / 524288 mod 2.
(** The number of bytes minus one, 0x7ff for none. *)
Definition token_max_len (v : Z) : Z := v / 2097152 mod 2048.
Definition bytes_of_len (n : Z) : Z := (n + 1) mod 2048.

(** The controller finds in a token what [td_build] was given, up to packets of
    1280 bytes, the largest the design guide allows; no bytes included. *)
Theorem td_token_roundtrip size toggle ep address pid :
  0 <= size <= 1280 -> 0 <= toggle < 2 -> 0 <= ep < 16 -> 0 <= address < 128 -> 0 <= pid < 256 ->
  let v := td_token size toggle ep address pid in
  token_pid v = pid /\ token_address v = address /\ token_endpoint v = ep /\ token_toggle v = toggle
  /\ bytes_of_len (token_max_len v) = size.
Proof.
  intros Hs Ht He Ha Hp. cbv zeta. rewrite td_token_sum by lia.
  unfold token_pid, token_address, token_endpoint, token_toggle, token_max_len, bytes_of_len.
  set (k := (size - 1) mod 2048). assert (Hk : 0 <= k < 2048) by (apply Z.mod_pos_bound; lia).
  assert (Ek : (k + 1) mod 2048 = size) by (unfold k; rewrite Zplus_mod_idemp_l, Z.mod_small; lia).
  split_and!; [zdiv..|]. rewrite <- Ek. f_equal. zdiv.
Qed.

Lemma lnot_bit v n m : 0 <= n -> 0 <= m -> Z.testbit (Z.land v (Z.lnot (Z.shiftl 1 n))) m = Z.testbit v m && negb (n =? m).
Proof.
  intros Hn Hm. rewrite Z.land_spec, Z.lnot_spec, Z.shiftl_spec by lia.
  destruct (Z.eqb_spec n m) as [->|Hne]; [by rewrite Z.sub_diag|].
  destruct (Z.ltb_spec m n); [by rewrite (Z.testbit_neg_r 1) by lia|].
  rewrite (Z.bits_above_log2 1) by (cbn; lia). done.
Qed.

(** [td_reactivate] is meant to put the toggle bit of the pipe into the token, but
    it adds the value 0 or 1 at bit 0: whatever the pipe says, the packet is
    offered with toggle 0; the packet identifier, which is odd for every kind of
    packet, does not change. *)
Theorem td_reactivate_loses_toggle toggle t :
  0 <= toggle < 2 -> 0 <= token t < 2 ^ 32 -> Z.odd (token t) = true ->
  Z.testbit (token (reactivated toggle t)) UHCI_TD_DATA_TOGGLE_OFF = false
  /\ forall n, 0 <= n < 32 -> n <> UHCI_TD_DATA_TOGGLE_OFF -> Z.testbit (token (reactivated toggle t)) n = Z.testbit (token t) n.
Proof.
  intros Ht Hr Hodd. unfold UHCI_TD_DATA_TOGGLE_OFF.
  assert (E : forall n, 0 <= n < 32 -> Z.testbit (token (reactivated toggle t)) n
    = Z.testbit (token t) n && negb (19 =? n) || Z.testbit toggle n).
  { intros n Hn. cbn [token reactivated set_token set_control_status]. unfold u32, UHCI_TD_DATA_TOGGLE_BIT.
    rewrite Z.mod_pow2_bits_low by lia. by rewrite Z.lor_spec, lnot_bit by lia. }
  assert (H0 : forall n, 0 < n -> Z.testbit toggle n = false).
  { intros n Hn. apply Z.bits_above_log2; [lia|]. destruct (Z.eq_dec toggle 0) as [->|]; [done|].
    replace toggle with 1 by lia. done. }
  split; [rewrite E, H0, andb_false_r by lia; done|]. intros n Hn Hne. rewrite E by done.
  rewrite (proj2 (Z.eqb_neq 19 n)), andb_true_r by done.
  destruct (Z.eq_dec n 0) as [->|]; [|rewrite H0, orb_false_r by lia; done].
  rewrite Z.bit0_odd, Hodd. done.
Qed.

(** ** Pools and memory *)

Section Pools.

Context {T : Type} `{ConfigPorts T}.
Implicit Types s : uhcis T.

(** Each object is in a block of the heap of its own, containers have different
    descriptors, and what is on a free list exists. *)
Record wf s (gs : list segment) : Prop := mk_wf {
  wf_heap : heap (mem_chunk_list (gheap s)) gs;
  wf_memlock : memlock (gheap s) = SPINLOCK_INIT;
  wf_calm : calm s;
  wf_xfer_lock : xfer_lock s = SPINLOCK_INIT;
  wf_tdc_lock : tdc_lock s = SPINLOCK_INIT;
  wf_tdcs c d : tdcs s !! c = Some d -> c ∈ owners gs /\ d ∈ owners gs /\ is_Some (tds s !! d);
  wf_inj c c' d : tdcs s !! c = Some d -> tdcs s !! c' = Some d -> c = c';
  wf_xfers x v : xfers s !! x = Some v -> x ∈ owners gs;
  wf_free_nodup : NoDup (free_tdcs s);
  wf_free_tdcs c : c ∈ free_tdcs s -> is_Some (tdcs s !! c);
  wf_free_xfers x : x ∈ free_xfers s -> exists v, xfers s !! x = Some v /\ (xuh v = 0 \/ is_Some (uhs s !! xuh v))
}.

(** The queue heads of the schedule are top queues or belong to transfer units
    that are in use. *)
Definition placed s (gs : list segment) (qs : list (Z * list Z)) : Prop :=
  forall q, q ∈ members qs -> q ∈ owners gs \/ exists x, q = x + OFF_QH /\ is_Some (xfers s !! x) /\ (x ∉ free_xfers s).

Lemma owner_qaddr cs gs a : heap cs gs -> a ∈ owners gs -> qaddr a /\ qaddr (a + OFF_QH) /\ (a + OFF_QH ∉ owners gs) /\ a <> 0 /\ u32 a = a.
Proof.
  intros Hh Ha. pose proof (owners_addr _ _ _ Hh Ha) as [Hr Hm].
  change KERNEL_ALLOC_START with 196608 in Hr. change (196608 + CHUNK_NUM * CHUNK_SIZE) with 262144 in Hr.
  unfold qaddr, OFF_QH. change (2 ^ 32) with 4294967296. split_and!; try lia; try zdiv.
  - intros Hx. pose proof (owners_addr _ _ _ Hh Hx) as [_ Hm']. zdiv.
  - apply u32_small. lia.
Qed.

Lemma lock_tdc_run {B} s (k : unit -> M (uhcis T) B) :
  tdc_lock s = SPINLOCK_INIT -> calm s ->
  bind (lock tdc_lock set_tdc_lock) k s = k tt (set_tdc_lock (taken SYNC_IMPL) s).
Proof.
  intros L C. unfold lock. rewrite bind_assoc, bind_gets, L, bind_assoc.
  by rewrite (gk_ok _ (taken SYNC_IMPL)) by (by apply spinlock_acquire_free).
Qed.

Lemma unlock_tdc_run {B} s (k : unit -> M (uhcis T) B) :
  tdc_lock s = taken SYNC_IMPL -> calm s ->
  bind (unlock tdc_lock set_tdc_lock) k s = k tt (set_tdc_lock SPINLOCK_INIT s).
Proof.
  intros L C. unfold unlock. rewrite bind_assoc, bind_gets, L, bind_assoc.
  by rewrite (gk_ok _ SPINLOCK_INIT) by (by apply spinlock_release_taken).
Qed.

Lemma lock_xfer_run {B} s (k : unit -> M (uhcis T) B) :
  xfer_lock s = SPINLOCK_INIT -> calm s ->
  bind (lock xfer_lock set_xfer_lock) k s = k tt (set_xfer_lock (taken SYNC_IMPL) s).
Proof.
  intros L C. unfold lock. rewrite bind_assoc, bind_gets, L, bind_assoc.
  by rewrite (gk_ok _ (taken SYNC_IMPL)) by (by apply spinlock_acquire_free).
Qed.

Lemma unlock_xfer_run {B} s (k : unit -> M (uhcis T) B) :
  xfer_lock s = taken SYNC_IMPL -> calm s ->
  bind (unlock xfer_lock set_xfer_lock) k s = k tt (set_xfer_lock SPINLOCK_INIT s).
Proof.
  intros L C. unfold unlock. rewrite bind_assoc, bind_gets, L, bind_assoc.
  by rewrite (gk_ok _ SPINLOCK_INIT) by (by apply spinlock_release_taken).
Qed.

Lemma gh_ok {A B} (m : M hst A) a h s (k : A -> M (uhcis T) B) :
  m (gheap s) = Ret (a, h) -> bind (gh m) k s = k a (set_gheap h s).
Proof. intros E. unfold bind, gh, zoom. by rewrite E. Qed.

(** A heap that has grown by some blocks. *)
Lemma wf_grow s gs h' gs' :
  wf s gs -> heap (mem_chunk_list h') gs' -> memlock h' = SPINLOCK_INIT -> hkern h' = hkern (gheap s) ->
  (forall a, a ∈ owners gs -> a ∈ owners gs') -> wf (set_gheap h' s) gs'.
Proof.
  intros [W1 W2 W3 W4 W5 W6 W7 W8 W9 W10 W11] H1 H2 H3 Hsub. constructor; try done.
  - unfold calm in *. cbn. by rewrite H3.
  - intros c d E. destruct (W6 c d E) as (A & B & D). auto.
  - intros x v E. eauto.
Qed.

(** A new container [c] with its descriptor [d]. *)
Lemma wf_new s gs h' gs' c d :
  wf s gs -> heap (mem_chunk_list h') gs' -> memlock h' = SPINLOCK_INIT -> hkern h' = hkern (gheap s) ->
  (forall a, a ∈ owners gs -> a ∈ owners gs') -> free_tdcs s = [] -> d ∈ owners gs' -> c ∈ owners gs' ->
  (forall a e, tdcs s !! a = Some e -> e <> d) ->
  wf (set_gheap h' (set_free_tdcs [] (set_tdcs (<[c := d]> (tdcs s)) (set_tds (<[d := mk_td 0 0 0 0]> (tds s)) s)))) gs'.
Proof.
  intros [W1 W2 W3 W4 W5 W6 W7 W8 W9 W10 W11] H1 H2 H3 Hsub Hf Hd Hc Hnew. constructor; try done.
  - unfold calm in *. cbn. by rewrite H3.
  - cbn [tdcs tds set_gheap set_free_tdcs set_tdcs set_tds]. intros a e E. apply lookup_insert_Some in E as [[<- <-]|[Hne E]].
    + split_and!; [done|done|]. rewrite lookup_insert_eq. by eexists.
    + destruct (W6 _ _ E) as (A & B & D). split_and!; [auto|auto|]. apply lookup_insert_is_Some'. by right.
  - cbn [tdcs set_gheap set_free_tdcs set_tdcs set_tds]. intros a a' e E E'.
    apply lookup_insert_Some in E as [[<- <-]|[Hne E]]; apply lookup_insert_Some in E' as [[<- E']|[Hne' E']]; [done| | |by eapply W7].
    + by apply Hnew in E'.
    + subst e. by apply Hnew in E.
  - intros x v E. eauto.
  - apply NoDup_nil_2.
  - intros a Ha. by apply elem_of_nil in Ha.
Qed.

(** Taking a container: from the free list, or with a descriptor from the heap. *)
Lemma tdc_alloc_run s gs n :
  wf s gs -> roomy (gheap s) gs (n + 2) ->
  exists c d h' gs' l' M N, let s' := set_gheap h' (set_free_tdcs l' (set_tdcs M (set_tds N s))) in
    tdc_alloc s = Ret (c, s') /\ wf s' gs' /\ roomy h' gs' n /\ (forall a, a ∈ owners gs -> a ∈ owners gs')
    /\ M !! c = Some d /\ (c ∉ l') /\ (forall a, a ∈ l' -> a ∈ free_tdcs s)
    /\ (c ∈ free_tdcs s \/ tdcs s !! c = None)
    /\ (forall a, a <> c -> M !! a = tdcs s !! a) /\ (forall a, a <> d -> N !! a = tds s !! a).
Proof.
  intros W Hr. pose proof W as [W1 W2 W3 W4 W5 W6 W7 W8 W9 W10 W11]. unfold tdc_alloc.
  rewrite lock_tdc_run by done. rewrite bind_gets. cbn [free_tdcs set_tdc_lock]. destruct (free_tdcs s) as [|c rest] eqn:El.
  - rewrite unlock_tdc_run by done.
    set (s1 := set_tdc_lock _ _). assert (Es1 : s1 = s) by (unfold s1; destruct s; cbn in *; by subst).
    rewrite Es1. clear s1 Es1.
    destruct (kzalloc_roomy (gheap s) gs (n + 1) SIZEOF_TDC ltac:(done)) as (c & h1 & gs1 & E1 & Hc & R1 & K1 & P1 & N1).
    { by replace (n + 1 + Z.to_nat ((SIZEOF_TDC - 1) / CHUNK_SIZE + 1))%nat with (n + 2)%nat by (change (Z.to_nat ((SIZEOF_TDC - 1) / CHUNK_SIZE + 1)) with 1%nat; lia). }
    destruct (kzalloc_roomy h1 gs1 n SIZEOF_TD ltac:(done) R1) as (d & h2 & gs2 & E2 & Hd & R2 & K2 & P2 & N2).
    rewrite (gh_ok _ _ _ _ _ E1), (proj2 (Z.eqb_neq c 0)) by done.
    assert (E2' : kzalloc_align SIZEOF_TD 16 (gheap (set_gheap h1 s)) = Ret (d, h2)) by exact E2.
    rewrite (gh_ok _ _ _ _ _ E2'), (proj2 (Z.eqb_neq d 0)) by done. unfold create. rewrite !bind_modify.
    assert (Hsub : forall a, a ∈ owners gs -> a ∈ owners gs2) by (intros a Ha; rewrite P2, P1; by right; right).
    exists c, d, h2, gs2, [], (<[c := d]> (tdcs s)), (<[d := mk_td 0 0 0 0]> (tds s)). cbv zeta.
    split; [by rewrite <- El; destruct s|]. rewrite P1 in N2. apply not_elem_of_cons in N2 as [Hdc N2].
    split; [|split; [exact R2|split; [exact Hsub|]]].
    + apply (wf_new s gs); [exact W|apply R2|apply R2|congruence|exact Hsub|exact El|rewrite P2; left|rewrite P2, P1; by right; left|].
      intros x v E ->. apply N2. by eapply W6.
    + split_and!; [by rewrite lookup_insert_eq|set_solver|set_solver| | |].
      * right. destruct (tdcs s !! c) as [d'|] eqn:E; [|done]. by destruct (W6 _ _ E).
      * intros a Ha. by rewrite lookup_insert_ne.
      * intros a Ha. by rewrite lookup_insert_ne.
  - rewrite bind_modify, unlock_tdc_run by done. apply list.NoDup_cons in W9 as [Hc W9].
    destruct (W10 c ltac:(left)) as [d Ed].
    exists c, d, (gheap s), gs, rest, (tdcs s), (tds s). cbv zeta.
    split; [by destruct s; cbn in *; subst|]. split; [|split; [|split_and!; [done|exact Ed|done| |left; left|done|done]]].
    + constructor; try done. intros a Ha. apply W10. by right.
    + destruct Hr as (A & B & C & D). split_and!; [done|done|done|]. destruct D as [p ->]. apply free_end_le. lia.
    + intros a Ha. by right.
Qed.

Lemma find_xfer_run l : forall s,
  (forall x, x ∈ l -> exists v, xfers s !! x = Some v /\ (xuh v = 0 \/ is_Some (uhs s !! xuh v))) ->
  exists r b, find_xfer l s = Ret (r, set_io b s) /\ forall x, r = Some x -> x ∈ l.
Proof.
  induction l as [|x l IH]; intros s Hl.
  - exists None, (io s). split; [by destruct s|done].
  - destruct (Hl x ltac:(left)) as (v & Ev & Hv). cbn [find_xfer]. rewrite (bind_load XFER x v) by done.
    destruct (Z.eqb_spec (xuh v) 0) as [E0|E0]; cbn [negb].
    { exists (Some x), (io s). split; [by destruct s|]. intros y [= <-]. left. }
    destruct Hv as [Hv|[uh Hu]]; [done|]. rewrite (bind_load UH _ uh) by done.
    unfold uhci_pci_read. rewrite bind_assoc, port_r_ok, bind_ret.
    destruct (frame_num v =? _).
    + match goal with |- context [set_io ?b s] => destruct (IH (set_io b s)) as (r & b' & E & Hr) end.
      { intros y Hy. apply Hl. by right. }
      exists r, b'. split; [rewrite E; by destruct s|]. intros y Ey. right. by apply Hr.
    + eexists (Some x), _. split; [reflexivity|]. intros y [= <-]. left.
Qed.

Definition new_xfer_state (x : Z) (b : T) (h : hst) (l : list Z) s : uhcis T :=
  set_io b (set_gheap h (set_free_xfers l
    (set_qhs (<[x + OFF_QH := mk_qh UHCI_LP_TERMINATE UHCI_LP_TERMINATE 0 0]> (qhs s))
      (set_xfers (<[x := mk_xfer 0 [] 0]> (xfers s)) s)))).

(** Taking a transfer unit: from the free list, or from the heap. *)
Lemma xfer_alloc_take s gs n :
  wf s gs -> roomy (gheap s) gs (n + 1) ->
  exists x b h' gs' l', xfer_alloc s = Ret (x, new_xfer_state x b h' l' s)
    /\ roomy h' gs' n /\ hkern h' = hkern (gheap s) /\ (forall a, a ∈ owners gs -> a ∈ owners gs') /\ x ∈ owners gs'
    /\ (x ∉ l') /\ (forall a, a ∈ l' -> a ∈ free_xfers s) /\ (x ∈ free_xfers s \/ (x ∉ owners gs)).
Proof.
  intros W Hr. pose proof W as [W1 W2 W3 W4 W5 W6 W7 W8 W9 W10 W11]. unfold xfer_alloc.
  rewrite lock_xfer_run by done. rewrite bind_gets. cbn [free_xfers set_xfer_lock].
  destruct (find_xfer_run (free_xfers s) (set_xfer_lock (taken SYNC_IMPL) s) W11) as (r & b & E & Hin).
  rewrite (bind_step _ _ _ _ _ E). destruct r as [x|].
  - specialize (Hin x eq_refl). rewrite bind_modify, unlock_xfer_run by done. unfold prepare_xfer, create.
    rewrite bind_assoc, !bind_modify. destruct (W11 x Hin) as (v & Ev & _).
    exists x, b, (gheap s), gs, (unlink x (free_xfers s)). split_and!; [by destruct s; cbn in *; subst| | | | | | |].
    + destruct Hr as (A & B & C & D). split; [done|]. split; [done|]. split; [done|]. destruct D as [p ->]. apply free_end_le. lia.
    + done.
    + done.
    + by eapply W8.
    + unfold unlink. rewrite list_elem_of_filter. naive_solver.
    + unfold unlink. intros a. rewrite list_elem_of_filter. naive_solver.
    + by left.
  - rewrite unlock_xfer_run by done.
    destruct (kzalloc_roomy (gheap s) gs n SIZEOF_XFER ltac:(done) Hr) as (x & h' & gs' & E1 & Hx & R1 & K1 & P1 & N1).
    rewrite (gh_ok _ x h') by exact E1. unfold prepare_xfer, create. rewrite bind_assoc, !bind_modify.
    exists x, b, h', gs', (free_xfers s). split_and!; [by destruct s; cbn in *; subst|exact R1|done| | | |done|by right].
    + intros a Ha. rewrite P1. by right.
    + rewrite P1. left.
    + intros Hx'. destruct (W11 x Hx') as (v & Ev & _). apply N1. by eapply W8.
Qed.

Lemma xfer_alloc_run s gs n u uh qs :
  wf s gs -> scheduled s u uh qs -> placed s gs qs -> roomy (gheap s) gs (n + 1) ->
  exists x b h' gs' l', xfer_alloc s = Ret (x, new_xfer_state x b h' l' s)
    /\ wf (new_xfer_state x b h' l' s) gs' /\ scheduled (new_xfer_state x b h' l' s) u uh qs
    /\ placed (new_xfer_state x b h' l' s) gs' qs /\ roomy h' gs' n
    /\ x ∈ owners gs' /\ (x ∉ l') /\ (x + OFF_QH ∉ members qs).
Proof.
  intros W HS HP Hr. destruct (xfer_alloc_take s gs n W Hr) as (x & b & h' & gs' & l' & E & R & K & Hsub & Hx & Hl & Hl' & Hor).
  pose proof W as [W1 W2 W3 W4 W5 W6 W7 W8 W9 W10 W11]. pose proof R as (R1 & R2 & R3 & R4).
  destruct (owner_qaddr _ _ _ R3 Hx) as (Q1 & Q2 & Q3 & Q4 & Q5).
  assert (Hm : x + OFF_QH ∉ members qs).
  { intros Hq. destruct (HP _ Hq) as [Ho|(x' & Ex & [v Hv] & Hf)]; [by apply Q3, Hsub|].
    assert (x' = x) as -> by lia. destruct Hor as [Hor|Hor]; [done|]. apply Hor. by eapply W8. }
  exists x, b, h', gs', l'. split; [exact E|]. split; [|split; [|split; [|split; [exact R|split; [done|split; done]]]]].
  - constructor; try done.
    + intros c d Ec. destruct (W6 c d Ec) as (A & B & D). auto.
    + intros y v Ey. cbn in Ey. apply lookup_insert_Some in Ey as [[<- _]|[_ Ey]]; [done|]. eauto.
    + intros y Hy. assert (Hyx : y <> x) by (by intros ->). destruct (W11 y (Hl' y Hy)) as (v & Ev & Hv).
      exists v. cbn. by rewrite lookup_insert_ne.
  - destruct HS as (S1 & S2 & S3 & S4 & S5 & S6 & S7).
    split; [exact S1|]. split; [exact S2|]. split; [exact R2|]. split; [|split; [exact S5|split; [exact S6|]]].
    + eapply queues_ext, S4. intros a Ha. cbn. rewrite lookup_insert_ne; [done|]. intros <-. by apply Hm.
    + cbn. apply lookup_insert_is_Some'. by right.
  - intros q Hq. destruct (HP q Hq) as [Ho|(y & -> & Hy & Hf)]; [left; by apply Hsub|right].
    exists y. split; [done|]. split; [cbn; apply lookup_insert_is_Some'; by right|]. cbn. intros Hx'. apply Hf. by apply Hl'.
Qed.

End Pools.

(** ** Chains of descriptors *)

(** Containers with their descriptors in the order of a transfer, linked to each
    other by [lp]; [V] holds their contents up to [lp]. *)
Definition tlink (L : list (Z * Z)) (e : Z) : Z := match L with [] => e | (_, d) :: _ => d end.

Fixpoint tdchain (M : gmap Z Z) (N : gmap Z uhci_transfer_descriptor) (L : list (Z * Z))
    (V : list uhci_transfer_descriptor) (e : Z) : Prop :=
  match L, V with
  | [], [] => True
  | (c, d) :: L', t :: V' => M !! c = Some d /\ N !! d = Some (set_lp (tlink L' e) t) /\ tdchain M N L' V' e
  | _, _ => False
  end.

Lemma tdchain_ext M N M' N' L e : forall V,
  (forall c, c ∈ L.*1 -> M' !! c = M !! c) -> (forall d, d ∈ L.*2 -> N' !! d = N !! d) ->
  tdchain M N L V e -> tdchain M' N' L V e.
Proof.
  induction L as [|[c d] L IH]; intros [|t V] HM HN; try done. intros (A & B & C).
  split; [rewrite HM by left; done|]. split; [rewrite HN by left; done|].
  apply IH; [intros; apply HM; by right|intros; apply HN; by right|done].
Qed.

Lemma tdchain_app M N L1 L2 e : forall V1 V2, length L1 = length V1 ->
  tdchain M N (L1 ++ L2) (V1 ++ V2) e <-> tdchain M N L1 V1 (tlink L2 e) /\ tdchain M N L2 V2 e.
Proof.
  induction L1 as [|[c d] L1 IH]; intros [|t V1] V2 Hlen; try done; cbn [app tdchain].
  - naive_solver.
  - rewrite IH by (by injection Hlen). assert (E : tlink (L1 ++ L2) e = tlink L1 (tlink L2 e)) by (by destruct L1 as [|[] ?]).
    rewrite E. naive_solver.
Qed.

Lemma tdchain_length M N L e : forall V, tdchain M N L V e -> length L = length V.
Proof. induction L as [|[c d] L IH]; intros [|t V]; try done. intros (_ & _ & Hc). cbn. f_equal. by apply IH. Qed.

(** The chain gets a new last descriptor [d]; the previous last one is linked to
    it. *)
Lemma tdchain_snoc M N L c0 d0 c d V t t0 e :
  tdchain M N (L ++ [(c0, d0)]) V e -> M !! c = Some d -> N !! d = Some (set_lp e t) -> N !! d0 = Some t0 ->
  (d0 ∉ d :: L.*2) ->
  tdchain M (<[d0 := set_lp d t0]> N) ((L ++ [(c0, d0)]) ++ [(c, d)]) (V ++ [t]) e.
Proof.
  intros Hc Hm Hd H0 Hn. apply not_elem_of_cons in Hn as [Hdd Hn]. pose proof (tdchain_length _ _ _ _ _ Hc) as Hlen.
  destruct (last_or_nil V) as [->|(V' & t' & ->)]; [rewrite length_app in Hlen; cbn in Hlen; lia|].
  rewrite !length_app in Hlen. cbn [length] in Hlen.
  apply tdchain_app in Hc as [Hc1 (A & B & _)]; [|lia]. rewrite H0 in B. injection B as ->. cbn [tlink] in *.
  apply tdchain_app; [rewrite !length_app; cbn; lia|]. split.
  - apply tdchain_app; [lia|]. split.
    + eapply tdchain_ext, Hc1; [done|]. intros a Ha. rewrite lookup_insert_ne; [done|]. by intros <-.
    + split; [done|]. split; [|done]. by rewrite lookup_insert_eq.
  - split; [done|]. split; [|done]. by rewrite lookup_insert_ne.
Qed.

(** Containers have different descriptors. *)
Lemma tdchain_nodup M N L e : forall V,
  (forall c c' d, M !! c = Some d -> M !! c' = Some d -> c = c') -> NoDup L.*1 -> tdchain M N L V e -> NoDup L.*2.
Proof.
  intros V Hinj. revert V. induction L as [|[c d] L IH]; intros [|t V] Hnd Hc; try done.
  cbn in Hnd. apply list.NoDup_cons in Hnd as [Hx Hnd]. destruct Hc as (A & _ & Hc). cbn. constructor; [|by eapply IH].
  intros Hd. apply Hx. clear -Hinj A Hc Hd. revert V Hc. induction L as [|[c' d'] L IH]; intros [|t V] Hc; try done; [by apply elem_of_nil in Hd|].
  destruct Hc as (B & _ & Hc). cbn in *. apply elem_of_cons in Hd as [->|Hd]; [|right; by eapply IH].
  rewrite (Hinj c c' d' A B). left.
Qed.

Lemma tdchain_in M N L e : forall V c, tdchain M N L V e -> c ∈ L.*1 -> exists d, d ∈ L.*2 /\ M !! c = Some d.
Proof.
  induction L as [|[c' d'] L IH]; intros [|t V] c Hc Hin; try done; [by apply elem_of_nil in Hin|].
  destruct Hc as (A & _ & Hc). cbn in *. apply elem_of_cons in Hin as [->|Hin]; [exists d'; split; [left|done]|].
  destruct (IH _ _ Hc Hin) as (d & Hd & E). exists d. split; [by right|done].
Qed.

Lemma tdchain_in2 M N L e : forall V d, tdchain M N L V e -> d ∈ L.*2 -> exists c, c ∈ L.*1 /\ M !! c = Some d.
Proof.
  induction L as [|[c' d'] L IH]; intros [|t V] d Hc Hin; try done; [by apply elem_of_nil in Hin|].
  destruct Hc as (A & _ & Hc). cbn in *. apply elem_of_cons in Hin as [->|Hin]; [exists c'; split; [left|done]|].
  destruct (IH _ _ Hc Hin) as (c & Hd & E). exists c. split; [by right|done].
Qed.

(** ** Building a transfer *)

Section Build.

Context {T : Type} `{ConfigPorts T}.
Implicit Types s : uhcis T.

(** A transfer unit [x] that is not queued, with the chain [L] of descriptors
    that hold [V]. *)
Record building s (gs : list segment) (u : Z) (uh : uhci) (qs : list (Z * list Z)) (x : Z) (L : list (Z * Z))
    (V : list uhci_transfer_descriptor) : Prop := mk_building {
  bd_wf : wf s gs;
  bd_sched : scheduled s u uh qs;
  bd_placed : placed s gs qs;
  bd_used : x ∉ free_xfers s;
  bd_new : x + OFF_QH ∉ members qs;
  bd_xfer : exists v, xfers s !! x = Some v /\ td_list v = L.*1;
  bd_qh : exists q, qhs s !! (x + OFF_QH) = Some q /\ is_top_queue q = 0 /\ vert_lp q = tlink L UHCI_LP_TERMINATE;
  bd_chain : tdchain (tdcs s) (tds s) L V UHCI_LP_TERMINATE;
  bd_nodup : NoDup L.*1;
  bd_taken c : c ∈ L.*1 -> c ∉ free_tdcs s
}.

Lemma scheduled_same s s' u uh qs :
  scheduled s u uh qs -> uhs s' = uhs s -> calm s' -> (forall a, a ∈ members qs -> qhs s' !! a = qhs s !! a) ->
  is_Some (qhs s' !! 0) -> scheduled s' u uh qs.
Proof.
  intros (S1 & S2 & S3 & S4 & S5 & S6 & S7) Eu C Hm H0.
  split; [by rewrite Eu|]. split; [done|]. split; [done|]. split; [by eapply queues_ext, S4|]. done.
Qed.

(** [td_build] for a packet of [size] bytes at [data]. *)
Lemma td_build_run s gs n u uh qs x L V pipe p pid size data :
  building s gs u uh qs x L V -> upipes s !! pipe = Some p -> roomy (gheap s) gs (n + 2) ->
  exists c d s' gs', td_build pipe pid size data s = Ret (c, s') /\ c <> 0
    /\ building s' gs' u uh qs x L V /\ roomy (gheap s') gs' n
    /\ tdcs s' !! c = Some d /\ tds s' !! d = Some (built p pid size data) /\ (c ∉ L.*1) /\ (c ∉ free_tdcs s')
    /\ upipes s' = upipes s /\ io s' = io s.
Proof.
  intros [B1 B2 B3 B4 B5 (v & Ev & Hv) (q & Eq & Q1 & Q2) B8 B9 B10] Hp Hr.
  destruct (tdc_alloc_run s gs n B1 Hr) as (c & d & h' & gs' & l' & M & N & E & W & R & Hsub & Hc & Hcl & Hl & Hor & HM & HN).
  set (s1 := set_gheap h' _) in *. pose proof W as [W1 W2 W3 W4 W5 W6 W7 W8 W9 W10 W11].
  destruct (W6 c d Hc) as (Oc & Od & [t Ht]). destruct (owner_qaddr _ _ _ W1 Oc) as (_ & _ & _ & Hc0 & _).
  assert (HcL : c ∉ L.*1).
  { intros Hin. destruct Hor as [Hor|Hor]; [by apply (B10 c Hin)|].
    destruct (tdchain_in _ _ _ _ _ _ B8 Hin) as (d' & _ & E'). congruence. }
  assert (HdL : d ∉ L.*2).
  { intros Hin. destruct (tdchain_in2 _ _ _ _ _ _ B8 Hin) as (c' & Hc' & E').
    assert (c' <> c) by (by intros ->). rewrite <- HM in E' by done. by pose proof (W7 c c' d Hc E') as <-. }
  exists c, d, (set_tds (<[d := built p pid size data]> N) s1), gs'.
  split; [|split; [done|split; [|split; [exact R|]]]].
  - unfold td_build. rewrite (bind_step _ _ _ _ _ E), (proj2 (Z.eqb_neq c 0) Hc0).
    rewrite (bind_load TDC c d) by exact Hc. rewrite (bind_load PIPE pipe p) by exact Hp.
    rewrite (bind_update TD d _ t) by exact Ht. by destruct s.
  - constructor; try done.
    + constructor; try done. intros a e Ea. destruct (W6 a e Ea) as (A & B & D). split_and!; [done|done|].
      apply lookup_insert_is_Some'. by right.
    + eapply scheduled_same; [exact B2|done|exact W3|done|]. apply B2.
    + intros a Ha. destruct (B3 a Ha) as [Ho|Ho]; [left; by apply Hsub|by right].
    + by exists v.
    + by exists q.
    + eapply tdchain_ext, B8.
      * intros a Ha. apply HM. by intros ->.
      * intros a Ha. cbn. rewrite lookup_insert_ne by (by intros ->). apply HN. by intros ->.
    + intros a Ha Hx. apply (B10 a Ha). by apply Hl.
  - split_and!; try done. cbn. by rewrite lookup_insert_eq.
Qed.

(** [xfer_add_tdc] links it behind the others. *)
Lemma xfer_add_tdc_run {B} s gs u uh qs x L V c d t (k : unit -> M (uhcis T) B) :
  building s gs u uh qs x L V -> tdcs s !! c = Some d -> tds s !! d = Some (set_lp UHCI_LP_TERMINATE t) ->
  (c ∉ L.*1) -> (c ∉ free_tdcs s) ->
  exists s', bind (xfer_add_tdc x c) k s = k tt s' /\ building s' gs u uh qs x (L ++ [(c, d)]) (V ++ [t])
    /\ upipes s' = upipes s /\ gheap s' = gheap s.
Proof.
  intros [B1 B2 B3 B4 B5 (v & Ev & Hv) (q & Eq & Q1 & Q2) B8 B9 B10] Hc Hd HcL Hcf.
  pose proof B1 as [W1 W2 W3 W4 W5 W6 W7 W8 W9 W10 W11]. destruct (W6 c d Hc) as (_ & Od & _).
  destruct (owner_qaddr _ _ _ W1 Od) as (Qd & _ & _ & Hd0 & Ed). set (v' := set_td_list (td_list v ++ [c]) v).
  assert (Hnd : NoDup (L ++ [(c, d)]).*1).
  { rewrite fmap_app. apply list.NoDup_app. split; [done|]. split; [|apply NoDup_singleton].
    intros a Ha Hx. apply list_elem_of_singleton in Hx as ->. done. }
  assert (Htk : forall a, a ∈ (L ++ [(c, d)]).*1 -> a ∉ free_tdcs s).
  { intros a. rewrite fmap_app, elem_of_app. intros [Ha|Ha]; [by apply B10|]. by apply list_elem_of_singleton in Ha as ->. }
  assert (Hplace : forall s', xfers s' = <[x := v']> (xfers s) -> free_xfers s' = free_xfers s -> placed s' gs qs).
  { intros s' E1 E2 a Ha. destruct (B3 a Ha) as [Ho|(y & Ey & Hy & Hf)]; [by left|right]. exists y. rewrite E1, E2.
    split_and!; [done| |done]. apply lookup_insert_is_Some'. by right. }
  assert (Hwx : forall y w, <[x := v']> (xfers s) !! y = Some w -> y ∈ owners gs).
  { intros y w Ey. apply lookup_insert_Some in Ey as [[<- _]|[_ Ey]]; eauto. }
  assert (Hwf : forall y, y ∈ free_xfers s -> exists w, <[x := v']> (xfers s) !! y = Some w /\ (xuh w = 0 \/ is_Some (uhs s !! xuh w))).
  { intros y Hy. rewrite lookup_insert_ne by (by intros ->). by apply W11. }
  unfold xfer_add_tdc. rewrite bind_assoc, (bind_load QH _ q) by exact Eq. rewrite bind_assoc, (bind_load TDC c d) by exact Hc.
  rewrite bind_assoc, Ed. destruct (last_or_nil L) as [->|(L' & [c0 d0] & ->)].
  - rewrite Q2. cbn [tlink Z.eqb UHCI_LP_TERMINATE Pos.eqb]. rewrite (bind_update QH _ _ q) by exact Eq.
    rewrite (bind_update XFER x _ v) by exact Ev. fold v'. eexists. split; [reflexivity|]. split; [|done].
    constructor; try done.
    + eapply scheduled_same; [exact B2|done|exact W3| |].
      * intros a Ha. cbn. rewrite lookup_insert_ne; [done|]. intros <-. done.
      * cbn. apply lookup_insert_is_Some'. right. apply B2.
    + by apply Hplace.
    + exists v'. split; [by cbn; rewrite lookup_insert_eq|]. unfold v'. cbn. by rewrite Hv.
    + exists (set_vert_lp d q). split; [by cbn; rewrite lookup_insert_eq|done].
    + destruct V; [|done]. cbn. done.
  - assert (Hq : (vert_lp q =? UHCI_LP_TERMINATE) = false).
    { apply Z.eqb_neq. rewrite Q2. destruct (tdchain_in _ _ _ _ _ c0 B8) as (d' & _ & E'); [rewrite fmap_app; apply elem_of_app; right; left|].
      assert (Hl : exists c1 d1, tlink (L' ++ [(c0, d0)]) UHCI_LP_TERMINATE = d1 /\ tdcs s !! c1 = Some d1).
      { destruct L' as [|[c1 d1] L']; [exists c0, d0|exists c1, d1]; split; [done| |done|]; destruct V; try done; by destruct B8. }
      destruct Hl as (c1 & d1 & -> & E1). destruct (W6 _ _ E1) as (_ & O1 & _).
      destruct (owner_qaddr _ _ _ W1 O1) as ([_ Hm] & _). unfold UHCI_LP_TERMINATE. intros ->. discriminate. }
    rewrite Hq. rewrite bind_assoc, (bind_load XFER x v) by exact Ev. rewrite Hv, fmap_app. cbn [fmap list_fmap fst]. rewrite last_snoc.
    pose proof (tdchain_nodup _ _ _ _ _ W7 B9 B8) as Hnd2.
    rewrite fmap_app in Hnd2. cbn [fmap list_fmap snd] in Hnd2. apply list.NoDup_app in Hnd2 as (_ & Hdis & _).
    assert (E0 : tdcs s !! c0 = Some d0).
    { pose proof (tdchain_length _ _ _ _ _ B8) as Hlen. destruct (last_or_nil V) as [->|(V' & t' & ->)]; [rewrite length_app in Hlen; cbn in Hlen; lia|].
      rewrite !length_app in Hlen. cbn in Hlen. apply tdchain_app in B8 as [_ (A & _)]; [done|lia]. }
    destruct (W6 _ _ E0) as (_ & _ & [t0 Et0]).
    assert (Hd0d : d0 ∉ d :: L'.*2).
    { apply not_elem_of_cons. split; [|intros Hx; apply (Hdis d0 Hx); left]. intros ->. apply HcL.
      rewrite (W7 c c0 d Hc E0), fmap_app. apply elem_of_app. right. left. }
    rewrite bind_assoc, (bind_load TDC c0 d0) by exact E0. rewrite (bind_update TD d0 _ t0) by exact Et0.
    rewrite (bind_update XFER x _ v) by exact Ev. fold v'. eexists. split; [reflexivity|]. split; [|done].
    constructor; try done.
    + constructor; try done. cbn. intros a e Ea. destruct (W6 a e Ea) as (A & B' & D). split_and!; [done|done|].
      apply lookup_insert_is_Some'. by right.
    + by apply Hplace.
    + exists v'. split; [by cbn; rewrite lookup_insert_eq|]. unfold v'. cbn. rewrite Hv. by rewrite !fmap_app.
    + exists q. split; [exact Eq|]. split; [done|]. rewrite Q2. by destruct L' as [|[] ?].
    + by apply tdchain_snoc.
Qed.

(** *** The packets of a transfer

    Packet [i] carries the bytes from [i * mps] on, at most [mps] of them; toggle
    bits alternate. *)

Definition packet (p : upipe) (pid size data : Z) (i : nat) : uhci_transfer_descriptor :=
  let mps := max_packet_size (up_pipe p) in
  built (set_up_toggle ((toggle_bit (up_pipe p) + Z.of_nat i) mod 2) p) pid
    (Z.min mps (size - Z.of_nat i * mps)) (data + Z.of_nat i * mps).

Definition npackets (p : upipe) (size : Z) : nat :=
  let mps := max_packet_size (up_pipe p) in Z.to_nat (Z.max 1 ((size + mps - 1) / mps)).

Definition packets (p : upipe) (pid size data : Z) : list uhci_transfer_descriptor :=
  packet p pid size data <$> seq 0 (npackets p size).

(** The pipe before packet [i]. *)
Definition pipe_at (p : upipe) (i : nat) : upipe := set_up_toggle ((toggle_bit (up_pipe p) + Z.of_nat i) mod 2) p.

Lemma pipe_at_succ p i :
  set_up_toggle (1 - toggle_bit (up_pipe (pipe_at p i))) (pipe_at p i) = pipe_at p (S i).
Proof.
  unfold pipe_at, set_up_toggle. cbn. f_equal. unfold Usb.set_toggle. cbn. f_equal.
  rewrite Nat2Z.inj_succ. zdiv.
Qed.

Lemma built_at p pid size data data' i :
  u32 data' = u32 data -> built (pipe_at p i) pid size data' = built (pipe_at p i) pid size data.
Proof. intros E. unfold built. by rewrite E. Qed.

(** One round of the loop. *)
Lemma packet_round fuel s gs n u uh qs x L V pipe p i pid size data rem dat :
  building s gs u uh qs x L V -> upipes s !! pipe = Some (pipe_at p i) -> roomy (gheap s) gs (n + 2) ->
  rem = size - Z.of_nat i * max_packet_size (up_pipe p) -> u32 dat = u32 (data + Z.of_nat i * max_packet_size (up_pipe p)) ->
  let ps := Z.min (max_packet_size (up_pipe p)) rem in
  exists c d s' gs', build_packets fuel pipe pid x rem dat s
      = (if 0 <? rem - ps then
           match fuel with O => out_of_fuel | S f => build_packets f pipe pid x (rem - ps) (u32 (dat + ps)) end
         else ret 0) s'
    /\ building s' gs' u uh qs x (L ++ [(c, d)]) (V ++ [packet p pid size data i]) /\ roomy (gheap s') gs' n
    /\ upipes s' = <[pipe := pipe_at p (S i)]> (upipes s).
Proof.
  intros HB Hp Hr Hrem Hdat. set (mps := max_packet_size (up_pipe p)) in *. cbv zeta.
  destruct (td_build_run s gs n u uh qs x L V pipe (pipe_at p i) pid (Z.min mps rem) dat HB Hp Hr)
    as (c & d & s1 & gs1 & E1 & Hc & HB1 & R1 & Ec & Ed & HcL & Hcf & Eu & _).
  assert (Hps : (if max_packet_size (up_pipe (pipe_at p i)) <? rem then max_packet_size (up_pipe (pipe_at p i)) else rem) = Z.min mps rem)
    by (change (max_packet_size (up_pipe (pipe_at p i))) with mps; destruct (Z.ltb_spec mps rem); lia).
  assert (Et : built (pipe_at p i) pid (Z.min mps rem) dat = packet p pid size data i)
    by (unfold packet; fold mps; rewrite Hrem; apply built_at, Hdat).
  set (s2 := set_upipes (<[pipe := pipe_at p (S i)]> (upipes s)) s1).
  assert (HB2 : building s2 gs1 u uh qs x L V) by (destruct HB1 as [[] ? ? ? ? ? ? ? ? ?]; constructor; try done; constructor; done).
  match goal with |- context [if 0 <? _ then ?a else ?b] => set (rest := if 0 <? rem - Z.min mps rem then a else b) end.
  assert (Estep : build_packets fuel pipe pid x rem dat s = (xfer_add_tdc x c ;;; rest) s2).
  { destruct fuel as [|fuel]; cbn [build_packets]; rewrite (bind_load PIPE pipe (pipe_at p i)) by exact Hp; rewrite Hps;
    rewrite (bind_step _ _ _ _ _ E1), (proj2 (Z.eqb_neq c 0) Hc);
    rewrite (bind_update PIPE pipe _ (pipe_at p i)) by (cbn; by rewrite Eu); rewrite pipe_at_succ;
    unfold s2; cbn [with_store store_of PIPE]; rewrite Eu; reflexivity. }
  destruct (xfer_add_tdc_run s2 gs1 u uh qs x L V c d (packet p pid size data i) (fun _ => rest) HB2 Ec) as (s3 & E3 & HB3 & Eu3 & Eg3);
    [cbn [tds s2 set_upipes]; rewrite Ed, Et; reflexivity|done|done|].
  exists c, d, s3, gs1. rewrite Estep, E3. split; [done|]. split; [exact HB3|]. rewrite Eg3. split; [exact R1|]. by rewrite Eu3.
Qed.

Lemma build_packets_run p pid size data pipe x u uh qs k : forall fuel i n s gs L V rem dat,
  building s gs u uh qs x L V -> upipes s !! pipe = Some (pipe_at p i) -> 0 < max_packet_size (up_pipe p) ->
  rem = size - Z.of_nat i * max_packet_size (up_pipe p) -> u32 dat = u32 (data + Z.of_nat i * max_packet_size (up_pipe p)) ->
  0 <= rem <= Z.of_nat (S k) * max_packet_size (up_pipe p) -> (Z.of_nat k * max_packet_size (up_pipe p) < rem \/ k = 0%nat) ->
  (k <= fuel)%nat -> roomy (gheap s) gs (n + 2 * S k) ->
  exists s' gs' L', build_packets fuel pipe pid x rem dat s = Ret (0, s')
    /\ building s' gs' u uh qs x (L ++ L') (V ++ (packet p pid size data <$> seq i (S k))) /\ roomy (gheap s') gs' n
    /\ upipes s' = <[pipe := pipe_at p (i + S k)]> (upipes s).
Proof.
  induction k as [|k IH]; intros fuel i n s gs L V rem dat HB Hp Hm Hrem Hdat Hk Hk' Hf Hr.
  - destruct (packet_round fuel s gs n u uh qs x L V pipe p i pid size data rem dat HB Hp) as (c & d & s3 & gs3 & E & HB3 & R3 & U3);
      [by replace (n + 2)%nat with (n + 2 * 1)%nat by lia|done|done|].
    set (mps := max_packet_size (up_pipe p)) in *. rewrite E. assert (Z.min mps rem = rem) as -> by lia.
    rewrite Z.sub_diag. cbn [Z.ltb Z.compare]. exists s3, gs3, [(c, d)]. split; [done|]. split; [exact HB3|]. split; [exact R3|].
    by rewrite Nat.add_1_r.
  - destruct (packet_round fuel s gs (n + 2 * S k) u uh qs x L V pipe p i pid size data rem dat HB Hp) as (c & d & s3 & gs3 & E & HB3 & R3 & U3);
      [by replace (n + 2 * S k + 2)%nat with (n + 2 * S (S k))%nat by lia|done|done|].
    set (mps := max_packet_size (up_pipe p)) in *. rewrite E. assert (Z.min mps rem = mps) as -> by nia.
    rewrite (proj2 (Z.ltb_lt 0 (rem - mps))) by nia. destruct fuel as [|fuel]; [lia|].
    destruct (IH fuel (S i) n s3 gs3 (L ++ [(c, d)]) (V ++ [packet p pid size data i]) (rem - mps) (u32 (dat + mps)))
      as (s4 & gs4 & L4 & E4 & HB4 & R4 & U4); [done| |done|lia| |nia|left; nia|lia|exact R3|].
    + rewrite U3. by rewrite lookup_insert_eq.
    + unfold u32 in *. rewrite Zmod_mod. rewrite Zplus_mod, Hdat, <- Zplus_mod. f_equal. lia.
    + exists s4, gs4, ((c, d) :: L4). split; [exact E4|]. rewrite <- !app_assoc in HB4. split; [exact HB4|]. split; [exact R4|].
      rewrite U4, U3, insert_insert_eq. by replace (i + S (S k))%nat with (S i + S k)%nat by lia.
Qed.

End Build.

(** ** Waiting for the controller *)

(** Status and length of a transfer, from its descriptors. *)
Definition status_of (V : list uhci_transfer_descriptor) : Z :=
  Z.land (fold_left (fun a t => Z.lor a (control_status t)) V 0) UHCI_TD_STATUS_MASK.
Definition bytes_of (V : list uhci_transfer_descriptor) : Z :=
  fold_left (fun a t => s32 (a + Z.land (u32 (control_status t + 1)) UHCI_TD_ACTLEN)) V 0.
Definition stalled (V : list uhci_transfer_descriptor) : bool := truth (Z.land (status_of V) UHCI_TD_STALLED_BIT).
Definition finished (V : list uhci_transfer_descriptor) : Prop := status_of V = 0 \/ stalled V = true.

(** What the controller does not change in a descriptor. *)
Definition same_td (t t' : uhci_transfer_descriptor) : Prop :=
  token t' = token t /\ buffer_pointer t' = buffer_pointer t.

Definition tops (uh : uhci) : list Z := [interrupt_qh uh; control_qh uh; bulk_in_qh uh; bulk_out_qh uh].

Section Wait.

Context {T : Type} `{ConfigPorts T}.
Implicit Types s : uhcis T.

(** The transfer [x] is on the queue [top]: its descriptors are [L], they hold
    [V] now and were built as [V0]; [p] is its pipe. *)
Record waiting (u : Z) (tp : list Z) (top x : Z) (L : list (Z * Z)) (V0 : list uhci_transfer_descriptor)
    (pipe : Z) (p : upipe) s (V : list uhci_transfer_descriptor) : Prop := mk_waiting {
  wt_sys : exists gs uh l r l1 l2, wf s gs /\ scheduled s u uh (l ++ (top, l1 ++ (x + OFF_QH) :: l2) :: r)
    /\ placed s gs (l ++ (top, l1 ++ (x + OFF_QH) :: l2) :: r) /\ tops uh = tp
    /\ (l ++ (top, l1 ++ (x + OFF_QH) :: l2) :: r).*1 = tp;
  wt_used : x ∉ free_xfers s;
  wt_xfer : exists v, xfers s !! x = Some v /\ td_list v = L.*1 /\ xuh v = u;
  wt_chain : tdchain (tdcs s) (tds s) L V UHCI_LP_TERMINATE;
  wt_same : Forall2 same_td V0 V;
  wt_nodup : NoDup L.*1;
  wt_taken c : c ∈ L.*1 -> c ∉ free_tdcs s;
  wt_pipe : upipes s !! pipe = Some p
}.

Lemma sum_status_run M N L e s : forall V a,
  tdchain M N L V e -> tdcs s = M -> tds s = N ->
  sum_status L.*1 a s = Ret (fold_left (fun a t => Z.lor a (control_status t)) V a, s).
Proof.
  induction L as [|[c d] L IH]; intros [|t V] a Hc Em En; try done. destruct Hc as (A & B & Hc). cbn [fmap list_fmap fst sum_status].
  rewrite (bind_load TDC c d) by (cbn; by rewrite Em). rewrite (bind_load TD d _) by (cbn; rewrite En; exact B).
  rewrite (IH V) by done. done.
Qed.

Lemma count_bytes_run M N L e s : forall V a,
  tdchain M N L V e -> tdcs s = M -> tds s = N ->
  count_bytes L.*1 a s = Ret (fold_left (fun a t => s32 (a + Z.land (u32 (control_status t + 1)) UHCI_TD_ACTLEN)) V a, s).
Proof.
  induction L as [|[c d] L IH]; intros [|t V] a Hc Em En; try done. destruct Hc as (A & B & Hc). cbn [fmap list_fmap fst count_bytes].
  rewrite (bind_load TDC c d) by (cbn; by rewrite Em). rewrite (bind_load TD d _) by (cbn; rewrite En; exact B).
  rewrite (IH V) by done. done.
Qed.

Lemma get_status_run s x v L V e :
  xfers s !! x = Some v -> td_list v = L.*1 -> tdchain (tdcs s) (tds s) L V e -> xfer_get_status x s = Ret (status_of V, s).
Proof.
  intros Ev Hv Hc. unfold xfer_get_status. rewrite (bind_load XFER x v) by exact Ev. rewrite Hv.
  by rewrite (bind_step _ _ _ _ _ (sum_status_run _ _ _ _ _ _ 0 Hc eq_refl eq_refl)).
Qed.

(** What happens in a [yield]: other threads keep the rules of the pools and of
    the schedule and leave this transfer alone, and the controller makes
    progress with it, so that it is done after [delay] of them. *)
Context (pause : M (uhcis T) unit) (delay : Z -> uhcis T -> nat).

Definition fair u tp top x L V0 pipe p : Prop :=
  forall s V, waiting u tp top x L V0 pipe p s V ->
    (delay x s = 0%nat -> finished V)
    /\ (delay x s <> 0%nat -> exists s' V', pause s = Ret (tt, s') /\ waiting u tp top x L V0 pipe p s' V' /\ (delay x s' < delay x s)%nat).

Definition yields s s' : Prop := rtc (fun a b => pause a = Ret (tt, b)) s s'.

Lemma wait_done_run u tp top x L V0 pipe p polls : forall s V,
  fair u tp top x L V0 pipe p -> waiting u tp top x L V0 pipe p s V -> (delay x s <= polls)%nat ->
  exists s1 V1, wait_done pause polls x s = Ret (if status_of V1 =? 0 then 0 else ERR_DEV_STALLED, s1)
    /\ yields s s1 /\ waiting u tp top x L V0 pipe p s1 V1 /\ finished V1.
Proof.
  induction polls as [|polls IH]; intros s V Hf Hw Hd; pose proof Hw as [_ _ (v & Ev & Hv & _) Hc _ _ _ _].
  all: destruct (decide (finished V)) as [Hfin|Hfin].
  1,3: exists s, V; split; [|split; [apply rtc_refl|done]]; cbn [wait_done];
    rewrite (bind_step _ _ _ _ _ (get_status_run _ _ _ _ _ _ Ev Hv Hc));
    destruct (Z.eqb_spec (status_of V) 0) as [E|E]; [done|]; destruct Hfin as [Hfin|Hfin]; [done|];
    unfold stalled in Hfin; by rewrite Hfin.
  - exfalso. apply Hfin. apply (Hf s V Hw). lia.
  - destruct (proj2 (Hf s V Hw)) as (s' & V' & Ep & Hw' & Hlt); [intros E; apply Hfin; by apply (Hf s V Hw)|].
    destruct (IH s' V' Hf Hw' ltac:(lia)) as (s1 & V1 & E1 & Hy & Hw1 & Hf1). exists s1, V1.
    split; [|split; [eapply rtc_l; [exact Ep|exact Hy]|done]]. cbn [wait_done].
    rewrite (bind_step _ _ _ _ _ (get_status_run _ _ _ _ _ _ Ev Hv Hc)).
    rewrite (proj2 (Z.eqb_neq (status_of V) 0)) by (intros E; apply Hfin; by left).
    replace (truth (Z.land (status_of V) UHCI_TD_STALLED_BIT)) with false.
    2: { symmetry. destruct (truth _) eqn:E; [|done]. exfalso. apply Hfin. by right. }
    by rewrite (bind_step _ _ _ _ _ Ep).
Qed.

End Wait.

(** ** Giving a transfer back *)

Section Release.

Context {T : Type} `{ConfigPorts T}.
Implicit Types s : uhcis T.

Lemma tdc_free_run {B} s c (k : unit -> M (uhcis T) B) :
  tdc_lock s = SPINLOCK_INIT -> calm s -> bind (tdc_free c) k s = k tt (set_free_tdcs (free_tdcs s ++ [c]) s).
Proof.
  intros L C. unfold tdc_free. rewrite bind_assoc, lock_tdc_run by done. rewrite bind_assoc, bind_modify, unlock_tdc_run by done.
  by destruct s; cbn in *; subst.
Qed.

Lemma unlink_head c l : (c ∉ l) -> unlink c (c :: l) = l.
Proof.
  intros Hc. unfold unlink. rewrite filter_cons, decide_False by naive_solver.
  induction l as [|a l IH]; [done|]. apply not_elem_of_cons in Hc as [H1 H2]. rewrite filter_cons, decide_True by done.
  by rewrite IH.
Qed.

Lemma free_each_run x l : forall s v,
  xfers s !! x = Some v -> td_list v = l -> NoDup l -> tdc_lock s = SPINLOCK_INIT -> calm s ->
  free_each x l s = Ret (tt, set_free_tdcs (free_tdcs s ++ l) (set_xfers (<[x := set_td_list [] v]> (xfers s)) s)).
Proof.
  induction l as [|c l IH]; intros s v Ev Hv Hnd Hl Hc; cbn [free_each].
  - rewrite app_nil_r, insert_id by (rewrite Ev, <- Hv; by destruct v). by destruct s.
  - apply list.NoDup_cons in Hnd as [Hn Hnd]. rewrite (bind_update XFER x _ v) by exact Ev. rewrite tdc_free_run by done.
    rewrite Hv, unlink_head by done. rewrite (IH _ (set_td_list l v)); [|by cbn; rewrite lookup_insert_eq|done..].
    cbn. rewrite insert_insert_eq, <- app_assoc. by destruct s.
Qed.

Lemma xfer_free_run {B} s x v (k : unit -> M (uhcis T) B) :
  xfers s !! x = Some v -> NoDup (td_list v) -> tdc_lock s = SPINLOCK_INIT -> xfer_lock s = SPINLOCK_INIT -> calm s ->
  bind (xfer_free x) k s = k tt (set_free_xfers (free_xfers s ++ [x]) (set_free_tdcs (free_tdcs s ++ td_list v)
    (set_xfers (<[x := set_td_list [] v]> (xfers s)) s))).
Proof.
  intros Ev Hnd Hl Hl' Hc. unfold xfer_free. rewrite bind_assoc, (bind_load XFER x v) by exact Ev.
  rewrite bind_assoc, (bind_step _ _ _ _ _ (free_each_run _ _ _ _ Ev eq_refl Hnd Hl Hc)).
  rewrite bind_assoc, lock_xfer_run by done. rewrite bind_assoc, bind_modify, unlock_xfer_run by done.
  by destruct s; cbn in *; subst.
Qed.

(** The pools after a transfer is given back. *)
Lemma wf_release s gs x v l :
  wf s gs -> xfers s !! x = Some v -> (xuh v = 0 \/ is_Some (uhs s !! xuh v)) -> td_list v = l -> NoDup l ->
  (forall c, c ∈ l -> (c ∉ free_tdcs s) /\ is_Some (tdcs s !! c)) ->
  wf (set_free_xfers (free_xfers s ++ [x]) (set_free_tdcs (free_tdcs s ++ l) (set_xfers (<[x := set_td_list [] v]> (xfers s)) s))) gs.
Proof.
  intros [W1 W2 W3 W4 W5 W6 W7 W8 W9 W10 W11] Ev Hu Hl Hnd Htk. constructor; try done.
  - intros y w Ey. cbn in Ey. apply lookup_insert_Some in Ey as [[<- _]|[_ Ey]]; eauto.
  - cbn. apply list.NoDup_app. split_and!; [done| |done]. intros c Hc Hc'. by apply (Htk c).
  - cbn. intros c Hc. apply elem_of_app in Hc as [Hc|Hc]; [by apply W10|by apply Htk].
  - cbn. intros y Hy. destruct (decide (y = x)) as [->|Hne]; [rewrite lookup_insert_eq; by eexists|].
    rewrite lookup_insert_ne by done. apply W11. apply elem_of_app in Hy as [Hy|Hy]; [done|].
    by apply list_elem_of_singleton in Hy.
Qed.

End Release.

(** ** The whole transfer *)

Section Transfer.

Context {T : Type} `{ConfigPorts T} (pause : M (uhcis T) unit) (delay : Z -> uhcis T -> nat).

Lemma scheduled_set_xfers (s : uhcis T) u uh qs m l1 l2 :
  scheduled s u uh qs -> scheduled (set_free_xfers l1 (set_free_tdcs l2 (set_xfers m s))) u uh qs.
Proof. done. Qed.

Lemma same_td_refl V : Forall2 same_td V V.
Proof. by induction V; constructor. Qed.

(** The transfer [x] has been put in front of the queue [top] of the queues [qs]. *)
Definition put_on (s0 : uhcis T) (u : Z) (uh : uhci) (qs : list (Z * list Z)) (top x : Z) : Prop :=
  exists l xs r, qs = l ++ (top, xs) :: r /\ scheduled s0 u uh (l ++ (top, (x + OFF_QH) :: xs) :: r).

(** Between [s1] and [s'] the transfer [x] has been taken off the queue [top],
    wherever it was in it, all other queue heads are where they were, and the unit
    and the descriptors [L] have been put at the ends of the free lists. *)
Definition taken_off (s1 s' : uhcis T) (gs : list segment) (u : Z) (tp : list Z) (top x : Z) (L : list (Z * Z)) : Prop :=
  exists uh l l1 l2 r, tops uh = tp /\ (l ++ (top, l1 ++ l2) :: r).*1 = tp
    /\ scheduled s1 u uh (l ++ (top, l1 ++ (x + OFF_QH) :: l2) :: r)
    /\ scheduled s' u uh (l ++ (top, l1 ++ l2) :: r) /\ placed s' gs (l ++ (top, l1 ++ l2) :: r)
    /\ (x + OFF_QH ∉ members (l ++ (top, l1 ++ l2) :: r))
    /\ free_xfers s' = free_xfers s1 ++ [x] /\ free_tdcs s' = free_tdcs s1 ++ L.*1.

(** From the enqueueing of a built transfer to its return to the pools. *)
Lemma run_transfer_run polls s gs u uh qs x L V pipe p pid top :
  building s gs u uh qs x L V -> qs.*1 = tops uh -> queue_for pid uh = Some top -> upipes s !! pipe = Some p ->
  fair pause delay u (tops uh) top x L V pipe p -> (forall s', (delay x s' <= polls)%nat) ->
  exists s0 s1 V1 s' gs',
    waiting u (tops uh) top x L V pipe p s0 V /\ vert_lp <$> qhs s0 !! (x + OFF_QH) = Some (tlink L UHCI_LP_TERMINATE)
    /\ put_on s0 u uh qs top x /\ yields pause s0 s1 /\ waiting u (tops uh) top x L V pipe p s1 V1 /\ finished V1
    /\ (forall B (k : Z -> M (uhcis T) B), bind (run_transfer pause polls u pid x) (fun err => xfer_free x ;;; k err) s
          = k (if status_of V1 =? 0 then bytes_of V1 else ERR_DEV_STALLED) s')
    /\ wf s' gs' /\ taken_off s1 s' gs' u (tops uh) top x L /\ upipes s' !! pipe = Some p.
Proof.
  intros HB Htops Hq Hp Hfair Hpolls. pose proof HB as [B1 B2 B3 B4 B5 (v & Ev & Hv) (q & Eq & Q1 & Q2) B8 B9 B10].
  pose proof B1 as [W1 W2 W3 W4 W5 W6 W7 W8 W9 W10 W11].
  assert (Hin : top ∈ qs.*1).
  { rewrite Htops. unfold queue_for, tops in *. repeat case_match; simplify_eq; set_solver. }
  apply list_elem_of_fmap in Hin as ([top' xs] & -> & Hin). cbn [fst] in *.
  apply list_elem_of_split in Hin as (l & r & ->).
  destruct (owner_qaddr _ _ _ W1 (W8 _ _ Ev)) as (_ & Qx & Qn & _ & _).
  assert (Hvert : Z.land (vert_lp q) UHCI_LP_QH = 0).
  { rewrite Q2. destruct L as [|[c d] L]; [done|]. destruct V as [|t V]; [done|]. destruct B8 as (A & _).
    destruct (W6 _ _ A) as (_ & Od & _). destruct (owner_qaddr _ _ _ W1 Od) as ([_ Hm] & _). cbn [tlink].
    unfold UHCI_LP_QH. rewrite (land_bit _ 1) by lia. rewrite Z.testbit_odd, Z.shiftr_div_pow2 by lia. change (2 ^ 1) with 2.
    replace (Z.odd (d / 2)) with false; [done|]. symmetry. rewrite Zodd_even_bool. apply negb_false_iff. rewrite Zeven_mod. apply Z.eqb_eq. zdiv. }
  destruct (xfer_enqueue_run s u uh l top' xs r x v q B2 Ev Eq Q1 Hvert Qx B5) as (m & Ee & S0 & Hm & Hmv).
  set (s0 := set_qhs m _) in *.
  assert (Hw0 : waiting u (tops uh) top' x L V pipe p s0 V).
  { constructor; try done.
    - exists gs, uh, l, r, [], xs. split_and!; [|exact S0| |done|by rewrite <- Htops, !fmap_app].
      + constructor; try done; cbn.
        * intros y w Ey. apply lookup_insert_Some in Ey as [[<- _]|[_ Ey]]; eauto.
        * intros y Hy. rewrite lookup_insert_ne by (by intros ->). by apply W11.
      + intros a Ha. rewrite members_focus in Ha. cbn [app] in Ha.
        assert (Ha' : a = x + OFF_QH \/ a ∈ members (l ++ (top', xs) :: r)) by (rewrite members_focus; set_solver).
        destruct Ha' as [->|Ha']; [right; exists x; split; [done|]; split; [cbn; rewrite lookup_insert_eq; by eexists|done]|].
        destruct (B3 a Ha') as [Ho|(y & -> & Hy & Hf)]; [by left|right]. exists y. split; [done|]. split; [|done].
        cbn. apply lookup_insert_is_Some'. by right.
    - exists (set_xuh u v). split; [cbn; by rewrite lookup_insert_eq|done].
    - apply same_td_refl. }
  destruct (wait_done_run pause delay u (tops uh) top' x L V pipe p polls s0 V Hfair Hw0 (Hpolls s0)) as (s1 & V1 & Ew & Hy & Hw1 & Hf1).
  pose proof Hw1 as [(gs1 & uh1 & l' & r' & l1 & l2 & W' & S1 & P1 & Ht1 & Hf1') U1 (v1 & Ev1 & Hv1 & Hu1) C1 _ N1 T1 Pp1].
  destruct (xfer_dequeue_run s1 u uh1 l' top' l1 l2 r' x v1 S1 Ev1 Hu1) as (f & b & m' & Ed & S2 & _).
  set (s2 := set_io b _) in *. set (v2 := set_frame_num f v1) in *.
  assert (Ev2 : xfers s2 !! x = Some v2) by (cbn; by rewrite lookup_insert_eq).
  assert (W2' : wf s2 gs1).
  { destruct W' as [Y1 Y2 Y3 Y4 Y5 Y6 Y7 Y8 Y9 Y10 Y11]. constructor; try done; cbn.
    - intros y w Ey. apply lookup_insert_Some in Ey as [[<- _]|[_ Ey]]; eauto.
    - intros y Hy'. rewrite lookup_insert_ne by (by intros ->). by apply Y11. }
  exists s0, s1, V1.
  set (s3 := set_free_xfers (free_xfers s2 ++ [x]) (set_free_tdcs (free_tdcs s2 ++ td_list v2)
    (set_xfers (<[x := set_td_list [] v2]> (xfers s2)) s2))).
  exists s3, gs1.
  split; [exact Hw0|]. split; [cbn; by rewrite Hmv, Q2|]. split; [by exists l, xs, r|]. split; [exact Hy|]. split; [exact Hw1|]. split; [exact Hf1|].
  assert (Hxm : x + OFF_QH ∉ members (l' ++ (top', l1 ++ l2) :: r')).
  { intros Ha. destruct S1 as (_ & _ & _ & _ & Hnd & _). rewrite members_focus in Ha, Hnd. rewrite app_comm_cons in Ha, Hnd.
    rewrite <- (Permutation_middle (top' :: l1) l2) in Hnd. cbn [app] in Hnd. apply list.NoDup_cons in Hnd as [Hx _]. by apply Hx. }
  split; [|split; [|split; [|exact Pp1]]].
  - intros B k. unfold run_transfer. rewrite bind_assoc, (bind_load UH u uh) by apply B2. rewrite Hq.
    rewrite bind_assoc, (bind_step _ _ _ _ _ Ee). rewrite bind_assoc, (bind_step _ _ _ _ _ Ew). rewrite bind_assoc, (bind_step _ _ _ _ _ Ed).
    destruct (Z.eqb_spec (status_of V1) 0) as [E|E]; cbn [Z.eqb ERR_DEV_STALLED].
    + assert (Ecount : xfer_count_bytes x s2 = Ret (bytes_of V1, s2)).
      { unfold xfer_count_bytes. rewrite (bind_load XFER x v2) by exact Ev2. change (td_list v2) with (td_list v1). rewrite Hv1.
        exact (count_bytes_run _ _ _ _ s2 _ 0 C1 eq_refl eq_refl). }
      rewrite (bind_step _ _ _ _ _ Ecount). apply (xfer_free_run s2 x v2 (fun _ => k _)); try apply W2'; [exact Ev2|]. cbn. by rewrite Hv1.
    + rewrite bind_ret. apply (xfer_free_run s2 x v2 (fun _ => k _)); try apply W2'; [exact Ev2|]. cbn. by rewrite Hv1.
  - apply wf_release; [exact W2'|exact Ev2| |done|cbn; by rewrite Hv1|].
    + right. change (xuh v2) with (xuh v1). rewrite Hu1. destruct S2 as (Eu & _). by eexists.
    + intros c Hc. change (td_list v2) with (td_list v1) in Hc. rewrite Hv1 in Hc. split; [by apply T1|].
      destruct (tdchain_in _ _ _ _ _ _ C1 Hc) as (d & _ & E). by eexists.
  - exists uh1, l', l1, l2, r'. split_and!; [exact Ht1|by rewrite <- Hf1', !fmap_app|exact S1|exact S2| |exact Hxm|done|cbn; by rewrite Hv1].
    intros a Ha. assert (Hne : a <> x + OFF_QH) by (by intros ->).
    assert (Ha' : a ∈ members (l' ++ (top', l1 ++ (x + OFF_QH) :: l2) :: r')).
    { rewrite members_focus in *. rewrite !elem_of_app, !elem_of_cons, !elem_of_app, ?elem_of_cons in *. naive_solver. }
    destruct (P1 a Ha') as [Ho|(y & -> & Hy' & Hf)]; [by left|right]. assert (y <> x) by (intros ->; done).
    exists y. split; [done|]. cbn. rewrite !lookup_insert_ne by done. split; [done|]. rewrite elem_of_app, list_elem_of_singleton. naive_solver.
Qed.

(** The pipe that the packets are built for: a SETUP packet starts with toggle 0. *)
Definition pipe_for (pid : Z) (p : upipe) : upipe := if pid =? UHCI_TD_PID_SETUP then set_up_toggle 0 p else p.

Lemma npackets_cover p size :
  0 < max_packet_size (up_pipe p) -> 0 <= size ->
  exists k, npackets p size = S k /\ size <= Z.of_nat (S k) * max_packet_size (up_pipe p)
    /\ (Z.of_nat k * max_packet_size (up_pipe p) < size \/ k = 0%nat) /\ (k <= Z.to_nat size)%nat.
Proof.
  intros Hm Hs. unfold npackets. set (mps := max_packet_size (up_pipe p)) in *.
  pose proof (Z.div_mod (size + mps - 1) mps ltac:(lia)) as Hd. pose proof (Z.mod_pos_bound (size + mps - 1) mps Hm) as Hb.
  set (c := (size + mps - 1) / mps) in *. exists (Z.to_nat (Z.max 1 c - 1)). rewrite <- Z2Nat.inj_succ by lia.
  replace (Z.succ (Z.max 1 c - 1)) with (Z.max 1 c) by lia. rewrite !Z2Nat.id by lia. split; [done|].
  destruct (Z.le_gt_cases c 1); [replace (Z.max 1 c) with 1 by lia|replace (Z.max 1 c) with c by lia].
  - split; [nia|]. split; [by right|cbn; lia].
  - split; [nia|]. split; [left; nia|]. apply Z2Nat.inj_le; nia.
Qed.

Lemma pipe_at_0 p : 0 <= toggle_bit (up_pipe p) < 2 -> pipe_at p 0 = p.
Proof.
  intros Ht. unfold pipe_at, set_up_toggle, Usb.set_toggle. rewrite Z.add_0_r, Z.mod_small by lia.
  destruct p as [? ? ? [] ?]. done.
Qed.

Lemma building_new s gs u uh qs x b h l :
  wf (new_xfer_state x b h l s) gs -> scheduled (new_xfer_state (T := T) x b h l s) u uh qs ->
  placed (new_xfer_state x b h l s) gs qs -> (x ∉ l) -> (x + OFF_QH ∉ members qs) ->
  building (new_xfer_state x b h l s) gs u uh qs x [] [].
Proof.
  intros W S P Hl Hm. constructor; try done.
  - exists (mk_xfer 0 [] 0). split; [cbn; by rewrite lookup_insert_eq|done].
  - eexists. split; [cbn; by rewrite lookup_insert_eq|done].
  - apply NoDup_nil_2.
  - intros c Hc. by apply elem_of_nil in Hc.
Qed.

(** [C10] A transfer over a pipe returns.  It is split into packets of at most
    [max_packet_size] bytes, at least one, with alternating toggle bits, whose
    descriptors are linked and put on the queue for the packet identifier, in front
    of what is on it; [uhci_read_write] yields until the controller has served them
    or reports a stall, takes the transfer off its queue, wherever it is by then,
    leaves every other queue head where it is, and puts the transfer unit and the
    descriptors back at the ends of the free lists; it returns the number of bytes
    that the controller reports, or [ERR_DEV_STALLED].  It is assumed ([fair]) that
    each [yield] brings the end of the transfer nearer, as the number [delay] of
    yields that are left shows, and that meanwhile other threads use the pools and
    the schedule by their rules. *)
Theorem uhci_read_write_completes polls pipe pid size data s gs u uh qs p top :
  wf s gs -> scheduled s u uh qs -> placed s gs qs -> qs.*1 = tops uh -> queue_for pid uh = Some top ->
  upipes s !! pipe = Some p -> up_hc p = u -> 0 < max_packet_size (up_pipe p) -> 0 <= toggle_bit (up_pipe p) < 2 ->
  0 <= size -> roomy (gheap s) gs (2 * npackets p size + 1) ->
  let p0 := pipe_for pid p in let V := packets p0 pid size data in let p1 := pipe_at p0 (npackets p size) in
  (forall x L, fair pause delay u (tops uh) top x L V pipe p1) -> (forall x s', (delay x s' <= polls)%nat) ->
  exists x L s0 s1 V1 s' gs',
    waiting u (tops uh) top x L V pipe p1 s0 V /\ vert_lp <$> qhs s0 !! (x + OFF_QH) = Some (tlink L UHCI_LP_TERMINATE)
    /\ put_on s0 u uh qs top x /\ yields pause s0 s1 /\ waiting u (tops uh) top x L V pipe p1 s1 V1 /\ finished V1
    /\ uhci_read_write pause polls pipe pid size data s
       = Ret (if status_of V1 =? 0 then bytes_of V1 else ERR_DEV_STALLED, s')
    /\ wf s' gs' /\ taken_off s1 s' gs' u (tops uh) top x L /\ upipes s' !! pipe = Some p1.
Proof.
  intros W HS HP Htops Hq Hp Hu Hm Ht Hs Hr p0 V p1 Hfair Hpolls.
  destruct (npackets_cover p size Hm Hs) as (k & Ek & K1 & K2 & K3).
  assert (Hm0 : max_packet_size (up_pipe p0) = max_packet_size (up_pipe p)) by (unfold p0, pipe_for; by destruct (_ =? _)).
  assert (Hn0 : npackets p0 size = npackets p size) by (unfold npackets; by rewrite Hm0).
  assert (Ht0 : 0 <= toggle_bit (up_pipe p0) < 2) by (unfold p0, pipe_for; destruct (_ =? _); [done|exact Ht]).
  set (s1 := set_upipes (<[pipe := p0]> (upipes s)) s).
  assert (W1 : wf s1 gs) by (by destruct W; constructor).
  destruct (xfer_alloc_run s1 gs (2 * npackets p size) u uh qs W1 HS HP Hr) as (x & b & h' & gs1 & l' & Ea & Wa & Sa & Pa & Ra & Ox & Xl & Xm).
  pose proof (building_new _ _ _ _ _ _ _ _ _ Wa Sa Pa Xl Xm) as HB. set (s2 := new_xfer_state x b h' l' s1) in *.
  destruct (owner_qaddr _ _ _ (wf_heap _ _ Wa) Ox) as (_ & _ & _ & Hx0 & _).
  destruct (build_packets_run p0 pid size data pipe x u uh qs k (Z.to_nat size) 0 0 s2 gs1 [] [] size data HB)
    as (s3 & gs3 & L & Eb & HB3 & _ & U3); try (rewrite Hm0; lia).
  { cbn. rewrite pipe_at_0 by done. by rewrite lookup_insert_eq. }
  { rewrite Z.mul_0_l, Z.add_0_r. done. }
  { done. }
  { rewrite Ek in Ra. exact Ra. }
  cbn [app Nat.add] in HB3, U3. rewrite <- Ek in HB3, U3.
  assert (EV : (packet p0 pid size data <$> seq 0 (npackets p size)) = V) by (unfold V, packets; by rewrite Hn0).
  rewrite EV in HB3.
  assert (Hp3 : upipes s3 !! pipe = Some p1) by (rewrite U3; by rewrite lookup_insert_eq).
  destruct (run_transfer_run polls s3 gs3 u uh qs x L V pipe p1 pid top HB3 Htops Hq Hp3 (Hfair x L) (Hpolls x))
    as (t0 & t1 & V1 & s' & gs' & A1 & A2 & A2' & A3 & A4 & A5 & A6 & A7).
  exists x, L, t0, t1, V1, s', gs'. split; [exact A1|]. split; [exact A2|]. split; [exact A2'|]. split; [exact A3|].
  split; [exact A4|]. split; [exact A5|]. split; [|exact A7].
  unfold uhci_read_write. rewrite (bind_load PIPE pipe p) by exact Hp. rewrite Hu.
  assert (Estep : forall B (f : unit -> M (uhcis T) B),
    bind (when (pid =? UHCI_TD_PID_SETUP) (update PIPE pipe (set_up_toggle 0))) f s = f tt s1).
  { intros B f. unfold s1, p0, pipe_for. destruct (pid =? UHCI_TD_PID_SETUP); cbn [when].
    - by rewrite (bind_update PIPE pipe _ p) by exact Hp.
    - rewrite bind_ret, insert_id by done. by destruct s. }
  rewrite Estep, (bind_step _ _ _ _ _ Ea), (proj2 (Z.eqb_neq x 0) Hx0), (bind_step _ _ _ _ _ Eb). cbn [Z.eqb negb].
  apply (A6 _ ret).
Qed.

End Transfer.
