(* ===== verification/UhciInit.v ===== *)
(** * Initialisation of a UHCI controller, and its root hub

    What [uhci_init] of [uhci.c] leaves behind: an empty schedule that
    [UhciSched] describes, a frame list whose 1024 entries all lead to it, and a
    running controller with a root hub.  The operations of the ports of that hub,
    and the dispatch of interrupts to registered pipes. *)

From S2P Require Import Prelude CString Sched Ring Schedule Sync Alloc HeapRoom Pci Usb Hub Uhci UhciSched UhciXfer.

Section Init.

Context {T : Type} `{ConfigPorts T}.
Implicit Types s : uhcis T.

Lemma new_qh_run {B} s gs n (k : Z -> M (uhcis T) B) :
  roomy (gheap s) gs (n + 1) ->
  exists q h' gs', bind new_qh k s = k q (set_qhs (<[q := blank_qh]> (qhs s)) (set_gheap h' s))
    /\ roomy h' gs' n /\ hkern h' = hkern (gheap s) /\ owners gs' ≡ₚ q :: owners gs /\ (q ∉ owners gs) /\ q <> 0.
Proof.
  intros Hr. destruct (kzalloc_roomy (gheap s) gs n SIZEOF_QH ltac:(done) Hr) as (q & h' & gs' & E & Hq & R & K & P & N).
  exists q, h', gs'. split; [|done]. unfold new_qh.
  rewrite bind_assoc, (gh_ok (kzalloc_align SIZEOF_QH 16) q h') by exact E. rewrite (proj2 (Z.eqb_neq q 0) Hq). cbn [negb when].
  unfold create. by rewrite bind_assoc, bind_modify, bind_ret.
Qed.

Lemma link_top_run {B} s q next r (k : unit -> M (uhcis T) B) :
  qhs s !! q = Some r ->
  bind (link_top q next) k s = k tt (set_qhs (<[q := mk_qh next UHCI_LP_TERMINATE (prev_qh r) 1]> (qhs s)) s).
Proof.
  intros E. unfold link_top. rewrite bind_assoc, (bind_update QH q _ r) by exact E.
  rewrite bind_assoc, (bind_update QH q _ (set_horiz_lp next r)) by (cbn; by rewrite lookup_insert_eq).
  rewrite (bind_update QH q _ (set_vert_lp UHCI_LP_TERMINATE (set_horiz_lp next r))) by (cbn; by rewrite lookup_insert_eq).
  cbn. rewrite !insert_insert_eq. by destruct s.
Qed.

(** The frame list at [base] has [v] in every entry. *)
Definition frames_are (W : gmap Z Z) (base v : Z) : Prop :=
  forall j, 0 <= j < UHCI_FRAME_LIST_SIZE -> W !! (base + j * 4) = Some v.

Lemma fill_frames_run {B} s base v (k : unit -> M (uhcis T) B) :
  0 <= base -> base + 4096 < 2 ^ 32 ->
  exists W, bind (fill_frames base v) k s = k tt (set_frame_words W s) /\ frames_are W base v.
Proof.
  intros Hb Hb'. unfold fill_frames.
  destruct (for_up_rule (fun a s' => exists W, s' = set_frame_words W s /\ forall j, 0 <= j -> base + j * 4 < a -> W !! (base + j * 4) = Some v)
    (fun a => modify (fun s => set_frame_words (<[u32 a := v]> (frame_words s)) s)) 4 (Z.to_nat UHCI_FRAME_LIST_SIZE) base s)
    as (s' & E & W & -> & HW).
  - exists (frame_words s). split; [by destruct s|]. intros j Hj Hlt. lia.
  - intros i s' Hi (W & -> & HW). eexists. split; [reflexivity|]. exists (<[u32 (base + i * 4) := v]> W). split; [done|].
    change (Z.of_nat (Z.to_nat UHCI_FRAME_LIST_SIZE)) with 1024 in Hi. rewrite u32_small by lia.
    intros j Hj Hlt. destruct (Z.eq_dec j i) as [->|Hne]; [by rewrite lookup_insert_eq|].
    rewrite lookup_insert_ne by lia. apply HW; lia.
  - exists W. rewrite (bind_step _ _ _ _ _ E). split; [done|]. intros j Hj. apply HW; [lia|].
    change (Z.of_nat (Z.to_nat UHCI_FRAME_LIST_SIZE)) with 1024. unfold UHCI_FRAME_LIST_SIZE in Hj. lia.
Qed.

(** The registers after the initialisation, from the last write backwards; [t] is
    their state once the reset is over. *)
Definition started (base fb : Z) (t : T) : T :=
  outw (base + 0x00) 0x00C1 (outw (base + 0x04) 0x0004 (outw (base + 0x06) 0
    (outl (base + 0x08) fb (outw (base + 0x00) 0x0000 t)))).

(** The first reading of the command register with the reset bit clear, and the
    registers then. *)
Definition leaves_reset (base : Z) (t0 : T) (k : nat) (t : T) : Prop :=
  t = snd (polled (inw base) k t0) /\ Z.testbit (fst (polled (inw base) k t0)) 1 = false
  /\ forall j, (j < k)%nat -> Z.testbit (fst (polled (inw base) j t0)) 1 = true.

Lemma wait_reset_run base polls : forall s,
  clears (inw (u16 base)) polls (io s) ->
  exists k t, wait_reset polls base s = Ret (tt, set_io t s) /\ (k <= polls)%nat /\ leaves_reset (u16 base) (io s) k t.
Proof.
  assert (Hb : forall v, negb (Z.land (u16 v) 2 =? 0) = Z.testbit v 1).
  { intros v. change (negb _) with (truth (Z.land (u16 v) (Z.shiftl 1 1))). rewrite truth_bit by lia.
    unfold u16. by rewrite Z.mod_pow2_bits_low by lia. }
  induction polls as [|polls IH]; intros s Hc; cbn [wait_reset]; unfold uhci_pci_read; rewrite bind_assoc, port_r_ok, bind_ret, Hb;
    apply clears_step in Hc; destruct (Z.testbit (fst (inw (u16 base) (io s))) 1) eqn:E.
  1: { destruct Hc as [|(? & ? & _)]; done. }
  1, 3: eexists O, _; split; [done|]; split; [lia|]; split; [done|]; split; [exact E|lia].
  destruct Hc as [|(p & Ep & Hc)]; [done|]. injection Ep as <-.
  destruct (IH (set_io (snd (inw (u16 base) (io s))) s) Hc) as (k & t & Ew & Hk & Ht & Hz & Hm).
  exists (S k), t. split; [exact Ew|]. split; [lia|]. split; [exact Ht|]. split; [exact Hz|].
  intros [|j] Hj; [exact E|]. apply Hm. lia.
Qed.

Lemma registers_run {B} s base fb polls (k : unit -> M (uhcis T) B) :
  0 <= fb < 2 ^ 32 -> clears (inw (u16 base)) polls (outw (u16 base + 0) 4 (io s)) ->
  exists m t, bind (uhci_pci_write base UHCI_COMMAND 0x0004)
      (fun _ => wait_reset polls base ;;; uhci_pci_write base UHCI_COMMAND 0x0000 ;;;
        uhci_pci_write base UHCI_FRAME_BASE_ADDR (u32 fb) ;;; uhci_pci_write base UHCI_FRAME_NUM 0 ;;;
        uhci_pci_write base UHCI_INT_EN 0x0004 ;;; bind (uhci_pci_write base UHCI_COMMAND 0x00C1) k) s
    = k tt (set_io (started (u16 base) fb t) s)
    /\ (m <= polls)%nat /\ leaves_reset (u16 base) (outw (u16 base + 0) 4 (io s)) m t.
Proof.
  intros Hfb Hreset. unfold uhci_pci_write at 1, port_w at 1. rewrite bind_modify. change (u16 4) with 4.
  destruct (wait_reset_run base polls (set_io (outw (u16 base + 0) 4 (io s)) s) Hreset) as (m & t & Ew & Hm & Hl).
  exists m, t. split; [|done]. rewrite (bind_step _ _ _ _ _ Ew). unfold uhci_pci_write, port_w. rewrite !bind_modify.
  unfold started. rewrite (u32_small (u32 fb)) by apply u32_range. rewrite (u32_small fb) by done.
  by destruct s.
Qed.

(** No transfer is queued. *)
Definition empty_queues (uh : uhci) : list (Z * list Z) := (fun q => (q, [])) <$> tops uh.

Lemma members_empty uh : members (empty_queues uh) = tops uh.
Proof. reflexivity. Qed.

(** The chunks that an initialisation takes: four queue heads, the frame list
    with its alignment, the hub. *)
Definition INIT_CHUNKS : nat := 136.

(** The four top queues after they are linked. *)
Definition linked_tops (m : gmap Z uhci_queue_head) (i c bi bo : Z) : gmap Z uhci_queue_head :=
  <[bo := mk_qh UHCI_LP_TERMINATE UHCI_LP_TERMINATE 0 1]> (<[bi := mk_qh (to_qh bo) UHCI_LP_TERMINATE 0 1]>
    (<[c := mk_qh (to_qh bi) UHCI_LP_TERMINATE 0 1]> (<[i := mk_qh (to_qh c) UHCI_LP_TERMINATE 0 1]> m))).

Lemma nodup4 (a b c d : Z) : NoDup [a; b; c; d] -> a <> b /\ a <> c /\ a <> d /\ b <> c /\ b <> d /\ c <> d.
Proof.
  intros Hnd. repeat (apply list.NoDup_cons in Hnd as [?H Hnd]). rewrite ?not_elem_of_cons in *. naive_solver.
Qed.

Lemma linked_tops_blank m i c bi bo :
  linked_tops (<[bo := blank_qh]> (<[bi := blank_qh]> (<[c := blank_qh]> (<[i := blank_qh]> m)))) i c bi bo
  = linked_tops m i c bi bo.
Proof. unfold linked_tops. apply map_eq. intros a. rewrite !lookup_insert. repeat case_decide; done. Qed.

Lemma linked_queues m i c bi bo uh :
  NoDup [bo; bi; c; i] -> tops uh = [i; c; bi; bo] -> queues (linked_tops m i c bi bo) (empty_queues uh).
Proof.
  intros Hnd Ht. unfold empty_queues. rewrite Ht. apply nodup4 in Hnd as (H1 & H2 & H3 & H4 & H5 & H6).
  assert (E1 : linked_tops m i c bi bo !! i = Some (mk_qh (to_qh c) UHCI_LP_TERMINATE 0 1))
    by (unfold linked_tops; rewrite (lookup_insert_ne _ bo), (lookup_insert_ne _ bi), (lookup_insert_ne _ c) by done; by rewrite lookup_insert_eq).
  assert (E2 : linked_tops m i c bi bo !! c = Some (mk_qh (to_qh bi) UHCI_LP_TERMINATE 0 1))
    by (unfold linked_tops; rewrite (lookup_insert_ne _ bo), (lookup_insert_ne _ bi) by done; by rewrite lookup_insert_eq).
  assert (E3 : linked_tops m i c bi bo !! bi = Some (mk_qh (to_qh bo) UHCI_LP_TERMINATE 0 1))
    by (unfold linked_tops; rewrite (lookup_insert_ne _ bo) by done; by rewrite lookup_insert_eq).
  assert (E4 : linked_tops m i c bi bo !! bo = Some (mk_qh UHCI_LP_TERMINATE UHCI_LP_TERMINATE 0 1))
    by (unfold linked_tops; by rewrite lookup_insert_eq).
  cbn [fmap list_fmap queues heads]. unfold top_ok. cbn [qchain link].
  split; [split; [eexists; split; [exact E1|done]|done]|]. split; [split; [eexists; split; [exact E2|done]|done]|].
  split; [split; [eexists; split; [exact E3|done]|done]|]. split; [split; [eexists; split; [exact E4|done]|done]|done].
Qed.

(** The top queues are allocated and linked. *)
Lemma tops_run {B} s gs n u uh0 (k : Z -> M (uhcis T) B) :
  uhs s !! u = Some uh0 -> roomy (gheap s) gs (n + 4) ->
  exists i c bi bo h' gs',
    (i <-- new_qh ;; c <-- new_qh ;; bi <-- new_qh ;; bo <-- new_qh ;;
     update UH u (set_top_qhs i c bi bo) ;;;
     link_top i (Z.lor (u32 c) UHCI_LP_QH) ;;; link_top c (Z.lor (u32 bi) UHCI_LP_QH) ;;;
     link_top bi (Z.lor (u32 bo) UHCI_LP_QH) ;;; link_top bo UHCI_LP_TERMINATE ;;; k i) s
    = k i (set_qhs (linked_tops (qhs s) i c bi bo) (set_uhs (<[u := set_top_qhs i c bi bo uh0]> (uhs s)) (set_gheap h' s)))
    /\ roomy h' gs' n /\ hkern h' = hkern (gheap s) /\ owners gs' ≡ₚ bo :: bi :: c :: i :: owners gs
    /\ NoDup [bo; bi; c; i].
Proof.
  intros Eu Hr.
  destruct (kzalloc_roomy (gheap s) gs (n + 3) SIZEOF_QH) as (i & h1 & gs1 & E1 & H1 & R1 & K1 & P1 & N1);
    [done|apply (roomy_weaken _ _ _ _ Hr); change (Z.to_nat ((SIZEOF_QH - 1) / CHUNK_SIZE + 1)) with 1%nat; lia|].
  destruct (kzalloc_roomy h1 gs1 (n + 2) SIZEOF_QH) as (c & h2 & gs2 & E2 & H2 & R2 & K2 & P2 & N2);
    [done|apply (roomy_weaken _ _ _ _ R1); change (Z.to_nat ((SIZEOF_QH - 1) / CHUNK_SIZE + 1)) with 1%nat; lia|].
  destruct (kzalloc_roomy h2 gs2 (n + 1) SIZEOF_QH) as (bi & h3 & gs3 & E3 & H3 & R3 & K3 & P3 & N3);
    [done|apply (roomy_weaken _ _ _ _ R2); change (Z.to_nat ((SIZEOF_QH - 1) / CHUNK_SIZE + 1)) with 1%nat; lia|].
  destruct (kzalloc_roomy h3 gs3 n SIZEOF_QH) as (bo & h4 & gs4 & E4 & H4 & R4 & K4 & P4 & N4); [done|exact R3|].
  assert (Hn : forall C (q : Z) h (f : Z -> M (uhcis T) C) s', kzalloc SIZEOF_QH (gheap s') = Ret (q, h) -> q <> 0 ->
    bind new_qh f s' = f q (set_qhs (<[q := blank_qh]> (qhs s')) (set_gheap h s'))).
  { intros C q h f s' E Hq. unfold new_qh. rewrite bind_assoc, (gh_ok (kzalloc_align SIZEOF_QH 16) q h) by exact E.
    rewrite (proj2 (Z.eqb_neq q 0) Hq). cbn [negb when]. unfold create. by rewrite bind_assoc, bind_modify, bind_ret. }
  assert (Hnd : NoDup [bo; bi; c; i]).
  { assert (Q2 : owners gs2 ≡ₚ [c; i] ++ owners gs) by (by rewrite P2, P1).
    assert (Q3 : owners gs3 ≡ₚ [bi; c; i] ++ owners gs) by (by rewrite P3, Q2).
    constructor; [intros Hx; apply N4; rewrite Q3; apply elem_of_app; by left|].
    constructor; [intros Hx; apply N3; rewrite Q2; apply elem_of_app; by left|].
    constructor; [intros Hx; apply N2; rewrite P1; apply list_elem_of_singleton in Hx as ->; left|].
    apply NoDup_singleton. }
  assert (Ho : forall q, q ∈ [bo; bi; c; i] -> u32 q = q).
  { intros q Hq. apply (owner_qaddr _ _ q (proj1 (proj2 (proj2 R4)))). rewrite P4, P3, P2, P1.
    change (bo :: bi :: c :: i :: owners gs) with ([bo; bi; c; i] ++ owners gs). apply elem_of_app. by left. }
  exists i, c, bi, bo, h4, gs4. split; [|split; [exact R4|split; [congruence|split; [by rewrite P4, P3, P2, P1|exact Hnd]]]].
  rewrite (Hn _ i h1) by done. rewrite (Hn _ c h2) by done. rewrite (Hn _ bi h3) by done. rewrite (Hn _ bo h4) by done.
  rewrite (bind_update UH u _ uh0) by exact Eu. rewrite !Ho by set_solver.
  pose proof (nodup4 _ _ _ _ Hnd) as (D1 & D2 & D3 & D4 & D5 & D6).
  rewrite (link_top_run _ i _ blank_qh) by (cbn; rewrite (lookup_insert_ne _ bo), (lookup_insert_ne _ bi), (lookup_insert_ne _ c) by done; by rewrite lookup_insert_eq).
  rewrite (link_top_run _ c _ blank_qh) by (cbn; rewrite (lookup_insert_ne _ i), (lookup_insert_ne _ bo), (lookup_insert_ne _ bi) by done; by rewrite lookup_insert_eq).
  rewrite (link_top_run _ bi _ blank_qh) by (cbn; rewrite (lookup_insert_ne _ c), (lookup_insert_ne _ i), (lookup_insert_ne _ bo) by done; by rewrite lookup_insert_eq).
  rewrite (link_top_run _ bo _ blank_qh) by (cbn; rewrite (lookup_insert_ne _ bi), (lookup_insert_ne _ c), (lookup_insert_ne _ i) by done; by rewrite lookup_insert_eq).
  rewrite <- (linked_tops_blank (qhs s) i c bi bo). reflexivity.
Qed.

(** A controller that has been set up: no transfers, all frames lead to its
    schedule. *)
Record initialised s (gs : list segment) (u : Z) (uh : uhci) : Prop := mk_initialised {
  in_wf : wf s gs;
  in_sched : scheduled s u uh (empty_queues uh);
  in_placed : placed s gs (empty_queues uh);
  in_frames : frames_are (frame_words s) (frame_base_addr uh) (to_qh (interrupt_qh uh));
  in_aligned : frame_base_addr uh mod 4096 = 0;
  in_address : next_address uh = 1;
  in_handlers : interrupt_handlers uh = []
}.

Lemma initialised_intro s gs h' gs' u uh0 i c bi bo fb W b hubs :
  wf s gs -> is_Some (qhs s !! 0) -> roomy h' gs' 0 -> (forall a, a ∈ owners gs -> a ∈ owners gs') ->
  (forall q, q ∈ [bo; bi; c; i] -> q ∈ owners gs') -> NoDup [bo; bi; c; i] ->
  frames_are W fb (to_qh i) -> fb mod 4096 = 0 ->
  let uh := set_frame_base_addr fb (set_handlers [] (set_next_address 1 (set_xfer_qh_lock SPINLOCK_INIT (set_top_qhs i c bi bo uh0)))) in
  initialised (set_uhubs hubs (set_gheap h' (set_io b (set_frame_words W (set_uhs (<[u := uh]> (uhs s))
    (set_qhs (linked_tops (qhs s) i c bi bo) s)))))) gs' u uh.
Proof.
  intros [W1 W2 W3 W4 W5 W6 W7 W8 W9 W10 W11] H0 (R1 & R2 & R3 & _) Hsub Hq Hnd HW Hfb uh.
  assert (Hmem : forall a, a ∈ tops uh -> a ∈ owners gs').
  { intros a Ha. apply Hq. change (tops uh) with (reverse [bo; bi; c; i]) in Ha. by apply elem_of_reverse in Ha. }
  constructor; [| | |exact HW|exact Hfb|done|done].
  - constructor; try done.
    + intros a e Ea. destruct (W6 a e Ea) as (A & B & D). auto.
    + intros x v Ev. eauto.
    + intros x Hx. destruct (W11 x Hx) as (v & Ev & Hv). exists v. split; [done|]. destruct Hv as [Hv|Hv]; [by left|right].
      cbn. apply lookup_insert_is_Some'. by right.
  - split; [cbn; by rewrite lookup_insert_eq|]. split; [done|]. split; [exact R2|]. split; [by apply linked_queues|].
    rewrite members_empty. split; [|split].
    + change (tops uh) with (reverse [bo; bi; c; i]). by rewrite reverse_Permutation.
    + apply list.Forall_forall. intros a Ha. apply (owner_qaddr _ _ _ R3). by apply Hmem.
    + cbn. unfold linked_tops. rewrite !lookup_insert_is_Some'. do 4 right. done.
  - intros q Hin. left. apply Hmem. by rewrite members_empty in Hin.
Qed.

Lemma frame_base_aligned c : c mod 64 = 0 -> (KERNEL_ALLOC_START + c * CHUNK_SIZE) mod 4096 = 0.
Proof. intros Hc. unfold KERNEL_ALLOC_START, CHUNK_SIZE. zdiv. Qed.

(** The controller and the state after [uhci_init]. *)
Definition set_up (i c bi bo fb : Z) (uh0 : uhci) : uhci :=
  set_frame_base_addr fb (set_handlers [] (set_next_address 1 (set_xfer_qh_lock SPINLOCK_INIT (set_top_qhs i c bi bo uh0)))).

Definition after_init s (u : Z) (uh0 : uhci) (i c bi bo fb : Z) (h' : hst) (W : gmap Z Z) (t : T) : uhcis T :=
  set_uhubs (uhubs s ++ [new_hub 2 u]) (set_gheap h' (set_io (started (u16 (iobase uh0)) fb t)
    (set_frame_words W (set_uhs (<[u := set_up i c bi bo fb uh0]> (uhs s)) (set_qhs (linked_tops (qhs s) i c bi bo) s))))).

Lemma uhci_init_exec s gs u uh0 n polls :
  uhs s !! u = Some uh0 -> roomy (gheap s) gs (n + INIT_CHUNKS) ->
  clears (inw (u16 (iobase uh0))) polls (outw (u16 (iobase uh0) + 0) 4 (io s)) ->
  exists i c bi bo fb hub h' gs' W m t,
    uhci_init polls u s = Ret (0, after_init s u uh0 i c bi bo fb h' W t)
    /\ roomy h' gs' n /\ hkern h' = hkern (gheap s) /\ owners gs' ≡ₚ hub :: fb :: [bo; bi; c; i] ++ owners gs
    /\ NoDup [bo; bi; c; i] /\ frames_are W fb (to_qh i) /\ fb mod 4096 = 0
    /\ (m <= polls)%nat /\ leaves_reset (u16 (iobase uh0)) (outw (u16 (iobase uh0) + 0) 4 (io s)) m t.
Proof.
  intros Eu Hr Hreset.
  destruct (tops_run (B := Z) s gs (n + 132) u uh0 (fun i =>
    update UH u (set_xfer_qh_lock SPINLOCK_INIT) ;;; update UH u (set_next_address 1) ;;; update UH u (set_handlers []) ;;;
    fb <-- gh (kzalloc_align (UHCI_FRAME_LIST_SIZE * 4) (Z.shiftl 1 12)) ;;
    update UH u (set_frame_base_addr fb) ;;;
    fill_frames fb UHCI_LP_TERMINATE ;;; fill_frames fb (Z.lor (u32 i) UHCI_LP_QH) ;;;
    uh <-- load UH u ;;
    uhci_pci_write (iobase uh) UHCI_COMMAND 0x0004 ;;; wait_reset polls (iobase uh) ;;;
    uhci_pci_write (iobase uh) UHCI_COMMAND 0x0000 ;;; uhci_pci_write (iobase uh) UHCI_FRAME_BASE_ADDR (u32 fb) ;;;
    uhci_pci_write (iobase uh) UHCI_FRAME_NUM 0 ;;; uhci_pci_write (iobase uh) UHCI_INT_EN 0x0004 ;;;
    uhci_pci_write (iobase uh) UHCI_COMMAND 0x00C1 ;;;
    h <-- gh (kzalloc SIZEOF_HUB) ;;
    if h =? 0 then ret ERR_NO_MEM else modify (fun s => set_uhubs (uhubs s ++ [new_hub 2 u]) s) ;;; ret 0) Eu)
    as (i & c & bi & bo & h1 & gs1 & E1 & R1 & K1 & P1 & Hnd).
  { apply (roomy_weaken _ _ _ _ Hr). unfold INIT_CHUNKS. lia. }
  destruct (kzalloc_align_roomy h1 gs1 (n + 5) (UHCI_FRAME_LIST_SIZE * 4) (Z.shiftl 1 12)) as (fb & h2 & gs2 & E2 & H2 & R2 & K2 & P2 & N2 & A2);
    [done|done|apply (roomy_weaken _ _ _ _ R1); change (Z.to_nat ((UHCI_FRAME_LIST_SIZE * 4 - 1) / CHUNK_SIZE + 1)) with 64%nat;
     change (Z.to_nat (Z.shiftl 1 12 / CHUNK_SIZE - 1)) with 63%nat; lia|].
  destruct (kzalloc_roomy h2 gs2 n SIZEOF_HUB) as (hub & h3 & gs3 & E3 & H3 & R3 & K3 & P3 & N3); [done|exact R2|].
  destruct A2 as (ch & Efb & Hch); [done|]. change (Z.shiftl 1 12 / CHUNK_SIZE) with 64 in Hch.
  pose proof (frame_base_aligned ch Hch) as Hfb. rewrite <- Efb in Hfb.
  assert (Hfbr : 0 <= fb < 2 ^ 32 - 4096).
  { pose proof (owners_addr _ _ fb (proj1 (proj2 (proj2 R2)))) as Hx. rewrite P2 in Hx. destruct (Hx ltac:(left)) as [Hx' _].
    change KERNEL_ALLOC_START with 196608 in Hx'. change (196608 + CHUNK_NUM * CHUNK_SIZE) with 262144 in Hx'. lia. }
  assert (Hi : u32 i = i).
  { apply (owner_qaddr _ _ i (proj1 (proj2 (proj2 R1)))). rewrite P1. do 3 right. left. }
  set (uh1 := set_handlers [] (set_next_address 1 (set_xfer_qh_lock SPINLOCK_INIT (set_top_qhs i c bi bo uh0)))).
  set (m := linked_tops (qhs s) i c bi bo) in *. set (uh := set_frame_base_addr fb uh1).
  set (s2 := set_gheap h2 (set_uhs (<[u := uh]> (uhs s)) (set_qhs m s))).
  destruct (fill_frames_run (B := unit) s2 fb UHCI_LP_TERMINATE ret) as (Wd0 & F0 & _); [lia|lia|]. rewrite bind_ret_r in F0.
  destruct (fill_frames_run (B := unit) (set_frame_words Wd0 s2) fb (to_qh i) ret) as (Wd & F1 & HW); [lia|lia|]. rewrite bind_ret_r in F1.
  set (s3 := set_frame_words Wd s2).
  destruct (registers_run (B := Z) s3 (iobase uh0) fb polls (fun _ => h <-- gh (kzalloc SIZEOF_HUB) ;;
    if h =? 0 then ret ERR_NO_MEM else modify (fun s => set_uhubs (uhubs s ++ [new_hub 2 u]) s) ;;; ret 0)) as (k & t & Eio & Hk & Hlr); [lia|exact Hreset|].
  exists i, c, bi, bo, fb, hub, h3, gs3, Wd, k, t.
  split; [|split_and!; [exact R3|congruence|by rewrite P3, P2, P1|exact Hnd|exact HW|exact Hfb|exact Hk|exact Hlr]].
  - unfold uhci_init. rewrite E1.
    rewrite (bind_update UH u _ (set_top_qhs i c bi bo uh0)) by (cbn; by rewrite lookup_insert_eq).
    cbn [store_of with_store UH uhs set_uhs set_qhs]. rewrite insert_insert_eq.
    rewrite (bind_update UH u _ (set_xfer_qh_lock SPINLOCK_INIT (set_top_qhs i c bi bo uh0))) by (cbn; by rewrite lookup_insert_eq).
    cbn [store_of with_store UH uhs set_uhs set_qhs]. rewrite insert_insert_eq.
    rewrite (bind_update UH u _ (set_next_address 1 (set_xfer_qh_lock SPINLOCK_INIT (set_top_qhs i c bi bo uh0)))) by (cbn; by rewrite lookup_insert_eq).
    cbn [store_of with_store UH uhs set_uhs set_qhs]. rewrite insert_insert_eq. fold uh1.
    rewrite (gh_ok _ fb h2) by exact E2. rewrite (bind_update UH u _ uh1) by (cbn; by rewrite lookup_insert_eq).
    cbn [store_of with_store UH uhs set_uhs set_qhs set_gheap]. rewrite insert_insert_eq. fold uh.
    rewrite (bind_step _ _ _ _ _ F0). rewrite Hi. change (Z.lor i UHCI_LP_QH) with (to_qh i). rewrite (bind_step _ _ _ _ _ F1).
    rewrite (bind_load UH u uh) by (cbn; by rewrite lookup_insert_eq). change (iobase uh) with (iobase uh0).
    change (set_frame_words Wd (set_frame_words Wd0 s2)) with s3. rewrite Eio.
    rewrite (gh_ok _ hub h3) by exact E3. rewrite (proj2 (Z.eqb_neq hub 0) H3). rewrite bind_modify. by destruct s.
Qed.

Lemma uhci_init_run s gs u uh0 n polls :
  wf s gs -> uhs s !! u = Some uh0 -> is_Some (qhs s !! 0) -> roomy (gheap s) gs (n + INIT_CHUNKS) ->
  clears (inw (u16 (iobase uh0))) polls (outw (u16 (iobase uh0) + 0) 4 (io s)) ->
  exists s' gs' uh hub m t, uhci_init polls u s = Ret (0, s') /\ initialised s' gs' u uh /\ roomy (gheap s') gs' n
    /\ owners gs' ≡ₚ hub :: frame_base_addr uh :: tops uh ++ owners gs
    /\ io s' = started (u16 (iobase uh0)) (frame_base_addr uh) t
    /\ (m <= polls)%nat /\ leaves_reset (u16 (iobase uh0)) (outw (u16 (iobase uh0) + 0) 4 (io s)) m t
    /\ uhubs s' = uhubs s ++ [new_hub 2 u] /\ upipes s' = upipes s.
Proof.
  intros W Eu H0 Hr Hreset.
  destruct (uhci_init_exec s gs u uh0 n polls Eu Hr Hreset)
    as (i & c & bi & bo & fb & hub & h' & gs' & Wd & m & t & E & R & _ & P & Hnd & HW & Hfb & Hm & Hl).
  exists (after_init s u uh0 i c bi bo fb h' Wd t), gs', (set_up i c bi bo fb uh0), hub, m, t.
  assert (Pt : owners gs' ≡ₚ hub :: fb :: tops (set_up i c bi bo fb uh0) ++ owners gs).
  { rewrite P. change (tops _) with (reverse [bo; bi; c; i]). by rewrite reverse_Permutation. }
  split; [exact E|]. split; [|split_and!; [exact R|exact Pt|done|exact Hm|exact Hl|done|done]].
  apply (initialised_intro s gs); try done.
  - apply (roomy_weaken _ _ _ _ R). lia.
  - intros a Ha. rewrite P. do 2 right. apply elem_of_app. by right.
  - intros q Hq. rewrite P. do 2 right. apply elem_of_app. by left.
Qed.

End Init.

(** ** Interrupt pipes *)

Section Interrupts.

Context {T : Type} `{ConfigPorts T} (h : Z -> T -> T).
Implicit Types s : uhcis T.

(** The function of an interrupt pipe: it only works on other parts of the
    machine, which are in [io] here. *)
Definition handler_h (data : Z) : M (uhcis T) unit := modify (fun s => set_io (h data (io s)) s).

(** Queue element [iq] is a registered pipe whose handler has this argument and
    whose transfer starts with descriptor [d]. *)
Definition registered s (iq data d : Z) : Prop :=
  exists ui i p v c L, iqs s !! iq = Some ui /\ uis s !! ui = Some i /\ int_data i = data
    /\ upipes s !! int_pipe i = Some p /\ xfers s !! up_xfer p = Some v /\ td_list v = c :: L
    /\ (forall a, a ∈ c :: L -> exists e, tdcs s !! a = Some e /\ is_Some (tds s !! e))
    /\ tdcs s !! c = Some d /\ is_Some (qhs s !! (up_xfer p + OFF_QH)).

Lemma sum_status_returns s l : forall a,
  (forall c, c ∈ l -> exists e, tdcs s !! c = Some e /\ is_Some (tds s !! e)) ->
  exists v, sum_status l a s = Ret (v, s).
Proof.
  induction l as [|c l IH]; intros a Hl; [by eexists|]. destruct (Hl c ltac:(left)) as (e & Ec & t & Et).
  cbn [sum_status]. rewrite (bind_load TDC c e) by exact Ec. rewrite (bind_load TD e t) by exact Et.
  apply IH. intros c' Hc'. apply Hl. by right.
Qed.

(** A status of 16 bits never has the active bit. *)
Lemma status_never_active v : truth (Z.land (u16 v) UHCI_TD_ACTIVE_BIT) = false.
Proof.
  unfold UHCI_TD_ACTIVE_BIT. rewrite truth_bit by lia. unfold u16. apply Z.mod_pow2_bits_high. lia.
Qed.

Definition is_active s (d : Z) : Prop := exists t, tds s !! d = Some t /\ Z.testbit (control_status t) 23 = true.

Lemma reactivated_active g t : Z.testbit (control_status (reactivated g t)) 23 = true.
Proof.
  cbn [control_status reactivated set_token set_control_status]. unfold u32. rewrite Z.mod_pow2_bits_low by lia.
  rewrite Z.lor_spec. by rewrite orb_true_r.
Qed.

(** One pipe: its handler runs, its transfer is offered to the controller again. *)
Lemma serve_run s iq data d :
  registered s iq data d ->
  exists s', serve handler_h iq s = Ret (tt, s') /\ io s' = h data (io s) /\ uhs s' = uhs s /\ is_active s' d
    /\ (forall iq' data' d', registered s iq' data' d' -> registered s' iq' data' d')
    /\ (forall d', is_active s d' -> is_active s' d').
Proof.
  intros (ui & i & p & v & c & L & E1 & E2 & E3 & E4 & E5 & E6 & E7 & E8 & [q E9]).
  destruct (E7 c ltac:(left)) as (d' & Ec & t & Et). rewrite E8 in Ec. injection Ec as <-.
  unfold serve. rewrite (bind_load IQ iq ui) by exact E1.
  unfold load_ui. unfold bind at 1. rewrite E2. rewrite (bind_load PIPE _ p) by exact E4.
  assert (Es : exists w, xfer_get_status (up_xfer p) s = Ret (w, s)).
  { unfold xfer_get_status. rewrite (bind_load XFER _ v) by exact E5. rewrite E6.
    destruct (sum_status_returns s (c :: L) 0 E7) as [w Ew]. rewrite (bind_step _ _ _ _ _ Ew). by eexists. }
  destruct Es as [w Ew]. rewrite (bind_step _ _ _ _ _ Ew). rewrite status_never_active.
  unfold handler_h. rewrite bind_modify. set (p' := set_up_toggle (1 - toggle_bit (up_pipe p)) p).
  rewrite (bind_update PIPE _ _ p) by exact E4. fold p'. rewrite (bind_load XFER _ v) by exact E5. rewrite E6.
  rewrite (bind_load TDC c d) by exact E8. unfold td_reactivate.
  rewrite bind_assoc, (bind_load PIPE _ p') by (cbn; by rewrite lookup_insert_eq).
  rewrite (bind_update TD d _ t) by exact Et. rewrite <- bind_ret_r, (bind_update QH _ _ q) by exact E9.
  rewrite E3. eexists. split; [reflexivity|]. cbn [io uhs with_store store_of QH TD PIPE set_qhs set_tds set_upipes set_io].
  split; [done|]. split; [done|]. set (g := toggle_bit (up_pipe p')). split; [|split].
  - exists (reactivated g t). split; [cbn; by rewrite lookup_insert_eq|apply reactivated_active].
  - intros iq' data' d' (ui' & i' & p1 & v' & c' & L' & F1 & F2 & F3 & F4 & F5 & F6 & F7 & F8 & F9).
    destruct (Z.eq_dec (int_pipe i') (int_pipe i)) as [Ep|Ep].
    + rewrite Ep, E4 in F4. injection F4 as <-. exists ui', i', p', v', c', L'. cbn. rewrite Ep, lookup_insert_eq.
      split_and!; try done; [|apply lookup_insert_is_Some'; by right].
      intros a Ha. destruct (F7 a Ha) as (e & Fe & Fs). exists e. split; [done|]. apply lookup_insert_is_Some'. by right.
    + exists ui', i', p1, v', c', L'. cbn. rewrite lookup_insert_ne by done.
      split_and!; try done; [|apply lookup_insert_is_Some'; by right].
      intros a Ha. destruct (F7 a Ha) as (e & Fe & Fs). exists e. split; [done|]. apply lookup_insert_is_Some'. by right.
  - intros d' (t' & Et' & Ha). cbn. destruct (Z.eq_dec d' d) as [->|Hne].
    + exists (reactivated g t). split; [cbn; by rewrite lookup_insert_eq|apply reactivated_active].
    + exists t'. split; [cbn; by rewrite lookup_insert_ne|done].
Qed.

Lemma serve_all_run hs : forall s,
  (forall iq data d, (iq, data, d) ∈ hs -> registered s iq data d) ->
  exists s', serve_all handler_h ((fun '(iq, _, _) => iq) <$> hs) s = Ret (tt, s')
    /\ io s' = fold_left (fun t '(_, data, _) => h data t) hs (io s)
    /\ (forall iq data d, (iq, data, d) ∈ hs -> is_active s' d) /\ (forall d, is_active s d -> is_active s' d).
Proof.
  induction hs as [|[[iq data] d] hs IH]; intros s Hr.
  - exists s. split_and!; [done|done| |done]. intros iq data d Hx. by apply elem_of_nil in Hx.
  - cbn [fmap list_fmap serve_all]. destruct (serve_run s iq data d) as (s1 & E1 & I1 & _ & A1 & R1 & K1); [apply Hr; left|].
    rewrite (bind_step _ _ _ _ _ E1). destruct (IH s1) as (s2 & E2 & I2 & A2 & K2).
    { intros iq' data' d' Hin. apply R1, Hr. by right. }
    exists s2. split; [exact E2|]. split; [by rewrite I2, I1|]. split; [|auto].
    intros iq' data' d' Hin. apply elem_of_cons in Hin as [[= -> -> ->]|Hin]; [by apply K2|by eapply A2].
Qed.

(** When the controller signals a completed transfer, the interrupt is
    acknowledged and the function of every registered pipe is called, in the order
    of registration, and the transfer of each is offered to the controller again:
    also of the pipes that have not received anything, because the test for an
    active transfer is made on 16 bits of the status. *)
Theorem uhci_interrupt_calls_all s u uh hs :
  uhs s !! u = Some uh -> interrupt_handlers uh = (fun '(iq, _, _) => iq) <$> hs ->
  (forall iq data d, (iq, data, d) ∈ hs -> registered s iq data d) ->
  let st := inw (u16 (iobase uh) + 0x02) (io s) in
  Z.odd (fst st) = true ->
  exists s', uhci_interrupt handler_h u s = Ret (tt, s')
    /\ io s' = fold_left (fun t '(_, data, _) => h data t) hs (outw (u16 (iobase uh) + 0x02) (u16 (fst st)) (snd st))
    /\ forall iq data d, (iq, data, d) ∈ hs -> is_active s' d.
Proof.
  intros Eu Eh Hr st Hst. unfold uhci_interrupt. rewrite (bind_load UH u uh) by exact Eu.
  unfold uhci_pci_read, uhci_pci_write, port_w. rewrite bind_assoc, port_r_ok, bind_ret, bind_modify. fold st.
  assert (Hbit : truth (Z.land (u16 (fst st)) UHCI_SS_USB_INT) = true).
  { unfold UHCI_SS_USB_INT. rewrite truth_bit by lia. unfold u16. rewrite Z.mod_pow2_bits_low by lia. by rewrite Z.bit0_odd. }
  rewrite Hbit. cbn [when]. cbn [io set_io].
  replace (u16 (u16 (fst st))) with (u16 (fst st)) by (unfold u16; by rewrite Zmod_mod).
  set (s1 := set_io _ _). rewrite (bind_load UH u uh) by exact Eu. rewrite Eh.
  destruct (serve_all_run hs s1 Hr) as (s' & E & I & A & _). exists s'. split; [exact E|]. split; [exact I|exact A].
Qed.

End Interrupts.

(** ** The root hub *)

Section RootHub.

Context {T : Type} `{ConfigPorts T}.
Implicit Types s : uhcis T.

(** [C33] [uhci_init] of a controller that shows its reset bit clear within the
    polls allowed: it returns 0; the schedule is empty and linked from the four top
    queues; all 1024 entries of the frame list, which is aligned to a page, lead
    to it; the blocks of the heap are those from before and six new ones, for the
    hub, the frame list and the four queue heads, no two at the same address; the
    registers are written in the order of [started], after the first poll at which
    the bit was clear; the root hub is registered. *)
Theorem uhci_init_ready s gs u uh0 n polls :
  wf s gs -> uhs s !! u = Some uh0 -> is_Some (qhs s !! 0) -> roomy (gheap s) gs (n + INIT_CHUNKS) ->
  clears (inw (u16 (iobase uh0))) polls (outw (u16 (iobase uh0) + 0) 4 (io s)) ->
  exists s' gs' uh hub m t, uhci_init polls u s = Ret (0, s') /\ initialised s' gs' u uh
    /\ owners gs' ≡ₚ hub :: frame_base_addr uh :: tops uh ++ owners gs
    /\ NoDup (hub :: frame_base_addr uh :: tops uh ++ owners gs)
    /\ leaves_reset (u16 (iobase uh0)) (outw (u16 (iobase uh0) + 0) 4 (io s)) m t
    /\ io s' = started (u16 (iobase uh0)) (frame_base_addr uh) t /\ uhubs s' = uhubs s ++ [new_hub 2 u].
Proof.
  intros W Eu H0 Hr Hres.
  destruct (uhci_init_run s gs u uh0 n polls W Eu H0 Hr Hres) as (s' & gs' & uh & hub & m & t & E & I & _ & P & A & _ & L & B & _).
  exists s', gs', uh, hub, m, t. split_and!; try done. rewrite <- P. apply (heap_owners_nodup _ _ (wf_heap _ _ (in_wf _ _ _ _ I))).
Qed.

(** The functions behind the pointers of a root hub; [configure] and [release]
    stand for [usb_configure_device] and the driver's [free]. *)
#[global] Instance uhci_heap : HasHeap (uhcis T) := { heap_of := gheap; with_heap := set_gheap }.

Definition uhci_hub_ops (polls : nat) (configure : Z -> attachment -> Z -> M (uhcis T) Z) (release : Z -> M (uhcis T) unit) :
    HubOps (uhcis T) := {|
  op_port_status u i := uhci_port_status u (Z.of_nat i);
  op_port_command u i := uhci_port_command polls u (Z.of_nat i);
  op_port_speed u i := uhci_port_speed u (Z.of_nat i);
  op_get_next_addr u := uhci_get_next_address u;
  op_configure := configure;
  op_driver_free := release
|}.

(** The addresses that [k] devices take, one after the other. *)
Definition take_addresses (k : nat) (u : Z) : M (uhcis T) unit :=
  Nat.iter k (fun m => bind (uhci_get_next_address u) (fun _ => m)) (ret tt).

Lemma next_addresses k : forall s u uh, uhs s !! u = Some uh -> 0 <= next_address uh -> next_address uh + Z.of_nat k < 2 ^ 31 ->
  exists s', take_addresses k u s = Ret (tt, s')
    /\ uhs s' = <[u := set_next_address (next_address uh + Z.of_nat k) uh]> (uhs s).
Proof.
  induction k as [|k IH]; intros s u uh Eu Hn Hk.
  - exists s. split; [done|]. rewrite Z.add_0_r, insert_id; [done|]. rewrite Eu. by destruct uh.
  - unfold take_addresses. cbn [Nat.iter nat_rect]. unfold uhci_get_next_address at 1. rewrite bind_assoc, (bind_load UH u uh) by exact Eu.
    rewrite bind_assoc, (bind_update UH u _ uh) by exact Eu. rewrite bind_ret.
    rewrite (s32_small (next_address uh + 1)) by lia.
    destruct (IH (set_uhs (<[u := set_next_address (next_address uh + 1) uh]> (uhs s)) s) u (set_next_address (next_address uh + 1) uh))
      as (s' & E & Es); [cbn; by rewrite lookup_insert_eq|cbn; lia|cbn; lia|].
    exists s'. split; [exact E|]. rewrite Es. cbn. rewrite insert_insert_eq. f_equal. unfold set_next_address. cbn. f_equal. lia.
Qed.

(** The [k]-th device that is attached to a controller after [uhci_init] gets the
    address [k], kept in 8 bits; a token has 7 bits for it, so that the 128th
    device is addressed as endpoint 1 of the device with address 0. *)
Theorem device_addresses_overflow s u uh k :
  uhs s !! u = Some uh -> next_address uh = 1 -> Z.of_nat k < 2 ^ 30 ->
  exists s1 s2, take_addresses k u s = Ret (tt, s1)
    /\ uhci_get_next_address u s1 = Ret (u8 (Z.of_nat k + 1), s2)
    /\ (k = 127%nat -> forall size toggle pid, 0 <= size <= 1280 -> 0 <= toggle < 2 -> 0 <= pid < 256 ->
        let v := td_token size toggle 0 (u8 (Z.of_nat k + 1)) pid in token_address v = 0 /\ token_endpoint v = 1).
Proof.
  intros Eu Hn Hk. destruct (next_addresses k s u uh Eu ltac:(lia) ltac:(lia)) as (s1 & E1 & Es).
  exists s1. eexists. split; [exact E1|]. split.
  - unfold uhci_get_next_address.
    assert (Eu1 : uhs s1 !! u = Some (set_next_address (next_address uh + Z.of_nat k) uh)) by (rewrite Es; by rewrite lookup_insert_eq).
    rewrite (bind_load UH u _) by exact Eu1. rewrite (bind_update UH u _ _) by exact Eu1. unfold ret. cbn [next_address set_next_address].
    rewrite Hn. do 3 f_equal. lia.
  - intros -> size toggle pid Hs Ht Hp. cbv zeta. change (u8 (Z.of_nat 127 + 1)) with 128.
    unfold td_token, UHCI_TD_MAX_LEN_OFF, UHCI_TD_DATA_TOGGLE_OFF, UHCI_TD_END_POINT_OFF, UHCI_TD_DEV_ADDR_OFF.
    change (Z.shiftl 0 15) with (Z.shiftl 0 15). rewrite <- !Z.lor_assoc.
    change (Z.lor (Z.shiftl 0 15) (Z.lor (Z.shiftl 128 8) pid)) with (Z.lor (Z.shiftl 1 15) (Z.lor (Z.shiftl 0 8) pid)).
    rewrite !Z.lor_assoc. change (u32 _) with (td_token size toggle 1 0 pid). rewrite td_token_sum by lia.
    unfold token_address, token_endpoint. pose proof (Z.mod_pos_bound (size - 1) 2048 ltac:(lia)). split; zdiv.
Qed.

End RootHub.

(** ** Concrete instances *)

Module UhciInit_instances.

Import UhciSched_instances.

(** A controller that serves all active descriptors while a thread yields. *)
Definition served (t : uhci_transfer_descriptor) : uhci_transfer_descriptor :=
  set_control_status (token_max_len (token t)) t.
Definition serving : M (uhcis unit) unit := modify (fun s => set_tds (served <$> tds s) s).

Definition delay (x : Z) (s : uhcis unit) : nat :=
  match xfer_get_status x s with
  | Ret (st, _) => if (st =? 0) || truth (Z.land st UHCI_TD_STALLED_BIT) then 0 else 1
  | _ => 0
  end.

Lemma served_status V : status_of (served <$> V) = 0.
Proof.
  unfold status_of. assert (E : forall l a, 0 <= a < 2048 -> Forall (fun t => 0 <= control_status t < 2048) l ->
    0 <= fold_left (fun a t => Z.lor a (control_status t)) l a < 2048).
  { induction l as [|t l IH]; intros a Ha Hl; [done|]. apply list.Forall_cons in Hl as [Ht Hl]. cbn. apply IH; [|done].
    split; [apply Z.lor_nonneg; lia|]. destruct (Z.eq_dec (Z.lor a (control_status t)) 0) as [->|Hne]; [lia|].
    apply Z.log2_lt_cancel. rewrite Z.log2_lor by lia. change (Z.log2 2048) with 11.
    assert (Hlog : forall z, 0 <= z < 2048 -> Z.log2 z < 11).
    { intros z Hz. destruct (Z.eq_dec z 0) as [->|]; [done|]. apply Z.log2_lt_pow2; lia. }
    pose proof (Hlog a Ha). pose proof (Hlog _ Ht). lia. }
  specialize (E (served <$> V) 0 ltac:(lia)).
  assert (Hl : Forall (fun t => 0 <= control_status t < 2048) (served <$> V)).
  { apply list.Forall_fmap. apply list.Forall_true. intros t. cbn. unfold token_max_len. apply Z.mod_pos_bound. lia. }
  specialize (E Hl). set (w := fold_left _ _ _) in *. unfold UHCI_TD_STATUS_MASK.
  change 0x00fe0000 with (Z.shiftl (Z.ones 7) 17). rewrite land_field by lia. change (2 ^ 17) with 131072.
  rewrite (Z.div_small w) by lia. done.
Qed.

Lemma served_chain M N L e : forall V, tdchain M N L V e -> tdchain M (served <$> N) L (served <$> V) e.
Proof.
  induction L as [|[c d] L IH]; intros [|t V]; try done. intros (A & B & C).
  split; [done|]. split; [|by apply IH]. rewrite lookup_fmap, B. done.
Qed.

Lemma serving_fair u tp top x L V0 pipe p : fair serving delay u tp top x L V0 pipe p.
Proof.
  intros s V Hw. pose proof Hw as [(gs & uh & l & r & l1 & l2 & W & S & P & Ht & Hl) U (v & Ev & Hv & Hu) C Sm Nd Tk Pp].
  assert (Est : forall V', tdchain (tdcs s) (tds s) L V' UHCI_LP_TERMINATE -> delay x s = if (status_of V' =? 0) || stalled V' then 0%nat else 1%nat).
  { intros V' C'. unfold delay. by rewrite (get_status_run s x v L V' _ Ev Hv C'). }
  rewrite (Est V C). split.
  - destruct ((status_of V =? 0) || stalled V) eqn:E; [intros _|done]. apply orb_true_iff in E as [E|E]; [left; by apply Z.eqb_eq|by right].
  - intros Hne. set (s' := set_tds (served <$> tds s) s). exists s', (served <$> V). split; [done|].
    assert (Hw' : waiting u tp top x L V0 pipe p s' (served <$> V)).
    { constructor; try done.
      - exists gs, uh, l, r, l1, l2. split; [|split; [exact S|split; [exact P|by split]]].
        destruct W as [W1 W2 W3 W4 W5 W6 W7 W8 W9 W10 W11]. constructor; try done.
        intros c d E. destruct (W6 c d E) as (A & B & [t D]). split; [done|]. split; [done|]. cbn. rewrite lookup_fmap, D. by eexists.
      - by exists v.
      - by apply served_chain.
      - apply Forall2_fmap_r. eapply list.Forall2_impl; [exact Sm|]. intros a b [A B]. done. }
    split; [exact Hw'|]. unfold delay.
    rewrite (get_status_run s' x v L (served <$> V) _ Ev Hv (served_chain _ _ _ _ _ C)), served_status. cbn.
    destruct ((status_of V =? 0) || stalled V); [done|lia].
Qed.

(** Before the initialisation: an empty heap, one controller, one pipe. *)
Definition pipe8 : upipe := mk_upipe 0x80 1 5 (mk_pipe 2 0 2 8 0 1) 0.
Definition before (h : hst) : uhcis unit :=
  mk_uhcis h [] SPINLOCK_INIT [] SPINLOCK_INIT {[ 0 := blank_qh ]} ∅ ∅ ∅ ∅ ∅ {[ 1 := pipe8 ]}
    {[ 0x80 := mk_uhci 0 0 0 0 0 SPINLOCK_INIT 0 0xc000 [] ]} ∅ [] tt.

Lemma before_wf h :
  heap (mem_chunk_list h) (frees 1024) /\ memlock h = SPINLOCK_INIT /\ cpu_room 1 (cpu (hkern h)) ->
  wf (before h) (frees 1024) /\ roomy h (frees 1024) 1023.
Proof.
  intros (Hh & Hl & Hc). split.
  - refine (mk_wf (before h) (frees 1024) Hh Hl Hc eq_refl eq_refl _ _ _ (NoDup_nil_2) _ _).
    + intros c d E. discriminate E.
    + intros c c' d E _. discriminate E.
    + intros x v E. discriminate E.
    + intros c Hx. by apply elem_of_nil in Hx.
    + intros x Hx. by apply elem_of_nil in Hx.
  - split; [exact Hl|]. split; [exact Hc|]. split; [exact Hh|]. exists []. reflexivity.
Qed.

Lemma uhci_init_ready_witness :
  exists s' gs' uh hub, uhci_init 1 0x80 (before Alloc_instances.fresh) = Ret (0, s') /\ initialised s' gs' 0x80 uh
    /\ owners gs' ≡ₚ [hub; frame_base_addr uh; interrupt_qh uh; control_qh uh; bulk_in_qh uh; bulk_out_qh uh].
Proof.
  generalize Alloc_instances.fresh, Alloc_instances.fresh_heap. intros h Hf. destruct (before_wf h Hf) as [W R].
  destruct (uhci_init_ready (before h) (frees 1024) 0x80 _ 887 1 W (lookup_singleton_eq _ _)) as (s' & gs' & uh & hub & m & t & E & I & P & _).
  - eexists. reflexivity.
  - exact R.
  - exists 0%nat. split; [lia|reflexivity].
  - exists s', gs', uh, hub. split; [exact E|]. split; [exact I|]. rewrite P.
    change (owners (frees 1024)) with (owners_from 0 (frees 1024)). by rewrite owners_frees.
Defined.

(** Twenty bytes over this pipe: packets of 8, 8 and 4 bytes. *)
Lemma uhci_read_write_completes_witness :
  exists s s' rc gs s1 tp top x L, uhci_read_write serving 1 1 UHCI_TD_PID_OUT 20 0x5000 s = Ret (rc, s')
    /\ taken_off s1 s' gs 0x80 tp top x L /\ upipes s' !! 1 = Some (pipe_at pipe8 3).
Proof.
  destruct (before_wf _ Alloc_instances.fresh_heap) as [W R]. revert W R. generalize Alloc_instances.fresh. intros h W R.
  destruct (uhci_init_run (before h) (frees 1024) 0x80 _ 887 1 W (lookup_singleton_eq _ _)) as (s & gs & uh & hub & m & t & _ & I & Rs & _ & _ & _ & _ & _ & Up);
    [eexists; reflexivity|exact R|exists 0%nat; split; [lia|reflexivity]|].
  destruct I as [Iw Is Ip _ _ _ _]. exists s.
  destruct (uhci_read_write_completes serving delay 1 1 UHCI_TD_PID_OUT 20 0x5000 s gs 0x80 uh (empty_queues uh) pipe8 (bulk_out_qh uh))
    as (x & L & s0 & s1 & V1 & s' & gs' & _ & _ & _ & _ & _ & _ & E & _ & Ho & Hp); try reflexivity; try assumption.
  - rewrite Up. reflexivity.
  - split; [apply Z.leb_le|]; reflexivity.
  - apply Z.leb_le. reflexivity.
  - apply (roomy_weaken _ _ _ _ Rs). apply Nat.leb_le. reflexivity.
  - intros x L. apply serving_fair.
  - intros x s'. unfold delay. destruct (xfer_get_status x s') as [[st ?]| | | |]; try lia. destruct (_ || _); lia.
  - eexists s', _, gs', s1, _, _, x, L. split; [exact E|]. split; [exact Ho|exact Hp].
Defined.

(** Tokens and their toggle. *)
Lemma td_token_roundtrip_witness : token_address (td_token 0 1 2 5 UHCI_TD_PID_IN) = 5 /\ bytes_of_len (token_max_len (td_token 0 1 2 5 UHCI_TD_PID_IN)) = 0.
Proof.
  destruct (td_token_roundtrip 0 1 2 5 UHCI_TD_PID_IN) as (_ & A & _ & _ & B); [lia|lia|lia|lia|unfold UHCI_TD_PID_IN; lia|].
  split; [exact A|exact B].
Defined.

Lemma td_reactivate_loses_toggle_witness :
  Z.testbit (token (reactivated 1 (mk_td 0 0 0x69 0))) 19 = false.
Proof.
  destruct (td_reactivate_loses_toggle 1 (mk_td 0 0 0x69 0)) as [A _]; [lia|cbn [token]; lia|reflexivity|exact A].
Defined.

Lemma device_addresses_overflow_witness :
  exists s1 s2 : uhcis unit, uhci_get_next_address 0x80 s1 = Ret (128, s2) /\ token_endpoint (td_token 8 0 0 128 UHCI_TD_PID_SETUP) = 1.
Proof.
  destruct (device_addresses_overflow state 0x80 controller 127) as (s1 & s2 & _ & E & V); [reflexivity|reflexivity|lia|].
  exists s1, s2. split; [exact E|]. apply (V eq_refl 8 0 UHCI_TD_PID_SETUP); [lia|lia|unfold UHCI_TD_PID_SETUP; lia].
Defined.

(** An interrupt with one registered pipe whose transfer is still active.  The
    registers of this controller count the calls of handlers; the status is 1. *)
#[global] Instance counting_ports : ConfigPorts Z := {
  outl _ _ t := t; outw _ _ t := t; outb _ _ t := t;
  inl_ _ t := (1, t); inw _ t := (1, t); inb _ t := (1, t)
}.

Definition with_interrupt : uhcis Z :=
  mk_uhcis Alloc_instances.fresh [] SPINLOCK_INIT [] SPINLOCK_INIT {[ 0x210 := mk_qh 1 0x300 0x100 0 ]}
    {[ 0x300 := built pipe8 UHCI_TD_PID_IN 8 0x5000 ]} {[ 0x340 := 0x300 ]} {[ 0x200 := mk_xfer 0x80 [0x340] 0 ]}
    {[ 0x400 := 0x500 ]} {[ 0x500 := mk_interrupt 1 0x5000 8 77 ]} {[ 1 := set_up_xfer 0x200 pipe8 ]}
    {[ 0x80 := set_handlers [0x400] controller ]} ∅ [] 0.

Lemma uhci_interrupt_calls_all_witness :
  exists s', uhci_interrupt (handler_h (fun d t => t + d)) 0x80 with_interrupt = Ret (tt, s') /\ io s' = 77.
Proof.
  destruct (uhci_interrupt_calls_all (fun d t => t + d) with_interrupt 0x80 (set_handlers [0x400] controller) [(0x400, 77, 0x300)])
    as (s' & E & I & _); [reflexivity|reflexivity| |reflexivity|exists s'; split; [exact E|exact I]].
  intros iq data d Hin. apply list_elem_of_singleton in Hin. injection Hin as -> -> ->.
  exists 0x500, (mk_interrupt 1 0x5000 8 77), (set_up_xfer 0x200 pipe8), (mk_xfer 0x80 [0x340] 0), 0x340, [].
  split_and!; try reflexivity; [|eexists; reflexivity]. intros a Ha. apply list_elem_of_singleton in Ha as ->.
  exists 0x300. split; [reflexivity|]. eexists. reflexivity.
Defined.

End UhciInit_instances.
