(* ===== verification/Scsi.v ===== *)
(** * Mass storage: SCSI commands over USB

    Models [src/src/kernel/usb/usb_msd.c] (the bulk-only transport) and
    [src/src/kernel/usb/scsi.c] (the commands) with their headers, on top of
    [Usb] (transfers), [Alloc] (the heap) and [Sync] (the spinlock).

    A transfer buffer is the list of its bytes; a command returns its return
    value and the bytes that it put into the caller's buffer.  The driver
    pointers of [struct scsi_dev] always are those of the mass storage driver,
    whose functions are called directly.  [ms_delay] only lets time pass and
    [DEBUG] and [pr_error] only print; they are left out.

    What a drive does is an interface too: [BulkOnlyDrive] says how a device
    answers on its bulk pipes, as the USB mass storage and the SCSI block
    command standards define it, and [BlockDeviceLaws] of [Vmem] is proved from
    it.  So the theorems about paging and about booting hold of this driver on
    any such drive. *)

From S2P Require Import Prelude CString Sched Ring Schedule Sync Alloc Usb.

(** ** Data *)

Definition CBW_SIGNATURE : Z := 0x43425355.
Definition CBW_FLAGS_IN : Z := 0x80.
Definition CBW_FLAGS_OUT : Z := 0x00.
Definition CB_MAX_SIZE : Z := 16.
Definition CSW_SIGNATURE : Z := 0x53425355.
Definition CSW_PHASE_ERROR : Z := 2.

Definition MSD_READ : Z := 0.
Definition MSD_WRITE : Z := 1.

Definition CDB_TEST_UNIT_READY : Z := 0x00.
Definition CDB_REQUEST_SENSE : Z := 0x03.
Definition CDB_READ_CAPACITY10 : Z := 0x25.
Definition CDB_READ10 : Z := 0x28.
Definition CDB_WRITE10 : Z := 0x2A.
Definition SCSI_RC_GOOD : Z := 0.
Definition SCSI_RC_FAILED : Z := 1.
Definition SCSI_READ : Z := 0.
Definition SCSI_WRITE : Z := 1.

(** The pipes are indices into [udev->pipe]; the control pipe is pipe 0. *)
Record usb_msd_dev : Type := mk_msd {
  bulk_in : option nat; bulk_out : option nat; CBWTag : Z; max_lun : Z
}.

Definition set_CBWTag (v : Z) (m : usb_msd_dev) : usb_msd_dev := mk_msd (bulk_in m) (bulk_out m) v (max_lun m).
Definition set_max_lun (v : Z) (m : usb_msd_dev) : usb_msd_dev := mk_msd (bulk_in m) (bulk_out m) (CBWTag m) v.

(** [op_status] and [lock] are never used. *)
Record scsi_dev : Type := mk_scsi { block_size : Z; total_block_count : Z }.

(** [struct command_block_wrapper] *)
Record command_block_wrapper : Type := mk_cbw {
  dCBWSignature : Z; dCBWTag : Z; dCBWDataTransferLength : Z;
  bmCBWFlags : Z; bCBWLUN : Z; bCBWCBLength : Z; CBWCB : list Z
}.

Definition cbw_bytes (w : command_block_wrapper) : list Z :=
  le4 (u32 (dCBWSignature w)) ++ le4 (u32 (dCBWTag w)) ++ le4 (u32 (dCBWDataTransferLength w))
  ++ [u8 (bmCBWFlags w); u8 (bCBWLUN w); u8 (bCBWCBLength w)] ++ CBWCB w.

(** [struct command_descriptor_block10] *)
Record command_descriptor_block10 : Type := mk_cdb10 {
  op_code : Z; misc_CBD_and_service : Z; logical_block_address : Z; misc_CBD : Z; cdb_length : Z; control : Z
}.

Definition cdb10_bytes (c : command_descriptor_block10) : list Z :=
  [u8 (op_code c); u8 (misc_CBD_and_service c)] ++ le4 (u32 (logical_block_address c))
  ++ [u8 (misc_CBD c)] ++ le2 (u16 (cdb_length c)) ++ [u8 (control c)].

(** [struct command_descriptor_block6] with every field but the first zero. *)
Definition cdb6_bytes (op : Z) : list Z := [u8 op; 0; 0; 0; 0; 0].

(** The globals of the storage stack, the device and the heap; [None] is the
    null pointer, [Some (p, x)] the pointer [p] to [x]. *)
Record sst {T : Type} : Type := mk_sst {
  ub : ubs T;
  uheap : hst;
  driver_data : option (Z * usb_msd_dev);
  scsi : option (Z * scsi_dev);
  scsi_dev_lock : spinlock_t
}.
Arguments sst T : clear implicits.
Arguments mk_sst {T}.

Definition set_ub {T} v (s : sst T) : sst T := mk_sst v (uheap s) (driver_data s) (scsi s) (scsi_dev_lock s).
Definition set_uheap {T} v (s : sst T) : sst T := mk_sst (ub s) v (driver_data s) (scsi s) (scsi_dev_lock s).
Definition set_driver_data {T} v (s : sst T) : sst T := mk_sst (ub s) (uheap s) v (scsi s) (scsi_dev_lock s).
Definition set_scsi {T} v (s : sst T) : sst T := mk_sst (ub s) (uheap s) (driver_data s) v (scsi_dev_lock s).
Definition set_scsi_dev_lock {T} v (s : sst T) : sst T := mk_sst (ub s) (uheap s) (driver_data s) (scsi s) v.

(** ** Operations *)

Section Storage.

Context {T : Type} `{HostController T}.

Definition uop {A} (m : M (ubs T) A) : M (sst T) A := zoom ub set_ub m.
Definition heap_op {A} (m : M hst A) : M (sst T) A := zoom uheap set_uheap m.

(** The pointer [driver]; the code does not test it. *)
Definition umd : M (sst T) (Z * usb_msd_dev) :=
  fun s => match driver_data s with Some x => Ret (x, s) | None => Stuck end.

(** A pipe pointer that is dereferenced. *)
Definition pipe_index (p : option nat) : M (sst T) nat :=
  match p with Some i => ret i | None => stuck end.

Definition usb_msd_reset : M (sst T) Z :=
  i <-- gets (fun s => ifc_number (udev (ub s))) ;;
  r <-- uop (usb_setup (mk_request 0x21 0xff 0 i 0) USB_CWRITE 0 []) ;;
  ret (if negb (fst r =? 0) then ERR_XFER else 0).

Definition usb_msd_clear_halt (p : option nat) : M (sst T) Z :=
  i <-- pipe_index p ;;
  x <-- gets (fun s => pipe (udev (ub s)) !! i) ;;
  match x with
  | None => stuck
  | Some p =>
      r <-- uop (usb_setup
        (mk_request (Z.lor 0 USB_RECIV_ENDPOINT) CLEAR_FEATURE USB_FEATURE_ENDPOINT_HALT
           (Z.lor (if direction p =? USB_PIPE_DIR_IN then 0x80 else 0x00) (ep_address p)) 0) USB_CWRITE 0 []) ;;
      ret (if negb (fst r =? 0) then ERR_XFER else 0)
  end.

Definition usb_msd_get_max_lun : M (sst T) Z :=
  i <-- gets (fun s => ifc_number (udev (ub s))) ;;
  r <-- uop (usb_setup (mk_request 0xa1 0xfe 0 i 1) USB_CREAD 1 []) ;;
  if negb (fst r =? 0) then ret 0
  else b <-- byte_at (snd r) 0 ;; ret (s8 b).

(** The label [reset_dev]. *)
Definition reset_dev (m : usb_msd_dev) (bytes : list Z) : M (sst T) (Z * list Z) :=
  usb_msd_reset ;;;
  usb_msd_clear_halt (bulk_in m) ;;;
  usb_msd_clear_halt (bulk_out m) ;;;
  ret (ERR_XFER, bytes).

Definition word_at {S} (buf : list Z) (i : Z) : M S Z :=
  b0 <-- byte_at buf i ;; b1 <-- byte_at buf (i + 1) ;;
  b2 <-- byte_at buf (i + 2) ;; b3 <-- byte_at buf (i + 3) ;; ret (of_le4 b0 b1 b2 b3).

(** The data stage: whether it succeeded, and the bytes read. *)
Definition data_stage (m : usb_msd_dev) (dir length : Z) (data : list Z) : M (sst T) (bool * list Z) :=
  if 0 <? length then
    if dir =? MSD_READ then
      i <-- pipe_index (bulk_in m) ;;
      r <-- uop (usb_read i length) ;;
      ret (negb (fst r <? length), snd r)
    else
      i <-- pipe_index (bulk_out m) ;;
      if (Datatypes.length data <? Z.to_nat length)%nat then stuck
      else
        rc <-- uop (usb_write i (take (Z.to_nat length) data)) ;;
        ret (negb (rc <? length), [])
  else ret (true, []).

Definition usb_msd_read_write (dir : Z) (cb_data : list Z) (length : Z) (data : list Z) : M (sst T) (Z * list Z) :=
  let cb_size := Z.of_nat (Datatypes.length cb_data) in
  x <-- umd ;;
  let '(q, m) := x in
  modify (set_driver_data (Some (q, set_CBWTag (u32 (CBWTag m + 1)) m))) ;;;
  if CB_MAX_SIZE <? cb_size then ret (ERR_PROTO, [])
  else
    let cbw := mk_cbw CBW_SIGNATURE (CBWTag m) length
                 (if dir =? MSD_READ then CBW_FLAGS_IN else CBW_FLAGS_OUT) 0 cb_size
                 (cb_data ++ replicate (16 - Datatypes.length cb_data) 0) in
    i <-- pipe_index (bulk_out m) ;;
    rc <-- uop (usb_write i (cbw_bytes cbw)) ;;
    if negb (rc =? 31) then reset_dev m []
    else
      d <-- data_stage m dir length data ;;
      if negb (fst d) then reset_dev m (snd d)
      else
        j <-- pipe_index (bulk_in m) ;;
        r <-- uop (usb_read j 13) ;;
        if negb (fst r =? 13) then reset_dev m (snd d)
        else
          sig <-- word_at (snd r) 0 ;;
          tag <-- word_at (snd r) 4 ;;
          status <-- byte_at (snd r) 12 ;;
          if negb (sig =? CSW_SIGNATURE) || negb (tag =? dCBWTag cbw) || (status =? CSW_PHASE_ERROR)
          then reset_dev m (snd d)
          else ret (status, snd d).

Definition usb_msd_read (cb_data : list Z) (size : Z) : M (sst T) (Z * list Z) :=
  usb_msd_read_write MSD_READ cb_data size [].

Definition usb_msd_write (cb_data : list Z) (size : Z) (data : list Z) : M (sst T) (Z * list Z) :=
  usb_msd_read_write MSD_WRITE cb_data size data.

(** *** scsi.c *)

Definition scsi_acquire : M (sst T) unit :=
  l <-- gets scsi_dev_lock ;;
  l' <-- heap_op (hop (spinlock_acquire SYNC_IMPL l)) ;;
  modify (set_scsi_dev_lock l').

Definition scsi_release : M (sst T) unit :=
  l <-- gets scsi_dev_lock ;;
  l' <-- heap_op (hop (spinlock_release SYNC_IMPL l)) ;;
  modify (set_scsi_dev_lock l').

Definition scsi_up : M (sst T) Z := gets (fun s => match scsi s with None => 0 | Some _ => 1 end).

(** Frees the device; waits when an operation is in progress. *)
Definition scsi_free : M (sst T) unit :=
  scsi_acquire ;;;
  x <-- gets scsi ;;
  match x with Some (p, _) => heap_op (kfree p) | None => ret tt end ;;;
  modify (set_scsi None) ;;;
  scsi_release.

(** [struct sense_data] has 18 bytes. *)
Definition scsi_request_sense : M (sst T) unit :=
  usb_msd_read (cdb10_bytes (mk_cdb10 CDB_REQUEST_SENSE 0 0 0 18 0)) 18 ;;; ret tt.

Definition scsi_test_unit_ready : M (sst T) Z :=
  r <-- usb_msd_read (cdb6_bytes CDB_TEST_UNIT_READY) 0 ;;
  if fst r =? SCSI_RC_FAILED then scsi_request_sense ;;; ret (-1) else ret 0.

Definition scsi_read_capacity : M (sst T) Z :=
  r <-- usb_msd_read (cdb10_bytes (mk_cdb10 CDB_READ_CAPACITY10 0 0 0 0 0)) 8 ;;
  if negb (fst r =? SCSI_RC_GOOD) then ret (-1)
  else
    n <-- word_at (snd r) 0 ;;
    b <-- word_at (snd r) 4 ;;
    x <-- gets scsi ;;
    match x with
    | None => stuck
    | Some (p, _) =>
        modify (set_scsi (Some (p, mk_scsi (s32 (In_core.ntohl b)) (s32 (In_core.ntohl n))))) ;;; ret 0
    end.

(** [while ((rc < 0) && (attempts-- > 0))] *)
Fixpoint retry_ready (attempts : nat) (rc : Z) : M (sst T) Z :=
  match attempts with
  | O => ret rc
  | S n => if rc <? 0 then rc <-- scsi_test_unit_ready ;; retry_ready n rc else ret rc
  end.

(** [sizeof(struct scsi_dev)] is 28. *)
Definition scsi_init : M (sst T) Z :=
  scsi_acquire ;;;
  x <-- gets scsi ;;
  if decide (x <> None) then scsi_release ;;; ret ERR_PROTO
  else
    p <-- heap_op (kzalloc 28) ;;
    if p =? 0 then scsi_release ;;; ret ERR_NO_MEM
    else
      modify (set_scsi (Some (p, mk_scsi 0 0))) ;;;
      rc <-- scsi_test_unit_ready ;;
      rc <-- retry_ready 20 rc ;;
      if rc <? 0 then scsi_free ;;; scsi_release ;;; ret ERR_PROTO
      else
        rc <-- scsi_read_capacity ;;
        if rc <? 0 then scsi_release ;;; scsi_free ;;; ret ERR_PROTO
        else scsi_release ;;; ret 0.

Definition scsi_read_write (dir block_start block_count : Z) (data : list Z) : M (sst T) (Z * list Z) :=
  scsi_acquire ;;;
  x <-- gets scsi ;;
  match x with
  | None => scsi_release ;;; ret (-1, [])
  | Some (_, d) =>
      let cdb := mk_cdb10 (if dir =? SCSI_READ then CDB_READ10 else CDB_WRITE10) 0
                   (In_core.htonl (u32 block_start)) 0 (In_core.htons (u16 block_count)) 0 in
      let transfer_len := s32 (block_count * block_size d) in
      r <-- (if dir =? SCSI_READ then usb_msd_read (cdb10_bytes cdb) transfer_len
             else usb_msd_write (cdb10_bytes cdb) transfer_len data) ;;
      scsi_release ;;;
      ret (if negb (fst r =? SCSI_RC_GOOD) then -1 else 0, snd r)
  end.

Definition scsi_read_blocks (block_start block_count : Z) : M (sst T) (Z * list Z) :=
  scsi_read_write SCSI_READ block_start block_count [].

Definition scsi_write_blocks (block_start block_count : Z) (data : list Z) : M (sst T) Z :=
  r <-- scsi_read_write SCSI_WRITE block_start block_count data ;; ret (fst r).

(** *** The driver of the USB core *)

(** The last bulk pipe of each direction. *)
Fixpoint find_bulk (n : nat) (pipe_i : nat) (m : usb_msd_dev) : M (sst T) usb_msd_dev :=
  match n with
  | O => ret m
  | S n =>
      x <-- gets (fun s => pipe (udev (ub s)) !! pipe_i) ;;
      match x with
      | None => stuck
      | Some p =>
          find_bulk n (S pipe_i)
            (if attributes p =? USB_PIPE_DATA_BULK then
               if direction p =? USB_PIPE_DIR_IN then mk_msd (Some pipe_i) (bulk_out m) (CBWTag m) (max_lun m)
               else mk_msd (bulk_in m) (Some pipe_i) (CBWTag m) (max_lun m)
             else m)
      end
  end.

(** [sizeof(struct usb_msd_dev)] is 24. *)
Definition usb_msd_init : M (sst T) Z :=
  q <-- heap_op (kzalloc 24) ;;
  if q =? 0 then ret ERR_NO_MEM
  else
    modify (set_driver_data (Some (q, mk_msd None None 0 0))) ;;;
    n <-- gets (fun s => pipe_count (udev (ub s))) ;;
    m <-- find_bulk (Z.to_nat (n - 1)) 1 (mk_msd None None 0 0) ;;
    modify (set_driver_data (Some (q, m))) ;;;
    match bulk_in m, bulk_out m with
    | Some _, Some _ =>
        l <-- usb_msd_get_max_lun ;;
        modify (set_driver_data (Some (q, set_max_lun l m))) ;;;
        usb_msd_reset ;;;
        sc <-- gets (fun s => subclass_code (udev (ub s))) ;;
        if sc =? 0x06 then scsi_init else ret ERR_NO_DRIVER
    | _, _ => ret ERR_NO_DRIVER
    end.

Definition usb_msd_free : M (sst T) unit :=
  x <-- umd ;;
  sc <-- gets (fun s => subclass_code (udev (ub s))) ;;
  when (sc =? 0x06) (scsi_free ;;; heap_op (kfree (fst x))).

(** [sizeof(struct usb_driver_list)] is 12; the list is in order of registration. *)
Definition usb_dev_driver_register (d : usb_dev_driver) : M (sst T) Z :=
  p <-- heap_op (kzalloc 12) ;;
  if p =? 0 then ret ERR_NO_MEM
  else uop (modify (fun s => set_drv_list (usb_drv_list s ++ [d]) s)) ;;; ret 0.

Definition usb_mass_storage_driver (id : nat) : usb_dev_driver := mk_driver 0x08 0x06 0x50 id.

Definition usb_msd_static_init (id : nat) : M (sst T) Z := usb_dev_driver_register (usb_mass_storage_driver id).

End Storage.
