(* ===== verification/UsbStart.v ===== *)
(** * The start of the USB system

    Models [usb_static_init] of [src/src/kernel/usb/usb.c] with everything it calls:
    [allocator_init], the registration of the drivers of [usb_msd.c] and [usb_hid.c],
    the free lists of [uhci.c] and the scan of the PCI bus, in which [uhci_pci_init]
    and [ehci_pci_init] run for each controller that is found; and
    [scsi_static_init], which is empty.

    The parts are the states of [Scsi], [Pci] and [Uhci]; they have one heap, which
    is the one of [Pci] here.  What is known of the hardware is the interface
    [UsbHardware]: ports outside the configuration mechanism and memory-mapped
    registers do not change the headers of PCI functions. *)

From S2P Require Import Prelude CString Sched Ring Schedule Sync Alloc HeapRoom Pci Usb Hub Uhci UhciSched UhciXfer UhciInit Scsi.

(** ** State *)

(** [storage] has the globals of the storage stack and the list of USB drivers,
    [controllers] the PCI devices and, as the hardware behind them, the UHCI
    controllers. *)
Record ust {S U : Type} : Type := mk_ust { storage : sst S; controllers : pcis (uhcis U) }.
Arguments ust S U : clear implicits.
Arguments mk_ust {S U}.

Definition set_storage {S U} v (s : ust S U) : ust S U := mk_ust v (controllers s).
Definition set_controllers {S U} v (s : ust S U) : ust S U := mk_ust (storage s) v.

(** Registers in memory. *)
Class MemoryIO (U : Type) : Type := {
  mmio8 : Z -> U -> Z * U; mmio32 : Z -> U -> Z * U; mmio32_write : Z -> Z -> U -> U
}.

(** The ports and the memory-mapped registers seen from the controllers' state. *)
Definition lift_out {U} (f : U -> U) (s : uhcis U) : uhcis U := set_io (f (io s)) s.
Definition lift_in {U} (f : U -> Z * U) (s : uhcis U) : Z * uhcis U := let '(v, t) := f (io s) in (v, set_io t s).

#[global] Instance uhcis_ports {U} `{ConfigPorts U} : ConfigPorts (uhcis U) := {
  outl p v := lift_out (outl p v); outw p v := lift_out (outw p v); outb p v := lift_out (outb p v);
  inl_ p := lift_in (inl_ p); inw p := lift_in (inw p); inb p := lift_in (inb p)
}.

#[global] Program Instance uhcis_bridge {U} `{HostBridge U} : HostBridge (uhcis U) := {
  space s := space (io s); address_reg s := address_reg (io s)
}.
Next Obligation. intros U ? ? s a. apply space_byte. Qed.
Next Obligation. intros U ? ? v s Hv. by apply out_address. Qed.
Next Obligation.
  intros U ? ? s o Ha Ho. destruct (in_byte (io s) o Ha Ho) as (t & E & Sp). exists (set_io t s). cbn. unfold lift_in. by rewrite E.
Qed.
Next Obligation.
  intros U ? ? s o Ha Ho. destruct (in_word (io s) o Ha Ho) as (t & E & Sp). exists (set_io t s). cbn. unfold lift_in. by rewrite E.
Qed.
Next Obligation.
  intros U ? ? s Ha. destruct (in_long (io s) Ha) as (t & E & Sp). exists (set_io t s). cbn. unfold lift_in. by rewrite E.
Qed.

(** ** Operations *)

Section Operations.

Context {S U : Type} `{ConfigPorts U} `{MemoryIO U}.

(** An operation of the UHCI driver on the PCI devices: the heap is that of [Pci]. *)
Definition on_uhci {A} (m : M (uhcis U) A) : M (pcis (uhcis U)) A :=
  zoom (fun s => set_gheap (pheap s) (hw s)) (fun v s => set_pheap (gheap v) (set_hw v s)) m.

(** An access to the configuration space from the UHCI driver. *)
Definition at_bridge {A} (m : M (pcis U) A) : M (uhcis U) A :=
  zoom (fun s => mk_pcis (gheap s) [] [] (io s)) (fun v s => set_io (hw v) s) m.

(** The function [init] of the driver [id]: 0 is [uhci_pci_driver], 1 is
    [ehci_pci_driver]. *)
Definition pci_driver_init (polls : nat) (id i : nat) : M (pcis (uhcis U)) Z :=
  match id with
  | O =>
      d <-- pci_get i ;;
      on_uhci (uhci_pci_init (fun o => at_bridge (pci_read_dev_reg32 d o))
        (fun o v => at_bridge (pci_write_dev_reg16 d o v)) polls)
  | 1%nat => ehci_pci_init (fun a => lift_in (mmio8 a)) (fun a => lift_in (mmio32 a)) (fun a v => lift_out (mmio32_write a v)) polls i
  | _ => stuck
  end.

Definition on_pci {A} (m : M (pcis (uhcis U)) A) : M (ust S U) A := zoom controllers set_controllers m.
Definition on_storage {A} (m : M (sst S) A) : M (ust S U) A :=
  zoom (fun s => set_uheap (pheap (controllers s)) (storage s))
    (fun v s => mk_ust v (set_pheap (uheap v) (controllers s))) m.
Definition on_hubs {A} (m : M (hubst (uhcis U)) A) : M (uhcis U) A :=
  zoom (fun s => mk_hubst (uhubs s) ∅ s) (fun v s => set_uhubs (uhub_list v) s) m.

Definition scsi_static_init : M (ust S U) unit := ret tt.

Definition usb_human_interface_device (id : nat) : usb_dev_driver := mk_driver 0x03 0x01 0x01 id.
Definition usb_hid_static_init (id : nat) : M (sst S) Z := usb_dev_driver_register (usb_human_interface_device id).

(** The drivers' functions are number 0 for mass storage and 1 for keyboards;
    [polls] bounds the loops that wait for a controller to leave its reset. *)
Definition usb_static_init (polls : nat) : M (ust S U) Z :=
  on_storage (uop (modify (set_drv_list []))) ;;;
  on_pci (pheap_op allocator_init) ;;;
  on_pci (on_uhci (on_hubs usb_hub_static_init)) ;;;
  on_storage (usb_msd_static_init 0) ;;;
  on_storage (usb_hid_static_init 1) ;;;
  on_pci (on_uhci uhci_static_init) ;;;
  on_pci (pci_static_init (pci_driver_init polls)) ;;;
  ret 0.

End Operations.

(** ** The hardware *)

(** The ports of configuration mechanism 1. *)
Definition config_port (p : Z) : Prop := 0xcf8 <= p < 0xd00.

(** Other ports and memory-mapped registers leave the configuration space alone,
    and writing a register of it behind the header leaves the headers alone. *)
Class UsbHardware (U : Type) `{HostBridge U} `{MemoryIO U} : Prop := {
  quiet_outw p v t : ~ config_port p -> space (outw p v t) = space t;
  quiet_outl p v t : ~ config_port p -> space (outl p v t) = space t;
  quiet_inw p t : ~ config_port p -> space (snd (inw p t)) = space t;
  quiet_mmio8 a t : space (snd (mmio8 a t)) = space t;
  quiet_mmio32 a t : space (snd (mmio32 a t)) = space t;
  quiet_mmio32_write a v t : space (mmio32_write a v t) = space t;
  write_behind v t :
    2 ^ 31 <= address_reg t -> 64 <= address_reg t mod 256 -> agree (space t) (space (outw PCI_IO_CONFIG_DATA v t))
}.

(** The ports of a UHCI controller and the capability registers of an EHCI
    controller, from their base address registers. *)
Definition uhci_ports (c : Z -> Z) (d : pci_dev) : Z := Z.land (long_of c (of_dev d + 0x20)) 0xfffc.
Definition ehci_registers (c : Z -> Z) (d : pci_dev) : Z := Z.land (long_of c (of_dev d + 0x10)) 0xffffff00.

(** A function that its header in [c] says has the driver [pdd]. *)
Definition driven_by (c : Z -> Z) (d : pci_dev) (pdd : pci_dev_driver) : Prop :=
  located d /\ stripped d = header_at c (pci_bus d) (pci_slot d) (pci_func d) /\ matches d pdd = true.

(** No controller overlaps the ports of the configuration mechanism, and each
    shows its reset bit clear within [polls] further readings after the driver
    wrote its command register. *)
Record resets_end {U : Type} `{HostBridge U} `{MemoryIO U} (polls : nat) : Prop := mk_resets_end {
  re_apart (t : U) d o : driven_by (space t) d uhci_pci_driver -> 0 <= o <= 8 -> ~ config_port (uhci_ports (space t) d + o);
  re_uhci (t : U) d : driven_by (space t) d uhci_pci_driver ->
    clears (inw (uhci_ports (space t) d)) polls (outw (uhci_ports (space t) d + 0) 4 t);
  re_ehci (t t0 : U) d : driven_by (space t) d ehci_pci_driver ->
    let usbcmd := u32 (ehci_registers (space t) d + u8 (fst (mmio8 (ehci_registers (space t) d + 0) t0)) + 0) in
    clears (mmio32 usbcmd) polls (mmio32_write usbcmd 2 t)
}.
Arguments resets_end U {_ _ _} polls.

(** ** The drivers' initialisations *)

Section Drivers.

Context {U : Type} `{HostBridge U} `{MemoryIO U} `{!UsbHardware U} (polls : nat).
Context (Hresets : resets_end U polls).

Lemma polled_quiet p k : forall t : U, ~ config_port p -> space (snd (polled (inw p) k t)) = space t.
Proof.
  induction k as [|k IH]; intros t Hp; cbn [polled]; [by apply quiet_inw|]. rewrite IH by done. by apply quiet_inw.
Qed.

Lemma at_bridge_ok {A B} (m : M (pcis U) A) s a t (k : A -> M (uhcis U) B) :
  m (mk_pcis (gheap s) [] [] (io s)) = Ret (a, set_hw t (mk_pcis (gheap s) [] [] (io s))) ->
  bind (at_bridge m) k s = k a (set_io t s).
Proof. intros E. unfold bind, at_bridge, zoom. by rewrite E. Qed.

Lemma uhci_ports_range c d : 0 <= uhci_ports c d < 2 ^ 16.
Proof.
  unfold uhci_ports. split; [apply Z.land_nonneg; right; lia|].
  change 0xfffc with (Z.land 0xfffc (Z.ones 16)). rewrite Z.land_assoc, Z.land_ones by lia. by apply Z.mod_pos_bound.
Qed.

(** [pci_write_dev_reg16] of a register behind the header. *)
Lemma write_behind_run {B} s d o v (k : unit -> M (uhcis U) B) :
  located d -> 64 <= o < 256 -> o mod 4 = 0 ->
  exists t, bind (at_bridge (pci_write_dev_reg16 d o v)) k s = k tt (set_io t s) /\ agree (space (io s)) (space t).
Proof.
  intros Hd Ho Hm. set (s0 := mk_pcis (gheap s) [] [] (io s)).
  destruct (select_ok _ _ _ o s0 (fun _ => port_out (outw (PCI_IO_CONFIG_DATA + Z.land o 0x03) (u16 v))) Hd ltac:(lia)) as (t & E & A & Sp).
  exists (outw (PCI_IO_CONFIG_DATA + Z.land o 3) (u16 v) t). split.
  - apply at_bridge_ok. unfold pci_write_dev_reg16. fold s0. rewrite E. reflexivity.
  - rewrite land3 by lia. rewrite Hm, Z.add_0_r. cbn [hw s0] in Sp. rewrite <- Sp.
    pose proof (config_address_sum _ _ _ o Hd ltac:(lia)) as Ec. destruct Hd as (Hb & Hs & Hf).
    apply write_behind; rewrite A, Ec; unfold loc; change (2 ^ 31) with 2147483648; change (2 ^ 16) with 65536;
      change (2 ^ 11) with 2048; change (2 ^ 8) with 256; zdiv.
Qed.

Lemma driven_agree c c' d pdd : agree c c' -> driven_by c d pdd -> driven_by c' d pdd.
Proof. intros A (L & E & M). split; [done|]. split; [|done]. rewrite E. symmetry. by apply header_agree. Qed.

Lemma uhci_ports_agree c c' d : agree c c' -> located d -> uhci_ports c' d = uhci_ports c d.
Proof. intros A L. unfold uhci_ports, of_dev. by rewrite (long_agree c c') by (done || lia). Qed.

Lemma started_quiet c d fb (t : U) :
  (forall o, 0 <= o <= 8 -> ~ config_port (uhci_ports c d + o)) -> space (started (uhci_ports c d) fb t) = space t.
Proof.
  intros Hp. unfold started. rewrite quiet_outw by (apply Hp; lia). rewrite quiet_outw by (apply Hp; lia).
  rewrite quiet_outw by (apply Hp; lia). rewrite quiet_outl by (apply Hp; lia). by apply quiet_outw, Hp.
Qed.

Lemma uhci_pci_init_run s d n :
  driven_by (space (io s)) d uhci_pci_driver -> room (gheap s) (n + S INIT_CHUNKS) ->
  exists s', uhci_pci_init (fun o => at_bridge (pci_read_dev_reg32 d o)) (fun o v => at_bridge (pci_write_dev_reg16 d o v)) polls s
      = Ret (0, s')
    /\ room (gheap s') n /\ hkern (gheap s') = hkern (gheap s) /\ agree (space (io s)) (space (io s')).
Proof.
  intros Hd (Hl & Hc & gs & Hh & Hf). pose proof Hd as (Hloc & _).
  destruct (kzalloc_roomy (gheap s) gs (n + INIT_CHUNKS) SIZEOF_UHCI) as (u & h1 & gs1 & E1 & Hu & R1 & K1 & _ & _).
  { done. }
  { split_and!; [done|done|done|]. change (Z.to_nat ((SIZEOF_UHCI - 1) / CHUNK_SIZE + 1)) with 1%nat.
    by replace (n + INIT_CHUNKS + 1)%nat with (n + S INIT_CHUNKS)%nat by lia. }
  unfold uhci_pci_init. rewrite (gh_ok _ u h1) by exact E1. rewrite (proj2 (Z.eqb_neq u 0) Hu).
  destruct (read32_run d 0x20 (mk_pcis h1 [] [] (io s)) Hloc ltac:(lia) ltac:(done)) as (t1 & E2 & S2).
  rewrite (at_bridge_ok _ (set_gheap h1 s) _ _ _ E2). cbn [hw] in *. fold (uhci_ports (space (io s)) d).
  unfold create. rewrite bind_modify. set (uh0 := mk_uhci _ _ _ _ _ _ _ _ _).
  match goal with |- context [bind (at_bridge _) ?k ?s0] =>
    destruct (write_behind_run s0 d 0x00c0 0x2000 k Hloc ltac:(lia) ltac:(done)) as (t2 & E3 & A3) end.
  rewrite E3. set (s2 := set_io t2 _). cbn [io set_io with_store UH set_uhs] in A3. rewrite S2 in A3.
  pose proof (driven_agree _ _ _ _ A3 Hd) as Hd2. set (b := uhci_ports (space (io s)) d) in *.
  assert (Eb : uhci_ports (space t2) d = b) by (by apply uhci_ports_agree).
  assert (Eb16 : u16 (iobase uh0) = b) by (apply Z.mod_small, uhci_ports_range).
  destruct (uhci_init_exec s2 gs1 u uh0 n polls) as (i & c & bi & bo & fb & hub & h' & gs' & W & m & t & E4 & R4 & K4 & _ & _ & _ & _ & _ & Ht & _).
  { cbn. by rewrite lookup_insert_eq. }
  { exact R1. }
  { rewrite Eb16, <- Eb. apply (re_uhci _ Hresets t2 d Hd2). }
  rewrite (bind_step _ _ _ _ _ E4). cbn [Z.ltb Z.compare]. eexists. split; [reflexivity|]. cbn [gheap io after_init set_uhubs set_gheap set_io].
  destruct R4 as (L4 & C4 & Hh4 & F4). split_and!; [by split_and!; [|exact C4|exists gs']|by rewrite K4|].
  assert (Hp : forall o, 0 <= o <= 8 -> ~ config_port (b + o)) by (intros o Ho; rewrite <- Eb; by apply (re_apart _ Hresets t2 d o Hd2)).
  rewrite Eb16. unfold b at 1. rewrite started_quiet by exact Hp. rewrite Ht, Eb16.
  rewrite polled_quiet by (rewrite <- (Z.add_0_r b); apply Hp; lia). by rewrite quiet_outw by (apply Hp; lia).
Qed.

Lemma polled_lift (f : U -> Z * U) k : forall y, fst (polled (lift_in f) k y) = fst (polled f k (io y)).
Proof.
  induction k as [|k IH]; intros y; cbn [polled]; [|rewrite IH]; unfold lift_in; by destruct (f (io y)).
Qed.

Lemma ehci_pci_init_run (s : pcis (uhcis U)) i d :
  pci_dev_list s !! i = Some d -> driven_by (space (io (hw s))) d ehci_pci_driver ->
  exists t, pci_driver_init polls 1 i s = Ret (1, set_hw t s) /\ space (io t) = space (io (hw s)).
Proof.
  intros Ed Hd. pose proof Hd as (Hloc & _). unfold pci_driver_init, ehci_pci_init. unfold bind at 1, pci_get at 1. rewrite Ed.
  destruct (read32_run d EHCI_PCIREG_BASE s Hloc ltac:(done) ltac:(done)) as (t1 & E1 & S1). rewrite (bind_step _ _ _ _ _ E1).
  cbv zeta. cbn [space uhcis_bridge] in S1 |- *.
  change (Z.land (long_of (space (io (hw s))) (of_dev d + EHCI_PCIREG_BASE)) 0xffffff00) with (ehci_registers (space (io (hw s))) d).
  set (b := ehci_registers (space (io (hw s))) d).
  unfold EHCI_HCCREG_CAPLENGTH, EHCI_HCCREG_HCCPARAMS, EHCI_OPREG_USBCMD.
  destruct (mmio8 (b + 0) (io t1)) as [cap t2] eqn:E2.
  rewrite (port_in_ok _ cap (set_io t2 t1)) by (unfold lift_in; cbn [hw set_hw io]; by rewrite E2).
  destruct (mmio32 (b + 8) t2) as [hcc t3] eqn:E3.
  rewrite (port_in_ok _ hcc (set_io t3 t1)) by (unfold lift_in; cbn [hw set_hw io set_io]; by rewrite E3).
  set (usbcmd := u32 (b + u8 cap + 0)).
  destruct (mmio32 usbcmd t3) as [x t4] eqn:E4.
  rewrite (port_in_ok _ x (set_io t4 t1)) by (unfold lift_in; cbn [hw set_hw io set_io]; by rewrite E4).
  unfold port_out. rewrite bind_modify. cbn [hw set_hw].
  assert (S4 : space t4 = space (io (hw s))).
  { rewrite <- S1. pose proof (quiet_mmio8 (b + 0) (io t1)) as Q1. pose proof (quiet_mmio32 (b + 8) t2) as Q2.
    pose proof (quiet_mmio32 usbcmd t3) as Q3. rewrite E2 in Q1. rewrite E3 in Q2. rewrite E4 in Q3. cbn [snd] in *. congruence. }
  match goal with |- context [bind (wait_ehci_reset _ _ _) _ ?s0] =>
    destruct (wait_ehci_reset_run (fun a => lift_in (mmio32 a)) usbcmd polls s0) with (keep := fun t : uhcis U => space (io t) = space (io (hw s)))
      as (t6 & E6 & S6) end.
  - pose proof (re_ehci _ Hresets t4 (io t1) d) as Hr. rewrite S4 in Hr. fold b in Hr. rewrite E2 in Hr. cbn [fst] in Hr. fold usbcmd in Hr.
    destruct (Hr Hd) as (k & Hk & Hb). exists k. split; [exact Hk|]. cbn [hw set_hw]. rewrite polled_lift. exact Hb.
  - cbn [hw set_hw io lift_out set_io]. by rewrite quiet_mmio32_write.
  - intros y Hy. unfold lift_in. pose proof (quiet_mmio32 usbcmd (io y)) as Q. destruct (mmio32 usbcmd (io y)). cbn in *. congruence.
  - rewrite (bind_step _ _ _ _ _ E6). exists t6. split; [by destruct s|exact S6].
Qed.

(** The chunks that the driver of a function takes. *)
Definition driver_cost (d : pci_dev) : nat := if matches d uhci_pci_driver then S INIT_CHUNKS else 0.

Lemma pci_drivers_ok : driver_ok (pci_driver_init polls) [uhci_pci_driver; ehci_pci_driver] driver_cost.
Proof.
  intros pdd i d s n Hin Hm Hd Hloc Hh Hr.
  assert (Hdr : driven_by (space (io (hw s))) d pdd) by (by split_and!).
  apply elem_of_cons in Hin as [->|Hin].
  - unfold driver_cost in Hr. change (matches (stripped d) uhci_pci_driver) with (matches d uhci_pci_driver) in Hr. rewrite Hm in Hr.
    destruct (uhci_pci_init_run (set_gheap (pheap s) (hw s)) d n Hdr Hr) as (s' & E & R & K & A).
    exists 0, (set_pheap (gheap s') (set_hw s' s)). split_and!; [|exact R|].
    + cbn [pci_driver_init pdd_id uhci_pci_driver]. unfold bind at 1, pci_get at 1. rewrite Hd. unfold on_uhci, zoom. by rewrite E.
    + split_and!; [done|exact A|done|exact K].
  - apply list_elem_of_singleton in Hin as ->. destruct (ehci_pci_init_run s i d Hd Hdr) as (t & E & St).
    exists 1, (set_hw t s). split_and!; [exact E|eapply room_weaken_n, Hr; lia|].
    split_and!; [done| |done|done]. cbn [hw set_hw space uhcis_bridge]. by rewrite St.
Qed.

End Drivers.

(** ** The whole start *)

Section Whole.

Context {S U : Type} `{HostBridge U} `{MemoryIO U} `{!UsbHardware U} (polls : nat).

(** The functions on bus 0. *)
Definition functions_of (t : U) : list pci_dev := concat (scanned (space t) 0 <$> seqZ 0 32).

(** The heap, before it is initialised, and a bus whose functions fit it: 1023
    chunks, of which the four driver lists take one each, a function one and a UHCI
    controller 137 more. *)
Record usb_unset (s : ust S U) : Prop := mk_usb_unset {
  uu_chunks : Z.of_nat (length (mem_chunk_list (pheap (controllers s)))) = CHUNK_NUM;
  uu_lock : memlock (pheap (controllers s)) = SPINLOCK_INIT;
  uu_room : cpu_room 1 (cpu (hkern (pheap (controllers s))));
  uu_fits : (weight driver_cost (functions_of (io (hw (controllers s)))) <= 1019)%nat
}.

(** After [usb_static_init]: the drivers are registered, and the PCI devices are the
    functions that the bus has. *)
Record usb_up (t : U) (s : ust S U) : Prop := mk_usb_up {
  up_drivers : usb_drv_list (ub (storage s)) = [usb_mass_storage_driver 0; usb_human_interface_device 1];
  up_pci_drivers : pci_drv_list (controllers s) = [uhci_pci_driver; ehci_pci_driver];
  up_functions : stripped <$> pci_dev_list (controllers s) = functions_of t
}.

Lemma bus_ok {A B} (m : M (pcis (uhcis U)) A) (s : ust S U) a c (k : A -> M (ust S U) B) :
  m (controllers s) = Ret (a, c) -> bind (on_pci m) k s = k a (set_controllers c s).
Proof. intros E. unfold bind, on_pci, zoom. by rewrite E. Qed.

(** The registration of a USB driver. *)
Lemma register_run {B} (d : usb_dev_driver) (s : ust S U) n (k : Z -> M (ust S U) B) :
  room (pheap (controllers s)) (n + 1) ->
  exists h, bind (on_storage (usb_dev_driver_register d)) k s
      = k 0 (mk_ust (set_ub (set_drv_list (usb_drv_list (ub (storage s)) ++ [d]) (ub (storage s))) (set_uheap h (storage s)))
          (set_pheap h (controllers s)))
    /\ room h n /\ hkern h = hkern (pheap (controllers s)).
Proof.
  intros Hr. destruct (kzalloc_room (pheap (controllers s)) n 12) as (p & h & E & Hp & R & K); [lia|exact Hr|].
  exists h. split; [|done]. unfold bind, on_storage, usb_dev_driver_register, zoom, bind, heap_op, zoom. cbn [uheap set_uheap].
  rewrite E, (proj2 (Z.eqb_neq p 0) Hp). unfold uop, zoom, modify, ret. by destruct s as [[]].
Qed.

Lemma register_pci_run {B} (pdd : pci_dev_driver) (s : pcis (uhcis U)) n (k : Z -> M (pcis (uhcis U)) B) :
  room (pheap s) (n + 1) ->
  exists h, bind (pci_dev_driver_register pdd) k s = k 0 (set_pci_drv_list (pci_drv_list s ++ [pdd]) (set_pheap h s))
    /\ room h n /\ hkern h = hkern (pheap s).
Proof.
  intros Hr. destruct (kzalloc_room (pheap s) n 12) as (p & h & E & Hp & R & K); [lia|exact Hr|].
  exists h. split; [|done]. unfold bind, pci_dev_driver_register, bind, pheap_op, zoom. rewrite E, (proj2 (Z.eqb_neq p 0) Hp). done.
Qed.

Lemma pci_static_init_run (s : pcis (uhcis U)) (Hresets : resets_end U polls) :
  room (pheap s) (weight driver_cost (functions_of (io (hw s))) + 2) ->
  exists s', pci_static_init (pci_driver_init polls) s = Ret (tt, s')
    /\ pci_drv_list s' = [uhci_pci_driver; ehci_pci_driver] /\ stripped <$> pci_dev_list s' = functions_of (io (hw s))
    /\ hkern (pheap s') = hkern (pheap s).
Proof.
  intros Hr. unfold pci_static_init. rewrite !bind_modify.
  match goal with |- context [bind (pci_dev_driver_register uhci_pci_driver) ?k ?s0] =>
    destruct (register_pci_run uhci_pci_driver s0 (weight driver_cost (functions_of (io (hw s))) + 1) k) as (h1 & E1 & R1 & K1) end.
  { cbn [pheap set_pci_dev_list set_pci_drv_list]. by replace (_ + 1 + 1)%nat with (weight driver_cost (functions_of (io (hw s))) + 2)%nat by lia. }
  rewrite E1.
  match goal with |- context [bind (pci_dev_driver_register ehci_pci_driver) ?k ?s0] =>
    destruct (register_pci_run ehci_pci_driver s0 (weight driver_cost (functions_of (io (hw s)))) k R1) as (h2 & E2 & R2 & K2) end.
  rewrite E2.
  match goal with |- context [pci_bus_probe _ ?s0] =>
    destruct (pci_bus_probe_finds (pci_driver_init polls) _ _ s0 (pci_drivers_ok polls Hresets) eq_refl R2) as (s' & E3 & D & _ & K & L) end.
  exists s'. split_and!; [exact E3|exact L|exact D|]. rewrite K. cbn in *. congruence.
Qed.

Lemma usb_static_init_run (s : ust S U) (Hresets : resets_end U polls) :
  usb_unset s ->
  exists s', usb_static_init polls s = Ret (0, s') /\ usb_up (io (hw (controllers s))) s'
    /\ hkern (pheap (controllers s')) = hkern (pheap (controllers s)).
Proof.
  intros [Hn Hl Hc Hw]. destruct (allocator_init_run (pheap (controllers s)) Hn Hl) as (cs & Ea & Hh).
  unfold usb_static_init. set (t := io (hw (controllers s))) in *.
  match goal with |- context [bind (on_storage ?m) ?k s] =>
    assert (E0 : bind (on_storage m) k s = k tt (mk_ust (set_ub (set_drv_list [] (ub (storage s)))
      (set_uheap (pheap (controllers s)) (storage s))) (controllers s))) by (by destruct s as [? []]) end.
  rewrite E0. rewrite (bus_ok (pheap_op allocator_init) _ tt (set_pheap (set_chunks cs (pheap (controllers s))) (controllers s)))
    by (unfold pheap_op, zoom; cbn [controllers]; by rewrite Ea).
  set (c1 := set_pheap _ _).
  assert (Hroom : room (pheap c1) 1023).
  { split_and!; [exact Hl|exact Hc|]. eexists. split; [exact Hh|]. by exists []. }
  set (c2 := set_hw (set_uhubs [] (set_gheap (pheap c1) (hw c1))) c1).
  rewrite (bus_ok (on_uhci (on_hubs usb_hub_static_init)) _ 0 c2) by reflexivity.
  match goal with |- context [bind (on_storage (usb_msd_static_init 0)) ?k ?s0] =>
    destruct (register_run (usb_mass_storage_driver 0) s0 1022 k Hroom) as (h1 & E1 & R1 & K1) end.
  unfold usb_msd_static_init. rewrite E1. unfold usb_hid_static_init.
  match goal with |- context [bind (on_storage (usb_dev_driver_register _)) ?k ?s0] =>
    destruct (register_run (usb_human_interface_device 1) s0 1021 k R1) as (h2 & E2 & R2 & K2) end.
  rewrite E2. cbn [controllers storage ub usb_drv_list set_ub set_uheap set_drv_list set_controllers app].
  erewrite bus_ok by reflexivity. cbn [controllers set_controllers].
  match goal with |- context [bind (on_pci _) _ (set_controllers ?c _)] =>
    destruct (pci_static_init_run c Hresets) as (c' & E3 & D1 & D2 & K3) end.
  { eapply room_weaken_n; [|exact R2]. change (io (hw _)) with t. lia. }
  erewrite bus_ok by exact E3. eexists. split; [reflexivity|]. split; [by constructor|].
  cbn [controllers set_controllers]. rewrite K3. etransitivity; [exact K2|exact K1].
Qed.

End Whole.

(** ** A concrete machine *)

Module UsbStart_instances.

(** Slot 1 has a UHCI controller at port 0xc000 and, as function 2, an EHCI
    controller with its registers at 0xf0000000; no other function exists. *)
Definition uhci_header : list Z :=
  [0x86; 0x80; 0x20; 0x70; 0; 0; 0; 0; 0; 0x00; 0x03; 0x0c; 0; 0; 0x80; 0;
   0; 0; 0; 0; 0; 0; 0; 0; 0; 0; 0; 0; 0; 0; 0; 0; 0x01; 0xc0; 0; 0].
Definition ehci_header : list Z :=
  [0x86; 0x80; 0xcd; 0x24; 0; 0; 0; 0; 0; 0x20; 0x03; 0x0c; 0; 0; 0x00; 0; 0; 0; 0; 0xf0].

Definition byte_at_loc (a : Z) : Z :=
  if a / 256 =? 8 then nth (Z.to_nat (a mod 256)) uhci_header 0
  else if a / 256 =? 10 then nth (Z.to_nat (a mod 256)) ehci_header 0
  else 0xff.

(** The state is the address register of the bridge.  Other ports and the registers
    in memory read as 0, which is a controller that is not in reset. *)
Record pc : Type := mk_pc { pc_address : Z }.

Definition pc_byte (t : pc) (o : Z) : Z := u8 (byte_at_loc (selected (pc_address t) + o)).
Definition pc_in (v : Z) (port : Z) (t : pc) : Z * pc := if (0xcf8 <=? port) && (port <? 0xd00) then (v, t) else (0, t).

#[global] Instance pc_ports : ConfigPorts pc := {
  outl port v t := if port =? PCI_IO_CONFIG_ADDRESS then mk_pc v else t;
  outw _ _ t := t; outb _ _ t := t;
  inl_ port t := pc_in (of_le4 (pc_byte t 0) (pc_byte t 1) (pc_byte t 2) (pc_byte t 3)) port t;
  inw port t := let o := port - PCI_IO_CONFIG_DATA in pc_in (pc_byte t o + pc_byte t (o + 1) * 256) port t;
  inb port t := pc_in (pc_byte t (port - PCI_IO_CONFIG_DATA)) port t
}.

#[global] Instance pc_memory : MemoryIO pc := { mmio8 _ t := (0, t); mmio32 _ t := (0, t); mmio32_write _ _ t := t }.

Lemma pc_in_config v o t : 0 <= o < 4 -> pc_in v (PCI_IO_CONFIG_DATA + o) t = (v, t).
Proof.
  intros Ho. unfold pc_in, PCI_IO_CONFIG_DATA. rewrite (proj2 (Z.leb_le _ _)), (proj2 (Z.ltb_lt _ _)) by lia. done.
Qed.

#[global] Program Instance pc_bridge : HostBridge pc := { space _ a := u8 (byte_at_loc a); address_reg := pc_address }.
Next Obligation. intros t a. apply u8_range. Qed.
Next Obligation. intros v t _. done. Qed.
Next Obligation.
  intros t o _ Ho. exists t. split; [|done]. cbn [inb pc_ports]. rewrite pc_in_config by lia.
  unfold pc_byte. do 3 f_equal. f_equal. lia.
Qed.
Next Obligation.
  intros t o _ Ho. exists t. split; [|done]. cbn [inw pc_ports]. rewrite pc_in_config by lia.
  replace (PCI_IO_CONFIG_DATA + o - PCI_IO_CONFIG_DATA) with o by lia. unfold pc_byte, word_of. by rewrite <- Z.add_assoc.
Qed.
Next Obligation.
  intros t _. exists t. split; [|done]. cbn [inl_ pc_ports]. rewrite <- (Z.add_0_r PCI_IO_CONFIG_DATA), pc_in_config by lia.
  unfold pc_byte, long_of. by rewrite Z.add_0_r.
Qed.

#[global] Instance pc_quiet : UsbHardware pc.
Proof.
  split; try (intros; cbn; unfold pc_in; repeat case_match; done).
Qed.

Lemma pc_uhci (t : pc) d : driven_by (space t) d uhci_pci_driver -> uhci_ports (space t) d = 0xc000.
Proof.
  intros ((Hb & Hs & Hf) & E & M). unfold matches, uhci_pci_driver in M. cbn [pdd_class_code pdd_prog_ifc pdd_subclass_code] in M.
  apply andb_true_iff in M as [M M3]. apply andb_true_iff in M as [M1 _]. apply Z.eqb_eq in M1, M3.
  pose proof (f_equal pci_class_code E) as E1. pose proof (f_equal pci_prog_ifc E) as E2. cbn in E1, E2. rewrite M1 in E1. rewrite M3 in E2.
  unfold PCI_DEV_CLASS, PCI_DEV_PROG_IF in *. unfold uhci_ports, of_dev. set (a := loc _ _ _) in *.
  assert (Ha : a mod 256 = 0) by (unfold a, loc; change (2 ^ 16) with 65536; change (2 ^ 11) with 2048; change (2 ^ 8) with 256; zdiv).
  assert (Hd : a / 256 = 8).
  { unfold byte_at_loc in E1, E2. replace ((a + 11) / 256) with (a / 256) in E1 by zdiv. replace ((a + 9) / 256) with (a / 256) in E2 by zdiv.
    replace ((a + 11) mod 256) with 11 in E1 by zdiv. replace ((a + 9) mod 256) with 9 in E2 by zdiv.
    destruct (Z.eqb_spec (a / 256) 8); [done|]. destruct (Z.eqb_spec (a / 256) 10); [discriminate E2|discriminate E1]. }
  replace a with 2048 by zdiv. reflexivity.
Qed.

Lemma pc_resets : resets_end pc 0.
Proof.
  split.
  - intros t d o Hd Ho. rewrite (pc_uhci t d Hd). unfold config_port. lia.
  - intros t d Hd. rewrite (pc_uhci t d Hd). exists 0%nat. split; [lia|reflexivity].
  - intros t t0 d Hd. exists 0%nat. split; [lia|reflexivity].
Qed.

(** Before [usb_static_init]. *)
Definition usb_before (k : kst) : ust unit pc :=
  mk_ust (mk_sst (mk_ubs (mk_udev 0 0 0 0 0 0 0 0 0 None 0 0 []) [] tt) (set_hkern k Alloc_instances.blank) None None SPINLOCK_INIT)
    (mk_pcis (set_hkern k Alloc_instances.blank) [] []
       (mk_uhcis (set_hkern k Alloc_instances.blank) [] SPINLOCK_INIT [] SPINLOCK_INIT ∅ ∅ ∅ ∅ ∅ ∅ ∅ ∅ ∅ [] (mk_pc 0))).

Lemma usb_before_unset k : cpu_room 1 (cpu k) -> usb_unset (usb_before k).
Proof.
  intros Hc. constructor; [by vm_compute|reflexivity|exact Hc|]. apply Nat.leb_le. vm_compute. reflexivity.
Qed.

End UsbStart_instances.
