(* ===== verification/Start.v ===== *)
(** * Kernel start

    Models [src/src/kernel/kernel.c]: the order in which the kernel sets up its
    parts, the threads it creates and the dispatch of the first one.

    The machine is the states of the components; the ones that have parts in
    common share them here (the control blocks are a part of the memory manager's
    state, of the mailboxes', of the keyboard's and, with the heap, of the USB
    drivers').  What [kernel_main] prints is left out. *)

From S2P Require Import CString Alloc HeapRoom Pci Usb Hub Uhci UhciSched UhciXfer UhciInit Scsi UsbStart.
From S2P Require Import Prelude Sched Ring Schedule RoundRobin Sync Mbox Keyboard Cpu Pic Time Interrupt.
From S2P Require Import Paging Frames Vmem VmemFacts PageFault Evict VmemInstances VmemSetup Process Loader.
Import Fifo Table.

(** ** kernel.c *)

(** The functions in [start_thrds]. *)
Inductive kthread : Type :=
| loader_thread | clock_thread | usb_thread | lock_thread0 | lock_thread1
| phl_thread0 | phl_thread1 | phl_thread2 | barrier1 | barrier2 | barrier3.

Definition start_thrds : list kthread :=
  [loader_thread; clock_thread; usb_thread; lock_thread0; lock_thread1;
   phl_thread0; phl_thread1; phl_thread2; barrier1; barrier2; barrier3].

(** The state of the kernel; [k_paging] is the paging bit of [cr0]. *)
Record machine (D T V W : Type) : Type := mk_machine {
  k_cpu : cst;
  k_calls : list (option syscall_t);
  k_idt : list descriptor;
  k_chips : T;
  k_clock : clock_state;
  k_vm : mm D;
  k_boxes : list mbox_t;
  k_shift : Z;
  k_release : bool;
  k_multi : bool;
  k_mbox : Z;
  k_usb : ust V W;
  k_paging : bool
}.
Arguments mk_machine {D T V W}.
Arguments k_cpu {D T V W}.
Arguments k_calls {D T V W}.
Arguments k_idt {D T V W}.
Arguments k_chips {D T V W}.
Arguments k_clock {D T V W}.
Arguments k_vm {D T V W}.
Arguments k_boxes {D T V W}.
Arguments k_shift {D T V W}.
Arguments k_release {D T V W}.
Arguments k_multi {D T V W}.
Arguments k_mbox {D T V W}.
Arguments k_usb {D T V W}.
Arguments k_paging {D T V W}.

Section Main.

Context {D T V W : Type} `{BlockDevice D} `{Ports T} `{ConfigPorts W} `{MemoryIO W}.
Context (rdtsc : nat -> Z) (port61 tsc : nat -> Z) (tss_addr : Z) (fn : handler -> Z) (start_of : kthread -> Z).
#[local] Abbreviation state := (machine D T V W).

Definition set_k_cpu (v : cst) (s : state) : state :=
  mk_machine v (k_calls s) (k_idt s) (k_chips s) (k_clock s) (k_vm s) (k_boxes s) (k_shift s) (k_release s) (k_multi s) (k_mbox s) (k_usb s) (k_paging s).
Definition set_k_calls (v : list (option syscall_t)) (s : state) : state :=
  mk_machine (k_cpu s) v (k_idt s) (k_chips s) (k_clock s) (k_vm s) (k_boxes s) (k_shift s) (k_release s) (k_multi s) (k_mbox s) (k_usb s) (k_paging s).
Definition set_k_idt (v : list descriptor) (s : state) : state :=
  mk_machine (k_cpu s) (k_calls s) v (k_chips s) (k_clock s) (k_vm s) (k_boxes s) (k_shift s) (k_release s) (k_multi s) (k_mbox s) (k_usb s) (k_paging s).
Definition set_k_chips (v : T) (s : state) : state :=
  mk_machine (k_cpu s) (k_calls s) (k_idt s) v (k_clock s) (k_vm s) (k_boxes s) (k_shift s) (k_release s) (k_multi s) (k_mbox s) (k_usb s) (k_paging s).
Definition set_k_clock (v : clock_state) (s : state) : state :=
  mk_machine (k_cpu s) (k_calls s) (k_idt s) (k_chips s) v (k_vm s) (k_boxes s) (k_shift s) (k_release s) (k_multi s) (k_mbox s) (k_usb s) (k_paging s).
Definition set_k_vm (v : mm D) (s : state) : state :=
  mk_machine (k_cpu s) (k_calls s) (k_idt s) (k_chips s) (k_clock s) v (k_boxes s) (k_shift s) (k_release s) (k_multi s) (k_mbox s) (k_usb s) (k_paging s).
Definition set_k_usb (v : ust V W) (s : state) : state :=
  mk_machine (k_cpu s) (k_calls s) (k_idt s) (k_chips s) (k_clock s) (k_vm s) (k_boxes s) (k_shift s) (k_release s) (k_multi s) (k_mbox s) v (k_paging s).
Definition set_k_paging (v : bool) (s : state) : state :=
  mk_machine (k_cpu s) (k_calls s) (k_idt s) (k_chips s) (k_clock s) (k_vm s) (k_boxes s) (k_shift s) (k_release s) (k_multi s) (k_mbox s) (k_usb s) v.

(** The keyboard's part of the machine, with the mailboxes and the threads. *)
Definition keyboard_of (s : state) : kbst :=
  mk_kbst (mk_mst (kern (k_vm s)) (k_boxes s)) (k_shift s) (k_release s) (k_multi s) (k_mbox s).
Definition set_keyboard (v : kbst) (s : state) : state :=
  mk_machine (k_cpu s) (k_calls s) (k_idt s) (k_chips s) (k_clock s) (set_kern (procs (mail v)) (k_vm s)) (Q (mail v))
    (shift_status v) (key_release v) (multiread v) (kb_mbox v) (k_usb s) (k_paging s).

(** The clock: [cpu_mhz] is also what the scheduler reads. *)
Definition set_clock (c : clock_state) (s : state) : state :=
  set_k_clock c (set_k_vm (set_kern (set_cpu_mhz (mhz c) (kern (k_vm s))) (k_vm s)) s).

(** The USB drivers' part, whose heap is used under the threads' critical section. *)
Definition usb_of (s : state) : ust V W :=
  let c := controllers (k_usb s) in set_controllers (set_pheap (set_hkern (kern (k_vm s)) (pheap c)) c) (k_usb s).
Definition set_usb (v : ust V W) (s : state) : state :=
  set_k_usb v (set_k_vm (set_kern (hkern (pheap (controllers v))) (k_vm s)) s).

Definition on_vm {A} (m : M (mm D) A) : M state A := zoom k_vm set_k_vm m.
Definition on_kern {A} (m : M kst A) : M state A := on_vm (kop m).
Definition on_keyboard {A} (m : M kbst A) : M state A := zoom keyboard_of set_keyboard m.
Definition on_usb {A} (m : M (ust V W) A) : M state A := zoom usb_of set_usb m.

(** [interrupts_disable]: the flag, not the count. *)
Definition interrupts_disable : M kst unit :=
  modify (fun s => set_cpu (mk_cpu (nointerrupt_count_val (cpu s)) false) s).

(** The loop over [start_thrds]. *)
Fixpoint create_threads (l : list kthread) : M (mm D) unit :=
  match l with
  | [] => ret tt
  | t :: l' => create_thread rdtsc (start_of t) ;;; create_threads l'
  end.

(** [kernel_main]; the result is that of [dispatch], [false] for a thread that
    starts.  [fuel] bounds the calibration of the clock, [polls] the wait for a USB
    controller to leave its reset. *)
Definition kernel_main (fuel polls : nat) : M state bool :=
  on_kern interrupts_disable ;;;
  zoom k_cpu set_k_cpu (init_cpu tss_addr) ;;;
  zoom k_calls set_k_calls init_syscalls ;;;
  zoom k_idt set_k_idt (init_idt fn) ;;;
  zoom k_chips set_k_chips init_int_controller ;;;
  zoom k_chips set_k_chips init_pit ;;;
  on_kern init_pcb_table ;;;
  zoom k_clock set_clock (time_init port61 tsc fuel) ;;;
  on_vm (init_memory rdtsc) ;;;
  on_keyboard (mailing mbox_init) ;;;
  r <-- on_keyboard keyboard_init ;;
  match r with Blocked => wait | Done _ => ret tt end ;;;
  on_usb scsi_static_init ;;;
  on_usb (usb_static_init polls) ;;;
  on_vm (create_threads start_thrds) ;;;
  dir <-- on_kern (c <-- gets current_running ;; rd c page_directory) ;;
  on_kern (modify (set_cr3 dir)) ;;;
  modify (set_k_paging true) ;;;
  on_kern dispatch.

End Main.

(** ** The threads *)

(** The control block of a kernel thread that has not run yet. *)
Record thread_of (r : pcb) (a n st dir : Z) : Prop := mk_thread_of {
  to_pid : pid r = n;
  to_thread : is_thread r = 1;
  to_status : status r = STATUS_FIRST_TIME;
  to_start : start_pc r = a;
  to_nested : nested_count r = 1;
  to_cs : pcb_cs r = KERNEL_CS;
  to_ds : pcb_ds r = KERNEL_DS;
  to_stack : kernel_stack r = st + T_KSTACK_START_OFFSET;
  to_base : base_kernel_stack r = kernel_stack r;
  to_dir : page_directory r = dir
}.

Lemma thread_unlinked r r' a n st dir : unlinked r' = unlinked r -> thread_of r a n st dir -> thread_of r' a n st dir.
Proof.
  intros E [H1 H2 H3 H4 H5 H6 H7 H8 H9 H10].
  assert (Hf : forall {A} (g : pcb -> A), (forall x, g (unlinked x) = g x) -> g r' = g r).
  { intros A g Hg. rewrite <- Hg, E. apply Hg. }
  constructor; rewrite ?(Hf _ pid), ?(Hf _ is_thread), ?(Hf _ status), ?(Hf _ start_pc), ?(Hf _ nested_count), ?(Hf _ pcb_cs), ?(Hf _ pcb_ds),
    ?(Hf _ kernel_stack), ?(Hf _ base_kernel_stack), ?(Hf _ page_directory) by reflexivity; assumption.
Qed.

Section Threads.

Context {D : Type} `{BlockDevice D} (rdtsc : nat -> Z) (start_of : kthread -> Z).

(** The threads [ts] in the control blocks [ps]. *)
Definition threads_at (h : gmap ptr pcb) (ts : list kthread) (ps : list ptr) (n st dir : Z) : Prop :=
  forall i t p, ts !! i = Some t -> ps !! i = Some p ->
    exists r, h !! p = Some r /\ thread_of r (start_of t) (n + Z.of_nat i) (st + Z.of_nat i * T_KSTACK_SIZE_EACH) dir.

Lemma threads_kept h h' ts ps n st dir :
  (forall u, u ∈ ps -> unlinked <$> h' !! u = unlinked <$> h !! u) -> threads_at h ts ps n st dir -> threads_at h' ts ps n st dir.
Proof.
  intros E H' i t p Ht Hp. destruct (H' i t p Ht Hp) as (r & Hr & R). specialize (E p (list_elem_of_lookup_2 _ _ _ Hp)).
  rewrite Hr in E. destruct (h' !! p) as [r'|]; [|done]. apply (inj Some) in E. exists r'. split; [done|]. by eapply thread_unlinked.
Qed.

(** The loop over [start_thrds]: the first free control blocks become the threads,
    in order, behind those that are ready. *)
Lemma create_threads_run ts : forall (s : mm D) l ps fl,
  queues (kern s) l (ps ++ fl) -> length ps = length ts -> page_map_lock s = LOCK_INIT ->
  0 <= next_pid (kern s) -> next_pid (kern s) + Z.of_nat (length ts) < 2 ^ 31 -> 0 <= next_stack (kern s) ->
  next_stack (kern s) + Z.of_nat (length ts) * T_KSTACK_SIZE_EACH <= T_KSTACK_AREA_MAX_PADDR ->
  exists k, create_threads rdtsc start_of ts s = Ret (tt, set_kern k s)
    /\ queues k (l ++ ps) fl /\ cpu k = cpu (kern s) /\ next_stack k = next_stack (kern s) + Z.of_nat (length ts) * T_KSTACK_SIZE_EACH
    /\ (forall u, u ∈ l -> unlinked <$> pcbs k !! u = unlinked <$> pcbs (kern s) !! u)
    /\ threads_at (pcbs k) ts ps (next_pid (kern s)) (next_stack (kern s)) (kernel_pdir s).
Proof.
  unfold T_KSTACK_SIZE_EACH, T_KSTACK_AREA_MAX_PADDR.
  induction ts as [|t ts IH]; intros s l ps fl Q Hlen Hl Hn Hnb Hs Hsb; cbn [create_threads length] in *.
  - destruct ps; [|done]. exists (kern s). rewrite app_nil_r. cbn in Q. split_and!; [unfold ret; by rewrite set_kern_same|done|done|lia|done|].
    intros i t p Ht. by rewrite lookup_nil in Ht.
  - destruct ps as [|p ps]; [done|]. cbn [app length] in *.
    destruct (create_thread_ready rdtsc s l p (ps ++ fl) (start_of t) Q) as (k & r & E & Q1 & Hr & P1 & P2 & P3 & P4 & P5 & P6 & P7 & P8 & P9 & P10 & N & S & C & O);
      [unfold T_KSTACK_AREA_MAX_PADDR; lia|done|].
    rewrite (bind_step _ _ _ _ _ E). rewrite s32_small in N by lia. unfold T_KSTACK_SIZE_EACH, T_KSTACK_START_OFFSET in *.
    rewrite u32_small in S, P8, P1 by lia.
    destruct (IH (set_kern k s) (l ++ [p]) ps fl) as (k2 & E2 & Q2 & C2 & S2 & O2 & T2); cbn [kern set_kern page_map_lock]; rewrite ?N, ?S; [done|lia|done|lia|lia|lia|lia|].
    exists k2. rewrite <- app_assoc in Q2. cbn [app] in Q2. split_and!.
    + rewrite E2. by destruct s.
    + exact Q2.
    + by rewrite C2.
    + rewrite S2. cbn [kern set_kern]. rewrite S. lia.
    + intros u Hu. rewrite O2 by (apply elem_of_app; by left). by apply O.
    + intros [|i] t' p' Ht Hp'; cbn in Ht, Hp'.
      * simplify_eq. specialize (O2 p' ltac:(apply elem_of_app; right; left)). cbn [kern set_kern] in O2. rewrite Hr in O2.
        destruct (pcbs k2 !! p') as [r'|]; [|done]. apply (inj Some) in O2. exists r'. split; [done|]. eapply thread_unlinked; [exact O2|].
        cbn [Z.of_nat]. rewrite !Z.add_0_r. constructor; unfold T_KSTACK_START_OFFSET; try done. all: lia.
      * destruct (T2 i t' p' Ht Hp') as (r' & Hr' & R'). exists r'. split; [done|]. cbn [kern set_kern kernel_pdir] in R'. rewrite N, S in R'.
        unfold T_KSTACK_SIZE_EACH in *.
        replace (next_pid (kern s) + Z.of_nat (Datatypes.S i)) with (next_pid (kern s) + 1 + Z.of_nat i) by lia.
        replace (next_stack (kern s) + Z.of_nat (Datatypes.S i) * 8192) with (next_stack (kern s) + 8192 + Z.of_nat i * 8192) by lia. exact R'.
Qed.

End Threads.

(** [dispatch] of a thread that starts, out of the kernel's first critical
    section: interrupts are enabled on the way into the thread. *)
Lemma dispatch_first s x t fl r :
  queues s (x :: t) fl -> cpu s = mk_cpu 1 false -> pcbs s !! x = Some r -> status r = STATUS_FIRST_TIME -> is_thread r = 1 ->
  exists s', dispatch s = Ret (false, s') /\ queues s' (x :: t) fl /\ cpu s' = mk_cpu 0 true /\ cr3 s' = page_directory r /\ next_stack s' = next_stack s
    /\ pcbs s' = alter (set_status STATUS_READY) x (pcbs s).
Proof.
  intros Q Hc Hx Hst Hth. pose proof (q_cur _ _ _ Q) as Hcur. cbn [head_ptr] in Hcur.
  unfold dispatch, setup_current_running. rewrite !bind_assoc, bind_gets, Hcur, bind_assoc.
  erewrite rd_ok by exact Hx. rewrite bind_assoc, bind_modify, bind_assoc. erewrite rd_ok by exact Hx. rewrite bind_assoc, bind_modify, bind_assoc.
  erewrite rd_ok by exact Hx. rewrite Hth. cbn [Z.eqb when Pos.eqb]. rewrite bind_ret, bind_gets. cbn [current_running set_cr3 set_pic_mask]. rewrite Hcur.
  erewrite rd_ok by exact Hx. rewrite Hst, Z.eqb_refl. rewrite wr_ok by (by exists r). rewrite bind_get. kproj. rewrite Hc.
  cbn [nointerrupt_count_val interrupts_on]. change (nointerrupt_leave_delayed (mk_cpu (Z.lor (Z.land 1 0xffffff00) 1) false)) with (Some (mk_cpu 0 false)).
  cbn [nointerrupt_count_val]. rewrite bind_modify. eexists. split; [reflexivity|]. split_and!; [|done|done|done|done].
  eapply (queues_fields (set_status STATUS_READY) x s); try done.
Qed.

Section Boot.

Context {D T V W : Type} `{BlockDevice D} `{Ports T} `{!PicPair T} `{HostBridge W} `{MemoryIO W} `{!UsbHardware W}.
Context (rdtsc : nat -> Z) (port61 tsc : nat -> Z) (tss_addr : Z) (fn : handler -> Z) (start_of : kthread -> Z).
#[local] Abbreviation state := (machine D T V W).
Context (Htss : 0 <= tss_addr < 2 ^ 32).

(** The machine as the boot loader leaves it: the static storage of the kernel. *)
Record loaded (s : state) : Prop := mk_loaded {
  ld_memory : unset (k_vm s);
  ld_count : nointerrupt_count_val (cpu (kern (k_vm s))) = 1;
  ld_table : forall p, (1 <= p <= PCB_TABLE_SIZE)%nat -> is_Some (pcbs (kern (k_vm s)) !! p);
  ld_pid : next_pid (kern (k_vm s)) = 0;
  ld_stack : next_stack (kern (k_vm s)) = T_KSTACK_AREA_MIN_PADDR;
  ld_calls : k_calls s = replicate 14 None;
  ld_idt : length (k_idt s) = 49%nat;
  ld_boxes : length (k_boxes s) = Z.to_nat MAX_MBOX;
  ld_buffers : forall b, b ∈ k_boxes s -> length (buffer b) = 1024%nat;
  ld_first : first_process (k_vm s) = 1;
  ld_gdt : cgdt (k_cpu s) = gdt;
  ld_usb : usb_unset (usb_of s)
}.

(** The machine when the first thread starts; [t] is the USB hardware before. *)
Record started (t : W) (s : state) : Prop := mk_started {
  sd_current : current_running (kern (k_vm s)) = 1%nat;
  sd_queues : queues (kern (k_vm s)) (seq 1 11) (seq 12 117);
  sd_threads : threads_at start_of (alter (set_status STATUS_FIRST_TIME) 1%nat (pcbs (kern (k_vm s)))) start_thrds (seq 1 11) 0 T_KSTACK_AREA_MIN_PADDR (frame_addr 0);
  sd_cpu : cpu (kern (k_vm s)) = mk_cpu 0 true;
  sd_paging : k_paging s = true;
  sd_cr3 : cr3 (kern (k_vm s)) = kernel_pdir (k_vm s);
  sd_kernel : kernel_only (mem (k_vm s)) (kernel_pdir (k_vm s));
  sd_frames : stocked (fr (k_vm s)) (seq 3 30);
  sd_lock : page_map_lock (k_vm s) = LOCK_INIT;
  sd_admits : forall size r, 0 <= size -> size * SECTOR_SIZE <= 1023 * 4096 ->
    admits (mk_pst (k_vm s) LOCK_INIT 1 0 r) size (seq 1 11) 12%nat (seq 13 116) 3 4 5 (seq 6 27);
  sd_calls : init_syscalls (replicate 14 None) = Ret (tt, k_calls s);
  sd_idt : k_idt s = idt_table fn;
  sd_lines : forall j, 0 <= j < 16 -> vector (k_chips s) j = IVEC_IRQ_0 + j
    /\ masked (k_chips s) j = negb (bool_decide (j ∈ [0; 1; 2; 5; 7; 9; 10; 11]));
  sd_usb : usb_up t (k_usb s);
  sd_keyboard : k_mbox s = QUEUE /\ exists b, k_boxes s !! 0%nat = Some b /\ used b = 1 /\ Mbox.holds b []
}.

Lemma zoom_ok {X Y A B} (prj : X -> Y) upd (m : M Y A) (s : X) a u (k : A -> M X B) :
  m (prj s) = Ret (a, u) -> bind (zoom prj upd m) k s = k a (upd u s).
Proof. intros E. unfold bind, zoom. by rewrite E. Qed.

Lemma on_kern_ok {A B} (m : M kst A) (s : state) a k (g : A -> M state B) :
  m (kern (k_vm s)) = Ret (a, k) -> bind (on_kern m) g s = g a (set_k_vm (set_kern k (k_vm s)) s).
Proof. intros E. unfold on_kern, on_vm. erewrite zoom_ok; [done|]. by apply kop_run. Qed.

(** [mbox_init] makes every mailbox unused. *)
Lemma mbox_init_run k bs : length bs = Z.to_nat MAX_MBOX -> mbox_init (mk_mst k bs) = Ret (tt, mk_mst k (init_box <$> bs)).
Proof. intros Hl. do 6 (destruct bs as [|? bs]; try done). Qed.

Lemma keyboard_init_run (s : kbst) b :
  Q (mail s) !! 0%nat = Some b -> box_lock b = LOCK_INIT -> used b = 0 -> length (buffer b) = 1024%nat ->
  exists b', keyboard_init s = Ret (Done tt, set_kb_mbox QUEUE (set_mail (mk_mst (procs (mail s)) (<[0%nat := b']> (Q (mail s)))) s))
    /\ Mbox.holds b' [] /\ used b' = 1.
Proof.
  intros Hb Hl Hu Hbuf. destruct (mbox_open_empties (mail s) QUEUE b) as (b' & E & Hb' & Hu' & _); try done.
  exists b'. split_and!; [|done|done]. unfold keyboard_init. rewrite (mailing_ok (mbox_open QUEUE) s _ _ _ E). reflexivity.
Qed.

Lemma init_pit_run (b : T) : exists b', init_pit b = Ret (tt, b') /\ forall w, chip w b' = chip w b.
Proof.
  eexists. split; [reflexivity|]. intros w. by rewrite !other_port by (vm_compute; set_solver).
Qed.

(** The first half of [kernel_main]: tables and devices. *)
Lemma devices_run (s : state) :
  cgdt (k_cpu s) = gdt -> k_calls s = replicate 14 None -> length (k_idt s) = 49%nat ->
  exists c t b, (forall B (g : M state B),
      (zoom k_cpu set_k_cpu (init_cpu tss_addr) ;;;
       zoom k_calls set_k_calls init_syscalls ;;;
       zoom k_idt set_k_idt (init_idt fn) ;;;
       zoom k_chips set_k_chips init_int_controller ;;;
       zoom k_chips set_k_chips init_pit ;;; g) s
      = g (set_k_chips b (set_k_idt (idt_table fn) (set_k_calls t (set_k_cpu c s)))))
    /\ init_syscalls (replicate 14 None) = Ret (tt, t)
    /\ forall j, 0 <= j < 16 -> vector b j = IVEC_IRQ_0 + j /\ masked b j = negb (bool_decide (j ∈ [0; 1; 2; 5; 7; 9; 10; 11])).
Proof.
  intros Hg Hc Hi. assert (Et : exists t, init_syscalls (replicate 14 None) = Ret (tt, t)) by (eexists; reflexivity). destruct Et as [t Et].
  destruct (init_int_controller_lines (k_chips s)) as (b1 & E1 & _ & L). destruct (init_pit_run b1) as (b2 & E2 & K).
  eexists _, t, b2. split_and!; [|exact Et|].
  - intros B g. erewrite zoom_ok by (destruct (k_cpu s); cbn in Hg; subst; by apply init_cpu_run). erewrite zoom_ok by (cbn [k_calls set_k_cpu]; rewrite Hc; exact Et).
    erewrite zoom_ok by (apply init_idt_run; exact Hi). erewrite zoom_ok by exact E1. erewrite zoom_ok by exact E2. reflexivity.
  - intros j Hj. destruct (L j Hj) as (L1 & _ & L2). unfold vector, masked in *. by rewrite K.
Qed.

(** The kernel with its tables and devices, its memory and no thread yet. *)
Record prepared (s0 s : state) : Prop := mk_prepared {
  pp_queues : queues (kern (k_vm s)) [] (seq 1 PCB_TABLE_SIZE);
  pp_cpu : cpu (kern (k_vm s)) = mk_cpu 1 false;
  pp_pid : next_pid (kern (k_vm s)) = 0;
  pp_stack : next_stack (kern (k_vm s)) = T_KSTACK_AREA_MIN_PADDR;
  pp_pdir : kernel_pdir (k_vm s) = frame_addr 0;
  pp_kernel : kernel_only (mem (k_vm s)) (frame_addr 0);
  pp_frames : stocked (fr (k_vm s)) (seq 3 30);
  pp_lock : page_map_lock (k_vm s) = LOCK_INIT;
  pp_spin : pinned_pages_counter_lock (k_vm s) = SPINLOCK_INIT;
  pp_table : user_kernel_ptable (k_vm s) = frame_addr 2;
  pp_first : first_process (k_vm s) = 1;
  pp_calls : init_syscalls (replicate 14 None) = Ret (tt, k_calls s);
  pp_idt : k_idt s = idt_table fn;
  pp_lines : forall j, 0 <= j < 16 -> vector (k_chips s) j = IVEC_IRQ_0 + j
    /\ masked (k_chips s) j = negb (bool_decide (j ∈ [0; 1; 2; 5; 7; 9; 10; 11]));
  pp_boxes : k_boxes s = k_boxes s0;
  pp_usb : k_usb s = k_usb s0
}.

(** The control blocks after [init_pcb_table]: no thread is ready. *)
Lemma pcb_table_queues (k : kst) : cpu_room 8 (cpu k) -> (forall p, (1 <= p <= PCB_TABLE_SIZE)%nat -> is_Some (pcbs k !! p)) ->
  exists k', init_pcb_table k = Ret (tt, k') /\ queues k' [] (seq 1 PCB_TABLE_SIZE) /\ cpu k' = cpu k /\ next_pid k' = next_pid k
    /\ next_stack k' = next_stack k /\ pcbs k' !! DUMMY = pcbs k !! DUMMY.
Proof.
  intros Hc Ht. destruct (init_pcb_table_run k Hc Ht) as (h & E & R & O). eexists. split; [exact E|].
  split_and!; [|reflexivity..|apply O; unfold DUMMY, PCB_TABLE_SIZE; lia].
  constructor; [exact Hc| |reflexivity|exact R|reflexivity|set_solver].
  split_and!; [constructor|apply not_elem_of_nil|done].
Qed.

(** The memory is set up after the queues, and keeps them. *)
Lemma memory_keeps_queues (k : mm D) (v : mm D) l fl : memory_up k v -> queues (kern k) l fl -> queues (kern v) l fl.
Proof.
  intros U Q. eapply (queues_fields (set_is_thread 1) DUMMY (kern k)); rewrite ?(mu_kern _ _ U); try done. apply (q_cpu _ _ _ Q).
Qed.

(** [init_memory] in the middle of the start. *)
Lemma memory_step (s : state) : unset (k_vm s) -> queues (kern (k_vm s)) [] (seq 1 PCB_TABLE_SIZE) ->
  exists v, (forall B (g : M state B), (on_vm (init_memory rdtsc) ;;; g) s = g (set_k_vm v s))
    /\ queues (kern v) [] (seq 1 PCB_TABLE_SIZE) /\ cpu (kern v) = cpu (kern (k_vm s)) /\ next_pid (kern v) = next_pid (kern (k_vm s))
    /\ next_stack (kern v) = next_stack (kern (k_vm s)) /\ kernel_pdir v = frame_addr 0 /\ kernel_only (mem v) (frame_addr 0)
    /\ stocked (fr v) (seq 3 30) /\ page_map_lock v = LOCK_INIT /\ pinned_pages_counter_lock v = SPINLOCK_INIT
    /\ user_kernel_ptable v = frame_addr 2 /\ first_process v = first_process (k_vm s).
Proof.
  intros Hu Q. destruct (init_memory_run rdtsc (k_vm s) Hu) as (v & E & U). exists v. split.
  { intros B g. unfold on_vm. by erewrite zoom_ok by exact E. }
  pose proof (memory_keeps_queues _ _ _ _ U Q) as Q'.
  split_and!; [exact Q'|rewrite (mu_kern _ _ U); reflexivity..|apply (mu_pdir _ _ U)| |apply (mu_stock _ _ U)|apply (mu_lock _ _ U)|apply (mu_spin _ _ U)|apply (mu_table _ _ U)|apply (mu_first _ _ U)].
  apply (kernel_walk _ _ (frame_addr 1)); [apply frame_addr_frame; unfold PAGEABLE_PAGES; lia..|apply (mu_pages _ _ U)].
Qed.

(** [kernel_main] up to [init_memory]. *)
Lemma prepare_run (s : state) fuel c : loaded s -> time_init port61 tsc fuel (k_clock s) = Ret (tt, c) ->
  exists s1, prepared s s1 /\ forall B (g : M state B),
    (on_kern interrupts_disable ;;;
     zoom k_cpu set_k_cpu (init_cpu tss_addr) ;;;
     zoom k_calls set_k_calls init_syscalls ;;;
     zoom k_idt set_k_idt (init_idt fn) ;;;
     zoom k_chips set_k_chips init_int_controller ;;;
     zoom k_chips set_k_chips init_pit ;;;
     on_kern init_pcb_table ;;;
     zoom k_clock set_clock (time_init port61 tsc fuel) ;;;
     on_vm (init_memory rdtsc) ;;; g) s = g s1.
Proof.
  intros L Hclock. pose proof (ld_memory _ L) as [U1 U2 _ U4 U5 U6].
  set (k0 := set_cpu (mk_cpu (nointerrupt_count_val (cpu (kern (k_vm s)))) false) (kern (k_vm s))).
  set (s1 := set_k_vm (set_kern k0 (k_vm s)) s).
  destruct (devices_run s1 (ld_gdt _ L) (ld_calls _ L) (ld_idt _ L)) as (t0 & t & b & E1 & Et & Lb).
  set (s2 := set_k_chips b _) in E1.
  assert (Hk0 : cpu k0 = mk_cpu 1 false) by (unfold k0; cbn [cpu set_cpu]; by rewrite (ld_count _ L)).
  destruct (pcb_table_queues k0) as (k1 & E2 & Q1 & C1 & P1 & S1 & D1); [rewrite Hk0; split; [cbn; lia|reflexivity]|apply (ld_table _ L)|].
  set (s3 := set_k_vm (set_kern k1 (k_vm s2)) s2). set (s4 := set_clock c s3).
  destruct (memory_step s4) as (v & E3 & Q & C & P & S & Pd & K & F & Lk & Sp & Tb & Fp).
  { constructor; [exact U1|exact U2| |exact U4|exact U5|].
    - change (cpu_room 1 (cpu k1)). rewrite C1, Hk0. split; [cbn; lia|reflexivity].
    - change (is_Some (pcbs k1 !! DUMMY)). rewrite D1. exact U6. }
  { destruct Q1 as [X1 X2 X3 X4 X5 X6]. by constructor. }
  exists (set_k_vm v s4). split.
  - constructor; [exact Q| | | |exact Pd|exact K|exact F|exact Lk|exact Sp|exact Tb|exact (eq_trans Fp (ld_first _ L))|exact Et|reflexivity|exact Lb|reflexivity|reflexivity].
    + change (cpu (kern v) = mk_cpu 1 false). rewrite C. change (cpu k1 = mk_cpu 1 false). by rewrite C1.
    + change (next_pid (kern v) = 0). rewrite P. change (next_pid k1 = 0). rewrite P1. apply (ld_pid _ L).
    + change (next_stack (kern v) = T_KSTACK_AREA_MIN_PADDR). rewrite S. change (next_stack k1 = T_KSTACK_AREA_MIN_PADDR). rewrite S1. apply (ld_stack _ L).
  - intros B g. rewrite (on_kern_ok interrupts_disable s tt k0 _ eq_refl), E1.
    rewrite (on_kern_ok init_pcb_table s2 tt k1 _ E2). rewrite (zoom_ok k_clock set_clock _ s3 tt c _ Hclock). apply E3.
Qed.

(** The mail: every mailbox is made unused, then the keyboard opens its own. *)
Lemma mail_run (s : state) : length (k_boxes s) = Z.to_nat MAX_MBOX -> (forall b, b ∈ k_boxes s -> length (buffer b) = 1024%nat) ->
  exists l b, (forall B (g : M state B),
      (on_keyboard (mailing mbox_init) ;;;
       r <-- on_keyboard keyboard_init ;;
       match r with Blocked => wait | Done _ => ret tt end ;;; g) s
      = g (set_keyboard (mk_kbst (mk_mst (kern (k_vm s)) l) (k_shift s) (k_release s) (k_multi s) QUEUE) s))
    /\ l !! 0%nat = Some b /\ used b = 1 /\ Mbox.holds b [].
Proof.
  intros Hl Hb. destruct (k_boxes s !! 0%nat) as [b0|] eqn:E0; [|by apply lookup_ge_None in E0; rewrite Hl in E0; cbv in E0; lia].
  set (kb := mk_kbst (mk_mst (kern (k_vm s)) (init_box <$> k_boxes s)) (k_shift s) (k_release s) (k_multi s) (k_mbox s)).
  destruct (keyboard_init_run kb (init_box b0)) as (b & E & Hh & Hu); [cbn [mail kb Q]; by rewrite list_lookup_fmap, E0|done|done| |].
  { apply (Hb b0). by eapply list_elem_of_lookup_2. }
  exists (<[0%nat := b]> (init_box <$> k_boxes s)), b. split_and!; [|apply list_lookup_insert_eq; rewrite length_fmap, Hl; cbv; lia|done|done].
  assert (Ekb : mailing mbox_init (keyboard_of s) = Ret (tt, kb)).
  { pose proof (mbox_init_run (kern (k_vm s)) (k_boxes s) Hl) as Em. unfold mailing, zoom. cbn [keyboard_of mail]. by rewrite Em. }
  intros B g. unfold on_keyboard. erewrite zoom_ok by exact Ekb. set (s1 := set_keyboard kb s).
  assert (Es : keyboard_of s1 = kb) by reflexivity.
  erewrite zoom_ok by (rewrite Es; exact E). cbv beta iota. reflexivity.
Qed.

Lemma alter_back (f g : pcb -> pcb) (x : ptr) (h : gmap ptr pcb) r : h !! x = Some r -> f (g r) = r -> alter f x (alter g x h) = h.
Proof.
  intros Hx E. apply map_eq. intros u. destruct (decide (u = x)) as [->|Hne]; [|by rewrite !lookup_alter_ne].
  by rewrite !lookup_alter_eq, Hx; cbn; rewrite E.
Qed.

(** The rest of [kernel_main]: the threads, paging and the first dispatch. *)
Lemma threads_run (s : state) :
  queues (kern (k_vm s)) [] (seq 1 PCB_TABLE_SIZE) -> cpu (kern (k_vm s)) = mk_cpu 1 false -> next_pid (kern (k_vm s)) = 0 ->
  next_stack (kern (k_vm s)) = T_KSTACK_AREA_MIN_PADDR -> page_map_lock (k_vm s) = LOCK_INIT ->
  exists k, (on_vm (create_threads rdtsc start_of start_thrds) ;;;
     dir <-- on_kern (c <-- gets current_running ;; rd c page_directory) ;;
     on_kern (modify (set_cr3 dir)) ;;; modify (set_k_paging true) ;;; on_kern dispatch) s
      = Ret (false, set_k_paging true (set_k_vm (set_kern k (k_vm s)) s))
    /\ queues k (seq 1 11) (seq 12 117) /\ cpu k = mk_cpu 0 true /\ cr3 k = kernel_pdir (k_vm s) /\ next_stack k = T_KSTACK_AREA_MIN_PADDR + 11 * T_KSTACK_SIZE_EACH
    /\ threads_at start_of (alter (set_status STATUS_FIRST_TIME) 1%nat (pcbs k)) start_thrds (seq 1 11) 0 T_KSTACK_AREA_MIN_PADDR (kernel_pdir (k_vm s)).
Proof.
  intros Q Hc Hn Hs Hl.
  destruct (create_threads_run rdtsc start_of start_thrds (k_vm s) [] (seq 1 11) (seq 12 117)) as (k1 & E1 & Q1 & C1 & S1 & _ & T1);
    [exact Q|reflexivity|exact Hl|rewrite Hn; reflexivity..|rewrite Hs; discriminate|rewrite Hs; discriminate|].
  rewrite Hn, Hs in T1. rewrite Hs in S1. destruct (T1 0%nat loader_thread 1%nat eq_refl eq_refl) as (r & Hr & R).
  set (k2 := set_cr3 (page_directory r) k1).
  assert (Q2 : queues k2 (seq 1 11) (seq 12 117)) by (destruct Q1; by constructor).
  destruct (dispatch_first k2 1%nat (seq 2 10) (seq 12 117) r Q2) as (k & E2 & Q3 & C3 & R3 & S3 & P3);
    [by rewrite <- Hc, <- C1|exact Hr|apply (to_status _ _ _ _ _ R)|apply (to_thread _ _ _ _ _ R)|].
  exists k. split_and!; [|exact Q3|exact C3|rewrite R3; apply (to_dir _ _ _ _ _ R)|by rewrite S3|].
  - unfold on_vm at 1. rewrite (zoom_ok _ _ _ s _ _ _ E1). set (s1 := set_k_vm _ s).
    assert (Hd : (c <-- gets current_running ;; rd c page_directory) (kern (k_vm s1)) = Ret (page_directory r, k1)).
    { change (kern (k_vm s1)) with k1. rewrite bind_gets, (q_cur _ _ _ Q1). cbn [head_ptr app]. rewrite <- (bind_ret_r (rd _ _)). by erewrite rd_ok by exact Hr. }
    rewrite (on_kern_ok _ s1 _ _ _ Hd). set (s2 := set_k_vm _ s1). rewrite (on_kern_ok (modify _) s2 tt k2 _ eq_refl).
    rewrite bind_modify. set (s3 := set_k_paging true _). unfold on_kern, on_vm, zoom. change (k_vm s3) with (set_kern k2 (k_vm s)).
    rewrite (kop_run dispatch (set_kern k2 (k_vm s)) _ _ E2). by destruct s as [? ? ? ? ? []].
  - rewrite P3, (alter_back _ _ _ _ r Hr); [exact T1|]. pose proof (to_status _ _ _ _ _ R). destruct r. cbn in *. by subst.
Qed.

(** A machine that has just started can take a process. *)
Lemma started_admits (v : mm D) size r :
  queues (kern v) (seq 1 11) (seq 12 117) -> next_stack (kern v) = T_KSTACK_AREA_MIN_PADDR + 11 * T_KSTACK_SIZE_EACH ->
  stocked (fr v) (seq 3 30) -> page_map_lock v = LOCK_INIT -> pinned_pages_counter_lock v = SPINLOCK_INIT ->
  user_kernel_ptable v = frame_addr 2 -> first_process v = 1 -> 0 <= size -> size * SECTOR_SIZE <= 1023 * 4096 ->
  admits (mk_pst v LOCK_INIT 1 0 r) size (seq 1 11) 12%nat (seq 13 116) 3 4 5 (seq 6 27).
Proof.
  intros Q Hs Hf Hl Hsp Ht Hfp Hz1 Hz2.
  constructor; cbn [vm]; [exact Q|reflexivity|cbn; lia|reflexivity|rewrite Hs; reflexivity|exact Hf|lia|exact Hl|exact Hsp| | | |done].
  - rewrite Ht. apply frame_addr_frame. unfold PAGEABLE_PAGES. lia.
  - rewrite Ht. unfold frame_addr, PAGE_SIZE. lia.
  - rewrite Hfp. discriminate.
Qed.

Lemma set_usb_kern (u : ust V W) (s : state) : hkern (pheap (controllers u)) = kern (k_vm s) -> set_usb u s = set_k_usb u s.
Proof. intros E. unfold set_usb. rewrite E, set_kern_same. by destruct s. Qed.

(** The USB drivers, which keep the threads. *)
Lemma usb_run (s : state) polls :
  usb_unset (usb_of s) -> resets_end W polls ->
  exists u, (forall B (g : M state B), (on_usb scsi_static_init ;;; on_usb (usb_static_init polls) ;;; g) s = g (set_k_usb u s))
    /\ usb_up (io (hw (controllers (k_usb s)))) u.
Proof.
  intros Hu Hr. destruct (usb_static_init_run polls (usb_of s) Hr Hu) as (u & E & Up & K).
  exists u. split; [|exact Up]. intros B g. unfold on_usb. rewrite (zoom_ok _ _ scsi_static_init s tt (usb_of s)) by reflexivity.
  rewrite set_usb_kern by reflexivity. erewrite zoom_ok by exact E. rewrite set_usb_kern by exact K. reflexivity.
Qed.

(** [C5] [kernel_main] starts the system: from the machine as it is loaded it reaches
    the dispatch of the loader thread with the eleven threads of [start_thrds]
    ready in this order, each with its own identifier, stack and entry point and
    the kernel's page directory; paging is on with the kernel area mapped to
    itself for the kernel alone, all but three frames are free, the system calls
    and the interrupt gates are installed, the interrupt lines have their vectors
    and masks, the keyboard's mailbox is open and empty, the USB and PCI drivers are
    registered and the PCI devices are the functions that the configuration space
    has on bus 0, interrupts are enabled only on the way into the thread, and the
    machine admits a process of any size that fits its address space.  Of the
    hardware it is assumed that the timer signals within the readings allowed and
    that each USB controller leaves its reset within the polls allowed; the
    functions on the bus must fit the heap ([usb_unset]). *)
Theorem kernel_starts (s : state) fuel polls n (Hs : loaded s)
  (Htimer : signals_after port61 (k_clock s) n) (Hfuel : (n < fuel)%nat) (Hcount : Z.of_nat n < 2 ^ 31)
  (Hresets : resets_end W polls) :
  exists s', kernel_main rdtsc port61 tsc tss_addr fn start_of fuel polls s = Ret (false, s')
    /\ started (io (hw (controllers (k_usb s)))) s'.
Proof.
  destruct (time_init_returns port61 tsc (k_clock s) n fuel Hfuel Hcount Htimer) as (c & Hclock).
  destruct (prepare_run s fuel c Hs Hclock) as (s1 & P & E1).
  destruct (mail_run s1) as (l & b & E2 & Hb & Hu & Hh); [rewrite (pp_boxes _ _ P); apply (ld_boxes _ Hs)|rewrite (pp_boxes _ _ P); apply (ld_buffers _ Hs)|].
  set (s2 := set_keyboard _ s1) in E2.
  destruct (usb_run s2 polls) as (u & Eu & Up); [|exact Hresets|].
  { destruct (ld_usb _ Hs) as [U1 U2 _ U4]. pose proof (pp_usb _ _ P) as Eu. unfold usb_of in *. cbn in U1, U2, U4.
    constructor; cbn; rewrite ?Eu; try done. rewrite (pp_cpu _ _ P). split; [cbn; lia|reflexivity]. }
  change (k_usb s2) with (k_usb s1) in Up. rewrite (pp_usb _ _ P) in Up. set (s3 := set_k_usb u s2) in *.
  assert (Hk : kern (k_vm s3) = kern (k_vm s1)) by reflexivity.
  destruct (threads_run s3) as (k & E3 & Q & C & R & Sk & T'); rewrite ?Hk;
    [apply (pp_queues _ _ P)|apply (pp_cpu _ _ P)|apply (pp_pid _ _ P)|apply (pp_stack _ _ P)|apply (pp_lock _ _ P)|].
  change (kernel_pdir (k_vm s3)) with (kernel_pdir (k_vm s1)) in R, T'. rewrite (pp_pdir _ _ P) in T'.
  eexists. split; [unfold kernel_main; rewrite E1, E2, Eu; exact E3|].
  constructor; [apply (q_cur _ _ _ Q)|exact Q|exact T'|exact C|reflexivity|exact R| |apply (pp_frames _ _ P)|apply (pp_lock _ _ P)| |apply (pp_calls _ _ P)
    |apply (pp_idt _ _ P)|apply (pp_lines _ _ P)|exact Up|split; [reflexivity|by exists b]].
  - change (kernel_only (mem (k_vm s1)) (kernel_pdir (k_vm s1))). rewrite (pp_pdir _ _ P). apply (pp_kernel _ _ P).
  - intros size r Hz1 Hz2. apply (started_admits (set_kern k (k_vm s2)) size r Q); [exact Sk|apply (pp_frames _ _ P)|apply (pp_lock _ _ P)|apply (pp_spin _ _ P)
      |apply (pp_table _ _ P)|apply (pp_first _ _ P)|exact Hz1|exact Hz2].
Qed.

End Boot.

(** ** Concrete instances *)

Module Start_instances.
Import Pic_instances Cpu_instances UsbStart_instances.

(** The control blocks, with that of the dummy. *)
Definition blank_pcbs : gmap ptr pcb := gset_to_gmap zero_pcb (set_seq 1 129 : gset ptr).

Lemma blank_pcbs_has p : (1 <= p <= 129)%nat -> is_Some (blank_pcbs !! p).
Proof. intros Hp. exists zero_pcb. apply lookup_gset_to_gmap_Some. split; [apply elem_of_set_seq; lia|reflexivity]. Qed.

Definition start_kernel : kst := mk_kst (mk_cpu 1 false) blank_pcbs NULL 0 NULL 0 T_KSTACK_AREA_MIN_PADDR 500 O 0 0 0.

Definition start_memory : mm ideal_disk :=
  mk_mm ideal_disk start_kernel ∅ boot_frames fifo_init 0 0 1 0 0 0 45 LOCK_INIT LOCK_INIT LOCK_INIT
    SPINLOCK_INIT SPINLOCK_INIT SPINLOCK_INIT [] Machine.the_disk 0.

Definition start_machine : machine ideal_disk two_pics unit pc :=
  mk_machine (mk_cst gdt (mk_tss 0 0) 0) (replicate 14 None) (replicate 49 (mk_descriptor 0 0 0)) running (mk_clock 0 [] 0 0) start_memory
    (replicate 5 Mbox_instances.nothing) 0 false false 0 (usb_before start_kernel) false.

Lemma start_loaded : loaded start_machine.
Proof.
  constructor; [|reflexivity|intros p Hp; apply blank_pcbs_has; unfold PCB_TABLE_SIZE in Hp; lia|reflexivity..| |reflexivity|reflexivity|].
  - constructor; [reflexivity|reflexivity|split; [cbn; lia|reflexivity]|reflexivity|reflexivity|apply blank_pcbs_has; unfold DUMMY; lia].
  - intros b Hb. apply elem_of_replicate in Hb as [-> _]. reflexivity.
  - apply (usb_before_unset start_kernel). split; [cbn; lia|reflexivity].
Qed.

(** A timer that signals at the third reading, a UHCI and an EHCI controller. *)
Lemma kernel_starts_witness :
  exists s', kernel_main (fun _ => 0) (fun i => if (i <? 3)%nat then 0 else 0x20) (fun i => Z.of_nat i * 100002000) 0xbeef0 linked (fun _ => 0x9000)
      10 0 start_machine = Ret (false, s')
    /\ current_running (kern (k_vm s')) = 1%nat /\ k_paging s' = true /\ masked (k_chips s') 3 = true
    /\ pci_slot <$> (stripped <$> pci_dev_list (controllers (k_usb s'))) = [1; 1].
Proof.
  destruct (kernel_starts (fun _ => 0) (fun i => if (i <? 3)%nat then 0 else 0x20) (fun i => Z.of_nat i * 100002000) 0xbeef0 linked (fun _ => 0x9000)
    ltac:(lia) start_machine 10 0 2 start_loaded) as (s' & E & S).
  - split; [intros [|[|]] Hi; [reflexivity|reflexivity|lia]|discriminate].
  - lia.
  - lia.
  - exact pc_resets.
  - exists s'. split; [exact E|]. split; [exact (sd_current _ _ _ _ S)|]. split; [exact (sd_paging _ _ _ _ S)|].
    split; [exact (proj2 (sd_lines _ _ _ _ S 3 ltac:(lia)))|]. rewrite (up_functions _ _ (sd_usb _ _ _ _ S)). vm_compute. reflexivity.
Defined.

End Start_instances.
