(* ===== verification/ScsiFacts.v ===== *)
(** * The storage driver on a bulk-only drive

    [BulkOnlyDrive] is what the standards ask of a drive; [plain_drive] is one.
    The driver on such a drive reads and writes sectors ([scsi_read_blocks_run],
    [scsi_write_blocks_run]), and so is a block device for the virtual memory
    system and for the loader of programs. *)

From S2P Require Import Prelude CString Sched Ring Schedule Sync Alloc Usb Scsi.
From S2P Require Import Paging Frames Vmem.

(** ** What a drive does *)

(** Where a drive is in a command: waiting for one, with data to send, waiting
    for data, or with a status to send. *)
Inductive phase : Type :=
| Ready
| Data_in (d : list Z) (tag : Z)
| Data_out (lba n tag : Z)
| Status (tag st : Z).

Record drive : Type := mk_drive { media : Z -> list Z; drive_blocks : Z; ph : phase }.

Definition set_phase (q : phase) (d : drive) : drive := mk_drive (media d) (drive_blocks d) q.

Definition is_byte (b : Z) : Prop := 0 <= b < 256.

Definition nthz (l : list Z) (i : nat) : Z := default 0 (l !! i).

(** Little-endian fields of the wrappers, big-endian fields of the commands. *)
Definition le_word (l : list Z) (o : nat) : Z :=
  of_le4 (nthz l o) (nthz l (o + 1)) (nthz l (o + 2)) (nthz l (o + 3)).
Definition be_word (l : list Z) (o : nat) : Z :=
  of_le4 (nthz l (o + 3)) (nthz l (o + 2)) (nthz l (o + 1)) (nthz l o).
Definition be_short (l : list Z) (o : nat) : Z := of_le2 (nthz l (o + 1)) (nthz l o).
Definition be4 (x : Z) : list Z := rev (le4 x).

Definition media_bytes (d : drive) (lba n : Z) : list Z := mjoin (media d <$> seqZ lba n).

(** The phase after a command block wrapper: for TEST UNIT READY, READ CAPACITY
    (10), READ (10) and WRITE (10) with consistent lengths; [None] where this
    says nothing. *)
Definition respond (cbw : list Z) (d : drive) : option phase :=
  let tag := le_word cbw 4 in
  let len := le_word cbw 8 in
  let to_host := nthz cbw 12 =? 0x80 in
  let cb := drop 15 cbw in
  let op := nthz cb 0 in
  let lba := be_word cb 2 in
  let n := be_short cb 7 in
  let in_range := (0 <? n) && (lba + n <=? drive_blocks d) && (len =? n * 512) in
  if negb (le_word cbw 0 =? 0x43425355) then None
  else if op =? 0x00 then if len =? 0 then Some (Status tag 0) else None
  else if op =? 0x25 then
    if to_host && (len =? 8) then Some (Data_in (be4 (drive_blocks d - 1) ++ be4 512) tag) else None
  else if op =? 0x28 then if to_host && in_range then Some (Data_in (media_bytes d lba n) tag) else None
  else if op =? 0x2A then if negb to_host && in_range then Some (Data_out lba n tag) else None
  else None.

Definition stored_media (lba n : Z) (data : list Z) (f : Z -> list Z) : Z -> list Z :=
  fun i => if bool_decide (lba <= i < lba + n) then take 512 (drop (Z.to_nat ((i - lba) * 512)) data) else f i.

(** [d'] is [d] with [data] written to [n] sectors from [lba] on. *)
Definition updated (lba n : Z) (data : list Z) (d d' : drive) : Prop :=
  drive_blocks d' = drive_blocks d /\ ph d' = ph d
  /\ forall i, media d' i = stored_media lba n data (media d) i.

(** The command status wrapper. *)
Definition csw (tag st : Z) : list Z := le4 0x53425355 ++ le4 tag ++ le4 0 ++ [st].

(** Pipe [i] is a bulk pipe of direction [dir]. *)
Definition bulk (ud : usb_dev) (i : nat) (dir : Z) : Prop :=
  exists p, pipe ud !! i = Some p /\ attributes p = USB_PIPE_DATA_BULK /\ direction p = dir.

Class BulkOnlyDrive (T : Type) `{HostController T} : Type := {
  view : T -> drive;
  media_ok b i : length (media (view b) i) = 512%nat /\ Forall is_byte (media (view b) i);
  blocks_ok b : 0 < drive_blocks (view b) <= 2 ^ 32;
  takes_command ud i cbw b q :
    bulk ud i USB_PIPE_DIR_OUT -> ph (view b) = Ready -> length cbw = 31%nat -> respond cbw (view b) = Some q ->
    exists t b', hc_write ud i cbw b = Ret (31, t, b') /\ view b' = set_phase q (view b);
  sends_data ud i d tag b :
    bulk ud i USB_PIPE_DIR_IN -> ph (view b) = Data_in d tag ->
    exists t b', hc_read ud i (Z.of_nat (length d)) b = Ret (Z.of_nat (length d), d, t, b')
      /\ view b' = set_phase (Status tag 0) (view b);
  takes_data ud i lba n tag data b :
    bulk ud i USB_PIPE_DIR_OUT -> ph (view b) = Data_out lba n tag ->
    length data = Z.to_nat (n * 512) -> Forall is_byte data ->
    exists t b', hc_write ud i data b = Ret (Z.of_nat (length data), t, b')
      /\ updated lba n data (set_phase (Status tag 0) (view b)) (view b');
  sends_status ud i tag st b :
    bulk ud i USB_PIPE_DIR_IN -> ph (view b) = Status tag st ->
    exists t b', hc_read ud i 13 b = Ret (13, csw tag st, t, b') /\ view b' = set_phase Ready (view b)
}.

(** ** The bytes of a command *)

Lemma le4_length x : length (le4 x) = 4%nat.
Proof. done. Qed.

Lemma ntohs_bytes x : 0 <= x < 2 ^ 16 -> In_core.ntohs x = x mod 256 * 256 + x / 256.
Proof.
  intros Hx. unfold In_core.ntohs, u16.
  change 0x00ff with (Z.shiftl (Z.ones 8) 0). change 0xff00 with (Z.shiftl (Z.ones 8) 8).
  rewrite !land_field, !Z.shiftl_mul_pow2, !Z.shiftr_div_pow2 by lia.
  change (2 ^ 0) with 1. change (2 ^ 8) with 256. change (2 ^ 16) with 65536 in *.
  rewrite Z.div_1_r, Z.mul_1_r, Z.div_mul by done.
  rewrite (lor_comm_add (x / 256 mod 256) _ 8); [|lia|zdiv|zdiv]. zdiv.
Qed.

Lemma le2_ntohs x : 0 <= x < 2 ^ 16 -> le2 (u16 (In_core.htons x)) = [x / 256; x mod 256].
Proof.
  intros Hx. unfold In_core.htons, u16. rewrite ntohs_bytes by done. unfold le2.
  change (2 ^ 16) with 65536 in *. f_equal; [zdiv|f_equal; zdiv].
Qed.

Lemma ntohl_range x : 0 <= x < 2 ^ 32 -> 0 <= In_core.ntohl x < 2 ^ 32.
Proof.
  intros Hx. rewrite In_facts.ntohl_bytes by done. unfold of_le4. change (2 ^ 32) with 4294967296 in *. zdiv.
Qed.

Lemma le4_ntohl x : 0 <= x < 2 ^ 32 -> le4 (u32 (In_core.htonl x)) = rev (le4 x).
Proof.
  intros Hx. rewrite u32_small by (by apply ntohl_range). unfold In_core.htonl.
  rewrite In_facts.ntohl_bytes by done. unfold of_le4, le4. simpl rev. change (2 ^ 32) with 4294967296 in *.
  generalize (Z.mod_pos_bound x 256 eq_refl) (Z.mod_pos_bound (x / 256) 256 eq_refl)
    (Z.mod_pos_bound (x / 65536) 256 eq_refl) (Z.mod_pos_bound (x / 16777216) 256 eq_refl).
  generalize (x mod 256) (x / 256 mod 256) (x / 65536 mod 256) (x / 16777216 mod 256).
  intros a b c d Ha Hb Hc Hd. f_equal; [zdiv|f_equal; [zdiv|f_equal; [zdiv|f_equal; zdiv]]].
Qed.

(** The wrapper that the driver sends with a ten-byte command. *)
Definition wrapped (tag len flags : Z) (cdb : list Z) : list Z :=
  cbw_bytes (mk_cbw CBW_SIGNATURE tag len flags 0 (Z.of_nat (length cdb)) (cdb ++ replicate (16 - length cdb) 0)).

Lemma wrapped_length tag len flags cdb : (length cdb <= 16)%nat -> length (wrapped tag len flags cdb) = 31%nat.
Proof. intros Hl. unfold wrapped, cbw_bytes. cbn [CBWCB]. rewrite !length_app, length_replicate. cbn. lia. Qed.

(** The command that [scsi_read_write] builds. *)
Definition transfer_cdb (op start count : Z) : list Z :=
  cdb10_bytes (mk_cdb10 op 0 (In_core.htonl (u32 start)) 0 (In_core.htons (u16 count)) 0).

Lemma transfer_cdb_bytes op start count :
  0 <= op < 256 -> 0 <= start < 2 ^ 32 -> 0 <= count < 2 ^ 16 ->
  transfer_cdb op start count = [op; 0] ++ rev (le4 start) ++ [0] ++ [count / 256; count mod 256] ++ [0].
Proof.
  intros Ho Hs Hc. unfold transfer_cdb, cdb10_bytes.
  cbn [op_code misc_CBD_and_service logical_block_address misc_CBD cdb_length control].
  rewrite (u32_small start), (u16_small count), le4_ntohl, le2_ntohs by done.
  by rewrite (u8_small op) by done.
Qed.

Section Command.

Context (d : drive) (tag len flags : Z).
Context (Htag : 0 <= tag < 2 ^ 32) (Hlen : 0 <= len < 2 ^ 32) (Hflags : 0 <= flags < 256).

Lemma respond_wrapped (cdb : list Z) :
  respond (wrapped tag len flags cdb) d
  = let to_host := flags =? 0x80 in
    let cb := cdb ++ replicate (16 - length cdb) 0 in
    let op := nthz cb 0 in
    let lba := be_word cb 2 in
    let n := be_short cb 7 in
    let in_range := (0 <? n) && (lba + n <=? drive_blocks d) && (len =? n * 512) in
    if op =? 0x00 then if len =? 0 then Some (Status tag 0) else None
    else if op =? 0x25 then
      if to_host && (len =? 8) then Some (Data_in (be4 (drive_blocks d - 1) ++ be4 512) tag) else None
    else if op =? 0x28 then if to_host && in_range then Some (Data_in (media_bytes d lba n) tag) else None
    else if op =? 0x2A then if negb to_host && in_range then Some (Data_out lba n tag) else None
    else None.
Proof.
  set (cb := cdb ++ replicate (16 - length cdb) 0).
  assert (Ew : wrapped tag len flags cdb
    = le4 0x43425355 ++ le4 tag ++ le4 len ++ [flags; 0; u8 (Z.of_nat (length cdb))] ++ cb).
  { unfold wrapped, cbw_bytes. cbn [dCBWSignature dCBWTag dCBWDataTransferLength bmCBWFlags bCBWLUN bCBWCBLength CBWCB].
    by rewrite (u32_small tag), (u32_small len), (u8_small flags). }
  assert (Eb : drop 15 (wrapped tag len flags cdb) = cb) by (by rewrite Ew).
  assert (E1 : le_word (wrapped tag len flags cdb) 0 = 0x43425355) by (by rewrite Ew).
  assert (E2 : le_word (wrapped tag len flags cdb) 4 = tag) by (rewrite Ew; by apply of_le4_le4).
  assert (E3 : le_word (wrapped tag len flags cdb) 8 = len) by (rewrite Ew; by apply of_le4_le4).
  assert (E4 : nthz (wrapped tag len flags cdb) 12 = flags) by (by rewrite Ew).
  unfold respond. rewrite E1, E2, E3, E4, Eb. reflexivity.
Qed.

End Command.

Lemma respond_transfer d op tag len flags start count :
  0 <= tag < 2 ^ 32 -> 0 <= start < 2 ^ 32 -> 0 < count < 2 ^ 16 -> start + count <= drive_blocks d ->
  len = count * 512 ->
  (op = 0x28 /\ flags = 0x80 ->
   respond (wrapped tag len flags (transfer_cdb op start count)) d = Some (Data_in (media_bytes d start count) tag))
  /\ (op = 0x2A /\ flags = 0x00 ->
   respond (wrapped tag len flags (transfer_cdb op start count)) d = Some (Data_out start count tag)).
Proof.
  intros Ht Hs Hc Hb Hl.
  assert (E : forall o, 0 <= o < 256 ->
    let cb := transfer_cdb o start count ++ replicate (16 - length (transfer_cdb o start count)) 0 in
    nthz cb 0 = o /\ be_word cb 2 = start /\ be_short cb 7 = count).
  { intros o Ho. cbv zeta. rewrite transfer_cdb_bytes by (done || lia). split; [done|]. split.
    - by apply of_le4_le4.
    - change (of_le2 (count mod 256) (count / 256) = count). unfold of_le2. zdiv. }
  assert (R : (0 <? count) && (start + count <=? drive_blocks d) && (len =? count * 512) = true).
  { rewrite !andb_true_iff. split; [split|]; [apply Z.ltb_lt|apply Z.leb_le|apply Z.eqb_eq]; lia. }
  split; intros [-> ->]; (rewrite respond_wrapped; [|done|lia|lia]); cbv zeta.
  - destruct (E 0x28 ltac:(lia)) as (-> & -> & ->). rewrite R. reflexivity.
  - destruct (E 0x2A ltac:(lia)) as (-> & -> & ->). rewrite R. reflexivity.
Qed.

(** ** Runs of the transport *)

Section Runs.

Context {T : Type} `{BulkOnlyDrive T}.
Implicit Types (s : sst T).

(** The state after an operation of the host controller on pipe [i]. *)
Definition after_io (i : nat) (t : Z) (b : T) s : sst T :=
  set_ub (set_bus b (set_udev (set_pipes (alter (set_toggle t) i (pipe (udev (ub s)))) (udev (ub s))) (ub s))) s.

Lemma bulk_after_io i t b s k dir :
  bulk (udev (ub s)) k dir -> bulk (udev (ub (after_io i t b s))) k dir.
Proof.
  intros (p & Hp & Ha & Hd). cbn. destruct (decide (i = k)) as [->|Hi].
  - exists (set_toggle t p). split; [|done]. cbn. by rewrite list_lookup_alter_eq, Hp.
  - exists p. split; [|done]. cbn. by rewrite list_lookup_alter_ne.
Qed.

Lemma write_run {B} i data s rc t b (k : Z -> M (sst T) B) :
  hc_write (udev (ub s)) i data (bus (ub s)) = Ret (rc, t, b) ->
  bind (uop (usb_write i data)) k s = k rc (after_io i t b s).
Proof. intros E. apply bind_step. unfold uop, zoom, usb_write, hc_op. by rewrite E. Qed.

Lemma read_run {B} i n s rc l t b (k : Z * list Z -> M (sst T) B) :
  hc_read (udev (ub s)) i n (bus (ub s)) = Ret (rc, l, t, b) ->
  bind (uop (usb_read i n)) k s = k (rc, l) (after_io i t b s).
Proof. intros E. apply bind_step. unfold uop, zoom, usb_read, hc_op. by rewrite E. Qed.

(** The driver is initialised and the drive waits for a command. *)
Record attached s (m : usb_msd_dev) : Prop := mk_attached {
  at_driver : exists q, driver_data s = Some (q, m);
  at_tag : 0 <= CBWTag m < 2 ^ 32;
  at_in : exists i, bulk_in m = Some i /\ bulk (udev (ub s)) i USB_PIPE_DIR_IN;
  at_out : exists i, bulk_out m = Some i /\ bulk (udev (ub s)) i USB_PIPE_DIR_OUT;
  at_ready : ph (view (bus (ub s))) = Ready
}.

(** What one command leaves as it was: everything but the toggles, the bus and
    the tag. *)
Definition stays s s' : Prop :=
  uheap s' = uheap s /\ scsi s' = scsi s /\ scsi_dev_lock s' = scsi_dev_lock s
  /\ set_pipes [] (udev (ub s')) = set_pipes [] (udev (ub s)) /\ usb_drv_list (ub s') = usb_drv_list (ub s).

Definition next_tag (m : usb_msd_dev) : usb_msd_dev := set_CBWTag (u32 (CBWTag m + 1)) m.

Lemma csw_fields {S} tag st (s : S) :
  0 <= tag < 2 ^ 32 ->
  word_at (csw tag st) 0 s = Ret (CSW_SIGNATURE, s) /\ word_at (csw tag st) 4 s = Ret (tag, s)
  /\ byte_at (csw tag st) 12 s = Ret (st, s).
Proof.
  intros Ht. split; [done|]. split; [|done]. transitivity (Ret (of_le4 (tag mod 256) (tag / 256 mod 256)
    (tag / 65536 mod 256) (tag / 16777216 mod 256), s)); [done|]. by rewrite of_le4_le4.
Qed.

(** The status stage. *)
Lemma status_run s m st (dir : Z) (bytes : list Z) (tag : Z) :
  ph (view (bus (ub s))) = Status tag st -> 0 <= tag < 2 ^ 32 -> st <> CSW_PHASE_ERROR ->
  (exists i, bulk_in m = Some i /\ bulk (udev (ub s)) i USB_PIPE_DIR_IN) ->
  exists i t b,
    (j <-- pipe_index (bulk_in m) ;;
     r <-- uop (usb_read j 13) ;;
     if negb (fst r =? 13) then reset_dev m bytes
     else
       sig <-- word_at (snd r) 0 ;;
       tag' <-- word_at (snd r) 4 ;;
       status <-- byte_at (snd r) 12 ;;
       if negb (sig =? CSW_SIGNATURE) || negb (tag' =? tag) || (status =? CSW_PHASE_ERROR)
       then reset_dev m bytes
       else ret (status, bytes)) s
    = Ret ((st, bytes), after_io i t b s)
    /\ view b = set_phase Ready (view (bus (ub s))).
Proof.
  intros Hp Ht Hst (i & Hi & Hb).
  destruct (sends_status _ _ _ _ _ Hb Hp) as (t & b & E & Hv). exists i, t, b. split; [|done].
  rewrite Hi. cbn [pipe_index]. rewrite bind_ret, (read_run _ _ _ _ _ _ _ _ E). cbn [fst snd Z.eqb Pos.eqb negb].
  destruct (csw_fields tag st (after_io i t b s) Ht) as (E1 & E2 & E3).
  rewrite (bind_step _ _ _ _ _ E1), (bind_step _ _ _ _ _ E2), (bind_step _ _ _ _ _ E3).
  rewrite !Z.eqb_refl. cbn [negb orb]. by rewrite (proj2 (Z.eqb_neq _ _)) by done.
Qed.

(** The command stage, and what is left to do. *)
Lemma command_run s m dir cdb len data q :
  attached s m -> (length cdb <= 16)%nat -> 0 <= len < 2 ^ 32 ->
  respond (wrapped (CBWTag m) len (if dir =? MSD_READ then CBW_FLAGS_IN else CBW_FLAGS_OUT) cdb)
    (view (bus (ub s))) = Some q ->
  exists p i t b, let s1 := after_io i t b (set_driver_data (Some (p, next_tag m)) s) in
    driver_data s = Some (p, m) /\
    usb_msd_read_write dir cdb len data s
    = (d <-- data_stage m dir len data ;;
       if negb (fst d) then reset_dev m (snd d)
       else
         j <-- pipe_index (bulk_in m) ;;
         r <-- uop (usb_read j 13) ;;
         if negb (fst r =? 13) then reset_dev m (snd d)
         else
           sig <-- word_at (snd r) 0 ;;
           tag <-- word_at (snd r) 4 ;;
           status <-- byte_at (snd r) 12 ;;
           if negb (sig =? CSW_SIGNATURE) || negb (tag =? CBWTag m) || (status =? CSW_PHASE_ERROR)
           then reset_dev m (snd d)
           else ret (status, snd d)) s1
    /\ view b = set_phase q (view (bus (ub s))).
Proof.
  intros Hat Hl Hlen Hr. destruct (at_driver _ _ Hat) as (p & Hp), (at_out _ _ Hat) as (i & Hi & Hb).
  destruct (takes_command _ _ _ _ _ Hb (at_ready _ _ Hat) (wrapped_length _ _ _ _ Hl) Hr) as (t & b & E & Hv).
  exists p, i, t, b. cbv zeta. split; [done|]. split; [|done].
  unfold usb_msd_read_write. cbv zeta. unfold umd at 1. rewrite (bind_step _ _ _ (p, m) s) by (by rewrite Hp).
  rewrite bind_modify. rewrite (proj2 (Z.ltb_ge CB_MAX_SIZE _)) by (unfold CB_MAX_SIZE; lia).
  rewrite Hi. cbn [pipe_index]. rewrite bind_ret.
  fold (wrapped (CBWTag m) len (if dir =? MSD_READ then CBW_FLAGS_IN else CBW_FLAGS_OUT) cdb).
  rewrite (write_run _ _ _ 31 t b) by exact E. cbn [dCBWTag]. reflexivity.
Qed.

Lemma set_phase_ready d : ph d = Ready -> set_phase Ready d = d.
Proof. destruct d. cbn. by intros ->. Qed.

Lemma next_tag_range m : 0 <= CBWTag (next_tag m) < 2 ^ 32.
Proof. apply u32_range. Qed.

Lemma stays_refl s : stays s s.
Proof. by split_and!. Qed.

Lemma stays_trans s1 s2 s3 : stays s1 s2 -> stays s2 s3 -> stays s1 s3.
Proof. unfold stays. intros (A & B & C & D & E) (A' & B' & C' & D' & E'). split_and!; congruence. Qed.

Lemma stays_after_io i t b s : stays s (after_io i t b s).
Proof. by split_and!. Qed.

Lemma stays_driver x s : stays s (set_driver_data x s).
Proof. by split_and!. Qed.

(** After a command of one, two or three transfers the driver is attached again. *)
Lemma attached_done s m p s' :
  attached s m -> driver_data s' = Some (p, next_tag m) -> ph (view (bus (ub s'))) = Ready ->
  (forall k dir, bulk (udev (ub s)) k dir -> bulk (udev (ub s')) k dir) ->
  attached s' (next_tag m).
Proof.
  intros Hat Hd Hp Hb. destruct (at_in _ _ Hat) as (i & Hi & Hbi), (at_out _ _ Hat) as (j & Hj & Hbj).
  constructor; [by exists p|apply next_tag_range|exists i; eauto|exists j; eauto|done].
Qed.

Hint Resolve bulk_after_io : core.
Hint Resolve stays_after_io stays_driver : core.

(** A command without data. *)
Lemma msd_no_data s m cdb :
  attached s m -> (length cdb <= 16)%nat ->
  respond (wrapped (CBWTag m) 0 CBW_FLAGS_IN cdb) (view (bus (ub s))) = Some (Status (CBWTag m) 0) ->
  exists s', usb_msd_read cdb 0 s = Ret ((0, []), s')
    /\ attached s' (next_tag m) /\ stays s s' /\ view (bus (ub s')) = view (bus (ub s)).
Proof.
  intros Hat Hl Hr. destruct (command_run s m MSD_READ cdb 0 [] _ Hat Hl ltac:(lia) Hr) as (p & i & t & b & Hp & E & Hv).
  set (s1 := after_io i t b _) in *. unfold usb_msd_read. rewrite E. cbn [data_stage Z.ltb Z.compare].
  rewrite bind_ret. cbn [fst snd negb].
  destruct (at_in _ _ Hat) as (k & Hk & Hbk).
  destruct (status_run s1 m 0 MSD_READ [] (CBWTag m)) as (i' & t' & b' & E' & Hv').
  - cbn. by rewrite Hv.
  - apply (at_tag _ _ Hat).
  - done.
  - exists k. split; [done|]. by apply bulk_after_io.
  - exists (after_io i' t' b' s1). split; [exact E'|].
    assert (Hfin : view (bus (ub (after_io i' t' b' s1))) = view (bus (ub s))).
    { cbn. rewrite Hv'. cbn. rewrite Hv. apply (set_phase_ready (view (bus (ub s)))), (at_ready _ _ Hat). }
    split_and!; [|by eapply stays_trans, stays_after_io|done].
    apply (attached_done s m p); [done|done|rewrite Hfin; apply (at_ready _ _ Hat)|].
    intros ? ? Hb. by do 2 apply bulk_after_io.
Qed.

(** A command that reads. *)
Lemma msd_read_data s m cdb d :
  attached s m -> (length cdb <= 16)%nat -> 0 < Z.of_nat (length d) < 2 ^ 32 ->
  respond (wrapped (CBWTag m) (Z.of_nat (length d)) CBW_FLAGS_IN cdb) (view (bus (ub s)))
    = Some (Data_in d (CBWTag m)) ->
  exists s', usb_msd_read cdb (Z.of_nat (length d)) s = Ret ((0, d), s')
    /\ attached s' (next_tag m) /\ stays s s' /\ view (bus (ub s')) = view (bus (ub s)).
Proof.
  intros Hat Hl Hd Hr.
  destruct (command_run s m MSD_READ cdb (Z.of_nat (length d)) [] _ Hat Hl ltac:(lia) Hr) as (p & i & t & b & Hp & E & Hv).
  set (s1 := after_io i t b _) in *. unfold usb_msd_read. rewrite E. unfold data_stage.
  rewrite (proj2 (Z.ltb_lt 0 _)) by lia. cbn [Z.eqb MSD_READ].
  destruct (at_in _ _ Hat) as (k & Hk & Hbk). rewrite Hk. cbn [pipe_index]. rewrite bind_assoc, bind_ret.
  assert (Hb1 : bulk (udev (ub s1)) k USB_PIPE_DIR_IN) by (by apply bulk_after_io).
  destruct (sends_data _ _ d (CBWTag m) (bus (ub s1)) Hb1) as (t2 & b2 & E2 & Hv2); [cbn; by rewrite Hv|].
  rewrite bind_assoc, (read_run _ _ _ _ _ _ _ _ E2), bind_ret. cbn [fst snd]. rewrite Z.ltb_irrefl. cbn [negb].
  set (s2 := after_io k t2 b2 s1).
  destruct (status_run s2 m 0 MSD_READ d (CBWTag m)) as (i' & t' & b' & E' & Hv').
  - cbn. by rewrite Hv2.
  - apply (at_tag _ _ Hat).
  - done.
  - exists k. split; [done|]. by apply bulk_after_io.
  - rewrite Hk in E'. exists (after_io i' t' b' s2). split; [exact E'|].
    assert (Hfin : view (bus (ub (after_io i' t' b' s2))) = view (bus (ub s))).
    { cbn. rewrite Hv'. cbn. rewrite Hv2. cbn. rewrite Hv. apply (set_phase_ready (view (bus (ub s)))), (at_ready _ _ Hat). }
    split_and!; [|by eapply stays_trans, stays_after_io|done].
    apply (attached_done s m p); [done|done|rewrite Hfin; apply (at_ready _ _ Hat)|].
    intros ? ? Hb. by do 3 apply bulk_after_io.
Qed.

(** A command that writes. *)
Lemma msd_write_data s m cdb data lba n :
  attached s m -> (length cdb <= 16)%nat -> 0 < n * 512 < 2 ^ 32 ->
  length data = Z.to_nat (n * 512) -> Forall is_byte data ->
  respond (wrapped (CBWTag m) (n * 512) CBW_FLAGS_OUT cdb) (view (bus (ub s))) = Some (Data_out lba n (CBWTag m)) ->
  exists s', usb_msd_write cdb (n * 512) data s = Ret ((0, []), s')
    /\ attached s' (next_tag m) /\ stays s s' /\ updated lba n data (view (bus (ub s))) (view (bus (ub s'))).
Proof.
  intros Hat Hl Hn Hd Hby Hr.
  destruct (command_run s m MSD_WRITE cdb (n * 512) data _ Hat Hl ltac:(lia) Hr) as (p & i & t & b & Hp & E & Hv).
  set (s1 := after_io i t b _) in *. unfold usb_msd_write. rewrite E. unfold data_stage.
  rewrite (proj2 (Z.ltb_lt 0 _)) by lia. cbn [Z.eqb MSD_READ MSD_WRITE].
  destruct (at_in _ _ Hat) as (k & Hk & Hbk), (at_out _ _ Hat) as (j & Hj & Hbj).
  rewrite Hj. cbn [pipe_index]. rewrite bind_assoc, bind_ret.
  rewrite (proj2 (Nat.ltb_ge _ _)) by lia. rewrite <- Hd, firstn_all.
  assert (Hb1 : bulk (udev (ub s1)) j USB_PIPE_DIR_OUT) by (by apply bulk_after_io).
  destruct (takes_data _ _ lba n (CBWTag m) data (bus (ub s1)) Hb1) as (t2 & b2 & E2 & Hv2); [cbn; by rewrite Hv|done..|].
  rewrite bind_assoc, (write_run _ _ _ _ _ _ _ E2), bind_ret. cbn [fst snd].
  rewrite (proj2 (Z.ltb_ge _ _)) by lia. cbn [negb].
  set (s2 := after_io j t2 b2 s1).
  destruct (status_run s2 m 0 MSD_READ [] (CBWTag m)) as (i' & t' & b' & E' & Hv').
  - apply Hv2.
  - apply (at_tag _ _ Hat).
  - done.
  - exists k. split; [done|]. apply bulk_after_io. by apply bulk_after_io.
  - exists (after_io i' t' b' s2). split; [exact E'|].
    assert (Hfin : view b' = set_phase Ready (view b2)) by exact Hv'.
    destruct Hv2 as (D1 & D2 & D3). cbn in D1, D3. rewrite Hv in D1, D3.
    split_and!; [|by eapply stays_trans, stays_after_io|].
    2: { unfold updated. cbn. rewrite Hfin. cbn. rewrite (at_ready _ _ Hat). by split_and!. }
    apply (attached_done s m p); [done|done|cbn; by rewrite Hfin|].
    intros ? ? Hb. by do 3 apply bulk_after_io.
Qed.

(** ** Runs of scsi.c *)

Lemma scsi_acquire_run {B} s (k : unit -> M (sst T) B) :
  scsi_dev_lock s = SPINLOCK_INIT ->
  bind scsi_acquire k s = k tt (set_scsi_dev_lock (taken SYNC_IMPL) s).
Proof.
  intros Hl. unfold scsi_acquire. rewrite bind_assoc, bind_gets, Hl, bind_assoc.
  unfold bind at 1, heap_op, hop, zoom. cbn. by destruct s as [u [] d sc l].
Qed.

Lemma scsi_release_run {B} s (k : unit -> M (sst T) B) :
  scsi_dev_lock s = taken SYNC_IMPL ->
  bind scsi_release k s = k tt (set_scsi_dev_lock SPINLOCK_INIT s).
Proof.
  intros Hl. unfold scsi_release. rewrite bind_assoc, bind_gets, Hl, bind_assoc.
  unfold bind at 1, heap_op, hop, zoom. cbn. by destruct s as [u [] d sc l].
Qed.

(** A thread that holds the lock and asks for it waits forever. *)
Lemma scsi_free_locked s : scsi_dev_lock s = taken SYNC_IMPL -> scsi_free s = Wait.
Proof. intros Hl. unfold scsi_free, scsi_acquire. rewrite bind_assoc, bind_gets, Hl. reflexivity. Qed.

(** The driver knows its drive, which has sectors of 512 bytes. *)
Record up s (m : usb_msd_dev) (p : Z) (d : scsi_dev) : Prop := mk_up {
  up_attached : attached s m;
  up_scsi : scsi s = Some (p, d);
  up_size : block_size d = 512;
  up_lock : scsi_dev_lock s = SPINLOCK_INIT
}.

Definition disk_of s : drive := view (bus (ub s)).

Lemma media_bytes_length b lba n : 0 <= n -> Z.of_nat (length (media_bytes (view b) lba n)) = n * 512.
Proof.
  intros Hn. unfold media_bytes. revert lba. pattern n. apply natlike_ind; [done| |done]. clear n Hn.
  intros n Hn IH lba. rewrite seqZ_cons, fmap_cons by lia. cbn [mjoin list_join].
  rewrite length_app, Nat2Z.inj_add, Z.pred_succ, IH. destruct (media_ok b lba) as [-> _]. lia.
Qed.

Lemma attached_lock l s m : attached s m -> attached (set_scsi_dev_lock l s) m.
Proof. intros []. by constructor. Qed.

Lemma transfer_cdb_length op start count : length (transfer_cdb op start count) = 10%nat.
Proof. done. Qed.

Lemma start_range b start count : 0 <= start -> 0 < count -> start + count <= drive_blocks (view b) -> 0 <= start < 2 ^ 32.
Proof. intros. pose proof (blocks_ok b). lia. Qed.

Lemma scsi_read_blocks_run s m p d start count :
  up s m p d -> 0 <= start -> 0 < count < 2 ^ 16 -> start + count <= drive_blocks (disk_of s) ->
  exists s', scsi_read_blocks start count s = Ret ((0, media_bytes (disk_of s) start count), s')
    /\ up s' (next_tag m) p d /\ stays s s' /\ disk_of s' = disk_of s.
Proof.
  intros [Hat Hs Hz Hl] H1 H2 H3. unfold scsi_read_blocks, scsi_read_write. rewrite scsi_acquire_run by done.
  set (s1 := set_scsi_dev_lock _ s). rewrite bind_gets. cbn [scsi s1 set_scsi_dev_lock]. rewrite Hs. cbv zeta.
  cbn [Z.eqb SCSI_READ]. rewrite Hz, s32_small by lia. fold (transfer_cdb CDB_READ10 start count).
  pose proof (media_bytes_length (bus (ub s)) start count ltac:(lia)) as Hlen. fold (disk_of s) in Hlen.
  destruct (msd_read_data s1 m (transfer_cdb CDB_READ10 start count) (media_bytes (disk_of s) start count))
    as (s2 & E & Hat2 & Hst & Hv).
  - by apply attached_lock.
  - rewrite transfer_cdb_length. lia.
  - lia.
  - rewrite Hlen. apply (respond_transfer (disk_of s)); [apply (at_tag _ _ Hat)|by eapply start_range; [| |exact H3]; lia|done|done|done|done].
  - rewrite Hlen in E. rewrite (bind_step _ _ _ _ _ E). destruct Hst as (S1 & S2 & S3 & S4 & S5).
    rewrite scsi_release_run by done. cbn [fst snd]. eexists. split; [reflexivity|].
    split_and!; [|done|done].
    constructor; [by apply attached_lock| |done|done]. cbn. rewrite S2. done.
Qed.

Lemma scsi_write_blocks_run s m p d start count data :
  up s m p d -> 0 <= start -> 0 < count < 2 ^ 16 -> start + count <= drive_blocks (disk_of s) ->
  length data = Z.to_nat (count * 512) -> Forall is_byte data ->
  exists s', scsi_write_blocks start count data s = Ret (0, s')
    /\ up s' (next_tag m) p d /\ stays s s' /\ updated start count data (disk_of s) (disk_of s').
Proof.
  intros [Hat Hs Hz Hl] H1 H2 H3 Hd Hb. unfold scsi_write_blocks, scsi_read_write.
  rewrite bind_assoc, scsi_acquire_run by done.
  set (s1 := set_scsi_dev_lock _ s). rewrite bind_assoc, bind_gets. cbn [scsi s1 set_scsi_dev_lock]. rewrite Hs. cbv zeta.
  cbn [Z.eqb SCSI_READ SCSI_WRITE]. rewrite Hz, s32_small by lia. fold (transfer_cdb CDB_WRITE10 start count).
  destruct (msd_write_data s1 m (transfer_cdb CDB_WRITE10 start count) data start count)
    as (s2 & E & Hat2 & Hst & Hv).
  - by apply attached_lock.
  - rewrite transfer_cdb_length. lia.
  - lia.
  - done.
  - done.
  - apply (respond_transfer (disk_of s)); [apply (at_tag _ _ Hat)|by eapply start_range; [| |exact H3]; lia|done|done|done|done].
  - rewrite bind_assoc, (bind_step _ _ _ _ _ E). destruct Hst as (S1 & S2 & S3 & S4 & S5).
    rewrite bind_assoc, scsi_release_run by done. rewrite bind_ret. cbn [fst snd]. eexists. split; [reflexivity|].
    split_and!; [|done|done].
    constructor; [by apply attached_lock| |done|done]. cbn. rewrite S2. done.
Qed.

(** A working drive is ready at once, and its capacity is read; the capacity that
    READ CAPACITY returns is the address of the last block. *)
Lemma scsi_init_run s m p h :
  attached s m -> scsi s = None -> scsi_dev_lock s = SPINLOCK_INIT ->
  kzalloc 28 (uheap s) = Ret (p, h) -> p <> 0 ->
  exists s' m', scsi_init s = Ret (0, s')
    /\ up s' m' p (mk_scsi 512 (s32 (drive_blocks (disk_of s) - 1)))
    /\ uheap s' = h /\ disk_of s' = disk_of s.
Proof.
  intros Hat Hs Hl Hk Hp. unfold scsi_init. rewrite scsi_acquire_run by done. rewrite bind_gets. cbn [scsi set_scsi_dev_lock].
  rewrite Hs, decide_False by (intros H1; by apply H1).
  rewrite (bind_step _ _ _ p (set_uheap h (set_scsi_dev_lock (taken SYNC_IMPL) s)))
    by (unfold heap_op, zoom; cbn; by rewrite Hk).
  rewrite (proj2 (Z.eqb_neq _ _)) by done. rewrite bind_modify. set (s1 := set_scsi _ _).
  assert (Hat1 : attached s1 m) by (by destruct Hat).
  destruct (msd_no_data s1 m (cdb6_bytes CDB_TEST_UNIT_READY) Hat1) as (s2 & E2 & Hat2 & St2 & Hv2).
  { cbn. lia. }
  { rewrite respond_wrapped by (apply (at_tag _ _ Hat) || done). reflexivity. }
  unfold scsi_test_unit_ready at 1. rewrite bind_assoc, (bind_step _ _ _ _ _ E2). cbn [fst Z.eqb SCSI_RC_FAILED].
  rewrite bind_ret. cbn [retry_ready Z.ltb Z.compare]. rewrite bind_ret. cbn [Z.ltb Z.compare].
  set (v := disk_of s2). pose proof (blocks_ok (bus (ub s2)) : 0 < drive_blocks v <= _) as Hbl.
  destruct (msd_read_data s2 (next_tag m) (cdb10_bytes (mk_cdb10 CDB_READ_CAPACITY10 0 0 0 0 0))
    (be4 (drive_blocks v - 1) ++ be4 512) Hat2) as (s3 & E3 & Hat3 & St3 & Hv3).
  { cbn. lia. }
  { cbn. lia. }
  { rewrite respond_wrapped by (apply (at_tag _ _ Hat2) || done). reflexivity. }
  unfold scsi_read_capacity. rewrite bind_assoc.
  change (Z.of_nat (length (be4 (drive_blocks v - 1) ++ be4 512))) with 8 in E3.
  rewrite (bind_step _ _ _ _ _ E3). cbn [fst Z.eqb SCSI_RC_GOOD negb].
  set (w := In_core.htonl (drive_blocks v - 1)).
  assert (Ew : word_at (be4 (drive_blocks v - 1) ++ be4 512) 0 s3 = Ret (w, s3)).
  { unfold w, In_core.htonl. rewrite In_facts.ntohl_bytes by lia. reflexivity. }
  assert (Eb : word_at (be4 (drive_blocks v - 1) ++ be4 512) 4 s3 = Ret (In_core.htonl 512, s3)) by reflexivity.
  rewrite bind_assoc, (bind_step _ _ _ _ _ Ew), bind_assoc, (bind_step _ _ _ _ _ Eb), bind_assoc, bind_gets.
  destruct St2 as (A1 & A2 & A3 & _), St3 as (B1 & B2 & B3 & _). rewrite B2, A2. cbn [scsi s1 set_scsi].
  rewrite bind_assoc, bind_modify, bind_ret. cbn [Z.ltb Z.compare].
  rewrite scsi_release_run by (cbn; by rewrite B3, A3).
  eexists _, _. split; [reflexivity|]. cbn. split_and!; [|by rewrite B1, A1|unfold disk_of; cbn; by rewrite Hv3, Hv2].
  assert (E1 : In_core.ntohl w = drive_blocks (disk_of s) - 1).
  { unfold w. destruct (In_facts.ntohl_roundtrip (drive_blocks v - 1)) as [-> _]; [lia|]. unfold v, disk_of. by rewrite Hv2. }
  constructor; [| |done|done].
  - apply (attached_lock _ (set_scsi _ s3)). by destruct Hat3.
  - cbn. rewrite E1. done.
Qed.

End Runs.
