(* ===== verification/Storage.v ===== *)
(** * The storage stack as a block device

    [BlockDeviceLaws] of [Vmem] from [BulkOnlyDrive]: what demand paging,
    swapping and the loader assume of a disk is what the SCSI and mass storage
    drivers do on a drive that follows the standards.  A concrete drive shows
    that there are such drives. *)

From S2P Require Import Prelude CString Sched Ring Schedule Sync Alloc Usb Scsi.
From S2P Require Import Paging Frames Vmem VmemFacts PageFault Evict VmemInstances ScsiFacts.

(** ** Sectors as words *)

Fixpoint words_of (l : list Z) : list Z :=
  match l with
  | b0 :: b1 :: b2 :: b3 :: r => of_le4 b0 b1 b2 b3 :: words_of r
  | _ => []
  end.

Definition bytes_of (ws : list Z) : list Z := mjoin (le4 <$> ws).

Lemma bytes_of_cons w ws : bytes_of (w :: ws) = le4 w ++ bytes_of ws.
Proof. done. Qed.

Lemma bytes_of_length ws : length (bytes_of ws) = (4 * length ws)%nat.
Proof. induction ws as [|w ws IH]; [done|]. rewrite bytes_of_cons, length_app, IH. cbn. lia. Qed.

Lemma bytes_of_ok ws : Forall is_byte (bytes_of ws).
Proof.
  induction ws as [|w ws IH]; [constructor|]. rewrite bytes_of_cons. apply list.Forall_app. split; [|done].
  unfold le4. repeat constructor; apply Z.mod_pos_bound; lia.
Qed.

Lemma words_bytes ws : Forall is_word ws -> words_of (bytes_of ws) = ws.
Proof.
  induction 1 as [|w ws Hw _ IH]; [done|]. rewrite bytes_of_cons. cbn [words_of le4 app]. f_equal; [|exact IH].
  by apply of_le4_le4.
Qed.

Lemma drop_bytes k : forall ws, drop (4 * k) (bytes_of ws) = bytes_of (drop k ws).
Proof.
  induction k as [|k IH]; intros [|w ws]; [done..|].
  replace (4 * S k)%nat with (S (S (S (S (4 * k)))))%nat by lia. cbn [drop]. rewrite <- IH. done.
Qed.

Lemma take_bytes k : forall ws, take (4 * k) (bytes_of ws) = bytes_of (take k ws).
Proof.
  induction k as [|k IH]; intros [|w ws]; [done..|].
  replace (4 * S k)%nat with (S (S (S (S (4 * k)))))%nat by lia. cbn [take]. rewrite !bytes_of_cons, <- IH. done.
Qed.

Lemma words_of_app k : forall l1 l2, length l1 = (4 * k)%nat -> words_of (l1 ++ l2) = words_of l1 ++ words_of l2.
Proof.
  induction k as [|k IH]; intros l1 l2 Hl; [by destruct l1|].
  destruct l1 as [|b0 [|b1 [|b2 [|b3 l1]]]]; cbn in Hl; try lia. cbn [app words_of]. f_equal. apply IH. lia.
Qed.

Lemma words_of_length k : forall l, length l = (4 * k)%nat -> length (words_of l) = k.
Proof.
  induction k as [|k IH]; intros l Hl; [by destruct l|].
  destruct l as [|b0 [|b1 [|b2 [|b3 l]]]]; cbn in Hl; try lia. cbn. f_equal. apply IH. lia.
Qed.

Lemma mjoin_cons {A} (x : list A) l : mjoin (x :: l) = x ++ mjoin l.
Proof. done. Qed.

Section Device.

Context {T : Type} `{BulkOnlyDrive T}.
Implicit Types (s : sst T).

Lemma words_of_media b lba n :
  0 <= n ->
  words_of (media_bytes (view b) lba n) = mjoin ((fun i => words_of (media (view b) i)) <$> seqZ lba n).
Proof.
  intros Hn. unfold media_bytes. revert lba. pattern n. apply natlike_ind; [done| |done]. clear n Hn.
  intros n Hn IH lba. rewrite !seqZ_cons, !fmap_cons by lia. cbn [mjoin list_join].
  destruct (media_ok b lba) as [Hl _]. rewrite (words_of_app 128) by (by rewrite Hl).
  by rewrite Z.pred_succ, IH.
Qed.

(** [up] as a test. *)
Definition is_bulk (ud : usb_dev) (i : option nat) (dir : Z) : bool :=
  match i ≫= (pipe ud !!.) with
  | Some p => (attributes p =? USB_PIPE_DATA_BULK) && (direction p =? dir)
  | None => false
  end.

Definition is_ready (q : phase) : bool := match q with Ready => true | _ => false end.

Definition usable s : bool :=
  match driver_data s, scsi s with
  | Some (_, m), Some (_, d) =>
      (0 <=? CBWTag m) && (CBWTag m <? 2 ^ 32) && is_bulk (udev (ub s)) (bulk_in m) USB_PIPE_DIR_IN
      && is_bulk (udev (ub s)) (bulk_out m) USB_PIPE_DIR_OUT && is_ready (ph (disk_of s))
      && (block_size d =? 512) && negb (sp_locked (scsi_dev_lock s)) && negb (flag (scsi_dev_lock s))
  | _, _ => false
  end.

Lemma is_bulk_spec ud i dir : is_bulk ud i dir = true <-> exists k, i = Some k /\ bulk ud k dir.
Proof.
  unfold is_bulk, bulk. destruct i as [k|]; cbn [mbind option_bind].
  2: { split; [done|by intros (k & ? & _)]. }
  destruct (pipe ud !! k) as [p|] eqn:E.
  2: { split; [done|]. intros (k' & Hk & p & Hp & _). injection Hk as <-. by rewrite E in Hp. }
  rewrite andb_true_iff, !Z.eqb_eq. split.
  - intros []. exists k. split; [done|]. by exists p.
  - intros (k' & Hk & p' & Hp & ? & ?). injection Hk as <-. rewrite E in Hp. by injection Hp as <-.
Qed.

Lemma up_spec s : usable s = true <-> exists m p d, up s m p d.
Proof.
  unfold usable. split.
  - destruct (driver_data s) as [[q m]|] eqn:Ed; [|done]. destruct (scsi s) as [[p d]|] eqn:Es; [|done].
    rewrite !andb_true_iff, Z.leb_le, Z.ltb_lt, Z.eqb_eq, !negb_true_iff, !is_bulk_spec.
    intros [[[[[[[H1 H2] H3] H4] H5] H6] H7] H8]. exists m, p, d.
    constructor; [constructor|done|done|]; [by exists q|done|done|done| |].
    + change (view (bus (ub s))) with (disk_of s). by destruct (ph (disk_of s)).
    + destruct (scsi_dev_lock s); cbn in *; by subst.
  - intros (m & p & d & [[(q & H1) H2 H3 H4 H5] H6 H7 H8]). rewrite H1, H6.
    rewrite !andb_true_iff, Z.leb_le, Z.ltb_lt, Z.eqb_eq, !is_bulk_spec.
    change (view (bus (ub s))) with (disk_of s) in H5. rewrite H5, H8. split_and!; naive_solver.
Qed.

(** The calls of [scsi_read] and [scsi_write] with the words of the caller's
    buffer; a call that does not return is counted as failed. *)
#[global] Instance usb_disk : BlockDevice (sst T) := {
  scsi_read loc count s :=
    match scsi_read_blocks loc count s with
    | Ret (rc, l, s') => (rc, words_of l, s')
    | _ => (-1, [], s)
    end;
  scsi_write loc count data s :=
    match scsi_write_blocks loc count (bytes_of data) s with
    | Ret (rc, s') => (rc, s')
    | _ => (-1, s)
    end
}.

(** The sectors that one command can reach: its count has 16 bits. *)
Definition reachable s : Z := if usable s then Z.min (drive_blocks (disk_of s)) (2 ^ 16 - 1) else 0.

Lemma reachable_up s m p d : up s m p d -> reachable s = Z.min (drive_blocks (disk_of s)) (2 ^ 16 - 1).
Proof. intros Hu. unfold reachable. by rewrite (proj2 (up_spec s)) by eauto. Qed.

Lemma reachable_pos s loc count :
  0 <= loc -> 0 < count -> loc + count <= reachable s ->
  (exists m p d, up s m p d) /\ 0 < count < 2 ^ 16 /\ loc + count <= drive_blocks (disk_of s).
Proof.
  intros H1 H2 H3. unfold reachable in H3. destruct (usable s) eqn:E; [|lia].
  split; [by apply up_spec|]. lia.
Qed.

#[global] Program Instance usb_disk_laws : BlockDeviceLaws (sst T) := {
  sector s i := words_of (media (disk_of s) i);
  blocks := reachable
}.
Next Obligation. intros s i. cbn. apply words_of_length. apply (media_ok (bus (ub s)) i). Qed.
Next Obligation.
  intros loc count s H1 H2 H3. cbn in *. destruct (reachable_pos s loc count H1 H2 H3) as ((m & p & d & Hu) & Hc & Hr).
  destruct (scsi_read_blocks_run s m p d loc count Hu H1 Hc Hr) as (s' & E & Hu' & _ & Hv).
  exists s'. rewrite E. split_and!.
  - do 2 f_equal. by apply words_of_media; lia.
  - by rewrite (reachable_up _ _ _ _ Hu), (reachable_up _ _ _ _ Hu'), Hv.
  - intros i. by rewrite Hv.
Qed.
Next Obligation.
  intros loc count data s H1 H2 H3 Hl Hw. cbn in *.
  destruct (reachable_pos s loc count H1 H2 H3) as ((m & p & d & Hu) & Hc & Hr).
  destruct (scsi_write_blocks_run s m p d loc count (bytes_of data) Hu H1 Hc Hr) as (s' & E & Hu' & _ & Hb & _ & Hm).
  { rewrite bytes_of_length, Hl. change SECTOR_WORDS with 128. lia. }
  { apply bytes_of_ok. }
  exists s'. rewrite E. split; [done|]. split; [by rewrite (reachable_up _ _ _ _ Hu), (reachable_up _ _ _ _ Hu'), Hb|].
  intros i. rewrite Hm. unfold stored_media. case_bool_decide as Hi; [|done].
  change SECTOR_WORDS with 128. change 512%nat with (4 * 128)%nat.
  replace (Z.to_nat ((i - loc) * 512)) with (4 * Z.to_nat ((i - loc) * 128))%nat by lia.
  rewrite drop_bytes, take_bytes. apply words_bytes, Forall_take, Forall_drop, Hw.
Qed.

(** ** Theorems *)

(** On an initialised driver and a drive that follows the standards,
    [scsi_read] of any sectors of the drive returns 0 and their bytes, and
    [scsi_write] returns 0 and leaves the given bytes in exactly those sectors;
    the driver is ready for the next command, and the heap, the lock and the
    device record are as before. *)
Theorem scsi_transfers_sectors s m p d start count data :
  up s m p d -> 0 <= start -> 0 < count < 2 ^ 16 -> start + count <= drive_blocks (disk_of s) ->
  length data = Z.to_nat (count * 512) -> Forall is_byte data ->
  (exists s', scsi_read_blocks start count s = Ret ((0, media_bytes (disk_of s) start count), s')
     /\ up s' (next_tag m) p d /\ stays s s' /\ disk_of s' = disk_of s)
  /\ (exists s', scsi_write_blocks start count data s = Ret (0, s')
     /\ up s' (next_tag m) p d /\ stays s s' /\ updated start count data (disk_of s) (disk_of s')).
Proof. intros. split; [by apply scsi_read_blocks_run|by apply scsi_write_blocks_run]. Qed.

Lemma stored_media_join start n data f :
  0 <= n -> length data = Z.to_nat (n * 512) ->
  mjoin (stored_media start n data f <$> seqZ start n) = data.
Proof.
  intros Hn Hl.
  assert (E : forall k lo l, 0 <= k -> length l = Z.to_nat (k * 512) ->
    (forall i, lo <= i < lo + k -> stored_media start n data f i = take 512 (drop (Z.to_nat ((i - lo) * 512)) l)) ->
    mjoin (stored_media start n data f <$> seqZ lo k) = l).
  { intros k lo l Hk. revert lo l. pattern k. apply natlike_ind; [|clear k Hk; intros k Hk IH|done].
    - intros lo [|] Hl' _; [done|by cbn in Hl'].
    - intros lo l Hl' Hg. rewrite seqZ_cons, fmap_cons, mjoin_cons, Z.pred_succ by lia.
      rewrite (IH (Z.succ lo) (drop 512 l)).
      + rewrite Hg, Z.sub_diag by lia. cbn [Z.mul Z.to_nat drop]. apply take_drop.
      + rewrite length_drop. lia.
      + intros i Hi. rewrite Hg, drop_drop by lia. do 2 f_equal. lia. }
  apply E; [done|done|]. intros i Hi. unfold stored_media. by rewrite bool_decide_true.
Qed.

(** What [scsi_write] wrote, [scsi_read] returns. *)
Theorem scsi_write_read_roundtrip s m p d start count data :
  up s m p d -> 0 <= start -> 0 < count < 2 ^ 16 -> start + count <= drive_blocks (disk_of s) ->
  length data = Z.to_nat (count * 512) -> Forall is_byte data ->
  exists s1 s2, scsi_write_blocks start count data s = Ret (0, s1)
    /\ scsi_read_blocks start count s1 = Ret ((0, data), s2).
Proof.
  intros Hu H1 H2 H3 Hl Hb.
  destruct (scsi_write_blocks_run s m p d start count data Hu H1 H2 H3 Hl Hb) as (s1 & E1 & Hu1 & _ & Hn & _ & Hm).
  destruct (scsi_read_blocks_run s1 _ p d start count Hu1 H1 H2) as (s2 & E2 & _); [by rewrite Hn|].
  exists s1, s2. split; [done|]. rewrite E2. do 3 f_equal. unfold media_bytes.
  rewrite <- (stored_media_join start count data (media (disk_of s))) by (done || lia).
  f_equal. apply list_fmap_ext. intros i j _. apply Hm.
Qed.

(** [scsi_init] on a working drive: it returns 0, the device record is the
    block that the heap gave, the block size is that of the drive, and the
    recorded number of blocks is the address of the last block, one less than
    the number of blocks. *)
Theorem scsi_init_working_drive s m p h :
  attached s m -> scsi s = None -> scsi_dev_lock s = SPINLOCK_INIT ->
  kzalloc 28 (uheap s) = Ret (p, h) -> p <> 0 ->
  exists s' m', scsi_init s = Ret (0, s')
    /\ up s' m' p (mk_scsi 512 (s32 (drive_blocks (disk_of s) - 1)))
    /\ uheap s' = h /\ disk_of s' = disk_of s.
Proof. apply scsi_init_run. Qed.

(** A drive that fails every TEST UNIT READY. *)
Definition never_ready (I : sst T -> Prop) : Prop :=
  forall s, I s -> exists s', scsi_test_unit_ready s = Ret (-1, s') /\ I s' /\ scsi_dev_lock s' = scsi_dev_lock s.

Lemma retry_never_ready I n : forall s,
  never_ready I -> I s -> exists s', retry_ready n (-1) s = Ret (-1, s') /\ scsi_dev_lock s' = scsi_dev_lock s.
Proof.
  induction n as [|n IH]; intros s HI Hs; [by exists s|]. cbn [retry_ready Z.ltb Z.compare].
  destruct (HI s Hs) as (s1 & E & Hs1 & Hl1). rewrite (bind_step _ _ _ _ _ E).
  destruct (IH s1 HI Hs1) as (s2 & E2 & Hl2). exists s2. split; [done|congruence].
Qed.

(** A drive that is never ready does not make [scsi_init] fail: it calls
    [scsi_free] with the lock held, and waits for itself forever. *)
Theorem scsi_init_never_ready I s p h :
  scsi s = None -> scsi_dev_lock s = SPINLOCK_INIT -> kzalloc 28 (uheap s) = Ret (p, h) -> p <> 0 ->
  never_ready I -> I (set_scsi (Some (p, mk_scsi 0 0)) (set_uheap h (set_scsi_dev_lock (taken SYNC_IMPL) s))) ->
  scsi_init s = Wait.
Proof.
  intros Hs Hl Hk Hp HI Hi. unfold scsi_init. rewrite scsi_acquire_run by done. rewrite bind_gets. cbn [scsi set_scsi_dev_lock].
  rewrite Hs, decide_False by (intros H1; by apply H1).
  rewrite (bind_step _ _ _ p (set_uheap h (set_scsi_dev_lock (taken SYNC_IMPL) s)))
    by (unfold heap_op, zoom; cbn; by rewrite Hk).
  rewrite (proj2 (Z.eqb_neq _ _)) by done. rewrite bind_modify. set (s1 := set_scsi _ _) in *.
  destruct (HI s1 Hi) as (s2 & E2 & Hi2 & Hl2). rewrite (bind_step _ _ _ _ _ E2).
  destruct (retry_never_ready I 20 s2 HI Hi2) as (s3 & E3 & Hl3). rewrite (bind_step _ _ _ _ _ E3).
  cbn [Z.ltb Z.compare]. unfold bind at 1. by rewrite scsi_free_locked by (rewrite Hl3, Hl2; done).
Qed.

(** ** From the page table to the drive *)

Lemma bytes_words l k : length l = (4 * k)%nat -> Forall is_byte l -> bytes_of (words_of l) = l.
Proof.
  revert l. induction k as [|k IH]; intros l Hl Hb; [by destruct l|].
  destruct l as [|b0 [|b1 [|b2 [|b3 l]]]]; cbn in Hl; try lia.
  rewrite !list.Forall_cons in Hb. destruct Hb as (B0 & B1 & B2 & B3 & Hb). unfold is_byte in *.
  cbn [words_of]. rewrite bytes_of_cons, IH by (done || lia).
  unfold of_le4, le4. cbn [app]. f_equal; [zdiv|f_equal; [zdiv|f_equal; [zdiv|f_equal; zdiv]]].
Qed.

Lemma media_bytes_ok b lba n : Forall is_byte (media_bytes (view b) lba n).
Proof. apply Forall_join, list.Forall_fmap, list.Forall_true. intros i. apply (media_ok b i). Qed.

(** [C4] Eviction of a dirty page with this driver as the disk: [try_evict_page]
    returns the frame, and the sectors of the drive that belong to the page hold
    the bytes of the frame. *)
Theorem evict_reaches_drive rdtsc (s : mm (sst T)) i q info r :
  evictable s i q info r -> is_dirty s info r = true ->
  exists s1 : mm (sst T), try_evict_page rdtsc s = Ret (frame_addr i, s1)
    /\ media_bytes (disk_of (disk s1)) (swap_loc r + page_sector (vaddr info)) 8
       = bytes_of (words (frame_addr i) (Z.to_nat PAGE_N_ENTRIES) (mem s)).
Proof.
  intros Hev Hd. destruct (try_evict_run rdtsc s i q info r Hev) as (fq & dk & m' & E & _ & _ & Hdk).
  rewrite Hd in Hdk. destruct Hdk as (_ & Hp & _). eexists. split; [exact E|].
  change (disk_of (disk (evicted_state s i info fq dk m'))) with (disk_of dk). rewrite <- Hp. unfold disk_page.
  change (mjoin (sector dk <$> seqZ (swap_loc r + page_sector (vaddr info)) 8))
    with (mjoin ((fun i => words_of (media (disk_of dk) i)) <$> seqZ (swap_loc r + page_sector (vaddr info)) 8)).
  rewrite <- (words_of_media (bus (ub dk))) by done.
  rewrite (bytes_words _ 1024); [done| |apply media_bytes_ok].
  apply Nat2Z.inj. rewrite media_bytes_length by done. reflexivity.
Qed.

End Device.

(** ** A concrete drive *)

Module Storage_instances.

(** A drive of 1000 sectors whose byte [x] is [content x]. *)
Record plain : Type := mk_plain { content : Z -> Z; plain_phase : phase }.

Definition plain_media (b : plain) (i : Z) : list Z := (fun j => u8 (content b (i * 512 + j))) <$> seqZ 0 512.

Definition plain_view (b : plain) : drive := mk_drive (plain_media b) 1000 (plain_phase b).

Definition plain_store (lba n : Z) (data : list Z) (b : plain) : plain :=
  mk_plain (fun x => if (lba * 512 <=? x) && (x <? (lba + n) * 512) then default 0 (data !! Z.to_nat (x - lba * 512))
                     else content b x) (plain_phase b).

#[global] Instance plain_controller : HostController plain := {
  hc_read ud i size b :=
    match plain_phase b with
    | Data_in d tag =>
        if size =? Z.of_nat (length d) then Ret (size, d, 0, mk_plain (content b) (Status tag 0)) else Stuck
    | Status tag st => if size =? 13 then Ret (13, csw tag st, 0, mk_plain (content b) Ready) else Stuck
    | _ => Stuck
    end;
  hc_write ud i data b :=
    match plain_phase b with
    | Ready =>
        match respond data (plain_view b) with
        | Some q => Ret (31, 0, mk_plain (content b) q)
        | None => Stuck
        end
    | Data_out lba n tag =>
        Ret (Z.of_nat (length data), 0, plain_store lba n data (mk_plain (content b) (Status tag 0)))
    | _ => Stuck
    end;
  hc_setup ud i req b := Ret (8, 0, b)
}.

Lemma plain_media_lookup b i j :
  (j < 512)%nat -> plain_media b i !! j = Some (u8 (content b (i * 512 + Z.of_nat j))).
Proof. intros Hj. unfold plain_media. by rewrite list_lookup_fmap, lookup_seqZ_lt by lia. Qed.

Lemma plain_media_length b i : length (plain_media b i) = 512%nat.
Proof. unfold plain_media. by rewrite length_fmap, length_seqZ. Qed.

Lemma plain_store_media b lba n data i :
  length data = Z.to_nat (n * 512) -> Forall is_byte data ->
  plain_media (plain_store lba n data b) i = stored_media lba n data (plain_media b) i.
Proof.
  intros Hl Hb. unfold stored_media. apply list_eq. intros j. destruct (decide (j < 512)%nat) as [Hj|Hj].
  - rewrite plain_media_lookup by done. cbn [content plain_store]. case_bool_decide as Hi.
    + rewrite lookup_take_lt, lookup_drop by lia.
      destruct (lookup_lt_is_Some_2 data (Z.to_nat ((i - lba) * 512) + j)) as [w Hw]; [lia|].
      pose proof (Forall_lookup_1 _ _ _ _ Hb Hw) as Hbw.
      replace (Z.to_nat (i * 512 + Z.of_nat j - lba * 512)) with (Z.to_nat ((i - lba) * 512) + j)%nat by lia.
      rewrite Hw. cbn [default]. rewrite (proj2 (Z.leb_le _ _)), (proj2 (Z.ltb_lt _ _)) by lia. cbn [andb].
      by rewrite u8_small.
    + rewrite plain_media_lookup by done. zbool; cbn [andb]; (done || lia).
  - rewrite lookup_ge_None_2 by (rewrite plain_media_length; lia). symmetry.
    case_bool_decide; apply lookup_ge_None_2; [rewrite length_take; lia|rewrite plain_media_length; lia].
Qed.

#[global] Program Instance plain_drive : BulkOnlyDrive plain := { view := plain_view }.
Next Obligation.
  intros b i. split; [apply plain_media_length|]. apply list.Forall_fmap, list.Forall_true. intros j. apply u8_range.
Qed.
Next Obligation. intros b. cbn. lia. Qed.
Next Obligation.
  intros ud i cbw b q _ Hp _ Hr. cbn in *. rewrite Hp. eexists 0, _. rewrite Hr. by split.
Qed.
Next Obligation.
  intros ud i d tag b _ Hp. cbn in *. rewrite Hp, Z.eqb_refl. eexists 0, _. by split.
Qed.
Next Obligation.
  intros ud i lba n tag data b _ Hp Hl Hb. cbn in *. rewrite Hp. eexists 0, _. split; [reflexivity|].
  split_and!; [done|done|]. intros k. cbn. by rewrite plain_store_media.
Qed.
Next Obligation. intros ud i tag st b _ Hp. cbn in *. rewrite Hp. eexists 0, _. by split. Qed.

(** A device with a bulk-in pipe 1 and a bulk-out pipe 2. *)
Definition stick : usb_dev :=
  mk_udev 1 0 0 1 1 0x08 0x06 0x50 0 None USB_STATUS_CONFIGURED 3
    (mk_pipe 0 0 0 64 0 0 :: mk_pipe 1 USB_PIPE_DIR_IN USB_PIPE_DATA_BULK 64 0 0
     :: mk_pipe 2 USB_PIPE_DIR_OUT USB_PIPE_DATA_BULK 64 0 0 :: replicate 13 (mk_pipe 0 0 0 0 0 0)).

Definition stick_bus : ubs plain := mk_ubs stick [] (mk_plain (fun x => x / 512) Ready).

Definition msd : usb_msd_dev := mk_msd (Some 1%nat) (Some 2%nat) 41 0.

Definition plugged (h : hst) (sc : option (Z * scsi_dev)) : sst plain :=
  mk_sst stick_bus h (Some (KERNEL_ALLOC_START, msd)) sc SPINLOCK_INIT.

Lemma plugged_attached h sc : attached (plugged h sc) msd.
Proof.
  constructor; [by eexists|done| | |done].
  - exists 1%nat. split; [done|]. by eexists.
  - exists 2%nat. split; [done|]. by eexists.
Qed.

Definition record : scsi_dev := mk_scsi 512 999.

Lemma plugged_up h : up (plugged h (Some (0x30040, record))) msd 0x30040 record.
Proof. constructor; [apply plugged_attached|done..]. Qed.

Definition payload : list Z := replicate 1024 90.

Lemma payload_ok : length payload = Z.to_nat (2 * 512) /\ Forall is_byte payload.
Proof. split; [done|]. apply Forall_replicate. unfold is_byte. lia. Qed.

Lemma scsi_transfers_sectors_witness :
  exists s s1 s2 : sst plain, scsi_read_blocks 7 2 s = Ret ((0, media_bytes (disk_of s) 7 2), s1)
    /\ scsi_write_blocks 7 2 payload s = Ret (0, s2) /\ media (disk_of s2) 9 = media (disk_of s) 9.
Proof.
  set (s := plugged Alloc_instances.blank (Some (0x30040, record))).
  destruct (scsi_transfers_sectors s msd 0x30040 record 7 2 payload) as [(s1 & E1 & _) (s2 & E2 & _ & _ & _ & _ & Hm)].
  - apply plugged_up.
  - lia.
  - lia.
  - cbn. lia.
  - exact (proj1 payload_ok).
  - exact (proj2 payload_ok).
  - exists s, s1, s2. split; [exact E1|]. split; [exact E2|]. rewrite Hm. reflexivity.
Defined.

Lemma scsi_write_read_roundtrip_witness :
  exists s s1 s2 : sst plain, scsi_write_blocks 7 2 payload s = Ret (0, s1)
    /\ scsi_read_blocks 7 2 s1 = Ret ((0, payload), s2).
Proof.
  set (s := plugged Alloc_instances.blank (Some (0x30040, record))).
  destruct (scsi_write_read_roundtrip s msd 0x30040 record 7 2 payload) as (s1 & s2 & E1 & E2).
  - apply plugged_up.
  - lia.
  - lia.
  - cbn. lia.
  - exact (proj1 payload_ok).
  - exact (proj2 payload_ok).
  - exists s, s1, s2. split; [exact E1|exact E2].
Defined.

(** The first block of a fresh heap. *)
Lemma fresh_record : exists h, kzalloc 28 Alloc_instances.fresh = Ret (KERNEL_ALLOC_START, h).
Proof. eexists. vm_compute. reflexivity. Qed.

Lemma scsi_init_working_drive_witness :
  exists s', scsi_init (plugged Alloc_instances.fresh None) = Ret (0, s')
    /\ scsi s' = Some (KERNEL_ALLOC_START, mk_scsi 512 999).
Proof.
  destruct fresh_record as (h & Eh). generalize dependent Alloc_instances.fresh. intros f Ef.
  destruct (scsi_init_working_drive (plugged f None) msd KERNEL_ALLOC_START h) as (s' & m' & E & Hu & _).
  - apply plugged_attached.
  - reflexivity.
  - reflexivity.
  - exact Ef.
  - discriminate.
  - exists s'. split; [exact E|]. exact (up_scsi _ _ _ _ Hu).
Defined.

(** A drive that answers TEST UNIT READY with a failure and everything else with
    success; it remembers the last command. *)
Record broken : Type := mk_broken { last_cbw : list Z }.

#[global] Instance broken_controller : HostController broken := {
  hc_read ud i size b :=
    if size =? 13 then
      Ret (13, csw (le_word (last_cbw b) 4) (if nthz (last_cbw b) 15 =? 0x00 then 1 else 0), 0, b)
    else Ret (size, replicate (Z.to_nat size) 0, 0, b);
  hc_write ud i data b := Ret (Z.of_nat (length data), 0, mk_broken data);
  hc_setup ud i req b := Ret (8, 0, b)
}.

Definition bad_stick (s : sst broken) : Prop :=
  exists q tag lun, driver_data s = Some (q, mk_msd (Some 1%nat) (Some 2%nat) tag lun) /\ 0 <= tag < 2 ^ 32.

(** One command on it: the status says whether it was TEST UNIT READY. *)
Lemma broken_command s cdb len q tag lun :
  driver_data s = Some (q, mk_msd (Some 1%nat) (Some 2%nat) tag lun) -> 0 <= tag < 2 ^ 32 ->
  (0 < length cdb <= 16)%nat -> 0 <= len < 2 ^ 32 -> len <> 13 ->
  exists s' l, usb_msd_read cdb len s = Ret ((if nthz cdb 0 =? 0x00 then 1 else 0, l), s')
    /\ driver_data s' = Some (q, mk_msd (Some 1%nat) (Some 2%nat) (u32 (tag + 1)) lun)
    /\ scsi_dev_lock s' = scsi_dev_lock s.
Proof.
  intros Hd Ht Hl Hlen Hne. unfold usb_msd_read, usb_msd_read_write. cbv zeta.
  rewrite (bind_step umd _ s (q, _) s) by (unfold umd; by rewrite Hd). cbn [CBWTag set_CBWTag bulk_in bulk_out max_lun].
  rewrite bind_modify. rewrite (proj2 (Z.ltb_ge CB_MAX_SIZE _)) by (unfold CB_MAX_SIZE; lia).
  cbn [pipe_index]. rewrite bind_ret. cbn [Z.eqb MSD_READ].
  fold (wrapped tag len CBW_FLAGS_IN cdb). set (w := wrapped tag len CBW_FLAGS_IN cdb).
  assert (Hw : length w = 31%nat) by (apply wrapped_length; lia).
  assert (Et : le_word w 4 = tag).
  { unfold w, wrapped, cbw_bytes. cbn [dCBWTag]. rewrite (u32_small tag) by done. by apply of_le4_le4. }
  assert (Eo : nthz w 15 = nthz cdb 0).
  { unfold w, wrapped, cbw_bytes. cbn [CBWCB]. destruct cdb; [cbn in Hl; lia|done]. }
  unfold uop at 1. rewrite (bind_step _ _ _ 31 (set_ub (set_bus (mk_broken w) (set_udev (set_pipes
    (alter (set_toggle 0) 2%nat (pipe (udev (ub s)))) (udev (ub s))) (ub s))) (set_driver_data
    (Some (q, mk_msd (Some 1%nat) (Some 2%nat) (u32 (tag + 1)) lun)) s)))
    by (unfold zoom, usb_write, hc_op; cbn [hc_write broken_controller]; rewrite Hw; reflexivity).
  cbn [Z.eqb Pos.eqb negb dCBWTag]. set (s1 := set_ub _ _).
  assert (Hdata : exists l t, data_stage (mk_msd (Some 1%nat) (Some 2%nat) tag lun) MSD_READ len [] s1 = Ret ((true, l),
    set_ub (set_bus (mk_broken w) (set_udev (set_pipes t (udev (ub s1))) (ub s1))) s1)).
  { unfold data_stage. destruct (Z.ltb_spec 0 len).
    - cbn [pipe_index bulk_in Z.eqb MSD_READ]. rewrite bind_ret. unfold uop, zoom, bind, usb_read, hc_op.
      cbn [hc_read broken_controller]. rewrite (proj2 (Z.eqb_neq len 13)) by done. cbn [fst snd]. rewrite Z.ltb_irrefl.
      eexists _, _. reflexivity.
    - eexists [], (pipe (udev (ub s1))). unfold ret. do 2 f_equal. }
  destruct Hdata as (l & t & E). rewrite (bind_step _ _ _ _ _ E). cbn [fst snd negb bulk_in pipe_index]. rewrite bind_ret.
  set (s2 := set_ub _ s1).
  unfold uop at 1. rewrite (bind_step _ _ _ (13, csw tag (if nthz cdb 0 =? 0x00 then 1 else 0)) (set_ub (set_bus (mk_broken w)
    (set_udev (set_pipes (alter (set_toggle 0) 1%nat (pipe (udev (ub s2)))) (udev (ub s2))) (ub s2))) s2))
    by (unfold zoom, usb_read, hc_op; cbn [hc_read broken_controller Z.eqb Pos.eqb]; change (last_cbw (bus (ub s2))) with w;
        rewrite Et, Eo; reflexivity).
  cbn [fst snd Z.eqb Pos.eqb negb]. set (s3 := set_ub _ s2).
  destruct (csw_fields tag (if nthz cdb 0 =? 0x00 then 1 else 0) s3 Ht) as (E1 & E2 & E3).
  rewrite (bind_step _ _ _ _ _ E1), (bind_step _ _ _ _ _ E2), (bind_step _ _ _ _ _ E3), !Z.eqb_refl.
  exists s3, l. split; [|done]. by destruct (nthz cdb 0 =? 0x00).
Qed.

Lemma bad_stick_never_ready : never_ready bad_stick.
Proof.
  intros s (q & tag & lun & Hd & Ht). unfold scsi_test_unit_ready.
  destruct (broken_command s (cdb6_bytes CDB_TEST_UNIT_READY) 0 q tag lun Hd Ht) as (s1 & l1 & E1 & Hd1 & Hl1); [cbn; lia|lia|lia|].
  rewrite (bind_step _ _ _ _ _ E1). cbn [fst].
  destruct (broken_command s1 (cdb10_bytes (mk_cdb10 CDB_REQUEST_SENSE 0 0 0 18 0)) 18 q _ lun Hd1 (u32_range _))
    as (s2 & l2 & E2 & Hd2 & Hl2); [cbn; lia|lia|lia|].
  exists s2. split; [|split; [exists q, (u32 (u32 (tag + 1) + 1)), lun; split; [done|apply u32_range]|congruence]].
  change (bind scsi_request_sense (fun _ => ret (-1)) s1 = Ret (-1, s2)). unfold scsi_request_sense.
  by rewrite bind_assoc, (bind_step _ _ _ _ _ E2).
Qed.

Lemma scsi_init_never_ready_witness :
  exists s : sst broken, scsi s = None /\ scsi_init s = Wait.
Proof.
  destruct fresh_record as (h & Eh). generalize dependent Alloc_instances.fresh. intros f Ef.
  exists (mk_sst (mk_ubs stick [] (mk_broken [])) f (Some (KERNEL_ALLOC_START, msd)) None SPINLOCK_INIT).
  split; [reflexivity|].
  apply (scsi_init_never_ready bad_stick _ KERNEL_ALLOC_START h).
  - reflexivity.
  - reflexivity.
  - exact Ef.
  - discriminate.
  - exact bad_stick_never_ready.
  - exists KERNEL_ALLOC_START, 41, 0. split; [reflexivity|lia].
Defined.

(** The machine of [VmemInstances] under memory pressure, with the drive as its
    disk. *)
Definition pressed_usb : mm (sst plain) :=
  mk_mm (sst plain) Machine.kernel Machine.during Machine.full_frames Machine.one 0x10f000 0 0 1 0 0 45
    LOCK_INIT LOCK_INIT LOCK_INIT SPINLOCK_INIT SPINLOCK_INIT SPINLOCK_INIT []
    (plugged Alloc_instances.blank (Some (0x30040, record))) PROCESS_VADDR.

Lemma pressed_usb_evictable : evictable pressed_usb 0 [] Machine.victim Machine.proc.
Proof.
  destruct Machine.pressed_evictable. by constructor.
Qed.

Lemma evict_reaches_drive_witness :
  exists s1 : mm (sst plain), try_evict_page (fun _ => 0) pressed_usb = Ret (0x100000, s1)
    /\ media_bytes (disk_of (disk s1)) 8 8 = bytes_of (words 0x100000 (Z.to_nat PAGE_N_ENTRIES) Machine.during).
Proof.
  destruct (evict_reaches_drive (fun _ => 0) pressed_usb 0%nat [] Machine.victim Machine.proc pressed_usb_evictable)
    as (s1 & E & Hm); [reflexivity|].
  exists s1. split; [exact E|exact Hm].
Defined.

End Storage_instances.
