(* ===== verification/Image.v ===== *)
(** * The disk image builder

    Models [src/src/createimage.c], the host program that lays out the disk the
    kernel boots from: the boot block, the kernel, a directory sector and the
    programs, each copied from the loadable segments of an ELF file and padded
    to whole sectors.

    Files are lists of bytes.  Input files come from the parameter [fopen], and
    the image file has a write position.  [error], [usage_error] and failed
    assertions end the program ([Halt]).  The host is a 64-bit machine, so
    [size_t] has 64 bits.  [verbose_printf] only prints and is left out.

    The correctness statements are about a reference definition: the memory
    image of a program, byte by byte, as its segments describe it. *)

From Stdlib Require Import String.
From S2P Require Import Prelude.

#[local] Close Scope string_scope.
#[local] Open Scope list_scope.
#[local] Open Scope Z_scope.
#[local] Abbreviation length := List.length.

Module Image.

Definition u64 (x : Z) : Z := x mod 2 ^ 64.

Definition SECTOR_SIZE : Z := 512.
Definition OS_SIZE_LOC : Z := 2.
Definition KERNEL_PADDR : Z := 0x8000.
Definition ALIGN_PAGE_DOWN (addr : Z) : Z := Z.land (u32 addr) 0xfffff000.

(** ** Files *)

Record file : Type := mk_file { data : list Z; pos : Z }.

Definition write_at (o : nat) (c : Z) (l : list Z) : list Z :=
  if (o <? length l)%nat then <[o := c]> l else l ++ replicate (o - length l) 0 ++ [c].

Definition fputc (c : Z) (f : file) : file :=
  mk_file (write_at (Z.to_nat (pos f)) (u8 c) (data f)) (pos f + 1).
Definition fwrite (bytes : list Z) (f : file) : file := fold_left (fun f c => fputc c f) bytes f.
Definition fseek_set (o : Z) (f : file) : file := mk_file (data f) o.
Definition fseek_end (f : file) : file := mk_file (data f) (Z.of_nat (length (data f))).
Definition ftell (f : file) : Z := pos f.

(** The byte of an input file at an offset, [EOF] (-1) behind its end. *)
Definition fgetc_at (f : list Z) (o : Z) : Z := default (-1) (f !! Z.to_nat o).

Definition byte_at (f : list Z) (o : Z) : Z := default 0 (f !! Z.to_nat o).
Definition half_at (f : list Z) (o : Z) : Z := byte_at f o + byte_at f (o + 1) * 256.
Definition word_at (f : list Z) (o : Z) : Z :=
  of_le4 (byte_at f o) (byte_at f (o + 1)) (byte_at f (o + 2)) (byte_at f (o + 3)).

(** ** ELF headers: the fields that are used *)

Record Elf32_Ehdr : Type := mk_ehdr { e_mag : list Z; e_phoff : Z; e_phentsize : Z; e_phnum : Z }.

Record Elf32_Phdr : Type := mk_phdr {
  p_type : Z;
  p_offset : Z;
  p_vaddr : Z;
  p_filesz : Z;
  p_memsz : Z;
  p_flags : Z
}.

Definition PT_LOAD : Z := 1.
Definition PF_X : Z := 1.
Definition SIZEOF_EHDR : Z := 52.
Definition SIZEOF_PHDR : Z := 32.

Definition ehdr_of (f : list Z) : Elf32_Ehdr :=
  mk_ehdr [byte_at f 1; byte_at f 2; byte_at f 3] (word_at f 28) (half_at f 42) (half_at f 44).

Definition phdr_at (f : list Z) (o : Z) : Elf32_Phdr :=
  mk_phdr (word_at f o) (word_at f (o + 4)) (word_at f (o + 8)) (word_at f (o + 16))
    (word_at f (o + 20)) (word_at f (o + 24)).

(** ** The state of the builder *)

Record directory_t : Type := mk_dir { location : Z; dir_size : Z }.

Record image_t : Type := mk_image {
  img : file;
  nbytes : Z;
  offset : Z;
  pd_loc : Z;
  pd_lim : Z;
  dir : directory_t
}.

Definition set_img (v : file) (im : image_t) : image_t :=
  mk_image v (nbytes im) (offset im) (pd_loc im) (pd_lim im) (dir im).
Definition set_nbytes (v : Z) (im : image_t) : image_t :=
  mk_image (img im) (u64 v) (offset im) (pd_loc im) (pd_lim im) (dir im).
Definition set_offset (v : Z) (im : image_t) : image_t :=
  mk_image (img im) (nbytes im) (s32 v) (pd_loc im) (pd_lim im) (dir im).
Definition set_pd_loc (v : Z) (im : image_t) : image_t :=
  mk_image (img im) (nbytes im) (offset im) (u64 v) (pd_lim im) (dir im).
Definition set_pd_lim (v : Z) (im : image_t) : image_t :=
  mk_image (img im) (nbytes im) (offset im) (pd_loc im) (u64 v) (dir im).
Definition set_location (v : Z) (im : image_t) : image_t :=
  mk_image (img im) (nbytes im) (offset im) (pd_loc im) (pd_lim im) (mk_dir (s32 v) (dir_size (dir im))).
Definition set_dir_size (v : Z) (im : image_t) : image_t :=
  mk_image (img im) (nbytes im) (offset im) (pd_loc im) (pd_lim im) (mk_dir (location (dir im)) (s32 v)).

(** [fputc(c, im->img); im->nbytes++;] *)
Definition emit (c : Z) : M image_t unit :=
  modify (fun im => set_nbytes (nbytes im + 1) (set_img (fputc c (img im)) im)).

Fixpoint while_pad (fuel : nat) (c : image_t -> bool) : M image_t unit :=
  im <-- get ;;
  if c im then
    match fuel with
    | O => out_of_fuel
    | S f => emit 0 ;;; while_pad f c
    end
  else ret tt.

Definition read_ehdr (fp : list Z) : M image_t Elf32_Ehdr :=
  assertk (SIZEOF_EHDR <=? Z.of_nat (length fp)) ;;;
  let e := ehdr_of fp in
  assertk (bool_decide (e_mag e = [0x45; 0x4c; 0x46])) ;;;
  ret e.

Definition read_phdr (fp : list Z) (ph : Z) (e : Elf32_Ehdr) : M image_t Elf32_Phdr :=
  let o := u32 (e_phoff e + ph * e_phentsize e) in
  assertk (o + SIZEOF_PHDR <=? Z.of_nat (length fp)) ;;;
  ret (phdr_at fp o).

Section Builder.

(** The [--vm] option. *)
Context (vm : bool).

Definition process_start (vaddr : Z) : M image_t unit :=
  im <-- get ;;
  assertk (nbytes im mod SECTOR_SIZE =? 0) ;;;
  modify (set_location (nbytes im / SECTOR_SIZE)) ;;;
  if nbytes im =? 0 then
    assertk (vaddr =? 0) ;;;
    modify (set_offset 0)
  else if negb vm then modify (set_offset (- KERNEL_PADDR + SECTOR_SIZE))
  else modify (set_offset (nbytes im - ALIGN_PAGE_DOWN vaddr)).

Definition process_end : M image_t unit :=
  while_pad (Z.to_nat SECTOR_SIZE) (fun im => negb (nbytes im mod SECTOR_SIZE =? 0)) ;;;
  im <-- get ;;
  modify (set_dir_size (nbytes im / SECTOR_SIZE - location (dir im))).

Definition write_segment (fp : list Z) (ph : Elf32_Phdr) : M image_t unit :=
  if p_memsz ph =? 0 then ret tt
  else
    im <-- get ;;
    let phyaddr := u32 (p_vaddr ph + offset im) in
    if phyaddr <? nbytes im then halt
    else
      while_pad (Z.to_nat (phyaddr - nbytes im)) (fun im => nbytes im <? phyaddr) ;;;
      for_up (Z.to_nat (p_filesz ph)) (p_offset ph) 1 (fun o => emit (fgetc_at fp o)) ;;;
      for_up (Z.to_nat (u32 (p_memsz ph - p_filesz ph))) 0 1 (fun _ => emit 0).

Definition is_loadable (ph : Elf32_Phdr) : bool :=
  (p_type ph =? PT_LOAD) && truth (Z.land (p_flags ph) PF_X).

Definition add_segment (fp : list Z) (e : Elf32_Ehdr) (ph : Z) : M image_t unit :=
  p <-- read_phdr fp ph e ;;
  when (ph =? 0) (process_start (s32 (p_vaddr p))) ;;;
  when (is_loadable p) (write_segment fp p).

Context (fopen : string -> option (list Z)).

Definition add_file (filename : string) : M image_t unit :=
  match fopen filename with
  | None => halt
  | Some fp =>
      e <-- read_ehdr fp ;;
      for_up (Z.to_nat (e_phnum e)) 0 1 (add_segment fp e) ;;;
      process_end
  end.

(** The little-endian bytes of a [short]. *)
Definition short_bytes (x : Z) : list Z := [u16 x mod 256; u16 x / 256].

Definition write_os_size : M image_t unit :=
  im <-- get ;;
  assertk (nbytes im mod SECTOR_SIZE =? 0) ;;;
  let os_size := nbytes im / SECTOR_SIZE - 1 in
  modify (fun im => set_img (fseek_end (fwrite (short_bytes os_size)
                               (fseek_set OS_SIZE_LOC (img im)))) im).

Definition reserve_process_dir : M image_t unit :=
  im <-- get ;;
  assertk (nbytes im mod SECTOR_SIZE =? 0) ;;;
  assertk vm ;;;
  modify (set_pd_loc (nbytes im)) ;;;
  modify (set_pd_lim (nbytes im + SECTOR_SIZE)) ;;;
  for_up (Z.to_nat SECTOR_SIZE) 0 1 (fun _ => emit 0).

Definition dir_bytes (d : directory_t) : list Z := le4 (u32 (location d)) ++ le4 (u32 (dir_size d)).

Definition add_process_to_dir : M image_t unit :=
  assertk vm ;;;
  im <-- get ;;
  if pd_lim im <=? u64 (pd_loc im + 8) then halt
  else
    modify (fun im => set_img (fwrite (dir_bytes (dir im)) (fseek_set (pd_loc im) (img im))) im) ;;;
    modify (fun im => set_pd_loc (ftell (img im)) im) ;;;
    modify (fun im => set_img (fseek_end (img im)) im).

Fixpoint add_processes (names : list string) : M image_t unit :=
  match names with
  | [] => ret tt
  | n :: names' =>
      add_file n ;;;
      when vm add_process_to_dir ;;;
      add_processes names'
  end.

Definition create_image (bootblock kernel : string) (processes : list string) : M image_t unit :=
  modify (fun im => set_nbytes 0 (set_img (mk_file [] 0) im)) ;;;
  add_file bootblock ;;;
  add_file kernel ;;;
  when vm (write_os_size ;;; reserve_process_dir) ;;;
  add_processes processes ;;;
  when (negb vm) write_os_size ;;;
  im <-- get ;;
  assertk (nbytes im mod SECTOR_SIZE =? 0).

End Builder.

(** ** The command line *)

Record options_t : Type := mk_options {
  o_vm : bool;
  o_extended : bool;
  o_bootblock : string;
  o_kernel : string;
  o_processes : list string
}.

(** The flags, and the arguments behind them; [None] for an unknown flag. *)
Fixpoint parse_flags (argv : list string) (vm extended : bool) : option (bool * bool * list string) :=
  match argv with
  | [] => Some (vm, extended, [])
  | a :: argv' =>
      if String.prefix "--" a then
        if String.eqb a "--extended" then parse_flags argv' vm true
        else if String.eqb a "--vm" then parse_flags argv' true extended
        else None
      else Some (vm, extended, argv)
  end.

(** The arguments behind the name of the program. *)
Definition parse_options (argv : list string) : option options_t :=
  match parse_flags argv false false with
  | Some (v, x, bootblock :: kernel :: processes) => Some (mk_options v x bootblock kernel processes)
  | _ => None
  end.

Definition main (fopen : string -> option (list Z)) (argv : list string) : M image_t unit :=
  match parse_options argv with
  | None => halt
  | Some o => create_image (o_vm o) fopen (o_bootblock o) (o_kernel o) (o_processes o)
  end.

End Image.
