(* ===== verification/ImageFacts.v ===== *)
(** * Facts about the disk image

    The streaming writer of [Image] against the reference definition: the memory
    image of a program.  Then the layout of a whole disk: where the directory
    is, what it says, and that it tells the truth about the programs; and that
    the kernel's [readdir] finds it. *)

From Stdlib Require Import String.
From S2P Require Import Prelude Image.
Import Image.

#[local] Close Scope string_scope.
#[local] Open Scope list_scope.
#[local] Open Scope Z_scope.
#[local] Abbreviation length := List.length.

(** ** The memory image of a program *)

(** A segment that belongs to the image: it is of type 1, that is, to be loaded,
    bit 0 of its flags says that it is executable, and it is not empty. *)
Definition loads (ph : Elf32_Phdr) : bool := (p_type ph =? 1) && Z.odd (p_flags ph) && negb (p_memsz ph =? 0).

Definition seg_end (ph : Elf32_Phdr) : Z := p_vaddr ph + p_memsz ph.

Definition covers (ph : Elf32_Phdr) (a : Z) : bool := loads ph && (p_vaddr ph <=? a) && (a <? seg_end ph).

(** The byte at address [a] of a segment: from the file, then zeros. *)
Definition seg_byte (fp : list Z) (ph : Elf32_Phdr) (a : Z) : Z :=
  let j := a - p_vaddr ph in
  if j <? p_filesz ph then u8 (fgetc_at fp (p_offset ph + j)) else 0.

(** The byte at address [a]: of the segment there, or zero between segments. *)
Definition memory_byte (fp : list Z) (phs : list Elf32_Phdr) (a : Z) : Z :=
  match List.find (fun ph => covers ph a) phs with
  | Some ph => seg_byte fp ph a
  | None => 0
  end.

(** The end of the last segment. *)
Fixpoint memory_end (lo : Z) (phs : list Elf32_Phdr) : Z :=
  match phs with
  | [] => lo
  | ph :: t => memory_end (if loads ph then seg_end ph else lo) t
  end.

Definition headers (fp : list Z) : list Elf32_Phdr :=
  let e := ehdr_of fp in
  (fun i => phdr_at fp (e_phoff e + i * e_phentsize e)) <$> seqZ 0 (e_phnum e).

Definition image_base (fp : list Z) : Z :=
  match headers fp with
  | [] => 0
  | ph :: _ => p_vaddr ph / 4096 * 4096
  end.

Definition padding (n : Z) : Z := (- n) mod 512.

(** The contents of memory from the page of the first segment to the end of the
    last, and zeros up to a whole sector. *)
Definition program_image (fp : list Z) : list Z :=
  let size := memory_end (image_base fp) (headers fp) - image_base fp in
  (memory_byte fp (headers fp) <$> seqZ (image_base fp) size) ++ replicate (Z.to_nat (padding size)) 0.

(** The segments lie in ascending order and do not overlap. *)
Fixpoint ordered (lo : Z) (phs : list Elf32_Phdr) : bool :=
  match phs with
  | [] => true
  | ph :: t =>
      if loads ph then
        (lo <=? p_vaddr ph) && (0 <=? p_filesz ph) && (p_filesz ph <=? p_memsz ph)
        && (p_memsz ph <? 2 ^ 32) && ordered (seg_end ph) t
      else ordered lo t
  end.

(** A file that can be added: an ELF file whose headers lie within it, with
    ordered segments. *)
Definition elf_ok (fp : list Z) : bool :=
  let e := ehdr_of fp in
  (SIZEOF_EHDR <=? Z.of_nat (length fp)) && bool_decide (e_mag e = [0x45; 0x4c; 0x46])
  && (0 <? e_phnum e) && (0 <=? e_phoff e) && (0 <=? e_phentsize e)
  && (e_phoff e + e_phnum e * e_phentsize e + SIZEOF_PHDR <? 2 ^ 32)
  && forallb (fun i => e_phoff e + i * e_phentsize e + SIZEOF_PHDR <=? Z.of_nat (length fp)) (seqZ 0 (e_phnum e))
  && forallb (fun ph => (0 <=? p_vaddr ph) && (p_vaddr ph <? 2 ^ 32)) (headers fp)
  && ordered (image_base fp) (headers fp).

Lemma memory_byte_below fp phs : forall lo a, ordered lo phs = true -> a < lo -> memory_byte fp phs a = 0.
Proof.
  unfold memory_byte. induction phs as [|ph t IH]; intros lo a Ho Ha; [done|]. cbn [ordered] in Ho.
  cbn [List.find]. destruct (loads ph) eqn:Hl.
  - rewrite !andb_true_iff, !Z.leb_le in Ho. destruct Ho as ((((H1 & H2) & H3) & _) & Ho).
    unfold covers. rewrite (proj2 (Z.leb_gt _ _)) by lia. rewrite andb_false_r. cbn [andb].
    apply (IH (seg_end ph)); [done|]. unfold seg_end. lia.
  - unfold covers at 1. rewrite Hl. cbn [andb]. by apply (IH lo).
Qed.

Lemma memory_byte_cons fp ph t a :
  memory_byte fp (ph :: t) a = if covers ph a then seg_byte fp ph a else memory_byte fp t a.
Proof. unfold memory_byte. cbn [List.find]. by destruct (covers ph a). Qed.

Lemma memory_end_ge phs : forall lo, ordered lo phs = true -> lo <= memory_end lo phs.
Proof.
  induction phs as [|ph t IH]; intros lo Ho; cbn in *; [lia|]. destruct (loads ph).
  - rewrite !andb_true_iff, !Z.leb_le in Ho. destruct Ho as ((((H1 & H2) & H3) & _) & Ho).
    specialize (IH _ Ho). unfold seg_end in *. lia.
  - by apply IH.
Qed.

(** ** Appending to the image *)

Definition at_end (im : image_t) : Prop :=
  pos (img im) = Z.of_nat (length (data (img im))) /\ nbytes im = Z.of_nat (length (data (img im))).

Definition append (l : list Z) (im : image_t) : image_t :=
  mk_image (mk_file (data (img im) ++ l) (pos (img im) + Z.of_nat (length l)))
    (nbytes im + Z.of_nat (length l)) (offset im) (pd_loc im) (pd_lim im) (dir im).

Lemma append_nil im : append [] im = im.
Proof. unfold append. destruct im as [[d p] ? ? ? ? ?]. cbn. by rewrite app_nil_r, !Z.add_0_r. Qed.

Lemma append_append l1 l2 im : append l2 (append l1 im) = append (l1 ++ l2) im.
Proof. unfold append. cbn. rewrite length_app, <- app_assoc. f_equal; [f_equal; lia|lia]. Qed.

Lemma append_at_end l im : at_end im -> at_end (append l im).
Proof. unfold at_end, append. cbn. rewrite length_app. lia. Qed.

Lemma u64_small x : 0 <= x < 2 ^ 64 -> u64 x = x.
Proof. intros. by apply Z.mod_small. Qed.

Lemma emit_run c im : at_end im -> nbytes im < 2 ^ 40 -> emit c im = Ret (tt, append [u8 c] im).
Proof.
  intros [H1 H2] Hb. unfold emit, modify, append, set_nbytes, set_img, fputc. cbn.
  rewrite u64_small by lia. do 3 f_equal. f_equal. unfold write_at. rewrite H1, Nat2Z.id, Nat.ltb_irrefl.
  by rewrite Nat.sub_diag.
Qed.

Lemma emit_loop f n : forall lo im,
  at_end im -> nbytes im + Z.of_nat n <= 2 ^ 40 ->
  for_up n lo 1 (fun o => emit (f o)) im = Ret (tt, append ((fun o => u8 (f o)) <$> seqZ lo (Z.of_nat n)) im).
Proof.
  induction n as [|n IH]; intros lo im Ha Hb.
  - cbn [for_up]. by rewrite append_nil.
  - cbn [for_up]. rewrite (bind_step _ _ _ _ _ (emit_run _ _ Ha ltac:(lia))).
    rewrite IH; [|by apply append_at_end|cbn; lia].
    rewrite append_append, (seqZ_cons lo) by lia. by replace (Z.pred (Z.of_nat (S n))) with (Z.of_nat n) by lia.
Qed.

Lemma pad_to n : forall im target,
  at_end im -> target <= 2 ^ 40 -> target - nbytes im = Z.of_nat n ->
  while_pad n (fun im => nbytes im <? target) im = Ret (tt, append (replicate n 0) im).
Proof.
  induction n as [|n IH]; intros im target Ha Hb Hn; cbn [while_pad]; rewrite bind_get.
  - rewrite (proj2 (Z.ltb_ge _ _)) by lia. by rewrite append_nil.
  - rewrite (proj2 (Z.ltb_lt _ _)) by lia.
    rewrite (bind_step _ _ _ _ _ (emit_run _ _ Ha ltac:(lia))).
    rewrite IH; [|by apply append_at_end|done|cbn; lia]. by rewrite append_append.
Qed.

Lemma pad_sector n : forall im m,
  at_end im -> nbytes im + Z.of_nat n <= 2 ^ 40 -> padding (nbytes im) = Z.of_nat n -> (n <= m)%nat ->
  while_pad m (fun im => negb (nbytes im mod SECTOR_SIZE =? 0)) im = Ret (tt, append (replicate n 0) im).
Proof.
  unfold padding, SECTOR_SIZE. induction n as [|n IH]; intros im m Ha Hb Hn Hm.
  - rewrite append_nil. assert (nbytes im mod 512 = 0) as E by zdiv.
    destruct m; cbn [while_pad]; rewrite bind_get, E; done.
  - destruct m as [|m]; [lia|]. cbn [while_pad]. rewrite bind_get.
    rewrite (proj2 (Z.eqb_neq _ _)) by zdiv. cbn [negb].
    rewrite (bind_step _ _ _ _ _ (emit_run _ _ Ha ltac:(lia))).
    rewrite (IH (append [u8 0] im) m); [by rewrite append_append|by apply append_at_end|cbn; lia|cbn; zdiv|lia].
Qed.

(** ** Writing segments *)

Lemma fmap_seqZ_ext {A} (f g : Z -> A) a b n :
  (forall j, 0 <= j < n -> f (a + j) = g (b + j)) -> f <$> seqZ a n = g <$> seqZ b n.
Proof.
  intros H. apply list_eq. intros i. rewrite !list_lookup_fmap.
  destruct (Z.lt_ge_cases (Z.of_nat i) n).
  - rewrite !lookup_seqZ_lt by lia. cbn. f_equal. apply H. lia.
  - by rewrite !lookup_seqZ_ge by lia.
Qed.

Lemma replicate_seqZ {A} (c : A) a n : replicate (Z.to_nat n) c = (fun _ => c) <$> seqZ a n.
Proof.
  apply list_eq. intros i. rewrite list_lookup_fmap. destruct (Z.lt_ge_cases (Z.of_nat i) n).
  - rewrite lookup_seqZ_lt by lia. by rewrite lookup_replicate_2 by lia.
  - rewrite lookup_seqZ_ge by lia. apply lookup_ge_None. rewrite length_replicate. lia.
Qed.

(** A slice of memory. *)
Definition slice (fp : list Z) (phs : list Elf32_Phdr) (a b : Z) : list Z := memory_byte fp phs <$> seqZ a (b - a).

Lemma slice_length fp phs a b : a <= b -> Z.of_nat (length (slice fp phs a b)) = b - a.
Proof. intros. unfold slice. rewrite length_fmap, length_seqZ. lia. Qed.

Lemma slice_app fp phs a b c : a <= b -> b <= c -> slice fp phs a c = slice fp phs a b ++ slice fp phs b c.
Proof.
  intros. unfold slice. replace (c - a) with ((b - a) + (c - b)) by lia.
  rewrite seqZ_app by lia. rewrite fmap_app. by replace (a + (b - a)) with b by lia.
Qed.

Lemma u32_wrap v o : u32 (v + s32 o) = u32 (v + o).
Proof.
  unfold u32, s32. replace (v + ((o + 2 ^ 31) mod 2 ^ 32 - 2 ^ 31)) with ((o + 2 ^ 31) mod 2 ^ 32 + (v - 2 ^ 31)) by lia.
  rewrite Zplus_mod_idemp_l. f_equal. lia.
Qed.

(** Addresses from [base] on go to the image from [n0] on. *)
Definition placed (im : image_t) (n0 base : Z) : Prop :=
  forall v, 0 <= n0 + (v - base) < 2 ^ 32 -> u32 (v + offset im) = n0 + (v - base).

Section Segment.

Context (fp : list Z) (ph : Elf32_Phdr) (t : list Elf32_Phdr) (lo : Z).
Context (Hl : loads ph = true) (Hlo : lo <= p_vaddr ph).
Context (Hf : 0 <= p_filesz ph <= p_memsz ph) (Hm : p_memsz ph < 2 ^ 32).
Context (Ho : ordered (seg_end ph) t = true).

Lemma slice_gap : replicate (Z.to_nat (p_vaddr ph - lo)) 0 = slice fp (ph :: t) lo (p_vaddr ph).
Proof.
  rewrite (replicate_seqZ 0 lo). apply fmap_seqZ_ext. intros j Hj. symmetry.
  apply (memory_byte_below _ _ (p_vaddr ph)); [|lia]. cbn [ordered]. rewrite Hl, Ho, Z.leb_refl.
  rewrite !(proj2 (Z.leb_le _ _)), (proj2 (Z.ltb_lt _ _)) by lia. done.
Qed.

Lemma slice_segment :
  ((fun o => u8 (fgetc_at fp o)) <$> seqZ (p_offset ph) (p_filesz ph))
    ++ ((fun _ : Z => u8 0) <$> seqZ 0 (p_memsz ph - p_filesz ph))
  = slice fp (ph :: t) (p_vaddr ph) (seg_end ph).
Proof.
  rewrite (slice_app _ _ _ (p_vaddr ph + p_filesz ph)) by (unfold seg_end; lia).
  f_equal; unfold slice.
  - replace (p_vaddr ph + p_filesz ph - p_vaddr ph) with (p_filesz ph) by lia. apply fmap_seqZ_ext.
    intros j Hj. rewrite memory_byte_cons. unfold covers, seg_byte, seg_end. rewrite Hl.
    rewrite (proj2 (Z.leb_le _ _)), (proj2 (Z.ltb_lt _ _)) by lia. cbn [andb].
    rewrite (proj2 (Z.ltb_lt _ _)) by lia. do 2 f_equal. lia.
  - replace (seg_end ph - (p_vaddr ph + p_filesz ph)) with (p_memsz ph - p_filesz ph) by (unfold seg_end; lia).
    apply fmap_seqZ_ext. intros j Hj. rewrite memory_byte_cons. unfold covers, seg_byte, seg_end. rewrite Hl.
    rewrite (proj2 (Z.leb_le _ _)), (proj2 (Z.ltb_lt _ _)) by lia. cbn [andb].
    by rewrite (proj2 (Z.ltb_ge _ _)) by lia.
Qed.

Lemma write_segment_run im n0 base :
  at_end im -> placed im n0 base -> nbytes im = n0 + (lo - base) -> n0 + (seg_end ph - base) < 2 ^ 32 ->
  write_segment fp ph im = Ret (tt, append (slice fp (ph :: t) lo (seg_end ph)) im).
Proof.
  intros Ha Hp Hn Hb. unfold seg_end in Hb. destruct Ha as [Ha1 Ha2].
  assert (Ha : at_end im) by done. unfold write_segment.
  assert ((p_memsz ph =? 0) = false) as ->.
  { unfold loads in Hl. apply andb_true_iff in Hl as [_ Hz]. by apply negb_true_iff. }
  rewrite bind_get, Hp by lia. rewrite (proj2 (Z.ltb_ge _ _)) by lia.
  replace (n0 + (p_vaddr ph - base) - nbytes im) with (p_vaddr ph - lo) by lia.
  rewrite (bind_step _ _ _ _ _ (pad_to (Z.to_nat (p_vaddr ph - lo)) im (n0 + (p_vaddr ph - base)) Ha ltac:(lia) ltac:(lia))).
  rewrite slice_gap. pose proof (slice_length fp (ph :: t) lo (p_vaddr ph) Hlo) as Hlen.
  rewrite (u32_small (p_memsz ph - _)) by lia.
  pose proof (append_at_end (slice fp (ph :: t) lo (p_vaddr ph)) im Ha) as Hx.
  rewrite (bind_step _ _ _ _ _ (emit_loop (fgetc_at fp) (Z.to_nat (p_filesz ph)) _ _ Hx ltac:(cbn; lia))).
  rewrite Z2Nat.id by lia.
  rewrite (emit_loop (fun _ => 0)).
  - rewrite Z2Nat.id by lia. rewrite !append_append, slice_segment.
    by rewrite (slice_app _ _ lo (p_vaddr ph) (seg_end ph)) by (unfold seg_end; lia).
  - by apply append_at_end.
  - cbn. rewrite length_fmap, length_seqZ. lia.
Qed.

End Segment.

(** ** Adding a file *)

(** The program headers from index [i] on. *)
Definition headers_from (fp : list Z) (e : Elf32_Ehdr) (i : Z) (phs : list Elf32_Phdr) : Prop :=
  forall j ph, phs !! j = Some ph -> read_phdr fp (i + Z.of_nat j) e = ret ph.

Lemma headers_from_cons fp e i ph t :
  headers_from fp e i (ph :: t) -> read_phdr fp i e = ret ph /\ headers_from fp e (i + 1) t.
Proof.
  intros H. split.
  - rewrite <- (H 0%nat ph) by done. f_equal. lia.
  - intros j q Hq. rewrite <- (H (S j) q) by done. f_equal. lia.
Qed.

Lemma when_loads fp ph im :
  when (is_loadable ph) (write_segment fp ph) im = if loads ph then write_segment fp ph im else Ret (tt, im).
Proof.
  unfold loads, write_segment.
  assert (E : is_loadable ph = (p_type ph =? 1) && Z.odd (p_flags ph)).
  { unfold is_loadable, PF_X. change (Z.land (p_flags ph) 1) with (Z.land (p_flags ph) (Z.shiftl 1 0)). by rewrite truth_bit, Z.bit0_odd by lia. }
  rewrite E. destruct (_ && _); [|done]. by destruct (p_memsz ph =? 0).
Qed.

(** What the body of the loop does, behind the call of [process_start]. *)
Lemma segment_run fp ph t lo im n0 base :
  ordered lo (ph :: t) = true -> at_end im -> placed im n0 base -> nbytes im = n0 + (lo - base) ->
  n0 + (memory_end lo (ph :: t) - base) < 2 ^ 32 ->
  let hi := if loads ph then seg_end ph else lo in
  when (is_loadable ph) (write_segment fp ph) im = Ret (tt, append (slice fp (ph :: t) lo hi) im)
  /\ lo <= hi /\ ordered hi t = true.
Proof.
  intros Ho Ha Hp Hn Hb hi. rewrite when_loads. subst hi. cbn [ordered memory_end] in *. destruct (loads ph) eqn:Hl.
  - rewrite !andb_true_iff, !Z.leb_le, Z.ltb_lt in Ho. destruct Ho as ((((H1 & H2) & H3) & H4) & Ho).
    pose proof (memory_end_ge _ _ Ho). unfold seg_end in *. split_and!; [|lia|done].
    apply (write_segment_run fp ph t lo Hl H1 (conj H2 H3) H4 Ho im n0 base); try done. unfold seg_end. lia.
  - unfold slice. rewrite Z.sub_diag. cbn. by rewrite append_nil.
Qed.

Lemma slice_cons fp ph t lo :
  ordered lo (ph :: t) = true ->
  let hi := if loads ph then seg_end ph else lo in
  slice fp (ph :: t) lo (memory_end lo (ph :: t)) = slice fp (ph :: t) lo hi ++ slice fp t hi (memory_end hi t).
Proof.
  intros Ho hi. subst hi. cbn [ordered memory_end] in *. destruct (loads ph) eqn:Hl.
  - rewrite !andb_true_iff, !Z.leb_le, Z.ltb_lt in Ho. destruct Ho as ((((H1 & H2) & H3) & H4) & Ho).
    rewrite (slice_app _ _ _ (seg_end ph)); [f_equal|unfold seg_end; lia|by apply memory_end_ge].
    apply fmap_seqZ_ext. intros j Hj. rewrite memory_byte_cons. unfold covers.
    rewrite (proj2 (Z.ltb_ge (_ + j) (seg_end ph))) by lia. by rewrite andb_false_r.
  - unfold slice at 2. rewrite Z.sub_diag. cbn [seqZ app fmap list_fmap]. cbn. apply fmap_seqZ_ext.
    intros j Hj. rewrite memory_byte_cons. unfold covers. by rewrite Hl.
Qed.

Lemma placed_append im n0 base l : placed im n0 base -> placed (append l im) n0 base.
Proof. done. Qed.

Lemma segments_run vm fp e phs : forall i lo im n0 base,
  0 < i -> headers_from fp e i phs -> ordered lo phs = true ->
  at_end im -> placed im n0 base -> nbytes im = n0 + (lo - base) ->
  n0 + (memory_end lo phs - base) < 2 ^ 32 ->
  for_up (length phs) i 1 (add_segment vm fp e) im = Ret (tt, append (slice fp phs lo (memory_end lo phs)) im).
Proof.
  induction phs as [|ph t IH]; intros i lo im n0 base Hi Hh Ho Ha Hp Hn Hb.
  - cbn. unfold slice. rewrite Z.sub_diag. cbn. by rewrite append_nil.
  - apply headers_from_cons in Hh as [Hr Hh]. cbn [length for_up].
    unfold add_segment at 1. rewrite bind_assoc, Hr, bind_ret. rewrite bind_assoc.
    rewrite (proj2 (Z.eqb_neq i 0)) by lia. cbn [when]. rewrite bind_ret.
    destruct (segment_run fp ph t lo im n0 base) as (E & Hle & Ho'); try done.
    rewrite (bind_step _ _ _ _ _ E), (slice_cons fp ph t lo Ho).
    set (hi := if loads ph then seg_end ph else lo) in *.
    rewrite (IH (i + 1) hi _ n0 base); [by rewrite append_append|lia|done|done|by apply append_at_end|done| |done].
    cbn. rewrite slice_length by done. lia.
Qed.

Lemma elf_headers fp :
  elf_ok fp = true ->
  read_ehdr fp = ret (ehdr_of fp) /\ headers_from fp (ehdr_of fp) 0 (headers fp)
  /\ length (headers fp) = Z.to_nat (e_phnum (ehdr_of fp)) /\ headers fp <> []
  /\ ordered (image_base fp) (headers fp) = true /\ Forall (fun ph => 0 <= p_vaddr ph < 2 ^ 32) (headers fp).
Proof.
  unfold elf_ok. cbv zeta. rewrite !andb_true_iff.
  intros ((((((((H1 & H2) & H3) & H4) & H5) & H6) & H7) & H8) & H9).
  apply bool_decide_eq_true in H2. rewrite Z.ltb_lt in H3, H6. rewrite Z.leb_le in H4, H5.
  rewrite forallb_forall in H7, H8. set (e := ehdr_of fp) in *.
  assert (Hlen : length (headers fp) = Z.to_nat (e_phnum e)) by (unfold headers; by rewrite length_fmap, length_seqZ).
  split_and!; try done.
  - unfold read_ehdr, e. rewrite H1. cbn [assertk]. fold e. by rewrite bool_decide_eq_true_2.
  - intros j ph Hj. pose proof (lookup_lt_Some _ _ _ Hj) as Hlt. unfold headers in Hj. fold e in Hj.
    rewrite list_lookup_fmap, lookup_seqZ_lt in Hj by lia. injection Hj as <-.
    unfold read_phdr. rewrite Z.add_0_l.
    assert (Hs : 0 <= Z.of_nat j * e_phentsize e <= e_phnum e * e_phentsize e) by nia.
    rewrite u32_small by (unfold SIZEOF_PHDR in *; lia).
    rewrite H7 by (apply list_elem_of_In, elem_of_seqZ; lia). done.
  - intros E. rewrite E in Hlen. change (length []) with 0%nat in Hlen. lia.
  - apply List.Forall_forall. intros ph Hph. specialize (H8 ph Hph).
    rewrite andb_true_iff, Z.leb_le, Z.ltb_lt in H8. done.
Qed.

Lemma align_s32 v : ALIGN_PAGE_DOWN (s32 v) = ALIGN_PAGE_DOWN v.
Proof. unfold ALIGN_PAGE_DOWN. f_equal. apply (u32_wrap 0). Qed.

Lemma align_down v : 0 <= v < 2 ^ 32 -> ALIGN_PAGE_DOWN v = v / 4096 * 4096.
Proof.
  intros Hv. unfold ALIGN_PAGE_DOWN. rewrite u32_small by done. change 0xfffff000 with (Z.shiftl (Z.ones 20) 12).
  rewrite land_field by lia. change (2 ^ 12) with 4096. change (2 ^ 20) with 1048576. rewrite (Z.mod_small (v / 4096)); [done|].
  change (2 ^ 32) with 4294967296 in Hv. zdiv.
Qed.

Definition fits (fp : list Z) (n : Z) : Prop :=
  n + Z.of_nat (length (program_image fp)) < 2 ^ 32.

(** The image with a file added. *)
Definition with_file (fp : list Z) (o : Z) (im : image_t) : image_t :=
  let P := program_image fp in
  mk_image (mk_file (data (img im) ++ P) (pos (img im) + Z.of_nat (length P)))
    (nbytes im + Z.of_nat (length P)) o (pd_loc im) (pd_lim im)
    (mk_dir (nbytes im / SECTOR_SIZE) (Z.of_nat (length P) / SECTOR_SIZE)).

Lemma with_file_at_end fp o im : at_end im -> at_end (with_file fp o im).
Proof. unfold at_end, with_file. cbn [img nbytes pos data]. rewrite length_app. lia. Qed.

Lemma program_image_sectors fp :
  ordered (image_base fp) (headers fp) = true -> Z.of_nat (length (program_image fp)) mod SECTOR_SIZE = 0.
Proof.
  intros Ho. pose proof (memory_end_ge _ _ Ho). unfold program_image, padding, SECTOR_SIZE.
  rewrite length_app, length_fmap, length_seqZ, length_replicate. zdiv.
Qed.

Section AddFile.

Context (vm : bool) (fopen : string -> option (list Z)) (name : string) (fp : list Z) (im : image_t).
Context (Hopen : fopen name = Some fp) (Hok : elf_ok fp = true).
Context (Hend : at_end im) (Hsec : nbytes im mod SECTOR_SIZE = 0) (Hfits : fits fp (nbytes im)).
Context (Hboot : nbytes im = 0 -> forall ph, head (headers fp) = Some ph -> p_vaddr ph = 0).
Context (Hvm : nbytes im <> 0 -> vm = true).

Lemma process_start_run ph :
  head (headers fp) = Some ph ->
  exists im', process_start vm (s32 (p_vaddr ph)) im = Ret (tt, im')
    /\ img im' = img im /\ nbytes im' = nbytes im /\ pd_loc im' = pd_loc im /\ pd_lim im' = pd_lim im
    /\ location (dir im') = nbytes im / SECTOR_SIZE /\ placed im' (nbytes im) (image_base fp).
Proof.
  intros Hph. unfold process_start. rewrite bind_get, bind_assertk_true by (by apply Z.eqb_eq).
  rewrite bind_modify. destruct Hend as [_ Hn].
  assert (Hloc : s32 (nbytes im / SECTOR_SIZE) = nbytes im / SECTOR_SIZE).
  { unfold fits in Hfits. apply s32_small. unfold SECTOR_SIZE. split; [|]; zdiv. }
  assert (Hb : image_base fp = ALIGN_PAGE_DOWN (p_vaddr ph)).
  { destruct (elf_headers fp Hok) as (_ & _ & _ & _ & _ & Hva). unfold image_base. destruct (headers fp); [done|].
    injection Hph as ->. apply list.Forall_cons in Hva as [Hva _]. by rewrite align_down. }
  destruct (Z.eqb_spec (nbytes im) 0) as [E|E].
  - rewrite (Hboot E ph Hph), bind_assertk_true by done. eexists. split; [reflexivity|].
    cbn. split_and!; try done. intros v Hv. cbn. rewrite Hb, (Hboot E ph Hph), E in *.
    change (ALIGN_PAGE_DOWN 0) with 0 in *. change (s32 0) with 0. rewrite u32_small; lia.
  - rewrite (Hvm E). cbn [negb]. eexists. split; [reflexivity|]. cbn. split_and!; try done.
    intros v Hv. cbn. rewrite u32_wrap, align_s32, <- Hb, u32_small; lia.
Qed.

Lemma add_file_run : exists o, add_file vm fopen name im = Ret (tt, with_file fp o im).
Proof.
  destruct (elf_headers fp Hok) as (He & Hh & Hlen & Hne & Ho & _).
  unfold add_file. rewrite Hopen, He, bind_ret, <- Hlen.
  assert (exists ph t, headers fp = ph :: t) as (ph & t & Hph) by (destruct (headers fp); by eauto).
  destruct (process_start_run ph ltac:(by rewrite Hph)) as (im1 & E1 & I1 & I2 & I3 & I4 & I5 & I6).
  pose proof (program_image_sectors fp Ho) as Hps. pose proof (memory_end_ge _ _ Ho) as Hge.
  pose proof Hfits as Hfit. unfold fits in Hfit.
  set (B := image_base fp) in *. set (E := memory_end B (headers fp)) in *.
  assert (Hsize : Z.of_nat (length (program_image fp)) = E - B + padding (E - B)).
  { unfold program_image. rewrite length_app, length_fmap, length_seqZ, length_replicate.
    fold B. fold E. unfold padding, SECTOR_SIZE. zdiv. }
  assert (Hpad : 0 <= padding (E - B) < 512) by (unfold padding, SECTOR_SIZE; zdiv).
  assert (Ha1 : at_end im1) by (unfold at_end; rewrite I1, I2; exact Hend).
  destruct Hend as [Hp0 Hn0].
  assert (Hloop : for_up (length (headers fp)) 0 1 (add_segment vm fp (ehdr_of fp)) im
                  = Ret (tt, append (slice fp (headers fp) B E) im1)).
  { subst E. rewrite Hph in *. apply headers_from_cons in Hh as [Hr Hh]. cbn [length for_up].
    unfold add_segment at 1. rewrite bind_assoc, Hr, bind_ret, bind_assoc. cbn [Z.eqb when].
    rewrite (bind_step _ _ _ _ _ E1).
    destruct (segment_run fp ph t B im1 (nbytes im) B) as (E2 & Hle & Ho'); [done..|lia|lia|].
    rewrite (bind_step _ _ _ _ _ E2), (slice_cons fp ph t B Ho).
    set (hi := if loads ph then seg_end ph else B) in *.
    rewrite (segments_run vm fp _ t (0 + 1) hi _ (nbytes im) B); [by rewrite append_append|lia|done|done
      |by apply append_at_end|done| |change (memory_end hi t) with (memory_end B (ph :: t)); lia].
    cbn [nbytes append]. rewrite slice_length by done. lia. }
  rewrite (bind_step _ _ _ _ _ Hloop). unfold process_end.
  assert (Hsl : Z.of_nat (length (slice fp (headers fp) B E)) = E - B) by (by apply slice_length).
  rewrite (bind_step _ _ _ _ _ (pad_sector (Z.to_nat (padding (E - B))) (append (slice fp (headers fp) B E) im1)
    (Z.to_nat SECTOR_SIZE) ltac:(by apply append_at_end) ltac:(cbn [nbytes append]; lia)
    ltac:(cbn [nbytes append]; rewrite Hsl; unfold padding, SECTOR_SIZE in *; zdiv)
    ltac:(unfold SECTOR_SIZE; lia))).
  rewrite append_append, bind_get. exists (offset im1). unfold modify. do 2 f_equal.
  assert (Hpi : slice fp (headers fp) B E ++ replicate (Z.to_nat (padding (E - B))) 0 = program_image fp) by done.
  rewrite Hpi. unfold with_file, set_dir_size, append. cbn. rewrite I1, I2, I3, I4, I5. f_equal. f_equal.
  rewrite s32_small; unfold SECTOR_SIZE in *; zdiv.
Qed.

End AddFile.

(** ** Overwriting parts of the image *)

Definition is_byte (c : Z) : Prop := 0 <= c < 256.

Lemma fwrite_over l : forall a old b,
  length old = length l -> Forall is_byte l ->
  fwrite l (mk_file (a ++ old ++ b) (Z.of_nat (length a)))
  = mk_file (a ++ l ++ b) (Z.of_nat (length a + length l)).
Proof.
  induction l as [|c l IH]; intros a old b Hl Hb.
  - destruct old; [|done]. unfold fwrite. cbn. by rewrite Nat.add_0_r.
  - apply list.Forall_cons_1 in Hb as [Hc Hb]. destruct old as [|x old]; [done|]. cbn [length] in Hl.
    change (fwrite (c :: l) ?f) with (fwrite l (fputc c f)).
    unfold fputc. cbn [pos data]. unfold write_at. rewrite Nat2Z.id, u8_small by done.
    rewrite (proj2 (Nat.ltb_lt _ _)) by (rewrite length_app; cbn; lia).
    rewrite insert_app_r_alt, Nat.sub_diag by done. cbn [app insert list_insert].
    specialize (IH (a ++ [c]) old b ltac:(lia) Hb). rewrite length_app in IH. cbn [length] in IH.
    rewrite <- !app_assoc in IH. cbn [app] in IH.
    replace (Z.of_nat (length a) + 1) with (Z.of_nat (length a + 1)) by lia.
    rewrite IH. f_equal. cbn [length]. lia.
Qed.

Lemma le4_bytes x : Forall is_byte (le4 x).
Proof. repeat constructor; unfold is_byte; zdiv. Qed.

Lemma short_bytes_bytes x : Forall is_byte (short_bytes x).
Proof. repeat constructor; unfold is_byte, u16; change (2 ^ 16) with 65536; zdiv. Qed.

Lemma dir_bytes_bytes d : Forall is_byte (dir_bytes d).
Proof. apply list.Forall_app. split; apply le4_bytes. Qed.

(** ** The layout of the disk *)

Definition sectors (l : list Z) : Z := Z.of_nat (length l) / SECTOR_SIZE.

(** Directory entries of images that follow each other from sector [loc] on. *)
Fixpoint entries (loc : Z) (imgs : list (list Z)) : list directory_t :=
  match imgs with
  | [] => []
  | i :: imgs' => mk_dir loc (sectors i) :: entries (loc + sectors i) imgs'
  end.

Definition dir_sector (es : list directory_t) : list Z :=
  concat (dir_bytes <$> es) ++ replicate (512 - 8 * length es) 0.

(** The boot block with the size of the kernel in sectors. *)
Definition stamped (os_size : Z) (boot : list Z) : list Z := take 2 boot ++ short_bytes os_size ++ drop 4 boot.

Definition disk_layout (boot kernel : list Z) (progs : list (list Z)) : list Z :=
  let kimg := program_image kernel in
  let imgs := program_image <$> progs in
  stamped (sectors kimg) (program_image boot) ++ kimg
  ++ dir_sector (entries (sectors kimg + 2) imgs) ++ concat imgs.

Lemma dir_bytes_length d : length (dir_bytes d) = 8%nat.
Proof. done. Qed.

Lemma concat_dir_length es : length (concat (dir_bytes <$> es)) = (8 * length es)%nat.
Proof.
  induction es as [|e es IH]; [done|]. rewrite fmap_cons. cbn [concat]. rewrite length_app, IH, dir_bytes_length.
  cbn [length]. lia.
Qed.

Lemma dir_sector_snoc es e :
  (length es < 64)%nat ->
  dir_sector (es ++ [e]) = concat (dir_bytes <$> es) ++ dir_bytes e ++ replicate (504 - 8 * length es) 0.
Proof.
  intros H. unfold dir_sector. rewrite fmap_app, concat_app, length_app. cbn [fmap list_fmap concat length].
  rewrite app_nil_r, <- app_assoc. do 3 f_equal. lia.
Qed.

Lemma dir_sector_split es :
  (length es < 64)%nat ->
  dir_sector es = concat (dir_bytes <$> es) ++ replicate 8 0 ++ replicate (504 - 8 * length es) 0.
Proof. intros H. unfold dir_sector. rewrite <- replicate_add. do 2 f_equal. lia. Qed.


Record laid (im : image_t) (H : list Z) (es : list directory_t) (body : list Z) : Prop := {
  laid_data : data (img im) = H ++ dir_sector es ++ body;
  laid_end : at_end im;
  laid_sectors : nbytes im mod SECTOR_SIZE = 0;
  laid_loc : pd_loc im = Z.of_nat (length H + 8 * length es);
  laid_lim : pd_lim im = Z.of_nat (length H + 512);
  laid_size : nbytes im < 2 ^ 32
}.

Section Processes.

Context (fopen : string -> option (list Z)).

Lemma dir_sector_length es : (length es <= 64)%nat -> length (dir_sector es) = 512%nat.
Proof. intros. unfold dir_sector. rewrite length_app, concat_dir_length, length_replicate. lia. Qed.

Lemma laid_nonzero im H es body : (length es <= 64)%nat -> laid im H es body -> Z.of_nat (length H) + 512 <= nbytes im.
Proof.
  intros He []. destruct laid_end0 as [_ ->]. rewrite laid_data0, !length_app, dir_sector_length by done. lia.
Qed.

(** Adding the entry of the program that was just written. *)
Lemma add_process_to_dir_run im H es body :
  laid im H es body -> (length es < 63)%nat ->
  exists im', add_process_to_dir true im = Ret (tt, im') /\ laid im' H (es ++ [dir im]) body
    /\ nbytes im' = nbytes im.
Proof.
  intros HL He. pose proof (laid_nonzero im H es body ltac:(lia) HL) as Hnz.
  destruct HL as [L1 [L2 L2'] L3 L4 L5 L6].
  unfold add_process_to_dir. rewrite bind_assertk_true, bind_get, L4, L5 by done.
  rewrite u64_small by lia. rewrite (proj2 (Z.leb_gt _ _)) by lia. rewrite !bind_modify.
  assert (Hw : fwrite (dir_bytes (dir im)) (fseek_set (pd_loc im) (img im))
    = mk_file (H ++ dir_sector (es ++ [dir im]) ++ body) (Z.of_nat (length H + 8 * length es + 8))).
  { unfold fseek_set. rewrite L1, L4, dir_sector_snoc, (dir_sector_split es) by lia.
    pose proof (fwrite_over (dir_bytes (dir im)) (H ++ concat (dir_bytes <$> es)) (replicate 8 0)
      (replicate (504 - 8 * length es) 0 ++ body) eq_refl (dir_bytes_bytes _)) as Hw.
    rewrite length_app, concat_dir_length, <- !app_assoc in Hw. rewrite <- !app_assoc. exact Hw. }
  eexists. split; [reflexivity|]. rewrite Hw. cbn.
  assert (Hlen : length (H ++ dir_sector (es ++ [dir im]) ++ body) = length (data (img im))).
  { rewrite L1, !length_app, !dir_sector_length; [done|lia|]. rewrite length_app. cbn. lia. }
  split; [|done]. split; cbn; try done.
  - unfold at_end. cbn. by rewrite Hlen.
  - rewrite u64_small, length_app by lia. cbn [length]. lia.
Qed.

Definition total_size (imgs : list (list Z)) : Z := Z.of_nat (length (concat imgs)).

Lemma add_process_run im H es body name fp (k : M image_t unit) :
  laid im H es body -> fopen name = Some fp -> elf_ok fp = true -> fits fp (nbytes im) ->
  (length es < 63)%nat ->
  exists im', bind (add_file true fopen name) (fun _ => bind (when true (add_process_to_dir true)) (fun _ => k)) im = k im'
    /\ laid im' H (es ++ [mk_dir (nbytes im / SECTOR_SIZE) (sectors (program_image fp))]) (body ++ program_image fp)
    /\ nbytes im' = nbytes im + Z.of_nat (length (program_image fp)).
Proof.
  intros HL Hn Hok Hf He. pose proof (laid_nonzero im H es body ltac:(lia) HL) as Hnz. destruct HL as [L1 L2 L3 L4 L5 L6].
  destruct (add_file_run true fopen name fp im) as (o & E); try done; [lia|].
  rewrite (bind_step _ _ _ _ _ E). cbn [when].
  destruct (elf_headers fp Hok) as (_ & _ & _ & _ & Ho & _).
  pose proof (program_image_sectors fp Ho) as Hps. unfold fits in Hf.
  assert (HL' : laid (with_file fp o im) H es (body ++ program_image fp)).
  { destruct L2 as [L2 L2']. split; cbn [with_file img nbytes data pd_loc pd_lim]; try done.
    - rewrite L1. by rewrite <- !app_assoc.
    - unfold at_end. cbn [with_file img nbytes data pos]. rewrite length_app. lia.
    - unfold SECTOR_SIZE in *. zdiv. }
  destruct (add_process_to_dir_run _ _ _ _ HL' He) as (im' & E2 & HL2 & N). exists im'.
  by rewrite (bind_step _ _ _ _ _ E2).
Qed.

Lemma add_processes_run names progs : forall im H es body,
  Forall2 (fun n fp => fopen n = Some fp) names progs -> Forall (fun fp => elf_ok fp = true) progs ->
  laid im H es body -> (length es + length progs <= 63)%nat ->
  nbytes im + total_size (program_image <$> progs) < 2 ^ 32 ->
  exists im', add_processes true fopen names im = Ret (tt, im')
    /\ laid im' H (es ++ entries (nbytes im / SECTOR_SIZE) (program_image <$> progs))
         (body ++ concat (program_image <$> progs)).
Proof.
  revert progs. induction names as [|name names IH]; intros progs im H es body Hop Hok HL Hlen Hsz.
  - apply Forall2_nil_inv_l in Hop as ->. exists im. split; [done|]. cbn. by rewrite !app_nil_r.
  - apply Forall2_cons_inv_l in Hop as (fp & progs' & Hf & Hop & ->).
    apply list.Forall_cons_1 in Hok as [Hk Hok]. cbn [length] in Hlen.
    unfold total_size in Hsz. rewrite fmap_cons in Hsz. cbn [concat] in Hsz. rewrite length_app in Hsz.
    destruct (add_process_run im H es body name fp (add_processes true fopen names))
      as (im1 & E & HL1 & N1); try done; [unfold fits; lia|lia|].
    destruct (IH progs' im1 H _ _ Hop Hok HL1) as (im' & E' & HL').
    { rewrite length_app. cbn. lia. }
    { rewrite N1. unfold total_size. lia. }
    exists im'. cbn [add_processes]. rewrite E. split; [done|].
    rewrite fmap_cons. cbn [entries concat]. rewrite <- !app_assoc in HL'. cbn [app] in HL'.
    rewrite N1 in HL'. destruct (elf_headers fp Hk) as (_ & _ & _ & _ & Ho & _).
    pose proof (program_image_sectors fp Ho) as Hps.
    replace ((nbytes im + Z.of_nat (length (program_image fp))) / SECTOR_SIZE)
      with (nbytes im / SECTOR_SIZE + sectors (program_image fp)) in HL'; [done|].
    pose proof (laid_sectors _ _ _ _ HL). unfold sectors, SECTOR_SIZE in *. zdiv.
Qed.

End Processes.

(** ** The whole image *)

Lemma whole_sectors l : Z.of_nat (length l) mod SECTOR_SIZE = 0 -> Z.of_nat (length l) = sectors l * 512.
Proof. unfold sectors, SECTOR_SIZE. intros. zdiv. Qed.

(** What the arguments of [create_image] have to be. *)
Record inputs (fopen : string -> option (list Z)) (b k : string) (names : list string)
    (boot kernel : list Z) (progs : list (list Z)) : Prop := {
  in_boot : fopen b = Some boot;
  in_kernel : fopen k = Some kernel;
  in_progs : Forall2 (fun n fp => fopen n = Some fp) names progs;
  in_elf : Forall (fun fp => elf_ok fp = true) (boot :: kernel :: progs);
  in_sector : length (program_image boot) = 512%nat;
  in_address : forall ph, head (headers boot) = Some ph -> p_vaddr ph = 0;
  in_os_size : sectors (program_image kernel) < 2 ^ 16;
  in_total : 1024 + total_size (program_image <$> (kernel :: progs)) < 2 ^ 32
}.

Section Create.

Context (fopen : string -> option (list Z)) (b k : string) (names : list string).
Context (boot kernel : list Z) (progs : list (list Z)).
Context (HI : inputs fopen b k names boot kernel progs).

Let kimg := program_image kernel.

Lemma elf_sectors fp : elf_ok fp = true -> Z.of_nat (length (program_image fp)) mod SECTOR_SIZE = 0.
Proof. intros H. destruct (elf_headers fp H) as (_ & _ & _ & _ & Ho & _). by apply program_image_sectors. Qed.

Lemma write_os_size_run im :
  at_end im -> data (img im) = program_image boot ++ kimg ->
  write_os_size im = Ret (tt, set_img (mk_file (stamped (sectors kimg) (program_image boot) ++ kimg)
                                         (Z.of_nat (length (program_image boot ++ kimg)))) im).
Proof.
  intros [Ha Hn] Hd. destruct HI. apply list.Forall_cons_1 in in_elf0 as [_ He].
  apply list.Forall_cons_1 in He as [He _]. pose proof (elf_sectors _ He) as Hk. fold kimg in Hk.
  rewrite Hd in Hn. rewrite length_app, in_sector0 in Hn. apply whole_sectors in Hk.
  unfold write_os_size. rewrite bind_get, bind_assertk_true
    by (apply Z.eqb_eq; unfold sectors, SECTOR_SIZE in *; zdiv).
  replace (nbytes im / SECTOR_SIZE - 1) with (sectors kimg) by (unfold sectors, SECTOR_SIZE in *; zdiv).
  unfold modify. do 3 f_equal. unfold fseek_set. rewrite Hd.
  assert (Hs : program_image boot ++ kimg
    = take 2 (program_image boot) ++ take 2 (drop 2 (program_image boot)) ++ (drop 4 (program_image boot) ++ kimg)).
  { change 4%nat with (2 + 2)%nat. by rewrite <- (drop_drop _ 2 2), (app_assoc (take 2 (drop 2 _))), take_drop,
      app_assoc, take_drop. }
  pose proof (fwrite_over (short_bytes (sectors kimg)) (take 2 (program_image boot))
    (take 2 (drop 2 (program_image boot))) (drop 4 (program_image boot) ++ kimg)) as Hw.
  rewrite <- Hs in Hw. rewrite (length_take_le (program_image boot) 2) in Hw by lia.
  change OS_SIZE_LOC with (Z.of_nat 2).
  rewrite Hw; [|rewrite length_take, length_drop, in_sector0; done|apply short_bytes_bytes].
  unfold fseek_end, stamped. cbn [data]. f_equal; [by rewrite <- !app_assoc|].
  rewrite !length_app, length_take, length_drop, in_sector0. cbn [length short_bytes]. lia.
Qed.

Lemma stamped_length n l : length l = 512%nat -> length (stamped n l) = 512%nat.
Proof.
  intros H. unfold stamped. rewrite !length_app, length_take, length_drop, H. done.
Qed.

Lemma reserve_run im :
  at_end im -> nbytes im mod SECTOR_SIZE = 0 -> nbytes im + 512 < 2 ^ 32 ->
  exists im', reserve_process_dir true im = Ret (tt, im') /\ laid im' (data (img im)) [] []
    /\ nbytes im' = nbytes im + 512.
Proof.
  intros Ha Hs Hb. destruct Ha as [Ha Hn]. unfold reserve_process_dir.
  rewrite bind_get, !bind_assertk_true, !bind_modify by (done || by apply Z.eqb_eq).
  rewrite (emit_loop (fun _ => 0)) by (done || (cbn; unfold SECTOR_SIZE; lia)).
  eexists. split; [reflexivity|]. split; [|done].
  change ((fun _ : Z => u8 0) <$> seqZ 0 (Z.of_nat (Z.to_nat SECTOR_SIZE))) with (replicate 512 0).
  split; unfold at_end; cbn [append img data nbytes pos pd_loc pd_lim set_pd_lim set_pd_loc];
    rewrite ?length_app, ?length_replicate; try lia.
  - change (dir_sector []) with (replicate 512 0). by rewrite app_nil_r.
  - unfold SECTOR_SIZE in *. zdiv.
  - rewrite u64_small by lia. cbn [length]. lia.
  - unfold SECTOR_SIZE. rewrite u64_small by lia. lia.
Qed.

(** The boot block, the kernel and the empty directory. *)
Lemma create_head_run im :
  exists im3, create_image true fopen b k names im
      = (add_processes true fopen names ;;; when (negb true) write_os_size ;;;
         im <-- get ;; assertk (nbytes im mod SECTOR_SIZE =? 0)) im3
    /\ laid im3 (stamped (sectors kimg) (program_image boot) ++ kimg) [] []
    /\ nbytes im3 = 512 + Z.of_nat (length kimg) + 512
    /\ nbytes im3 + total_size (program_image <$> progs) < 2 ^ 32.
Proof.
  pose proof HI as [I1 I2 I3 I4 I5 I6 I7 I8].
  apply list.Forall_cons_1 in I4 as [Eb I4]. apply list.Forall_cons_1 in I4 as [Ek Ep].
  pose proof (elf_sectors _ Ek) as Hk. apply whole_sectors in Hk. fold kimg in Hk.
  unfold total_size in I8. rewrite fmap_cons in I8. cbn [concat] in I8. rewrite length_app in I8. fold kimg in I8.
  unfold create_image. rewrite bind_modify.
  set (im0 := set_nbytes 0 (set_img (mk_file [] 0) im)).
  destruct (add_file_run true fopen b boot im0) as (o & E); try done; [unfold fits; cbn [nbytes im0]; rewrite I5; done|].
  rewrite (bind_step _ _ _ _ _ E). set (im1 := with_file boot o im0).
  assert (H1 : at_end im1) by (by apply with_file_at_end).
  assert (N1 : nbytes im1 = 512) by (unfold im1, with_file; cbn [nbytes]; by rewrite I5).
  destruct (add_file_run true fopen k kernel im1) as (o2 & E2); try done;
    [by rewrite N1|unfold fits; fold kimg; lia|rewrite N1; done|].
  rewrite (bind_step _ _ _ _ _ E2). set (im2 := with_file kernel o2 im1).
  assert (D2 : data (img im2) = program_image boot ++ kimg) by done.
  assert (N2 : nbytes im2 = 512 + Z.of_nat (length kimg)) by (unfold im2, with_file; cbn [nbytes]; by rewrite N1).
  assert (H2 : at_end im2) by (by apply with_file_at_end).
  cbn [when]. rewrite bind_assoc, (bind_step _ _ _ _ _ (write_os_size_run im2 H2 D2)).
  destruct (reserve_run (set_img (mk_file (stamped (sectors kimg) (program_image boot) ++ kimg)
    (Z.of_nat (length (program_image boot ++ kimg)))) im2)) as (im3 & E3 & HL3 & N3).
  { unfold at_end. cbn [img nbytes pos data set_img]. rewrite N2, !length_app, stamped_length, I5 by done. lia. }
  { cbn [nbytes set_img]. unfold SECTOR_SIZE. rewrite N2, Hk. zdiv. }
  { cbn [nbytes set_img]. lia. }
  rewrite (bind_step _ _ _ _ _ E3). cbn [img data set_img nbytes] in HL3, N3.
  exists im3. split_and!; [done|done|lia|unfold total_size; lia].
Qed.

Lemma create_image_run im :
  (length progs <= 63)%nat ->
  exists im', create_image true fopen b k names im = Ret (tt, im')
    /\ data (img im') = disk_layout boot kernel progs.
Proof.
  intros Hcount. destruct (create_head_run im) as (im3 & E3 & HL3 & N3 & Hsz).
  pose proof HI as [I1 I2 I3 I4 I5 I6 I7 I8].
  apply list.Forall_cons_1 in I4 as [Eb I4]. apply list.Forall_cons_1 in I4 as [Ek Ep].
  pose proof (elf_sectors _ Ek) as Hk. apply whole_sectors in Hk. fold kimg in Hk. rewrite E3.
  destruct (add_processes_run fopen names progs im3 _ _ _ I3 Ep HL3) as (im4 & E4 & HL4); [done|done|].
  rewrite (bind_step _ _ _ _ _ E4). cbn [negb when]. rewrite bind_ret, bind_get.
  exists im4. split; [unfold assertk; by rewrite (laid_sectors _ _ _ _ HL4)|].
  rewrite (laid_data _ _ _ _ HL4), N3. unfold disk_layout. fold kimg. cbn [app]. rewrite <- !app_assoc.
  do 4 f_equal. f_equal. unfold SECTOR_SIZE. rewrite Hk. zdiv.
Qed.

End Create.

(** ** Reading the layout back *)

Lemma byte_at_skip a r o i : o = Z.of_nat (length a) -> 0 <= i -> byte_at (a ++ r) (o + i) = byte_at r i.
Proof. intros -> Hi. unfold byte_at. rewrite lookup_app_r by lia. do 2 f_equal. lia. Qed.

Lemma word_at_le4 a x r o : o = Z.of_nat (length a) -> 0 <= x < 2 ^ 32 -> word_at (a ++ le4 x ++ r) o = x.
Proof.
  intros Ho Hx. unfold word_at. rewrite <- (Z.add_0_r o) at 1. rewrite !byte_at_skip by done.
  by apply of_le4_le4.
Qed.

Lemma half_at_short a x r o : o = Z.of_nat (length a) -> 0 <= x < 2 ^ 16 -> half_at (a ++ short_bytes x ++ r) o = x.
Proof.
  intros Ho Hx. unfold half_at. rewrite <- (Z.add_0_r o) at 1. rewrite !byte_at_skip by done.
  change (u16 x mod 256 + u16 x / 256 * 256 = x). unfold u16. rewrite (Z.mod_small x) by done. zdiv.
Qed.

Lemma dir_entry_split es i e :
  es !! i = Some e -> exists p q, dir_sector es = p ++ dir_bytes e ++ q /\ length p = (8 * i)%nat.
Proof.
  intros Hi. apply list_elem_of_split_length in Hi as (l1 & l2 & -> & ->). unfold dir_sector.
  rewrite fmap_app, fmap_cons, concat_app. cbn [concat]. rewrite <- !app_assoc.
  eexists _, _. split; [done|]. apply concat_dir_length.
Qed.

Lemma entries_length imgs : forall loc, length (entries loc imgs) = length imgs.
Proof. induction imgs as [|i imgs IH]; intros loc; [done|]. cbn. by rewrite IH. Qed.

(** The entry of an image says where it is. *)
Lemma entries_lookup imgs : forall loc i img,
  Forall (fun l => Z.of_nat (length l) mod SECTOR_SIZE = 0) imgs -> imgs !! i = Some img ->
  exists e p q, entries loc imgs !! i = Some e /\ dir_size e = sectors img
    /\ concat imgs = p ++ img ++ q /\ location e * 512 = loc * 512 + Z.of_nat (length p).
Proof.
  induction imgs as [|m imgs IH]; intros loc i img Hs Hi; [done|].
  apply list.Forall_cons_1 in Hs as [Hm Hs]. destruct i as [|i].
  - injection Hi as ->. exists (mk_dir loc (sectors img)), [], (concat imgs). cbn. split_and!; try done. lia.
  - destruct (IH (loc + sectors m) i img Hs Hi) as (e & p & q & H1 & H2 & H3 & H4).
    exists e, (m ++ p), q. cbn [entries concat]. rewrite H3, <- app_assoc, length_app.
    apply whole_sectors in Hm. split_and!; try done. lia.
Qed.

Lemma slice_of_app {A} (a m b : list A) n : n = length a -> take (length m) (drop n (a ++ m ++ b)) = m.
Proof. intros ->. by rewrite drop_app_length, take_app_length. Qed.

Section Layout.

Context (boot kernel : list Z) (progs : list (list Z)).
Context (Hboot : length (program_image boot) = 512%nat).
Context (Helf : Forall (fun fp => elf_ok fp = true) (kernel :: progs)).
Context (Hos : sectors (program_image kernel) < 2 ^ 16).
Context (Htotal : 1024 + total_size (program_image <$> (kernel :: progs)) < 2 ^ 32).
Context (Hcount : (length progs <= 63)%nat).

Let disk := disk_layout boot kernel progs.
Let kimg := program_image kernel.
Let dir_at := (sectors kimg + 1) * 512.
Let es := entries (sectors kimg + 2) (program_image <$> progs).
Let H := stamped (sectors kimg) (program_image boot) ++ kimg.

Lemma layout_split : disk = H ++ dir_sector es ++ concat (program_image <$> progs).
Proof. unfold disk, H, disk_layout. by rewrite <- app_assoc. Qed.

Lemma kernel_sectors : Z.of_nat (length kimg) = sectors kimg * 512.
Proof. apply list.Forall_cons_1 in Helf as [Hk _]. by apply whole_sectors, elf_sectors. Qed.

Lemma header_length : Z.of_nat (length H) = dir_at.
Proof.
  unfold H, dir_at. rewrite length_app, stamped_length by done. pose proof kernel_sectors. lia.
Qed.

Lemma layout_length : Z.of_nat (length disk) = dir_at + 512 + total_size (program_image <$> progs).
Proof.
  rewrite layout_split, !length_app. unfold total_size. pose proof header_length.
  rewrite dir_sector_length by (unfold es; rewrite entries_length, length_fmap; lia). lia.
Qed.

Lemma layout_os_size : half_at disk OS_SIZE_LOC = sectors kimg.
Proof.
  unfold disk, disk_layout. fold kimg. unfold stamped. rewrite <- !app_assoc. apply half_at_short.
  - rewrite length_take_le by lia. done.
  - split; [|done]. apply Z.div_pos; unfold SECTOR_SIZE; lia.
Qed.

Lemma layout_kernel : take (length kimg) (drop 512 disk) = kimg.
Proof. unfold disk, disk_layout. apply slice_of_app. symmetry. by apply stamped_length. Qed.

Lemma layout_program i fp :
  progs !! i = Some fp ->
  exists loc, loc <> 0
    /\ word_at disk (dir_at + 8 * Z.of_nat i) = loc
    /\ word_at disk (dir_at + 8 * Z.of_nat i + 4) = sectors (program_image fp)
    /\ take (length (program_image fp)) (drop (Z.to_nat (loc * 512)) disk) = program_image fp.
Proof.
  intros Hi. pose proof kernel_sectors as Hk. pose proof header_length as Hh.
  apply list.Forall_cons_1 in Helf as [_ He].
  assert (Hs : Forall (fun l => Z.of_nat (length l) mod SECTOR_SIZE = 0) (program_image <$> progs)).
  { apply list.Forall_fmap. eapply list.Forall_impl; [exact He|]. intros x Hx. by apply elf_sectors. }
  assert (Hf : elf_ok fp = true) by (by eapply Forall_lookup_1 in He).
  pose proof (whole_sectors _ (elf_sectors _ Hf)) as Hz.
  assert (Hi' : (program_image <$> progs) !! i = Some (program_image fp)) by (by rewrite list_lookup_fmap, Hi).
  destruct (entries_lookup _ (sectors kimg + 2) i _ Hs Hi') as (e & p & q & H1 & H2 & H3 & H4).
  assert (Hlp : Z.of_nat (length (program_image fp)) + Z.of_nat (length p) + Z.of_nat (length kimg) + 1024 < 2 ^ 32).
  { unfold total_size in Htotal. rewrite fmap_cons in Htotal. cbn [concat] in Htotal. rewrite length_app, H3, !length_app in Htotal.
    fold kimg in Htotal. lia. }
  destruct (dir_entry_split _ i e H1) as (dp & dq & D1 & D2). fold es in D1.
  pose proof (dir_sector_length es) as Dl. unfold es in Dl at 1. rewrite entries_length, length_fmap in Dl.
  specialize (Dl ltac:(lia)).
  assert (W : disk = (H ++ dp) ++ le4 (u32 (location e)) ++ le4 (u32 (dir_size e)) ++ dq ++ concat (program_image <$> progs)).
  { rewrite layout_split, D1. unfold dir_bytes. by rewrite <- !app_assoc. }
  assert (0 <= sectors kimg) by (apply Z.div_pos; unfold SECTOR_SIZE; lia).
  exists (location e). split_and!.
  - lia.
  - rewrite W, word_at_le4; rewrite ?length_app; try (apply u32_small; lia); try (apply u32_range). lia.
  - rewrite W, app_assoc, word_at_le4, u32_small, H2; rewrite ?length_app, ?H2; try lia.
    + cbn [length le4]. lia.
    + apply u32_range.
  - rewrite layout_split, H3.
    replace (H ++ dir_sector es ++ p ++ program_image fp ++ q)
      with ((H ++ dir_sector es ++ p) ++ program_image fp ++ q) by (by rewrite <- !app_assoc).
    apply slice_of_app. rewrite !length_app, Dl. lia.
Qed.

Lemma layout_end : word_at disk (dir_at + 8 * Z.of_nat (length progs)) = 0.
Proof.
  pose proof header_length as Hh. rewrite layout_split. unfold dir_sector, es at 2.
  rewrite entries_length, length_fmap.
  replace (512 - 8 * length progs)%nat with (4 + (508 - 8 * length progs))%nat by lia.
  rewrite replicate_add. change (replicate 4 0) with (le4 0). rewrite <- !app_assoc, app_assoc.
  apply word_at_le4; [|done]. rewrite length_app, concat_dir_length. unfold es. rewrite entries_length, length_fmap. lia.
Qed.

End Layout.

(** ** Theorems *)

(** [C34] Adding a program appends its memory image: the bytes of each segment that
    is to be loaded and is executable, at their distance from the page of the
    first header, zeros between and behind them, and zeros up to a whole sector;
    the segments that are loaded but not executable are not part of it.  The
    directory entry that is to be written says where it is and how long, in
    sectors. *)
Theorem add_file_appends_image vm fopen name fp im :
  fopen name = Some fp -> elf_ok fp = true -> at_end im -> nbytes im mod SECTOR_SIZE = 0 ->
  fits fp (nbytes im) ->
  (nbytes im = 0 -> forall ph, head (headers fp) = Some ph -> p_vaddr ph = 0) ->
  (nbytes im <> 0 -> vm = true) ->
  exists im', add_file vm fopen name im = Ret (tt, im')
    /\ data (img im') = data (img im) ++ program_image fp
    /\ location (dir im') = nbytes im / SECTOR_SIZE
    /\ dir_size (dir im') * SECTOR_SIZE = Z.of_nat (length (program_image fp)).
Proof.
  intros H1 H2 H3 H4 H5 H6 H7. destruct (add_file_run vm fopen name fp im) as (o & E); try done.
  exists (with_file fp o im). split_and!; try done.
  cbn [with_file dir dir_size]. pose proof (whole_sectors _ (elf_sectors _ H2)) as Hw. by rewrite Hw at 2.
Qed.

(** The command line that the build uses. *)
Lemma main_vm fopen b k names im :
  String.prefix "--" b = false ->
  main fopen ("--vm"%string :: b :: k :: names) im = create_image true fopen b k names im.
Proof. intros Hb. unfold main, parse_options. cbn [parse_flags]. cbn. by rewrite Hb. Qed.

(** [C27] The disk that [createimage --vm] builds from a boot block, a kernel and up to
    63 programs: the half word at offset 2 is the length of the kernel in
    sectors; the kernel is behind the boot block; the sector behind the kernel
    is the directory, whose [i]-th entry tells the truth about the [i]-th
    program: at that sector the disk has the program's memory image, of that
    many sectors; and behind the last entry there is a zero entry. *)
Theorem main_builds_disk fopen b k names boot kernel progs im :
  String.prefix "--" b = false -> inputs fopen b k names boot kernel progs ->
  (length progs <= 63)%nat ->
  exists im', main fopen ("--vm"%string :: b :: k :: names) im = Ret (tt, im')
    /\ let disk := data (img im') in
       let os_size := half_at disk OS_SIZE_LOC in
       let dir_at := (os_size + 1) * 512 in
       os_size * 512 = Z.of_nat (length (program_image kernel))
       /\ take (length (program_image kernel)) (drop 512 disk) = program_image kernel
       /\ (forall i fp, progs !! i = Some fp ->
             exists loc, loc <> 0 /\ word_at disk (dir_at + 8 * Z.of_nat i) = loc
               /\ word_at disk (dir_at + 8 * Z.of_nat i + 4) = sectors (program_image fp)
               /\ take (length (program_image fp)) (drop (Z.to_nat (loc * 512)) disk) = program_image fp)
       /\ word_at disk (dir_at + 8 * Z.of_nat (length progs)) = 0.
Proof.
  intros Hb HI Hc. rewrite main_vm by done.
  destruct (create_image_run fopen b k names boot kernel progs HI im Hc) as (im' & E & D).
  exists im'. split; [done|]. destruct HI. apply list.Forall_cons_1 in in_elf0 as [_ He].
  cbv zeta. rewrite D, (layout_os_size boot kernel progs) by done. split_and!.
  - symmetry. by apply (kernel_sectors kernel progs).
  - by apply layout_kernel.
  - intros i fp Hi. by apply layout_program.
  - by apply layout_end.
Qed.

(** One program too many. *)
Lemma add_processes_too_many fopen names progs : forall im H es body,
  Forall2 (fun n fp => fopen n = Some fp) names progs -> Forall (fun fp => elf_ok fp = true) progs ->
  laid im H es body -> (length es <= 63 < length es + length progs)%nat ->
  nbytes im + total_size (program_image <$> progs) < 2 ^ 32 ->
  add_processes true fopen names im = Halt.
Proof.
  revert progs. induction names as [|name names IH]; intros progs im H es body Hop Hok HL Hlen Hsz.
  - apply Forall2_nil_inv_l in Hop as ->. cbn in Hlen. lia.
  - apply Forall2_cons_inv_l in Hop as (fp & progs' & Hf & Hop & ->).
    apply list.Forall_cons_1 in Hok as [Hk Hok]. cbn [length] in Hlen.
    unfold total_size in Hsz. rewrite fmap_cons in Hsz. cbn [concat] in Hsz. rewrite length_app in Hsz.
    cbn [add_processes]. destruct (decide (length es = 63%nat)) as [E63|E63].
    + pose proof (laid_nonzero im H es body ltac:(lia) HL) as Hnz. destruct HL as [L1 L2 L3 L4 L5 L6].
      destruct (add_file_run true fopen name fp im) as (o & E); try done; [unfold fits; lia|lia|].
      rewrite (bind_step _ _ _ _ _ E). cbn [when]. unfold bind at 1, add_process_to_dir at 1.
      rewrite bind_assertk_true, bind_get by done. cbn [with_file pd_loc pd_lim].
      destruct L2 as [_ L2]. rewrite L4, L5, u64_small by lia. by rewrite (proj2 (Z.leb_le _ _)) by lia.
    + destruct (add_process_run fopen im H es body name fp (add_processes true fopen names))
        as (im1 & E & HL1 & N1); try done; [unfold fits; lia|lia|].
      rewrite E. apply (IH progs' im1 H _ _ Hop Hok HL1); [rewrite length_app; cbn; lia|].
      rewrite N1. unfold total_size. lia.
Qed.

(** With 64 programs or more [createimage] stops with an error: the directory
    keeps room for the zero entry that ends it. *)
Theorem main_too_many_programs fopen b k names boot kernel progs im :
  String.prefix "--" b = false -> inputs fopen b k names boot kernel progs ->
  (63 < length progs)%nat -> main fopen ("--vm"%string :: b :: k :: names) im = Halt.
Proof.
  intros Hb HI Hc. rewrite main_vm by done.
  destruct (create_head_run fopen b k names boot kernel progs HI im) as (im3 & -> & HL & _ & Hsz).
  destruct HI. apply list.Forall_cons_1 in in_elf0 as [_ He]. apply list.Forall_cons_1 in He as [_ He].
  unfold bind at 1. rewrite (add_processes_too_many fopen names progs im3 _ _ _ in_progs0 He HL); [done|cbn [length]; lia|done].
Qed.

(** ** Concrete instances *)

Module Image_instances.

(** An ELF file with one executable segment. *)
Definition elf (vaddr memsz : Z) (contents : list Z) : list Z :=
  [0x7f; 0x45; 0x4c; 0x46] ++ replicate 24 0 ++ le4 52 ++ replicate 10 0 ++ [32; 0; 1; 0] ++ replicate 6 0
  ++ le4 1 ++ le4 84 ++ le4 vaddr ++ le4 vaddr ++ le4 (Z.of_nat (length contents)) ++ le4 memsz
  ++ le4 5 ++ le4 0 ++ contents.

Definition boot_elf : list Z := elf 0 512 (replicate 510 7 ++ [0x55; 0xaa]).
Definition kernel_elf : list Z := elf 0x8000 700 [1; 2; 3].
Definition shell_elf : list Z := elf 0x1000010 4 [4; 5; 6; 7].

Definition files (name : string) : option (list Z) :=
  if String.eqb name "boot" then Some boot_elf
  else if String.eqb name "kernel" then Some kernel_elf
  else if String.eqb name "shell" then Some shell_elf
  else None.

Definition blank : image_t := mk_image (mk_file [] 0) 0 0 0 0 (mk_dir 0 0).

Lemma files_inputs n :
  (n <= 64)%nat ->
  inputs files "boot" "kernel" (replicate n "shell"%string) boot_elf kernel_elf (replicate n shell_elf).
Proof.
  intros Hn. split; try done.
  - induction n; constructor; [done|]. apply IHn. lia.
  - constructor; [vm_compute; done|]. constructor; [vm_compute; done|].
    apply Forall_replicate. vm_compute. done.
  - intros ph H. vm_compute in H. by injection H as <-.
  - do 65 (destruct n as [|n]; [vm_compute; done|]). lia.
Qed.

Lemma add_file_appends_image_witness :
  exists im', add_file true files "boot" blank = Ret (tt, im') /\ data (img im') = program_image boot_elf.
Proof.
  destruct (add_file_appends_image true files "boot" boot_elf blank) as (im' & E & D & _);
    [reflexivity|vm_compute; reflexivity|done|reflexivity|vm_compute; reflexivity| |done|].
  - intros _ ph H. vm_compute in H. by injection H as <-.
  - exists im'. split; [exact E|exact D].
Defined.

Lemma main_builds_disk_witness :
  exists im', main files ["--vm"; "boot"; "kernel"; "shell"; "shell"]%string blank = Ret (tt, im')
    /\ half_at (data (img im')) OS_SIZE_LOC * 512 = 1024.
Proof.
  destruct (main_builds_disk files "boot" "kernel" (replicate 2 "shell"%string) boot_elf kernel_elf
    (replicate 2 shell_elf) blank) as (im' & E & H & _);
    [reflexivity|apply files_inputs; lia|rewrite length_replicate; lia|].
  exists im'. split; [exact E|exact H].
Defined.

Lemma main_too_many_programs_witness :
  main files ("--vm"%string :: "boot"%string :: "kernel"%string :: replicate 64 "shell"%string) blank = Halt.
Proof.
  apply (main_too_many_programs files "boot" "kernel" (replicate 64 "shell"%string) boot_elf kernel_elf
    (replicate 64 shell_elf)); [reflexivity|apply files_inputs; lia|rewrite length_replicate; lia].
Defined.

End Image_instances.
