(* ===== verification/Boot.v ===== *)
(** * From the image builder to the kernel

    [Image] builds the disk, [Process] reads it: the directory that the kernel's
    [readdir] returns from a disk with the image that [createimage] built names
    the programs, and the sectors it names hold them. *)

From Stdlib Require Import String.
From S2P Require Import Prelude Image ImageFacts Sched Vmem VmemInstances Process.
Import Image.

#[local] Close Scope string_scope.
#[local] Open Scope list_scope.
#[local] Open Scope Z_scope.
#[local] Abbreviation length := List.length.

(** ** Bytes and words *)

Lemma u8_byte c : is_byte (u8 c).
Proof. apply u8_range. Qed.

Lemma memory_byte_byte fp phs a : is_byte (memory_byte fp phs a).
Proof.
  unfold memory_byte. destruct (List.find _ phs) as [ph|]; [|done]. unfold seg_byte.
  destruct (_ <? _); [apply u8_byte|done].
Qed.

Lemma program_image_bytes fp : Forall is_byte (program_image fp).
Proof.
  apply list.Forall_app. split; [|by apply Forall_replicate].
  apply list.Forall_fmap, Forall_true. intros a. apply memory_byte_byte.
Qed.

Lemma byte_at_byte l o : Forall is_byte l -> is_byte (byte_at l o).
Proof.
  intros H. unfold byte_at. destruct (l !! _) as [c|] eqn:E; [by eapply Forall_lookup_1 in H|done].
Qed.

Lemma layout_bytes boot kernel progs : Forall is_byte (disk_layout boot kernel progs).
Proof.
  unfold disk_layout, stamped, dir_sector. rewrite !list.Forall_app. split_and!.
  - apply Forall_take, program_image_bytes.
  - apply short_bytes_bytes.
  - apply Forall_drop, program_image_bytes.
  - apply program_image_bytes.
  - apply List.Forall_concat, list.Forall_fmap, Forall_true. apply dir_bytes_bytes.
  - by apply Forall_replicate.
  - apply List.Forall_concat, list.Forall_fmap, Forall_true. apply program_image_bytes.
Qed.

(** The upper half of a word is the half word two bytes on. *)
Lemma word_upper l o : Forall is_byte l -> word_at l o / 2 ^ 16 = half_at l (o + 2).
Proof.
  intros H. pose proof (byte_at_byte l o H). pose proof (byte_at_byte l (o + 1) H).
  pose proof (byte_at_byte l (o + 2) H). pose proof (byte_at_byte l (o + 3) H).
  unfold word_at, half_at, of_le4, is_byte in *. replace (o + 2 + 1) with (o + 3) by lia. zdiv.
Qed.

Lemma word_range l o : Forall is_byte l -> 0 <= word_at l o < 2 ^ 32.
Proof.
  intros H. pose proof (byte_at_byte l o H). pose proof (byte_at_byte l (o + 1) H).
  pose proof (byte_at_byte l (o + 2) H). pose proof (byte_at_byte l (o + 3) H).
  unfold word_at, of_le4, is_byte in *. lia.
Qed.

(** A word of a slice. *)
Lemma word_at_slice l m n o :
  take (length m) (drop n l) = m -> 0 <= o -> o + 4 <= Z.of_nat (length m) ->
  word_at l (Z.of_nat n + o) = word_at m o.
Proof.
  intros Hs Ho Hl.
  assert (B : forall i, 0 <= i -> i < Z.of_nat (length m) -> byte_at l (Z.of_nat n + i) = byte_at m i).
  { intros i H1 H2. unfold byte_at. rewrite <- Hs at 1. rewrite lookup_take_lt by lia. rewrite lookup_drop.
    do 2 f_equal. lia. }
  unfold word_at. rewrite <- !Z.add_assoc. by rewrite !B by lia.
Qed.

(** The words of one sector of an image. *)
Definition sector_words (l : list Z) (i : Z) : list Z :=
  (fun j => word_at l (i * 512 + 4 * j)) <$> seqZ 0 SECTOR_WORDS.

Lemma sector_words_lookup l i j :
  0 <= j < 128 -> sector_words l i !! Z.to_nat j = Some (word_at l (i * 512 + 4 * j)).
Proof.
  intros Hj. unfold sector_words. rewrite list_lookup_fmap, lookup_seqZ_lt by (change SECTOR_WORDS with 128; lia).
  cbn. do 3 f_equal. lia.
Qed.

Section Boot.

Context {D : Type} `{BlockDeviceLaws D}.

(** The device holds the image. *)
Definition carries (d : D) (disk : list Z) : Prop :=
  blocks d * 512 = Z.of_nat (length disk) /\ forall i, 0 <= i < blocks d -> sector d i = sector_words disk i.

(** The sectors of a program that lies in the image at sector [loc]. *)
Lemma program_words d disk P loc j :
  carries d disk -> 0 <= loc -> Z.of_nat (length P) = sectors P * 512 -> 0 <= j < sectors P ->
  take (length P) (drop (Z.to_nat (loc * 512)) disk) = P ->
  sector d (loc + j) = sector_words P j.
Proof.
  intros [Hn Hsec] Hl HP Hj Hs.
  assert (loc * 512 + Z.of_nat (length P) <= Z.of_nat (length disk)).
  { apply (f_equal length) in Hs. rewrite length_take, length_drop in Hs. lia. }
  rewrite Hsec by lia. apply fmap_seqZ_ext. intros i Hi. change SECTOR_WORDS with 128 in Hi.
  rewrite !Z.add_0_l. replace ((loc + j) * 512 + 4 * i) with (Z.of_nat (Z.to_nat (loc * 512)) + (j * 512 + 4 * i)) by lia.
  apply word_at_slice; [done|lia|lia].
Qed.

(** [C28] The kernel finds the programs: on a disk with the image that [createimage]
    built, [readdir] succeeds, and in what it returns the [i]-th pair of words
    is the place and the size of the [i]-th program, whose memory image the
    sectors there hold; the pair behind the last program is zero. *)
Theorem readdir_finds_programs fopen b k names boot kernel progs im d :
  String.prefix "--" b = false -> inputs fopen b k names boot kernel progs ->
  (length progs <= 63)%nat ->
  exists im', main fopen ("--vm"%string :: b :: k :: names) im = Ret (tt, im')
    /\ (carries d (data (img im')) ->
        exists dir d', readdir d = (0, Some dir, d')
          /\ (forall i fp, progs !! i = Some fp ->
                exists loc, loc <> 0 /\ dir !! (2 * i)%nat = Some loc
                  /\ dir !! (2 * i + 1)%nat = Some (sectors (program_image fp))
                  /\ forall j, 0 <= j < sectors (program_image fp) ->
                       sector d (loc + j) = sector_words (program_image fp) j)
          /\ dir !! (2 * length progs)%nat = Some 0).
Proof.
  intros Hb HI Hc. rewrite main_vm by done.
  destruct (create_image_run fopen b k names boot kernel progs HI im Hc) as (im' & E & Hd).
  exists im'. split; [done|]. rewrite Hd. clear E Hd im'. intros [Hn Hsec].
  destruct HI as [_ _ _ He0 in_sector0 _ in_os_size0 in_total0]. apply list.Forall_cons_1 in He0 as [_ He].
  pose proof (layout_bytes boot kernel progs) as Hby.
  pose proof (layout_os_size boot kernel progs in_sector0 in_os_size0) as Hos.
  pose proof (layout_length boot kernel progs in_sector0 He Hc) as Hlen.
  set (disk := disk_layout boot kernel progs) in *. set (K := sectors (program_image kernel)) in *.
  assert (0 <= K) by (apply Z.div_pos; unfold SECTOR_SIZE; lia).
  assert (0 <= total_size (program_image <$> progs)) by (unfold total_size; lia).
  pose proof (word_upper disk 0 Hby) as Hup. change (0 + 2) with OS_SIZE_LOC in Hup. rewrite Hos in Hup by done.
  destruct (readdir_run d (word_at disk 0) (list.tail (sector_words disk 0)) K) as (d' & E & _);
    [by rewrite Hsec by lia|by apply word_range|done|lia|].
  exists (sector d (K + 1)), d'. split; [done|]. rewrite Hsec by lia. split.
  - intros i fp Hi. pose proof (lookup_lt_Some _ _ _ Hi) as Hlt.
    destruct (layout_program boot kernel progs in_sector0 He in_total0 Hc i fp Hi) as (loc & L1 & L2 & L3 & L4).
    fold disk K in L2, L3, L4. exists loc. split; [done|].
    assert (E1 : (2 * i)%nat = Z.to_nat (2 * Z.of_nat i)) by lia.
    assert (E2 : (2 * i + 1)%nat = Z.to_nat (2 * Z.of_nat i + 1)) by lia.
    rewrite E2, E1, !sector_words_lookup by lia. split_and!.
    + rewrite <- L2. do 2 f_equal. lia.
    + rewrite <- L3. do 2 f_equal. lia.
    + intros j Hj. apply (program_words d disk); try done.
      * rewrite <- L2. by apply word_range.
      * apply list.Forall_cons_1 in He as [_ He]. eapply Forall_lookup_1 in He; [|done]. by apply whole_sectors, elf_sectors.
  - assert (E1 : (2 * length progs)%nat = Z.to_nat (2 * Z.of_nat (length progs))) by lia.
    rewrite E1, sector_words_lookup by lia.
    pose proof (layout_end boot kernel progs in_sector0 He Hc) as Hend. fold disk K in Hend.
    rewrite <- Hend. do 2 f_equal. lia.
Qed.

End Boot.

(** ** A concrete instance *)

Module Boot_instances.

Import Image_instances.

(** The ideal disk with an image on it. *)
Definition disk_of (l : list Z) : ideal_disk :=
  mk_disk (Z.of_nat (length l) / 512) (fun w => word_at l (4 * w)).

Lemma disk_of_carries l : Z.of_nat (length l) mod 512 = 0 -> carries (disk_of l) l.
Proof.
  intros H. split; [cbn; zdiv|]. intros i Hi. apply fmap_seqZ_ext. intros j Hj. cbn [disk_of contents].
  f_equal. change SECTOR_WORDS with 128. lia.
Qed.

Definition arguments : list string :=
  "--vm"%string :: "boot"%string :: "kernel"%string :: replicate 2 "shell"%string.

Definition built : list Z :=
  match main files arguments blank with Ret (_, im) => data (img im) | _ => [] end.

Lemma readdir_finds_programs_witness :
  exists dir d', readdir (disk_of built) = (0, Some dir, d')
    /\ exists loc, dir !! 0%nat = Some loc /\ sector (disk_of built) (loc + 0) = sector_words (program_image shell_elf) 0.
Proof.
  destruct (readdir_finds_programs files "boot" "kernel" (replicate 2 "shell"%string) boot_elf kernel_elf
    (replicate 2 shell_elf) blank (disk_of built)) as (im' & E & H);
    [reflexivity|apply files_inputs; lia|rewrite length_replicate; lia|].
  assert (Hb : built = data (img im')) by (unfold built, arguments; by rewrite E).
  destruct H as (dir & d' & E' & H & _); [rewrite <- Hb; apply disk_of_carries; vm_compute; reflexivity|].
  exists dir, d'. split; [exact E'|]. destruct (H 0%nat shell_elf eq_refl) as (loc & _ & H1 & _ & H2).
  exists loc. split; [exact H1|]. apply H2. vm_compute. split; [discriminate|reflexivity].
Defined.

End Boot_instances.
